(* ===== verification/_CoqProject ===== *)
-Q . S2P
Prelude.v
Text.v
Types.v
Chain.v
Json.v
Identity.v
PaperMath.v
JsValue.v
PublicKey.v
RiskPolicy.v
FaultPolicy.v
JsonCodec.v
PaperStrategy.v
JsonText.v
Qualification.v
QualificationProfile.v
QualificationEngine.v
PaperLedger.v
PaperCurrent.v
PaperRows.v
PaperRules.v
PaperStore.v
PaperProperties.v
JitoConfig.v
JitoJournal.v
JitoEngine.v
JitoLifecycle.v
FastExit.v
Quota.v
JsReaders.v
Intent.v
Reconciliation.v
PumpQuote.v
PumpIdl.v
PumpBorsh.v
PumpEvents.v
PumpTransaction.v
CatchUpRun.v
CatchUpSource.v
CatchUpStore.v
CatchUpScan.v
CatchUpCoverage.v
CatchUpProgress.v
SwapQuote.v
Inbox.v
InboxRows.v
InboxQueue.v
InboxEvidence.v
FinalityReconciler.v
FinalityProperties.v
FinalityProgress.v
FinalityProvider.v
FinalityLoop.v
