(* ===== verification/Prelude.v ===== *)
(** * A verification of sol-token-listener

    The program watches Solana launchpads, qualifies new tokens, simulates ("paper")
    trades of them, prepares gated real trades, and runs a separate JitoSOL arbitrage bot.
    This library models the TypeScript code that decides about money and about identity,
    under [src/src], and proves what makes it correct.

    ** The parts and the files

    - [Prelude]: the error monad of code that may throw ([result]), the state and error
      monad of code with effects ([prog]) with its triples, machine bounds, tactics.
    - [Text], [Json], [JsValue]: what the code uses of JavaScript strings (UTF-8 bytes,
      [trim], decimal texts), of [JSON.stringify], and of untyped objects.
    - [Types], [Chain], [Identity]: [domain/types.ts], [timestamp.ts], [cursor.ts],
      [confirmation-status.ts], [launch-status.ts], [state-transitions.ts], [events.ts].
      Order of cursors, reconciliation of confirmations and of occurrence times,
      deterministic identifiers.
    - [JsonCodec]: [utils/json.ts].  Serialization with [bigint]s and the canonical text
      that fingerprints are taken of.
    - [PublicKey]: [domain/solana-public-key.ts].
    - [PaperMath]: [paper/paper-math.ts] and [domain/fast-entry.ts].
    - [RiskPolicy], [FaultPolicy], [Quota]: [domain/execution-risk-policy.ts],
      [domain/execution-fault-policy.ts] and [domain/execution-provider-quota.ts], from the
      untyped input to the decision.
    - [FastExit]: [domain/fast-exit.ts].  The early exit of a live position and the
      identifiers of its sales.
    - [JsReaders], [Intent]: [domain/execution-intent.ts].  Orders for real trades: reading,
      identifiers and the state machine of their statuses.
    - [Reconciliation]: [domain/execution-reconciliation.ts].  What happened to a transaction
      that was sent, as evidence for the intent's next step; and from
      [storage/execution-risk.repository.ts] the transitions that the evidence journals.
    - [PumpQuote]: [launchpads/pumpfun/causal-quote.ts].  Prices on the bonding curve; the
      Pump.fun library is the class [PumpSdk].
    - [PumpIdl], [PumpBorsh], [PumpEvents], [PumpTransaction]: [launchpads/pumpfun/], from
      the bytes of instructions to the creations, trades and migrations of a transaction.
    - [CatchUpRun], [CatchUpSource], [CatchUpStore], [CatchUpScan]:
      [domain/strict-catch-up-run.ts], [solana/rpc/catch-up-source.ts], the checkpoint, run and
      failure tables of [storage/transaction-inbox.repository.ts] and
      [application/strict-catch-up-scanner.ts].  After an interruption the scan walks a
      provider's history page by page from its head to the stored checkpoint and enqueues what
      it meets; a run makes the walk durable.  The provider, the clock, the abort signal, the
      page admitter and the faults of the database are a [ScanHost].  [CatchUpCoverage] and
      [CatchUpProgress] hold the theorems.
    - [Inbox]: the queue of observed transactions of [storage/transaction-inbox.repository.ts],
      with the values of [domain/transaction-ingestion.ts].  The subscription, the catch-up and
      the pollers enqueue; workers claim under a lease, save a snapshot, and complete or fail;
      failures are retried until they are exhausted; finality is polled and revised afterwards.
      A call is a function of the tables ([tx]).  [InboxRows] holds the constraints of
      [migrations/] and the rows that satisfy them, [InboxQueue] the theorems.
    - [FinalityReconciler]: [application/finality-reconciler.ts].  A pass over the processed
      transactions asks one provider for their statuses and polls, finalizes or orphans them in
      the inbox.  The provider, the clock, the faults and the calls of others in between are a
      [FinalityHost].  [InboxEvidence] shows that the version of a row's evidence is an
      optimistic lock; [FinalityProperties] and [FinalityProgress] hold the theorems on a pass.
    - [FinalityProvider]: [solana/rpc/provider-pinned-finality-source.ts] and
      [application/promoted-provider-selector.ts], the provider of a pass and its selection;
      [FinalityLoop]: [RecurringFinalityReconciler] of [application/production-listener-factory.ts],
      a state machine over the events of the event loop ([loop_event], [step], [reachable]).
    - [SwapQuote]: [markets/pumpswap/pumpswap-quote.provider.ts] and [reserve-math.ts].  Prices on
      a PumpSwap pool with the fees of its tier.
    - [PaperStrategy]: [domain/paper-strategy.ts] and [domain/trading-candidate.ts].
      Candidates, sessions and the counting of external buyers.
    - [JsonText], [QualificationProfile]: [qualification/qualification-profile.ts].  The
      hand-written validator of the profile text, and the parsing, validation, canonical
      order and fingerprint of a profile.
    - [Qualification], [QualificationEngine]: [domain/qualification.ts],
      [qualification/qualification-policy-evaluator.ts], [qualification-engine.ts] and
      [ports/qualification-report-authority.ts].  Facts, conditions, scores, the verdict and
      the register of authorized reports.
    - [PaperLedger]: [paper/paper-trading-engine.ts] over the port
      [ports/paper-trading-repository.ts], which is the class [PaperTradingTransaction].
    - [PaperCurrent], [PaperRows], [PaperStore]: [storage/paper-trading.repository.ts].  The
      query that decides whether a qualification is current, over the reports, events, inbox
      rows and receipts that others write ([chain_tables]), with the barrier of
      [storage/paper-finality-barrier.ts]; rows and their decoding; the tables as a state, the
      instance of the port's class, and the retention purge of [storage/database.ts].
    - [PaperRules]: the laws of the port ([PaperLedgerLaws]), the abstract ledger
      ([ledger_step]) and its invariants; [PaperProperties]: the theorems on the engine.
    - [JitoConfig], [JitoJournal], [JitoEngine], [JitoLifecycle]: [jitosol/config.ts],
      [types.ts], [journal.ts] and [engine.ts].  The outside world is a host whose every
      answer is a parameter; the trace of saves and sends is part of the state.

    The profile decides what the qualification engine reports; the ledger checks those
    reports, quotes ([PaperMath]) and confirmation statuses ([Chain]); the strategy sessions
    name positions of the ledger; the quota gate reads the policy of the risk gate; the
    evidence of a reconciliation gives the reason of an intent's next step; the catch-up and the
    subscription feed the inbox, whose workers run the decoders and whose finished rows the
    finality passes revisit; all identifiers and fingerprints go through [Json] or [JsonCodec] and SHA-256.

    ** What the theorems show

    - The paper engine refines the abstract ledger over any lawful repository, hence at
      most one held position per token and strategy and balanced books; opening and closing
      do exactly what their commands allow; rows round-trip.  [PaperStore] shows the laws can
      be kept.  Over its tables a recorded position only moves forward, and leaves only by a
      retention purge after its end; a repeated opening changes nothing, and returns the
      position exactly while the qualification of its session is current.
    - The JitoSOL engine refines the state machine of a cycle: nothing is sent before it
      is durable, a pending transaction is never replaced, a halt is final, the ledger
      counts once, fees stay within their authority, the profit is exact.
    - The verdict and the score of a report are what the profile says of the facts, stated
      on these alone; scores stay within
      their maxima, evaluation is total, authority follows the object that was issued, and
      every report the engine makes is one the ledger accepts.  Profiles round-trip; the
      text validator is exactly the JSON grammar with its limits.
    - The risk gate admits exactly what its limits allow, stated on its input alone; the fault policy never risks a
      second purchase; the quota gate keeps what open positions need and is monotone; loss
      arithmetic is exact.
    - An early exit is the first due reason, whatever the order of the trades; re-exits end,
      and the database selects exactly the sales the code can retry.
    - An intent that may have been sent is tried again only after a reconciliation proved
      that nothing moved, every intent can be ended, and the accepted objects are exactly the
      well-formed intents; the evidence is decided by the facts, and what is journalled for an
      intent is a run of its state machine to success, failure or doubt as the facts say.
    - A quote on the curve keeps its bounds, a round trip never wins, and the retryable error
      means a missing account.  The byte decoder is exactly the Borsh grammar, instructions
      are decoded exactly in their wire format, and a decoded transaction reports each of its
      events and actions once, each in agreement with the event of its own call.
    - No sequence of catch-up scans, however aborted, failed, paused and resumed, moves a
      checkpoint past a transaction that was not enqueued or receipted, provided each page is a
      contiguous piece of the history (the class of assumptions [lawful]); an undisturbed scan
      of one program whose checkpoint is within the budget of pages, with no unfinished run and
      none of the same boundary, returns and moves it to the head; a run
      stays valid, only moves towards its checkpoint, and can always be ended.
    - Every modelled call of the inbox keeps the constraints on the modelled columns of its
      tables.  The database can refuse two of its statements: a hint written over the one of a
      classified trade ([polled_trade_breaks_classification] shows it happens), and a completion
      dated before the observation.  A lease is exclusive and completes at most once; due work is served, and
      the scheduler starves neither normal rows nor tracked trades.
    - A processed row whose evidence version is unchanged is unchanged, so a poll that is
      committed is accepted.  A transaction is orphaned only when one provider missed it often
      enough, in history and in the finalized block of its slot, below the finalized root; an
      undisturbed pass ends and settles all it listed; the pinned pass hands on exactly what its
      endpoint said.  Readiness for a provider means that a whole pass ran under the selection
      that is still current, and the passes never stop on their own.
    - A PumpSwap quote is one the pool can honour, and a round trip never wins.
    - Confirmations converge whatever their order; cursors are totally ordered; a key text
      is accepted exactly when it encodes 32 bytes; identifiers and fingerprints identify
      what they are taken of.

    ** Bounds and conventions

    Numbers and [bigint]s are [Z]; where the code bounds them the bound is written out, and
    numbers the code does not bound are integral.  Strings are their UTF-8 bytes, but for
    [JsonText], where a text is its UTF-16 code units.  SHA-256 is a parameter; the theorems
    about identifiers say "or there is a collision".  Recursion is structural or on fuel:
    [canonicalJsonValue] has 65 levels, one more than [MAX_CANONICAL_JSON_DEPTH];
    [validateJsonText] has one turn more than the text has code units, and
    [validator_terminates] proves that enough; the carry loop of [PublicKey] has four turns
    for a 32-bit carry; [byte_count] has one step more than the number has bits;
    [decodeIdlValue] has [IDL_DEPTH] levels, and [borsh_decoder_refines] proves that enough
    for every type of the description; the pages of a scan are its own budget, and
    [catch_up_completes] says when that is enough.  Each reading of the clock is an argument; transactions of the
    database are serial and a throw rolls back.  A call of the inbox reads its clock once; the
    random lease token, the collation of the database and the set of active launches are
    arguments, and the worker admission policy is the default one, disabled.  The loops of a
    finality pass run over its candidates and groups; a member lookup follows at most sixteen
    prototypes, as in the code.

    ** Not modelled

    Network clients, HTTP interfaces, process start-up, the frontend and SQL beyond the paper
    tables, the catch-up tables (where an enqueued transaction is its signature) and the inbox.
    Of the inbox: the writes of catch-up classifications, the enabled admission policy, the
    first-processing canary, terminal attributions, heartbeats and metrics, [created_at], and the
    trigger that clears a decoder quarantine whose evidence drifts.  The diagnostics of a scan and
    of the finality passes, and the choice of the connection of a pinned pass;
    the PumpSwap accounts and decoders and the Raydium adapter; the subscription and adapter
    around the Pump.fun decoders, and the diagnostics these attach to errors; the live
    executor's processes (their domain rules are modelled).  Of the profile loader,
    reading the file, [TextDecoder] and [JSON.parse].  The strategies and services of
    [application/] other than the scanner and the finality passes call these parts over the network and a database
    whose queries carry their logic; they are left out, as are [execution-live] and
    [execution-entry-envelope], whose readers repeat the forms of [Intent]. *)

(** Shared vocabulary of the development: the error monad in which fallible
    TypeScript functions are written, the state monad for code that talks to the
    outside world, the machine bounds the sources name, and the tactics and hint
    databases the component files rely on. *)
From stdpp Require Export base option list strings gmap.
From Stdlib Require Export ZArith Lia.

Declare Scope ts_scope.
Delimit Scope ts_scope with ts.
Global Open Scope ts_scope.
Local Open Scope Z_scope.

(** * Results

    A TypeScript function either returns or throws.  [result E A] is that choice
    as a value; the monad is sequencing of statements, which stops at the first
    throw. *)
Inductive result (E A : Type) : Type :=
| Ok (a : A)
| Err (e : E).
Arguments Ok {E A} a.
Arguments Err {E A} e.

Global Instance result_ret {E} : MRet (result E) := fun A a => Ok a.
Global Instance result_bind {E} : MBind (result E) := fun A B f m =>
  match m with
  | Ok a => f a
  | Err e => Err e
  end.
Global Instance result_fmap {E} : FMap (result E) := fun A B f m =>
  match m with
  | Ok a => Ok (f a)
  | Err e => Err e
  end.

(** [if (b) throw e;] *)
Definition throw_if {E} (b : bool) (e : E) : result E unit :=
  if b then Err e else Ok tt.

(** [try { m } catch { h }] *)
Definition try_catch {E E' A} (m : result E A) (h : E -> result E' A) : result E' A :=
  match m with
  | Ok a => Ok a
  | Err e => h e
  end.

Definition is_ok {E A} (m : result E A) : bool :=
  match m with
  | Ok _ => true
  | Err _ => false
  end.

(** [for (const x of l) f(x);] *)
Fixpoint for_each {E A} (f : A -> result E unit) (l : list A) : result E unit :=
  match l with
  | [] => Ok tt
  | x :: l' => f x ;; for_each f l'
  end.

(** [for (const x of l) s = f(s, x);] *)
Fixpoint fold_result {E S A} (f : S -> A -> result E S) (s : S) (l : list A) : result E S :=
  match l with
  | [] => Ok s
  | x :: l' => s' ← f s x; fold_result f s' l'
  end.

Lemma bind_Ok {E A B} (m : result E A) (f : A -> result E B) b :
  (m ≫= f) = Ok b <-> exists a, m = Ok a /\ f a = Ok b.
Proof. destruct m; cbn; naive_solver. Qed.

Lemma bind_Err {E A B} (m : result E A) (f : A -> result E B) e :
  (m ≫= f) = Err e <-> m = Err e \/ exists a, m = Ok a /\ f a = Err e.
Proof. destruct m; cbn; naive_solver. Qed.

Lemma fmap_Ok {E A B} (m : result E A) (f : A -> B) b :
  (f <$> m) = Ok b <-> exists a, m = Ok a /\ b = f a.
Proof. destruct m; cbn; naive_solver. Qed.

Lemma throw_if_Ok {E} b (e : E) u : throw_if b e = Ok u <-> b = false.
Proof. destruct b, u; cbn; naive_solver. Qed.

Lemma throw_if_Err {E} b (e e' : E) : throw_if b e = Err e' <-> b = true /\ e' = e.
Proof. destruct b; cbn; naive_solver. Qed.

Lemma throw_if_skip {E A} b (e : E) (k : result E A) : b = false -> (throw_if b e ;; k) = k.
Proof. by intros ->. Qed.

Lemma is_ok_true {E A} (m : result E A) : is_ok m = true <-> exists a, m = Ok a.
Proof. destruct m; cbn; naive_solver. Qed.

Lemma for_each_Ok {E A} (f : A -> result E unit) l u :
  for_each f l = Ok u <-> Forall (fun x => f x = Ok tt) l.
Proof.
  destruct u. induction l as [|x l IH]; cbn.
  - split; auto.
  - rewrite Forall_cons, <- IH. destruct (f x) as [[]|e] eqn:Hx; cbn; naive_solver.
Qed.

Lemma fold_result_app {E S A} (f : S -> A -> result E S) s s' l l' :
  fold_result f s l = Ok s' -> fold_result f s (l ++ l') = fold_result f s' l'.
Proof.
  revert s. induction l as [|x l IH]; cbn; intros s Hs; [naive_solver|].
  destruct (f s x); cbn in *; [auto | done].
Qed.

Lemma fold_result_inv {E S A} (f : S -> A -> result E S) (P : S -> Prop) s l s' :
  (forall s x s', P s -> f s x = Ok s' -> P s') -> P s -> fold_result f s l = Ok s' -> P s'.
Proof.
  intros Hf. revert s. induction l as [|x l IH]; cbn; intros s Hs Hr; [naive_solver|].
  destruct (f s x) eqn:Hx; cbn in *; [eauto | done].
Qed.

(** [arr.includes(x)] and the like, as booleans. *)
Definition includes {A} `{!EqDecision A} (x : A) (l : list A) : bool :=
  bool_decide (x ∈ l).

(** [new Set(l).size === l.length] *)
Definition all_distinct {A} `{!EqDecision A} (l : list A) : bool :=
  bool_decide (NoDup l).

Lemma includes_true {A} `{!EqDecision A} (x : A) l : includes x l = true <-> x ∈ l.
Proof. apply bool_decide_eq_true. Qed.

Lemma includes_false {A} `{!EqDecision A} (x : A) l : includes x l = false <-> x ∉ l.
Proof. apply bool_decide_eq_false. Qed.

Lemma all_distinct_true {A} `{!EqDecision A} (l : list A) : all_distinct l = true <-> NoDup l.
Proof. apply bool_decide_eq_true. Qed.

(** * Machine bounds

    [bigint] values and integral [number] values are both carried by [Z]; the
    sources bound them with the constants below. *)
Definition U64_MAX : Z := 18446744073709551615.
Definition I128_MAX : Z := Z.shiftl 1 127 - 1.
Definition I128_MIN : Z := - Z.shiftl 1 127.
(** [Number.MAX_SAFE_INTEGER] *)
Definition MAX_SAFE_INTEGER : Z := 9007199254740991.

(** [Number.isSafeInteger] on an integral number. *)
Definition is_safe_integer (z : Z) : bool :=
  (- MAX_SAFE_INTEGER <=? z) && (z <=? MAX_SAFE_INTEGER).

(** [Number.isSafeInteger(z) && z >= 0 && !Object.is(z, -0)] on an integral number. *)
Definition safe_nonneg (z : Z) : bool := (0 <=? z) && (z <=? MAX_SAFE_INTEGER).

Lemma safe_nonneg_true z : safe_nonneg z = true <-> 0 <= z <= MAX_SAFE_INTEGER.
Proof. unfold safe_nonneg. rewrite andb_true_iff, !Z.leb_le. lia. Qed.

Lemma is_safe_integer_true z :
  is_safe_integer z = true <-> - MAX_SAFE_INTEGER <= z <= MAX_SAFE_INTEGER.
Proof. unfold is_safe_integer. rewrite andb_true_iff, !Z.leb_le. lia. Qed.

(** Division of [bigint]s rounds towards zero. *)
Lemma quot_nonneg_bounds a b :
  0 <= a -> 0 < b -> b * Z.quot a b <= a < b * (Z.quot a b + 1).
Proof.
  intros Ha Hb. rewrite Z.quot_div_nonneg by lia.
  pose proof (Z.mul_div_le a b Hb). pose proof (Z.mul_succ_div_gt a b Hb). lia.
Qed.

(** [(a + b - 1) / b] is the ceiling of [a / b]. *)
Lemma quot_ceil_bounds a b :
  0 <= a -> 0 < b -> a <= b * Z.quot (a + b - 1) b < a + b.
Proof.
  intros Ha Hb. pose proof (quot_nonneg_bounds (a + b - 1) b). lia.
Qed.

Lemma quot_nonneg a b : 0 <= a -> 0 <= b -> 0 <= Z.quot a b.
Proof.
  intros Ha Hb. destruct (decide (b = 0)) as [->|].
  - rewrite Z.quot_0_r_ext by done. lia.
  - apply Z.quot_pos; lia.
Qed.

(** * Programs with effects

    [prog W E A]: code that reads and writes a world [W] and either returns an
    [A] or throws an [E].  A throw keeps what was already written, as in the
    source; a rollback is always explicit. *)
Definition prog (W E A : Type) : Type := W -> result E A * W.

Definition pret {W E A} (a : A) : prog W E A := fun w => (Ok a, w).
Definition pthrow {W E A} (e : E) : prog W E A := fun w => (Err e, w).
Definition pbind {W E A B} (m : prog W E A) (f : A -> prog W E B) : prog W E B := fun w =>
  match m w with
  | (Ok a, w') => f a w'
  | (Err e, w') => (Err e, w')
  end.
(** A pure computation that may throw, run inside a program. *)
Definition lift {W E A} (m : result E A) : prog W E A := fun w => (m, w).
(** [try { m } catch (e) { h(e) }] *)
Definition pcatch {W E A} (m : prog W E A) (h : E -> prog W E A) : prog W E A := fun w =>
  match m w with
  | (Ok a, w') => (Ok a, w')
  | (Err e, w') => h e w'
  end.

Notation "x <-- m ; k" := (pbind m (fun x => k))
  (at level 100, m at next level, right associativity, only parsing) : ts_scope.
Notation "m >>> k" := (pbind m (fun _ => k))
  (at level 100, right associativity, only parsing) : ts_scope.

Lemma pbind_Ok {W E A B} (m : prog W E A) (f : A -> prog W E B) w b w2 :
  pbind m f w = (Ok b, w2) <-> exists a w1, m w = (Ok a, w1) /\ f a w1 = (Ok b, w2).
Proof. unfold pbind. destruct (m w) as [[a|e] w1]; naive_solver. Qed.

Lemma lift_Ok {W E A} (m : result E A) (w : W) a w' :
  lift m w = (Ok a, w') <-> m = Ok a /\ w' = w.
Proof. unfold lift. naive_solver. Qed.

(** What a program guarantees: from a world in [P] it ends in [Q] when it
    returns and in [R] when it throws. *)
Definition triple {W E A} (P : W -> Prop) (m : prog W E A) (Q : A -> W -> Prop)
    (R : E -> W -> Prop) : Prop :=
  forall w, P w ->
  match m w with
  | (Ok a, w') => Q a w'
  | (Err e, w') => R e w'
  end.

Section Triples.
Context {W E : Type}.
Implicit Types (P : W -> Prop) (R : E -> W -> Prop).

Lemma triple_ret {A} (a : A) P (Q : A -> W -> Prop) R :
  (forall w, P w -> Q a w) -> triple P (pret a) Q R.
Proof. intros H w Hw. cbn. auto. Qed.

Lemma triple_throw {A} (e : E) P (Q : A -> W -> Prop) R :
  (forall w, P w -> R e w) -> triple P (pthrow e) Q R.
Proof. intros H w Hw. cbn. auto. Qed.

Lemma triple_bind {A B} (m : prog W E A) (f : A -> prog W E B) P M Q R :
  triple P m M R -> (forall a, triple (M a) (f a) Q R) -> triple P (pbind m f) Q R.
Proof.
  intros Hm Hf w Hw. specialize (Hm w Hw). unfold pbind.
  destruct (m w) as [[a|e] w']; [|done]. by apply Hf.
Qed.

Lemma triple_catch {A} (m : prog W E A) h P M Q R :
  triple P m Q M -> (forall e, triple (M e) (h e) Q R) -> triple P (pcatch m h) Q R.
Proof.
  intros Hm Hh w Hw. specialize (Hm w Hw). unfold pcatch.
  destruct (m w) as [[a|e] w']; [done|]. by apply Hh.
Qed.

Lemma triple_lift {A} (m : result E A) P Q R :
  (forall a, m = Ok a -> forall w, P w -> Q a w) ->
  (forall e, m = Err e -> forall w, P w -> R e w) -> triple P (lift m) Q R.
Proof. intros HQ HR w Hw. unfold lift. destruct m; eauto. Qed.

Lemma triple_weaken {A} (m : prog W E A) (P P' : W -> Prop) (Q Q' : A -> W -> Prop)
    (R R' : E -> W -> Prop) :
  triple P' m Q' R' -> (forall w, P w -> P' w) -> (forall a w, Q' a w -> Q a w) ->
  (forall e w, R' e w -> R e w) -> triple P m Q R.
Proof.
  intros Hm HP HQ HR w Hw. specialize (Hm w (HP w Hw)).
  destruct (m w) as [[a|e] w']; auto.
Qed.

Lemma triple_if {A} (b : bool) (m m' : prog W E A) P Q R :
  (b = true -> triple P m Q R) -> (b = false -> triple P m' Q R) ->
  triple P (if b then m else m') Q R.
Proof. destruct b; auto. Qed.
Lemma triple_pull {A} (m : prog W E A) P (F : Prop) Q R :
  (F -> triple P m Q R) -> triple (fun w => P w /\ F) m Q R.
Proof. intros H w [Hw HF]. by apply H. Qed.
End Triples.

(** * Tactics *)

(** Break a hypothesis that says a monadic computation returned. *)
Ltac result_inv_step :=
  match goal with
  | H : _ /\ _ |- _ => destruct H
  | H : exists _, _ |- _ => destruct H
  | H : Ok _ = Ok _ |- _ => injection H as H; subst
  | H : Err _ = Ok _ |- _ => discriminate H
  | H : Ok _ = Err _ |- _ => discriminate H
  | H : mret _ = Ok _ |- _ => change (Ok (E:=_) _ = Ok _) in H
  | H : (_ ≫= _) = Ok _ |- _ => apply bind_Ok in H
  | H : (_ <$> _) = Ok _ |- _ => apply fmap_Ok in H
  | H : throw_if _ _ = Ok _ |- _ => apply throw_if_Ok in H
  end.
Ltac result_inv := repeat result_inv_step.

(** Turn boolean facts about [Z], [andb], [orb], [negb] into propositions. *)
Ltac bool_prop :=
  repeat match goal with
  | H : (_ && _)%bool = true |- _ => apply andb_true_iff in H; destruct H
  | H : (_ || _)%bool = false |- _ => apply orb_false_iff in H; destruct H
  | H : negb _ = true |- _ => apply negb_true_iff in H
  | H : negb _ = false |- _ => apply negb_false_iff in H
  | H : (_ <? _) = true |- _ => apply Z.ltb_lt in H
  | H : (_ <? _) = false |- _ => apply Z.ltb_ge in H
  | H : (_ <=? _) = true |- _ => apply Z.leb_le in H
  | H : (_ <=? _) = false |- _ => apply Z.leb_gt in H
  | H : (_ =? _) = true |- _ => apply Z.eqb_eq in H
  | H : (_ =? _) = false |- _ => apply Z.eqb_neq in H
  | H : bool_decide _ = true |- _ => apply bool_decide_eq_true in H
  | H : bool_decide _ = false |- _ => apply bool_decide_eq_false in H
  | H : includes _ _ = true |- _ => apply includes_true in H
  | H : includes _ _ = false |- _ => apply includes_false in H
  | H : all_distinct _ = true |- _ => apply all_distinct_true in H
  | H : safe_nonneg _ = true |- _ => apply safe_nonneg_true in H
  | H : is_safe_integer _ = true |- _ => apply is_safe_integer_true in H
  end.

(** Split on the scrutinee of a conditional or match of the goal or a hypothesis. *)
Ltac split_match :=
  match goal with
  | |- context [if ?b then _ else _] => destruct b eqn:?
  | |- context [match ?x with _ => _ end] => destruct x eqn:?
  end.
Ltac split_match_in H :=
  match type of H with
  | context [if ?b then _ else _] => destruct b eqn:?
  | context [match ?x with _ => _ end] => destruct x eqn:?
  end.

Create HintDb ts discriminated.
#[export] Hint Constructors NoDup Forall : ts.
#[export] Hint Resolve quot_nonneg : ts.
