(* ===== verification/Text.v ===== *)
(** JavaScript strings and the text formats the sources check.

    A string value is carried by the bytes of its UTF-8 encoding, in Rocq's
    [string].  Equality, emptiness and [Buffer.byteLength(s, 'utf8')] are then
    equality, emptiness and [String.length]; [s.length] (UTF-16 code units) and
    [s.trim()] are computed from the encoding.  Lone surrogates, which have no
    UTF-8 encoding, are outside the model. *)
From S2P Require Import Prelude.
From Stdlib Require Import Ascii String.
Local Open Scope Z_scope.

Definition chars (s : string) : list ascii := list_ascii_of_string s.
Definition of_chars (l : list ascii) : string := string_of_list_ascii l.

Lemma of_chars_chars s : of_chars (chars s) = s.
Proof. apply string_of_list_ascii_of_string. Qed.

Lemma chars_of_chars l : chars (of_chars l) = l.
Proof. apply list_ascii_of_string_of_list_ascii. Qed.

(** [Buffer.byteLength(s, 'utf8')] *)
Definition byte_length (s : string) : Z := Z.of_nat (String.length s).

(** [s === ''] and [s.length === 0] *)
Definition is_empty (s : string) : bool := bool_decide (s = EmptyString).

(** [s.length]: one code unit for each encoded character, two for a character
    outside the basic plane (a four-byte sequence). *)
Definition utf16_units (c : ascii) : Z :=
  let b := Z.of_nat (nat_of_ascii c) in
  if (128 <=? b) && (b <? 192) then 0 else if 240 <=? b then 2 else 1.
Definition utf16_length (s : string) : Z := foldr (fun c n => utf16_units c + n) 0 (chars s).

(** * [String.prototype.trim]

    The UTF-8 encodings of ECMAScript's WhiteSpace and LineTerminator. *)
Definition js_whitespace : list (list ascii) :=
  map (map ascii_of_nat)
  [[9]; [10]; [11]; [12]; [13]; [32]; [194; 160]; [225; 154; 128];
   [226; 128; 128]; [226; 128; 129]; [226; 128; 130]; [226; 128; 131];
   [226; 128; 132]; [226; 128; 133]; [226; 128; 134]; [226; 128; 135];
   [226; 128; 136]; [226; 128; 137]; [226; 128; 138]; [226; 128; 168];
   [226; 128; 169]; [226; 128; 175]; [226; 129; 159]; [227; 128; 128];
   [239; 187; 191]]%nat.

Fixpoint strip_prefix (p l : list ascii) : option (list ascii) :=
  match p, l with
  | [], _ => Some l
  | c :: p', d :: l' => if Ascii.eqb c d then strip_prefix p' l' else None
  | _ :: _, [] => None
  end.

Fixpoint strip_any (ps : list (list ascii)) (l : list ascii) : option (list ascii) :=
  match ps with
  | [] => None
  | p :: ps' =>
      match strip_prefix p l with
      | Some l' => Some l'
      | None => strip_any ps' l
      end
  end.

(** Every pattern is non-empty, so one step per byte is enough fuel. *)
Fixpoint trim_front (fuel : nat) (ps : list (list ascii)) (l : list ascii) : list ascii :=
  match fuel with
  | O => l
  | S fuel' =>
      match strip_any ps l with
      | Some l' => trim_front fuel' ps l'
      | None => l
      end
  end.

Definition trim (s : string) : string :=
  let l := trim_front (String.length s) js_whitespace (chars s) in
  of_chars (rev (trim_front (List.length l) (map (@rev ascii) js_whitespace) (rev l))).

(** [s.trim() === ''] *)
Definition blank (s : string) : bool := is_empty (trim s).

Lemma trim_front_nil fuel ps : Forall (fun p => p <> []) ps -> trim_front fuel ps [] = [].
Proof.
  intros Hps. destruct fuel; cbn; [done|].
  assert (strip_any ps [] = None) as ->; [|done].
  induction Hps as [|p ps Hp _ IH]; cbn; [done|]. by destruct p.
Qed.

Lemma trim_empty : trim EmptyString = EmptyString.
Proof. reflexivity. Qed.

Lemma not_blank_nonempty s : blank s = false -> s <> EmptyString.
Proof. intros H ->. by cbn in H. Qed.

(** * Decimal integers *)

Definition digit_value (c : ascii) : option Z :=
  let n := Z.of_nat (nat_of_ascii c) in
  if (48 <=? n) && (n <=? 57) then Some (n - 48) else None.

Definition digit_char (d : Z) : ascii := ascii_of_nat (Z.to_nat (d + 48)).

(** [BigInt(s)] for a string of decimal digits. *)
Definition push_digit (acc : option Z) (c : ascii) : option Z :=
  a ← acc; d ← digit_value c; Some (a * 10 + d).
Definition digits_value (l : list ascii) : option Z := fold_left push_digit l (Some 0).

(** Canonical unsigned decimals (a single 0, or digits without a leading 0), with
    their value. *)
Definition unsigned_decimal_chars (l : list ascii) : option Z :=
  match l with
  | [] => None
  | c :: l' =>
      if Ascii.eqb c "0"%char then
        match l' with
        | [] => Some 0
        | _ :: _ => None
        end
      else digits_value l
  end.
Definition unsigned_decimal (s : string) : option Z := unsigned_decimal_chars (chars s).

(** The same with an optional minus sign ([BigInt] reads a negative zero as zero). *)
Definition signed_decimal (s : string) : option Z :=
  match chars s with
  | c :: l => if Ascii.eqb c "-"%char then Z.opp <$> unsigned_decimal_chars l
              else unsigned_decimal s
  | [] => None
  end.

(** [z.toString()] for a [bigint] or an integral number. *)
Fixpoint digits (fuel : nat) (n : Z) : list ascii :=
  match fuel with
  | O => []
  | S fuel' =>
      (if n <? 10 then [] else digits fuel' (n / 10)) ++ [digit_char (n mod 10)]
  end.
Definition nat_chars (n : Z) : list ascii := digits (S (Z.to_nat (Z.log2 n))) n.
Definition to_decimal (z : Z) : string :=
  of_chars (if z <? 0 then "-"%char :: nat_chars (- z) else nat_chars z).

Lemma digit_value_char d : 0 <= d < 10 -> digit_value (digit_char d) = Some d.
Proof.
  intros Hd. unfold digit_value, digit_char.
  rewrite nat_ascii_embedding by lia. rewrite Z2Nat.id by lia.
  replace ((48 <=? d + 48) && (d + 48 <=? 57)) with true by lia.
  f_equal. lia.
Qed.

Lemma digit_char_ne_zero d : 0 < d < 10 -> Ascii.eqb (digit_char d) "0"%char = false.
Proof.
  intros Hd. apply Ascii.eqb_neq. intros Heq.
  pose proof (digit_value_char d ltac:(lia)) as Hv. rewrite Heq in Hv.
  assert (digit_value "0"%char = Some 0) as H0 by reflexivity. naive_solver lia.
Qed.

Lemma digits_value_app l c :
  digits_value (l ++ [c]) = push_digit (digits_value l) c.
Proof. unfold digits_value. by rewrite fold_left_app. Qed.

Lemma digits_value_digits fuel n :
  0 <= n < 10 ^ Z.of_nat fuel -> (0 < fuel)%nat -> digits_value (digits fuel n) = Some n.
Proof.
  revert n. induction fuel as [|fuel IH]; intros n Hn Hf; [lia|]. cbn [digits].
  pose proof (Z.mod_pos_bound n 10 ltac:(lia)). pose proof (Z.div_mod n 10 ltac:(lia)).
  rewrite digits_value_app. destruct (n <? 10) eqn:Hlt; bool_prop.
  - cbn -[Z.mul]. rewrite digit_value_char by lia. cbn -[Z.mul]. f_equal.
    rewrite Z.mod_small by lia. lia.
  - rewrite Nat2Z.inj_succ, Z.pow_succ_r in Hn by lia.
    assert (0 < fuel)%nat. { destruct fuel; [|lia]. cbn in Hn. lia. }
    rewrite IH;
      [|split; [apply Z.div_pos; lia | apply Z.div_lt_upper_bound; lia]|lia].
    cbn -[Z.mul]. rewrite digit_value_char by lia. cbn -[Z.mul]. f_equal. lia.
Qed.

Lemma digits_head fuel n :
  0 < n < 10 ^ Z.of_nat fuel ->
  exists c l, digits fuel n = c :: l /\ Ascii.eqb c "0"%char = false.
Proof.
  revert n. induction fuel as [|fuel IH]; intros n Hn; [cbn in Hn; lia|]. cbn [digits].
  destruct (n <? 10) eqn:Hlt; bool_prop.
  - eexists _, _. split; [done|]. rewrite Z.mod_small by lia. apply digit_char_ne_zero. lia.
  - rewrite Nat2Z.inj_succ, Z.pow_succ_r in Hn by lia.
    destruct (IH (n / 10)) as (c & l & -> & Hc).
    { split; [apply Z.div_str_pos; lia | apply Z.div_lt_upper_bound; lia]. }
    eexists _, _. by split.
Qed.

Lemma log2_fuel n : 0 <= n -> n < 10 ^ Z.of_nat (S (Z.to_nat (Z.log2 n))).
Proof.
  intros Hn. pose proof (Z.log2_nonneg n).
  rewrite Nat2Z.inj_succ, Z2Nat.id by done.
  destruct (decide (n = 0)) as [->|]; [cbn; lia|].
  pose proof (Z.log2_spec n ltac:(lia)).
  assert (2 ^ Z.succ (Z.log2 n) <= 10 ^ Z.succ (Z.log2 n)); [|lia].
  apply Z.pow_le_mono_l; lia.
Qed.

(** Printing then parsing an unsigned integer gives it back. *)
Lemma unsigned_decimal_to_decimal z : 0 <= z -> unsigned_decimal (to_decimal z) = Some z.
Proof.
  intros Hz. unfold unsigned_decimal, to_decimal.
  replace (z <? 0) with false by lia. rewrite chars_of_chars.
  pose proof (log2_fuel z Hz) as Hfuel.
  destruct (decide (z = 0)) as [->|]; [reflexivity|].
  unfold nat_chars.
  destruct (digits_head (S (Z.to_nat (Z.log2 z))) z ltac:(lia)) as (c & l & Heq & Hc).
  assert (digits_value (c :: l) = Some z) as Hval.
  { rewrite <- Heq. apply digits_value_digits; lia. }
  rewrite Heq. cbn [unsigned_decimal_chars]. by rewrite Hc.
Qed.

Lemma unsigned_decimal_nonneg s z : unsigned_decimal s = Some z -> 0 <= z.
Proof.
  assert (forall l a z', 0 <= a -> fold_left push_digit l (Some a) = Some z' -> 0 <= z') as Hfold.
  { induction l as [|c l IH]; intros a z' Ha Hz'; cbn in Hz'; [naive_solver|].
    destruct (digit_value c) as [d|] eqn:Hd; cbn -[Z.mul] in Hz'.
    - apply (IH (a * 10 + d)); [|done]. unfold digit_value in Hd.
      destruct (_ && _) eqn:Hb; [|done]. injection Hd as <-. bool_prop. lia.
    - exfalso. clear IH Ha. induction l; cbn in Hz'; [done | auto]. }
  unfold unsigned_decimal, unsigned_decimal_chars. destruct (chars s) as [|c l]; [done|].
  destruct (Ascii.eqb c "0"); [destruct l; naive_solver lia|].
  intros H. by apply (Hfold (c :: l) 0).
Qed.

(** The same for signed integers. *)
Lemma signed_decimal_to_decimal z : signed_decimal (to_decimal z) = Some z.
Proof.
  unfold signed_decimal. destruct (decide (z < 0)) as [Hneg|Hpos].
  - unfold to_decimal. replace (z <? 0) with true by lia. rewrite chars_of_chars.
    change (Ascii.eqb "-" "-") with true. cbn match.
    pose proof (unsigned_decimal_to_decimal (- z) ltac:(lia)) as Hu.
    unfold unsigned_decimal, to_decimal in Hu.
    replace (- z <? 0) with false in Hu by lia. rewrite chars_of_chars in Hu.
    rewrite Hu. cbn. f_equal. lia.
  - pose proof (unsigned_decimal_to_decimal z ltac:(lia)) as Hu.
    destruct (chars (to_decimal z)) as [|c l] eqn:Hc.
    + unfold unsigned_decimal in Hu. by rewrite Hc in Hu.
    + destruct (Ascii.eqb c "-") eqn:Heq; [|done].
      apply Ascii.eqb_eq in Heq as ->. unfold unsigned_decimal in Hu. rewrite Hc in Hu.
      exfalso. cbn in Hu. clear Hc. induction l; cbn in Hu; [done | auto].
Qed.

(** * Fingerprints: [/^[a-f0-9]{64}$/] *)
Definition is_lower_hex (c : ascii) : bool :=
  let n := Z.of_nat (nat_of_ascii c) in
  ((48 <=? n) && (n <=? 57)) || ((97 <=? n) && (n <=? 102)).
Definition is_sha256_hex (s : string) : bool :=
  (byte_length s =? 64) && forallb is_lower_hex (chars s).

(** [s.startsWith(p)] with what follows the prefix. *)
Definition after_prefix (p s : string) : option string :=
  of_chars <$> strip_prefix (chars p) (chars s).

Lemma strip_prefix_Some p l r : strip_prefix p l = Some r <-> l = (p ++ r)%list.
Proof.
  revert l. induction p as [|c p IH]; intros l; cbn; [naive_solver|].
  destruct l as [|d l]; [done|]. destruct (Ascii.eqb_spec c d) as [->|Hne].
  - rewrite IH. naive_solver.
  - naive_solver.
Qed.

Lemma strip_prefix_app p l : strip_prefix p (p ++ l)%list = Some l.
Proof. by apply strip_prefix_Some. Qed.

Lemma chars_app s t : chars (s ++ t)%string = (chars s ++ chars t)%list.
Proof. unfold chars. induction s as [|c s IH]; cbn; [done|]. by rewrite <- IH. Qed.

Lemma of_chars_app l l' : of_chars (l ++ l')%list = (of_chars l ++ of_chars l')%string.
Proof. unfold of_chars. induction l as [|c l IH]; cbn; [done|]. by rewrite IH. Qed.

Lemma chars_inj s t : chars s = chars t -> s = t.
Proof. intros E. by rewrite <- (of_chars_chars s), E, of_chars_chars. Qed.
