(* ===== verification/Types.v ===== *)
(** The closed enumerations and small records of [src/src/domain] that several
    components share, with decidable equality, and the error classes their
    functions throw. *)
From S2P Require Import Prelude Text.
Local Open Scope Z_scope.

(** src/src/domain/types.ts:5-5 (ChainConfirmationStatus) *)
Inductive ChainConfirmationStatus :=
| processed | confirmed | finalized | orphaned.
(** src/src/domain/types.ts:4-4 (TokenProgramKind) *)
Inductive TokenProgramKind := SPL_TOKEN | TOKEN_2022.

(** src/src/domain/types.ts:7-12 (ChainCursor) *)
Record ChainCursor := {
  slot : Z;
  transactionIndex : Z;
  instructionIndex : Z;
  innerInstructionIndex : option Z;
}.

(** src/src/domain/types.ts:14-18 (QuoteAsset) *)
Record QuoteAsset := {
  qa_mint : string;
  qa_decimals : Z;
  qa_tokenProgram : TokenProgramKind;
}.

(** src/src/domain/launch-status.ts:1-23 (LaunchStatus) *)
Inductive LaunchStatus :=
| DETECTED | METADATA_PENDING | METADATA_RESOLVED | OBSERVING | SOCIAL_CHECKING
| ONCHAIN_CHECKING | QUALIFIED | WATCHLISTED | SUSPECT | REJECTED
| PAPER_BUY_PENDING | LAUNCH_PAPER_HOLDING | PAPER_SELL_PENDING | LAUNCH_PAPER_CLOSED
| BONDING_CURVE_COMPLETE | MIGRATION_PENDING | PUMPSWAP_ACTIVE | LAUNCH_EXPIRED
| LAUNCH_MANUAL_REVIEW.

(** src/src/domain/events.ts:5-28 (DomainEventType) *)
Inductive DomainEventType :=
| TokenLaunchDetected | TokenMetadataResolved | TokenMetadataFailed
| SocialEvidenceCollected | CreatorProfileUpdated | HolderDistributionUpdated
| WalletClusterDetected | BondingCurveTradeObserved | BondingCurveStateUpdated
| BondingCurveCompleted | QualificationUpdated | TradingCandidateUpdated
| PaperStrategySessionUpdated | PaperExternalBuyCounted | PaperPositionOpened
| PaperPositionUpdated | PaperPositionClosed | MigrationObserved
| PumpSwapPoolActivated | FastEntryDecided.

(** src/src/domain/events.ts:30-43 (DomainEvent).  The payload type is a
    parameter: the code below copies payloads and never inspects them. *)
Record DomainEvent (P : Type) := {
  ev_id : string;
  ev_type : DomainEventType;
  ev_mint : string;
  ev_source : string;
  ev_program : string;
  ev_signature : string;
  ev_cursor : ChainCursor;
  ev_confirmationStatus : ChainConfirmationStatus;
  ev_blockchainTimeMs : option Z;
  ev_observedAtMs : Z;
  ev_payloadVersion : Z;
  ev_payload : P;
}.
Arguments ev_id {P}. Arguments ev_type {P}. Arguments ev_mint {P}.
Arguments ev_source {P}. Arguments ev_program {P}. Arguments ev_signature {P}.
Arguments ev_cursor {P}. Arguments ev_confirmationStatus {P}.
Arguments ev_blockchainTimeMs {P}. Arguments ev_observedAtMs {P}.
Arguments ev_payloadVersion {P}. Arguments ev_payload {P}.

(** src/src/domain/timestamp.ts:1-6 (TimestampField) *)
Inductive TimestampField :=
| TF_observedAtMs | TF_blockchainTimeMs | TF_occurredAtMs | TF_evaluatedAtMs
| TF_pendingExitTriggerAtMs.

(** src/src/domain/cursor.ts:3-7 (ChainCursorField) *)
Inductive ChainCursorField :=
| CF_slot | CF_transactionIndex | CF_instructionIndex | CF_innerInstructionIndex.

(** src/src/domain/paper-trading.ts:136-149 (PaperTradingErrorCode) *)
Inductive PaperTradingErrorCode :=
| PAPER_MODE_DISABLED | QUALIFICATION_INVALID | QUALIFICATION_NOT_ACCEPTED
| QUALIFICATION_BLOCKED | QUALIFICATION_NOT_CURRENT | QUOTE_MINT_NOT_ALLOWED
| QUOTE_INVALID | PT_ROUND_TRIP_LOSS_EXCEEDED | TRIGGER_ORPHANED
| POSITION_NOT_FOUND | POSITION_NOT_OPEN | POSITION_CONFLICT
| CLOSE_TRIGGER_MISMATCH.

Global Instance ChainConfirmationStatus_eq_dec : EqDecision ChainConfirmationStatus.
Proof. solve_decision. Defined.
Global Instance TokenProgramKind_eq_dec : EqDecision TokenProgramKind.
Proof. solve_decision. Defined.
Global Instance ChainCursor_eq_dec : EqDecision ChainCursor.
Proof. solve_decision. Defined.
Global Instance QuoteAsset_eq_dec : EqDecision QuoteAsset.
Proof. solve_decision. Defined.
Global Instance LaunchStatus_eq_dec : EqDecision LaunchStatus.
Proof. solve_decision. Defined.
Global Instance DomainEventType_eq_dec : EqDecision DomainEventType.
Proof. solve_decision. Defined.
Global Instance PaperTradingErrorCode_eq_dec : EqDecision PaperTradingErrorCode.
Proof. solve_decision. Defined.

(** src/src/qualification/qualification-profile.ts:36-50 (QualificationProfileErrorCode) *)
Inductive QualificationProfileErrorCode :=
| PROFILE_READ_FAILED | PROFILE_TOO_LARGE | PROFILE_JSON_INVALID | PROFILE_SCHEMA_INVALID.
(** What the modelled code throws: one constructor per error class, with the
    code or field that identifies the throw site. *)
Inductive exn :=
| InvalidTimestampError (field : TimestampField)
| InvalidChainCursorError (field : ChainCursorField)
| ConfirmationStatusConflictError (current incoming : ChainConfirmationStatus)
| InvalidLaunchTransitionError (previous : option LaunchStatus) (next : LaunchStatus)
| PaperTradingError (code : PaperTradingErrorCode) (what : string)
| ExecutionRiskValidationError
| ExecutionFaultPolicyValidationError
| QualificationProfileError (code : QualificationProfileErrorCode)
| QualificationConfigurationError (message : string)
| TypeError (what : string)
| RangeError (what : string)
| PlainError (message : string).
