(* ===== verification/Chain.v ===== *)
(** Chain positions and confirmation: [src/src/domain/cursor.ts],
    [timestamp.ts], [confirmation-status.ts], [launch-status.ts] and the
    occurrence reconciliation of [state-transitions.ts].

    A [number] is carried by [Z]; NaN, infinities, fractions and the negative
    zero, which the assertions below reject, are not values of the model. *)
From S2P Require Import Prelude Text Types.
Local Open Scope Z_scope.

(** * Timestamps *)

(** src/src/domain/timestamp.ts:18-31 (assertValidTimestampMs) *)
Definition assertValidTimestampMs (field : TimestampField) (value : Z) : result exn unit :=
  throw_if (negb (safe_nonneg value)) (InvalidTimestampError field).

(** src/src/domain/timestamp.ts:33-39 (assertValidNullableTimestampMs) *)
Definition assertValidNullableTimestampMs (field : TimestampField) (value : option Z)
    : result exn unit :=
  match value with
  | None => Ok tt
  | Some v => assertValidTimestampMs field v
  end.

Lemma assertValidTimestampMs_Ok field v u :
  assertValidTimestampMs field v = Ok u <-> 0 <= v <= MAX_SAFE_INTEGER.
Proof.
  unfold assertValidTimestampMs. rewrite throw_if_Ok, negb_false_iff.
  apply safe_nonneg_true.
Qed.

(** * Cursors *)

(** src/src/domain/cursor.ts:76-88 (assertValidCursorIndex) *)
Definition assertValidCursorIndex (field : ChainCursorField) (value : Z) : result exn unit :=
  throw_if (negb (safe_nonneg value)) (InvalidChainCursorError field).

(** src/src/domain/cursor.ts:19-26 (assertValidTransactionCursor) *)
Definition assertValidTransactionCursor (c : ChainCursor) : result exn unit :=
  throw_if (slot c <? 0) (InvalidChainCursorError CF_slot) ;;
  assertValidCursorIndex CF_transactionIndex (transactionIndex c).

(** src/src/domain/cursor.ts:28-34 (assertValidChainCursor) *)
Definition assertValidChainCursor (c : ChainCursor) : result exn unit :=
  assertValidTransactionCursor c ;;
  assertValidCursorIndex CF_instructionIndex (instructionIndex c) ;;
  match innerInstructionIndex c with
  | None => Ok tt
  | Some inner => assertValidCursorIndex CF_innerInstructionIndex inner
  end.

(** src/src/domain/cursor.ts:55-65 (compareBigInt, compareNumber): -1, 0 or 1. *)
Definition compareNumber (left right : Z) : comparison :=
  if left <? right then Lt else if right <? left then Gt else Eq.

(** src/src/domain/cursor.ts:67-74 (compareInnerInstructionIndex) *)
Definition compareInnerInstructionIndex (left right : option Z) : comparison :=
  match left, right with
  | None, None => Eq
  | None, Some _ => Lt
  | Some _, None => Gt
  | Some l, Some r => compareNumber l r
  end.

(** The comparison proper, once both cursors are known to be valid. *)
Definition cursor_order (left right : ChainCursor) : comparison :=
  match compareNumber (slot left) (slot right) with
  | Eq =>
      match compareNumber (transactionIndex left) (transactionIndex right) with
      | Eq =>
          match compareNumber (instructionIndex left) (instructionIndex right) with
          | Eq => compareInnerInstructionIndex (innerInstructionIndex left)
                    (innerInstructionIndex right)
          | c => c
          end
      | c => c
      end
  | c => c
  end.

(** src/src/domain/cursor.ts:36-53 (compareCursors) *)
Definition compareCursors (left right : ChainCursor) : result exn comparison :=
  assertValidChainCursor left ;;
  assertValidChainCursor right ;;
  Ok (cursor_order left right).

Definition valid_cursor (c : ChainCursor) : bool := is_ok (assertValidChainCursor c).

Lemma compareNumber_spec x y : CompareSpec (x = y) (x < y) (y < x) (compareNumber x y).
Proof.
  unfold compareNumber. destruct (x <? y) eqn:?; [|destruct (y <? x) eqn:?];
    bool_prop; constructor; lia.
Qed.

Lemma compareNumber_opp x y : compareNumber y x = CompOpp (compareNumber x y).
Proof.
  destruct (compareNumber_spec x y), (compareNumber_spec y x); cbn; done || lia.
Qed.

Lemma compareNumber_lt_trans x y z :
  compareNumber x y = Lt -> compareNumber y z = Lt -> compareNumber x z = Lt.
Proof.
  destruct (compareNumber_spec x y), (compareNumber_spec y z), (compareNumber_spec x z);
    done || lia.
Qed.

Lemma compareNumber_eq x y : compareNumber x y = Eq <-> x = y.
Proof. destruct (compareNumber_spec x y); naive_solver lia. Qed.

Lemma compareNumber_refl x : compareNumber x x = Eq.
Proof. by apply compareNumber_eq. Qed.

Lemma compareInner_eq l r : compareInnerInstructionIndex l r = Eq <-> l = r.
Proof. destruct l, r; cbn; rewrite ?compareNumber_eq; naive_solver. Qed.

Lemma compareInner_opp l r :
  compareInnerInstructionIndex r l = CompOpp (compareInnerInstructionIndex l r).
Proof. destruct l, r; cbn; try done. apply compareNumber_opp. Qed.

Lemma compareInner_lt_trans x y z :
  compareInnerInstructionIndex x y = Lt -> compareInnerInstructionIndex y z = Lt ->
  compareInnerInstructionIndex x z = Lt.
Proof. destruct x, y, z; cbn; try done. apply compareNumber_lt_trans. Qed.

(** Lexicographic combination, the shape of [cursor_order]. *)
Definition then_compare (c d : comparison) : comparison :=
  match c with
  | Eq => d
  | _ => c
  end.

Lemma cursor_order_lex a b :
  cursor_order a b =
  then_compare (compareNumber (slot a) (slot b))
    (then_compare (compareNumber (transactionIndex a) (transactionIndex b))
      (then_compare (compareNumber (instructionIndex a) (instructionIndex b))
        (compareInnerInstructionIndex (innerInstructionIndex a) (innerInstructionIndex b)))).
Proof.
  unfold cursor_order. by repeat (destruct (compareNumber _ _); cbn; try done).
Qed.

Lemma then_compare_opp c d : then_compare (CompOpp c) (CompOpp d) = CompOpp (then_compare c d).
Proof. by destruct c. Qed.

Lemma then_compare_Eq c d : then_compare c d = Eq <-> c = Eq /\ d = Eq.
Proof. destruct c; cbn; naive_solver. Qed.

Lemma then_compare_lt_trans c1 c2 c3 d1 d2 d3 :
  (c1 = Eq -> c3 = c2) -> (c2 = Eq -> c3 = c1) ->
  (c1 = Lt -> c2 = Lt -> c3 = Lt) ->
  (d1 = Lt -> d2 = Lt -> d3 = Lt) ->
  then_compare c1 d1 = Lt -> then_compare c2 d2 = Lt -> then_compare c3 d3 = Lt.
Proof. destruct c1, c2, c3, d1, d2, d3; cbn; naive_solver. Qed.

Lemma cursor_order_opp a b : cursor_order b a = CompOpp (cursor_order a b).
Proof.
  rewrite !cursor_order_lex.
  rewrite (compareNumber_opp (slot a)), (compareNumber_opp (transactionIndex a)),
    (compareNumber_opp (instructionIndex a)), (compareInner_opp (innerInstructionIndex a)).
  by rewrite !then_compare_opp.
Qed.

Lemma cursor_order_eq a b : cursor_order a b = Eq <-> a = b.
Proof.
  rewrite cursor_order_lex, !then_compare_Eq, !compareNumber_eq, compareInner_eq.
  destruct a, b; cbn. naive_solver.
Qed.

Lemma cursor_order_lt_trans a b c :
  cursor_order a b = Lt -> cursor_order b c = Lt -> cursor_order a c = Lt.
Proof.
  rewrite !cursor_order_lex.
  do 3 (apply then_compare_lt_trans;
    [by intros ->%compareNumber_eq | by intros ->%compareNumber_eq
    | apply compareNumber_lt_trans |]).
  apply compareInner_lt_trans.
Qed.

Lemma compareCursors_Ok a b c :
  compareCursors a b = Ok c <->
  valid_cursor a = true /\ valid_cursor b = true /\ c = cursor_order a b.
Proof.
  unfold compareCursors, valid_cursor.
  destruct (assertValidChainCursor a) as [[]|]; cbn; [|naive_solver].
  destruct (assertValidChainCursor b) as [[]|]; cbn; naive_solver.
Qed.

(** * Confirmation status *)

(** src/src/domain/confirmation-status.ts:3-3 (ConfirmationReconciliation) *)
Inductive ConfirmationReconciliation := keep | update.

(** src/src/domain/confirmation-status.ts:15-30 (reconcileConfirmationStatus) *)
Definition reconcileConfirmationStatus (current incoming : ChainConfirmationStatus)
    : result exn ConfirmationReconciliation :=
  if bool_decide (current = incoming) then Ok keep
  else if bool_decide (current = orphaned)
    || (bool_decide (current = finalized) && bool_decide (incoming = orphaned))
  then Err (ConfirmationStatusConflictError current incoming)
  else if bool_decide (current = finalized) then Ok keep
  else if bool_decide (incoming = orphaned) then Ok update
  else if bool_decide (current = processed)
    && (bool_decide (incoming = confirmed) || bool_decide (incoming = finalized))
  then Ok update
  else if bool_decide (current = confirmed) && bool_decide (incoming = finalized)
  then Ok update
  else Ok keep.

(** The status a store holds after reconciling an observation, as its callers
    compute it. *)
Definition reconciled_status (current incoming : ChainConfirmationStatus)
    : result exn ChainConfirmationStatus :=
  r ← reconcileConfirmationStatus current incoming;
  Ok (match r with update => incoming | keep => current end).

(** A whole sequence of observations of one transaction. *)
Definition reconcile_all (current : ChainConfirmationStatus)
    (observations : list ChainConfirmationStatus) : result exn ChainConfirmationStatus :=
  fold_result reconciled_status current observations.

(** Progress order: processed, then confirmed, then finalized; orphaned is the
    other way out of the first two. *)
Definition status_rank (s : ChainConfirmationStatus) : nat :=
  match s with
  | processed => 0
  | confirmed => 1
  | finalized => 2
  | orphaned => 2
  end.

Lemma reconciled_status_rank c i c' :
  reconciled_status c i = Ok c' -> (status_rank c <= status_rank c')%nat.
Proof. destruct c, i; cbn; intros [= <-]; cbn; lia. Qed.

(** * Launch status *)

(** src/src/domain/launch-status.ts:25-32 (isTerminalLaunchStatus) *)
Definition isTerminalLaunchStatus (s : LaunchStatus) : bool :=
  includes s [REJECTED; LAUNCH_EXPIRED].

(** * Transition occurrences *)

(** src/src/domain/state-transitions.ts:20-20 (TransitionOccurrenceSource) *)
Inductive TransitionOccurrenceSource := blockchain | observation.
Global Instance TransitionOccurrenceSource_eq_dec : EqDecision TransitionOccurrenceSource.
Proof. solve_decision. Defined.

(** src/src/domain/state-transitions.ts:22-25 (TransitionOccurrence) *)
Record TransitionOccurrence := {
  occurredAtMs : Z;
  occurredAtSource : TransitionOccurrenceSource;
}.

(** src/src/domain/state-transitions.ts:181-206 (assertValidTransitionOccurrence) *)
Definition assertValidTransitionOccurrence (o : TransitionOccurrence) : result exn unit :=
  assertValidTimestampMs TF_occurredAtMs (occurredAtMs o).

(** The occurrence [reconcileTransitionOccurrence] keeps. *)
Definition occurrence_winner (current incoming : TransitionOccurrence) : TransitionOccurrence :=
  if bool_decide (occurredAtSource current = occurredAtSource incoming)
  then if occurredAtMs current <=? occurredAtMs incoming then current else incoming
  else if bool_decide (occurredAtSource current = blockchain) then current else incoming.

(** src/src/domain/state-transitions.ts:167-180 (reconcileTransitionOccurrence) *)
Definition reconcileTransitionOccurrence (current incoming : TransitionOccurrence)
    : result exn TransitionOccurrence :=
  assertValidTransitionOccurrence current ;;
  assertValidTransitionOccurrence incoming ;;
  Ok (occurrence_winner current incoming).

Definition occurrence_le (a b : TransitionOccurrence) : Prop :=
  match occurredAtSource a, occurredAtSource b with
  | blockchain, observation => True
  | observation, blockchain => False
  | _, _ => occurredAtMs a <= occurredAtMs b
  end.

Lemma occurrence_winner_comm a b : occurrence_winner a b = occurrence_winner b a.
Proof.
  destruct a as [ta [|]], b as [tb [|]]; unfold occurrence_winner; cbn; try done;
    destruct (ta <=? tb) eqn:?, (tb <=? ta) eqn:?; bool_prop; try done; try lia;
    f_equal; lia.
Qed.

Lemma occurrence_winner_same ta tb o :
  occurrence_winner {| occurredAtMs := ta; occurredAtSource := o |}
    {| occurredAtMs := tb; occurredAtSource := o |} =
  {| occurredAtMs := Z.min ta tb; occurredAtSource := o |}.
Proof.
  unfold occurrence_winner. rewrite bool_decide_eq_true_2 by done. cbn.
  destruct (ta <=? tb) eqn:?; bool_prop; f_equal; lia.
Qed.

Lemma occurrence_winner_chain_first ta tb :
  occurrence_winner {| occurredAtMs := ta; occurredAtSource := blockchain |}
    {| occurredAtMs := tb; occurredAtSource := observation |} =
  {| occurredAtMs := ta; occurredAtSource := blockchain |}.
Proof. reflexivity. Qed.

Lemma occurrence_winner_assoc a b c :
  occurrence_winner a (occurrence_winner b c) = occurrence_winner (occurrence_winner a b) c.
Proof.
  destruct a as [ta [|]], b as [tb [|]], c as [tc [|]];
    rewrite ?occurrence_winner_same, ?(occurrence_winner_comm {| occurredAtSource := observation |}
      {| occurredAtSource := blockchain |}), ?occurrence_winner_chain_first,
      ?occurrence_winner_same, ?occurrence_winner_chain_first, ?Z.min_assoc; try done.
Qed.

Lemma occurrence_winner_le a b :
  occurrence_le (occurrence_winner a b) a /\ occurrence_le (occurrence_winner a b) b.
Proof.
  destruct a as [ta [|]], b as [tb [|]];
    rewrite ?(occurrence_winner_comm {| occurredAtSource := observation |}
      {| occurredAtSource := blockchain |}), ?occurrence_winner_same,
      ?occurrence_winner_chain_first;
    unfold occurrence_le; cbn; split; first [done | lia].
Qed.

Lemma reconcileTransitionOccurrence_Ok a b c :
  reconcileTransitionOccurrence a b = Ok c <->
  0 <= occurredAtMs a <= MAX_SAFE_INTEGER /\ 0 <= occurredAtMs b <= MAX_SAFE_INTEGER
  /\ c = occurrence_winner a b.
Proof.
  unfold reconcileTransitionOccurrence, assertValidTransitionOccurrence.
  rewrite bind_Ok. setoid_rewrite bind_Ok. setoid_rewrite assertValidTimestampMs_Ok.
  split; [intros (?&?&?&?&?); naive_solver | intros (?&?&->); exists tt; split; [done|];
  by exists tt].
Qed.

(** * Properties *)

Lemma reconciled_status_cases c i c' :
  reconciled_status c i = Ok c' ->
  (c' = c \/ c' = i) /\ (status_rank i <= status_rank c')%nat
  /\ (c = orphaned \/ i = orphaned -> c' = orphaned)
  /\ (c = finalized \/ i = finalized -> c' = finalized).
Proof. destruct c, i; cbn; intros [= <-]; cbn; naive_solver lia. Qed.

(** What a successful run of observations amounts to: the status reached is one
    that was seen, it is at least as advanced as every one seen, and a terminal
    status that was seen is the one kept. *)
Lemma reconcile_all_spec obs : forall c a,
  reconcile_all c obs = Ok a ->
  a ∈ c :: obs /\ (forall s, s ∈ c :: obs -> (status_rank s <= status_rank a)%nat)
  /\ (orphaned ∈ c :: obs -> a = orphaned) /\ (finalized ∈ c :: obs -> a = finalized).
Proof.
  induction obs as [|i obs IH]; intros c a H; unfold reconcile_all in H; cbn in H.
  { injection H as <-. setoid_rewrite list_elem_of_singleton. naive_solver. }
  change (fold_result reconciled_status) with reconcile_all in H. result_inv.
  match goal with E : reconciled_status _ _ = Ok ?c1 |- _ =>
    pose proof (reconciled_status_cases _ _ _ E) as (Hin & Hr & Ho & Hf);
    pose proof (reconciled_status_rank _ _ _ E) as Hrc; rename c1 into d end.
  match goal with E : reconcile_all _ _ = Ok _ |- _ => apply IH in E as (H1 & H2 & H3 & H4) end.
  pose proof (H2 d ltac:(by left)) as Hd.
  split_and!.
  - apply elem_of_cons in H1. rewrite !elem_of_cons. naive_solver.
  - intros s. rewrite !elem_of_cons. intros [-> | [-> | Hs]]; [lia..|]. apply H2. by right.
  - rewrite !elem_of_cons in *. naive_solver.
  - rewrite !elem_of_cons in *. naive_solver.
Qed.

(** the confirmation recorded for a transaction does not depend on the order
    in which its observations arrive: two runs over the same observations that
    both succeed end in the same status.  A run that succeeds never mixes a
    finalized observation with an orphaned one. *)
Theorem reconcile_all_order_independent (c a b : ChainConfirmationStatus)
    (obs obs' : list ChainConfirmationStatus)
    (Hperm : obs ≡ₚ obs')
    (Ha : reconcile_all c obs = Ok a) (Hb : reconcile_all c obs' = Ok b) :
  a = b /\ ~ (finalized ∈ c :: obs /\ orphaned ∈ c :: obs).
Proof.
  apply reconcile_all_spec in Ha as (Hin & Hmax & Ho & Hf).
  apply reconcile_all_spec in Hb as (Hin' & Hmax' & Ho' & Hf').
  assert (forall s, s ∈ c :: obs <-> s ∈ c :: obs') as Heq.
  { intros s. by rewrite Hperm. }
  split; [|intros [H1 H2]; naive_solver].
  rewrite <- Heq in Hin'. pose proof (Hmax _ Hin'). rewrite Heq in Hin.
  pose proof (Hmax' _ Hin).
  destruct (decide (orphaned ∈ c :: obs)) as [Hor|Hor].
  { rewrite Ho by done. rewrite Heq in Hor. by rewrite Ho'. }
  rewrite <- Heq in Hin. destruct a, b; cbn in *; naive_solver lia.
Qed.

Lemma reconcile_all_order_independent_witness :
  reconcile_all processed [finalized; confirmed] = Ok finalized
  /\ ~ (finalized ∈ [processed; confirmed; finalized]
        /\ orphaned ∈ [processed; confirmed; finalized]).
Proof.
  split; [reflexivity|].
  apply (reconcile_all_order_independent processed finalized finalized
    [confirmed; finalized] [finalized; confirmed]); [|reflexivity..].
  apply Permutation_swap.
Defined.

(** on valid cursors [compareCursors] always returns, and what it returns is
    a strict total order: it is zero exactly on equal cursors, swapping the
    arguments negates it, and "before" is transitive. *)
Theorem compareCursors_total_order (a b c : ChainCursor)
    (Ha : valid_cursor a = true) (Hb : valid_cursor b = true) (Hc : valid_cursor c = true) :
  (exists r, compareCursors a b = Ok r /\ compareCursors b a = Ok (CompOpp r))
  /\ (compareCursors a b = Ok Eq <-> a = b)
  /\ (compareCursors a b = Ok Lt -> compareCursors b c = Ok Lt -> compareCursors a c = Ok Lt).
Proof.
  rewrite !compareCursors_Ok. split_and!.
  - exists (cursor_order a b). rewrite !compareCursors_Ok.
    split_and!; try done. symmetry. apply cursor_order_opp.
  - rewrite <- cursor_order_eq. naive_solver.
  - intros (_ & _ & H1) (_ & _ & H2). split_and!; [done..|].
    symmetry. by apply (cursor_order_lt_trans a b c).
Qed.

Lemma compareCursors_total_order_witness :
  let cur s t i n := {| slot := s; transactionIndex := t; instructionIndex := i;
                        innerInstructionIndex := n |} in
  compareCursors (cur 7 2 1 None) (cur 7 2 1 (Some 0)) = Ok Lt
  /\ (exists r, compareCursors (cur 7 2 1 None) (cur 7 2 1 (Some 0)) = Ok r
        /\ compareCursors (cur 7 2 1 (Some 0)) (cur 7 2 1 None) = Ok (CompOpp r)).
Proof.
  intros cur. split; [reflexivity|].
  apply (compareCursors_total_order (cur 7 2 1 None) (cur 7 2 1 (Some 0)) (cur 8 0 0 None));
    reflexivity.
Defined.

(** Reconciling the times at which one transition was seen is a semilattice
    join: order and grouping of the observations do not matter, re-delivery
    changes nothing, and the result is the best evidence of the two (blockchain
    time before observation time, the earlier of two of one kind). *)
Theorem reconcileTransitionOccurrence_semilattice (a b c : TransitionOccurrence) :
  reconcileTransitionOccurrence a a
    = (assertValidTransitionOccurrence a ;; Ok a)
  /\ (forall r, reconcileTransitionOccurrence a b = Ok r <->
        reconcileTransitionOccurrence b a = Ok r)
  /\ (forall r, (d ← reconcileTransitionOccurrence a b; reconcileTransitionOccurrence d c) = Ok r
        <-> (d ← reconcileTransitionOccurrence b c; reconcileTransitionOccurrence a d) = Ok r)
  /\ (forall r, reconcileTransitionOccurrence a b = Ok r ->
        (r = a \/ r = b) /\ occurrence_le r a /\ occurrence_le r b).
Proof.
  assert (forall x y, (occurrence_winner x y = x \/ occurrence_winner x y = y)) as Hor.
  { intros x y. unfold occurrence_winner. repeat split_match; auto. }
  split_and!.
  - unfold reconcileTransitionOccurrence.
    destruct (assertValidTransitionOccurrence a) as [[]|]; cbn; [|done].
    f_equal. by destruct (Hor a a).
  - intros r. rewrite !reconcileTransitionOccurrence_Ok, (occurrence_winner_comm b a). naive_solver.
  - intros r. rewrite !bind_Ok. setoid_rewrite reconcileTransitionOccurrence_Ok. split.
    + intros (d & (Ha & Hb & ->) & Hd & Hc & ->). exists (occurrence_winner b c).
      refine (conj (conj Hb (conj Hc eq_refl)) (conj Ha (conj _ _)));
        [by destruct (Hor b c) as [-> | ->] | apply eq_sym, occurrence_winner_assoc].
    + intros (d & (Hb & Hc & ->) & Ha & Hd & ->). exists (occurrence_winner a b).
      refine (conj (conj Ha (conj Hb eq_refl)) (conj _ (conj Hc _)));
        [by destruct (Hor a b) as [-> | ->] | apply occurrence_winner_assoc].
  - intros r (_ & _ & ->)%reconcileTransitionOccurrence_Ok. split; [apply Hor|].
    apply occurrence_winner_le.
Qed.
