(* ===== verification/Json.v ===== *)
(** [JSON.stringify] on the values the sources hash, and the SHA-256 digests
    taken of the result.

    Identities in this program (events, transitions, candidates, sessions,
    positions, policies) are digests of a serialized tuple.  What makes them
    identities is that serialization is injective; [stringify_inj] proves it
    once for all of them.  SHA-256 itself is the parameter [sha256_hex], so an
    identity theorem concludes that the tuples agree or that two different
    texts with one digest have been exhibited. *)
From S2P Require Import Prelude Text.
From Stdlib Require Import Ascii String.
Local Open Scope Z_scope.

Inductive json :=
| JsonNull
| JsonBool (b : bool)
| JsonInt (z : Z)
| JsonStr (s : string)
| JsonArr (l : list json)
| JsonObj (l : list (string * json)).

(** A [bigint] as [stringifyJson] writes it: a marker object. *)
Definition json_bigint (z : Z) : json :=
  JsonObj [("$solTokenListenerBigInt"%string, JsonStr (to_decimal z))].

Definition json_opt (o : option json) : json :=
  match o with
  | None => JsonNull
  | Some j => j
  end.

(** * Serialization *)

Definition hex_digit (n : nat) : ascii :=
  ascii_of_nat (if (n <? 10)%nat then n + 48 else n + 87).

(** The escapes of ECMAScript's QuoteJSONString. *)
Definition escape_char (c : ascii) : list ascii :=
  let n := nat_of_ascii c in
  let bs := "\"%char in
  if (n =? 34)%nat then [bs; c]
  else if (n =? 92)%nat then [bs; c]
  else if (n =? 8)%nat then [bs; "b"%char]
  else if (n =? 9)%nat then [bs; "t"%char]
  else if (n =? 10)%nat then [bs; "n"%char]
  else if (n =? 12)%nat then [bs; "f"%char]
  else if (n =? 13)%nat then [bs; "r"%char]
  else if (n <? 32)%nat then
    [bs; "u"%char; "0"%char; "0"%char; hex_digit (n / 16); hex_digit (n mod 16)]
  else [c].

Definition quote : ascii := ascii_of_nat 34.
Definition string_body (s : string) : list ascii := flat_map escape_char (chars s).
Definition quoted (s : string) : list ascii := quote :: string_body s ++ [quote].

(** [a,b,c] without the brackets. *)
Fixpoint joined (l : list (list ascii)) : list ascii :=
  match l with
  | [] => []
  | [x] => x
  | x :: l' => x ++ ","%char :: joined l'
  end.

Fixpoint json_chars (v : json) : list ascii :=
  match v with
  | JsonNull => chars "null"
  | JsonBool b => chars (if b then "true" else "false")
  | JsonInt z => chars (to_decimal z)
  | JsonStr s => quoted s
  | JsonArr l => "["%char :: joined (map json_chars l) ++ ["]"%char]
  | JsonObj l =>
      "{"%char :: joined (map (fun kv => quoted (fst kv) ++ ":"%char :: json_chars (snd kv)) l)
        ++ ["}"%char]
  end.

Definition stringify (v : json) : string := of_chars (json_chars v).

(** [JSON.stringify(parts)] on an array of strings. *)
Definition stringify_strings (l : list string) : string := stringify (JsonArr (map JsonStr l)).

(** * Injectivity *)

(** A reader for one escaped character, used only to invert [escape_char]. *)
Definition unescape_one (l : list ascii) : option (ascii * list ascii) :=
  match l with
  | [] => None
  | c :: r =>
      if Ascii.eqb c "\" then
        match r with
        | d :: r' =>
            if Ascii.eqb d "b" then Some (ascii_of_nat 8, r')
            else if Ascii.eqb d "t" then Some (ascii_of_nat 9, r')
            else if Ascii.eqb d "n" then Some (ascii_of_nat 10, r')
            else if Ascii.eqb d "f" then Some (ascii_of_nat 12, r')
            else if Ascii.eqb d "r" then Some (ascii_of_nat 13, r')
            else if Ascii.eqb d "u" then
              match r' with
              | _ :: _ :: h1 :: h2 :: r'' =>
                  let v h := let n := nat_of_ascii h in
                    if (n <? 58)%nat then (n - 48)%nat else (n - 87)%nat in
                  Some (ascii_of_nat (v h1 * 16 + v h2), r'')
              | _ => None
              end
            else Some (d, r')
        | [] => None
        end
      else Some (c, r)
  end.

Lemma unescape_escape c r : unescape_one (escape_char c ++ r) = Some (c, r).
Proof. destruct c as [[|] [|] [|] [|] [|] [|] [|] [|]]; reflexivity. Qed.

Lemma escape_char_head c : exists d l, escape_char c = d :: l /\ d <> quote.
Proof.
  destruct c as [[|] [|] [|] [|] [|] [|] [|] [|]]; eexists _, _; (split; [reflexivity|]);
    discriminate.
Qed.

Lemma string_body_inj (s s' : string) r r' :
  string_body s ++ quote :: r = string_body s' ++ quote :: r' -> s = s' /\ r = r'.
Proof.
  unfold string_body. intros H.
  enough (chars s = chars s' /\ r = r') as [Hs ->].
  { split; [|done]. by rewrite <- (of_chars_chars s), Hs, of_chars_chars. }
  revert H. generalize (chars s) as l, (chars s') as l'.
  induction l as [|c l IH]; intros [|c' l'] H; cbn [flat_map] in H; rewrite <- ?app_assoc in H.
  - by injection H.
  - destruct (escape_char_head c') as (d & k & Hd & Hq). rewrite Hd in H.
    cbn in H. injection H as H _. congruence.
  - destruct (escape_char_head c) as (d & k & Hd & Hq). rewrite Hd in H.
    cbn in H. injection H as H _. congruence.
  - apply (f_equal unescape_one) in H. rewrite !unescape_escape in H.
    injection H as -> H. apply IH in H as [-> ->]. done.
Qed.

Lemma quoted_inj (s s' : string) r r' : quoted s ++ r = quoted s' ++ r' -> s = s' /\ r = r'.
Proof.
  unfold quoted. cbn. rewrite <- !app_assoc. intros [= H]. by apply string_body_inj.
Qed.

(** Characters of a printed integer, and what may follow one. *)
Definition is_num_char (c : ascii) : bool :=
  Ascii.eqb c "-" || match digit_value c with Some _ => true | None => false end.
Definition ends_value (r : list ascii) : Prop :=
  match r with
  | [] => True
  | c :: _ => c = ","%char \/ c = "]"%char \/ c = "}"%char
  end.

Lemma digit_char_num d : 0 <= d < 10 -> is_num_char (digit_char d) = true.
Proof. intros H. unfold is_num_char. rewrite digit_value_char by done. apply orb_true_r. Qed.

Lemma digits_num fuel n : Forall (fun c => is_num_char c = true) (digits fuel n).
Proof.
  revert n. induction fuel as [|fuel IH]; intros n; cbn [digits]; [constructor|].
  apply Forall_app. split.
  - destruct (n <? 10); auto.
  - constructor; [|constructor]. apply digit_char_num. apply Z.mod_pos_bound. lia.
Qed.

Lemma to_decimal_num z : Forall (fun c => is_num_char c = true) (chars (to_decimal z)).
Proof.
  unfold to_decimal. rewrite chars_of_chars.
  destruct (z <? 0); [constructor; [done|]|]; apply digits_num.
Qed.

Lemma num_span_inj l l' r r' :
  Forall (fun c => is_num_char c = true) l -> Forall (fun c => is_num_char c = true) l' ->
  ends_value r -> ends_value r' -> l ++ r = l' ++ r' -> l = l' /\ r = r'.
Proof.
  intros Hl. revert l'. induction Hl as [|c l Hc Hl IH]; intros l' Hl' Hr Hr' H.
  - destruct Hl' as [|c' l' Hc' _]; [done|]. cbn in H. subst r.
    destruct Hr as [-> | [-> | ->]]; by cbn in Hc'.
  - destruct Hl' as [|c' l' Hc' Hl'].
    + cbn in H. subst r'. destruct Hr' as [-> | [-> | ->]]; by cbn in Hc.
    + cbn in H. injection H as -> H. apply IH in H as [-> ->]; done.
Qed.

Lemma to_decimal_inj z z' : to_decimal z = to_decimal z' -> z = z'.
Proof.
  intros H. pose proof (signed_decimal_to_decimal z) as H1.
  pose proof (signed_decimal_to_decimal z') as H2. rewrite H in H1. congruence.
Qed.

Lemma to_decimal_nonempty z : exists c l, chars (to_decimal z) = c :: l.
Proof.
  pose proof (signed_decimal_to_decimal z) as H. unfold signed_decimal in H.
  destruct (chars (to_decimal z)); [done|]. eauto.
Qed.

(** The first character tells the kind of value. *)
Inductive kind := KNull | KTrue | KFalse | KNum | KStr | KArr | KObj.
Definition kind_of_char (c : ascii) : option kind :=
  if Ascii.eqb c "n" then Some KNull
  else if Ascii.eqb c "t" then Some KTrue
  else if Ascii.eqb c "f" then Some KFalse
  else if Ascii.eqb c quote then Some KStr
  else if Ascii.eqb c "[" then Some KArr
  else if Ascii.eqb c "{" then Some KObj
  else if is_num_char c then Some KNum
  else None.
Definition json_kind (v : json) : kind :=
  match v with
  | JsonNull => KNull
  | JsonBool true => KTrue
  | JsonBool false => KFalse
  | JsonInt _ => KNum
  | JsonStr _ => KStr
  | JsonArr _ => KArr
  | JsonObj _ => KObj
  end.

Lemma kind_of_num c : is_num_char c = true -> kind_of_char c = Some KNum.
Proof. destruct c as [[|] [|] [|] [|] [|] [|] [|] [|]]; vm_compute; done. Qed.

Lemma json_chars_head v :
  exists c l, json_chars v = c :: l /\ kind_of_char c = Some (json_kind v).
Proof.
  destruct v as [|[|]|z|s|l|l]; cbn [json_chars json_kind]; try (eexists _, _; by split).
  destruct (to_decimal_nonempty z) as (c & l & Hc). rewrite Hc. eexists _, _. split; [done|].
  apply kind_of_num. pose proof (to_decimal_num z) as Hn. rewrite Hc in Hn.
  by inversion Hn.
Qed.

(** Elements that can be told apart before a delimiter. *)
Definition decodable {A} (enc : A -> list ascii) (x : A) : Prop :=
  forall y r r', ends_value r -> ends_value r' -> enc x ++ r = enc y ++ r' -> x = y /\ r = r'.

Section Lists.
Context {A : Type} (enc : A -> list ascii) (close : ascii).
Context (Hclose : close = "]"%char \/ close = "}"%char).
Context (Hhead : forall x, exists c l, enc x = c :: l /\ kind_of_char c <> None).

Lemma ends_close r : ends_value (close :: r).
Proof. cbn. naive_solver. Qed.

Lemma enc_not_close x l r : enc x ++ l <> close :: r.
Proof.
  destruct (Hhead x) as (c & k & -> & Hc). cbn. intros [= -> _].
  by destruct Hclose as [-> | ->].
Qed.

Lemma joined_cons x l rest :
  joined (map enc (x :: l)) ++ close :: rest =
  enc x ++ match l with
           | [] => close :: rest
           | _ => ","%char :: joined (map enc l) ++ close :: rest
           end.
Proof. destruct l; cbn; [done|]. by rewrite <- app_assoc. Qed.

Lemma joined_inj l l' r r' :
  Forall (decodable enc) l ->
  joined (map enc l) ++ close :: r = joined (map enc l') ++ close :: r' ->
  l = l' /\ r = r'.
Proof.
  intros Hl. revert l'. induction Hl as [|x l Hx Hl IH]; intros l' H.
  - destruct l' as [|y l']; [by injection H|].
    rewrite joined_cons in H. cbn in H. symmetry in H. by apply enc_not_close in H.
  - destruct l' as [|y l'].
    { rewrite joined_cons in H. cbn in H. by apply enc_not_close in H. }
    rewrite !joined_cons in H. apply Hx in H as [-> H].
    + destruct l as [|x' l], l' as [|y' l'].
      * by injection H.
      * exfalso. injection H as H _. by destruct Hclose as [-> | ->].
      * exfalso. injection H as H _. by destruct Hclose as [-> | ->].
      * assert (joined (map enc (x' :: l)) ++ close :: r
          = joined (map enc (y' :: l')) ++ close :: r') as Hj by (by injection H).
        apply IH in Hj as [Hj ->]. by rewrite Hj.
    + destruct l; [apply ends_close | by left].
    + destruct l'; [apply ends_close | by left].
Qed.
End Lists.

Section JsonInduction.
Context (P : json -> Prop).
Context (Hnull : P JsonNull) (Hbool : forall b, P (JsonBool b)) (Hint : forall z, P (JsonInt z)).
Context (Hstr : forall s, P (JsonStr s)) (Harr : forall l, Forall P l -> P (JsonArr l)).
Context (Hobj : forall l, Forall (fun kv => P (snd kv)) l -> P (JsonObj l)).
Fixpoint json_nested_ind (v : json) : P v :=
  match v with
  | JsonNull => Hnull
  | JsonBool b => Hbool b
  | JsonInt z => Hint z
  | JsonStr s => Hstr s
  | JsonArr l => Harr l ((fix go l : Forall P l := match l with
      | [] => List.Forall_nil P
      | x :: l' => List.Forall_cons P x _ (json_nested_ind x) (go l')
      end) l)
  | JsonObj l => Hobj l ((fix go l : Forall (fun kv => P (snd kv)) l := match l with
      | [] => List.Forall_nil _
      | kv :: l' => List.Forall_cons _ kv _ (json_nested_ind (snd kv)) (go l')
      end) l)
  end.
End JsonInduction.

Definition member_chars (kv : string * json) : list ascii :=
  quoted (fst kv) ++ ":"%char :: json_chars (snd kv).

Lemma member_decodable kv : decodable json_chars (snd kv) -> decodable member_chars kv.
Proof.
  destruct kv as [k v]. intros Hv [k' v'] r r' Hr Hr' H. unfold member_chars in H.
  cbn [fst snd] in *. rewrite <- !app_assoc in H. apply quoted_inj in H as [-> H].
  injection H as H. apply Hv in H as [-> ->]; done.
Qed.

Lemma json_kind_agree v v' r r' :
  json_chars v ++ r = json_chars v' ++ r' -> json_kind v' = json_kind v.
Proof.
  destruct (json_chars_head v) as (c & k & -> & Hk).
  destruct (json_chars_head v') as (c' & k' & -> & Hk').
  cbn. intros [= -> _]. congruence.
Qed.

Lemma json_decodable v : decodable json_chars v.
Proof.
  induction v as [|b|z|s|l IH|l IH] using json_nested_ind; intros v' r r' Hr Hr' H.
  all: pose proof (json_kind_agree _ _ _ _ H) as Hk.
  all: try destruct b; destruct v' as [|[|]|z'|s'|l'|l']; try discriminate Hk; clear Hk;
    cbn [json_chars] in H.
  - by injection H.
  - by injection H.
  - by injection H.
  - apply num_span_inj in H as [H ->]; auto using to_decimal_num.
    split; [|done]. f_equal. apply to_decimal_inj.
    by rewrite <- (of_chars_chars (to_decimal z)), H, of_chars_chars.
  - apply quoted_inj in H as [-> ->]. done.
  - injection H as H. rewrite <- !app_assoc in H. cbn [app] in H.
    apply joined_inj in H as [-> ->]; auto.
    intros x. destruct (json_chars_head x) as (c & k & Hc & Hk).
    exists c, k. split; [done|]. by rewrite Hk.
  - injection H as H. rewrite <- !app_assoc in H. cbn [app] in H.
    change (fun kv : string * json => quoted kv.1 ++ ":"%char :: json_chars kv.2)
      with member_chars in H.
    apply joined_inj in H as [-> ->]; auto.
    + intros x. unfold member_chars, quoted. cbn. eexists _, _. split; [done|]. by vm_compute.
    + eapply Forall_impl; [exact IH|]. intros kv Hkv. by apply member_decodable.
Qed.

(** Serialization is injective: two values with the same text are equal. *)
Lemma stringify_inj v v' : stringify v = stringify v' -> v = v'.
Proof.
  intros H. apply (f_equal chars) in H. unfold stringify in H. rewrite !chars_of_chars in H.
  apply (json_decodable v v' [] []); [done|done|]. by rewrite !app_nil_r.
Qed.

Global Instance JsonStr_inj : Inj (=) (=) JsonStr.
Proof. by intros ?? [= ->]. Qed.

Lemma stringify_strings_inj l l' : stringify_strings l = stringify_strings l' -> l = l'.
Proof.
  intros H%stringify_inj. injection H as H.
  by apply (inj (fmap JsonStr)) in H.
Qed.

Lemma json_bigint_inj z z' : json_bigint z = json_bigint z' -> z = z'.
Proof. unfold json_bigint. intros [= H]. by apply to_decimal_inj. Qed.

(** * SHA-256 *)

(** [createHash('sha256').update(text).digest('hex')] *)
Class Sha256 := sha256_hex : string -> string.

(** Two texts with one digest. *)
Definition sha256_collision `{Sha256} : Prop :=
  exists x y : string, x <> y /\ sha256_hex x = sha256_hex y.

(** Concatenation with a fixed prefix keeps strings apart. *)
Lemma append_inj (p x y : string) : (p +:+ x = p +:+ y) -> x = y.
Proof. induction p as [|c p IH]; cbn; [done|]. intros [= H]. auto. Qed.

Lemma digest_agree `{Sha256} (p : string) (v v' : json) :
  p +:+ sha256_hex (stringify v) = p +:+ sha256_hex (stringify v') ->
  v = v' \/ sha256_collision.
Proof.
  intros Hd%append_inj. destruct (decide (stringify v = stringify v')) as [Heq|Hne].
  - left. by apply stringify_inj.
  - right. by exists (stringify v), (stringify v').
Qed.
