(* ===== verification/Identity.v ===== *)
(** Deterministic identities and launch transitions:
    [src/src/domain/events.ts] (event ids) and
    [src/src/domain/state-transitions.ts] (transitions and their ids).

    An id is a digest of the fields that identify the thing; the theorems show
    that two things with one id agree on every field, unless SHA-256 collides. *)
From S2P Require Import Prelude Text Types Chain Json.
From Stdlib Require Import Ascii String.
Local Open Scope string_scope.
Local Open Scope list_scope.
Local Open Scope Z_scope.

(** src/src/domain/events.ts:5-28 (DOMAIN_EVENT_TYPES): the string of each type. *)
Definition event_type_name (t : DomainEventType) : string :=
  match t with
  | TokenLaunchDetected => "TokenLaunchDetected"
  | TokenMetadataResolved => "TokenMetadataResolved"
  | TokenMetadataFailed => "TokenMetadataFailed"
  | SocialEvidenceCollected => "SocialEvidenceCollected"
  | CreatorProfileUpdated => "CreatorProfileUpdated"
  | HolderDistributionUpdated => "HolderDistributionUpdated"
  | WalletClusterDetected => "WalletClusterDetected"
  | BondingCurveTradeObserved => "BondingCurveTradeObserved"
  | BondingCurveStateUpdated => "BondingCurveStateUpdated"
  | BondingCurveCompleted => "BondingCurveCompleted"
  | QualificationUpdated => "QualificationUpdated"
  | TradingCandidateUpdated => "TradingCandidateUpdated"
  | PaperStrategySessionUpdated => "PaperStrategySessionUpdated"
  | PaperExternalBuyCounted => "PaperExternalBuyCounted"
  | PaperPositionOpened => "PaperPositionOpened"
  | PaperPositionUpdated => "PaperPositionUpdated"
  | PaperPositionClosed => "PaperPositionClosed"
  | MigrationObserved => "MigrationObserved"
  | PumpSwapPoolActivated => "PumpSwapPoolActivated"
  | FastEntryDecided => "FastEntryDecided"
  end.

(** src/src/domain/launch-status.ts:1-21 (LAUNCH_STATUSES): the string of each status. *)
Definition launch_status_name (s : LaunchStatus) : string :=
  match s with
  | DETECTED => "DETECTED"
  | METADATA_PENDING => "METADATA_PENDING"
  | METADATA_RESOLVED => "METADATA_RESOLVED"
  | OBSERVING => "OBSERVING"
  | SOCIAL_CHECKING => "SOCIAL_CHECKING"
  | ONCHAIN_CHECKING => "ONCHAIN_CHECKING"
  | QUALIFIED => "QUALIFIED"
  | WATCHLISTED => "WATCHLISTED"
  | SUSPECT => "SUSPECT"
  | REJECTED => "REJECTED"
  | PAPER_BUY_PENDING => "PAPER_BUY_PENDING"
  | LAUNCH_PAPER_HOLDING => "PAPER_HOLDING"
  | PAPER_SELL_PENDING => "PAPER_SELL_PENDING"
  | LAUNCH_PAPER_CLOSED => "PAPER_CLOSED"
  | BONDING_CURVE_COMPLETE => "BONDING_CURVE_COMPLETE"
  | MIGRATION_PENDING => "MIGRATION_PENDING"
  | PUMPSWAP_ACTIVE => "PUMPSWAP_ACTIVE"
  | LAUNCH_EXPIRED => "EXPIRED"
  | LAUNCH_MANUAL_REVIEW => "MANUAL_REVIEW"
  end.

(** src/src/domain/events.ts:54-61 (ChainEventIdentity) *)
Record ChainEventIdentity := {
  ci_type : string;
  ci_mint : string;
  ci_source : string;
  ci_program : string;
  ci_signature : string;
  ci_cursor : ChainCursor;
}.

(** The tuple of strings that is hashed. *)
Definition chain_event_parts (i : ChainEventIdentity) : list string :=
  let c := ci_cursor i in
  [ci_type i; ci_mint i; ci_source i; ci_program i; ci_signature i;
   to_decimal (slot c); to_decimal (transactionIndex c); to_decimal (instructionIndex c);
   match innerInstructionIndex c with
   | None => "outer"
   | Some n => to_decimal n
   end].

Section Ids.
Context `{Sha256}.

(** src/src/domain/events.ts:63-78 (createDeterministicChainEventId) *)
Definition createDeterministicChainEventId (i : ChainEventIdentity) : result exn string :=
  assertValidChainCursor (ci_cursor i) ;;
  Ok ("evt_" +:+ sha256_hex (stringify_strings (chain_event_parts i))).

(** src/src/domain/events.ts:80-97 (createDeterministicDerivedEventId) *)
Definition createDeterministicDerivedEventId (i : ChainEventIdentity) (qualifier : string)
    : result exn string :=
  throw_if (is_empty qualifier || (16384 <? byte_length qualifier))
    (TypeError "Derived event qualifier is invalid.") ;;
  chainId ← createDeterministicChainEventId i;
  Ok ("evt_" +:+ sha256_hex (stringify_strings [chainId; qualifier])).

(** src/src/domain/state-transitions.ts:208-215 (createDeterministicTransitionId) *)
Definition transition_text (eventId : string) (previous : option LaunchStatus)
    (next : LaunchStatus) : string :=
  let sep := String (ascii_of_nat 31) EmptyString in
  eventId +:+ sep +:+
  match previous with
  | None => "none"
  | Some p => launch_status_name p
  end +:+ sep +:+ launch_status_name next.
Definition createDeterministicTransitionId (eventId : string)
    (previous : option LaunchStatus) (next : LaunchStatus) : string :=
  "transition_" +:+ sha256_hex (transition_text eventId previous next).
End Ids.

(** * Launch transitions *)

(** src/src/domain/state-transitions.ts:27-38 (StateTransition).  [reasonCode]
    is null in every transition this module builds. *)
Record StateTransition := {
  st_id : string;
  st_payloadVersion : Z;
  st_mint : string;
  st_triggeringEventId : string;
  st_triggeringEventType : DomainEventType;
  st_occurrence : TransitionOccurrence;
  st_previousStatus : option LaunchStatus;
  st_newStatus : LaunchStatus;
  st_reasonCode : option string;
  st_message : string;
  st_evidence : string * string;
}.

(** src/src/domain/state-transitions.ts:40-42 *)
Definition INITIAL_DETECTED_TRANSITION_MESSAGE : string := "Token launch detected".
Definition MIGRATION_PENDING_TRANSITION_MESSAGE : string := "Pump.fun migration observed".
Definition PUMPSWAP_ACTIVE_TRANSITION_MESSAGE : string := "Canonical PumpSwap pool activated".

(** src/src/domain/state-transitions.ts:75-82 (assertInitialLaunchTransitionAllowed) *)
Definition assertInitialLaunchTransitionAllowed (previous : option LaunchStatus)
    (next : LaunchStatus) : result exn unit :=
  throw_if (negb (bool_decide (previous = None)) || negb (bool_decide (next = DETECTED)))
    (InvalidLaunchTransitionError previous next).

(** The blockchain time when there is one, else the observation time. *)
Definition event_occurrence {P} (e : DomainEvent P) : TransitionOccurrence :=
  match ev_blockchainTimeMs e with
  | Some t => {| occurredAtMs := t; occurredAtSource := blockchain |}
  | None => {| occurredAtMs := ev_observedAtMs e; occurredAtSource := observation |}
  end.

Section Transitions.
Context `{Sha256}.

(** src/src/domain/state-transitions.ts:140-165 (createEventTransition) *)
Definition createEventTransition {P} (previous next : LaunchStatus) (message : string)
    (event : DomainEvent P) : result exn StateTransition :=
  assertValidTimestampMs TF_observedAtMs (ev_observedAtMs event) ;;
  assertValidNullableTimestampMs TF_blockchainTimeMs (ev_blockchainTimeMs event) ;;
  Ok {| st_id := createDeterministicTransitionId (ev_id event) (Some previous) next;
        st_payloadVersion := 1;
        st_mint := ev_mint event;
        st_triggeringEventId := ev_id event;
        st_triggeringEventType := ev_type event;
        st_occurrence := event_occurrence event;
        st_previousStatus := Some previous;
        st_newStatus := next;
        st_reasonCode := None;
        st_message := message;
        st_evidence := (ev_source event, ev_program event) |}.

(** src/src/domain/state-transitions.ts:84-115 (createInitialDetectedTransition) *)
Definition createInitialDetectedTransition {P} (event : DomainEvent P)
    : result exn StateTransition :=
  assertValidTimestampMs TF_observedAtMs (ev_observedAtMs event) ;;
  assertValidNullableTimestampMs TF_blockchainTimeMs (ev_blockchainTimeMs event) ;;
  assertInitialLaunchTransitionAllowed None DETECTED ;;
  assertValidTimestampMs TF_occurredAtMs (occurredAtMs (event_occurrence event)) ;;
  Ok {| st_id := createDeterministicTransitionId (ev_id event) None DETECTED;
        st_payloadVersion := 1;
        st_mint := ev_mint event;
        st_triggeringEventId := ev_id event;
        st_triggeringEventType := ev_type event;
        st_occurrence := event_occurrence event;
        st_previousStatus := None;
        st_newStatus := DETECTED;
        st_reasonCode := None;
        st_message := INITIAL_DETECTED_TRANSITION_MESSAGE;
        st_evidence := (ev_source event, ev_program event) |}.

(** src/src/domain/state-transitions.ts:118-118 (the declared type of [current]) *)
Inductive MigrationSource := FromBondingCurveComplete | FromDetected | FromObserving.
Definition migration_source_status (m : MigrationSource) : LaunchStatus :=
  match m with
  | FromBondingCurveComplete => BONDING_CURVE_COMPLETE
  | FromDetected => DETECTED
  | FromObserving => OBSERVING
  end.

(** src/src/domain/state-transitions.ts:117-127 (createMigrationPendingTransition) *)
Definition createMigrationPendingTransition {P} (current : MigrationSource)
    (event : DomainEvent P) : result exn StateTransition :=
  createEventTransition (migration_source_status current) MIGRATION_PENDING
    MIGRATION_PENDING_TRANSITION_MESSAGE event.

(** src/src/domain/state-transitions.ts:129-138 (createPumpSwapActiveTransition) *)
Definition createPumpSwapActiveTransition {P} (event : DomainEvent P)
    : result exn StateTransition :=
  createEventTransition MIGRATION_PENDING PUMPSWAP_ACTIVE
    PUMPSWAP_ACTIVE_TRANSITION_MESSAGE event.
End Transitions.

(** * Lemmas *)

Lemma outer_not_decimal z : to_decimal z <> "outer".
Proof. intros H. pose proof (signed_decimal_to_decimal z) as Hz. by rewrite H in Hz. Qed.

Lemma chain_event_parts_inj i j : chain_event_parts i = chain_event_parts j -> i = j.
Proof.
  destruct i as [? ? ? ? ? [? ? ? inner]], j as [? ? ? ? ? [? ? ? inner']].
  unfold chain_event_parts; cbn. intros [= -> -> -> -> -> ->%to_decimal_inj
    ->%to_decimal_inj ->%to_decimal_inj Hi].
  do 2 f_equal. destruct inner as [n|], inner' as [n'|]; cbn in Hi.
  - by apply to_decimal_inj in Hi as ->.
  - by apply outer_not_decimal in Hi.
  - symmetry in Hi. by apply outer_not_decimal in Hi.
  - done.
Qed.

Section IdLemmas.
Context `{Sha256}.

Lemma digest_strings_agree (p : string) l l' :
  p +:+ sha256_hex (stringify_strings l) = p +:+ sha256_hex (stringify_strings l') ->
  l = l' \/ sha256_collision.
Proof.
  intros Hd%append_inj.
  destruct (decide (stringify_strings l = stringify_strings l')) as [Heq|Hne].
  - left. by apply stringify_strings_inj.
  - right. by eexists _, _.
Qed.

Lemma chain_event_id_agree i j a :
  createDeterministicChainEventId i = Ok a -> createDeterministicChainEventId j = Ok a ->
  i = j \/ sha256_collision.
Proof.
  unfold createDeterministicChainEventId. intros Hi Hj. result_inv.
  match goal with E : _ +:+ _ = _ +:+ _ |- _ =>
    apply digest_strings_agree in E as [E|]; [|by right] end.
  left. by apply chain_event_parts_inj.
Qed.
End IdLemmas.

(** Splitting at the last separator is unambiguous when what follows has none. *)
Lemma last_separator_inj {A} (x : A) (l l' s s' : list A) :
  x ∉ s -> x ∉ s' -> l ++ x :: s = l' ++ x :: s' -> l = l' /\ s = s'.
Proof.
  intros Hs Hs' Heq. revert l' Heq. induction l as [|y l IH]; intros [|y' l'] Heq; cbn in Heq.
  - by injection Heq.
  - injection Heq as <- ->. exfalso. apply Hs. apply elem_of_app. right. left.
  - injection Heq as -> <-. exfalso. apply Hs'. apply elem_of_app. right. left.
  - injection Heq as -> Heq. apply IH in Heq as [-> ->]. done.
Qed.

Definition previous_name (p : option LaunchStatus) : string :=
  match p with
  | None => "none"
  | Some s => launch_status_name s
  end.

Lemma launch_status_name_sep s : ascii_of_nat 31 ∉ chars (launch_status_name s).
Proof. destruct s; by apply (bool_decide_unpack _). Qed.
Lemma previous_name_sep p : ascii_of_nat 31 ∉ chars (previous_name p).
Proof. destruct p as [[]|]; by apply (bool_decide_unpack _). Qed.
Lemma launch_status_name_inj s t : launch_status_name s = launch_status_name t -> s = t.
Proof. by destruct s, t. Qed.
Lemma previous_name_inj p q : previous_name p = previous_name q -> p = q.
Proof.
  destruct p as [s|], q as [t|]; cbn; intros Heq; try done.
  - f_equal. by apply launch_status_name_inj.
  - by destruct s.
  - by destruct t.
Qed.

Lemma transition_text_inj e p n e' p' n' :
  transition_text e p n = transition_text e' p' n' -> e = e' /\ p = p' /\ n = n'.
Proof.
  unfold transition_text. fold (previous_name p) (previous_name p'). intros Heq.
  apply (f_equal chars) in Heq. rewrite !chars_app in Heq. cbn [chars list_ascii_of_string app] in Heq.
  rewrite !app_comm_cons, !app_assoc in Heq.
  apply last_separator_inj in Heq as [Heq Hn]; [|apply launch_status_name_sep..].
  rewrite <- ?app_assoc in Heq. cbn [app] in Heq.
  apply last_separator_inj in Heq as [He Hp]; [|apply previous_name_sep..].
  auto using chars_inj, launch_status_name_inj, previous_name_inj.
Qed.

(** * Properties *)

(** A derived event id identifies the event: if two derived events get one
    id, they agree on type, mint, source, program, signature, the whole cursor
    and the qualifier, unless a SHA-256 collision has been exhibited. *)
Theorem derived_event_id_identifies `{Sha256} (i j : ChainEventIdentity) (q r id : string)
    (Hi : createDeterministicDerivedEventId i q = Ok id)
    (Hj : createDeterministicDerivedEventId j r = Ok id) :
  (i = j /\ q = r) \/ sha256_collision.
Proof.
  unfold createDeterministicDerivedEventId in *. result_inv.
  match goal with E : _ +:+ _ = _ +:+ _ |- _ =>
    apply digest_strings_agree in E as [[= <- <-]|]; [|by right] end.
  match goal with E1 : createDeterministicChainEventId i = Ok ?a,
    E2 : createDeterministicChainEventId j = Ok ?a |- _ =>
    destruct (chain_event_id_agree _ _ _ E1 E2) as [->|]; [by left|by right] end.
Qed.

Lemma derived_event_id_identifies_witness :
  let S : Sha256 := fun s => s in
  let i := {| ci_type := "PaperExternalBuyCounted"; ci_mint := "m"; ci_source := "s";
              ci_program := "p"; ci_signature := "g";
              ci_cursor := {| slot := 5; transactionIndex := 1; instructionIndex := 0;
                              innerInstructionIndex := None |} |} in
  exists id, createDeterministicDerivedEventId i "trade" = Ok id
    /\ ((i = i /\ "trade" = "trade") \/ sha256_collision).
Proof.
  intros S i. eexists. split; [vm_compute; reflexivity|].
  eapply (derived_event_id_identifies i i "trade" "trade"); vm_compute; reflexivity.
Defined.

(** A transition id identifies the transition although its text is joined
    with a separator the event id may itself contain: equal ids mean the same
    event, previous status and new status, unless SHA-256 collides. *)
Theorem transition_id_identifies `{Sha256} (e e' : string) (p p' : option LaunchStatus)
    (n n' : LaunchStatus)
    (Hid : createDeterministicTransitionId e p n = createDeterministicTransitionId e' p' n') :
  (e = e' /\ p = p' /\ n = n') \/ sha256_collision.
Proof.
  unfold createDeterministicTransitionId in Hid. apply append_inj in Hid.
  destruct (decide (transition_text e p n = transition_text e' p' n')) as [Ht|Ht].
  - left. by apply transition_text_inj.
  - right. by eexists _, _.
Qed.

Lemma transition_id_identifies_witness :
  let S : Sha256 := fun s => s in
  ("evt" = "evt" /\ Some DETECTED = Some DETECTED /\ MIGRATION_PENDING = MIGRATION_PENDING)
  \/ sha256_collision.
Proof.
  intros S. apply (transition_id_identifies "evt" "evt" (Some DETECTED) (Some DETECTED)
    MIGRATION_PENDING MIGRATION_PENDING). reflexivity.
Defined.
