(* ===== verification/PaperMath.v ===== *)
(** Paper quotes and round trips: [src/src/paper/paper-math.ts], the quote and
    round-trip types of [src/src/domain/paper-trading.ts], and the fast-entry
    decision of [src/src/domain/fast-entry.ts] that rests on them.

    Amounts are [bigint]s, carried by [Z]; [/] on [bigint]s is [Z.quot]. *)
From S2P Require Import Prelude Text Types Chain.
Local Open Scope string_scope.
Local Open Scope list_scope.
Local Open Scope Z_scope.

(** src/src/domain/paper-trading.ts:8-20 (PaperExecutionQuote) *)
Record PaperExecutionQuote := {
  q_id : string;
  q_inputMint : string;
  q_outputMint : string;
  q_amountInRaw : Z;
  q_amountOutRaw : Z;
  q_minimumAmountOutRaw : Z;
  q_feesRaw : Z;
  q_slippageBps : Z;
  q_priceImpactBps : Z;
  q_observedAtMs : Z;
  q_observedSlot : Z;
}.
Global Instance PaperExecutionQuote_eq_dec : EqDecision PaperExecutionQuote.
Proof. solve_decision. Defined.

(** src/src/domain/paper-trading.ts:22-28 (PaperRoundTrip) *)
Record PaperRoundTrip := {
  rt_quoteCostRaw : Z;
  rt_baseFilledRaw : Z;
  rt_returnRaw : Z;
  rt_lossRaw : Z;
  rt_lossBps : Z;
}.

(** src/src/paper/paper-math.ts:8-8 (MAX_BPS) *)
Definition MAX_BPS : Z := 10000.

(** src/src/paper/paper-math.ts:61-63 (invalid) *)
Definition invalid_quote_field (field : string) : exn := PaperTradingError QUOTE_INVALID field.

(** src/src/paper/paper-math.ts:57-59 (validateBps) *)
Definition validateBps (field : string) (value : Z) : result exn unit :=
  throw_if ((value <? 0) || (MAX_BPS <? value)) (invalid_quote_field field).

(** src/src/paper/paper-math.ts:10-25 (validatePaperQuote) *)
Definition validatePaperQuote (q : PaperExecutionQuote) : result exn unit :=
  throw_if (blank (q_id q)) (invalid_quote_field "id") ;;
  throw_if (blank (q_inputMint q)) (invalid_quote_field "inputMint") ;;
  throw_if (blank (q_outputMint q)) (invalid_quote_field "outputMint") ;;
  throw_if (bool_decide (q_inputMint q = q_outputMint q)) (invalid_quote_field "outputMint") ;;
  throw_if (q_amountInRaw q <=? 0) (invalid_quote_field "amountInRaw") ;;
  throw_if (q_amountOutRaw q <=? 0) (invalid_quote_field "amountOutRaw") ;;
  throw_if ((q_minimumAmountOutRaw q <=? 0) || (q_amountOutRaw q <? q_minimumAmountOutRaw q))
    (invalid_quote_field "minimumAmountOutRaw") ;;
  throw_if (q_feesRaw q <? 0) (invalid_quote_field "feesRaw") ;;
  validateBps "slippageBps" (q_slippageBps q) ;;
  validateBps "priceImpactBps" (q_priceImpactBps q) ;;
  assertValidTimestampMs TF_observedAtMs (q_observedAtMs q) ;;
  throw_if (q_observedSlot q <? 0) (invalid_quote_field "observedSlot").

(** src/src/paper/paper-math.ts:48-55 (calculateLossBps) *)
Definition calculateLossBps (costRaw returnRaw : Z) : result exn Z :=
  throw_if (costRaw <=? 0) (invalid_quote_field "quoteCostRaw") ;;
  throw_if (returnRaw <? 0) (invalid_quote_field "returnRaw") ;;
  let lossRaw := if returnRaw <? costRaw then costRaw - returnRaw else 0 in
  Ok (if lossRaw =? 0 then 0
      else Z.quot (lossRaw * MAX_BPS + costRaw - 1) costRaw).

(** src/src/paper/paper-math.ts:27-46 (calculateRoundTrip) *)
Definition calculateRoundTrip (buy reverseSell : PaperExecutionQuote)
    : result exn PaperRoundTrip :=
  validatePaperQuote buy ;;
  validatePaperQuote reverseSell ;;
  throw_if (negb (bool_decide (q_inputMint reverseSell = q_outputMint buy)))
    (invalid_quote_field "inputMint") ;;
  throw_if (negb (bool_decide (q_outputMint reverseSell = q_inputMint buy)))
    (invalid_quote_field "outputMint") ;;
  throw_if (negb (q_amountInRaw reverseSell =? q_minimumAmountOutRaw buy))
    (invalid_quote_field "amountInRaw") ;;
  let lossRaw := if q_minimumAmountOutRaw reverseSell <? q_amountInRaw buy
                 then q_amountInRaw buy - q_minimumAmountOutRaw reverseSell else 0 in
  lossBps ← calculateLossBps (q_amountInRaw buy) (q_minimumAmountOutRaw reverseSell);
  Ok {| rt_quoteCostRaw := q_amountInRaw buy;
        rt_baseFilledRaw := q_minimumAmountOutRaw buy;
        rt_returnRaw := q_minimumAmountOutRaw reverseSell;
        rt_lossRaw := lossRaw;
        rt_lossBps := lossBps |}.

(** * Fast entry *)

(** src/src/domain/fast-entry.ts:22-22 (NATIVE_SOL_MINT) *)
Definition NATIVE_SOL_MINT : string := "So11111111111111111111111111111111111111112".

(** src/src/domain/fast-entry.ts:24-30 (FastEntryRejection) *)
Inductive FastEntryRejection :=
| UNSUPPORTED_QUOTE_MINT | UNSUPPORTED_TOKEN_EXTENSION | CREATOR_ALREADY_SOLD
| NO_ENVELOPE_CAPACITY | QUOTE_UNAVAILABLE | FE_ROUND_TRIP_LOSS_EXCEEDED.

(** src/src/domain/fast-entry.ts:32-36 (FastEntryLaunchFacts) *)
Record FastEntryLaunchFacts := {
  fl_mint : string;
  fl_quoteMint : string;
  fl_creatorSoldInCreate : bool;
}.
(** src/src/domain/fast-entry.ts:38-41 (FastEntryEnvelope) *)
Record FastEntryEnvelope := {
  fe_envelopeId : string;
  fe_perBuyQuoteAmountRaw : Z;
}.
(** src/src/domain/fast-entry.ts:43-49 (FastEntryQuoteDecision) *)
Inductive FastEntryQuoteDecision :=
| FastBuy (lossBps : Z)
| FastRejected (reason : FastEntryRejection) (lossBps : option Z).

(** src/src/domain/fast-entry.ts:52-60 (precheckFastEntry) *)
Definition precheckFastEntry (launch : FastEntryLaunchFacts)
    (envelope : option FastEntryEnvelope) : option FastEntryRejection :=
  if negb (bool_decide (fl_quoteMint launch = NATIVE_SOL_MINT)) then Some UNSUPPORTED_QUOTE_MINT
  else if fl_creatorSoldInCreate launch then Some CREATOR_ALREADY_SOLD
  else match envelope with
       | None => Some NO_ENVELOPE_CAPACITY
       | Some _ => None
       end.

(** src/src/domain/fast-entry.ts:65-83 (decideFastEntryQuotes): a
    [PaperTradingError] is an answer, any other throw goes on. *)
Definition decideFastEntryQuotes (buy reverseSell : PaperExecutionQuote)
    (maximumRoundTripLossBps : Z) : result exn FastEntryQuoteDecision :=
  match calculateRoundTrip buy reverseSell with
  | Err (PaperTradingError _ _) => Ok (FastRejected QUOTE_UNAVAILABLE None)
  | Err e => Err e
  | Ok rt =>
      if maximumRoundTripLossBps <? rt_lossBps rt
      then Ok (FastRejected FE_ROUND_TRIP_LOSS_EXCEEDED (Some (rt_lossBps rt)))
      else Ok (FastBuy (rt_lossBps rt))
  end.

(** * Lemmas *)

(** What a quote that passed validation is known to satisfy. *)
Record valid_quote (q : PaperExecutionQuote) : Prop := {
  vq_id : blank (q_id q) = false;
  vq_mints : q_inputMint q <> q_outputMint q;
  vq_in : 0 < q_amountInRaw q;
  vq_min : 0 < q_minimumAmountOutRaw q <= q_amountOutRaw q;
  vq_fees : 0 <= q_feesRaw q;
  vq_slippage : 0 <= q_slippageBps q <= MAX_BPS;
  vq_impact : 0 <= q_priceImpactBps q <= MAX_BPS;
  vq_observed : 0 <= q_observedAtMs q <= MAX_SAFE_INTEGER;
  vq_slot : 0 <= q_observedSlot q;
}.

Lemma validatePaperQuote_valid q u : validatePaperQuote q = Ok u -> valid_quote q.
Proof.
  unfold validatePaperQuote, validateBps, assertValidTimestampMs. intros H.
  result_inv. bool_prop. split; try done; lia.
Qed.

(** The exact value of the loss in basis points: the ceiling of
    [loss * 10000 / cost], from 0 to 10000. *)
Lemma calculateLossBps_spec cost ret bps :
  calculateLossBps cost ret = Ok bps ->
  0 < cost /\ 0 <= ret /\ 0 <= bps <= MAX_BPS
  /\ Z.max 0 (cost - ret) * MAX_BPS <= bps * cost < Z.max 0 (cost - ret) * MAX_BPS + cost.
Proof.
  unfold calculateLossBps. intros H. result_inv. bool_prop.
  unfold MAX_BPS. destruct (ret <? cost) eqn:Hlt; bool_prop.
  - rewrite Z.max_r by lia. destruct (cost - ret =? 0) eqn:?; bool_prop; [lia|].
    pose proof (quot_ceil_bounds ((cost - ret) * 10000) cost ltac:(lia) ltac:(lia)) as Hc.
    remember (Z.quot ((cost - ret) * 10000 + cost - 1) cost) as k. nia.
  - cbn. lia.
Qed.

Lemma calculateLossBps_total cost ret :
  0 < cost -> 0 <= ret -> exists bps, calculateLossBps cost ret = Ok bps.
Proof.
  intros Hc Hr. unfold calculateLossBps.
  replace (cost <=? 0) with false by lia. replace (ret <? 0) with false by lia.
  by eexists.
Qed.

Lemma calculateRoundTrip_spec buy sell rt :
  calculateRoundTrip buy sell = Ok rt ->
  valid_quote buy /\ valid_quote sell
  /\ q_inputMint sell = q_outputMint buy /\ q_outputMint sell = q_inputMint buy
  /\ q_amountInRaw sell = q_minimumAmountOutRaw buy
  /\ rt_quoteCostRaw rt = q_amountInRaw buy /\ rt_baseFilledRaw rt = q_minimumAmountOutRaw buy
  /\ rt_returnRaw rt = q_minimumAmountOutRaw sell
  /\ rt_lossRaw rt = Z.max 0 (q_amountInRaw buy - q_minimumAmountOutRaw sell)
  /\ calculateLossBps (q_amountInRaw buy) (q_minimumAmountOutRaw sell) = Ok (rt_lossBps rt).
Proof.
  unfold calculateRoundTrip. intros H. result_inv. bool_prop.
  split_and!; eauto using validatePaperQuote_valid; cbn; try done.
  destruct (_ <? _) eqn:?; bool_prop; lia.
Qed.

(** * Properties *)

(** The round-trip loss the ledger and the entry gates compare with their
    ceiling is exact: for a cost and a return it is the least number of basis
    points that covers the shortfall, it is between 0 and 10000, it is zero
    exactly when nothing is lost, and a larger return never raises it. *)
Theorem calculateLossBps_exact (cost ret ret' bps bps' : Z)
    (H : calculateLossBps cost ret = Ok bps) (H' : calculateLossBps cost ret' = Ok bps')
    (Hle : ret <= ret') :
  0 <= bps <= MAX_BPS
  /\ (forall k, 0 <= k -> (cost - ret) * MAX_BPS <= k * cost <-> bps <= k)
  /\ (bps = 0 <-> cost <= ret)
  /\ bps' <= bps.
Proof.
  apply calculateLossBps_spec in H as (Hc & Hr & Hb & Hx).
  apply calculateLossBps_spec in H' as (_ & Hr' & Hb' & Hx').
  unfold MAX_BPS in *. split_and!; try lia.
  - intros k Hk. split; intros; nia.
  - split; intros; nia.
  - destruct (decide (bps' <= bps)); [done|]. nia.
Qed.

Lemma calculateLossBps_exact_witness :
  calculateLossBps 3000 2990 = Ok 34
  /\ (0 <= 34 <= MAX_BPS
      /\ (forall k, 0 <= k -> (3000 - 2990) * MAX_BPS <= k * 3000 <-> 34 <= k)
      /\ (34 = 0 <-> 3000 <= 2990) /\ 34 <= 34).
Proof.
  split; [reflexivity|].
  apply (calculateLossBps_exact 3000 2990 2990 34 34); [reflexivity | reflexivity | lia].
Defined.

(** a fast entry says BUY only for a coherent pair of quotes (each valid, the
    sale the exact reverse of the conservative fill of the purchase) whose
    executable loss is within the ceiling: selling back what was conservatively
    filled returns at least the cost less the ceiling's share. *)
Theorem decideFastEntryQuotes_buy_safe (buy sell : PaperExecutionQuote) (ceiling loss : Z)
    (H : decideFastEntryQuotes buy sell ceiling = Ok (FastBuy loss)) :
  valid_quote buy /\ valid_quote sell
  /\ q_inputMint sell = q_outputMint buy /\ q_outputMint sell = q_inputMint buy
  /\ q_amountInRaw sell = q_minimumAmountOutRaw buy
  /\ 0 <= loss <= ceiling
  /\ q_amountInRaw buy * (MAX_BPS - ceiling) <= q_minimumAmountOutRaw sell * MAX_BPS.
Proof.
  unfold decideFastEntryQuotes in H.
  destruct (calculateRoundTrip buy sell) as [rt|[]] eqn:Hrt; try done.
  apply calculateRoundTrip_spec in Hrt as (Hb & Hs & Hi & Ho & Ha & _ & _ & _ & _ & Hl).
  destruct (ceiling <? rt_lossBps rt) eqn:Hc; [done|]. injection H as <-. bool_prop.
  apply calculateLossBps_spec in Hl as (? & ? & ? & ?). unfold MAX_BPS in *.
  split_and!; try done; try lia; nia.
Qed.

Definition sample_buy_quote : PaperExecutionQuote :=
  {| q_id := "buy"; q_inputMint := NATIVE_SOL_MINT; q_outputMint := "mint";
     q_amountInRaw := 1000000; q_amountOutRaw := 5000; q_minimumAmountOutRaw := 4900;
     q_feesRaw := 100; q_slippageBps := 200; q_priceImpactBps := 10;
     q_observedAtMs := 1000; q_observedSlot := 42 |}.
Definition sample_sell_quote : PaperExecutionQuote :=
  {| q_id := "sell"; q_inputMint := "mint"; q_outputMint := NATIVE_SOL_MINT;
     q_amountInRaw := 4900; q_amountOutRaw := 990000; q_minimumAmountOutRaw := 970000;
     q_feesRaw := 100; q_slippageBps := 200; q_priceImpactBps := 10;
     q_observedAtMs := 1001; q_observedSlot := 42 |}.

Lemma decideFastEntryQuotes_buy_safe_witness :
  decideFastEntryQuotes sample_buy_quote sample_sell_quote 500 = Ok (FastBuy 300)
  /\ q_amountInRaw sample_buy_quote * (MAX_BPS - 500)
     <= q_minimumAmountOutRaw sample_sell_quote * MAX_BPS.
Proof.
  split; [reflexivity|].
  apply (decideFastEntryQuotes_buy_safe sample_buy_quote sample_sell_quote 500 300). reflexivity.
Defined.
