(* ===== verification/JsValue.v ===== *)
(** Values of type [unknown].

    The policy modules take [unknown] and check its shape themselves: proxies,
    prototypes, symbol keys, accessors, non-enumerable properties, negative
    zero.  [js] is a JavaScript value with what those checks can see, and the
    readers below are the shared checking functions of
    [src/src/domain/execution-risk-policy.ts] and
    [src/src/domain/execution-fault-policy.ts].  Every failure in those modules
    ends in one error class, so a reader is a partial function: [None] is a
    throw. *)
From S2P Require Import Prelude Text.
Local Open Scope Z_scope.

(** A [number]: an integer other than the negative zero, the negative zero, or
    any other double (a fraction, an infinity, NaN). *)
Inductive jsnum :=
| NumInt (z : Z)
| NumNegZero
| NumOther.

Inductive js_proto := ObjectPrototype | NullPrototype | OtherPrototype.
Inductive js_key := KeyString (s : string) | KeySymbol.
Global Instance js_key_eq_dec : EqDecision js_key.
Proof. solve_decision. Defined.

(** A property is its [enumerable] flag and its value, [None] for an accessor.
    An array maps an index to its own property, [None] for a hole; it is [plain] when
    its prototype is [Array.prototype] and it has no own keys but indices and [length]. *)
Inductive js :=
| JUndefined
| JNull
| JBool (b : bool)
| JNumber (n : jsnum)
| JBigInt (z : Z)
| JString (s : string)
| JArray (proxy plain frozen : bool) (items : list (option (bool * option js)))
| JObject (proxy : bool) (proto : js_proto) (frozen : bool)
    (props : list (js_key * (bool * option js))).

(** An own enumerable data property. *)
Definition data (v : js) : bool * option js := (true, Some v).

(** src/src/domain/execution-risk-policy.ts:454-458 (isPlainObject) *)
Definition isPlainObject (v : js) : bool :=
  match v with
  | JObject false ObjectPrototype _ _ | JObject false NullPrototype _ _ => true
  | _ => false
  end.

(** src/src/domain/execution-risk-policy.ts:460-462 (isFrozenPlainObject) *)
Definition isFrozenPlainObject (v : js) : bool :=
  isPlainObject v && match v with JObject _ _ frozen _ => frozen | _ => false end.

(** [Object.getOwnPropertyDescriptor(value, key)] *)
Fixpoint own_property (props : list (js_key * (bool * option js))) (key : string)
    : option (bool * option js) :=
  match props with
  | [] => None
  | (k, p) :: props' =>
      if bool_decide (k = KeyString key) then Some p else own_property props' key
  end.

(** [descriptor === undefined || !descriptor.enumerable || !('value' in descriptor)]
    throws; otherwise [descriptor.value]. *)
Definition descriptor_value (d : option (bool * option js)) : option js :=
  match d with
  | Some (true, Some v) => Some v
  | _ => None
  end.

Definition record := list (string * js).

(** src/src/domain/execution-risk-policy.ts:428-443 (exactRecord) *)
Definition exactRecord (v : js) (keys : list string) : option record :=
  match v with
  | JObject _ _ _ props =>
      if negb (isPlainObject v) then None
      else if negb (Nat.eqb (length props) (length keys))
        || existsb (fun p => match fst p with
                             | KeySymbol => true
                             | KeyString k => negb (includes k keys)
                             end) props
      then None
      else mapM (fun key => x ← descriptor_value (own_property props key); Some (key, x)) keys
  | _ => None
  end.

(** [record.key] *)
Fixpoint field (r : record) (key : string) : js :=
  match r with
  | [] => JUndefined
  | (k, v) :: r' => if bool_decide (k = key) then v else field r' key
  end.

(** src/src/domain/execution-risk-policy.ts:445-452 (pick) *)
Definition pick (r : record) (keys : list string) : record :=
  map (fun k => (k, field r k)) keys.

(** A frozen object with these own properties, e.g. [Object.freeze(pick(...))]. *)
Definition frozen_object (proto : js_proto) (r : record) : js :=
  JObject false proto true (map (fun kv => (KeyString (fst kv), data (snd kv))) r).

(** src/src/domain/execution-risk-policy.ts:406-409 (boundedBigint) *)
Definition boundedBigint (v : js) (lo hi : Z) : option Z :=
  match v with
  | JBigInt z => if (z <? lo) || (hi <? z) then None else Some z
  | _ => None
  end.

(** src/src/domain/execution-risk-policy.ts:390-400 (unsignedBigint, positiveBigint, nullableUnsignedBigint) *)
Definition unsignedBigint (v : js) : option Z := boundedBigint v 0 U64_MAX.
Definition positiveBigint (v : js) : option Z := boundedBigint v 1 U64_MAX.
Definition nullableUnsignedBigint (v : js) : option (option Z) :=
  match v with
  | JNull => Some None
  | _ => z ← unsignedBigint v; Some (Some z)
  end.
(** src/src/domain/execution-risk-policy.ts:402-404 (signedBigint) *)
Definition signedBigint (v : js) : option Z := boundedBigint v I128_MIN I128_MAX.

(** The numeric value of a safe integer; the negative zero is zero. *)
Definition safe_integer_value (v : js) : option Z :=
  match v with
  | JNumber (NumInt z) => if is_safe_integer z then Some z else None
  | JNumber NumNegZero => Some 0
  | _ => None
  end.

(** src/src/domain/execution-risk-policy.ts:411-415 (boundedInteger) *)
Definition boundedInteger (v : js) (lo hi : Z) : option Z :=
  z ← safe_integer_value v;
  if (z <? lo) || (hi <? z) then None else Some z.

(** src/src/domain/execution-risk-policy.ts:417-421 (text) *)
Definition bounded_text (v : js) (maximumBytes : Z) : option string :=
  match v with
  | JString s => if is_empty s || (maximumBytes <? byte_length s) then None else Some s
  | _ => None
  end.

(** src/src/domain/execution-risk-policy.ts:423-426 (fingerprintFrom) *)
Definition fingerprintFrom (v : js) : option string :=
  match v with
  | JString s => if is_sha256_hex s then Some s else None
  | _ => None
  end.

(** src/src/domain/execution-fault-policy.ts:105-111 (enumValue) *)
Definition enumValue {A} (names : list (string * A)) (v : js) : option A :=
  match v with
  | JString s => snd <$> List.find (fun p => bool_decide (fst p = s)) names
  | _ => None
  end.

(** src/src/domain/execution-fault-policy.ts:113-116 (nonNegativeInteger) *)
Definition nonNegativeInteger (v : js) : option Z :=
  z ← safe_integer_value v; if z <? 0 then None else Some z.

(** src/src/domain/execution-fault-policy.ts:118-121 (booleanValue) *)
Definition booleanValue (v : js) : option bool :=
  match v with
  | JBool b => Some b
  | _ => None
  end.

(** * Lemmas *)

Lemma boundedBigint_Some v lo hi z :
  boundedBigint v lo hi = Some z <-> v = JBigInt z /\ lo <= z <= hi.
Proof.
  destruct v; cbn; try naive_solver. destruct (_ || _) eqn:E.
  - apply orb_true_iff in E as [E|E]; bool_prop; naive_solver lia.
  - bool_prop. naive_solver.
Qed.

Lemma boundedInteger_Some v lo hi z :
  boundedInteger v lo hi = Some z -> lo <= z <= hi /\ - MAX_SAFE_INTEGER <= z <= MAX_SAFE_INTEGER.
Proof.
  unfold boundedInteger. destruct (safe_integer_value v) as [y|] eqn:Hv; cbn; [|done].
  destruct (_ || _) eqn:E; [done|]. intros [= <-]. bool_prop. split; [lia|].
  destruct v as [| | |[| |]| | | |]; cbn in Hv; try done.
  - destruct (is_safe_integer _) eqn:Hs; [|done]. injection Hv as <-. by bool_prop.
  - injection Hv as <-. unfold MAX_SAFE_INTEGER. lia.
Qed.

Ltac option_inv :=
  repeat match goal with
  | H : _ /\ _ |- _ => destruct H
  | H : exists _, _ |- _ => destruct H
  | H : Some _ = Some _ |- _ => injection H as H; subst
  | H : None = Some _ |- _ => discriminate H
  | H : (if ?b then None else _) = Some _ |- _ => destruct b eqn:?; [discriminate H|]
  | H : (if ?b then _ else None) = Some _ |- _ => destruct b eqn:?; [|discriminate H]
  | H : (_ ≫= _) = Some _ |- _ => apply bind_Some in H
  | H : boundedBigint _ _ _ = Some _ |- _ => apply boundedBigint_Some in H
  | H : boundedInteger _ _ _ = Some _ |- _ => apply boundedInteger_Some in H
  end.

Lemma bounded_text_Some v m s :
  bounded_text v m = Some s <-> v = JString s /\ s <> ""%string /\ byte_length s <= m.
Proof.
  destruct v; cbn; try naive_solver. unfold is_empty.
  destruct (bool_decide _) eqn:E1; bool_prop; cbn; [naive_solver|].
  destruct (_ <? _) eqn:E2; bool_prop; naive_solver lia.
Qed.

(** Reading back a frozen record gives its fields. *)
Lemma own_property_frozen (r : record) key :
  own_property (map (fun kv => (KeyString (fst kv), data (snd kv))) r) key =
  match List.find (fun kv => bool_decide (fst kv = key)) r with
  | Some kv => Some (data (snd kv))
  | None => None
  end.
Proof.
  induction r as [|[k v] r IH]; cbn; [done|].
  destruct (decide (k = key)) as [->|Hne].
  - by rewrite !bool_decide_eq_true_2.
  - rewrite !bool_decide_eq_false_2 by naive_solver. done.
Qed.

Lemma field_find (r : record) key :
  field r key = match List.find (fun kv => bool_decide (fst kv = key)) r with
                | Some kv => snd kv
                | None => JUndefined
                end.
Proof.
  induction r as [|[k v] r IH]; cbn; [done|]. by destruct (bool_decide (k = key)).
Qed.

Lemma exactRecord_frozen (proto : js_proto) (keys : list string) (f : string -> js) :
  proto <> OtherPrototype ->
  exactRecord (frozen_object proto (map (fun k => (k, f k)) keys)) keys
  = Some (map (fun k => (k, f k)) keys).
Proof.
  intros Hproto. unfold exactRecord, frozen_object.
  assert (isPlainObject (JObject false proto true (map (fun kv : string * js =>
    (KeyString kv.1, data kv.2)) (map (fun k => (k, f k)) keys))) = true) as -> by (by destruct proto).
  cbn [negb].
  rewrite !length_map, Nat.eqb_refl. cbn [negb orb].
  match goal with |- (if existsb ?g ?l then _ else _) = _ => assert (existsb g l = false) as -> end.
  { apply not_true_is_false. rewrite existsb_exists. intros ([k p] & Hin & Hk).
    rewrite map_map in Hin. apply in_map_iff in Hin as (k' & [= <- <-] & Hin'). cbn in Hk.
    apply negb_true_iff, includes_false in Hk. by apply Hk, list_elem_of_In. }
  assert (forall ks, incl ks keys ->
    mapM (fun key => x ← descriptor_value
      (own_property (map (fun kv : string * js => (KeyString kv.1, data kv.2))
         (map (fun k => (k, f k)) keys)) key); Some (key, x)) ks
    = Some (map (fun k => (k, f k)) ks)) as Hgen.
  { induction ks as [|k ks IH]; intros Hincl; [done|]. cbn.
    assert (own_property (map (fun kv : string * js => (KeyString kv.1, data kv.2))
      (map (fun k => (k, f k)) keys)) k = Some (data (f k))) as ->.
    { rewrite own_property_frozen.
      assert (exists kv, List.find (fun kv => bool_decide (fst kv = k))
        (map (fun k => (k, f k)) keys) = Some kv /\ kv = (k, f k)) as (kv & -> & ->); [|done].
      pose proof (Hincl k ltac:(by left)) as Hin. clear Hincl IH.
      induction keys as [|k' keys' IH]; [done|]. cbn.
      destruct (bool_decide_reflect (k' = k)) as [->|Hne]; [by eexists|].
      destruct Hin as [->|Hin]; [done|]. by apply IH. }
    cbn. rewrite IH; [done|]. intros x Hx. apply Hincl. by right. }
  cbn match. apply Hgen, incl_refl.
Qed.

Lemma field_map (keys : list string) (f : string -> js) key :
  key ∈ keys -> field (map (fun k => (k, f k)) keys) key = f key.
Proof.
  induction keys as [|k keys IH]; cbn; intros Hin; [by apply not_elem_of_nil in Hin|].
  destruct (bool_decide_reflect (k = key)) as [->|Hne]; [done|].
  apply IH. apply elem_of_cons in Hin as [->|]; done.
Qed.

Ltac read_field :=
  match goal with
  | |- context [field (map (fun k => (k, ?g k)) ?ks) ?key] =>
      rewrite (field_map ks g key) by (by apply (bool_decide_unpack _))
  end.

(** [Object.freeze([...])] *)
Definition frozen_array (l : list js) : js :=
  JArray false true true (map (fun v => Some (data v)) l).

Lemma frozen_array_items (l : list js) :
  mapM descriptor_value (map (fun v => Some (data v)) l) = Some l.
Proof. induction l as [|v l IH]; [done|]. cbn. by rewrite IH. Qed.
