(* ===== verification/PublicKey.v ===== *)
(** [src/src/domain/solana-public-key.ts]: is a text the canonical base-58 form of a public
    key?  The function decodes the text into base 256 by long multiplication on an array of
    bytes, least significant first. *)
From S2P Require Import Prelude Text.
From Stdlib Require Import Ascii String.
Local Open Scope list_scope.
Local Open Scope Z_scope.

(** src/src/domain/solana-public-key.ts:1-4 *)
Definition BASE58_ALPHABET : string :=
  "123456789ABCDEFGHJKLMNPQRSTUVWXYZabcdefghijkmnopqrstuvwxyz".
Definition MIN_PUBLIC_KEY_TEXT_BYTES : Z := 32.
Definition MAX_PUBLIC_KEY_TEXT_BYTES : Z := 44.
Definition PUBLIC_KEY_BYTES : nat := 32.

(** src/src/domain/solana-public-key.ts:6-8 (BASE58_VALUES) *)
Definition BASE58_VALUES (c : ascii) : option Z :=
  (Z.of_nat ∘ fst) <$> list_find (eq c) (chars BASE58_ALPHABET).

(** src/src/domain/solana-public-key.ts:15-19: the leading ones. *)
Fixpoint leading_ones (l : list ascii) : nat :=
  match l with
  | c :: l' => if Ascii.eqb c "1"%char then S (leading_ones l') else 0
  | [] => 0
  end.

(** src/src/domain/solana-public-key.ts:30-33: the bytes of the last carry.  A carry is a
    32-bit integer, so four turns are enough. *)
Fixpoint push_carry (turns : nat) (carry : Z) : list Z :=
  match turns with
  | O => []
  | S turns =>
      if 0 <? carry then Z.land carry 255 :: push_carry turns (Z.shiftr carry 8) else []
  end.
(** src/src/domain/solana-public-key.ts:24-33: multiply by 58 and add a digit, in place. *)
Fixpoint multiply_add (decoded : list Z) (carry : Z) : list Z :=
  match decoded with
  | [] => push_carry 4 carry
  | d :: decoded =>
      let next := d * 58 + carry in
      Z.land next 255 :: multiply_add decoded (Z.shiftr next 8)
  end.
(** src/src/domain/solana-public-key.ts:20-34: [None] is the early [return false]. *)
Fixpoint decode_base58 (value : list ascii) (decodedLittleEndian : list Z) : option (list Z) :=
  match value with
  | [] => Some decodedLittleEndian
  | character :: value =>
      digit ← BASE58_VALUES character;
      decode_base58 value (multiply_add decodedLittleEndian digit)
  end.

(** src/src/domain/solana-public-key.ts:10-39 (isCanonicalSolanaPublicKey) *)
Definition isCanonicalSolanaPublicKey (value : string) : bool :=
  if (byte_length value <? MIN_PUBLIC_KEY_TEXT_BYTES) || (MAX_PUBLIC_KEY_TEXT_BYTES <? byte_length value)
     || negb (bool_decide (value = trim value)) then false
  else match decode_base58 (chars value) [0] with
  | None => false
  | Some decodedLittleEndian =>
      let nonZeroBytes := if bool_decide (decodedLittleEndian = [0]) then 0%nat
                          else List.length decodedLittleEndian in
      (leading_ones (chars value) + nonZeroBytes =? PUBLIC_KEY_BYTES)%nat
  end.

(** * Base 58, as it is defined *)

Definition base58_char (d : Z) : ascii :=
  default "1"%char (chars BASE58_ALPHABET !! Z.to_nat d).
(** The digits of a number, most significant first; none for zero. *)
Fixpoint base58_digits (fuel : nat) (n : Z) (acc : list ascii) : list ascii :=
  match fuel with
  | O => acc
  | S fuel => if n =? 0 then acc else base58_digits fuel (n / 58) (base58_char (n mod 58) :: acc)
  end.
(** The number whose bytes are given, most significant first. *)
Definition be_value (bytes : list Z) : Z := fold_left (fun n b => n * 256 + b) bytes 0.
Fixpoint leading_zeros (bytes : list Z) : nat :=
  match bytes with
  | b :: bytes => if b =? 0 then S (leading_zeros bytes) else 0
  | [] => 0
  end.
(** Base-58 encoding: a one for each leading zero byte, then the digits of the number. *)
Definition base58_encode (bytes : list Z) : list ascii :=
  repeat "1"%char (leading_zeros bytes)
  ++ base58_digits (2 * List.length bytes) (be_value bytes) [].
Definition is_byte (b : Z) : Prop := 0 <= b < 256.

(** * Lemmas: the alphabet *)

Lemma base58_value_range c d : BASE58_VALUES c = Some d -> 0 <= d < 58.
Proof.
  unfold BASE58_VALUES. intros ((i & x) & Hf & ->)%fmap_Some. cbn.
  apply list_find_Some in Hf as (Hl & _ & _). apply lookup_lt_Some in Hl. cbn in Hl. lia.
Qed.
Lemma base58_value_char d : 0 <= d < 58 -> BASE58_VALUES (base58_char d) = Some d.
Proof.
  intros Hd. assert (Forall (fun n => BASE58_VALUES (base58_char (Z.of_nat n)) = Some (Z.of_nat n)) (seq 0 58)) as Hall
    by (apply Forall_forall; intros n Hn; apply elem_of_seq in Hn;
        do 58 (destruct n as [|n]; [vm_compute; reflexivity|]); lia).
  rewrite Forall_forall in Hall. specialize (Hall (Z.to_nat d)). rewrite Z2Nat.id in Hall by lia.
  apply Hall, elem_of_seq. lia.
Qed.
Lemma base58_char_value c d : BASE58_VALUES c = Some d -> c = base58_char d.
Proof.
  unfold BASE58_VALUES, base58_char. intros ((i & x) & Hf & ->)%fmap_Some. cbn -[chars BASE58_ALPHABET].
  apply list_find_Some in Hf as (Hl & -> & _). by rewrite Nat2Z.id, Hl.
Qed.
Lemma base58_value_one c d : BASE58_VALUES c = Some d -> (d = 0 <-> c = "1"%char).
Proof.
  intros Hc. split.
  - intros ->. by apply base58_char_value in Hc.
  - intros ->. cbn in Hc. by injection Hc as <-.
Qed.

(** * Lemmas: long multiplication *)

Definition le_value (l : list Z) : Z := foldr (fun b n => b + 256 * n) 0 l.
(** No superfluous most significant byte: the array is that of zero, or its last byte is
    not zero. *)
Definition normal (l : list Z) : Prop := l = [0] \/ exists l' b, l = l' ++ [b] /\ b <> 0.

Lemma split_byte n : 0 <= n -> n = Z.land n 255 + 256 * Z.shiftr n 8 /\ is_byte (Z.land n 255).
Proof.
  intros Hn. change 255 with (Z.ones 8). rewrite Z.land_ones, Z.shiftr_div_pow2 by lia.
  change (2 ^ 8) with 256. split; [|apply Z.mod_pos_bound; lia].
  pose proof (Z.div_mod n 256). lia.
Qed.
Lemma push_carry_small c : 0 <= c < 256 -> push_carry 4 c = if 0 <? c then [c] else [].
Proof.
  intros Hc. cbn. destruct (0 <? c) eqn:E; [|done].
  destruct (split_byte c) as [Hs Hb]; [lia|]. unfold is_byte in Hb.
  assert (Z.shiftr c 8 = 0) as H0 by (rewrite Z.shiftr_div_pow2 by lia; apply Z.div_small; done).
  rewrite H0 in *. cbn. f_equal. lia.
Qed.

Lemma multiply_add_spec l c :
  Forall is_byte l -> 0 <= c < 58 ->
  Forall is_byte (multiply_add l c) /\ le_value (multiply_add l c) = 58 * le_value l + c
  /\ forall l' b, l = l' ++ [b] -> b <> 0 -> exists m d, multiply_add l c = m ++ [d] /\ d <> 0.
Proof.
  revert c. induction l as [|x l IH]; intros c Hl Hc.
  - cbn [multiply_add]. rewrite push_carry_small by lia. split_and!.
    + destruct (0 <? c); repeat constructor; lia.
    + destruct (0 <? c) eqn:E; cbn; lia.
    + intros l' b E. by destruct l'.
  - apply Forall_cons in Hl as [Hx Hl]. unfold is_byte in Hx. cbn [multiply_add].
    destruct (split_byte (x * 58 + c)) as [Hs Hb]; [lia|]. unfold is_byte in Hb.
    set (q := Z.shiftr (x * 58 + c) 8) in *. set (r := Z.land (x * 58 + c) 255) in *.
    assert (0 <= q < 58) as Hq by lia.
    destruct (IH q Hl Hq) as (H1 & H2 & H3). split_and!.
    + by constructor.
    + cbn [le_value foldr]. change (foldr _ 0 (multiply_add l q)) with (le_value (multiply_add l q)).
      change (foldr _ 0 l) with (le_value l). lia.
    + intros [|y l'] b E Hne; cbn in E; injection E as -> E.
      * subst l. cbn [multiply_add]. rewrite push_carry_small by lia.
        destruct (0 <? q) eqn:Eq.
        -- exists [r], q. split; [done|lia].
        -- exists [], r. split; [done|lia].
      * destruct (H3 l' b E Hne) as (m & d & -> & Hd). by exists (r :: m), d.
Qed.
Lemma multiply_add_normal l c :
  Forall is_byte l -> 0 <= c < 58 -> normal l -> normal (multiply_add l c).
Proof.
  intros Hl Hc [->|(l' & b & E & Hb)].
  - cbn [multiply_add]. replace (0 * 58 + c) with c by lia.
    destruct (split_byte c) as [Hs Hb]; [lia|]. unfold is_byte in Hb.
    assert (Z.shiftr c 8 = 0) as H0 by (rewrite Z.shiftr_div_pow2 by lia; apply Z.div_small; lia).
    rewrite H0 in *. cbn. destruct (decide (c = 0)) as [->|Hne]; [by left|right].
    exists [], (Z.land c 255). split; [done|lia].
  - right. destruct (multiply_add_spec l c Hl Hc) as (_ & _ & H). by eapply H.
Qed.

(** The number a base-58 text stands for. *)
Fixpoint text_value (l : list ascii) (n : Z) : option Z :=
  match l with
  | [] => Some n
  | c :: l => d ← BASE58_VALUES c; text_value l (n * 58 + d)
  end.
Lemma decode_base58_spec l bytes :
  Forall is_byte bytes -> normal bytes ->
  match text_value l (le_value bytes) with
  | None => decode_base58 l bytes = None
  | Some n => exists bytes', decode_base58 l bytes = Some bytes' /\ Forall is_byte bytes'
                /\ normal bytes' /\ le_value bytes' = n
  end.
Proof.
  revert bytes. induction l as [|c l IH]; intros bytes Hb Hn; cbn -[BASE58_VALUES]; [by exists bytes|].
  destruct (BASE58_VALUES c) as [d|] eqn:Hd; cbn [mbind option_bind]; [|done].
  pose proof (base58_value_range _ _ Hd) as Hr.
  destruct (multiply_add_spec bytes d Hb Hr) as (H1 & H2 & _).
  replace (le_value bytes * 58 + d) with (le_value (multiply_add bytes d)) by lia.
  apply IH; [done|]. by apply multiply_add_normal.
Qed.

(** * Lemmas: sizes *)

Lemma le_value_app l l' : le_value (l ++ l') = le_value l + 256 ^ Z.of_nat (List.length l) * le_value l'.
Proof.
  induction l as [|b l IH]; [change (le_value l' = 0 + 1 * le_value l'); lia|].
  cbn [app le_value foldr List.length].
  change (foldr _ 0 (l ++ l')) with (le_value (l ++ l')). change (foldr _ 0 l) with (le_value l).
  rewrite IH, Nat2Z.inj_succ, Z.pow_succ_r by lia. lia.
Qed.
Lemma le_value_bound l : Forall is_byte l -> 0 <= le_value l < 256 ^ Z.of_nat (List.length l).
Proof.
  induction 1 as [|b l Hb Hl IH]; [cbn; lia|]. cbn [le_value foldr List.length].
  change (foldr _ 0 l) with (le_value l). unfold is_byte in Hb.
  rewrite Nat2Z.inj_succ, Z.pow_succ_r by lia. lia.
Qed.
(** The array of a positive number has its size in bytes. *)
Lemma normal_size l n :
  Forall is_byte l -> normal l -> l <> [0] -> (0 < n)%nat ->
  256 ^ (Z.of_nat n - 1) <= le_value l < 256 ^ Z.of_nat n -> List.length l = n.
Proof.
  intros Hl [->|(l' & b & -> & Hb)] Hne Hn Hv; [done|].
  apply Forall_app in Hl as [Hl' Hbb]. apply Forall_cons in Hbb as [Hbb _]. unfold is_byte in Hbb.
  pose proof (le_value_bound l' Hl') as Hl. rewrite le_value_app in Hv. cbn [le_value foldr] in Hv.
  rewrite length_app. cbn [List.length].
  set (m := List.length l') in *. set (p := 256 ^ Z.of_nat m) in *.
  assert (p <= le_value l' + p * (b + 256 * 0) < 256 ^ Z.of_nat (S m)) as Hm.
  { rewrite Nat2Z.inj_succ, Z.pow_succ_r by lia. fold p. nia. }
  destruct (Nat.lt_trichotomy (m + 1) n) as [Hlt|[Heq|Hgt]]; [|done|]; exfalso.
  - assert (256 ^ Z.of_nat (S m) <= 256 ^ (Z.of_nat n - 1)) by (apply Z.pow_le_mono_r; lia). lia.
  - assert (256 ^ Z.of_nat n <= p) by (apply Z.pow_le_mono_r; lia). lia.
Qed.

(** * Lemmas: texts *)

(** Not starting with the zero digit. *)
Definition significant (l : list ascii) : Prop := forall l', l <> "1"%char :: l'.

Lemma text_value_app l l' n :
  text_value (l ++ l') n = (m ← text_value l n; text_value l' m).
Proof.
  revert n. induction l as [|c l IH]; intros n; cbn [app text_value]; [done|].
  destruct (BASE58_VALUES c); cbn [mbind option_bind]; [apply IH|done].
Qed.
Lemma text_value_bound l n m :
  0 <= n -> text_value l n = Some m ->
  n * 58 ^ Z.of_nat (List.length l) <= m < (n + 1) * 58 ^ Z.of_nat (List.length l).
Proof.
  revert n. induction l as [|c l IH]; intros n Hn H; cbn [text_value List.length] in *.
  - injection H as <-. change (58 ^ Z.of_nat 0) with 1. lia.
  - apply bind_Some in H as (d & Hd & H). apply base58_value_range in Hd.
    apply IH in H; [|lia]. rewrite Nat2Z.inj_succ, Z.pow_succ_r by lia. nia.
Qed.
Lemma significant_bound c l m :
  significant (c :: l) -> text_value (c :: l) 0 = Some m -> 58 ^ Z.of_nat (List.length l) <= m.
Proof.
  intros Hs H. cbn [text_value] in H. apply bind_Some in H as (d & Hd & H).
  pose proof (base58_value_range _ _ Hd) as Hr.
  assert (d <> 0) as Hne by (intros E; apply (base58_value_one _ _ Hd) in E as ->; by apply (Hs l)).
  apply text_value_bound in H; [|lia]. nia.
Qed.

Lemma digits_app fuel n acc : base58_digits fuel n acc = base58_digits fuel n [] ++ acc.
Proof.
  revert n acc. induction fuel as [|fuel IH]; intros n acc; cbn; [done|].
  destruct (n =? 0); [done|]. rewrite IH, (IH _ [_]). by rewrite <- app_assoc.
Qed.
Lemma digits_value fuel n :
  0 <= n < 58 ^ Z.of_nat fuel ->
  text_value (base58_digits fuel n []) 0 = Some n /\ significant (base58_digits fuel n []).
Proof.
  revert n. induction fuel as [|fuel IH]; intros n Hn.
  - change (58 ^ Z.of_nat 0) with 1 in Hn. split; [cbn; f_equal; lia|by intros l'].
  - rewrite Nat2Z.inj_succ, Z.pow_succ_r in Hn by lia. cbn [base58_digits].
    destruct (n =? 0) eqn:E; bool_prop; [subst; split; [done|by intros l']|].
    pose proof (Z.div_mod n 58 ltac:(lia)) as Hdm. pose proof (Z.mod_pos_bound n 58 ltac:(lia)) as Hmod.
    assert (0 <= n / 58 < 58 ^ Z.of_nat fuel) as Hq by (split; [apply Z.div_pos; lia|apply Z.div_lt_upper_bound; lia]).
    destruct (IH (n / 58) Hq) as [Hv Hs]. rewrite digits_app, text_value_app, Hv.
    cbn [mbind option_bind text_value]. rewrite base58_value_char by lia. cbn [mbind option_bind]. split; [f_equal; lia|].
    destruct (base58_digits fuel (n / 58) []) as [|c l] eqn:El.
    + intros l' [= Hc _]. cbn in Hv. injection Hv as Hv.
      assert (n mod 58 = 0) as H0 by (apply (base58_value_one (base58_char (n mod 58))); [apply base58_value_char; lia|done]).
      lia.
    + intros l' [= -> _]. by apply (Hs l).
Qed.
(** A significant text is the only one with its value. *)
Lemma significant_inj l l' n :
  significant l -> significant l' -> text_value l 0 = Some n -> text_value l' 0 = Some n -> l = l'.
Proof.
  revert l' n. induction l as [|c l IH] using rev_ind; intros l' n Hs Hs' Hv Hv'.
  - cbn in Hv. injection Hv as <-. destruct l' as [|c l']; [done|].
    apply significant_bound in Hv'; [|done]. assert (0 < 58 ^ Z.of_nat (List.length l')) by (apply Z.pow_pos_nonneg; lia). lia.
  - destruct l' as [|c' l' _] using rev_ind.
    { cbn in Hv'. injection Hv' as <-. destruct (l ++ [c]) as [|x m] eqn:E; [by destruct l|].
      apply significant_bound in Hv; [|done]. assert (0 < 58 ^ Z.of_nat (List.length m)) by (apply Z.pow_pos_nonneg; lia). lia. }
    rewrite text_value_app in Hv, Hv'. apply bind_Some in Hv as (m & Hm & Hv), Hv' as (m' & Hm' & Hv').
    cbn [text_value] in Hv, Hv'. apply bind_Some in Hv as (d & Hd & [= Hv]), Hv' as (d' & Hd' & [= Hv']).
    pose proof (base58_value_range _ _ Hd). pose proof (base58_value_range _ _ Hd').
    assert (m = m' /\ d = d') as [<- <-] by lia. f_equal.
    + apply IH with m; try done.
      * intros k ->. by apply (Hs (k ++ [c])).
      * intros k ->. by apply (Hs' (k ++ [c'])).
    + apply base58_char_value in Hd as ->, Hd' as ->. done.
Qed.

Lemma ones_split l : exists rest, l = repeat "1"%char (leading_ones l) ++ rest /\ significant rest.
Proof.
  induction l as [|c l (rest & E & Hs)]; [by exists []; split; [|intros l']|]. cbn [leading_ones].
  destruct (Ascii.eqb_spec c "1"%char) as [->|Hne].
  - exists rest. split; [|done]. cbn. by f_equal.
  - exists (c :: l). split; [done|]. by intros l' [= -> _].
Qed.
Lemma leading_ones_app z rest :
  significant rest -> leading_ones (repeat "1"%char z ++ rest) = z.
Proof.
  intros Hs. induction z as [|z IH]; cbn; [|by rewrite IH].
  destruct rest as [|c rest]; [done|]. cbn. destruct (Ascii.eqb_spec c "1"%char) as [->|]; [|done].
  by destruct (Hs rest).
Qed.
Lemma ones_value z rest : text_value (repeat "1"%char z ++ rest) 0 = text_value rest 0.
Proof. induction z as [|z IH]; [done|]. exact IH. Qed.

(** * Lemmas: bytes *)

Lemma be_value_app l b : be_value (l ++ [b]) = be_value l * 256 + b.
Proof. unfold be_value. by rewrite fold_left_app. Qed.
Lemma be_value_rev l : be_value (rev l) = le_value l.
Proof.
  induction l as [|b l IH]; [done|]. cbn [rev]. rewrite be_value_app, IH.
  cbn [le_value foldr]. change (foldr _ 0 l) with (le_value l). lia.
Qed.
Lemma be_value_zeros z l : be_value (repeat 0 z ++ l) = be_value l.
Proof. unfold be_value. rewrite fold_left_app. f_equal. by induction z. Qed.
Lemma zeros_split bytes :
  exists rest, bytes = repeat 0 (leading_zeros bytes) ++ rest
               /\ (rest = [] \/ exists b l, rest = b :: l /\ b <> 0).
Proof.
  induction bytes as [|b bytes (rest & E & Hr)]; [exists []; by split; [|left]|]. cbn [leading_zeros].
  destruct (b =? 0) eqn:Hb; bool_prop.
  - subst b. exists rest. split; [|done]. cbn. by f_equal.
  - exists (b :: bytes). split; [done|]. right. by exists b, bytes.
Qed.
Lemma leading_zeros_app z b l : b <> 0 -> leading_zeros (repeat 0 z ++ b :: l) = z.
Proof. intros Hb. induction z as [|z IH]; cbn; [by replace (b =? 0) with false by lia|by f_equal]. Qed.
Lemma leading_zeros_only z : leading_zeros (repeat 0 z) = z.
Proof. induction z as [|z IH]; cbn; [done|by f_equal]. Qed.

Lemma powers_ok k : 256 ^ Z.of_nat k <= 58 ^ Z.of_nat (2 * k).
Proof.
  rewrite Nat2Z.inj_mul, Z.pow_mul_r by lia. change (58 ^ Z.of_nat 2) with 3364.
  apply Z.pow_le_mono_l. lia.
Qed.
(** Texts of [32 - z] significant bytes after [z] ones are 32 to 44 characters long. *)
Lemma text_sizes z : (z <= 32)%nat -> 256 ^ Z.of_nat (32 - z) <= 58 ^ Z.of_nat (44 - z).
Proof.
  intros Hz. apply Z.leb_le.
  assert (forallb (fun z => 256 ^ Z.of_nat (32 - z) <=? 58 ^ Z.of_nat (44 - z)) (seq 0 33) = true) as Hall
    by (vm_compute; reflexivity).
  rewrite forallb_forall in Hall. apply Hall, in_seq. lia.
Qed.
(** A significant text of a number of [k > 0] bytes has at least [k] characters, and at
    most [a] when the number is below [58 ^ a]. *)
Lemma text_length l n k a :
  significant l -> text_value l 0 = Some n -> (0 < k)%nat -> 256 ^ (Z.of_nat k - 1) <= n -> n < 58 ^ Z.of_nat a ->
  (k <= List.length l <= a)%nat.
Proof.
  intros Hs Hv Hk Hlo Hhi. destruct l as [|c l].
  - cbn in Hv. injection Hv as <-.
    assert (0 < 256 ^ (Z.of_nat k - 1)) by (apply Z.pow_pos_nonneg; lia). lia.
  - pose proof (significant_bound _ _ _ Hs Hv) as H1. apply text_value_bound in Hv; [|lia].
    cbn [List.length] in *. split.
    + destruct (decide (k <= S (List.length l))%nat) as [|Hlt]; [done|exfalso].
      assert (58 ^ Z.of_nat (S (List.length l)) <= 256 ^ (Z.of_nat k - 1)).
      { etransitivity; [apply (Z.pow_le_mono_l 58 256); lia|]. apply Z.pow_le_mono_r; lia. }
      lia.
    + destruct (decide (S (List.length l) <= a)%nat) as [|Hlt]; [done|exfalso].
      assert (58 ^ Z.of_nat a <= 58 ^ Z.of_nat (List.length l)) by (apply Z.pow_le_mono_r; lia). lia.
Qed.

(** * Lemmas: trimming *)

Lemma strip_any_base58 ps c l d :
  Forall (fun p => match p with x :: _ => BASE58_VALUES x = None | [] => False end) ps ->
  BASE58_VALUES c = Some d -> strip_any ps (c :: l) = None.
Proof.
  intros Hps Hc. induction Hps as [|p ps Hp Hps IH]; [done|]. cbn.
  destruct p as [|x p]; [done|]. cbn. destruct (Ascii.eqb_spec x c) as [->|]; [congruence|exact IH].
Qed.
Lemma trim_front_base58 fuel ps l n m :
  Forall (fun p => match p with x :: _ => BASE58_VALUES x = None | [] => False end) ps ->
  text_value l n = Some m -> trim_front fuel ps l = l.
Proof.
  intros Hps Hl. destruct fuel; [done|]. cbn. destruct l as [|c l].
  - assert (strip_any ps [] = None) as ->; [|done].
    induction Hps as [|p ps Hp Hps IH]; [done|]. by destruct p.
  - cbn [text_value] in Hl. apply bind_Some in Hl as (d & Hd & _). by rewrite (strip_any_base58 ps c l d).
Qed.
Lemma text_value_rev l n m : text_value l n = Some m -> exists k, text_value (rev l) 0 = Some k.
Proof.
  revert n. induction l as [|c l IH]; intros n H; cbn [rev text_value] in *; [by eexists|].
  apply bind_Some in H as (d & Hd & H). destruct (IH _ H) as [k Hk].
  exists (k * 58 + d). rewrite text_value_app, Hk. cbn [mbind option_bind text_value]. by rewrite Hd.
Qed.
Lemma whitespace_heads :
  Forall (fun p => match p with x :: _ => BASE58_VALUES x = None | [] => False end) js_whitespace
  /\ Forall (fun p => match p with x :: _ => BASE58_VALUES x = None | [] => False end)
       (map (@rev ascii) js_whitespace).
Proof. split; repeat constructor. Qed.
Lemma trim_base58 s m : text_value (chars s) 0 = Some m -> trim s = s.
Proof.
  intros H. unfold trim. destruct whitespace_heads as [Hf Hb].
  rewrite (trim_front_base58 _ _ _ _ _ Hf H).
  destruct (text_value_rev _ _ _ H) as [k Hk].
  rewrite (trim_front_base58 _ _ _ _ _ Hb Hk), rev_involutive. apply of_chars_chars.
Qed.

(** * Lemmas: texts and keys *)

(** The array the function ends with. *)
Lemma decoded_size s rest n :
  chars s = repeat "1"%char (leading_ones (chars s)) ++ rest -> text_value rest 0 = Some n ->
  exists bytes, decode_base58 (chars s) [0] = Some bytes /\ Forall is_byte bytes /\ normal bytes
                /\ le_value bytes = n.
Proof.
  intros E Hv. pose proof (decode_base58_spec (chars s) [0] ltac:(by repeat constructor) ltac:(by left)) as H.
  cbn [le_value foldr] in H. replace (0 + 256 * 0) with 0 in H by lia.
  rewrite E, ones_value, Hv, <- E in H. exact H.
Qed.

Lemma zeros_bytes z : Forall is_byte (repeat 0 z).
Proof. induction z as [|z IH]; cbn; constructor; [unfold is_byte; lia|exact IH]. Qed.
(** The bytes of an accepted text. *)
Lemma key_of_text z rest n a :
  significant rest -> text_value rest 0 = Some n -> Forall is_byte a -> normal a -> le_value a = n ->
  (z + (if bool_decide (a = [0%Z]) then 0 else List.length a) = 32)%nat ->
  exists bytes, List.length bytes = 32%nat /\ Forall is_byte bytes
                /\ base58_encode bytes = repeat "1"%char z ++ rest.
Proof.
  intros Hs Hv Ha Hn Hval Hz. case_bool_decide as E.
  - subst a. cbn in Hval. subst n. exists (repeat 0 z).
    assert (rest = []) as -> by (by eapply significant_inj; [..|done|done]; intros l').
    rewrite repeat_length, app_nil_r. split_and!; [lia|apply zeros_bytes|].
    unfold base58_encode. rewrite leading_zeros_only, repeat_length.
    rewrite <- (app_nil_r (repeat 0 z)), be_value_zeros.
    destruct (2 * z)%nat; cbn; by rewrite app_nil_r.
  - destruct Hn as [->|(l & b & -> & Hb)]; [done|].
    exists (repeat 0 z ++ rev (l ++ [b])). rewrite rev_unit.
    assert (be_value (b :: rev l) = n) as Hbe by (rewrite <- rev_unit, be_value_rev; done).
    rewrite length_app, repeat_length. cbn [List.length]. rewrite length_rev.
    rewrite length_app in Hz. cbn in Hz. split_and!; [lia| |].
    + apply Forall_app. split; [apply zeros_bytes|]. rewrite <- rev_unit. by apply Forall_rev.
    + unfold base58_encode. rewrite leading_zeros_app, be_value_zeros, Hbe by done. f_equal.
      pose proof (le_value_bound _ Ha) as Hbound. rewrite Hval in Hbound.
      set (k := List.length (repeat 0 z ++ b :: rev l)).
      assert (List.length (l ++ [b]) <= k)%nat as Hk.
      { unfold k. rewrite !length_app. cbn. rewrite length_rev. lia. }
      destruct (digits_value (2 * k) n) as [Hdv Hds]; [|by eapply significant_inj].
      pose proof (powers_ok k). assert (256 ^ Z.of_nat (List.length (l ++ [b])) <= 256 ^ Z.of_nat k)
        by (apply Z.pow_le_mono_r; lia). lia.
Qed.

(** The size of the number of a key. *)
Lemma key_value_bounds b l :
  b <> 0 -> Forall is_byte (b :: l) ->
  256 ^ Z.of_nat (List.length l) <= be_value (b :: l) < 256 ^ Z.of_nat (S (List.length l)).
Proof.
  intros Hb Hl. rewrite <- (rev_involutive (b :: l)), be_value_rev.
  pose proof (le_value_bound (rev (b :: l)) ltac:(by apply Forall_rev)) as Hv.
  rewrite length_rev in Hv. split; [|exact (proj2 Hv)]. cbn [rev]. rewrite le_value_app, length_rev.
  apply Forall_cons in Hl as [Hbb Hl]. unfold is_byte in Hbb.
  pose proof (le_value_bound (rev l) ltac:(by apply Forall_rev)) as Hr. cbn [le_value foldr].
  assert (0 < 256 ^ Z.of_nat (List.length l)) by (apply Z.pow_pos_nonneg; lia). nia.
Qed.
(** The text of a key is accepted: its size and its array. *)
Lemma text_of_key z b l rest n a :
  b <> 0 -> Forall is_byte (b :: l) -> (z + S (List.length l) = 32)%nat -> n = be_value (b :: l) ->
  significant rest -> text_value rest 0 = Some n -> Forall is_byte a -> normal a -> le_value a = n ->
  (32 <= z + List.length rest <= 44)%nat /\ a <> [0] /\ List.length a = S (List.length l).
Proof.
  intros Hb Hl Hz -> Hs Hv Ha Hn Hval. pose proof (key_value_bounds b l Hb Hl) as Hbound.
  assert (0 < 256 ^ Z.of_nat (List.length l)) as Hpos by (apply Z.pow_pos_nonneg; lia).
  assert (a <> [0]) as Hne by (intros ->; change (le_value [0]) with 0 in Hval; lia).
  split; [|split; [done|]].
  - pose proof (text_sizes z ltac:(lia)) as Hsz.
    replace (32 - z)%nat with (S (List.length l)) in Hsz by lia.
    pose proof (text_length rest _ (S (List.length l)) (44 - z) Hs Hv ltac:(lia)) as Hlen.
    replace (Z.of_nat (S (List.length l)) - 1) with (Z.of_nat (List.length l)) in Hlen by lia. lia.
  - apply normal_size; try done; [lia|].
    replace (Z.of_nat (S (List.length l)) - 1) with (Z.of_nat (List.length l)) by lia. lia.
Qed.
Lemma zero_array a : Forall is_byte a -> normal a -> le_value a = 0 -> a = [0].
Proof.
  intros Ha [->|(l & b & -> & Hb)] Hv; [done|exfalso]. rewrite le_value_app in Hv.
  apply Forall_app in Ha as [Hl Hbb]. apply Forall_cons in Hbb as [Hbb _]. unfold is_byte in Hbb.
  pose proof (le_value_bound l Hl). cbn [le_value foldr] in Hv.
  assert (0 < 256 ^ Z.of_nat (List.length l)) by (apply Z.pow_pos_nonneg; lia). nia.
Qed.
Lemma chars_length s : Z.of_nat (List.length (chars s)) = byte_length s.
Proof. unfold byte_length, chars. f_equal. induction s as [|c s IH]; cbn; [done|by f_equal]. Qed.

Lemma accepted_is_encoded (s : string) :
  isCanonicalSolanaPublicKey s = true ->
  exists bytes, List.length bytes = PUBLIC_KEY_BYTES /\ Forall is_byte bytes
                /\ base58_encode bytes = chars s.
Proof.
  unfold isCanonicalSolanaPublicKey.
  intros H. destruct (_ || _) in H; [done|].
  destruct (ones_split (chars s)) as (rest & E & Hs).
  destruct (text_value rest 0) as [n|] eqn:Hv.
  2: { pose proof (decode_base58_spec (chars s) [0] ltac:(by repeat constructor) ltac:(by left)) as Hd.
       cbn [le_value foldr] in Hd. replace (0 + 256 * 0) with 0 in Hd by lia.
       rewrite E, ones_value, Hv, <- E in Hd. by rewrite Hd in H. }
  destruct (decoded_size s rest n E Hv) as (bytes & Hd & Hb & Hn & Hval). rewrite Hd in H.
  apply Nat.eqb_eq in H. rewrite E. by eapply key_of_text.
Qed.
Lemma encoded_is_accepted (s : string) :
  (exists bytes, List.length bytes = PUBLIC_KEY_BYTES /\ Forall is_byte bytes
                 /\ base58_encode bytes = chars s) -> isCanonicalSolanaPublicKey s = true.
Proof.
  unfold isCanonicalSolanaPublicKey.
  intros (bytes & Hlen & Hb & E). destruct (zeros_split bytes) as (r & Er & Hr).
  unfold base58_encode in E. rewrite Hlen in E. set (z := leading_zeros bytes) in *.
  set (n := be_value bytes) in *. set (d := base58_digits _ n []) in *.
  assert (0 <= n < 58 ^ Z.of_nat (2 * 32)) as Hn.
  { unfold n. rewrite <- (rev_involutive bytes), be_value_rev.
    pose proof (le_value_bound (rev bytes) ltac:(by apply Forall_rev)) as Hv.
    rewrite length_rev, Hlen in Hv. pose proof (powers_ok 32). change PUBLIC_KEY_BYTES with 32%nat in Hv. lia. }
  destruct (digits_value _ _ Hn) as [Hdv Hds].
  change (base58_digits (2 * 32) n []) with d in Hdv, Hds.
  assert (leading_ones (chars s) = z) as Hz by (rewrite <- E; by apply leading_ones_app).
  destruct (decoded_size s d n) as (a & Ha & Hab & Han & Hav); [by rewrite Hz|done|].
  assert (trim s = s) as ->.
  { apply (trim_base58 s n). by rewrite <- E, ones_value. }
  rewrite bool_decide_eq_true_2, Ha, Hz by done. rewrite <- chars_length, <- E, length_app, repeat_length.
  assert (z + List.length r = 32)%nat as Hzr.
  { rewrite Er, length_app, repeat_length in Hlen. exact Hlen. }
  destruct Hr as [->|(b & l & -> & Hb0)].
  + assert (n = 0) as H0.
    { unfold n. rewrite Er, be_value_zeros. done. }
    rewrite H0 in *. rewrite (zero_array a Hab Han Hav).
    assert (d = []) as -> by (by eapply significant_inj; [..|done|done]; intros l').
    cbn in Hzr. rewrite bool_decide_eq_true_2 by done. cbn [List.length].
    by rewrite Hzr.
  + assert (n = be_value (b :: l)) as Hnv by (unfold n; by rewrite Er, be_value_zeros at 1).
    cbn [List.length] in Hzr.
    assert (Forall is_byte (b :: l)) as Hbl by (rewrite Er in Hb; by apply Forall_app in Hb as [_ Hb]).
    destruct (text_of_key z b l d n a Hb0 Hbl Hzr Hnv Hds Hdv Hab Han Hav) as (Hsz & Hne & Hal).
    rewrite bool_decide_eq_false_2 by done.
    unfold MIN_PUBLIC_KEY_TEXT_BYTES, MAX_PUBLIC_KEY_TEXT_BYTES. cbn [negb]. rewrite orb_false_r.
    rewrite !(proj2 (Z.ltb_ge _ _)) by (clear -Hsz; lia). apply Nat.eqb_eq. rewrite Hal. exact Hzr.
Qed.

(** * Properties *)

(** C33: the check recognizes exactly the base-58 forms of 32 bytes.  A text passes
    [isCanonicalSolanaPublicKey] if and only if it is the base-58 encoding of some array of
    32 bytes: the long multiplication on bytes, the count of leading ones and the length
    limits together neither refuse an encoded key nor accept anything else. *)
Theorem canonical_key_iff_encoded (s : string) :
  isCanonicalSolanaPublicKey s = true <->
  exists bytes, List.length bytes = PUBLIC_KEY_BYTES /\ Forall is_byte bytes
                /\ base58_encode bytes = chars s.
Proof. split; [apply accepted_is_encoded | apply encoded_is_accepted]. Qed.

(** The mint of wrapped SOL is a key; one character less or another alphabet is not. *)
Example sample_keys :
  map isCanonicalSolanaPublicKey
    ["So11111111111111111111111111111111111111112"; "So1111111111111111111111111111111111111112";
     "So1111111111111111111111111111111111111111O"; "11111111111111111111111111111111"]
  = [true; false; false; true].
Proof. vm_compute. reflexivity. Qed.
