(* ===== verification/RiskPolicy.v ===== *)
(** The buy-risk gate: [src/src/domain/execution-risk-policy.ts].

    [policyInputFrom], [policyFrom] and [riskInputFrom] turn an unknown value
    into checked fields; [evaluateBuyRisk] computes the limits and picks the
    first reason to refuse.  A policy carries the digest of its own fields. *)
From S2P Require Import Prelude Text Types Json JsValue.
Local Open Scope string_scope.
Local Open Scope list_scope.
Local Open Scope Z_scope.

(** src/src/domain/execution-risk-policy.ts:5-12 (constants) *)
Definition WSOL_MINT : string := "So11111111111111111111111111111111111111112".
Definition BPS_DENOMINATOR : Z := 10000.
Definition MAX_POSITION_INPUTS : nat := 16.

(** src/src/domain/execution-risk-policy.ts:14-22 (POLICY_INPUT_KEYS) *)
Definition POLICY_INPUT_KEYS : list string :=
  ["quoteMintAllowlist"; "initialCapitalLamports"; "maximumCapitalLamports";
   "positionSizeBps"; "maximumOpenPositions"; "maximumTotalExposureBps";
   "drawdownPauseBps"; "feeReserveLamports"; "walletSnapshotMaxAgeMs";
   "providerUsageMaxAgeMs"; "providerEntryCostUnits";
   "providerExitCostUnitsPerPosition"; "providerConfirmationCostUnitsPerPosition";
   "providerReconciliationCostUnitsPerPosition"; "providerSafetyMarginUnits";
   "maximumConsecutiveTechnicalFailures"].
(** src/src/domain/execution-risk-policy.ts:23-25 (POLICY_KEYS) *)
Definition POLICY_KEYS : list string :=
  "payloadVersion" :: "policyFingerprint" :: POLICY_INPUT_KEYS.
(** src/src/domain/execution-risk-policy.ts:26-30 (RISK_INPUT_KEYS) *)
Definition RISK_INPUT_KEYS : list string :=
  ["policy"; "quoteMint"; "requestedQuoteAmountRaw"; "realizedNetPnlLamports";
   "reservedExposureLamports"; "openPositions"; "consecutiveTechnicalFailures";
   "lastTechnicalFailureReasonCode"].
(** src/src/domain/execution-risk-policy.ts:31-34 (POSITION_KEYS) *)
Definition POSITION_KEYS : list string :=
  ["positionId"; "costBasisLamports"; "conservativeLiquidationLamports"; "reconciliationStatus"].

(** src/src/domain/execution-risk-policy.ts:40-46 (ExecutionTechnicalFailureReasonCode) *)
Inductive ExecutionTechnicalFailureReasonCode :=
| EXECUTION_BUILD_FAILED | TECH_BUY_SIMULATION_FAILED | SELL_SIMULATION_FAILED
| EXECUTION_PROVIDER_FAILED | CONFIRMATION_TIMEOUT | TECH_RECONCILIATION_REQUIRED.

(** src/src/domain/execution-risk-policy.ts:35-38 (TECHNICAL_FAILURE_REASON_CODES) *)
Definition TECHNICAL_FAILURE_REASON_CODES : list (string * ExecutionTechnicalFailureReasonCode) :=
  [("EXECUTION_BUILD_FAILED", EXECUTION_BUILD_FAILED);
   ("BUY_SIMULATION_FAILED", TECH_BUY_SIMULATION_FAILED);
   ("SELL_SIMULATION_FAILED", SELL_SIMULATION_FAILED);
   ("EXECUTION_PROVIDER_FAILED", EXECUTION_PROVIDER_FAILED);
   ("CONFIRMATION_TIMEOUT", CONFIRMATION_TIMEOUT);
   ("RECONCILIATION_REQUIRED", TECH_RECONCILIATION_REQUIRED)].

(** src/src/domain/execution-risk-policy.ts:48-54 (ExecutionBuyRiskReasonCode) *)
Inductive ExecutionBuyRiskReasonCode :=
| CAPITAL_LIMIT_EXCEEDED | EXPOSURE_LIMIT_EXCEEDED | DRAWDOWN_LIMIT_EXCEEDED
| RISK_QUOTE_MINT_NOT_ALLOWED | RECONCILIATION_REQUIRED
| TechnicalFailure (code : ExecutionTechnicalFailureReasonCode).

(** src/src/domain/execution-risk-policy.ts:56-73 (ExecutionRiskPolicyInputV1) *)
Record ExecutionRiskPolicyInputV1 := {
  rp_quoteMintAllowlist : list string;
  rp_initialCapitalLamports : Z;
  rp_maximumCapitalLamports : Z;
  rp_positionSizeBps : Z;
  rp_maximumOpenPositions : Z;
  rp_maximumTotalExposureBps : Z;
  rp_drawdownPauseBps : Z;
  rp_feeReserveLamports : Z;
  rp_walletSnapshotMaxAgeMs : Z;
  rp_providerUsageMaxAgeMs : Z;
  rp_providerEntryCostUnits : Z;
  rp_providerExitCostUnitsPerPosition : Z;
  rp_providerConfirmationCostUnitsPerPosition : Z;
  rp_providerReconciliationCostUnitsPerPosition : Z;
  rp_providerSafetyMarginUnits : Z;
  rp_maximumConsecutiveTechnicalFailures : Z;
}.

(** src/src/domain/execution-risk-policy.ts:75-78 (ExecutionRiskPolicyV1) *)
Record ExecutionRiskPolicyV1 := {
  rp_policyFingerprint : string;
  rp_fields : ExecutionRiskPolicyInputV1;
}.

(** src/src/domain/execution-risk-policy.ts:84-84 *)
Inductive ReconciliationStatus := RECONCILED | UNKNOWN.
Global Instance ReconciliationStatus_eq_dec : EqDecision ReconciliationStatus.
Proof. solve_decision. Defined.

(** src/src/domain/execution-risk-policy.ts:80-85 (ExecutionOpenPositionRiskInputV1) *)
Record ExecutionOpenPositionRiskInputV1 := {
  op_positionId : string;
  op_costBasisLamports : Z;
  op_conservativeLiquidationLamports : option Z;
  op_reconciliationStatus : ReconciliationStatus;
}.

(** src/src/domain/execution-risk-policy.ts:87-96 (ExecutionBuyRiskInputV1) *)
Record ExecutionBuyRiskInputV1 := {
  ri_policy : ExecutionRiskPolicyV1;
  ri_quoteMint : string;
  ri_requestedQuoteAmountRaw : Z;
  ri_realizedNetPnlLamports : Z;
  ri_reservedExposureLamports : Z;
  ri_openPositions : list ExecutionOpenPositionRiskInputV1;
  ri_consecutiveTechnicalFailures : Z;
  ri_lastTechnicalFailureReasonCode : option ExecutionTechnicalFailureReasonCode;
}.

(** src/src/domain/execution-risk-policy.ts:98-110 (ExecutionBuyRiskDecisionV1).
    [kind] is ADMISSIBLE exactly when [rd_reasonCode] is null. *)
Record ExecutionBuyRiskDecisionV1 := {
  rd_admissible : bool;
  rd_reasonCode : option ExecutionBuyRiskReasonCode;
  rd_reconciledCapitalLamports : Z;
  rd_capitalAfterFeeReserveLamports : Z;
  rd_positionLimitLamports : Z;
  rd_totalExposureLimitLamports : Z;
  rd_projectedExposureLamports : Z;
  rd_conservativeUnrealizedLossLamports : Z;
  rd_drawdownBps : Z;
  rd_openPositionCount : nat;
}.

(** * Reading the input *)

(** src/src/domain/execution-risk-policy.ts:375-381 (quoteMintAllowlistFrom) *)
Definition quoteMintAllowlistFrom (v : js) : option (list string) :=
  match v with
  | JArray false _ _ [item] =>
      x ← descriptor_value item;
      match x with
      | JString s => if bool_decide (s = WSOL_MINT) then Some [WSOL_MINT] else None
      | _ => None
      end
  | _ => None
  end.

(** src/src/domain/execution-risk-policy.ts:383-388 (nullableTechnicalFailureReason) *)
Definition nullableTechnicalFailureReason (v : js)
    : option (option ExecutionTechnicalFailureReasonCode) :=
  match v with
  | JNull => Some None
  | _ => c ← enumValue TECHNICAL_FAILURE_REASON_CODES v; Some (Some c)
  end.

(** src/src/domain/execution-risk-policy.ts:193-243 (policyInputFrom) *)
Definition policyInputFrom (v : js) : option ExecutionRiskPolicyInputV1 :=
  r ← exactRecord v POLICY_INPUT_KEYS;
  quoteMintAllowlist ← quoteMintAllowlistFrom (field r "quoteMintAllowlist");
  initialCapitalLamports ← unsignedBigint (field r "initialCapitalLamports");
  maximumCapitalLamports ← positiveBigint (field r "maximumCapitalLamports");
  positionSizeBps ← boundedBigint (field r "positionSizeBps") 1 1000;
  maximumOpenPositions ← boundedInteger (field r "maximumOpenPositions") 1 2;
  maximumTotalExposureBps ← boundedBigint (field r "maximumTotalExposureBps") 1 2000;
  drawdownPauseBps ← boundedBigint (field r "drawdownPauseBps") 1 2500;
  feeReserveLamports ← unsignedBigint (field r "feeReserveLamports");
  walletSnapshotMaxAgeMs ← boundedInteger (field r "walletSnapshotMaxAgeMs") 1 900000;
  providerUsageMaxAgeMs ← boundedInteger (field r "providerUsageMaxAgeMs") 30000 900000;
  providerEntryCostUnits ← positiveBigint (field r "providerEntryCostUnits");
  providerExitCostUnitsPerPosition ←
    positiveBigint (field r "providerExitCostUnitsPerPosition");
  providerConfirmationCostUnitsPerPosition ←
    positiveBigint (field r "providerConfirmationCostUnitsPerPosition");
  providerReconciliationCostUnitsPerPosition ←
    positiveBigint (field r "providerReconciliationCostUnitsPerPosition");
  providerSafetyMarginUnits ← unsignedBigint (field r "providerSafetyMarginUnits");
  maximumConsecutiveTechnicalFailures ←
    boundedInteger (field r "maximumConsecutiveTechnicalFailures") 2 2;
  if (maximumCapitalLamports <? initialCapitalLamports)
    || (maximumCapitalLamports <? feeReserveLamports) then None
  else Some {|
    rp_quoteMintAllowlist := quoteMintAllowlist;
    rp_initialCapitalLamports := initialCapitalLamports;
    rp_maximumCapitalLamports := maximumCapitalLamports;
    rp_positionSizeBps := positionSizeBps;
    rp_maximumOpenPositions := maximumOpenPositions;
    rp_maximumTotalExposureBps := maximumTotalExposureBps;
    rp_drawdownPauseBps := drawdownPauseBps;
    rp_feeReserveLamports := feeReserveLamports;
    rp_walletSnapshotMaxAgeMs := walletSnapshotMaxAgeMs;
    rp_providerUsageMaxAgeMs := providerUsageMaxAgeMs;
    rp_providerEntryCostUnits := providerEntryCostUnits;
    rp_providerExitCostUnitsPerPosition := providerExitCostUnitsPerPosition;
    rp_providerConfirmationCostUnitsPerPosition := providerConfirmationCostUnitsPerPosition;
    rp_providerReconciliationCostUnitsPerPosition := providerReconciliationCostUnitsPerPosition;
    rp_providerSafetyMarginUnits := providerSafetyMarginUnits;
    rp_maximumConsecutiveTechnicalFailures := maximumConsecutiveTechnicalFailures |}.

(** The array [fingerprintPolicy] serializes. *)
Definition policy_json (p : ExecutionRiskPolicyInputV1) : json :=
  JsonArr
    [JsonStr "execution-risk-policy-v1";
     JsonArr (map JsonStr (rp_quoteMintAllowlist p));
     JsonStr (to_decimal (rp_initialCapitalLamports p));
     JsonStr (to_decimal (rp_maximumCapitalLamports p));
     JsonStr (to_decimal (rp_positionSizeBps p));
     JsonInt (rp_maximumOpenPositions p);
     JsonStr (to_decimal (rp_maximumTotalExposureBps p));
     JsonStr (to_decimal (rp_drawdownPauseBps p));
     JsonStr (to_decimal (rp_feeReserveLamports p));
     JsonInt (rp_walletSnapshotMaxAgeMs p);
     JsonInt (rp_providerUsageMaxAgeMs p);
     JsonStr (to_decimal (rp_providerEntryCostUnits p));
     JsonStr (to_decimal (rp_providerExitCostUnitsPerPosition p));
     JsonStr (to_decimal (rp_providerConfirmationCostUnitsPerPosition p));
     JsonStr (to_decimal (rp_providerReconciliationCostUnitsPerPosition p));
     JsonStr (to_decimal (rp_providerSafetyMarginUnits p));
     JsonInt (rp_maximumConsecutiveTechnicalFailures p)].

(** src/src/domain/execution-risk-policy.ts:292-313 (positionsFrom): the loop body. *)
Definition positionFrom (item : option (bool * option js))
    : option ExecutionOpenPositionRiskInputV1 :=
  x ← descriptor_value item;
  r ← exactRecord x POSITION_KEYS;
  positionId ← bounded_text (field r "positionId") 128;
  costBasisLamports ← unsignedBigint (field r "costBasisLamports");
  conservativeLiquidationLamports ←
    nullableUnsignedBigint (field r "conservativeLiquidationLamports");
  reconciliationStatus ←
    enumValue [("RECONCILED", RECONCILED); ("UNKNOWN", UNKNOWN)] (field r "reconciliationStatus");
  Some {| op_positionId := positionId;
          op_costBasisLamports := costBasisLamports;
          op_conservativeLiquidationLamports := conservativeLiquidationLamports;
          op_reconciliationStatus := reconciliationStatus |}.
(** src/src/domain/execution-risk-policy.ts:288-315 (positionsFrom) *)
Definition positionsFrom (v : js) : option (list ExecutionOpenPositionRiskInputV1) :=
  match v with
  | JArray false _ _ items =>
      if (MAX_POSITION_INPUTS <? length items)%nat then None
      else ps ← mapM positionFrom items;
           if all_distinct (map op_positionId ps) then Some ps else None
  | _ => None
  end.

Section Policy.
Context `{Sha256}.

(** src/src/domain/execution-risk-policy.ts:353-373 (fingerprintPolicy) *)
Definition fingerprintPolicy (p : ExecutionRiskPolicyInputV1) : string :=
  sha256_hex (stringify (policy_json p)).

(** src/src/domain/execution-risk-policy.ts:119-131 (createExecutionRiskPolicy) *)
Definition createExecutionRiskPolicy (v : js) : result exn ExecutionRiskPolicyV1 :=
  match policyInputFrom v with
  | Some fields => Ok {| rp_policyFingerprint := fingerprintPolicy fields; rp_fields := fields |}
  | None => Err ExecutionRiskValidationError
  end.

(** src/src/domain/execution-risk-policy.ts:245-257 (policyFrom) *)
Definition policyFrom (v : js) : option ExecutionRiskPolicyV1 :=
  if negb (isFrozenPlainObject v) then None else
  r ← exactRecord v POLICY_KEYS;
  match field r "payloadVersion" with
  | JNumber (NumInt 1) =>
      policyFingerprint ← fingerprintFrom (field r "policyFingerprint");
      fields ← policyInputFrom (frozen_object NullPrototype (pick r POLICY_INPUT_KEYS));
      if bool_decide (policyFingerprint = fingerprintPolicy fields)
      then Some {| rp_policyFingerprint := policyFingerprint; rp_fields := fields |}
      else None
  | _ => None
  end.

(** src/src/domain/execution-risk-policy.ts:259-286 (riskInputFrom) *)
Definition riskInputFrom (v : js) : option ExecutionBuyRiskInputV1 :=
  r ← exactRecord v RISK_INPUT_KEYS;
  policy ← policyFrom (field r "policy");
  quoteMint ← bounded_text (field r "quoteMint") 64;
  requestedQuoteAmountRaw ← positiveBigint (field r "requestedQuoteAmountRaw");
  realizedNetPnlLamports ← signedBigint (field r "realizedNetPnlLamports");
  reservedExposureLamports ← unsignedBigint (field r "reservedExposureLamports");
  openPositions ← positionsFrom (field r "openPositions");
  consecutiveTechnicalFailures ←
    boundedInteger (field r "consecutiveTechnicalFailures") 0 2147483647;
  lastTechnicalFailureReasonCode ←
    nullableTechnicalFailureReason (field r "lastTechnicalFailureReasonCode");
  if negb (Bool.eqb (consecutiveTechnicalFailures =? 0)
             (match lastTechnicalFailureReasonCode with None => true | Some _ => false end))
  then None
  else Some {|
    ri_policy := policy;
    ri_quoteMint := quoteMint;
    ri_requestedQuoteAmountRaw := requestedQuoteAmountRaw;
    ri_realizedNetPnlLamports := realizedNetPnlLamports;
    ri_reservedExposureLamports := reservedExposureLamports;
    ri_openPositions := openPositions;
    ri_consecutiveTechnicalFailures := consecutiveTechnicalFailures;
    ri_lastTechnicalFailureReasonCode := lastTechnicalFailureReasonCode |}.
End Policy.

(** * Deciding *)

(** src/src/domain/execution-risk-policy.ts:464-470 (minimum, maximum) *)
Definition minimum (left right : Z) : Z := if left <? right then left else right.
Definition maximum (left right : Z) : Z := if right <? left then left else right.

(** src/src/domain/execution-risk-policy.ts:472-474 (saturatedU64Add) *)
Definition saturatedU64Add (left right : Z) : Z :=
  if U64_MAX - right <? left then U64_MAX else left + right.

(** src/src/domain/execution-risk-policy.ts:347-351 (drawdownBasisPoints) *)
Definition drawdownBasisPoints (loss capital : Z) : Z :=
  if loss =? 0 then 0
  else if capital =? 0 then BPS_DENOMINATOR
  else Z.quot (loss * BPS_DENOMINATOR + capital - 1) capital.

(** src/src/domain/execution-risk-policy.ts:317-345 (rejectionReason) *)
Definition rejectionReason (input : ExecutionBuyRiskInputV1)
    (positionLimitLamports totalExposureLimitLamports projectedExposureLamports drawdownBps : Z)
    : option ExecutionBuyRiskReasonCode :=
  let policy := rp_fields (ri_policy input) in
  if negb (includes (ri_quoteMint input) (rp_quoteMintAllowlist policy))
  then Some RISK_QUOTE_MINT_NOT_ALLOWED
  else if existsb (fun p => bool_decide (op_reconciliationStatus p = UNKNOWN))
            (ri_openPositions input)
  then Some RECONCILIATION_REQUIRED
  else if rp_maximumConsecutiveTechnicalFailures policy
            <=? ri_consecutiveTechnicalFailures input
  then Some (match ri_lastTechnicalFailureReasonCode input with
             | Some c => TechnicalFailure c
             | None => RECONCILIATION_REQUIRED
             end)
  else if positionLimitLamports <? ri_requestedQuoteAmountRaw input
  then Some CAPITAL_LIMIT_EXCEEDED
  else if (rp_maximumOpenPositions policy <=? Z.of_nat (length (ri_openPositions input)))
    || (totalExposureLimitLamports <? projectedExposureLamports)
  then Some EXPOSURE_LIMIT_EXCEEDED
  else if rp_drawdownPauseBps policy <=? drawdownBps
  then Some DRAWDOWN_LIMIT_EXCEEDED
  else None.

(** src/src/domain/execution-risk-policy.ts:154-163 (the reduce of evaluateBuyRisk) *)
Definition unrealized_loss (ps : list ExecutionOpenPositionRiskInputV1) : Z :=
  fold_left (fun sum p => saturatedU64Add sum
    (maximum 0 (op_costBasisLamports p
                - default 0 (op_conservativeLiquidationLamports p)))) ps 0.

(** src/src/domain/execution-risk-policy.ts:133-191 (evaluateBuyRisk), after the input is read. *)
Definition decide_buy_risk (fields : ExecutionBuyRiskInputV1) : ExecutionBuyRiskDecisionV1 :=
  let policy := rp_fields (ri_policy fields) in
  let rawCapital := rp_initialCapitalLamports policy + ri_realizedNetPnlLamports fields in
  let reconciledCapitalLamports :=
    minimum (maximum 0 rawCapital) (rp_maximumCapitalLamports policy) in
  let capitalAfterFeeReserveLamports :=
    maximum 0 (reconciledCapitalLamports - rp_feeReserveLamports policy) in
  let positionLimitLamports :=
    Z.quot (capitalAfterFeeReserveLamports * rp_positionSizeBps policy) BPS_DENOMINATOR in
  let totalExposureLimitLamports :=
    Z.quot (reconciledCapitalLamports * rp_maximumTotalExposureBps policy) BPS_DENOMINATOR in
  let projectedExposureLamports :=
    saturatedU64Add (ri_reservedExposureLamports fields) (ri_requestedQuoteAmountRaw fields) in
  let conservativeUnrealizedLossLamports := unrealized_loss (ri_openPositions fields) in
  let drawdownBps :=
    drawdownBasisPoints conservativeUnrealizedLossLamports reconciledCapitalLamports in
  let reasonCode := rejectionReason fields positionLimitLamports totalExposureLimitLamports
                      projectedExposureLamports drawdownBps in
  {| rd_admissible := match reasonCode with None => true | Some _ => false end;
     rd_reasonCode := reasonCode;
     rd_reconciledCapitalLamports := reconciledCapitalLamports;
     rd_capitalAfterFeeReserveLamports := capitalAfterFeeReserveLamports;
     rd_positionLimitLamports := positionLimitLamports;
     rd_totalExposureLimitLamports := totalExposureLimitLamports;
     rd_projectedExposureLamports := projectedExposureLamports;
     rd_conservativeUnrealizedLossLamports := conservativeUnrealizedLossLamports;
     rd_drawdownBps := drawdownBps;
     rd_openPositionCount := length (ri_openPositions fields) |}.

(** src/src/domain/execution-risk-policy.ts:133-191 (evaluateBuyRisk) *)
Definition evaluateBuyRisk `{Sha256} (v : js) : result exn ExecutionBuyRiskDecisionV1 :=
  match riskInputFrom v with
  | Some fields => Ok (decide_buy_risk fields)
  | None => Err ExecutionRiskValidationError
  end.

(** * Lemmas *)


(** What a policy that was read is known to satisfy. *)
Record valid_policy (p : ExecutionRiskPolicyInputV1) : Prop := {
  vp_allow : rp_quoteMintAllowlist p = [WSOL_MINT];
  vp_initial : 0 <= rp_initialCapitalLamports p <= rp_maximumCapitalLamports p;
  vp_maximum : 1 <= rp_maximumCapitalLamports p <= U64_MAX;
  vp_size : 1 <= rp_positionSizeBps p <= 1000;
  vp_open : 1 <= rp_maximumOpenPositions p <= 2;
  vp_exposure : 1 <= rp_maximumTotalExposureBps p <= 2000;
  vp_drawdown : 1 <= rp_drawdownPauseBps p <= 2500;
  vp_reserve : 0 <= rp_feeReserveLamports p <= rp_maximumCapitalLamports p;
  vp_failures : rp_maximumConsecutiveTechnicalFailures p = 2;
}.

Lemma quoteMintAllowlistFrom_Some v l : quoteMintAllowlistFrom v = Some l -> l = [WSOL_MINT].
Proof.
  destruct v as [| | | | | |[|] ? ? [|item [|]]|]; cbn; try done. intros H. option_inv.
  destruct x; try done. destruct (bool_decide _); naive_solver.
Qed.

Lemma policyInputFrom_valid v p : policyInputFrom v = Some p -> valid_policy p.
Proof.
  unfold policyInputFrom, unsignedBigint, positiveBigint. intros H. option_inv.
  bool_prop. split; cbn; try lia. by eapply quoteMintAllowlistFrom_Some.
Qed.

Lemma policyFrom_valid `{Sha256} v p :
  policyFrom v = Some p ->
  valid_policy (rp_fields p) /\ rp_policyFingerprint p = fingerprintPolicy (rp_fields p).
Proof.
  unfold policyFrom. intros Hp. option_inv.
  match goal with Hm : match ?v with _ => _ end = Some _ |- _ =>
    destruct v as [| | |[[|[]|]| |]| | | |]; try done end.
  option_inv. bool_prop. split; [by eapply policyInputFrom_valid | done].
Qed.

(** What an input that was read is known to satisfy. *)
Record valid_risk_input (f : ExecutionBuyRiskInputV1) : Prop := {
  vr_policy : valid_policy (rp_fields (ri_policy f));
  vr_requested : 1 <= ri_requestedQuoteAmountRaw f <= U64_MAX;
  vr_reserved : 0 <= ri_reservedExposureLamports f <= U64_MAX;
  vr_failures : 0 <= ri_consecutiveTechnicalFailures f;
  vr_reason : ri_consecutiveTechnicalFailures f = 0 <-> ri_lastTechnicalFailureReasonCode f = None;
}.

Lemma riskInputFrom_valid `{Sha256} v f : riskInputFrom v = Some f -> valid_risk_input f.
Proof.
  unfold riskInputFrom, unsignedBigint, positiveBigint, signedBigint. intros Hr. option_inv.
  match goal with Hb : negb (Bool.eqb _ _) = false |- _ =>
    apply negb_false_iff, Bool.eqb_prop in Hb; rename Hb into Heq end.
  split; cbn; try lia; [by eapply policyFrom_valid|].
  match type of Heq with (?z =? 0) = match ?o with _ => _ end =>
    destruct (z =? 0) eqn:?, o end; bool_prop; naive_solver.
Qed.

Lemma minimum_min a b : minimum a b = Z.min a b.
Proof. unfold minimum. destruct (a <? b) eqn:?; bool_prop; lia. Qed.
Lemma maximum_max a b : maximum a b = Z.max a b.
Proof. unfold maximum. destruct (b <? a) eqn:?; bool_prop; lia. Qed.
Lemma saturatedU64Add_min a b : saturatedU64Add a b = Z.min U64_MAX (a + b).
Proof. unfold saturatedU64Add. destruct (_ <? _) eqn:?; bool_prop; lia. Qed.

Lemma unrealized_loss_bound ps : 0 <= unrealized_loss ps <= U64_MAX.
Proof.
  unfold unrealized_loss.
  enough (forall acc, 0 <= acc <= U64_MAX -> 0 <= fold_left (fun sum p => saturatedU64Add sum
    (maximum 0 (op_costBasisLamports p - default 0 (op_conservativeLiquidationLamports p))))
    ps acc <= U64_MAX) as Hgen by (apply Hgen; unfold U64_MAX; lia).
  induction ps as [|p ps IH]; intros acc Hacc; cbn; [done|].
  apply IH. rewrite saturatedU64Add_min, maximum_max. unfold U64_MAX in *. lia.
Qed.

(** The basis-point limits are exact floors. *)
Lemma floor_bps_le x a k : 0 <= a -> 0 <= k -> x <= Z.quot (a * k) BPS_DENOMINATOR <-> x * BPS_DENOMINATOR <= a * k.
Proof.
  intros Ha Hk. unfold BPS_DENOMINATOR.
  pose proof (quot_nonneg_bounds (a * k) 10000 ltac:(nia) ltac:(lia)). lia.
Qed.

(** The drawdown comparison is exact. *)
Lemma drawdown_lt loss capital k :
  0 <= loss -> 0 < capital -> 1 <= k ->
  drawdownBasisPoints loss capital < k <-> loss * BPS_DENOMINATOR <= (k - 1) * capital.
Proof.
  intros Hl Hc Hk. unfold drawdownBasisPoints, BPS_DENOMINATOR.
  destruct (loss =? 0) eqn:?; bool_prop; [subst; nia|].
  replace (capital =? 0) with false by lia.
  pose proof (quot_ceil_bounds (loss * 10000) capital ltac:(lia) ltac:(lia)).
  remember (Z.quot (loss * 10000 + capital - 1) capital) as q. split; intros; nia.
Qed.

(** The capital a buy may be measured against, in plain arithmetic on the
    input: the starting capital with the realized profit or loss, not below zero
    and not above the policy's maximum. *)
Definition capital_of (f : ExecutionBuyRiskInputV1) : Z :=
  let policy := rp_fields (ri_policy f) in
  Z.min (Z.max 0 (rp_initialCapitalLamports policy + ri_realizedNetPnlLamports f))
        (rp_maximumCapitalLamports policy).

(** What the open positions would lose together if each were liquidated at its
    conservative value; a position without one is counted as worth nothing.  The
    sum is the true one: it is not cut at 64 bits. *)
Definition total_loss (ps : list ExecutionOpenPositionRiskInputV1) : Z :=
  foldr (fun p sum => match op_conservativeLiquidationLamports p with
                      | Some worth => Z.max 0 (op_costBasisLamports p - worth)
                      | None => Z.max 0 (op_costBasisLamports p)
                      end + sum) 0 ps.

(** The conditions under which a buy is admissible, in plain arithmetic on the
    fields of the input alone. *)
Definition admissible_spec (f : ExecutionBuyRiskInputV1) : Prop :=
  let policy := rp_fields (ri_policy f) in
  ri_quoteMint f = WSOL_MINT
  /\ Forall (fun p => op_reconciliationStatus p = RECONCILED) (ri_openPositions f)
  /\ ri_consecutiveTechnicalFailures f < 2
  /\ Z.of_nat (length (ri_openPositions f)) < rp_maximumOpenPositions policy
  /\ ri_requestedQuoteAmountRaw f * 10000
     <= Z.max 0 (capital_of f - rp_feeReserveLamports policy) * rp_positionSizeBps policy
  /\ (ri_reservedExposureLamports f + ri_requestedQuoteAmountRaw f) * 10000
     <= capital_of f * rp_maximumTotalExposureBps policy
  /\ total_loss (ri_openPositions f) * 10000
     <= (rp_drawdownPauseBps policy - 1) * capital_of f.

Lemma total_loss_nonneg ps : 0 <= total_loss ps.
Proof.
  unfold total_loss. induction ps as [|p ps IH]; cbn [foldr]; [done|].
  destruct (op_conservativeLiquidationLamports p); lia.
Qed.

(** The loss the gate adds up is the true one, cut at 64 bits. *)
Lemma unrealized_loss_min ps : unrealized_loss ps = Z.min U64_MAX (total_loss ps).
Proof.
  unfold unrealized_loss.
  enough (forall acc, 0 <= acc <= U64_MAX -> fold_left (fun sum p => saturatedU64Add sum
    (maximum 0 (op_costBasisLamports p - default 0 (op_conservativeLiquidationLamports p))))
    ps acc = Z.min U64_MAX (acc + total_loss ps)) as Hgen by (apply Hgen; unfold U64_MAX; lia).
  induction ps as [|p ps IH]; intros acc Hacc; cbn [fold_left]; [cbn; lia|].
  pose proof (total_loss_nonneg ps). unfold total_loss in *. cbn [foldr].
  rewrite IH; rewrite saturatedU64Add_min, maximum_max; [|unfold U64_MAX in *; lia].
  destruct (op_conservativeLiquidationLamports p); cbn; lia.
Qed.

(** Cutting the loss at 64 bits never changes the drawdown test: a loss that
    large is over every pause a policy may set. *)
Lemma saturated_loss_le loss k capital :
  1 <= k <= 2500 -> 0 <= capital <= U64_MAX ->
  Z.min U64_MAX loss * 10000 <= (k - 1) * capital <-> loss * 10000 <= (k - 1) * capital.
Proof. unfold U64_MAX. intros. nia. Qed.

(** No position is of unknown status. *)
Lemma existsb_unknown ps :
  existsb (fun p => bool_decide (op_reconciliationStatus p = UNKNOWN)) ps = false
  <-> Forall (fun p => op_reconciliationStatus p = RECONCILED) ps.
Proof.
  induction ps as [|p ps IH]; cbn; [naive_solver|].
  rewrite orb_false_iff, Forall_cons, IH, bool_decide_eq_false.
  destruct (op_reconciliationStatus p); naive_solver.
Qed.

(** * Properties *)

Lemma rejectionReason_None f lim tot proj dd :
  let policy := rp_fields (ri_policy f) in
  rejectionReason f lim tot proj dd = None <->
  ri_quoteMint f ∈ rp_quoteMintAllowlist policy
  /\ Forall (fun p => op_reconciliationStatus p = RECONCILED) (ri_openPositions f)
  /\ ri_consecutiveTechnicalFailures f < rp_maximumConsecutiveTechnicalFailures policy
  /\ Z.of_nat (length (ri_openPositions f)) < rp_maximumOpenPositions policy
  /\ ri_requestedQuoteAmountRaw f <= lim /\ proj <= tot /\ dd < rp_drawdownPauseBps policy.
Proof.
  cbn. unfold rejectionReason. rewrite <- existsb_unknown.
  repeat match goal with |- context [if ?b then _ else _] => destruct b eqn:? end;
    try (apply orb_true_iff in Heqb3 as [?|?]); bool_prop; split; intros; try done;
    destruct_and?; try lia; try done.
Qed.

Lemma reconciled_capital_bounds f :
  valid_risk_input f ->
  0 <= rd_reconciledCapitalLamports (decide_buy_risk f)
     <= rp_maximumCapitalLamports (rp_fields (ri_policy f))
  /\ 0 <= rd_capitalAfterFeeReserveLamports (decide_buy_risk f)
     <= rd_reconciledCapitalLamports (decide_buy_risk f).
Proof.
  intros [[] _ _ _ _]. cbn. rewrite !minimum_min, !maximum_max. lia.
Qed.

Lemma decided_capital f :
  rd_reconciledCapitalLamports (decide_buy_risk f) = capital_of f
  /\ rd_capitalAfterFeeReserveLamports (decide_buy_risk f)
     = Z.max 0 (capital_of f - rp_feeReserveLamports (rp_fields (ri_policy f))).
Proof. cbn. by rewrite minimum_min, !maximum_max. Qed.

Lemma projected_exposure_le f :
  valid_risk_input f ->
  let d := decide_buy_risk f in
  rd_projectedExposureLamports d <= rd_totalExposureLimitLamports d <->
  (ri_reservedExposureLamports f + ri_requestedQuoteAmountRaw f) * 10000
  <= rd_reconciledCapitalLamports d * rp_maximumTotalExposureBps (rp_fields (ri_policy f)).
Proof.
  intros Hf d. pose proof (reconciled_capital_bounds f Hf) as [Hc _].
  destruct Hf as [[] Hreq Hres _ _]. unfold d.
  change (rd_projectedExposureLamports (decide_buy_risk f)) with
    (saturatedU64Add (ri_reservedExposureLamports f) (ri_requestedQuoteAmountRaw f)).
  change (rd_totalExposureLimitLamports (decide_buy_risk f)) with
    (Z.quot (rd_reconciledCapitalLamports (decide_buy_risk f)
      * rp_maximumTotalExposureBps (rp_fields (ri_policy f))) BPS_DENOMINATOR).
  rewrite saturatedU64Add_min. remember (rd_reconciledCapitalLamports _) as cap.
  remember (rp_maximumTotalExposureBps _) as bps.
  pose proof (quot_nonneg_bounds (cap * bps) 10000 ltac:(nia) ltac:(lia)) as Hq.
  unfold BPS_DENOMINATOR in *. remember (Z.quot (cap * bps) 10000) as q.
  unfold U64_MAX in *. nia.
Qed.

Lemma decide_buy_risk_admissible f :
  valid_risk_input f ->
  rd_admissible (decide_buy_risk f) = true <-> admissible_spec f.
Proof.
  intros Hf. pose proof (reconciled_capital_bounds f Hf) as [Hc Ha].
  destruct (decided_capital f) as [Hcap Hafter].
  pose proof (projected_exposure_le f Hf) as Hexp. cbv zeta in Hexp.
  pose proof (unrealized_loss_bound (ri_openPositions f)) as Hloss.
  transitivity (rd_reasonCode (decide_buy_risk f) = None).
  { cbn. destruct (rejectionReason _ _ _ _ _); naive_solver. }
  change (rd_reasonCode (decide_buy_risk f)) with (rejectionReason f
    (rd_positionLimitLamports (decide_buy_risk f))
    (rd_totalExposureLimitLamports (decide_buy_risk f))
    (rd_projectedExposureLamports (decide_buy_risk f)) (rd_drawdownBps (decide_buy_risk f))).
  rewrite rejectionReason_None, Hexp.
  destruct Hf as [[] Hreq Hres Hfail _]. unfold admissible_spec. rewrite <- Hafter, <- Hcap.
  rewrite vp_allow0, vp_failures0, list_elem_of_singleton.
  change (rd_positionLimitLamports (decide_buy_risk f)) with
    (Z.quot (rd_capitalAfterFeeReserveLamports (decide_buy_risk f)
      * rp_positionSizeBps (rp_fields (ri_policy f))) BPS_DENOMINATOR).
  rewrite floor_bps_le by lia.
  change (rd_drawdownBps (decide_buy_risk f)) with
    (drawdownBasisPoints (rd_conservativeUnrealizedLossLamports (decide_buy_risk f))
      (rd_reconciledCapitalLamports (decide_buy_risk f))).
  change (rd_conservativeUnrealizedLossLamports (decide_buy_risk f))
    with (unrealized_loss (ri_openPositions f)).
  rewrite unrealized_loss_min in *. unfold BPS_DENOMINATOR.
  destruct (decide (rd_reconciledCapitalLamports (decide_buy_risk f) = 0)) as [H0|H0].
  - split; intros; destruct_and!; exfalso; nia.
  - rewrite drawdown_lt by lia. unfold BPS_DENOMINATOR.
    rewrite saturated_loss_le by lia. tauto.
Qed.

(** C4: the gate admits a buy exactly when every limit holds, as exact
    arithmetic on the fields it read and on nothing it computed: the quote asset
    is wrapped SOL, every open position is reconciled, fewer than two technical
    failures in a row, a position slot is free, the request is within the
    position share of the capital after the fee reserve, reserved plus requested
    exposure is within the exposure share of the capital, and the loss of the
    open positions at their conservative value is below the drawdown pause.  The
    capital is the starting capital with the realized profit or loss, between
    zero and the policy's maximum.  Neither the rounding of the shares nor the
    64-bit saturation of the sums ever changes the answer. *)
Theorem evaluateBuyRisk_admissible_iff `{Sha256} (v : js) (d : ExecutionBuyRiskDecisionV1)
    (Hd : evaluateBuyRisk v = Ok d) :
  exists f, riskInputFrom v = Some f /\ (rd_admissible d = true <-> admissible_spec f).
Proof.
  unfold evaluateBuyRisk in Hd. destruct (riskInputFrom v) as [f|] eqn:Hf; [|done].
  injection Hd as <-. exists f. split; [done|].
  by apply decide_buy_risk_admissible, (riskInputFrom_valid v).
Qed.

(** whatever policy the caller supplies, an admitted buy never commits more
    than a tenth of the policy's maximum capital, never brings the exposure above
    a fifth of it, leaves at most one other position open, and the projected
    exposure it reports is the true sum, not a saturated one. *)
Theorem evaluateBuyRisk_hard_limits `{Sha256} (v : js) (d : ExecutionBuyRiskDecisionV1)
    (f : ExecutionBuyRiskInputV1)
    (Hf : riskInputFrom v = Some f) (Hd : evaluateBuyRisk v = Ok d)
    (Hadm : rd_admissible d = true) :
  let cap := rp_maximumCapitalLamports (rp_fields (ri_policy f)) in
  10 * ri_requestedQuoteAmountRaw f <= cap
  /\ 5 * (ri_reservedExposureLamports f + ri_requestedQuoteAmountRaw f) <= cap
  /\ (length (ri_openPositions f) <= 1)%nat
  /\ rd_projectedExposureLamports d
     = ri_reservedExposureLamports f + ri_requestedQuoteAmountRaw f.
Proof.
  unfold evaluateBuyRisk in Hd. rewrite Hf in Hd. injection Hd as <-.
  pose proof (riskInputFrom_valid v f Hf) as Hv.
  pose proof (reconciled_capital_bounds f Hv) as [Hc Ha].
  destruct (decided_capital f) as [Hcap Hafter]. rewrite Hcap, Hafter in *.
  apply decide_buy_risk_admissible in Hadm as (_ & _ & _ & Hlen & Hreq & Hexp & _); [|done].
  destruct Hv as [[] ? ? ? ?]. cbv zeta.
  change (rd_projectedExposureLamports (decide_buy_risk f)) with
    (saturatedU64Add (ri_reservedExposureLamports f) (ri_requestedQuoteAmountRaw f)).
  rewrite saturatedU64Add_min. unfold U64_MAX in *. split_and!; try lia; nia.
Qed.

(** A policy fingerprint binds every field: a policy accepted by the gate
    under the fingerprint that [createExecutionRiskPolicy] issued is the policy
    that was issued, field for field, unless SHA-256 collides. *)
Theorem policy_fingerprint_binds `{Sha256} (v w : js) (p q : ExecutionRiskPolicyV1)
    (Hp : createExecutionRiskPolicy v = Ok p) (Hq : policyFrom w = Some q)
    (Hfp : rp_policyFingerprint p = rp_policyFingerprint q) :
  p = q \/ sha256_collision.
Proof.
  unfold createExecutionRiskPolicy in Hp. destruct (policyInputFrom v) as [fp|]; [|done].
  injection Hp as <-. apply policyFrom_valid in Hq as [_ Hq]. cbn in Hfp.
  rewrite Hq in Hfp. unfold fingerprintPolicy in Hfp.
  apply (digest_agree EmptyString) in Hfp as [Hj|]; [|by right]. left.
  destruct q as [qf [ ]], fp; cbn in *. unfold policy_json in Hj; cbn in Hj.
  injection Hj as Hallow; repeat match goal with
    E : to_decimal _ = to_decimal _ |- _ => apply to_decimal_inj in E end.
  apply (inj (fmap JsonStr)) in Hallow. rewrite Hq. by subst.
Qed.

(** The object [createExecutionRiskPolicy] returns:
    [Object.freeze({ payloadVersion, policyFingerprint, ...fields })]. *)
Definition policy_value (p : ExecutionRiskPolicyV1) (key : string) : js :=
  let f := rp_fields p in
  match key with
  | "payloadVersion" => JNumber (NumInt 1)
  | "policyFingerprint" => JString (rp_policyFingerprint p)
  | "quoteMintAllowlist" =>
      JArray false true true (map (fun s => Some (data (JString s))) (rp_quoteMintAllowlist f))
  | "initialCapitalLamports" => JBigInt (rp_initialCapitalLamports f)
  | "maximumCapitalLamports" => JBigInt (rp_maximumCapitalLamports f)
  | "positionSizeBps" => JBigInt (rp_positionSizeBps f)
  | "maximumTotalExposureBps" => JBigInt (rp_maximumTotalExposureBps f)
  | "drawdownPauseBps" => JBigInt (rp_drawdownPauseBps f)
  | "feeReserveLamports" => JBigInt (rp_feeReserveLamports f)
  | "providerEntryCostUnits" => JBigInt (rp_providerEntryCostUnits f)
  | "providerExitCostUnitsPerPosition" => JBigInt (rp_providerExitCostUnitsPerPosition f)
  | "providerConfirmationCostUnitsPerPosition" => JBigInt (rp_providerConfirmationCostUnitsPerPosition f)
  | "providerReconciliationCostUnitsPerPosition" => JBigInt (rp_providerReconciliationCostUnitsPerPosition f)
  | "providerSafetyMarginUnits" => JBigInt (rp_providerSafetyMarginUnits f)
  | "maximumOpenPositions" => JNumber (NumInt (rp_maximumOpenPositions f))
  | "walletSnapshotMaxAgeMs" => JNumber (NumInt (rp_walletSnapshotMaxAgeMs f))
  | "providerUsageMaxAgeMs" => JNumber (NumInt (rp_providerUsageMaxAgeMs f))
  | "maximumConsecutiveTechnicalFailures" =>
      JNumber (NumInt (rp_maximumConsecutiveTechnicalFailures f))
  | _ => JUndefined
  end.
Definition policy_object (p : ExecutionRiskPolicyV1) : js :=
  frozen_object ObjectPrototype (map (fun k => (k, policy_value p k)) POLICY_KEYS).

Lemma boundedBigint_intro z lo hi : lo <= z <= hi -> boundedBigint (JBigInt z) lo hi = Some z.
Proof. intros. by apply boundedBigint_Some. Qed.

Lemma boundedInteger_intro z lo hi :
  lo <= z <= hi -> - MAX_SAFE_INTEGER <= lo -> hi <= MAX_SAFE_INTEGER ->
  boundedInteger (JNumber (NumInt z)) lo hi = Some z.
Proof.
  intros H1 H2 H3. unfold boundedInteger; cbn.
  replace (is_safe_integer z) with true by (symmetry; apply is_safe_integer_true; lia). cbn.
  by replace ((z <? lo) || (hi <? z)) with false by lia.
Qed.

(** Every bound of the input, including those [valid_policy] leaves out. *)
Record complete_policy (p : ExecutionRiskPolicyInputV1) : Prop := {
  cp_valid : valid_policy p;
  cp_wallet : 1 <= rp_walletSnapshotMaxAgeMs p <= 900000;
  cp_usage : 30000 <= rp_providerUsageMaxAgeMs p <= 900000;
  cp_entry : 1 <= rp_providerEntryCostUnits p <= U64_MAX;
  cp_exit : 1 <= rp_providerExitCostUnitsPerPosition p <= U64_MAX;
  cp_confirm : 1 <= rp_providerConfirmationCostUnitsPerPosition p <= U64_MAX;
  cp_reconcile : 1 <= rp_providerReconciliationCostUnitsPerPosition p <= U64_MAX;
  cp_margin : 0 <= rp_providerSafetyMarginUnits p <= U64_MAX;
}.

Lemma policyInputFrom_complete v p : policyInputFrom v = Some p -> complete_policy p.
Proof.
  intros H. split; [by eapply policyInputFrom_valid|..];
    unfold policyInputFrom, unsignedBigint, positiveBigint in H; option_inv; cbn; lia.
Qed.

Lemma pick_policy_fields p :
  pick (map (fun k => (k, policy_value p k)) POLICY_KEYS) POLICY_INPUT_KEYS
  = map (fun k => (k, policy_value p k)) POLICY_INPUT_KEYS.
Proof.
  unfold pick. apply map_ext_in. intros k Hk. f_equal. apply field_map.
  do 2 right. by apply list_elem_of_In.
Qed.

Lemma policyInputFrom_object p :
  complete_policy (rp_fields p) ->
  policyInputFrom (frozen_object NullPrototype
    (map (fun k => (k, policy_value p k)) POLICY_INPUT_KEYS)) = Some (rp_fields p).
Proof.
  intros [[]]. unfold policyInputFrom. rewrite exactRecord_frozen by done.
  cbn [mbind option_bind]. repeat read_field.
  unfold unsignedBigint, positiveBigint.
  cbn -[boundedBigint boundedInteger U64_MAX quoteMintAllowlistFrom]. rewrite vp_allow0.
  change (quoteMintAllowlistFrom _) with (Some [WSOL_MINT]).
  cbn -[boundedBigint boundedInteger U64_MAX].
  repeat (first [rewrite boundedBigint_intro by (unfold U64_MAX in *; lia)
                | rewrite boundedInteger_intro by (unfold MAX_SAFE_INTEGER in *; lia)];
          cbn -[boundedBigint boundedInteger U64_MAX]).
  match goal with |- (if ?b then _ else _) = _ => replace b with false by lia end.
  rewrite <- vp_allow0. by destruct (rp_fields p).
Qed.

(** A policy the module issues is accepted back: reading the object
    [createExecutionRiskPolicy] returned yields the same policy, provided the
    digest prints as 64 lowercase hexadecimal digits. *)
Theorem createExecutionRiskPolicy_round_trip `{Sha256} (v : js) (p : ExecutionRiskPolicyV1)
    (Hhex : forall s, is_sha256_hex (sha256_hex s) = true)
    (Hp : createExecutionRiskPolicy v = Ok p) :
  policyFrom (policy_object p) = Some p.
Proof.
  unfold createExecutionRiskPolicy in Hp. destruct (policyInputFrom v) as [f|] eqn:Hf; [|done].
  injection Hp as <-. apply policyInputFrom_complete in Hf.
  unfold policyFrom, policy_object.
  change (isFrozenPlainObject (frozen_object ObjectPrototype _)) with true.
  rewrite exactRecord_frozen by done. cbn [negb mbind option_bind].
  rewrite pick_policy_fields, policyInputFrom_object by done. repeat read_field.
  change (policy_value _ "payloadVersion") with (JNumber (NumInt 1)).
  match goal with |- context [policy_value ?p "policyFingerprint"] =>
    change (policy_value p "policyFingerprint") with (JString (rp_policyFingerprint p)) end.
  cbn. unfold fingerprintPolicy. rewrite Hhex. cbn. by rewrite bool_decide_eq_true_2.
Qed.

(** A concrete policy and request, used by the witnesses below. *)
Definition sample_sha : Sha256 := fun _ =>
  "00000000000000000000000000000000aaaaaaaaaaaaaaaaaaaaaaaaaaaaaaaa".
Definition sample_policy_fields : ExecutionRiskPolicyInputV1 :=
  {| rp_quoteMintAllowlist := [WSOL_MINT];
     rp_initialCapitalLamports := 10000000000;
     rp_maximumCapitalLamports := 20000000000;
     rp_positionSizeBps := 1000; rp_maximumOpenPositions := 2;
     rp_maximumTotalExposureBps := 2000; rp_drawdownPauseBps := 2500;
     rp_feeReserveLamports := 100000000; rp_walletSnapshotMaxAgeMs := 60000;
     rp_providerUsageMaxAgeMs := 60000; rp_providerEntryCostUnits := 1;
     rp_providerExitCostUnitsPerPosition := 1;
     rp_providerConfirmationCostUnitsPerPosition := 1;
     rp_providerReconciliationCostUnitsPerPosition := 1;
     rp_providerSafetyMarginUnits := 0;
     rp_maximumConsecutiveTechnicalFailures := 2 |}.
Definition sample_policy : ExecutionRiskPolicyV1 :=
  {| rp_policyFingerprint := sample_sha ""; rp_fields := sample_policy_fields |}.
Definition sample_policy_input : js :=
  frozen_object ObjectPrototype (map (fun k => (k, policy_value sample_policy k)) POLICY_INPUT_KEYS).
Definition sample_risk_input (requested : Z) : js :=
  frozen_object ObjectPrototype
    [("policy", policy_object sample_policy); ("quoteMint", JString WSOL_MINT);
     ("requestedQuoteAmountRaw", JBigInt requested); ("realizedNetPnlLamports", JBigInt 5);
     ("reservedExposureLamports", JBigInt 0); ("openPositions", JArray false true true []);
     ("consecutiveTechnicalFailures", JNumber (NumInt 0));
     ("lastTechnicalFailureReasonCode", JNull)].
Definition sample_risk_fields (requested : Z) : ExecutionBuyRiskInputV1 :=
  {| ri_policy := sample_policy; ri_quoteMint := WSOL_MINT;
     ri_requestedQuoteAmountRaw := requested; ri_realizedNetPnlLamports := 5;
     ri_reservedExposureLamports := 0; ri_openPositions := [];
     ri_consecutiveTechnicalFailures := 0; ri_lastTechnicalFailureReasonCode := None |}.

Lemma evaluateBuyRisk_admissible_iff_witness :
  let S : Sha256 := sample_sha in
  let d := decide_buy_risk (sample_risk_fields 990000000) in
  evaluateBuyRisk (sample_risk_input 990000000) = Ok d /\ rd_admissible d = true
  /\ exists f, riskInputFrom (sample_risk_input 990000000) = Some f
       /\ (rd_admissible d = true <-> admissible_spec f).
Proof.
  intros S d. split; [vm_compute; reflexivity|]. split; [vm_compute; reflexivity|].
  apply (evaluateBuyRisk_admissible_iff (sample_risk_input 990000000) d). vm_compute; reflexivity.
Defined.

Lemma evaluateBuyRisk_hard_limits_witness :
  let S : Sha256 := sample_sha in
  10 * 990000000 <= rp_maximumCapitalLamports sample_policy_fields
  /\ 5 * (0 + 990000000) <= rp_maximumCapitalLamports sample_policy_fields
  /\ (length (ri_openPositions (sample_risk_fields 990000000)) <= 1)%nat
  /\ rd_projectedExposureLamports (decide_buy_risk (sample_risk_fields 990000000)) = 0 + 990000000.
Proof.
  intros S.
  apply (evaluateBuyRisk_hard_limits (sample_risk_input 990000000)
    (decide_buy_risk (sample_risk_fields 990000000)) (sample_risk_fields 990000000));
    vm_compute; reflexivity.
Defined.

Lemma policy_fingerprint_binds_witness :
  let S : Sha256 := sample_sha in
  sample_policy = sample_policy \/ sha256_collision.
Proof.
  intros S. apply (policy_fingerprint_binds sample_policy_input (policy_object sample_policy)
    sample_policy sample_policy); vm_compute; reflexivity.
Defined.

Lemma createExecutionRiskPolicy_round_trip_witness :
  let S : Sha256 := sample_sha in
  policyFrom (policy_object sample_policy) = Some sample_policy.
Proof.
  intros S. apply (createExecutionRiskPolicy_round_trip sample_policy_input sample_policy).
  - intros s. reflexivity.
  - vm_compute; reflexivity.
Defined.
