(* ===== verification/FaultPolicy.v ===== *)
(** What to do after a fault: [src/src/domain/execution-fault-policy.ts]. *)
From S2P Require Import Prelude Text Types JsValue.
Local Open Scope string_scope.
Local Open Scope list_scope.
Local Open Scope Z_scope.

(** src/src/domain/execution-fault-policy.ts:3-6 (INPUT_KEYS) *)
Definition FAULT_INPUT_KEYS : list string :=
  ["stage"; "side"; "timing"; "classification"; "consecutiveTechnicalFailures";
   "exactSignedBytesAvailable"].

(** src/src/domain/execution-fault-policy.ts:17-17 (ExecutionFaultStage) *)
Inductive ExecutionFaultStage :=
| BUILD | SIMULATION | PROVIDER | SUBMISSION | CONFIRMATION | RECONCILIATION
| VALIDATION | POLICY.
(** src/src/domain/execution-fault-policy.ts:11-11 (SIDES) *)
Inductive FaultSide := FAULT_BUY | FAULT_SELL.
(** src/src/domain/execution-fault-policy.ts:12-12 (TIMINGS) *)
Inductive FaultTiming := PRE_SIGNATURE | AFTER_SIGNATURE.
(** src/src/domain/execution-fault-policy.ts:18-18 (ExecutionFaultClassification) *)
Inductive ExecutionFaultClassification :=
| TRANSIENT | DETERMINISTIC | AMBIGUOUS | PROVED_NO_EFFECT | CRITICAL.
(** src/src/domain/execution-fault-policy.ts:19-23 (ExecutionRetryDecision) *)
Inductive ExecutionRetryDecision :=
| DO_NOT_RETRY | RETRY_PRE_SIGNATURE | RECONCILE_ONLY | RETRY_EXACT_BYTES.

(** src/src/domain/execution-fault-policy.ts:7-15 (STAGES, SIDES, TIMINGS, CLASSIFICATIONS) *)
Definition STAGES : list (string * ExecutionFaultStage) :=
  [("BUILD", BUILD); ("SIMULATION", SIMULATION); ("PROVIDER", PROVIDER);
   ("SUBMISSION", SUBMISSION); ("CONFIRMATION", CONFIRMATION);
   ("RECONCILIATION", RECONCILIATION); ("VALIDATION", VALIDATION); ("POLICY", POLICY)].
Definition SIDES : list (string * FaultSide) := [("BUY", FAULT_BUY); ("SELL", FAULT_SELL)].
Definition TIMINGS : list (string * FaultTiming) :=
  [("PRE_SIGNATURE", PRE_SIGNATURE); ("AFTER_SIGNATURE", AFTER_SIGNATURE)].
Definition CLASSIFICATIONS : list (string * ExecutionFaultClassification) :=
  [("TRANSIENT", TRANSIENT); ("DETERMINISTIC", DETERMINISTIC); ("AMBIGUOUS", AMBIGUOUS);
   ("PROVED_NO_EFFECT", PROVED_NO_EFFECT); ("CRITICAL", CRITICAL)].

(** src/src/domain/execution-fault-policy.ts:69-87 (validateCombination): [true] when
    it returns. *)
Definition validateCombination (stage : ExecutionFaultStage) (timing : FaultTiming)
    (classification : ExecutionFaultClassification) (exactSignedBytesAvailable : bool) : bool :=
  match timing with
  | PRE_SIGNATURE =>
      negb (exactSignedBytesAvailable
        || match classification with AMBIGUOUS | PROVED_NO_EFFECT => true | _ => false end
        || match stage with SUBMISSION | CONFIRMATION | RECONCILIATION => true | _ => false end)
  | AFTER_SIGNATURE =>
      negb match stage with BUILD | SIMULATION | VALIDATION | POLICY => true | _ => false end
      && negb (match classification with PROVED_NO_EFFECT => true | _ => false end
               && negb match stage with RECONCILIATION => true | _ => false end)
  end.

(** The decision for a checked input. *)
Definition fault_decision (stage : ExecutionFaultStage) (side : FaultSide) (timing : FaultTiming)
    (classification : ExecutionFaultClassification) (failures : Z) (bytes : bool)
    : ExecutionRetryDecision :=
  match classification with
  | PROVED_NO_EFFECT => match side with FAULT_SELL => RETRY_PRE_SIGNATURE | FAULT_BUY => DO_NOT_RETRY end
  | DETERMINISTIC => DO_NOT_RETRY
  | CRITICAL => match timing with AFTER_SIGNATURE => RECONCILE_ONLY | PRE_SIGNATURE => DO_NOT_RETRY end
  | _ =>
      match timing with
      | AFTER_SIGNATURE =>
          match stage with
          | CONFIRMATION | RECONCILIATION => RECONCILE_ONLY
          | _ =>
              match side, classification, bytes with
              | FAULT_SELL, TRANSIENT, true => RETRY_EXACT_BYTES
              | _, _, _ => RECONCILE_ONLY
              end
          end
      | PRE_SIGNATURE => if 2 <=? failures then DO_NOT_RETRY else RETRY_PRE_SIGNATURE
      end
  end.

(** The checked fields of the input. *)
Record FaultInput := {
  fi_stage : ExecutionFaultStage;
  fi_side : FaultSide;
  fi_timing : FaultTiming;
  fi_classification : ExecutionFaultClassification;
  fi_failures : Z;
  fi_bytes : bool;
}.

Definition faultInputFrom (input : js) : option FaultInput :=
  r ← exactRecord input FAULT_INPUT_KEYS;
  stage ← enumValue STAGES (field r "stage");
  side ← enumValue SIDES (field r "side");
  timing ← enumValue TIMINGS (field r "timing");
  classification ← enumValue CLASSIFICATIONS (field r "classification");
  failures ← nonNegativeInteger (field r "consecutiveTechnicalFailures");
  bytes ← booleanValue (field r "exactSignedBytesAvailable");
  if validateCombination stage timing classification bytes
  then Some {| fi_stage := stage; fi_side := side; fi_timing := timing;
               fi_classification := classification; fi_failures := failures; fi_bytes := bytes |}
  else None.

(** src/src/domain/execution-fault-policy.ts:32-66 (classifyExecutionFault) *)
Definition classifyExecutionFault (input : js) : result exn ExecutionRetryDecision :=
  match faultInputFrom input with
  | Some f => Ok (fault_decision (fi_stage f) (fi_side f) (fi_timing f) (fi_classification f)
                    (fi_failures f) (fi_bytes f))
  | None => Err ExecutionFaultPolicyValidationError
  end.

(** * Properties *)

Lemma faultInputFrom_combination input f :
  faultInputFrom input = Some f ->
  validateCombination (fi_stage f) (fi_timing f) (fi_classification f) (fi_bytes f) = true.
Proof.
  unfold faultInputFrom. intros H.
  repeat (apply bind_Some in H as (? & _ & H)).
  destruct (validateCombination _ _ _ _) eqn:E; [|done]. by injection H as <-.
Qed.

(** C34: a fault never leads to a second purchase.  For every input the policy
    accepts: once a BUY has been signed the answer is to reconcile or to stop,
    never to sign or to send again; bytes already signed are sent again only for
    a SELL whose exact bytes are at hand, on a transient fault of the provider or
    the submission; a new signature after an earlier one is asked for only when
    reconciliation proved that a SELL had no effect; and before any signature two
    consecutive failures end the retries. *)
Theorem classifyExecutionFault_no_double_spend (input : js) (f : FaultInput)
    (d : ExecutionRetryDecision)
    (Hf : faultInputFrom input = Some f) (Hd : classifyExecutionFault input = Ok d) :
  (fi_side f = FAULT_BUY -> fi_timing f = AFTER_SIGNATURE -> d = RECONCILE_ONLY \/ d = DO_NOT_RETRY)
  /\ (d = RETRY_EXACT_BYTES ->
        fi_side f = FAULT_SELL /\ fi_timing f = AFTER_SIGNATURE /\ fi_bytes f = true
        /\ fi_classification f = TRANSIENT /\ (fi_stage f = PROVIDER \/ fi_stage f = SUBMISSION))
  /\ (d = RETRY_PRE_SIGNATURE -> fi_timing f = AFTER_SIGNATURE ->
        fi_side f = FAULT_SELL /\ fi_classification f = PROVED_NO_EFFECT
        /\ fi_stage f = RECONCILIATION)
  /\ (d = RETRY_PRE_SIGNATURE -> fi_timing f = PRE_SIGNATURE ->
        fi_failures f < 2 /\ fi_bytes f = false /\ fi_classification f = TRANSIENT)
  /\ (fi_classification f = AMBIGUOUS -> d = RECONCILE_ONLY).
Proof.
  pose proof (faultInputFrom_combination _ _ Hf) as Hc.
  unfold classifyExecutionFault in Hd. rewrite Hf in Hd. injection Hd as <-. clear Hf.
  destruct f as [stage side timing cls fails bytes]; cbn in *.
  destruct timing, cls; cbn in Hc; try discriminate Hc;
    destruct stage; cbn in Hc; rewrite ?orb_true_r in Hc; try discriminate Hc;
    destruct side, bytes; cbn in Hc |- *; try discriminate Hc;
    try (destruct (2 <=? fails) eqn:?; bool_prop); naive_solver.
Qed.

Definition sample_fault (stage side timing cls : string) (failures : Z) (bytes : bool) : js :=
  frozen_object ObjectPrototype
    [("stage", JString stage); ("side", JString side); ("timing", JString timing);
     ("classification", JString cls);
     ("consecutiveTechnicalFailures", JNumber (NumInt failures));
     ("exactSignedBytesAvailable", JBool bytes)].

Lemma classifyExecutionFault_no_double_spend_witness :
  classifyExecutionFault (sample_fault "SUBMISSION" "BUY" "AFTER_SIGNATURE" "TRANSIENT" 0 true)
    = Ok RECONCILE_ONLY
  /\ (RECONCILE_ONLY = RECONCILE_ONLY \/ RECONCILE_ONLY = DO_NOT_RETRY).
Proof.
  split; [vm_compute; reflexivity|].
  apply (classifyExecutionFault_no_double_spend
    (sample_fault "SUBMISSION" "BUY" "AFTER_SIGNATURE" "TRANSIENT" 0 true)
    {| fi_stage := SUBMISSION; fi_side := FAULT_BUY; fi_timing := AFTER_SIGNATURE;
       fi_classification := TRANSIENT; fi_failures := 0; fi_bytes := true |});
    vm_compute; reflexivity.
Defined.
