(* ===== verification/JsonCodec.v ===== *)
(** [src/src/utils/json.ts]: serialization of values with [bigint]s, and the
    canonical serialization that the program's fingerprints are taken of.

    A value is a finite tree: [null], booleans, integral numbers, strings,
    [bigint]s, arrays, and plain objects with their own properties in enumeration
    order.  [DMarker] is an object this module itself made for a [bigint] and
    trusts.  Cyclic objects, accessors, symbols and foreign prototypes, which the
    source rejects, have no representation here. *)
From S2P Require Import Prelude Text Types Json.
From Stdlib Require Import Ascii String.
From stdpp Require Import sorting.
Local Open Scope string_scope.
Local Open Scope list_scope.
Local Open Scope Z_scope.

(** src/src/utils/json.ts:1-6 *)
Definition BIGINT_JSON_MARKER : string := "$solTokenListenerBigInt".
Definition MAX_SERIALIZED_BIGINT_DIGITS : nat := 78.
Definition MAX_CANONICAL_JSON_DEPTH : nat := 64.
Definition MAX_CANONICAL_JSON_NODES : Z := 10000.
Definition MAX_CANONICAL_JSON_STRING_BYTES : Z := 16384.
Definition MAX_CANONICAL_JSON_TEXT_BYTES : Z := 1048576.

Inductive data :=
| DNull
| DBool (b : bool)
| DInt (z : Z)
| DStr (s : string)
| DBig (z : Z)
| DMarker (decimal : string)
| DArr (l : list data)
| DObj (l : list (string * data)).

Section DataInd.
Context (P : data -> Prop).
Context (Hnull : P DNull) (Hbool : forall b, P (DBool b)) (Hint : forall z, P (DInt z)).
Context (Hstr : forall s, P (DStr s)) (Hbig : forall z, P (DBig z)).
Context (Hmarker : forall s, P (DMarker s)).
Context (Harr : forall l, Forall P l -> P (DArr l)).
Context (Hobj : forall l, Forall (fun kv => P (snd kv)) l -> P (DObj l)).

(** Induction that reaches the elements of arrays and objects. *)
Fixpoint data_ind' (v : data) : P v :=
  match v with
  | DNull => Hnull
  | DBool b => Hbool b
  | DInt z => Hint z
  | DStr s => Hstr s
  | DBig z => Hbig z
  | DMarker s => Hmarker s
  | DArr l => Harr l ((fix go l : Forall P l := match l with
                                   | [] => Forall_nil_2 _
                                   | x :: l' => Forall_cons_2 _ _ _ (data_ind' x) (go l')
                                   end) l)
  | DObj l => Hobj l ((fix go l : Forall (fun kv => P (snd kv)) l := match l with
                                   | [] => Forall_nil_2 _
                                   | x :: l' => Forall_cons_2 (fun kv => P (snd kv)) _ _
                                                  (data_ind' (snd x)) (go l')
                                   end) l)
  end.
End DataInd.

(** [l.map(f)] where [f] may throw. *)
Definition traverse {E A B} (f : A -> result E B) : list A -> result E (list B) :=
  fix go l :=
    match l with
    | [] => Ok []
    | x :: l' => y ← f x; ys ← go l'; Ok (y :: ys)
    end.

(** [decimal.replace(/^-/, '').length] *)
Definition digit_count (decimal : string) : nat :=
  match chars decimal with
  | c :: l => if Ascii.eqb c "-"%char then List.length l else S (List.length l)
  | [] => 0
  end.

(** src/src/utils/json.ts:143-149 (isReservedBigIntMarker) *)
Definition isReservedBigIntMarker (v : data) : bool :=
  match v with
  | DMarker _ => true
  | DObj [(k, _)] => bool_decide (k = BIGINT_JSON_MARKER)
  | _ => false
  end.

(** src/src/utils/json.ts:125-141 (rejectReservedBigIntMarkers) *)
Fixpoint rejectReservedBigIntMarkers (v : data) : result exn unit :=
  match v with
  | DArr l => for_each (fun x => rejectReservedBigIntMarkers x) l
  | DObj l =>
      throw_if (isReservedBigIntMarker v) (TypeError "reserved marker") ;;
      for_each (fun kv => rejectReservedBigIntMarkers (snd kv)) l
  | _ => Ok tt
  end.

(** src/src/utils/json.ts:15-27 (stringifyJson): the value [JSON.stringify] sees
    through the replacer. *)
Fixpoint replaced (v : data) : result exn json :=
  match v with
  | DNull => Ok JsonNull
  | DBool b => Ok (JsonBool b)
  | DInt z => Ok (JsonInt z)
  | DStr s => Ok (JsonStr s)
  | DBig z =>
      throw_if (MAX_SERIALIZED_BIGINT_DIGITS <? digit_count (to_decimal z))%nat
        (RangeError "Serialized bigint exceeds 78 decimal digits.") ;;
      Ok (json_bigint z)
  | DMarker s => Ok (JsonObj [(BIGINT_JSON_MARKER, JsonStr s)])
  | DArr l => JsonArr <$> traverse (fun x => replaced x) l
  | DObj l =>
      throw_if (isReservedBigIntMarker v) (TypeError "reserved marker") ;;
      JsonObj <$> traverse (fun kv => j ← replaced (snd kv); Ok (fst kv, j)) l
  end.

(** src/src/utils/json.ts:13-28 (stringifyJson) *)
Definition stringifyJson (v : data) : result exn string :=
  rejectReservedBigIntMarkers v ;;
  j ← replaced v;
  Ok (stringify j).

(** src/src/utils/json.ts:151-157 (isBigIntMarker): the [bigint] of a marker object. *)
Definition marker_value (l : list (string * data)) : option Z :=
  match l with
  | [(k, DStr s)] =>
      if bool_decide (k = BIGINT_JSON_MARKER) && (digit_count s <=? MAX_SERIALIZED_BIGINT_DIGITS)%nat
         && negb (bool_decide (s = "-0"))
      then signed_decimal s else None
  | _ => None
  end.

(** src/src/utils/json.ts:30-35 (parseJson): the reviver, on the tree that
    [JSON.parse] reads. *)
Fixpoint revived (j : json) : data :=
  match j with
  | JsonNull => DNull
  | JsonBool b => DBool b
  | JsonInt z => DInt z
  | JsonStr s => DStr s
  | JsonArr l => DArr (map revived l)
  | JsonObj l =>
      let l := map (fun kv => (fst kv, revived (snd kv))) l in
      match marker_value l with
      | Some z => DBig z
      | None => DObj l
      end
  end.

(** * Canonical values *)

(** The order of [keys.sort()], which compares UTF-16 code units.  On the bytes of
    the UTF-8 encoding it is the byte order, but that the characters from U+E000 to
    U+FFFF (lead bytes EE and EF) come after those outside the basic plane. *)
Definition unit_rank (c : ascii) : Z :=
  let n := Z.of_nat (nat_of_ascii c) in
  if (238 <=? n) && (n <? 240) then n + 300 else n.
Fixpoint units_le (l l' : list Z) : bool :=
  match l, l' with
  | [], _ => true
  | _ :: _, [] => false
  | x :: l, y :: l' => if x =? y then units_le l l' else x <? y
  end.
Definition key_units (k : string) : list Z := map unit_rank (chars k).
Definition key_le (k k' : string) : Prop := units_le (key_units k) (key_units k') = true.
Global Instance key_le_dec : RelDecision key_le.
Proof. intros k k'. unfold key_le. apply _. Defined.

(** The order in which an object enumerates its properties: array indices first,
    ascending, then the other keys as they were inserted. *)
Definition array_index (k : string) : option Z :=
  n ← unsigned_decimal k; if n <? 4294967295 then Some n else None.
Definition index_le (k k' : string) : Prop := default 0 (array_index k) <= default 0 (array_index k').
Global Instance index_le_dec : RelDecision index_le.
Proof. intros k k'. unfold index_le. apply _. Defined.
Definition is_index (k : string) : Prop := is_Some (array_index k).
Definition enumeration (keys : list string) : list string :=
  merge_sort index_le (filter is_index keys) ++ filter (fun k => ~ is_index k) keys.

(** [state.nodes] and [state.textBytes] *)
Record counters := { nodes : Z; textBytes : Z }.
Definition structural_limit : exn := RangeError "Canonical JSON exceeds structural limits.".

(** src/src/utils/json.ts:113-123 (accountCanonicalText) *)
Definition accountCanonicalText (value : string) : prog counters exn unit := fun st =>
  let bytes := byte_length value in
  if (MAX_CANONICAL_JSON_STRING_BYTES <? bytes)
     || (MAX_CANONICAL_JSON_TEXT_BYTES <? textBytes st + bytes)
  then (Err (RangeError "Canonical JSON exceeds text limits."), st)
  else (Ok tt, {| nodes := nodes st; textBytes := textBytes st + bytes |}).

(** [++state.nodes > MAX_CANONICAL_JSON_NODES] *)
Definition count_node : prog counters exn unit := fun st =>
  let st := {| nodes := nodes st + 1; textBytes := textBytes st |} in
  if MAX_CANONICAL_JSON_NODES <? nodes st then (Err structural_limit, st) else (Ok tt, st).

(** [for (const x of l) out.push(f(x));] *)
Fixpoint for_map {W E A B} (f : A -> prog W E B) (l : list A) : prog W E (list B) :=
  match l with
  | [] => pret []
  | x :: l' => y <-- f x; ys <-- for_map f l'; pret (y :: ys)
  end.

Definition member (l : list (string * data)) (k : string) : data :=
  default DNull (list_find (fun kv => fst kv = k) l ≫= fun ikv => Some (snd (snd ikv))).

(** The elements of an array with their indices. *)
Definition indexed {A} (l : list A) : list (string * A) :=
  imap (fun i x => (to_decimal (Z.of_nat i), x)) l.

(** src/src/utils/json.ts:56-111 (canonicalJsonValue).  The fuel is what is left of
    the depth limit: none is left exactly when [depth > MAX_CANONICAL_JSON_DEPTH]. *)
Fixpoint canonicalJsonValue (fuel : nat) (v : data) : prog counters exn data :=
  match fuel with
  | O => pthrow structural_limit
  | S fuel =>
      count_node >>>
      match v with
      | DStr s => accountCanonicalText s >>> pret v
      | DNull | DBool _ | DBig _ => pret v
      | DInt z =>
          lift (throw_if (negb (is_safe_integer z)) (TypeError "Canonical JSON number is invalid.")) >>>
          pret v
      | DArr l =>
          items <-- for_map (fun ix => accountCanonicalText (fst ix) >>>
                                       canonicalJsonValue fuel (snd ix)) (indexed l);
          pret (DArr items)
      | DMarker s =>
          accountCanonicalText BIGINT_JSON_MARKER >>>
          canonicalJsonValue fuel (DStr s) >>>
          pret v
      | DObj l =>
          for_map accountCanonicalText (map fst l) >>>
          members <-- for_map (fun k => x <-- canonicalJsonValue fuel (member l k); pret (k, x))
                        (merge_sort key_le (map fst l));
          pret (DObj (map (fun k => (k, member members k)) (enumeration (map fst members))))
      end
  end.

(** src/src/utils/json.ts:47-54 (canonicalStringifyJson) *)
Definition canonicalStringifyJson (v : data) : result exn string :=
  canonical ← fst (canonicalJsonValue (S MAX_CANONICAL_JSON_DEPTH) v {| nodes := 0; textBytes := 0 |});
  serialized ← stringifyJson canonical;
  throw_if (MAX_CANONICAL_JSON_TEXT_BYTES <? byte_length serialized)
    (RangeError "Canonical JSON exceeds serialized limit.") ;;
  Ok serialized.

(** * Round trip *)

(** No trusted marker inside: a value as callers build it. *)
Fixpoint marker_free (v : data) : bool :=
  match v with
  | DMarker _ => false
  | DArr l => forallb marker_free l
  | DObj l => forallb (fun kv => marker_free (snd kv)) l
  | _ => true
  end.
(** What every JavaScript object satisfies. *)
Fixpoint distinct_keys (v : data) : bool :=
  match v with
  | DArr l => forallb distinct_keys l
  | DObj l => all_distinct (map fst l) && forallb (fun kv => distinct_keys (snd kv)) l
  | _ => true
  end.

Lemma traverse_Ok {E A B} (f : A -> result E B) l ys :
  traverse f l = Ok ys <-> Forall2 (fun x y => f x = Ok y) l ys.
Proof.
  revert ys. induction l as [|x l IH]; intros ys; cbn.
  - split; [intros [= <-]; constructor | by inversion 1].
  - split.
    + intros Hr. result_inv. constructor; [done|]. by apply IH.
    + inversion 1 as [|? y ? ys' Hx Hl]; subst. rewrite Hx. cbn.
      by rewrite (proj2 (IH ys') Hl).
Qed.

Lemma forallb_cons_inv {A} (f : A -> bool) x l :
  forallb f (x :: l) = true <-> f x = true /\ forallb f l = true.
Proof. apply andb_true_iff. Qed.

Lemma to_decimal_not_minus_zero z : to_decimal z <> "-0".
Proof.
  intros Heq. pose proof (signed_decimal_to_decimal z) as Hz. rewrite Heq in Hz.
  assert (signed_decimal "-0" = Some 0) as H0 by reflexivity. rewrite H0 in Hz.
  injection Hz as <-. discriminate Heq.
Qed.

Lemma marker_value_unreserved l : isReservedBigIntMarker (DObj l) = false -> marker_value l = None.
Proof.
  intros Hr. unfold marker_value. destruct l as [|[k [| | |s| | | |]] [|]]; try done.
  cbn in Hr. by rewrite Hr.
Qed.

Lemma marker_value_bigint z :
  (MAX_SERIALIZED_BIGINT_DIGITS <? digit_count (to_decimal z))%nat = false ->
  marker_value [(BIGINT_JSON_MARKER, DStr (to_decimal z))] = Some z.
Proof.
  intros Hd%Nat.ltb_ge. unfold marker_value. rewrite bool_decide_eq_true_2 by done.
  rewrite (proj2 (Nat.leb_le _ _) Hd), bool_decide_eq_false_2 by apply to_decimal_not_minus_zero.
  apply signed_decimal_to_decimal.
Qed.

(** Reviving what the replacer produced gives the value back. *)
Lemma revived_replaced v j : marker_free v = true -> replaced v = Ok j -> revived j = v.
Proof.
  revert j. induction v as [|b|z|s|z|s|l IH|l IH] using data_ind'; intros j Hf Hr;
    cbn [replaced] in Hr; try (injection Hr as <-; done).
  - result_inv. cbn [json_bigint revived map fst snd]. by rewrite marker_value_bigint.
  - apply fmap_Ok in Hr as (ys & Hys & ->). apply traverse_Ok in Hys. cbn [revived]. f_equal.
    cbn in Hf. clear - IH Hys Hf. induction Hys as [|x y l ys Hx Hl IHl]; [done|].
    apply Forall_cons in IH as [Hx' IH]. apply forallb_cons_inv in Hf as [Hf Hf']. cbn.
    by rewrite (Hx' _ Hf Hx), IHl.
  - apply bind_Ok in Hr as (u & Hres & Hr). apply throw_if_Ok in Hres.
    apply fmap_Ok in Hr as (ys & Hys & ->). apply traverse_Ok in Hys. cbn [revived].
    assert (map (fun kv => (fst kv, revived (snd kv))) ys = l) as ->.
    { cbn in Hf. clear - IH Hys Hf. induction Hys as [|[k x] y l ys Hx Hl IHl]; [done|].
      apply Forall_cons in IH as [Hx' IH]. apply forallb_cons_inv in Hf as [Hf Hf'].
      result_inv. cbn in *. by rewrite (Hx' _ Hf H), IHl. }
    by rewrite marker_value_unreserved.
Qed.

Lemma stringifyJson_revive v t :
  marker_free v = true -> stringifyJson v = Ok t -> exists j, t = stringify j /\ revived j = v.
Proof.
  unfold stringifyJson. intros Hf Hs. result_inv. eexists. split; [done|].
  by eapply revived_replaced.
Qed.

Lemma stringifyJson_inj v v' t :
  marker_free v = true -> marker_free v' = true ->
  stringifyJson v = Ok t -> stringifyJson v' = Ok t -> v = v'.
Proof.
  intros Hf Hf' Hs Hs'. apply stringifyJson_revive in Hs as (j & -> & <-); [|done].
  apply stringifyJson_revive in Hs' as (j' & Heq & <-); [|done]. by apply stringify_inj in Heq as ->.
Qed.

(** * Canonical form *)

(** Equality up to the order of object members. *)
Inductive same_value : data -> data -> Prop :=
| same_atom v : (forall l, v <> DArr l) -> (forall l, v <> DObj l) -> same_value v v
| same_array l l' :
    List.length l = List.length l' ->
    (forall i x x', l !! i = Some x -> l' !! i = Some x' -> same_value x x') ->
    same_value (DArr l) (DArr l')
| same_object l l' :
    (forall k, k ∈ map fst l <-> k ∈ map fst l') ->
    (forall k, k ∈ map fst l -> same_value (member l k) (member l' k)) ->
    same_value (DObj l) (DObj l').

Lemma units_le_total l l' : units_le l l' = true \/ units_le l' l = true.
Proof.
  revert l'. induction l as [|x l IH]; intros [|y l']; cbn; auto.
  rewrite (Z.eqb_sym y x). destruct (x =? y) eqn:Hxy; [apply IH|]. bool_prop.
  destruct (Z.ltb_spec x y), (Z.ltb_spec y x); auto; lia.
Qed.

Lemma units_le_trans l l' l'' :
  units_le l l' = true -> units_le l' l'' = true -> units_le l l'' = true.
Proof.
  revert l' l''. induction l as [|x l IH]; intros [|y l'] [|z l'']; cbn; try done.
  destruct (Z.eqb_spec x y), (Z.eqb_spec y z), (Z.eqb_spec x z); subst; try done; try lia; eauto.
Qed.

Lemma units_le_antisym l l' : units_le l l' = true -> units_le l' l = true -> l = l'.
Proof.
  revert l'. induction l as [|x l IH]; intros [|y l']; cbn; try done.
  rewrite (Z.eqb_sym y x). destruct (x =? y) eqn:Hxy; [|intros; bool_prop; lia].
  bool_prop. subst. intros. f_equal. auto.
Qed.

Lemma unit_rank_inj c c' : unit_rank c = unit_rank c' -> c = c'.
Proof.
  unfold unit_rank. intros Heq. rewrite <- (ascii_nat_embedding c), <- (ascii_nat_embedding c').
  f_equal. pose proof (nat_ascii_bounded c). pose proof (nat_ascii_bounded c').
  destruct (_ && _) eqn:H1 in Heq; destruct (_ && _) eqn:H2 in Heq; bool_prop; lia.
Qed.

Lemma key_units_inj k k' : key_units k = key_units k' -> k = k'.
Proof.
  intros Heq. rewrite <- (of_chars_chars k), <- (of_chars_chars k'). f_equal.
  unfold key_units in Heq. revert Heq. generalize (chars k') as l'.
  induction (chars k) as [|c l IH]; intros [|c' l']; cbn; try done.
  intros [= Hc Hl]. f_equal; [by apply unit_rank_inj | by apply IH].
Qed.

Global Instance key_le_total : Total key_le.
Proof. intros k k'. apply units_le_total. Qed.
Global Instance key_le_trans : Transitive key_le.
Proof. intros k k' k''. apply units_le_trans. Qed.
Global Instance key_le_antisym : AntiSymm (=) key_le.
Proof. intros k k' H1 H2. by apply key_units_inj, units_le_antisym. Qed.

(** Sorting keys forgets the order they came in. *)
Lemma sorted_keys_unique ks ks' : ks ≡ₚ ks' -> merge_sort key_le ks = merge_sort key_le ks'.
Proof.
  intros Hp. apply (Sorted_unique key_le); try apply (Sorted_merge_sort _).
  by rewrite !merge_sort_Permutation.
Qed.

(** Two runs agree when they throw the same, or return the same in the same state. *)
Definition agree {W E A} (p q : result E A * W) : Prop :=
  match p, q with
  | (Ok a, w), (Ok b, w') => a = b /\ w = w'
  | (Err e, _), (Err e', _) => e = e'
  | _, _ => False
  end.

Lemma agree_refl {W E A} (p : result E A * W) : agree p p.
Proof. by destruct p as [[]]. Qed.

Lemma agree_bind {W E A B} (m m' : prog W E A) (f f' : A -> prog W E B) w :
  agree (m w) (m' w) -> (forall a w', agree (f a w') (f' a w')) ->
  agree (pbind m f w) (pbind m' f' w).
Proof.
  intros Hm Hf. unfold pbind. destruct (m w) as [[a|e] w1], (m' w) as [[b|e'] w1']; cbn in *; try done.
  destruct Hm as [-> ->]. apply Hf.
Qed.

Lemma agree_for_map2 {W E A B} (f f' : A -> prog W E B) l l' w :
  Forall2 (fun x x' => forall w, agree (f x w) (f' x' w)) l l' ->
  agree (for_map f l w) (for_map f' l' w).
Proof.
  intros Hl. revert w. induction Hl as [|x x' l l' Hx Hl IH]; intros w; [apply agree_refl|].
  cbn [for_map]. apply agree_bind; [apply Hx|]. intros y w'.
  apply agree_bind; [apply IH|]. intros. apply agree_refl.
Qed.

Lemma agree_for_map {W E A B} (f f' : A -> prog W E B) l w :
  (forall x w, x ∈ l -> agree (f x w) (f' x w)) -> agree (for_map f l w) (for_map f' l w).
Proof. intros Hf. apply agree_for_map2, Forall_Forall2_diag, Forall_forall. auto. Qed.

Lemma agree_trans {W E A} (p q r : result E A * W) : agree p q -> agree q r -> agree p r.
Proof. destruct p as [[]], q as [[]], r as [[]]; cbn; naive_solver congruence. Qed.

Lemma account_swap x y st :
  agree ((accountCanonicalText x >>> accountCanonicalText y) st)
        ((accountCanonicalText y >>> accountCanonicalText x) st).
Proof.
  unfold pbind, accountCanonicalText.
  destruct ((_ <? byte_length x) || _) eqn:Hx.
  - destruct ((_ <? byte_length y) || _) eqn:Hy; [done|]. cbn [textBytes].
    destruct ((_ <? byte_length x) || (_ <? _ + byte_length y + _)) eqn:Hx'; [done|].
    apply orb_false_iff in Hx' as [H1 H2]. apply orb_true_iff in Hx. unfold byte_length in *.
    rewrite H1 in Hx. bool_prop. destruct Hx as [Hx|Hx]; [done|]. bool_prop. lia.
  - cbn [textBytes]. apply orb_false_iff in Hx as [Hx1 Hx2].
    destruct (_ <? byte_length y) eqn:Hy1; cbn [orb]; [done|].
    destruct (_ <? textBytes st + byte_length y) eqn:Hy2.
    + replace (_ <? textBytes st + byte_length x + byte_length y) with true; [done|].
      symmetry. unfold byte_length in *. bool_prop. lia.
    + rewrite Hx1. cbn [orb textBytes nodes].
      replace (textBytes st + byte_length y + byte_length x)
        with (textBytes st + byte_length x + byte_length y) by lia.
      destruct (_ <? textBytes st + byte_length x + byte_length y); [done|]. cbn. split; [done|].
      f_equal.
Qed.

(** The text budget does not depend on the order of the keys. *)
Lemma account_permutation ks ks' :
  ks ≡ₚ ks' -> forall st,
  agree (for_map accountCanonicalText ks st) (for_map accountCanonicalText ks' st).
Proof.
  intros Hp. induction Hp as [|k l l' Hp IH|x y l|l l' l'' _ IH1 _ IH2]; intros st.
  - apply agree_refl.
  - apply agree_bind; [apply agree_refl|]. intros u w'.
    apply agree_bind; [apply IH|]. intros. apply agree_refl.
  - pose proof (account_swap y x st) as Hs. cbn [for_map]. unfold pbind in *.
    destruct (accountCanonicalText y st) as [[[]|e] w1], (accountCanonicalText x st) as [[[]|e'] w2];
      cbn in Hs |- *;
      repeat match goal with
      | |- context [accountCanonicalText ?a ?b] => destruct (accountCanonicalText a b) as [[[]|?] ?]
      end; cbn in Hs; try done; try (destruct Hs; subst; apply agree_refl).
  - by eapply agree_trans.
Qed.

Lemma NoDup_same_keys (l l' : list (string * data)) :
  NoDup (map fst l) -> NoDup (map fst l') ->
  (forall k, k ∈ map fst l <-> k ∈ map fst l') -> map fst l ≡ₚ map fst l'.
Proof. intros. by apply NoDup_Permutation. Qed.

Lemma member_cons k v l k' :
  member ((k, v) :: l) k' = if decide (k = k') then v else member l k'.
Proof.
  unfold member. cbn. destruct (decide (k = k')); cbn; [done|].
  by destruct (list_find _ l) as [[i [k0 v0]]|].
Qed.

Lemma member_elem l k : k ∈ map fst l -> (k, member l k) ∈ l.
Proof.
  induction l as [|[k' v] l IH]; cbn [map fst]; [by inversion 1|].
  rewrite elem_of_cons, member_cons. intros Hk. destruct (decide (k' = k)) as [->|Hne]; [by left|].
  right. apply IH. naive_solver.
Qed.

Lemma member_unique l k v : NoDup (map fst l) -> (k, v) ∈ l -> member l k = v.
Proof.
  induction l as [|[k' v'] l IH]; cbn [map fst]; [by inversion 2|].
  rewrite NoDup_cons, elem_of_cons, member_cons. intros [Hk Hd] [[= -> ->]|Hin].
  - by rewrite decide_True.
  - rewrite decide_False; [by apply IH|]. intros ->. apply Hk.
    apply list_elem_of_In, in_map_iff. exists (k, v). split; [done|]. by apply list_elem_of_In.
Qed.

Lemma distinct_obj l :
  distinct_keys (DObj l) = true ->
  NoDup (map fst l) /\ forall k, k ∈ map fst l -> distinct_keys (member l k) = true.
Proof.
  cbn [distinct_keys]. intros [Hd Hl]%andb_true_iff. bool_prop. split; [done|].
  intros k Hk%member_elem. rewrite forallb_forall in Hl. by apply (Hl _ (proj1 (list_elem_of_In _ _) Hk)).
Qed.

Lemma distinct_arr l i x :
  distinct_keys (DArr l) = true -> l !! i = Some x -> distinct_keys x = true.
Proof.
  cbn [distinct_keys]. rewrite forallb_forall. intros Hl Hx. apply Hl.
  apply list_elem_of_In. by eapply list_elem_of_lookup_2.
Qed.

(** Values that differ in member order have one canonical form. *)
Lemma canonical_same fuel v v' :
  same_value v v' -> distinct_keys v = true -> distinct_keys v' = true ->
  forall st, agree (canonicalJsonValue fuel v st) (canonicalJsonValue fuel v' st).
Proof.
  revert v v'. induction fuel as [|fuel IH]; intros v v' Hs Hd Hd' st; [done|].
  destruct Hs as [v Ha Ho | l l' Hlen Hl | l l' Hk Hl]; [apply agree_refl| |].
  - apply agree_bind; [apply agree_refl|]. intros u w.
    apply agree_bind; [|intros; apply agree_refl].
    apply agree_for_map2. unfold indexed. apply Forall2_same_length_lookup_2.
    { by rewrite !length_imap. }
    intros i [k x] [k' x'] Hx Hx' w'.
    rewrite list_lookup_imap in Hx, Hx'. apply fmap_Some in Hx as (y & Hy & [= -> ->]).
    apply fmap_Some in Hx' as (y' & Hy' & [= -> ->]). cbn [fst snd].
    apply agree_bind; [apply agree_refl|]. intros _ w''.
    apply IH; [exact (Hl _ _ _ Hy Hy') | exact (distinct_arr _ _ _ Hd Hy)
      | exact (distinct_arr _ _ _ Hd' Hy')].
  - apply agree_bind; [apply agree_refl|]. intros u w.
    destruct (distinct_obj _ Hd) as [Hn Hm], (distinct_obj _ Hd') as [Hn' Hm'].
    pose proof (NoDup_same_keys _ _ Hn Hn' Hk) as Hp.
    apply agree_bind; [by apply account_permutation|]. intros us w'.
    rewrite (sorted_keys_unique _ _ Hp).
    apply agree_bind; [|intros; apply agree_refl].
    apply agree_for_map. intros k w'' Hin. rewrite merge_sort_Permutation in Hin.
    apply agree_bind; [|intros; apply agree_refl].
    apply IH; [apply Hl; by apply Hk | apply Hm; by apply Hk | by apply Hm'].
Qed.

(** Running [for_map] to its end, element by element. *)
Lemma for_map_Ok {W E A B} (f : A -> prog W E B) l w ys w' :
  for_map f l w = (Ok ys, w') ->
  Forall2 (fun x y => exists w1 w2, f x w1 = (Ok y, w2)) l ys.
Proof.
  revert w ys w'. induction l as [|x l IH]; intros w ys w'; cbn [for_map].
  { intros [= <- <-]. constructor. }
  unfold pbind, pret. destruct (f x w) as [[y|e] w1] eqn:Hx; [|done].
  destruct (for_map f l w1) as [[ys'|e] w2] eqn:Hl; [|done]. intros [= <- <-].
  constructor; [by eauto|]. by eapply IH.
Qed.

Lemma enumeration_Permutation ks : enumeration ks ≡ₚ ks.
Proof.
  unfold enumeration. rewrite merge_sort_Permutation.
  induction ks as [|k ks IH]; [done|]. rewrite !filter_cons.
  destruct (decide (is_index k)) as [Hk|Hk].
  - rewrite (decide_False (P := ~ is_index k)) by naive_solver. cbn. by rewrite IH.
  - rewrite (decide_True (P := ~ is_index k)) by done.
    by rewrite <- Permutation_middle, IH.
Qed.

Lemma member_map (f : string -> data) ks k :
  k ∈ ks -> member (map (fun k => (k, f k)) ks) k = f k.
Proof.
  induction ks as [|k' ks IH]; [by inversion 1|]. rewrite elem_of_cons.
  cbn [map]. rewrite member_cons. intros Hk. destruct (decide (k' = k)) as [->|Hne]; [done|].
  apply IH. naive_solver.
Qed.

(** The members the canonical object ends up with. *)
Lemma canonical_members (l : list (string * data)) members (R : data -> data -> Prop) :
  NoDup (map fst l) ->
  Forall2 (fun k kv => fst kv = k /\ R (member l k) (snd kv)) (merge_sort key_le (map fst l)) members ->
  let out := map (fun k => (k, member members k)) (enumeration (map fst members)) in
  map fst out ≡ₚ map fst l /\ forall k, k ∈ map fst l -> R (member l k) (member out k).
Proof.
  intros Hn Hm out.
  assert (map fst members = merge_sort key_le (map fst l)) as Hkeys.
  { clear - Hm. induction Hm as [|k [k' v] ks ms [Hk _] _ IH]; [done|]. cbn in *. by rewrite Hk, IH. }
  assert (map fst members ≡ₚ map fst l) as Hp by (rewrite Hkeys; apply merge_sort_Permutation).
  assert (map fst out = enumeration (map fst members)) as Hout.
  { unfold out. rewrite map_map. cbn. apply map_id. }
  split; [by rewrite Hout, enumeration_Permutation|]. intros k Hk.
  assert (k ∈ map fst members) as Hk' by (by rewrite Hp).
  unfold out. rewrite (member_map (member members)) by (by rewrite enumeration_Permutation).
  assert (NoDup (map fst members)) as Hnm by (by rewrite Hp).
  apply member_elem, list_elem_of_lookup in Hk' as [i Hi].
  destruct (Forall2_lookup_r _ _ _ _ _ Hm Hi) as (k0 & _ & Hk0 & HR). cbn in *. by subst k0.
Qed.

Lemma marker_free_obj l :
  NoDup (map fst l) ->
  marker_free (DObj l) = true <-> forall k, k ∈ map fst l -> marker_free (member l k) = true.
Proof.
  intros Hn. cbn [marker_free]. rewrite forallb_forall. split.
  - intros Hl k Hk%member_elem. by apply (Hl _ (proj1 (list_elem_of_In _ _) Hk)).
  - intros Hl [k v] Hin%list_elem_of_In. cbn [snd]. rewrite <- (member_unique l k v Hn Hin).
    apply Hl, list_elem_of_In, in_map_iff. exists (k, v). split; [done|]. by apply list_elem_of_In.
Qed.

Lemma marker_free_arr l :
  marker_free (DArr l) = true <-> forall i x, l !! i = Some x -> marker_free x = true.
Proof.
  cbn [marker_free]. rewrite forallb_forall. split.
  - intros Hl i x Hx. apply Hl, list_elem_of_In. by eapply list_elem_of_lookup_2.
  - intros Hl x Hx%list_elem_of_In. apply list_elem_of_lookup in Hx as [i Hi]. eauto.
Qed.

(** The canonical form is the value, up to member order; it has no new markers. *)
Definition canonical_of (v c : data) : Prop :=
  same_value v c /\ (marker_free v = true -> marker_free c = true).

Lemma canonical_is_same fuel v st c st' :
  distinct_keys v = true -> canonicalJsonValue fuel v st = (Ok c, st') -> canonical_of v c.
Proof.
  revert v st c st'. induction fuel as [|fuel IH]; intros v st c st' Hd Hc; [done|].
  cbn [canonicalJsonValue] in Hc. apply pbind_Ok in Hc as (u & w & _ & Hc).
  destruct v as [|b|z|s|z|s|l|l];
    repeat (apply pbind_Ok in Hc as (? & ? & ? & Hc)); unfold pret in Hc;
    injection Hc as <- <-; try (split; [apply same_atom; done | done]).
  - apply for_map_Ok in H. unfold indexed in H.
    assert (forall i y y', l !! i = Some y -> x !! i = Some y' -> canonical_of y y') as Hl.
    { intros i y y' Hy Hy'.
      destruct (Forall2_lookup_r _ _ _ _ _ H Hy') as ([k y0] & Hi & w1 & w2 & Hr).
      rewrite list_lookup_imap, Hy in Hi. injection Hi as <- <-.
      apply pbind_Ok in Hr as (? & ? & _ & Hr). eapply IH; [|exact Hr]. by eapply distinct_arr. }
    apply Forall2_length in H. rewrite length_imap in H. split.
    + apply same_array; [done|]. intros. by eapply Hl.
    + rewrite !marker_free_arr. intros Hf i y' Hy'.
      destruct (lookup_lt_is_Some_2 l i) as [y Hy].
      { rewrite H. by eapply lookup_lt_Some. }
      by eapply (Hl i y y' Hy Hy'), Hf.
  - destruct (distinct_obj _ Hd) as [Hn Hm]. apply for_map_Ok in H0.
    destruct (canonical_members l x1 canonical_of Hn) as [Hp HR].
    { apply Forall2_same_length_lookup_2; [by eapply Forall2_length|]. intros i k [k' y] Hk Hy.
      destruct (Forall2_lookup_lr _ _ _ _ _ _ H0 Hk Hy) as (w1 & w2 & Hr).
      apply pbind_Ok in Hr as (y0 & w3 & Hr & [= <- <- <-]). split; [done|].
      eapply IH; [|exact Hr]. apply Hm.
      rewrite <- (merge_sort_Permutation key_le). by eapply list_elem_of_lookup_2. }
    split.
    + apply same_object; [intros k; by rewrite Hp|]. intros k Hk. by apply HR.
    + rewrite (marker_free_obj l Hn), marker_free_obj by (by rewrite Hp).
      intros Hf k Hk. rewrite Hp in Hk. by apply HR, Hf.
Qed.

Lemma same_sym v v' : same_value v v' -> same_value v' v.
Proof.
  induction 1 as [v Ha Ho|l l' Hlen _ IH|l l' Hk _ IH]; [by apply same_atom| |].
  - apply same_array; [done|]. eauto.
  - apply same_object; [intros k; by rewrite Hk|]. intros k Hk'. by apply IH, Hk.
Qed.

Lemma same_trans v v' v'' : same_value v v' -> same_value v' v'' -> same_value v v''.
Proof.
  intros H1. revert v''. induction H1 as [v Ha Ho|l l' Hlen _ IH|l l' Hk _ IH]; intros v'' H2; [done| |].
  - inversion H2 as [? Ha Ho|? l2 Hlen' Hl|]; subst; [by destruct (Ha l')|].
    apply same_array; [congruence|]. intros i x x2 Hx Hx2.
    destruct (lookup_lt_is_Some_2 l' i) as [x1 Hx1]; [rewrite <- Hlen; by eapply lookup_lt_Some|].
    eauto.
  - inversion H2 as [? Ha Ho| |? l2 Hk' Hl]; subst; [by destruct (Ho l')|].
    apply same_object; [intros k; by rewrite Hk, Hk'|]. intros k Hin.
    apply IH; [done|]. by apply Hl, Hk.
Qed.

(** * Properties *)

(** Values with [bigint]s survive serialization.  The text [stringifyJson]
    produces is that of a JSON tree which [parseJson]'s reviver turns back into the
    value, [bigint]s included; so two values with one text are equal. *)
Theorem stringifyJson_round_trip (v : data) (t : string) (Hf : marker_free v = true)
    (Hs : stringifyJson v = Ok t) :
  (exists j, t = stringify j /\ revived j = v) /\
  (forall v', marker_free v' = true -> stringifyJson v' = Ok t -> v' = v).
Proof.
  split; [by apply stringifyJson_revive|]. intros v' Hf' Hs'. by apply (stringifyJson_inj v' v t).
Qed.

Definition sample_data : data :=
  DObj [("b", DArr [DBig (-5); DNull]); ("a", DObj [("d", DStr "x"); ("c", DInt 3)])].
Definition sample_data' : data :=
  DObj [("a", DObj [("c", DInt 3); ("d", DStr "x")]); ("b", DArr [DBig (-5); DNull])].

Lemma stringifyJson_round_trip_witness :
  exists t, stringifyJson sample_data = Ok t /\ exists j, t = stringify j /\ revived j = sample_data.
Proof.
  eexists. split; [vm_compute; reflexivity|].
  apply (stringifyJson_round_trip sample_data _ eq_refl). vm_compute. reflexivity.
Defined.

(** Values with one canonical text differ only in the order of members. *)
Lemma canonicalStringifyJson_same (v v' : data) (t : string) :
  distinct_keys v = true -> distinct_keys v' = true ->
  marker_free v = true -> marker_free v' = true ->
  canonicalStringifyJson v = Ok t -> canonicalStringifyJson v' = Ok t -> same_value v v'.
Proof.
  unfold canonicalStringifyJson. set (st := {| nodes := 0; textBytes := 0 |}).
  intros Hd Hd' Hf Hf' Ht Ht'. result_inv. rename x into c', x0 into c.
  destruct (canonicalJsonValue _ v st) as [r w] eqn:Hc.
  destruct (canonicalJsonValue _ v' st) as [r' w'] eqn:Hc'. cbn [fst] in *. subst r r'.
  apply canonical_is_same in Hc as [Hs Hm]; [|done].
  apply canonical_is_same in Hc' as [Hs' Hm']; [|done].
  assert (c' = c) as -> by (eapply stringifyJson_inj; eauto).
  eapply same_trans; [exact Hs | by apply same_sym].
Qed.

(** Members listed in one order are compared one by one. *)
Lemma same_object_members (l l' : list (string * data)) :
  NoDup (map fst l) -> map fst l = map fst l' -> same_value (DObj l) (DObj l') ->
  Forall2 (fun kv kv' => fst kv = fst kv' /\ same_value (snd kv) (snd kv')) l l'.
Proof.
  intros Hd He Hs.
  assert (forall k, k ∈ map fst l -> same_value (member l k) (member l' k)) as Hm.
  { inversion Hs as [v Hv Ho| |l0 l0' Hk Hm]; subst; [destruct (Ho _ eq_refl)|exact Hm]. }
  clear Hs. revert l' He Hm. induction l as [|[k v] l IH]; intros [|[k' v'] l'] He Hm; try done.
  cbn [map fst] in *. injection He as -> He. apply NoDup_cons in Hd as [Hk Hd].
  constructor.
  - split; [done|]. specialize (Hm k' ltac:(left)). rewrite !member_cons, !decide_True in Hm by done.
    exact Hm.
  - apply IH; [done..|]. intros k0 Hk0. specialize (Hm k0 ltac:(by right)).
    rewrite !member_cons, !decide_False in Hm by (intros ->; done). exact Hm.
Qed.
Lemma same_array_items (l l' : list data) : same_value (DArr l) (DArr l') -> Forall2 same_value l l'.
Proof.
  intros Hs. inversion Hs as [v Hv| l0 l0' Hlen Hi |]; subst; [destruct (Hv _ eq_refl)|].
  apply Forall2_same_length_lookup. done.
Qed.
Lemma same_atom_eq v v' :
  same_value v v' -> (forall l, v <> DArr l) -> (forall l, v <> DObj l) -> v = v'.
Proof. intros Hs Ha Ho. inversion Hs; subst; [done|destruct (Ha _ eq_refl)|destruct (Ho _ eq_refl)]. Qed.

(** The canonical text identifies a value up to the order of object members,
    and nothing else: a value that serializes gets the same text as another
    exactly when the two differ only in member order, at any depth.  The limits on
    depth, nodes and text do not break this, although keys are charged to the text
    budget in the order the object happens to have. *)
Theorem canonicalStringifyJson_identifies (v v' : data) (t : string)
    (Hd : distinct_keys v = true) (Hd' : distinct_keys v' = true)
    (Hf : marker_free v = true) (Hf' : marker_free v' = true)
    (Ht : canonicalStringifyJson v = Ok t) :
  canonicalStringifyJson v' = Ok t <-> same_value v v'.
Proof.
  split.
  - intros Ht'. by eapply canonicalStringifyJson_same.
  - intros Hs. unfold canonicalStringifyJson in *.
    set (st := {| nodes := 0; textBytes := 0 |}) in *.
    pose proof (canonical_same (S MAX_CANONICAL_JSON_DEPTH) v v' Hs Hd Hd' st) as Ha.
    destruct (canonicalJsonValue _ v st) as [[c|e] w]; [|done].
    destruct (canonicalJsonValue _ v' st) as [[c'|e'] w']; [|done].
    destruct Ha as [<- _]. exact Ht.
Qed.

Lemma canonicalStringifyJson_identifies_witness :
  exists t, canonicalStringifyJson sample_data = Ok t /\ canonicalStringifyJson sample_data' = Ok t /\
    same_value sample_data sample_data'.
Proof.
  eexists. split; [vm_compute; reflexivity|]. split; [vm_compute; reflexivity|].
  eapply (canonicalStringifyJson_identifies sample_data sample_data');
    [reflexivity | reflexivity | reflexivity | reflexivity | vm_compute; reflexivity |].
  vm_compute. reflexivity.
Defined.
