(* ===== verification/PaperStrategy.v ===== *)
(** Trading candidates ([src/src/domain/trading-candidate.ts]) and the sessions
    that follow a paper position from its entry to its exit
    ([src/src/domain/paper-strategy.ts]): session construction, and the counting of
    external buys (version 1) and of unique external buyers (version 2).

    A version 2 session is a version 1 session with more fields, as in the source;
    [payloadVersion] is the record's type.  Fields typed by a closed union in the
    source have an inductive type, so the checks that such a field is one of its
    constants always pass. *)
From S2P Require Import Prelude Text Types Chain Json PaperMath.
From Stdlib Require Import String.
Local Open Scope string_scope.
Local Open Scope list_scope.
Local Open Scope Z_scope.

(** * Types *)

(** src/src/domain/paper-trading.ts:36-39 (PaperStrategyIdentity) *)
Record PaperStrategyIdentity := { strategy_id : string; strategy_version : Z }.
Global Instance PaperStrategyIdentity_eq_dec : EqDecision PaperStrategyIdentity.
Proof. solve_decision. Defined.

(** src/src/domain/paper-strategy.ts:12-23 (PaperStrategySessionState) *)
Inductive PaperStrategySessionState :=
| BUY_PENDING | SESSION_HOLDING | WAITING_EXTERNAL_BUYS | EXIT_PENDING_QUOTE | SELL_PENDING
| SESSION_CLOSED | SESSION_RETRACTED | SESSION_MANUAL_REVIEW.
Global Instance PaperStrategySessionState_eq_dec : EqDecision PaperStrategySessionState.
Proof. solve_decision. Defined.

(** src/src/domain/paper-strategy.ts:48-55 (CreationExitReason) *)
Inductive CreationExitReason :=
| TARGET_REACHED | TAKE_PROFIT_2X | CREATOR_SELL | KILL_SWITCH.
Global Instance CreationExitReason_eq_dec : EqDecision CreationExitReason.
Proof. solve_decision. Defined.
Definition exit_reason_name (r : CreationExitReason) : string :=
  match r with
  | TARGET_REACHED => "EXTERNAL_UNIQUE_BUYERS_TARGET_REACHED"
  | TAKE_PROFIT_2X => "TAKE_PROFIT_2X_EXECUTABLE"
  | CREATOR_SELL => "CREATOR_EARLY_SELL"
  | KILL_SWITCH => "MANUAL_KILL_SWITCH"
  end.

(** src/src/domain/paper-strategy.ts:25-45 (PaperDecisionReasonCode): the exit
    reasons are four of the codes. *)
Inductive PaperDecisionReasonCode :=
| QUALIFICATION_NOT_ELIGIBLE | ENTRY_WINDOW_EXPIRED | EVIDENCE_REVOKED | QUALIFIED_ENTRY
| EXTERNAL_BUY_OBSERVED | EXTERNAL_BUY_TARGET_REACHED | EXIT_QUOTE_UNAVAILABLE | SOURCE_ORPHANED
| RECONCILIATION_REQUIRED | CREATION_ENTRY_EXPIRED | CREATION_ENTRY_REJECTED
| EXTERNAL_UNIQUE_BUY_OBSERVED | SELL_QUOTE_UNAVAILABLE_OR_STALE
| EXIT_REASON (r : CreationExitReason).
Global Instance PaperDecisionReasonCode_eq_dec : EqDecision PaperDecisionReasonCode.
Proof. solve_decision. Defined.

(** src/src/domain/paper-strategy.ts:46-46 (PaperMinimumConfirmation) *)
Inductive PaperMinimumConfirmation := min_confirmed | min_finalized.
Global Instance PaperMinimumConfirmation_eq_dec : EqDecision PaperMinimumConfirmation.
Proof. solve_decision. Defined.

(** src/src/domain/paper-strategy.ts:57-61 (PaperStrategyErrorEvidence) *)
Record PaperStrategyErrorEvidence := { er_code : string; er_message : string; er_retryable : bool }.

(** src/src/domain/paper-strategy.ts:68-73 (PaperEntryBoundary) *)
Record PaperEntryBoundary := { eb_slot : Z; eb_quoteId : string; eb_observedAtMs : Z }.

(** src/src/domain/trading-candidate.ts:12-19 (TradingCandidateState) *)
Inductive TradingCandidateState := NOT_ELIGIBLE | ELIGIBLE | EXPIRED | REVOKED.
Global Instance TradingCandidateState_eq_dec : EqDecision TradingCandidateState.
Proof. solve_decision. Defined.

(** src/src/domain/trading-candidate.ts:21-25 (QualificationProfileIdentity) *)
Record QualificationProfileIdentity := {
  pr_id : string; pr_version : Z; pr_fingerprint : string }.

(** src/src/domain/trading-candidate.ts:27-32 (TradingCandidateAsOf) *)
Record TradingCandidateAsOf := {
  ao_eventId : string;
  ao_cursor : ChainCursor;
  ao_confirmationStatus : ChainConfirmationStatus;
  ao_observedAtMs : Z;
}.

(** src/src/domain/trading-candidate.ts:34-51 (TradingCandidateV1) *)
Record TradingCandidateV1 := {
  ca_id : string;
  ca_mint : string;
  ca_strategy : PaperStrategyIdentity;
  ca_qualificationReportId : string;
  ca_qualificationProfile : QualificationProfileIdentity;
  ca_evidenceFingerprint : string;
  ca_asOf : TradingCandidateAsOf;
  ca_state : TradingCandidateState;
  ca_quoteAsset : QuoteAsset;
  ca_buyQuote : option PaperExecutionQuote;
  ca_reverseSellQuote : option PaperExecutionQuote;
  ca_eligibleUntilMs : option Z;
  ca_reasonCodes : list PaperDecisionReasonCode;
  ca_createdAtMs : Z;
  ca_purgeAfterMs : Z;
}.

(** src/src/domain/paper-strategy.ts:75-100 (PaperStrategySessionV1) *)
Record PaperStrategySessionV1 := {
  sn_id : string;
  sn_mint : string;
  sn_quoteAsset : QuoteAsset;
  sn_strategy : PaperStrategyIdentity;
  sn_candidateId : string;
  sn_qualificationReportId : string;
  sn_state : PaperStrategySessionState;
  sn_reasonCode : PaperDecisionReasonCode;
  sn_positionId : option string;
  sn_openCommandId : string;
  sn_closeCommandId : option string;
  sn_entryCursor : ChainCursor;
  sn_externalBuyTarget : Z;
  sn_externalBuyCount : Z;
  sn_countedTradeIds : list string;
  sn_lastCountedCursor : option ChainCursor;
  sn_minimumConfirmation : PaperMinimumConfirmation;
  sn_lastQuote : option PaperExecutionQuote;
  sn_lastError : option PaperStrategyErrorEvidence;
  sn_createdAtMs : Z;
  sn_updatedAtMs : Z;
  sn_purgeAfterMs : Z;
}.

(** src/src/domain/paper-strategy.ts:102-113 (PaperStrategySessionV2) *)
Record PaperStrategySessionV2 := {
  v2_base : PaperStrategySessionV1;
  v2_externalMinimumBuyAmountRaw : Z;
  v2_countedBuyerWallets : list string;
  v2_pendingExitReason : option CreationExitReason;
  v2_pendingExitTriggerAtMs : option Z;
  v2_entryBoundary : option PaperEntryBoundary;
}.

(** src/src/domain/paper-strategy.ts:115-115 (PaperStrategySession) *)
Inductive PaperStrategySession :=
| SessionV1 (s : PaperStrategySessionV1)
| SessionV2 (s : PaperStrategySessionV2).

(** src/src/domain/paper-strategy.ts:117-133 (CreatePaperStrategySessionInput) *)
Record CreatePaperStrategySessionInput := {
  si_candidate : TradingCandidateV1;
  si_state : PaperStrategySessionState;
  si_reasonCode : PaperDecisionReasonCode;
  si_positionId : option string;
  si_entryCursor : ChainCursor;
  si_externalBuyTarget : Z;
  si_externalBuyCount : Z;
  si_countedTradeIds : list string;
  si_lastCountedCursor : option ChainCursor;
  si_minimumConfirmation : PaperMinimumConfirmation;
  si_lastQuote : option PaperExecutionQuote;
  si_lastError : option PaperStrategyErrorEvidence;
  si_createdAtMs : Z;
  si_updatedAtMs : Z;
  si_purgeAfterMs : Z;
}.

(** src/src/domain/paper-strategy.ts:135-141 (CreateCreationEntrySessionInput) *)
Record CreateCreationEntrySessionInput := {
  ci_session : CreatePaperStrategySessionInput;
  ci_externalMinimumBuyAmountRaw : Z;
  ci_countedBuyerWallets : list string;
  ci_pendingExitReason : option CreationExitReason;
  ci_pendingExitTriggerAtMs : option Z;
  ci_entryBoundary : option PaperEntryBoundary;
}.

(** src/src/domain/paper-strategy.ts:143-171 (PaperExternalBuyEvidence and its
    variants): [quoteAmountRaw] is absent in version 1. *)
Record PaperExternalBuyEvidence := {
  bu_sessionId : string;
  bu_tradeId : string;
  bu_mint : string;
  bu_quoteMint : string;
  bu_trader : option string;
  bu_cursor : ChainCursor;
  bu_confirmationStatus : PaperMinimumConfirmation;
  bu_observedAtMs : Z;
}.
(** src/src/domain/paper-strategy.ts:155-162 (PaperExternalBuyEvidenceV2) *)
Record PaperExternalBuyEvidenceV2 := {
  b2_sessionId : string;
  b2_tradeId : string;
  b2_mint : string;
  b2_quoteMint : string;
  b2_trader : string;
  b2_quoteAmountRaw : Z;
  b2_cursor : ChainCursor;
  b2_confirmationStatus : PaperMinimumConfirmation;
  b2_observedAtMs : Z;
}.

(** src/src/domain/paper-strategy.ts:173-177 (CountExternalBuyResult) *)
Record CountExternalBuyResult := {
  cr_session : PaperStrategySessionV1;
  cr_evidence : option PaperExternalBuyEvidence;
  cr_targetReached : bool;
}.
(** src/src/domain/paper-strategy.ts:179-183 (CountUniqueExternalBuyResult) *)
Record CountUniqueExternalBuyResult := {
  cu_session : PaperStrategySessionV2;
  cu_evidence : option PaperExternalBuyEvidenceV2;
  cu_targetReached : bool;
}.

(** * Field checks *)

(** src/src/domain/paper-strategy.ts:570-574 (text) *)
Definition valid_text (value : string) : bool :=
  negb (is_empty value) && bool_decide (trim value = value) && (byte_length value <=? 4096).
Definition text (value field : string) : result exn unit :=
  throw_if (negb (valid_text value)) (TypeError ("Session " +:+ field +:+ " is invalid.")).

(** src/src/domain/paper-strategy.ts:560-564 (boundedTarget) *)
Definition boundedTarget (value : Z) : result exn unit :=
  throw_if (negb (is_safe_integer value) || (value <? 1) || (1000 <? value))
    (TypeError "Session external buy target is invalid.").

(** src/src/domain/paper-strategy.ts:566-568 (positiveInteger) *)
Definition positiveInteger (value : Z) (field : string) : result exn unit :=
  throw_if (negb (is_safe_integer value) || (value <=? 0))
    (TypeError ("Session " +:+ field +:+ " is invalid.")).

(** src/src/domain/paper-strategy.ts:545-550 (confirmationReached) *)
Definition confirmationReached (actual minimum : PaperMinimumConfirmation) : bool :=
  bool_decide (actual = min_finalized) || bool_decide (minimum = min_confirmed).

(** [/^candidate_[a-f0-9]{64}$/] *)
Definition is_candidate_id (s : string) : bool :=
  match after_prefix "candidate_" s with
  | Some rest => is_sha256_hex rest
  | None => false
  end.

(** src/src/domain/paper-strategy.ts:461-492 (validateSessionInput) *)
Definition validateSessionInput (i : CreatePaperStrategySessionInput) : result exn unit :=
  throw_if (negb (is_candidate_id (ca_id (si_candidate i))))
    (TypeError "Session candidate id is invalid.") ;;
  match si_positionId i with
  | Some p => text p "position id"
  | None => Ok tt
  end ;;
  assertValidChainCursor (si_entryCursor i) ;;
  boundedTarget (si_externalBuyTarget i) ;;
  throw_if (negb (is_safe_integer (si_externalBuyCount i)) || (si_externalBuyCount i <? 0)
            || (si_externalBuyTarget i <? si_externalBuyCount i)
            || negb (Z.of_nat (List.length (si_countedTradeIds i)) =? si_externalBuyCount i)
            || negb (all_distinct (si_countedTradeIds i)))
    (TypeError "Session external buy count is invalid.") ;;
  for_each (fun id => text id "counted trade id") (si_countedTradeIds i) ;;
  match si_lastCountedCursor i with
  | Some c =>
      assertValidChainCursor c ;;
      order ← compareCursors c (si_entryCursor i);
      throw_if (match order with
                | Gt => false
                | _ => true
                end) (TypeError "Session last counted cursor is invalid.")
  | None => Ok tt
  end ;;
  assertValidTimestampMs TF_observedAtMs (si_createdAtMs i) ;;
  assertValidTimestampMs TF_observedAtMs (si_updatedAtMs i) ;;
  assertValidTimestampMs TF_observedAtMs (si_purgeAfterMs i) ;;
  throw_if ((si_updatedAtMs i <? si_createdAtMs i) || (si_purgeAfterMs i <=? si_updatedAtMs i))
    (TypeError "Session dates are invalid.") ;;
  match si_lastError i with
  | Some e => text (er_code e) "error code" ;; text (er_message e) "error message"
  | None => Ok tt
  end.

(** src/src/domain/paper-strategy.ts:522-543 (validateAndSnapshotEntryBoundary) *)
Definition validateAndSnapshotEntryBoundary (b : PaperEntryBoundary)
    : result exn PaperEntryBoundary :=
  throw_if (eb_slot b <? 0) (TypeError "Creation session paper entry boundary is invalid.") ;;
  text (eb_quoteId b) "entry boundary quote id" ;;
  assertValidTimestampMs TF_observedAtMs (eb_observedAtMs b) ;;
  Ok b.

(** src/src/domain/paper-strategy.ts:511-520 (isStrictlyAfterPaperEntry) *)
Definition isStrictlyAfterPaperEntry (s : PaperStrategySessionV2) (cursor : ChainCursor)
    : result exn bool :=
  assertValidChainCursor cursor ;;
  match v2_entryBoundary s with
  | None => Err (TypeError "Creation session paper entry boundary is missing.")
  | Some b => b ← validateAndSnapshotEntryBoundary b; Ok (eb_slot b <? slot cursor)
  end.

(** src/src/domain/paper-strategy.ts:494-509 (validateExternalBuy).  The cursor
    check differs by version; the conditions are evaluated left to right. *)
Definition validateExternalBuy (session : PaperStrategySession) (tradeId mint quoteMint : string)
    (trader : option string) (cursor : ChainCursor) (confirmation : PaperMinimumConfirmation)
    (observedAtMs : Z) : result exn unit :=
  let base := match session with
              | SessionV1 s => s
              | SessionV2 s => v2_base s
              end in
  text tradeId "external buy trade id" ;;
  inconsistent ←
    (if negb (bool_decide (mint = sn_mint base))
        || negb (bool_decide (quoteMint = qa_mint (sn_quoteAsset base))) then Ok true else
     early ← match session with
             | SessionV2 s => after ← isStrictlyAfterPaperEntry s cursor; Ok (negb after)
             | SessionV1 s => order ← compareCursors cursor (sn_entryCursor s);
                              Ok (match order with
                                  | Gt => false
                                  | _ => true
                                  end)
             end;
     Ok (early || negb (confirmationReached confirmation (sn_minimumConfirmation base))
         || match trader with
            | Some t => is_empty t
            | None => false
            end));
  throw_if inconsistent (TypeError "External buy evidence is inconsistent.") ;;
  assertValidTimestampMs TF_observedAtMs observedAtMs.

(** * Sessions *)
Section Sessions.
Context `{Sha256}.

(** src/src/domain/paper-strategy.ts:556-558 (hash) *)
Definition hash (parts : list string) : string := sha256_hex (stringify_strings parts).

(** src/src/domain/paper-strategy.ts:552-554 (createSessionId) *)
Definition createSessionId (candidateId : string) (strategy : PaperStrategyIdentity) : string :=
  "paper_session_" +:+ hash [candidateId; strategy_id strategy; to_decimal (strategy_version strategy)].

(** src/src/domain/paper-strategy.ts:432-442 (createDeterministicPaperSellCommandId) *)
Definition createDeterministicPaperSellCommandId (positionId : string)
    (strategy : PaperStrategyIdentity) (target : Z) : result exn string :=
  text positionId "position id" ;;
  text (strategy_id strategy) "strategy id" ;;
  positiveInteger (strategy_version strategy) "strategy version" ;;
  boundedTarget target ;;
  Ok ("paper_sell_" +:+ hash [positionId; strategy_id strategy;
                              to_decimal (strategy_version strategy); to_decimal target]).

(** src/src/domain/paper-strategy.ts:453-458: the id of an exit, before its checks. *)
Definition creation_exit_id (positionId : string) (strategy : PaperStrategyIdentity)
    (reason : CreationExitReason) : string :=
  "paper_sell_" +:+ hash [positionId; strategy_id strategy;
                          to_decimal (strategy_version strategy); exit_reason_name reason].

(** src/src/domain/paper-strategy.ts:444-459 (createDeterministicCreationExitCommandId) *)
Definition createDeterministicCreationExitCommandId (positionId : string)
    (strategy : PaperStrategyIdentity) (reason : CreationExitReason) : result exn string :=
  text positionId "position id" ;;
  Ok (creation_exit_id positionId strategy reason).

(** src/src/domain/paper-strategy.ts:198-199, 281-284 (openCommandId) *)
Definition open_command_id (sessionId candidateId : string) (strategy : PaperStrategyIdentity)
    : string :=
  "paper_open_" +:+ hash [sessionId; candidateId; strategy_id strategy;
                          to_decimal (strategy_version strategy)].

(** The session object both constructors freeze. *)
Definition session_of (i : CreatePaperStrategySessionInput) (strategy : PaperStrategyIdentity)
    (closeCommandId : option string) : PaperStrategySessionV1 :=
  let c := si_candidate i in
  let id := createSessionId (ca_id c) strategy in
  {| sn_id := id; sn_mint := ca_mint c; sn_quoteAsset := ca_quoteAsset c; sn_strategy := strategy;
     sn_candidateId := ca_id c; sn_qualificationReportId := ca_qualificationReportId c;
     sn_state := si_state i; sn_reasonCode := si_reasonCode i; sn_positionId := si_positionId i;
     sn_openCommandId := open_command_id id (ca_id c) strategy;
     sn_closeCommandId := closeCommandId; sn_entryCursor := si_entryCursor i;
     sn_externalBuyTarget := si_externalBuyTarget i; sn_externalBuyCount := si_externalBuyCount i;
     sn_countedTradeIds := si_countedTradeIds i; sn_lastCountedCursor := si_lastCountedCursor i;
     sn_minimumConfirmation := si_minimumConfirmation i; sn_lastQuote := si_lastQuote i;
     sn_lastError := si_lastError i; sn_createdAtMs := si_createdAtMs i;
     sn_updatedAtMs := si_updatedAtMs i; sn_purgeAfterMs := si_purgeAfterMs i |}.

(** src/src/domain/paper-strategy.ts:185-230 (createPaperStrategySession) *)
Definition createPaperStrategySession (i : CreatePaperStrategySessionInput)
    : result exn PaperStrategySessionV1 :=
  validateSessionInput i ;;
  let strategy := ca_strategy (si_candidate i) in
  closeCommandId ←
    match si_positionId i with
    | Some p =>
        if si_externalBuyCount i =? si_externalBuyTarget i
        then Some <$> createDeterministicPaperSellCommandId p strategy (si_externalBuyTarget i)
        else Ok None
    | None => Ok None
    end;
  Ok (session_of i strategy closeCommandId).

Definition creation_strategy : PaperStrategyIdentity :=
  {| strategy_id := "creation-entry-v1"; strategy_version := 1 |}.

(** src/src/domain/paper-strategy.ts:232-324 (createCreationEntrySession) *)
Definition createCreationEntrySession (i : CreateCreationEntrySessionInput)
    : result exn PaperStrategySessionV2 :=
  let si := ci_session i in
  validateSessionInput si ;;
  throw_if (negb (bool_decide (ca_strategy (si_candidate si) = creation_strategy)))
    (TypeError "Creation session strategy is invalid.") ;;
  throw_if (negb (Z.of_nat (List.length (ci_countedBuyerWallets i)) =? si_externalBuyCount si)
            || negb (all_distinct (ci_countedBuyerWallets i)))
    (TypeError "Creation session buyer wallet count is invalid.") ;;
  throw_if (ci_externalMinimumBuyAmountRaw i <=? 0)
    (TypeError "Creation session minimum buy amount is invalid.") ;;
  for_each (fun w => text w "buyer wallet") (ci_countedBuyerWallets i) ;;
  match ci_pendingExitTriggerAtMs i with
  | Some at_ =>
      assertValidTimestampMs TF_pendingExitTriggerAtMs at_ ;;
      throw_if (negb (bool_decide (ci_pendingExitReason i = Some KILL_SWITCH)))
        (TypeError "Creation session manual exit trigger is inconsistent.")
  | None => Ok tt
  end ;;
  entryBoundary ← match ci_entryBoundary i with
                  | Some b => Some <$> validateAndSnapshotEntryBoundary b
                  | None => Ok None
                  end;
  throw_if (match entryBoundary, si_lastCountedCursor si with
            | Some b, Some c => slot c <=? eb_slot b
            | _, _ => false
            end) (TypeError "Creation session counted cursor predates its paper entry boundary.") ;;
  let closeCommandId :=
    match ci_pendingExitReason i, si_positionId si with
    | Some reason, Some p => Some (creation_exit_id p creation_strategy reason)
    | _, _ => None
    end in
  Ok {| v2_base := session_of si creation_strategy closeCommandId;
        v2_externalMinimumBuyAmountRaw := ci_externalMinimumBuyAmountRaw i;
        v2_countedBuyerWallets := ci_countedBuyerWallets i;
        v2_pendingExitReason := ci_pendingExitReason i;
        v2_pendingExitTriggerAtMs := ci_pendingExitTriggerAtMs i;
        v2_entryBoundary := entryBoundary |}.

(** The fields both counting functions assign. *)
Definition with_counted (s : PaperStrategySessionV1) (state : PaperStrategySessionState)
    (reason : PaperDecisionReasonCode) (count : Z) (tradeId : string) (cursor : ChainCursor)
    (closeCommandId : option string) (updatedAtMs : Z) : PaperStrategySessionV1 :=
  {| sn_id := sn_id s; sn_mint := sn_mint s; sn_quoteAsset := sn_quoteAsset s;
     sn_strategy := sn_strategy s; sn_candidateId := sn_candidateId s;
     sn_qualificationReportId := sn_qualificationReportId s; sn_state := state;
     sn_reasonCode := reason; sn_positionId := sn_positionId s;
     sn_openCommandId := sn_openCommandId s; sn_closeCommandId := closeCommandId;
     sn_entryCursor := sn_entryCursor s; sn_externalBuyTarget := sn_externalBuyTarget s;
     sn_externalBuyCount := count; sn_countedTradeIds := sn_countedTradeIds s ++ [tradeId];
     sn_lastCountedCursor := Some cursor; sn_minimumConfirmation := sn_minimumConfirmation s;
     sn_lastQuote := sn_lastQuote s; sn_lastError := None; sn_createdAtMs := sn_createdAtMs s;
     sn_updatedAtMs := updatedAtMs; sn_purgeAfterMs := sn_purgeAfterMs s |}.

(** src/src/domain/paper-strategy.ts:326-369 (countExternalBuy).  [sessionId] of
    the input is not read. *)
Definition countExternalBuy (session : PaperStrategySessionV1) (input : PaperExternalBuyEvidence)
    : result exn CountExternalBuyResult :=
  validateExternalBuy (SessionV1 session) (bu_tradeId input) (bu_mint input) (bu_quoteMint input)
    (bu_trader input) (bu_cursor input) (bu_confirmationStatus input) (bu_observedAtMs input) ;;
  let full := sn_externalBuyCount session =? sn_externalBuyTarget session in
  if includes (bu_tradeId input) (sn_countedTradeIds session) || full
  then Ok {| cr_session := session; cr_evidence := None; cr_targetReached := full |} else
  let evidence :=
    {| bu_sessionId := sn_id session; bu_tradeId := bu_tradeId input; bu_mint := bu_mint input;
       bu_quoteMint := bu_quoteMint input; bu_trader := bu_trader input;
       bu_cursor := bu_cursor input; bu_confirmationStatus := bu_confirmationStatus input;
       bu_observedAtMs := bu_observedAtMs input |} in
  let count := sn_externalBuyCount session + 1 in
  let targetReached := count =? sn_externalBuyTarget session in
  closeCommandId ←
    match sn_positionId session with
    | Some p =>
        if targetReached
        then Some <$> createDeterministicPaperSellCommandId p (sn_strategy session)
                        (sn_externalBuyTarget session)
        else Ok None
    | None => Ok None
    end;
  Ok {| cr_session := with_counted session
          (if targetReached then EXIT_PENDING_QUOTE else WAITING_EXTERNAL_BUYS)
          (if targetReached then EXTERNAL_BUY_TARGET_REACHED else EXTERNAL_BUY_OBSERVED)
          count (bu_tradeId input) (bu_cursor input) closeCommandId (bu_observedAtMs input);
        cr_evidence := Some evidence; cr_targetReached := targetReached |}.

(** src/src/domain/paper-strategy.ts:371-430 (countUniqueExternalBuy) *)
Definition countUniqueExternalBuy (session : PaperStrategySessionV2)
    (input : PaperExternalBuyEvidenceV2) : result exn CountUniqueExternalBuyResult :=
  let base := v2_base session in
  validateExternalBuy (SessionV2 session) (b2_tradeId input) (b2_mint input) (b2_quoteMint input)
    (Some (b2_trader input)) (b2_cursor input) (b2_confirmationStatus input)
    (b2_observedAtMs input) ;;
  text (b2_trader input) "buyer wallet" ;;
  throw_if (b2_quoteAmountRaw input <=? 0) (TypeError "Creation external buy amount is invalid.") ;;
  let full := sn_externalBuyCount base =? sn_externalBuyTarget base in
  if includes (b2_tradeId input) (sn_countedTradeIds base)
     || includes (b2_trader input) (v2_countedBuyerWallets session) || full
  then Ok {| cu_session := session; cu_evidence := None; cu_targetReached := full |} else
  let evidence :=
    {| b2_sessionId := sn_id base; b2_tradeId := b2_tradeId input; b2_mint := b2_mint input;
       b2_quoteMint := b2_quoteMint input; b2_trader := b2_trader input;
       b2_quoteAmountRaw := b2_quoteAmountRaw input; b2_cursor := b2_cursor input;
       b2_confirmationStatus := b2_confirmationStatus input;
       b2_observedAtMs := b2_observedAtMs input |} in
  let count := sn_externalBuyCount base + 1 in
  let targetReached := count =? sn_externalBuyTarget base in
  closeCommandId ←
    match sn_positionId base with
    | Some p =>
        if targetReached
        then Some <$> createDeterministicCreationExitCommandId p (sn_strategy base) TARGET_REACHED
        else Ok (sn_closeCommandId base)
    | None => Ok (sn_closeCommandId base)
    end;
  Ok {| cu_session :=
          {| v2_base := with_counted base
               (if targetReached then EXIT_PENDING_QUOTE else WAITING_EXTERNAL_BUYS)
               (if targetReached then EXIT_REASON TARGET_REACHED else EXTERNAL_UNIQUE_BUY_OBSERVED)
               count (b2_tradeId input) (b2_cursor input) closeCommandId (b2_observedAtMs input);
             v2_externalMinimumBuyAmountRaw := v2_externalMinimumBuyAmountRaw session;
             v2_countedBuyerWallets := v2_countedBuyerWallets session ++ [b2_trader input];
             v2_pendingExitReason :=
               if targetReached then Some TARGET_REACHED else v2_pendingExitReason session;
             v2_pendingExitTriggerAtMs := v2_pendingExitTriggerAtMs session;
             v2_entryBoundary := v2_entryBoundary session |};
        cu_evidence := Some evidence; cu_targetReached := targetReached |}.
End Sessions.

(** * Candidates *)

(** src/src/domain/trading-candidate.ts:191-195 (text) *)
Definition candidate_text (value field : string) : result exn unit :=
  throw_if (negb (valid_text value)) (TypeError ("Candidate " +:+ field +:+ " is invalid.")).

(** src/src/domain/trading-candidate.ts:197-199 (positiveInteger) *)
Definition candidate_positive (value : Z) (field : string) : result exn unit :=
  throw_if (negb (is_safe_integer value) || (value <=? 0))
    (TypeError ("Candidate " +:+ field +:+ " is invalid.")).

(** src/src/domain/trading-candidate.ts:201-203 (fingerprint) *)
Definition candidate_fingerprint (value field : string) : result exn unit :=
  throw_if (negb (is_sha256_hex value)) (TypeError ("Candidate " +:+ field +:+ " is invalid.")).

(** src/src/domain/trading-candidate.ts:184-189 (validateQuoteAsset) *)
Definition validateQuoteAsset (a : QuoteAsset) : result exn unit :=
  candidate_text (qa_mint a) "quote mint" ;;
  throw_if (negb (is_safe_integer (qa_decimals a)) || (qa_decimals a <? 0) || (255 <? qa_decimals a))
    (TypeError "Candidate quote asset decimals are invalid.").

(** src/src/domain/trading-candidate.ts:161-178 (validateQuote) *)
Definition validateQuote (q : PaperExecutionQuote) (inputMint outputMint : string)
    : result exn unit :=
  throw_if (is_empty (q_id q) || negb (bool_decide (q_inputMint q = inputMint))
            || negb (bool_decide (q_outputMint q = outputMint))
            || (q_amountInRaw q <=? 0) || (q_amountOutRaw q <=? 0)
            || (q_minimumAmountOutRaw q <=? 0) || (q_amountOutRaw q <? q_minimumAmountOutRaw q)
            || (q_feesRaw q <? 0) || (q_slippageBps q <? 0) || (10000 <? q_slippageBps q)
            || (q_priceImpactBps q <? 0) || (10000 <? q_priceImpactBps q)
            || (q_observedSlot q <? 0)) (TypeError "Candidate quote is incoherent.") ;;
  assertValidTimestampMs TF_observedAtMs (q_observedAtMs q).

(** src/src/domain/trading-candidate.ts:53-68 (CreateTradingCandidateInput).  Of the
    event, the code reads the fields below. *)
Record CreateTradingCandidateInput := {
  ti_mint : string;
  ti_strategy : PaperStrategyIdentity;
  ti_qualificationReportId : string;
  ti_qualificationProfile : QualificationProfileIdentity;
  ti_evidenceFingerprint : string;
  ti_asOfMint : string;
  ti_asOf : TradingCandidateAsOf;
  ti_state : TradingCandidateState;
  ti_quoteAsset : QuoteAsset;
  ti_buyQuote : option PaperExecutionQuote;
  ti_reverseSellQuote : option PaperExecutionQuote;
  ti_eligibleUntilMs : option Z;
  ti_reasonCodes : list PaperDecisionReasonCode;
  ti_createdAtMs : Z;
  ti_purgeAfterMs : Z;
}.

(** src/src/domain/trading-candidate.ts:118-159 (validateInput) *)
Definition validateInput (i : CreateTradingCandidateInput) : result exn unit :=
  candidate_text (ti_mint i) "mint" ;;
  candidate_text (strategy_id (ti_strategy i)) "strategy id" ;;
  candidate_positive (strategy_version (ti_strategy i)) "strategy version" ;;
  candidate_text (ti_qualificationReportId i) "qualification report id" ;;
  candidate_text (pr_id (ti_qualificationProfile i)) "qualification profile id" ;;
  candidate_positive (pr_version (ti_qualificationProfile i)) "qualification profile version" ;;
  candidate_fingerprint (pr_fingerprint (ti_qualificationProfile i))
    "qualification profile fingerprint" ;;
  candidate_fingerprint (ti_evidenceFingerprint i) "evidence fingerprint" ;;
  candidate_text (ao_eventId (ti_asOf i)) "asOf event id" ;;
  throw_if (negb (bool_decide (ti_asOfMint i = ti_mint i)))
    (TypeError "Candidate asOf event mint is inconsistent.") ;;
  assertValidChainCursor (ao_cursor (ti_asOf i)) ;;
  assertValidTimestampMs TF_observedAtMs (ao_observedAtMs (ti_asOf i)) ;;
  validateQuoteAsset (ti_quoteAsset i) ;;
  throw_if (negb (all_distinct (ti_reasonCodes i))) (TypeError "Candidate reason codes are invalid.") ;;
  assertValidTimestampMs TF_observedAtMs (ti_createdAtMs i) ;;
  assertValidTimestampMs TF_observedAtMs (ti_purgeAfterMs i) ;;
  throw_if (ti_purgeAfterMs i <=? ti_createdAtMs i) (TypeError "Candidate purge date is invalid.") ;;
  match ti_eligibleUntilMs i with
  | Some until =>
      assertValidTimestampMs TF_observedAtMs until ;;
      throw_if (until <=? ti_createdAtMs i) (TypeError "Candidate eligible window is invalid.")
  | None => Ok tt
  end ;;
  throw_if (bool_decide (ti_state i = ELIGIBLE) &&
            (negb (bool_decide (is_Some (ti_buyQuote i)))
             || negb (bool_decide (is_Some (ti_reverseSellQuote i)))
             || negb (bool_decide (is_Some (ti_eligibleUntilMs i)))))
    (TypeError "Eligible candidate requires coherent quotes and an eligible window.") ;;
  match ti_buyQuote i with
  | Some q => validateQuote q (qa_mint (ti_quoteAsset i)) (ti_mint i)
  | None => Ok tt
  end ;;
  match ti_reverseSellQuote i with
  | Some q => validateQuote q (ti_mint i) (qa_mint (ti_quoteAsset i))
  | None => Ok tt
  end ;;
  throw_if (match ti_buyQuote i, ti_reverseSellQuote i with
            | Some b, Some r => negb (q_amountInRaw r =? q_minimumAmountOutRaw b)
            | _, _ => false
            end) (TypeError "Candidate reverse quote does not match the conservative BUY fill.").

Definition confirmation_name (s : ChainConfirmationStatus) : string :=
  match s with
  | processed => "processed"
  | confirmed => "confirmed"
  | finalized => "finalized"
  | orphaned => "orphaned"
  end.

(** src/src/domain/trading-candidate.ts:87-97 (identity) *)
Definition candidate_identity (i : CreateTradingCandidateInput) : list string :=
  [ti_mint i; strategy_id (ti_strategy i); to_decimal (strategy_version (ti_strategy i));
   pr_id (ti_qualificationProfile i); to_decimal (pr_version (ti_qualificationProfile i));
   pr_fingerprint (ti_qualificationProfile i); ti_evidenceFingerprint i;
   ao_eventId (ti_asOf i); confirmation_name (ao_confirmationStatus (ti_asOf i))].

(** src/src/domain/trading-candidate.ts:70-116 (createTradingCandidate) *)
Definition createTradingCandidate `{Sha256} (i : CreateTradingCandidateInput)
    : result exn TradingCandidateV1 :=
  validateInput i ;;
  Ok {| ca_id := "candidate_" +:+ hash (candidate_identity i); ca_mint := ti_mint i;
        ca_strategy := ti_strategy i; ca_qualificationReportId := ti_qualificationReportId i;
        ca_qualificationProfile := ti_qualificationProfile i;
        ca_evidenceFingerprint := ti_evidenceFingerprint i; ca_asOf := ti_asOf i;
        ca_state := ti_state i; ca_quoteAsset := ti_quoteAsset i; ca_buyQuote := ti_buyQuote i;
        ca_reverseSellQuote := ti_reverseSellQuote i; ca_eligibleUntilMs := ti_eligibleUntilMs i;
        ca_reasonCodes := ti_reasonCodes i; ca_createdAtMs := ti_createdAtMs i;
        ca_purgeAfterMs := ti_purgeAfterMs i |}.

(** * Invariants *)

(** What every session keeps about the buys it has counted. *)
Record counting_ok (s : PaperStrategySessionV1) : Prop := {
  co_target : 1 <= sn_externalBuyTarget s <= 1000;
  co_count : 0 <= sn_externalBuyCount s <= sn_externalBuyTarget s;
  co_length : Z.of_nat (List.length (sn_countedTradeIds s)) = sn_externalBuyCount s;
  co_distinct : NoDup (sn_countedTradeIds s);
}.
Record unique_ok (s : PaperStrategySessionV2) : Prop := {
  uo_counting : counting_ok (v2_base s);
  uo_wallets : Z.of_nat (List.length (v2_countedBuyerWallets s)) = sn_externalBuyCount (v2_base s);
  uo_distinct : NoDup (v2_countedBuyerWallets s);
  uo_after : forall b c, v2_entryBoundary s = Some b ->
    sn_lastCountedCursor (v2_base s) = Some c -> eb_slot b < slot c;
}.

Lemma boundedTarget_Ok z u : boundedTarget z = Ok u <-> 1 <= z <= 1000.
Proof.
  unfold boundedTarget. rewrite throw_if_Ok, !orb_false_iff, negb_false_iff, is_safe_integer_true.
  unfold MAX_SAFE_INTEGER. lia.
Qed.

Lemma validateSessionInput_counting `{Sha256} i st close :
  validateSessionInput i = Ok tt -> counting_ok (session_of i st close).
Proof.
  unfold validateSessionInput. intros Hv.
  apply bind_Ok in Hv as (? & _ & Hv). apply bind_Ok in Hv as (? & _ & Hv).
  apply bind_Ok in Hv as (? & _ & Hv). apply bind_Ok in Hv as (? & Ht & Hv).
  apply bind_Ok in Hv as (? & Hc & _). apply boundedTarget_Ok in Ht. apply throw_if_Ok in Hc.
  bool_prop. constructor; cbn; try done; lia.
Qed.

Section Counting.
Context `{Sha256}.

Lemma createPaperStrategySession_ok i s :
  createPaperStrategySession i = Ok s -> counting_ok s.
Proof.
  unfold createPaperStrategySession. intros Hs. apply bind_Ok in Hs as ([] & Hv & Hs).
  apply bind_Ok in Hs as (close & _ & [= <-]). by apply validateSessionInput_counting.
Qed.

Lemma createCreationEntrySession_ok i s : createCreationEntrySession i = Ok s -> unique_ok s.
Proof.
  unfold createCreationEntrySession. intros Hs. apply bind_Ok in Hs as ([] & Hv & Hs).
  apply bind_Ok in Hs as (? & _ & Hs). apply bind_Ok in Hs as (? & Hw & Hs).
  apply bind_Ok in Hs as (? & _ & Hs). apply bind_Ok in Hs as (? & _ & Hs).
  apply bind_Ok in Hs as (? & _ & Hs). apply bind_Ok in Hs as (eb & Heb & Hs).
  apply bind_Ok in Hs as (? & Hslot & [= <-]). apply throw_if_Ok in Hw, Hslot. bool_prop.
  constructor; cbn; try done; [by apply validateSessionInput_counting|].
  intros b c Hb Hc. subst eb. rewrite Hc in Hslot. bool_prop. lia.
Qed.

(** What a buy that passes validation is known to be. *)
Lemma validate_unique_after s tradeId mint quoteMint trader cursor conf at_ u :
  validateExternalBuy (SessionV2 s) tradeId mint quoteMint trader cursor conf at_ = Ok u ->
  exists b, v2_entryBoundary s = Some b /\ eb_slot b < slot cursor.
Proof.
  unfold validateExternalBuy. intros Hv. apply bind_Ok in Hv as (? & _ & Hv).
  apply bind_Ok in Hv as (inc & Hi & Hv). apply bind_Ok in Hv as (? & Hinc & _).
  apply throw_if_Ok in Hinc. subst inc. destruct (_ || _) in Hi; [done|].
  apply bind_Ok in Hi as (early & Hearly & Hi). injection Hi as Hi. bool_prop. subst early.
  apply bind_Ok in Hearly as (after & Ha & He). injection He as He. bool_prop. subst after.
  unfold isStrictlyAfterPaperEntry in Ha. apply bind_Ok in Ha as (? & _ & Ha).
  destruct (v2_entryBoundary s) as [b|]; [|done]. apply bind_Ok in Ha as (b' & Hb & Ha).
  unfold validateAndSnapshotEntryBoundary in Hb. result_inv. exists b'. split; [done|].
  bool_prop. done.
Qed.

(** Validation reads only what counting leaves alone. *)
Lemma validate_unique_stable s s' tradeId mint quoteMint trader cursor conf at_ :
  sn_mint (v2_base s') = sn_mint (v2_base s) ->
  sn_quoteAsset (v2_base s') = sn_quoteAsset (v2_base s) ->
  sn_minimumConfirmation (v2_base s') = sn_minimumConfirmation (v2_base s) ->
  v2_entryBoundary s' = v2_entryBoundary s ->
  validateExternalBuy (SessionV2 s') tradeId mint quoteMint trader cursor conf at_ =
  validateExternalBuy (SessionV2 s) tradeId mint quoteMint trader cursor conf at_.
Proof.
  intros H1 H2 H3 H4. unfold validateExternalBuy, isStrictlyAfterPaperEntry.
  by rewrite H1, H2, H3, H4.
Qed.

(** One buy: skipped, or appended. *)
Inductive unique_step (s : PaperStrategySessionV2) (b : PaperExternalBuyEvidenceV2)
    : CountUniqueExternalBuyResult -> Prop :=
| unique_skip :
    b2_tradeId b ∈ sn_countedTradeIds (v2_base s) \/
    b2_trader b ∈ v2_countedBuyerWallets s \/
    sn_externalBuyCount (v2_base s) = sn_externalBuyTarget (v2_base s) ->
    unique_step s b {| cu_session := s; cu_evidence := None;
      cu_targetReached := sn_externalBuyCount (v2_base s) =? sn_externalBuyTarget (v2_base s) |}
| unique_count r :
    b2_tradeId b ∉ sn_countedTradeIds (v2_base s) ->
    b2_trader b ∉ v2_countedBuyerWallets s ->
    sn_externalBuyCount (v2_base s) <> sn_externalBuyTarget (v2_base s) ->
    let s' := cu_session r in
    sn_mint (v2_base s') = sn_mint (v2_base s) ->
    sn_quoteAsset (v2_base s') = sn_quoteAsset (v2_base s) ->
    sn_minimumConfirmation (v2_base s') = sn_minimumConfirmation (v2_base s) ->
    v2_entryBoundary s' = v2_entryBoundary s ->
    sn_externalBuyTarget (v2_base s') = sn_externalBuyTarget (v2_base s) ->
    sn_externalBuyCount (v2_base s') = sn_externalBuyCount (v2_base s) + 1 ->
    sn_countedTradeIds (v2_base s') = sn_countedTradeIds (v2_base s) ++ [b2_tradeId b] ->
    v2_countedBuyerWallets s' = v2_countedBuyerWallets s ++ [b2_trader b] ->
    sn_lastCountedCursor (v2_base s') = Some (b2_cursor b) ->
    cu_targetReached r
      = (sn_externalBuyCount (v2_base s') =? sn_externalBuyTarget (v2_base s')) ->
    unique_step s b r.

Lemma countUnique_inv s b r :
  countUniqueExternalBuy s b = Ok r ->
  validateExternalBuy (SessionV2 s) (b2_tradeId b) (b2_mint b) (b2_quoteMint b) (Some (b2_trader b))
    (b2_cursor b) (b2_confirmationStatus b) (b2_observedAtMs b) = Ok tt /\
  text (b2_trader b) "buyer wallet" = Ok tt /\ 0 < b2_quoteAmountRaw b /\ unique_step s b r.
Proof.
  unfold countUniqueExternalBuy. intros Hr.
  apply bind_Ok in Hr as ([] & Hv & Hr). apply bind_Ok in Hr as ([] & Ht & Hr).
  apply bind_Ok in Hr as ([] & Ha & Hr). apply throw_if_Ok in Ha. apply Z.leb_gt in Ha.
  do 3 (split; [done|]). destruct (_ || _ || _) eqn:Hskip.
  - injection Hr as <-. apply unique_skip.
    apply orb_true_iff in Hskip as [Hskip|Hskip]; [apply orb_true_iff in Hskip as [Hskip|Hskip]|];
      bool_prop; auto.
  - apply bind_Ok in Hr as (close & _ & [= <-]). bool_prop.
    by apply unique_count.
Qed.

Lemma unique_step_ok s b r :
  (exists bd, v2_entryBoundary s = Some bd /\ eb_slot bd < slot (b2_cursor b)) ->
  unique_ok s -> unique_step s b r -> unique_ok (cu_session r).
Proof.
  intros (bd & Hbd & Hslot) [[Ht Hc Hl Hd] Hw Hdw Ha] [Hskip|r' Hid Hwal Hne s' _ _ _ Heb Htg Hct Hids Hwl Hcur _];
    [by constructor|]. subst s'. constructor; [constructor|..].
  - by rewrite Htg.
  - rewrite Hct, Htg. lia.
  - rewrite Hids, Hct, length_app. cbn. lia.
  - rewrite Hids. apply NoDup_app. split; [done|]. split; [|apply NoDup_singleton].
    intros x Hx. by rewrite list_elem_of_singleton; intros ->.
  - rewrite Hwl, Hct, length_app. cbn. lia.
  - rewrite Hwl. apply NoDup_app. split; [done|]. split; [|apply NoDup_singleton].
    intros x Hx. by rewrite list_elem_of_singleton; intros ->.
  - intros b' c. rewrite Heb, Hcur, Hbd. intros [= <-] [= <-]. done.
Qed.

(** Counting a list of buys in order. *)
Definition count_all (s : PaperStrategySessionV2) (buys : list PaperExternalBuyEvidenceV2)
    : result exn PaperStrategySessionV2 :=
  fold_result (fun s b => cu_session <$> countUniqueExternalBuy s b) s buys.

Lemma count_all_cons s b buys s' :
  count_all s (b :: buys) = Ok s' <->
  exists r, countUniqueExternalBuy s b = Ok r /\ count_all (cu_session r) buys = Ok s'.
Proof.
  unfold count_all. cbn [fold_result]. rewrite bind_Ok. split.
  - intros (s1 & Hs1 & Hr). apply fmap_Ok in Hs1 as (r & Hr' & ->). eauto.
  - intros (r & Hr & Hr'). exists (cu_session r). split; [|done]. by rewrite Hr.
Qed.

Lemma count_all_ok s buys s' : unique_ok s -> count_all s buys = Ok s' -> unique_ok s'.
Proof.
  revert s. induction buys as [|b buys IH]; intros s Hs Hr; [cbn in Hr; naive_solver|].
  apply count_all_cons in Hr as (r & Hr & Hr'). apply countUnique_inv in Hr as (Hv & _ & _ & Hst).
  eapply IH; [|exact Hr']. eapply unique_step_ok; [|done|done]. by eapply validate_unique_after.
Qed.

(** First occurrences, in order, of what has not been seen. *)
Fixpoint first_distinct (seen l : list string) : list string :=
  match l with
  | [] => []
  | x :: l' =>
      if includes x seen then first_distinct seen l' else x :: first_distinct (seen ++ [x]) l'
  end.

Lemma count_all_wallets s buys s' :
  unique_ok s -> count_all s buys = Ok s' ->
  NoDup (sn_countedTradeIds (v2_base s) ++ map b2_tradeId buys) ->
  v2_countedBuyerWallets s' =
    take (Z.to_nat (sn_externalBuyTarget (v2_base s)))
      (v2_countedBuyerWallets s ++ first_distinct (v2_countedBuyerWallets s) (map b2_trader buys)).
Proof.
  revert s. induction buys as [|b buys IH]; intros s Hs Hr Hnd.
  { cbn in Hr. injection Hr as <-. cbn. rewrite app_nil_r, take_ge; [done|].
    destruct Hs as [[? ? _ _] ? _ _]. lia. }
  apply count_all_cons in Hr as (r & Hr & Hr'). apply countUnique_inv in Hr as (Hv & _ & _ & Hst).
  assert (unique_ok (cu_session r)) as Hok.
  { eapply unique_step_ok; [|done|done]. by eapply validate_unique_after. }
  cbn [map] in Hnd |- *. destruct Hst as [Hskip|r Hid Hwal Hne s1 _ _ _ _ Htg _ Hids Hwl _ _].
  - cbn [cu_session] in *. apply NoDup_app in Hnd as (Hnd1 & Hnd2 & Hnd3).
    apply NoDup_cons in Hnd3 as [Hnb Hnd3].
    rewrite (IH s Hs Hr').
    2: { apply NoDup_app. split; [done|]. split; [|done]. intros x Hx Hx'.
         apply (Hnd2 x Hx). by right. }
    destruct Hskip as [Hin|[Hin|Hfull]].
    + exfalso. apply (Hnd2 _ Hin). by left.
    + cbn [first_distinct]. by rewrite (proj2 (includes_true _ _) Hin).
    + rewrite !take_app_le by (destruct Hs as [_ ? _ _]; lia). done.
  - subst s1. rewrite (IH _ Hok Hr').
    2: { rewrite Hids. rewrite <- app_assoc. exact Hnd. }
    cbn [first_distinct]. rewrite (proj2 (includes_false _ _) Hwal), Htg, Hwl, <- app_assoc. done.
Qed.

(** [b] would change nothing in [s]. *)
Definition covered (s : PaperStrategySessionV2) (b : PaperExternalBuyEvidenceV2) : Prop :=
  b2_tradeId b ∈ sn_countedTradeIds (v2_base s) \/ b2_trader b ∈ v2_countedBuyerWallets s \/
  sn_externalBuyCount (v2_base s) = sn_externalBuyTarget (v2_base s).

(** [s'] comes later than [s] in one session's life. *)
Record later (s s' : PaperStrategySessionV2) : Prop := {
  lt_mint : sn_mint (v2_base s') = sn_mint (v2_base s);
  lt_quote : sn_quoteAsset (v2_base s') = sn_quoteAsset (v2_base s);
  lt_minimum : sn_minimumConfirmation (v2_base s') = sn_minimumConfirmation (v2_base s);
  lt_boundary : v2_entryBoundary s' = v2_entryBoundary s;
  lt_covered : forall b, covered s b -> covered s' b;
}.

Lemma later_refl s : later s s.
Proof. by constructor. Qed.

Lemma later_trans s1 s2 s3 : later s1 s2 -> later s2 s3 -> later s1 s3.
Proof. intros [] []. constructor; try congruence. auto. Qed.

Lemma unique_step_later s b r :
  unique_step s b r -> later s (cu_session r) /\ covered (cu_session r) b.
Proof.
  intros [Hskip|r' Hid Hw Hne s' Hm Hq Hmin Heb Htg Hct Hids Hwl _ _]; [by split; [apply later_refl|]|].
  subst s'. split.
  - constructor; try done. intros b' [Hb|[Hb|Hb]]; [left|right; left|done].
    + rewrite Hids. apply elem_of_app. by left.
    + rewrite Hwl. apply elem_of_app. by left.
  - left. rewrite Hids. apply elem_of_app. right. by left.
Qed.

Lemma countUnique_covered s b :
  validateExternalBuy (SessionV2 s) (b2_tradeId b) (b2_mint b) (b2_quoteMint b) (Some (b2_trader b))
    (b2_cursor b) (b2_confirmationStatus b) (b2_observedAtMs b) = Ok tt ->
  text (b2_trader b) "buyer wallet" = Ok tt -> 0 < b2_quoteAmountRaw b -> covered s b ->
  cu_session <$> countUniqueExternalBuy s b = Ok s.
Proof.
  intros Hv Ht Ha Hc. unfold countUniqueExternalBuy. rewrite Hv. cbn [mbind result_bind].
  rewrite Ht. cbn [mbind result_bind]. rewrite throw_if_skip by lia.
  replace (includes _ _ || _ || _) with true; [done|]. symmetry.
  rewrite !orb_true_iff, !includes_true, Z.eqb_eq. unfold covered in Hc. tauto.
Qed.

(** After counting, every buy of the list is still valid and already covered. *)
Lemma count_all_later s buys s' :
  count_all s buys = Ok s' ->
  later s s' /\ Forall (fun b => cu_session <$> countUniqueExternalBuy s' b = Ok s') buys.
Proof.
  revert s. induction buys as [|b buys IH]; intros s Hr.
  { cbn in Hr. injection Hr as <-. split; [apply later_refl | constructor]. }
  apply count_all_cons in Hr as (r & Hr & Hr').
  apply countUnique_inv in Hr as (Hv & Ht & Ha & Hst). destruct (unique_step_later _ _ _ Hst) as [Hl Hc].
  destruct (IH _ Hr') as [Hl' Hall]. pose proof (later_trans _ _ _ Hl Hl') as Hl2.
  split; [done|]. constructor; [|done]. apply countUnique_covered; try done.
  - destruct Hl2. by rewrite (validate_unique_stable s s').
  - by apply Hl'.
Qed.
End Counting.

(** * Samples *)
Definition sample_digest : Sha256 := fun _ =>
  "0123456789abcdef0123456789abcdef0123456789abcdef0123456789abcdef".
Definition cursor_at (n : Z) : ChainCursor :=
  {| slot := n; transactionIndex := 0; instructionIndex := 0; innerInstructionIndex := None |}.
Definition sample_asset : QuoteAsset :=
  {| qa_mint := "quote"; qa_decimals := 9; qa_tokenProgram := SPL_TOKEN |}.
Definition sample_candidate_input : CreateTradingCandidateInput :=
  {| ti_mint := "mint"; ti_strategy := creation_strategy; ti_qualificationReportId := "report";
     ti_qualificationProfile := {| pr_id := "profile"; pr_version := 1;
                                   pr_fingerprint := @sha256_hex sample_digest "" |};
     ti_evidenceFingerprint := @sha256_hex sample_digest ""; ti_asOfMint := "mint";
     ti_asOf := {| ao_eventId := "event"; ao_cursor := cursor_at 10;
                   ao_confirmationStatus := confirmed; ao_observedAtMs := 1000 |};
     ti_state := ELIGIBLE; ti_quoteAsset := sample_asset;
     ti_buyQuote := Some {| q_id := "buy"; q_inputMint := "quote"; q_outputMint := "mint";
       q_amountInRaw := 1000; q_amountOutRaw := 500; q_minimumAmountOutRaw := 490; q_feesRaw := 1;
       q_slippageBps := 100; q_priceImpactBps := 5; q_observedAtMs := 1000; q_observedSlot := 10 |};
     ti_reverseSellQuote := Some {| q_id := "sell"; q_inputMint := "mint"; q_outputMint := "quote";
       q_amountInRaw := 490; q_amountOutRaw := 990; q_minimumAmountOutRaw := 980; q_feesRaw := 1;
       q_slippageBps := 100; q_priceImpactBps := 5; q_observedAtMs := 1000; q_observedSlot := 10 |};
     ti_eligibleUntilMs := Some 2000; ti_reasonCodes := [QUALIFIED_ENTRY];
     ti_createdAtMs := 1000; ti_purgeAfterMs := 14401000 |}.
Definition sample_candidate : TradingCandidateV1 :=
  match @createTradingCandidate sample_digest sample_candidate_input with
  | Ok c => c
  | Err _ => {| ca_id := ""; ca_mint := ""; ca_strategy := creation_strategy;
                ca_qualificationReportId := ""; ca_qualificationProfile :=
                  ti_qualificationProfile sample_candidate_input;
                ca_evidenceFingerprint := ""; ca_asOf := ti_asOf sample_candidate_input;
                ca_state := NOT_ELIGIBLE; ca_quoteAsset := sample_asset; ca_buyQuote := None;
                ca_reverseSellQuote := None; ca_eligibleUntilMs := None; ca_reasonCodes := [];
                ca_createdAtMs := 0; ca_purgeAfterMs := 0 |}
  end.
Definition sample_session_input : CreateCreationEntrySessionInput :=
  {| ci_session := {| si_candidate := sample_candidate; si_state := WAITING_EXTERNAL_BUYS;
       si_reasonCode := QUALIFIED_ENTRY; si_positionId := Some "position";
       si_entryCursor := cursor_at 10; si_externalBuyTarget := 2; si_externalBuyCount := 0;
       si_countedTradeIds := []; si_lastCountedCursor := None;
       si_minimumConfirmation := min_confirmed; si_lastQuote := None; si_lastError := None;
       si_createdAtMs := 1000; si_updatedAtMs := 1000; si_purgeAfterMs := 14401000 |};
     ci_externalMinimumBuyAmountRaw := 10; ci_countedBuyerWallets := [];
     ci_pendingExitReason := None; ci_pendingExitTriggerAtMs := None;
     ci_entryBoundary := Some {| eb_slot := 10; eb_quoteId := "buy"; eb_observedAtMs := 1000 |} |}.
Definition sample_buy (id trader : string) (at_slot : Z) : PaperExternalBuyEvidenceV2 :=
  {| b2_sessionId := ""; b2_tradeId := id; b2_mint := "mint"; b2_quoteMint := "quote";
     b2_trader := trader; b2_quoteAmountRaw := 20; b2_cursor := cursor_at at_slot;
     b2_confirmationStatus := min_confirmed; b2_observedAtMs := 1500 |}.
Definition sample_buys : list PaperExternalBuyEvidenceV2 :=
  [sample_buy "t1" "alice" 11; sample_buy "t2" "alice" 12; sample_buy "t3" "bob" 13;
   sample_buy "t4" "carol" 14].

(** * Properties *)

(** The exit counts distinct people, not trades.  Feeding any sequence of
    buys with distinct trade ids to a version 2 session leaves it with exactly the
    first [externalBuyTarget] distinct buyer wallets of what it had and what it
    was fed, in order, and with its count equal to their number: repeated wallets
    never count twice, and nothing counts beyond the target. *)
Theorem unique_buyers_are_first_distinct `{Sha256} (s s' : PaperStrategySessionV2)
    (buys : list PaperExternalBuyEvidenceV2)
    (Hs : unique_ok s) (Hr : count_all s buys = Ok s')
    (Hnd : NoDup (sn_countedTradeIds (v2_base s) ++ map b2_tradeId buys)) :
  v2_countedBuyerWallets s' =
    take (Z.to_nat (sn_externalBuyTarget (v2_base s)))
      (v2_countedBuyerWallets s ++ first_distinct (v2_countedBuyerWallets s) (map b2_trader buys)) /\
  unique_ok s'.
Proof. split; [by apply count_all_wallets | by eapply count_all_ok]. Qed.

(** Replaying evidence is harmless.  Counting a list of buys a second time,
    after a restart or a duplicate delivery, leaves the session exactly as the
    first pass left it, whatever the list contains. *)
Theorem count_replay_idempotent `{Sha256} (s s' : PaperStrategySessionV2)
    (buys : list PaperExternalBuyEvidenceV2) (Hr : count_all s buys = Ok s') :
  count_all s' buys = Ok s'.
Proof.
  apply count_all_later in Hr as [_ Hall]. unfold count_all.
  induction Hall as [|b buys Hb _ IH]; [done|]. cbn [fold_result]. by rewrite Hb.
Qed.

Lemma unique_buyers_are_first_distinct_witness :
  match @createCreationEntrySession sample_digest sample_session_input with
  | Ok s => match @count_all sample_digest s sample_buys with
            | Ok s' => v2_countedBuyerWallets s' = ["alice"; "bob"]
            | Err _ => False
            end
  | Err _ => False
  end.
Proof.
  destruct (@createCreationEntrySession sample_digest sample_session_input) as [s|e] eqn:Hs;
    [|vm_compute in Hs; discriminate Hs].
  destruct (@count_all sample_digest s sample_buys) as [s'|e] eqn:Hr.
  - destruct (@unique_buyers_are_first_distinct sample_digest s s' sample_buys) as [Hw _];
      [by eapply createCreationEntrySession_ok | exact Hr | | ].
    + vm_compute in Hs. injection Hs as <-. apply (bool_decide_unpack _). vm_compute. exact I.
    + rewrite Hw. vm_compute in Hs. injection Hs as <-. vm_compute. reflexivity.
  - exfalso. vm_compute in Hs. injection Hs as <-. vm_compute in Hr. discriminate Hr.
Defined.

Lemma count_replay_idempotent_witness :
  match @createCreationEntrySession sample_digest sample_session_input with
  | Ok s => match @count_all sample_digest s sample_buys with
            | Ok s' => @count_all sample_digest s' sample_buys = Ok s'
            | Err _ => False
            end
  | Err _ => False
  end.
Proof.
  destruct (@createCreationEntrySession sample_digest sample_session_input) as [s|e] eqn:Hs;
    [|vm_compute in Hs; discriminate Hs].
  destruct (@count_all sample_digest s sample_buys) as [s'|e] eqn:Hr.
  - exact (@count_replay_idempotent sample_digest s s' sample_buys Hr).
  - exfalso. vm_compute in Hs. injection Hs as <-. vm_compute in Hr. discriminate Hr.
Defined.

(** What a counted buy is, and what reaching the target does.  A buy that is
    counted lies in a slot strictly after the slot of the entry quote (a buy of the
    same slot, whose order is unknowable, never counts), has the configured
    confirmation, and is new by trade and by wallet.  The one that reaches the
    target moves the session to EXIT_PENDING_QUOTE with the unique-buyers reason and
    the exit command id determined by position, strategy and reason. *)
Theorem counted_buy_after_entry `{Sha256} (s : PaperStrategySessionV2)
    (b : PaperExternalBuyEvidenceV2) (r : CountUniqueExternalBuyResult)
    (ev : PaperExternalBuyEvidenceV2)
    (Hr : countUniqueExternalBuy s b = Ok r) (He : cu_evidence r = Some ev) :
  (exists bd, v2_entryBoundary s = Some bd /\ eb_slot bd < slot (b2_cursor b)) /\
  b2_tradeId b ∉ sn_countedTradeIds (v2_base s) /\ b2_trader b ∉ v2_countedBuyerWallets s /\
  b2_trader ev = b2_trader b /\ b2_sessionId ev = sn_id (v2_base s) /\
  (cu_targetReached r = true ->
   sn_externalBuyCount (v2_base (cu_session r)) = sn_externalBuyTarget (v2_base s) /\
   sn_state (v2_base (cu_session r)) = EXIT_PENDING_QUOTE /\
   v2_pendingExitReason (cu_session r) = Some TARGET_REACHED /\
   forall p, sn_positionId (v2_base s) = Some p ->
     sn_closeCommandId (v2_base (cu_session r))
       = Some (creation_exit_id p (sn_strategy (v2_base s)) TARGET_REACHED)).
Proof.
  pose proof (countUnique_inv _ _ _ Hr) as (Hv & _ & _ & _).
  split; [by eapply validate_unique_after|]. unfold countUniqueExternalBuy in Hr.
  do 3 (apply bind_Ok in Hr as (? & _ & Hr)).
  destruct (_ || _ || _) eqn:Hskip; [injection Hr as <-; done|].
  apply bind_Ok in Hr as (close & Hclose & [= <-]). cbn in *. injection He as <-. bool_prop.
  do 4 (split; [done|]). intros Ht. rewrite Ht in *. bool_prop. do 3 (split; [done|]).
  intros p Hp. rewrite Hp in Hclose. apply fmap_Ok in Hclose as (id & Hid & ->).
  unfold createDeterministicCreationExitCommandId in Hid. result_inv. done.
Qed.

Lemma counted_buy_after_entry_witness :
  match @createCreationEntrySession sample_digest sample_session_input with
  | Ok s => match @countUniqueExternalBuy sample_digest s (sample_buy "t1" "alice" 11) with
            | Ok r => exists bd, v2_entryBoundary s = Some bd /\ eb_slot bd < 11
            | Err _ => False
            end
  | Err _ => False
  end.
Proof.
  destruct (@createCreationEntrySession sample_digest sample_session_input) as [s|e] eqn:Hs;
    [|vm_compute in Hs; discriminate Hs].
  destruct (@countUniqueExternalBuy sample_digest s (sample_buy "t1" "alice" 11)) as [r|e] eqn:Hr.
  - destruct (cu_evidence r) as [ev|] eqn:He.
    + exact (proj1 (@counted_buy_after_entry sample_digest s _ r ev Hr He)).
    + exfalso. vm_compute in Hs. injection Hs as <-. vm_compute in Hr. injection Hr as <-. discriminate He.
  - exfalso. vm_compute in Hs. injection Hs as <-. vm_compute in Hr. discriminate Hr.
Defined.

(** a candidate id identifies the decision: two accepted candidates with one
    id agree on the mint, the strategy, the qualification profile, the evidence,
    the event they rest on and its confirmation, or a SHA-256 collision has been
    found; and an eligible candidate always carries a buy quote and a reverse quote
    that sells exactly the conservative fill. *)
Theorem candidate_id_identifies `{Sha256} (i j : CreateTradingCandidateInput)
    (c d : TradingCandidateV1)
    (Hc : createTradingCandidate i = Ok c) (Hd : createTradingCandidate j = Ok d)
    (Hid : ca_id c = ca_id d) :
  (sha256_collision \/ candidate_identity i = candidate_identity j) /\
  (ca_state c = ELIGIBLE -> exists b r, ca_buyQuote c = Some b /\ ca_reverseSellQuote c = Some r /\
     q_amountInRaw r = q_minimumAmountOutRaw b /\ 0 < q_amountInRaw b).
Proof.
  unfold createTradingCandidate in Hc, Hd. apply bind_Ok in Hc as ([] & Hv & [= <-]).
  apply bind_Ok in Hd as (? & _ & [= <-]). cbn in *. split.
  - unfold hash, stringify_strings in Hid. apply digest_agree in Hid as [Heq|Hx]; [right|by left].
    injection Heq as Heq. unfold candidate_identity. cbn in *. congruence.
  - intros He. unfold validateInput in Hv. do 18 (apply bind_Ok in Hv as (? & _ & Hv)).
    apply bind_Ok in Hv as (? & Hq & Hv). apply bind_Ok in Hv as (? & Hb & Hv).
    apply bind_Ok in Hv as (? & _ & Hv). apply throw_if_Ok in Hq, Hv. rewrite He in Hq.
    rewrite bool_decide_eq_true_2 in Hq by done. cbn in Hq.
    destruct (ti_buyQuote i) as [b|]; [|done]. destruct (ti_reverseSellQuote i) as [r|]; [|done].
    exists b, r. bool_prop. do 3 (split; [done|]). unfold validateQuote in Hb.
    apply bind_Ok in Hb as (? & Hb & _). apply throw_if_Ok in Hb. bool_prop. lia.
Qed.

Lemma candidate_id_identifies_witness :
  @sha256_collision sample_digest \/
  candidate_identity sample_candidate_input = candidate_identity sample_candidate_input.
Proof.
  refine (proj1 (@candidate_id_identifies sample_digest sample_candidate_input
    sample_candidate_input sample_candidate sample_candidate _ _ eq_refl));
  vm_compute; reflexivity.
Defined.
