(* ===== verification/JsonText.v ===== *)
(** The JSON validator of [src/src/qualification/qualification-profile.ts]: a hand-written
    automaton that reads a profile's text before [JSON.parse] does, to refuse deep nesting,
    too many values and duplicate member names.

    A text is the list of its UTF-16 code units, and a position in it is what follows the
    position.  Every throw of these functions is caught by [parseQualificationProfileJson]
    and becomes one error, so a scanner is a partial function.  The loop runs on fuel;
    [JsonText.validator_terminates] shows that the fuel given is always enough. *)
From S2P Require Import Prelude.
Local Open Scope Z_scope.

(** * Characters *)

Abbreviation QUOTE := 34 (only parsing).
Abbreviation COMMA := 44 (only parsing).
Abbreviation MINUS := 45 (only parsing).
Abbreviation COLON := 58 (only parsing).
Abbreviation OPEN_ARRAY := 91 (only parsing).
Abbreviation BACKSLASH := 92 (only parsing).
Abbreviation CLOSE_ARRAY := 93 (only parsing).
Abbreviation OPEN_OBJECT := 123 (only parsing).
Abbreviation CLOSE_OBJECT := 125 (only parsing).

(** src/src/qualification/qualification-profile.ts:20-21 *)
Definition MAX_PROFILE_JSON_DEPTH : nat := 64.
Definition MAX_PROFILE_JSON_NODES : nat := 10000.

(** src/src/qualification/qualification-profile.ts:479-485 (isDigit, isNonZeroDigit) *)
Definition isDigit (c : Z) : bool := (48 <=? c) && (c <=? 57).
Definition isNonZeroDigit (c : Z) : bool := (49 <=? c) && (c <=? 57).
(** [text[index]] is a character with [f]. *)
Definition starts (f : Z -> bool) (l : list Z) : bool :=
  match l with
  | c :: _ => f c
  | [] => false
  end.

Definition is_space (c : Z) : bool := (c =? 32) || (c =? 10) || (c =? 13) || (c =? 9).
(** src/src/qualification/qualification-profile.ts:487-491 (skipJsonWhitespace) *)
Fixpoint skipJsonWhitespace (l : list Z) : list Z :=
  match l with
  | c :: l' => if is_space c then skipJsonWhitespace l' else l
  | [] => []
  end.

(** * Scanners *)

(** src/src/qualification/qualification-profile.ts:439-448 (JSON_SIMPLE_ESCAPES) *)
Definition JSON_SIMPLE_ESCAPES (c : Z) : option Z :=
  snd <$> List.find (fun p => fst p =? c)
    [(34, 34); (92, 92); (47, 47); (98, 8); (102, 12); (110, 10); (114, 13); (116, 9)].

(** [/^[0-9a-fA-F]$/u] and the value of the digit. *)
Definition hex_value (c : Z) : option Z :=
  if isDigit c then Some (c - 48)
  else if (65 <=? c) && (c <=? 70) then Some (c - 55)
  else if (97 <=? c) && (c <=? 102) then Some (c - 87)
  else None.
Definition hex4 (a b c d : Z) : option Z :=
  a ← hex_value a; b ← hex_value b; c ← hex_value c; d ← hex_value d;
  Some (((a * 16 + b) * 16 + c) * 16 + d).

(** src/src/qualification/qualification-profile.ts:403-437 (scanJsonString): after the
    opening quote, the decoded value and what follows the closing quote. *)
Fixpoint scan_string_body (l : list Z) : option (list Z * list Z) :=
  match l with
  | [] => None
  | c :: l1 =>
      if c =? QUOTE then Some ([], l1)
      else if c <? 32 then None
      else if negb (c =? BACKSLASH) then
        r ← scan_string_body l1; Some (c :: fst r, snd r)
      else match l1 with
      | [] => None
      | e :: l2 =>
          match JSON_SIMPLE_ESCAPES e with
          | Some u => r ← scan_string_body l2; Some (u :: fst r, snd r)
          | None =>
              if e =? 117 then
                match l2 with
                | a :: b :: c :: d :: l3 =>
                    u ← hex4 a b c d;
                    r ← scan_string_body l3; Some (u :: fst r, snd r)
                | _ => None
                end
              else None
          end
      end
  end.
Definition scanJsonString (l : list Z) : option (list Z * list Z) := scan_string_body (tl l).

(** src/src/qualification/qualification-profile.ts:450-453 (scanLiteral) *)
Fixpoint scanLiteral (literal l : list Z) : option (list Z) :=
  match literal, l with
  | [], _ => Some l
  | c :: literal, c' :: l => if c =? c' then scanLiteral literal l else None
  | _ :: _, [] => None
  end.
Definition literal_true : list Z := [116; 114; 117; 101].
Definition literal_false : list Z := [102; 97; 108; 115; 101].
Definition literal_null : list Z := [110; 117; 108; 108].

(** [while (isDigit(text[index])) index += 1] *)
Fixpoint skip_digits (l : list Z) : list Z :=
  match l with
  | c :: l' => if isDigit c then skip_digits l' else l
  | [] => []
  end.
(** At least one digit, or a throw. *)
Definition some_digits (l : list Z) : option (list Z) :=
  if starts isDigit l then Some (skip_digits l) else None.

(** src/src/qualification/qualification-profile.ts:455-477 (scanJsonNumber) *)
Definition scan_integer (l : list Z) : option (list Z) :=
  if starts (Z.eqb 48) l then (if starts isDigit (tl l) then None else Some (tl l))
  else if starts isNonZeroDigit l then Some (skip_digits l) else None.
Definition scan_fraction (l : list Z) : option (list Z) :=
  if starts (Z.eqb 46) l then some_digits (tl l) else Some l.
Definition scan_exponent (l : list Z) : option (list Z) :=
  if starts (fun c => (c =? 101) || (c =? 69)) l then
    let l := tl l in
    some_digits (if starts (fun c => (c =? 43) || (c =? 45)) l then tl l else l)
  else Some l.
Definition scanJsonNumber (l : list Z) : option (list Z) :=
  l ← scan_integer (if starts (Z.eqb MINUS) l then tl l else l);
  l ← scan_fraction l;
  scan_exponent l.

(** * The automaton *)

(** src/src/qualification/qualification-profile.ts:293-295 (JsonFrame) *)
Inductive array_state := A_valueOrEnd | A_value | A_commaOrEnd.
Inductive object_state := O_keyOrEnd | O_key | O_colon | O_value | O_commaOrEnd.
Inductive JsonFrame :=
| ArrayFrame (state : array_state)
| ObjectFrame (state : object_state) (keys : list (list Z)).
(** src/src/qualification/qualification-profile.ts:298-301 (validateJsonText): the loop's
    variables; the last frame comes first. *)
Inductive root_state := R_value | R_end.
Record validator := {
  frames : list JsonFrame;
  rootState : root_state;
  rest : list Z;
  nodes : nat;
}.

(** src/src/qualification/qualification-profile.ts:303-324 (consumeValue) *)
Definition consumeValue (v : validator) : option validator :=
  let nodes := S (nodes v) in
  let next rest := {| frames := frames v; rootState := rootState v; rest := rest; nodes := nodes |} in
  let push frame :=
    if (MAX_PROFILE_JSON_DEPTH <=? List.length (frames v))%nat then None
    else Some {| frames := frame :: frames v; rootState := rootState v; rest := tl (rest v);
                 nodes := nodes |} in
  if (MAX_PROFILE_JSON_NODES <? nodes)%nat then None else
  match rest v with
  | c :: _ =>
      if c =? QUOTE then r ← scanJsonString (rest v); Some (next (snd r))
      else if c =? OPEN_OBJECT then push (ObjectFrame O_keyOrEnd [])
      else if c =? OPEN_ARRAY then push (ArrayFrame A_valueOrEnd)
      else if c =? 116 then next <$> scanLiteral literal_true (rest v)
      else if c =? 102 then next <$> scanLiteral literal_false (rest v)
      else if c =? 110 then next <$> scanLiteral literal_null (rest v)
      else next <$> scanJsonNumber (rest v)
  | [] => next <$> scanJsonNumber (rest v)
  end.

(** What one turn of the loop does: go on, return, or throw. *)
Inductive turn := Continue (v : validator) | Return | Throw.
Definition go_on (o : option validator) : turn :=
  match o with
  | Some v => Continue v
  | None => Throw
  end.

Section Turn.
Context (fs : list JsonFrame) (root : root_state) (l : list Z) (n : nat).
(** The state with other frames and another position. *)
Let at_ (fs : list JsonFrame) (l : list Z) : validator :=
  {| frames := fs; rootState := root; rest := l; nodes := n |}.

(** src/src/qualification/qualification-profile.ts:329-342 (validateJsonText): no frame. *)
Definition root_turn : turn :=
  match root with
  | R_end => if bool_decide (l = []) then Return else Throw
  | R_value =>
      if bool_decide (l = []) then Throw
      else go_on (consumeValue {| frames := fs; rootState := R_end; rest := l; nodes := n |})
  end.

(** src/src/qualification/qualification-profile.ts:351-357 (validateJsonText): a member
    name is due; [fs] is what is under the object's frame. *)
Definition key_turn (keys : list (list Z)) : turn :=
  if starts (Z.eqb QUOTE) l then
    match scanJsonString l with
    | Some (key, l') =>
        if includes key keys then Throw
        else Continue (at_ (ObjectFrame O_colon (key :: keys) :: fs) l')
    | None => Throw
    end
  else Throw.
(** src/src/qualification/qualification-profile.ts:344-381 (validateJsonText): in an
    object. *)
Definition object_turn (state : object_state) (keys : list (list Z)) : turn :=
  match state with
  | O_keyOrEnd => if starts (Z.eqb CLOSE_OBJECT) l then Continue (at_ fs (tl l)) else key_turn keys
  | O_key => key_turn keys
  | O_colon =>
      if starts (Z.eqb COLON) l then Continue (at_ (ObjectFrame O_value keys :: fs) (tl l)) else Throw
  | O_value => go_on (consumeValue (at_ (ObjectFrame O_commaOrEnd keys :: fs) l))
  | O_commaOrEnd =>
      if starts (Z.eqb COMMA) l then Continue (at_ (ObjectFrame O_key keys :: fs) (tl l))
      else if starts (Z.eqb CLOSE_OBJECT) l then Continue (at_ fs (tl l))
      else Throw
  end.

(** src/src/qualification/qualification-profile.ts:383-399 (validateJsonText): in an array. *)
Definition array_turn (state : array_state) : turn :=
  let value := go_on (consumeValue (at_ (ArrayFrame A_commaOrEnd :: fs) l)) in
  match state with
  | A_valueOrEnd => if starts (Z.eqb CLOSE_ARRAY) l then Continue (at_ fs (tl l)) else value
  | A_value => value
  | A_commaOrEnd =>
      if starts (Z.eqb COMMA) l then Continue (at_ (ArrayFrame A_value :: fs) (tl l))
      else if starts (Z.eqb CLOSE_ARRAY) l then Continue (at_ fs (tl l))
      else Throw
  end.
End Turn.

(** src/src/qualification/qualification-profile.ts:326-400 (validateJsonText): a turn. *)
Definition validator_turn (v : validator) : turn :=
  let l := skipJsonWhitespace (rest v) in
  match frames v with
  | [] => root_turn [] (rootState v) l (nodes v)
  | ObjectFrame state keys :: fs => object_turn fs (rootState v) l (nodes v) state keys
  | ArrayFrame state :: fs => array_turn fs (rootState v) l (nodes v) state
  end.

(** src/src/qualification/qualification-profile.ts:326-401 (validateJsonText): the loop;
    [None] when the fuel ran out, otherwise whether it returned. *)
Fixpoint validator_loop (fuel : nat) (v : validator) : option bool :=
  match fuel with
  | O => None
  | S fuel =>
      match validator_turn v with
      | Continue v => validator_loop fuel v
      | Return => Some true
      | Throw => Some false
      end
  end.
Definition start (text : list Z) : validator :=
  {| frames := []; rootState := R_value; rest := text; nodes := 0 |}.
(** src/src/qualification/qualification-profile.ts:297-401 (validateJsonText) *)
Definition validateJsonText (text : list Z) : option bool :=
  validator_loop (S (List.length text)) (start text).

(** * The grammar of JSON *)

Definition space (l : list Z) : Prop := Forall (fun c => is_space c = true) l.
Definition digits (l : list Z) : Prop := Forall (fun c => isDigit c = true) l.

(** What follows the opening quote of a string, with the decoded value. *)
Inductive string_body : list Z -> list Z -> Prop :=
| body_end : string_body [QUOTE] []
| body_plain c l k :
    32 <= c -> c <> QUOTE -> c <> BACKSLASH -> string_body l k -> string_body (c :: l) (c :: k)
| body_escape e u l k :
    JSON_SIMPLE_ESCAPES e = Some u -> string_body l k -> string_body (BACKSLASH :: e :: l) (u :: k)
| body_unicode a b c d u l k :
    hex4 a b c d = Some u -> string_body l k ->
    string_body (BACKSLASH :: 117 :: a :: b :: c :: d :: l) (u :: k).

Inductive integer_text : list Z -> Prop :=
| integer_zero : integer_text [48]
| integer_digits c l : isNonZeroDigit c = true -> digits l -> integer_text (c :: l).
Inductive fraction_text : list Z -> Prop :=
| fraction_none : fraction_text []
| fraction_digits c l : isDigit c = true -> digits l -> fraction_text (46 :: c :: l).
Inductive exponent_text : list Z -> Prop :=
| exponent_none : exponent_text []
| exponent_digits e s c l :
    e = 101 \/ e = 69 -> s = [] \/ s = [43] \/ s = [45] -> isDigit c = true -> digits l ->
    exponent_text (e :: s ++ c :: l).
Definition number_text (l : list Z) : Prop :=
  exists s i f e, l = s ++ i ++ f ++ e /\ (s = [] \/ s = [MINUS])
    /\ integer_text i /\ fraction_text f /\ exponent_text e.

(** [value d n l]: the text [l] is a value that nests arrays and objects at most [d] deep
    and consists of [n] values, with distinct member names in every object. *)
Inductive value : nat -> nat -> list Z -> Prop :=
| value_string d l k : string_body l k -> value d 1 (QUOTE :: l)
| value_number d l : number_text l -> value d 1 l
| value_literal d l : l ∈ [literal_true; literal_false; literal_null] -> value d 1 l
| value_empty_array d w : space w -> value (S d) 1 (OPEN_ARRAY :: w ++ [CLOSE_ARRAY])
| value_array d n n' w v t :
    space w -> value d n v -> array_tail d n' t -> value (S d) (S (n + n')) (OPEN_ARRAY :: w ++ v ++ t)
| value_empty_object d w : space w -> value (S d) 1 (OPEN_OBJECT :: w ++ [CLOSE_OBJECT])
| value_object d n w m :
    space w -> members [] d n m -> value (S d) (S n) (OPEN_OBJECT :: w ++ m)
(** What follows an element of an array. *)
with array_tail : nat -> nat -> list Z -> Prop :=
| array_end d w : space w -> array_tail d 0 (w ++ [CLOSE_ARRAY])
| array_next d n n' w w' v t :
    space w -> space w' -> value d n v -> array_tail d n' t ->
    array_tail d (n + n') (w ++ COMMA :: w' ++ v ++ t)
(** A member of an object whose earlier names are [keys], and what follows it. *)
with members : list (list Z) -> nat -> nat -> list Z -> Prop :=
| members_one keys d n n' name k w w' v t :
    string_body name k -> k ∉ keys -> space w -> space w' -> value d n v ->
    object_tail (k :: keys) d n' t ->
    members keys d (n + n') (QUOTE :: name ++ w ++ COLON :: w' ++ v ++ t)
(** What follows a member. *)
with object_tail : list (list Z) -> nat -> nat -> list Z -> Prop :=
| object_end keys d w : space w -> object_tail keys d 0 (w ++ [CLOSE_OBJECT])
| object_next keys d n w w' m :
    space w -> space w' -> members keys d n m -> object_tail keys d n (w ++ COMMA :: w' ++ m).

(** A JSON text within the limits. *)
Definition json_text (l : list Z) : Prop :=
  exists w v w' n, l = w ++ v ++ w' /\ space w /\ space w'
    /\ value MAX_PROFILE_JSON_DEPTH n v /\ (n <= MAX_PROFILE_JSON_NODES)%nat.

(** * The scanners recognize the grammar *)

Lemma skip_space l : exists w, space w /\ l = w ++ skipJsonWhitespace l
  /\ starts is_space (skipJsonWhitespace l) = false.
Proof.
  induction l as [|c l (w & Hw & E & Hs)]; [by exists []; repeat split; constructor|]. cbn.
  destruct (is_space c) eqn:Hc.
  - exists (c :: w). split; [by constructor|]. split; [|done]. cbn. by f_equal.
  - exists []. split; [constructor|]. done.
Qed.
Lemma skip_space_app w l :
  space w -> starts is_space l = false -> skipJsonWhitespace (w ++ l) = l.
Proof.
  intros Hw Hl. induction Hw as [|c w Hc Hw IH]; cbn.
  - destruct l as [|c l]; [done|]. cbn in *. by rewrite Hl.
  - by rewrite Hc.
Qed.

Lemma scan_string_sound l k l' :
  scan_string_body l = Some (k, l') -> exists raw, l = raw ++ l' /\ string_body raw k.
Proof.
  remember (List.length l) as n eqn:Hn. revert l k l' Hn.
  induction n as [n IH] using lt_wf_ind. intros [|c l] k l' -> H; [done|].
  cbn [scan_string_body] in H. destruct (c =? 34) eqn:Hq.
  { injection H as <- <-. apply Z.eqb_eq in Hq as ->. exists [34]. split; [done|constructor]. }
  destruct (c <? 32) eqn:Hlt; [done|]. bool_prop. destruct (c =? 92) eqn:Hb; cbn [negb] in H; bool_prop.
  - subst c. destruct l as [|e l]; [done|].
    destruct (JSON_SIMPLE_ESCAPES e) as [u|] eqn:He.
    + apply bind_Some in H as ([k1 l1] & H1 & [= <- <-]). apply (IH (List.length l)) in H1; [|cbn; lia|done].
      destruct H1 as (raw & -> & Hraw). exists (92 :: e :: raw). split; [done|by constructor].
    + destruct (e =? 117) eqn:Hu; [|done]. bool_prop. subst e.
      destruct l as [|a [|b [|c [|d l]]]]; try done.
      apply bind_Some in H as (u & Hh & H). apply bind_Some in H as ([k1 l1] & H1 & [= <- <-]).
      apply (IH (List.length l)) in H1; [|cbn; lia|done].
      destruct H1 as (raw & -> & Hraw). exists (92 :: 117 :: a :: b :: c :: d :: raw).
      split; [done|by constructor].
  - apply bind_Some in H as ([k1 l1] & H1 & [= <- <-]). apply (IH (List.length l)) in H1; [|cbn; lia|done].
    destruct H1 as (raw & -> & Hraw). exists (c :: raw). split; [done|by constructor].
Qed.
Lemma scan_string_complete raw k l : string_body raw k -> scan_string_body (raw ++ l) = Some (k, l).
Proof.
  induction 1 as [|c raw k H1 H2 H3 Hb IH|e u raw k He Hb IH|a b c d u raw k Hh Hb IH];
    cbn -[JSON_SIMPLE_ESCAPES hex4]; [done|..].
  - replace (c =? 34) with false by lia. replace (c <? 32) with false by lia.
    replace (c =? 92) with false by lia. cbn [negb]. by rewrite IH.
  - by rewrite He, IH.
  - change (JSON_SIMPLE_ESCAPES 117) with (@None Z). by rewrite Hh, IH.
Qed.

Lemma scanLiteral_sound w l l' : scanLiteral w l = Some l' -> l = w ++ l'.
Proof.
  revert l. induction w as [|c w IH]; intros l H; [by injection H as ->|].
  destruct l as [|c' l]; [done|]. cbn in H. destruct (c =? c') eqn:E; [|done].
  bool_prop. subst. cbn. f_equal. by apply IH.
Qed.
Lemma scanLiteral_complete w l : scanLiteral w (w ++ l) = Some l.
Proof. induction w as [|c w IH]; cbn; [by destruct l|]. by rewrite Z.eqb_refl. Qed.

Lemma skip_digits_split l : exists ds, digits ds /\ l = ds ++ skip_digits l.
Proof.
  induction l as [|c l (ds & Hd & E)]; [by exists []; split; [constructor|]|]. cbn.
  destruct (isDigit c) eqn:Hc; [|by exists []; split; [constructor|]].
  exists (c :: ds). split; [by constructor|]. cbn. by f_equal.
Qed.
Lemma skip_digits_app ds l : digits ds -> starts isDigit l = false -> skip_digits (ds ++ l) = l.
Proof.
  intros Hd Hl. induction Hd as [|c ds Hc Hd IH]; cbn; [|by rewrite Hc].
  destruct l as [|c l]; [done|]. cbn in *. by rewrite Hl.
Qed.
Lemma starts_true f l : starts f l = true -> exists c l', l = c :: l' /\ f c = true.
Proof. destruct l as [|c l]; [done|]. intros H. by exists c, l. Qed.
Lemma some_digits_sound l l' :
  some_digits l = Some l' -> exists c ds, l = c :: ds ++ l' /\ isDigit c = true /\ digits ds.
Proof.
  unfold some_digits. destruct (starts isDigit l) eqn:E; [|done]. intros [= <-].
  apply starts_true in E as (c & l' & -> & Hc). cbn. rewrite Hc.
  destruct (skip_digits_split l') as (ds & Hd & E). exists c, ds. by rewrite <- E.
Qed.
Lemma some_digits_complete c ds l :
  isDigit c = true -> digits ds -> starts isDigit l = false -> some_digits (c :: ds ++ l) = Some l.
Proof.
  intros Hc Hd Hl. unfold some_digits. cbn. rewrite Hc. by rewrite skip_digits_app.
Qed.

Lemma optional_char f l :
  exists s, (s = [] \/ exists c, s = [c] /\ f c = true)
    /\ l = s ++ (if starts f l then tl l else l).
Proof.
  destruct (starts f l) eqn:E; [|exists []; by split; [left|]].
  apply starts_true in E as (c & m & -> & Hc). exists [c]. split; [right; by exists c|done].
Qed.
Lemma scan_integer_sound l l' : scan_integer l = Some l' -> exists i, integer_text i /\ l = i ++ l'.
Proof.
  unfold scan_integer. intros H. destruct (starts (Z.eqb 48) l) eqn:E0.
  - apply starts_true in E0 as (c & m & -> & Hc). bool_prop. subst c. cbn in H.
    destruct (starts isDigit m); [done|]. injection H as <-. exists [48]. split; [constructor|done].
  - destruct (starts isNonZeroDigit l) eqn:E1; [|done]. injection H as <-.
    apply starts_true in E1 as (c & m & -> & Hc). cbn.
    replace (isDigit c) with true by (unfold isDigit, isNonZeroDigit in *; lia).
    destruct (skip_digits_split m) as (ds & Hd & E). exists (c :: ds).
    split; [by constructor|]. cbn. by rewrite <- E.
Qed.
Lemma scan_fraction_sound l l' : scan_fraction l = Some l' -> exists f, fraction_text f /\ l = f ++ l'.
Proof.
  unfold scan_fraction. intros H. destruct (starts (Z.eqb 46) l) eqn:E0.
  - apply starts_true in E0 as (c & m & -> & Hc). bool_prop. subst c. cbn in H.
    apply some_digits_sound in H as (c & ds & -> & Hc & Hd). exists (46 :: c :: ds).
    split; [by constructor|done].
  - injection H as <-. exists []. split; [constructor|done].
Qed.
Lemma scan_exponent_sound l l' : scan_exponent l = Some l' -> exists e, exponent_text e /\ l = e ++ l'.
Proof.
  unfold scan_exponent. intros H.
  destruct (starts (fun c => (c =? 101) || (c =? 69)) l) eqn:E0.
  - apply starts_true in E0 as (c & m & -> & Hc). cbn [tl] in H.
    destruct (optional_char (fun c => (c =? 43) || (c =? 45)) m) as (s & Hs & Em).
    apply some_digits_sound in H as (c' & ds & E & Hc' & Hd). rewrite E in Em.
    exists (c :: s ++ c' :: ds). split.
    + constructor; try done; [lia|]. destruct Hs as [->|(x & -> & Hx)]; [by left|right].
      apply orb_true_iff in Hx as [Hx|Hx]; bool_prop; subst; auto.
    + rewrite Em. cbn. by rewrite <- app_assoc.
  - injection H as <-. exists []. split; [constructor|done].
Qed.
Lemma scanJsonNumber_sound l l' :
  scanJsonNumber l = Some l' -> exists raw, l = raw ++ l' /\ number_text raw.
Proof.
  unfold scanJsonNumber. intros H. apply bind_Some in H as (l1 & Hi & H).
  apply bind_Some in H as (l2 & Hf & He).
  destruct (optional_char (Z.eqb 45) l) as (s & Hs & El).
  apply scan_integer_sound in Hi as (i & Hit & Ei). rewrite Ei in El.
  apply scan_fraction_sound in Hf as (f & Hft & E1). apply scan_exponent_sound in He as (e & Het & E2).
  exists (s ++ i ++ f ++ e). split; [rewrite El, E1, E2; by rewrite <- !app_assoc|].
  exists s, i, f, e. split_and!; try done.
  destruct Hs as [->|(c & -> & Hc)]; [by left|right]. bool_prop. by subst.
Qed.

(** What may follow a value: nothing, a space, a comma or a closing bracket. *)
Definition ends_value (l : list Z) : bool :=
  match l with
  | [] => true
  | c :: _ => is_space c || (c =? COMMA) || (c =? CLOSE_ARRAY) || (c =? CLOSE_OBJECT)
  end.
Lemma ends_not_digit l : ends_value l = true -> starts isDigit l = false.
Proof. destruct l as [|c l]; [done|]. cbn. unfold is_space, isDigit. lia. Qed.
Lemma scan_exponent_complete e l :
  exponent_text e -> ends_value l = true ->
  scan_exponent (e ++ l) = Some l /\ starts isDigit (e ++ l) = false
  /\ starts (Z.eqb 46) (e ++ l) = false.
Proof.
  intros He Hl. destruct He as [|e s c ds He Hs Hc Hd].
  - cbn. split_and!; [|by apply ends_not_digit|].
    + unfold scan_exponent. replace (starts _ l) with false; [done|].
      destruct l as [|c l]; [done|]. cbn [starts ends_value] in *. unfold is_space in Hl. lia.
    + destruct l as [|c l]; [done|]. cbn [starts ends_value] in *. unfold is_space in Hl. lia.
  - unfold scan_exponent. cbn [app starts tl]. unfold isDigit at 1. split_and!; [|lia|lia].
    replace ((e =? 101) || (e =? 69)) with true by lia.
    assert ((if starts (fun c => (c =? 43) || (c =? 45)) ((s ++ c :: ds) ++ l)
             then tl ((s ++ c :: ds) ++ l) else (s ++ c :: ds) ++ l) = c :: ds ++ l) as ->.
    { destruct Hs as [->|[->| ->]]; cbn; [|done..]. unfold isDigit in Hc.
      by replace ((c =? 43) || (c =? 45)) with false by lia. }
    apply some_digits_complete; [done..|]. by apply ends_not_digit.
Qed.
Lemma scan_fraction_complete f l :
  fraction_text f -> starts isDigit l = false -> starts (Z.eqb 46) l = false ->
  scan_fraction (f ++ l) = Some l /\ starts isDigit (f ++ l) = false.
Proof.
  intros Hf Hl Hp. destruct Hf as [|c ds Hc Hd].
  - cbn. unfold scan_fraction. by rewrite Hp.
  - split; [|done]. unfold scan_fraction. cbn [app starts tl Z.eqb Pos.eqb].
    by apply some_digits_complete.
Qed.
Lemma scan_integer_complete i l :
  integer_text i -> starts isDigit l = false ->
  scan_integer (i ++ l) = Some l /\ starts (Z.eqb 45) (i ++ l) = false.
Proof.
  intros Hi Hl. destruct Hi as [|c ds Hc Hd]; unfold scan_integer; cbn [app starts tl skip_digits].
  - by rewrite Hl.
  - unfold isNonZeroDigit in Hc. split; [|lia]. replace (48 =? c) with false by lia.
    unfold isNonZeroDigit. rewrite Hc. replace (isDigit c) with true by (unfold isDigit; lia).
    by rewrite skip_digits_app.
Qed.
Lemma scanJsonNumber_complete raw l :
  number_text raw -> ends_value l = true -> scanJsonNumber (raw ++ l) = Some l.
Proof.
  intros (s & i & f & e & -> & Hs & Hi & Hf & He) Hl. rewrite <- !app_assoc.
  destruct (scan_exponent_complete e l He Hl) as (H1 & H2 & H3).
  destruct (scan_fraction_complete f (e ++ l) Hf H2 H3) as [H4 H5].
  destruct (scan_integer_complete i (f ++ e ++ l) Hi H5) as [H6 H7].
  unfold scanJsonNumber.
  assert ((if starts (Z.eqb 45) (s ++ i ++ f ++ e ++ l) then tl (s ++ i ++ f ++ e ++ l)
           else s ++ i ++ f ++ e ++ l) = i ++ f ++ e ++ l) as ->.
  { destruct Hs as [->| ->]; [|done]. cbn [app]. by rewrite H7. }
  by rewrite H6; cbn [mbind option_bind]; rewrite H4.
Qed.
Lemma number_starts raw : number_text raw -> exists c l, raw = c :: l /\ (isDigit c = true \/ c = MINUS).
Proof.
  intros (s & i & f & e & -> & Hs & Hi & _). destruct Hs as [->| ->]; [|eexists _, _; by split; [|right]].
  destruct Hi as [|c ds Hc]; eexists _, _; (split; [reflexivity|left]); [done|].
  unfold isDigit, isNonZeroDigit in *. lia.
Qed.

(** * Every turn of the loop consumes text *)

Lemma skip_shorter l : (List.length (skipJsonWhitespace l) <= List.length l)%nat.
Proof. destruct (skip_space l) as (w & _ & E & _). apply (f_equal (@List.length Z)) in E.
  rewrite length_app in E. lia. Qed.
Lemma scanJsonString_sound l k l' :
  starts (Z.eqb QUOTE) l = true -> scanJsonString l = Some (k, l') ->
  exists raw, l = QUOTE :: raw ++ l' /\ string_body raw k.
Proof.
  intros Hs H. apply starts_true in Hs as (c & m & -> & Hc). bool_prop. subst c. cbn in H.
  apply scan_string_sound in H as (raw & -> & Hb). by exists raw.
Qed.
Lemma string_body_nonempty raw k : string_body raw k -> raw <> [].
Proof. by intros []. Qed.

(** The scalar values. *)
Inductive scalar : list Z -> Prop :=
| scalar_string raw k : string_body raw k -> scalar (QUOTE :: raw)
| scalar_number raw : number_text raw -> scalar raw
| scalar_literal raw : raw ∈ [literal_true; literal_false; literal_null] -> scalar raw.
Lemma scalar_value d raw : scalar raw -> value d 1 raw.
Proof. intros []; by econstructor. Qed.
Lemma scalar_nonempty raw : scalar raw -> raw <> [].
Proof.
  intros [|r Hn|r Hl]; [done|by apply number_starts in Hn as (? & ? & -> & _)|].
  intros ->. repeat (apply elem_of_cons in Hl as [Hl|Hl]; [done|]). by apply elem_of_nil in Hl.
Qed.

(** A value that starts is a scalar read whole, or an array or object opened. *)
Lemma consumeValue_cases v v' :
  consumeValue v = Some v' ->
  (nodes v < MAX_PROFILE_JSON_NODES)%nat /\ nodes v' = S (nodes v) /\ rootState v' = rootState v
  /\ ((frames v' = frames v /\ exists raw, scalar raw /\ rest v = raw ++ rest v')
      \/ ((List.length (frames v) < MAX_PROFILE_JSON_DEPTH)%nat
          /\ ((frames v' = ArrayFrame A_valueOrEnd :: frames v /\ rest v = OPEN_ARRAY :: rest v')
              \/ (frames v' = ObjectFrame O_keyOrEnd [] :: frames v
                  /\ rest v = OPEN_OBJECT :: rest v')))).
Proof.
  intros H. unfold consumeValue in H. destruct (_ <? S (nodes v))%nat eqn:Hn; [done|].
  apply Nat.ltb_ge in Hn. assert (nodes v < MAX_PROFILE_JSON_NODES)%nat as Hlt by lia.
  assert (forall w, w ∈ [literal_true; literal_false; literal_null] ->
    (fun l => {| frames := frames v; rootState := rootState v; rest := l; nodes := S (nodes v) |})
      <$> scanLiteral w (rest v) = Some v' ->
    (nodes v < MAX_PROFILE_JSON_NODES)%nat /\ nodes v' = S (nodes v) /\ rootState v' = rootState v
    /\ (frames v' = frames v /\ exists raw, scalar raw /\ rest v = raw ++ rest v')) as Hlit.
  { intros w Hw (l & Hs%scanLiteral_sound & ->)%fmap_Some. split_and!; try done.
    exists w. split; [by constructor|done]. }
  assert ((fun l => {| frames := frames v; rootState := rootState v; rest := l; nodes := S (nodes v) |})
      <$> scanJsonNumber (rest v) = Some v' ->
    (nodes v < MAX_PROFILE_JSON_NODES)%nat /\ nodes v' = S (nodes v) /\ rootState v' = rootState v
    /\ (frames v' = frames v /\ exists raw, scalar raw /\ rest v = raw ++ rest v')) as Hnum.
  { intros (l & (raw & Hs & Hr)%scanJsonNumber_sound & ->)%fmap_Some. split_and!; try done.
    exists raw. split; [by constructor|done]. }
  destruct (rest v) as [|c l] eqn:Hr; [naive_solver|].
  destruct (c =? 34) eqn:E1.
  { apply bind_Some in H as ([k l'] & H & [= <-]). cbn. bool_prop. subst c.
    apply scanJsonString_sound in H as (raw & E & Hb); [|done]. injection E as ->.
    split_and!; try done. left. split; [done|]. exists (34 :: raw). split; [by econstructor|done]. }
  destruct (c =? 123) eqn:E2.
  { destruct (_ <=? _)%nat eqn:Hd; [done|]. injection H as <-. cbn. bool_prop. subst c.
    apply Nat.leb_gt in Hd. auto 10. }
  destruct (c =? 91) eqn:E3.
  { destruct (_ <=? _)%nat eqn:Hd; [done|]. injection H as <-. cbn. bool_prop. subst c.
    apply Nat.leb_gt in Hd. auto 10. }
  destruct (c =? 116); [|destruct (c =? 102); [|destruct (c =? 110)]];
    [apply Hlit in H|apply Hlit in H|apply Hlit in H|apply Hnum in H]; naive_solver set_solver.
Qed.

Lemma consumeValue_shorter v v' :
  consumeValue v = Some v' -> (List.length (rest v') < List.length (rest v))%nat.
Proof.
  intros (_ & _ & _ & [[_ (raw & Hs & ->)]|[_ [[_ ->]|[_ ->]]]])%consumeValue_cases; [|cbn; lia..].
  rewrite length_app. apply scalar_nonempty in Hs. destruct raw; [done|]. cbn. lia.
Qed.
Lemma tl_shorter f l : starts f l = true -> (List.length (tl l) < List.length l)%nat.
Proof. intros (c & m & -> & _)%starts_true. cbn. lia. Qed.

Ltac take_char :=
  match goal with H : (if starts ?f ?l then _ else _) = Continue _ |- _ =>
    destruct (starts f l) eqn:?; [injection H as <-; by eapply tl_shorter|] end.
Lemma key_turn_Continue fs root l n keys v' :
  key_turn fs root l n keys = Continue v' ->
  exists raw k l', l = QUOTE :: raw ++ l' /\ string_body raw k /\ k ∉ keys
    /\ v' = {| frames := ObjectFrame O_colon (k :: keys) :: fs; rootState := root; rest := l';
               nodes := n |}.
Proof.
  unfold key_turn. destruct (starts _ _) eqn:Hs; [|done].
  destruct (scanJsonString _) as [[k l']|] eqn:Hk; [|done].
  destruct (includes _ _) eqn:Hi; [done|]. intros [= <-]. bool_prop.
  apply scanJsonString_sound in Hk as (raw & E & Hb); [|done]. by exists raw, k, l'.
Qed.
Lemma key_turn_shorter fs root l n keys v' :
  key_turn fs root l n keys = Continue v' -> (List.length (rest v') < List.length l)%nat.
Proof.
  intros (raw & k & l' & -> & _ & _ & ->)%key_turn_Continue. cbn. rewrite length_app. lia.
Qed.
Lemma turn_shorter v v' :
  validator_turn v = Continue v' -> (List.length (rest v') < List.length (rest v))%nat.
Proof.
  intros H. eapply Nat.lt_le_trans; [|apply skip_shorter]. unfold validator_turn in H.
  assert (forall o, go_on o = Continue v' -> o = Some v') as Hgo
    by (intros [] E; cbn in E; congruence).
  destruct (frames v) as [|[state|state keys] fs].
  - unfold root_turn in H. destruct (rootState v), (bool_decide _); try done.
    apply Hgo, consumeValue_shorter in H. exact H.
  - unfold array_turn in H. destruct state; repeat take_char;
      done || (apply Hgo, consumeValue_shorter in H; exact H).
  - unfold object_turn in H.
    destruct state; repeat (first [exact (key_turn_shorter _ _ _ _ _ _ H) | take_char]);
      done || (apply Hgo, consumeValue_shorter in H; exact H).
Qed.

Lemma loop_returns fuel v : (List.length (rest v) < fuel)%nat -> validator_loop fuel v <> None.
Proof.
  revert v. induction fuel as [|fuel IH]; intros v Hl; [lia|]. cbn.
  destruct (validator_turn v) as [v'| |] eqn:Ht; [|done..]. apply IH.
  apply turn_shorter in Ht. lia.
Qed.
Lemma loop_more fuel k v b : validator_loop fuel v = Some b -> validator_loop (fuel + k) v = Some b.
Proof.
  revert v. induction fuel as [|fuel IH]; intros v H; [done|]. cbn in *.
  destruct (validator_turn v); [|done..]. by apply IH.
Qed.

(** * Soundness: what the automaton still has to read *)

(** How deep values under these frames may nest. *)
Definition budget (fs : list JsonFrame) : nat := MAX_PROFILE_JSON_DEPTH - List.length fs.

(** [closes f d n l]: the text [l] completes the open array or object [f], with [n] more
    values nested at most [d] deep. *)
Definition closes (f : JsonFrame) (d n : nat) (l : list Z) : Prop :=
  match f with
  | ArrayFrame A_valueOrEnd =>
      (n = 0%nat /\ exists w, space w /\ l = w ++ [CLOSE_ARRAY])
      \/ exists w v t n1 n2, l = w ++ v ++ t /\ space w /\ value d n1 v /\ array_tail d n2 t
           /\ n = (n1 + n2)%nat
  | ArrayFrame A_value =>
      exists w v t n1 n2, l = w ++ v ++ t /\ space w /\ value d n1 v /\ array_tail d n2 t
        /\ n = (n1 + n2)%nat
  | ArrayFrame A_commaOrEnd => array_tail d n l
  | ObjectFrame O_keyOrEnd keys =>
      (n = 0%nat /\ exists w, space w /\ l = w ++ [CLOSE_OBJECT])
      \/ exists w m, l = w ++ m /\ space w /\ members keys d n m
  | ObjectFrame O_key keys => exists w m, l = w ++ m /\ space w /\ members keys d n m
  | ObjectFrame O_colon keys =>
      exists w w' v t n1 n2, l = w ++ COLON :: w' ++ v ++ t /\ space w /\ space w' /\ value d n1 v
        /\ object_tail keys d n2 t /\ n = (n1 + n2)%nat
  | ObjectFrame O_value keys =>
      exists w v t n1 n2, l = w ++ v ++ t /\ space w /\ value d n1 v /\ object_tail keys d n2 t
        /\ n = (n1 + n2)%nat
  | ObjectFrame O_commaOrEnd keys => object_tail keys d n l
  end.
(** [remains fs n l]: the text [l] completes every frame and ends the document. *)
Fixpoint remains (fs : list JsonFrame) (n : nat) (l : list Z) : Prop :=
  match fs with
  | [] => n = 0%nat /\ space l
  | f :: fs' =>
      exists body l' n1 n2, l = body ++ l' /\ closes f (budget fs) n1 body /\ remains fs' n2 l'
        /\ n = (n1 + n2)%nat
  end.

(** A value that starts, followed by what the new state still has to read. *)
Lemma consumeValue_sound v v' n :
  consumeValue v = Some v' -> remains (frames v') n (rest v') ->
  exists raw l n1 n2, rest v = raw ++ l /\ value (budget (frames v)) n1 raw
    /\ remains (frames v) n2 l /\ (nodes v' + n = nodes v + n1 + n2)%nat.
Proof.
  intros (_ & Hn & _ & H)%consumeValue_cases Hr. rewrite Hn.
  destruct H as [[Hf (raw & Hs & E)]|[Hd [[Hf E]|[Hf E]]]]; rewrite Hf in Hr.
  - exists raw, (rest v'), 1%nat, n. split_and!; [done|by apply scalar_value|done|lia].
  - destruct Hr as (body & l & n1 & n2 & El & Hc & Hr & ->).
    exists (OPEN_ARRAY :: body), l, (S n1), n2. rewrite E, El. split_and!; [done| |done|lia].
    assert (budget (frames v) = S (budget (ArrayFrame A_valueOrEnd :: frames v))) as ->.
    { unfold budget. cbn [List.length]. lia. }
    destruct Hc as [[-> (w & Hw & ->)]|(w & a & t & m1 & m2 & -> & Hw & Ha & Ht & ->)]; by constructor.
  - destruct Hr as (body & l & n1 & n2 & El & Hc & Hr & ->).
    exists (OPEN_OBJECT :: body), l, (S n1), n2. rewrite E, El. split_and!; [done| |done|lia].
    assert (budget (frames v) = S (budget (ObjectFrame O_keyOrEnd [] :: frames v))) as ->.
    { unfold budget. cbn [List.length]. lia. }
    destruct Hc as [[-> (w & Hw & ->)]|(w & m & -> & Hw & Hm)]; by constructor.
Qed.

(** The turn the loop takes, undone on the text. *)
Lemma close_sound f fs k l c :
  closes f (budget (f :: fs)) 0 [c] -> remains fs k l -> remains (f :: fs) k (c :: l).
Proof. intros Hc Hr. by exists [c], l, 0%nat, k. Qed.
Lemma go_on_Continue o v : go_on o = Continue v -> o = Some v.
Proof. by destruct o; intros [= ->]. Qed.
Lemma starts_eqb c l : starts (Z.eqb c) l = true -> l = c :: tl l.
Proof. intros (x & m & -> & Hx)%starts_true. bool_prop. by subst. Qed.

Lemma array_turn_sound fs root l n state v' k :
  array_turn fs root l n state = Continue v' -> remains (frames v') k (rest v') ->
  exists k', remains (ArrayFrame state :: fs) k' l /\ (n + k' = nodes v' + k)%nat.
Proof.
  intros H Hr.
  assert (go_on (consumeValue {| frames := ArrayFrame A_commaOrEnd :: fs; rootState := root;
                                 rest := l; nodes := n |}) = Continue v' ->
    exists k', remains (ArrayFrame A_value :: fs) k' l /\ (n + k' = nodes v' + k)%nat) as Hvalue.
  { intros Hv%go_on_Continue. destruct (consumeValue_sound _ _ _ Hv Hr) as (raw & l' & n1 & n2 & E & Hraw & Hl & En).
    cbn in E, Hraw, En. destruct Hl as (body & l'' & m1 & m2 & -> & Hb & Hl & ->).
    exists (n1 + (m1 + m2))%nat. split; [|lia].
    exists (raw ++ body), l'', (n1 + m1)%nat, m2. split_and!; [by rewrite E, app_assoc| |done|lia].
    by exists [], raw, body, n1, m1; repeat split; try done; constructor. }
  unfold array_turn in H. destruct state.
  - destruct (starts (Z.eqb 93) l) eqn:Hs.
    + injection H as <-. cbn in Hr. rewrite (starts_eqb _ _ Hs). exists k. split; [|done].
      apply close_sound; [|done]. left. split; [done|]. exists []. split; [constructor|done].
    + destruct (Hvalue H) as (k' & (body & l' & n1 & n2 & -> & Hc & Hl & ->) & En).
      exists (n1 + n2)%nat. split; [|done]. exists body, l', n1, n2. split_and!; try done. by right.
  - by apply Hvalue.
  - destruct (starts (Z.eqb 44) l) eqn:Hc.
    + injection H as <-. cbn in Hr. rewrite (starts_eqb _ _ Hc).
      destruct Hr as (body & l' & n1 & n2 & E & (w & a & t & m1 & m2 & -> & Hw & Ha & Ht & ->) & Hl & ->).
      exists (m1 + m2 + n2)%nat. split; [|done].
      exists (44 :: w ++ a ++ t), l', (m1 + m2)%nat, n2. split_and!; [by rewrite E| |done|done].
      apply (array_next _ _ _ []); by (constructor || done).
    + destruct (starts (Z.eqb 93) l) eqn:Hs; [|done]. injection H as <-. cbn in Hr.
      rewrite (starts_eqb _ _ Hs). exists k. split; [|done]. apply close_sound; [|done].
      apply (array_end _ []). constructor.
Qed.

Lemma key_turn_sound fs root l n keys v' k :
  key_turn fs root l n keys = Continue v' -> remains (frames v') k (rest v') ->
  remains (ObjectFrame O_key keys :: fs) k l /\ nodes v' = n.
Proof.
  intros (raw & key & l' & -> & Hb & Hk & ->)%key_turn_Continue Hr. split; [|done]. cbn in Hr.
  destruct Hr as (body & l'' & n1 & n2 & -> & (w & w' & v & t & m1 & m2 & -> & Hw & Hw' & Hv & Ht & ->) & Hl & ->).
  exists (QUOTE :: raw ++ w ++ COLON :: w' ++ v ++ t), l'', (m1 + m2)%nat, n2.
  split_and!; [cbn; by rewrite <- !app_assoc| |done|done].
  exists [], (QUOTE :: raw ++ w ++ COLON :: w' ++ v ++ t).
  split_and!; [done|constructor|]. by econstructor.
Qed.
Lemma object_turn_sound fs root l n state keys v' k :
  object_turn fs root l n state keys = Continue v' -> remains (frames v') k (rest v') ->
  exists k', remains (ObjectFrame state keys :: fs) k' l /\ (n + k' = nodes v' + k)%nat.
Proof.
  intros H Hr. unfold object_turn in H. destruct state.
  - destruct (starts (Z.eqb 125) l) eqn:Hs.
    + injection H as <-. cbn in Hr. rewrite (starts_eqb _ _ Hs). exists k. split; [|done].
      apply close_sound; [|done]. left. split; [done|]. exists []. split; [constructor|done].
    + destruct (key_turn_sound _ _ _ _ _ _ _ H Hr) as [(body & l' & n1 & n2 & -> & Hc & Hl & ->) ->].
      exists (n1 + n2)%nat. split; [|lia]. exists body, l', n1, n2. split_and!; try done. by right.
  - destruct (key_turn_sound _ _ _ _ _ _ _ H Hr) as [Hl ->]. exists k. split; [done|lia].
  - destruct (starts (Z.eqb 58) l) eqn:Hs; [|done]. injection H as <-. cbn in Hr.
    rewrite (starts_eqb _ _ Hs).
    destruct Hr as (body & l' & n1 & n2 & E & (w & v & t & m1 & m2 & -> & Hw & Hv & Ht & ->) & Hl & ->).
    exists (m1 + m2 + n2)%nat. split; [|done].
    exists (58 :: w ++ v ++ t), l', (m1 + m2)%nat, n2. split_and!; [by rewrite E| |done|done].
    by exists [], w, v, t, m1, m2; repeat split; try done; constructor.
  - apply go_on_Continue in H. destruct (consumeValue_sound _ _ _ H Hr) as (raw & l' & n1 & n2 & E & Hraw & Hl & En).
    cbn in E, Hraw, En. destruct Hl as (body & l'' & m1 & m2 & -> & Hb & Hl & ->).
    exists (n1 + (m1 + m2))%nat. split; [|lia].
    exists (raw ++ body), l'', (n1 + m1)%nat, m2. split_and!; [by rewrite E, app_assoc| |done|lia].
    by exists [], raw, body, n1, m1; repeat split; try done; constructor.
  - destruct (starts (Z.eqb 44) l) eqn:Hc.
    + injection H as <-. cbn in Hr. rewrite (starts_eqb _ _ Hc).
      destruct Hr as (body & l' & n1 & n2 & E & (w & m & -> & Hw & Hm) & Hl & ->).
      exists (n1 + n2)%nat. split; [|done].
      exists (44 :: w ++ m), l', n1, n2. split_and!; [by rewrite E| |done|done].
      apply (object_next _ _ _ []); by (constructor || done).
    + destruct (starts (Z.eqb 125) l) eqn:Hs; [|done]. injection H as <-. cbn in Hr.
      rewrite (starts_eqb _ _ Hs). exists k. split; [|done]. apply close_sound; [|done].
      apply (object_end _ _ []). constructor.
Qed.

Lemma space_app w w' : space w -> space w' -> space (w ++ w').
Proof. apply Forall_app_2. Qed.
Lemma array_tail_space d n l w : space w -> array_tail d n l -> array_tail d n (w ++ l).
Proof.
  intros Hw []; rewrite app_assoc; constructor; try done; by apply space_app.
Qed.
Lemma object_tail_space keys d n l w : space w -> object_tail keys d n l -> object_tail keys d n (w ++ l).
Proof.
  intros Hw []; rewrite app_assoc; constructor; try done; by apply space_app.
Qed.
(** Space in front of what completes a frame changes nothing. *)
Lemma closes_space f d n l w : space w -> closes f d n l -> closes f d n (w ++ l).
Proof.
  intros Hw Hc. destruct f as [[| |]|[| | | |] keys]; cbn in *;
    try (by apply array_tail_space); try (by apply object_tail_space).
  - destruct Hc as [[-> (w' & Hw' & ->)]|(w' & v & t & n1 & n2 & -> & Hw' & H)]; [left|right].
    + split; [done|]. exists (w ++ w'). split; [by apply space_app|by rewrite app_assoc].
    + exists (w ++ w'), v, t, n1, n2. split; [by rewrite app_assoc|]. split; [by apply space_app|done].
  - destruct Hc as (w' & v & t & n1 & n2 & -> & Hw' & H).
    exists (w ++ w'), v, t, n1, n2. split; [by rewrite app_assoc|]. split; [by apply space_app|done].
  - destruct Hc as [[-> (w' & Hw' & ->)]|(w' & m & -> & Hw' & H)]; [left|right].
    + split; [done|]. exists (w ++ w'). split; [by apply space_app|by rewrite app_assoc].
    + exists (w ++ w'), m. split; [by rewrite app_assoc|]. split; [by apply space_app|done].
  - destruct Hc as (w' & m & -> & Hw' & H).
    exists (w ++ w'), m. split; [by rewrite app_assoc|]. split; [by apply space_app|done].
  - destruct Hc as (w' & w'' & v & t & n1 & n2 & -> & Hw' & H).
    exists (w ++ w'), w'', v, t, n1, n2. split; [by rewrite app_assoc|]. split; [by apply space_app|done].
  - destruct Hc as (w' & v & t & n1 & n2 & -> & Hw' & H).
    exists (w ++ w'), v, t, n1, n2. split; [by rewrite app_assoc|]. split; [by apply space_app|done].
Qed.
Lemma remains_space fs n l w : space w -> remains fs n l -> remains fs n (w ++ l).
Proof.
  intros Hw Hr. destruct fs as [|f fs]; cbn in *.
  - destruct Hr as [-> Hl]. split; [done|]. by apply space_app.
  - destruct Hr as (body & l' & n1 & n2 & -> & Hc & Hl & ->). exists (w ++ body), l', n1, n2.
    split_and!; [by rewrite app_assoc|by apply closes_space|done|done].
Qed.

(** A document that starts, or what completes one that started. *)
Definition remaining (v : validator) (n : nat) : Prop :=
  match rootState v with
  | R_end => remains (frames v) n (rest v)
  | R_value =>
      frames v = [] /\ exists w raw l, rest v = w ++ raw ++ l /\ space w /\ space l
        /\ value MAX_PROFILE_JSON_DEPTH n raw
  end.
(** Before the document starts there are no frames. *)
Definition started (v : validator) : Prop := rootState v = R_value -> frames v = [].

Lemma turn_started v v' : validator_turn v = Continue v' -> started v -> rootState v' = R_end.
Proof.
  intros H Hs. unfold started in Hs.
  assert (forall r l n, (exists fs', go_on (consumeValue {| frames := fs'; rootState := r; rest := l;
    nodes := n |}) = Continue v') -> rootState v' = r) as Hgo.
  { intros r l n [fs' (_ & _ & E & _)%go_on_Continue%consumeValue_cases]. exact E. }
  unfold validator_turn in H. destruct (frames v) as [|f fs].
  - unfold root_turn in H. destruct (rootState v), (bool_decide _); try done. by eapply Hgo; eexists.
  - destruct (rootState v); [by specialize (Hs eq_refl)|]. destruct f as [state|state keys].
    + unfold array_turn in H. destruct state; repeat case_match; simplify_eq; try done;
        by eapply Hgo; eexists.
    + unfold object_turn in H. destruct state; repeat case_match; simplify_eq; try done;
        try (apply key_turn_Continue in H as (? & ? & ? & _ & _ & _ & ->); done);
        by eapply Hgo; eexists.
Qed.
Lemma turn_nodes v v' :
  validator_turn v = Continue v' -> (nodes v <= MAX_PROFILE_JSON_NODES)%nat ->
  (nodes v' <= MAX_PROFILE_JSON_NODES)%nat.
Proof.
  intros H Hn.
  assert (forall o, go_on (consumeValue o) = Continue v' -> nodes o = nodes v ->
    (nodes v' <= MAX_PROFILE_JSON_NODES)%nat) as Hgo.
  { intros o (Hlt & -> & _)%go_on_Continue%consumeValue_cases Ho. lia. }
  unfold validator_turn in H. destruct (frames v) as [|[state|state keys] fs].
  - unfold root_turn in H. destruct (rootState v), (bool_decide _); try done. by eapply Hgo.
  - unfold array_turn in H. destruct state; repeat case_match; simplify_eq; try done; by eapply Hgo.
  - unfold object_turn in H. destruct state; repeat case_match; simplify_eq; try done;
      try (apply key_turn_Continue in H as (? & ? & ? & _ & _ & _ & ->); done); by eapply Hgo.
Qed.

Lemma turn_sound v v' n :
  validator_turn v = Continue v' -> started v -> remains (frames v') n (rest v') ->
  exists n', remaining v n' /\ (nodes v + n' = nodes v' + n)%nat.
Proof.
  intros H Hs Hr. destruct (skip_space (rest v)) as (w & Hw & E & _).
  unfold validator_turn in H. unfold remaining, started in *.
  destruct (frames v) as [|f fs] eqn:Hf.
  - unfold root_turn in H. destruct (rootState v); [|by destruct (bool_decide _)].
    destruct (bool_decide _); [done|]. apply go_on_Continue in H.
    destruct (consumeValue_sound _ _ _ H Hr) as (raw & l & n1 & n2 & El & Hraw & [-> Hl] & En).
    cbn in El, Hraw, En. exists n1. split; [|lia]. split; [done|].
    exists w, raw, l. rewrite E, El. done.
  - destruct (rootState v); [by specialize (Hs eq_refl)|].
    assert (exists k', remains (f :: fs) k' (skipJsonWhitespace (rest v))
                       /\ (nodes v + k' = nodes v' + n)%nat) as (k' & Hk & En).
    { destruct f; [by eapply array_turn_sound | by eapply object_turn_sound]. }
    exists k'. split; [|done]. rewrite E. by apply remains_space.
Qed.

Lemma loop_sound fuel v :
  validator_loop fuel v = Some true -> started v -> (nodes v <= MAX_PROFILE_JSON_NODES)%nat ->
  exists n, remaining v n /\ (nodes v + n <= MAX_PROFILE_JSON_NODES)%nat.
Proof.
  revert v. induction fuel as [|fuel IH]; intros v H Hs Hn; [done|]. cbn in H.
  destruct (validator_turn v) as [v'| |] eqn:Ht; [| |done].
  - pose proof (turn_started _ _ Ht Hs) as Hend. pose proof (turn_nodes _ _ Ht Hn) as Hn'.
    destruct (IH v' H) as (n & Hr & Hb); [by intros ?; congruence|done|].
    unfold remaining in Hr. rewrite Hend in Hr.
    destruct (turn_sound _ _ _ Ht Hs Hr) as (n' & Hr' & En). exists n'. split; [done|lia].
  - exists 0%nat. split; [|lia]. unfold validator_turn in Ht. unfold remaining.
    destruct (frames v) as [|[state|state keys] fs].
    + unfold root_turn in Ht. destruct (rootState v).
      * destruct (bool_decide _); [done|]. by destruct (consumeValue _).
      * destruct (bool_decide _) eqn:Hb; [|done]. bool_prop. split; [done|].
        destruct (skip_space (rest v)) as (w & Hw & E & _). rewrite Hb, app_nil_r in E. by rewrite E.
    + unfold array_turn in Ht. destruct state; repeat case_match; try done; by destruct (consumeValue _).
    + unfold object_turn, key_turn in Ht. destruct state; repeat case_match; try done;
        by destruct (consumeValue _).
Qed.

(** * Completeness: the automaton reads every text of the grammar *)

Inductive steps : validator -> validator -> Prop :=
| steps_refl v : steps v v
| steps_turn v v' v'' : validator_turn v = Continue v' -> steps v' v'' -> steps v v''.
Lemma steps_trans v v' v'' : steps v v' -> steps v' v'' -> steps v v''.
Proof. induction 1; [done|]. intros. econstructor; eauto. Qed.

Abbreviation at_state fs l n := {| frames := fs; rootState := R_end; rest := l; nodes := n |}.

(** Reading the value at the head of the text, under these frames. *)
Definition reads (fs : list JsonFrame) (k : nat) (raw l : list Z) (n : nat) : Prop :=
  exists v, consumeValue (at_state fs (raw ++ l) k) = Some v /\ steps v (at_state fs l (k + n)).

Lemma array_tail_ends d n t l : array_tail d n t -> ends_value (t ++ l) = true.
Proof. intros [d' w Hw|d' n1 n2 w w' v t' Hw _ _ _]; destruct Hw as [|c w Hc]; cbn; try done; by rewrite Hc. Qed.
Lemma object_tail_ends keys d n t l : object_tail keys d n t -> ends_value (t ++ l) = true.
Proof. intros [k d' w Hw|k d' n1 w w' m Hw _ _]; destruct Hw as [|c w Hc]; cbn; try done; by rewrite Hc. Qed.
Lemma value_starts d n v l : value d n v -> starts is_space (v ++ l) = false
  /\ starts (Z.eqb CLOSE_ARRAY) (v ++ l) = false /\ v <> [].
Proof.
  intros [| d' raw Hn | d' raw Hl | | | |]; try done.
  - apply number_starts in Hn as (c & m & -> & Hc). cbn [app starts]. unfold is_space, isDigit in *.
    split_and!; [lia|lia|done].
  - by repeat (apply elem_of_cons in Hl as [->|Hl]; [done|]); apply elem_of_nil in Hl.
Qed.

Lemma consume_scalar fs k raw l :
  scalar raw -> ends_value l = true -> (S k <= MAX_PROFILE_JSON_NODES)%nat ->
  consumeValue (at_state fs (raw ++ l) k) = Some (at_state fs l (S k)).
Proof.
  intros Hs Hl Hn. unfold consumeValue. cbn [nodes].
  replace (MAX_PROFILE_JSON_NODES <? S k)%nat with false by (symmetry; by apply Nat.ltb_ge).
  destruct Hs as [raw key Hb|raw Hraw|raw Hraw].
  - cbn. by rewrite (scan_string_complete raw key l Hb).
  - destruct (number_starts _ Hraw) as (c & m & E & Hc). cbn [rest].
    rewrite (scanJsonNumber_complete raw l Hraw Hl), E. cbn [app]. unfold isDigit in Hc.
    replace (c =? 34) with false by lia. replace (c =? 123) with false by lia.
    replace (c =? 91) with false by lia. replace (c =? 116) with false by lia.
    replace (c =? 102) with false by lia. by replace (c =? 110) with false by lia.
  - cbn [rest frames rootState].
    repeat (apply elem_of_cons in Hraw as [->|Hraw];
            [rewrite scanLiteral_complete; done|]). by apply elem_of_nil in Hraw.
Qed.
Lemma consume_open fs k c f l :
  (c = OPEN_ARRAY /\ f = ArrayFrame A_valueOrEnd) \/ (c = OPEN_OBJECT /\ f = ObjectFrame O_keyOrEnd []) ->
  (List.length fs < MAX_PROFILE_JSON_DEPTH)%nat -> (S k <= MAX_PROFILE_JSON_NODES)%nat ->
  consumeValue (at_state fs (c :: l) k) = Some (at_state (f :: fs) l (S k)).
Proof.
  intros Hc Hd Hn. unfold consumeValue. cbn [nodes frames rest rootState tl].
  replace (MAX_PROFILE_JSON_NODES <? S k)%nat with false by (symmetry; by apply Nat.ltb_ge).
  replace (MAX_PROFILE_JSON_DEPTH <=? List.length fs)%nat with false by (symmetry; by apply Nat.leb_gt).
  by destruct Hc as [[-> ->]|[-> ->]].
Qed.

(** One turn on a text that starts with space. *)
Lemma turn_at f fs w l k :
  space w -> starts is_space l = false ->
  validator_turn (at_state (f :: fs) (w ++ l) k) =
  match f with
  | ObjectFrame state keys => object_turn fs R_end l k state keys
  | ArrayFrame state => array_turn fs R_end l k state
  end.
Proof. intros Hw Hl. unfold validator_turn. cbn [rest frames]. by rewrite skip_space_app. Qed.

(** An element, then the rest of the array. *)
Lemma element_steps fs k w v t l n n' state :
  state <> A_commaOrEnd -> space w -> starts is_space (v ++ t ++ l) = false ->
  starts (Z.eqb CLOSE_ARRAY) (v ++ t ++ l) = false ->
  reads (ArrayFrame A_commaOrEnd :: fs) k v (t ++ l) n ->
  steps (at_state (ArrayFrame A_commaOrEnd :: fs) (t ++ l) (k + n)) (at_state fs l (k + n + n')) ->
  steps (at_state (ArrayFrame state :: fs) (w ++ v ++ t ++ l) k) (at_state fs l (k + (n + n'))).
Proof.
  intros Hst Hw Hs Hc (v1 & Hv & H1) H2. econstructor.
  - rewrite turn_at by done. unfold array_turn. rewrite Hc, Hv. by destruct state.
  - eapply steps_trans; [exact H1|]. by rewrite Nat.add_assoc.
Qed.

(** A member, then the rest of the object. *)
Lemma member_steps fs k keys state w0 name key w w' v t l n n' :
  state = O_key \/ state = O_keyOrEnd -> space w0 -> string_body name key -> key ∉ keys ->
  space w -> space w' -> starts is_space (v ++ t ++ l) = false ->
  reads (ObjectFrame O_commaOrEnd (key :: keys) :: fs) k v (t ++ l) n ->
  steps (at_state (ObjectFrame O_commaOrEnd (key :: keys) :: fs) (t ++ l) (k + n))
        (at_state fs l (k + n + n')) ->
  steps (at_state (ObjectFrame state keys :: fs)
           (w0 ++ QUOTE :: name ++ w ++ COLON :: w' ++ v ++ t ++ l) k) (at_state fs l (k + (n + n'))).
Proof.
  intros Hst Hw0 Hb Hk Hw Hw' Hs (v1 & Hv1 & H1) H2.
  eapply steps_turn with (at_state (ObjectFrame O_colon (key :: keys) :: fs)
    (w ++ COLON :: w' ++ v ++ t ++ l) k).
  { rewrite turn_at by done.
    assert (forall m, key_turn fs R_end (34 :: name ++ m) k keys
      = Continue (at_state (ObjectFrame O_colon (key :: keys) :: fs) m k)) as Hkey.
    { intros m. unfold key_turn, scanJsonString. cbn [starts tl Z.eqb Pos.eqb].
      rewrite (scan_string_complete _ _ _ Hb). by rewrite (proj2 (includes_false _ _) Hk). }
    unfold object_turn. cbn [starts Z.eqb Pos.eqb]. by destruct Hst as [->| ->]. }
  eapply steps_turn; [rewrite turn_at by done; reflexivity|]. cbn [tl].
  eapply steps_turn; [rewrite turn_at by done; cbn [object_turn]; rewrite Hv1; reflexivity|].
  eapply steps_trans; [exact H1|]. by rewrite Nat.add_assoc.
Qed.

Scheme value_mut := Induction for value Sort Prop
  with array_tail_mut := Induction for array_tail Sort Prop
  with members_mut := Induction for members Sort Prop
  with object_tail_mut := Induction for object_tail Sort Prop.
Combined Scheme grammar_mut from value_mut, array_tail_mut, members_mut, object_tail_mut.

Lemma grammar_complete :
  (forall d n v, value d n v -> forall fs k l,
     (List.length fs + d <= MAX_PROFILE_JSON_DEPTH)%nat -> (k + n <= MAX_PROFILE_JSON_NODES)%nat ->
     ends_value l = true -> reads fs k v l n)
  /\ (forall d n t, array_tail d n t -> forall fs k l,
     (S (List.length fs) + d <= MAX_PROFILE_JSON_DEPTH)%nat -> (k + n <= MAX_PROFILE_JSON_NODES)%nat ->
     steps (at_state (ArrayFrame A_commaOrEnd :: fs) (t ++ l) k) (at_state fs l (k + n)))
  /\ (forall keys d n m, members keys d n m -> forall fs k w l state,
     (S (List.length fs) + d <= MAX_PROFILE_JSON_DEPTH)%nat -> (k + n <= MAX_PROFILE_JSON_NODES)%nat ->
     space w -> state = O_key \/ state = O_keyOrEnd ->
     steps (at_state (ObjectFrame state keys :: fs) (w ++ m ++ l) k) (at_state fs l (k + n)))
  /\ (forall keys d n t, object_tail keys d n t -> forall fs k l,
     (S (List.length fs) + d <= MAX_PROFILE_JSON_DEPTH)%nat -> (k + n <= MAX_PROFILE_JSON_NODES)%nat ->
     steps (at_state (ObjectFrame O_commaOrEnd keys :: fs) (t ++ l) k) (at_state fs l (k + n))).
Proof.
  assert (forall d raw, scalar raw -> forall fs k l, (List.length fs + d <= MAX_PROFILE_JSON_DEPTH)%nat ->
    (k + 1 <= MAX_PROFILE_JSON_NODES)%nat -> ends_value l = true -> reads fs k raw l 1) as Hscalar.
  { intros d raw Hs fs k l _ Hn Hl. eexists. split; [apply consume_scalar; [done..|lia]|].
    rewrite Nat.add_1_r. constructor. }
  apply grammar_mut.
  - intros d raw key Hb. apply (Hscalar d). by econstructor.
  - intros d raw Hn. apply (Hscalar d). by constructor.
  - intros d raw Hl. apply (Hscalar d). by apply scalar_literal.
  - intros d w Hw fs k l Hd Hn Hl. unfold reads. cbn [app]. eexists. split; [apply consume_open; [by left|lia|lia]|].
    econstructor; [|rewrite Nat.add_1_r; constructor].
    rewrite <- app_assoc, turn_at by done. done.
  - intros d n n' w v t Hw Hv IHv Ht IHt fs k l Hd Hn Hl.
    destruct (value_starts _ _ _ (t ++ l) Hv) as (Hs & Hc & _).
    unfold reads. cbn [app]. eexists. split; [apply consume_open; [by left|lia|lia]|]. rewrite <- !app_assoc, <- plus_n_Sm.
    apply (element_steps fs (S k)); try done.
    + apply IHv; [cbn; lia|lia|]. by eapply array_tail_ends.
    + apply IHt; [lia|lia].
  - intros d w Hw fs k l Hd Hn Hl. unfold reads. cbn [app]. eexists. split; [apply consume_open; [by right|lia|lia]|].
    econstructor; [|rewrite Nat.add_1_r; constructor].
    rewrite <- app_assoc, turn_at by done. done.
  - intros d n w m Hw Hm IHm fs k l Hd Hn Hl.
    unfold reads. cbn [app]. eexists. split; [apply consume_open; [by right|lia|lia]|]. rewrite <- !app_assoc, <- plus_n_Sm.
    apply (IHm fs (S k)); [lia|lia|done|by right].
  - intros d w Hw fs k l Hd Hn. econstructor; [|rewrite Nat.add_0_r; constructor].
    rewrite <- app_assoc, turn_at by done. done.
  - intros d n n' w w' v t Hw Hw' Hv IHv Ht IHt fs k l Hd Hn.
    destruct (value_starts _ _ _ (t ++ l) Hv) as (Hs & Hc & _).
    econstructor.
    + rewrite <- app_assoc, turn_at by done. cbn. reflexivity.
    + cbn. rewrite <- !app_assoc. apply element_steps; try done.
      * apply IHv; [cbn; lia|lia|]. by eapply array_tail_ends.
      * apply IHt; [lia|lia].
  - intros keys d n n' name key w w' v t Hb Hk Hw Hw' Hv IHv Ht IHt fs k w0 l state Hd Hn Hw0 Hst.
    destruct (value_starts _ _ _ (t ++ l) Hv) as (Hs & _ & _).
    replace ((QUOTE :: name ++ w ++ COLON :: w' ++ v ++ t) ++ l)
      with (QUOTE :: name ++ w ++ COLON :: w' ++ v ++ t ++ l)
      by (cbn; by rewrite <- !app_assoc; cbn; rewrite <- !app_assoc).
    apply member_steps with key; try done.
    + apply IHv; [cbn; lia|lia|by eapply object_tail_ends].
    + apply IHt; [lia|lia].
  - intros keys d w Hw fs k l Hd Hn. econstructor; [|rewrite Nat.add_0_r; constructor].
    rewrite <- app_assoc, turn_at by done. done.
  - intros keys d n w w' m Hw Hw' Hm IHm fs k l Hd Hn. econstructor.
    + rewrite <- app_assoc, turn_at by done. cbn. reflexivity.
    + cbn. rewrite <- !app_assoc. apply IHm; [lia|lia|done|by left].
Qed.

Lemma steps_loop v v' : steps v v' ->
  forall fuel b, validator_loop fuel v' = Some b -> exists fuel', validator_loop fuel' v = Some b.
Proof.
  induction 1 as [v|v v1 v2 Ht Hs IH]; intros fuel b H; [by exists fuel|].
  destruct (IH _ _ H) as [fuel' H']. exists (S fuel'). cbn. by rewrite Ht.
Qed.
Lemma loop_deterministic fuel fuel' v b b' :
  validator_loop fuel v = Some b -> validator_loop fuel' v = Some b' -> b = b'.
Proof.
  intros H H'. apply (loop_more _ fuel') in H. apply (loop_more _ fuel) in H'.
  rewrite Nat.add_comm in H'. congruence.
Qed.

(** Member names are compared decoded: the second text repeats the name [a]. *)
Definition sample_text : list Z :=
  [123; 34; 97; 34; 58; 91; 49; 44; 45; 50; 46; 53; 101; 51; 93; 44; 10; 32; 34; 98; 34; 58; 123; 125; 125].
Definition duplicate_text : list Z :=
  [123; 34; 97; 34; 58; 49; 44; 34; 92; 117; 48; 48; 54; 49; 34; 58; 50; 125].
Example sample_texts :
  validateJsonText sample_text = Some true /\ validateJsonText duplicate_text = Some false.
Proof. by vm_compute. Qed.

(** * Properties *)

(** Termination.  The validator's endless loop always ends: each turn that goes on has
    read at least one code unit, so a budget of one turn more than the text has code units
    is enough, and a larger one gives the same answer. *)
Theorem validator_terminates (text : list Z) (fuel : nat) :
  (List.length text < fuel)%nat ->
  exists accepted, validator_loop fuel (start text) = Some accepted
                   /\ validateJsonText text = Some accepted.
Proof.
  intros Hf. destruct (validateJsonText text) as [b|] eqn:E.
  - exists b. split; [|done]. unfold validateJsonText in E.
    replace fuel with (S (List.length text) + (fuel - S (List.length text)))%nat by lia.
    by apply loop_more.
  - by apply loop_returns in E; [|cbn; lia].
Qed.

Lemma validator_terminates_witness :
  exists accepted, validator_loop 40 (start duplicate_text) = Some accepted
                   /\ validateJsonText duplicate_text = Some accepted.
Proof. apply (validator_terminates duplicate_text 40). cbn. lia. Defined.

(** C32: the automaton is a JSON recognizer.  The hand-written validator accepts exactly the
    texts of the JSON grammar (RFC 8259: strings with their escapes, numbers, literals,
    arrays, objects, insignificant white space) whose arrays and objects nest at most 64
    deep, which hold at most 10,000 values, and in which no object repeats a member name,
    where names are compared after their escapes are decoded. *)
Theorem validateJsonText_iff (text : list Z) :
  validateJsonText text = Some true <-> json_text text.
Proof.
  split.
  - intros H. apply loop_sound in H as (n & [_ (w & raw & l & E & Hw & Hl & Hv)] & Hn); [|done|cbn; lia].
    exists w, raw, l, n. cbn in E, Hn. done.
  - intros (w & v & w' & n & -> & Hw & Hw' & Hv & Hn).
    destruct (value_starts _ _ _ w' Hv) as (Hs & _ & Hne).
    destruct (proj1 grammar_complete _ _ _ Hv [] 0%nat w') as (v1 & Hc & Hst); [cbn; lia|lia| |].
    { destruct Hw' as [|c w' Hc]; [done|]. cbn. by rewrite Hc. }
    assert (validator_turn (start (w ++ v ++ w')) = Continue v1) as Ht.
    { unfold validator_turn, start. cbn [frames rest rootState nodes]. rewrite skip_space_app by done.
      unfold root_turn. rewrite bool_decide_eq_false_2; [by rewrite Hc|]. by destruct v. }
    assert (validator_loop 1 (at_state [] w' (0 + n)) = Some true) as Hend.
    { cbn. unfold validator_turn. cbn. rewrite <- (app_nil_r w'), skip_space_app by done.
      by rewrite bool_decide_eq_true_2. }
    destruct (steps_loop _ _ (steps_turn _ _ _ Ht Hst) _ _ Hend) as [fuel Hf].
    destruct (validateJsonText (w ++ v ++ w')) as [b|] eqn:E.
    + f_equal. by eapply loop_deterministic.
    + by apply loop_returns in E; [|cbn; lia].
Qed.
