(* ===== verification/Qualification.v ===== *)
(** Qualification reports as the paper ledger reads them: the types of
    [src/src/domain/qualification.ts] and the checks of
    [src/src/paper/paper-trading-engine.ts] that a report is coherent with the
    active profile and with the quotes of the command.

    The [observed] and [thresholds] records of a condition are plain objects; they
    are lists of members with distinct keys. *)
From S2P Require Import Prelude Text Types JsonCodec.
From Stdlib Require Import String.
Local Open Scope string_scope.
Local Open Scope list_scope.
Local Open Scope Z_scope.

(** * Types *)

(** src/src/domain/qualification-reasons.ts:1-18 (QualificationReasonCode) *)
Inductive QualificationReasonCode :=
| R_CREATOR_EARLY_SELL | R_CREATOR_REPEAT_DUMPER | R_MINT_SOCIAL_MISMATCH
| R_IMPERSONATION_SUSPECTED | R_HOLDER_CONCENTRATION_EXCEEDED
| R_RELATED_WALLET_CLUSTER_EXCEEDED | R_SHARED_FUNDER_CLUSTER | R_BUY_SIMULATION_FAILED
| R_SELL_QUOTE_UNAVAILABLE | R_ROUND_TRIP_LOSS_EXCEEDED | R_STALE_DATA
| R_UNSUPPORTED_TOKEN_EXTENSION | R_METADATA_FETCH_FAILED | R_UNSUPPORTED_QUOTE_MINT.
Definition QUALIFICATION_REASON_CODES : list QualificationReasonCode :=
  [R_CREATOR_EARLY_SELL; R_CREATOR_REPEAT_DUMPER; R_MINT_SOCIAL_MISMATCH;
   R_IMPERSONATION_SUSPECTED; R_HOLDER_CONCENTRATION_EXCEEDED;
   R_RELATED_WALLET_CLUSTER_EXCEEDED; R_SHARED_FUNDER_CLUSTER; R_BUY_SIMULATION_FAILED;
   R_SELL_QUOTE_UNAVAILABLE; R_ROUND_TRIP_LOSS_EXCEEDED; R_STALE_DATA;
   R_UNSUPPORTED_TOKEN_EXTENSION; R_METADATA_FETCH_FAILED; R_UNSUPPORTED_QUOTE_MINT].
Definition reason_name (r : QualificationReasonCode) : string :=
  match r with
  | R_CREATOR_EARLY_SELL => "CREATOR_EARLY_SELL"
  | R_CREATOR_REPEAT_DUMPER => "CREATOR_REPEAT_DUMPER"
  | R_MINT_SOCIAL_MISMATCH => "MINT_SOCIAL_MISMATCH"
  | R_IMPERSONATION_SUSPECTED => "IMPERSONATION_SUSPECTED"
  | R_HOLDER_CONCENTRATION_EXCEEDED => "HOLDER_CONCENTRATION_EXCEEDED"
  | R_RELATED_WALLET_CLUSTER_EXCEEDED => "RELATED_WALLET_CLUSTER_EXCEEDED"
  | R_SHARED_FUNDER_CLUSTER => "SHARED_FUNDER_CLUSTER"
  | R_BUY_SIMULATION_FAILED => "BUY_SIMULATION_FAILED"
  | R_SELL_QUOTE_UNAVAILABLE => "SELL_QUOTE_UNAVAILABLE"
  | R_ROUND_TRIP_LOSS_EXCEEDED => "ROUND_TRIP_LOSS_EXCEEDED"
  | R_STALE_DATA => "STALE_DATA"
  | R_UNSUPPORTED_TOKEN_EXTENSION => "UNSUPPORTED_TOKEN_EXTENSION"
  | R_METADATA_FETCH_FAILED => "METADATA_FETCH_FAILED"
  | R_UNSUPPORTED_QUOTE_MINT => "UNSUPPORTED_QUOTE_MINT"
  end.

(** src/src/domain/qualification.ts:5-11 (QualificationDimension) *)
Inductive QualificationDimension := preparation | socialAuthenticity | onchainHealth.
Definition dimension_name (d : QualificationDimension) : string :=
  match d with
  | preparation => "preparation"
  | socialAuthenticity => "socialAuthenticity"
  | onchainHealth => "onchainHealth"
  end.
(** src/src/domain/qualification.ts:13-13 (QualificationEvidenceStatus) *)
Inductive QualificationEvidenceStatus := E_SATISFIED | E_NOT_SATISFIED | E_UNKNOWN.
Definition evidence_status_name (s : QualificationEvidenceStatus) : string :=
  match s with
  | E_SATISFIED => "SATISFIED"
  | E_NOT_SATISFIED => "NOT_SATISFIED"
  | E_UNKNOWN => "UNKNOWN"
  end.
(** src/src/domain/qualification.ts:12-12 (QualificationVerdict) *)
Inductive QualificationVerdict := V_QUALIFIED | V_WATCHLISTED | V_REJECTED.
(** src/src/domain/qualification.ts:15-22 (QualificationConditionMode) *)
Inductive QualificationConditionMode := M_DISABLED | M_REPORT_ONLY | M_ENFORCED.
Definition mode_name (m : QualificationConditionMode) : string :=
  match m with
  | M_DISABLED => "DISABLED"
  | M_REPORT_ONLY => "REPORT_ONLY"
  | M_ENFORCED => "ENFORCED"
  end.
(** src/src/domain/qualification.ts:24-33 (QualificationConditionStatus) *)
Inductive QualificationConditionStatus :=
| S_PASSED | S_TRIGGERED | S_UNKNOWN | S_NOT_CONFIGURED | S_DISABLED.
Definition status_name (s : QualificationConditionStatus) : string :=
  match s with
  | S_PASSED => "PASSED"
  | S_TRIGGERED => "TRIGGERED"
  | S_UNKNOWN => "UNKNOWN"
  | S_NOT_CONFIGURED => "NOT_CONFIGURED"
  | S_DISABLED => "DISABLED"
  end.
(** src/src/domain/qualification.ts:35-45 (QualificationSignalKey) *)
Inductive QualificationSignalKey :=
| imageValid | descriptionAvailable | linksReachable | socialCrossLinkConfirmed
| creatorHasNotSold | reverseQuoteAvailable | externalBuyersObserved.
Definition signal_name (s : QualificationSignalKey) : string :=
  match s with
  | imageValid => "imageValid"
  | descriptionAvailable => "descriptionAvailable"
  | linksReachable => "linksReachable"
  | socialCrossLinkConfirmed => "socialCrossLinkConfirmed"
  | creatorHasNotSold => "creatorHasNotSold"
  | reverseQuoteAvailable => "reverseQuoteAvailable"
  | externalBuyersObserved => "externalBuyersObserved"
  end.

Global Instance QualificationReasonCode_eq_dec : EqDecision QualificationReasonCode.
Proof. solve_decision. Defined.
Global Instance QualificationDimension_eq_dec : EqDecision QualificationDimension.
Proof. solve_decision. Defined.
Global Instance QualificationEvidenceStatus_eq_dec : EqDecision QualificationEvidenceStatus.
Proof. solve_decision. Defined.
Global Instance QualificationVerdict_eq_dec : EqDecision QualificationVerdict.
Proof. solve_decision. Defined.
Global Instance QualificationConditionMode_eq_dec : EqDecision QualificationConditionMode.
Proof. solve_decision. Defined.
Global Instance QualificationConditionStatus_eq_dec : EqDecision QualificationConditionStatus.
Proof. solve_decision. Defined.
Global Instance QualificationSignalKey_eq_dec : EqDecision QualificationSignalKey.
Proof. solve_decision. Defined.

(** A member of a condition's record: null, a boolean, a [bigint] or a number. *)
Inductive cond_value := CNull | CBool (b : bool) | CBig (z : Z) | CNum (z : Z).
Global Instance cond_value_eq_dec : EqDecision cond_value.
Proof. solve_decision. Defined.

(** src/src/domain/qualification.ts:93-102 (QualificationConditionPolicy) *)
Record QualificationConditionPolicy := {
  po_code : QualificationReasonCode;
  po_mode : QualificationConditionMode;
  po_maximumTop1Bps : option Z;
  po_maximumTop5Bps : option Z;
  po_maximumTop10Bps : option Z;
  po_maximumClusterBps : option Z;
  po_minimumSharedFunders : option Z;
  po_maximumRoundTripLossBps : option Z;
}.

(** src/src/domain/qualification.ts:47-53 (QualificationRule) *)
Record QualificationRule := {
  ru_signal : QualificationSignalKey;
  ru_dimension : QualificationDimension;
  ru_weight : Z;
  ru_required : bool;
  ru_message : string;
}.

(** src/src/domain/qualification.ts:55-61, 104-109 (QualificationRuleSet,
    EffectiveQualificationProfile).  [schemaVersion] is always 1. *)
Record DimensionMaximums := {
  dm_preparation : Z;
  dm_socialAuthenticity : Z;
  dm_onchainHealth : Z;
}.
Record EffectiveQualificationProfile := {
  pf_id : string;
  pf_version : Z;
  pf_status : string;
  pf_minimumTotalScore : Z;
  pf_dimensionMaximums : DimensionMaximums;
  pf_rules : list QualificationRule;
  pf_conditionPolicies : list QualificationConditionPolicy;
  pf_fingerprint : string;
}.

(** src/src/domain/qualification.ts:111-118 (QualificationConditionEvidence) *)
Record QualificationConditionEvidence := {
  cn_code : QualificationReasonCode;
  cn_mode : QualificationConditionMode;
  cn_status : QualificationConditionStatus;
  cn_observed : list (string * cond_value);
  cn_thresholds : list (string * cond_value);
  cn_message : string;
}.

(** src/src/domain/qualification.ts:354-361 (QualificationEvidence) *)
Record QualificationEvidence := {
  qe_signal : QualificationSignalKey;
  qe_dimension : QualificationDimension;
  qe_status : QualificationEvidenceStatus;
  qe_required : bool;
  qe_weight : Z;
  qe_message : string;
}.
(** src/src/domain/qualification.ts:363-366 (QualificationScore) *)
Record QualificationScore := { sc_score : Z; sc_maximum : Z }.
(** src/src/domain/qualification.ts:375-378 (QualificationBlocker) *)
Record QualificationBlocker := { bl_code : QualificationReasonCode; bl_message : string }.

(** src/src/domain/qualification.ts:368-389 (QualificationScores, QualificationReport) *)
Record QualificationReport := {
  rs_id : string;
  rs_version : Z;
  rs_status : string;
  rs_fingerprint : string;
  rs_minimumTotalScore : Z;
  qr_preparation : QualificationScore;
  qr_socialAuthenticity : QualificationScore;
  qr_onchainHealth : QualificationScore;
  qr_total : QualificationScore;
  qr_evidence : list QualificationEvidence;
  qr_conditions : list QualificationConditionEvidence;
  qr_blockers : list QualificationBlocker;
  qr_verdict : QualificationVerdict;
  qr_evaluatedAtMs : Z;
}.

(** * Snapshots of condition records *)

(** [record[key]], undefined when there is no such member. *)
Definition lookup_member {A} (l : list (string * A)) (key : string) : option A :=
  snd ∘ snd <$> list_find (fun kv => fst kv = key) l.

(** src/src/paper/paper-trading-engine.ts:885-907 (isNullableBasisPoints and the
    other value checks) *)
Definition isNullableBasisPoints (v : cond_value) : bool :=
  match v with
  | CNull => true
  | CBig z => (0 <=? z) && (z <=? 10000)
  | _ => false
  end.
Definition isSafeInteger (v : cond_value) (minimum maximum : Z) : bool :=
  match v with
  | CNum z => is_safe_integer z && (minimum <=? z) && (z <=? maximum)
  | _ => false
  end.
Definition isNullableSharedFunderCount (v : cond_value) : bool :=
  match v with
  | CNull => true
  | _ => isSafeInteger v 0 MAX_SAFE_INTEGER
  end.
Definition isNullableMinimumSharedFunders (v : cond_value) : bool :=
  match v with
  | CNull => true
  | _ => isSafeInteger v 1 10000
  end.
Definition isNullableBoolean (v : cond_value) : bool :=
  match v with
  | CNull | CBool _ => true
  | _ => false
  end.

(** src/src/paper/paper-trading-engine.ts:857-866, 877-879
    (observedConditionValueIsValid) *)
Definition observedConditionValueIsValid (key : string) (v : cond_value) : bool :=
  match lookup_member
    [("top1HolderBps", isNullableBasisPoints); ("top5HoldersBps", isNullableBasisPoints);
     ("top10HoldersBps", isNullableBasisPoints);
     ("maximumRelatedClusterBps", isNullableBasisPoints);
     ("maximumSharedFunderCount", isNullableSharedFunderCount);
     ("buySimulationSucceeded", isNullableBoolean); ("sellQuoteAvailable", isNullableBoolean);
     ("roundTripLossBps", isNullableBasisPoints)] key with
  | Some f => f v
  | None => false
  end.

(** src/src/paper/paper-trading-engine.ts:868-883 (thresholdConditionValueIsValid) *)
Definition thresholdConditionValueIsValid (key : string) (v : cond_value) : bool :=
  match lookup_member
    [("maximumTop1Bps", isNullableBasisPoints); ("maximumTop5Bps", isNullableBasisPoints);
     ("maximumTop10Bps", isNullableBasisPoints); ("maximumClusterBps", isNullableBasisPoints);
     ("minimumSharedFunders", isNullableMinimumSharedFunders);
     ("maximumRoundTripLossBps", isNullableBasisPoints)] key with
  | Some f => f v
  | None => false
  end.

(** src/src/paper/paper-trading-engine.ts:909-942 (conditionRecordKeys) *)
Definition observed_keys (c : QualificationConditionEvidence) : list string :=
  if bool_decide (cn_status c = S_DISABLED) then [] else
  match cn_code c with
  | R_HOLDER_CONCENTRATION_EXCEEDED => ["top1HolderBps"; "top5HoldersBps"; "top10HoldersBps"]
  | R_RELATED_WALLET_CLUSTER_EXCEEDED => ["maximumRelatedClusterBps"]
  | R_SHARED_FUNDER_CLUSTER => ["maximumSharedFunderCount"]
  | R_BUY_SIMULATION_FAILED => ["buySimulationSucceeded"]
  | R_SELL_QUOTE_UNAVAILABLE => ["sellQuoteAvailable"]
  | R_ROUND_TRIP_LOSS_EXCEEDED => ["roundTripLossBps"]
  | _ => []
  end.
Definition threshold_keys (c : QualificationConditionEvidence) : list string :=
  if bool_decide (cn_status c = S_DISABLED) then [] else
  match cn_code c with
  | R_HOLDER_CONCENTRATION_EXCEEDED => ["maximumTop1Bps"; "maximumTop5Bps"; "maximumTop10Bps"]
  | R_RELATED_WALLET_CLUSTER_EXCEEDED => ["maximumClusterBps"]
  | R_SHARED_FUNDER_CLUSTER => ["minimumSharedFunders"]
  | R_ROUND_TRIP_LOSS_EXCEEDED => ["maximumRoundTripLossBps"]
  | _ => []
  end.

(** src/src/paper/paper-trading-engine.ts:824-853 (snapshotConditionRecord): the
    members in the order of the expected keys. *)
Definition snapshotConditionRecord (value : list (string * cond_value)) (expectedKeys : list string)
    (validValue : string -> cond_value -> bool) : result exn (list (string * cond_value)) :=
  throw_if (negb (List.length value =? List.length expectedKeys)%nat
            || negb (forallb (fun k => bool_decide (is_Some (lookup_member value k))) expectedKeys))
    (TypeError "Qualification condition record keys are invalid.") ;;
  traverse (fun key =>
    match lookup_member value key with
    | Some v =>
        if validValue key v then Ok (key, v)
        else Err (TypeError "Qualification condition records must contain enumerable data values.")
    | None => Err (TypeError "Qualification condition records must contain enumerable data values.")
    end) expectedKeys.

(** src/src/paper/paper-trading-engine.ts:799-814 (snapshotQualification): a condition. *)
Definition snapshot_condition (c : QualificationConditionEvidence)
    : result exn QualificationConditionEvidence :=
  observed ← snapshotConditionRecord (cn_observed c) (observed_keys c) observedConditionValueIsValid;
  thresholds ← snapshotConditionRecord (cn_thresholds c) (threshold_keys c)
                 thresholdConditionValueIsValid;
  Ok {| cn_code := cn_code c; cn_mode := cn_mode c; cn_status := cn_status c;
        cn_observed := observed; cn_thresholds := thresholds; cn_message := cn_message c |}.

(** src/src/paper/paper-trading-engine.ts:772-822 (snapshotQualification): a copy;
    only the conditions' records are checked. *)
Definition snapshotQualification (r : QualificationReport) : result exn QualificationReport :=
  conditions ← traverse snapshot_condition (qr_conditions r);
  Ok {| rs_id := rs_id r; rs_version := rs_version r; rs_status := rs_status r;
        rs_fingerprint := rs_fingerprint r; rs_minimumTotalScore := rs_minimumTotalScore r;
        qr_preparation := qr_preparation r; qr_socialAuthenticity := qr_socialAuthenticity r;
        qr_onchainHealth := qr_onchainHealth r; qr_total := qr_total r;
        qr_evidence := qr_evidence r; qr_conditions := conditions;
        qr_blockers := qr_blockers r; qr_verdict := qr_verdict r;
        qr_evaluatedAtMs := qr_evaluatedAtMs r |}.

(** * Coherence with the profile *)

(** src/src/paper/paper-trading-engine.ts:1016-1021 (invalidQualification) *)
Definition invalidQualification : exn := PaperTradingError QUALIFICATION_INVALID "".
(** src/src/paper/paper-trading-engine.ts:1023-1028 (roundTripLossExceeded) *)
Definition roundTripLossExceeded (lossBps : Z) : exn :=
  PaperTradingError PT_ROUND_TRIP_LOSS_EXCEEDED (to_decimal lossBps).

(** src/src/paper/paper-trading-engine.ts:667-669 (nullableBigInt) *)
Definition nullableBigInt (v : option Z) : cond_value :=
  match v with
  | Some z => CBig z
  | None => CNull
  end.

(** src/src/paper/paper-trading-engine.ts:645-665 (expectedPolicyThresholds) *)
Definition expectedPolicyThresholds (p : QualificationConditionPolicy) : list (string * cond_value) :=
  if bool_decide (po_mode p = M_DISABLED) then [] else
  match po_code p with
  | R_HOLDER_CONCENTRATION_EXCEEDED =>
      [("maximumTop1Bps", nullableBigInt (po_maximumTop1Bps p));
       ("maximumTop5Bps", nullableBigInt (po_maximumTop5Bps p));
       ("maximumTop10Bps", nullableBigInt (po_maximumTop10Bps p))]
  | R_RELATED_WALLET_CLUSTER_EXCEEDED =>
      [("maximumClusterBps", nullableBigInt (po_maximumClusterBps p))]
  | R_SHARED_FUNDER_CLUSTER =>
      [("minimumSharedFunders", match po_minimumSharedFunders p with
                                | Some z => CNum z
                                | None => CNull
                                end)]
  | R_ROUND_TRIP_LOSS_EXCEEDED =>
      [("maximumRoundTripLossBps", nullableBigInt (po_maximumRoundTripLossBps p))]
  | _ => []
  end.

(** src/src/paper/paper-trading-engine.ts:634-643 (matchesPolicyThresholds) *)
Definition matchesPolicyThresholds (c : QualificationConditionEvidence)
    (p : QualificationConditionPolicy) : bool :=
  let expected := expectedPolicyThresholds p in
  (List.length (cn_thresholds c) =? List.length expected)%nat &&
  forallb (fun kv => bool_decide (lookup_member (cn_thresholds c) (fst kv) = Some (snd kv))) expected.

(** [new Map(list.map((x) => [key(x), x])).get(k)]: the last entry wins. *)
Definition map_get {A K} `{!EqDecision K} (key : A -> K) (l : list A) (k : K) : option A :=
  snd <$> list_find (fun x => key x = k) (rev l).

Definition same_disabled (c : QualificationConditionEvidence) : bool :=
  Bool.eqb (bool_decide (cn_mode c = M_DISABLED)) (bool_decide (cn_status c = S_DISABLED)).

(** src/src/paper/paper-trading-engine.ts:572-588: the loop over the reason codes;
    it returns the enforced triggers, in order. *)
Fixpoint check_conditions (policies : list QualificationConditionPolicy)
    (codes : list QualificationReasonCode) (conditions : list QualificationConditionEvidence)
    : result exn (list QualificationReasonCode) :=
  match codes with
  | [] => Ok []
  | code :: codes =>
      match conditions with
      | [] => Err invalidQualification
      | c :: conditions =>
          match map_get po_code policies (cn_code c) with
          | None => Err invalidQualification
          | Some policy =>
              throw_if (negb (bool_decide (cn_code c = code)) || negb (same_disabled c)
                        || negb (bool_decide (cn_mode c = po_mode policy))
                        || negb (matchesPolicyThresholds c policy)) invalidQualification ;;
              rest ← check_conditions policies codes conditions;
              Ok (if bool_decide (cn_mode c = M_ENFORCED) && bool_decide (cn_status c = S_TRIGGERED)
                  then cn_code c :: rest else rest)
          end
      end
  end.

(** src/src/paper/paper-trading-engine.ts:557-598 (validateQualificationReport) *)
Definition validateQualificationReport (r : QualificationReport) (p : EffectiveQualificationProfile)
    : result exn unit :=
  throw_if (negb (bool_decide (rs_id r = pf_id p)) || negb (rs_version r =? pf_version p)
            || negb (bool_decide (rs_status r = pf_status p))
            || negb (bool_decide (rs_fingerprint r = pf_fingerprint p))
            || negb (rs_minimumTotalScore r =? pf_minimumTotalScore p)) invalidQualification ;;
  throw_if (negb (List.length (qr_conditions r) =? List.length QUALIFICATION_REASON_CODES)%nat)
    invalidQualification ;;
  triggers ← check_conditions (pf_conditionPolicies p) QUALIFICATION_REASON_CODES (qr_conditions r);
  throw_if (negb (bool_decide (map bl_code (qr_blockers r) = triggers))) invalidQualification ;;
  throw_if (negb (Bool.eqb (bool_decide (qr_verdict r = V_REJECTED))
                    (0 <? List.length triggers)%nat)) invalidQualification.

(** src/src/paper/paper-trading-engine.ts:600-632 (validateQualificationExecutionFacts) *)
Definition validateQualificationExecutionFacts (r : QualificationReport) (roundTripLossBps : Z)
    (p : EffectiveQualificationProfile) : result exn unit :=
  let condition := map_get cn_code (qr_conditions r) in
  let policy := map_get po_code (pf_conditionPolicies p) in
  let observed code key := c ← condition code; lookup_member (cn_observed c) key in
  match policy R_BUY_SIMULATION_FAILED, policy R_SELL_QUOTE_UNAVAILABLE,
        policy R_ROUND_TRIP_LOSS_EXCEEDED with
  | Some buyPolicy, Some sellPolicy, Some roundTripPolicy =>
      throw_if (bool_decide (po_mode buyPolicy = M_ENFORCED) &&
                negb (bool_decide (observed R_BUY_SIMULATION_FAILED "buySimulationSucceeded"
                                   = Some (CBool true)))) invalidQualification ;;
      throw_if (bool_decide (po_mode sellPolicy = M_ENFORCED) &&
                negb (bool_decide (observed R_SELL_QUOTE_UNAVAILABLE "sellQuoteAvailable"
                                   = Some (CBool true)))) invalidQualification ;;
      if bool_decide (po_mode roundTripPolicy = M_ENFORCED) then
        throw_if (negb (bool_decide (observed R_ROUND_TRIP_LOSS_EXCEEDED "roundTripLossBps"
                                     = Some (CBig roundTripLossBps)))) invalidQualification ;;
        match po_maximumRoundTripLossBps roundTripPolicy with
        | None => Err invalidQualification
        | Some maximum =>
            throw_if (maximum <? roundTripLossBps) (roundTripLossExceeded roundTripLossBps)
        end
      else Ok tt
  | _, _, _ => Err invalidQualification
  end.
