(* ===== verification/QualificationProfile.v ===== *)
(** [src/src/qualification/qualification-profile.ts]: reading a qualification profile
    from an untyped value, its fingerprint, and the check that a profile is one the
    loader would have made.

    Every failure of the module is [PROFILE_SCHEMA_INVALID], so a reader is a partial
    function and [None] is a throw. *)
From S2P Require Import Prelude Text Types Json JsValue JsonCodec Qualification.
From Stdlib Require Import Ascii String.
From stdpp Require Import sorting.
Local Open Scope string_scope.
Local Open Scope list_scope.
Local Open Scope Z_scope.

(** * Readers *)

(** src/src/qualification/qualification-profile.ts:22-29 *)
Definition TOP_LEVEL_FIELDS : list string :=
  ["schemaVersion"; "id"; "version"; "status"; "minimumTotalScore"; "dimensionMaximums"; "rules";
   "conditionPolicies"].
Definition EFFECTIVE_PROFILE_FIELDS : list string :=
  ["schemaVersion"; "fingerprint"; "id"; "version"; "status"; "minimumTotalScore";
   "dimensionMaximums"; "rules"; "conditionPolicies"].
Definition RULE_FIELDS : list string := ["signal"; "dimension"; "weight"; "required"; "message"].
Definition POLICY_FIELDS : list string :=
  ["code"; "mode"; "maximumTop1Bps"; "maximumTop5Bps"; "maximumTop10Bps"; "maximumClusterBps";
   "minimumSharedFunders"; "maximumRoundTripLossBps"].
Definition MODES : list (string * QualificationConditionMode) :=
  map (fun m => (mode_name m, m)) [M_DISABLED; M_REPORT_ONLY; M_ENFORCED].
Definition QUALIFICATION_DIMENSIONS : list QualificationDimension :=
  [preparation; socialAuthenticity; onchainHealth].
Definition DIMENSIONS : list (string * QualificationDimension) :=
  map (fun d => (dimension_name d, d)) QUALIFICATION_DIMENSIONS.
Definition QUALIFICATION_SIGNAL_KEYS : list QualificationSignalKey :=
  [imageValid; descriptionAvailable; linksReachable; socialCrossLinkConfirmed; creatorHasNotSold;
   reverseQuoteAvailable; externalBuyersObserved].
Definition SIGNALS : list (string * QualificationSignalKey) :=
  map (fun s => (signal_name s, s)) QUALIFICATION_SIGNAL_KEYS.
Definition REASONS : list (string * QualificationReasonCode) :=
  map (fun r => (reason_name r, r)) QUALIFICATION_REASON_CODES.

(** src/src/qualification/qualification-profile.ts:238-253 (exactObject) *)
Definition exactObject (v : js) (expected : list string) : option record :=
  if isFrozenPlainObject v then exactRecord v expected else None.

(** src/src/qualification/qualification-profile.ts:255-267 (exactArray) *)
Definition exactArray (v : js) : option (list js) :=
  match v with
  | JArray false true true items => mapM descriptor_value items
  | _ => None
  end.

(** src/src/qualification/qualification-profile.ts:269-272 (safeInteger) *)
Definition safeInteger (v : js) (minimum maximum : Z) : option Z :=
  match v with
  | JNumber (NumInt z) =>
      if is_safe_integer z && (minimum <=? z) && (z <=? maximum) then Some z else None
  | _ => None
  end.

(** src/src/qualification/qualification-profile.ts:273-274 (nullableBps, nullablePositive) *)
Definition nullableInteger (v : js) (minimum maximum : Z) : option (option Z) :=
  match v with
  | JNull => Some None
  | _ => z ← safeInteger v minimum maximum; Some (Some z)
  end.
Definition nullableBps (v : js) : option (option Z) := nullableInteger v 0 10000.
Definition nullablePositive (v : js) : option (option Z) := nullableInteger v 1 10000.

(** src/src/qualification/qualification-profile.ts:279-285 (hasControlCharacter).  Bytes
    of a longer UTF-8 sequence are above 127. *)
Definition hasControlCharacter (s : string) : bool :=
  existsb (fun c => (nat_of_ascii c <=? 31)%nat || (nat_of_ascii c =? 127)%nat) (chars s).

(** src/src/qualification/qualification-profile.ts:275-278 (boundedString) *)
Definition boundedString (v : js) (minimum maximum : Z) : option string :=
  match v with
  | JString s =>
      if (utf16_length s <? minimum) || (maximum <? utf16_length s)
         || negb (bool_decide (trim s = s)) || hasControlCharacter s
      then None else Some s
  | _ => None
  end.

(** * Rules, maxima and policies *)

(** src/src/qualification/qualification-profile.ts:181-189 (parseMaximums) *)
Definition parseMaximums (v : js) : option DimensionMaximums :=
  fields ← exactObject v (map dimension_name QUALIFICATION_DIMENSIONS);
  p ← safeInteger (field fields "preparation") 15 15;
  s ← safeInteger (field fields "socialAuthenticity") 25 25;
  o ← safeInteger (field fields "onchainHealth") 60 60;
  Some {| dm_preparation := p; dm_socialAuthenticity := s; dm_onchainHealth := o |}.
(** [maxima[dimension]] *)
Definition maximum_of (m : DimensionMaximums) (d : QualificationDimension) : Z :=
  match d with
  | preparation => dm_preparation m
  | socialAuthenticity => dm_socialAuthenticity m
  | onchainHealth => dm_onchainHealth m
  end.

(** src/src/qualification/qualification-profile.ts:195-204 (parseRules): an entry. *)
Definition ruleFrom (v : js) : option QualificationRule :=
  fields ← exactObject v RULE_FIELDS;
  signal ← enumValue SIGNALS (field fields "signal");
  dimension ← enumValue DIMENSIONS (field fields "dimension");
  weight ← safeInteger (field fields "weight") 0 100;
  required ← booleanValue (field fields "required");
  message ← boundedString (field fields "message") 1 280;
  Some {| ru_signal := signal; ru_dimension := dimension; ru_weight := weight;
          ru_required := required; ru_message := message |}.

(** The weights of one dimension. *)
Definition weight_in (d : QualificationDimension) (l : list QualificationRule) : Z :=
  foldr (fun r n => if bool_decide (ru_dimension r = d) then ru_weight r + n else n) 0 l.

(** src/src/qualification/qualification-profile.ts:191-206 (parseRules): the checked
    rules in the order they are given in. *)
Definition rulesFrom (v : js) (maxima : DimensionMaximums) : option (list QualificationRule) :=
  entries ← exactArray v;
  rules ← mapM ruleFrom entries;
  if all_distinct (map ru_signal rules)
     && forallb (fun d => weight_in d rules =? maximum_of maxima d) QUALIFICATION_DIMENSIONS
  then Some rules else None.

(** [localeCompare] on the signal names, whose first letters differ. *)
Definition signal_rank (s : QualificationSignalKey) : nat :=
  match s with
  | creatorHasNotSold => 0
  | descriptionAvailable => 1
  | externalBuyersObserved => 2
  | imageValid => 3
  | linksReachable => 4
  | reverseQuoteAvailable => 5
  | socialCrossLinkConfirmed => 6
  end%nat.
Definition rule_le (a b : QualificationRule) : Prop :=
  (signal_rank (ru_signal a) <= signal_rank (ru_signal b))%nat.
Global Instance rule_le_dec : RelDecision rule_le.
Proof. unfold rule_le. solve_decision. Defined.

(** src/src/qualification/qualification-profile.ts:207-207 (parseRules): the sort. *)
Definition sort_rules (l : list QualificationRule) : list QualificationRule := merge_sort rule_le l.

(** src/src/qualification/qualification-profile.ts:230-236 (validatePolicyThresholds) *)
Definition validatePolicyThresholds (p : QualificationConditionPolicy) : bool :=
  let holder := bool_decide (po_code p = R_HOLDER_CONCENTRATION_EXCEEDED) in
  let related := bool_decide (po_code p = R_RELATED_WALLET_CLUSTER_EXCEEDED) in
  let shared := bool_decide (po_code p = R_SHARED_FUNDER_CLUSTER) in
  let loss := bool_decide (po_code p = R_ROUND_TRIP_LOSS_EXCEEDED) in
  let set (o : option Z) := bool_decide (o <> None) in
  negb ((negb holder && (set (po_maximumTop1Bps p) || set (po_maximumTop5Bps p)
                         || set (po_maximumTop10Bps p)))
        || (negb related && set (po_maximumClusterBps p))
        || (negb shared && set (po_minimumSharedFunders p))
        || (negb loss && set (po_maximumRoundTripLossBps p))
        || (shared && negb (set (po_minimumSharedFunders p)))
        || (loss && negb (set (po_maximumRoundTripLossBps p)))).

(** src/src/qualification/qualification-profile.ts:214-225 (parsePolicies): an entry. *)
Definition policyFrom (v : js) : option QualificationConditionPolicy :=
  fields ← exactObject v POLICY_FIELDS;
  code ← enumValue REASONS (field fields "code");
  mode ← enumValue MODES (field fields "mode");
  top1 ← nullableBps (field fields "maximumTop1Bps");
  top5 ← nullableBps (field fields "maximumTop5Bps");
  top10 ← nullableBps (field fields "maximumTop10Bps");
  cluster ← nullableBps (field fields "maximumClusterBps");
  funders ← nullablePositive (field fields "minimumSharedFunders");
  loss ← nullableBps (field fields "maximumRoundTripLossBps");
  let policy :=
    {| po_code := code; po_mode := mode; po_maximumTop1Bps := top1; po_maximumTop5Bps := top5;
       po_maximumTop10Bps := top10; po_maximumClusterBps := cluster;
       po_minimumSharedFunders := funders; po_maximumRoundTripLossBps := loss |} in
  if validatePolicyThresholds policy then Some policy else None.

(** src/src/qualification/qualification-profile.ts:210-226 (parsePolicies): the checked
    policies in the order they are given in. *)
Definition policiesFrom (v : js) : option (list QualificationConditionPolicy) :=
  entries ← exactArray v;
  if negb (List.length entries =? List.length QUALIFICATION_REASON_CODES)%nat then None else
  policies ← mapM policyFrom entries;
  if all_distinct (map po_code policies) then Some policies else None.

(** [QUALIFICATION_REASON_CODES.indexOf(code)] *)
Definition reason_rank (r : QualificationReasonCode) : nat :=
  match list_find (eq r) QUALIFICATION_REASON_CODES with
  | Some (i, _) => i
  | None => 0
  end.
Definition policy_le (a b : QualificationConditionPolicy) : Prop :=
  (reason_rank (po_code a) <= reason_rank (po_code b))%nat.
Global Instance policy_le_dec : RelDecision policy_le.
Proof. unfold policy_le. solve_decision. Defined.

(** src/src/qualification/qualification-profile.ts:227-227 (parsePolicies): the sort. *)
Definition sort_policies (l : list QualificationConditionPolicy) : list QualificationConditionPolicy :=
  merge_sort policy_le l.

(** * Fingerprint *)

Definition optional_int (o : option Z) : JsonCodec.data :=
  match o with
  | Some z => DInt z
  | None => DNull
  end.
Definition rule_data (r : QualificationRule) : JsonCodec.data :=
  DObj [("signal", DStr (signal_name (ru_signal r)));
        ("dimension", DStr (dimension_name (ru_dimension r))); ("weight", DInt (ru_weight r));
        ("required", DBool (ru_required r)); ("message", DStr (ru_message r))].
Definition policy_data (p : QualificationConditionPolicy) : JsonCodec.data :=
  DObj [("code", DStr (reason_name (po_code p))); ("mode", DStr (mode_name (po_mode p)));
        ("maximumTop1Bps", optional_int (po_maximumTop1Bps p));
        ("maximumTop5Bps", optional_int (po_maximumTop5Bps p));
        ("maximumTop10Bps", optional_int (po_maximumTop10Bps p));
        ("maximumClusterBps", optional_int (po_maximumClusterBps p));
        ("minimumSharedFunders", optional_int (po_minimumSharedFunders p));
        ("maximumRoundTripLossBps", optional_int (po_maximumRoundTripLossBps p))].
Definition maximums_data (m : DimensionMaximums) : JsonCodec.data :=
  DObj [("preparation", DInt (dm_preparation m));
        ("socialAuthenticity", DInt (dm_socialAuthenticity m));
        ("onchainHealth", DInt (dm_onchainHealth m))].

(** src/src/qualification/qualification-profile.ts:143-143, 164-164 (withoutFingerprint,
    canonical) *)
Definition profile_data (p : EffectiveQualificationProfile) : JsonCodec.data :=
  DObj [("schemaVersion", DInt 1); ("id", DStr (pf_id p)); ("version", DInt (pf_version p));
        ("status", DStr (pf_status p)); ("minimumTotalScore", DInt (pf_minimumTotalScore p));
        ("dimensionMaximums", maximums_data (pf_dimensionMaximums p));
        ("rules", DArr (map rule_data (pf_rules p)));
        ("conditionPolicies", DArr (map policy_data (pf_conditionPolicies p)))].

(** The profile with its rules and policies in canonical order. *)
Definition canonical_profile (p : EffectiveQualificationProfile) (fingerprint : string)
    : EffectiveQualificationProfile :=
  {| pf_id := pf_id p; pf_version := pf_version p; pf_status := pf_status p;
     pf_minimumTotalScore := pf_minimumTotalScore p;
     pf_dimensionMaximums := pf_dimensionMaximums p; pf_rules := sort_rules (pf_rules p);
     pf_conditionPolicies := sort_policies (pf_conditionPolicies p);
     pf_fingerprint := fingerprint |}.

(** * Profiles *)

Definition UNVALIDATED_RULE_SET : string := "UNVALIDATED_RULE_SET".

(** src/src/qualification/qualification-profile.ts:133-142 (parseQualificationProfile):
    the fields both readers read, in the order they are given in. *)
Definition readProfile (raw : record) (minimumTotalScore : js) (fingerprint : string)
    : option EffectiveQualificationProfile :=
  match field raw "schemaVersion", field raw "status" with
  | JNumber (NumInt 1), JString status =>
      if negb (bool_decide (status = UNVALIDATED_RULE_SET)) then None else
      id ← boundedString (field raw "id") 1 160;
      version ← safeInteger (field raw "version") 1 MAX_SAFE_INTEGER;
      minimum ← safeInteger minimumTotalScore 0 100;
      maximums ← parseMaximums (field raw "dimensionMaximums");
      rules ← rulesFrom (field raw "rules") maximums;
      policies ← policiesFrom (field raw "conditionPolicies");
      Some {| pf_id := id; pf_version := version; pf_status := status;
              pf_minimumTotalScore := minimum; pf_dimensionMaximums := maximums;
              pf_rules := rules; pf_conditionPolicies := policies;
              pf_fingerprint := fingerprint |}
  | _, _ => None
  end.

Section Fingerprint.
Context `{Sha256}.

(** src/src/qualification/qualification-profile.ts:144-144, 165-165: the digest of the
    canonical text; a text over the limits of the serializer is a throw. *)
Definition profile_fingerprint (p : EffectiveQualificationProfile) : option string :=
  match canonicalStringifyJson (profile_data (canonical_profile p "")) with
  | Ok text => Some (sha256_hex text)
  | Err _ => None
  end.

(** src/src/qualification/qualification-profile.ts:131-150 (parseQualificationProfile) *)
Definition parsed_profile (rawProfile minimumScoreOverride : js)
    : option EffectiveQualificationProfile :=
  raw ← exactObject rawProfile TOP_LEVEL_FIELDS;
  p ← readProfile raw (match minimumScoreOverride with
                       | JNull => field raw "minimumTotalScore"
                       | _ => minimumScoreOverride
                       end) "";
  fingerprint ← profile_fingerprint p;
  Some (canonical_profile p fingerprint).
Definition parseQualificationProfile (rawProfile minimumScoreOverride : js)
    : result exn EffectiveQualificationProfile :=
  match parsed_profile rawProfile minimumScoreOverride with
  | Some p => Ok p
  | None => Err (QualificationProfileError PROFILE_SCHEMA_INVALID)
  end.

(** src/src/qualification/qualification-profile.ts:152-171
    (assertValidEffectiveQualificationProfile): the profile it accepts, as it is given. *)
Definition effectiveProfileFrom (profile : js) : option EffectiveQualificationProfile :=
  raw ← exactObject profile EFFECTIVE_PROFILE_FIELDS;
  given ← fingerprintFrom (field raw "fingerprint");
  p ← readProfile raw (field raw "minimumTotalScore") given;
  fingerprint ← profile_fingerprint p;
  if bool_decide (given = fingerprint) then Some p else None.
Definition assertValidEffectiveQualificationProfile (profile : js) : result exn unit :=
  match effectiveProfileFrom profile with
  | Some _ => Ok tt
  | None => Err (QualificationProfileError PROFILE_SCHEMA_INVALID)
  end.
End Fingerprint.

(** * What a profile that is accepted satisfies *)

Definition printable (s : string) (minimum maximum : Z) : bool :=
  bool_decide (boundedString (JString s) minimum maximum = Some s).
Definition valid_bps (o : option Z) (minimum : Z) : Prop :=
  match o with
  | Some z => minimum <= z <= 10000
  | None => True
  end.

Record valid_rule (r : QualificationRule) : Prop := {
  vr_weight : 0 <= ru_weight r <= 100;
  vr_message : printable (ru_message r) 1 280 = true;
}.
Record valid_policy (p : QualificationConditionPolicy) : Prop := {
  vp_top1 : valid_bps (po_maximumTop1Bps p) 0;
  vp_top5 : valid_bps (po_maximumTop5Bps p) 0;
  vp_top10 : valid_bps (po_maximumTop10Bps p) 0;
  vp_cluster : valid_bps (po_maximumClusterBps p) 0;
  vp_funders : valid_bps (po_minimumSharedFunders p) 1;
  vp_loss : valid_bps (po_maximumRoundTripLossBps p) 0;
  vp_thresholds : validatePolicyThresholds p = true;
}.
Record valid_profile (p : EffectiveQualificationProfile) : Prop := {
  vf_id : printable (pf_id p) 1 160 = true;
  vf_version : 1 <= pf_version p <= MAX_SAFE_INTEGER;
  vf_status : pf_status p = UNVALIDATED_RULE_SET;
  vf_minimum : 0 <= pf_minimumTotalScore p <= 100;
  vf_maximums : pf_dimensionMaximums p
    = {| dm_preparation := 15; dm_socialAuthenticity := 25; dm_onchainHealth := 60 |};
  vf_rules : Forall valid_rule (pf_rules p);
  vf_signals : NoDup (map ru_signal (pf_rules p));
  vf_weights : forall d, weight_in d (pf_rules p) = maximum_of (pf_dimensionMaximums p) d;
  vf_policies : Forall valid_policy (pf_conditionPolicies p);
  vf_count : List.length (pf_conditionPolicies p) = 14%nat;
  vf_codes : NoDup (map po_code (pf_conditionPolicies p));
}.

Lemma safeInteger_Some v lo hi z :
  safeInteger v lo hi = Some z <->
  v = JNumber (NumInt z) /\ lo <= z <= hi /\ is_safe_integer z = true.
Proof.
  unfold safeInteger. destruct v as [| | |[x| |]| | | |]; try naive_solver. split.
  - destruct (_ && _) eqn:E; [|done]. intros [= ->]. apply andb_true_iff in E as [E ?].
    apply andb_true_iff in E as [? ?]. repeat split; done || lia.
  - intros ([= ->] & Hb & ->). cbn. by replace ((lo <=? z) && (z <=? hi)) with true by lia.
Qed.
Lemma boundedString_Some v lo hi s :
  boundedString v lo hi = Some s <-> v = JString s /\ printable s lo hi = true.
Proof.
  unfold printable. rewrite bool_decide_eq_true. destruct v; cbn; split; try naive_solver.
  - destruct (_ || _) eqn:E; [done|]. intros [= ->]. split; [done|]. by rewrite E.
Qed.
Lemma nullableInteger_Some v lo o : nullableInteger v lo 10000 = Some o -> valid_bps o lo.
Proof.
  assert ((z ← safeInteger v lo 10000; Some (Some z)) = Some o -> valid_bps o lo) as Hnum.
  { intros H. apply bind_Some in H as (z & Hz & [= <-]). apply safeInteger_Some in Hz as (_ & Hz & _). exact Hz. }
  unfold nullableInteger. destruct v; try exact Hnum. by intros [= <-].
Qed.
Lemma mapM_all {A B} (f : A -> option B) (P : B -> Prop) l ys :
  (forall x y, f x = Some y -> P y) -> mapM f l = Some ys -> Forall P ys.
Proof. intros Hf Hm. apply mapM_Some in Hm. induction Hm; constructor; eauto. Qed.

Lemma ruleFrom_valid v r : ruleFrom v = Some r -> valid_rule r.
Proof.
  unfold ruleFrom. intros H. option_inv. split; cbn.
  - match goal with H : safeInteger _ _ _ = Some _ |- _ => by apply safeInteger_Some in H as (_ & ? & _) end.
  - match goal with H : boundedString _ _ _ = Some _ |- _ => by apply boundedString_Some in H as [_ ?] end.
Qed.
Lemma condition_policyFrom_valid v p : policyFrom v = Some p -> valid_policy p.
Proof.
  unfold policyFrom, nullableBps, nullablePositive. intros H. option_inv.
  split; cbn; try (by eapply nullableInteger_Some); done.
Qed.
Lemma rulesFrom_valid v m l :
  rulesFrom v m = Some l ->
  Forall valid_rule l /\ NoDup (map ru_signal l) /\ forall d, weight_in d l = maximum_of m d.
Proof.
  unfold rulesFrom. intros H. option_inv. bool_prop. split_and!.
  - by eapply mapM_all; [apply ruleFrom_valid|].
  - done.
  - intros d. match goal with H : forallb _ _ = true |- _ => rename H into Hw end.
    cbn in Hw. bool_prop. by destruct d.
Qed.
Lemma policiesFrom_valid v l :
  policiesFrom v = Some l ->
  Forall valid_policy l /\ List.length l = 14%nat /\ NoDup (map po_code l).
Proof.
  unfold policiesFrom. intros H. option_inv. bool_prop. split_and!.
  - by eapply mapM_all; [apply condition_policyFrom_valid|].
  - apply length_mapM in H0. apply Nat.eqb_eq in Heqb. cbn in Heqb. lia.
  - done.
Qed.
Lemma parseMaximums_Some v m :
  parseMaximums v = Some m ->
  m = {| dm_preparation := 15; dm_socialAuthenticity := 25; dm_onchainHealth := 60 |}.
Proof.
  unfold parseMaximums. intros H. option_inv.
  repeat match goal with H : safeInteger _ _ _ = Some _ |- _ =>
    apply safeInteger_Some in H as (_ & ? & _) end. f_equal; lia.
Qed.

Lemma readProfile_valid raw minimum fp p : readProfile raw minimum fp = Some p -> valid_profile p.
Proof.
  unfold readProfile. intros H.
  destruct (field raw "schemaVersion") as [| | |[[|[]|]| |]| | | |]; try done.
  destruct (field raw "status") as [| | | | |status| |]; try done. option_inv. bool_prop.
  repeat match goal with
  | H : safeInteger _ _ _ = Some _ |- _ => apply safeInteger_Some in H as (_ & ? & _)
  | H : boundedString _ _ _ = Some _ |- _ => apply boundedString_Some in H as [_ ?]
  | H : parseMaximums _ = Some _ |- _ => apply parseMaximums_Some in H
  | H : rulesFrom _ _ = Some _ |- _ => apply rulesFrom_valid in H as (? & ? & ?)
  | H : policiesFrom _ = Some _ |- _ => apply policiesFrom_valid in H as (? & ? & ?)
  end.
  subst. by split.
Qed.

Lemma readProfile_fingerprint raw minimum fp p :
  readProfile raw minimum fp = Some p -> pf_fingerprint p = fp.
Proof. unfold readProfile. intros Hr. repeat case_match; try done. option_inv. done. Qed.

(** * Profiles as objects *)

Definition optional_number (o : option Z) : js :=
  match o with
  | Some z => JNumber (NumInt z)
  | None => JNull
  end.
Definition member_value (l : record) (key : string) : js :=
  match List.find (fun kv => String.eqb (fst kv) key) l with
  | Some kv => snd kv
  | None => JUndefined
  end.
Definition rule_value (r : QualificationRule) (key : string) : js :=
  member_value
    [("signal", JString (signal_name (ru_signal r)));
     ("dimension", JString (dimension_name (ru_dimension r)));
     ("weight", JNumber (NumInt (ru_weight r))); ("required", JBool (ru_required r));
     ("message", JString (ru_message r))] key.
Definition policy_value (p : QualificationConditionPolicy) (key : string) : js :=
  member_value
    [("code", JString (reason_name (po_code p))); ("mode", JString (mode_name (po_mode p)));
     ("maximumTop1Bps", optional_number (po_maximumTop1Bps p));
     ("maximumTop5Bps", optional_number (po_maximumTop5Bps p));
     ("maximumTop10Bps", optional_number (po_maximumTop10Bps p));
     ("maximumClusterBps", optional_number (po_maximumClusterBps p));
     ("minimumSharedFunders", optional_number (po_minimumSharedFunders p));
     ("maximumRoundTripLossBps", optional_number (po_maximumRoundTripLossBps p))] key.
Definition frozen_record (keys : list string) (value : string -> js) : js :=
  frozen_object ObjectPrototype (map (fun k => (k, value k)) keys).
Definition rule_object (r : QualificationRule) : js := frozen_record RULE_FIELDS (rule_value r).
Definition policy_object (p : QualificationConditionPolicy) : js :=
  frozen_record POLICY_FIELDS (policy_value p).
Definition maximums_object (m : DimensionMaximums) : js :=
  frozen_record (map dimension_name QUALIFICATION_DIMENSIONS)
    (fun k => JNumber (NumInt (default 0 (maximum_of m <$> enumValue DIMENSIONS (JString k))))).
Definition profile_value (p : EffectiveQualificationProfile) (key : string) : js :=
  member_value
    [("schemaVersion", JNumber (NumInt 1)); ("fingerprint", JString (pf_fingerprint p));
     ("id", JString (pf_id p)); ("version", JNumber (NumInt (pf_version p)));
     ("status", JString (pf_status p));
     ("minimumTotalScore", JNumber (NumInt (pf_minimumTotalScore p)));
     ("dimensionMaximums", maximums_object (pf_dimensionMaximums p));
     ("rules", frozen_array (map rule_object (pf_rules p)));
     ("conditionPolicies", frozen_array (map policy_object (pf_conditionPolicies p)))] key.
Definition raw_profile (p : EffectiveQualificationProfile) (keys : list string) : js :=
  frozen_record keys (profile_value p).

(** src/src/qualification/qualification-profile.ts:145-145, src/src/qualification/qualification-engine.ts:159-171
    (snapshotProfile): the frozen object of a profile. *)
Definition profile_object (p : EffectiveQualificationProfile) : js :=
  raw_profile p EFFECTIVE_PROFILE_FIELDS.

Lemma exactObject_frozen keys value :
  exactObject (frozen_record keys value) keys = Some (map (fun k => (k, value k)) keys).
Proof.
  unfold exactObject, frozen_record.
  change (isFrozenPlainObject (frozen_object ObjectPrototype _)) with true. cbn match.
  by rewrite exactRecord_frozen.
Qed.
Lemma exactArray_frozen l : exactArray (frozen_array l) = Some l.
Proof. apply frozen_array_items. Qed.
Lemma safeInteger_intro z lo hi :
  lo <= z <= hi -> - MAX_SAFE_INTEGER <= z <= MAX_SAFE_INTEGER ->
  safeInteger (JNumber (NumInt z)) lo hi = Some z.
Proof. intros. apply safeInteger_Some. split_and!; try done; unfold is_safe_integer; lia. Qed.
Lemma boundedString_intro s lo hi :
  printable s lo hi = true -> boundedString (JString s) lo hi = Some s.
Proof. intros. by apply boundedString_Some. Qed.
Lemma nullableInteger_intro o lo :
  0 <= lo -> valid_bps o lo -> nullableInteger (optional_number o) lo 10000 = Some o.
Proof.
  intros Hlo Hv. destruct o as [z|]; [|done]. cbn [optional_number nullableInteger].
  cbn in Hv. by rewrite safeInteger_intro by (unfold MAX_SAFE_INTEGER; lia).
Qed.
Lemma enumValue_signal s : enumValue SIGNALS (JString (signal_name s)) = Some s.
Proof. by destruct s. Qed.
Lemma enumValue_dimension d : enumValue DIMENSIONS (JString (dimension_name d)) = Some d.
Proof. by destruct d. Qed.
Lemma enumValue_reason r : enumValue REASONS (JString (reason_name r)) = Some r.
Proof. by destruct r. Qed.
Lemma enumValue_mode m : enumValue MODES (JString (mode_name m)) = Some m.
Proof. by destruct m. Qed.

Lemma ruleFrom_object r : valid_rule r -> ruleFrom (rule_object r) = Some r.
Proof.
  intros [Hw Hm]. unfold ruleFrom, rule_object. rewrite exactObject_frozen.
  cbn [mbind option_bind]. repeat read_field. cbn -[safeInteger boundedString enumValue SIGNALS DIMENSIONS].
  rewrite enumValue_signal. cbn -[safeInteger boundedString enumValue SIGNALS DIMENSIONS].
  rewrite enumValue_dimension. cbn -[safeInteger boundedString].
  rewrite safeInteger_intro by (unfold MAX_SAFE_INTEGER; lia). cbn -[boundedString].
  rewrite boundedString_intro by done. by destruct r.
Qed.
Lemma policyFrom_object p : valid_policy p -> policyFrom (policy_object p) = Some p.
Proof.
  intros []. unfold policyFrom, policy_object, nullableBps, nullablePositive.
  rewrite exactObject_frozen. cbn [mbind option_bind]. repeat read_field.
  cbn -[nullableInteger enumValue REASONS MODES validatePolicyThresholds]. rewrite enumValue_reason.
  cbn -[nullableInteger enumValue REASONS MODES validatePolicyThresholds]. rewrite enumValue_mode.
  cbn -[nullableInteger validatePolicyThresholds].
  rewrite !nullableInteger_intro by done || lia. cbn -[validatePolicyThresholds].
  destruct p. cbn -[validatePolicyThresholds]. by rewrite vp_thresholds0.
Qed.
Lemma mapM_objects {A B} (f : B -> option A) (g : A -> B) (P : A -> Prop) l :
  (forall x, P x -> f (g x) = Some x) -> Forall P l -> mapM f (map g l) = Some l.
Proof. intros Hf. induction 1 as [|x l Hx Hl IH]; [done|]. cbn. by rewrite Hf, IH. Qed.

Lemma parseMaximums_object :
  let m := {| dm_preparation := 15; dm_socialAuthenticity := 25; dm_onchainHealth := 60 |} in
  parseMaximums (maximums_object m) = Some m.
Proof. reflexivity. Qed.
Lemma rulesFrom_object l m :
  Forall valid_rule l -> NoDup (map ru_signal l) -> (forall d, weight_in d l = maximum_of m d) ->
  rulesFrom (frozen_array (map rule_object l)) m = Some l.
Proof.
  intros Hl Hd Hw. unfold rulesFrom. rewrite exactArray_frozen. cbn [mbind option_bind].
  rewrite (mapM_objects _ _ valid_rule) by (done || apply ruleFrom_object). cbn [mbind option_bind].
  rewrite (proj2 (all_distinct_true _) Hd). cbn. by rewrite !Hw, !Z.eqb_refl.
Qed.
Lemma policiesFrom_object l :
  Forall valid_policy l -> List.length l = 14%nat -> NoDup (map po_code l) ->
  policiesFrom (frozen_array (map policy_object l)) = Some l.
Proof.
  intros Hl Hn Hd. unfold policiesFrom. rewrite exactArray_frozen. cbn [mbind option_bind].
  rewrite length_map, Hn. cbn [negb].
  rewrite (mapM_objects _ _ valid_policy) by (done || apply policyFrom_object).
  cbn. by rewrite (proj2 (all_distinct_true _) Hd).
Qed.

(** Reading the object of a valid profile gives the profile back. *)
Lemma readProfile_object p keys minimum :
  valid_profile p -> incl TOP_LEVEL_FIELDS keys ->
  minimum = JNumber (NumInt (pf_minimumTotalScore p)) ->
  readProfile (map (fun k => (k, profile_value p k)) keys) minimum (pf_fingerprint p) = Some p.
Proof.
  intros Hv Hk ->. unfold readProfile.
  rewrite !field_map by (apply list_elem_of_In, Hk; cbn; tauto). destruct Hv.
  change (profile_value p "schemaVersion") with (JNumber (NumInt 1)).
  change (profile_value p "status") with (JString (pf_status p)).
  change (profile_value p "id") with (JString (pf_id p)).
  change (profile_value p "version") with (JNumber (NumInt (pf_version p))).
  change (profile_value p "dimensionMaximums") with (maximums_object (pf_dimensionMaximums p)).
  change (profile_value p "rules") with (frozen_array (map rule_object (pf_rules p))).
  change (profile_value p "conditionPolicies")
    with (frozen_array (map policy_object (pf_conditionPolicies p))).
  cbn match. rewrite bool_decide_eq_true_2 by done. cbn [negb].
  rewrite boundedString_intro by done. cbn [mbind option_bind].
  rewrite safeInteger_intro by (unfold MAX_SAFE_INTEGER in *; lia). cbn [mbind option_bind].
  rewrite safeInteger_intro by (unfold MAX_SAFE_INTEGER in *; lia). cbn [mbind option_bind].
  rewrite vf_maximums0, parseMaximums_object, <- vf_maximums0. cbn [mbind option_bind].
  rewrite rulesFrom_object by done. cbn [mbind option_bind].
  rewrite policiesFrom_object by done. cbn [mbind option_bind]. by destruct p.
Qed.

(** * Canonical order *)

Section Rank.
Context {A K : Type} (key : A -> K) (rank : K -> nat) `{!Inj (=) (=) rank}.
Let le (a b : A) : Prop := (rank (key a) <= rank (key b))%nat.
Context `{!RelDecision le}.

(** Sorting by a key that determines the element forgets the order it was given in. *)
Lemma rank_sort_unique (l l' : list A) :
  NoDup (map key l) -> l ≡ₚ l' -> merge_sort le l = merge_sort le l'.
Proof.
  intros Hd Hp. apply (StronglySorted_unique_strong le).
  - intros x y Hx Hy Hxy Hyx. rewrite merge_sort_Permutation in Hx.
    rewrite merge_sort_Permutation, <- Hp in Hy.
    apply list_elem_of_lookup in Hx as [i Hi]. apply list_elem_of_lookup in Hy as [j Hj].
    assert (key x = key y) as E by (apply (inj rank); unfold le in *; lia).
    assert (i = j) as ->; [|congruence].
    eapply (NoDup_lookup (map key l) i j); [done| |]; rewrite list_lookup_fmap.
    + by rewrite Hi.
    + rewrite Hj. cbn. by rewrite E.
  - apply StronglySorted_merge_sort; [intros x y z; unfold le; lia | intros x y; unfold le; lia].
  - apply StronglySorted_merge_sort; [intros x y z; unfold le; lia | intros x y; unfold le; lia].
  - by rewrite !merge_sort_Permutation.
Qed.
End Rank.

Global Instance signal_rank_inj : Inj (=) (=) signal_rank.
Proof. by intros [] []. Qed.
Global Instance reason_rank_inj : Inj (=) (=) reason_rank.
Proof. intros [] []; vm_compute; congruence. Qed.

Lemma sort_rules_perm l : sort_rules l ≡ₚ l.
Proof. apply merge_sort_Permutation. Qed.
Lemma sort_policies_perm l : sort_policies l ≡ₚ l.
Proof. apply merge_sort_Permutation. Qed.
Lemma sort_rules_unique l l' :
  NoDup (map ru_signal l) -> l ≡ₚ l' -> sort_rules l = sort_rules l'.
Proof. apply (rank_sort_unique ru_signal signal_rank). Qed.
Lemma sort_policies_unique l l' :
  NoDup (map po_code l) -> l ≡ₚ l' -> sort_policies l = sort_policies l'.
Proof. apply (rank_sort_unique po_code reason_rank). Qed.

Lemma weight_in_perm d l l' : l ≡ₚ l' -> weight_in d l = weight_in d l'.
Proof. unfold weight_in. induction 1; cbn; repeat case_bool_decide; lia. Qed.

Lemma canonical_valid p fp : valid_profile p -> valid_profile (canonical_profile p fp).
Proof.
  intros []. split; cbn -[weight_in]; try done.
  - by rewrite sort_rules_perm.
  - by rewrite sort_rules_perm.
  - intros d. rewrite (weight_in_perm _ _ _ (sort_rules_perm _)). done.
  - by rewrite sort_policies_perm.
  - by rewrite sort_policies_perm.
  - by rewrite sort_policies_perm.
Qed.
Lemma canonical_fingerprint p fp : pf_fingerprint (canonical_profile p fp) = fp.
Proof. done. Qed.
Lemma canonical_idempotent p fp fp' :
  valid_profile p -> canonical_profile (canonical_profile p fp) fp' = canonical_profile p fp'.
Proof.
  intros []. unfold canonical_profile. cbn. f_equal.
  - symmetry. apply sort_rules_unique; [done|]. by rewrite sort_rules_perm.
  - symmetry. apply sort_policies_unique; [done|]. by rewrite sort_policies_perm.
Qed.

(** * The canonical text determines the profile *)

Lemma Forall2_map_eq {A B} (f : A -> B) (R : B -> B -> Prop) (l l' : list A) :
  (forall x y, R (f x) (f y) -> x = y) -> Forall2 R (map f l) (map f l') -> l = l'.
Proof.
  intros Hf. revert l'. induction l as [|x l IH]; intros [|y l'] H; inversion H; subst; [done|].
  f_equal; auto.
Qed.

Ltac same_members :=
  repeat match goal with
  | H : Forall2 _ (_ :: _) (_ :: _) |- _ =>
      apply Forall2_cons_1 in H; destruct H as [[_ ?] ?]; cbn [snd] in *
  end.
Ltac same_atoms :=
  repeat match goal with
  | H : same_value (?c _) _ |- _ => apply same_atom_eq in H; [injection H as H | done..]
  end.

Lemma optional_int_same o o' : same_value (optional_int o) (optional_int o') -> o = o'.
Proof. intros H. apply same_atom_eq in H; destruct o, o'; cbn in *; congruence. Qed.
Lemma rule_data_same r r' : same_value (rule_data r) (rule_data r') -> r = r'.
Proof.
  intros H. apply same_object_members in H; [|by apply (bool_decide_unpack _)|done].
  same_members. same_atoms. destruct r as [s d ? ? ?], r' as [s' d' ? ? ?]; cbn in *.
  f_equal; try done; [by destruct s, s' | by destruct d, d'].
Qed.
Lemma policy_data_same p p' : same_value (policy_data p) (policy_data p') -> p = p'.
Proof.
  intros H. apply same_object_members in H; [|by apply (bool_decide_unpack _)|done].
  same_members.
  repeat match goal with H : same_value (optional_int _) _ |- _ => apply optional_int_same in H end.
  same_atoms. destruct p as [c m ? ? ? ? ? ?], p' as [c' m' ? ? ? ? ? ?]; cbn in *.
  f_equal; try done; [by destruct c, c' | by destruct m, m'].
Qed.
Lemma maximums_data_same m m' : same_value (maximums_data m) (maximums_data m') -> m = m'.
Proof.
  intros H. apply same_object_members in H; [|by apply (bool_decide_unpack _)|done].
  same_members. same_atoms. destruct m, m'; cbn in *. by f_equal.
Qed.
Lemma profile_data_same p p' :
  same_value (profile_data p) (profile_data p') -> pf_fingerprint p = pf_fingerprint p' -> p = p'.
Proof.
  intros H Hf. apply same_object_members in H; [|by apply (bool_decide_unpack _)|done].
  same_members.
  repeat match goal with
  | H : same_value (maximums_data _) _ |- _ => apply maximums_data_same in H
  | H : same_value (DArr (map rule_data _)) _ |- _ =>
      apply same_array_items, Forall2_map_eq in H; [|apply rule_data_same]
  | H : same_value (DArr (map policy_data _)) _ |- _ =>
      apply same_array_items, Forall2_map_eq in H; [|apply policy_data_same]
  end.
  same_atoms. destruct p, p'; cbn in *. by f_equal.
Qed.
Lemma forallb_map_const {A B} (f : B -> bool) (g : A -> B) l :
  (forall x, f (g x) = true) -> forallb f (map g l) = true.
Proof. intros H. induction l; cbn; [done|]. by rewrite H. Qed.
Lemma rule_data_wf r : distinct_keys (rule_data r) && marker_free (rule_data r) = true.
Proof. done. Qed.
Lemma policy_data_wf p : distinct_keys (policy_data p) && marker_free (policy_data p) = true.
Proof. by destruct p as [? ? [] [] [] [] [] []]. Qed.
Lemma profile_data_wf p :
  distinct_keys (profile_data p) = true /\ marker_free (profile_data p) = true.
Proof.
  assert (forall f g, (forall r, f (rule_data r) = true) -> (forall q, g (policy_data q) = true) ->
    forallb f (map rule_data (pf_rules p)) = true
    /\ forallb g (map policy_data (pf_conditionPolicies p)) = true) as Hall.
  { intros f g Hf Hg. by split; apply forallb_map_const. }
  split.
  - destruct (Hall distinct_keys distinct_keys) as [Hr Hp].
    { intros r. by pose proof (rule_data_wf r) as [? _]%andb_true_iff. }
    { intros q. by pose proof (policy_data_wf q) as [? _]%andb_true_iff. }
    cbn -[map]. by rewrite Hr, Hp.
  - destruct (Hall marker_free marker_free) as [Hr Hp].
    { intros r. by pose proof (rule_data_wf r) as [_ ?]%andb_true_iff. }
    { intros q. by pose proof (policy_data_wf q) as [_ ?]%andb_true_iff. }
    cbn -[map]. by rewrite Hr, Hp.
Qed.

(** * Properties *)

Section Properties.
Context `{Sha256}.

Lemma parseQualificationProfile_Ok v o p :
  parseQualificationProfile v o = Ok p ->
  exists q, valid_profile q /\ profile_fingerprint q = Some (pf_fingerprint p)
            /\ p = canonical_profile q (pf_fingerprint p).
Proof.
  unfold parseQualificationProfile. intros Hp. destruct (parsed_profile v o) as [p'|] eqn:E; [|done].
  injection Hp as ->. unfold parsed_profile in E.
  apply bind_Some in E as (raw & _ & E). apply bind_Some in E as (q & Hq & E).
  apply bind_Some in E as (fp & Hf & E). assert (p = canonical_profile q fp) as -> by congruence.
  exists q. split_and!; [by eapply readProfile_valid in Hq | exact Hf | reflexivity].
Qed.
Lemma effectiveProfileFrom_Some v p :
  effectiveProfileFrom v = Some p ->
  valid_profile p /\ is_sha256_hex (pf_fingerprint p) = true
  /\ profile_fingerprint p = Some (pf_fingerprint p).
Proof.
  unfold effectiveProfileFrom. intros Hp. option_inv. bool_prop.
  match goal with Hr : readProfile _ _ _ = Some p |- _ =>
    pose proof (readProfile_fingerprint _ _ _ _ Hr); apply readProfile_valid in Hr end.
  match goal with Hf : fingerprintFrom ?w = Some _ |- _ =>
    unfold fingerprintFrom in Hf; destruct w; try done; destruct (is_sha256_hex _) eqn:Hx; [|done] end.
  split_and!; congruence.
Qed.
Lemma effectiveProfileFrom_object p :
  valid_profile p -> is_sha256_hex (pf_fingerprint p) = true ->
  profile_fingerprint p = Some (pf_fingerprint p) ->
  effectiveProfileFrom (profile_object p) = Some p.
Proof.
  intros Hv Hh Hf. unfold effectiveProfileFrom, profile_object, raw_profile.
  apply bind_Some. eexists. split; [apply exactObject_frozen|].
  rewrite !field_map by (by apply (bool_decide_unpack _)).
  apply bind_Some. exists (pf_fingerprint p). split; [cbn; by rewrite Hh|].
  apply bind_Some. exists p. split; [apply readProfile_object; [done| |done]|].
  { intros k. cbn. tauto. }
  apply bind_Some. exists (pf_fingerprint p). split; [done|]. by rewrite bool_decide_eq_true_2.
Qed.

Lemma profile_fingerprint_canonical q fp :
  valid_profile q -> profile_fingerprint (canonical_profile q fp) = profile_fingerprint q.
Proof. intros Hv. unfold profile_fingerprint. by rewrite (canonical_idempotent q fp "" Hv). Qed.
Lemma profile_fingerprint_text p fp :
  profile_fingerprint p = Some fp <->
  exists t, canonicalStringifyJson (profile_data (canonical_profile p "")) = Ok t /\ sha256_hex t = fp.
Proof.
  unfold profile_fingerprint.
  generalize (canonicalStringifyJson (profile_data (canonical_profile p ""))).
  intros [t|e]; split; try done.
  - intros [= <-]. by exists t.
  - by intros (t' & [= ->] & <-).
  - by intros (t' & ? & _).
Qed.
Lemma canonical_text_binds p q t :
  canonicalStringifyJson (profile_data (canonical_profile p "")) = Ok t ->
  canonicalStringifyJson (profile_data (canonical_profile q "")) = Ok t ->
  canonical_profile p "" = canonical_profile q "".
Proof.
  pose proof (canonical_fingerprint p "") as Hp. pose proof (canonical_fingerprint q "") as Hq.
  revert Hp Hq. generalize (canonical_profile p "") (canonical_profile q ""). intros p' q' Hp Hq Ht Ht'.
  apply profile_data_same; [|congruence].
  destruct (profile_data_wf p') as [Hd Hm], (profile_data_wf q') as [Hd' Hm'].
  exact (canonicalStringifyJson_same _ _ t Hd Hd' Hm Hm' Ht Ht').
Qed.
Lemma profile_fingerprint_hex q fp :
  (forall s, is_sha256_hex (sha256_hex s) = true) ->
  profile_fingerprint q = Some fp -> is_sha256_hex fp = true.
Proof.
  intros Hhex Hf. apply profile_fingerprint_text in Hf as (t & _ & <-). apply Hhex.
Qed.

(** A profile the loader issues is accepted back.  Every consumer of a profile
    validates it again; the object [parseQualificationProfile] returns, with its rules and
    policies sorted and its fingerprint computed from the sorted form, passes that
    validation and is read back unchanged, provided the digest prints as 64 lowercase
    hexadecimal digits. *)
Theorem profile_round_trip (v override : js) (p : EffectiveQualificationProfile)
    (Hhex : forall s, is_sha256_hex (sha256_hex s) = true)
    (Hp : parseQualificationProfile v override = Ok p) :
  effectiveProfileFrom (profile_object p) = Some p
  /\ assertValidEffectiveQualificationProfile (profile_object p) = Ok tt.
Proof.
  apply parseQualificationProfile_Ok in Hp as (q & Hv & Hf & E).
  assert (effectiveProfileFrom (profile_object p) = Some p) as Ho.
  { apply effectiveProfileFrom_object.
    - rewrite E. by apply canonical_valid.
    - by eapply profile_fingerprint_hex.
    - rewrite <- Hf, E. by apply profile_fingerprint_canonical. }
  split; [done|]. unfold assertValidEffectiveQualificationProfile. by rewrite Ho.
Qed.

(** the fingerprint of a profile identifies its rules.  Two accepted profiles with one
    fingerprint agree on everything that decides a verdict (identity, version, minimum
    score, maxima, rules, policies with their modes and thresholds) up to the order in which
    rules and policies are listed, unless two different texts with one SHA-256 digest are
    known; and listing rules and policies in another order never changes the fingerprint. *)
Theorem profile_fingerprint_binds (v w : js) (p q : EffectiveQualificationProfile)
    (Hv : effectiveProfileFrom v = Some p) (Hw : effectiveProfileFrom w = Some q) :
  (pf_fingerprint p = pf_fingerprint q ->
   canonical_profile p "" = canonical_profile q "" \/ sha256_collision)
  /\ (canonical_profile p "" = canonical_profile q "" -> pf_fingerprint p = pf_fingerprint q).
Proof.
  apply effectiveProfileFrom_Some in Hv as (_ & _ & Hp), Hw as (_ & _ & Hq).
  split.
  - intros E. apply profile_fingerprint_text in Hp as (t & Ht & Hp), Hq as (t' & Ht' & Hq).
    destruct (decide (t = t')) as [->|Hne]; [left | right; exists t, t'; split; congruence].
    by eapply canonical_text_binds.
  - intros E. apply profile_fingerprint_text in Hp as (t & Ht & Hp), Hq as (t' & Ht' & Hq).
    rewrite E in Ht. congruence.
Qed.
End Properties.

(** * The profile of the repository *)

(** A digest that prints as it should. *)
Definition zero_digest : Sha256 := fun _ => of_chars (repeat "0"%char 64).

Definition default_rule (s : QualificationSignalKey) (d : QualificationDimension) (w : Z)
    (required : bool) (message : string) : QualificationRule :=
  {| ru_signal := s; ru_dimension := d; ru_weight := w; ru_required := required;
     ru_message := message |}.
Definition default_mode (r : QualificationReasonCode) : QualificationConditionMode :=
  match r with
  | R_CREATOR_EARLY_SELL | R_BUY_SIMULATION_FAILED | R_SELL_QUOTE_UNAVAILABLE
  | R_ROUND_TRIP_LOSS_EXCEEDED | R_STALE_DATA | R_UNSUPPORTED_TOKEN_EXTENSION
  | R_UNSUPPORTED_QUOTE_MINT => M_ENFORCED
  | R_CREATOR_REPEAT_DUMPER => M_DISABLED
  | _ => M_REPORT_ONLY
  end.
Definition default_policy (r : QualificationReasonCode) : QualificationConditionPolicy :=
  {| po_code := r; po_mode := default_mode r; po_maximumTop1Bps := None; po_maximumTop5Bps := None;
     po_maximumTop10Bps := None; po_maximumClusterBps := None;
     po_minimumSharedFunders := if bool_decide (r = R_SHARED_FUNDER_CLUSTER) then Some 1 else None;
     po_maximumRoundTripLossBps :=
       if bool_decide (r = R_ROUND_TRIP_LOSS_EXCEEDED) then Some 3000 else None |}.
(** The content of [src/config/qualification/pumpfun-v1-unvalidated.json]. *)
Definition default_profile : EffectiveQualificationProfile :=
  {| pf_id := "pumpfun-v1-initial"; pf_version := 1; pf_status := UNVALIDATED_RULE_SET;
     pf_minimumTotalScore := 60;
     pf_dimensionMaximums :=
       {| dm_preparation := 15; dm_socialAuthenticity := 25; dm_onchainHealth := 60 |};
     pf_rules :=
       [default_rule imageValid preparation 15 true "Image is valid.";
        default_rule socialCrossLinkConfirmed socialAuthenticity 25 true
          "Social cross-link is confirmed.";
        default_rule creatorHasNotSold onchainHealth 20 true "Creator has not sold.";
        default_rule reverseQuoteAvailable onchainHealth 20 false "Reverse quote is available.";
        default_rule externalBuyersObserved onchainHealth 20 false "External buyers are observed."];
     pf_conditionPolicies := map default_policy QUALIFICATION_REASON_CODES;
     pf_fingerprint := "" |}.
Definition default_profile_value : js := raw_profile default_profile TOP_LEVEL_FIELDS.
Definition loaded_profile : EffectiveQualificationProfile :=
  canonical_profile default_profile (zero_digest "").

Example default_profile_loads :
  @parseQualificationProfile zero_digest default_profile_value JNull = Ok loaded_profile.
Proof. vm_compute. reflexivity. Qed.

(** Thresholds may only be set on the condition they belong to. *)
Example misplaced_threshold_rejected :
  policyFrom (policy_object
    {| po_code := R_STALE_DATA; po_mode := M_ENFORCED; po_maximumTop1Bps := Some 10;
       po_maximumTop5Bps := None; po_maximumTop10Bps := None; po_maximumClusterBps := None;
       po_minimumSharedFunders := None; po_maximumRoundTripLossBps := None |}) = None.
Proof. vm_compute. reflexivity. Qed.

Lemma profile_round_trip_witness :
  @parseQualificationProfile zero_digest default_profile_value JNull = Ok loaded_profile
  /\ @effectiveProfileFrom zero_digest (profile_object loaded_profile) = Some loaded_profile.
Proof.
  assert (@parseQualificationProfile zero_digest default_profile_value JNull = Ok loaded_profile) as E
    by (vm_compute; reflexivity).
  split; [exact E|].
  exact (proj1 (@profile_round_trip zero_digest default_profile_value JNull loaded_profile
    (fun _ => eq_refl) E)).
Defined.

Lemma profile_fingerprint_binds_witness :
  let reversed := {| pf_id := pf_id loaded_profile; pf_version := 1;
                     pf_status := UNVALIDATED_RULE_SET; pf_minimumTotalScore := 60;
                     pf_dimensionMaximums := pf_dimensionMaximums default_profile;
                     pf_rules := rev (pf_rules default_profile);
                     pf_conditionPolicies := rev (pf_conditionPolicies default_profile);
                     pf_fingerprint := pf_fingerprint loaded_profile |} in
  pf_fingerprint loaded_profile = pf_fingerprint reversed ->
  canonical_profile loaded_profile "" = canonical_profile reversed ""
  \/ @sha256_collision zero_digest.
Proof.
  intros reversed.
  assert (@effectiveProfileFrom zero_digest (profile_object loaded_profile) = Some loaded_profile) as Hl
    by (vm_compute; reflexivity).
  assert (@effectiveProfileFrom zero_digest (profile_object reversed) = Some reversed) as Hr
    by (vm_compute; reflexivity).
  exact (proj1 (@profile_fingerprint_binds zero_digest _ _ _ _ Hl Hr)).
Defined.
