(* ===== verification/QualificationEngine.v ===== *)
(** The qualification evaluator: [assertValidQualificationFacts] of
    [src/src/domain/qualification.ts], the condition policies of
    [src/src/qualification/qualification-policy-evaluator.ts] and the engine of
    [src/src/qualification/qualification-engine.ts], with its register of authorized
    reports.

    Inputs are untyped values and the engine keeps its profile as a frozen object, which
    every evaluation validates again.  Readers return [None] where the source throws a
    [TypeError]; the message is not kept. *)
From S2P Require Import Prelude Text Types Chain Json JsValue JsonCodec Qualification QualificationProfile.
From Stdlib Require Import String.
Local Open Scope string_scope.
Local Open Scope list_scope.
Local Open Scope Z_scope.

(** * Facts *)

(** src/src/domain/qualification.ts:63-66 (QualificationUpstreamCondition) *)
Record QualificationUpstreamCondition := {
  uc_code : QualificationReasonCode;
  uc_triggered : bool;
}.
(** src/src/domain/qualification.ts:68-72 (QualificationQuoteObservation) *)
Record QualificationQuoteObservation := {
  qo_quoteId : string;
  qo_observedSlot : Z;
  qo_observedAtMs : Z;
}.
(** src/src/domain/qualification.ts:74-78 (QualificationQuoteLineage) *)
Record QualificationQuoteLineage := {
  ql_buy : option QualificationQuoteObservation;
  ql_reverseSell : option QualificationQuoteObservation;
}.
(** src/src/domain/qualification.ts:80-91 (QualificationCalibrationFacts) *)
Record QualificationCalibrationFacts := {
  ft_top1HolderBps : option Z;
  ft_top5HoldersBps : option Z;
  ft_top10HoldersBps : option Z;
  ft_maximumRelatedClusterBps : option Z;
  ft_maximumSharedFunderCount : option Z;
  ft_buySimulationSucceeded : option bool;
  ft_sellQuoteAvailable : option bool;
  ft_roundTripLossBps : option Z;
  ft_upstreamConditions : list QualificationUpstreamCondition;
  ft_quoteLineage : option QualificationQuoteLineage;
}.

(** src/src/domain/qualification.ts:120-143 *)
Definition QUALIFICATION_FACT_FIELDS : list string :=
  ["top1HolderBps"; "top5HoldersBps"; "top10HoldersBps"; "maximumRelatedClusterBps";
   "maximumSharedFunderCount"; "buySimulationSucceeded"; "sellQuoteAvailable"; "roundTripLossBps";
   "upstreamConditions"].
Definition QUALIFICATION_FACT_FIELDS_WITH_QUOTE_LINEAGE : list string :=
  QUALIFICATION_FACT_FIELDS ++ ["quoteLineage"].
Definition QUALIFICATION_UPSTREAM_CONDITION_FIELDS : list string := ["code"; "triggered"].
Definition QUALIFICATION_QUOTE_LINEAGE_FIELDS : list string := ["schemaVersion"; "buy"; "reverseSell"].
Definition QUALIFICATION_QUOTE_OBSERVATION_FIELDS : list string :=
  ["quoteId"; "observedSlot"; "observedAtMs"].
Definition BASIS_POINTS_MAXIMUM : Z := 10000.

(** [null], or what [f] reads. *)
Definition nullable {A} (f : js -> option A) (v : js) : option (option A) :=
  match v with
  | JNull => Some None
  | _ => x ← f v; Some (Some x)
  end.

(** src/src/domain/qualification.ts:249-254 (assertNullableBasisPoints) *)
Definition nullableBasisPoints : js -> option (option Z) :=
  nullable (fun v => boundedBigint v 0 BASIS_POINTS_MAXIMUM).
(** src/src/domain/qualification.ts:256-266 (assertNullableSharedFunderCount) *)
Definition nullableSharedFunderCount : js -> option (option Z) :=
  nullable (fun v => safeInteger v 0 MAX_SAFE_INTEGER).
(** src/src/domain/qualification.ts:268-272 (assertNullableBoolean) *)
Definition nullableBoolean : js -> option (option bool) := nullable booleanValue.

(** src/src/domain/qualification.ts:189-210 (assertValidQuoteObservation) *)
Definition quoteObservationFrom (v : js) : option (option QualificationQuoteObservation) :=
  nullable (fun v =>
    fields ← exactObject v QUALIFICATION_QUOTE_OBSERVATION_FIELDS;
    quoteId ← match field fields "quoteId" with
              | JString s => if blank s then None else Some s
              | _ => None
              end;
    observedSlot ← match field fields "observedSlot" with
                   | JBigInt z => if z <? 0 then None else Some z
                   | _ => None
                   end;
    observedAtMs ← safeInteger (field fields "observedAtMs") 0 MAX_SAFE_INTEGER;
    Some {| qo_quoteId := quoteId; qo_observedSlot := observedSlot;
            qo_observedAtMs := observedAtMs |}) v.

(** src/src/domain/qualification.ts:175-187 (assertValidQuoteLineage) *)
Definition quoteLineageFrom (v : js) : option QualificationQuoteLineage :=
  fields ← exactObject v QUALIFICATION_QUOTE_LINEAGE_FIELDS;
  match field fields "schemaVersion" with
  | JNumber (NumInt 1) =>
      buy ← quoteObservationFrom (field fields "buy");
      reverseSell ← quoteObservationFrom (field fields "reverseSell");
      Some {| ql_buy := buy; ql_reverseSell := reverseSell |}
  | _ => None
  end.

(** src/src/domain/qualification.ts:230-245 (assertValidUpstreamConditions): an entry. *)
Definition upstreamConditionFrom (v : js) : option QualificationUpstreamCondition :=
  fields ← exactObject v QUALIFICATION_UPSTREAM_CONDITION_FIELDS;
  code ← enumValue REASONS (field fields "code");
  triggered ← booleanValue (field fields "triggered");
  Some {| uc_code := code; uc_triggered := triggered |}.
(** src/src/domain/qualification.ts:212-247 (assertValidUpstreamConditions) *)
Definition upstreamConditionsFrom (v : js) : option (list QualificationUpstreamCondition) :=
  entries ← exactArray v;
  if (List.length QUALIFICATION_REASON_CODES <? List.length entries)%nat then None else
  conditions ← mapM upstreamConditionFrom entries;
  if all_distinct (map uc_code conditions) then Some conditions else None.

(** [Object.hasOwn(value, key)] *)
Definition has_own (v : js) (key : string) : bool :=
  match v with
  | JObject _ _ _ props => bool_decide (is_Some (own_property props key))
  | _ => false
  end.

(** src/src/domain/qualification.ts:145-173 (assertValidQualificationFacts): the facts
    it accepts. *)
Definition qualificationFactsFrom (v : js) : option QualificationCalibrationFacts :=
  let includesQuoteLineage := has_own v "quoteLineage" in
  values ← exactObject v (if includesQuoteLineage
                          then QUALIFICATION_FACT_FIELDS_WITH_QUOTE_LINEAGE
                          else QUALIFICATION_FACT_FIELDS);
  top1 ← nullableBasisPoints (field values "top1HolderBps");
  top5 ← nullableBasisPoints (field values "top5HoldersBps");
  top10 ← nullableBasisPoints (field values "top10HoldersBps");
  cluster ← nullableBasisPoints (field values "maximumRelatedClusterBps");
  loss ← nullableBasisPoints (field values "roundTripLossBps");
  funders ← nullableSharedFunderCount (field values "maximumSharedFunderCount");
  buy ← nullableBoolean (field values "buySimulationSucceeded");
  sell ← nullableBoolean (field values "sellQuoteAvailable");
  upstream ← upstreamConditionsFrom (field values "upstreamConditions");
  lineage ← if includesQuoteLineage
            then l ← quoteLineageFrom (field values "quoteLineage"); Some (Some l)
            else Some None;
  Some {| ft_top1HolderBps := top1; ft_top5HoldersBps := top5; ft_top10HoldersBps := top10;
          ft_maximumRelatedClusterBps := cluster; ft_maximumSharedFunderCount := funders;
          ft_buySimulationSucceeded := buy; ft_sellQuoteAvailable := sell;
          ft_roundTripLossBps := loss; ft_upstreamConditions := upstream;
          ft_quoteLineage := lineage |}.

(** * Condition policies *)

Definition invalid_input {A} (o : option A) : result exn A :=
  match o with
  | Some x => Ok x
  | None => Err (TypeError "")
  end.

(** src/src/qualification/qualification-policy-evaluator.ts:95-97 (evidence) *)
Definition evidence (code : QualificationReasonCode) (mode : QualificationConditionMode)
    (status : QualificationConditionStatus) (observed thresholds : list (string * cond_value))
    (message : string) : QualificationConditionEvidence :=
  {| cn_code := code; cn_mode := mode; cn_status := status; cn_observed := observed;
     cn_thresholds := thresholds; cn_message := message |}.

Definition nullable_number (o : option Z) : cond_value :=
  match o with
  | Some z => CNum z
  | None => CNull
  end.
Definition nullable_bool (o : option bool) : cond_value :=
  match o with
  | Some b => CBool b
  | None => CNull
  end.

(** [value !== null && threshold !== null && value > BigInt(threshold)] *)
Definition exceeds (value threshold : option Z) : bool :=
  match value, threshold with
  | Some v, Some t => t <? v
  | _, _ => false
  end.
Definition is_null {A} (o : option A) : bool :=
  match o with
  | Some _ => false
  | None => true
  end.

(** src/src/qualification/qualification-policy-evaluator.ts:58-71 (holder) *)
Definition holder (p : QualificationConditionPolicy) (facts : QualificationCalibrationFacts)
    : QualificationConditionEvidence :=
  let pairs := [(ft_top1HolderBps facts, po_maximumTop1Bps p);
                (ft_top5HoldersBps facts, po_maximumTop5Bps p);
                (ft_top10HoldersBps facts, po_maximumTop10Bps p)] in
  let configured := List.filter (fun vt => negb (is_null (snd vt))) pairs in
  let observed := [("top1HolderBps", nullableBigInt (ft_top1HolderBps facts));
                   ("top5HoldersBps", nullableBigInt (ft_top5HoldersBps facts));
                   ("top10HoldersBps", nullableBigInt (ft_top10HoldersBps facts))] in
  let thresholds := [("maximumTop1Bps", nullableBigInt (po_maximumTop1Bps p));
                     ("maximumTop5Bps", nullableBigInt (po_maximumTop5Bps p));
                     ("maximumTop10Bps", nullableBigInt (po_maximumTop10Bps p))] in
  let answer status message :=
    evidence R_HOLDER_CONCENTRATION_EXCEEDED (po_mode p) status observed thresholds message in
  if existsb (fun vt => exceeds (fst vt) (snd vt)) configured
  then answer S_TRIGGERED "Holder concentration exceeds the configured threshold."
  else if existsb (fun vt => is_null (fst vt)) configured
  then answer S_UNKNOWN "Holder concentration is unavailable."
  else if existsb (fun vt => is_null (snd vt)) pairs
  then answer S_NOT_CONFIGURED "Holder concentration is not fully configured."
  else answer S_PASSED "Holder concentration passed.".

(** src/src/qualification/qualification-policy-evaluator.ts:73-79 (maximum) *)
Definition maximum (code : QualificationReasonCode) (mode : QualificationConditionMode)
    (observedValue thresholdValue : option Z) (observedKey thresholdKey triggeredMessage : string)
    : QualificationConditionEvidence :=
  let observed := [(observedKey, nullableBigInt observedValue)] in
  let thresholds := [(thresholdKey, nullableBigInt thresholdValue)] in
  match thresholdValue, observedValue with
  | None, _ => evidence code mode S_NOT_CONFIGURED observed thresholds "Condition is not configured."
  | Some _, None =>
      evidence code mode S_UNKNOWN observed thresholds "Condition observation is unavailable."
  | Some t, Some v =>
      evidence code mode (if t <? v then S_TRIGGERED else S_PASSED) observed thresholds
        (if t <? v then triggeredMessage else "Condition passed.")
  end.

(** src/src/qualification/qualification-policy-evaluator.ts:81-87 (minimum) *)
Definition minimum (p : QualificationConditionPolicy) (observedValue : option Z)
    : QualificationConditionEvidence :=
  let observed := [("maximumSharedFunderCount", nullable_number observedValue)] in
  let answer status message :=
    evidence R_SHARED_FUNDER_CLUSTER (po_mode p) status observed
      [("minimumSharedFunders", nullable_number (po_minimumSharedFunders p))] message in
  match po_minimumSharedFunders p, observedValue with
  | None, _ => answer S_NOT_CONFIGURED "Shared funder cluster is not configured."
  | Some _, None => answer S_UNKNOWN "Shared funder observation is unavailable."
  | Some t, Some v =>
      answer (if t <=? v then S_TRIGGERED else S_PASSED)
        (if t <=? v then "Shared funder cluster meets the configured minimum."
         else "Shared funder cluster passed.")
  end.

(** src/src/qualification/qualification-policy-evaluator.ts:89-93 (booleanCondition) *)
Definition booleanCondition (code : QualificationReasonCode) (mode : QualificationConditionMode)
    (observedValue : option bool) (observedKey triggeredMessage : string)
    : QualificationConditionEvidence :=
  let observed := [(observedKey, nullable_bool observedValue)] in
  match observedValue with
  | None => evidence code mode S_UNKNOWN observed [] "Condition observation is unavailable."
  | Some b =>
      evidence code mode (if b then S_PASSED else S_TRIGGERED) observed []
        (if b then "Condition passed." else triggeredMessage)
  end.

(** src/src/qualification/qualification-policy-evaluator.ts:107-110 (triggeredByTrustedSource) *)
Definition triggeredByTrustedSource (c : QualificationConditionEvidence) (upstream : option bool)
    (legacy : bool) : QualificationConditionEvidence :=
  let triggered := evidence (cn_code c) (cn_mode c) S_TRIGGERED (cn_observed c) (cn_thresholds c) in
  if bool_decide (upstream = Some true) then triggered "Upstream condition triggered."
  else if legacy then triggered "Legacy condition triggered." else c.

(** src/src/qualification/qualification-policy-evaluator.ts:42-56 (evaluate) *)
Definition evaluate (code : QualificationReasonCode) (p : QualificationConditionPolicy)
    (facts : QualificationCalibrationFacts) (upstream : QualificationReasonCode -> option bool)
    (legacy : list QualificationReasonCode) : QualificationConditionEvidence :=
  let trusted c := triggeredByTrustedSource c (upstream code) (includes code legacy) in
  if bool_decide (po_mode p = M_DISABLED)
  then evidence code (po_mode p) S_DISABLED [] [] "Condition disabled."
  else match code with
  | R_HOLDER_CONCENTRATION_EXCEEDED => trusted (holder p facts)
  | R_RELATED_WALLET_CLUSTER_EXCEEDED =>
      trusted (maximum code (po_mode p) (ft_maximumRelatedClusterBps facts) (po_maximumClusterBps p)
        "maximumRelatedClusterBps" "maximumClusterBps"
        "Related wallet cluster exceeds the configured threshold.")
  | R_SHARED_FUNDER_CLUSTER => trusted (minimum p (ft_maximumSharedFunderCount facts))
  | R_BUY_SIMULATION_FAILED =>
      trusted (booleanCondition code (po_mode p) (ft_buySimulationSucceeded facts)
        "buySimulationSucceeded" "Buy simulation failed.")
  | R_SELL_QUOTE_UNAVAILABLE =>
      trusted (booleanCondition code (po_mode p) (ft_sellQuoteAvailable facts)
        "sellQuoteAvailable" "Sell quote is unavailable.")
  | R_ROUND_TRIP_LOSS_EXCEEDED =>
      trusted (maximum code (po_mode p) (ft_roundTripLossBps facts) (po_maximumRoundTripLossBps p)
        "roundTripLossBps" "maximumRoundTripLossBps"
        "Perte aller-retour supérieure au seuil configuré.")
  | _ =>
      match (if includes code legacy then Some true else upstream code) with
      | Some true => evidence code (po_mode p) S_TRIGGERED [] [] "Upstream condition triggered."
      | Some false => evidence code (po_mode p) S_PASSED [] [] "Upstream condition passed."
      | None => evidence code (po_mode p) S_UNKNOWN [] [] "Upstream condition is unavailable."
      end
  end.

(** src/src/qualification/qualification-policy-evaluator.ts:99-118 (validatedLegacyCodes,
    denseFrozenArray) *)
Definition validatedLegacyCodes (v : js) : option (list QualificationReasonCode) :=
  entries ← exactArray v;
  if (List.length QUALIFICATION_REASON_CODES <? List.length entries)%nat then None
  else mapM (enumValue REASONS) entries.

(** src/src/qualification/qualification-policy-evaluator.ts:30-37
    (evaluateQualificationConditions): once its arguments are validated. *)
Definition evaluate_all (p : EffectiveQualificationProfile) (facts : QualificationCalibrationFacts)
    (legacy : list QualificationReasonCode) : result exn (list QualificationConditionEvidence) :=
  let upstream code := uc_triggered <$> map_get uc_code (ft_upstreamConditions facts) code in
  traverse (fun code =>
    match map_get po_code (pf_conditionPolicies p) code with
    | Some policy => Ok (evaluate code policy facts upstream legacy)
    | None => Err (TypeError "Qualification condition policy is invalid.")
    end) QUALIFICATION_REASON_CODES.

(** [item.status === 'TRIGGERED' && item.mode === 'ENFORCED'] *)
Definition enforced_trigger (c : QualificationConditionEvidence) : bool :=
  bool_decide (cn_status c = S_TRIGGERED) && bool_decide (cn_mode c = M_ENFORCED).

Section Engine.
Context `{Sha256}.

(** src/src/qualification/qualification-policy-evaluator.ts:22-40
    (evaluateQualificationConditions): the conditions and the blockers. *)
Definition evaluateQualificationConditions (profile facts legacyTriggeredCodes : js)
    : result exn (list QualificationConditionEvidence * list QualificationReasonCode) :=
  match effectiveProfileFrom profile with
  | None => Err (QualificationProfileError PROFILE_SCHEMA_INVALID)
  | Some p =>
      f ← invalid_input (qualificationFactsFrom facts);
      legacy ← invalid_input (validatedLegacyCodes legacyTriggeredCodes);
      conditions ← evaluate_all p f legacy;
      Ok (conditions, map cn_code (List.filter enforced_trigger conditions))
  end.

(** * The engine *)

(** src/src/qualification/qualification-engine.ts:173-191 (evidenceFor) *)
Definition evidenceFor (rule : QualificationRule) (signals : list (QualificationSignalKey * bool))
    : QualificationEvidence :=
  let status := match List.find (fun kv => bool_decide (fst kv = ru_signal rule)) signals with
                | Some (_, true) => E_SATISFIED
                | Some (_, false) => E_NOT_SATISFIED
                | None => E_UNKNOWN
                end in
  {| qe_signal := ru_signal rule; qe_dimension := ru_dimension rule; qe_status := status;
     qe_required := ru_required rule; qe_weight := ru_weight rule; qe_message := ru_message rule |}.

(** src/src/qualification/qualification-engine.ts:197-202 (calculateScores): the loop. *)
Definition satisfied_weight (d : QualificationDimension) (l : list QualificationEvidence) : Z :=
  fold_left (fun n e => if bool_decide (qe_status e = E_SATISFIED) && bool_decide (qe_dimension e = d)
                        then n + qe_weight e else n) l 0.
(** src/src/qualification/qualification-engine.ts:214-216 (score) *)
Definition score (value maximum : Z) : QualificationScore :=
  {| sc_score := value; sc_maximum := maximum |}.
(** src/src/qualification/qualification-engine.ts:203-211 (calculateScores): the score
    of a dimension. *)
Definition dimension_score (l : list QualificationEvidence) (m : DimensionMaximums)
    (d : QualificationDimension) : QualificationScore :=
  score (satisfied_weight d l) (maximum_of m d).

(** [[...new Set(codes)]] *)
Definition unique_codes (l : list QualificationReasonCode) : list QualificationReasonCode :=
  fold_left (fun seen c => if includes c seen then seen else seen ++ [c]) l [].
(** src/src/qualification/qualification-engine.ts:218-226 (createBlockers) *)
Definition createBlockers (codes : list QualificationReasonCode) : result exn (list QualificationBlocker) :=
  let uniqueCodes := unique_codes codes in
  for_each (fun c => throw_if (negb (includes c QUALIFICATION_REASON_CODES))
    (QualificationConfigurationError ("Reason code de qualification inconnu: " +:+ reason_name c +:+ "."))) uniqueCodes ;;
  Ok (map (fun c => {| bl_code := c;
                       bl_message := "Condition éliminatoire active: " +:+ reason_name c +:+ "." |})
          uniqueCodes).

(** src/src/qualification/qualification-engine.ts:228-242 (EMPTY_CALIBRATION_FACTS) *)
Definition EMPTY_CALIBRATION_FACTS : js :=
  frozen_record QUALIFICATION_FACT_FIELDS
    (fun k => if String.eqb k "upstreamConditions" then frozen_array [] else JNull).

(** src/src/qualification/qualification-engine.ts:244-249 (QualificationInputSnapshot) *)
Record QualificationInputSnapshot := {
  is_evaluatedAtMs : jsnum;
  is_signals : list (QualificationSignalKey * bool);
  is_blockers : list QualificationReasonCode;
  is_calibrationFacts : option js;
}.
(** src/src/qualification/qualification-engine.ts:251-251 (INPUT_FIELDS) *)
Definition INPUT_FIELDS : list string := ["evaluatedAtMs"; "signals"; "blockers"; "calibrationFacts"].

(** src/src/qualification/qualification-engine.ts:265-275, 318-336 (snapshotSignals,
    dataObjectFields) *)
Definition signalFrom (prop : js_key * (bool * option js)) : option (QualificationSignalKey * bool) :=
  match prop with
  | (KeyString k, d) =>
      v ← descriptor_value (Some d);
      s ← enumValue SIGNALS (JString k);
      b ← booleanValue v;
      Some (s, b)
  | (KeySymbol, _) => None
  end.
Definition snapshotSignals (v : js) : option (list (QualificationSignalKey * bool)) :=
  match v with
  | JObject _ _ _ props => if isPlainObject v then mapM signalFrom props else None
  | _ => None
  end.

(** src/src/qualification/qualification-engine.ts:277-301 (snapshotBlockers): the array
    need not be frozen. *)
Definition snapshotBlockers (v : js) : option (list QualificationReasonCode) :=
  match v with
  | JArray false true _ items =>
      if (List.length QUALIFICATION_REASON_CODES <? List.length items)%nat then None
      else mapM (fun d => x ← descriptor_value d; enumValue REASONS x) items
  | _ => None
  end.

(** src/src/qualification/qualification-engine.ts:303-307 (snapshotCalibrationFacts) *)
Definition snapshotCalibrationFacts (v : js) : option (option js) :=
  match v with
  | JNull => Some None
  | _ => _ ← qualificationFactsFrom v; Some (Some v)
  end.

(** src/src/qualification/qualification-engine.ts:255-263, 309-316
    (snapshotEvaluationInput, exactDataObject) *)
Definition snapshotEvaluationInput (v : js) : option QualificationInputSnapshot :=
  fields ← exactRecord v INPUT_FIELDS;
  match field fields "evaluatedAtMs" with
  | JNumber n =>
      signals ← snapshotSignals (field fields "signals");
      blockers ← snapshotBlockers (field fields "blockers");
      facts ← snapshotCalibrationFacts (field fields "calibrationFacts");
      Some {| is_evaluatedAtMs := n; is_signals := signals; is_blockers := blockers;
              is_calibrationFacts := facts |}
  | _ => None
  end.

(** The timestamp of an integral number; any other number fails the check. *)
Definition timestamp_value (n : jsnum) : Z :=
  match n with
  | NumInt z => z
  | NumNegZero => 0
  | NumOther => -1
  end.

(** src/src/qualification/qualification-engine.ts:63-73, 159-171 (constructor,
    snapshotProfile): the profile the engine keeps, rules and policies in the order they
    are given in. *)
Definition newQualificationEngine (profile : js) : result exn EffectiveQualificationProfile :=
  match effectiveProfileFrom profile with
  | Some p => Ok p
  | None => Err (QualificationProfileError PROFILE_SCHEMA_INVALID)
  end.

(** src/src/qualification/qualification-engine.ts:109-142 (evaluateReport) *)
Definition evaluateReport (profile : EffectiveQualificationProfile) (input : js)
    : result exn QualificationReport :=
  snapshot ← invalid_input (snapshotEvaluationInput input);
  let evaluatedAtMs := timestamp_value (is_evaluatedAtMs snapshot) in
  assertValidTimestampMs TF_evaluatedAtMs evaluatedAtMs ;;
  let evidence := map (fun r => evidenceFor r (is_signals snapshot)) (pf_rules profile) in
  let scores := dimension_score evidence (pf_dimensionMaximums profile) in
  let total := sc_score (scores preparation) + sc_score (scores socialAuthenticity)
               + sc_score (scores onchainHealth) in
  evaluated ← evaluateQualificationConditions (profile_object profile)
                (default EMPTY_CALIBRATION_FACTS (is_calibrationFacts snapshot))
                (frozen_array (map (fun c => JString (reason_name c)) (is_blockers snapshot)));
  blockers ← createBlockers (snd evaluated);
  let missingRequiredEvidence :=
    existsb (fun e => qe_required e && negb (bool_decide (qe_status e = E_SATISFIED))) evidence in
  let verdict := if (0 <? List.length blockers)%nat then V_REJECTED
                 else if missingRequiredEvidence || (total <? pf_minimumTotalScore profile)
                 then V_WATCHLISTED else V_QUALIFIED in
  Ok {| rs_id := pf_id profile; rs_version := pf_version profile; rs_status := pf_status profile;
        rs_fingerprint := pf_fingerprint profile;
        rs_minimumTotalScore := pf_minimumTotalScore profile;
        qr_preparation := scores preparation; qr_socialAuthenticity := scores socialAuthenticity;
        qr_onchainHealth := scores onchainHealth; qr_total := score total 100;
        qr_evidence := evidence; qr_conditions := fst evaluated; qr_blockers := blockers;
        qr_verdict := verdict; qr_evaluatedAtMs := evaluatedAtMs |}.
End Engine.

(** * The register of authorized reports *)

(** src/src/ports/qualification-report-authority.ts:3-6 (QualificationReportSubject) *)
Record QualificationReportSubject := { su_mint : string; su_triggerEventId : string }.
Global Instance QualificationReportSubject_eq_dec : EqDecision QualificationReportSubject.
Proof. solve_decision. Defined.

(** src/src/qualification/qualification-engine.ts:61-61 (authorizedReports).  The reports an
    engine has made are objects with an identity, their index here; the weak map is keyed
    by identity. *)
Record engine_state := {
  es_reports : list QualificationReport;
  es_authorized : gmap nat QualificationReportSubject;
}.
(** A new engine. *)
Definition fresh_engine : engine_state := {| es_reports := []; es_authorized := ∅ |}.

(** src/src/qualification/qualification-engine.ts:145-157 (snapshotReportSubject) *)
Definition snapshotReportSubject (s : QualificationReportSubject)
    : result exn QualificationReportSubject :=
  throw_if (blank (su_mint s) || blank (su_triggerEventId s))
    (TypeError "Qualification report subject is invalid.") ;;
  Ok {| su_mint := su_mint s; su_triggerEventId := su_triggerEventId s |}.

Section Register.
Context `{Sha256} (profile : EffectiveQualificationProfile).

(** src/src/qualification/qualification-engine.ts:95-97 (evaluate): the identity of the
    new report. *)
Definition engine_evaluate (input : js) : prog engine_state exn nat := fun st =>
  match evaluateReport profile input with
  | Ok r => (Ok (List.length (es_reports st)),
             {| es_reports := es_reports st ++ [r]; es_authorized := es_authorized st |})
  | Err e => (Err e, st)
  end.

(** src/src/qualification/qualification-engine.ts:99-107 (evaluateAuthorized) *)
Definition evaluateAuthorized (subject : QualificationReportSubject) (input : js)
    : prog engine_state exn nat :=
  authorizedSubject <-- lift (snapshotReportSubject subject);
  report <-- engine_evaluate input;
  fun st => (Ok report, {| es_reports := es_reports st;
                           es_authorized := <[report := authorizedSubject]> (es_authorized st) |}).

(** src/src/qualification/qualification-engine.ts:83-93 (isAuthorized) *)
Definition isAuthorized (st : engine_state) (report : nat) (subject : QualificationReportSubject) : bool :=
  match es_authorized st !! report with
  | Some s => bool_decide (su_mint s = su_mint subject)
              && bool_decide (su_triggerEventId s = su_triggerEventId subject)
  | None => false
  end.
End Register.

(** * Lemmas: the conditions *)

Lemma map_get_Some {A K} `{!EqDecision K} (key : A -> K) l k x :
  map_get key l k = Some x -> key x = k /\ x ∈ l.
Proof.
  unfold map_get. intros H. destruct (list_find _ (rev l)) as [[i y]|] eqn:E; [|done].
  injection H as ->. apply list_find_Some in E as (Hl & Hk & _). split; [done|].
  apply list_elem_of_lookup_2 in Hl. apply list_elem_of_In, in_rev. by apply list_elem_of_In in Hl.
Qed.
Lemma map_get_is_Some {A K} `{!EqDecision K} (key : A -> K) l k :
  k ∈ map key l -> is_Some (map_get key l k).
Proof.
  intros Hk. apply list_elem_of_fmap in Hk as (x & -> & Hx). unfold map_get.
  destruct (list_find _ (rev l)) as [[i y]|] eqn:E; [by eexists|]. exfalso.
  eapply list_find_None in E. rewrite Forall_forall in E. apply (E x); [|done].
  apply list_elem_of_In. rewrite <- in_rev. by apply list_elem_of_In.
Qed.

Lemma all_codes c : c ∈ QUALIFICATION_REASON_CODES.
Proof. destruct c; by apply (bool_decide_unpack _). Qed.
Lemma codes_NoDup : NoDup QUALIFICATION_REASON_CODES.
Proof. by apply (bool_decide_unpack _). Qed.

(** A valid profile has a policy for every reason code. *)
Lemma policy_exists p c :
  valid_profile p ->
  exists policy, map_get po_code (pf_conditionPolicies p) c = Some policy
                 /\ po_code policy = c /\ valid_policy policy.
Proof.
  intros Hv.
  assert (c ∈ map po_code (pf_conditionPolicies p)) as Hc.
  { assert (map po_code (pf_conditionPolicies p) ≡ₚ QUALIFICATION_REASON_CODES) as ->; [|apply all_codes].
    apply submseteq_length_Permutation.
    - apply NoDup_submseteq; [apply (vf_codes p Hv)|]. intros x _. apply all_codes.
    - rewrite length_map, (vf_count p Hv). cbn. lia. }
  destruct (map_get_is_Some _ _ _ Hc) as [policy Hp]. exists policy. split; [done|].
  apply map_get_Some in Hp as [Hk Hin]. split; [done|].
  pose proof (vf_policies p Hv) as Hall. rewrite Forall_forall in Hall. by apply Hall.
Qed.

Record valid_facts (f : QualificationCalibrationFacts) : Prop := {
  vt_top1 : valid_bps (ft_top1HolderBps f) 0;
  vt_top5 : valid_bps (ft_top5HoldersBps f) 0;
  vt_top10 : valid_bps (ft_top10HoldersBps f) 0;
  vt_cluster : valid_bps (ft_maximumRelatedClusterBps f) 0;
  vt_loss : valid_bps (ft_roundTripLossBps f) 0;
  vt_funders : match ft_maximumSharedFunderCount f with
               | Some n => 0 <= n <= MAX_SAFE_INTEGER
               | None => True
               end;
  vt_upstream : NoDup (map uc_code (ft_upstreamConditions f));
}.

Lemma nullable_Some {A} (f : js -> option A) v o :
  nullable f v = Some o -> match o with Some x => f v = Some x | None => True end.
Proof.
  assert ((x ← f v; Some (Some x)) = Some o -> match o with Some x => f v = Some x | None => True end)
    as Hx by (intros (x & Hx & [= <-])%bind_Some; done).
  unfold nullable. destruct v; try exact Hx. by intros [= <-].
Qed.
Lemma nullableBasisPoints_valid v o : nullableBasisPoints v = Some o -> valid_bps o 0.
Proof.
  intros H%nullable_Some. destruct o as [z|]; [|done].
  apply boundedBigint_Some in H as [_ H]. exact H.
Qed.
Lemma upstreamConditionsFrom_NoDup v l : upstreamConditionsFrom v = Some l -> NoDup (map uc_code l).
Proof.
  unfold upstreamConditionsFrom. intros (entries & _ & E)%bind_Some. destruct (_ <? _)%nat; [done|].
  apply bind_Some in E as (cs & _ & E). destruct (all_distinct _) eqn:Hd; [|done].
  injection E as <-. by apply all_distinct_true.
Qed.
Lemma qualificationFactsFrom_valid v f : qualificationFactsFrom v = Some f -> valid_facts f.
Proof.
  unfold qualificationFactsFrom. intros H.
  repeat (apply bind_Some in H; let x := fresh "x" in let Hx := fresh "Hx" in
          destruct H as (x & Hx & H)).
  assert (f = _) as -> by (injection H as H; symmetry; exact H).
  split; cbn; try (by eapply nullableBasisPoints_valid); [|by eapply upstreamConditionsFrom_NoDup].
  match goal with H : nullableSharedFunderCount _ = Some ?o |- _ => rename H into Hn end.
  apply nullable_Some in Hn. destruct x5 as [n|]; [|done]. by apply safeInteger_Some in Hn as (_ & ? & _).
Qed.

(** What the ledger asks of a condition under its policy. *)
Record coherent (p : QualificationConditionPolicy) (c : QualificationConditionEvidence) : Prop := {
  co_code : cn_code c = po_code p;
  co_mode : cn_mode c = po_mode p;
  co_disabled : same_disabled c = true;
  co_thresholds : matchesPolicyThresholds c p = true;
  co_snapshot : snapshot_condition c = Ok c;
}.
(** An active condition: its records have the members the ledger expects. *)
Record active (p : QualificationConditionPolicy) (c : QualificationConditionEvidence) : Prop := {
  ac_code : cn_code c = po_code p;
  ac_mode : cn_mode c = po_mode p;
  ac_status : cn_status c <> S_DISABLED;
  ac_thresholds : cn_thresholds c = expectedPolicyThresholds p;
  ac_observed_keys : map fst (cn_observed c) = observed_keys c;
  ac_observed : forallb (fun kv => observedConditionValueIsValid (fst kv) (snd kv)) (cn_observed c) = true;
}.

Lemma lookup_member_cons {A} (l : list (string * A)) k v key :
  lookup_member ((k, v) :: l) key = if decide (k = key) then Some v else lookup_member l key.
Proof.
  unfold lookup_member. cbn. destruct (decide (k = key)); cbn; [done|].
  by destruct (list_find _ l) as [[i [k0 v0]]|].
Qed.

Lemma lookup_member_elem {A} (l : list (string * A)) k v :
  NoDup (map fst l) -> (k, v) ∈ l -> lookup_member l k = Some v.
Proof.
  induction l as [|[k' v'] l IH]; intros Hd Hin; [by inversion Hin|].
  cbn [map fst] in Hd. apply NoDup_cons in Hd as [Hk Hd]. rewrite lookup_member_cons.
  apply elem_of_cons in Hin as [[= -> ->]|Hin]; [by rewrite decide_True|].
  rewrite decide_False; [by apply IH|]. intros ->. apply Hk. apply list_elem_of_fmap. by exists (k, v).
Qed.

Lemma snapshotConditionRecord_id (l : list (string * cond_value)) (valid : string -> cond_value -> bool) :
  NoDup (map fst l) -> forallb (fun kv => valid (fst kv) (snd kv)) l = true ->
  snapshotConditionRecord l (map fst l) valid = Ok l.
Proof.
  intros Hd Hv. unfold snapshotConditionRecord. rewrite throw_if_skip.
  - match goal with |- traverse ?f _ = _ =>
      assert (forall l', l' ⊆ l -> traverse f (map fst l') = Ok l') as Hgen end; [|by apply Hgen].
    intros l' Hs. induction l' as [|[k v] l' IH]; [done|]. cbn -[lookup_member].
    assert ((k, v) ∈ l) as Hin by (apply Hs; left).
    rewrite (lookup_member_elem l k v) by done. rewrite forallb_forall in Hv.
    pose proof (Hv (k, v) ltac:(by apply list_elem_of_In)) as Hkv. cbn in Hkv. rewrite Hkv.
    cbn -[lookup_member]. cbn -[lookup_member] in IH.
    rewrite IH by (intros x Hx; apply Hs; by right). done.
  - rewrite length_map, Nat.eqb_refl. cbn [negb orb]. apply negb_false_iff, forallb_forall.
    intros k Hk. apply in_map_iff in Hk as ([k' v] & <- & Hin). apply bool_decide_eq_true.
    exists v. apply lookup_member_elem; [done|]. by apply list_elem_of_In.
Qed.

Lemma thresholds_keys p c :
  cn_code c = po_code p -> cn_status c <> S_DISABLED -> po_mode p <> M_DISABLED ->
  map fst (expectedPolicyThresholds p) = threshold_keys c.
Proof.
  intros Hc Hs Hm. unfold threshold_keys, expectedPolicyThresholds.
  rewrite !bool_decide_eq_false_2 by done. rewrite Hc. by destruct (po_code p).
Qed.
Lemma nullableBigInt_valid o : valid_bps o 0 -> isNullableBasisPoints (nullableBigInt o) = true.
Proof. destruct o as [z|]; cbn; [lia|done]. Qed.
Lemma thresholds_valid p :
  valid_policy p ->
  forallb (fun kv => thresholdConditionValueIsValid (fst kv) (snd kv)) (expectedPolicyThresholds p) = true.
Proof.
  intros []. unfold expectedPolicyThresholds. case_bool_decide; [done|].
  destruct (po_code p); cbn; rewrite ?nullableBigInt_valid by done; try done.
  destruct (po_minimumSharedFunders p) as [n|]; [|done]. cbn in *.
  change (thresholdConditionValueIsValid _ _)
    with (is_safe_integer n && (1 <=? n) && (n <=? 10000)).
  unfold is_safe_integer, MAX_SAFE_INTEGER. lia.
Qed.

Lemma expected_matches (l : list (string * cond_value)) :
  NoDup (map fst l) ->
  forallb (fun kv => bool_decide (lookup_member l (fst kv) = Some (snd kv))) l = true.
Proof.
  intros Hd. rewrite forallb_forall. intros [k v] Hin. apply bool_decide_eq_true.
  apply lookup_member_elem; [done|]. by apply list_elem_of_In.
Qed.

Lemma keys_NoDup_observed c : NoDup (observed_keys c).
Proof.
  unfold observed_keys. case_bool_decide; [constructor|].
  destruct (cn_code c); by apply (bool_decide_unpack _).
Qed.
Lemma keys_NoDup_thresholds p : NoDup (map fst (expectedPolicyThresholds p)).
Proof.
  unfold expectedPolicyThresholds. case_bool_decide; [constructor|].
  destruct (po_code p); by apply (bool_decide_unpack _).
Qed.

Lemma active_coherent p c : valid_policy p -> po_mode p <> M_DISABLED -> active p c -> coherent p c.
Proof.
  intros Hp Hm [Hc Hmo Hs Ht Hk Ho]. split; try done.
  - unfold same_disabled. rewrite !bool_decide_eq_false_2; [done | done | by rewrite Hmo].
  - unfold matchesPolicyThresholds. rewrite Ht, Nat.eqb_refl. apply expected_matches, keys_NoDup_thresholds.
  - unfold snapshot_condition. rewrite <- Hk, snapshotConditionRecord_id; [|rewrite Hk; apply keys_NoDup_observed|done].
    cbn. rewrite <- (thresholds_keys p c) by done. rewrite Ht.
    rewrite snapshotConditionRecord_id; [|apply keys_NoDup_thresholds|by apply thresholds_valid].
    cbn. rewrite <- Ht. by destruct c.
Qed.

Lemma trusted_active p c upstream legacy :
  active p c -> active p (triggeredByTrustedSource c upstream legacy).
Proof.
  intros Ha. unfold triggeredByTrustedSource.
  assert (forall m, active p (evidence (cn_code c) (cn_mode c) S_TRIGGERED (cn_observed c)
                                (cn_thresholds c) m)) as Ht.
  { intros m. destruct Ha as [Hc Hm Hs Ht Hk Ho]. split; try done.
    transitivity (observed_keys c); [exact Hk|]. unfold observed_keys.
    by rewrite !bool_decide_eq_false_2. }
  repeat case_match; auto.
Qed.

Lemma observed_bps_valid key o :
  key ∈ ["top1HolderBps"; "top5HoldersBps"; "top10HoldersBps"; "maximumRelatedClusterBps";
         "roundTripLossBps"] ->
  valid_bps o 0 -> observedConditionValueIsValid key (nullableBigInt o) = true.
Proof.
  intros Hk Ho%nullableBigInt_valid. repeat (apply elem_of_cons in Hk as [->|Hk]; [exact Ho|]).
  by inversion Hk.
Qed.
Lemma observed_count_valid o :
  match o with Some n => 0 <= n <= MAX_SAFE_INTEGER | None => True end ->
  observedConditionValueIsValid "maximumSharedFunderCount" (nullable_number o) = true.
Proof.
  destruct o as [n|]; [|done]. intros Hn.
  change (is_safe_integer n && (0 <=? n) && (n <=? MAX_SAFE_INTEGER) = true).
  unfold is_safe_integer. unfold MAX_SAFE_INTEGER in *. lia.
Qed.
Lemma observed_bool_valid key o :
  key ∈ ["buySimulationSucceeded"; "sellQuoteAvailable"] ->
  observedConditionValueIsValid key (nullable_bool o) = true.
Proof.
  intros Hk. repeat (apply elem_of_cons in Hk as [->|Hk]; [by destruct o|]). by inversion Hk.
Qed.

Lemma active_intro p status observed message :
  po_mode p <> M_DISABLED -> status <> S_DISABLED ->
  let c := evidence (po_code p) (po_mode p) status observed (expectedPolicyThresholds p) message in
  map fst observed = observed_keys c ->
  forallb (fun kv => observedConditionValueIsValid (fst kv) (snd kv)) observed = true ->
  active p c.
Proof. by split. Qed.

Lemma holder_form p f :
  exists status message, status <> S_DISABLED /\
  holder p f = evidence R_HOLDER_CONCENTRATION_EXCEEDED (po_mode p) status
    [("top1HolderBps", nullableBigInt (ft_top1HolderBps f));
     ("top5HoldersBps", nullableBigInt (ft_top5HoldersBps f));
     ("top10HoldersBps", nullableBigInt (ft_top10HoldersBps f))]
    [("maximumTop1Bps", nullableBigInt (po_maximumTop1Bps p));
     ("maximumTop5Bps", nullableBigInt (po_maximumTop5Bps p));
     ("maximumTop10Bps", nullableBigInt (po_maximumTop10Bps p))] message.
Proof. unfold holder. repeat case_match; eexists _, _; (split; [|reflexivity]); done. Qed.
Lemma maximum_form code mode o t key tkey m :
  exists status message, status <> S_DISABLED /\
  maximum code mode o t key tkey m
  = evidence code mode status [(key, nullableBigInt o)] [(tkey, nullableBigInt t)] message.
Proof. unfold maximum. repeat case_match; eexists _, _; (split; [|reflexivity]); repeat case_match; done. Qed.
Lemma minimum_form p o :
  exists status message, status <> S_DISABLED /\
  minimum p o = evidence R_SHARED_FUNDER_CLUSTER (po_mode p) status
    [("maximumSharedFunderCount", nullable_number o)]
    [("minimumSharedFunders", nullable_number (po_minimumSharedFunders p))] message.
Proof.
  unfold minimum. destruct (po_minimumSharedFunders p), o; eexists _, _;
    (split; [|reflexivity]); repeat case_match; done.
Qed.
Lemma boolean_form code mode o key m :
  exists status message, status <> S_DISABLED /\
  booleanCondition code mode o key m
  = evidence code mode status [(key, nullable_bool o)] [] message.
Proof. unfold booleanCondition. repeat case_match; eexists _, _; (split; [|reflexivity]); done. Qed.

Ltac elem_tac := by apply (bool_decide_unpack _).

Lemma evaluate_active p f upstream legacy :
  valid_facts f -> po_mode p <> M_DISABLED -> active p (evaluate (po_code p) p f upstream legacy).
Proof.
  intros [] Hm. unfold evaluate. rewrite bool_decide_eq_false_2 by done.
  assert (forall status observed thresholds message, status <> S_DISABLED ->
    thresholds = expectedPolicyThresholds p ->
    map fst observed = observed_keys (evidence (po_code p) (po_mode p) status observed thresholds message) ->
    forallb (fun kv => observedConditionValueIsValid (fst kv) (snd kv)) observed = true ->
    active p (evidence (po_code p) (po_mode p) status observed thresholds message)) as Hin.
  { intros status observed thresholds message Hs -> Hk Ho. by apply active_intro. }
  unfold expectedPolicyThresholds, observed_keys in Hin. rewrite bool_decide_eq_false_2 in Hin by done.
  cbn [cn_status cn_code evidence] in Hin.
  destruct (po_code p) eqn:Hc; try apply trusted_active.
  all: try (destruct (includes _ legacy); [|destruct (upstream _) as [[]|]]; apply Hin; try done;
            by rewrite bool_decide_eq_false_2).
  all: match goal with
       | |- active _ (holder _ _) => destruct (holder_form p f) as (s & m & Hs & ->)
       | |- active _ (maximum ?c ?d ?o ?t ?k ?l ?e) =>
           destruct (maximum_form c d o t k l e) as (s & m & Hs & ->)
       | |- active _ (minimum _ ?o) => destruct (minimum_form p o) as (s & m & Hs & ->)
       | |- active _ (booleanCondition ?c ?d ?o ?k ?e) =>
           destruct (boolean_form c d o k e) as (s & m & Hs & ->)
       end; apply Hin; [done | done | by rewrite bool_decide_eq_false_2 |];
       cbn -[observedConditionValueIsValid];
       first [ by rewrite observed_count_valid
             | by rewrite observed_bool_valid by elem_tac
             | by rewrite !observed_bps_valid by (done || elem_tac) ].
Qed.

Lemma evaluate_coherent p f upstream legacy :
  valid_policy p -> valid_facts f -> coherent p (evaluate (po_code p) p f upstream legacy).
Proof.
  intros Hp Hf. destruct (decide (po_mode p = M_DISABLED)) as [Hm|Hm].
  - unfold evaluate. rewrite bool_decide_eq_true_2 by done. split; try done.
    + cbn. unfold same_disabled. cbn. by rewrite !bool_decide_eq_true_2.
    + unfold matchesPolicyThresholds, expectedPolicyThresholds. by rewrite bool_decide_eq_true_2.
  - apply active_coherent; [done..|]. by apply evaluate_active.
Qed.

(** Validated arguments are evaluated, one coherent condition per reason code. *)
Definition conditions_of (p : EffectiveQualificationProfile) (f : QualificationCalibrationFacts)
    (legacy : list QualificationReasonCode) : list QualificationConditionEvidence :=
  match evaluate_all p f legacy with
  | Ok l => l
  | Err _ => []
  end.

Lemma evaluate_all_Ok p f legacy :
  valid_profile p -> valid_facts f ->
  evaluate_all p f legacy = Ok (conditions_of p f legacy)
  /\ Forall2 (fun code c => exists policy,
       map_get po_code (pf_conditionPolicies p) code = Some policy /\ po_code policy = code
       /\ coherent policy c
       /\ c = evaluate code policy f
                (fun code => uc_triggered <$> map_get uc_code (ft_upstreamConditions f) code) legacy)
     QUALIFICATION_REASON_CODES (conditions_of p f legacy).
Proof.
  intros Hv Hf. unfold conditions_of, evaluate_all. generalize QUALIFICATION_REASON_CODES as codes.
  induction codes as [|code codes [IH1 IH2]]; [by split; [|constructor]|].
  cbn [traverse]. destruct (policy_exists p code Hv) as (policy & Hp & Hc & Hvp). rewrite Hp.
  cbn [mbind result_bind]. rewrite IH1. cbn [mbind result_bind]. split; [done|].
  constructor; [|done]. exists policy. split_and!; try done. rewrite <- Hc at 1.
  by apply evaluate_coherent.
Qed.

Lemma check_conditions_coherent policies codes conditions :
  Forall2 (fun code c => exists policy, map_get po_code policies code = Some policy
             /\ po_code policy = code /\ coherent policy c) codes conditions ->
  check_conditions policies codes conditions
  = Ok (map cn_code (List.filter enforced_trigger conditions)).
Proof.
  induction 1 as [|code c codes cs (policy & Hp & Hc & [Hcode Hmode Hd Ht _]) Hl IH]; [done|].
  cbn [check_conditions List.filter]. rewrite Hcode, Hc, Hp, Hd, Ht, Hmode, IH.
  rewrite (bool_decide_eq_true_2 (code = code)) by done.
  rewrite (bool_decide_eq_true_2 (po_mode policy = po_mode policy)) by done.
  cbn [negb orb throw_if mbind result_bind].
  replace (enforced_trigger c) with (bool_decide (po_mode policy = M_ENFORCED)
    && bool_decide (cn_status c = S_TRIGGERED)) by (unfold enforced_trigger; by rewrite Hmode, andb_comm).
  destruct (_ && _); cbn; by rewrite ?Hcode, ?Hc.
Qed.
Lemma conditions_codes (R : QualificationReasonCode -> QualificationConditionEvidence -> Prop) codes cs :
  (forall code c, R code c -> cn_code c = code) -> Forall2 R codes cs -> map cn_code cs = codes.
Proof. intros HR. induction 1; cbn; [done|]. f_equal; auto. Qed.

Lemma unique_codes_NoDup l : NoDup l -> unique_codes l = l.
Proof.
  assert (forall seen, NoDup (seen ++ l) ->
    fold_left (fun s c => if includes c s then s else s ++ [c]) l seen = seen ++ l) as Hgen.
  { induction l as [|c l IH]; intros seen Hd; cbn; [by rewrite app_nil_r|].
    assert (includes c seen = false) as ->.
    { apply includes_false. apply NoDup_app in Hd as (_ & Hd & _). intros Hin.
      apply (Hd c Hin). left. }
    rewrite IH; by rewrite <- app_assoc. }
  intros Hd. by apply (Hgen []).
Qed.
Lemma filter_codes_NoDup (cs : list QualificationConditionEvidence) g :
  NoDup (map cn_code cs) -> NoDup (map cn_code (List.filter g cs)).
Proof.
  induction cs as [|c cs IH]; cbn; [done|]. intros [Hc Hd]%NoDup_cons.
  destruct (g c); cbn; [|by apply IH]. constructor; [|by apply IH].
  intros Hin. apply Hc. apply list_elem_of_fmap in Hin as (x & Hx & Hin).
  apply list_elem_of_fmap. exists x. split; [done|].
  apply list_elem_of_In, filter_In in Hin as [Hin _]. by apply list_elem_of_In.
Qed.
Definition blocker (c : QualificationReasonCode) : QualificationBlocker :=
  {| bl_code := c; bl_message := "Condition éliminatoire active: " +:+ reason_name c +:+ "." |}.
Lemma blocker_codes l : map bl_code (map blocker l) = l.
Proof. induction l as [|c l IH]; cbn; congruence. Qed.
Lemma createBlockers_Ok l : NoDup l -> createBlockers l = Ok (map blocker l).
Proof.
  intros Hd. unfold createBlockers. rewrite unique_codes_NoDup by done.
  assert (for_each (fun c => throw_if (negb (includes c QUALIFICATION_REASON_CODES))
    (QualificationConfigurationError ("Reason code de qualification inconnu: " +:+ reason_name c +:+ "."))) l = Ok tt) as ->;
    [|done].
  clear Hd. induction l as [|c l IH]; [done|]. cbn [for_each].
  rewrite (proj2 (includes_true _ _) (all_codes c)). cbn. exact IH.
Qed.

(** * Lemmas: the report *)

Definition no_facts : QualificationCalibrationFacts :=
  {| ft_top1HolderBps := None; ft_top5HoldersBps := None; ft_top10HoldersBps := None;
     ft_maximumRelatedClusterBps := None; ft_maximumSharedFunderCount := None;
     ft_buySimulationSucceeded := None; ft_sellQuoteAvailable := None;
     ft_roundTripLossBps := None; ft_upstreamConditions := []; ft_quoteLineage := None |}.
Lemma empty_facts : qualificationFactsFrom EMPTY_CALIBRATION_FACTS = Some no_facts.
Proof. vm_compute. reflexivity. Qed.

Definition input_facts (s : QualificationInputSnapshot) : QualificationCalibrationFacts :=
  default no_facts (qualificationFactsFrom (default EMPTY_CALIBRATION_FACTS (is_calibrationFacts s))).
Lemma input_facts_read v s :
  snapshotEvaluationInput v = Some s ->
  qualificationFactsFrom (default EMPTY_CALIBRATION_FACTS (is_calibrationFacts s))
  = Some (input_facts s) /\ (List.length (is_blockers s) <= 14)%nat.
Proof.
  unfold snapshotEvaluationInput. intros H. apply bind_Some in H as (fields & _ & H).
  destruct (field fields "evaluatedAtMs"); try done.
  apply bind_Some in H as (signals & _ & H). apply bind_Some in H as (blockers & Hb & H).
  apply bind_Some in H as (facts & Hf & [= <-]). unfold input_facts. cbn [is_calibrationFacts is_blockers].
  split.
  - assert (forall w, (_ ← qualificationFactsFrom w; Some (Some w)) = Some facts ->
      qualificationFactsFrom (default EMPTY_CALIBRATION_FACTS facts)
      = Some (default no_facts (qualificationFactsFrom (default EMPTY_CALIBRATION_FACTS facts)))) as Hw.
    { intros w (f & Hw & [= <-])%bind_Some. unfold default, id. cbn match. by rewrite Hw. }
    unfold snapshotCalibrationFacts in Hf.
    destruct (field fields "calibrationFacts"); try (by eapply Hw).
    injection Hf as <-. unfold default, id. cbn match. by rewrite empty_facts.
  - unfold snapshotBlockers in Hb. repeat case_match; try done.
    apply length_mapM in Hb. cbn [List.length QUALIFICATION_REASON_CODES] in *.
    match goal with H : (_ <? _)%nat = false |- _ => apply Nat.ltb_ge in H end. lia.
Qed.
Lemma legacy_read l :
  (List.length l <= 14)%nat ->
  validatedLegacyCodes (frozen_array (map (fun c => JString (reason_name c)) l)) = Some l.
Proof.
  intros Hl. unfold validatedLegacyCodes. rewrite exactArray_frozen. cbn [mbind option_bind].
  rewrite length_map. replace (_ <? _)%nat with false by (symmetry; apply Nat.ltb_ge; exact Hl).
  apply (mapM_objects _ _ (fun _ => True)); [|by apply Forall_true].
  intros c _. apply enumValue_reason.
Qed.

(** The report of a snapshot. *)
Definition report_of (p : EffectiveQualificationProfile) (s : QualificationInputSnapshot)
    : QualificationReport :=
  let evidence := map (fun r => evidenceFor r (is_signals s)) (pf_rules p) in
  let scores := dimension_score evidence (pf_dimensionMaximums p) in
  let total := sc_score (scores preparation) + sc_score (scores socialAuthenticity)
               + sc_score (scores onchainHealth) in
  let conditions := conditions_of p (input_facts s) (is_blockers s) in
  let blockers := map blocker (map cn_code (List.filter enforced_trigger conditions)) in
  let missing :=
    existsb (fun e => qe_required e && negb (bool_decide (qe_status e = E_SATISFIED))) evidence in
  {| rs_id := pf_id p; rs_version := pf_version p; rs_status := pf_status p;
     rs_fingerprint := pf_fingerprint p; rs_minimumTotalScore := pf_minimumTotalScore p;
     qr_preparation := scores preparation; qr_socialAuthenticity := scores socialAuthenticity;
     qr_onchainHealth := scores onchainHealth; qr_total := score total 100;
     qr_evidence := evidence; qr_conditions := conditions; qr_blockers := blockers;
     qr_verdict := if (0 <? List.length blockers)%nat then V_REJECTED
                   else if missing || (total <? pf_minimumTotalScore p)
                   then V_WATCHLISTED else V_QUALIFIED;
     qr_evaluatedAtMs := timestamp_value (is_evaluatedAtMs s) |}.

(** Evaluation throws on a malformed input or timestamp, and otherwise returns. *)
Lemma evaluateReport_total `{Sha256} p input :
  effectiveProfileFrom (profile_object p) = Some p ->
  evaluateReport p input =
  match snapshotEvaluationInput input with
  | None => Err (TypeError "")
  | Some s => if safe_nonneg (timestamp_value (is_evaluatedAtMs s)) then Ok (report_of p s)
              else Err (InvalidTimestampError TF_evaluatedAtMs)
  end.
Proof.
  intros Hp. pose proof (proj1 (effectiveProfileFrom_Some _ _ Hp)) as Hv.
  unfold evaluateReport. destruct (snapshotEvaluationInput input) as [s|] eqn:Hs; [|done].
  cbn [invalid_input mbind result_bind]. unfold assertValidTimestampMs.
  destruct (safe_nonneg _); [|done]. cbn [negb throw_if mbind result_bind].
  destruct (input_facts_read _ _ Hs) as [Hf Hb]. unfold evaluateQualificationConditions.
  rewrite Hp, Hf, legacy_read by done. cbn [invalid_input mbind result_bind].
  destruct (evaluate_all_Ok p (input_facts s) (is_blockers s) Hv) as [He Hc];
    [by eapply qualificationFactsFrom_valid|].
  rewrite He. cbn [mbind result_bind fst snd].
  rewrite createBlockers_Ok; [done|]. apply filter_codes_NoDup.
  erewrite conditions_codes; [apply codes_NoDup | | exact Hc].
  intros code c (policy & _ & Hk & Hco & _). rewrite (co_code _ _ Hco). exact Hk.
Qed.

Lemma newQualificationEngine_Ok `{Sha256} v p :
  newQualificationEngine v = Ok p ->
  valid_profile p /\ effectiveProfileFrom (profile_object p) = Some p.
Proof.
  unfold newQualificationEngine. intros Hp. destruct (effectiveProfileFrom v) as [q|] eqn:Hq; [|done].
  assert (q = p) as -> by congruence. apply effectiveProfileFrom_Some in Hq as (Hv & Hh & Hf).
  split; [done|]. by apply effectiveProfileFrom_object.
Qed.
Lemma evaluateReport_Ok `{Sha256} v p input r :
  newQualificationEngine v = Ok p -> evaluateReport p input = Ok r ->
  exists s, snapshotEvaluationInput input = Some s /\ r = report_of p s
            /\ valid_facts (input_facts s).
Proof.
  intros [Hv Hp]%newQualificationEngine_Ok Hr. rewrite evaluateReport_total in Hr by done.
  destruct (snapshotEvaluationInput input) as [s|] eqn:Hs; [|done].
  destruct (safe_nonneg _); [|done]. assert (r = report_of p s) as -> by congruence.
  exists s. split_and!; [done..|]. destruct (input_facts_read _ _ Hs) as [Hf _].
  by eapply qualificationFactsFrom_valid.
Qed.

(** * Lemmas: the scores *)

Lemma satisfied_weight_sum d l n :
  fold_left (fun n e => if bool_decide (qe_status e = E_SATISFIED) && bool_decide (qe_dimension e = d)
                        then n + qe_weight e else n) l n = n + satisfied_weight d l.
Proof.
  unfold satisfied_weight. revert n. induction l as [|e l IH]; intros n; cbn [fold_left]; [lia|].
  destruct (_ && _); [rewrite IH, (IH (0 + qe_weight e)); lia | apply IH].
Qed.
Lemma satisfied_weight_bound d signals rules :
  Forall valid_rule rules ->
  0 <= satisfied_weight d (map (fun r => evidenceFor r signals) rules) <= weight_in d rules.
Proof.
  induction 1 as [|r rules [Hw _] Hl IH]; [cbn; lia|].
  unfold satisfied_weight. cbn [map fold_left weight_in foldr]. rewrite satisfied_weight_sum.
  change (foldr _ 0 rules) with (weight_in d rules). cbn [qe_dimension qe_weight evidenceFor].
  destruct (bool_decide (qe_status _ = _)); cbn [andb]; destruct (bool_decide (ru_dimension r = d)); lia.
Qed.

(** * Lemmas: the conditions the ledger looks up *)

Lemma map_get_unique {A K} `{!EqDecision K} (key : A -> K) l x :
  NoDup (map key l) -> x ∈ l -> map_get key l (key x) = Some x.
Proof.
  intros Hd Hx. destruct (map_get_is_Some key l (key x)) as [y Hy].
  { apply list_elem_of_fmap. by exists x. }
  rewrite Hy. f_equal. apply map_get_Some in Hy as [Hk Hy].
  apply list_elem_of_lookup in Hx as [i Hi], Hy as [j Hj].
  assert (i = j) as ->; [|congruence].
  eapply (NoDup_lookup (map key l)); [done| |]; rewrite list_lookup_fmap.
  - by rewrite Hi.
  - rewrite Hj. cbn. by rewrite Hk.
Qed.

Lemma report_codes p s :
  valid_profile p -> valid_facts (input_facts s) ->
  map cn_code (qr_conditions (report_of p s)) = QUALIFICATION_REASON_CODES.
Proof.
  intros Hv Hf. destruct (evaluate_all_Ok p (input_facts s) (is_blockers s) Hv Hf) as [_ Hc].
  eapply conditions_codes; [|exact Hc]. intros code c (policy & _ & Hk & Hco & _).
  rewrite (co_code _ _ Hco). exact Hk.
Qed.

(** The condition a report holds for a code is the evaluation of the code's policy. *)
Lemma report_condition p s code :
  valid_profile p -> valid_facts (input_facts s) ->
  exists policy, map_get po_code (pf_conditionPolicies p) code = Some policy
    /\ po_code policy = code /\ valid_policy policy
    /\ let c := evaluate code policy (input_facts s)
                  (fun code => uc_triggered <$> map_get uc_code
                     (ft_upstreamConditions (input_facts s)) code) (is_blockers s) in
       map_get cn_code (qr_conditions (report_of p s)) code = Some c
       /\ c ∈ qr_conditions (report_of p s).
Proof.
  intros Hv Hf. destruct (policy_exists p code Hv) as (policy & Hp & Hk & Hvp).
  exists policy. split_and!; try done. cbv zeta.
  destruct (evaluate_all_Ok p (input_facts s) (is_blockers s) Hv Hf) as [_ Hc].
  change (conditions_of p (input_facts s) (is_blockers s)) with (qr_conditions (report_of p s)) in Hc.
  pose proof (all_codes code) as Hin. apply list_elem_of_lookup in Hin as [i Hi].
  destruct (Forall2_lookup_l _ _ _ _ _ Hc Hi) as (c & Hl & policy' & Hp' & _ & Hco & He).
  assert (policy' = policy) as -> by congruence. rewrite <- He. clear He.
  apply list_elem_of_lookup_2 in Hl. split; [|done].
  replace code with (cn_code c) by (rewrite (co_code _ _ Hco); exact Hk).
  apply map_get_unique; [|done]. rewrite report_codes by done. apply codes_NoDup.
Qed.

Lemma rejected_iff p s :
  qr_verdict (report_of p s) = V_REJECTED <->
  exists c, c ∈ qr_conditions (report_of p s) /\ enforced_trigger c = true.
Proof.
  cbn [report_of qr_verdict qr_conditions]. rewrite !length_map.
  set (l := List.filter enforced_trigger _).
  assert ((0 <? List.length l)%nat = true <->
    exists c, c ∈ conditions_of p (input_facts s) (is_blockers s) /\ enforced_trigger c = true) as <-.
  { rewrite Nat.ltb_lt. split.
    - intros Hl. destruct l as [|c l'] eqn:E; [cbn in Hl; lia|]. exists c.
      assert (In c l) as Hin by (rewrite E; by left). by apply filter_In in Hin as [?%list_elem_of_In ?].
    - intros (c & Hin & Hc). assert (In c l) as Hl by (apply filter_In; split; [by apply list_elem_of_In|done]).
      destruct l; [done|]. cbn. lia. }
  destruct (0 <? _)%nat; [done|]. by destruct (_ || _).
Qed.

Lemma trusted_observed c upstream legacy : cn_observed (triggeredByTrustedSource c upstream legacy) = cn_observed c.
Proof. unfold triggeredByTrustedSource. by repeat case_match. Qed.
Lemma trusted_triggered c upstream legacy :
  cn_status c = S_TRIGGERED -> cn_status (triggeredByTrustedSource c upstream legacy) = S_TRIGGERED.
Proof. intros H. unfold triggeredByTrustedSource. by repeat case_match. Qed.

Lemma loss_threshold policy :
  po_code policy = R_ROUND_TRIP_LOSS_EXCEEDED -> valid_policy policy ->
  exists m, po_maximumRoundTripLossBps policy = Some m.
Proof.
  intros Hc [_ _ _ _ _ _ Ht]. unfold validatePolicyThresholds in Ht. rewrite Hc in Ht.
  destruct (po_maximumRoundTripLossBps policy) as [m|]; [by exists m|].
  rewrite negb_true_iff, !orb_false_iff in Ht. destruct Ht as [_ Ht]. done.
Qed.

(** A report with complete and successful execution facts that is not rejected passes the
    ledger's check of those facts. *)
Lemma execution_facts_pass p s l :
  valid_profile p -> valid_facts (input_facts s) ->
  ft_buySimulationSucceeded (input_facts s) = Some true ->
  ft_sellQuoteAvailable (input_facts s) = Some true ->
  ft_roundTripLossBps (input_facts s) = Some l ->
  qr_verdict (report_of p s) <> V_REJECTED ->
  validateQualificationExecutionFacts (report_of p s) l p = Ok tt.
Proof.
  intros Hv Hf Hb Hs Hl Hverdict.
  destruct (report_condition p s R_BUY_SIMULATION_FAILED Hv Hf) as (bp & Hbp & _ & _ & Hbc & _).
  destruct (report_condition p s R_SELL_QUOTE_UNAVAILABLE Hv Hf) as (sp & Hsp & _ & _ & Hsc & _).
  destruct (report_condition p s R_ROUND_TRIP_LOSS_EXCEEDED Hv Hf) as (lp & Hlp & Hlk & Hlv & Hlc & Hlin).
  destruct (loss_threshold lp Hlk Hlv) as [m Hm].
  unfold validateQualificationExecutionFacts. rewrite Hbp, Hsp, Hlp.
  unfold evaluate in Hbc, Hsc, Hlc, Hlin. rewrite Hbc, Hsc, Hlc. clear Hbc Hsc Hlc.
  rewrite throw_if_skip; [rewrite throw_if_skip|].
  - destruct (bool_decide (po_mode lp = M_ENFORCED)) eqn:He; [|done]. bool_prop.
    rewrite (bool_decide_eq_false_2 (po_mode lp = M_DISABLED)) in Hlin |- * by (by rewrite He).
    cbn [mbind option_bind]. rewrite trusted_observed.
    unfold maximum. rewrite Hm, Hl. cbn [cn_observed evidence].
    rewrite throw_if_skip by (by rewrite lookup_member_cons, decide_True, bool_decide_eq_true_2). rewrite (proj2 (throw_if_Ok _ _ tt)); [done|].
    apply Z.ltb_ge, Z.nlt_ge. intros Hlt%Z.ltb_lt. apply Hverdict, rejected_iff.
    eexists. split; [exact Hlin|]. unfold enforced_trigger, maximum. rewrite Hm, Hl, Hlt.
    rewrite trusted_triggered by done. unfold triggeredByTrustedSource.
    repeat case_match; cbn; by rewrite !bool_decide_eq_true_2.
  - destruct (bool_decide (po_mode sp = M_ENFORCED)) eqn:He; [|done]. bool_prop.
    rewrite (bool_decide_eq_false_2 (po_mode sp = M_DISABLED)) by (by rewrite He).
    cbn [mbind option_bind]. rewrite trusted_observed. unfold booleanCondition. rewrite Hs.
    cbn [cn_observed evidence]. by rewrite lookup_member_cons, decide_True, bool_decide_eq_true_2.
  - destruct (bool_decide (po_mode bp = M_ENFORCED)) eqn:He; [|done]. bool_prop.
    rewrite (bool_decide_eq_false_2 (po_mode bp = M_DISABLED)) by (by rewrite He).
    cbn [mbind option_bind]. rewrite trusted_observed. unfold booleanCondition. rewrite Hb.
    cbn [cn_observed evidence]. by rewrite lookup_member_cons, decide_True, bool_decide_eq_true_2.
Qed.

(** * What makes a verdict *)

(** An observation over a configured limit. *)
Definition over (value limit : option Z) : Prop :=
  exists v l, value = Some v /\ limit = Some l /\ l < v.
(** The facts that make a condition hold under a policy; a condition that is not about the
    facts holds only when it is reported. *)
Definition met_by_facts (p : QualificationConditionPolicy) (f : QualificationCalibrationFacts) : Prop :=
  match po_code p with
  | R_HOLDER_CONCENTRATION_EXCEEDED =>
      over (ft_top1HolderBps f) (po_maximumTop1Bps p)
      \/ over (ft_top5HoldersBps f) (po_maximumTop5Bps p)
      \/ over (ft_top10HoldersBps f) (po_maximumTop10Bps p)
  | R_RELATED_WALLET_CLUSTER_EXCEEDED => over (ft_maximumRelatedClusterBps f) (po_maximumClusterBps p)
  | R_SHARED_FUNDER_CLUSTER =>
      exists n least, ft_maximumSharedFunderCount f = Some n
        /\ po_minimumSharedFunders p = Some least /\ least <= n
  | R_BUY_SIMULATION_FAILED => ft_buySimulationSucceeded f = Some false
  | R_SELL_QUOTE_UNAVAILABLE => ft_sellQuoteAvailable f = Some false
  | R_ROUND_TRIP_LOSS_EXCEEDED => over (ft_roundTripLossBps f) (po_maximumRoundTripLossBps p)
  | _ => False
  end.
(** An enforced policy whose condition holds: by the facts, by an upstream report among them
    or by the blockers of the input. *)
Definition blocks (f : QualificationCalibrationFacts) (reported : list QualificationReasonCode)
    (p : QualificationConditionPolicy) : Prop :=
  po_mode p = M_ENFORCED
  /\ (met_by_facts p f \/ po_code p ∈ reported
      \/ {| uc_code := po_code p; uc_triggered := true |} ∈ ft_upstreamConditions f).

(** A signal that was observed to hold. *)
Definition holds (signals : list (QualificationSignalKey * bool)) (k : QualificationSignalKey) : Prop :=
  exists before after, signals = before ++ (k, true) :: after /\ k ∉ map fst before.
(** The points the rules are worth: the weights of those whose signal holds. *)
Inductive points (signals : list (QualificationSignalKey * bool)) : list QualificationRule -> Z -> Prop :=
| points_none : points signals [] 0
| points_earned r rules n :
    holds signals (ru_signal r) -> points signals rules n ->
    points signals (r :: rules) (ru_weight r + n)
| points_missed r rules n :
    ~ holds signals (ru_signal r) -> points signals rules n -> points signals (r :: rules) n.

Lemma holds_iff signals rule :
  qe_status (evidenceFor rule signals) = E_SATISFIED <-> holds signals (ru_signal rule).
Proof.
  unfold evidenceFor, holds. cbn [qe_status].
  induction signals as [|[k b] l IH]; cbn [List.find fst].
  { split; [done|]. intros ([|] & ? & ? & _); done. }
  case_bool_decide as Hk.
  - subst k. split.
    + destruct b; [|done]. intros _. exists [], l. split; [done|]. apply not_elem_of_nil.
    + intros ([|[k' b'] before] & after & E & Hn); [by injection E as -> ->|].
      injection E as <- <- _. exfalso. apply Hn. left.
  - rewrite IH. split.
    + intros (before & after & -> & Hn). exists ((k, b) :: before), after. split; [done|].
      cbn. rewrite elem_of_cons. intros [?|?]; [congruence|done].
    + intros ([|[k' b'] before] & after & E & Hn); [injection E as -> -> ->; done|].
      injection E as -> -> ->. exists before, after. split; [done|]. intros ?. apply Hn. by right.
Qed.

Lemma exceeds_iff v l : exceeds v l = true <-> over v l.
Proof.
  unfold exceeds, over. destruct v, l; try naive_solver. rewrite Z.ltb_lt. naive_solver.
Qed.
Lemma holder_triggered p f :
  cn_status (holder p f) = S_TRIGGERED <->
  over (ft_top1HolderBps f) (po_maximumTop1Bps p) \/ over (ft_top5HoldersBps f) (po_maximumTop5Bps p)
  \/ over (ft_top10HoldersBps f) (po_maximumTop10Bps p).
Proof.
  rewrite <- !exceeds_iff. unfold holder.
  match goal with |- context [existsb ?g (List.filter ?h ?l)] =>
    assert (existsb g (List.filter h l) = existsb g l) as -> end.
  { cbn [List.filter snd fst is_null negb existsb].
    destruct (po_maximumTop1Bps p), (po_maximumTop5Bps p), (po_maximumTop10Bps p),
      (ft_top1HolderBps f), (ft_top5HoldersBps f), (ft_top10HoldersBps f); cbn; done. }
  cbn [existsb fst snd]. rewrite orb_false_r, <- !orb_true_iff.
  destruct (exceeds _ _ || (exceeds _ _ || exceeds _ _)); [done|].
  split; [|done]. by repeat case_match.
Qed.
Lemma maximum_triggered code mode v l key tkey m :
  cn_status (maximum code mode v l key tkey m) = S_TRIGGERED <-> over v l.
Proof.
  rewrite <- exceeds_iff. unfold maximum, exceeds. destruct v as [v|], l as [l|]; try done. cbn.
  by destruct (l <? v).
Qed.
Lemma minimum_triggered p o :
  cn_status (minimum p o) = S_TRIGGERED <->
  exists n least, o = Some n /\ po_minimumSharedFunders p = Some least /\ least <= n.
Proof.
  unfold minimum. destruct (po_minimumSharedFunders p) as [l|], o as [n|]; cbn; try naive_solver.
  destruct (Z.leb_spec l n); cbn; split; try naive_solver lia.
Qed.
Lemma boolean_triggered code mode o key m :
  cn_status (booleanCondition code mode o key m) = S_TRIGGERED <-> o = Some false.
Proof. by destruct o as [[]|]. Qed.

Lemma trusted_triggered_iff c upstream legacy :
  cn_status (triggeredByTrustedSource c upstream legacy) = S_TRIGGERED <->
  cn_status c = S_TRIGGERED \/ legacy = true \/ upstream = Some true.
Proof.
  unfold triggeredByTrustedSource. case_bool_decide; [naive_solver|].
  destruct legacy; naive_solver.
Qed.

(** An active policy is triggered exactly when its condition holds. *)
Lemma evaluate_triggered p f upstream legacy :
  po_mode p <> M_DISABLED ->
  cn_status (evaluate (po_code p) p f upstream legacy) = S_TRIGGERED <->
  met_by_facts p f \/ po_code p ∈ legacy \/ upstream (po_code p) = Some true.
Proof.
  intros Hm. rewrite <- includes_true. unfold evaluate, met_by_facts.
  rewrite bool_decide_eq_false_2 by done.
  destruct (po_code p); rewrite ?trusted_triggered_iff, ?holder_triggered, ?maximum_triggered,
    ?minimum_triggered, ?boolean_triggered; try tauto.
  all: destruct (includes _ legacy); [cbn; tauto|]; destruct (upstream _) as [[]|]; cbn; naive_solver.
Qed.

Lemma upstream_reported f code :
  valid_facts f ->
  uc_triggered <$> map_get uc_code (ft_upstreamConditions f) code = Some true <->
  {| uc_code := code; uc_triggered := true |} ∈ ft_upstreamConditions f.
Proof.
  intros Hf. split.
  - intros ([c t] & Hg & Ht)%fmap_Some. apply map_get_Some in Hg as [<- Hin]. cbn in *. by subst t.
  - intros Hin. by rewrite (map_get_unique uc_code _ _ (vt_upstream f Hf) Hin).
Qed.

(** A report is rejected exactly when a policy blocks. *)
Lemma rejected_blocks p s :
  valid_profile p -> valid_facts (input_facts s) ->
  qr_verdict (report_of p s) = V_REJECTED <->
  exists policy, policy ∈ pf_conditionPolicies p /\ blocks (input_facts s) (is_blockers s) policy.
Proof.
  intros Hv Hf. rewrite rejected_iff.
  assert (forall policy, policy ∈ pf_conditionPolicies p ->
    let c := evaluate (po_code policy) policy (input_facts s)
               (fun code => uc_triggered <$> map_get uc_code (ft_upstreamConditions (input_facts s)) code)
               (is_blockers s) in
    enforced_trigger c = true <-> blocks (input_facts s) (is_blockers s) policy) as Hb.
  { intros policy Hin. cbv zeta. unfold enforced_trigger, blocks.
    pose proof (vf_policies p Hv) as Hvp. rewrite Forall_forall in Hvp.
    rewrite (co_mode _ _ (evaluate_coherent policy (input_facts s) _ _ (Hvp _ Hin) Hf)).
    rewrite andb_true_iff, !bool_decide_eq_true.
    split; intros [H1 H2].
    - rewrite evaluate_triggered, upstream_reported in H1 by (done || (by rewrite H2)). done.
    - rewrite evaluate_triggered, upstream_reported by (done || (by rewrite H1)). done. }
  destruct (evaluate_all_Ok p (input_facts s) (is_blockers s) Hv Hf) as [_ Hc].
  split.
  - intros (c & Hin & Ht). apply list_elem_of_lookup in Hin as [i Hi].
    destruct (Forall2_lookup_r _ _ _ _ _ Hc Hi) as (code & _ & policy & Hg & Hk & _ & ->).
    apply map_get_Some in Hg as [_ Hin]. exists policy. split; [done|].
    apply (Hb policy Hin). by rewrite Hk.
  - intros (policy & Hin & Hbl). destruct (report_condition p s (po_code policy) Hv Hf)
      as (policy' & Hg & _ & _ & _ & Hc').
    rewrite (map_get_unique po_code _ _ (vf_codes p Hv) Hin) in Hg. injection Hg as <-.
    eexists. split; [exact Hc'|]. by apply Hb.
Qed.

(** No required rule lacks its signal. *)
Lemma required_satisfied_iff (rules : list QualificationRule) signals :
  existsb (fun e => qe_required e && negb (bool_decide (qe_status e = E_SATISFIED)))
    (map (fun r => evidenceFor r signals) rules) = false <->
  forall rule, rule ∈ rules -> ru_required rule = true -> holds signals (ru_signal rule).
Proof.
  rewrite <- not_true_iff_false, existsb_exists. split.
  - intros Hno rule Hin Hreq. apply holds_iff, dec_stable. intros Hne.
    apply Hno. exists (evidenceFor rule signals). split.
    + apply in_map_iff. exists rule. split; [done|]. by apply list_elem_of_In.
    + cbn [qe_required evidenceFor]. rewrite Hreq. by rewrite bool_decide_eq_false_2.
  - intros Hall (e & Hin & He). apply in_map_iff in Hin as (rule & <- & Hin).
    apply andb_true_iff in He as [Hreq He]. cbn in Hreq. bool_prop. apply He, holds_iff.
    apply Hall; [by apply list_elem_of_In|done].
Qed.

(** The three scores add up to the points. *)
Lemma scores_are_points signals rules :
  let l := map (fun r => evidenceFor r signals) rules in
  points signals rules (satisfied_weight preparation l + satisfied_weight socialAuthenticity l
                        + satisfied_weight onchainHealth l).
Proof.
  cbv zeta. induction rules as [|r rules IH]; [apply points_none|].
  unfold satisfied_weight. cbn [map fold_left]. rewrite !satisfied_weight_sum.
  cbn [qe_dimension qe_weight evidenceFor].
  pose proof (holds_iff signals r) as Hh.
  match goal with |- context [bool_decide (qe_status ?e = _)] =>
    change (qe_status e) with (qe_status (evidenceFor r signals)) end.
  case_bool_decide as Hs; cbn [andb].
  - match goal with |- points _ _ ?n => replace n with (ru_weight r + (satisfied_weight preparation
      (map (fun r => evidenceFor r signals) rules) + satisfied_weight socialAuthenticity
      (map (fun r => evidenceFor r signals) rules) + satisfied_weight onchainHealth
      (map (fun r => evidenceFor r signals) rules))) end.
    + apply points_earned; [by apply Hh|exact IH].
    + destruct (ru_dimension r); cbn [bool_decide]; repeat case_bool_decide; try done; lia.
  - apply points_missed; [by rewrite <- Hh|]. exact IH.
Qed.


(** * Lemmas: the register *)

Section RegisterLemmas.
Context `{Sha256} (profile : EffectiveQualificationProfile).

(** A use of the engine. *)
Inductive engine_call :=
| Evaluate (input : js)
| EvaluateAuthorized (subject : QualificationReportSubject) (input : js).
Definition run_engine_call (k : engine_call) : prog engine_state exn nat :=
  match k with
  | Evaluate input => engine_evaluate profile input
  | EvaluateAuthorized subject input => evaluateAuthorized profile subject input
  end.
(** Calls in sequence, with what each returned. *)
Fixpoint run_engine (calls : list engine_call) (st : engine_state)
    : list (result exn nat) * engine_state :=
  match calls with
  | [] => ([], st)
  | k :: calls =>
      let (r, st') := run_engine_call k st in
      let (rs, st'') := run_engine calls st' in (r :: rs, st'')
  end.

(** The subject a call binds to the report it returns. *)
Definition binds (k : engine_call) (subject : QualificationReportSubject) : Prop :=
  exists input, k = EvaluateAuthorized subject input.
(** Identities in the register are of reports that exist. *)
Definition register_ok (st : engine_state) : Prop :=
  forall i s, es_authorized st !! i = Some s -> (i < List.length (es_reports st))%nat.

Lemma run_engine_call_step k st r st' :
  run_engine_call k st = (r, st') -> register_ok st ->
  register_ok st' /\ (List.length (es_reports st) <= List.length (es_reports st'))%nat
  /\ match r with
     | Err _ => st' = st
     | Ok i => i = List.length (es_reports st) /\ List.length (es_reports st') = S i
       /\ forall j s, es_authorized st' !! j = Some s <->
            es_authorized st !! j = Some s \/ (j = i /\ binds k s)
     end.
Proof.
  intros Hrun Hok. destruct k as [input|subject input]; cbn in Hrun.
  - unfold engine_evaluate in Hrun. destruct (evaluateReport profile input) as [rep|e]; simplify_eq.
    + cbn. rewrite length_app. cbn. split_and!; try lia.
      * intros i s Hi. cbn in *. rewrite length_app. apply Hok in Hi. cbn. lia.
      * intros j s. split; [by left|]. intros [Hj|(_ & input' & Hb)]; [done|by simplify_eq].
    + split_and!; [done|lia|done].
  - unfold evaluateAuthorized, pbind, lift, engine_evaluate, snapshotReportSubject in Hrun.
    destruct subject as [mint trigger]. cbn in Hrun.
    destruct (_ || _); cbn in Hrun; [simplify_eq; split_and!; [done|lia|done]|].
    destruct (evaluateReport profile input) as [rep|e]; simplify_eq.
    + cbn. rewrite length_app. cbn. split_and!; try lia.
      * intros i s Hi. cbn in *. rewrite length_app. cbn.
        apply lookup_insert_Some in Hi as [[<- _]|[_ Hi%Hok]]; lia.
      * intros j s. rewrite lookup_insert_Some. split.
        -- intros [[<- <-]|[_ Hj]]; [right; split; [done|by eexists]|by left].
        -- intros [Hj|[-> [input' Hb]]]; [right; split; [|done]|left; by simplify_eq].
           apply Hok in Hj. lia.
    + split_and!; [done|lia|done].
Qed.

(** What the register holds after some calls. *)
Lemma run_engine_register calls st rs st' :
  register_ok st -> run_engine calls st = (rs, st') ->
  forall j s, es_authorized st' !! j = Some s <->
    es_authorized st !! j = Some s
    \/ exists n k, calls !! n = Some k /\ rs !! n = Some (Ok j) /\ binds k s.
Proof.
  revert st rs st'. induction calls as [|k calls IH]; intros st rs st' Hok Hrun j s; cbn in Hrun.
  - injection Hrun as <- <-. split; [by left|]. intros [Hj|(n & k & Hn & _)]; [done|by rewrite lookup_nil in Hn].
  - destruct (run_engine_call k st) as [r st1] eqn:Hk.
    destruct (run_engine calls st1) as [rs' st2] eqn:Hr. injection Hrun as <- <-.
    destruct (run_engine_call_step _ _ _ _ Hk Hok) as (Hok1 & _ & Hstep).
    rewrite (IH _ _ _ Hok1 Hr). split.
    + intros [Hj|(n & k' & Hn & Hrn & Hb)]; [|right; by exists (S n), k'].
      destruct r as [i|e]; [|subst; by left]. destruct Hstep as (-> & _ & Hstep).
      apply Hstep in Hj as [Hj|[-> Hb]]; [by left|]. right. by exists 0%nat, k.
    + intros [Hj|([|n] & k' & Hn & Hrn & Hb)].
      * left. destruct r as [i|e]; [|by subst]. apply Hstep. by left.
      * cbn in Hn, Hrn. simplify_eq. left. apply Hstep. by right.
      * right. by exists n, k'.
Qed.
End RegisterLemmas.

(** * Properties *)

Section Properties.
Context `{Sha256}.

(** C29: composition.  Every report the qualification engine makes is one the paper ledger
    accepts under the same profile: the ledger's snapshot of it is the report itself, and it
    passes the coherence check on identity, modes, thresholds, blockers and verdict.  When
    the purchase was simulated, the reverse quote is available and the round-trip loss is
    known, a report that is not rejected also passes the ledger's check of those facts
    against its own quotes with that loss.  So [open] never refuses for an incoherent
    report what the engine itself evaluated. *)
Theorem reports_accepted_by_ledger (v input : js) (p : EffectiveQualificationProfile)
    (r : QualificationReport)
    (Hp : newQualificationEngine v = Ok p) (Hr : evaluateReport p input = Ok r) :
  snapshotQualification r = Ok r /\ validateQualificationReport r p = Ok tt
  /\ exists s, snapshotEvaluationInput input = Some s
     /\ forall l, ft_buySimulationSucceeded (input_facts s) = Some true ->
          ft_sellQuoteAvailable (input_facts s) = Some true ->
          ft_roundTripLossBps (input_facts s) = Some l -> qr_verdict r <> V_REJECTED ->
          validateQualificationExecutionFacts r l p = Ok tt.
Proof.
  destruct (evaluateReport_Ok _ _ _ _ Hp Hr) as (s & Hs & -> & Hf).
  destruct (newQualificationEngine_Ok _ _ Hp) as [Hv _].
  destruct (evaluate_all_Ok p (input_facts s) (is_blockers s) Hv Hf) as [_ Hc].
  split; [|split; [|exists s; split; [done|]; intros l; by apply execution_facts_pass]].
  - unfold snapshotQualification.
    assert (traverse snapshot_condition (qr_conditions (report_of p s))
            = Ok (qr_conditions (report_of p s))) as ->; [|done].
    cbn [report_of qr_conditions]. revert Hc. generalize QUALIFICATION_REASON_CODES as codes.
    generalize (conditions_of p (input_facts s) (is_blockers s)) as cs.
    intros cs codes. induction 1 as [|code c codes cs (policy & _ & _ & Hco & _) Hl IH]; [done|].
    cbn. rewrite (co_snapshot _ _ Hco). cbn. cbn in IH. by rewrite IH.
  - unfold validateQualificationReport. rewrite throw_if_skip.
    2: { cbn. by rewrite !bool_decide_eq_true_2, !Z.eqb_refl by done. }
    rewrite throw_if_skip; [|cbn [report_of qr_conditions]; rewrite <- (Forall2_length _ _ _ Hc); done].
    rewrite check_conditions_coherent.
    2: { eapply Forall2_impl; [exact Hc|]. intros code c (policy & ? & ? & ? & _). by exists policy. }
    cbn [mbind result_bind report_of qr_blockers qr_verdict].
    rewrite throw_if_skip; [|by rewrite blocker_codes, bool_decide_eq_true_2].
    rewrite !length_map. by destruct (0 <? _)%nat; [|destruct (_ || _)].
Qed.
(** C22: the verdict follows from the profile and the facts alone.  A report is REJECTED
    exactly when a policy of the profile that is ENFORCED blocks: one of the configured limits
    on holders, clusters, funders or round-trip loss is exceeded by the facts, the purchase or
    the reverse quote failed, or the condition is among the blockers of the input or the
    upstream reports; a missing observation never rejects.  The total is the sum of the weights of
    the rules whose signal was observed to hold.  A report is QUALIFIED exactly when nothing
    blocks, every required signal was observed to hold (a missing signal does not count), and
    that sum reaches the profile's minimum; otherwise it is WATCHLISTED. *)
Theorem verdict_characterised (v input : js) (p : EffectiveQualificationProfile)
    (r : QualificationReport)
    (Hp : newQualificationEngine v = Ok p) (Hr : evaluateReport p input = Ok r) :
  exists s n, snapshotEvaluationInput input = Some s
    /\ points (is_signals s) (pf_rules p) n /\ sc_score (qr_total r) = n
    /\ let blocked := exists policy, policy ∈ pf_conditionPolicies p
                        /\ blocks (input_facts s) (is_blockers s) policy in
       let complete := forall rule, rule ∈ pf_rules p -> ru_required rule = true ->
                         holds (is_signals s) (ru_signal rule) in
       (qr_verdict r = V_REJECTED <-> blocked)
       /\ (qr_verdict r = V_QUALIFIED <-> ~ blocked /\ complete /\ pf_minimumTotalScore p <= n)
       /\ (qr_verdict r = V_WATCHLISTED <->
           ~ blocked /\ ~ (complete /\ pf_minimumTotalScore p <= n)).
Proof.
  destruct (evaluateReport_Ok _ _ _ _ Hp Hr) as (s & Hs & -> & Hf).
  destruct (newQualificationEngine_Ok _ _ Hp) as [Hv _].
  eexists s, _. split; [exact Hs|]. split; [apply scores_are_points|]. split; [reflexivity|].
  cbv zeta. rewrite <- rejected_blocks, <- required_satisfied_iff by done.
  cbn [report_of qr_verdict dimension_score score sc_score].
  match goal with |- context [existsb ?g ?l] => set (missing := existsb g l) end.
  match goal with |- context [?t <? pf_minimumTotalScore p] => set (total := t) end.
  destruct (0 <? _)%nat; [split_and!; naive_solver|].
  destruct missing; cbn [orb]; [split_and!; naive_solver|].
  destruct (Z.ltb_spec total (pf_minimumTotalScore p)); split_and!; naive_solver lia.
Qed.

(** Scores stay on their scale.  Whatever the signals, each dimension scores between
    zero and its maximum, the maxima are 15, 25 and 60, and the total is the sum of the
    three and at most 100, the maximum it is reported against. *)
Theorem scores_within_maxima (v input : js) (p : EffectiveQualificationProfile)
    (r : QualificationReport)
    (Hp : newQualificationEngine v = Ok p) (Hr : evaluateReport p input = Ok r) :
  (0 <= sc_score (qr_preparation r) <= sc_maximum (qr_preparation r)
   /\ sc_maximum (qr_preparation r) = 15)
  /\ (0 <= sc_score (qr_socialAuthenticity r) <= sc_maximum (qr_socialAuthenticity r)
      /\ sc_maximum (qr_socialAuthenticity r) = 25)
  /\ (0 <= sc_score (qr_onchainHealth r) <= sc_maximum (qr_onchainHealth r)
      /\ sc_maximum (qr_onchainHealth r) = 60)
  /\ sc_score (qr_total r) = sc_score (qr_preparation r) + sc_score (qr_socialAuthenticity r)
                             + sc_score (qr_onchainHealth r)
  /\ 0 <= sc_score (qr_total r) <= sc_maximum (qr_total r).
Proof.
  destruct (evaluateReport_Ok _ _ _ _ Hp Hr) as (s & _ & -> & _).
  destruct (newQualificationEngine_Ok _ _ Hp) as [Hv _].
  assert (forall d, 0 <= satisfied_weight d (map (fun rule => evidenceFor rule (is_signals s)) (pf_rules p))
                    <= maximum_of (pf_dimensionMaximums p) d) as Hd.
  { intros d. rewrite <- (vf_weights p Hv). apply satisfied_weight_bound, (vf_rules p Hv). }
  rewrite (vf_maximums p Hv) in Hd.
  cbn [report_of qr_preparation qr_socialAuthenticity qr_onchainHealth qr_total dimension_score
       score sc_score sc_maximum]. rewrite (vf_maximums p Hv).
  pose proof (Hd preparation) as H1. pose proof (Hd socialAuthenticity) as H2.
  pose proof (Hd onchainHealth) as H3. cbn [maximum_of dm_preparation dm_socialAuthenticity
    dm_onchainHealth] in *. lia.
Qed.

(** Evaluation is total.  An engine that was constructed answers every input that has
    the four expected fields and a valid time with a report; it throws a [TypeError] exactly
    on malformed inputs and an invalid-timestamp error exactly on a bad time.  In particular
    the validations repeated inside an evaluation (of the engine's own profile, of the
    facts, of the legacy codes) and the search for a policy never fail. *)
Theorem evaluateReport_errors (v input : js) (p : EffectiveQualificationProfile)
    (Hp : newQualificationEngine v = Ok p) :
  (exists r, evaluateReport p input = Ok r
     /\ exists s, snapshotEvaluationInput input = Some s
        /\ 0 <= timestamp_value (is_evaluatedAtMs s) <= MAX_SAFE_INTEGER)
  \/ (evaluateReport p input = Err (TypeError "") /\ snapshotEvaluationInput input = None)
  \/ (evaluateReport p input = Err (InvalidTimestampError TF_evaluatedAtMs)
      /\ exists s, snapshotEvaluationInput input = Some s
         /\ ~ 0 <= timestamp_value (is_evaluatedAtMs s) <= MAX_SAFE_INTEGER).
Proof.
  destruct (newQualificationEngine_Ok _ _ Hp) as [_ Hq]. rewrite evaluateReport_total by done.
  destruct (snapshotEvaluationInput input) as [s|]; [|by right; left].
  destruct (safe_nonneg _) eqn:Hs.
  - left. bool_prop. eexists. split; [done|]. by exists s.
  - right; right. split; [done|]. exists s. split; [done|].
    rewrite <- safe_nonneg_true. congruence.
Qed.

(** Authority.  However an engine is used, [isAuthorized] answers yes for a report and
    a subject exactly when that very report was returned by a call of [evaluateAuthorized]
    for that subject: reports of [evaluate], reports for another mint or event, and reports
    the engine did not make are never authorized, and no later call withdraws or moves an
    authorization. *)
Theorem authorized_iff_issued (p : EffectiveQualificationProfile) (calls : list engine_call)
    (report : nat) (subject : QualificationReportSubject) :
  let after := run_engine p calls fresh_engine in
  isAuthorized (snd after) report subject = true <->
  exists n input, calls !! n = Some (EvaluateAuthorized subject input)
                  /\ fst after !! n = Some (Ok report).
Proof.
  cbv zeta. destruct (run_engine p calls fresh_engine) as [rs st] eqn:Hrun.
  assert (isAuthorized st report subject = true <-> es_authorized st !! report = Some subject) as ->.
  { unfold isAuthorized. destruct (es_authorized st !! report) as [[m t]|]; [|done].
    destruct subject as [m' t']. cbn. split.
    - intros Hb. by bool_prop; subst.
    - intros [= -> ->]. by rewrite !bool_decide_eq_true_2. }
  rewrite (run_engine_register p calls fresh_engine rs st); [|intros i s Hi; done|done].
  split.
  - intros [Hj|(n & k & Hn & Hr & input & ->)]; [done|]. by exists n, input.
  - intros (n & input & Hn & Hr). right. exists n, (EvaluateAuthorized subject input).
    split_and!; [done..|]. by exists input.
Qed.
End Properties.

(** * A run to try the properties on *)

Definition sample_facts (loss : Z) : js :=
  frozen_record QUALIFICATION_FACT_FIELDS (member_value
    [("top1HolderBps", JBigInt 900); ("top5HoldersBps", JNull); ("top10HoldersBps", JNull);
     ("maximumRelatedClusterBps", JNull); ("maximumSharedFunderCount", JNumber (NumInt 0));
     ("buySimulationSucceeded", JBool true); ("sellQuoteAvailable", JBool true);
     ("roundTripLossBps", JBigInt loss); ("upstreamConditions", frozen_array [])]).
Definition sample_input (at_ms loss : Z) : js :=
  frozen_record INPUT_FIELDS (member_value
    [("evaluatedAtMs", JNumber (NumInt at_ms));
     ("signals", frozen_record ["imageValid"; "socialCrossLinkConfirmed"; "creatorHasNotSold"]
                   (fun _ => JBool true));
     ("blockers", frozen_array []); ("calibrationFacts", sample_facts loss)]).
Definition sample_engine : js := profile_object loaded_profile.

(** All required signals, 60 points and no trigger qualify; a loss over the profile's 3000
    basis points rejects. *)
Example sample_verdicts :
  map (fun loss => match @evaluateReport zero_digest loaded_profile (sample_input 1000 loss) with
                   | Ok r => Some (qr_verdict r, sc_score (qr_total r), map bl_code (qr_blockers r))
                   | Err _ => None
                   end) [300; 3000; 3001]
  = [Some (V_QUALIFIED, 60, []); Some (V_QUALIFIED, 60, []);
     Some (V_REJECTED, 60, [R_ROUND_TRIP_LOSS_EXCEEDED])].
Proof. vm_compute. reflexivity. Qed.

Lemma sample_engine_constructs : @newQualificationEngine zero_digest sample_engine = Ok loaded_profile.
Proof. vm_compute. reflexivity. Qed.
Lemma sample_report_made :
  exists r, @evaluateReport zero_digest loaded_profile (sample_input 1000 300) = Ok r
            /\ qr_verdict r = V_QUALIFIED.
Proof. eexists. split; [vm_compute; reflexivity|reflexivity]. Qed.

Lemma reports_accepted_by_ledger_witness :
  exists r, @evaluateReport zero_digest loaded_profile (sample_input 1000 300) = Ok r
    /\ snapshotQualification r = Ok r /\ validateQualificationReport r loaded_profile = Ok tt.
Proof.
  destruct sample_report_made as (r & Hr & _). exists r. split; [exact Hr|].
  destruct (@reports_accepted_by_ledger zero_digest sample_engine (sample_input 1000 300) loaded_profile r
    sample_engine_constructs Hr) as (H1 & H2 & _).
  split; [exact H1 | exact H2].
Defined.
Lemma verdict_characterised_witness :
  exists r n, @evaluateReport zero_digest loaded_profile (sample_input 1000 300) = Ok r
    /\ sc_score (qr_total r) = n /\ pf_minimumTotalScore loaded_profile <= n.
Proof.
  destruct sample_report_made as (r & Hr & Hq).
  destruct (@verdict_characterised zero_digest sample_engine (sample_input 1000 300) loaded_profile r
    sample_engine_constructs Hr) as (s & n & _ & _ & Hn & _ & Hv & _).
  exists r, n. split; [exact Hr|]. split; [exact Hn|].
  exact (proj2 (proj2 (proj1 Hv Hq))).
Defined.
Lemma scores_within_maxima_witness :
  exists r, @evaluateReport zero_digest loaded_profile (sample_input 1000 300) = Ok r
    /\ 0 <= sc_score (qr_total r) <= sc_maximum (qr_total r).
Proof.
  destruct sample_report_made as (r & Hr & _). exists r. split; [exact Hr|].
  exact (proj2 (proj2 (proj2 (proj2 (@scores_within_maxima zero_digest sample_engine
    (sample_input 1000 300) loaded_profile r sample_engine_constructs Hr))))).
Defined.
Lemma evaluateReport_errors_witness :
  (exists r, @evaluateReport zero_digest loaded_profile (sample_input (-1) 300) = Ok r
     /\ exists s, snapshotEvaluationInput (sample_input (-1) 300) = Some s
        /\ 0 <= timestamp_value (is_evaluatedAtMs s) <= MAX_SAFE_INTEGER)
  \/ (@evaluateReport zero_digest loaded_profile (sample_input (-1) 300) = Err (TypeError "")
      /\ snapshotEvaluationInput (sample_input (-1) 300) = None)
  \/ (@evaluateReport zero_digest loaded_profile (sample_input (-1) 300)
      = Err (InvalidTimestampError TF_evaluatedAtMs)
      /\ exists s, snapshotEvaluationInput (sample_input (-1) 300) = Some s
         /\ ~ 0 <= timestamp_value (is_evaluatedAtMs s) <= MAX_SAFE_INTEGER).
Proof.
  exact (@evaluateReport_errors zero_digest sample_engine (sample_input (-1) 300) loaded_profile
    sample_engine_constructs).
Defined.
