(* ===== verification/PaperLedger.v ===== *)
(** The paper trading ledger: [src/src/paper/paper-trading-engine.ts] over the
    repository port [src/src/ports/paper-trading-repository.ts].

    The engine is written and proved against the port, the class
    [PaperTradingTransaction] with its laws; [PaperStore] gives the database
    transaction of [src/src/storage/paper-trading.repository.ts] and proves the
    laws.  A transaction's failure rolls everything back.  Each reading of the
    clock is an argument. *)
From S2P Require Import Prelude Text Types Chain Json Identity JsonCodec PaperMath PaperStrategy Qualification.
From Stdlib Require Import Ascii String.
Local Open Scope string_scope.
Local Open Scope list_scope.
Local Open Scope Z_scope.

(** * Types *)

(** src/src/domain/paper-trading.ts:30-33 (PaperPositionStatus) *)
Inductive PaperPositionStatus := PAPER_HOLDING | PAPER_CLOSED | PAPER_RETRACTED.
Global Instance PaperPositionStatus_eq_dec : EqDecision PaperPositionStatus.
Proof. solve_decision. Defined.
(** src/src/domain/paper-trading.ts:34-34 (PaperTradeSide) *)
Inductive PaperTradeSide := SIDE_BUY | SIDE_SELL.

(** src/src/domain/paper-trading.ts:41-45 (PaperCurrentQualificationIdentity) *)
Record PaperCurrentQualificationIdentity := {
  cq_mint : string; cq_reportId : string; cq_qualificationEventId : string }.
Global Instance PaperCurrentQualificationIdentity_eq_dec : EqDecision PaperCurrentQualificationIdentity.
Proof. solve_decision. Defined.

(** src/src/domain/paper-trading.ts:47-76 (PaperPosition).  Optional fields that
    may be null or absent are one [option]. *)
Record PaperPosition := {
  pp_id : string;
  pp_mint : string;
  pp_quoteAsset : QuoteAsset;
  pp_strategy : PaperStrategyIdentity;
  pp_status : PaperPositionStatus;
  pp_baseFilledRaw : Z;
  pp_remainingBaseRaw : Z;
  pp_quoteCostRaw : Z;
  pp_quoteProceedsRaw : option Z;
  pp_grossPnlQuoteRaw : option Z;
  pp_netPnlQuoteRaw : option Z;
  pp_roundTripLossBps : Z;
  pp_entryTradeId : string;
  pp_exitTradeId : option string;
  pp_openCommandHash : string;
  pp_closeCommandHash : option string;
  pp_triggerEventId : string;
  pp_entryDecisionAtMs : option Z;
  pp_entryDecisionJobId : option string;
  pp_closeEventId : option string;
  pp_exitTriggerAtMs : option Z;
  pp_strategySessionId : option string;
  pp_qualificationReportId : option string;
  pp_candidateId : option string;
  pp_openedAtMs : Z;
  pp_closedAtMs : option Z;
  pp_purgeAfterMs : option Z;
}.

(** src/src/domain/paper-trading.ts:78-87 (PaperTrade) *)
Record PaperTrade := {
  pt_id : string;
  pt_positionId : string;
  pt_side : PaperTradeSide;
  pt_quote : PaperExecutionQuote;
  pt_fillAmountOutRaw : Z;
  pt_reason : string;
  pt_createdAtMs : Z;
}.

(** A triggering event; its payload is copied and never read. *)
Definition Trigger : Type := DomainEvent data.

(** src/src/domain/paper-trading.ts:89-104 (OpenPaperPositionCommand) *)
Record OpenPaperPositionCommand := {
  oc_mint : string;
  oc_quoteAsset : QuoteAsset;
  oc_strategy : PaperStrategyIdentity;
  oc_trigger : Trigger;
  oc_qualification : QualificationReport;
  oc_buyQuote : PaperExecutionQuote;
  oc_reverseSellQuote : PaperExecutionQuote;
  oc_maximumRoundTripLossBps : Z;
  oc_strategySessionId : option string;
  oc_qualificationReportId : option string;
  oc_candidateId : option string;
  oc_expectedCurrentQualification : option PaperCurrentQualificationIdentity;
  oc_entryDecisionAtMs : option Z;
  oc_entryDecisionJobId : option string;
}.

(** src/src/domain/paper-trading.ts:106-112 (ClosePaperPositionCommand) *)
Record ClosePaperPositionCommand := {
  cc_positionId : string;
  cc_trigger : Trigger;
  cc_sellQuote : PaperExecutionQuote;
  cc_reason : string;
  cc_exitTriggerAtMs : option Z;
}.

(** src/src/domain/paper-trading.ts:114-134 (PaperPositionOpenedEventV1,
    PaperPositionClosedEventV1) *)
Definition PaperEvent : Type := DomainEvent (PaperPosition * PaperTrade).

(** * Hashes *)

Definition token_program_name (t : TokenProgramKind) : string :=
  match t with
  | SPL_TOKEN => "SPL_TOKEN"
  | TOKEN_2022 => "TOKEN_2022"
  end.
Definition cond_data (v : cond_value) : data :=
  match v with
  | CNull => DNull
  | CBool b => DBool b
  | CBig z => DBig z
  | CNum z => DInt z
  end.
Definition cond_record (l : list (string * cond_value)) : data :=
  DObj (map (fun kv => (fst kv, cond_data (snd kv))) l).
Definition verdict_name (v : QualificationVerdict) : string :=
  match v with
  | V_QUALIFIED => "QUALIFIED"
  | V_WATCHLISTED => "WATCHLISTED"
  | V_REJECTED => "REJECTED"
  end.

(** src/src/paper/paper-trading-engine.ts:756-770 (snapshotQuote): the members of a
    quote, in order. *)
Definition quote_data (q : PaperExecutionQuote) : data :=
  DObj [("id", DStr (q_id q)); ("inputMint", DStr (q_inputMint q));
        ("outputMint", DStr (q_outputMint q)); ("amountInRaw", DBig (q_amountInRaw q));
        ("amountOutRaw", DBig (q_amountOutRaw q));
        ("minimumAmountOutRaw", DBig (q_minimumAmountOutRaw q)); ("feesRaw", DBig (q_feesRaw q));
        ("slippageBps", DBig (q_slippageBps q)); ("priceImpactBps", DBig (q_priceImpactBps q));
        ("observedAtMs", DInt (q_observedAtMs q)); ("observedSlot", DBig (q_observedSlot q))].

(** src/src/paper/paper-trading-engine.ts:785-819 (snapshotQualification): the members of scores, evidence, conditions
    and blockers, in order. *)
Definition score_data (s : QualificationScore) : data :=
  DObj [("score", DInt (sc_score s)); ("maximum", DInt (sc_maximum s))].
Definition scores_data (r : QualificationReport) : data :=
  DObj [("preparation", score_data (qr_preparation r));
        ("socialAuthenticity", score_data (qr_socialAuthenticity r));
        ("onchainHealth", score_data (qr_onchainHealth r)); ("total", score_data (qr_total r))].
Definition evidence_data (e : QualificationEvidence) : data :=
  DObj [("signal", DStr (signal_name (qe_signal e))); ("dimension", DStr (dimension_name (qe_dimension e)));
        ("status", DStr (evidence_status_name (qe_status e))); ("required", DBool (qe_required e));
        ("weight", DInt (qe_weight e)); ("message", DStr (qe_message e))].
Definition condition_data (c : QualificationConditionEvidence) : data :=
  DObj [("code", DStr (reason_name (cn_code c))); ("mode", DStr (mode_name (cn_mode c)));
        ("status", DStr (status_name (cn_status c))); ("observed", cond_record (cn_observed c));
        ("thresholds", cond_record (cn_thresholds c)); ("message", DStr (cn_message c))].
Definition blocker_data (b : QualificationBlocker) : data :=
  DObj [("code", DStr (reason_name (bl_code b))); ("message", DStr (bl_message b))].

(** src/src/paper/paper-trading-engine.ts:772-822 (snapshotQualification): the
    members of a report, in order. *)
Definition report_data (r : QualificationReport) : data :=
  DObj [("ruleSet", DObj [("id", DStr (rs_id r)); ("version", DInt (rs_version r));
                          ("status", DStr (rs_status r)); ("fingerprint", DStr (rs_fingerprint r));
                          ("minimumTotalScore", DInt (rs_minimumTotalScore r))]);
        ("scores", scores_data r); ("evidence", DArr (map evidence_data (qr_evidence r)));
        ("conditions", DArr (map condition_data (qr_conditions r)));
        ("blockers", DArr (map blocker_data (qr_blockers r)));
        ("verdict", DStr (verdict_name (qr_verdict r)));
        ("evaluatedAtMs", DInt (qr_evaluatedAtMs r))].

(** src/src/paper/paper-trading-engine.ts:1004-1010 (hashValue) *)
Definition hashValue `{Sha256} (namespace : string) (value : data) : result exn string :=
  text ← stringifyJson value;
  Ok (namespace +:+ "_" +:+ sha256_hex (namespace +:+ of_chars [ascii_of_nat 31] +:+ text)).

(** src/src/paper/paper-trading-engine.ts:1000-1002 (hashId) *)
Definition hashId `{Sha256} (namespace : string) (parts : list data) : result exn string :=
  hashValue namespace (DArr parts).

(** src/src/paper/paper-trading-engine.ts:991-998 (paperEventId) *)
Definition paperEventId `{Sha256} (type positionId tradeId triggerId : string)
    : result exn string :=
  hashId "evt" [DStr type; DStr positionId; DStr tradeId; DStr triggerId].

(** src/src/paper/paper-trading-engine.ts:92-97 (open): the identifier of the position a command opens. *)
Definition positionIdOf `{Sha256} (c : OpenPaperPositionCommand) : result exn string :=
  hashId "paper_position"
    [DStr (oc_mint c); DStr (strategy_id (oc_strategy c)); DInt (strategy_version (oc_strategy c));
     DStr (ev_id (oc_trigger c))].

(** src/src/paper/paper-trading-engine.ts:478-492 (LEGACY_QUALIFICATION_EVIDENCE_MESSAGES, LEGACY_QUALIFICATION_EVIDENCE_ORDER) *)
Definition LEGACY_QUALIFICATION_EVIDENCE_MESSAGES (s : QualificationSignalKey) : option string :=
  match s with
  | imageValid => Some "Préparation visuelle du lancement valide."
  | socialCrossLinkConfirmed => Some "Liens sociaux cohérents."
  | creatorHasNotSold => Some "Aucune vente précoce du créateur."
  | reverseQuoteAvailable => Some "Cotation inverse disponible."
  | externalBuyersObserved => Some "Acheteurs externes observés."
  | _ => None
  end.
Definition LEGACY_QUALIFICATION_EVIDENCE_ORDER : list QualificationSignalKey :=
  [imageValid; socialCrossLinkConfirmed; creatorHasNotSold; reverseQuoteAvailable;
   externalBuyersObserved].

(** src/src/paper/paper-trading-engine.ts:473-476 (legacyEvidenceIndex) *)
Definition legacyEvidenceIndex (s : QualificationSignalKey) : nat :=
  match list_find (eq s) LEGACY_QUALIFICATION_EVIDENCE_ORDER with
  | Some (i, _) => i
  | None => List.length LEGACY_QUALIFICATION_EVIDENCE_ORDER
  end.

(** The stable sort by that index. *)
Definition legacy_sorted (l : list QualificationEvidence) : list QualificationEvidence :=
  flat_map (fun i => List.filter (fun e => legacyEvidenceIndex (qe_signal e) =? i)%nat l)
    (seq 0 (S (List.length LEGACY_QUALIFICATION_EVIDENCE_ORDER))).
Definition legacy_message (e : QualificationEvidence) : QualificationEvidence :=
  {| qe_signal := qe_signal e; qe_dimension := qe_dimension e; qe_status := qe_status e;
     qe_required := qe_required e; qe_weight := qe_weight e;
     qe_message := default (qe_message e) (LEGACY_QUALIFICATION_EVIDENCE_MESSAGES (qe_signal e)) |}.

(** src/src/paper/paper-trading-engine.ts:451-471 (legacyQualificationSnapshot) *)
Definition legacyQualificationSnapshot (r : QualificationReport) : data :=
  DObj [("ruleSet", DObj [("id", DStr (rs_id r)); ("version", DInt (rs_version r));
                          ("status", DStr (rs_status r));
                          ("minimumTotalScore", DInt (rs_minimumTotalScore r))]);
        ("scores", scores_data r);
        ("evidence", DArr (map (fun e => evidence_data (legacy_message e))
                            (legacy_sorted (qr_evidence r))));
        ("blockers", DArr (map blocker_data (qr_blockers r)));
        ("verdict", DStr (verdict_name (qr_verdict r)));
        ("evaluatedAtMs", DInt (qr_evaluatedAtMs r))].

(** src/src/paper/paper-trading-engine.ts:713-721 (snapshotOpenCommand): the members of an asset and of a strategy. *)
Definition asset_data (a : QuoteAsset) : data :=
  DObj [("mint", DStr (qa_mint a)); ("decimals", DInt (qa_decimals a));
        ("tokenProgram", DStr (token_program_name (qa_tokenProgram a)))].
Definition strategy_data (s : PaperStrategyIdentity) : data :=
  DObj [("id", DStr (strategy_id s)); ("version", DInt (strategy_version s))].
(** A member that is left out when undefined. *)
Definition optional_text (key : string) (o : option string) : list (string * data) :=
  match o with
  | Some s => [(key, DStr s)]
  | None => []
  end.
(** src/src/paper/paper-trading-engine.ts:439-442 (hashOpenCommand): the stable members of a command, with the given form of
    its qualification. *)
Definition open_command_data (c : OpenPaperPositionCommand) (qualification : data) : data :=
  DObj ([("mint", DStr (oc_mint c)); ("quoteAsset", asset_data (oc_quoteAsset c));
         ("strategy", strategy_data (oc_strategy c)); ("trigger", DStr (ev_id (oc_trigger c)));
         ("qualification", qualification); ("buyQuote", quote_data (oc_buyQuote c));
         ("reverseSellQuote", quote_data (oc_reverseSellQuote c));
         ("maximumRoundTripLossBps", DBig (oc_maximumRoundTripLossBps c))]
        ++ optional_text "strategySessionId" (oc_strategySessionId c)
        ++ optional_text "qualificationReportId" (oc_qualificationReportId c)
        ++ optional_text "candidateId" (oc_candidateId c)).

(** src/src/paper/paper-trading-engine.ts:423-426 (OpenCommandHashes) *)
Record OpenCommandHashes := { hash_current : string; hash_legacy : string }.

(** src/src/paper/paper-trading-engine.ts:428-449 (hashOpenCommand) *)
Definition hashOpenCommand `{Sha256} (c : OpenPaperPositionCommand)
    : result exn OpenCommandHashes :=
  current ← hashValue "paper_open_command" (open_command_data c (report_data (oc_qualification c)));
  legacy ← hashValue "paper_open_command"
             (open_command_data c (legacyQualificationSnapshot (oc_qualification c)));
  Ok {| hash_current := current; hash_legacy := legacy |}.

(** src/src/paper/paper-trading-engine.ts:494-496 (matchesOpenCommandHash) *)
Definition matchesOpenCommandHash (p : PaperPosition) (h : OpenCommandHashes) : bool :=
  bool_decide (pp_openCommandHash p = hash_current h)
  || bool_decide (pp_openCommandHash p = hash_legacy h).

(** * Commands *)

(** src/src/paper/paper-trading-engine.ts:1012-1014 (invalidQuote) *)
Definition invalidQuote (field : string) : exn := PaperTradingError QUOTE_INVALID field.
(** src/src/paper/paper-trading-engine.ts:1030-1032 (conflict) *)
Definition conflict : exn := PaperTradingError POSITION_CONFLICT "".
(** [new PaperTradingError('POSITION_NOT_FOUND', ...)] *)
Definition position_not_found : exn := PaperTradingError POSITION_NOT_FOUND "".

(** src/src/paper/paper-trading-engine.ts:944-953 (snapshotTrigger) *)
Definition snapshotTrigger (t : Trigger) : result exn Trigger :=
  assertValidChainCursor (ev_cursor t) ;;
  assertValidNullableTimestampMs TF_blockchainTimeMs (ev_blockchainTimeMs t) ;;
  assertValidTimestampMs TF_observedAtMs (ev_observedAtMs t) ;;
  Ok t.

(** src/src/paper/paper-trading-engine.ts:696-703 (rejectOrphanedTrigger) *)
Definition rejectOrphanedTrigger (t : Trigger) : result exn unit :=
  throw_if (bool_decide (ev_confirmationStatus t = orphaned))
    (PaperTradingError TRIGGER_ORPHANED "").

(** [value !== undefined] *)
Definition defined {A} (o : option A) : bool := if o is Some _ then true else false.

(** src/src/paper/paper-trading-engine.ts:705-742 (snapshotOpenCommand) *)
Definition snapshotOpenCommand (c : OpenPaperPositionCommand) (trigger : Trigger)
    : result exn OpenPaperPositionCommand :=
  qualification ← snapshotQualification (oc_qualification c);
  let session := defined (oc_strategySessionId c) in
  let expected f := default "" (f <$> oc_expectedCurrentQualification c) in
  Ok {| oc_mint := oc_mint c; oc_quoteAsset := oc_quoteAsset c; oc_strategy := oc_strategy c;
        oc_trigger := trigger; oc_qualification := qualification;
        oc_buyQuote := oc_buyQuote c; oc_reverseSellQuote := oc_reverseSellQuote c;
        oc_maximumRoundTripLossBps := oc_maximumRoundTripLossBps c;
        oc_strategySessionId := oc_strategySessionId c;
        oc_qualificationReportId := if session then oc_qualificationReportId c else None;
        oc_candidateId := if session then oc_candidateId c else None;
        oc_expectedCurrentQualification :=
          if session then Some {| cq_mint := expected cq_mint; cq_reportId := expected cq_reportId;
                                  cq_qualificationEventId := expected cq_qualificationEventId |}
          else None;
        oc_entryDecisionAtMs := oc_entryDecisionAtMs c;
        oc_entryDecisionJobId :=
          if defined (oc_entryDecisionAtMs c) then Some (default "" (oc_entryDecisionJobId c)) else None |}.

(** src/src/paper/paper-trading-engine.ts:744-754 (snapshotCloseCommand) *)
Definition snapshotCloseCommand (c : ClosePaperPositionCommand)
    : result exn ClosePaperPositionCommand :=
  trigger ← snapshotTrigger (cc_trigger c);
  Ok {| cc_positionId := cc_positionId c; cc_trigger := trigger; cc_sellQuote := cc_sellQuote c;
        cc_reason := cc_reason c; cc_exitTriggerAtMs := cc_exitTriggerAtMs c |}.

(** [value?.trim() === ''] *)
Definition blank_text (o : option string) : bool :=
  match o with
  | Some s => blank s
  | None => false
  end.
Definition CREATION_ENTRY : string := "creation-entry-v1".

(** src/src/paper/paper-trading-engine.ts:498-555 (validateOpenCommand) *)
Definition validateOpenCommand (c : OpenPaperPositionCommand) (allowlist : list string)
    (profile : EffectiveQualificationProfile) (openedAtMs : Z) : result exn unit :=
  throw_if (blank (oc_mint c) || negb (bool_decide (ev_mint (oc_trigger c) = oc_mint c)))
    (invalidQuote "mint") ;;
  let creationEntry := bool_decide (strategy_id (oc_strategy c) = CREATION_ENTRY) in
  throw_if (xorb (defined (oc_entryDecisionAtMs c)) (defined (oc_entryDecisionJobId c))
            || (creationEntry && negb (defined (oc_entryDecisionAtMs c)
                                       && defined (oc_entryDecisionJobId c))))
    (invalidQuote "entryDecision") ;;
  match oc_entryDecisionAtMs c with
  | Some at_ms =>
      assertValidTimestampMs TF_occurredAtMs at_ms ;;
      throw_if (q_observedAtMs (oc_buyQuote c) <? at_ms) (invalidQuote "buyQuote.observedAtMs")
  | None => Ok tt
  end ;;
  throw_if (blank_text (oc_entryDecisionJobId c)) (invalidQuote "entryDecisionJobId") ;;
  throw_if (creationEntry && (openedAtMs <? q_observedAtMs (oc_buyQuote c)))
    (invalidQuote "buyQuote.observedAtMs") ;;
  throw_if (blank (strategy_id (oc_strategy c))
            || negb (is_safe_integer (strategy_version (oc_strategy c)))
            || (strategy_version (oc_strategy c) <=? 0)) (invalidQuote "strategy") ;;
  let lineage := [oc_strategySessionId c; oc_qualificationReportId c; oc_candidateId c] in
  throw_if (existsb defined lineage
            && (existsb (fun o => negb (defined o)) lineage || existsb blank_text lineage))
    (invalidQuote "paper lineage") ;;
  throw_if (defined (oc_strategySessionId c)
            && (negb (bool_decide (cq_mint <$> oc_expectedCurrentQualification c = Some (oc_mint c)))
                || negb (bool_decide (cq_reportId <$> oc_expectedCurrentQualification c
                                      = oc_qualificationReportId c))
                || negb (bool_decide (cq_qualificationEventId <$> oc_expectedCurrentQualification c
                                      = Some (ev_id (oc_trigger c))))))
    (invalidQuote "current qualification") ;;
  validateQualificationReport (oc_qualification c) profile ;;
  throw_if (0 <? List.length (qr_blockers (oc_qualification c)))%nat
    (PaperTradingError QUALIFICATION_BLOCKED "") ;;
  throw_if (negb (bool_decide (qr_verdict (oc_qualification c) = V_QUALIFIED)))
    (PaperTradingError QUALIFICATION_NOT_ACCEPTED "") ;;
  throw_if (negb (includes (qa_mint (oc_quoteAsset c)) allowlist))
    (PaperTradingError QUOTE_MINT_NOT_ALLOWED "") ;;
  throw_if (negb (bool_decide (q_inputMint (oc_buyQuote c) = qa_mint (oc_quoteAsset c)))
            || negb (bool_decide (q_outputMint (oc_buyQuote c) = oc_mint c)))
    (invalidQuote "buyQuote") ;;
  throw_if ((oc_maximumRoundTripLossBps c <? 0) || (10000 <? oc_maximumRoundTripLossBps c))
    (invalidQuote "maximumRoundTripLossBps").

(** src/src/paper/paper-trading-engine.ts:673-694 (validateCloseCommand) *)
Definition validateCloseCommand (c : ClosePaperPositionCommand) (p : PaperPosition)
    : result exn unit :=
  rejectOrphanedTrigger (cc_trigger c) ;;
  (if bool_decide (strategy_id (pp_strategy p) = CREATION_ENTRY) then
     match cc_exitTriggerAtMs c with
     | None => throw_if (negb (bool_decide (cc_reason c = "MANUAL_KILL_SWITCH")))
                 (invalidQuote "exitTriggerAtMs")
     | Some at_ms => assertValidTimestampMs TF_occurredAtMs at_ms
     end
   else Ok tt) ;;
  throw_if (negb (bool_decide (ev_mint (cc_trigger c) = pp_mint p))) (invalidQuote "trigger.mint") ;;
  throw_if (blank (cc_reason c)) (invalidQuote "reason") ;;
  throw_if (negb (bool_decide (q_inputMint (cc_sellQuote c) = pp_mint p))
            || negb (bool_decide (q_outputMint (cc_sellQuote c) = qa_mint (pp_quoteAsset p)))
            || negb (q_amountInRaw (cc_sellQuote c) =? pp_remainingBaseRaw p))
    (invalidQuote "sellQuote").

(** * The repository port *)

(** src/src/ports/paper-trading-repository.ts:11-14 (PaperConfirmationObservation) *)
Record PaperConfirmationObservation := {
  po_confirmationStatus : ChainConfirmationStatus;
  po_blockchainTimeMs : option Z;
  po_observedAtMs : Z;
}.

(** src/src/ports/paper-trading-repository.ts:16-41 (PaperTradingTransaction) *)
Class PaperTradingTransaction (S : Type) := {
  requireCurrentQualification : PaperCurrentQualificationIdentity -> prog S exn unit;
  findPosition : string -> prog S exn (option PaperPosition);
  findActivePosition : string -> PaperStrategyIdentity -> prog S exn (option PaperPosition);
  insertOpened : PaperPosition -> PaperTrade -> PaperEvent -> option Z -> option string ->
                 prog S exn unit;
  updateClosed : PaperPosition -> PaperTrade -> PaperEvent -> option Z -> prog S exn unit;
  reconcileEventConfirmation : string -> PaperConfirmationObservation -> prog S exn unit;
  retractPosition : PaperPosition -> prog S exn unit;
}.

(** src/src/storage/paper-trading.repository.ts:41-56 (transact): a throw rolls the
    transaction back. *)
Definition transact {S A} (operation : prog S exn A) : prog S exn A := fun s =>
  match operation s with
  | (Ok a, s') => (Ok a, s')
  | (Err e, _) => (Err e, s)
  end.

(** What a trigger says of its own confirmation. *)
Definition observation_of (t : Trigger) (observedAtMs : Z) : PaperConfirmationObservation :=
  {| po_confirmationStatus := ev_confirmationStatus t;
     po_blockchainTimeMs := ev_blockchainTimeMs t; po_observedAtMs := observedAtMs |}.

(** src/src/paper/paper-trading-engine.ts:46-49 (PaperTradingConfig); whether
    [executionMode] is ['paper']. *)
Record PaperTradingConfig := {
  pc_paperMode : bool;
  pc_paperQuoteMintAllowlist : list string;
  pc_dataRetentionHours : Z;
}.

(** src/src/paper/paper-trading-engine.ts:955-989 (createPaperEvent) *)
Definition createPaperEvent `{Sha256} (type : DomainEventType) (position : PaperPosition)
    (trade : PaperTrade) (trigger : Trigger) (observedAtMs : Z) : result exn PaperEvent :=
  id ← paperEventId (event_type_name type) (pp_id position) (pt_id trade) (ev_id trigger);
  Ok {| ev_id := id; ev_type := type; ev_mint := pp_mint position; ev_source := "paper-trading";
        ev_program := ev_program trigger; ev_signature := ev_signature trigger;
        ev_cursor := ev_cursor trigger; ev_confirmationStatus := ev_confirmationStatus trigger;
        ev_blockchainTimeMs := ev_blockchainTimeMs trigger; ev_observedAtMs := observedAtMs;
        ev_payloadVersion := 1; ev_payload := (position, trade) |}.

(** src/src/paper/paper-trading-engine.ts:403-408 (retractPosition): [{ ...current, status: 'PAPER_RETRACTED', ... }]. *)
Definition retracted (p : PaperPosition) (terminalAtMs retentionMs : Z) : PaperPosition :=
  {| pp_id := pp_id p; pp_mint := pp_mint p; pp_quoteAsset := pp_quoteAsset p;
     pp_strategy := pp_strategy p; pp_status := PAPER_RETRACTED;
     pp_baseFilledRaw := pp_baseFilledRaw p; pp_remainingBaseRaw := pp_remainingBaseRaw p;
     pp_quoteCostRaw := pp_quoteCostRaw p; pp_quoteProceedsRaw := pp_quoteProceedsRaw p;
     pp_grossPnlQuoteRaw := pp_grossPnlQuoteRaw p; pp_netPnlQuoteRaw := pp_netPnlQuoteRaw p;
     pp_roundTripLossBps := pp_roundTripLossBps p; pp_entryTradeId := pp_entryTradeId p;
     pp_exitTradeId := pp_exitTradeId p; pp_openCommandHash := pp_openCommandHash p;
     pp_closeCommandHash := pp_closeCommandHash p; pp_triggerEventId := pp_triggerEventId p;
     pp_entryDecisionAtMs := pp_entryDecisionAtMs p;
     pp_entryDecisionJobId := pp_entryDecisionJobId p; pp_closeEventId := pp_closeEventId p;
     pp_exitTriggerAtMs := pp_exitTriggerAtMs p; pp_strategySessionId := pp_strategySessionId p;
     pp_qualificationReportId := pp_qualificationReportId p; pp_candidateId := pp_candidateId p;
     pp_openedAtMs := pp_openedAtMs p;
     pp_closedAtMs := Some (default terminalAtMs (pp_closedAtMs p));
     pp_purgeAfterMs := Some (terminalAtMs + retentionMs) |}.

(** src/src/paper/paper-trading-engine.ts:341-354 (close): [{ ...current, status: 'PAPER_CLOSED', ... }]. *)
Definition settled (p : PaperPosition) (sell : PaperExecutionQuote)
    (tradeId closeCommandHash closeEventId : string) (exitTriggerAtMs : option Z)
    (closedAtMs retentionMs : Z) : PaperPosition :=
  {| pp_id := pp_id p; pp_mint := pp_mint p; pp_quoteAsset := pp_quoteAsset p;
     pp_strategy := pp_strategy p; pp_status := PAPER_CLOSED;
     pp_baseFilledRaw := pp_baseFilledRaw p; pp_remainingBaseRaw := 0;
     pp_quoteCostRaw := pp_quoteCostRaw p;
     pp_quoteProceedsRaw := Some (q_minimumAmountOutRaw sell);
     pp_grossPnlQuoteRaw := Some (q_amountOutRaw sell - pp_quoteCostRaw p);
     pp_netPnlQuoteRaw := Some (q_minimumAmountOutRaw sell - pp_quoteCostRaw p);
     pp_roundTripLossBps := pp_roundTripLossBps p; pp_entryTradeId := pp_entryTradeId p;
     pp_exitTradeId := Some tradeId; pp_openCommandHash := pp_openCommandHash p;
     pp_closeCommandHash := Some closeCommandHash; pp_triggerEventId := pp_triggerEventId p;
     pp_entryDecisionAtMs := pp_entryDecisionAtMs p;
     pp_entryDecisionJobId := pp_entryDecisionJobId p; pp_closeEventId := Some closeEventId;
     pp_exitTriggerAtMs := exitTriggerAtMs; pp_strategySessionId := pp_strategySessionId p;
     pp_qualificationReportId := pp_qualificationReportId p; pp_candidateId := pp_candidateId p;
     pp_openedAtMs := pp_openedAtMs p; pp_closedAtMs := Some closedAtMs;
     pp_purgeAfterMs := Some (closedAtMs + retentionMs) |}.

(** src/src/paper/paper-trading-engine.ts:151-182 (open): the position a command opens. *)
Definition opened (c : OpenPaperPositionCommand) (rt : PaperRoundTrip)
    (positionId tradeId openCommandHash : string) (openedAtMs : Z) : PaperPosition :=
  {| pp_id := positionId; pp_mint := oc_mint c; pp_quoteAsset := oc_quoteAsset c;
     pp_strategy := oc_strategy c; pp_status := PAPER_HOLDING;
     pp_baseFilledRaw := rt_baseFilledRaw rt; pp_remainingBaseRaw := rt_baseFilledRaw rt;
     pp_quoteCostRaw := rt_quoteCostRaw rt; pp_quoteProceedsRaw := None;
     pp_grossPnlQuoteRaw := None; pp_netPnlQuoteRaw := None;
     pp_roundTripLossBps := rt_lossBps rt; pp_entryTradeId := tradeId; pp_exitTradeId := None;
     pp_openCommandHash := openCommandHash; pp_closeCommandHash := None;
     pp_triggerEventId := ev_id (oc_trigger c);
     pp_entryDecisionAtMs := oc_entryDecisionAtMs c;
     pp_entryDecisionJobId := oc_entryDecisionJobId c; pp_closeEventId := None;
     pp_exitTriggerAtMs := None; pp_strategySessionId := oc_strategySessionId c;
     pp_qualificationReportId :=
       if defined (oc_strategySessionId c) then oc_qualificationReportId c else None;
     pp_candidateId := if defined (oc_strategySessionId c) then oc_candidateId c else None;
     pp_openedAtMs := openedAtMs; pp_closedAtMs := None; pp_purgeAfterMs := None |}.
(** src/src/paper/paper-trading-engine.ts:141-150 (open): a trade filled at the minimum output of its quote. *)
Definition filled (id positionId : string) (side : PaperTradeSide) (q : PaperExecutionQuote)
    (reason : string) (createdAtMs : Z) : PaperTrade :=
  {| pt_id := id; pt_positionId := positionId; pt_side := side; pt_quote := q;
     pt_fillAmountOutRaw := q_minimumAmountOutRaw q; pt_reason := reason;
     pt_createdAtMs := createdAtMs |}.

(** * The engine *)

Section Engine.
Context `{Sha256} {S : Type} `{!PaperTradingTransaction S}.
Context (config : PaperTradingConfig) (profile : EffectiveQualificationProfile).
(** [qualificationReportAuthority.isAuthorized(report, { mint, triggerEventId })] *)
Context (isAuthorized : QualificationReport -> string -> string -> bool).

(** [dataRetentionHours * 60 * 60 * 1_000] *)
Definition retentionMs : Z := pc_dataRetentionHours config * 60 * 60 * 1000.

(** src/src/paper/paper-trading-engine.ts:413-420 (requirePaperMode) *)
Definition requirePaperMode : result exn unit :=
  throw_if (negb (pc_paperMode config)) (PaperTradingError PAPER_MODE_DISABLED "").

(** src/src/paper/paper-trading-engine.ts:395-411 (retractPosition); [terminalAtMs] is
    the clock's reading. *)
Definition retract_position (current : PaperPosition) (terminalAtMs : Z)
    : prog S exn PaperPosition :=
  if bool_decide (pp_status current = PAPER_RETRACTED) then pret current else
  lift (assertValidTimestampMs TF_occurredAtMs terminalAtMs) >>>
  let position := retracted current terminalAtMs retentionMs in
  retractPosition position >>>
  pret position.

(** src/src/paper/paper-trading-engine.ts:368-393 (reconcileOpenReplay) *)
Definition reconcileOpenReplay (position : PaperPosition) (hashes : OpenCommandHashes)
    (trigger : Trigger) (entryDecisionAtMs : option Z) (entryDecisionJobId : option string)
    (terminalAtMs : Z) : prog S exn PaperPosition :=
  lift (throw_if (negb (matchesOpenCommandHash position hashes)) conflict) >>>
  lift (throw_if (defined (pp_entryDecisionAtMs position)
                  && (negb (bool_decide (pp_entryDecisionAtMs position = entryDecisionAtMs))
                      || negb (bool_decide (pp_entryDecisionJobId position = entryDecisionJobId))))
          conflict) >>>
  eventId <-- lift (paperEventId "PaperPositionOpened" (pp_id position) (pp_entryTradeId position)
                      (ev_id trigger));
  reconcileEventConfirmation eventId (observation_of trigger (ev_observedAtMs trigger)) >>>
  if bool_decide (ev_confirmationStatus trigger = orphaned)
  then retract_position position terminalAtMs
  else pret position.

(** src/src/paper/paper-trading-engine.ts:99-191 (open): the transaction. *)
Definition open_transaction (c : OpenPaperPositionCommand) (rt : PaperRoundTrip)
    (positionId : string) (hashes : OpenCommandHashes) (openedAtMs terminalAtMs : Z)
    : prog S exn PaperPosition :=
  let replay position :=
    reconcileOpenReplay position hashes (oc_trigger c) (oc_entryDecisionAtMs c)
      (oc_entryDecisionJobId c) terminalAtMs in
  match oc_expectedCurrentQualification c with
  | Some identity => requireCurrentQualification identity
  | None => pret tt
  end >>>
  existing <-- findPosition positionId;
  match existing with
  | Some position => replay position
  | None =>
      active <-- findActivePosition (oc_mint c) (oc_strategy c);
      match active with
      | Some position =>
          if bool_decide (pp_id position = positionId) && matchesOpenCommandHash position hashes
          then replay position
          else pthrow conflict
      | None =>
          terminalReplay <-- findPosition positionId;
          match terminalReplay with
          | Some position => replay position
          | None =>
              lift (rejectOrphanedTrigger (oc_trigger c)) >>>
              tradeId <-- lift (hashId "paper_trade" [DStr positionId; DStr "BUY"]);
              let trade := filled tradeId positionId SIDE_BUY (oc_buyQuote c) "QUALIFIED_ENTRY"
                             openedAtMs in
              let position := opened c rt positionId tradeId (hash_current hashes) openedAtMs in
              event <-- lift (createPaperEvent PaperPositionOpened position trade (oc_trigger c)
                                (ev_observedAtMs (oc_trigger c)));
              insertOpened position trade event (oc_entryDecisionAtMs c)
                (oc_entryDecisionJobId c) >>>
              pret position
          end
      end
  end.

(** src/src/paper/paper-trading-engine.ts:77-98 (open): what [open] and [reconcileOpen] compute of a command before their
    transaction. *)
Definition check_open (snapshot : OpenPaperPositionCommand) (openedAtMs : Z)
    : result exn (PaperRoundTrip * string * OpenCommandHashes) :=
  validateOpenCommand snapshot (pc_paperQuoteMintAllowlist config) profile openedAtMs ;;
  roundTrip ← calculateRoundTrip (oc_buyQuote snapshot) (oc_reverseSellQuote snapshot);
  validateQualificationExecutionFacts (oc_qualification snapshot) (rt_lossBps roundTrip) profile ;;
  throw_if (oc_maximumRoundTripLossBps snapshot <? rt_lossBps roundTrip)
    (roundTripLossExceeded (rt_lossBps roundTrip)) ;;
  positionId ← positionIdOf snapshot;
  hashes ← hashOpenCommand snapshot;
  Ok (roundTrip, positionId, hashes).

(** src/src/paper/paper-trading-engine.ts:65-98 (open): the part before the transaction. *)
Definition prepare_open (command : OpenPaperPositionCommand) (openedAtMs : Z)
    : result exn (OpenPaperPositionCommand * (PaperRoundTrip * string * OpenCommandHashes)) :=
  requirePaperMode ;;
  trigger ← snapshotTrigger (oc_trigger command);
  throw_if (negb (isAuthorized (oc_qualification command) (oc_mint command) (ev_id trigger)))
    invalidQualification ;;
  snapshot ← snapshotOpenCommand command trigger;
  assertValidTimestampMs TF_occurredAtMs openedAtMs ;;
  checked ← check_open snapshot openedAtMs;
  Ok (snapshot, checked).

(** src/src/paper/paper-trading-engine.ts:65-192 (open) *)
Definition open (command : OpenPaperPositionCommand) (openedAtMs terminalAtMs : Z)
    : prog S exn PaperPosition :=
  prepared <-- lift (prepare_open command openedAtMs);
  let '(snapshot, (roundTrip, positionId, hashes)) := prepared in
  transact (open_transaction snapshot roundTrip positionId hashes openedAtMs terminalAtMs).

(** src/src/paper/paper-trading-engine.ts:194-231 (reconcileOpen) *)
Definition reconcileOpen (command : OpenPaperPositionCommand) (now terminalAtMs : Z)
    : prog S exn PaperPosition :=
  lift requirePaperMode >>>
  trigger <-- lift (snapshotTrigger (oc_trigger command));
  snapshot <-- lift (snapshotOpenCommand command trigger);
  checked <-- lift (check_open snapshot now);
  let '(_, positionId, hashes) := checked in
  transact (
    existing <-- findPosition positionId;
    match existing with
    | None => pthrow position_not_found
    | Some position =>
        reconcileOpenReplay position hashes (oc_trigger snapshot) (oc_entryDecisionAtMs snapshot)
          (oc_entryDecisionJobId snapshot) terminalAtMs
    end).

(** src/src/paper/paper-trading-engine.ts:233-248 (retract) *)
Definition retract (positionId : string) (triggerEvent : Trigger) (terminalAtMs : Z)
    : prog S exn PaperPosition :=
  lift requirePaperMode >>>
  trigger <-- lift (snapshotTrigger triggerEvent);
  lift (throw_if (negb (bool_decide (ev_confirmationStatus trigger = orphaned)))
          (PaperTradingError TRIGGER_ORPHANED "")) >>>
  transact (
    current <-- findPosition positionId;
    match current with
    | None => pthrow position_not_found
    | Some current => retract_position current terminalAtMs
    end).

(** src/src/paper/paper-trading-engine.ts:250-278 (reconcileClose) *)
Definition reconcileClose (positionId : string) (triggerEvent : Trigger) (terminalAtMs : Z)
    : prog S exn PaperPosition :=
  lift requirePaperMode >>>
  trigger <-- lift (snapshotTrigger triggerEvent);
  transact (
    current <-- findPosition positionId;
    match current with
    | None => pthrow position_not_found
    | Some current =>
        if bool_decide (pp_status current = PAPER_RETRACTED) then pret current else
        match pp_status current, pp_exitTradeId current, pp_closeEventId current with
        | PAPER_CLOSED, Some exitTradeId, Some closeEventId =>
            expected <-- lift (paperEventId "PaperPositionClosed" (pp_id current) exitTradeId
                                 (ev_id trigger));
            lift (throw_if (negb (bool_decide (closeEventId = expected)))
                    (PaperTradingError CLOSE_TRIGGER_MISMATCH "")) >>>
            reconcileEventConfirmation closeEventId
              (observation_of trigger (ev_observedAtMs trigger)) >>>
            if bool_decide (ev_confirmationStatus trigger = orphaned)
            then retract_position current terminalAtMs
            else pret current
        | _, _, _ => pthrow conflict
        end
    end).

(** src/src/paper/paper-trading-engine.ts:288-293 (close): the digest of a close command without its exit time. *)
Definition hashCloseCommand (c : ClosePaperPositionCommand) : result exn string :=
  hashValue "paper_close_command"
    (DObj [("positionId", DStr (cc_positionId c)); ("trigger", DStr (ev_id (cc_trigger c)));
           ("sellQuote", quote_data (cc_sellQuote c)); ("reason", DStr (cc_reason c))]).

(** src/src/paper/paper-trading-engine.ts:304-327 (close): a command for a position
    that is no longer held. *)
Definition close_replay (c : ClosePaperPositionCommand) (closeCommandHash : string)
    (current : PaperPosition) (terminalAtMs : Z) : prog S exn PaperPosition :=
  lift (throw_if (negb (bool_decide (pp_closeCommandHash current = Some closeCommandHash)))
          conflict) >>>
  match pp_exitTradeId current with
  | None => pthrow conflict
  | Some exitTradeId =>
      lift (throw_if (defined (pp_exitTriggerAtMs current)
                      && negb (bool_decide (pp_exitTriggerAtMs current = cc_exitTriggerAtMs c)))
              conflict) >>>
      eventId <-- lift (match pp_closeEventId current with
                        | Some id => Ok id
                        | None => paperEventId "PaperPositionClosed" (pp_id current) exitTradeId
                                    (ev_id (cc_trigger c))
                        end);
      reconcileEventConfirmation eventId
        (observation_of (cc_trigger c)
           (default (ev_observedAtMs (cc_trigger c)) (pp_exitTriggerAtMs current))) >>>
      if bool_decide (ev_confirmationStatus (cc_trigger c) = orphaned)
      then retract_position current terminalAtMs
      else pret current
  end.

(** src/src/paper/paper-trading-engine.ts:328-364 (close): the sale. *)
Definition close_sale (c : ClosePaperPositionCommand) (closeCommandHash : string)
    (current : PaperPosition) (closedAtMs : Z) : prog S exn PaperPosition :=
  lift (validateCloseCommand c current) >>>
  tradeId <-- lift (hashId "paper_trade" [DStr (pp_id current); DStr "SELL"]);
  let trade := filled tradeId (pp_id current) SIDE_SELL (cc_sellQuote c) (cc_reason c) closedAtMs in
  closeEventId <-- lift (paperEventId "PaperPositionClosed" (pp_id current) (pt_id trade)
                           (ev_id (cc_trigger c)));
  let position := settled current (cc_sellQuote c) tradeId closeCommandHash closeEventId
                    (cc_exitTriggerAtMs c) closedAtMs retentionMs in
  event <-- lift (createPaperEvent PaperPositionClosed position trade (cc_trigger c)
                    (default (ev_observedAtMs (cc_trigger c)) (cc_exitTriggerAtMs c)));
  updateClosed position trade event (cc_exitTriggerAtMs c) >>>
  pret position.

(** src/src/paper/paper-trading-engine.ts:280-366 (close) *)
Definition close (command : ClosePaperPositionCommand) (closedAtMs terminalAtMs : Z)
    : prog S exn PaperPosition :=
  lift requirePaperMode >>>
  snapshot <-- lift (snapshotCloseCommand command);
  lift (validatePaperQuote (cc_sellQuote snapshot)) >>>
  lift (match cc_exitTriggerAtMs snapshot with
        | Some at_ms => throw_if (q_observedAtMs (cc_sellQuote snapshot) <? at_ms)
                          (invalidQuote "sellQuote.observedAtMs")
        | None => Ok tt
        end) >>>
  closeCommandHash <-- lift (hashCloseCommand snapshot);
  lift (assertValidTimestampMs TF_occurredAtMs closedAtMs) >>>
  transact (
    current <-- findPosition (cc_positionId snapshot);
    match current with
    | None => pthrow position_not_found
    | Some current =>
        if bool_decide (pp_status current = PAPER_HOLDING)
        then close_sale snapshot closeCommandHash current closedAtMs
        else close_replay snapshot closeCommandHash current terminalAtMs
    end).
End Engine.

(** * Digests identify commands *)

Lemma marker_free_map {A} (f : A -> data) l :
  (forall a, marker_free (f a) = true) -> marker_free (DArr (map f l)) = true.
Proof. intros Hf. cbn. induction l; cbn; [done|]. by rewrite Hf. Qed.

Lemma cond_record_marker_free l : marker_free (cond_record l) = true.
Proof. unfold cond_record. cbn. induction l as [|[k []] l IH]; cbn; done. Qed.

Lemma marker_free_obj_cons k v l :
  marker_free (DObj ((k, v) :: l)) = marker_free v && marker_free (DObj l).
Proof. done. Qed.

Lemma condition_marker_free c : marker_free (condition_data c) = true.
Proof.
  unfold condition_data. rewrite !marker_free_obj_cons, !cond_record_marker_free. done.
Qed.

Lemma report_marker_free r : marker_free (report_data r) = true.
Proof.
  unfold report_data. rewrite !marker_free_obj_cons, !marker_free_map; try done.
  apply condition_marker_free.
Qed.

Lemma legacy_marker_free r : marker_free (legacyQualificationSnapshot r) = true.
Proof.
  unfold legacyQualificationSnapshot. by rewrite !marker_free_obj_cons, !marker_free_map.
Qed.

Lemma open_command_marker_free c q : marker_free q = true -> marker_free (open_command_data c q) = true.
Proof.
  intros Hq. unfold open_command_data. cbn [app]. rewrite !marker_free_obj_cons, Hq.
  by destruct (oc_strategySessionId c), (oc_qualificationReportId c), (oc_candidateId c).
Qed.

Lemma hashValue_agree `{Sha256} ns v v' id :
  marker_free v = true -> marker_free v' = true ->
  hashValue ns v = Ok id -> hashValue ns v' = Ok id -> v = v' \/ sha256_collision.
Proof.
  unfold hashValue. intros Hm Hm' Hv Hv'.
  apply bind_Ok in Hv as (a & Ha & Hv). apply bind_Ok in Hv' as (b & Hb & Hv').
  rewrite <- Hv in Hv'. apply (f_equal (fun r => match r with Ok x => x | Err _ => "" end)) in Hv'.
  apply append_inj, (append_inj "_") in Hv'.
  destruct (decide (a = b)) as [->|Hne]; [left; by eapply stringifyJson_inj|].
  right. eexists _, _. split; [|exact Hv'].
  intros E. apply append_inj, append_inj in E. congruence.
Qed.

Lemma token_program_name_inj t t' : token_program_name t = token_program_name t' -> t = t'.
Proof. by destruct t, t'. Qed.
Lemma asset_data_inj a a' : asset_data a = asset_data a' -> a = a'.
Proof.
  unfold asset_data. intros [= E1 E2 E3]. apply token_program_name_inj in E3.
  destruct a, a'; cbn in *. congruence.
Qed.
Lemma strategy_data_inj s s' : strategy_data s = strategy_data s' -> s = s'.
Proof. unfold strategy_data. destruct s, s'; cbn. intros [= E1 E2]. congruence. Qed.
Lemma quote_data_inj q q' : quote_data q = quote_data q' -> q = q'.
Proof. unfold quote_data. destruct q, q'; cbn. intros [=]. congruence. Qed.

(** Commands that agree in all that their digest covers, the report aside. *)
Record same_command (c c' : OpenPaperPositionCommand) : Prop := {
  sc_mint : oc_mint c' = oc_mint c;
  sc_asset : oc_quoteAsset c' = oc_quoteAsset c;
  sc_strategy : oc_strategy c' = oc_strategy c;
  sc_trigger : ev_id (oc_trigger c') = ev_id (oc_trigger c);
  sc_buy : oc_buyQuote c' = oc_buyQuote c;
  sc_sell : oc_reverseSellQuote c' = oc_reverseSellQuote c;
  sc_ceiling : oc_maximumRoundTripLossBps c' = oc_maximumRoundTripLossBps c;
  sc_session : oc_strategySessionId c' = oc_strategySessionId c;
}.

Lemma optional_text_head k a b l l' :
  (forall v, (k, v) ∉ l) -> (forall v, (k, v) ∉ l') ->
  optional_text k a ++ l = optional_text k b ++ l' -> a = b.
Proof.
  intros Hl Hl'. destruct a as [a|], b as [b|]; cbn; intros E; try done.
  - by injection E as -> _.
  - exfalso. apply (Hl' (DStr a)). rewrite <- E. by left.
  - exfalso. apply (Hl (DStr b)). rewrite E. by left.
Qed.

Lemma optional_text_other k k' a v : k <> k' -> (k, v) ∉ optional_text k' a.
Proof.
  intros Hne. destruct a; cbn; [|apply not_elem_of_nil].
  intros [= E _]%list_elem_of_singleton. done.
Qed.

Lemma DObj_inj l l' : DObj l = DObj l' -> l = l'.
Proof. by intros [= ->]. Qed.
Lemma members_cons (k : string) (v v' : data) l l' :
  (k, v) :: l = (k, v') :: l' -> v = v' /\ l = l'.
Proof. by intros [= -> ->]. Qed.

Lemma open_command_data_inj c c' q q' :
  open_command_data c q = open_command_data c' q' -> same_command c c' /\ q = q'.
Proof.
  unfold open_command_data. cbn [app]. intros E%DObj_inj.
  apply members_cons in E as [Em E]. apply members_cons in E as [Ea%asset_data_inj E].
  apply members_cons in E as [Es%strategy_data_inj E]. apply members_cons in E as [Et E].
  apply members_cons in E as [Eq E]. apply members_cons in E as [Eb%quote_data_inj E].
  apply members_cons in E as [Er%quote_data_inj E]. apply members_cons in E as [Ex El].
  injection Em as Em. injection Et as Et. injection Ex as Ex.
  apply optional_text_head in El; [done | |];
    intros v Hin; apply elem_of_app in Hin as [Hin|Hin]; by eapply optional_text_other in Hin.
Qed.

(** A position opened by [c] accepts a replay of [c'] only if they are one command. *)
Lemma matching_hash_same_command `{Sha256} c c' h h' p :
  hashOpenCommand c = Ok h -> hashOpenCommand c' = Ok h' ->
  pp_openCommandHash p = hash_current h -> matchesOpenCommandHash p h' = true ->
  (same_command c c' /\ report_data (oc_qualification c) = report_data (oc_qualification c'))
  \/ sha256_collision.
Proof.
  unfold hashOpenCommand, matchesOpenCommandHash. intros Hh Hh' Hp Hm. result_inv.
  cbn in Hp, Hm. rewrite Hp in Hm. apply orb_true_iff in Hm as [Hm|Hm]; bool_prop; subst.
  - match goal with H : hashValue _ (open_command_data c _) = Ok ?i,
      H' : hashValue _ (open_command_data c' (report_data _)) = Ok ?i |- _ =>
      destruct (hashValue_agree _ _ _ _
        (open_command_marker_free _ _ (report_marker_free _))
        (open_command_marker_free _ _ (report_marker_free _)) H H') as [E|]; [|by right] end.
    apply open_command_data_inj in E. by left.
  - match goal with H : hashValue _ (open_command_data c (report_data _)) = Ok ?i,
      H' : hashValue _ (open_command_data c' (legacyQualificationSnapshot _)) = Ok ?i |- _ =>
      destruct (hashValue_agree _ _ _ _
        (open_command_marker_free _ _ (report_marker_free _))
        (open_command_marker_free _ _ (legacy_marker_free _)) H H') as [E|]; [|by right] end.
    apply open_command_data_inj in E as [_ E]. discriminate E.
Qed.
