(* ===== verification/PaperCurrent.v ===== *)
(** When a qualification is current: the query of [requireCurrentQualification] in
    [src/src/storage/paper-trading.repository.ts] and the replay barrier of
    [src/src/storage/paper-finality-barrier.ts].

    Both read tables that other parts of the program write (the qualification reports, the
    domain and raw events they are made of, the transaction inbox and the receipts of
    finality replays) and the clock of the database.  The tables are a value of their own, so
    that a theorem can say what holds when they change between two transactions.  The
    queries also lock what they read; the locks are not modelled. *)
From S2P Require Import Prelude Text Types PaperLedger.
From Stdlib Require Import String.
Local Open Scope string_scope.
Local Open Scope list_scope.
Local Open Scope Z_scope.

(** * Tables *)

(** src/src/storage/paper-trading.repository.ts:66-79 (qualification_reports): the columns the query
    reads. *)
Record report_row := {
  rr_mint : string;
  rr_qualificationEventId : string;
  rr_sourceEventId : string;
  rr_sourceRawEventId : string;
  rr_confirmationStatus : ChainConfirmationStatus;
  rr_supersededAt : option Z;
  rr_purgeAfter : Z;
}.
(** src/src/storage/paper-trading.repository.ts:103-128 (domain_events): the columns the queries
    read. *)
Record domain_row := {
  dr_rawEventId : option string;
  dr_type : DomainEventType;
  dr_mint : string;
  dr_source : string;
  dr_program : string;
  dr_signature : string;
  dr_cursor : ChainCursor;
  dr_confirmationStatus : ChainConfirmationStatus;
}.
(** src/src/storage/paper-finality-barrier.ts:99-118 (raw_chain_events): the columns the queries
    read. *)
Record raw_row := {
  rw_mint : option string;
  rw_source : string;
  rw_program : string;
  rw_signature : string;
  rw_cursor : ChainCursor;
  rw_confirmationStatus : ChainConfirmationStatus;
}.
(** src/src/storage/paper-finality-barrier.ts:25-29 (InboxReplayState) *)
Record InboxReplayState := {
  ir_processingStatus : string;
  ir_confirmationStatus : ChainConfirmationStatus;
}.
(** src/src/storage/paper-finality-barrier.ts:31-35 (FinalityReplayReceipt) *)
Record FinalityReplayReceipt := {
  fr_observedSlot : Z;
  fr_confirmationStatus : ChainConfirmationStatus;
}.

(** The tables by primary key, and what [clock_timestamp()] answers. *)
Record chain_tables := {
  ct_clock : Z;
  ct_reports : gmap string report_row;
  ct_events : gmap string domain_row;
  ct_raws : gmap string raw_row;
  ct_inbox : gmap string InboxReplayState;
  ct_receipts : gmap string FinalityReplayReceipt;
}.

(** * The replay barrier *)

(** src/src/storage/paper-finality-barrier.ts:1-1 (MAX_PAPER_FINALITY_RAW_ROWS) *)
Definition MAX_PAPER_FINALITY_RAW_ROWS : nat := 4096.

(** [ROW(a, b, ...) <= ROW(c, d, ...)] *)
Fixpoint row_le (l r : list Z) : bool :=
  match l, r with
  | a :: l, b :: r => (a <? b) || ((a =? b) && row_le l r)
  | _, _ => true
  end.
Definition cursor_columns (c : ChainCursor) : list Z :=
  [slot c; transactionIndex c; instructionIndex c; default (-1) (innerInstructionIndex c)].

(** src/src/storage/paper-finality-barrier.ts:93-119 (paperFinalityRelevantRawSql), for the
    parameters of a call: every raw event of the token up to the source; none when the source
    is not an event of the token.  The order of the rows and the limit, one above the largest
    number that is accepted, do not matter to the caller. *)
Definition paperFinalityRelevantRaw (t : chain_tables) (mint sourceRawEventId : string)
    : list (string * raw_row) :=
  match ct_raws t !! sourceRawEventId with
  | Some source =>
      if bool_decide (rw_mint source = Some mint)
      then List.filter (fun kr => bool_decide (rw_mint (snd kr) = Some mint)
                          && row_le (cursor_columns (rw_cursor (snd kr)))
                                    (cursor_columns (rw_cursor source)))
             (map_to_list (ct_raws t))
      else []
  | None => []
  end.

(** src/src/storage/paper-finality-barrier.ts:136-138 (isTerminalConfirmation) *)
Definition isTerminalConfirmation (s : ChainConfirmationStatus) : bool :=
  bool_decide (s = finalized) || bool_decide (s = orphaned).

(** src/src/storage/paper-finality-barrier.ts:75-89 (assertPaperFinalityReplayCurrent): what the
    loop asks of an event.  A text that is read may not be empty. *)
Definition replayed (t : chain_tables) (kr : string * raw_row) : bool :=
  let raw := snd kr in
  negb (String.eqb (fst kr) "") && negb (String.eqb (rw_signature raw) "")
  && match ct_inbox t !! rw_signature raw with
     | None =>
         isTerminalConfirmation (rw_confirmationStatus raw)
         && match ct_receipts t !! rw_signature raw with
            | Some receipt => (fr_observedSlot receipt =? slot (rw_cursor raw))
                && bool_decide (fr_confirmationStatus receipt = rw_confirmationStatus raw)
            | None => false
            end
     | Some inbox => bool_decide (ir_processingStatus inbox = "PROCESSED")
         && bool_decide (ir_confirmationStatus inbox = rw_confirmationStatus raw)
     end.

(** src/src/storage/paper-finality-barrier.ts:37-91 (assertPaperFinalityReplayCurrent): [false]
    where the source throws [PaperFinalityBarrierError]. *)
Definition assertPaperFinalityReplayCurrent (t : chain_tables) (mint sourceRawEventId : string)
    : bool :=
  let rawRows := paperFinalityRelevantRaw t mint sourceRawEventId in
  negb (List.length rawRows =? 0)%nat
  && (List.length rawRows <=? MAX_PAPER_FINALITY_RAW_ROWS)%nat
  && existsb (fun kr => String.eqb (fst kr) sourceRawEventId) rawRows
  && forallb (replayed t) rawRows.

(** * The query *)

(** src/src/storage/paper-trading.repository.ts:110-113 (the types of a source event) *)
Definition SOURCE_TYPES : list DomainEventType :=
  [TokenLaunchDetected; BondingCurveTradeObserved; BondingCurveStateUpdated; BondingCurveCompleted;
   MigrationObserved; PumpSwapPoolActivated].

(** src/src/storage/paper-trading.repository.ts:66-82 (requireCurrentQualification): the report and its
    event, of the identity that is asked for. *)
Definition current_report (t : chain_tables) (i : PaperCurrentQualificationIdentity)
    : option (report_row * domain_row) :=
  report ← ct_reports t !! cq_reportId i;
  event ← ct_events t !! rr_qualificationEventId report;
  if bool_decide (rr_mint report = cq_mint i)
     && bool_decide (rr_qualificationEventId report = cq_qualificationEventId i)
     && bool_decide (dr_mint event = cq_mint i) && bool_decide (dr_type event = QualificationUpdated)
     && bool_decide (rr_supersededAt report = None)
     && (ct_clock t <? rr_purgeAfter report)
     && negb (bool_decide (rr_confirmationStatus report = orphaned))
     && negb (bool_decide (dr_confirmationStatus event = orphaned))
     && bool_decide (rr_confirmationStatus report = dr_confirmationStatus event)
  then Some (report, event) else None.

(** src/src/storage/paper-trading.repository.ts:95-134 (requireCurrentQualification): the source of the
    report and its raw event. *)
Definition current_source (t : chain_tables) (i : PaperCurrentQualificationIdentity)
    (report : report_row) (event : domain_row) : bool :=
  match ct_raws t !! rr_sourceRawEventId report, ct_events t !! rr_sourceEventId report with
  | Some raw, Some source =>
      bool_decide (rw_mint raw = Some (cq_mint i))
      && negb (bool_decide (rw_confirmationStatus raw = orphaned))
      && bool_decide (dr_rawEventId source = Some (rr_sourceRawEventId report))
      && bool_decide (dr_mint source = cq_mint i)
      && bool_decide (dr_type source ∈ SOURCE_TYPES)
      && bool_decide (rr_mint report = cq_mint i)
      && negb (bool_decide (dr_confirmationStatus source = orphaned))
      && bool_decide (dr_confirmationStatus source = rw_confirmationStatus raw)
      && bool_decide (dr_confirmationStatus source = rr_confirmationStatus report)
      && bool_decide (dr_confirmationStatus source = dr_confirmationStatus event)
      && bool_decide (rw_source raw = dr_source source)
      && bool_decide (rw_program raw = dr_program source)
      && bool_decide (rw_signature raw = dr_signature source)
      && bool_decide (rw_cursor raw = dr_cursor source)
  | _, _ => false
  end.

(** src/src/storage/paper-trading.repository.ts:62-143 (requireCurrentQualification): whether the
    statements find what they ask for.  Where one does not, the source throws
    QUALIFICATION_NOT_CURRENT. *)
Definition qualification_current (t : chain_tables) (i : PaperCurrentQualificationIdentity) : bool :=
  match current_report t i with
  | Some (report, event) =>
      current_source t i report event
      && assertPaperFinalityReplayCurrent t (cq_mint i) (rr_sourceRawEventId report)
  | None => false
  end.

(** * What being current means *)

(** One place in the chain is not after another; an instruction comes before its inner ones. *)
Definition not_after (a b : ChainCursor) : Prop :=
  let inner c := default (-1) (innerInstructionIndex c) in
  slot a < slot b
  \/ slot a = slot b
     /\ (transactionIndex a < transactionIndex b
         \/ transactionIndex a = transactionIndex b
            /\ (instructionIndex a < instructionIndex b
                \/ instructionIndex a = instructionIndex b /\ inner a <= inner b)).
(** The processing of an event under its present status is over: the inbox row of its transaction
    is processed with that status, or it is gone and its receipt tells the slot and that status,
    which then is a final one. *)
Definition processing_over (t : chain_tables) (raw : raw_row) : Prop :=
  (exists row, ct_inbox t !! rw_signature raw = Some row
     /\ row = {| ir_processingStatus := "PROCESSED"; ir_confirmationStatus := rw_confirmationStatus raw |})
  \/ ct_inbox t !! rw_signature raw = None
     /\ (rw_confirmationStatus raw = finalized \/ rw_confirmationStatus raw = orphaned)
     /\ ct_receipts t !! rw_signature raw
        = Some {| fr_observedSlot := slot (rw_cursor raw); fr_confirmationStatus := rw_confirmationStatus raw |}.
(** The events of a token up to a place. *)
Definition event_until (t : chain_tables) (mint : string) (place : ChainCursor) (id : string) (raw : raw_row) : Prop :=
  ct_raws t !! id = Some raw /\ rw_mint raw = Some mint /\ not_after (rw_cursor raw) place.

(** A qualification is current when its report, the event that announced it, the event it was made
    on and the raw form of that event are all there, of the token, of one status that is not
    orphaned, and fit together; the report is neither superseded nor past its retention; and all
    events of the token up to its source, at most 4096, are processed. *)
Record is_current (t : chain_tables) (i : PaperCurrentQualificationIdentity)
    (report : report_row) (event source : domain_row) (raw : raw_row) : Prop := {
  ic_report : ct_reports t !! cq_reportId i = Some report;
  ic_event : ct_events t !! cq_qualificationEventId i = Some event;
  ic_source : ct_events t !! rr_sourceEventId report = Some source;
  ic_raw : ct_raws t !! rr_sourceRawEventId report = Some raw;
  ic_same : rr_qualificationEventId report = cq_qualificationEventId i
            /\ dr_rawEventId source = Some (rr_sourceRawEventId report);
  ic_mint : rr_mint report = cq_mint i /\ dr_mint event = cq_mint i /\ dr_mint source = cq_mint i
            /\ rw_mint raw = Some (cq_mint i);
  ic_type : dr_type event = QualificationUpdated
            /\ dr_type source ∈ [TokenLaunchDetected; BondingCurveTradeObserved; BondingCurveStateUpdated;
                                 BondingCurveCompleted; MigrationObserved; PumpSwapPoolActivated];
  ic_superseded : rr_supersededAt report = None;
  ic_retention : ct_clock t < rr_purgeAfter report;
  ic_orphaned : rr_confirmationStatus report <> orphaned;
  ic_status : dr_confirmationStatus event = rr_confirmationStatus report
              /\ dr_confirmationStatus source = rr_confirmationStatus report
              /\ rw_confirmationStatus raw = rr_confirmationStatus report;
  ic_origin : rw_source raw = dr_source source /\ rw_program raw = dr_program source
              /\ rw_signature raw = dr_signature source /\ rw_cursor raw = dr_cursor source;
  ic_replayed : forall id r, event_until t (cq_mint i) (rw_cursor raw) id r ->
                id <> "" /\ rw_signature r <> "" /\ processing_over t r;
  ic_bounded : exists ids, (List.length ids <= 4096)%nat
               /\ forall id r, event_until t (cq_mint i) (rw_cursor raw) id r -> id ∈ ids;
}.

(** * Lemmas *)

Lemma row_le_iff a b : row_le (cursor_columns a) (cursor_columns b) = true <-> not_after a b.
Proof.
  unfold cursor_columns, not_after. cbn [row_le].
  rewrite !orb_true_iff, !andb_true_iff, !orb_true_iff, !andb_true_iff, !orb_true_iff, !andb_true_iff, !orb_true_iff, !andb_true_iff,
    !Z.ltb_lt, !Z.eqb_eq.
  intuition lia.
Qed.
Lemma replayed_iff t id raw :
  replayed t (id, raw) = true <-> id <> "" /\ rw_signature raw <> "" /\ processing_over t raw.
Proof.
  unfold replayed, processing_over, isTerminalConfirmation. cbn [fst snd].
  rewrite !andb_true_iff, !negb_true_iff, !String.eqb_neq.
  destruct (ct_inbox t !! rw_signature raw) as [[st cs]|]; cbn [ir_processingStatus ir_confirmationStatus].
  - rewrite andb_true_iff, !bool_decide_eq_true. naive_solver.
  - destruct (ct_receipts t !! rw_signature raw) as [[sl cs]|]; cbn [fr_observedSlot fr_confirmationStatus];
      rewrite ?andb_true_iff, ?orb_true_iff, ?bool_decide_eq_true, ?Z.eqb_eq; naive_solver.
Qed.
Lemma relevant_elem t mint sourceId source id raw :
  ct_raws t !! sourceId = Some source -> rw_mint source = Some mint ->
  (id, raw) ∈ paperFinalityRelevantRaw t mint sourceId <-> event_until t mint (rw_cursor source) id raw.
Proof.
  intros Hs Hm. unfold paperFinalityRelevantRaw, event_until. rewrite Hs, bool_decide_eq_true_2 by done.
  rewrite list_elem_of_In, List.filter_In, <- list_elem_of_In, elem_of_map_to_list. cbn [snd].
  rewrite andb_true_iff, bool_decide_eq_true, row_le_iff. tauto.
Qed.
Lemma relevant_ids t mint sourceId : NoDup (map fst (paperFinalityRelevantRaw t mint sourceId)).
Proof.
  unfold paperFinalityRelevantRaw. destruct (ct_raws t !! sourceId) as [source|]; [|constructor].
  destruct (bool_decide _); [|constructor]. pose proof (NoDup_fst_map_to_list (ct_raws t)) as Hn.
  induction (map_to_list (ct_raws t)) as [|kr l IH]; [constructor|]. cbn [fmap list_fmap] in Hn.
  apply NoDup_cons in Hn as [Hk Hn]. cbn [List.filter]. destruct (_ && _); [|by apply IH]. cbn [map].
  constructor; [|by apply IH]. intros Hin. apply Hk. apply list_elem_of_In in Hin. apply in_map_iff in Hin as (x & Ex & Hx).
  apply List.filter_In in Hx as [Hx _]. rewrite <- Ex. apply list_elem_of_fmap_2. by apply list_elem_of_In.
Qed.
Lemma replay_current_iff t mint sourceId source :
  ct_raws t !! sourceId = Some source -> rw_mint source = Some mint ->
  assertPaperFinalityReplayCurrent t mint sourceId = true
  <-> (forall id r, event_until t mint (rw_cursor source) id r ->
         id <> "" /\ rw_signature r <> "" /\ processing_over t r)
      /\ exists ids, (List.length ids <= 4096)%nat
          /\ forall id r, event_until t mint (rw_cursor source) id r -> id ∈ ids.
Proof.
  intros Hs Hm. unfold assertPaperFinalityReplayCurrent. pose proof (relevant_elem t mint sourceId source) as Hel.
  pose proof (relevant_ids t mint sourceId) as Hn.
  assert ((sourceId, source) ∈ paperFinalityRelevantRaw t mint sourceId) as Hin.
  { apply Hel; [done..|]. split; [done|]. split; [done|]. unfold not_after. lia. }
  set (l := paperFinalityRelevantRaw t mint sourceId) in *.
  assert (negb (List.length l =? 0)%nat = true) as -> by (destruct l; [by apply not_elem_of_nil in Hin|done]).
  assert (existsb (fun kr => String.eqb (fst kr) sourceId) l = true) as ->.
  { apply existsb_exists. exists (sourceId, source). split; [by apply list_elem_of_In|]. apply String.eqb_refl. }
  rewrite andb_true_r. cbn [andb]. rewrite andb_true_iff, Nat.leb_le, forallb_forall. unfold MAX_PAPER_FINALITY_RAW_ROWS.
  split.
  - intros [Hlen Hall]. split.
    + intros id r Hr. apply replayed_iff, Hall, list_elem_of_In. by apply Hel.
    + exists (map fst l). split; [by rewrite length_map|]. intros id r Hr.
      change id with (fst (id, r)). apply list_elem_of_fmap_2. by apply Hel.
  - intros [Hall (ids & Hlen & Hids)]. split.
    + rewrite <- (length_map fst l). etransitivity; [|exact Hlen]. apply submseteq_length, NoDup_submseteq; [done|].
      intros id Hid. apply list_elem_of_fmap in Hid as ([k r] & -> & Hkr). by eapply Hids, Hel.
    + intros [id r] Hr. apply replayed_iff, Hall. apply Hel; [done..|]. by apply list_elem_of_In.
Qed.
Lemma qualification_current_iff t i :
  qualification_current t i = true <-> exists report event source raw, is_current t i report event source raw.
Proof.
  unfold qualification_current. split.
  - destruct (current_report t i) as [[report event]|] eqn:E; [|done]. intros Hc. apply andb_true_iff in Hc as [Hs Hf].
    unfold current_report in E. apply bind_Some in E as (r & Hr & E). apply bind_Some in E as (e & He & E).
    destruct (_ && _) eqn:Hc in E; [|done]. injection E as -> ->. unfold current_source in Hs.
    destruct (ct_raws t !! _) as [raw|] eqn:Hraw; [|done]. destruct (ct_events t !! rr_sourceEventId report) as [source|] eqn:Hso; [|done].
    bool_prop. apply (replay_current_iff _ _ _ raw) in Hf as [Hre Hb]; [|done..].
    exists report, event, source, raw. constructor; try done; try congruence. split_and!; congruence.
  - intros (report & event & source & raw & []). destruct_and!. unfold current_report. rewrite ic_report0. cbn [mbind option_bind].
    match goal with E : rr_qualificationEventId _ = _ |- _ => rewrite E end. rewrite ic_event0. cbn [mbind option_bind].
    assert (forall a : bool, a = true -> (match (if a then Some (report, event) else None) with
      | Some (r, e) => current_source t i r e && assertPaperFinalityReplayCurrent t (cq_mint i) (rr_sourceRawEventId r)
      | None => false end) = true) as Hfin.
    { intros a ->. apply andb_true_iff. split; [|by eapply replay_current_iff; eauto].
      unfold current_source. rewrite ic_raw0, ic_source0. rewrite !andb_true_iff, !negb_true_iff, !bool_decide_eq_false, !bool_decide_eq_true.
      split_and!; congruence || done. }
    apply Hfin.
    rewrite !andb_true_iff, !negb_true_iff, !bool_decide_eq_false, !bool_decide_eq_true, Z.ltb_lt. split_and!; congruence || done.
Qed.
Lemma expired_not_current t i report :
  ct_reports t !! cq_reportId i = Some report -> rr_purgeAfter report <= ct_clock t ->
  qualification_current t i = false.
Proof.
  intros Hr Hp. apply not_true_iff_false. rewrite qualification_current_iff. intros (r & e & so & raw & Hc).
  destruct Hc as [Hr' _ _ _ _ _ _ _ Hlt]. assert (r = report) as -> by congruence. lia.
Qed.

(** * Sample tables *)

(** A report on one trade, replayed by the inbox. *)
Definition sample_cursor : ChainCursor :=
  {| slot := 9; transactionIndex := 0; instructionIndex := 0; innerInstructionIndex := None |}.
Definition sample_chain (clock : Z) : chain_tables :=
  {| ct_clock := clock;
     ct_reports := {[ "report" := {| rr_mint := "mint"; rr_qualificationEventId := "evt_q";
       rr_sourceEventId := "evt_s"; rr_sourceRawEventId := "raw_s";
       rr_confirmationStatus := processed; rr_supersededAt := None; rr_purgeAfter := 14400900 |} ]};
     ct_events := <["evt_q" := {| dr_rawEventId := Some "raw_s"; dr_type := QualificationUpdated;
         dr_mint := "mint"; dr_source := "qualification"; dr_program := "pump"; dr_signature := "sig";
         dr_cursor := sample_cursor; dr_confirmationStatus := processed |}]>
       {[ "evt_s" := {| dr_rawEventId := Some "raw_s"; dr_type := BondingCurveTradeObserved;
         dr_mint := "mint"; dr_source := "pump"; dr_program := "pump"; dr_signature := "sig";
         dr_cursor := sample_cursor; dr_confirmationStatus := processed |} ]};
     ct_raws := {[ "raw_s" := {| rw_mint := Some "mint"; rw_source := "pump"; rw_program := "pump";
         rw_signature := "sig"; rw_cursor := sample_cursor; rw_confirmationStatus := processed |} ]};
     ct_inbox := {[ "sig" := {| ir_processingStatus := "PROCESSED"; ir_confirmationStatus := processed |} ]};
     ct_receipts := ∅ |}.

(** It is current until its retention ends. *)
Example sample_currency :
  map (fun clock => qualification_current (sample_chain clock)
         {| cq_mint := "mint"; cq_reportId := "report"; cq_qualificationEventId := "evt_q" |})
    [2000; 14400899; 14400900]
  = [true; true; false].
Proof. vm_compute. reflexivity. Qed.
