(* ===== verification/PaperRows.v ===== *)
(** Rows of the paper positions table: how
    [src/src/storage/paper-trading.repository.ts] writes a position and reads it
    back.  The payload column holds the position's JSON; four columns of the row are
    read instead of the payload's members of the same meaning. *)
From S2P Require Import Prelude Text Types Chain Json JsonCodec PaperMath PaperStrategy PaperLedger.
From Stdlib Require Import String.
Local Open Scope string_scope.
Local Open Scope list_scope.
Local Open Scope Z_scope.

(** * Values of a payload *)

(** [value[key]]; undefined when the object has no such member. *)
Fixpoint get (l : list (string * data)) (key : string) : option data :=
  match l with
  | [] => None
  | (k, v) :: l => if String.eqb k key then Some v else get l key
  end.

(** src/src/storage/paper-trading.repository.ts:611-613 (invalidPayload) *)
Definition invalidPayload (field : string) : exn :=
  TypeError ("Payload paper position invalide: " +:+ field +:+ ".").

(** src/src/storage/paper-trading.repository.ts:452-462 (isRecord, record, text) *)
Definition record (v : option data) (field : string) : result exn (list (string * data)) :=
  match v with
  | Some (DObj l) => Ok l
  | _ => Err (invalidPayload field)
  end.
Definition text (v : option data) (field : string) : result exn string :=
  match v with
  | Some (DStr s) => throw_if (is_empty s) (invalidPayload field) ;; Ok s
  | _ => Err (invalidPayload field)
  end.

(** src/src/storage/paper-trading.repository.ts:463-476 (nullableText,
    nullableRowText, nullableRowDateMs) *)
Definition nullableText (v : option data) (field : string) : result exn (option string) :=
  match v with
  | Some DNull => Ok None
  | _ => Some <$> text v field
  end.
Definition nullableRowText (v : option string) : result exn (option string) :=
  match v with
  | None => Ok None
  | Some s => Some <$> text (Some (DStr s)) "source text"
  end.
Definition nullableRowDateMs (v : option Z) : result exn (option Z) :=
  match v with
  | None => Ok None
  | Some z => throw_if (negb (is_safe_integer z)) (invalidPayload "source timestamp") ;; Ok (Some z)
  end.

(** src/src/storage/paper-trading.repository.ts:482-505 (integer, boundedInteger,
    nullableInteger) *)
Definition integer (v : option data) (field : string) : result exn Z :=
  match v with
  | Some (DInt z) => throw_if (negb (safe_nonneg z)) (invalidPayload field) ;; Ok z
  | _ => Err (invalidPayload field)
  end.
Definition boundedInteger (v : option data) (field : string) (minimum maximum : Z) : result exn Z :=
  decoded ← integer v field;
  throw_if ((decoded <? minimum) || (maximum <? decoded)) (invalidPayload field) ;;
  Ok decoded.
Definition nullableInteger (v : option data) (field : string) : result exn (option Z) :=
  match v with
  | Some DNull => Ok None
  | _ => Some <$> integer v field
  end.

(** src/src/storage/paper-trading.repository.ts:506-536 (bigint, positiveBigint,
    nonNegativeBigint, boundedBigint, nullableBigint, tokenProgram) *)
Definition bigint (v : option data) (field : string) : result exn Z :=
  match v with
  | Some (DBig z) => Ok z
  | _ => Err (invalidPayload field)
  end.
Definition positiveBigint (v : option data) (field : string) : result exn Z :=
  decoded ← bigint v field;
  throw_if (decoded <=? 0) (invalidPayload field) ;;
  Ok decoded.
Definition nonNegativeBigint (v : option data) (field : string) : result exn Z :=
  decoded ← bigint v field;
  throw_if (decoded <? 0) (invalidPayload field) ;;
  Ok decoded.
Definition boundedBigint (v : option data) (field : string) (minimum maximum : Z) : result exn Z :=
  decoded ← bigint v field;
  throw_if ((decoded <? minimum) || (maximum <? decoded)) (invalidPayload field) ;;
  Ok decoded.
Definition nullableBigint (v : option data) (field : string) : result exn (option Z) :=
  match v with
  | Some DNull => Ok None
  | _ => Some <$> bigint v field
  end.
Definition tokenProgram (v : option data) : result exn TokenProgramKind :=
  match v with
  | Some (DStr s) =>
      if String.eqb s "SPL_TOKEN" then Ok SPL_TOKEN
      else if String.eqb s "TOKEN_2022" then Ok TOKEN_2022
      else Err (invalidPayload "quoteAsset.tokenProgram")
  | _ => Err (invalidPayload "quoteAsset.tokenProgram")
  end.

(** The text of a status. *)
Definition status_text (s : PaperPositionStatus) : string :=
  match s with
  | PAPER_HOLDING => "PAPER_HOLDING"
  | PAPER_CLOSED => "PAPER_CLOSED"
  | PAPER_RETRACTED => "PAPER_RETRACTED"
  end.
(** src/src/storage/paper-trading.repository.ts:398-405 (decodePosition): the check of [value.status]. *)
Definition position_status (v : option data) : result exn PaperPositionStatus :=
  match v with
  | Some (DStr s) =>
      if String.eqb s "PAPER_HOLDING" then Ok PAPER_HOLDING
      else if String.eqb s "PAPER_CLOSED" then Ok PAPER_CLOSED
      else if String.eqb s "PAPER_RETRACTED" then Ok PAPER_RETRACTED
      else Err (invalidPayload "status")
  | _ => Err (invalidPayload "status")
  end.

(** * Rows *)

(** src/src/utils/json.ts:37-41 (toJsonValue) *)
Definition toJsonValue (v : data) : result exn json :=
  rejectReservedBigIntMarkers v ;;
  replaced v.
(** src/src/utils/json.ts:43-45 (fromJsonValue) *)
Definition fromJsonValue (j : json) : data := revived j.

(** [value ?? null] as a member. *)
Definition nullable {A} (f : A -> data) (o : option A) : data :=
  match o with
  | Some a => f a
  | None => DNull
  end.

(** The members of a position, as [toJsonValue(position)] sees them. *)
Definition position_data (p : PaperPosition) : data :=
  DObj ([("id", DStr (pp_id p)); ("mint", DStr (pp_mint p));
         ("quoteAsset", asset_data (pp_quoteAsset p)); ("strategy", strategy_data (pp_strategy p));
         ("status", DStr (status_text (pp_status p)));
         ("baseFilledRaw", DBig (pp_baseFilledRaw p));
         ("remainingBaseRaw", DBig (pp_remainingBaseRaw p));
         ("quoteCostRaw", DBig (pp_quoteCostRaw p));
         ("quoteProceedsRaw", nullable DBig (pp_quoteProceedsRaw p));
         ("grossPnlQuoteRaw", nullable DBig (pp_grossPnlQuoteRaw p));
         ("netPnlQuoteRaw", nullable DBig (pp_netPnlQuoteRaw p));
         ("roundTripLossBps", DBig (pp_roundTripLossBps p));
         ("entryTradeId", DStr (pp_entryTradeId p));
         ("exitTradeId", nullable DStr (pp_exitTradeId p));
         ("openCommandHash", DStr (pp_openCommandHash p));
         ("closeCommandHash", nullable DStr (pp_closeCommandHash p));
         ("triggerEventId", DStr (pp_triggerEventId p));
         ("entryDecisionAtMs", nullable DInt (pp_entryDecisionAtMs p));
         ("entryDecisionJobId", nullable DStr (pp_entryDecisionJobId p));
         ("closeEventId", nullable DStr (pp_closeEventId p));
         ("exitTriggerAtMs", nullable DInt (pp_exitTriggerAtMs p));
         ("openedAtMs", DInt (pp_openedAtMs p));
         ("closedAtMs", nullable DInt (pp_closedAtMs p));
         ("purgeAfterMs", nullable DInt (pp_purgeAfterMs p));
         ("payloadVersion", DInt 1)]
        ++ optional_text "strategySessionId" (pp_strategySessionId p)
        ++ optional_text "qualificationReportId" (pp_qualificationReportId p)
        ++ optional_text "candidateId" (pp_candidateId p)).

(** The columns of a row that the queries and the purge read. *)
Record position_row := {
  row_mint : string;
  row_strategy : PaperStrategyIdentity;
  row_status : PaperPositionStatus;
  row_strategy_session_id : option string;
  row_payload : json;
  row_entry_decision_at : option Z;
  row_entry_decision_job_id : option string;
  row_close_event_id : option string;
  row_exit_trigger_at : option Z;
  row_purge_after : option Z;
}.

Definition check_state (b : bool) : result exn unit := throw_if b (invalidPayload "status").
Definition before_sell (p : PaperPosition) : bool :=
  negb (defined (pp_quoteProceedsRaw p)) && negb (defined (pp_grossPnlQuoteRaw p))
  && negb (defined (pp_netPnlQuoteRaw p)) && negb (defined (pp_exitTradeId p))
  && negb (defined (pp_closeCommandHash p)).
Definition after_sell (p : PaperPosition) : bool :=
  match pp_quoteProceedsRaw p with
  | Some proceeds => 0 <=? proceeds
  | None => false
  end && defined (pp_grossPnlQuoteRaw p) && defined (pp_netPnlQuoteRaw p)
  && defined (pp_exitTradeId p) && defined (pp_closeCommandHash p).
Definition terminal_times (p : PaperPosition) : bool :=
  match pp_closedAtMs p, pp_purgeAfterMs p with
  | Some closed, Some purge => closed <=? purge
  | _, _ => false
  end.

(** src/src/storage/paper-trading.repository.ts:550-610 (validatePositionState) *)
Definition validatePositionState (p : PaperPosition) : result exn unit :=
  throw_if (pp_baseFilledRaw p <? pp_remainingBaseRaw p) (invalidPayload "remainingBaseRaw") ;;
  match pp_status p with
  | PAPER_HOLDING =>
      check_state ((pp_remainingBaseRaw p =? 0) || negb (before_sell p)
                   || defined (pp_closedAtMs p) || defined (pp_purgeAfterMs p))
  | PAPER_CLOSED =>
      check_state (negb (pp_remainingBaseRaw p =? 0) || negb (after_sell p)
                   || negb (terminal_times p))
  | PAPER_RETRACTED =>
      check_state (negb (terminal_times p)) ;;
      check_state (negb ((0 <? pp_remainingBaseRaw p) && before_sell p)
                   && negb ((pp_remainingBaseRaw p =? 0) && after_sell p))
  end.

(** src/src/storage/paper-trading.repository.ts:406-412 (decodePosition): the lineage. *)
Definition lineage_reads (value : list (string * data))
    : result exn (option string * option string * option string) :=
  if defined (get value "strategySessionId") then
    session ← text (get value "strategySessionId") "strategySessionId";
    report ← text (get value "qualificationReportId") "qualificationReportId";
    candidate ← text (get value "candidateId") "candidateId";
    Ok (Some session, Some report, Some candidate)
  else Ok (None, None, None).

(** src/src/storage/paper-trading.repository.ts:387-450 (decodePosition), on a row
    that exists. *)
Definition decodePosition (row : position_row) : result exn PaperPosition :=
  value ← match fromJsonValue (row_payload row) with
          | DObj l => Ok l
          | _ => Err (TypeError "Payload paper position invalide.")
          end;
  quoteAsset ← record (get value "quoteAsset") "quoteAsset";
  strategy ← record (get value "strategy") "strategy";
  status ← position_status (get value "status");
  lineage ← lineage_reads value;
  id ← text (get value "id") "id";
  mint ← text (get value "mint") "mint";
  quoteMint ← text (get quoteAsset "mint") "quoteAsset.mint";
  decimals ← boundedInteger (get quoteAsset "decimals") "quoteAsset.decimals" 0 255;
  program ← tokenProgram (get quoteAsset "tokenProgram");
  strategyId ← text (get strategy "id") "strategy.id";
  version ← boundedInteger (get strategy "version") "strategy.version" 1 MAX_SAFE_INTEGER;
  baseFilled ← positiveBigint (get value "baseFilledRaw") "baseFilledRaw";
  remaining ← nonNegativeBigint (get value "remainingBaseRaw") "remainingBaseRaw";
  cost ← positiveBigint (get value "quoteCostRaw") "quoteCostRaw";
  proceeds ← nullableBigint (get value "quoteProceedsRaw") "quoteProceedsRaw";
  gross ← nullableBigint (get value "grossPnlQuoteRaw") "grossPnlQuoteRaw";
  net ← nullableBigint (get value "netPnlQuoteRaw") "netPnlQuoteRaw";
  loss ← boundedBigint (get value "roundTripLossBps") "roundTripLossBps" 0 10000;
  entryTradeId ← text (get value "entryTradeId") "entryTradeId";
  exitTradeId ← nullableText (get value "exitTradeId") "exitTradeId";
  openHash ← text (get value "openCommandHash") "openCommandHash";
  closeHash ← nullableText (get value "closeCommandHash") "closeCommandHash";
  trigger ← text (get value "triggerEventId") "triggerEventId";
  decisionAt ← nullableRowDateMs (row_entry_decision_at row);
  decisionJob ← nullableRowText (row_entry_decision_job_id row);
  closeEvent ← nullableRowText (row_close_event_id row);
  exitTrigger ← nullableRowDateMs (row_exit_trigger_at row);
  openedAt ← integer (get value "openedAtMs") "openedAtMs";
  closedAt ← nullableInteger (get value "closedAtMs") "closedAtMs";
  purgeAfter ← nullableInteger (get value "purgeAfterMs") "purgeAfterMs";
  throw_if (match get value "payloadVersion" with
            | Some (DInt 1) => false
            | _ => true
            end) (invalidPayload "payloadVersion") ;;
  let position :=
    {| pp_id := id; pp_mint := mint;
       pp_quoteAsset := {| qa_mint := quoteMint; qa_decimals := decimals;
                           qa_tokenProgram := program |};
       pp_strategy := {| strategy_id := strategyId; strategy_version := version |};
       pp_status := status; pp_baseFilledRaw := baseFilled; pp_remainingBaseRaw := remaining;
       pp_quoteCostRaw := cost; pp_quoteProceedsRaw := proceeds; pp_grossPnlQuoteRaw := gross;
       pp_netPnlQuoteRaw := net; pp_roundTripLossBps := loss; pp_entryTradeId := entryTradeId;
       pp_exitTradeId := exitTradeId; pp_openCommandHash := openHash;
       pp_closeCommandHash := closeHash; pp_triggerEventId := trigger;
       pp_entryDecisionAtMs := decisionAt; pp_entryDecisionJobId := decisionJob;
       pp_closeEventId := closeEvent; pp_exitTriggerAtMs := exitTrigger;
       pp_strategySessionId := lineage.1.1; pp_qualificationReportId := lineage.1.2;
       pp_candidateId := lineage.2; pp_openedAtMs := openedAt; pp_closedAtMs := closedAt;
       pp_purgeAfterMs := purgeAfter |} in
  validatePositionState position ;;
  Ok position.

(** The columns that hold a position, and its payload. *)
Definition row_of (p : PaperPosition) (payload : json) : position_row :=
  {| row_mint := pp_mint p; row_strategy := pp_strategy p; row_status := pp_status p;
     row_strategy_session_id := pp_strategySessionId p; row_payload := payload;
     row_entry_decision_at := pp_entryDecisionAtMs p;
     row_entry_decision_job_id := pp_entryDecisionJobId p;
     row_close_event_id := pp_closeEventId p; row_exit_trigger_at := pp_exitTriggerAtMs p;
     row_purge_after := pp_purgeAfterMs p |}.

Definition filled_text (s : string) : bool := negb (is_empty s).
Definition opt_all {A} (f : A -> bool) (o : option A) : bool :=
  match o with
  | Some a => f a
  | None => true
  end.

(** What the reader demands of a position: it is what can be read back. *)
Definition storable (p : PaperPosition) : bool :=
  filled_text (pp_id p) && filled_text (pp_mint p) && filled_text (qa_mint (pp_quoteAsset p))
  && ((0 <=? qa_decimals (pp_quoteAsset p)) && (qa_decimals (pp_quoteAsset p) <=? 255))
  && filled_text (strategy_id (pp_strategy p))
  && ((1 <=? strategy_version (pp_strategy p))
      && (strategy_version (pp_strategy p) <=? MAX_SAFE_INTEGER))
  && (0 <? pp_baseFilledRaw p) && (0 <=? pp_remainingBaseRaw p) && (0 <? pp_quoteCostRaw p)
  && ((0 <=? pp_roundTripLossBps p) && (pp_roundTripLossBps p <=? 10000))
  && filled_text (pp_entryTradeId p) && opt_all filled_text (pp_exitTradeId p)
  && filled_text (pp_openCommandHash p) && opt_all filled_text (pp_closeCommandHash p)
  && filled_text (pp_triggerEventId p)
  && opt_all is_safe_integer (pp_entryDecisionAtMs p)
  && opt_all filled_text (pp_entryDecisionJobId p) && opt_all filled_text (pp_closeEventId p)
  && opt_all is_safe_integer (pp_exitTriggerAtMs p)
  && (if defined (pp_strategySessionId p)
      then defined (pp_qualificationReportId p) && defined (pp_candidateId p)
           && opt_all filled_text (pp_strategySessionId p)
           && opt_all filled_text (pp_qualificationReportId p)
           && opt_all filled_text (pp_candidateId p)
      else negb (defined (pp_qualificationReportId p)) && negb (defined (pp_candidateId p)))
  && safe_nonneg (pp_openedAtMs p) && opt_all safe_nonneg (pp_closedAtMs p)
  && opt_all safe_nonneg (pp_purgeAfterMs p)
  && is_ok (validatePositionState p).

(** * Lemmas: what each reader accepts *)

Lemma text_Ok v f s : text v f = Ok s <-> v = Some (DStr s) /\ filled_text s = true.
Proof.
  unfold text, filled_text. destruct v as [[| | |t| | | |]|]; try naive_solver.
  split; [intros Hr; result_inv; by rewrite H |].
  intros [[= ->] Hn]. by apply negb_true_iff in Hn as ->.
Qed.
Lemma nullableText_Ok v f o :
  nullableText v f = Ok o <-> v = Some (nullable DStr o) /\ opt_all filled_text o = true.
Proof.
  unfold nullableText. split.
  - intros Hr. destruct v as [[| | |t| | | |]|]; try discriminate Hr;
      [by injection Hr as <-|]. apply fmap_Ok in Hr as (s & Hs & ->). by apply text_Ok in Hs.
  - intros [-> Ho]. destruct o as [s|]; [|done]. cbn [nullable].
    by rewrite (proj2 (text_Ok (Some (DStr s)) f s)).
Qed.
Lemma nullableRowText_Ok v o : nullableRowText v = Ok o <-> v = o /\ opt_all filled_text o = true.
Proof.
  unfold nullableRowText. split.
  - destruct v as [s|]; [|by intros [= <-]]. intros Hr. apply fmap_Ok in Hr as (t & Ht & ->).
    apply text_Ok in Ht. naive_solver.
  - intros [-> Ho]. destruct o as [s|]; [|done].
    by rewrite (proj2 (text_Ok (Some (DStr s)) _ s)).
Qed.
Lemma nullableRowDateMs_Ok v o :
  nullableRowDateMs v = Ok o <-> v = o /\ opt_all is_safe_integer o = true.
Proof.
  unfold nullableRowDateMs. destruct v as [z|]; cbn.
  - destruct (is_safe_integer z) eqn:Hz; cbn; naive_solver congruence.
  - naive_solver.
Qed.
Lemma integer_Ok v f z : integer v f = Ok z <-> v = Some (DInt z) /\ safe_nonneg z = true.
Proof.
  unfold integer. destruct v as [[| |t| | | | |]|]; try naive_solver.
  destruct (safe_nonneg t) eqn:Ht; cbn; naive_solver congruence.
Qed.
Lemma boundedInteger_Ok v f lo hi z :
  0 <= lo -> hi <= MAX_SAFE_INTEGER ->
  boundedInteger v f lo hi = Ok z <-> v = Some (DInt z) /\ (lo <=? z) && (z <=? hi) = true.
Proof.
  intros Hlo Hhi. unfold boundedInteger. split.
  - intros Hr. result_inv. apply integer_Ok in H as [-> _]. bool_prop. split; [done|].
    apply andb_true_iff. lia.
  - intros [-> Hb]. bool_prop. rewrite (proj2 (integer_Ok (Some (DInt z)) f z)).
    + cbn. replace (z <? lo) with false by lia. by replace (hi <? z) with false by lia.
    + split; [done|]. apply safe_nonneg_true. lia.
Qed.
Lemma nullableInteger_Ok v f o :
  nullableInteger v f = Ok o <-> v = Some (nullable DInt o) /\ opt_all safe_nonneg o = true.
Proof.
  unfold nullableInteger. split.
  - intros Hr. destruct v as [[| |t| | | | |]|]; try discriminate Hr;
      [by injection Hr as <-|]. apply fmap_Ok in Hr as (s & Hs & ->). by apply integer_Ok in Hs.
  - intros [-> Ho]. destruct o as [s|]; [|done]. cbn [nullable].
    by rewrite (proj2 (integer_Ok (Some (DInt s)) f s)).
Qed.
Lemma bigint_Ok v f z : bigint v f = Ok z <-> v = Some (DBig z).
Proof. unfold bigint. destruct v as [[]|]; naive_solver. Qed.
Lemma positiveBigint_Ok v f z :
  positiveBigint v f = Ok z <-> v = Some (DBig z) /\ (0 <? z) = true.
Proof.
  unfold positiveBigint. split.
  - intros Hr. result_inv. apply bigint_Ok in H as ->. bool_prop. split; [done|lia].
  - intros [-> Hz]. cbn. by replace (z <=? 0) with false by lia.
Qed.
Lemma nonNegativeBigint_Ok v f z :
  nonNegativeBigint v f = Ok z <-> v = Some (DBig z) /\ (0 <=? z) = true.
Proof.
  unfold nonNegativeBigint. split.
  - intros Hr. result_inv. apply bigint_Ok in H as ->. bool_prop. split; [done|lia].
  - intros [-> Hz]. cbn. by replace (z <? 0) with false by lia.
Qed.
Lemma boundedBigint_Ok v f lo hi z :
  boundedBigint v f lo hi = Ok z <-> v = Some (DBig z) /\ (lo <=? z) && (z <=? hi) = true.
Proof.
  unfold boundedBigint. split.
  - intros Hr. result_inv. apply bigint_Ok in H as ->. bool_prop. split; [done|].
    apply andb_true_iff. lia.
  - intros [-> Hb]. bool_prop. cbn. replace (z <? lo) with false by lia.
    by replace (hi <? z) with false by lia.
Qed.
Lemma nullableBigint_Ok v f o : nullableBigint v f = Ok o <-> v = Some (nullable DBig o).
Proof.
  unfold nullableBigint. split.
  - intros Hr. destruct v as [[]|]; try discriminate Hr; try (by injection Hr as <-).
  - intros ->. by destruct o.
Qed.
Lemma tokenProgram_Ok t : tokenProgram (Some (DStr (token_program_name t))) = Ok t.
Proof. by destruct t. Qed.
Lemma position_status_Ok s : position_status (Some (DStr (status_text s))) = Ok s.
Proof. by destruct s. Qed.

(** What [validatePositionState] accepts. *)
Definition state_ok (p : PaperPosition) : Prop :=
  pp_remainingBaseRaw p <= pp_baseFilledRaw p /\
  match pp_status p with
  | PAPER_HOLDING => pp_remainingBaseRaw p <> 0 /\ before_sell p = true
                     /\ pp_closedAtMs p = None /\ pp_purgeAfterMs p = None
  | PAPER_CLOSED => pp_remainingBaseRaw p = 0 /\ after_sell p = true /\ terminal_times p = true
  | PAPER_RETRACTED => terminal_times p = true
      /\ (0 < pp_remainingBaseRaw p /\ before_sell p = true
          \/ pp_remainingBaseRaw p = 0 /\ after_sell p = true)
  end.

Lemma validatePositionState_Ok p : validatePositionState p = Ok tt <-> state_ok p.
Proof.
  assert (forall {A} (o : option A), defined o = false <-> o = None) as Hdef.
  { intros A []; cbn; split; done. }
  unfold validatePositionState, check_state, state_ok. split.
  - intros Hr. apply bind_Ok in Hr as ([] & Hle & Hr). result_inv. bool_prop. split; [done|].
    destruct (pp_status p); result_inv; bool_prop; rewrite <- ?Hdef; try done.
    split; [done|]. destruct (before_sell p), (after_sell p), (0 <? _) eqn:?, (_ =? 0) eqn:?;
      cbn in *; try done; bool_prop; auto.
  - intros [Hle Hs]. apply bind_Ok. exists tt. rewrite throw_if_Ok. split; [lia|].
    destruct (pp_status p).
    + destruct Hs as (Hr & -> & -> & ->). apply throw_if_Ok. cbn. rewrite !orb_false_r. lia.
    + destruct Hs as (-> & -> & ->). done.
    + destruct Hs as (-> & [[Hr ->]|[-> ->]]); [|done]. cbn.
      by replace (0 <? pp_remainingBaseRaw p) with true by lia.
Qed.

Lemma is_ok_unit {E} (m : result E unit) : is_ok m = true -> m = Ok tt.
Proof. by destruct m as [[]|]. Qed.

(** One read of a payload whose value is known to be acceptable. *)
Ltac read_step :=
  apply bind_Ok; eexists; split;
  [first [ apply text_Ok; split; [reflexivity | eassumption]
         | apply nullableText_Ok; split; [reflexivity | eassumption]
         | apply nullableRowText_Ok; split; [reflexivity | eassumption]
         | apply nullableRowDateMs_Ok; split; [reflexivity | eassumption]
         | apply integer_Ok; split; [reflexivity | eassumption]
         | apply nullableInteger_Ok; split; [reflexivity | eassumption]
         | apply boundedInteger_Ok; [lia | done | split; [reflexivity | eassumption]]
         | apply positiveBigint_Ok; split; [reflexivity | eassumption]
         | apply nonNegativeBigint_Ok; split; [reflexivity | eassumption]
         | apply boundedBigint_Ok; split; [reflexivity | eassumption]
         | apply nullableBigint_Ok; reflexivity
         | apply tokenProgram_Ok | apply position_status_Ok ] | ].

Lemma decode_data p row :
  fromJsonValue (row_payload row) = position_data p -> storable p = true ->
  row_entry_decision_at row = pp_entryDecisionAtMs p ->
  row_entry_decision_job_id row = pp_entryDecisionJobId p ->
  row_close_event_id row = pp_closeEventId p -> row_exit_trigger_at row = pp_exitTriggerAtMs p ->
  decodePosition row = Ok p.
Proof.
  intros Hj Hs H1 H2 H3 H4. unfold decodePosition. rewrite Hj, H1, H2, H3, H4. clear - Hs.
  unfold storable in Hs. repeat (apply andb_true_iff in Hs as [Hs ?]).
  destruct p as [id mint [am ad ap] [si sv] st base rem cost proc gross net loss etr xtr oh ch tr ed
                 ej ce xt sess rep cand op cl pu]; cbn in * |-.
  apply bind_Ok. eexists. split; [reflexivity|].
  apply bind_Ok. eexists. split; [reflexivity|].
  apply bind_Ok. eexists. split; [reflexivity|].
  read_step.
  apply bind_Ok. exists (sess, rep, cand). split.
  { destruct sess as [sess|], rep as [rep|], cand as [cand|]; cbn in * |-; try done.
    bool_prop.
    unfold lineage_reads. match goal with |- (if _ then ?m else _) = ?r => change (m = r) end.
    do 3 read_step. done. }
  do 26 read_step.
  apply bind_Ok. exists tt. split; [done|].
  apply bind_Ok. exists tt. split; [by apply is_ok_unit | done].
Qed.

Lemma lineage_ok value l :
  lineage_reads value = Ok l ->
  (if defined l.1.1
   then defined l.1.2 && defined l.2 && opt_all filled_text l.1.1 && opt_all filled_text l.1.2
        && opt_all filled_text l.2
   else negb (defined l.1.2) && negb (defined l.2)) = true.
Proof.
  unfold lineage_reads. destruct (defined _); intros Hr; result_inv; [|done].
  repeat match goal with H : text _ _ = Ok _ |- _ => apply text_Ok in H as [_ H] end.
  cbn. by rewrite H, H0, H1.
Qed.

Lemma decode_storable row p : decodePosition row = Ok p -> storable p = true.
Proof.
  unfold decodePosition. intros Hr. cbv zeta in Hr.
  repeat match type of Hr with
  | (_ ≫= _) = Ok _ => apply bind_Ok in Hr; destruct Hr as (? & ? & Hr)
  end.
  repeat match goal with
  | H : text _ _ = Ok _ |- _ => apply text_Ok in H as [_ H]
  | H : nullableText _ _ = Ok _ |- _ => apply nullableText_Ok in H as [_ H]
  | H : nullableRowText _ = Ok _ |- _ => apply nullableRowText_Ok in H as [_ H]
  | H : nullableRowDateMs _ = Ok _ |- _ => apply nullableRowDateMs_Ok in H as [_ H]
  | H : integer _ _ = Ok _ |- _ => apply integer_Ok in H as [_ H]
  | H : nullableInteger _ _ = Ok _ |- _ => apply nullableInteger_Ok in H as [_ H]
  | H : boundedInteger _ _ _ _ = Ok _ |- _ => apply boundedInteger_Ok in H as [_ H]; [|lia|done]
  | H : positiveBigint _ _ = Ok _ |- _ => apply positiveBigint_Ok in H as [_ H]
  | H : nonNegativeBigint _ _ = Ok _ |- _ => apply nonNegativeBigint_Ok in H as [_ H]
  | H : boundedBigint _ _ _ _ = Ok _ |- _ => apply boundedBigint_Ok in H as [_ H]
  end.
  injection Hr as <-. unfold storable.
  match goal with
  | H : validatePositionState ?q = Ok _ |- _ =>
      assert (is_ok (validatePositionState q) = true) as -> by (by rewrite H); clear H
  end.
  cbn [pp_id pp_mint pp_quoteAsset pp_strategy pp_baseFilledRaw pp_remainingBaseRaw pp_quoteCostRaw
       pp_roundTripLossBps pp_entryTradeId pp_exitTradeId pp_openCommandHash pp_closeCommandHash
       pp_triggerEventId pp_entryDecisionAtMs pp_entryDecisionJobId pp_closeEventId
       pp_exitTriggerAtMs pp_strategySessionId pp_qualificationReportId pp_candidateId
       pp_openedAtMs pp_closedAtMs pp_purgeAfterMs qa_mint qa_decimals strategy_id
       strategy_version].
  repeat (apply andb_true_iff; split); try done; try lia; try (by eapply lineage_ok).
  all: match goal with H : safe_nonneg _ = true |- _ => apply safe_nonneg_true in H; lia end.
Qed.

(** A position carries all three lineage identifiers or none. *)
Definition consistent_lineage (p : PaperPosition) : bool :=
  Bool.eqb (defined (pp_qualificationReportId p)) (defined (pp_strategySessionId p))
  && Bool.eqb (defined (pp_candidateId p)) (defined (pp_strategySessionId p)).

Lemma storable_lineage p : storable p = true -> consistent_lineage p = true.
Proof.
  unfold storable. intros Hs. repeat (apply andb_true_iff in Hs as [Hs ?]).
  unfold consistent_lineage.
  destruct (pp_strategySessionId p), (pp_qualificationReportId p), (pp_candidateId p); done.
Qed.

Lemma nullable_inj {A} (f : A -> data) (o o' : option A) :
  Inj (=) (=) f -> (forall a, f a <> DNull) -> nullable f o = nullable f o' -> o = o'.
Proof. intros Hi Hn. destruct o, o'; cbn; intros E; try done; [f_equal; by apply Hi | by apply Hn in E | by symmetry in E; apply Hn in E]. Qed.
Global Instance DStr_inj : Inj (=) (=) DStr.
Proof. by intros ?? [= ->]. Qed.
Global Instance DBig_inj : Inj (=) (=) DBig.
Proof. by intros ?? [= ->]. Qed.
Global Instance DInt_inj : Inj (=) (=) DInt.
Proof. by intros ?? [= ->]. Qed.

Lemma lineage_reads_data p value l :
  position_data p = DObj value -> consistent_lineage p = true -> lineage_reads value = Ok l ->
  l = (pp_strategySessionId p, pp_qualificationReportId p, pp_candidateId p).
Proof.
  intros [= <-] Hc Hl. unfold consistent_lineage in Hc. unfold lineage_reads in Hl.
  destruct (pp_strategySessionId p), (pp_qualificationReportId p), (pp_candidateId p); try done.
  - match type of Hl with (if _ then ?m else _) = ?r => change (m = r) in Hl end.
    result_inv.
    repeat match goal with H : text _ _ = Ok _ |- _ => apply text_Ok in H as [H _]; cbn in H end.
    naive_solver.
  - by injection Hl as <-.
Qed.

(** What is read back is what was written. *)
Lemma decode_agrees p row q :
  fromJsonValue (row_payload row) = position_data p -> consistent_lineage p = true ->
  row_entry_decision_at row = pp_entryDecisionAtMs p ->
  row_entry_decision_job_id row = pp_entryDecisionJobId p ->
  row_close_event_id row = pp_closeEventId p -> row_exit_trigger_at row = pp_exitTriggerAtMs p ->
  decodePosition row = Ok q -> q = p.
Proof.
  intros Hj Hc H1 H2 H3 H4 Hr. unfold decodePosition in Hr. rewrite Hj, H1, H2, H3, H4 in Hr.
  clear Hj H1 H2 H3 H4. cbv zeta in Hr.
  apply bind_Ok in Hr as (value & Hv & Hr).
  assert (position_data p = DObj value) as Hd by (unfold position_data in *; by injection Hv as <-).
  repeat match type of Hr with
  | (_ ≫= _) = Ok _ => apply bind_Ok in Hr; destruct Hr as (? & ? & Hr)
  end.
  injection Hr as <-.
  match goal with H : lineage_reads _ = Ok _ |- _ => eapply lineage_reads_data in H; [|done|done] end.
  injection Hd as <-. clear Hv. subst. cbn [fst snd].
  repeat match goal with
  | H : text _ _ = Ok _ |- _ => apply text_Ok in H as [H _]; cbn in H
  | H : nullableText _ _ = Ok _ |- _ => apply nullableText_Ok in H as [H _]; cbn in H
  | H : nullableRowText _ = Ok _ |- _ => apply nullableRowText_Ok in H as [H _]
  | H : nullableRowDateMs _ = Ok _ |- _ => apply nullableRowDateMs_Ok in H as [H _]
  | H : integer _ _ = Ok _ |- _ => apply integer_Ok in H as [H _]; cbn in H
  | H : nullableInteger _ _ = Ok _ |- _ => apply nullableInteger_Ok in H as [H _]; cbn in H
  | H : positiveBigint _ _ = Ok _ |- _ => apply positiveBigint_Ok in H as [H _]; cbn in H
  | H : nonNegativeBigint _ _ = Ok _ |- _ => apply nonNegativeBigint_Ok in H as [H _]; cbn in H
  | H : boundedBigint _ _ _ _ = Ok _ |- _ => apply boundedBigint_Ok in H as [H _]; cbn in H
  | H : nullableBigint _ _ = Ok _ |- _ => apply nullableBigint_Ok in H; cbn in H
  | H : record _ _ = Ok _ |- _ => cbn in H; injection H as <-
  | H : boundedInteger _ _ _ _ = Ok _ |- _ => apply boundedInteger_Ok in H as [H _]; [cbn in H|lia|done]
  end.
  repeat match goal with
  | H : position_status _ = Ok ?x |- _ =>
      change (position_status (Some (DStr (status_text (pp_status p)))) = Ok x) in H;
      rewrite position_status_Ok in H; injection H as <-
  | H : tokenProgram _ = Ok ?x |- _ =>
      change (tokenProgram (Some (DStr (token_program_name (qa_tokenProgram (pp_quoteAsset p)))))
              = Ok x) in H;
      rewrite tokenProgram_Ok in H; injection H as <-
  | H : get _ _ = Some _ |- _ => cbn in H
  | H : Some (nullable _ _) = Some (nullable _ _) |- _ =>
      apply (inj Some) in H; apply nullable_inj in H; [|apply _|done]; subst
  | H : Some (_ _) = Some (_ _) |- _ => injection H as <-
  end.
  subst. by destruct p as [?? [] []].
Qed.

Lemma nullable_marker_free {A} (f : A -> data) o :
  (forall a, marker_free (f a) = true) -> marker_free (nullable f o) = true.
Proof. intros Hf. destruct o; [apply Hf | done]. Qed.

Lemma position_data_marker_free p : marker_free (position_data p) = true.
Proof.
  unfold position_data. cbn [marker_free]. rewrite forallb_app. cbn [forallb snd marker_free].
  rewrite !nullable_marker_free by done.
  by destruct (pp_strategySessionId p), (pp_qualificationReportId p), (pp_candidateId p).
Qed.

Lemma json_round_trip v j :
  marker_free v = true -> toJsonValue v = Ok j -> fromJsonValue j = v.
Proof. unfold toJsonValue. intros Hm Hj. result_inv. by eapply revived_replaced. Qed.

Lemma decode_row_of p j q :
  toJsonValue (position_data p) = Ok j -> consistent_lineage p = true ->
  decodePosition (row_of p j) = Ok q -> q = p.
Proof.
  intros Hj Hl. apply decode_agrees; try done.
  by apply json_round_trip; [apply position_data_marker_free|].
Qed.

Lemma decode_row_of_storable p j :
  toJsonValue (position_data p) = Ok j -> storable p = true -> decodePosition (row_of p j) = Ok p.
Proof.
  intros Hj Hs. apply decode_data; try done.
  by apply json_round_trip; [apply position_data_marker_free|].
Qed.

(** * Properties *)

(** C39: the positions table neither loses nor alters a position.  Whatever is read
    back from the row written for a position is that position, amounts beyond 2^53
    included; and it is read back exactly when it satisfies the reader's checks, so a
    position that does is never unreadable. *)
Theorem position_row_round_trip (p : PaperPosition) (j : json)
    (Hj : toJsonValue (position_data p) = Ok j) (Hl : consistent_lineage p = true) :
  (forall q, decodePosition (row_of p j) = Ok q -> q = p)
  /\ (decodePosition (row_of p j) = Ok p <-> storable p = true).
Proof.
  split; [intros q; by apply decode_row_of|].
  split; [apply decode_storable | by apply decode_row_of_storable].
Qed.

Definition sample_position : PaperPosition :=
  {| pp_id := "paper_position_1"; pp_mint := "mint"; pp_quoteAsset := sample_asset;
     pp_strategy := {| strategy_id := CREATION_ENTRY; strategy_version := 1 |};
     pp_status := PAPER_CLOSED; pp_baseFilledRaw := 340282366920938463463374607431768211456;
     pp_remainingBaseRaw := 0; pp_quoteCostRaw := 1000000; pp_quoteProceedsRaw := Some 970000;
     pp_grossPnlQuoteRaw := Some (-10000); pp_netPnlQuoteRaw := Some (-30000);
     pp_roundTripLossBps := 300; pp_entryTradeId := "t1"; pp_exitTradeId := Some "t2";
     pp_openCommandHash := "h1"; pp_closeCommandHash := Some "h2"; pp_triggerEventId := "evt_1";
     pp_entryDecisionAtMs := Some 900; pp_entryDecisionJobId := Some "job";
     pp_closeEventId := Some "evt_2"; pp_exitTriggerAtMs := Some 5000;
     pp_strategySessionId := Some "s"; pp_qualificationReportId := Some "r";
     pp_candidateId := Some "c"; pp_openedAtMs := 1000; pp_closedAtMs := Some 6000;
     pp_purgeAfterMs := Some 14406000 |}.

Lemma position_row_round_trip_witness :
  match toJsonValue (position_data sample_position) with
  | Ok j => decodePosition (row_of sample_position j) = Ok sample_position
            <-> storable sample_position = true
  | Err _ => False
  end.
Proof.
  destruct (toJsonValue (position_data sample_position)) as [j|e] eqn:Hj.
  - exact (proj2 (position_row_round_trip sample_position j Hj eq_refl)).
  - vm_compute in Hj. discriminate Hj.
Defined.
Example sample_position_storable : storable sample_position = true.
Proof. vm_compute. reflexivity. Qed.
