(* ===== verification/PaperRules.v ===== *)
(** The paper ledger's rules, proved of [src/src/paper/paper-trading-engine.ts] over
    any repository that keeps the promises of the port.

    [PaperLedgerLaws] states what a repository promises in terms of the positions it
    can read back; [ledger_step] is the abstract ledger, in which a position is opened,
    settled once and retracted once; [engine_refines_ledger] says each call of the
    engine is one such step or nothing, and the invariants follow by induction. *)
From S2P Require Import Prelude Text Types Chain Json Identity JsonCodec PaperMath PaperStrategy Qualification PaperLedger PaperRows.
From Stdlib Require Import String.
Local Open Scope string_scope.
Local Open Scope list_scope.
Local Open Scope Z_scope.

(** * What a repository promises *)

Abbreviation ledger := (gmap string PaperPosition).

(** The range of a JavaScript [Date]. *)
Definition MAX_DATE_MS : Z := 8640000000000000.
Definition date_ok (z : Z) : bool := (- MAX_DATE_MS <=? z) && (z <=? MAX_DATE_MS).

(** Writing a position: it can be read back when it passes the reader's checks. *)
Definition stored (p : PaperPosition) (m : ledger) : ledger :=
  if storable p then <[pp_id p := p]> m else delete (pp_id p) m.

Definition active_for (mint : string) (strategy : PaperStrategyIdentity) (p : PaperPosition) : Prop :=
  pp_status p = PAPER_HOLDING /\ pp_mint p = mint /\ pp_strategy p = strategy.

(** The fields an update leaves in their columns. *)
Definition same_columns (q p : PaperPosition) : Prop :=
  pp_id p = pp_id q /\ pp_mint p = pp_mint q /\ pp_strategy p = pp_strategy q
  /\ pp_strategySessionId p = pp_strategySessionId q
  /\ pp_qualificationReportId p = pp_qualificationReportId q
  /\ pp_candidateId p = pp_candidateId q
  /\ pp_entryDecisionAtMs p = pp_entryDecisionAtMs q
  /\ pp_entryDecisionJobId p = pp_entryDecisionJobId q.

(** The laws of the port, for operations that return. *)
Class PaperLedgerLaws (S : Type) `{PaperTradingTransaction S} := {
  store_ok : S -> Prop;
  positions : S -> ledger;
  positions_read s id p :
    store_ok s -> positions s !! id = Some p -> storable p = true /\ pp_id p = id;
  requireCurrentQualification_law s i u s' :
    store_ok s -> requireCurrentQualification i s = (Ok u, s') ->
    store_ok s' /\ positions s' = positions s;
  findPosition_law s id r s' :
    store_ok s -> findPosition id s = (Ok r, s') ->
    store_ok s' /\ positions s' = positions s /\ r = positions s !! id;
  findActivePosition_law s mint strategy r s' :
    store_ok s -> findActivePosition mint strategy s = (Ok r, s') ->
    store_ok s' /\ positions s' = positions s
    /\ match r with
       | Some p => positions s !! pp_id p = Some p /\ active_for mint strategy p
       | None => forall id p, positions s !! id = Some p -> ~ active_for mint strategy p
       end;
  insertOpened_law s p trade event at_ms job u s' :
    store_ok s -> insertOpened p trade event at_ms job s = (Ok u, s') ->
    consistent_lineage p = true -> pp_status p = PAPER_HOLDING ->
    pp_entryDecisionAtMs p = at_ms -> pp_entryDecisionJobId p = job ->
    pp_closeEventId p = None -> pp_exitTriggerAtMs p = None ->
    store_ok s' /\ positions s' = stored p (positions s);
  updateClosed_law s q p trade event at_ms u s' :
    store_ok s -> updateClosed p trade event at_ms s = (Ok u, s') ->
    positions s !! pp_id q = Some q -> pp_status q = PAPER_HOLDING -> same_columns q p ->
    pp_status p = PAPER_CLOSED -> pp_closeEventId p = Some (ev_id event) ->
    pp_exitTriggerAtMs p = at_ms ->
    store_ok s' /\ positions s' = stored p (positions s)
    /\ opt_all date_ok (pp_closedAtMs p) = true /\ opt_all date_ok (pp_purgeAfterMs p) = true
    /\ opt_all date_ok at_ms = true;
  reconcileEventConfirmation_law s id o u s' :
    store_ok s -> reconcileEventConfirmation id o s = (Ok u, s') ->
    store_ok s' /\ positions s' = positions s;
  retractPosition_law s q p u s' :
    store_ok s -> retractPosition p s = (Ok u, s') ->
    positions s !! pp_id q = Some q -> same_columns q p -> pp_status p = PAPER_RETRACTED ->
    pp_closeEventId p = pp_closeEventId q -> pp_exitTriggerAtMs p = pp_exitTriggerAtMs q ->
    store_ok s' /\ positions s' = stored p (positions s)
    /\ opt_all date_ok (pp_purgeAfterMs p) = true;
}.

(** * The abstract ledger *)

(** What is known of a position when it is opened. *)
Record fresh_position (p : PaperPosition) : Prop := {
  fresh_status : pp_status p = PAPER_HOLDING;
  fresh_base : 0 < pp_baseFilledRaw p;
  fresh_remaining : pp_remainingBaseRaw p = pp_baseFilledRaw p;
  fresh_cost : 0 < pp_quoteCostRaw p;
  fresh_loss : 0 <= pp_roundTripLossBps p <= 10000;
  fresh_open : pp_quoteProceedsRaw p = None /\ pp_grossPnlQuoteRaw p = None
               /\ pp_netPnlQuoteRaw p = None /\ pp_closedAtMs p = None;
}.

(** The sale that settles a position. *)
Record sells_out (p : PaperPosition) (sell : PaperExecutionQuote) : Prop := {
  sell_valid : valid_quote sell;
  sell_input : q_inputMint sell = pp_mint p;
  sell_output : q_outputMint sell = qa_mint (pp_quoteAsset p);
  sell_all : q_amountInRaw sell = pp_remainingBaseRaw p;
}.

(** What may happen to a position by the time [t]. *)
Inductive position_step (t : Z) : PaperPosition -> PaperPosition -> Prop :=
| step_settle p sell tradeId hash eventId at_ms closedAtMs retention :
    pp_status p = PAPER_HOLDING -> sells_out p sell -> closedAtMs <= t ->
    position_step t p (settled p sell tradeId hash eventId at_ms closedAtMs retention)
| step_retract p terminalAtMs retention :
    pp_status p <> PAPER_RETRACTED -> terminalAtMs <= t ->
    position_step t p (retracted p terminalAtMs retention).

Inductive ledger_step (t : Z) (m : ledger) : ledger -> Prop :=
| step_nothing : ledger_step t m m
| step_open p :
    m !! pp_id p = None ->
    (forall id q, m !! id = Some q -> ~ active_for (pp_mint p) (pp_strategy p) q) ->
    fresh_position p -> ledger_step t m (<[pp_id p := p]> m)
| step_update p p' :
    m !! pp_id p = Some p -> position_step t p p' -> ledger_step t m (<[pp_id p := p']> m).

(** * Invariants of the abstract ledger *)

(** At most one held position per token and strategy. *)
Definition one_active (m : ledger) : Prop :=
  forall id id' p p', m !! id = Some p -> m !! id' = Some p' -> pp_status p = PAPER_HOLDING ->
  active_for (pp_mint p) (pp_strategy p) p' -> id = id'.

(** Nothing was closed after [t]. *)
Definition closed_before (m : ledger) (t : Z) : Prop :=
  forall id p c, m !! id = Some p -> pp_closedAtMs p = Some c -> c <= t.

Definition keyed (m : ledger) : Prop := forall id p, m !! id = Some p -> pp_id p = id.

(** The accounts of a position: before the sale everything is held and nothing was
    earned; after it nothing is held and the profit is the proceeds less the cost. *)
Record balanced (p : PaperPosition) : Prop := {
  bal_cost : 0 < pp_quoteCostRaw p;
  bal_base : 0 < pp_baseFilledRaw p;
  bal_loss : 0 <= pp_roundTripLossBps p <= 10000;
  bal_sale :
    match pp_quoteProceedsRaw p with
    | None => pp_status p <> PAPER_CLOSED /\ pp_remainingBaseRaw p = pp_baseFilledRaw p
              /\ pp_grossPnlQuoteRaw p = None /\ pp_netPnlQuoteRaw p = None
    | Some proceeds =>
        pp_status p <> PAPER_HOLDING /\ pp_remainingBaseRaw p = 0 /\ 0 < proceeds
        /\ pp_netPnlQuoteRaw p = Some (proceeds - pp_quoteCostRaw p)
        /\ exists gross, pp_grossPnlQuoteRaw p = Some gross /\ proceeds - pp_quoteCostRaw p <= gross
    end;
}.
Definition all_balanced (m : ledger) : Prop := forall id p, m !! id = Some p -> balanced p.

Definition status_order (s : PaperPositionStatus) : Z :=
  match s with
  | PAPER_HOLDING => 0
  | PAPER_CLOSED => 1
  | PAPER_RETRACTED => 2
  end.

(** What a position keeps for ever, and once it is no longer held. *)
Record evolves (p p' : PaperPosition) : Prop := {
  evo_identity : pp_id p' = pp_id p /\ pp_mint p' = pp_mint p /\ pp_strategy p' = pp_strategy p
    /\ pp_quoteAsset p' = pp_quoteAsset p /\ pp_triggerEventId p' = pp_triggerEventId p
    /\ pp_openCommandHash p' = pp_openCommandHash p;
  evo_entry : pp_quoteCostRaw p' = pp_quoteCostRaw p /\ pp_baseFilledRaw p' = pp_baseFilledRaw p
    /\ pp_roundTripLossBps p' = pp_roundTripLossBps p /\ pp_openedAtMs p' = pp_openedAtMs p;
  evo_status : status_order (pp_status p) <= status_order (pp_status p');
  evo_sale : pp_status p <> PAPER_HOLDING ->
    pp_remainingBaseRaw p' = pp_remainingBaseRaw p
    /\ pp_quoteProceedsRaw p' = pp_quoteProceedsRaw p
    /\ pp_grossPnlQuoteRaw p' = pp_grossPnlQuoteRaw p
    /\ pp_netPnlQuoteRaw p' = pp_netPnlQuoteRaw p /\ pp_exitTradeId p' = pp_exitTradeId p
    /\ pp_closeCommandHash p' = pp_closeCommandHash p;
}.

Lemma evolves_refl p : evolves p p.
Proof. split; try done; lia. Qed.

Lemma evolves_trans p q r : evolves p q -> evolves q r -> evolves p r.
Proof.
  intros [I1 E1 S1 T1] [I2 E2 S2 T2]. split.
  - destruct_and! I1. destruct_and! I2. split_and!; congruence.
  - destruct_and! E1. destruct_and! E2. split_and!; congruence.
  - lia.
  - intros Hp. assert (pp_status q <> PAPER_HOLDING) as Hq.
    { intros Hq. rewrite Hq in S1. destruct (pp_status p); cbn in *; [done|lia..]. }
    specialize (T1 Hp). specialize (T2 Hq). destruct_and! T1. destruct_and! T2.
    split_and!; congruence.
Qed.

Lemma position_step_evolves t p p' : position_step t p p' -> evolves p p'.
Proof.
  destruct 1 as [p sell ?????? Hst|p ?? Hst]; split; cbn; try done.
  - rewrite Hst. cbn. lia.
  - destruct (pp_status p); cbn; lia.
Qed.

Lemma position_step_balanced t p p' : position_step t p p' -> balanced p -> balanced p'.
Proof.
  destruct 1 as [p sell ?????? Hst [[] ? ? ?]|p ?? Hst]; intros [Hc Hb Hl Hs]; split; cbn; try done.
  - split_and!; [done | done | lia | done | eexists; split; [done|lia]].
  - destruct (pp_quoteProceedsRaw p); destruct_and! Hs; split_and!; done.
Qed.

Lemma position_step_not_held t p p' : position_step t p p' -> pp_status p' <> PAPER_HOLDING.
Proof. by destruct 1. Qed.

Lemma position_step_id t p p' : position_step t p p' -> pp_id p' = pp_id p.
Proof. by destruct 1. Qed.

Lemma fresh_balanced p : fresh_position p -> balanced p.
Proof.
  intros [Hs Hb Hr Hc Hl (Hp & Hg & Hn & _)]. split; try done.
  rewrite Hp. split_and!; try done. congruence.
Qed.

(** How the entries of the ledger after a step come about. *)
Lemma ledger_step_inv t m m' :
  ledger_step t m m' -> forall id p', m' !! id = Some p' ->
  (m !! id = Some p')
  \/ (m !! id = None /\ pp_id p' = id /\ fresh_position p'
      /\ forall id' q, m !! id' = Some q -> ~ active_for (pp_mint p') (pp_strategy p') q)
  \/ (exists p, m !! id = Some p /\ pp_id p = id /\ position_step t p p').
Proof.
  destruct 1 as [|p Hn Ha Hf|p q Hp Hs]; intros id p' Hm'; [by left|..];
    apply lookup_insert_Some in Hm' as [[<- <-]|[_ Hm']]; try (by left).
  - right. by left.
  - right. right. eauto.
Qed.

Lemma ledger_step_keyed t m m' : ledger_step t m m' -> keyed m -> keyed m'.
Proof.
  intros Hs Hk id p' Hp'. destruct (ledger_step_inv _ _ _ Hs _ _ Hp') as [H|[H|(p & H & Hi & Hst)]].
  - by apply Hk.
  - by destruct_and! H.
  - by rewrite (position_step_id _ _ _ Hst).
Qed.

Lemma ledger_step_one_active t m m' : ledger_step t m m' -> keyed m -> one_active m -> one_active m'.
Proof.
  intros Hs Hk Ho id id' p p' Hp Hp' Hst Hact.
  assert (pp_status p' = PAPER_HOLDING) as Hst' by apply Hact.
  destruct (ledger_step_inv _ _ _ Hs _ _ Hp) as [H|[(Hn & <- & _ & Ha)|(q & _ & _ & Hq)]];
    [| |by apply position_step_not_held in Hq].
  - destruct (ledger_step_inv _ _ _ Hs _ _ Hp') as [H'|[(Hn & <- & _ & Ha)|(q & _ & _ & Hq)]];
      [| |by apply position_step_not_held in Hq].
    + by eapply Ho.
    + exfalso. apply (Ha _ _ H). destruct Hact as (_ & E1 & E2). by split_and!.
  - destruct (ledger_step_inv _ _ _ Hs _ _ Hp') as [H'|[(Hn' & <- & _ & Ha')|(q & _ & _ & Hq)]];
      [| |by apply position_step_not_held in Hq].
    + exfalso. by apply (Ha _ _ H').
    + inversion Hs as [E|r Hr Har Hf E|r r' Hr Hrs E]; subst m'; [congruence|..].
      * apply lookup_insert_Some in Hp as [[<- _]|[_ Hp]]; [|congruence].
        apply lookup_insert_Some in Hp' as [[<- _]|[_ Hp']]; [done|congruence].
      * apply lookup_insert_Some in Hp as [[E1 _]|[_ Hp]]; [rewrite E1 in Hr|]; congruence.
Qed.

Lemma ledger_step_closed t m m' : ledger_step t m m' -> closed_before m t -> closed_before m' t.
Proof.
  intros Hs Hc id p' c Hp' Hcl.
  destruct (ledger_step_inv _ _ _ Hs _ _ Hp') as [H|[(_ & _ & Hf & _)|(p & H & _ & Hst)]].
  - by eapply Hc.
  - destruct (fresh_open _ Hf) as (_ & _ & _ & E). congruence.
  - destruct Hst as [p ??????? _ _ Hle|p ?? _ Hle]; cbn in Hcl; injection Hcl as <-; [done|].
    destruct (pp_closedAtMs p) eqn:E; cbn; [by eapply Hc | done].
Qed.

Lemma ledger_step_balanced t m m' : ledger_step t m m' -> all_balanced m -> all_balanced m'.
Proof.
  intros Hs Hb id p' Hp'.
  destruct (ledger_step_inv _ _ _ Hs _ _ Hp') as [H|[(_ & _ & Hf & _)|(p & H & _ & Hst)]].
  - by eapply Hb.
  - by apply fresh_balanced.
  - by eapply position_step_balanced; [|eapply Hb].
Qed.

Lemma ledger_step_evolves t m m' id p :
  ledger_step t m m' -> m !! id = Some p -> exists p', m' !! id = Some p' /\ evolves p p'.
Proof.
  destruct 1 as [|q Hn Ha Hf|q q' Hq Hs]; intros Hp.
  - eauto using evolves_refl.
  - exists p. rewrite lookup_insert_ne by congruence. eauto using evolves_refl.
  - destruct (decide (pp_id q = id)) as [<-|Hne].
    + rewrite Hp in Hq. injection Hq as ->. exists q'. rewrite lookup_insert_eq.
      split; [done | by eapply position_step_evolves].
    + exists p. rewrite lookup_insert_ne by done. eauto using evolves_refl.
Qed.

(** * Lemmas *)

(** Break a hypothesis that says a program returned. *)
Ltac prog_inv H :=
  repeat match type of H with
  | pbind _ _ _ = (Ok _, _) =>
      let a := fresh "a" in let s := fresh "s" in let Ha := fresh "Ha" in
      apply pbind_Ok in H; destruct H as (a & s & Ha & H);
      first [ apply lift_Ok in Ha as [Ha ->] | idtac ]
  | pret _ _ = (Ok _, _) => injection H as <- <-
  | pthrow _ _ = (Ok _, _) => discriminate H
  | lift _ _ = (Ok _, _) => apply lift_Ok in H as [H ->]
  end.

Lemma transact_Ok {S A} (m : prog S exn A) s a s' :
  transact m s = (Ok a, s') <-> m s = (Ok a, s').
Proof. unfold transact. destruct (m s) as [[|] ?]; naive_solver. Qed.

Lemma transact_Err {S A} (m : prog S exn A) s e s' : transact m s = (Err e, s') -> s' = s.
Proof. unfold transact. destruct (m s) as [[|] ?]; naive_solver. Qed.

Lemma assertValidTimestampMs_safe f z u :
  assertValidTimestampMs f z = Ok u -> safe_nonneg z = true.
Proof. intros Hz%assertValidTimestampMs_Ok. by apply safe_nonneg_true. Qed.

Lemma date_ok_safe z : date_ok z = true -> is_safe_integer z = true.
Proof.
  unfold date_ok, MAX_DATE_MS. intros Hd. bool_prop. apply is_safe_integer_true.
  unfold MAX_SAFE_INTEGER. lia.
Qed.

Lemma hashValue_filled `{Sha256} ns v id :
  hashValue ns v = Ok id -> ns <> "" -> filled_text id = true.
Proof. unfold hashValue. intros Hh Hn. result_inv. destruct ns; done. Qed.

Lemma hashId_filled `{Sha256} ns l id : hashId ns l = Ok id -> ns <> "" -> filled_text id = true.
Proof. apply hashValue_filled. Qed.

Lemma pbind_Err {W E A B} (m : prog W E A) (f : A -> prog W E B) w e w2 :
  pbind m f w = (Err e, w2) ->
  m w = (Err e, w2) \/ exists a w1, m w = (Ok a, w1) /\ f a w1 = (Err e, w2).
Proof. unfold pbind. destruct (m w) as [[a|e'] w1]; naive_solver. Qed.

Lemma lift_Err {W E A} (m : result E A) (w : W) e w' :
  lift m w = (Err e, w') <-> m = Err e /\ w' = w.
Proof. unfold lift. naive_solver. Qed.

Lemma storable_state p : storable p = true -> state_ok p.
Proof.
  unfold storable. rewrite !andb_true_iff. intros Hs. destruct_and! Hs.
  by apply validatePositionState_Ok, is_ok_unit.
Qed.

(** A position that is still readable stays readable once retracted. *)
Lemma retracted_storable p t ret :
  storable p = true -> pp_status p <> PAPER_RETRACTED -> safe_nonneg t = true -> 0 <= ret ->
  date_ok (t + ret) = true -> (forall c, pp_closedAtMs p = Some c -> c <= t) ->
  storable (retracted p t ret) = true.
Proof.
  intros Hs Hst Ht Hret Hd Hc. pose proof (storable_state _ Hs) as [Hle Hv].
  apply date_ok_safe, is_safe_integer_true in Hd. apply safe_nonneg_true in Ht.
  unfold storable in Hs |- *. rewrite !andb_true_iff in Hs |- *. destruct_and! Hs.
  split_and!; try assumption; cbn [retracted pp_closedAtMs pp_purgeAfterMs opt_all].
  - destruct (pp_closedAtMs p) as [c|]; cbn in *; [done|]. by apply safe_nonneg_true.
  - apply safe_nonneg_true. lia.
  - apply is_ok_true. exists tt. apply validatePositionState_Ok. split; [done|].
    cbn [retracted pp_status]. destruct (pp_status p) eqn:Hp; [| |done].
    + destruct Hv as (Hr & Hb & Hcl & _). split.
      * cbn. rewrite Hcl. cbn. lia.
      * left. cbn. split; [lia | done].
    + destruct Hv as (Hr & Ha & Htm). split.
      * unfold terminal_times in Htm |- *. cbn. destruct (pp_closedAtMs p); [|done].
        specialize (Hc _ eq_refl). cbn. lia.
      * right. by split.
Qed.

(** A held position that is still readable stays readable once settled. *)
Lemma settled_storable p sell tradeId hash eventId at_ms closedAt ret :
  storable p = true -> pp_status p = PAPER_HOLDING -> valid_quote sell ->
  filled_text tradeId = true -> filled_text hash = true -> filled_text eventId = true ->
  safe_nonneg closedAt = true -> 0 <= ret -> date_ok (closedAt + ret) = true ->
  opt_all date_ok at_ms = true ->
  storable (settled p sell tradeId hash eventId at_ms closedAt ret) = true.
Proof.
  intros Hs Hst Hq Ht Hh He Hc Hret Hd Hat.
  apply date_ok_safe, is_safe_integer_true in Hd. apply safe_nonneg_true in Hc.
  unfold storable in Hs |- *. rewrite !andb_true_iff in Hs |- *. destruct_and! Hs.
  split_and!; try assumption.
  - cbn. lia.
  - cbn. destruct at_ms; [by apply date_ok_safe | done].
  - by apply safe_nonneg_true.
  - apply safe_nonneg_true. lia.
  - apply is_ok_true. exists tt. apply validatePositionState_Ok. split; [cbn; lia|].
    cbn. split_and!; [done | | lia]. destruct Hq. unfold after_sell. cbn.
    rewrite !andb_true_r. lia.
Qed.

(** * Calls *)

Inductive ledger_call :=
| CallOpen (c : OpenPaperPositionCommand)
| CallReconcileOpen (c : OpenPaperPositionCommand)
| CallRetract (positionId : string) (trigger : Trigger)
| CallReconcileClose (positionId : string) (trigger : Trigger)
| CallClose (c : ClosePaperPositionCommand).

(** What the snapshot of a command keeps of it. *)
Record snapshot_of (c c' : OpenPaperPositionCommand) : Prop := {
  so_mint : oc_mint c' = oc_mint c;
  so_asset : oc_quoteAsset c' = oc_quoteAsset c;
  so_strategy : oc_strategy c' = oc_strategy c;
  so_trigger : oc_trigger c' = oc_trigger c;
  so_quotes : oc_buyQuote c' = oc_buyQuote c /\ oc_reverseSellQuote c' = oc_reverseSellQuote c
              /\ oc_maximumRoundTripLossBps c' = oc_maximumRoundTripLossBps c;
  so_report : qr_verdict (oc_qualification c') = qr_verdict (oc_qualification c)
              /\ qr_blockers (oc_qualification c') = qr_blockers (oc_qualification c);
  so_expected : forall i, defined (oc_strategySessionId c) = true ->
    oc_expectedCurrentQualification c = Some i -> oc_expectedCurrentQualification c' = Some i;
}.

Lemma snapshotTrigger_Ok tr tr' : snapshotTrigger tr = Ok tr' -> tr' = tr.
Proof. unfold snapshotTrigger. intros Hr. by result_inv. Qed.

Lemma snapshotOpenCommand_of c tr c' :
  tr = oc_trigger c -> snapshotOpenCommand c tr = Ok c' -> snapshot_of c c'.
Proof.
  intros -> Hr. unfold snapshotOpenCommand in Hr. cbv zeta in Hr. result_inv.
  unfold snapshotQualification in H. result_inv. split; cbn; try done.
  intros [] -> ->. done.
Qed.

Section Rules.
Context `{Sha256} {S : Type} `{!PaperTradingTransaction S} `{!PaperLedgerLaws S}.
Context (config : PaperTradingConfig) (profile : EffectiveQualificationProfile).
Context (isAuthorized : QualificationReport -> string -> string -> bool).

(** A call with the two readings of the clock it may take. *)
Definition run_call (k : ledger_call) (now terminal : Z) : prog S exn PaperPosition :=
  match k with
  | CallOpen c => open config profile isAuthorized c now terminal
  | CallReconcileOpen c => reconcileOpen config profile c now terminal
  | CallRetract id t => retract config id t terminal
  | CallReconcileClose id t => reconcileClose config id t terminal
  | CallClose c => close config c now terminal
  end.

(** A sequence of calls; a call that throws is followed by the next one. *)
Fixpoint run_calls (calls : list (ledger_call * Z * Z)) (s : S) : S :=
  match calls with
  | [] => s
  | (k, now, terminal) :: calls => run_calls calls (snd (run_call k now terminal s))
  end.

(** The clock never runs backwards. *)
Fixpoint clock_forward (t : Z) (calls : list (ledger_call * Z * Z)) : Prop :=
  match calls with
  | [] => True
  | (_, now, terminal) :: calls => t <= now <= terminal /\ clock_forward terminal calls
  end.

(** Where a call may leave the store, from the store it started in. *)
Definition steps (t : Z) (s s' : S) : Prop :=
  store_ok s' /\ ledger_step t (positions s) (positions s').

Hypothesis Hretention : 0 <= retentionMs config.

Lemma stored_storable p m : storable p = true -> stored p m = <[pp_id p := p]> m.
Proof. unfold stored. by intros ->. Qed.

Lemma retract_position_steps s p t q s' :
  store_ok s -> positions s !! pp_id p = Some p -> closed_before (positions s) t ->
  retract_position config p t s = (Ok q, s') -> steps t s s'.
Proof.
  intros Hok Hp Hc Hr. unfold retract_position in Hr.
  destruct (bool_decide (pp_status p = PAPER_RETRACTED)) eqn:Hst.
  { injection Hr as <- <-. split; [done | constructor]. }
  bool_prop. prog_inv Hr. apply assertValidTimestampMs_safe in Ha.
  destruct (retractPosition_law s p _ _ _ Hok Ha0 Hp) as (Hok' & Hm & Hd); try done.
  destruct (positions_read s _ p Hok Hp) as [Hs _].
  split; [done|]. rewrite Hm, stored_storable.
  - apply (step_update _ _ p); [done|]. by constructor.
  - apply retracted_storable; try done. intros c Hpc. by eapply Hc.
Qed.

(** Steps that read or touch events only. *)
Lemma steps_trans_same t s s1 s2 :
  positions s1 = positions s -> steps t s1 s2 -> steps t s s2.
Proof. unfold steps. by intros ->. Qed.

Lemma steps_same t s s' : store_ok s' -> positions s' = positions s -> steps t s s'.
Proof. intros Hok Hm. split; [done|]. rewrite Hm. constructor. Qed.

Lemma reconcile_then_steps s p t orphan id o q s' :
  store_ok s -> positions s !! pp_id p = Some p -> closed_before (positions s) t ->
  (reconcileEventConfirmation id o >>>
   if orphan : bool then retract_position config p t else pret p) s = (Ok q, s') ->
  steps t s s'.
Proof.
  intros Hok Hp Hc Hr. prog_inv Hr.
  destruct (reconcileEventConfirmation_law s _ _ _ _ Hok Ha) as [Hok1 Hm].
  destruct orphan.
  - apply (steps_trans_same t s s0); [done|]. rewrite <- Hm in Hp, Hc.
    by eapply retract_position_steps.
  - injection Hr as <- <-. by apply steps_same.
Qed.

Lemma reconcileOpenReplay_steps s p h tr at_ms job t q s' :
  store_ok s -> positions s !! pp_id p = Some p -> closed_before (positions s) t ->
  reconcileOpenReplay config p h tr at_ms job t s = (Ok q, s') -> steps t s s'.
Proof.
  intros Hok Hp Hc Hr. unfold reconcileOpenReplay in Hr.
  apply pbind_Ok in Hr as ([] & s1 & [_ ->]%lift_Ok & Hr).
  apply pbind_Ok in Hr as ([] & s1 & [_ ->]%lift_Ok & Hr).
  apply pbind_Ok in Hr as (id & s1 & [_ ->]%lift_Ok & Hr).
  by eapply reconcile_then_steps.
Qed.

Lemma close_replay_steps s c h p t q s' :
  store_ok s -> positions s !! pp_id p = Some p -> closed_before (positions s) t ->
  close_replay config c h p t s = (Ok q, s') -> steps t s s'.
Proof.
  intros Hok Hp Hc Hr. unfold close_replay in Hr.
  apply pbind_Ok in Hr as ([] & s1 & [_ ->]%lift_Ok & Hr).
  destruct (pp_exitTradeId p); [|done].
  apply pbind_Ok in Hr as ([] & s1 & [_ ->]%lift_Ok & Hr).
  apply pbind_Ok in Hr as (id & s1 & [_ ->]%lift_Ok & Hr).
  by eapply reconcile_then_steps.
Qed.

(** What a sale that is accepted has been checked for. *)
Lemma validateCloseCommand_sells c p u :
  validatePaperQuote (cc_sellQuote c) = Ok tt -> validateCloseCommand c p = Ok u ->
  sells_out p (cc_sellQuote c) /\ ev_confirmationStatus (cc_trigger c) <> orphaned.
Proof.
  intros Hq Hv. unfold validateCloseCommand, rejectOrphanedTrigger in Hv.
  apply bind_Ok in Hv as (? & Ho & Hv). apply bind_Ok in Hv as (? & _ & Hv).
  result_inv. bool_prop. split; [|done]. split; [by eapply validatePaperQuote_valid|done..].
Qed.

(** What a sale records. *)
Lemma close_sale_result s c h p closedAt q s' :
  store_ok s -> positions s !! pp_id p = Some p -> pp_status p = PAPER_HOLDING ->
  validatePaperQuote (cc_sellQuote c) = Ok tt -> filled_text h = true ->
  safe_nonneg closedAt = true ->
  close_sale config c h p closedAt s = (Ok q, s') ->
  store_ok s' /\ positions s' = <[pp_id p := q]> (positions s)
  /\ validateCloseCommand c p = Ok tt
  /\ exists trade event, q = settled p (cc_sellQuote c) trade h event (cc_exitTriggerAtMs c)
                              closedAt (retentionMs config).
Proof.
  intros Hok Hp Hst Hq Hh Ht Hr. unfold close_sale in Hr. prog_inv Hr. destruct a.
  destruct (validateCloseCommand_sells _ _ _ Hq Ha) as [Hsell _].
  unfold createPaperEvent in Ha2. apply bind_Ok in Ha2 as (eid & Heid & [= <-]).
  cbn [filled pt_id pp_id settled event_type_name] in Ha1, Heid, Ha3.
  rewrite Ha1 in Heid. injection Heid as <-.
  destruct (updateClosed_law s p _ _ _ _ _ _ Hok Ha3 Hp Hst) as (Hok' & Hm & Hd1 & Hd2 & Hd3);
    try done.
  destruct (positions_read s _ p Hok Hp) as [Hs _].
  split_and!; [done | | done | by do 2 eexists].
  rewrite Hm, stored_storable; [done|].
  destruct Hsell. apply settled_storable; try done; by eapply hashId_filled.
Qed.

Lemma close_sale_steps s c h p closedAt t q s' :
  closedAt <= t ->
  store_ok s -> positions s !! pp_id p = Some p -> pp_status p = PAPER_HOLDING ->
  validatePaperQuote (cc_sellQuote c) = Ok tt -> filled_text h = true ->
  safe_nonneg closedAt = true ->
  close_sale config c h p closedAt s = (Ok q, s') -> steps t s s'.
Proof.
  intros Hle Hok Hp Hst Hq Hh Ht Hr.
  destruct (close_sale_result _ _ _ _ _ _ _ Hok Hp Hst Hq Hh Ht Hr)
    as (Hok' & Hm & Hv & trade & event & ->).
  split; [done|]. rewrite Hm. apply (step_update _ _ p); [done|]. constructor; [done| |done].
  by eapply validateCloseCommand_sells.
Qed.

(** What a command that passed the checks is known to satisfy. *)
Record admitted (c : OpenPaperPositionCommand) (rt : PaperRoundTrip) (id : string)
    (h : OpenCommandHashes) : Prop := {
  ad_mint : blank (oc_mint c) = false /\ ev_mint (oc_trigger c) = oc_mint c;
  ad_strategy : blank (strategy_id (oc_strategy c)) = false
                /\ 1 <= strategy_version (oc_strategy c) <= MAX_SAFE_INTEGER;
  ad_lineage : defined (oc_qualificationReportId c) = defined (oc_strategySessionId c)
               /\ defined (oc_candidateId c) = defined (oc_strategySessionId c);
  ad_texts : opt_all filled_text (oc_strategySessionId c) = true
             /\ opt_all filled_text (oc_qualificationReportId c) = true
             /\ opt_all filled_text (oc_candidateId c) = true
             /\ opt_all filled_text (oc_entryDecisionJobId c) = true
             /\ filled_text (qa_mint (oc_quoteAsset c)) = true;
  ad_decision : opt_all is_safe_integer (oc_entryDecisionAtMs c) = true;
  ad_qualified : qr_verdict (oc_qualification c) = V_QUALIFIED
                 /\ qr_blockers (oc_qualification c) = [];
  ad_allowed : qa_mint (oc_quoteAsset c) ∈ pc_paperQuoteMintAllowlist config;
  ad_quotes : calculateRoundTrip (oc_buyQuote c) (oc_reverseSellQuote c) = Ok rt
              /\ q_inputMint (oc_buyQuote c) = qa_mint (oc_quoteAsset c)
              /\ q_outputMint (oc_buyQuote c) = oc_mint c;
  ad_loss : rt_lossBps rt <= oc_maximumRoundTripLossBps c <= 10000;
  ad_id : positionIdOf c = Ok id;
  ad_hashes : hashOpenCommand c = Ok h;
}.

(** A session's command must name the qualification it expects to be current. *)
Lemma check_open_expects c now rt id h :
  check_open config profile c now = Ok (rt, id, h) -> defined (oc_strategySessionId c) = true ->
  cq_mint <$> oc_expectedCurrentQualification c = Some (oc_mint c) /\ oc_mint c <> "".
Proof.
  unfold check_open. intros Hr Hs. apply bind_Ok in Hr as (u & Hv & _).
  unfold validateOpenCommand in Hv. cbv zeta in Hv.
  apply bind_Ok in Hv as (? & Hm & Hv). do 6 apply bind_Ok in Hv as (? & _ & Hv).
  apply bind_Ok in Hv as (? & He & _). rewrite Hs in He. result_inv.
  cbn [andb] in He. bool_prop. split; [done | by apply not_blank_nonempty].
Qed.

Lemma lineage_defined {A B C} (a : option A) (b : option B) (c : option C) x :
  (defined a || (defined b || (defined c || false)))
   && (negb (defined a) || (negb (defined b) || (negb (defined c) || false)) || x) = false ->
  defined b = defined a /\ defined c = defined a.
Proof. destruct a, b, c; cbn; done. Qed.

(** A command that was acceptable stays so later. *)
Lemma validateOpenCommand_later c allow now now' u :
  validateOpenCommand c allow profile now = Ok u -> now <= now' ->
  validateOpenCommand c allow profile now' = Ok u.
Proof.
  intros Hv Hle. rewrite <- Hv.
  assert (bool_decide (strategy_id (oc_strategy c) = CREATION_ENTRY)
          && (now <? q_observedAtMs (oc_buyQuote c)) = false) as H1.
  { unfold validateOpenCommand in Hv. cbv zeta in Hv.
    do 4 apply bind_Ok in Hv as (? & _ & Hv). apply bind_Ok in Hv as (? & Hc & _).
    by apply throw_if_Ok in Hc. }
  assert (bool_decide (strategy_id (oc_strategy c) = CREATION_ENTRY)
          && (now' <? q_observedAtMs (oc_buyQuote c)) = false) as H2.
  { destruct (bool_decide _); cbn in *; [bool_prop; lia | done]. }
  unfold validateOpenCommand. cbv zeta. by rewrite H1, H2.
Qed.

Lemma prepare_open_later c now now' r :
  prepare_open config profile isAuthorized c now = Ok r -> now <= now' <= MAX_SAFE_INTEGER ->
  prepare_open config profile isAuthorized c now' = Ok r.
Proof.
  unfold prepare_open, check_open. intros Hr [Hle Hmax].
  do 4 (apply bind_Ok in Hr as (? & -> & Hr); cbn [mbind result_bind]).
  apply bind_Ok in Hr as (? & Ht & Hr). apply assertValidTimestampMs_Ok in Ht.
  replace (assertValidTimestampMs TF_occurredAtMs now') with (Ok (E:=exn) tt).
  2:{ unfold assertValidTimestampMs. symmetry. apply throw_if_Ok, negb_false_iff, safe_nonneg_true. lia. }
  cbn [mbind result_bind]. apply bind_Ok in Hr as (? & Hr & E).
  apply bind_Ok in Hr as (? & Hv & Hr). rewrite (validateOpenCommand_later _ _ _ _ _ Hv Hle).
  cbn [mbind result_bind]. rewrite Hr. done.
Qed.

Lemma not_blank_filled s : blank s = false -> filled_text s = true.
Proof.
  intros Hs%not_blank_nonempty. unfold filled_text, is_empty. by rewrite bool_decide_eq_false_2.
Qed.

Lemma not_blank_filled_opt o : blank_text o = false -> opt_all filled_text o = true.
Proof. destruct o; cbn; [apply not_blank_filled | done]. Qed.

Lemma lineage_texts (a b c : option string) :
  existsb defined [a; b; c]
   && (existsb (fun o => negb (defined o)) [a; b; c] || existsb blank_text [a; b; c]) = false ->
  opt_all filled_text a = true /\ opt_all filled_text b = true /\ opt_all filled_text c = true.
Proof.
  destruct a, b, c; cbn; try done. rewrite !orb_false_iff. intros (? & ? & ? & _).
  by split_and!; apply not_blank_filled.
Qed.

Lemma decision_safe (o : option Z) observed :
  match o with
  | Some at_ms => assertValidTimestampMs TF_occurredAtMs at_ms ;;
                  throw_if (observed <? at_ms) (invalidQuote "buyQuote.observedAtMs")
  | None => Ok tt
  end = Ok tt -> opt_all is_safe_integer o = true.
Proof.
  destruct o as [z|]; [|done]. intros Hr. apply bind_Ok in Hr as (u & Hz & _). cbn.
  apply assertValidTimestampMs_Ok in Hz. apply is_safe_integer_true. lia.
Qed.

Lemma check_open_admitted c now rt id h :
  check_open config profile c now = Ok (rt, id, h) -> admitted c rt id h.
Proof.
  unfold check_open. intros Hr. apply bind_Ok in Hr as (u & Hv & Hr). result_inv.
  unfold validateOpenCommand in Hv. cbv zeta in Hv.
  apply bind_Ok in Hv as (? & Hm & Hv). apply bind_Ok in Hv as (? & _ & Hv).
  apply bind_Ok in Hv as ([] & Hd%decision_safe & Hv). apply bind_Ok in Hv as (? & Hj & Hv).
  apply bind_Ok in Hv as (? & _ & Hv). apply bind_Ok in Hv as (? & Hs & Hv).
  apply bind_Ok in Hv as (? & Hl & Hv). apply bind_Ok in Hv as (? & _ & Hv).
  assert (blank (q_inputMint (oc_buyQuote c)) = false) as Hi.
  { clear Hv. unfold calculateRoundTrip in *. result_inv. unfold validatePaperQuote in *.
    by result_inv. }
  result_inv. pose proof (lineage_texts _ _ _ Hl) as (? & ? & ?). apply lineage_defined in Hl.
  apply not_blank_filled_opt in Hj. apply not_blank_filled in Hi. bool_prop.
  match goal with H : (0 <? _)%nat = false |- _ => apply Nat.ltb_ge in H end.
  assert (qr_blockers (oc_qualification c) = []) as Hb.
  { destruct (qr_blockers (oc_qualification c)); [done | cbn in *; lia]. }
  split; split_and?; try done; try congruence. all: try lia; apply Hl.
Qed.

Lemma opened_fresh c rt id h trade now :
  admitted c rt id h -> fresh_position (opened c rt id trade (hash_current h) now).
Proof.
  intros [? ? ? ? ? ? ? (Hq & _ & _) ? ? ?].
  apply calculateRoundTrip_spec in Hq as ([] & _ & _ & _ & _ & Hc & Hb & _ & _ & Hl).
  apply calculateLossBps_spec in Hl as (_ & _ & Hl & _). unfold MAX_BPS in Hl.
  split; cbn; try done; lia.
Qed.

(** A new position can be read back. *)
Lemma opened_storable c rt id h trade now :
  admitted c rt id h -> filled_text id = true -> filled_text trade = true ->
  filled_text (hash_current h) = true -> ev_id (oc_trigger c) <> "" -> safe_nonneg now = true ->
  0 <= qa_decimals (oc_quoteAsset c) <= 255 ->
  storable (opened c rt id trade (hash_current h) now) = true.
Proof.
  intros Had Hid Htr Hh Hev Hnow Hdec. pose proof (opened_fresh _ _ _ _ trade now Had) as Hf.
  destruct Had as [[Hm _] [Hs Hsv] [L1 L2] (T1 & T2 & T3 & T4 & T5) Hd _ _ _ _ _ _].
  destruct Hf as [_ Hb _ Hc Hl _]. cbn in Hb, Hc, Hl.
  unfold storable. rewrite !andb_true_iff.
  split_and!; cbn; try done; try lia; try (by apply not_blank_filled).
  - unfold filled_text, is_empty. by rewrite bool_decide_eq_false_2.
  - destruct (oc_strategySessionId c), (oc_qualificationReportId c), (oc_candidateId c); try done.
    cbn in T1, T2, T3 |- *. by rewrite T1, T2, T3.
  - apply is_ok_true. exists tt. apply validatePositionState_Ok. split; [cbn; lia|].
    cbn. split_and!; try done. lia.
Qed.

Lemma open_transaction_steps s c rt id h now t q s' :
  store_ok s -> closed_before (positions s) t -> admitted c rt id h ->
  open_transaction config c rt id h now t s = (Ok q, s') -> steps t s s'.
Proof.
  intros Hok Hc Had Hr. unfold open_transaction in Hr.
  apply pbind_Ok in Hr as (u & s1 & Hq & Hr).
  assert (store_ok s1 /\ positions s1 = positions s) as [Hok1 Hm1].
  { destruct (oc_expectedCurrentQualification c); [|by injection Hq as <- <-].
    by eapply requireCurrentQualification_law. }
  apply pbind_Ok in Hr as (existing & s2 & Hf & Hr).
  apply findPosition_law in Hf as (Hok2 & Hm2 & ->); [|done].
  rewrite Hm1 in Hm2. rewrite Hm1 in Hr. apply (steps_trans_same t s s2); [done|].
  rewrite <- Hm2 in Hc, Hr. clear Hm1 Hok1 Hq Hok Hm2 s s1. rename s2 into s.
  destruct (positions s !! id) as [p|] eqn:Hp.
  { destruct (positions_read s _ p Hok2 Hp) as [_ <-]. by eapply reconcileOpenReplay_steps. }
  apply pbind_Ok in Hr as (active & s2 & Hf & Hr).
  apply findActivePosition_law in Hf as (Hok3 & Hm3 & Hact); [|done].
  destruct active as [p|].
  { destruct (_ && _) eqn:Hb in Hr; [|done]. bool_prop. destruct Hact as [Hp' _]. congruence. }
  apply pbind_Ok in Hr as (again & s3 & Hf & Hr).
  apply findPosition_law in Hf as (Hok4 & Hm4 & ->); [|done].
  rewrite Hm3 in Hr, Hm4. rewrite Hp in Hr. prog_inv Hr.
  apply insertOpened_law in Ha2 as [Hok5 Hm5]; try done.
  2:{ unfold consistent_lineage. cbn. destruct (ad_lineage _ _ _ _ Had) as [E1 E2].
      by destruct (oc_strategySessionId c), (oc_qualificationReportId c), (oc_candidateId c). }
  split; [done|]. rewrite Hm5, Hm4. unfold stored. destruct (storable _).
  - apply step_open; [done | done | by eapply opened_fresh].
  - cbn [opened pp_id]. rewrite delete_id by done. constructor.
Qed.

(** The transactions that start by reading the position they act on. *)
Lemma find_then_steps (f : PaperPosition -> prog S exn PaperPosition) s id t q s' :
  store_ok s -> closed_before (positions s) t ->
  transact (current <-- findPosition id;
            match current with
            | None => pthrow position_not_found
            | Some current => f current
            end) s = (Ok q, s') ->
  (forall s0 p, store_ok s0 -> positions s0 !! pp_id p = Some p ->
                closed_before (positions s0) t -> f p s0 = (Ok q, s') -> steps t s0 s') ->
  steps t s s'.
Proof.
  intros Hok Hc Hr Hf. rewrite transact_Ok in Hr. prog_inv Hr.
  apply findPosition_law in Ha as (Hok1 & Hm1 & ->); [|done].
  apply (steps_trans_same t s s0); [done|]. rewrite <- Hm1 in Hc, Hr.
  destruct (positions s0 !! id) as [p|] eqn:Hp; [|done].
  destruct (positions_read s0 _ p Hok1 Hp) as [_ <-]. by eapply Hf.
Qed.

Lemma run_call_steps k now t s q s' :
  now <= t ->
  store_ok s -> closed_before (positions s) t ->
  run_call k now t s = (Ok q, s') -> steps t s s'.
Proof.
  intros Hle Hok Hc Hr. destruct k as [c|c|id tr|id tr|c]; cbn [run_call] in Hr.
  - unfold open, prepare_open in Hr. apply pbind_Ok in Hr as ([c' [[rt id] h]] & s1 & Hl & Hr).
    apply lift_Ok in Hl as [Hl ->]. rewrite transact_Ok in Hr. result_inv.
    eapply open_transaction_steps; eauto using check_open_admitted.
  - unfold reconcileOpen in Hr. prog_inv Hr. destruct a2 as [[rt id] h].
    refine (find_then_steps _ _ _ _ _ _ Hok Hc Hr _). intros; by eapply reconcileOpenReplay_steps.
  - unfold retract in Hr. prog_inv Hr.
    refine (find_then_steps _ _ _ _ _ _ Hok Hc Hr _). intros; by eapply retract_position_steps.
  - unfold reconcileClose in Hr. prog_inv Hr. refine (find_then_steps _ _ _ _ _ _ Hok Hc Hr _).
    clear Hr. intros s0 p Hok0 Hp Hc0 Hr. cbn beta in Hr.
    destruct (bool_decide _) eqn:Hst in Hr; [injection Hr as <- <-; by apply steps_same|].
    destruct (pp_status p), (pp_exitTradeId p), (pp_closeEventId p); try discriminate Hr.
    apply pbind_Ok in Hr as (? & s9 & [_ ->]%lift_Ok & Hr).
    apply pbind_Ok in Hr as (? & s9 & [_ ->]%lift_Ok & Hr).
    by eapply reconcile_then_steps.
  - unfold close in Hr. prog_inv Hr. refine (find_then_steps _ _ _ _ _ _ Hok Hc Hr _).
    clear Hr. intros s0 p Hok0 Hp Hc0 Hr. cbn beta in Hr.
    destruct (bool_decide _) eqn:Hst in Hr; bool_prop.
    + destruct a1. eapply close_sale_steps; try done.
      * unfold hashCloseCommand in Ha3. by eapply (hashValue_filled "paper_close_command").
      * by eapply assertValidTimestampMs_safe.
    + by eapply close_replay_steps.
Qed.

(** A call that throws changes nothing. *)
Lemma run_call_throw k now t s e s' : run_call k now t s = (Err e, s') -> s' = s.
Proof.
  intros Hr. destruct k; cbn [run_call] in Hr;
    unfold open, reconcileOpen, retract, reconcileClose, close in Hr;
    repeat (apply pbind_Err in Hr as [[_ ->]%lift_Err | (? & ? & [_ ->]%lift_Ok & Hr)]; [done|]);
    repeat match type of Hr with context [let '(_, _) := ?x in _] => destruct x end;
    by eapply transact_Err.
Qed.

Lemma run_call_refines k now t s :
  now <= t -> store_ok s -> closed_before (positions s) t ->
  steps t s (snd (run_call k now t s)).
Proof.
  intros Hle Hok Hc. destruct (run_call k now t s) as [[q|e] s'] eqn:Hr.
  - by eapply run_call_steps.
  - apply run_call_throw in Hr as ->. by apply steps_same.
Qed.

Lemma closed_before_le m t t' : t <= t' -> closed_before m t -> closed_before m t'.
Proof. intros Hle Hc id p c Hp Hpc. specialize (Hc _ _ _ Hp Hpc). lia. Qed.

(** Induction over the calls of a run. *)
Lemma run_calls_invariant (P : ledger -> Prop) :
  (forall t m m', ledger_step t m m' -> keyed m -> P m -> P m') ->
  forall calls t s, clock_forward t calls -> store_ok s -> closed_before (positions s) t ->
  P (positions s) -> P (positions (run_calls calls s)).
Proof.
  intros HP calls. induction calls as [|[[k now] term] calls IH]; intros t s Hf Hok Hc Hs; [done|].
  cbn [clock_forward run_calls] in *. destruct Hf as [Ht Hf].
  assert (closed_before (positions s) term) as Hc' by (eapply closed_before_le; [|done]; lia).
  destruct (run_call_refines k now term s) as [Hok' Hstep]; [lia|done|done|].
  apply (IH term); try done.
  - by eapply ledger_step_closed.
  - eapply HP; try done. intros id p Hp. by destruct (positions_read s id p Hok Hp).
Qed.

(** ** Single calls *)

Lemma retract_position_id s p t q s' :
  retract_position config p t s = (Ok q, s') -> pp_id q = pp_id p.
Proof.
  unfold retract_position. intros Hr. destruct (bool_decide _); [by injection Hr as <- <-|].
  by prog_inv Hr.
Qed.

Lemma reconcileOpenReplay_id s p h tr at_ms job t q s' :
  reconcileOpenReplay config p h tr at_ms job t s = (Ok q, s') -> pp_id q = pp_id p.
Proof.
  unfold reconcileOpenReplay. intros Hr. prog_inv Hr.
  destruct (bool_decide (ev_confirmationStatus tr = orphaned)).
  - by eapply retract_position_id.
  - by injection Hr as <- <-.
Qed.

Lemma snapshotCloseCommand_Ok c c' : snapshotCloseCommand c = Ok c' -> c' = c.
Proof.
  unfold snapshotCloseCommand. intros Hr. result_inv. apply snapshotTrigger_Ok in H0 as ->.
  by destruct c.
Qed.

(** A [close] that finds the position held. *)
Lemma close_result c now t s p q s' :
  close config c now t s = (Ok q, s') -> store_ok s ->
  positions s !! cc_positionId c = Some p -> pp_status p = PAPER_HOLDING ->
  validatePaperQuote (cc_sellQuote c) = Ok tt
  /\ (forall at_ms, cc_exitTriggerAtMs c = Some at_ms -> at_ms <= q_observedAtMs (cc_sellQuote c))
  /\ validateCloseCommand c p = Ok tt
  /\ positions s' = <[cc_positionId c := q]> (positions s)
  /\ exists trade event h, q = settled p (cc_sellQuote c) trade h event (cc_exitTriggerAtMs c)
                               now (retentionMs config).
Proof.
  intros Hr Hok Hp Hst. unfold close in Hr. prog_inv Hr.
  apply snapshotCloseCommand_Ok in Ha0 as ->. destruct a1.
  rewrite transact_Ok in Hr. prog_inv Hr.
  apply findPosition_law in Ha0 as (Hok1 & Hm1 & ->); [|done]. rewrite Hp in Hr.
  rewrite bool_decide_eq_true_2 in Hr by done.
  destruct (positions_read s _ p Hok Hp) as [_ Hid]. rewrite <- Hid, <- Hm1 in Hp.
  assert (filled_text a3 = true) as Hh.
  { unfold hashCloseCommand in Ha3. by eapply (hashValue_filled "paper_close_command"). }
  apply assertValidTimestampMs_safe in Ha4.
  destruct (close_sale_result _ _ _ _ _ _ _ Hok1 Hp Hst Ha1 Hh Ha4 Hr)
    as (_ & Hm & Hv & trade & event & ->).
  rewrite Hm1, Hid in Hm. split_and!; try done; [|by do 3 eexists].
  intros at_ms E. rewrite E in Ha2. result_inv. by bool_prop.
Qed.

(** [open] returns the position that the command identifies. *)
Lemma open_transaction_id s c rt id h now t q s' :
  store_ok s -> open_transaction config c rt id h now t s = (Ok q, s') -> pp_id q = id.
Proof.
  intros Hok Hr. unfold open_transaction in Hr.
  apply pbind_Ok in Hr as ([] & s1 & Hq & Hr).
  assert (store_ok s1) as Hok1.
  { destruct (oc_expectedCurrentQualification c); [|unfold pret in Hq; by simplify_eq].
    by eapply requireCurrentQualification_law. }
  apply pbind_Ok in Hr as (existing & s2 & Hf & Hr).
  apply findPosition_law in Hf as (Hok2 & _ & Hex); [|done].
  destruct existing as [p|].
  { rewrite (reconcileOpenReplay_id _ _ _ _ _ _ _ _ _ Hr). exact (proj2 (positions_read _ _ _ Hok1 (eq_sym Hex))). }
  apply pbind_Ok in Hr as (active & s3 & Hf & Hr).
  apply findActivePosition_law in Hf as (Hok3 & _ & _); [|done]. destruct active as [p|].
  { destruct (_ && _) eqn:Hb in Hr; [|done]. bool_prop.
    by rewrite (reconcileOpenReplay_id _ _ _ _ _ _ _ _ _ Hr). }
  apply pbind_Ok in Hr as (again & s4 & Hf & Hr).
  apply findPosition_law in Hf as (Hok4 & _ & Hag); [|done]. destruct again as [p|].
  { rewrite (reconcileOpenReplay_id _ _ _ _ _ _ _ _ _ Hr). exact (proj2 (positions_read _ _ _ Hok3 (eq_sym Hag))). }
  by prog_inv Hr.
Qed.

(** [open] on a position that is already recorded. *)
Lemma open_transaction_replays s c rt id h now t q s' p :
  store_ok s -> positions s !! id = Some p ->
  open_transaction config c rt id h now t s = (Ok q, s') -> matchesOpenCommandHash p h = true.
Proof.
  intros Hok Hp Hr. unfold open_transaction in Hr.
  apply pbind_Ok in Hr as ([] & s1 & Hq & Hr).
  assert (store_ok s1 /\ positions s1 = positions s) as [Hok1 Hm1].
  { destruct (oc_expectedCurrentQualification c); [|unfold pret in Hq; by simplify_eq].
    by eapply requireCurrentQualification_law. }
  apply pbind_Ok in Hr as (existing & s2 & Hf & Hr).
  apply findPosition_law in Hf as (_ & _ & ->); [|done]. rewrite Hm1, Hp in Hr.
  unfold reconcileOpenReplay in Hr. apply pbind_Ok in Hr as (u & s3 & [Hh _]%lift_Ok & _).
  apply throw_if_Ok in Hh. by bool_prop.
Qed.

(** What an opening that is not a replay did. *)
Lemma open_transaction_opens s c rt id h now t q s' :
  store_ok s -> positions s !! id = None ->
  open_transaction config c rt id h now t s = (Ok q, s') ->
  ev_confirmationStatus (oc_trigger c) <> orphaned
  /\ (exists trade, q = opened c rt id trade (hash_current h) now)
  /\ (forall id' p, positions s !! id' = Some p -> ~ active_for (oc_mint c) (oc_strategy c) p)
  /\ match oc_expectedCurrentQualification c with
     | Some i => exists s1, requireCurrentQualification i s = (Ok tt, s1)
     | None => True
     end.
Proof.
  intros Hok Hn Hr. unfold open_transaction in Hr.
  apply pbind_Ok in Hr as ([] & s1 & Hq & Hr).
  assert (store_ok s1 /\ positions s1 = positions s) as [Hok1 Hm1].
  { destruct (oc_expectedCurrentQualification c); [|unfold pret in Hq; by simplify_eq].
    by eapply requireCurrentQualification_law. }
  apply pbind_Ok in Hr as (existing & s2 & Hf & Hr).
  apply findPosition_law in Hf as (Hok2 & Hm2 & ->); [|done]. rewrite Hm1, Hn in Hr.
  apply pbind_Ok in Hr as (active & s3 & Hf & Hr).
  apply findActivePosition_law in Hf as (Hok3 & Hm3 & Hact); [|done].
  rewrite Hm2, Hm1 in Hact, Hm3. destruct active as [p|].
  { destruct (_ && _) eqn:Hb in Hr; [|done]. bool_prop. destruct Hact as [Hp' _]. congruence. }
  apply pbind_Ok in Hr as (again & s4 & Hf & Hr).
  apply findPosition_law in Hf as (_ & _ & ->); [|done]. rewrite Hm3, Hn in Hr.
  prog_inv Hr. unfold rejectOrphanedTrigger in Ha. result_inv. bool_prop.
  split_and!; [done | by eexists | done |].
  destruct (oc_expectedCurrentQualification c); [by eexists | done].
Qed.

End Rules.
