(* ===== verification/PaperStore.v ===== *)
(** The database behind the paper ledger: the transaction of
    [src/src/storage/paper-trading.repository.ts] as a state of three tables beside the
    tables that tell whether a qualification is current ([PaperCurrent]), the proof that it
    keeps the laws of the port, and the retention purge of [src/src/storage/database.ts].

    Transactions run one after the other: each one first takes the row and advisory
    locks of its token.  A statement that violates a primary key, a unique index or a
    check of the schema (migrations 004, 013, 018 and 019) throws.  Foreign keys to other
    tables, the ranges of the numeric columns and the second unique index of
    [paper_trades] are left out: they could only make more statements throw. *)
From S2P Require Import Prelude Text Types Chain Json Identity JsonCodec PaperMath PaperStrategy Qualification PaperLedger PaperCurrent PaperRows PaperRules.
From Stdlib Require Import String.
Local Open Scope string_scope.
Local Open Scope list_scope.
Local Open Scope Z_scope.

(** * Tables *)

(** A row of [domain_events] that this repository writes. *)
Record event_row := {
  er_event : PaperEvent;
  er_confirmationStatus : ChainConfirmationStatus;
  er_blockchainTime : option Z;
  er_observedAt : Z;
  er_terminalAt : option Z;
  er_purgeAfter : option Z;
}.

(** The tables this repository writes, and those it reads to find out whether a
    qualification is current: other parts of the program change these, and time passes,
    between its transactions. *)
Record paper_store := {
  st_positions : gmap string position_row;
  st_trades : gmap string PaperTrade;
  st_events : gmap string event_row;
  st_chain : chain_tables;
}.
Definition empty_store (chain : chain_tables) : paper_store :=
  {| st_positions := ∅; st_trades := ∅; st_events := ∅; st_chain := chain |}.
(** The same rows of this repository under other tables, at another time. *)
Definition with_chain (chain : chain_tables) (s : paper_store) : paper_store :=
  {| st_positions := st_positions s; st_trades := st_trades s; st_events := st_events s;
     st_chain := chain |}.

Definition set_positions (m : gmap string position_row) : prog paper_store exn unit := fun s =>
  (Ok tt, {| st_positions := m; st_trades := st_trades s; st_events := st_events s;
             st_chain := st_chain s |}).
Definition set_trades (m : gmap string PaperTrade) : prog paper_store exn unit := fun s =>
  (Ok tt, {| st_positions := st_positions s; st_trades := m; st_events := st_events s;
             st_chain := st_chain s |}).
Definition set_events (m : gmap string event_row) : prog paper_store exn unit := fun s =>
  (Ok tt, {| st_positions := st_positions s; st_trades := st_trades s; st_events := m;
             st_chain := st_chain s |}).
Definition get_store : prog paper_store exn paper_store := fun s => (Ok s, s).

(** A statement that the schema refuses. *)
Definition violation : exn := PlainError "database constraint".
Definition require (b : bool) : prog paper_store exn unit := lift (throw_if (negb b) violation).

(** src/src/storage/paper-trading.repository.ts:619-621 (date): what the database
    accepts of a [Date]. *)
Definition dates (l : list (option Z)) : prog paper_store exn unit :=
  require (forallb (opt_all date_ok) l).

(** * Statements *)

(** src/src/storage/paper-trading.repository.ts:284-320 (insertPosition) *)
Definition insertPosition (p : PaperPosition) (entryDecisionAtMs : option Z)
    (entryDecisionJobId : option string) : prog paper_store exn unit :=
  payload <-- lift (toJsonValue (position_data p));
  dates [Some (pp_openedAtMs p); pp_closedAtMs p; pp_purgeAfterMs p; entryDecisionAtMs] >>>
  s <-- get_store;
  require (bool_decide (st_positions s !! pp_id p = None)
           && forallb (fun kr => negb (bool_decide (pp_status p = PAPER_HOLDING)
                                       && bool_decide (row_status (snd kr) = PAPER_HOLDING)
                                       && bool_decide (row_mint (snd kr) = pp_mint p)
                                       && bool_decide (row_strategy (snd kr) = pp_strategy p))
                              && negb (defined (pp_strategySessionId p)
                                       && bool_decide (row_strategy_session_id (snd kr)
                                                       = pp_strategySessionId p)))
                (map_to_list (st_positions s))) >>>
  require ((0 <=? qa_decimals (pp_quoteAsset p)) && (qa_decimals (pp_quoteAsset p) <=? 255)
           && (0 <? strategy_version (pp_strategy p))
           && opt_all (fun at_ms => at_ms <=? pp_openedAtMs p) entryDecisionAtMs
           && opt_all (fun job => defined entryDecisionAtMs && (1 <=? byte_length job)
                                  && (byte_length job <=? 256)) entryDecisionJobId) >>>
  set_positions
    (<[pp_id p :=
        {| row_mint := pp_mint p; row_strategy := pp_strategy p; row_status := pp_status p;
           row_strategy_session_id := pp_strategySessionId p; row_payload := payload;
           row_entry_decision_at := entryDecisionAtMs;
           row_entry_decision_job_id := entryDecisionJobId;
           row_close_event_id := None; row_exit_trigger_at := None;
           row_purge_after := pp_purgeAfterMs p |}]> (st_positions s)).

(** The members of a trade, as [toJsonValue(trade)] sees them. *)
Definition side_text (s : PaperTradeSide) : string :=
  match s with
  | SIDE_BUY => "BUY"
  | SIDE_SELL => "SELL"
  end.
Definition trade_data (t : PaperTrade) : data :=
  DObj [("id", DStr (pt_id t)); ("positionId", DStr (pt_positionId t));
        ("side", DStr (side_text (pt_side t))); ("quote", quote_data (pt_quote t));
        ("fillAmountOutRaw", DBig (pt_fillAmountOutRaw t)); ("reason", DStr (pt_reason t));
        ("createdAtMs", DInt (pt_createdAtMs t)); ("payloadVersion", DInt 1)].

(** src/src/storage/paper-trading.repository.ts:322-341 (insertTrade) *)
Definition insertTrade (t : PaperTrade) : prog paper_store exn unit :=
  lift (toJsonValue (trade_data t)) >>>
  dates [Some (pt_createdAtMs t); Some (q_observedAtMs (pt_quote t))] >>>
  s <-- get_store;
  require (bool_decide (st_trades s !! pt_id t = None)
           && bool_decide (is_Some (st_positions s !! pt_positionId t))) >>>
  set_trades (<[pt_id t := t]> (st_trades s)).

(** src/src/storage/paper-trading.repository.ts:343-365 (insertEvent):
    [ON CONFLICT (event_id) DO NOTHING]. *)
Definition insertEvent (e : PaperEvent) (terminalAtMs purgeAfterMs : option Z)
    : prog paper_store exn unit :=
  lift (toJsonValue (DObj [("position", position_data (fst (ev_payload e)));
                           ("trade", trade_data (snd (ev_payload e)))])) >>>
  dates [ev_blockchainTimeMs e; Some (ev_observedAtMs e); terminalAtMs; purgeAfterMs] >>>
  s <-- get_store;
  match st_events s !! ev_id e with
  | Some _ => pret tt
  | None =>
      set_events (<[ev_id e :=
        {| er_event := e; er_confirmationStatus := ev_confirmationStatus e;
           er_blockchainTime := ev_blockchainTimeMs e; er_observedAt := ev_observedAtMs e;
           er_terminalAt := terminalAtMs; er_purgeAfter := purgeAfterMs |}]> (st_events s))
  end.

(** src/src/storage/paper-trading.repository.ts:367-376 (markPositionEventsTerminal) *)
Definition mark_terminal (p : PaperPosition) (r : event_row) : event_row :=
  if bool_decide (ev_source (er_event r) = "paper-trading")
     && bool_decide (pp_id (fst (ev_payload (er_event r))) = pp_id p)
     && negb (defined (er_purgeAfter r))
  then {| er_event := er_event r; er_confirmationStatus := er_confirmationStatus r;
          er_blockchainTime := er_blockchainTime r; er_observedAt := er_observedAt r;
          er_terminalAt := pp_closedAtMs p; er_purgeAfter := pp_purgeAfterMs p |}
  else r.
Definition markPositionEventsTerminal (p : PaperPosition) : prog paper_store exn unit :=
  dates [pp_closedAtMs p; pp_purgeAfterMs p] >>>
  s <-- get_store;
  set_events (mark_terminal p <$> st_events s).

(** * The transaction *)

(** src/src/storage/paper-trading.repository.ts:145-159 (findPosition) *)
Definition find_position (id : string) : prog paper_store exn (option PaperPosition) :=
  s <-- get_store;
  match st_positions s !! id with
  | None => pret None
  | Some row => lift (Some <$> decodePosition row)
  end.

(** src/src/storage/paper-trading.repository.ts:161-179 (findActivePosition) *)
Definition is_active_row (mint : string) (strategy : PaperStrategyIdentity) (r : position_row) : bool :=
  bool_decide (row_mint r = mint) && bool_decide (row_strategy r = strategy)
  && bool_decide (row_status r = PAPER_HOLDING).
Definition find_active_position (mint : string) (strategy : PaperStrategyIdentity)
    : prog paper_store exn (option PaperPosition) :=
  s <-- get_store;
  match List.filter (fun kr => is_active_row mint strategy (snd kr)) (map_to_list (st_positions s)) with
  | [] => pret None
  | (_, row) :: _ => lift (Some <$> decodePosition row)
  end.

(** src/src/storage/paper-trading.repository.ts:181-192 (insertOpened) *)
Definition insert_opened (p : PaperPosition) (trade : PaperTrade) (event : PaperEvent)
    (entryDecisionAtMs : option Z) (entryDecisionJobId : option string)
    : prog paper_store exn unit :=
  insertPosition p entryDecisionAtMs entryDecisionJobId >>>
  insertTrade trade >>>
  insertEvent event None None.

(** src/src/storage/paper-trading.repository.ts:194-227 (updateClosed) *)
Definition update_closed (p : PaperPosition) (trade : PaperTrade) (event : PaperEvent)
    (exitTriggerAtMs : option Z) : prog paper_store exn unit :=
  insertEvent event (pp_closedAtMs p) (pp_purgeAfterMs p) >>>
  payload <-- lift (toJsonValue (position_data p));
  dates [pp_closedAtMs p; pp_purgeAfterMs p; exitTriggerAtMs] >>>
  s <-- get_store;
  match st_positions s !! pp_id p with
  | Some row =>
      if bool_decide (row_status row = PAPER_HOLDING) then
        require (forallb (fun kr => negb (bool_decide (row_close_event_id (snd kr)
                                                       = Some (ev_id event))))
                   (map_to_list (st_positions s))
                 && match exitTriggerAtMs, pp_closedAtMs p with
                    | Some exit_ms, Some closed => exit_ms <=? closed
                    | _, _ => true
                    end) >>>
        set_positions
          (<[pp_id p :=
              {| row_mint := row_mint row; row_strategy := row_strategy row;
                 row_status := pp_status p;
                 row_strategy_session_id := row_strategy_session_id row; row_payload := payload;
                 row_entry_decision_at := row_entry_decision_at row;
                 row_entry_decision_job_id := row_entry_decision_job_id row;
                 row_close_event_id := Some (ev_id event);
                 row_exit_trigger_at := exitTriggerAtMs;
                 row_purge_after := pp_purgeAfterMs p |}]> (st_positions s))
      else pret tt
  | None => pret tt
  end >>>
  insertTrade trade >>>
  markPositionEventsTerminal p.

(** src/src/storage/paper-trading.repository.ts:229-265 (reconcileEventConfirmation) *)
Definition reconcile_event_confirmation (eventId : string) (o : PaperConfirmationObservation)
    : prog paper_store exn unit :=
  s <-- get_store;
  match st_events s !! eventId with
  | None => pthrow (TypeError "Paper event is missing.")
  | Some row =>
      next <-- lift (reconciled_status (er_confirmationStatus row) (po_confirmationStatus o));
      dates [po_blockchainTimeMs o; Some (po_observedAtMs o)] >>>
      set_events (<[eventId :=
        {| er_event := er_event row; er_confirmationStatus := next;
           er_blockchainTime :=
             match po_blockchainTimeMs o, er_blockchainTime row with
             | None, current => current
             | Some at_ms, None => Some at_ms
             | Some at_ms, Some current => Some (Z.min current at_ms)
             end;
           er_observedAt := Z.min (er_observedAt row) (po_observedAtMs o);
           er_terminalAt := er_terminalAt row; er_purgeAfter := er_purgeAfter row |}]>
        (st_events s))
  end.

(** src/src/storage/paper-trading.repository.ts:267-282 (retractPosition) *)
Definition retract_row (p : PaperPosition) : prog paper_store exn unit :=
  payload <-- lift (toJsonValue (position_data p));
  dates [pp_closedAtMs p; pp_purgeAfterMs p] >>>
  s <-- get_store;
  match st_positions s !! pp_id p with
  | Some row =>
      set_positions
        (<[pp_id p :=
            {| row_mint := row_mint row; row_strategy := row_strategy row;
               row_status := pp_status p;
               row_strategy_session_id := row_strategy_session_id row; row_payload := payload;
               row_entry_decision_at := row_entry_decision_at row;
               row_entry_decision_job_id := row_entry_decision_job_id row;
               row_close_event_id := row_close_event_id row;
               row_exit_trigger_at := row_exit_trigger_at row;
               row_purge_after := pp_purgeAfterMs p |}]> (st_positions s))
  | None => pret tt
  end >>>
  markPositionEventsTerminal p.

(** src/src/storage/paper-trading.repository.ts:62-143 (requireCurrentQualification) *)
Definition require_current_qualification (i : PaperCurrentQualificationIdentity)
    : prog paper_store exn unit :=
  s <-- get_store;
  lift (throw_if (negb (qualification_current (st_chain s) i))
          (PaperTradingError QUALIFICATION_NOT_CURRENT "")).

(** The transaction the engine is given. *)
Global Instance postgres_transaction : PaperTradingTransaction paper_store := {|
  requireCurrentQualification := require_current_qualification;
  findPosition := find_position;
  findActivePosition := find_active_position;
  insertOpened := insert_opened;
  updateClosed := update_closed;
  reconcileEventConfirmation := reconcile_event_confirmation;
  retractPosition := retract_row;
|}.

(** * Retention *)

(** src/src/storage/database.ts:271-279 (purgeExpiredFoundationData): the statements on the paper tables, at
    [NOW()].  The trades of the positions go first.  The events are purged by a later
    statement of their own, which is not modelled. *)
Definition purgeable (now : Z) (row : position_row) : bool :=
  match row_purge_after row with
  | Some at_ms => at_ms <=? now
  | None => false
  end.
Definition purge_paper (now : Z) (s : paper_store) : paper_store :=
  {| st_positions := filter (fun kr => purgeable now (snd kr) = false) (st_positions s);
     st_trades := filter (fun kt => (purgeable now <$> st_positions s !! pt_positionId (snd kt))
                                    <> Some true) (st_trades s);
     st_events := st_events s; st_chain := st_chain s |}.

(** * The laws *)

(** A row holds a position: its columns agree with its payload. *)
Definition holds (id : string) (row : position_row) (p : PaperPosition) : Prop :=
  pp_id p = id /\ fromJsonValue (row_payload row) = position_data p
  /\ consistent_lineage p = true /\ row = row_of p (row_payload row).

Definition rows_ok (s : paper_store) : Prop :=
  forall id row, st_positions s !! id = Some row -> exists p, holds id row p.

Definition read_row (row : position_row) : option PaperPosition :=
  match decodePosition row with
  | Ok p => Some p
  | Err _ => None
  end.
Definition readable (s : paper_store) : ledger := omap read_row (st_positions s).

Lemma holds_decode id row p q : holds id row p -> decodePosition row = Ok q -> q = p.
Proof.
  intros (_ & Hd & Hl & Hrow). apply decode_agrees; try done; by rewrite Hrow.
Qed.

Lemma holds_read id row p : holds id row p -> read_row row = if storable p then Some p else None.
Proof.
  intros Hh. unfold read_row. destruct (decodePosition row) as [q|e] eqn:Hq.
  - pose proof (holds_decode _ _ _ _ Hh Hq) as ->. by rewrite (decode_storable _ _ Hq).
  - destruct (storable p) eqn:Hs; [|done]. destruct Hh as (_ & Hd & Hl & Hrow).
    rewrite (decode_data p row) in Hq; try done; by rewrite Hrow.
Qed.

(** A readable position that is to be purged has ended. *)
Lemma storable_ended p :
  storable p = true ->
  pp_purgeAfterMs p = None
  \/ exists closed u, pp_status p <> PAPER_HOLDING /\ pp_closedAtMs p = Some closed
       /\ pp_purgeAfterMs p = Some u /\ closed <= u.
Proof.
  unfold storable. rewrite !andb_true_iff. intros [_ Hs].
  destruct (pp_purgeAfterMs p) as [u|] eqn:Hu; [right|by left].
  destruct (validatePositionState p) as [[]|] eqn:Hv; [|done]. unfold validatePositionState in Hv.
  apply bind_Ok in Hv as (? & _ & Hv). unfold terminal_times in Hv.
  destruct (pp_status p) eqn:Hst; unfold check_state in Hv; result_inv; bool_prop; rewrite Hu in *;
    cbn in *; try done.
  all: destruct (pp_closedAtMs p) as [c|] eqn:Hc; cbn in *; bool_prop; try done;
    by exists c, u.
Qed.

Lemma readable_lookup s id p :
  rows_ok s -> readable s !! id = Some p ->
  exists row, st_positions s !! id = Some row /\ holds id row p /\ storable p = true
              /\ decodePosition row = Ok p.
Proof.
  intros Hok Hp. unfold readable in Hp. apply lookup_omap_Some in Hp as (row & Hr & Hrow).
  exists row. destruct (Hok _ _ Hrow) as [q Hq]. unfold read_row in Hr.
  destruct (decodePosition row) as [q'|] eqn:Hd; [|done]. injection Hr as ->.
  pose proof (holds_decode _ _ _ _ Hq Hd) as ->. split_and!; try done.
  by eapply decode_storable.
Qed.

(** Writing a row that holds [p]. *)
Lemma write_row s s' row p :
  rows_ok s -> st_positions s' = <[pp_id p := row]> (st_positions s) -> holds (pp_id p) row p ->
  rows_ok s' /\ readable s' = stored p (readable s).
Proof.
  intros Hok Hs Hh. split.
  - intros id r Hr. rewrite Hs in Hr. apply lookup_insert_Some in Hr as [[<- <-]|[_ Hr]]; eauto.
  - unfold readable, stored. rewrite Hs, omap_insert, (holds_read _ _ _ Hh). by destruct (storable p).
Qed.

(** Statements that leave the positions table as it is. *)
Definition keeps_positions {A} (m : prog paper_store exn A) : Prop :=
  forall s a s', m s = (Ok a, s') -> st_positions s' = st_positions s.

Lemma keeps_bind {A B} (m : prog paper_store exn A) (f : A -> prog paper_store exn B) :
  keeps_positions m -> (forall a, keeps_positions (f a)) -> keeps_positions (pbind m f).
Proof.
  intros Hm Hf s b s' Hr. apply pbind_Ok in Hr as (a & s1 & Ha & Hr).
  by rewrite (Hf a s1 b s' Hr), (Hm s a s1 Ha).
Qed.
Lemma keeps_lift {A} (m : result exn A) : keeps_positions (lift m).
Proof. intros s a s' Hr. by apply lift_Ok in Hr as [_ ->]. Qed.
Lemma keeps_ret {A} (a : A) : keeps_positions (pret a).
Proof. intros s b s' Hr. by injection Hr as _ <-. Qed.
Lemma keeps_throw {A} (e : exn) : keeps_positions (pthrow (A:=A) e).
Proof. intros s b s' Hr. discriminate Hr. Qed.
Lemma keeps_get : keeps_positions get_store.
Proof. intros s b s' Hr. by injection Hr as _ <-. Qed.
Lemma keeps_trades m : keeps_positions (set_trades m).
Proof. intros s b s' Hr. by injection Hr as _ <-. Qed.
Lemma keeps_events m : keeps_positions (set_events m).
Proof. intros s b s' Hr. by injection Hr as _ <-. Qed.

Create HintDb store.
#[local] Hint Resolve keeps_bind keeps_lift keeps_ret keeps_throw keeps_get keeps_trades
  keeps_events : store.

Lemma keeps_insertTrade t : keeps_positions (insertTrade t).
Proof. unfold insertTrade, dates, require. auto 10 with store. Qed.
Lemma keeps_insertEvent e a b : keeps_positions (insertEvent e a b).
Proof.
  unfold insertEvent, dates, require. repeat (apply keeps_bind; [auto with store|intros]).
  destruct (st_events _ !! _); auto with store.
Qed.
Lemma keeps_mark p : keeps_positions (markPositionEventsTerminal p).
Proof. unfold markPositionEventsTerminal, dates, require. auto 10 with store. Qed.
Lemma keeps_reconcile id o : keeps_positions (reconcile_event_confirmation id o).
Proof.
  unfold reconcile_event_confirmation. apply keeps_bind; [auto with store|intros s].
  destruct (st_events s !! id); unfold dates, require; auto 10 with store.
Qed.
#[local] Hint Resolve keeps_insertTrade keeps_insertEvent keeps_mark keeps_reconcile : store.

Lemma keeps_same s s' :
  st_positions s' = st_positions s -> rows_ok s -> rows_ok s' /\ readable s' = readable s.
Proof. unfold rows_ok, readable. by intros ->. Qed.

Lemma payload_round_trip p j : toJsonValue (position_data p) = Ok j -> fromJsonValue j = position_data p.
Proof. apply json_round_trip, position_data_marker_free. Qed.

Lemma find_position_spec s id r s' :
  rows_ok s -> find_position id s = (Ok r, s') -> s' = s /\ r = readable s !! id.
Proof.
  intros Hok Hr. unfold find_position in Hr. apply pbind_Ok in Hr as (s1 & s2 & Hg & Hr).
  injection Hg as <- <-. unfold readable. rewrite lookup_omap.
  destruct (st_positions s !! id) as [row|]; cbn.
  - apply lift_Ok in Hr as [Hr ->]. apply fmap_Ok in Hr as (p & Hp & ->).
    unfold read_row. by rewrite Hp.
  - by injection Hr as <- <-.
Qed.

Lemma is_active_row_spec id row p mint strategy :
  holds id row p -> is_active_row mint strategy row = true <-> active_for mint strategy p.
Proof.
  intros (_ & _ & _ & ->). unfold is_active_row, active_for. cbn.
  rewrite !andb_true_iff, !bool_decide_eq_true. naive_solver.
Qed.

Lemma find_active_position_spec s mint strategy r s' :
  rows_ok s -> find_active_position mint strategy s = (Ok r, s') ->
  s' = s /\ match r with
            | Some p => readable s !! pp_id p = Some p /\ active_for mint strategy p
            | None => forall id p, readable s !! id = Some p -> ~ active_for mint strategy p
            end.
Proof.
  intros Hok Hr. unfold find_active_position in Hr. apply pbind_Ok in Hr as (s1 & s2 & Hg & Hr).
  injection Hg as <- <-.
  destruct (List.filter _ _) as [|[id row] l] eqn:Hf in Hr.
  - injection Hr as <- <-. split; [done|]. intros id p Hp Ha.
    destruct (readable_lookup _ _ _ Hok Hp) as (row & Hrow & Hh & _).
    assert ((id, row) ∈ List.filter (fun kr => is_active_row mint strategy (snd kr))
              (map_to_list (st_positions s))) as Hin.
    { apply list_elem_of_In, filter_In. split; [by apply list_elem_of_In, elem_of_map_to_list|].
      by apply (is_active_row_spec id row p). }
    rewrite Hf in Hin. by apply elem_of_nil in Hin.
  - apply lift_Ok in Hr as [Hr ->]. apply fmap_Ok in Hr as (p & Hp & ->). split; [done|].
    assert (In (id, row) ((id, row) :: l)) as Hin by (by left). rewrite <- Hf in Hin.
    apply filter_In in Hin as [Hin Ha]. apply list_elem_of_In, elem_of_map_to_list in Hin.
    destruct (Hok _ _ Hin) as [q Hq]. pose proof (holds_decode _ _ _ _ Hq Hp) as ->.
    split; [|by apply (is_active_row_spec id row)]. destruct Hq as (-> & _).
    unfold readable. rewrite lookup_omap, Hin. cbn. unfold read_row. by rewrite Hp.
Qed.

Lemma insert_opened_spec s p trade event at_ms job u s' :
  rows_ok s -> insert_opened p trade event at_ms job s = (Ok u, s') ->
  consistent_lineage p = true -> pp_entryDecisionAtMs p = at_ms ->
  pp_entryDecisionJobId p = job -> pp_closeEventId p = None -> pp_exitTriggerAtMs p = None ->
  rows_ok s' /\ readable s' = stored p (readable s).
Proof.
  intros Hok Hr Hl <- <- Hc Hx. unfold insert_opened in Hr.
  apply pbind_Ok in Hr as ([] & s1 & Hi & Hr).
  unfold insertPosition, dates, require in Hi. prog_inv Hi.
  injection Ha1 as <-. injection Hi as <-.
  assert (st_positions s' = <[pp_id p := row_of p a]> (st_positions s)) as Hs'.
  { eapply keeps_bind in Hr; [|auto with store..]. rewrite Hr. cbn. by rewrite <- Hc, <- Hx. }
  eapply write_row; [done..|]. split_and!; [done | | done | done].
  by apply payload_round_trip.
Qed.

Lemma update_closed_spec s q p trade event at_ms u s' :
  rows_ok s -> update_closed p trade event at_ms s = (Ok u, s') ->
  readable s !! pp_id q = Some q -> pp_status q = PAPER_HOLDING -> same_columns q p ->
  pp_closeEventId p = Some (ev_id event) -> pp_exitTriggerAtMs p = at_ms ->
  rows_ok s' /\ readable s' = stored p (readable s)
  /\ opt_all date_ok (pp_closedAtMs p) = true /\ opt_all date_ok (pp_purgeAfterMs p) = true
  /\ opt_all date_ok at_ms = true.
Proof.
  intros Hok Hr Hq Hst (E1 & E2 & E3 & E4 & E5 & E6 & E7 & E8) Hc <-. unfold update_closed in Hr.
  apply pbind_Ok in Hr as ([] & s1 & Hi & Hr). apply keeps_insertEvent in Hi.
  apply pbind_Ok in Hr as (payload & s2 & [Hj ->]%lift_Ok & Hr).
  apply pbind_Ok in Hr as ([] & s2 & [Hd ->]%lift_Ok & Hr).
  apply pbind_Ok in Hr as (s2 & s3 & Hg & Hr). injection Hg as <- <-.
  destruct (readable_lookup _ _ _ Hok Hq) as (row & Hrow & (_ & _ & Hl & Hcol) & _).
  rewrite E1, Hi, Hrow in Hr. rewrite Hcol in Hr. cbn [row_of row_status] in Hr.
  rewrite Hst in Hr. apply pbind_Ok in Hr as ([] & s4 & Hu & Hr).
  rewrite bool_decide_eq_true_2 in Hu by done.
  apply pbind_Ok in Hu as ([] & s5 & [_ ->]%lift_Ok & Hu). injection Hu as <-.
  assert (st_positions s' = <[pp_id p := row_of p payload]> (st_positions s)) as Hs'.
  { eapply keeps_bind in Hr; [|auto with store..]. rewrite Hr. unfold row_of. cbn.
    by rewrite E1, E2, E3, E4, E7, E8, Hc. }
  apply throw_if_Ok, negb_false_iff in Hd. cbn in Hd. rewrite !andb_true_iff in Hd.
  destruct (write_row s s' (row_of p payload) p Hok Hs') as [Hok' Hread].
  { split_and!; [done | by apply payload_round_trip | | done].
    unfold consistent_lineage in *. by rewrite E4, E5, E6. }
  by destruct_and! Hd.
Qed.

Lemma retract_row_spec s q p u s' :
  rows_ok s -> retract_row p s = (Ok u, s') -> readable s !! pp_id q = Some q ->
  same_columns q p -> pp_closeEventId p = pp_closeEventId q ->
  pp_exitTriggerAtMs p = pp_exitTriggerAtMs q ->
  rows_ok s' /\ readable s' = stored p (readable s) /\ opt_all date_ok (pp_purgeAfterMs p) = true.
Proof.
  intros Hok Hr Hq (E1 & E2 & E3 & E4 & E5 & E6 & E7 & E8) Hc Hx. unfold retract_row in Hr.
  apply pbind_Ok in Hr as (payload & s2 & [Hj ->]%lift_Ok & Hr).
  apply pbind_Ok in Hr as ([] & s2 & [Hd ->]%lift_Ok & Hr).
  apply pbind_Ok in Hr as (s2 & s3 & Hg & Hr). injection Hg as <- <-.
  destruct (readable_lookup _ _ _ Hok Hq) as (row & Hrow & (_ & _ & Hl & Hcol) & _).
  rewrite E1, Hrow in Hr. rewrite Hcol in Hr.
  apply pbind_Ok in Hr as ([] & s4 & Hu & Hr). injection Hu as <-.
  assert (st_positions s' = <[pp_id p := row_of p payload]> (st_positions s)) as Hs'.
  { apply keeps_mark in Hr. rewrite Hr. unfold row_of. cbn.
    by rewrite E1, E2, E3, E4, E7, E8, Hc, Hx. }
  apply throw_if_Ok, negb_false_iff in Hd. cbn in Hd. rewrite !andb_true_iff in Hd.
  destruct (write_row s s' (row_of p payload) p Hok Hs') as [Hok' Hread].
  { split_and!; [done | by apply payload_round_trip | | done].
    unfold consistent_lineage in *. by rewrite E4, E5, E6. }
  by destruct_and! Hd.
Qed.

Global Program Instance postgres_laws : PaperLedgerLaws paper_store := {|
  store_ok := rows_ok;
  positions := readable;
|}.
Next Obligation.
  intros s id p Hok Hp. destruct (readable_lookup _ _ _ Hok Hp) as (row & _ & (Hid & _) & Hs & _).
  done.
Qed.
Next Obligation.
  intros s i u s' Hok Hr. cbn in Hr. by apply lift_Ok in Hr as [_ ->].
Qed.
Next Obligation.
  intros s id r s' Hok Hr. by destruct (find_position_spec _ _ _ _ Hok Hr) as [-> ->].
Qed.
Next Obligation.
  intros s mint strategy r s' Hok Hr.
  by destruct (find_active_position_spec _ _ _ _ _ Hok Hr) as [-> ?].
Qed.
Next Obligation. intros s p trade event at_ms job u s' Hok Hr Hl _. by eapply insert_opened_spec. Qed.
Next Obligation.
  intros s q p trade event at_ms u s' Hok Hr Hq Hst Hcol _. by eapply update_closed_spec.
Qed.
Next Obligation.
  intros s id o u s' Hok Hr. apply keeps_reconcile in Hr. by apply keeps_same.
Qed.
Next Obligation. intros s q p u s' Hok Hr Hq Hcol _. by eapply retract_row_spec. Qed.

(** * Purging *)

Lemma purge_rows_ok now s : rows_ok s -> rows_ok (purge_paper now s).
Proof. intros Hok id row Hr. cbn in Hr. apply map_lookup_filter_Some in Hr as [Hr _]. by apply Hok. Qed.
Lemma purge_readable now s id p :
  readable (purge_paper now s) !! id = Some p -> readable s !! id = Some p.
Proof.
  unfold readable. rewrite !lookup_omap_Some. intros (row & Hp & Hr). cbn in Hr.
  apply map_lookup_filter_Some in Hr as [Hr _]. by exists row.
Qed.

(** The purge takes a position only after it ended and its retention is over. *)
Lemma purge_keeps now s id p :
  rows_ok s -> readable s !! id = Some p ->
  readable (purge_paper now s) !! id = Some p
  \/ (pp_status p <> PAPER_HOLDING
      /\ exists closed u, pp_closedAtMs p = Some closed /\ pp_purgeAfterMs p = Some u
         /\ closed <= u <= now).
Proof.
  intros Hok Hp. destruct (readable_lookup _ _ _ Hok Hp) as (row & Hrow & Hh & Hs & Hd).
  destruct (purgeable now row) eqn:Hg.
  - right. destruct Hh as (_ & _ & _ & Hcol). unfold purgeable in Hg. rewrite Hcol in Hg. cbn in Hg.
    destruct (pp_purgeAfterMs p) as [u|] eqn:Hu; [|done]. apply Z.leb_le in Hg.
    destruct (storable_ended p Hs) as [Hn|(closed & u' & Hst & Hc & Hu' & Hle)]; [congruence|].
    rewrite Hu in Hu'. simplify_eq. split; [done|]. by exists closed, u'.
  - left. unfold readable. rewrite lookup_omap_Some. exists row. split.
    + unfold read_row. by rewrite Hd.
    + cbn. by apply map_lookup_filter_Some.
Qed.

(** * Repeating an opening *)

Lemma require_Ok b s u s' : require b s = (Ok u, s') -> b = true /\ s' = s.
Proof. unfold require. intros [Hr ->]%lift_Ok. apply throw_if_Ok in Hr. by bool_prop. Qed.

(** What [insertOpened] leaves in the tables. *)
Lemma insert_opened_tables s p trade event at_ms job u s' :
  insert_opened p trade event at_ms job s = (Ok u, s') -> st_events s !! ev_id event = None ->
  st_chain s' = st_chain s
  /\ st_events s' = <[ev_id event :=
       {| er_event := event; er_confirmationStatus := ev_confirmationStatus event;
          er_blockchainTime := ev_blockchainTimeMs event; er_observedAt := ev_observedAtMs event;
          er_terminalAt := None; er_purgeAfter := None |}]> (st_events s)
  /\ opt_all date_ok (ev_blockchainTimeMs event) = true /\ date_ok (ev_observedAtMs event) = true
  /\ 0 <= qa_decimals (pp_quoteAsset p) <= 255.
Proof.
  intros Hr Hn. unfold insert_opened in Hr. apply pbind_Ok in Hr as ([] & s1 & Hi & Hr).
  unfold insertPosition in Hi. apply pbind_Ok in Hi as (j & s2 & [_ ->]%lift_Ok & Hi).
  apply pbind_Ok in Hi as ([] & s2 & [_ ->]%require_Ok & Hi).
  apply pbind_Ok in Hi as (s2 & s3 & Hg & Hi). injection Hg as <- <-.
  apply pbind_Ok in Hi as ([] & s2 & [_ ->]%require_Ok & Hi).
  apply pbind_Ok in Hi as ([] & s2 & [Hdec ->]%require_Ok & Hi). injection Hi as <-.
  apply pbind_Ok in Hr as ([] & s1 & Ht & Hr).
  unfold insertTrade in Ht. apply pbind_Ok in Ht as (j' & s2 & [_ ->]%lift_Ok & Ht).
  apply pbind_Ok in Ht as ([] & s2 & [_ ->]%require_Ok & Ht).
  apply pbind_Ok in Ht as (s2 & s3 & Hg & Ht). injection Hg as <- <-.
  apply pbind_Ok in Ht as ([] & s2 & [_ ->]%require_Ok & Ht). injection Ht as <-.
  unfold insertEvent in Hr. apply pbind_Ok in Hr as (j2 & s2 & [_ ->]%lift_Ok & Hr).
  apply pbind_Ok in Hr as ([] & s2 & [Hd ->]%require_Ok & Hr).
  apply pbind_Ok in Hr as (s2 & s3 & Hg & Hr). injection Hg as <- <-.
  cbn [st_events] in Hr. rewrite Hn in Hr. injection Hr as _ <-. cbn in Hd |- *.
  rewrite !andb_true_iff in Hd. destruct_and! Hd. bool_prop. by split_and!.
Qed.

(** Observing again what the event row already holds changes nothing. *)
Lemma reconcile_event_same s id row o :
  st_events s !! id = Some row -> er_confirmationStatus row = po_confirmationStatus o ->
  er_blockchainTime row = po_blockchainTimeMs o -> er_observedAt row = po_observedAtMs o ->
  opt_all date_ok (po_blockchainTimeMs o) = true -> date_ok (po_observedAtMs o) = true ->
  reconcile_event_confirmation id o s = (Ok tt, s).
Proof.
  intros Hrow Hc Hb Ho Hd1 Hd2. unfold reconcile_event_confirmation, pbind, get_store, lift.
  rewrite Hrow, Hc. unfold reconciled_status, reconcileConfirmationStatus.
  rewrite bool_decide_eq_true_2 by done. cbn. rewrite Hd1, Hd2. cbn.
  rewrite Ho, Z.min_id, Hb. destruct s, row; cbn in *. subst.
  destruct (po_blockchainTimeMs o); cbn; rewrite ?Z.min_id; by rewrite insert_id.
Qed.

Section Retry.
Context `{Sha256} (config : PaperTradingConfig).

(** The reads of an [open] that inserts leave the store alone. *)
Lemma open_transaction_inserts s c rt id h now t p s' :
  rows_ok s -> readable s !! id = None ->
  open_transaction config c rt id h now t s = (Ok p, s') ->
  (forall i, oc_expectedCurrentQualification c = Some i -> qualification_current (st_chain s) i = true)
  /\ ev_confirmationStatus (oc_trigger c) <> orphaned
  /\ exists tradeId event, hashId "paper_trade" [DStr id; DStr "BUY"] = Ok tradeId
     /\ p = opened c rt id tradeId (hash_current h) now
     /\ createPaperEvent PaperPositionOpened p
          (filled tradeId id SIDE_BUY (oc_buyQuote c) "QUALIFIED_ENTRY" now) (oc_trigger c)
          (ev_observedAtMs (oc_trigger c)) = Ok event
     /\ insert_opened p (filled tradeId id SIDE_BUY (oc_buyQuote c) "QUALIFIED_ENTRY" now) event
          (oc_entryDecisionAtMs c) (oc_entryDecisionJobId c) s = (Ok tt, s').
Proof.
  intros Hok Hn Hr. unfold open_transaction in Hr.
  apply pbind_Ok in Hr as ([] & s1 & Hq & Hr).
  assert (s1 = s /\ forall i, oc_expectedCurrentQualification c = Some i ->
                              qualification_current (st_chain s) i = true) as [-> Hcur].
  { destruct (oc_expectedCurrentQualification c) as [i|]; [|by injection Hq as <-].
    cbn in Hq. apply lift_Ok in Hq as [Hq ->]. apply throw_if_Ok, negb_false_iff in Hq.
    split; [done|]. by intros ? [= <-]. }
  apply pbind_Ok in Hr as (existing & s1 & Hf & Hr).
  apply find_position_spec in Hf as [-> ->]; [|done]. rewrite Hn in Hr.
  apply pbind_Ok in Hr as (active & s1 & Hf & Hr).
  apply find_active_position_spec in Hf as [-> Hact]; [|done]. destruct active as [q|].
  { destruct (_ && _) eqn:Hb in Hr; [|done]. bool_prop. destruct Hact as [Hq' _]. congruence. }
  apply pbind_Ok in Hr as (again & s1 & Hf & Hr).
  apply find_position_spec in Hf as [-> ->]; [|done]. rewrite Hn in Hr.
  prog_inv Hr. unfold rejectOrphanedTrigger in Ha. result_inv. bool_prop.
  destruct a2. split_and!; [done | done |]. by do 2 eexists.
Qed.

Lemma pbind_run {W E A B} (m : prog W E A) (f : A -> prog W E B) w a w' :
  m w = (Ok a, w') -> pbind m f w = f a w'.
Proof. unfold pbind. by intros ->. Qed.

(** [open] on a position whose event already shows what the trigger says. *)
Lemma open_transaction_found s c rt id h now t p eid row :
  (forall i, oc_expectedCurrentQualification c = Some i -> qualification_current (st_chain s) i = true) ->
  findPosition id s = (Ok (Some p), s) -> pp_openCommandHash p = hash_current h ->
  pp_entryDecisionAtMs p = oc_entryDecisionAtMs c ->
  pp_entryDecisionJobId p = oc_entryDecisionJobId c ->
  paperEventId "PaperPositionOpened" (pp_id p) (pp_entryTradeId p) (ev_id (oc_trigger c)) = Ok eid ->
  st_events s !! eid = Some row ->
  er_confirmationStatus row = ev_confirmationStatus (oc_trigger c) ->
  er_blockchainTime row = ev_blockchainTimeMs (oc_trigger c) ->
  er_observedAt row = ev_observedAtMs (oc_trigger c) ->
  opt_all date_ok (ev_blockchainTimeMs (oc_trigger c)) = true ->
  date_ok (ev_observedAtMs (oc_trigger c)) = true ->
  ev_confirmationStatus (oc_trigger c) <> orphaned ->
  open_transaction config c rt id h now t s = (Ok p, s).
Proof.
  intros Hcur Hfind Hh Hat Hjob Heid Hrow E1 E2 E3 Hd1 Hd2 Ho. unfold open_transaction.
  rewrite (pbind_run _ _ s tt s).
  2:{ destruct (oc_expectedCurrentQualification c) as [i|]; [|done]. cbn.
      unfold lift. by rewrite (Hcur i eq_refl). }
  rewrite (pbind_run _ _ s (Some p) s) by done. unfold reconcileOpenReplay.
  rewrite (pbind_run _ _ s tt s).
  2:{ unfold lift, matchesOpenCommandHash. by rewrite Hh, bool_decide_eq_true_2. }
  rewrite (pbind_run _ _ s tt s).
  2:{ unfold lift. rewrite Hat, Hjob, !bool_decide_eq_true_2 by done. by rewrite andb_false_r. }
  rewrite (pbind_run _ _ s eid s) by (unfold lift; by rewrite Heid).
  rewrite (pbind_run _ _ s tt s).
  2:{ by apply reconcile_event_same with row. }
  by rewrite bool_decide_eq_false_2.
Qed.

(** Once a command has opened its position, the same command finds it and changes nothing,
    whatever became of the other tables, as long as its qualification is current. *)
Lemma open_transaction_again s c rt id h now now' t t' p s' chain :
  rows_ok s -> readable s !! id = None -> admitted config c rt id h -> safe_nonneg now = true ->
  filled_text id = true -> filled_text (hash_current h) = true -> ev_id (oc_trigger c) <> "" ->
  open_transaction config c rt id h now t s = (Ok p, s') ->
  (forall e, paperEventId "PaperPositionOpened" id (pp_entryTradeId p) (ev_id (oc_trigger c)) = Ok e ->
             st_events s !! e = None) ->
  (forall i, oc_expectedCurrentQualification c = Some i -> qualification_current chain i = true) ->
  open_transaction config c rt id h now' t' (with_chain chain s') = (Ok p, with_chain chain s').
Proof.
  intros Hok Hn Had Hnow Hid Hh Htr Hr Hev Hcurrent.
  destruct (open_transaction_inserts _ _ _ _ _ _ _ _ _ Hok Hn Hr)
    as (_ & Ho & tradeId & event & Ht & Hp & He & Hi).
  unfold createPaperEvent in He. apply bind_Ok in He as (eid & Heid & [= <-]).
  rewrite Hp in Heid. cbn [opened pp_id filled pt_id event_type_name] in Heid.
  rewrite Hp in Hev. cbn [opened pp_entryTradeId] in Hev.
  destruct (insert_opened_tables _ _ _ _ _ _ _ _ Hi (Hev _ Heid)) as (_ & Ee & Hd1 & Hd2 & Hdec).
  cbn [ev_id ev_blockchainTimeMs ev_observedAtMs ev_confirmationStatus] in Ee, Hd1, Hd2.
  destruct (insert_opened_spec _ _ _ _ _ _ _ _ Hok Hi) as [Hok' Hread]; try (by rewrite Hp).
  { rewrite Hp. unfold consistent_lineage. cbn. destruct (ad_lineage _ _ _ _ _ Had) as [E1 E2].
    by destruct (oc_strategySessionId c), (oc_qualificationReportId c), (oc_candidateId c). }
  assert (readable s' !! id = Some p) as Hfound.
  { assert (storable p = true) as Hst.
    { rewrite Hp. apply (opened_storable config); try done; [by eapply hashId_filled|].
      by rewrite Hp in Hdec. }
    assert (pp_id p = id) as <- by (by rewrite Hp).
    rewrite Hread, stored_storable by done. apply lookup_insert_eq. }
  assert (findPosition id (with_chain chain s') = (Ok (Some p), with_chain chain s')) as Hfind.
  { destruct (readable_lookup _ _ _ Hok' Hfound) as (row & Hrow & _ & _ & Hdecode).
    cbn. unfold find_position, pbind, get_store. cbn [with_chain st_positions]. rewrite Hrow.
    unfold lift. by rewrite Hdecode. }
  match type of Ee with _ = <[_ := ?row]> _ => set (r := row) in Ee end.
  assert (st_events s' !! eid = Some r) as Hrow by (rewrite Ee; apply lookup_insert_eq).
  apply (open_transaction_found (with_chain chain s') c rt id h now' t' p eid r); try done.
  - by rewrite Hp.
  - by rewrite Hp.
  - by rewrite Hp.
  - rewrite Hp. exact Heid.
Qed.
(** A command whose qualification is not current any more is refused before anything is
    looked up. *)
Lemma open_transaction_stale s c rt id h now t i :
  oc_expectedCurrentQualification c = Some i -> qualification_current (st_chain s) i = false ->
  open_transaction config c rt id h now t s = (Err (PaperTradingError QUALIFICATION_NOT_CURRENT ""), s).
Proof.
  intros Hi Hc. unfold open_transaction. rewrite Hi. unfold pbind at 1. cbn.
  unfold require_current_qualification, pbind, get_store, lift. by rewrite Hc.
Qed.
End Retry.
