(* ===== verification/PaperProperties.v ===== *)
(** Properties of the paper trading engine, over any repository that keeps the laws of
    the port, with the database of [PaperStore] as the witness that the laws can be
    kept; and what is special to that database: what a retention purge may remove, and what a
    repeated opening does while the tables around it change. *)
From S2P Require Import Prelude Text Types Chain Json Identity JsonCodec PaperMath PaperStrategy Qualification PaperLedger PaperCurrent PaperRows PaperRules PaperStore.
From Stdlib Require Import String.
Local Open Scope string_scope.
Local Open Scope list_scope.
Local Open Scope Z_scope.

(** * A run to try the properties on *)

(** A digest without collisions. *)
Definition text_digest : Sha256 := fun s => s.

Definition sample_policy (code : QualificationReasonCode) : QualificationConditionPolicy :=
  {| po_code := code;
     po_mode := if bool_decide (code = R_ROUND_TRIP_LOSS_EXCEEDED) then M_ENFORCED else M_DISABLED;
     po_maximumTop1Bps := None; po_maximumTop5Bps := None; po_maximumTop10Bps := None;
     po_maximumClusterBps := None;
     po_minimumSharedFunders := if bool_decide (code = R_SHARED_FUNDER_CLUSTER) then Some 2 else None;
     po_maximumRoundTripLossBps :=
       if bool_decide (code = R_ROUND_TRIP_LOSS_EXCEEDED) then Some 500 else None |}.
Definition sample_profile : EffectiveQualificationProfile :=
  {| pf_id := "launch"; pf_version := 2; pf_status := "UNVALIDATED_RULE_SET";
     pf_minimumTotalScore := 60;
     pf_dimensionMaximums :=
       {| dm_preparation := 15; dm_socialAuthenticity := 25; dm_onchainHealth := 60 |};
     pf_rules :=
       [{| ru_signal := creatorHasNotSold; ru_dimension := onchainHealth; ru_weight := 60;
           ru_required := true; ru_message := "Creator has not sold." |};
        {| ru_signal := imageValid; ru_dimension := preparation; ru_weight := 15;
           ru_required := true; ru_message := "Image is valid." |};
        {| ru_signal := linksReachable; ru_dimension := socialAuthenticity; ru_weight := 25;
           ru_required := false; ru_message := "Links are reachable." |}];
     pf_conditionPolicies := map sample_policy QUALIFICATION_REASON_CODES;
     pf_fingerprint := "fp" |}.
Definition sample_condition (code : QualificationReasonCode) : QualificationConditionEvidence :=
  if bool_decide (code = R_ROUND_TRIP_LOSS_EXCEEDED)
  then {| cn_code := code; cn_mode := M_ENFORCED; cn_status := S_PASSED;
          cn_observed := [("roundTripLossBps", CBig 300)];
          cn_thresholds := [("maximumRoundTripLossBps", CBig 500)]; cn_message := "ok" |}
  else {| cn_code := code; cn_mode := M_DISABLED; cn_status := S_DISABLED; cn_observed := [];
          cn_thresholds := []; cn_message := "off" |}.
Definition sample_score : QualificationScore := {| sc_score := 20; sc_maximum := 30 |}.
Definition sample_report : QualificationReport :=
  {| rs_id := "launch"; rs_version := 2; rs_status := "UNVALIDATED_RULE_SET"; rs_fingerprint := "fp";
     rs_minimumTotalScore := 60; qr_preparation := sample_score;
     qr_socialAuthenticity := sample_score; qr_onchainHealth := sample_score;
     qr_total := sample_score; qr_evidence := [];
     qr_conditions := map sample_condition QUALIFICATION_REASON_CODES; qr_blockers := [];
     qr_verdict := V_QUALIFIED; qr_evaluatedAtMs := 900 |}.
Definition sample_trigger (id : string) (status : ChainConfirmationStatus) : Trigger :=
  {| ev_id := id; ev_type := QualificationUpdated; ev_mint := "mint"; ev_source := "qualification";
     ev_program := "pump"; ev_signature := "sig"; ev_cursor := cursor_at 10;
     ev_confirmationStatus := status; ev_blockchainTimeMs := None; ev_observedAtMs := 950;
     ev_payloadVersion := 1; ev_payload := DNull |}.
Definition sample_identity : PaperCurrentQualificationIdentity :=
  {| cq_mint := "mint"; cq_reportId := "report"; cq_qualificationEventId := "evt_q" |}.
Definition sol_asset : QuoteAsset :=
  {| qa_mint := NATIVE_SOL_MINT; qa_decimals := 9; qa_tokenProgram := SPL_TOKEN |}.
Definition sample_open (status : ChainConfirmationStatus)
    (expected : option PaperCurrentQualificationIdentity) : OpenPaperPositionCommand :=
  {| oc_mint := "mint"; oc_quoteAsset := sol_asset;
     oc_strategy := {| strategy_id := CREATION_ENTRY; strategy_version := 1 |};
     oc_trigger := sample_trigger "evt_q" status; oc_qualification := sample_report;
     oc_buyQuote := sample_buy_quote; oc_reverseSellQuote := sample_sell_quote;
     oc_maximumRoundTripLossBps := 400; oc_strategySessionId := Some "session";
     oc_qualificationReportId := Some "report"; oc_candidateId := Some "candidate";
     oc_expectedCurrentQualification := expected; oc_entryDecisionAtMs := Some 960;
     oc_entryDecisionJobId := Some "job" |}.
Definition sample_config : PaperTradingConfig :=
  {| pc_paperMode := true; pc_paperQuoteMintAllowlist := [NATIVE_SOL_MINT];
     pc_dataRetentionHours := 4 |}.
Definition authorize (_ : QualificationReport) (_ _ : string) : bool := true.
Definition sample_start : paper_store := empty_store (sample_chain 2000).

Abbreviation sample_call k now t :=
  (@run_call text_digest paper_store postgres_transaction sample_config sample_profile authorize
     k now t).
Abbreviation sample_run calls :=
  (@run_calls text_digest paper_store postgres_transaction sample_config sample_profile authorize
     calls sample_start).
Abbreviation sample_opening := (CallOpen (sample_open processed (Some sample_identity))).

Definition opened_id : string :=
  match fst (sample_call sample_opening 2000 2000 sample_start) with
  | Ok p => pp_id p
  | Err _ => ""
  end.
Definition sample_close : ClosePaperPositionCommand :=
  {| cc_positionId := opened_id; cc_trigger := sample_trigger "evt_sell" confirmed;
     cc_sellQuote := sample_sell_quote; cc_reason := "TAKE_PROFIT"; cc_exitTriggerAtMs := Some 1000 |}.
Definition sample_calls : list (ledger_call * Z * Z) :=
  [(sample_opening, 2000, 2000); (sample_opening, 2500, 2500); (CallClose sample_close, 5000, 5000);
   (CallClose sample_close, 5500, 5500);
   (CallReconcileClose opened_id (sample_trigger "evt_sell" orphaned), 6000, 6000)].

Lemma sample_start_ok : rows_ok sample_start.
Proof. intros id row Hr. cbn in Hr. by rewrite lookup_empty in Hr. Qed.
Lemma sample_start_closed t : closed_before (readable sample_start) t.
Proof. intros id p c Hp. unfold readable in Hp. cbn in Hp. by rewrite omap_empty, lookup_empty in Hp. Qed.

(** The run buys, ignores the repeated purchase, sells, ignores the repeated sale, and
    retracts the position when the event that triggered the sale is orphaned. *)
Example sample_statuses :
  map (fun n => match st_positions (sample_run (take n sample_calls)) !! opened_id with
                | Some row => Some (row_status row)
                | None => None
                end) [0; 1; 2; 3; 4; 5]%nat
  = [None; Some PAPER_HOLDING; Some PAPER_HOLDING; Some PAPER_CLOSED; Some PAPER_CLOSED;
     Some PAPER_RETRACTED].
Proof. vm_compute. reflexivity. Qed.

(** * The ledger *)

Section Properties.
Context `{Sha256} {S : Type} `{!PaperTradingTransaction S} `{!PaperLedgerLaws S}.
Context (config : PaperTradingConfig) (profile : EffectiveQualificationProfile).
Context (isAuthorized : QualificationReport -> string -> string -> bool).

(** C1: refinement.  Every call of the engine ([open], [reconcileOpen], [retract],
    [reconcileClose], [close]), over any repository that keeps the laws of the port, is at
    most one step of the abstract ledger: it opens one new position where no position of
    that token and strategy is held, settles a held position by selling all of it, retracts
    a position that is not yet retracted, or changes nothing; and a call that throws leaves
    the store exactly as it was.  Positions never become unreadable. *)
Theorem engine_refines_ledger (k : ledger_call) (now t : Z) (s : S)
    (Hret : 0 <= retentionMs config) (Hnow : now <= t) (Hok : store_ok s)
    (Hclock : closed_before (positions s) t) :
  let after := run_call config profile isAuthorized k now t s in
  store_ok (snd after) /\ ledger_step t (positions s) (positions (snd after))
  /\ forall e, fst after = Err e -> snd after = s.
Proof.
  cbv zeta. destruct (run_call_refines config profile isAuthorized Hret k now t s) as [Ho Hs];
    [done..|]. split_and!; [done|done|].
  intros e He. destruct (run_call _ _ _ k now t s) as [r s'] eqn:Hr. cbn in He. subst r.
  by apply run_call_throw in Hr.
Qed.

(** C5: at most one open position per token and strategy.  However calls follow one
    another, failed ones included, while the clock does not run backwards, a ledger with at
    most one held position for each token and strategy keeps that property. *)
Theorem one_active_position (calls : list (ledger_call * Z * Z)) (t : Z) (s : S)
    (Hret : 0 <= retentionMs config) (Hclock : clock_forward t calls) (Hok : store_ok s)
    (Hc : closed_before (positions s) t) (Hone : one_active (positions s)) :
  one_active (positions (run_calls config profile isAuthorized calls s)).
Proof.
  apply (run_calls_invariant config profile isAuthorized Hret one_active) with t; try done.
  intros. by eapply ledger_step_one_active.
Qed.

(** C36: the books balance.  After any sequence of calls every position has a positive cost
    and quantity and an entry loss between 0 and 10000 basis points; before its sale it
    holds all it bought and shows no profit; after it holds nothing and its net profit is
    exactly the minimum sale proceeds less the cost, never above its gross profit. *)
Theorem books_balance (calls : list (ledger_call * Z * Z)) (t : Z) (s : S)
    (Hret : 0 <= retentionMs config) (Hclock : clock_forward t calls) (Hok : store_ok s)
    (Hc : closed_before (positions s) t) (Hb : all_balanced (positions s)) :
  all_balanced (positions (run_calls config profile isAuthorized calls s)).
Proof.
  apply (run_calls_invariant config profile isAuthorized Hret all_balanced) with t; try done.
  intros. by eapply ledger_step_balanced.
Qed.

(** C35: what it takes to open a position.  When [open] returns a position that was not
    recorded before, paper trading is enabled, the report was issued by the qualification
    authority for this token and event, the report is QUALIFIED without blocker, the
    triggering event is not orphaned, the quote currency is allowed, no position of the
    same token and strategy was held, a session's qualification was current in the same
    transaction, and the recorded cost, quantity and loss are those of the quotes with the
    loss within the command's ceiling. *)
Theorem open_only_admissible (c : OpenPaperPositionCommand) (now t : Z) (s s' : S)
    (p : PaperPosition)
    (Hr : open config profile isAuthorized c now t s = (Ok p, s')) (Hok : store_ok s)
    (Hnew : positions s !! pp_id p = None) :
  pc_paperMode config = true
  /\ isAuthorized (oc_qualification c) (oc_mint c) (ev_id (oc_trigger c)) = true
  /\ qr_verdict (oc_qualification c) = V_QUALIFIED /\ qr_blockers (oc_qualification c) = []
  /\ ev_confirmationStatus (oc_trigger c) <> orphaned /\ ev_mint (oc_trigger c) = oc_mint c
  /\ qa_mint (oc_quoteAsset c) ∈ pc_paperQuoteMintAllowlist config
  /\ (forall id q, positions s !! id = Some q -> ~ active_for (oc_mint c) (oc_strategy c) q)
  /\ (forall i, defined (oc_strategySessionId c) = true ->
        oc_expectedCurrentQualification c = Some i ->
        exists s1, requireCurrentQualification i s = (Ok tt, s1))
  /\ exists rt, calculateRoundTrip (oc_buyQuote c) (oc_reverseSellQuote c) = Ok rt
     /\ pp_status p = PAPER_HOLDING /\ pp_quoteCostRaw p = q_amountInRaw (oc_buyQuote c)
     /\ pp_baseFilledRaw p = q_minimumAmountOutRaw (oc_buyQuote c)
     /\ pp_roundTripLossBps p = rt_lossBps rt
     /\ pp_roundTripLossBps p <= oc_maximumRoundTripLossBps c.
Proof.
  unfold open, prepare_open in Hr. apply pbind_Ok in Hr as ([c' [[rt id] h]] & s1 & Hl & Hr).
  apply lift_Ok in Hl as [Hl ->]. rewrite transact_Ok in Hr. unfold requirePaperMode in Hl.
  result_inv. bool_prop.
  match goal with H : check_open _ _ _ _ = Ok _ |- _ => apply check_open_admitted in H as Had end.
  match goal with H : snapshotTrigger _ = Ok _ |- _ => apply snapshotTrigger_Ok in H as -> end.
  match goal with H : snapshotOpenCommand _ _ = Ok _ |- _ =>
    apply snapshotOpenCommand_of in H as Hsnap; [|done] end.
  pose proof (open_transaction_id config _ _ _ _ _ _ _ _ _ Hok Hr) as Hid. rewrite Hid in Hnew.
  destruct (open_transaction_opens config _ _ _ _ _ _ _ _ _ Hok Hnew Hr)
    as (Ho & (trade & ->) & Ha & Hq).
  destruct Hsnap as [E1 E2 E3 E4 (E5 & E6 & E7) (E8 & E9) E10].
  destruct Had as [[_ Hm] _ _ _ _ (Hv & Hb) Hal (Hrt & _ & _) (Hl & _) _ _].
  rewrite ?E1, ?E2, ?E3, ?E4, ?E5, ?E6, ?E7, ?E8, ?E9 in *.
  split_and!; try done.
  - intros i Hs Hi. by rewrite (E10 i Hs Hi) in Hq.
  - exists rt. pose proof (calculateRoundTrip_spec _ _ _ Hrt) as (_ & _ & _ & _ & _ & Hc & Hf & _).
    by split_and!.
Qed.

(** a sale is complete and exact.  When [close] returns on a held position, the sale
    quote spent exactly what was left of the position, from its token to its quote
    currency; the triggering event concerns the token and is not orphaned; the quote was
    not observed before the exit was triggered; and the recorded proceeds, net and gross
    profits are the quote's minimum output, that less the cost, and its expected output less
    the cost.  Nothing else in the ledger changes. *)
Theorem close_sells_out (c : ClosePaperPositionCommand) (now t : Z) (s s' : S)
    (p q : PaperPosition) (Hret : 0 <= retentionMs config)
    (Hr : close config c now t s = (Ok q, s')) (Hok : store_ok s)
    (Hp : positions s !! cc_positionId c = Some p) (Hst : pp_status p = PAPER_HOLDING) :
  q_inputMint (cc_sellQuote c) = pp_mint p
  /\ q_outputMint (cc_sellQuote c) = qa_mint (pp_quoteAsset p)
  /\ q_amountInRaw (cc_sellQuote c) = pp_remainingBaseRaw p
  /\ ev_confirmationStatus (cc_trigger c) <> orphaned /\ ev_mint (cc_trigger c) = pp_mint p
  /\ (forall at_ms, cc_exitTriggerAtMs c = Some at_ms -> at_ms <= q_observedAtMs (cc_sellQuote c))
  /\ pp_status q = PAPER_CLOSED /\ pp_remainingBaseRaw q = 0
  /\ pp_quoteProceedsRaw q = Some (q_minimumAmountOutRaw (cc_sellQuote c))
  /\ pp_netPnlQuoteRaw q = Some (q_minimumAmountOutRaw (cc_sellQuote c) - pp_quoteCostRaw p)
  /\ pp_grossPnlQuoteRaw q = Some (q_amountOutRaw (cc_sellQuote c) - pp_quoteCostRaw p)
  /\ pp_closedAtMs q = Some now /\ pp_purgeAfterMs q = Some (now + retentionMs config)
  /\ positions s' = <[cc_positionId c := q]> (positions s).
Proof.
  destruct (close_result config Hret c now t s p q s' Hr Hok Hp Hst)
    as (Hq & Hx & Hv & Hm & trade & event & h & ->).
  destruct (validateCloseCommand_sells _ _ _ Hq Hv) as [[] Ho].
  destruct (positions_read s _ p Hok Hp) as [_ Hid].
  assert (ev_mint (cc_trigger c) = pp_mint p) as Hmint.
  { unfold validateCloseCommand in Hv. apply bind_Ok in Hv as (? & _ & Hv).
    apply bind_Ok in Hv as (? & _ & Hv). result_inv. by bool_prop. }
  by split_and!.
Qed.
(** A position answers only to the command that opened it.  If a position was opened
    by one command and a later [open] of another returns that position as its own, then
    the two commands agree in token, currency, strategy, triggering event, both quotes,
    loss ceiling and session; the only other possibility is a collision of SHA-256.  The
    older form of the digest that is still accepted does not weaken this. *)
Theorem open_replay_same_command (c0 c : OpenPaperPositionCommand) (h0 : OpenCommandHashes)
    (now t : Z) (s s' : S) (p q : PaperPosition)
    (H0 : hashOpenCommand c0 = Ok h0) (Hp0 : pp_openCommandHash p = hash_current h0)
    (Hr : open config profile isAuthorized c now t s = (Ok q, s')) (Hok : store_ok s)
    (Hp : positions s !! pp_id q = Some p) :
  (exists c', snapshot_of c c' /\ same_command c0 c') \/ sha256_collision.
Proof.
  unfold open, prepare_open in Hr. apply pbind_Ok in Hr as ([c' [[rt id] h]] & s1 & Hl & Hr).
  apply lift_Ok in Hl as [Hl ->]. rewrite transact_Ok in Hr. result_inv.
  match goal with H : snapshotTrigger _ = Ok _ |- _ => apply snapshotTrigger_Ok in H as -> end.
  match goal with H : snapshotOpenCommand _ _ = Ok _ |- _ =>
    apply snapshotOpenCommand_of in H as Hsnap; [|done] end.
  match goal with H : check_open _ _ _ _ = Ok _ |- _ => apply check_open_admitted in H as [] end.
  rewrite (open_transaction_id config _ _ _ _ _ _ _ _ _ Hok Hr) in Hp.
  pose proof (open_transaction_replays config _ _ _ _ _ _ _ _ _ _ Hok Hp Hr) as Hm.
  destruct (matching_hash_same_command _ _ _ _ _ H0 ad_hashes Hp0 Hm) as [[Hsame _]|]; eauto.
Qed.

(** C40: [reconcileOpen] cannot serve a strategy session that does not repeat its
    expected current qualification: whatever the store holds and whatever the triggering
    event became, the call throws and changes nothing.  Both strategies' reconciliation of
    their source event makes exactly this call, so an orphaned source is never retracted
    through it. *)
Theorem reconcileOpen_session_needs_qualification (c : OpenPaperPositionCommand) (now t : Z) (s : S)
    (Hs : defined (oc_strategySessionId c) = true)
    (He : oc_expectedCurrentQualification c = None) :
  exists e, reconcileOpen config profile c now t s = (Err e, s).
Proof.
  destruct (reconcileOpen config profile c now t s) as [[q|e] s'] eqn:Hr.
  - exfalso. unfold reconcileOpen in Hr. prog_inv Hr. destruct a2 as [[rt id] h].
    unfold snapshotOpenCommand in Ha1. cbv zeta in Ha1. result_inv. rewrite Hs, He in Ha2.
    apply check_open_expects in Ha2 as [Hm Hne]; [|done]. cbn in Hm, Hne. congruence.
  - exists e. f_equal.
    by apply (run_call_throw config profile (fun _ _ _ => true) (CallReconcileOpen c) now t s e s').
Qed.
End Properties.

(** * Retention in the database *)

(** What happens to the tables: a call of the engine, at its two readings of the clock, or
    the retention purge, at its own. *)
Inductive ledger_event :=
| EngineCall (k : ledger_call) (now terminal : Z)
| RetentionPurge (now : Z).

Section History.
Context `{Sha256} (config : PaperTradingConfig) (profile : EffectiveQualificationProfile).
Context (isAuthorized : QualificationReport -> string -> string -> bool).

Fixpoint run_history (events : list ledger_event) (s : paper_store) : paper_store :=
  match events with
  | [] => s
  | EngineCall k now terminal :: events =>
      run_history events (snd (run_call config profile isAuthorized k now terminal s))
  | RetentionPurge now :: events => run_history events (purge_paper now s)
  end.
(** The clock never runs backwards. *)
Fixpoint history_forward (t : Z) (events : list ledger_event) : Prop :=
  match events with
  | [] => True
  | EngineCall _ now terminal :: events => t <= now <= terminal /\ history_forward terminal events
  | RetentionPurge now :: events => t <= now /\ history_forward now events
  end.

(** C37: history is never rewritten.  After any sequence of engine calls and retention
    purges a position that was recorded is still there with its identity, cost, quantity and
    opening command; its status only moves forward from held to closed to retracted; and
    once it is no longer held its proceeds, profit, exit trade and closing command never
    change.  The only way out is a retention purge that ran after the position had ended
    and its purge date had passed; a held position is never purged. *)
Theorem position_history_kept (events : list ledger_event) (t : Z) (s : paper_store)
    (id : string) (p : PaperPosition)
    (Hret : 0 <= retentionMs config) (Hclock : history_forward t events) (Hok : rows_ok s)
    (Hc : closed_before (readable s) t) (Hp : readable s !! id = Some p) :
  (exists p', readable (run_history events s) !! id = Some p' /\ evolves p p')
  \/ exists before now after p', events = before ++ RetentionPurge now :: after
     /\ readable (run_history before s) !! id = Some p' /\ evolves p p'
     /\ pp_status p' <> PAPER_HOLDING
     /\ exists closed u, pp_closedAtMs p' = Some closed /\ pp_purgeAfterMs p' = Some u
        /\ closed <= u <= now.
Proof.
  revert t s p Hclock Hok Hc Hp. induction events as [|[k now term|now] events IH];
    intros t s p Hclock Hok Hc Hp; cbn [run_history history_forward] in *.
  - left. exists p. split; [done|apply evolves_refl].
  - destruct Hclock as [Ht Hf].
    assert (closed_before (positions s) term) as Hc' by (eapply closed_before_le; [|exact Hc]; lia).
    destruct (run_call_refines config profile isAuthorized Hret k now term s) as [Hok' Hstep];
      [lia|done|done|].
    destruct (ledger_step_evolves _ _ _ _ _ Hstep Hp) as (p1 & Hp1 & He1).
    destruct (IH term _ p1 Hf Hok' (ledger_step_closed _ _ _ Hstep Hc') Hp1)
      as [(p' & Hp' & He)|(before & at_ms & after & p' & -> & Hp' & He & Hend)].
    + left. exists p'. split; [done|]. by eapply evolves_trans.
    + right. exists (EngineCall k now term :: before), at_ms, after, p'.
      split; [done|]. split; [done|]. split; [by eapply evolves_trans|done].
  - destruct Hclock as [Ht Hf]. destruct (purge_keeps now s id p Hok Hp) as [Hp1|Hend].
    + assert (closed_before (readable (purge_paper now s)) now) as Hc'.
      { intros i q c Hq Hqc. apply purge_readable in Hq. specialize (Hc _ _ _ Hq Hqc). lia. }
      destruct (IH now _ p Hf (purge_rows_ok now s Hok) Hc' Hp1)
        as [H1|(before & at_ms & after & p' & -> & H1)]; [by left|].
      right. by exists (RetentionPurge now :: before), at_ms, after, p'.
    + right. exists [], now, events, p. split; [done|]. split; [done|]. split; [apply evolves_refl|done].
Qed.
End History.

(** * Retries against the database *)

(** Whether the tables still show the qualification a session's command was made on. *)
Definition still_current (chain : chain_tables) (c : OpenPaperPositionCommand) : bool :=
  match oc_strategySessionId c, oc_expectedCurrentQualification c with
  | Some _, Some i => qualification_current chain i
  | _, _ => true
  end.

(** What a command expects, once it passed the checks. *)
Lemma checked_expectation `{Sha256} (config : PaperTradingConfig)
    (profile : EffectiveQualificationProfile) c tr c' now rt id h chain :
  snapshotOpenCommand c tr = Ok c' -> check_open config profile c' now = Ok (rt, id, h) ->
  match oc_expectedCurrentQualification c' with
  | Some i => qualification_current chain i = still_current chain c
  | None => still_current chain c = true
  end.
Proof.
  intros Hs Hc. unfold still_current. pose proof (check_open_expects _ _ _ _ _ _ _ Hc) as Hx.
  unfold snapshotOpenCommand in Hs. cbv zeta in Hs. result_inv. cbn in *.
  destruct (oc_strategySessionId c); cbn in *; [|done].
  destruct (oc_expectedCurrentQualification c) as [[]|]; [done|].
  destruct (Hx eq_refl) as [[= Hm] Hne]. congruence.
Qed.

(** The same, as what the tables say. *)
Definition session_current (chain : chain_tables) (c : OpenPaperPositionCommand) : Prop :=
  match oc_strategySessionId c, oc_expectedCurrentQualification c with
  | Some _, Some i => exists report event source raw, is_current chain i report event source raw
  | _, _ => True
  end.
Lemma still_current_iff chain c : still_current chain c = true <-> session_current chain c.
Proof.
  unfold still_current, session_current. destruct (oc_strategySessionId c); [|done].
  destruct (oc_expectedCurrentQualification c); [|done]. apply qualification_current_iff.
Qed.
(** What a repeated opening does. *)
Lemma open_retry `{Sha256} (config : PaperTradingConfig)
    (profile : EffectiveQualificationProfile)
    (isAuthorized : QualificationReport -> string -> string -> bool)
    (c : OpenPaperPositionCommand) (now t now' t' : Z) (s s' : paper_store) (p : PaperPosition)
    (chain : chain_tables)
    (Hok : rows_ok s) (Hr : open config profile isAuthorized c now t s = (Ok p, s'))
    (Hnew : st_positions s !! pp_id p = None) (Hid : ev_id (oc_trigger c) <> "")
    (Hev : forall e, paperEventId "PaperPositionOpened" (pp_id p) (pp_entryTradeId p)
                       (ev_id (oc_trigger c)) = Ok e -> st_events s !! e = None)
    (Hlater : now <= now' <= MAX_SAFE_INTEGER) :
  open config profile isAuthorized c now' t' (with_chain chain s')
  = (if still_current chain c then Ok p else Err (PaperTradingError QUALIFICATION_NOT_CURRENT ""),
     with_chain chain s').
Proof.
  unfold open in Hr |- *. apply pbind_Ok in Hr as ([c' [[rt id] h]] & s1 & Hl & Hr).
  apply lift_Ok in Hl as [Hl ->]. rewrite transact_Ok in Hr.
  rewrite (pbind_run _ _ (with_chain chain s') (c', (rt, id, h)) (with_chain chain s')).
  2:{ unfold lift. by rewrite (prepare_open_later _ _ _ _ _ _ _ Hl Hlater). }
  unfold prepare_open in Hl. result_inv.
  match goal with H : snapshotTrigger _ = Ok _ |- _ => apply snapshotTrigger_Ok in H as -> end.
  match goal with H : snapshotOpenCommand _ _ = Ok _, H' : check_open _ _ _ _ = Ok _ |- _ =>
    pose proof (checked_expectation _ _ _ _ _ _ _ _ _ chain H H') as Hexp;
    apply snapshotOpenCommand_of in H as Hsnap; [|done] end.
  destruct (still_current chain c) eqn:Hcur.
  2:{ destruct (oc_expectedCurrentQualification c') as [i|] eqn:Hi; [|done]. unfold transact.
      by rewrite (open_transaction_stale _ _ _ _ _ _ _ _ i) by done. }
  rewrite transact_Ok.
  match goal with H : check_open _ _ _ _ = Ok _ |- _ => apply check_open_admitted in H as Had end.
  match goal with H : assertValidTimestampMs _ _ = Ok _ |- _ =>
    apply assertValidTimestampMs_safe in H as Hnow end.
  pose proof (open_transaction_id config _ _ _ _ _ _ _ _ _ Hok Hr) as Hpid. rewrite Hpid in Hnew, Hev.
  destruct Hsnap as [_ _ _ E _ _ _]. rewrite <- E in Hid, Hev.
  apply (open_transaction_again config s c' rt id h now now' t t'); try done.
  - cbn. unfold readable. by rewrite lookup_omap, Hnew.
  - pose proof (ad_id _ _ _ _ _ Had) as Hx. by eapply (hashId_filled "paper_position").
  - pose proof (ad_hashes _ _ _ _ _ Had) as Hx. unfold hashOpenCommand in Hx. result_inv.
    by eapply (hashValue_filled "paper_open_command").
  - intros i Hi. by rewrite Hi in Hexp.
Qed.

(** C38: opening is safe to retry.  Once [open] has recorded a new position in the database,
    repeating the same command later leaves every table exactly as it was: no second
    position, trade or event, and the first opening time is kept.  This holds whatever
    happened meanwhile to the qualification reports, their events, the inbox and the
    database clock.  The retry returns the same position exactly when it belongs to no
    session or the session's qualification is still current: not superseded, not past its
    retention at the clock of the database, not orphaned and its source fully replayed.
    Otherwise it is refused with QUALIFICATION_NOT_CURRENT. *)
Theorem open_retry_idempotent `{Sha256} (config : PaperTradingConfig)
    (profile : EffectiveQualificationProfile)
    (isAuthorized : QualificationReport -> string -> string -> bool)
    (c : OpenPaperPositionCommand) (now t now' t' : Z) (s s' : paper_store) (p : PaperPosition)
    (chain : chain_tables)
    (Hok : rows_ok s) (Hr : open config profile isAuthorized c now t s = (Ok p, s'))
    (Hnew : st_positions s !! pp_id p = None) (Hid : ev_id (oc_trigger c) <> "")
    (Hev : forall e, paperEventId "PaperPositionOpened" (pp_id p) (pp_entryTradeId p)
                       (ev_id (oc_trigger c)) = Ok e -> st_events s !! e = None)
    (Hlater : now <= now' <= MAX_SAFE_INTEGER) :
  let retry := open config profile isAuthorized c now' t' (with_chain chain s') in
  snd retry = with_chain chain s'
  /\ (fst retry = Ok p <-> session_current chain c)
  /\ (~ session_current chain c -> fst retry = Err (PaperTradingError QUALIFICATION_NOT_CURRENT "")).
Proof.
  intros retry. unfold retry.
  rewrite (open_retry config profile isAuthorized c now t now' t' s s' p chain) by done.
  rewrite <- still_current_iff. cbn [fst snd]. destruct (still_current chain c); split_and!; naive_solver.
Qed.

(** * Witnesses *)

Lemma sample_one_active : one_active (positions sample_start).
Proof. intros id id' p p' Hp. cbn in Hp. unfold readable in Hp. cbn in Hp. by rewrite omap_empty, lookup_empty in Hp. Qed.
Lemma sample_balanced : all_balanced (positions sample_start).
Proof. intros id p Hp. cbn in Hp. unfold readable in Hp. cbn in Hp. by rewrite omap_empty, lookup_empty in Hp. Qed.
Lemma sample_clock : clock_forward 0 sample_calls.
Proof. cbn. lia. Qed.
Lemma sample_retention : 0 <= retentionMs sample_config.
Proof. vm_compute. discriminate. Qed.

Lemma engine_refines_ledger_witness :
  let after := sample_call sample_opening 2000 2000 sample_start in
  store_ok (snd after) /\ ledger_step 2000 (positions sample_start) (positions (snd after))
  /\ forall e, fst after = Err e -> snd after = sample_start.
Proof.
  exact (@engine_refines_ledger text_digest paper_store postgres_transaction postgres_laws
           sample_config sample_profile authorize sample_opening 2000 2000 sample_start
           sample_retention (Z.le_refl 2000) sample_start_ok (sample_start_closed 2000)).
Defined.

Lemma one_active_position_witness : one_active (positions (sample_run sample_calls)).
Proof.
  exact (@one_active_position text_digest paper_store postgres_transaction postgres_laws
           sample_config sample_profile authorize sample_calls 0 sample_start
           sample_retention sample_clock sample_start_ok (sample_start_closed 0) sample_one_active).
Defined.

Lemma books_balance_witness : all_balanced (positions (sample_run sample_calls)).
Proof.
  exact (@books_balance text_digest paper_store postgres_transaction postgres_laws
           sample_config sample_profile authorize sample_calls 0 sample_start
           sample_retention sample_clock sample_start_ok (sample_start_closed 0) sample_balanced).
Defined.

(** The store after the purchase, and the position it holds. *)
Definition opened_store : paper_store := snd (sample_call sample_opening 2000 2000 sample_start).
Definition opened_position : PaperPosition :=
  match fst (sample_call sample_opening 2000 2000 sample_start) with
  | Ok p => p
  | Err _ => sample_position
  end.

Lemma opening_runs :
  sample_call sample_opening 2000 2000 sample_start = (Ok opened_position, opened_store).
Proof.
  assert (fst (sample_call sample_opening 2000 2000 sample_start) = Ok opened_position) as E
    by (vm_compute; reflexivity).
  unfold opened_store. destruct (sample_call _ _ _ _) as [r s]. cbn in E |- *. by subst r.
Qed.
Lemma opened_store_ok : store_ok opened_store.
Proof.
  apply (run_call_refines (H:=text_digest) sample_config sample_profile authorize sample_retention
           sample_opening 2000 2000 sample_start);
    [lia | exact sample_start_ok | apply sample_start_closed].
Qed.
Lemma opened_store_position : positions opened_store !! opened_id = Some opened_position.
Proof. vm_compute. reflexivity. Qed.
Lemma opened_store_closed : closed_before (positions opened_store) 2000.
Proof.
  apply (ledger_step_closed 2000 (positions sample_start)); [|apply sample_start_closed].
  apply (run_call_refines (H:=text_digest) sample_config sample_profile authorize sample_retention
           sample_opening 2000 2000 sample_start);
    [lia | exact sample_start_ok | apply sample_start_closed].
Qed.

(** The sale, its repetition, a purge before the end of the retention and the retraction. *)
Definition later_events : list ledger_event :=
  [EngineCall sample_opening 2500 2500; EngineCall (CallClose sample_close) 5000 5000;
   RetentionPurge 5100; EngineCall (CallReconcileClose opened_id (sample_trigger "evt_sell" orphaned)) 6000 6000].
Lemma later_events_forward : history_forward 2000 later_events.
Proof. cbn. lia. Qed.
Example later_statuses :
  map (fun events => row_status <$> st_positions (@run_history text_digest sample_config sample_profile
         authorize events opened_store) !! opened_id)
    [later_events; later_events ++ [RetentionPurge 14405999]; later_events ++ [RetentionPurge 14406000]]
  = [Some PAPER_RETRACTED; Some PAPER_RETRACTED; None].
Proof. vm_compute. reflexivity. Qed.

Lemma position_history_kept_witness :
  (exists p', readable (@run_history text_digest sample_config sample_profile authorize later_events
                          opened_store) !! opened_id = Some p' /\ evolves opened_position p')
  \/ exists before now after p', later_events = before ++ RetentionPurge now :: after
     /\ readable (@run_history text_digest sample_config sample_profile authorize before opened_store)
          !! opened_id = Some p' /\ evolves opened_position p'
     /\ pp_status p' <> PAPER_HOLDING
     /\ exists closed u, pp_closedAtMs p' = Some closed /\ pp_purgeAfterMs p' = Some u
        /\ closed <= u <= now.
Proof.
  exact (@position_history_kept text_digest sample_config sample_profile authorize later_events 2000
           opened_store opened_id opened_position sample_retention later_events_forward
           opened_store_ok opened_store_closed opened_store_position).
Defined.

Lemma nothing_before (id : string) : positions sample_start !! id = None.
Proof. cbn. unfold readable. cbn. by rewrite omap_empty, lookup_empty. Qed.

Lemma open_only_admissible_witness :
  pp_roundTripLossBps opened_position <= 400 /\ pp_quoteCostRaw opened_position = 1000000.
Proof.
  destruct (@open_only_admissible text_digest paper_store postgres_transaction postgres_laws
              sample_config sample_profile authorize
              (sample_open processed (Some sample_identity)) 2000 2000 sample_start opened_store
              opened_position opening_runs sample_start_ok (nothing_before _))
    as (_ & _ & _ & _ & _ & _ & _ & _ & _ & rt & _ & _ & Hc & _ & _ & Hl).
  exact (conj Hl Hc).
Defined.

Definition closed_store : paper_store :=
  snd (sample_call (CallClose sample_close) 5000 5000 opened_store).
Definition closed_position : PaperPosition :=
  match fst (sample_call (CallClose sample_close) 5000 5000 opened_store) with
  | Ok p => p
  | Err _ => sample_position
  end.
Lemma closing_runs :
  sample_call (CallClose sample_close) 5000 5000 opened_store = (Ok closed_position, closed_store).
Proof.
  assert (fst (sample_call (CallClose sample_close) 5000 5000 opened_store) = Ok closed_position) as E
    by (vm_compute; reflexivity).
  unfold closed_store. destruct (sample_call _ _ _ _) as [r s]. cbn in E |- *. by subst r.
Qed.
Lemma opened_position_held : pp_status opened_position = PAPER_HOLDING.
Proof. vm_compute. reflexivity. Qed.

Lemma close_sells_out_witness :
  pp_netPnlQuoteRaw closed_position = Some (970000 - pp_quoteCostRaw opened_position).
Proof.
  exact (proj1 (proj2 (proj2 (proj2 (proj2 (proj2 (proj2 (proj2 (proj2 (proj2
    (@close_sells_out text_digest paper_store postgres_transaction postgres_laws sample_config
       sample_close 5000 5000 opened_store closed_store opened_position
       closed_position sample_retention closing_runs opened_store_ok opened_store_position
       opened_position_held))))))))))).
Defined.

Lemma sample_events_empty (e : string) : st_events sample_start !! e = None.
Proof. apply lookup_empty. Qed.
Lemma sample_positions_empty (id : string) : st_positions sample_start !! id = None.
Proof. apply lookup_empty. Qed.
Lemma sample_later : 2000 <= 2500 <= MAX_SAFE_INTEGER.
Proof. unfold MAX_SAFE_INTEGER. lia. Qed.

Lemma open_retry_idempotent_witness :
  let retry chain := @open text_digest paper_store postgres_transaction sample_config sample_profile
    authorize (sample_open processed (Some sample_identity)) 2500 2500 (with_chain chain opened_store) in
  fst (retry (sample_chain 2500)) = Ok opened_position
  /\ snd (retry (sample_chain 2500)) = with_chain (sample_chain 2500) opened_store
  /\ fst (retry (sample_chain 14400900)) = Err (PaperTradingError QUALIFICATION_NOT_CURRENT "").
Proof.
  intros retry. unfold retry.
  destruct (@open_retry_idempotent text_digest sample_config sample_profile authorize
             (sample_open processed (Some sample_identity)) 2000 2000 2500 2500 sample_start
             opened_store opened_position (sample_chain 2500) sample_start_ok opening_runs
             (sample_positions_empty _) ltac:(discriminate) (fun e _ => sample_events_empty e) sample_later)
    as (Hsnd & Hok & _).
  split; [|split; [exact Hsnd|]].
  - apply Hok, still_current_iff. vm_compute. reflexivity.
  - refine (proj2 (proj2 (@open_retry_idempotent text_digest sample_config sample_profile authorize
             (sample_open processed (Some sample_identity)) 2000 2000 2500 2500 sample_start
             opened_store opened_position (sample_chain 14400900) sample_start_ok opening_runs
             (sample_positions_empty _) ltac:(discriminate) (fun e _ => sample_events_empty e) sample_later)) _).
    rewrite <- still_current_iff. vm_compute. discriminate.
Defined.

Lemma reconcileOpen_session_needs_qualification_witness :
  exists e, @reconcileOpen text_digest paper_store postgres_transaction sample_config sample_profile
              (sample_open orphaned None) 3000 3000 opened_store = (Err e, opened_store).
Proof.
  exact (@reconcileOpen_session_needs_qualification text_digest paper_store postgres_transaction
           sample_config sample_profile (sample_open orphaned None) 3000 3000 opened_store
           eq_refl eq_refl).
Defined.

Definition sample_snapshot : OpenPaperPositionCommand :=
  match snapshotOpenCommand (sample_open processed (Some sample_identity))
          (sample_trigger "evt_q" processed) with
  | Ok c => c
  | Err _ => sample_open processed None
  end.
Definition sample_hashes : OpenCommandHashes :=
  match @hashOpenCommand text_digest sample_snapshot with
  | Ok h => h
  | Err _ => {| hash_current := ""; hash_legacy := "" |}
  end.
Lemma sample_hashes_ok : @hashOpenCommand text_digest sample_snapshot = Ok sample_hashes.
Proof. vm_compute. reflexivity. Qed.
Lemma opened_position_hash : pp_openCommandHash opened_position = hash_current sample_hashes.
Proof. vm_compute. reflexivity. Qed.
Lemma reopening_runs :
  exists s', @open text_digest paper_store postgres_transaction sample_config sample_profile authorize
               (sample_open confirmed (Some sample_identity)) 2500 2500 opened_store
             = (Ok opened_position, s').
Proof.
  eexists. rewrite (surjective_pairing (open _ _ _ _ _ _ _)). apply (f_equal2 pair); [|reflexivity].
  vm_compute. reflexivity.
Qed.

Lemma open_replay_same_command_witness :
  (exists c', snapshot_of (sample_open confirmed (Some sample_identity)) c'
              /\ same_command sample_snapshot c') \/ @sha256_collision text_digest.
Proof.
  destruct reopening_runs as [s' Hr].
  exact (@open_replay_same_command text_digest paper_store postgres_transaction postgres_laws
           sample_config sample_profile authorize sample_snapshot
           (sample_open confirmed (Some sample_identity)) sample_hashes 2500 2500 opened_store s'
           opened_position opened_position sample_hashes_ok opened_position_hash Hr opened_store_ok
           opened_store_position).
Defined.
