(* ===== verification/JitoConfig.v ===== *)
(** The staking bot's data types ([src/src/jitosol/types.ts]) and its pure
    decision arithmetic ([src/src/jitosol/config.ts]): amounts as decimal strings,
    the redemption value of the bought units, the economic floor and the
    admission of a market observation.

    Numbers that come from the gateway are carried by [Z]: a number that is not
    integral fails [Number.isSafeInteger], as one outside the safe range does.
    A thrown error is carried by its message. *)
From S2P Require Import Prelude Text Types Json.
From Stdlib Require Import Ascii String.
Local Open Scope string_scope.
Local Open Scope list_scope.
Local Open Scope Z_scope.

(** * Types *)

(** src/src/jitosol/types.ts:3-3 (ActionKind) *)
Inductive ActionKind := Buy | Withdraw | Deactivate | Claim.
Global Instance ActionKind_eq_dec : EqDecision ActionKind.
Proof. solve_decision. Defined.

(** src/src/jitosol/types.ts:5-26 (JitoBotConfig) *)
Record JitoBotConfig := {
  cfg_version : Z;
  cfg_enabled : bool;
  cfg_walletAddress : string;
  cfg_stakePoolAddress : string;
  cfg_jitoMintAddress : string;
  cfg_inputLamports : string;
  cfg_minProfitLamports : string;
  cfg_networkBudgetLamports : string;
  cfg_reserveLamports : string;
  cfg_carryAnnualBps : Z;
  cfg_carryHours : Z;
  cfg_confirmationDelayMs : Z;
  cfg_maxConfirmationGapMs : Z;
  cfg_maxObservationAgeMs : Z;
  cfg_maxSourceSlotLag : Z;
  cfg_maxPoolQuoteSlotGap : Z;
  cfg_maxCycles : Z;
  cfg_maxTotalFeesLamports : string;
  cfg_maxRealizedLossLamports : string;
  cfg_stopFile : string;
}.

(** src/src/jitosol/types.ts:30-41 (Observation.quote).  The opaque provider
    payload [raw] is carried as text. *)
Record ObservedQuote := {
  q_id : string;
  q_receivedAtMs : Z;
  q_contextSlot : Z;
  q_routeSlot : Z;
  q_inputMint : string;
  q_outputMint : string;
  q_inputLamports : string;
  q_minJitoOutUnits : string;
  q_raw : string;
}.
(** src/src/jitosol/types.ts:42-52 (Observation.pool) *)
Record ObservedPool := {
  pl_address : string;
  pl_mint : string;
  pl_contextSlot : Z;
  pl_currentEpoch : Z;
  pl_lastUpdateEpoch : Z;
  pl_totalLamports : string;
  pl_tokenSupply : string;
  pl_withdrawalFeeNumerator : string;
  pl_withdrawalFeeDenominator : string;
}.
(** src/src/jitosol/types.ts:53-61 (Observation.withdrawal) *)
Record ObservedWithdrawal := {
  wd_available : bool;
  wd_checkedAtMs : Z;
  wd_minimumDelegationLamports : string;
  wd_stakeRentLamports : string;
  wd_tokenAccountRentLamports : string;
  wd_sourceStakeAddress : option string;
  wd_reason : option string;
}.
(** src/src/jitosol/types.ts:28-63 (Observation) *)
Record Observation := {
  ob_observedAtMs : Z;
  ob_quote : ObservedQuote;
  ob_pool : ObservedPool;
  ob_withdrawal : ObservedWithdrawal;
  ob_walletAddress : string;
  ob_solLamports : string;
  ob_jitoUnits : string;
}.

(** * Amounts *)

(** src/src/jitosol/config.ts:6-8 (JITO_MINT, JITO_STAKE_POOL, SOL_MINT) *)
Definition JITO_MINT : string := "J1toso1uCk3RLmjorhTtrVwY9HJ7X8V9yYac6Y7kGCPn".
Definition JITO_STAKE_POOL : string := "Jito4APyf642JPZPx3hGc6WWJ8zPKtRbRs4P815Awbb".
Definition SOL_MINT : string := "So11111111111111111111111111111111111111112".

(** src/src/jitosol/config.ts:11-16 (amount) *)
Definition amount (value : string) : result string Z :=
  match unsigned_decimal value with
  | None => Err "Amount must be an unsigned decimal integer string"
  | Some r => if U64_MAX <? r then Err "Amount exceeds u64" else Ok r
  end.

(** src/src/jitosol/config.ts:18-20 (integerAmount) *)
Definition integerAmount (value : string) : bool := is_ok (amount value).

(** * Configuration *)

(** [integerAmount.refine((v) => amount(v) >= n)] *)
Definition amount_at_least (n : Z) (value : string) : bool :=
  match amount value with
  | Ok a => n <=? a
  | Err _ => false
  end.
Definition between (lo hi z : Z) : bool := (lo <=? z) && (z <=? hi).

Section Schema.
(** [new PublicKey(value).toBase58() === value], a function of the Solana library. *)
Context (canonical_address : string -> bool).

(** src/src/jitosol/config.ts:26-54 (schema, parseJitoBotConfig): the schema on a
    value whose fields are all present, which is what the engine passes. *)
Definition config_accepted (c : JitoBotConfig) : bool :=
  (cfg_version c =? 1) &&
  (is_empty (cfg_walletAddress c) || canonical_address (cfg_walletAddress c)) &&
  bool_decide (cfg_stakePoolAddress c = JITO_STAKE_POOL) &&
  bool_decide (cfg_jitoMintAddress c = JITO_MINT) &&
  bool_decide (cfg_inputLamports c = "3000000000") &&
  amount_at_least 9000000 (cfg_minProfitLamports c) &&
  amount_at_least 1000000 (cfg_networkBudgetLamports c) &&
  amount_at_least 20000000 (cfg_reserveLamports c) &&
  between 650 10000 (cfg_carryAnnualBps c) &&
  between 72 8760 (cfg_carryHours c) &&
  between 10000 300000 (cfg_confirmationDelayMs c) &&
  between 10000 600000 (cfg_maxConfirmationGapMs c) &&
  between 1 30000 (cfg_maxObservationAgeMs c) &&
  between 0 150 (cfg_maxSourceSlotLag c) &&
  between 0 150 (cfg_maxPoolQuoteSlotGap c) &&
  between 1 100 (cfg_maxCycles c) &&
  integerAmount (cfg_maxTotalFeesLamports c) &&
  integerAmount (cfg_maxRealizedLossLamports c) &&
  negb (is_empty (cfg_stopFile c)) &&
  negb (cfg_enabled c && is_empty (cfg_walletAddress c)) &&
  negb (cfg_maxConfirmationGapMs c <? cfg_confirmationDelayMs c).
Definition parseJitoBotConfig (c : JitoBotConfig) : result string JitoBotConfig :=
  if config_accepted c then Ok c else Err "invalid configuration".
End Schema.

(** src/src/jitosol/config.ts:56-59 (configFingerprint): the entries but [enabled],
    in the order of their names. *)
Definition config_identity (c : JitoBotConfig) : json :=
  JsonObj
    [("carryAnnualBps", JsonInt (cfg_carryAnnualBps c));
     ("carryHours", JsonInt (cfg_carryHours c));
     ("confirmationDelayMs", JsonInt (cfg_confirmationDelayMs c));
     ("inputLamports", JsonStr (cfg_inputLamports c));
     ("jitoMintAddress", JsonStr (cfg_jitoMintAddress c));
     ("maxConfirmationGapMs", JsonInt (cfg_maxConfirmationGapMs c));
     ("maxCycles", JsonInt (cfg_maxCycles c));
     ("maxObservationAgeMs", JsonInt (cfg_maxObservationAgeMs c));
     ("maxPoolQuoteSlotGap", JsonInt (cfg_maxPoolQuoteSlotGap c));
     ("maxRealizedLossLamports", JsonStr (cfg_maxRealizedLossLamports c));
     ("maxSourceSlotLag", JsonInt (cfg_maxSourceSlotLag c));
     ("maxTotalFeesLamports", JsonStr (cfg_maxTotalFeesLamports c));
     ("minProfitLamports", JsonStr (cfg_minProfitLamports c));
     ("networkBudgetLamports", JsonStr (cfg_networkBudgetLamports c));
     ("reserveLamports", JsonStr (cfg_reserveLamports c));
     ("stakePoolAddress", JsonStr (cfg_stakePoolAddress c));
     ("stopFile", JsonStr (cfg_stopFile c));
     ("version", JsonInt (cfg_version c));
     ("walletAddress", JsonStr (cfg_walletAddress c))].
Definition configFingerprint `{Sha256} (c : JitoBotConfig) : string :=
  sha256_hex (stringify (config_identity c)).

(** * Redemption arithmetic *)

(** src/src/jitosol/config.ts:61-64 (ceilDiv) *)
Definition ceilDiv (numerator denominator : Z) : result string Z :=
  if (numerator <? 0) || (denominator <=? 0) then Err "Invalid integer division"
  else Ok (Z.quot (numerator + denominator - 1) denominator).

(** src/src/jitosol/config.ts:66-75 (redemptionLamports) *)
Definition redemptionLamports (tokenUnits feeNumerator feeDenominator totalLamports
    tokenSupply : string) : result string Z :=
  units ← amount tokenUnits;
  numerator ← amount feeNumerator;
  denominator ← amount feeDenominator;
  supply ← amount tokenSupply;
  throw_if ((supply =? 0) || (negb (denominator =? 0) && (denominator <? numerator)))
    "Invalid pool fee or supply" ;;
  fee ← (if denominator =? 0 then Ok 0 else ceilDiv (units * numerator) denominator);
  total ← amount totalLamports;
  Ok (Z.quot ((units - fee) * total) supply).

(** src/src/jitosol/config.ts:77-81 (requiredRedemptionLamports) *)
Definition requiredRedemptionLamports (c : JitoBotConfig) : result string Z :=
  input ← amount (cfg_inputLamports c);
  carry ← ceilDiv (input * cfg_carryAnnualBps c * cfg_carryHours c) (10000 * 365 * 24);
  budget ← amount (cfg_networkBudgetLamports c);
  profit ← amount (cfg_minProfitLamports c);
  Ok (input + budget + profit + carry).

(** src/src/jitosol/config.ts:83-83 (ObservationDecision) *)
Record ObservationDecision := {
  od_eligible : bool;
  od_reason : string;
  od_minimumRedemptionLamports : option string;
  od_requiredRedemptionLamports : option string;
}.
Definition ineligible (reason : string) : ObservationDecision :=
  {| od_eligible := false; od_reason := reason;
     od_minimumRedemptionLamports := None; od_requiredRedemptionLamports := None |}.

(** src/src/jitosol/config.ts:88-88 (fresh) *)
Definition fresh (c : JitoBotConfig) (now timestamp : Z) : bool :=
  is_safe_integer timestamp && (timestamp <=? now) &&
  (now - timestamp <=? cfg_maxObservationAgeMs c).

(** src/src/jitosol/config.ts:96-105 (evaluateObservation): the part that reads
    amounts, any of which may throw. *)
Definition evaluate_amounts (o : Observation) (c : JitoBotConfig)
    : result string ObservationDecision :=
  let quote := ob_quote o in let pool := ob_pool o in let withdrawal := ob_withdrawal o in
  _ ← amount (ob_jitoUnits o);
  stakeRent ← amount (wd_stakeRentLamports withdrawal);
  tokenRent ← amount (wd_tokenAccountRentLamports withdrawal);
  budget ← amount (cfg_networkBudgetLamports c);
  configured ← amount (cfg_reserveLamports c);
  let reserves := stakeRent + tokenRent + budget in
  let reserve := if configured <? reserves then reserves else configured in
  sol ← amount (ob_solLamports o);
  input ← amount (cfg_inputLamports c);
  if sol <? input + reserve then Ok (ineligible "insufficient liquid balance and reserve") else
  minimumDelegation ← amount (wd_minimumDelegationLamports withdrawal);
  invalid ← (if minimumDelegation =? 0 then Ok true else
             minOut ← amount (q_minJitoOutUnits quote);
             if minOut =? 0 then Ok true else
             total ← amount (pl_totalLamports pool);
             Ok (total =? 0));
  if invalid : bool then Ok (ineligible "invalid withdrawal minimum or pool balance") else
  redemption ← redemptionLamports (q_minJitoOutUnits quote) (pl_withdrawalFeeNumerator pool)
                 (pl_withdrawalFeeDenominator pool) (pl_totalLamports pool) (pl_tokenSupply pool);
  outside ← (if redemption <? minimumDelegation then Ok true else
             total ← amount (pl_totalLamports pool);
             Ok (total <? redemption));
  if outside : bool
  then Ok (ineligible "withdrawal fails minimum delegation or pool capacity") else
  required ← requiredRedemptionLamports c;
  Ok {| od_eligible := required <=? redemption;
        od_reason := if required <=? redemption then "eligible"
                     else "net surplus below required threshold";
        od_minimumRedemptionLamports := Some (to_decimal redemption);
        od_requiredRedemptionLamports := Some (to_decimal required) |}.

(** src/src/jitosol/config.ts:85-109 (evaluateObservation) *)
Definition evaluateObservation (o : Observation) (c : JitoBotConfig) (now : Z)
    : ObservationDecision :=
  let quote := ob_quote o in let pool := ob_pool o in let withdrawal := ob_withdrawal o in
  if negb (forallb (fresh c now)
             [ob_observedAtMs o; q_receivedAtMs quote; wd_checkedAtMs withdrawal])
  then ineligible "stale or future observation" else
  if is_empty (q_id quote) || negb (bool_decide (q_inputMint quote = SOL_MINT))
     || negb (bool_decide (q_outputMint quote = cfg_jitoMintAddress c))
     || negb (bool_decide (q_inputLamports quote = cfg_inputLamports c))
  then ineligible "quote mint or amount mismatch" else
  if negb (bool_decide (pl_address pool = cfg_stakePoolAddress c))
     || negb (bool_decide (pl_mint pool = cfg_jitoMintAddress c))
     || negb (pl_lastUpdateEpoch pool =? pl_currentEpoch pool)
  then ineligible "pool identity or epoch mismatch" else
  if negb (forallb safe_nonneg
             [q_contextSlot quote; q_routeSlot quote; pl_contextSlot pool;
              pl_currentEpoch pool; pl_lastUpdateEpoch pool])
  then ineligible "invalid chain context" else
  if (q_contextSlot quote <? q_routeSlot quote)
     || (cfg_maxSourceSlotLag c <? q_contextSlot quote - q_routeSlot quote)
     || (cfg_maxPoolQuoteSlotGap c <? Z.abs (pl_contextSlot pool - q_contextSlot quote))
  then ineligible "stale route or pool/quote slot gap" else
  if negb (wd_available withdrawal)
  then ineligible (default "stake withdrawal unavailable" (wd_reason withdrawal)) else
  if negb (bool_decide (ob_walletAddress o = cfg_walletAddress c))
  then ineligible "wallet identity mismatch" else
  match evaluate_amounts o c with
  | Ok d => d
  | Err message => ineligible ("invalid observation: " +:+ message)
  end.

(** * Lemmas *)

Lemma amount_bounds s a : amount s = Ok a -> 0 <= a <= U64_MAX.
Proof.
  unfold amount. destruct (unsigned_decimal s) as [r|] eqn:Hs; [|done].
  destruct (U64_MAX <? r) eqn:Hr; [done|]. intros [= <-]. bool_prop.
  split; [by eapply unsigned_decimal_nonneg | done].
Qed.

(** Printing an amount and reading it back. *)
Lemma amount_to_decimal a : 0 <= a <= U64_MAX -> amount (to_decimal a) = Ok a.
Proof.
  intros Ha. unfold amount. rewrite unsigned_decimal_to_decimal by lia.
  by replace (U64_MAX <? a) with false by lia.
Qed.

Lemma amount_zero : amount "0" = Ok 0.
Proof. reflexivity. Qed.

Lemma ceilDiv_spec n d c :
  ceilDiv n d = Ok c -> 0 <= n /\ 0 < d /\ n <= d * c < n + d.
Proof.
  unfold ceilDiv. destruct (_ || _) eqn:Hb; [done|]. intros [= <-]. bool_prop.
  repeat split; try lia; apply quot_ceil_bounds; lia.
Qed.

(** The exact value of a redemption: what the units are worth after the pool's
    fee, rounded against the holder at each of the two divisions. *)
Lemma redemptionLamports_spec u n d t s r :
  redemptionLamports u n d t s = Ok r ->
  exists units fn fd total supply fee,
    amount u = Ok units /\ amount n = Ok fn /\ amount d = Ok fd /\ amount t = Ok total /\
    amount s = Ok supply /\ 0 < supply /\ 0 <= fee <= units /\
    (if fd =? 0 then fee = 0 else fn <= fd /\ units * fn <= fd * fee < units * fn + fd) /\
    supply * r <= (units - fee) * total < supply * (r + 1).
Proof.
  unfold redemptionLamports. intros Hr. result_inv.
  rename x into units, x0 into fn, x1 into fd, x2 into supply, x4 into fee, x5 into total.
  exists units, fn, fd, total, supply, fee.
  pose proof (amount_bounds _ _ H). pose proof (amount_bounds _ _ H0).
  pose proof (amount_bounds _ _ H1). pose proof (amount_bounds _ _ H2).
  pose proof (amount_bounds _ _ H5).
  bool_prop. assert (0 < supply) by lia.
  assert (0 <= fee <= units /\
    (if fd =? 0 then fee = 0 else fn <= fd /\ units * fn <= fd * fee < units * fn + fd))
    as [Hfee Hspec].
  { destruct (fd =? 0) eqn:Hz; [naive_solver lia|]. cbn in *. bool_prop.
    apply ceilDiv_spec in H4. split; [nia|]. lia. }
  do 5 (split; [done|]). do 3 (split; [done|]). apply quot_nonneg_bounds; [nia|lia].
Qed.

Lemma requiredRedemptionLamports_spec c r :
  requiredRedemptionLamports c = Ok r ->
  exists input budget profit carry,
    amount (cfg_inputLamports c) = Ok input /\
    amount (cfg_networkBudgetLamports c) = Ok budget /\
    amount (cfg_minProfitLamports c) = Ok profit /\
    r = input + budget + profit + carry /\
    input * cfg_carryAnnualBps c * cfg_carryHours c <= 10000 * 365 * 24 * carry.
Proof.
  unfold requiredRedemptionLamports. intros Hr. result_inv.
  apply ceilDiv_spec in H0. do 4 eexists. do 3 (split; [done|]). split; [done|]. lia.
Qed.

(** What an observation must satisfy for an entry. *)
Record amounts_admissible (o : Observation) (c : JitoBotConfig) (redemption required : Z)
    : Prop := {
  aa_jito : is_ok (amount (ob_jitoUnits o)) = true;
  aa_reserve : exists stakeRent tokenRent budget configured sol input,
    amount (wd_stakeRentLamports (ob_withdrawal o)) = Ok stakeRent /\
    amount (wd_tokenAccountRentLamports (ob_withdrawal o)) = Ok tokenRent /\
    amount (cfg_networkBudgetLamports c) = Ok budget /\
    amount (cfg_reserveLamports c) = Ok configured /\
    amount (ob_solLamports o) = Ok sol /\ amount (cfg_inputLamports c) = Ok input /\
    input + Z.max configured (stakeRent + tokenRent + budget) <= sol;
  aa_redemption :
    redemptionLamports (q_minJitoOutUnits (ob_quote o))
      (pl_withdrawalFeeNumerator (ob_pool o)) (pl_withdrawalFeeDenominator (ob_pool o))
      (pl_totalLamports (ob_pool o)) (pl_tokenSupply (ob_pool o)) = Ok redemption;
  aa_capacity : exists minimumDelegation minOut total,
    amount (wd_minimumDelegationLamports (ob_withdrawal o)) = Ok minimumDelegation /\
    amount (q_minJitoOutUnits (ob_quote o)) = Ok minOut /\
    amount (pl_totalLamports (ob_pool o)) = Ok total /\
    0 < minimumDelegation /\ 0 < minOut /\ 0 < total /\
    minimumDelegation <= redemption <= total;
  aa_required : requiredRedemptionLamports c = Ok required;
  aa_floor : required <= redemption;
}.
Record context_admissible (o : Observation) (c : JitoBotConfig) (now : Z) : Prop := {
  ca_fresh : Forall (fun t => is_safe_integer t = true /\ t <= now <= t + cfg_maxObservationAgeMs c)
    [ob_observedAtMs o; q_receivedAtMs (ob_quote o); wd_checkedAtMs (ob_withdrawal o)];
  ca_quote : q_id (ob_quote o) <> "" /\ q_inputMint (ob_quote o) = SOL_MINT /\
    q_outputMint (ob_quote o) = cfg_jitoMintAddress c /\
    q_inputLamports (ob_quote o) = cfg_inputLamports c;
  ca_pool : pl_address (ob_pool o) = cfg_stakePoolAddress c /\
    pl_mint (ob_pool o) = cfg_jitoMintAddress c /\
    pl_lastUpdateEpoch (ob_pool o) = pl_currentEpoch (ob_pool o);
  ca_chain : Forall (fun z => 0 <= z <= MAX_SAFE_INTEGER)
    [q_contextSlot (ob_quote o); q_routeSlot (ob_quote o); pl_contextSlot (ob_pool o);
     pl_currentEpoch (ob_pool o); pl_lastUpdateEpoch (ob_pool o)];
  ca_slots : 0 <= q_contextSlot (ob_quote o) - q_routeSlot (ob_quote o) <= cfg_maxSourceSlotLag c /\
    Z.abs (pl_contextSlot (ob_pool o) - q_contextSlot (ob_quote o)) <= cfg_maxPoolQuoteSlotGap c;
  ca_available : wd_available (ob_withdrawal o) = true;
  ca_wallet : ob_walletAddress o = cfg_walletAddress c;
}.

Lemma fresh_true c now t :
  fresh c now t = true <->
  is_safe_integer t = true /\ t <= now <= t + cfg_maxObservationAgeMs c.
Proof. unfold fresh. rewrite !andb_true_iff, !Z.leb_le. intuition lia. Qed.

Lemma forallb_Forall_iff {A} (f : A -> bool) (P : A -> Prop) l :
  (forall x, f x = true <-> P x) -> forallb f l = true <-> Forall P l.
Proof.
  intros Hf. rewrite forallb_forall, Forall_forall. setoid_rewrite Hf.
  by setoid_rewrite list_elem_of_In.
Qed.

Lemma evaluate_amounts_eligible o c d :
  evaluate_amounts o c = Ok d -> od_eligible d = true ->
  exists redemption required, amounts_admissible o c redemption required /\
    od_minimumRedemptionLamports d = Some (to_decimal redemption).
Proof.
  unfold evaluate_amounts. intros Hd He.
  apply bind_Ok in Hd as (jito & Hjito & Hd). do 6 (apply bind_Ok in Hd as (? & ? & Hd)).
  destruct (_ <? _) eqn:Hsol in Hd; [result_inv; done|].
  apply bind_Ok in Hd as (md & Hmd & Hd). apply bind_Ok in Hd as (invalid & Hinv & Hd).
  destruct invalid; [result_inv; done|].
  apply bind_Ok in Hd as (red & Hred & Hd). apply bind_Ok in Hd as (outside & Hout & Hd).
  destruct outside; [result_inv; done|].
  apply bind_Ok in Hd as (req & Hreq & Hd). result_inv. cbn in He.
  destruct (md =? 0) eqn:Hmd0; [done|]. apply bind_Ok in Hinv as (minOut & HminOut & Hinv).
  destruct (minOut =? 0) eqn:Hmo0; [done|]. apply bind_Ok in Hinv as (total & Htotal & Hinv).
  destruct (red <? md) eqn:Hrm; [done|]. rewrite Htotal in Hout. cbn in Hout. result_inv.
  pose proof (amount_bounds _ _ Hmd). pose proof (amount_bounds _ _ HminOut).
  pose proof (amount_bounds _ _ Htotal). bool_prop.
  exists red, req. split; [|done]. constructor; try done.
  - by rewrite Hjito.
  - do 6 eexists. do 6 (split; [eassumption|]).
    destruct (_ <? _) eqn:Hr in Hsol; bool_prop; lia.
  - exists md, minOut, total. do 3 (split; [done|]). lia.
Qed.

Lemma evaluate_amounts_complete o c redemption required :
  amounts_admissible o c redemption required ->
  exists d, evaluate_amounts o c = Ok d /\ od_eligible d = true.
Proof.
  intros [Hj (sr & tr & b & cf & sol & inp & Hsr & Htr & Hb & Hcf & Hsol & Hinp & Hle)
          Hred (md & mo & tot & Hmd & Hmo & Htot & Hmd0 & Hmo0 & Ht0 & Hcap) Hreq Hfl].
  apply is_ok_true in Hj as [j Hj].
  unfold evaluate_amounts. rewrite Hj, Hsr, Htr, Hb, Hcf, Hsol, Hinp. cbn -[redemptionLamports].
  assert ((sol <? inp + (if cf <? sr + tr + b then sr + tr + b else cf)) = false) as ->.
  { destruct (cf <? _) eqn:?; bool_prop; lia. }
  rewrite Hmd, Hmo, Htot. cbn -[redemptionLamports].
  replace (md =? 0) with false by lia. replace (mo =? 0) with false by lia.
  replace (tot =? 0) with false by lia. rewrite Hred. cbn -[redemptionLamports].
  replace (redemption <? md) with false by lia. cbn.
  replace (tot <? redemption) with false by lia. rewrite Hreq. cbn.
  eexists. split; [done|]. cbn. lia.
Qed.

(** The guards before any amount is read accept exactly the admissible contexts. *)
Lemma evaluateObservation_context o c now :
  (context_admissible o c now /\
   evaluateObservation o c now =
     match evaluate_amounts o c with
     | Ok d => d
     | Err message => ineligible ("invalid observation: " +:+ message)
     end) \/
  (~ context_admissible o c now /\ od_eligible (evaluateObservation o c now) = false).
Proof.
  unfold evaluateObservation.
  destruct (negb (forallb (fresh c now) _)) eqn:H1.
  { right. split; [|done]. intros [Hf]. apply negb_true_iff in H1.
    apply not_true_iff_false in H1. apply H1. by apply (forallb_Forall_iff _ _ _ (fresh_true c now)). }
  apply negb_false_iff in H1. apply (forallb_Forall_iff _ _ _ (fresh_true c now)) in H1.
  destruct (is_empty _ || _ || _ || _) eqn:H2.
  { right. split; [|done]. intros [_ (? & ? & ? & ?)]. unfold is_empty in H2.
    rewrite (bool_decide_eq_false_2 (q_id _ = _)) in H2 by done.
    repeat (rewrite bool_decide_eq_true_2 in H2 by done). done. }
  destruct (negb _ || _ || _) eqn:H3 in |- *.
  { right. split; [|done]. intros [_ _ (? & ? & ?)].
    repeat (rewrite bool_decide_eq_true_2 in H3 by done).
    rewrite (proj2 (Z.eqb_eq _ _)) in H3 by done. done. }
  destruct (negb (forallb _ _)) eqn:H4 in |- *.
  { right. split; [|done]. intros [_ _ _ Hf]. apply negb_true_iff in H4.
    apply not_true_iff_false in H4. apply H4. by apply (forallb_Forall_iff _ _ _ safe_nonneg_true). }
  apply negb_false_iff in H4. apply (forallb_Forall_iff _ _ _ safe_nonneg_true) in H4.
  destruct (_ || _ || _) eqn:H5 in |- *.
  { right. split; [|done]. intros [_ _ _ _ [Hs Hg]]. apply not_false_iff_true in H5. apply H5.
    apply orb_false_iff. split; [apply orb_false_iff; split|]; lia. }
  destruct (negb (wd_available _)) eqn:H6.
  { right. split; [|done]. intros [_ _ _ _ _ Ha]. by rewrite Ha in H6. }
  destruct (negb (bool_decide (ob_walletAddress o = _))) eqn:H7.
  { right. split; [|done]. intros [_ _ _ _ _ _ Ha]. by rewrite bool_decide_eq_true_2 in H7. }
  left. split; [|done]. unfold is_empty in H2. bool_prop. constructor; naive_solver lia.
Qed.

Lemma evaluateObservation_iff o c now :
  od_eligible (evaluateObservation o c now) = true <->
  context_admissible o c now /\
  exists redemption required, amounts_admissible o c redemption required.
Proof.
  destruct (evaluateObservation_context o c now) as [[Hc ->]|[Hc ->]]; [|naive_solver].
  split.
  - destruct (evaluate_amounts o c) as [d|m] eqn:Hd; [|done]. intros He.
    destruct (evaluate_amounts_eligible _ _ _ Hd He) as (r & q & Ha & _). eauto.
  - intros [_ (r & q & Ha)]. by destruct (evaluate_amounts_complete _ _ _ _ Ha) as (d & -> & ?).
Qed.

(** A configuration with its enable switch set. *)
Definition set_enabled (b : bool) (c : JitoBotConfig) : JitoBotConfig :=
  {| cfg_version := cfg_version c; cfg_enabled := b; cfg_walletAddress := cfg_walletAddress c;
     cfg_stakePoolAddress := cfg_stakePoolAddress c; cfg_jitoMintAddress := cfg_jitoMintAddress c;
     cfg_inputLamports := cfg_inputLamports c; cfg_minProfitLamports := cfg_minProfitLamports c;
     cfg_networkBudgetLamports := cfg_networkBudgetLamports c;
     cfg_reserveLamports := cfg_reserveLamports c; cfg_carryAnnualBps := cfg_carryAnnualBps c;
     cfg_carryHours := cfg_carryHours c; cfg_confirmationDelayMs := cfg_confirmationDelayMs c;
     cfg_maxConfirmationGapMs := cfg_maxConfirmationGapMs c;
     cfg_maxObservationAgeMs := cfg_maxObservationAgeMs c;
     cfg_maxSourceSlotLag := cfg_maxSourceSlotLag c;
     cfg_maxPoolQuoteSlotGap := cfg_maxPoolQuoteSlotGap c; cfg_maxCycles := cfg_maxCycles c;
     cfg_maxTotalFeesLamports := cfg_maxTotalFeesLamports c;
     cfg_maxRealizedLossLamports := cfg_maxRealizedLossLamports c;
     cfg_stopFile := cfg_stopFile c |}.

(** * Samples *)
Definition sample_config : JitoBotConfig :=
  {| cfg_version := 1; cfg_enabled := true; cfg_walletAddress := "wallet";
     cfg_stakePoolAddress := JITO_STAKE_POOL; cfg_jitoMintAddress := JITO_MINT;
     cfg_inputLamports := "3000000000"; cfg_minProfitLamports := "9000000";
     cfg_networkBudgetLamports := "1000000"; cfg_reserveLamports := "20000000";
     cfg_carryAnnualBps := 650; cfg_carryHours := 72; cfg_confirmationDelayMs := 10000;
     cfg_maxConfirmationGapMs := 30000; cfg_maxObservationAgeMs := 5000;
     cfg_maxSourceSlotLag := 50; cfg_maxPoolQuoteSlotGap := 32; cfg_maxCycles := 1;
     cfg_maxTotalFeesLamports := "1000000"; cfg_maxRealizedLossLamports := "0";
     cfg_stopFile := ".jitosol-bot/STOP" |}.
Definition sample_observation (at_ : Z) (id : string) (slot_ : Z) : Observation :=
  {| ob_observedAtMs := at_;
     ob_quote := {| q_id := id; q_receivedAtMs := at_; q_contextSlot := slot_;
                    q_routeSlot := slot_; q_inputMint := SOL_MINT; q_outputMint := JITO_MINT;
                    q_inputLamports := "3000000000"; q_minJitoOutUnits := "2600000000";
                    q_raw := "quote" |};
     ob_pool := {| pl_address := JITO_STAKE_POOL; pl_mint := JITO_MINT; pl_contextSlot := slot_;
                   pl_currentEpoch := 700; pl_lastUpdateEpoch := 700;
                   pl_totalLamports := "12000000000000"; pl_tokenSupply := "10000000000000";
                   pl_withdrawalFeeNumerator := "1"; pl_withdrawalFeeDenominator := "1000" |};
     ob_withdrawal := {| wd_available := true; wd_checkedAtMs := at_;
                         wd_minimumDelegationLamports := "1000000000";
                         wd_stakeRentLamports := "2282880"; wd_tokenAccountRentLamports := "2039280";
                         wd_sourceStakeAddress := None; wd_reason := None |};
     ob_walletAddress := "wallet"; ob_solLamports := "4000000000"; ob_jitoUnits := "0" |}.

(** * Properties *)

(** The bot enters exactly when every rule of the strategy holds: all three
    timestamps fresh, the quote and the pool the configured ones, slots within the
    configured gaps, the withdrawal available, the wallet holding the ticket plus
    the larger of the two reserves, and the redemption value of the quote's
    minimum output within the pool's limits and at or above the required floor.
    Malformed amounts make the observation ineligible, never an exception. *)
Theorem evaluateObservation_admissible_iff (o : Observation) (c : JitoBotConfig) (now : Z) :
  od_eligible (evaluateObservation o c now) = true <->
  context_admissible o c now /\
  exists redemption required, amounts_admissible o c redemption required.
Proof. apply evaluateObservation_iff. Qed.

(** an eligible entry pays for itself at the pool's own price.  Even if the
    swap delivers only the quote's minimum output, and after the pool's withdrawal
    fee, the units redeem for at least the ticket plus the whole network budget,
    the minimum profit and the annualised carry for the configured hours: the
    rounding of both divisions goes against the entry, never in its favour. *)
Theorem evaluateObservation_covers_costs (o : Observation) (c : JitoBotConfig) (now : Z)
    (He : od_eligible (evaluateObservation o c now) = true) :
  exists units total supply fee input budget profit carry,
    amount (q_minJitoOutUnits (ob_quote o)) = Ok units /\
    amount (pl_totalLamports (ob_pool o)) = Ok total /\
    amount (pl_tokenSupply (ob_pool o)) = Ok supply /\ 0 < supply /\ 0 <= fee <= units /\
    amount (cfg_inputLamports c) = Ok input /\
    amount (cfg_networkBudgetLamports c) = Ok budget /\
    amount (cfg_minProfitLamports c) = Ok profit /\
    input * cfg_carryAnnualBps c * cfg_carryHours c <= 10000 * 365 * 24 * carry /\
    supply * (input + budget + profit + carry) <= (units - fee) * total.
Proof.
  apply evaluateObservation_iff in He as (_ & red & req & Ha).
  destruct Ha as [_ _ Hred _ Hreq Hfl].
  apply redemptionLamports_spec in Hred
    as (units & fn & fd & total & supply & fee & Hu & _ & _ & Ht & Hs & Hsp & Hfee & _ & Hr & _).
  apply requiredRedemptionLamports_spec in Hreq
    as (input & budget & profit & carry & Hi & Hb & Hp & -> & Hc).
  exists units, total, supply, fee, input, budget, profit, carry.
  do 3 (split; [done|]). do 2 (split; [done|]). do 4 (split; [done|]). nia.
Qed.

Lemma evaluateObservation_covers_costs_witness :
  exists units total supply fee input budget profit carry,
    amount "2600000000" = Ok units /\ amount "12000000000000" = Ok total /\
    amount "10000000000000" = Ok supply /\ 0 < supply /\ 0 <= fee <= units /\
    amount "3000000000" = Ok input /\ amount "1000000" = Ok budget /\
    amount "9000000" = Ok profit /\ input * 650 * 72 <= 10000 * 365 * 24 * carry /\
    supply * (input + budget + profit + carry) <= (units - fee) * total.
Proof.
  apply (evaluateObservation_covers_costs (sample_observation 1000 "q" 5) sample_config 2000).
  vm_compute. reflexivity.
Defined.

(** The journal's configuration fingerprint binds every setting but the
    enable switch: two configurations with one fingerprint agree on the wallet,
    the pool, every amount, limit and delay, or a SHA-256 collision has been
    found.  Toggling the switch alone keeps the fingerprint. *)
Theorem configFingerprint_binds `{Sha256} (c c' : JitoBotConfig)
    (Hf : configFingerprint c = configFingerprint c') :
  sha256_collision \/ c' = set_enabled (cfg_enabled c') c.
Proof.
  destruct (digest_agree "" (config_identity c) (config_identity c') Hf) as [Heq|?]; [right|by left].
  destruct c, c'. unfold config_identity in Heq. cbn in *. injection Heq. intros. by subst.
Qed.

Lemma configFingerprint_binds_witness :
  let H : Sha256 := fun s => s in
  @sha256_collision H \/
  set_enabled false sample_config = set_enabled false sample_config.
Proof.
  intros H. apply (@configFingerprint_binds H sample_config (set_enabled false sample_config)).
  reflexivity.
Defined.
