(* ===== verification/JitoJournal.v ===== *)
(** The staking bot's durable journal: the records of [src/src/jitosol/types.ts]
    and the validation of [src/src/jitosol/journal.ts], which every state passes
    before it is written and after it is read. *)
From S2P Require Import Prelude Text Types JitoConfig.
From Stdlib Require Import Ascii String.
Local Open Scope string_scope.
Local Open Scope list_scope.
Local Open Scope Z_scope.

(** * Records *)

(** src/src/jitosol/types.ts:74-81 (PendingTransaction.expected) *)
Record Expected := {
  ex_stakeAddress : option string;
  ex_minJitoReceivedUnits : option string;
  ex_jitoSpentUnits : option string;
  ex_refundableRentLamports : option string;
  ex_minimumRedemptionLamports : option string;
}.

(** src/src/jitosol/types.ts:65-85 (PendingTransaction) *)
Record PendingTransaction := {
  tx_kind : ActionKind;
  tx_signature : string;
  tx_wireTransactionBase64 : string;
  tx_lastValidBlockHeight : Z;
  tx_preparedAtMs : Z;
  tx_quoteExpiresAtMs : option Z;
  tx_estimatedFeeLamports : string;
  tx_expected : Expected;
  tx_broadcastAttempts : option Z;
  tx_lastBroadcastAtMs : option Z;
  tx_lastBroadcastError : option string;
}.

(** src/src/jitosol/types.ts:87-98 (TransactionEffects) *)
Record TransactionEffects := {
  eff_feeLamports : string;
  eff_actualInputLamports : option string;
  eff_actualJitoReceivedUnits : option string;
  eff_actualJitoSpentUnits : option string;
  eff_stakeAddress : option string;
  eff_actualClaimedLamports : option string;
  eff_refundableRentLamports : option string;
  eff_nonRefundableCostLamports : option string;
}.

(** src/src/jitosol/types.ts:100-105 (SignatureResult) *)
Inductive SignatureResult :=
| SigPending
| SigFinalized (effects : TransactionEffects)
| SigFailed (effects : TransactionEffects) (error : string)
| SigExpired (reason : string)
| SigUnknown (reason : string).

(** src/src/jitosol/types.ts:109-109 (Position.stage) *)
Inductive Stage := BuyPending | Purchased | Withdrawn | Deactivated | Complete.
(** src/src/jitosol/types.ts:107-121 (Position) *)
Record Position := {
  pos_id : string;
  pos_stage : Stage;
  pos_openedAtMs : Z;
  pos_inputLamports : string;
  pos_actualJitoReceivedUnits : string;
  pos_stakeAddress : option string;
  pos_stakeRentLamports : string;
  pos_tokenAccountRentLamports : string;
  pos_feesLamports : string;
  pos_nonRefundableCostLamports : string;
  pos_actualClaimedLamports : option string;
  pos_realizedProfitLamports : option string;
  pos_completedAtMs : option Z;
}.

(** src/src/jitosol/types.ts:127-127 (JournalState.status) *)
Inductive JournalStatus := Running | Halted.
(** src/src/jitosol/types.ts:139-139 (outcome) *)
Inductive Outcome := OutFinalized | OutFailed.
(** src/src/jitosol/types.ts:133-133 (confirmation) *)
Record Confirmation := {
  cf_quoteId : string;
  cf_observedAtMs : Z;
  cf_contextSlot : Z;
}.
(** src/src/jitosol/types.ts:136-142 (transactions) *)
Record Receipt := {
  rc_positionId : string;
  rc_transaction : PendingTransaction;
  rc_outcome : Outcome;
  rc_effects : TransactionEffects;
  rc_recordedAtMs : Z;
}.
(** src/src/jitosol/types.ts:123-144 (JournalState) *)
Record JournalState := {
  jn_version : Z;
  jn_configFingerprint : string;
  jn_sequence : Z;
  jn_status : JournalStatus;
  jn_haltReason : option string;
  jn_completedCycles : Z;
  jn_totalFeesLamports : string;
  jn_realizedProfitLamports : string;
  jn_realizedLossLamports : string;
  jn_confirmation : option Confirmation;
  jn_position : option Position;
  jn_pending : option PendingTransaction;
  jn_transactions : list Receipt;
  jn_completedPositions : list Position;
}.

Global Instance Stage_eq_dec : EqDecision Stage.
Proof. solve_decision. Defined.
Global Instance JournalStatus_eq_dec : EqDecision JournalStatus.
Proof. solve_decision. Defined.
Global Instance Expected_eq_dec : EqDecision Expected.
Proof. solve_decision. Defined.
Global Instance PendingTransaction_eq_dec : EqDecision PendingTransaction.
Proof. solve_decision. Defined.

(** * Field updates

    Assignments to the fields of a journal, a position or a pending transaction. *)
Definition set_sequence (n : Z) (s : JournalState) : JournalState :=
  {| jn_version := jn_version s; jn_configFingerprint := jn_configFingerprint s;
     jn_sequence := n; jn_status := jn_status s; jn_haltReason := jn_haltReason s;
     jn_completedCycles := jn_completedCycles s;
     jn_totalFeesLamports := jn_totalFeesLamports s;
     jn_realizedProfitLamports := jn_realizedProfitLamports s;
     jn_realizedLossLamports := jn_realizedLossLamports s;
     jn_confirmation := jn_confirmation s; jn_position := jn_position s;
     jn_pending := jn_pending s; jn_transactions := jn_transactions s;
     jn_completedPositions := jn_completedPositions s |}.
Definition set_halted (reason : string) (s : JournalState) : JournalState :=
  {| jn_version := jn_version s; jn_configFingerprint := jn_configFingerprint s;
     jn_sequence := jn_sequence s; jn_status := Halted; jn_haltReason := Some reason;
     jn_completedCycles := jn_completedCycles s;
     jn_totalFeesLamports := jn_totalFeesLamports s;
     jn_realizedProfitLamports := jn_realizedProfitLamports s;
     jn_realizedLossLamports := jn_realizedLossLamports s; jn_confirmation := None;
     jn_position := jn_position s; jn_pending := jn_pending s;
     jn_transactions := jn_transactions s; jn_completedPositions := jn_completedPositions s |}.
Definition set_confirmation (c : option Confirmation) (s : JournalState) : JournalState :=
  {| jn_version := jn_version s; jn_configFingerprint := jn_configFingerprint s;
     jn_sequence := jn_sequence s; jn_status := jn_status s; jn_haltReason := jn_haltReason s;
     jn_completedCycles := jn_completedCycles s;
     jn_totalFeesLamports := jn_totalFeesLamports s;
     jn_realizedProfitLamports := jn_realizedProfitLamports s;
     jn_realizedLossLamports := jn_realizedLossLamports s; jn_confirmation := c;
     jn_position := jn_position s; jn_pending := jn_pending s;
     jn_transactions := jn_transactions s; jn_completedPositions := jn_completedPositions s |}.
Definition set_position (p : option Position) (s : JournalState) : JournalState :=
  {| jn_version := jn_version s; jn_configFingerprint := jn_configFingerprint s;
     jn_sequence := jn_sequence s; jn_status := jn_status s; jn_haltReason := jn_haltReason s;
     jn_completedCycles := jn_completedCycles s;
     jn_totalFeesLamports := jn_totalFeesLamports s;
     jn_realizedProfitLamports := jn_realizedProfitLamports s;
     jn_realizedLossLamports := jn_realizedLossLamports s;
     jn_confirmation := jn_confirmation s; jn_position := p; jn_pending := jn_pending s;
     jn_transactions := jn_transactions s; jn_completedPositions := jn_completedPositions s |}.
Definition set_pending (t : option PendingTransaction) (s : JournalState) : JournalState :=
  {| jn_version := jn_version s; jn_configFingerprint := jn_configFingerprint s;
     jn_sequence := jn_sequence s; jn_status := jn_status s; jn_haltReason := jn_haltReason s;
     jn_completedCycles := jn_completedCycles s;
     jn_totalFeesLamports := jn_totalFeesLamports s;
     jn_realizedProfitLamports := jn_realizedProfitLamports s;
     jn_realizedLossLamports := jn_realizedLossLamports s;
     jn_confirmation := jn_confirmation s; jn_position := jn_position s; jn_pending := t;
     jn_transactions := jn_transactions s; jn_completedPositions := jn_completedPositions s |}.
Definition set_receipts (fees : string) (l : list Receipt) (s : JournalState) : JournalState :=
  {| jn_version := jn_version s; jn_configFingerprint := jn_configFingerprint s;
     jn_sequence := jn_sequence s; jn_status := jn_status s; jn_haltReason := jn_haltReason s;
     jn_completedCycles := jn_completedCycles s; jn_totalFeesLamports := fees;
     jn_realizedProfitLamports := jn_realizedProfitLamports s;
     jn_realizedLossLamports := jn_realizedLossLamports s;
     jn_confirmation := jn_confirmation s; jn_position := jn_position s;
     jn_pending := jn_pending s; jn_transactions := l;
     jn_completedPositions := jn_completedPositions s |}.
Definition set_realized (cycles : Z) (profit loss : string)
    (l : list Position) (s : JournalState) : JournalState :=
  {| jn_version := jn_version s; jn_configFingerprint := jn_configFingerprint s;
     jn_sequence := jn_sequence s; jn_status := jn_status s; jn_haltReason := jn_haltReason s;
     jn_completedCycles := cycles; jn_totalFeesLamports := jn_totalFeesLamports s;
     jn_realizedProfitLamports := profit; jn_realizedLossLamports := loss;
     jn_confirmation := jn_confirmation s; jn_position := jn_position s;
     jn_pending := jn_pending s; jn_transactions := jn_transactions s;
     jn_completedPositions := l |}.

Definition pos_with_stage (st : Stage) (p : Position) : Position :=
  {| pos_id := pos_id p; pos_stage := st; pos_openedAtMs := pos_openedAtMs p;
     pos_inputLamports := pos_inputLamports p;
     pos_actualJitoReceivedUnits := pos_actualJitoReceivedUnits p;
     pos_stakeAddress := pos_stakeAddress p; pos_stakeRentLamports := pos_stakeRentLamports p;
     pos_tokenAccountRentLamports := pos_tokenAccountRentLamports p;
     pos_feesLamports := pos_feesLamports p;
     pos_nonRefundableCostLamports := pos_nonRefundableCostLamports p;
     pos_actualClaimedLamports := pos_actualClaimedLamports p;
     pos_realizedProfitLamports := pos_realizedProfitLamports p;
     pos_completedAtMs := pos_completedAtMs p |}.
Definition pos_with_costs (fees cost : string) (p : Position) : Position :=
  {| pos_id := pos_id p; pos_stage := pos_stage p; pos_openedAtMs := pos_openedAtMs p;
     pos_inputLamports := pos_inputLamports p;
     pos_actualJitoReceivedUnits := pos_actualJitoReceivedUnits p;
     pos_stakeAddress := pos_stakeAddress p; pos_stakeRentLamports := pos_stakeRentLamports p;
     pos_tokenAccountRentLamports := pos_tokenAccountRentLamports p; pos_feesLamports := fees;
     pos_nonRefundableCostLamports := cost;
     pos_actualClaimedLamports := pos_actualClaimedLamports p;
     pos_realizedProfitLamports := pos_realizedProfitLamports p;
     pos_completedAtMs := pos_completedAtMs p |}.
Definition pos_with_tokens (received rent : string) (p : Position) : Position :=
  {| pos_id := pos_id p; pos_stage := pos_stage p; pos_openedAtMs := pos_openedAtMs p;
     pos_inputLamports := pos_inputLamports p; pos_actualJitoReceivedUnits := received;
     pos_stakeAddress := pos_stakeAddress p; pos_stakeRentLamports := pos_stakeRentLamports p;
     pos_tokenAccountRentLamports := rent; pos_feesLamports := pos_feesLamports p;
     pos_nonRefundableCostLamports := pos_nonRefundableCostLamports p;
     pos_actualClaimedLamports := pos_actualClaimedLamports p;
     pos_realizedProfitLamports := pos_realizedProfitLamports p;
     pos_completedAtMs := pos_completedAtMs p |}.
Definition pos_with_stake (addr rent : string) (p : Position) : Position :=
  {| pos_id := pos_id p; pos_stage := pos_stage p; pos_openedAtMs := pos_openedAtMs p;
     pos_inputLamports := pos_inputLamports p;
     pos_actualJitoReceivedUnits := pos_actualJitoReceivedUnits p;
     pos_stakeAddress := Some addr; pos_stakeRentLamports := rent;
     pos_tokenAccountRentLamports := pos_tokenAccountRentLamports p;
     pos_feesLamports := pos_feesLamports p;
     pos_nonRefundableCostLamports := pos_nonRefundableCostLamports p;
     pos_actualClaimedLamports := pos_actualClaimedLamports p;
     pos_realizedProfitLamports := pos_realizedProfitLamports p;
     pos_completedAtMs := pos_completedAtMs p |}.
Definition pos_with_claim (claimed profit : string) (at_ : Z) (p : Position) : Position :=
  {| pos_id := pos_id p; pos_stage := pos_stage p; pos_openedAtMs := pos_openedAtMs p;
     pos_inputLamports := pos_inputLamports p;
     pos_actualJitoReceivedUnits := pos_actualJitoReceivedUnits p;
     pos_stakeAddress := pos_stakeAddress p; pos_stakeRentLamports := pos_stakeRentLamports p;
     pos_tokenAccountRentLamports := pos_tokenAccountRentLamports p;
     pos_feesLamports := pos_feesLamports p;
     pos_nonRefundableCostLamports := pos_nonRefundableCostLamports p;
     pos_actualClaimedLamports := Some claimed; pos_realizedProfitLamports := Some profit;
     pos_completedAtMs := Some at_ |}.

Definition tx_with_expiry (at_ : Z) (t : PendingTransaction) : PendingTransaction :=
  {| tx_kind := tx_kind t; tx_signature := tx_signature t;
     tx_wireTransactionBase64 := tx_wireTransactionBase64 t;
     tx_lastValidBlockHeight := tx_lastValidBlockHeight t;
     tx_preparedAtMs := tx_preparedAtMs t; tx_quoteExpiresAtMs := Some at_;
     tx_estimatedFeeLamports := tx_estimatedFeeLamports t; tx_expected := tx_expected t;
     tx_broadcastAttempts := tx_broadcastAttempts t;
     tx_lastBroadcastAtMs := tx_lastBroadcastAtMs t;
     tx_lastBroadcastError := tx_lastBroadcastError t |}.
Definition tx_with_attempt (attempts at_ : option Z)
    (error : option string) (t : PendingTransaction) : PendingTransaction :=
  {| tx_kind := tx_kind t; tx_signature := tx_signature t;
     tx_wireTransactionBase64 := tx_wireTransactionBase64 t;
     tx_lastValidBlockHeight := tx_lastValidBlockHeight t;
     tx_preparedAtMs := tx_preparedAtMs t; tx_quoteExpiresAtMs := tx_quoteExpiresAtMs t;
     tx_estimatedFeeLamports := tx_estimatedFeeLamports t; tx_expected := tx_expected t;
     tx_broadcastAttempts := attempts; tx_lastBroadcastAtMs := at_;
     tx_lastBroadcastError := error |}.

(** * Schema *)

(** src/src/jitosol/journal.ts:9-11 (unsigned, signed, integer) *)
Definition unsigned (s : string) : bool := is_ok (amount s).
Definition signed (s : string) : bool :=
  match signed_decimal s with
  | Some _ => utf16_length s <=? 24
  | None => false
  end.
Definition integer (z : Z) : bool := safe_nonneg z.

(** [.optional()] *)
Definition optional {A} (p : A -> bool) (o : option A) : bool :=
  match o with
  | Some a => p a
  | None => true
  end.
(** [z.string().min(1)] *)
Definition nonempty (s : string) : bool := negb (is_empty s).

(** Canonical base64: groups of four letters of the alphabet, the last padded,
    with no bits beyond the bytes it encodes.  These are the texts that decoding
    and encoding again gives back. *)
Definition base64_value (c : ascii) : option Z :=
  let n := Z.of_nat (nat_of_ascii c) in
  if between 65 90 n then Some (n - 65)
  else if between 97 122 n then Some (n - 71)
  else if between 48 57 n then Some (n + 4)
  else if n =? 43 then Some 62
  else if n =? 47 then Some 63
  else None.
Definition padding (c : ascii) : bool := Ascii.eqb c "="%char.
Definition base64_digit (p : Z -> bool) (c : ascii) : bool :=
  match base64_value c with
  | Some v => p v
  | None => false
  end.
Definition any_digit : ascii -> bool := base64_digit (fun _ => true).
Fixpoint canonical_base64 (l : list ascii) : bool :=
  match l with
  | [] => true
  | a :: b :: c :: d :: rest =>
      (any_digit a && any_digit b && any_digit c && any_digit d && canonical_base64 rest)
      || match rest with
         | [] => any_digit a &&
                 ((any_digit b && base64_digit (fun v => v mod 4 =? 0) c && padding d)
                  || (base64_digit (fun v => v mod 16 =? 0) b && padding c && padding d))
         | _ :: _ => false
         end
  | _ => false
  end.

(** src/src/jitosol/journal.ts:13-19 (transaction) *)
Definition transaction_shape (t : PendingTransaction) : bool :=
  nonempty (tx_signature t) && (utf16_length (tx_signature t) <=? 128) &&
  between 4 10000 (utf16_length (tx_wireTransactionBase64 t)) &&
  canonical_base64 (chars (tx_wireTransactionBase64 t)) &&
  integer (tx_lastValidBlockHeight t) && integer (tx_preparedAtMs t) &&
  optional integer (tx_quoteExpiresAtMs t) && unsigned (tx_estimatedFeeLamports t) &&
  optional nonempty (ex_stakeAddress (tx_expected t)) &&
  optional unsigned (ex_minJitoReceivedUnits (tx_expected t)) &&
  optional unsigned (ex_jitoSpentUnits (tx_expected t)) &&
  optional unsigned (ex_refundableRentLamports (tx_expected t)) &&
  optional unsigned (ex_minimumRedemptionLamports (tx_expected t)) &&
  optional integer (tx_broadcastAttempts t) && optional integer (tx_lastBroadcastAtMs t).

(** src/src/jitosol/journal.ts:20-23 (effects) *)
Definition effects_shape (e : TransactionEffects) : bool :=
  unsigned (eff_feeLamports e) && optional unsigned (eff_actualInputLamports e) &&
  optional unsigned (eff_actualJitoReceivedUnits e) &&
  optional unsigned (eff_actualJitoSpentUnits e) && optional nonempty (eff_stakeAddress e) &&
  optional unsigned (eff_actualClaimedLamports e) &&
  optional unsigned (eff_refundableRentLamports e) &&
  optional unsigned (eff_nonRefundableCostLamports e).

(** src/src/jitosol/journal.ts:24-29 (position) *)
Definition position_shape (p : Position) : bool :=
  nonempty (pos_id p) && integer (pos_openedAtMs p) && unsigned (pos_inputLamports p) &&
  unsigned (pos_actualJitoReceivedUnits p) && optional nonempty (pos_stakeAddress p) &&
  unsigned (pos_stakeRentLamports p) && unsigned (pos_tokenAccountRentLamports p) &&
  unsigned (pos_feesLamports p) && unsigned (pos_nonRefundableCostLamports p) &&
  optional unsigned (pos_actualClaimedLamports p) &&
  optional signed (pos_realizedProfitLamports p) && optional integer (pos_completedAtMs p).

Definition receipt_shape (r : Receipt) : bool :=
  nonempty (rc_positionId r) && transaction_shape (rc_transaction r) &&
  effects_shape (rc_effects r) && integer (rc_recordedAtMs r).
Definition confirmation_shape (c : Confirmation) : bool :=
  nonempty (cf_quoteId c) && integer (cf_observedAtMs c) && integer (cf_contextSlot c).

(** src/src/jitosol/journal.ts:30-38 (journal) *)
Definition journal_shape (s : JournalState) : bool :=
  (jn_version s =? 1) && is_sha256_hex (jn_configFingerprint s) && integer (jn_sequence s) &&
  integer (jn_completedCycles s) && unsigned (jn_totalFeesLamports s) &&
  signed (jn_realizedProfitLamports s) && unsigned (jn_realizedLossLamports s) &&
  optional confirmation_shape (jn_confirmation s) && optional position_shape (jn_position s) &&
  optional transaction_shape (jn_pending s) &&
  forallb receipt_shape (jn_transactions s) && (List.length (jn_transactions s) <=? 1000)%nat &&
  forallb position_shape (jn_completedPositions s) &&
  (List.length (jn_completedPositions s) <=? 100)%nat.

(** * Ledger checks *)

(** src/src/jitosol/journal.ts:48-48 (totalFees) *)
Definition receipts_fees (l : list Receipt) : result string Z :=
  fold_result (fun sum r => fee ← amount (eff_feeLamports (rc_effects r)); Ok (sum + fee)) 0 l.

(** [BigInt(s)] for a string the schema has accepted. *)
Definition bigint (s : string) : Z := default 0 (signed_decimal s).

(** src/src/jitosol/journal.ts:50-56: the profit and the loss summed over the
    completed positions. *)
Definition add_realized (acc : Z * Z) (p : Position) : result string (Z * Z) :=
  match pos_realizedProfitLamports p, pos_actualClaimedLamports p, pos_completedAtMs p with
  | Some profit, Some _, Some _ =>
      let profit := bigint profit in
      Ok (fst acc + profit, if profit <? 0 then snd acc - profit else snd acc)
  | _, _, _ => Err "completed position lacks realized accounting"
  end.
Definition realized_totals (l : list Position) : result string (Z * Z) :=
  fold_result add_realized (0, 0) l.

Definition is_stage (st : Stage) (p : Position) : bool := bool_decide (pos_stage p = st).
Definition is_some {A} (o : option A) : bool :=
  match o with
  | Some _ => true
  | None => false
  end.

(** src/src/jitosol/journal.ts:43-58: the checks after the schema. *)
Definition ledger_checks (s : JournalState) : result string unit :=
  throw_if (negb (jn_completedCycles s =? Z.of_nat (List.length (jn_completedPositions s))))
    "completed cycle count does not match history" ;;
  throw_if (is_some (jn_pending s) && negb (is_some (jn_position s)))
    "pending transaction has no position" ;;
  throw_if (bool_decide (jn_status s = Halted) &&
            match jn_haltReason s with
            | Some r => is_empty r
            | None => true
            end) "halted journal has no reason" ;;
  throw_if (match jn_position s with
            | Some p => is_stage Complete p
            | None => false
            end || negb (forallb (is_stage Complete) (jn_completedPositions s)))
    "inconsistent position lifecycle" ;;
  throw_if (match jn_pending s with
            | Some t => existsb (fun r => bool_decide (tx_signature (rc_transaction r) = tx_signature t))
                          (jn_transactions s)
            | None => false
            end) "pending signature already recorded" ;;
  totalFees ← receipts_fees (jn_transactions s);
  recorded ← amount (jn_totalFeesLamports s);
  throw_if (negb (totalFees =? recorded)) "fee ledger total does not match receipts" ;;
  totals ← realized_totals (jn_completedPositions s);
  mismatch ← (if negb (fst totals =? bigint (jn_realizedProfitLamports s)) then Ok true else
              loss ← amount (jn_realizedLossLamports s);
              Ok (negb (snd totals =? loss)));
  throw_if mismatch "realized totals do not match completed positions" ;;
  throw_if (bool_decide (jn_status s = Running) &&
            match jn_position s with
            | Some p => is_stage BuyPending p
            | None => false
            end &&
            negb match jn_pending s with
                 | Some t => bool_decide (tx_kind t = Buy)
                 | None => false
                 end) "running buy-pending position has no pending buy".

(** src/src/jitosol/journal.ts:40-64 (validateJournalState).  The schema library
    words its own rejection; it is abbreviated here. *)
Definition validateJournalState (s : JournalState) : result string JournalState :=
  if negb (journal_shape s) then Err "Invalid journal: schema" else
  match ledger_checks s with
  | Ok _ => Ok s
  | Err message => Err ("Invalid journal: " +:+ message)
  end.

(** What validation guarantees, as a proposition. *)
Record ledger_ok (s : JournalState) : Prop := {
  lo_cycles : jn_completedCycles s = Z.of_nat (List.length (jn_completedPositions s));
  lo_pending : jn_pending s <> None -> jn_position s <> None;
  lo_halted : jn_status s = Halted -> exists r, jn_haltReason s = Some r /\ r <> "";
  lo_open : forall p, jn_position s = Some p -> pos_stage p <> Complete;
  lo_closed : Forall (fun p => pos_stage p = Complete) (jn_completedPositions s);
  lo_fresh : forall t, jn_pending s = Some t ->
    Forall (fun r => tx_signature (rc_transaction r) <> tx_signature t) (jn_transactions s);
  lo_fees : exists fees, receipts_fees (jn_transactions s) = Ok fees /\
    amount (jn_totalFeesLamports s) = Ok fees;
  lo_realized : exists profit loss,
    realized_totals (jn_completedPositions s) = Ok (profit, loss) /\
    bigint (jn_realizedProfitLamports s) = profit /\ amount (jn_realizedLossLamports s) = Ok loss;
  lo_buying : jn_status s = Running -> forall p, jn_position s = Some p ->
    pos_stage p = BuyPending -> exists t, jn_pending s = Some t /\ tx_kind t = Buy;
}.

Lemma forallb_is_stage st l :
  forallb (is_stage st) l = true <-> Forall (fun p => pos_stage p = st) l.
Proof. apply forallb_Forall_iff. intros p. apply bool_decide_eq_true. Qed.

Lemma existsb_false_Forall {A} (f : A -> bool) l :
  existsb f l = false <-> Forall (fun x => f x = false) l.
Proof.
  induction l as [|x l IH]; cbn; [split; auto|].
  rewrite orb_false_iff, Forall_cons, IH. done.
Qed.

Lemma ledger_checks_sound s : ledger_checks s = Ok tt -> ledger_ok s.
Proof.
  unfold ledger_checks.
  intros Hc. apply bind_Ok in Hc as (u1 & H1 & Hc). apply bind_Ok in Hc as (u2 & H2 & Hc).
  apply bind_Ok in Hc as (u3 & H3 & Hc). apply bind_Ok in Hc as (u4 & H4 & Hc).
  apply bind_Ok in Hc as (u5 & H5 & Hc). apply bind_Ok in Hc as (fees & Hfees & Hc).
  apply bind_Ok in Hc as (rec & Hrec & Hc). apply bind_Ok in Hc as (u6 & H6 & Hc).
  apply bind_Ok in Hc as ([profit loss] & Htot & Hc). apply bind_Ok in Hc as (mis & Hmis & Hc).
  apply bind_Ok in Hc as (u7 & H7 & H8). apply throw_if_Ok in H1, H2, H3, H4, H5, H6, H7, H8.
  subst mis. apply orb_false_iff in H4 as [H4 H4'].
  apply negb_false_iff, forallb_is_stage in H4'. bool_prop. subst rec.
  destruct (negb (fst _ =? _)) eqn:Hp in Hmis; [done|].
  apply bind_Ok in Hmis as (l & Hl & Hl'). result_inv. bool_prop. cbn in *.
  constructor; eauto.
  - intros Hp' Hn. destruct (jn_pending s), (jn_position s); naive_solver.
  - intros Hh. rewrite Hh in H3. rewrite bool_decide_eq_true_2 in H3 by done. cbn in H3.
    destruct (jn_haltReason s) as [r|]; [|done]. exists r. unfold is_empty in H3.
    apply bool_decide_eq_false in H3. done.
  - intros p Hpos. rewrite Hpos in H4. by apply bool_decide_eq_false in H4.
  - intros t Ht. rewrite Ht in H5. apply existsb_false_Forall in H5.
    eapply Forall_impl; [exact H5|]. intros r Hr. by apply bool_decide_eq_false in Hr.
  - exists profit, l. subst. done.
  - intros Hrun p Hpos Hst. rewrite Hrun, Hpos in H8.
    rewrite bool_decide_eq_true_2 in H8 by done. unfold is_stage in H8.
    rewrite bool_decide_eq_true_2 in H8 by done. cbn in H8. apply negb_false_iff in H8.
    destruct (jn_pending s) as [t|]; [|done]. exists t. by apply bool_decide_eq_true in H8.
Qed.

Lemma ledger_checks_complete s : ledger_ok s -> ledger_checks s = Ok tt.
Proof.
  unfold ledger_checks.
  intros [H1 H2 H3 H4 H4' H5 (fees & Hf & Hf') (p & l & Ht & Hp & Hl) H8].
  rewrite throw_if_skip by (rewrite H1; by rewrite Z.eqb_refl).
  rewrite throw_if_skip by (destruct (jn_pending s), (jn_position s); naive_solver).
  rewrite throw_if_skip.
  2: { destruct (decide (jn_status s = Halted)) as [Hh|Hh].
       - destruct (H3 Hh) as (r & -> & Hr). unfold is_empty.
         by rewrite (bool_decide_eq_false_2 (r = _)), andb_false_r.
       - by rewrite bool_decide_eq_false_2. }
  rewrite throw_if_skip.
  2: { rewrite (proj2 (forallb_is_stage _ _) H4'). rewrite orb_false_r.
       destruct (jn_position s) as [q|] eqn:Hq; [|done]. apply bool_decide_eq_false. by apply H4. }
  rewrite throw_if_skip.
  2: { destruct (jn_pending s) as [t|] eqn:Hq; [|done]. apply existsb_false_Forall.
       eapply Forall_impl; [by apply H5|]. intros r Hr. by apply bool_decide_eq_false. }
  rewrite Hf. cbn. rewrite Hf'. cbn. rewrite Z.eqb_refl. cbn. rewrite Ht. cbn.
  rewrite Hp, Z.eqb_refl. cbn. rewrite Hl. cbn. rewrite Z.eqb_refl. cbn.
  apply throw_if_Ok. destruct (decide (jn_status s = Running)) as [Hr|Hr];
    [|by rewrite bool_decide_eq_false_2].
  destruct (jn_position s) as [q|]; [|by rewrite andb_false_r].
  unfold is_stage. destruct (decide (pos_stage q = BuyPending)) as [Hq|Hq];
    [|by rewrite (bool_decide_eq_false_2 (pos_stage q = _)), andb_false_r].
  destruct (H8 Hr q eq_refl Hq) as (t & -> & Hk).
  by rewrite (bool_decide_eq_true_2 (tx_kind t = _)), andb_false_r.
Qed.

Lemma ledger_checks_Ok s : ledger_checks s = Ok tt <-> ledger_ok s.
Proof. split; [apply ledger_checks_sound | apply ledger_checks_complete]. Qed.

Lemma validateJournalState_Ok s s' :
  validateJournalState s = Ok s' <-> s' = s /\ journal_shape s = true /\ ledger_ok s.
Proof.
  unfold validateJournalState. rewrite <- ledger_checks_Ok.
  destruct (journal_shape s); cbn; [|naive_solver].
  destruct (ledger_checks s) as [[]|m]; naive_solver.
Qed.

Lemma receipts_fees_app l r fees fee :
  receipts_fees l = Ok fees -> amount (eff_feeLamports (rc_effects r)) = Ok fee ->
  receipts_fees (l ++ [r]) = Ok (fees + fee).
Proof.
  unfold receipts_fees. intros Hl Hr. rewrite (fold_result_app _ _ _ _ _ Hl).
  cbn. by rewrite Hr.
Qed.

Lemma realized_totals_app l p profit loss :
  realized_totals l = Ok (profit, loss) ->
  realized_totals (l ++ [p]) = add_realized (profit, loss) p.
Proof.
  unfold realized_totals. intros Hl. rewrite (fold_result_app _ _ _ _ _ Hl).
  cbn [fold_result]. by destruct (add_realized _ p).
Qed.

Lemma receipts_fees_nonneg l fees : receipts_fees l = Ok fees -> 0 <= fees.
Proof.
  unfold receipts_fees. apply (fold_result_inv _ (fun z => 0 <= z)); [|lia].
  intros s r s' Hs Hr. result_inv. apply amount_bounds in H. lia.
Qed.
