(* ===== verification/JitoEngine.v ===== *)
(** The staking bot's engine ([src/src/jitosol/engine.ts]): one bounded decision
    per tick, over a durable journal, a gateway to the market and the chain, a
    clock and a stop switch.

    Everything outside the engine is an argument: [Host] gives the answer of each
    call as a function of the number of calls made so far, so a theorem for every
    [Host] covers every interleaving of answers, failures and clock readings,
    including a save that fails before or after reaching the disk. *)
From S2P Require Import Prelude Text Types Json JitoConfig JitoJournal.
From Stdlib Require Import Ascii String.
Local Open Scope string_scope.
Local Open Scope list_scope.
Local Open Scope Z_scope.

(** * The engine's surroundings *)

(** src/src/jitosol/types.ts:164-168 (canClaim's answer) *)
Record ClaimReadiness := {
  cr_inactive : bool;
  cr_observedAtMs : Z;
  cr_claimableLamports : string;
}.

Inductive SaveOutcome :=
| Saved
| SaveFailedBefore (message : string)
| SaveFailedAfter (message : string).

(** src/src/jitosol/types.ts:146-169 (JournalStore, JitoGateway) and the options of
    the engine: a call's index gives its answer. *)
Record Host := {
  observe : nat -> JitoBotConfig -> result string Observation;
  gw_prepare : nat -> ActionKind -> Position -> option Observation ->
    result string PendingTransaction;
  gw_broadcast : nat -> PendingTransaction -> result string unit;
  poll : nat -> PendingTransaction -> result string SignatureResult;
  canClaim : nat -> Position -> result string ClaimReadiness;
  load_error : nat -> option string;
  save_outcome : nat -> SaveOutcome;
  clock : nat -> Z;
  stopRequested : nat -> result string bool;
  randomUUID : nat -> string;
}.

(** What the engine does to the outside, in order. *)
Inductive event :=
| EvSaved (s : JournalState)
| EvObserve
| EvPrepare (kind : ActionKind) (p : Position)
| EvBroadcast (t : PendingTransaction)
| EvPoll (t : PendingTransaction)
| EvCanClaim (p : Position).

(** The journal on disk, the calls made, the events (newest first) and the
    engine's re-entrancy flag. *)
Record world := {
  w_durable : option JournalState;
  w_calls : nat;
  w_trace : list event;
  w_ticking : bool;
}.
Definition bump (w : world) : world :=
  {| w_durable := w_durable w; w_calls := S (w_calls w); w_trace := w_trace w;
     w_ticking := w_ticking w |}.
Definition log (e : event) (w : world) : world :=
  {| w_durable := match e with
                  | EvSaved s => Some s
                  | _ => w_durable w
                  end;
     w_calls := S (w_calls w); w_trace := e :: w_trace w; w_ticking := w_ticking w |}.
Definition set_ticking (b : bool) (w : world) : world :=
  {| w_durable := w_durable w; w_calls := w_calls w; w_trace := w_trace w; w_ticking := b |}.

Definition bot (A : Type) : Type := prog world string A.

(** A call that leaves no event, and one that does. *)
Definition ask {A} (f : nat -> result string A) : bot A := fun w => (f (w_calls w), bump w).
Definition call {A} (e : event) (f : nat -> result string A) : bot A :=
  fun w => (f (w_calls w), log e w).

(** [try { x = await m } catch (error) { ... }]: the answer, or the error's message. *)
Definition attempt {A} (m : bot A) : bot (A + string) :=
  pcatch (a <-- m; pret (inl a)) (fun message => pret (inr message)).

(** src/src/jitosol/types.ts:171-175 (TickResult) *)
Inductive TickStatus := TDisabled | TWaiting | TPending | TProgress | TComplete | TPaused | THalted.
Record TickResult := {
  tr_status : TickStatus;
  tr_reason : string;
  tr_state : option JournalState;
}.

(** src/src/jitosol/engine.ts:37-39 (result) *)
Definition tick_result (s : JournalState) (status : TickStatus) (reason : string) : TickResult :=
  {| tr_status := status; tr_reason := reason; tr_state := Some s |}.

Definition kind_name (k : ActionKind) : string :=
  match k with
  | Buy => "buy"
  | Withdraw => "withdraw"
  | Deactivate => "deactivate"
  | Claim => "claim"
  end.

(** * The engine *)
Section Engine.
Context `{Sha256} (host : Host) (config : JitoBotConfig).

Definition now : bot Z := ask (fun n => Ok (clock host n)).
Definition stopped : bot bool := ask (stopRequested host).

(** The store's [load] and [save]. *)
Definition store_load : bot (option JournalState) := fun w =>
  match load_error host (w_calls w) with
  | Some message => (Err message, bump w)
  | None => (Ok (w_durable w), bump w)
  end.
Definition store_save (s : JournalState) : bot unit := fun w =>
  match save_outcome host (w_calls w) with
  | Saved => (Ok tt, log (EvSaved s) w)
  | SaveFailedBefore message => (Err message, bump w)
  | SaveFailedAfter message => (Err message, log (EvSaved s) w)
  end.

(** src/src/jitosol/engine.ts:41-45 (save) *)
Definition save (s : JournalState) : bot JournalState :=
  let s := set_sequence (jn_sequence s + 1) s in
  _ <-- lift (validateJournalState s);
  store_save s >>>
  pret s.

(** src/src/jitosol/engine.ts:47-51 (halt) *)
Definition halt (s : JournalState) (reason : string) : bot TickResult :=
  s <-- save (set_halted reason s);
  pret (tick_result s THalted reason).

(** src/src/jitosol/engine.ts:118-124 (assertPrepared, after the clock is read) *)
Definition check_prepared (t : PendingTransaction) (kind : ActionKind) (p : Position)
    (o : option Observation) (now_ : Z) : result string unit :=
  throw_if (negb (is_safe_integer (tx_preparedAtMs t)) || (now_ <? tx_preparedAtMs t)
            || (cfg_maxObservationAgeMs config <? now_ - tx_preparedAtMs t))
    "signed transaction preparation timestamp is stale" ;;
  fee ← amount (tx_estimatedFeeLamports t);
  throw_if (fee =? 0) "transaction fee estimate is missing" ;;
  throw_if (bool_decide (kind = Buy) &&
            negb (bool_decide (ex_minJitoReceivedUnits (tx_expected t)
                               = q_minJitoOutUnits ∘ ob_quote <$> o)))
    "signed buy minimum differs from decision quote" ;;
  throw_if (bool_decide (kind = Withdraw) &&
            (match ex_stakeAddress (tx_expected t) with
             | Some a => is_empty a
             | None => true
             end ||
             negb (bool_decide (ex_jitoSpentUnits (tx_expected t)
                                = Some (pos_actualJitoReceivedUnits p)))))
    "withdrawal must consume the actual purchased token delta into a durable stake address" ;;
  (if bool_decide (kind = Withdraw) then
     minimum ← amount (default "0" (ex_minimumRedemptionLamports (tx_expected t)));
     required ← requiredRedemptionLamports config;
     throw_if (minimum <? required) "withdrawal minimum is below the original economic floor"
   else Ok tt) ;;
  throw_if ((bool_decide (kind = Deactivate) || bool_decide (kind = Claim)) &&
            negb (bool_decide (ex_stakeAddress (tx_expected t) = pos_stakeAddress p)))
    "signed transaction targets a different stake account" ;;
  throw_if (bool_decide (kind = Claim) &&
            negb (bool_decide (ex_refundableRentLamports (tx_expected t)
                               = Some (pos_stakeRentLamports p))))
    "claim must preserve known refundable stake rent".

(** src/src/jitosol/engine.ts:115-125 (assertPrepared) *)
Definition assertPrepared (t : PendingTransaction) (kind : ActionKind) (p : Position)
    (o : option Observation) : bot unit :=
  lift (throw_if (negb (bool_decide (tx_kind t = kind)) || is_empty (tx_signature t)
                  || is_empty (tx_wireTransactionBase64 t)
                  || negb (is_safe_integer (tx_lastValidBlockHeight t))
                  || (tx_lastValidBlockHeight t <=? 0))
          "invalid signed transaction identity") >>>
  now_ <-- now;
  lift (check_prepared t kind p o now_).

(** src/src/jitosol/engine.ts:151-151, 158-158: the age limit of a buy. *)
Definition buy_expired (t : PendingTransaction) : bot bool :=
  if bool_decide (tx_kind t = Buy) then
    match tx_quoteExpiresAtMs t with
    | None => pret true
    | Some at_ => now_ <-- now; pret (at_ <? now_)
    end
  else pret false.

(** src/src/jitosol/engine.ts:147-166 (broadcast) *)
Definition broadcast (s : JournalState) : bot TickResult :=
  match jn_pending s with
  | None => pthrow "Cannot broadcast without a durable pending transaction"
  | Some t =>
      stop <-- stopped;
      if stop : bool then pret (tick_result s TPaused "stop file blocks transaction broadcast") else
      expired <-- buy_expired t;
      if expired : bool then
        pret (tick_result s TPending
                "buy quote age exceeded; monitoring saved signature without further broadcast")
      else
      at_ <-- now;
      let t := tx_with_attempt (Some (default 0 (tx_broadcastAttempts t) + 1)) (Some at_) None t in
      s <-- save (set_pending (Some t) s);
      stop <-- stopped;
      if stop : bool then pret (tick_result s TPaused "stop file blocks transaction broadcast") else
      expired <-- buy_expired t;
      if expired : bool then
        pret (tick_result s TPending
                "buy quote expired during persistence; monitoring saved signature without broadcast")
      else
      pcatch
        (call (EvBroadcast t) (fun n => gw_broadcast host n t) >>>
         pret (tick_result s TPending (kind_name (tx_kind t) +:+ " submitted; awaiting finalized receipt")))
        (fun message =>
           let t := tx_with_attempt (tx_broadcastAttempts t) (tx_lastBroadcastAtMs t)
                      (Some message) t in
           s <-- save (set_pending (Some t) s);
           pret (tick_result s TPending
                   "broadcast outcome is ambiguous; retain and poll the same signature"))
  end.

(** src/src/jitosol/engine.ts:130-135: the gateway's transaction, checked. *)
Definition prepare_checked (s : JournalState) (kind : ActionKind) (p : Position)
    (o : option Observation) : bot PendingTransaction :=
  t <-- call (EvPrepare kind p) (fun n => gw_prepare host n kind p o);
  assertPrepared t kind p o >>>
  lift (
    fee ← amount (tx_estimatedFeeLamports t);
    total ← amount (jn_totalFeesLamports s);
    maxTotal ← amount (cfg_maxTotalFeesLamports config);
    throw_if (maxTotal <? total + fee) "transaction exceeds total fee authority" ;;
    fees ← amount (pos_feesLamports p);
    budget ← amount (cfg_networkBudgetLamports config);
    throw_if (budget <? fees + fee) "transaction exceeds the cycle network budget") >>>
  pret t.

(** src/src/jitosol/engine.ts:127-145 (prepare) *)
Definition prepare (s : JournalState) (kind : ActionKind) (p : Position)
    (o : option Observation) : bot TickResult :=
  stop <-- stopped;
  if stop : bool then pret (tick_result s TPaused "stop file blocks transaction preparation") else
  outcome <-- pcatch (t <-- prepare_checked s kind p o; pret (inl t))
                (fun message =>
                   r <-- halt s ("transaction preparation rejected: " +:+ message); pret (inr r));
  match outcome with
  | inr r => pret r
  | inl t =>
      let t := match o with
               | Some o => tx_with_expiry
                   (Z.min (Z.min (ob_observedAtMs o) (q_receivedAtMs (ob_quote o)))
                          (wd_checkedAtMs (ob_withdrawal o)) + cfg_maxObservationAgeMs config) t
               | None => t
               end in
      s <-- save (set_confirmation None (set_pending (Some t) (set_position (Some p) s)));
      stale <-- match o with
                | Some o => now_ <-- now; pret (negb (od_eligible (evaluateObservation o config now_)))
                | None => pret false
                end;
      if stale : bool then
        halt s "entry observation became stale or invalid during preparation; signed transaction retained and never sent"
      else broadcast s
  end.

(** src/src/jitosol/engine.ts:179-184 (validateEffects) *)
Definition validateEffects (e : TransactionEffects) : result string unit :=
  _ ← amount (eff_feeLamports e);
  for_each (fun value => match value with
                         | Some v => _ ← amount v; Ok tt
                         | None => Ok tt
                         end)
    [eff_actualInputLamports e; eff_actualJitoReceivedUnits e; eff_actualJitoSpentUnits e;
     eff_actualClaimedLamports e; eff_refundableRentLamports e; eff_nonRefundableCostLamports e].

(** What [applyEffects] leaves behind: the state it reached, and the message when
    it threw after some assignments. *)
Inductive applied :=
| Applied (s : JournalState)
| Mismatch (s : JournalState) (message : string).

(** A read that throws in the middle of [applyEffects]. *)
Definition read_amount (s : JournalState) (value : string) (k : Z -> bot applied) : bot applied :=
  match amount value with
  | Ok a => k a
  | Err message => pret (Mismatch s message)
  end.

(** src/src/jitosol/engine.ts:209-217 (applyEffects, buy) *)
Definition apply_buy (s : JournalState) (p : Position) (t : PendingTransaction)
    (e : TransactionEffects) : bot applied :=
  if negb (is_stage BuyPending p)
     || negb (bool_decide (eff_actualInputLamports e = Some (pos_inputLamports p)))
  then pret (Mismatch s "actual SOL input differs from authorized input") else
  read_amount s (default "0" (eff_actualJitoReceivedUnits e)) (fun received =>
  let p := pos_with_tokens (to_decimal received) (default "0" (eff_refundableRentLamports e)) p in
  let s := set_position (Some p) s in
  read_amount s (default "0" (ex_minJitoReceivedUnits (tx_expected t))) (fun minimum =>
  if (received <? minimum) || (received =? 0)
  then pret (Mismatch s "actual Jito delta is below signed minimum")
  else pret (Applied (set_position (Some (pos_with_stage Purchased p)) s)))).

(** src/src/jitosol/engine.ts:218-225 (applyEffects, withdraw) *)
Definition apply_withdraw (s : JournalState) (p : Position) (t : PendingTransaction)
    (e : TransactionEffects) : bot applied :=
  if negb (is_stage Purchased p)
     || negb (bool_decide (eff_actualJitoSpentUnits e = Some (pos_actualJitoReceivedUnits p)))
     || negb (bool_decide (eff_stakeAddress e = ex_stakeAddress (tx_expected t)))
  then pret (Mismatch s
    "actual withdrawal token delta or stake address differs from signed intent") else
  match eff_stakeAddress e, eff_refundableRentLamports e with
  | Some addr, Some rent =>
      if is_empty addr || is_empty rent
      then pret (Mismatch s "withdrawal receipt lacks stake address or funded rent")
      else pret (Applied (set_position (Some (pos_with_stage Withdrawn (pos_with_stake addr rent p))) s))
  | _, _ => pret (Mismatch s "withdrawal receipt lacks stake address or funded rent")
  end.

(** src/src/jitosol/engine.ts:226-230 (applyEffects, deactivate) *)
Definition apply_deactivate (s : JournalState) (p : Position) (e : TransactionEffects)
    : bot applied :=
  if negb (is_stage Withdrawn p) || negb (bool_decide (eff_stakeAddress e = pos_stakeAddress p))
  then pret (Mismatch s "deactivation targets a different stake account")
  else pret (Applied (set_position (Some (pos_with_stage Deactivated p)) s)).

(** src/src/jitosol/engine.ts:231-243 (applyEffects, claim) *)
Definition apply_claim (s : JournalState) (p : Position) (e : TransactionEffects) : bot applied :=
  let missing := pret (Mismatch s "claim receipt lacks verified principal and refundable rent") in
  match eff_actualClaimedLamports e with
  | None => missing
  | Some claimed_ =>
      if negb (is_stage Deactivated p)
         || negb (bool_decide (eff_stakeAddress e = pos_stakeAddress p))
         || negb (bool_decide (eff_refundableRentLamports e = Some (pos_stakeRentLamports p)))
      then missing else
      read_amount s claimed_ (fun claimed =>
      read_amount s (pos_stakeRentLamports p) (fun rent =>
      if claimed <? rent then pret (Mismatch s "claim is less than refundable stake rent") else
      read_amount s (pos_inputLamports p) (fun input =>
      read_amount s (pos_feesLamports p) (fun fees =>
      read_amount s (pos_nonRefundableCostLamports p) (fun cost =>
      let profit := claimed - rent - input - fees - cost in
      at_ <-- now;
      let p := pos_with_stage Complete
                 (pos_with_claim (to_decimal claimed) (to_decimal profit) at_ p) in
      let realized := to_decimal (bigint (jn_realizedProfitLamports s) + profit) in
      let s := set_realized (jn_completedCycles s) realized (jn_realizedLossLamports s)
                 (jn_completedPositions s) (set_position (Some p) s) in
      let finish loss :=
        pret (Applied (set_position None
          (set_realized (jn_completedCycles s + 1) realized loss
             (jn_completedPositions s ++ [p]) s))) in
      if profit <? 0
      then read_amount s (jn_realizedLossLamports s) (fun loss => finish (to_decimal (loss - profit)))
      else finish (jn_realizedLossLamports s))))))
  end.

(** src/src/jitosol/engine.ts:207-245 (applyEffects) *)
Definition applyEffects (s : JournalState) (p : Position) (t : PendingTransaction)
    (e : TransactionEffects) : bot applied :=
  match tx_kind t with
  | Buy => apply_buy s p t e
  | Withdraw => apply_withdraw s p t e
  | Deactivate => apply_deactivate s p e
  | Claim => apply_claim s p e
  end.

(** src/src/jitosol/engine.ts:200-204: the limits after the effects. *)
Definition conclude (s : JournalState) (p : Position) (t : PendingTransaction) : bot TickResult :=
  over <-- lift (
    total ← amount (jn_totalFeesLamports s);
    maxTotal ← amount (cfg_maxTotalFeesLamports config);
    if maxTotal <? total then Ok true else
    fees ← amount (pos_feesLamports p);
    budget ← amount (cfg_networkBudgetLamports config);
    Ok (budget <? fees));
  if over : bool then halt s "actual finalized fees exceeded the authorized budget" else
  lost <-- lift (
    loss ← amount (jn_realizedLossLamports s);
    maxLoss ← amount (cfg_maxRealizedLossLamports config);
    Ok (maxLoss <? loss));
  if lost : bool then halt s "realized loss limit exceeded" else
  s <-- save s;
  if negb (is_some (jn_position s)) && (cfg_maxCycles config <=? jn_completedCycles s)
  then pret (tick_result s TComplete "claim finalized and durable cycle limit reached")
  else pret (tick_result s TProgress (kind_name (tx_kind t) +:+ " finalized and accounted")).

(** src/src/jitosol/engine.ts:192-196: the receipt and its fee enter the ledger. *)
Definition record_receipt (s : JournalState) (p : Position) (t : PendingTransaction)
    (outcome : Outcome) (e : TransactionEffects) : bot (JournalState * Position) :=
  totals <-- lift (
    total ← amount (jn_totalFeesLamports s);
    fee ← amount (eff_feeLamports e);
    fees ← amount (pos_feesLamports p);
    cost ← amount (pos_nonRefundableCostLamports p);
    extra ← amount (default "0" (eff_nonRefundableCostLamports e));
    Ok (total + fee, fees + fee, cost + extra));
  let '(total, fees, cost) := totals in
  let p := pos_with_costs (to_decimal fees) (to_decimal cost) p in
  at_ <-- now;
  let r := {| rc_positionId := pos_id p; rc_transaction := t; rc_outcome := outcome;
              rc_effects := e; rc_recordedAtMs := at_ |} in
  pret (set_pending None (set_receipts (to_decimal total) (jn_transactions s ++ [r])
          (set_position (Some p) s)), p).

(** src/src/jitosol/engine.ts:186-205 (finalized); [error] is the failure's message,
    absent for a success. *)
Definition finalized (s : JournalState) (t : PendingTransaction) (e : TransactionEffects)
    (error : option string) : bot TickResult :=
  match validateEffects e with
  | Err message =>
      halt s ("finalized receipt cannot be accounted: " +:+ message
              +:+ "; retain pending signature for operator")
  | Ok _ =>
  match jn_position s with
  | None => halt s "finalized transaction has no durable position"
  | Some p =>
      sp <-- record_receipt s p t (if is_some error then OutFailed else OutFinalized) e;
      let '(s, p) := sp in
      match error with
      | Some message =>
          halt s ("finalized " +:+ kind_name (tx_kind t) +:+ " failed: " +:+ message
                  +:+ "; actual fee recorded")
      | None =>
          outcome <-- applyEffects s p t e;
          match outcome with
          | Mismatch s message =>
              halt s ("finalized " +:+ kind_name (tx_kind t) +:+ " effects mismatch: " +:+ message
                      +:+ "; receipt and actual fee recorded")
          | Applied s => conclude s p t
          end
      end
  end end.

(** src/src/jitosol/engine.ts:168-177 (pending) *)
Definition pending (s : JournalState) : bot TickResult :=
  match jn_pending s with
  | None => pthrow "Cannot poll without a durable pending transaction"
  | Some t =>
      outcome <-- attempt (call (EvPoll t) (fun n => poll host n t));
      match outcome with
      | inr message => pret (tick_result s TPending
          ("signature status unavailable; no replacement allowed: " +:+ message))
      | inl SigPending => broadcast s
      | inl (SigUnknown reason) =>
          halt s ("unknown transaction finality: " +:+ reason +:+ "; operator recovery required")
      | inl (SigExpired reason) =>
          halt s ("expired transaction finality: " +:+ reason +:+ "; operator recovery required")
      | inl (SigFinalized e) => finalized s t e None
      | inl (SigFailed e message) => finalized s t e (Some message)
      end
  end.

(** src/src/jitosol/engine.ts:90-113 (entry) *)
Definition entry (s : JournalState) : bot TickResult :=
  outcome <-- attempt (call EvObserve (fun n => observe host n config));
  match outcome with
  | inr message =>
      s <-- save (set_confirmation None s);
      pret (tick_result s TWaiting ("observation unavailable: " +:+ message))
  | inl o =>
      now_ <-- now;
      let decision := evaluateObservation o config now_ in
      if negb (od_eligible decision) then
        s <-- save (set_confirmation None s);
        pret (tick_result s TWaiting (od_reason decision))
      else
      let restart :=
        match jn_confirmation s with
        | None => true
        | Some first =>
            (cfg_maxConfirmationGapMs config <? ob_observedAtMs o - cf_observedAtMs first)
            || (ob_observedAtMs o <? cf_observedAtMs first)
        end in
      match jn_confirmation s, restart with
      | Some first, false =>
          if ob_observedAtMs o - cf_observedAtMs first <? cfg_confirmationDelayMs config
          then pret (tick_result s TWaiting "confirmation delay has not elapsed") else
          if bool_decide (q_id (ob_quote o) = cf_quoteId first)
             || (q_contextSlot (ob_quote o) <=? cf_contextSlot first)
          then pret (tick_result s TWaiting "confirmation must use a newer quote and chain context")
          else
          id <-- ask (fun n => Ok (randomUUID host n));
          prepare s Buy
            {| pos_id := id; pos_stage := BuyPending; pos_openedAtMs := now_;
               pos_inputLamports := cfg_inputLamports config; pos_actualJitoReceivedUnits := "0";
               pos_stakeAddress := None; pos_stakeRentLamports := "0";
               pos_tokenAccountRentLamports := "0"; pos_feesLamports := "0";
               pos_nonRefundableCostLamports := "0"; pos_actualClaimedLamports := None;
               pos_realizedProfitLamports := None; pos_completedAtMs := None |} (Some o)
      | _, _ =>
          s <-- save (set_confirmation
                 (Some {| cf_quoteId := q_id (ob_quote o); cf_observedAtMs := ob_observedAtMs o;
                          cf_contextSlot := q_contextSlot (ob_quote o) |}) s);
          pret (tick_result s TWaiting
                  "first qualifying observation recorded; wait for an independent fresh quote")
      end
  end.

(** src/src/jitosol/engine.ts:73-82 (runTick, deactivated) *)
Definition claim_when_ready (s : JournalState) (p : Position) : bot TickResult :=
  outcome <-- attempt (call (EvCanClaim p) (fun n => canClaim host n p));
  match outcome with
  | inr message => pret (tick_result s TWaiting ("claim readiness unavailable: " +:+ message))
  | inl readiness =>
      now_ <-- now;
      if negb (is_safe_integer (cr_observedAtMs readiness)) || (now_ <? cr_observedAtMs readiness)
         || (cfg_maxObservationAgeMs config <? now_ - cr_observedAtMs readiness)
      then pret (tick_result s TWaiting "claim readiness is stale") else
      if negb (cr_inactive readiness)
      then pret (tick_result s TWaiting "stake is not actually inactive") else
      amounts <-- lift (claimable ← amount (cr_claimableLamports readiness);
                        rent ← amount (pos_stakeRentLamports p); Ok (claimable, rent));
      if fst amounts <=? snd amounts then halt s "inactive stake has no claimable principal"
      else prepare s Claim p None
  end.

(** src/src/jitosol/engine.ts:54-63 (runTick): load, or start, the journal. *)
Definition initial_journal : JournalState :=
  {| jn_version := 1; jn_configFingerprint := configFingerprint config; jn_sequence := 0;
     jn_status := Running; jn_haltReason := None; jn_completedCycles := 0;
     jn_totalFeesLamports := "0"; jn_realizedProfitLamports := "0";
     jn_realizedLossLamports := "0"; jn_confirmation := None; jn_position := None;
     jn_pending := None; jn_transactions := []; jn_completedPositions := [] |}.
Definition open_journal : bot JournalState :=
  loaded <-- store_load;
  match loaded with
  | Some s =>
      s <-- lift (validateJournalState s);
      lift (throw_if (negb (bool_decide (jn_configFingerprint s = configFingerprint config)))
        "Journal configuration fingerprint does not match: explicit operator migration required") >>>
      lift (throw_if (match jn_position s with
                      | Some p => negb (bool_decide (pos_inputLamports p = cfg_inputLamports config))
                      | None => false
                      end) "Journal position amount does not match configuration") >>>
      pret s
  | None => save initial_journal
  end.

(** src/src/jitosol/engine.ts:64-87 (runTick): one decision on the journal. *)
Definition decide_tick (s : JournalState) : bot TickResult :=
  match jn_status s with
  | Halted => pret (tick_result s THalted (default "operator recovery required" (jn_haltReason s)))
  | Running =>
  match jn_pending s with
  | Some _ => pending s
  | None =>
      if negb (is_some (jn_position s)) && (cfg_maxCycles config <=? jn_completedCycles s)
      then pret (tick_result s TComplete "durable cycle limit reached") else
      lost <-- lift (loss ← amount (jn_realizedLossLamports s);
                     maxLoss ← amount (cfg_maxRealizedLossLamports config);
                     Ok (maxLoss <? loss));
      if lost : bool then halt s "realized loss limit exceeded" else
      stop <-- stopped;
      if stop : bool then pret (tick_result s TPaused "stop file blocks transaction mutations") else
      match jn_position s with
      | Some p =>
          match pos_stage p with
          | Purchased => prepare s Withdraw p None
          | Withdrawn => prepare s Deactivate p None
          | Deactivated => claim_when_ready s p
          | BuyPending | Complete =>
              halt s "position has no pending transaction and cannot safely advance"
          end
      | None =>
          short <-- lift (maxTotal ← amount (cfg_maxTotalFeesLamports config);
                          total ← amount (jn_totalFeesLamports s);
                          budget ← amount (cfg_networkBudgetLamports config);
                          Ok (maxTotal - total <? budget));
          if short : bool
          then halt s "explicit fee authority is insufficient for another complete cycle"
          else entry s
      end
  end end.

(** src/src/jitosol/engine.ts:53-88 (runTick) *)
Definition runTick : bot TickResult :=
  s <-- open_journal;
  decide_tick s.

(** src/src/jitosol/engine.ts:30-35 (tick) *)
Definition tick : bot TickResult := fun w =>
  if negb (cfg_enabled config)
  then (Ok {| tr_status := TDisabled; tr_reason := "bot configuration is disabled";
              tr_state := None |}, w)
  else if w_ticking w then (Err "Concurrent engine ticks are forbidden", w)
  else let '(r, w') := runTick (set_ticking true w) in (r, set_ticking false w').
End Engine.

(** * A concrete host

    A market that stays attractive and a chain that finalizes everything, on a
    clock of 300 ms per call. *)
Definition no_expectation : Expected :=
  {| ex_stakeAddress := None; ex_minJitoReceivedUnits := None; ex_jitoSpentUnits := None;
     ex_refundableRentLamports := None; ex_minimumRedemptionLamports := None |}.
Definition sample_clock (n : nat) : Z := 1000000 + 300 * Z.of_nat n.
Definition sample_transaction (n : nat) (kind : ActionKind) (ex : Expected) : PendingTransaction :=
  {| tx_kind := kind; tx_signature := "sig" +:+ to_decimal (Z.of_nat n);
     tx_wireTransactionBase64 := "AQID"; tx_lastValidBlockHeight := 500;
     tx_preparedAtMs := sample_clock n; tx_quoteExpiresAtMs := None;
     tx_estimatedFeeLamports := "5000"; tx_expected := ex; tx_broadcastAttempts := None;
     tx_lastBroadcastAtMs := None; tx_lastBroadcastError := None |}.
Definition sample_prepare (n : nat) (kind : ActionKind) (p : Position) (o : option Observation)
    : result string PendingTransaction :=
  Ok (sample_transaction n kind
    match kind with
    | Buy => {| ex_stakeAddress := None;
                ex_minJitoReceivedUnits := q_minJitoOutUnits ∘ ob_quote <$> o;
                ex_jitoSpentUnits := None; ex_refundableRentLamports := None;
                ex_minimumRedemptionLamports := None |}
    | Withdraw => {| ex_stakeAddress := Some "stake"; ex_minJitoReceivedUnits := None;
                     ex_jitoSpentUnits := Some (pos_actualJitoReceivedUnits p);
                     ex_refundableRentLamports := None;
                     ex_minimumRedemptionLamports := Some "3110000000" |}
    | Deactivate => {| ex_stakeAddress := pos_stakeAddress p; ex_minJitoReceivedUnits := None;
                       ex_jitoSpentUnits := None; ex_refundableRentLamports := None;
                       ex_minimumRedemptionLamports := None |}
    | Claim => {| ex_stakeAddress := pos_stakeAddress p; ex_minJitoReceivedUnits := None;
                  ex_jitoSpentUnits := None;
                  ex_refundableRentLamports := Some (pos_stakeRentLamports p);
                  ex_minimumRedemptionLamports := None |}
    end).
Definition sample_effects (t : PendingTransaction) : TransactionEffects :=
  {| eff_feeLamports := "5000";
     eff_actualInputLamports := if decide (tx_kind t = Buy) then Some "3000000000" else None;
     eff_actualJitoReceivedUnits := if decide (tx_kind t = Buy) then Some "2600000000" else None;
     eff_actualJitoSpentUnits := ex_jitoSpentUnits (tx_expected t);
     eff_stakeAddress := ex_stakeAddress (tx_expected t);
     eff_actualClaimedLamports := if decide (tx_kind t = Claim) then Some "3114282880" else None;
     eff_refundableRentLamports := if decide (tx_kind t = Deactivate) then None else Some "2282880";
     eff_nonRefundableCostLamports := None |}.
Definition sample_host : Host :=
  {| observe := fun n _ => Ok (sample_observation (sample_clock n) ("q" +:+ to_decimal (Z.of_nat n))
                                 (Z.of_nat n));
     gw_prepare := sample_prepare; gw_broadcast := fun _ _ => Ok tt;
     poll := fun _ t => Ok (SigFinalized (sample_effects t));
     canClaim := fun n p => Ok {| cr_inactive := true; cr_observedAtMs := sample_clock n;
                                  cr_claimableLamports := "3114282880" |};
     load_error := fun _ => None; save_outcome := fun _ => Saved; clock := sample_clock;
     stopRequested := fun _ => Ok false;
     randomUUID := fun n => "position" +:+ to_decimal (Z.of_nat n) |}.
Definition hex64 : string := "0123456789abcdef0123456789abcdef0123456789abcdef0123456789abcdef".
Definition empty_world : world :=
  {| w_durable := None; w_calls := 0; w_trace := []; w_ticking := false |}.
Fixpoint ticks `{Sha256} (host : Host) (c : JitoBotConfig) (n : nat) (w : world)
    : list (result string TickResult) * world :=
  match n with
  | O => ([], w)
  | S n => let '(r, w1) := tick host c w in let '(rs, w2) := ticks host c n w1 in (r :: rs, w2)
  end.
