(* ===== verification/JitoLifecycle.v ===== *)
(** The life of a staking cycle as an abstract machine on the durable journal, and
    the refinement of the engine to it: whatever the gateway, the clock, the stop
    switch and the disk do, every state a tick makes durable follows from the
    previous durable state by one step of the machine, and every transaction it
    sends is the pending one of the state on disk. *)
From S2P Require Import Prelude Text Types Json JitoConfig JitoJournal JitoEngine.
From Stdlib Require Import String Relations.
Local Open Scope string_scope.
Local Open Scope list_scope.
Local Open Scope Z_scope.

(** * The machine *)

(** A pending transaction without its broadcast bookkeeping. *)
Definition identity (t : PendingTransaction) : PendingTransaction := tx_with_attempt None None None t.

Definition valid_journal (s : JournalState) : Prop := journal_shape s = true /\ ledger_ok s.

(** The four actions of a cycle and the stages between them. *)
Definition next_action (st : Stage) : option ActionKind :=
  match st with
  | Purchased => Some Withdraw
  | Withdrawn => Some Deactivate
  | Deactivated => Some Claim
  | BuyPending | Complete => None
  end.
Definition stage_before (k : ActionKind) : Stage :=
  match k with
  | Buy => BuyPending
  | Withdraw => Purchased
  | Deactivate => Withdrawn
  | Claim => Deactivated
  end.
Definition stage_after (k : ActionKind) : Stage :=
  match k with
  | Buy => Purchased
  | Withdraw => Withdrawn
  | Deactivate => Deactivated
  | Claim => Complete
  end.

Definition same_realized (s s' : JournalState) : Prop :=
  jn_completedCycles s' = jn_completedCycles s /\
  jn_realizedProfitLamports s' = jn_realizedProfitLamports s /\
  jn_realizedLossLamports s' = jn_realizedLossLamports s /\
  jn_completedPositions s' = jn_completedPositions s.
Definition same_ledger (s s' : JournalState) : Prop :=
  jn_transactions s' = jn_transactions s /\
  jn_totalFeesLamports s' = jn_totalFeesLamports s /\ same_realized s s'.

(** A transaction may become pending for a fresh position below the cycle limit,
    or for the position in hand when its stage calls for it. *)
Definition launch (c : JitoBotConfig) (s : JournalState) (p : Position) (k : ActionKind) : Prop :=
  match jn_position s with
  | None => k = Buy /\ pos_stage p = BuyPending /\ pos_inputLamports p = cfg_inputLamports c /\
      pos_feesLamports p = "0" /\ jn_completedCycles s < cfg_maxCycles c
  | Some q => p = q /\ next_action (pos_stage q) = Some k
  end.

(** The fee authority and the economic floor a new transaction respects. *)
Definition authorised (c : JitoBotConfig) (s : JournalState) (p : Position)
    (t : PendingTransaction) : Prop :=
  exists fee total fees maxTotal budget,
    amount (tx_estimatedFeeLamports t) = Ok fee /\ 0 < fee /\
    amount (jn_totalFeesLamports s) = Ok total /\ amount (pos_feesLamports p) = Ok fees /\
    amount (cfg_maxTotalFeesLamports c) = Ok maxTotal /\ total + fee <= maxTotal /\
    amount (cfg_networkBudgetLamports c) = Ok budget /\ fees + fee <= budget /\
    (tx_kind t = Withdraw ->
     ex_jitoSpentUnits (tx_expected t) = Some (pos_actualJitoReceivedUnits p) /\
     exists minimum required,
       amount (default "0" (ex_minimumRedemptionLamports (tx_expected t))) = Ok minimum /\
       requiredRedemptionLamports c = Ok required /\ required <= minimum) /\
    (tx_kind t = Deactivate \/ tx_kind t = Claim ->
     ex_stakeAddress (tx_expected t) = pos_stakeAddress p).

(** The receipt's fee and costs, charged to the ledger and to the position. *)
Definition charged (s s' : JournalState) (p p' : Position) (e : TransactionEffects) : Prop :=
  exists total fee fees cost extra,
    amount (jn_totalFeesLamports s) = Ok total /\ amount (eff_feeLamports e) = Ok fee /\
    amount (pos_feesLamports p) = Ok fees /\ amount (pos_nonRefundableCostLamports p) = Ok cost /\
    amount (default "0" (eff_nonRefundableCostLamports e)) = Ok extra /\
    jn_totalFeesLamports s' = to_decimal (total + fee) /\
    p' = pos_with_costs (to_decimal (fees + fee)) (to_decimal (cost + extra)) p.

(** A claimed position with its realized profit. *)
Record claimed_position (p pc : Position) (profit : Z) : Prop := {
  cp_stage : pos_stage pc = Complete;
  cp_id : pos_id pc = pos_id p;
  cp_account : exists claimed rent input fees cost,
    pos_actualClaimedLamports pc = Some (to_decimal claimed) /\
    amount (pos_stakeRentLamports pc) = Ok rent /\ amount (pos_inputLamports pc) = Ok input /\
    amount (pos_feesLamports pc) = Ok fees /\
    amount (pos_nonRefundableCostLamports pc) = Ok cost /\ rent <= claimed /\
    profit = claimed - rent - input - fees - cost /\
    pos_realizedProfitLamports pc = Some (to_decimal profit);
}.

Inductive settled (s s' : JournalState) (p : Position) (t : PendingTransaction) : Prop :=
| settled_halted p' :
    jn_status s' = Halted -> same_realized s s' -> jn_position s' = Some p' ->
    pos_stage p' = pos_stage p -> pos_feesLamports p' = pos_feesLamports p -> settled s s' p t
| settled_advanced p' :
    tx_kind t <> Claim -> same_realized s s' -> jn_position s' = Some p' ->
    pos_stage p = stage_before (tx_kind t) -> pos_stage p' = stage_after (tx_kind t) ->
    pos_feesLamports p' = pos_feesLamports p -> settled s s' p t
| settled_claimed pc profit :
    tx_kind t = Claim -> pos_stage p = Deactivated -> jn_position s' = None ->
    claimed_position p pc profit ->
    jn_completedPositions s' = jn_completedPositions s ++ [pc] ->
    jn_completedCycles s' = jn_completedCycles s + 1 ->
    jn_realizedProfitLamports s' = to_decimal (bigint (jn_realizedProfitLamports s) + profit) ->
    settled s s' p t.

Inductive journal_step (c : JitoBotConfig) (s s' : JournalState) : Prop :=
| step_note :
    same_ledger s s' -> jn_position s' = jn_position s ->
    identity <$> jn_pending s' = identity <$> jn_pending s -> journal_step c s s'
| step_prepare t p :
    same_ledger s s' -> jn_status s' = Running -> jn_pending s = None ->
    jn_pending s' = Some t -> jn_position s' = Some p ->
    launch c s p (tx_kind t) -> authorised c s p t -> journal_step c s s'
| step_receipt t p p' outcome e at_ :
    jn_pending s = Some t -> jn_position s = Some p -> jn_pending s' = None ->
    jn_transactions s' = jn_transactions s ++
      [{| rc_positionId := pos_id p; rc_transaction := t; rc_outcome := outcome;
          rc_effects := e; rc_recordedAtMs := at_ |}] ->
    charged s s' p p' e -> settled s s' p' t -> journal_step c s s'.

(** One durable write: the machine moves, from a running journal to a valid one. *)
Record durable_step (c : JitoBotConfig) (s s' : JournalState) : Prop := {
  ds_running : jn_status s = Running;
  ds_sequence : jn_sequence s' = jn_sequence s + 1;
  ds_fingerprint : jn_configFingerprint s' = jn_configFingerprint s;
  ds_valid : valid_journal s';
  ds_step : journal_step c s s';
}.

(** * Traces *)
Section Traces.
Context `{Sha256} (c : JitoBotConfig).

Definition first_journal : JournalState := set_sequence 1 (initial_journal c).

(** What each event means, given the journal on disk when it happens. *)
Definition event_ok (d : option JournalState) (e : event) : Prop :=
  match e with
  | EvSaved s' =>
      match d with
      | None => s' = first_journal /\ valid_journal s'
      | Some s => durable_step c s s'
      end
  | EvBroadcast t =>
      exists s, d = Some s /\ jn_status s = Running /\ jn_pending s = Some t
  | EvPoll t => exists s, d = Some s /\ jn_status s = Running /\ jn_pending s = Some t
  | EvPrepare k p =>
      exists s, d = Some s /\ jn_status s = Running /\ jn_pending s = None /\ launch c s p k
  | EvObserve =>
      exists s, d = Some s /\ jn_status s = Running /\ jn_pending s = None /\
        jn_position s = None /\ jn_completedCycles s < cfg_maxCycles c
  | EvCanClaim p =>
      exists s, d = Some s /\ jn_status s = Running /\ jn_pending s = None /\
        jn_position s = Some p /\ pos_stage p = Deactivated
  end.

Fixpoint durable_after (d : option JournalState) (tr : list event) : option JournalState :=
  match tr with
  | [] => d
  | EvSaved s :: _ => Some s
  | _ :: tr' => durable_after d tr'
  end.
Fixpoint trace_ok (d : option JournalState) (tr : list event) : Prop :=
  match tr with
  | [] => True
  | e :: tr' => event_ok (durable_after d tr') e /\ trace_ok d tr'
  end.

(** [w] is reached from [w0] by events that are all justified. *)
Definition follows (w0 w : world) : Prop :=
  exists tr, w_trace w = tr ++ w_trace w0 /\ trace_ok (w_durable w0) tr /\
    w_durable w = durable_after (w_durable w0) tr.

(** The same, with [s] on disk. *)
Definition synced (w0 : world) (s : JournalState) (w : world) : Prop :=
  follows w0 w /\ w_durable w = Some s.

Lemma follows_refl w : follows w w.
Proof. by exists []. Qed.

Lemma follows_bump w0 w : follows w0 w -> follows w0 (bump w).
Proof. done. Qed.

Lemma follows_log w0 w e : follows w0 w -> event_ok (w_durable w) e -> follows w0 (log e w).
Proof.
  intros (tr & Htr & Hok & Hd) He. exists (e :: tr). cbn. rewrite Htr.
  split; [done|]. rewrite <- Hd. split; [done|]. destruct e; done.
Qed.
End Traces.

(** * Refinement *)
Section Refinement.
Context `{Sha256} (host : Host) (c : JitoBotConfig) (w0 : world).

Definition safe {A : Type} (_ : A) (w : world) : Prop := follows c w0 w.
Notation "s ⊢ m" := (triple (E:=string) (synced c w0 s) m safe safe) (at level 80).

Lemma ask_triple {A} s (f : nat -> result string A) :
  triple (synced c w0 s) (ask f) (fun _ => synced c w0 s) (fun _ => synced c w0 s).
Proof. intros w [Hw Hd]. cbn. by destruct (f (w_calls w)). Qed.

Lemma call_triple {A} s e (f : nat -> result string A) :
  (forall s', e <> EvSaved s') -> event_ok c (Some s) e ->
  triple (synced c w0 s) (call e f) (fun _ => synced c w0 s) (fun _ => synced c w0 s).
Proof.
  intros He Hok w [Hw Hd]. cbn.
  assert (synced c w0 s (log e w)).
  { split; [apply follows_log; [done | by rewrite Hd]|]. destruct e; naive_solver. }
  by destruct (f (w_calls w)).
Qed.

Lemma attempt_triple {A} s e (f : nat -> result string A) :
  (forall s', e <> EvSaved s') -> event_ok c (Some s) e ->
  triple (E:=string) (synced c w0 s) (attempt (call e f)) (fun _ => synced c w0 s)
    (fun _ w => follows c w0 w).
Proof.
  intros He Hok. apply (triple_catch _ _ _ (fun _ => synced c w0 s)).
  - eapply triple_bind; [by apply call_triple|]. intros a. by apply triple_ret.
  - intros m. by apply triple_ret.
Qed.

Lemma synced_safe s A (m : bot A) Q :
  triple (synced c w0 s) m Q (fun _ => synced c w0 s) -> triple (synced c w0 s) m Q safe.
Proof. intros Hm. eapply triple_weaken; [exact Hm| | |]; auto. intros e w Hw. apply Hw. Qed.

Lemma done_triple {A} s (a : A) : s ⊢ pret a.
Proof. apply triple_ret. intros w Hw; apply Hw. Qed.

Lemma fail_triple {A} s m : s ⊢ (pthrow m : bot A).
Proof. apply triple_throw. intros w Hw; apply Hw. Qed.

Lemma ask_then {A B} s (f : nat -> result string A) (k : A -> bot B) :
  (forall a, s ⊢ k a) -> s ⊢ pbind (ask f) k.
Proof. intros Hk. eapply triple_bind; [apply synced_safe, ask_triple | exact Hk]. Qed.

Lemma lift_then {A B} s (m : result string A) (k : A -> bot B) :
  (forall a, m = Ok a -> s ⊢ k a) -> s ⊢ pbind (lift m) k.
Proof.
  intros Hk. apply (triple_bind _ _ (synced c w0 s) (fun a w => m = Ok a /\ synced c w0 s w)).
  - apply triple_lift; [auto | intros e _ w Hw; apply Hw].
  - intros a w [Ha Hw]. by apply (Hk a Ha w).
Qed.

Lemma save_triple s0 s :
  jn_status s0 = Running -> jn_sequence s = jn_sequence s0 ->
  jn_configFingerprint s = jn_configFingerprint s0 ->
  journal_step c s0 (set_sequence (jn_sequence s + 1) s) ->
  triple (synced c w0 s0) (save host s)
    (fun s' w => s' = set_sequence (jn_sequence s + 1) s /\ synced c w0 s' w) safe.
Proof.
  intros Hrun Hseq Hfp Hstep. unfold save.
  set (s' := set_sequence _ s) in *. unfold pbind, lift. intros w [Hw Hd].
  destruct (validateJournalState s') as [s''|m] eqn:Hv; [|done].
  apply validateJournalState_Ok in Hv as (-> & Hshape & Hledger).
  assert (synced c w0 s' (log (EvSaved s') w)) as Hlog.
  { split; [|done]. apply follows_log; [done|]. rewrite Hd. cbn.
    constructor; try done. cbn. lia. }
  unfold store_save. destruct (save_outcome _ _); cbn; [done | done |]. by destruct Hlog.
Qed.

(** Save a successor of the journal on disk, then go on from it. *)
Lemma save_then {B} s0 s (k : JournalState -> bot B) :
  jn_status s0 = Running -> jn_sequence s = jn_sequence s0 ->
  jn_configFingerprint s = jn_configFingerprint s0 ->
  journal_step c s0 (set_sequence (jn_sequence s + 1) s) ->
  set_sequence (jn_sequence s + 1) s ⊢ k (set_sequence (jn_sequence s + 1) s) ->
  s0 ⊢ pbind (save host s) k.
Proof.
  intros Hrun Hseq Hfp Hstep Hk. eapply triple_bind; [by apply save_triple|].
  intros s' w [-> Hw]. by apply Hk.
Qed.

Lemma halt_triple s0 s reason :
  jn_status s0 = Running -> jn_sequence s = jn_sequence s0 ->
  jn_configFingerprint s = jn_configFingerprint s0 ->
  journal_step c s0 (set_sequence (jn_sequence s + 1) (set_halted reason s)) ->
  s0 ⊢ halt host s reason.
Proof. intros. unfold halt. apply save_then; try done. apply done_triple. Qed.

Lemma halt_here s reason : jn_status s = Running -> s ⊢ halt host s reason.
Proof. intros. apply halt_triple; try done. by apply step_note. Qed.

Lemma buy_expired_then {B} s t (k : bool -> bot B) :
  (forall b, s ⊢ k b) -> s ⊢ pbind (buy_expired host t) k.
Proof.
  intros Hk. unfold buy_expired. destruct (bool_decide _).
  - destruct (tx_quoteExpiresAtMs t) as [at_|]; [|apply Hk].
    intros w Hw. unfold now, pbind, ask, pret. apply (Hk _ (bump w)). done.
  - apply Hk.
Qed.

Lemma identity_attempt a b d t : identity (tx_with_attempt a b d t) = identity t.
Proof. reflexivity. Qed.

Lemma broadcast_triple s : jn_status s = Running -> s ⊢ broadcast host s.
Proof.
  intros Hrun. unfold broadcast. destruct (jn_pending s) as [t|] eqn:Hp; [|apply fail_triple].
  apply ask_then. intros [|]; [apply done_triple|].
  apply buy_expired_then. intros [|]; [apply done_triple|].
  apply ask_then. intros at_. set (t1 := tx_with_attempt _ _ _ t).
  apply save_then; try done.
  { apply step_note; try done. cbn. by rewrite Hp. }
  set (s1 := set_sequence _ _).
  apply ask_then. intros [|]; [apply done_triple|].
  apply buy_expired_then. intros [|]; [apply done_triple|].
  apply (triple_catch _ _ _ (fun _ => synced c w0 s1)).
  - eapply triple_bind.
    + apply call_triple; [done|]. by exists s1.
    + intros u. apply triple_ret. intros w Hw; apply Hw.
  - intros m. apply save_then; try done; [|apply done_triple]. by apply step_note.
Qed.

Definition prepared (t : PendingTransaction) (kind : ActionKind) (p : Position) : Prop :=
  tx_kind t = kind /\ (exists fee, amount (tx_estimatedFeeLamports t) = Ok fee /\ 0 < fee) /\
  (kind = Withdraw ->
   ex_jitoSpentUnits (tx_expected t) = Some (pos_actualJitoReceivedUnits p) /\
   exists minimum required,
     amount (default "0" (ex_minimumRedemptionLamports (tx_expected t))) = Ok minimum /\
     requiredRedemptionLamports c = Ok required /\ required <= minimum) /\
  (kind = Deactivate \/ kind = Claim -> ex_stakeAddress (tx_expected t) = pos_stakeAddress p).

Lemma check_prepared_Ok t kind p o now_ u :
  tx_kind t = kind -> check_prepared c t kind p o now_ = Ok u -> prepared t kind p.
Proof.
  unfold check_prepared. intros Hk Hc. apply bind_Ok in Hc as (u1 & _ & Hc).
  apply bind_Ok in Hc as (fee & Hfee & Hc). apply bind_Ok in Hc as (u2 & Hf0 & Hc).
  apply bind_Ok in Hc as (u3 & _ & Hc). apply bind_Ok in Hc as (u4 & Hspent & Hc).
  apply bind_Ok in Hc as (u5 & Hmin & Hc). apply bind_Ok in Hc as (u6 & Hstake & _).
  apply throw_if_Ok in Hf0, Hspent, Hstake. split; [done|]. split.
  { exists fee. split; [done|]. apply amount_bounds in Hfee. bool_prop. lia. }
  split.
  - intros ->. rewrite bool_decide_eq_true_2 in Hspent, Hmin by done. cbn in Hspent.
    bool_prop. split; [done|]. result_inv. bool_prop. eauto.
  - intros Hd. destruct (bool_decide (kind = Deactivate) || bool_decide (kind = Claim)) eqn:Hb.
    + cbn in Hstake. by bool_prop.
    + bool_prop. naive_solver.
Qed.

Lemma assertPrepared_triple s t kind p o :
  triple (E:=string) (synced c w0 s) (assertPrepared host c t kind p o)
    (fun _ w => synced c w0 s w /\ prepared t kind p) (fun _ => synced c w0 s).
Proof.
  intros w Hw. unfold assertPrepared, pbind, lift, now, ask.
  destruct (throw_if _ _) as [u|m] eqn:Hid; [|done]. apply throw_if_Ok in Hid. bool_prop.
  destruct (check_prepared _ _ _ _ _ _) as [u'|e] eqn:Hm; [|done].
  split; [done|]. by eapply check_prepared_Ok.
Qed.

Lemma prepare_checked_triple s kind p o :
  jn_status s = Running -> jn_pending s = None -> launch c s p kind ->
  triple (E:=string) (synced c w0 s) (prepare_checked host c s kind p o)
    (fun t w => synced c w0 s w /\ tx_kind t = kind /\ authorised c s p t)
    (fun _ => synced c w0 s).
Proof.
  intros Hrun Hp Hl. unfold prepare_checked. eapply triple_bind.
  { apply call_triple; [done|]. by exists s. }
  intros t. eapply triple_bind; [apply assertPrepared_triple|]. intros u w [Hw Ht].
  unfold pbind, lift. destruct (_ ← amount _; _) as [u'|e] eqn:Hm; [|done].
  split; [done|]. destruct Ht as (Hk & (fee & Hfee & Hpos) & Hwd & Hst). split; [done|].
  rewrite Hfee in Hm. change (Ok fee ≫= ?k) with (k fee) in Hm. cbv beta in Hm. result_inv. bool_prop.
  exists fee. do 4 eexists. rewrite Hk. do 4 (split; [eassumption|]).
  split; [eassumption|]. split; [lia|]. split; [eassumption|]. split; [lia|]. done.
Qed.

Lemma prepare_triple s kind p o :
  jn_status s = Running -> jn_pending s = None -> launch c s p kind ->
  s ⊢ prepare host c s kind p o.
Proof.
  intros Hrun Hp Hl. unfold prepare. apply ask_then. intros [|]; [apply done_triple|].
  apply (triple_bind _ _ _ (fun r w => match r with
    | inl t => synced c w0 s w /\ tx_kind t = kind /\ authorised c s p t
    | inr _ => follows c w0 w
    end)).
  - apply (triple_catch _ _ _ (fun _ => synced c w0 s)).
    + eapply triple_bind; [by apply prepare_checked_triple|]. intros t. by apply triple_ret.
    + intros m. eapply triple_bind; [by apply halt_here|]. intros r. by apply triple_ret.
  - intros [t|r]; [|by apply triple_ret]. intros w (Hw & Hk & Ha). revert w Hw.
    set (t' := match o with Some _ => _ | None => _ end).
    assert (tx_kind t' = kind /\ authorised c s p t') as [Hk' Ha'] by (by destruct o).
    clearbody t'. refine (save_then s
      (set_confirmation None (set_pending (Some t') (set_position (Some p) s))) _
      Hrun eq_refl eq_refl _ _).
    { eapply (step_prepare _ _ _ t' p); try done. by rewrite Hk'. }
    set (s1 := set_sequence _ _). assert (jn_status s1 = Running) by done.
    apply (triple_bind _ _ _ (fun _ => synced c w0 s1)).
    + by destruct o as [o|]; intros w Hw.
    + intros [|]; [by apply halt_here | by apply broadcast_triple].
Qed.

(** The journal after a receipt: what the later assignments leave alone. *)
Record receipted (s s1 s2 : JournalState) : Prop := {
  rp_sequence : jn_sequence s2 = jn_sequence s;
  rp_fingerprint : jn_configFingerprint s2 = jn_configFingerprint s;
  rp_pending : jn_pending s2 = None;
  rp_transactions : jn_transactions s2 = jn_transactions s1;
  rp_fees : jn_totalFeesLamports s2 = jn_totalFeesLamports s1;
}.

Lemma settled_ext s s2 s3 p t :
  settled s s2 p t -> (jn_status s2 = Halted -> jn_status s3 = Halted) ->
  jn_position s3 = jn_position s2 -> same_realized s2 s3 -> settled s s3 p t.
Proof.
  intros Hs Hst Hpos (Hc & Hp & Hl & Hd). destruct Hs as [p' ? (? & ? & ? & ?)|p' ? (? & ? & ? & ?)|pc].
  - eapply (settled_halted _ _ _ _ p'); try congruence; [auto|]. repeat split; congruence.
  - eapply (settled_advanced _ _ _ _ p'); try congruence. repeat split; congruence.
  - eapply (settled_claimed _ _ _ _ pc profit); congruence.
Qed.

Record recorded (s : JournalState) (p : Position) (t : PendingTransaction)
    (e : TransactionEffects) (s1 : JournalState) (p1 : Position) : Prop := {
  re_receipted : receipted s s1 s1;
  re_realized : same_realized s s1;
  re_position : jn_position s1 = Some p1;
  re_status : jn_status s1 = jn_status s;
  re_charged : charged s s1 p p1 e;
  re_receipt : exists outcome at_, jn_transactions s1 = jn_transactions s ++
    [{| rc_positionId := pos_id p; rc_transaction := t; rc_outcome := outcome;
        rc_effects := e; rc_recordedAtMs := at_ |}];
}.

Lemma record_receipt_triple s p t outcome e :
  triple (E:=string) (synced c w0 s) (record_receipt host s p t outcome e)
    (fun sp w => synced c w0 s w /\ recorded s p t e (fst sp) (snd sp)) safe.
Proof.
  intros w Hw. unfold record_receipt, pbind, lift, now, ask.
  destruct (_ ← amount (jn_totalFeesLamports s); _) as [[[a b] d]|m] eqn:Hm; [|apply Hw].
  split; [done|]. result_inv. cbn. constructor; try done; cbn; eauto.
  do 5 eexists. repeat split; eassumption.
Qed.

Lemma receipt_step s p t e s1 p1 s2 :
  jn_pending s = Some t -> jn_position s = Some p -> recorded s p t e s1 p1 ->
  jn_pending s2 = None -> jn_transactions s2 = jn_transactions s1 ->
  jn_totalFeesLamports s2 = jn_totalFeesLamports s1 -> settled s s2 p1 t -> journal_step c s s2.
Proof.
  intros Ht Hp [_ _ _ _ (? & ? & ? & ? & ? & ? & ? & ? & ? & ? & ? & ?) (o & at_ & Htr)]
    Hpe Htx Hfee Hs.
  eapply (step_receipt _ _ _ t p p1 o e at_); try done; [congruence|].
  do 5 eexists. repeat split; try eassumption. congruence.
Qed.

(** What [applyEffects] leaves for the caller. *)
Definition apply_post (s s1 : JournalState) (p1 : Position) (t : PendingTransaction)
    (a : applied) : Prop :=
  match a with
  | Applied s2 => receipted s s1 s2 /\ settled s s2 p1 t /\ jn_status s2 = jn_status s1
  | Mismatch s2 _ => receipted s s1 s2 /\ same_realized s s2 /\
      exists p2, jn_position s2 = Some p2 /\ pos_stage p2 = pos_stage p1 /\
        pos_feesLamports p2 = pos_feesLamports p1
  end.

Lemma read_amount_triple s s1 p1 t s2 v (k : Z -> bot applied) :
  apply_post s s1 p1 t (Mismatch s2 "") ->
  (forall a, amount v = Ok a ->
     triple (synced c w0 s) (k a) (fun r w => synced c w0 s w /\ apply_post s s1 p1 t r) safe) ->
  triple (synced c w0 s) (read_amount s2 v k)
    (fun r w => synced c w0 s w /\ apply_post s s1 p1 t r) safe.
Proof.
  intros Hm Hk. unfold read_amount. destruct (amount v) as [a|m]; [auto|]. by apply triple_ret.
Qed.

Section Apply.
Context (s s1 : JournalState) (p1 : Position) (t : PendingTransaction) (e : TransactionEffects).
Context (Hrp : receipted s s1 s1) (Hre : same_realized s s1) (Hpos : jn_position s1 = Some p1).
Notation "'applies' m" :=
  (triple (E:=string) (synced c w0 s) m
     (fun r w => synced c w0 s w /\ apply_post s s1 p1 t r) safe) (at level 80).

Lemma applies_ret a : apply_post s s1 p1 t a -> applies (pret a).
Proof. intros Ha. by apply triple_ret. Qed.

Lemma mismatch_post m : apply_post s s1 p1 t (Mismatch s1 m).
Proof. split; [done|]. split; [done|]. by exists p1. Qed.

Lemma apply_buy_triple : tx_kind t = Buy -> applies (apply_buy s1 p1 t e).
Proof.
  intros Hk. unfold apply_buy. apply triple_if; intros Hb; [apply applies_ret, mismatch_post|].
  apply orb_false_iff in Hb as [Hst _]. unfold is_stage in Hst. bool_prop.
  apply read_amount_triple; [apply mismatch_post|]. intros received _.
  assert (forall m, apply_post s s1 p1 t (Mismatch (set_position (Some (pos_with_tokens
    (to_decimal received) (default "0" (eff_refundableRentLamports e)) p1)) s1) m)) as Hmm.
  { intros m. destruct Hrp. split; [by constructor|]. split; [done|]. by eexists. }
  apply read_amount_triple; [apply Hmm|]. intros minimum _.
  apply triple_if; intros _; apply applies_ret; [apply Hmm|].
  destruct Hrp. split; [by constructor|]. split; [|done].
  eapply settled_advanced; try done; by rewrite Hk.
Qed.

Lemma apply_withdraw_triple : tx_kind t = Withdraw -> applies (apply_withdraw s1 p1 t e).
Proof.
  intros Hk. unfold apply_withdraw. apply triple_if; intros Hb; [apply applies_ret, mismatch_post|].
  apply orb_false_iff in Hb as [Hb _]. apply orb_false_iff in Hb as [Hst _].
  unfold is_stage in Hst. bool_prop.
  destruct (eff_stakeAddress e) as [addr|], (eff_refundableRentLamports e) as [rent|];
    try apply applies_ret, mismatch_post.
  apply triple_if; intros _; apply applies_ret; [apply mismatch_post|].
  destruct Hrp. split; [by constructor|]. split; [|done].
  eapply settled_advanced; try done; by rewrite Hk.
Qed.

Lemma apply_deactivate_triple : tx_kind t = Deactivate -> applies (apply_deactivate s1 p1 e).
Proof.
  intros Hk. unfold apply_deactivate. apply triple_if; intros Hb; apply applies_ret.
  { apply mismatch_post. }
  apply orb_false_iff in Hb as [Hst _]. unfold is_stage in Hst. bool_prop.
  destruct Hrp. split; [by constructor|]. split; [|done].
  eapply settled_advanced; try done; by rewrite Hk.
Qed.

Lemma apply_claim_triple :
  tx_kind t = Claim -> is_ok (amount (jn_realizedLossLamports s)) = true ->
  applies (apply_claim host s1 p1 e).
Proof.
  intros Hk Hloss. unfold apply_claim.
  destruct (eff_actualClaimedLamports e) as [cl|]; [|apply applies_ret, mismatch_post].
  apply triple_if; intros Hb; [apply applies_ret, mismatch_post|].
  apply orb_false_iff in Hb as [Hb _]. apply orb_false_iff in Hb as [Hst _].
  unfold is_stage in Hst. bool_prop.
  apply read_amount_triple; [apply mismatch_post|]. intros claimed _.
  apply read_amount_triple; [apply mismatch_post|]. intros rent Hrent.
  apply triple_if; intros Hle; [apply applies_ret, mismatch_post|]. bool_prop.
  apply read_amount_triple; [apply mismatch_post|]. intros input Hinput.
  apply read_amount_triple; [apply mismatch_post|]. intros fees Hfees.
  apply read_amount_triple; [apply mismatch_post|]. intros cost Hcost.
  set (profit := claimed - rent - input - fees - cost).
  apply (triple_bind _ _ _ (fun _ => synced c w0 s)); [apply synced_safe, ask_triple|].
  intros at_. set (pc := pos_with_stage Complete _). cbn [jn_completedCycles jn_completedPositions
    jn_realizedLossLamports set_realized set_position].
  assert (forall loss, apply_post s s1 p1 t (Applied (set_position None (set_realized
    (jn_completedCycles s1 + 1) (to_decimal (bigint (jn_realizedProfitLamports s1) + profit)) loss
    (jn_completedPositions s1 ++ [pc]) (set_realized (jn_completedCycles s1)
      (to_decimal (bigint (jn_realizedProfitLamports s1) + profit)) (jn_realizedLossLamports s1)
      (jn_completedPositions s1) (set_position (Some pc) s1)))))) as Hfin.
  { intros loss. destruct Hrp, Hre as (Hc & Hpr & _ & Hcp).
    split; [by constructor|]. split; [|done].
    apply (settled_claimed _ _ _ _ pc profit); try done; cbn; [|by rewrite Hcp|by rewrite Hc|by rewrite Hpr].
    constructor; try done. exists claimed, rent, input, fees, cost. repeat split; try done. }
  apply triple_if; intros _; [|by apply applies_ret].
  destruct Hre as (_ & _ & Hl & _). rewrite <- Hl in Hloss. unfold read_amount.
  destruct (amount (jn_realizedLossLamports s1)); [|done]. by apply applies_ret.
Qed.

Lemma applyEffects_triple :
  is_ok (amount (jn_realizedLossLamports s)) = true -> applies (applyEffects host s1 p1 t e).
Proof.
  intros Hloss. unfold applyEffects. destruct (tx_kind t) eqn:Hk.
  - by apply apply_buy_triple.
  - by apply apply_withdraw_triple.
  - by apply apply_deactivate_triple.
  - by apply apply_claim_triple.
Qed.
End Apply.

Section Finalize.
Context (s : JournalState) (t : PendingTransaction) (p : Position) (e : TransactionEffects).
Context (Hrun : jn_status s = Running) (Ht : jn_pending s = Some t) (Hp : jn_position s = Some p).
Context (s1 : JournalState) (p1 : Position) (Hrec : recorded s p t e s1 p1).

(** Halting or saving after the receipt is one step from the journal on disk. *)
Lemma halt_receipted s2 reason :
  receipted s s1 s2 -> settled s (set_halted reason s2) p1 t -> s ⊢ halt host s2 reason.
Proof.
  intros Hr Hs. pose proof Hr as [? ? ? ? ?]. apply halt_triple; try done.
  eapply receipt_step; try done. by eapply settled_ext.
Qed.

Lemma halt_settled s2 reason :
  receipted s s1 s2 -> settled s s2 p1 t -> s ⊢ halt host s2 reason.
Proof. intros Hr Hs. apply halt_receipted; [done|]. by eapply settled_ext. Qed.

Lemma halt_unsettled s2 reason p2 :
  receipted s s1 s2 -> same_realized s s2 -> jn_position s2 = Some p2 ->
  pos_stage p2 = pos_stage p1 -> pos_feesLamports p2 = pos_feesLamports p1 ->
  s ⊢ halt host s2 reason.
Proof. intros. apply halt_receipted; [done|]. by eapply (settled_halted _ _ _ _ p2). Qed.

Lemma conclude_triple s2 p2 :
  receipted s s1 s2 -> settled s s2 p1 t -> s ⊢ conclude host c s2 p2 t.
Proof.
  intros Hr Hs. unfold conclude.
  apply lift_then. intros over _. apply triple_if; intros _; [by apply halt_settled|].
  apply lift_then. intros lost _. apply triple_if; intros _; [by apply halt_settled|].
  pose proof Hr as [? ? ? ? ?]. apply save_then; try done.
  { eapply receipt_step; try done. by eapply settled_ext. }
  apply triple_if; intros _; apply done_triple.
Qed.
End Finalize.

Lemma finalized_triple s t e error :
  jn_status s = Running -> jn_pending s = Some t -> ledger_ok s ->
  s ⊢ finalized host c s t e error.
Proof.
  intros Hrun Ht Hok. unfold finalized. destruct (validateEffects e); [|by apply halt_here].
  destruct (jn_position s) as [p|] eqn:Hp; [|by apply halt_here].
  eapply triple_bind; [apply record_receipt_triple|]. intros [s1 p1]. cbn [fst snd].
  apply triple_pull. intros Hrec. destruct error as [m|].
  { eapply (halt_unsettled s t p e); try done; apply Hrec. }
  eapply triple_bind.
  { apply (applyEffects_triple s s1 p1); try apply Hrec.
    destruct (lo_realized _ Hok) as (? & l & _ & _ & ->). done. }
  intros [s2|s2 m]; apply triple_pull.
  - intros (Hr & Hs & _). by eapply conclude_triple.
  - intros (Hr & Hre & p2 & Hp2 & Hst & Hf). by eapply halt_unsettled.
Qed.

Lemma pending_triple s :
  jn_status s = Running -> ledger_ok s -> s ⊢ pending host c s.
Proof.
  intros Hrun Hok. unfold pending. destruct (jn_pending s) as [t|] eqn:Hp; [|apply fail_triple].
  apply (triple_bind _ _ _ (fun _ => synced c w0 s)).
  - apply attempt_triple; [done | by exists s].
  - intros [[|e|e m|m|m]|m]; try by apply halt_here.
    + by apply broadcast_triple.
    + by apply finalized_triple.
    + by apply finalized_triple.
    + apply done_triple.
Qed.

Lemma entry_triple s :
  jn_status s = Running -> jn_pending s = None -> jn_position s = None ->
  jn_completedCycles s < cfg_maxCycles c -> s ⊢ entry host c s.
Proof.
  intros Hrun Hpe Hpo Hcy. unfold entry.
  apply (triple_bind _ _ _ (fun _ => synced c w0 s)).
  { apply attempt_triple; [done | by exists s]. }
  intros [o|m].
  2: { apply save_then; try done; [by apply step_note | apply done_triple]. }
  apply ask_then. intros now_. apply triple_if; intros _.
  { apply save_then; try done; [by apply step_note | apply done_triple]. }
  destruct (jn_confirmation s) as [first|];
    [destruct ((_ <? _ - cf_observedAtMs first) || _) |];
    try (apply save_then; try done; [by apply step_note | apply done_triple]).
  apply triple_if; intros _; [apply done_triple|].
  apply triple_if; intros _; [apply done_triple|].
  apply ask_then. intros id. apply prepare_triple; try done. unfold launch. by rewrite Hpo.
Qed.

Lemma claim_when_ready_triple s p :
  jn_status s = Running -> jn_pending s = None -> jn_position s = Some p ->
  pos_stage p = Deactivated -> s ⊢ claim_when_ready host c s p.
Proof.
  intros Hrun Hpe Hpo Hst. unfold claim_when_ready.
  apply (triple_bind _ _ _ (fun _ => synced c w0 s)).
  { apply attempt_triple; [done | by exists s]. }
  intros [r|m]; [|apply done_triple]. apply ask_then. intros now_.
  apply triple_if; intros _; [apply done_triple|].
  apply triple_if; intros _; [apply done_triple|].
  apply lift_then. intros [a b] _. apply triple_if; intros _; [by apply halt_here|].
  apply prepare_triple; try done. unfold launch. by rewrite Hpo, Hst.
Qed.

Lemma decide_triple s : ledger_ok s -> s ⊢ decide_tick host c s.
Proof.
  intros Hok. unfold decide_tick. destruct (jn_status s) eqn:Hrun; [|apply done_triple].
  destruct (jn_pending s) as [t|] eqn:Hpe; [by apply pending_triple|].
  apply triple_if; intros Hcy; [apply done_triple|].
  apply lift_then. intros lost _. apply triple_if; intros _; [by apply halt_here|].
  apply ask_then. intros stop. apply triple_if; intros _; [apply done_triple|].
  destruct (jn_position s) as [p|] eqn:Hpo.
  - destruct (pos_stage p) eqn:Hst; try by apply halt_here.
    + apply prepare_triple; try done. unfold launch. by rewrite Hpo, Hst.
    + apply prepare_triple; try done. unfold launch. by rewrite Hpo, Hst.
    + by apply claim_when_ready_triple.
  - cbn in Hcy. apply Z.leb_gt in Hcy. apply lift_then. intros short _.
    apply triple_if; intros _; [by apply halt_here | by apply entry_triple].
Qed.
End Refinement.

(** * Ticks *)
Section Ticks.
Context `{Sha256} (host : Host) (c : JitoBotConfig).

Lemma open_journal_triple w0 :
  triple (E:=string) (fun w => follows c w0 w /\ w_durable w = w_durable w0) (open_journal host c)
    (fun s w => synced c w0 s w /\ ledger_ok s) (fun _ w => follows c w0 w).
Proof.
  intros w [Hw Hd]. unfold open_journal, pbind, store_load.
  destruct (load_error host (w_calls w)); [done|]. rewrite Hd.
  destruct (w_durable w0) as [s|] eqn:Hs.
  - unfold lift. destruct (validateJournalState s) as [s'|m] eqn:Hv; [|done].
    apply validateJournalState_Ok in Hv as (-> & _ & Hok).
    destruct (throw_if (negb _) _); [|done]. destruct (throw_if _ _); [|done]. cbn.
    split; [|done]. split; [done|]. cbn. congruence.
  - unfold save, pbind, lift.
    change (set_sequence _ (initial_journal c)) with (first_journal c).
    destruct (validateJournalState _) as [s'|m] eqn:Hv; [|done].
    apply validateJournalState_Ok in Hv as (-> & Hsh & Hok).
    assert (follows c w0 (log (EvSaved (first_journal c)) (bump w))) as Hlog.
    { apply follows_log; [done|]. cbn. by rewrite Hd. }
    unfold store_save.
    destruct (save_outcome _ _); [split; [by split | exact Hok] | exact Hw | exact Hlog].
Qed.

Lemma runTick_follows w : follows c w (snd (runTick host c w)).
Proof.
  assert (triple (E:=string) (fun w' => follows c w w' /\ w_durable w' = w_durable w)
    (runTick host c) (fun _ w' => follows c w w') (fun _ w' => follows c w w')) as Ht.
  { eapply triple_bind; [apply open_journal_triple|]. intros s. apply triple_pull. intros Hok.
    by apply decide_triple. }
  specialize (Ht w (conj (follows_refl c w) eq_refl)).
  by destruct (runTick host c w) as [[r|e] w'].
Qed.

Lemma tick_follows w : follows c w (snd (tick host c w)).
Proof.
  unfold tick. destruct (negb _); [apply follows_refl|].
  destruct (w_ticking w); [apply follows_refl|].
  pose proof (runTick_follows (set_ticking true w)) as Ht.
  by destruct (runTick host c (set_ticking true w)) as [r w'].
Qed.

Lemma durable_after_app d tr tr' :
  durable_after d (tr ++ tr') = durable_after (durable_after d tr') tr.
Proof. induction tr as [|[] tr IH]; cbn; auto. Qed.

Lemma trace_ok_app d tr tr' :
  trace_ok c d (tr ++ tr') <-> trace_ok c d tr' /\ trace_ok c (durable_after d tr') tr.
Proof.
  induction tr as [|e tr IH]; cbn; [naive_solver|]. rewrite IH, durable_after_app. naive_solver.
Qed.

Lemma follows_trans w1 w2 w3 : follows c w1 w2 -> follows c w2 w3 -> follows c w1 w3.
Proof.
  intros (tr & Ht & Hok & Hd) (tr' & Ht' & Hok' & Hd'). exists (tr' ++ tr).
  rewrite Ht', Ht, app_assoc. split; [done|]. rewrite trace_ok_app, durable_after_app, <- Hd. done.
Qed.

Lemma ticks_follow n w : follows c w (snd (ticks host c n w)).
Proof.
  revert w. induction n as [|n IH]; intros w; [apply follows_refl|]. cbn [ticks].
  pose proof (tick_follows w) as Ht. destruct (tick host c w) as [r w1]. cbn in Ht.
  specialize (IH w1). destruct (ticks host c n w1) as [rs w2]. by eapply follows_trans.
Qed.
End Ticks.

(** * Reachable journals *)
Section Reachable.
Context `{Sha256} (c : JitoBotConfig).

(** The journals the machine can reach from a new one. *)
Inductive reachable : JournalState -> Prop :=
| reachable_first : valid_journal (first_journal c) -> reachable (first_journal c)
| reachable_step s s' : reachable s -> durable_step c s s' -> reachable s'.

Lemma reachable_valid s : reachable s -> valid_journal s.
Proof. destruct 1 as [|s s' _ []]; done. Qed.

(** Whatever a bot that starts with an empty disk makes durable is reachable. *)
Lemma trace_reachable tr s :
  trace_ok c None tr -> durable_after None tr = Some s -> reachable s.
Proof.
  revert s. induction tr as [|e tr IH]; intros s Hok Hd; [done|].
  destruct Hok as [He Hok]. destruct e; cbn in Hd; try by apply IH.
  injection Hd as ->. destruct (durable_after None tr) as [s0|] eqn:Hs0; cbn in He.
  - by eapply reachable_step; [apply IH|].
  - destruct He as [-> ?]. by constructor.
Qed.

(** Signatures are never recorded twice. *)
Lemma reachable_nodup s :
  reachable s -> NoDup (map (fun r => tx_signature (rc_transaction r)) (jn_transactions s)).
Proof.
  intros Hr. induction Hr as [Hv|s s' Hr IH Hs]; [constructor|].
  destruct Hs as [_ _ _ _ [(-> & _) | ? ? (-> & _) | t p p' o e at_ Hpe _ _ -> _ _]]; try done.
  rewrite map_app, NoDup_app. split; [done|]. split; [|cbn; apply NoDup_singleton].
  intros x Hx. cbn. rewrite list_elem_of_singleton. intros ->.
  apply reachable_valid in Hr as [_ Hok]. pose proof (lo_fresh _ Hok t Hpe) as Hf.
  apply list_elem_of_In, in_map_iff in Hx as (r & Hr & Hin).
  rewrite Forall_forall in Hf. apply (Hf r); [by apply list_elem_of_In | done].
Qed.

(** The cycle limit: a position is open only below it. *)
Lemma reachable_cycles s :
  0 <= cfg_maxCycles c -> reachable s ->
  jn_completedCycles s <= cfg_maxCycles c /\
  (jn_position s <> None -> jn_completedCycles s < cfg_maxCycles c).
Proof.
  intros Hc Hr. induction Hr as [Hv|s s' Hr IH Hs]; [done|].
  destruct Hs as [_ _ _ _ [(_ & _ & Hcy & _) Hpos _
                          | t p (_ & _ & Hcy & _) _ _ _ Hpos Hl _
                          | t p p' o e at_ _ Hp _ _ _ Hs]].
  - rewrite Hcy, Hpos. done.
  - rewrite Hcy. unfold launch in Hl. destruct (jn_position s) eqn:Hps; [|naive_solver lia].
    destruct IH as [_ IH]. specialize (IH ltac:(done)). naive_solver lia.
  - destruct IH as [_ IH]. rewrite Hp in IH. specialize (IH ltac:(done)).
    destruct Hs as [p'' _ (-> & _)|p'' _ (-> & _)|pc profit _ _ -> _ _ -> _]; [lia|lia|].
    split; [lia|done].
Qed.

(** A receipt whose fee is within the estimate it was authorised for. *)
Definition fee_within_estimate (r : Receipt) : Prop :=
  exists fee estimate, amount (eff_feeLamports (rc_effects r)) = Ok fee /\
    amount (tx_estimatedFeeLamports (rc_transaction r)) = Ok estimate /\ fee <= estimate.

(** The fee authority covers what was paid and what is pending. *)
Definition within_authority (s : JournalState) : Prop :=
  exists total maxTotal, amount (jn_totalFeesLamports s) = Ok total /\
    amount (cfg_maxTotalFeesLamports c) = Ok maxTotal /\ total <= maxTotal /\
    forall t, jn_pending s = Some t -> exists estimate,
      amount (tx_estimatedFeeLamports t) = Ok estimate /\ total + estimate <= maxTotal.

Lemma identity_fee t t' :
  identity t = identity t' -> tx_estimatedFeeLamports t = tx_estimatedFeeLamports t'.
Proof. intros Hi. by apply (f_equal tx_estimatedFeeLamports) in Hi. Qed.

Lemma fmap_Some_eq {A B} (f : A -> B) (o o' : option A) a :
  f <$> o = f <$> o' -> o = Some a -> exists a', o' = Some a' /\ f a = f a'.
Proof. intros Hf ->. destruct o'; naive_solver. Qed.

Lemma reachable_fees s :
  is_ok (amount (cfg_maxTotalFeesLamports c)) = true -> reachable s ->
  Forall fee_within_estimate (jn_transactions s) -> within_authority s.
Proof.
  intros Hmax Hr. apply is_ok_true in Hmax as [maxTotal Hmax].
  induction Hr as [Hv|s s' Hr IH Hs]; intros Hall.
  { exists 0, maxTotal. pose proof (amount_bounds _ _ Hmax). repeat split; try done. lia. }
  destruct Hs as [_ _ _ [_ Hok] [(Htx & Hfee & _) _ Hid
                          | t p (Htx & Hfee & _) _ _ Hpe _ _ Ha
                          | t p p' o e at_ Hpe _ Hpe' Htx Hch _]].
  - rewrite Htx in Hall. destruct (IH Hall) as (total & m & Ht & Hm & Hle & Hp).
    exists total, m. rewrite Hfee. do 3 (split; [done|]). intros t Ht'.
    destruct (fmap_Some_eq _ _ _ _ Hid Ht') as (t0 & Ht0 & Heq).
    rewrite (identity_fee _ _ Heq). by apply Hp.
  - destruct Ha as (fee & total & fees & m & b & Hf & Hpos & Ht & _ & Hm & Hle & _).
    exists total, m. rewrite Hfee. do 2 (split; [done|]). split; [lia|].
    intros t' Ht'. rewrite Hpe in Ht'. injection Ht' as <-. eauto.
  - rewrite Htx in Hall. apply Forall_app in Hall as [Hall Hlast].
    apply Forall_cons in Hlast as [(fee & est & Hf & He & Hfe) _]. cbn in *.
    destruct (IH Hall) as (total & m & Ht & Hm & Hle & Hp).
    destruct (Hp t Hpe) as (est' & He' & Hle'). rewrite He in He'. injection He' as <-.
    destruct Hch as (total' & fee' & ? & ? & ? & Ht' & Hf' & _ & _ & _ & Htot & _).
    rewrite Ht in Ht'. rewrite Hf in Hf'. injection Ht' as <-. injection Hf' as <-.
    exists (total + fee), m. split; [|split; [done|split; [lia|by rewrite Hpe']]].
    rewrite Htot. apply amount_to_decimal.
    pose proof (amount_bounds _ _ Ht). pose proof (amount_bounds _ _ Hf).
    pose proof (amount_bounds _ _ Hm). lia.
Qed.

(** A signed transaction stays pending, unchanged, until its receipt is recorded. *)
Definition accounted (t : PendingTransaction) (s : JournalState) : Prop :=
  identity <$> jn_pending s = Some (identity t) \/
  exists r, r ∈ jn_transactions s /\ identity (rc_transaction r) = identity t.

Lemma accounted_step t s s' : durable_step c s s' -> accounted t s -> accounted t s'.
Proof.
  intros [_ _ _ _ Hs] Ha. destruct Hs as [(Htx & _) _ Hid | t' p (Htx & _) _ Hpe _ _ _ _
    | t' p p' o e at_ Hpe _ _ Htx _ _].
  - destruct Ha as [Ha|Ha]; [left; congruence | right; by rewrite Htx].
  - destruct Ha as [Ha|Ha]; [by rewrite Hpe in Ha | right; by rewrite Htx].
  - right. rewrite Htx. destruct Ha as [Ha|(r & Hr & Heq)].
    + rewrite Hpe in Ha. apply (inj Some) in Ha. eexists.
      split; [apply elem_of_app; right; by left | exact Ha].
    + exists r. split; [|done]. apply elem_of_app. by left.
Qed.
End Reachable.

(** * Accounting *)

(** What a completed position earned, from the amounts it records. *)
Definition amount_or_zero (s : string) : Z :=
  match amount s with
  | Ok a => a
  | Err _ => 0
  end.
Definition earned (p : Position) : Z :=
  bigint (default "0" (pos_actualClaimedLamports p)) - amount_or_zero (pos_stakeRentLamports p)
  - amount_or_zero (pos_inputLamports p) - amount_or_zero (pos_feesLamports p)
  - amount_or_zero (pos_nonRefundableCostLamports p).
Definition sum (l : list Z) : Z := foldr Z.add 0 l.

Lemma bigint_to_decimal z : bigint (to_decimal z) = z.
Proof. unfold bigint. by rewrite signed_decimal_to_decimal. Qed.

Lemma claimed_earned p pc profit :
  claimed_position p pc profit ->
  earned pc = profit /\ pos_realizedProfitLamports pc = Some (to_decimal profit).
Proof.
  intros [_ _ (claimed & rent & input & fees & cost & Hc & Hr & Hi & Hf & Hn & _ & -> & Hp)].
  split; [|done]. unfold earned, amount_or_zero. rewrite Hc, Hr, Hi, Hf, Hn. cbn.
  by rewrite bigint_to_decimal.
Qed.

Lemma realized_totals_sum l acc :
  Forall (fun p => exists q profit, claimed_position q p profit /\
            pos_actualClaimedLamports p <> None) l ->
  forall profit loss, fold_result add_realized acc l = Ok (profit, loss) ->
  profit = fst acc + sum (map earned l) /\
  loss = snd acc + sum (map (fun p => Z.max 0 (- earned p)) l).
Proof.
  intros Hl. revert acc. induction Hl as [|p l (q & pr & Hc & _) Hl IH]; intros acc profit loss Hr.
  { cbn in *. injection Hr as ->. cbn. lia. }
  apply claimed_earned in Hc as [He Hp]. cbn [fold_result] in Hr.
  apply bind_Ok in Hr as (acc' & Ha & Hr). unfold add_realized in Ha. rewrite Hp in Ha.
  destruct (pos_actualClaimedLamports p), (pos_completedAtMs p); try done.
  rewrite bigint_to_decimal in Ha. injection Ha as <-. apply IH in Hr as [-> ->].
  unfold sum. cbn [map foldr fst snd]. rewrite He. destruct (pr <? 0) eqn:Hlt; bool_prop; lia.
Qed.

Lemma reachable_accounts `{Sha256} c s :
  reachable c s ->
  Forall (fun p => exists q profit, claimed_position q p profit /\
            pos_actualClaimedLamports p <> None) (jn_completedPositions s).
Proof.
  intros Hr. induction Hr as [Hv|s s' Hr IH Hs]; [constructor|].
  destruct Hs as [_ _ _ _ [(_ & _ & _ & _ & _ & ->) _ _ | t p (_ & _ & _ & _ & _ & ->)
    | t p p' o e at_ _ _ _ _ _ [? _ (_ & _ & _ & ->)|? _ (_ & _ & _ & ->)
                               |pc profit _ _ _ Hc -> _ _]]]; try done.
  apply Forall_app. split; [done|]. apply Forall_singleton. exists p', profit.
  split; [done|]. destruct Hc as [_ _ (? & ? & ? & ? & ? & -> & _)]. done.
Qed.

(** * Properties *)

(** A journal that is on disk at some moment of some run of the bot from an empty
    disk, between ticks or in the middle of one. *)
Definition durable_in `{Sha256} (host : Host) (c : JitoBotConfig) (s : JournalState) : Prop :=
  exists n newer older, w_trace (snd (ticks host c n empty_world)) = newer ++ older /\
    durable_after None older = Some s.

Lemma durable_in_reachable `{Sha256} host c s : durable_in host c s -> reachable c s.
Proof.
  intros (n & newer & older & Ht & Hd). destruct (ticks_follow host c n empty_world) as (tr & Htr & Hok & _).
  rewrite Ht in Htr. cbn in Htr. rewrite app_nil_r in Htr. subst tr.
  apply trace_ok_app in Hok as [Hok _]. by eapply trace_reachable.
Qed.

(** C2: the engine refines the cycle's state machine.  Whatever the market, the
    chain, the clock, the stop switch and the disk answer, in any number of ticks
    from any starting state, each journal made durable follows from the durable
    one before it by one step of the machine (a note, a newly authorised
    transaction, or a receipt accounted), and each call to the gateway is
    justified by the journal on disk at that moment. *)
Theorem engine_refines_lifecycle `{Sha256} (host : Host) (c : JitoBotConfig) (n : nat) (w : world) :
  exists tr, w_trace (snd (ticks host c n w)) = tr ++ w_trace w /\
    trace_ok c (w_durable w) tr /\
    w_durable (snd (ticks host c n w)) = durable_after (w_durable w) tr.
Proof. apply ticks_follow. Qed.

(** C3: nothing is sent before it is durable.  Whenever the engine hands a
    transaction to the gateway for broadcast, that very transaction, bytes and
    signature and attempt count included, is the pending transaction of the
    running journal already on disk. *)
Theorem broadcast_only_durable `{Sha256} (host : Host) (c : JitoBotConfig) (n : nat) (w : world)
    (newer older : list event) (t : PendingTransaction)
    (Htrace : w_trace (snd (ticks host c n w)) = newer ++ EvBroadcast t :: older ++ w_trace w) :
  exists s, durable_after (w_durable w) older = Some s /\ jn_status s = Running /\
    jn_pending s = Some t.
Proof.
  destruct (ticks_follow host c n w) as (tr & Htr & Hok & _). rewrite Htrace in Htr.
  change (newer ++ EvBroadcast t :: older ++ w_trace w)
    with (newer ++ (EvBroadcast t :: older) ++ w_trace w) in Htr.
  rewrite app_assoc in Htr. apply app_inv_tail in Htr as <-.
  apply trace_ok_app in Hok as [[He _] _]. done.
Qed.

Definition sample_sha256 : Sha256 := fun _ => hex64.
Notation sample_run n := (snd (@ticks sample_sha256 sample_host sample_config n%nat empty_world)).

Lemma broadcast_only_durable_witness :
  match w_trace (sample_run 10) with
  | EvBroadcast t :: older =>
      exists s, durable_after None older = Some s /\ jn_status s = Running /\ jn_pending s = Some t
  | _ => False
  end.
Proof.
  destruct (w_trace (sample_run 10)) as [|[s| |k p|t|t|p] older] eqn:Htr;
    try (vm_compute in Htr; discriminate Htr).
  apply (@broadcast_only_durable sample_sha256 sample_host sample_config 10 empty_world [] older t).
  rewrite app_nil_r. exact Htr.
Defined.

(** A signed transaction is never replaced.  Once a transaction is pending on
    disk, at every later moment (in particular after any crash or failed save) the
    journal on disk either still has it pending, with the same bytes and
    signature, or has recorded its receipt. *)
Theorem pending_never_replaced `{Sha256} (host : Host) (c : JitoBotConfig) (n : nat) (w : world)
    (s : JournalState) (t : PendingTransaction) (newer older : list event)
    (Hs : w_durable w = Some s) (Ht : jn_pending s = Some t)
    (Htrace : w_trace (snd (ticks host c n w)) = newer ++ older ++ w_trace w) :
  exists s', durable_after (w_durable w) older = Some s' /\ accounted t s'.
Proof.
  destruct (ticks_follow host c n w) as (tr & Htr & Hok & _). rewrite Htrace, app_assoc in Htr.
  apply app_inv_tail in Htr as <-. apply trace_ok_app in Hok as [Hok _]. clear Htrace.
  rewrite Hs in *. induction older as [|e older IH].
  { exists s. split; [done|]. left. by rewrite Ht. }
  destruct Hok as [He Hok]. destruct (IH Hok) as (s' & Hs' & Ha).
  destruct e as [s''| | | | |]; try by exists s'. rewrite Hs' in He. cbn in He.
  exists s''. split; [done|]. by eapply accounted_step.
Qed.

Lemma pending_never_replaced_witness :
  match w_durable (sample_run 10) with
  | Some s =>
      match jn_pending s with
      | Some t => exists s', w_durable (sample_run 10) = Some s' /\ accounted t s'
      | None => False
      end
  | None => False
  end.
Proof.
  destruct (w_durable (sample_run 10)) as [s|] eqn:Hs; [|vm_compute in Hs; discriminate Hs].
  destruct (jn_pending s) as [t|] eqn:Ht.
  - assert (forall W, w_trace (snd (@ticks sample_sha256 sample_host sample_config 0 W))
                      = [] ++ [] ++ w_trace W) as Htr by (intros W; reflexivity).
    destruct (@pending_never_replaced sample_sha256 sample_host sample_config 0 (sample_run 10) s t
                [] [] Hs Ht (Htr _)) as (s' & Hs' & Ha).
    exists s'. rewrite Hs in Hs'. split; [exact Hs' | exact Ha].
  - exfalso. revert Ht. vm_compute in Hs. injection Hs as <-. vm_compute. discriminate.
Defined.

(** A halted journal is final.  Once the journal on disk is halted, no tick,
    however the outside behaves, sends, prepares, polls or saves anything: only an
    operator can resume. *)
Theorem halted_is_final `{Sha256} (host : Host) (c : JitoBotConfig) (n : nat) (w : world)
    (s : JournalState) (Hs : w_durable w = Some s) (Hh : jn_status s = Halted) :
  w_trace (snd (ticks host c n w)) = w_trace w /\ w_durable (snd (ticks host c n w)) = Some s.
Proof.
  destruct (ticks_follow host c n w) as (tr & Htr & Hok & Hd). rewrite Hs in *.
  assert (tr = []) as ->; [|done]. clear Htr Hd. destruct tr as [|e tr] using rev_ind; [done|].
  apply trace_ok_app in Hok as [[He _] _]. cbn in He.
  destruct e; cbn in He; [destruct He as [Hr]; congruence|..];
    destruct He as (s' & [= <-] & Hr & _); congruence.
Qed.

Lemma halted_is_final_witness :
  let w := {| w_durable := Some (set_halted "operator" (first_journal (H:=sample_sha256) sample_config));
              w_calls := 0; w_trace := []; w_ticking := false |} in
  w_trace (snd (@ticks sample_sha256 sample_host sample_config 5 w)) = [] /\
  w_durable (snd (@ticks sample_sha256 sample_host sample_config 5 w)) = w_durable w.
Proof.
  intros w. exact (@halted_is_final sample_sha256 sample_host sample_config 5 w _ eq_refl eq_refl).
Defined.

(** The journal the sample run has on disk after its one cycle. *)
Lemma sample_durable :
  match w_durable (sample_run 17) with
  | Some s => durable_in (H:=sample_sha256) sample_host sample_config s
  | None => False
  end.
Proof.
  destruct (w_durable (sample_run 17)) as [s|] eqn:Hs; [|vm_compute in Hs; discriminate Hs].
  exists 17%nat, [], (w_trace (sample_run 17)). split; [symmetry; apply app_nil_l|].
  destruct (@ticks_follow sample_sha256 sample_host sample_config 17 empty_world) as (tr & Htr & _ & Hd).
  rewrite app_nil_r in Htr.
  rewrite Htr. change None with (w_durable empty_world). rewrite <- Hd. exact Hs.
Qed.

(** The ledger never counts a transaction twice and never exceeds its cycle
    limit.  In every journal on disk, the recorded signatures are distinct, the
    pending signature is not among them, the number of completed cycles is that of
    the completed positions and at most the configured maximum, and below it while
    a position is open. *)
Theorem ledger_counts_once `{Sha256} (host : Host) (c : JitoBotConfig) (s : JournalState)
    (Hc : 0 <= cfg_maxCycles c) (Hs : durable_in host c s) :
  NoDup (map (fun r => tx_signature (rc_transaction r)) (jn_transactions s)) /\
  (forall t, jn_pending s = Some t ->
     Forall (fun r => tx_signature (rc_transaction r) <> tx_signature t) (jn_transactions s)) /\
  jn_completedCycles s = Z.of_nat (List.length (jn_completedPositions s)) /\
  jn_completedCycles s <= cfg_maxCycles c /\
  (jn_position s <> None -> jn_completedCycles s < cfg_maxCycles c).
Proof.
  apply durable_in_reachable in Hs. pose proof (reachable_valid _ _ Hs) as [_ Hok].
  split; [by eapply reachable_nodup|]. split; [apply Hok|]. split; [apply Hok|].
  by apply reachable_cycles.
Qed.

Lemma ledger_counts_once_witness :
  match w_durable (sample_run 17) with
  | Some s => NoDup (map (fun r => tx_signature (rc_transaction r)) (jn_transactions s)) /\
      jn_completedCycles s = 1
  | None => False
  end.
Proof.
  pose proof sample_durable as Hd.
  destruct (w_durable (sample_run 17)) as [s|] eqn:Hs; [|exact Hd]. split.
  - apply (@ledger_counts_once sample_sha256 sample_host sample_config s); [|exact Hd].
    vm_compute. discriminate.
  - vm_compute in Hs. injection Hs as <-. reflexivity.
Defined.

(** The configured fee authority is a hard limit.  As long as no receipt
    charged more than the estimate its transaction was authorised with, the fees
    paid and those of the pending transaction together stay within
    [maxTotalFeesLamports], in every journal on disk. *)
Theorem fees_within_authority `{Sha256} (host : Host) (c : JitoBotConfig) (s : JournalState)
    (Hmax : is_ok (amount (cfg_maxTotalFeesLamports c)) = true)
    (Hs : durable_in host c s) (Hr : Forall fee_within_estimate (jn_transactions s)) :
  within_authority c s.
Proof. apply durable_in_reachable in Hs. by apply reachable_fees. Qed.

Lemma fees_within_authority_witness :
  match w_durable (sample_run 17) with
  | Some s => within_authority sample_config s
  | None => False
  end.
Proof.
  pose proof sample_durable as Hd.
  destruct (w_durable (sample_run 17)) as [s|] eqn:Hs; [|exact Hd].
  apply (@fees_within_authority sample_sha256 sample_host sample_config s); [reflexivity | exact Hd |].
  vm_compute in Hs. injection Hs as <-. cbn.
  repeat (apply Forall_cons_2; [exists 5000, 5000; repeat split; vm_compute; congruence|]).
  apply Forall_nil_2.
Defined.

(** The realized profit is what the positions earned.  In every journal on
    disk, the recorded profit is the sum over the completed positions of the
    claimed lamports less the returned rent, the ticket, the fees and the
    non-refundable costs; the recorded loss is the sum of the negative ones; and
    the fee total is the sum of the receipts' fees. *)
Theorem realized_profit_exact `{Sha256} (host : Host) (c : JitoBotConfig) (s : JournalState)
    (Hs : durable_in host c s) :
  bigint (jn_realizedProfitLamports s) = sum (map earned (jn_completedPositions s)) /\
  amount (jn_realizedLossLamports s)
    = Ok (sum (map (fun p => Z.max 0 (- earned p)) (jn_completedPositions s))) /\
  exists fees, receipts_fees (jn_transactions s) = Ok fees /\
    amount (jn_totalFeesLamports s) = Ok fees.
Proof.
  apply durable_in_reachable in Hs. pose proof (reachable_valid _ _ Hs) as [_ Hok].
  destruct (lo_realized _ Hok) as (profit & loss & Ht & Hp & Hl).
  destruct (realized_totals_sum _ _ (reachable_accounts _ _ Hs) _ _ Ht) as [Hprofit Hloss].
  cbn [fst snd] in Hprofit, Hloss. rewrite Z.add_0_l in Hprofit, Hloss. split; [congruence|]. split; [congruence | apply Hok].
Qed.

Lemma realized_profit_exact_witness :
  match w_durable (sample_run 17) with
  | Some s => bigint (jn_realizedProfitLamports s) = sum (map earned (jn_completedPositions s)) /\
      bigint (jn_realizedProfitLamports s) = 111980000
  | None => False
  end.
Proof.
  pose proof sample_durable as Hd.
  destruct (w_durable (sample_run 17)) as [s|] eqn:Hs; [|exact Hd]. split.
  - apply (@realized_profit_exact sample_sha256 sample_host sample_config s Hd).
  - vm_compute in Hs. injection Hs as <-. reflexivity.
Defined.
