(* ===== verification/FastExit.v ===== *)
(** [src/src/domain/fast-exit.ts]: the early exit of a live position.

    The rules look at the envelope, the creator, the last priced trade and the distinct
    external buyers, in that order; the identifiers of the SELL commands say why a position
    is sold and how often the sale was tried again.  Readers of untyped input return [None]
    where the source throws its one [TypeError]. *)
From Stdlib Require Import QArith.
From Stdlib Require Import Ascii String.
From S2P Require Import Prelude Text JsValue JsonCodec PublicKey.
Local Open Scope string_scope.
Local Open Scope list_scope.
Local Open Scope Z_scope.

(** * Data *)

(** src/src/domain/fast-exit.ts:6-11 (FAST_EXIT_REASONS) *)
Inductive FastExitReason := ENVELOPE_REVOKED | CREATOR_SOLD | TAKE_PROFIT | EXTERNAL_BUYERS.
Inductive ExitReason := Early (r : FastExitReason) | DEADLINE.
Definition FAST_EXIT_REASONS : list (string * FastExitReason) :=
  [("ENVELOPE_REVOKED", ENVELOPE_REVOKED); ("CREATOR_SOLD", CREATOR_SOLD);
   ("TAKE_PROFIT", TAKE_PROFIT); ("EXTERNAL_BUYERS", EXTERNAL_BUYERS)].

(** Decidable equality of the data. *)
Global Instance FastExitReason_eq_dec : EqDecision FastExitReason.
Proof. solve_decision. Defined.
Global Instance ExitReason_eq_dec : EqDecision ExitReason.
Proof. solve_decision. Defined.

(** src/src/domain/fast-exit.ts:18-22 (FastExitPolicy) *)
Record FastExitPolicy := {
  fx_takeProfitBps : Z;
  fx_externalBuyersTarget : Z;
  fx_externalMinimumBuyRaw : Z;
}.

(** src/src/domain/fast-exit.ts:24-34 (FastExitTrade) *)
Inductive trade_kind := BUY | SELL.
Record FastExitTrade := {
  tr_eventId : string;
  tr_kind : trade_kind;
  tr_trader : option string;
  tr_baseAmountRaw : Z;
  tr_quoteAmountRaw : Z;
  tr_slot : Z;
  tr_transactionIndex : Z;
  tr_instructionIndex : Z;
  tr_innerInstructionIndex : option Z;
}.

(** Decidable equality of kinds. *)
Global Instance trade_kind_eq_dec : EqDecision trade_kind.
Proof. solve_decision. Defined.

(** src/src/domain/fast-exit.ts:36-46 (FastExitFacts).  The envelope state is copied as it
    came; the rules read it before the other fields. *)
Record FastExitFacts := {
  fe_envelopeState : js;
  fe_creator : option string;
  fe_walletPublicKey : string;
  fe_remainingBaseRaw : Z;
  fe_quoteCostRaw : Z;
  fe_trades : option (list FastExitTrade);
}.

(** src/src/domain/fast-exit.ts:48-55 *)
Definition BPS_DENOMINATOR : Z := 10000.
Definition MINIMUM_TAKE_PROFIT_BPS : Z := 10001.
Definition MAXIMUM_TAKE_PROFIT_BPS : Z := 100000.
Definition MAXIMUM_BUYERS_TARGET : Z := 1000.
Definition MAXIMUM_TRADES : nat := Z.to_nat 100000.
Definition MAXIMUM_EVENT_ID_BYTES : Z := 256.
Inductive envelope_state := ACTIVE | EXHAUSTED | REVOKED | EXPIRED.
Definition ENVELOPE_STATES : list (string * envelope_state) :=
  [("ACTIVE", ACTIVE); ("EXHAUSTED", EXHAUSTED); ("REVOKED", REVOKED); ("EXPIRED", EXPIRED)].

(** Decidable equality of envelope states. *)
Global Instance envelope_state_eq_dec : EqDecision envelope_state.
Proof. solve_decision. Defined.

(** src/src/domain/fast-exit.ts:69-76 (FACT_KEYS, POLICY_KEYS, TRADE_KEYS) *)
Definition FACT_KEYS : list string :=
  ["envelopeState"; "creator"; "walletPublicKey"; "remainingBaseRaw"; "quoteCostRaw"; "trades"].
Definition POLICY_KEYS : list string :=
  ["takeProfitBps"; "externalBuyersTarget"; "externalMinimumBuyRaw"].
Definition TRADE_KEYS : list string :=
  ["eventId"; "kind"; "trader"; "baseAmountRaw"; "quoteAmountRaw"; "slot"; "transactionIndex";
   "instructionIndex"; "innerInstructionIndex"].

(** * Readers *)

(** src/src/domain/fast-exit.ts:248-266 (exactFrozenRecord) *)
Definition exactFrozenRecord (v : js) (keys : list string) : option record :=
  if isFrozenPlainObject v then exactRecord v keys else None.

(** src/src/domain/fast-exit.ts:268-271 (publicKey) *)
Definition publicKey (v : js) : option string :=
  match v with
  | JString s => if isCanonicalSolanaPublicKey s then Some s else None
  | _ => None
  end.

(** src/src/domain/fast-exit.ts:273-276 (amount) *)
Definition amount (v : js) : option Z := boundedBigint v 0 U64_MAX.

(** src/src/domain/fast-exit.ts:278-281 (index) *)
Definition index (v : js) : option Z := boundedInteger v 0 2147483647.

(** [value === null ? null : read(value)] *)
Definition nullable {A} (read : js -> option A) (v : js) : option (option A) :=
  match v with
  | JNull => Some None
  | _ => Some <$> read v
  end.

(** src/src/domain/fast-exit.ts:214-231 (tradeFrom) *)
Definition tradeFrom (v : js) : option FastExitTrade :=
  r ← exactFrozenRecord v TRADE_KEYS;
  eventId ← bounded_text (field r "eventId") MAXIMUM_EVENT_ID_BYTES;
  kind ← enumValue [("BUY", BUY); ("SELL", SELL)] (field r "kind");
  trader ← nullable publicKey (field r "trader");
  base ← amount (field r "baseAmountRaw");
  quote ← amount (field r "quoteAmountRaw");
  slot ← amount (field r "slot");
  transaction ← index (field r "transactionIndex");
  instruction ← index (field r "instructionIndex");
  inner ← nullable index (field r "innerInstructionIndex");
  Some {| tr_eventId := eventId; tr_kind := kind; tr_trader := trader;
          tr_baseAmountRaw := base; tr_quoteAmountRaw := quote; tr_slot := slot;
          tr_transactionIndex := transaction; tr_instructionIndex := instruction;
          tr_innerInstructionIndex := inner |}.

(** src/src/domain/fast-exit.ts:233-246 (policyFrom) *)
Definition policyFrom (v : js) : option FastExitPolicy :=
  r ← exactFrozenRecord v POLICY_KEYS;
  takeProfitBps ← boundedBigint (field r "takeProfitBps") MINIMUM_TAKE_PROFIT_BPS MAXIMUM_TAKE_PROFIT_BPS;
  target ← boundedInteger (field r "externalBuyersTarget") 1 MAXIMUM_BUYERS_TARGET;
  minimumBuy ← amount (field r "externalMinimumBuyRaw");
  if minimumBuy <? 1 then None else
  Some {| fx_takeProfitBps := takeProfitBps; fx_externalBuyersTarget := target;
          fx_externalMinimumBuyRaw := minimumBuy |}.

(** src/src/domain/fast-exit.ts:122-125 (validFastExitPolicy) *)
Definition validFastExitPolicy (v : js) : option FastExitPolicy := policyFrom v.

(** * The rules *)

(** src/src/domain/fast-exit.ts:166-176 (compareCursor) *)
Definition inner_index (t : FastExitTrade) : Z :=
  match tr_innerInstructionIndex t with Some i => i | None => -1 end.
Definition compareCursor (left right : FastExitTrade) : Z :=
  if negb (tr_slot left =? tr_slot right)
  then (if tr_slot right <? tr_slot left then 1 else -1)
  else if negb (tr_transactionIndex left =? tr_transactionIndex right)
  then tr_transactionIndex left - tr_transactionIndex right
  else if negb (tr_instructionIndex left =? tr_instructionIndex right)
  then tr_instructionIndex left - tr_instructionIndex right
  else if negb (inner_index left =? inner_index right) then inner_index left - inner_index right
  else if bool_decide (tr_eventId left = tr_eventId right) then 0
  else if units_le (key_units (tr_eventId left)) (key_units (tr_eventId right)) then -1 else 1.

(** src/src/domain/fast-exit.ts:95-98: a sale by the creator. *)
Definition creator_sold (input : FastExitFacts) (trades : list FastExitTrade) : bool :=
  match fe_creator input with
  | None => false
  | Some creator =>
      existsb (fun t => bool_decide (tr_kind t = SELL) && bool_decide (tr_trader t = Some creator))
        trades
  end.

(** src/src/domain/fast-exit.ts:100-104: the last trade with a price that is not the wallet's
    own. *)
Definition last_turn (wallet : string) (last : option FastExitTrade) (t : FastExitTrade)
    : option FastExitTrade :=
  if bool_decide (tr_trader t = Some wallet) || (tr_baseAmountRaw t <=? 0) then last
  else match last with
       | None => Some t
       | Some l => if 0 <? compareCursor t l then Some t else last
       end.
Definition last_priced (wallet : string) (trades : list FastExitTrade) : option FastExitTrade :=
  fold_left (last_turn wallet) trades None.

(** src/src/domain/fast-exit.ts:99-110: the take profit rule. *)
Definition take_profit (rules : FastExitPolicy) (input : FastExitFacts)
    (trades : list FastExitTrade) : bool :=
  (0 <? fe_quoteCostRaw input)
  && match last_priced (fe_walletPublicKey input) trades with
     | None => false
     | Some last =>
         fe_quoteCostRaw input * fx_takeProfitBps rules * tr_baseAmountRaw last
         <=? fe_remainingBaseRaw input * tr_quoteAmountRaw last * BPS_DENOMINATOR
     end.

(** src/src/domain/fast-exit.ts:111-117: the set of external buyers. *)
Definition buyers_turn (rules : FastExitPolicy) (input : FastExitFacts) (buyers : gset string)
    (t : FastExitTrade) : gset string :=
  match tr_trader t with
  | None => buyers
  | Some trader =>
      if negb (bool_decide (tr_kind t = BUY)) || bool_decide (Some trader = fe_creator input)
         || bool_decide (trader = fe_walletPublicKey input)
         || (tr_quoteAmountRaw t <? fx_externalMinimumBuyRaw rules)
      then buyers else {[trader]} ∪ buyers
  end.
Definition external_buyers (rules : FastExitPolicy) (input : FastExitFacts)
    (trades : list FastExitTrade) : gset string :=
  fold_left (buyers_turn rules input) trades ∅.

(** src/src/domain/fast-exit.ts:93-119: the rules that read trades. *)
Definition exit_rules (rules : FastExitPolicy) (input : FastExitFacts) : option FastExitReason :=
  match fe_trades input with
  | None => None
  | Some trades =>
      if creator_sold input trades then Some CREATOR_SOLD
      else if take_profit rules input trades then Some TAKE_PROFIT
      else if fx_externalBuyersTarget rules <=? Z.of_nat (size (external_buyers rules input trades))
      then Some EXTERNAL_BUYERS
      else None
  end.

Section Decision.
(** What iterating an exotic array gives (one with accessors, with own keys besides its
    indices, or of a subclass), where the iterator is code of the caller; [None] is a throw. *)
Variable foreign_items : js -> option (list js).

(** What [Array.from] reads of an array that is not exotic: a hole reads as [undefined]. *)
Definition own_items (items : list (option (bool * option js))) : option (list js) :=
  mapM (fun i => match i with
                 | None => Some JUndefined
                 | Some (_, v) => v
                 end) items.

(** src/src/domain/fast-exit.ts:208-212 (tradesFrom) *)
Definition tradesFrom (v : js) : option (list FastExitTrade) :=
  match v with
  | JArray false plain true items =>
      if Nat.ltb MAXIMUM_TRADES (List.length items) then None
      else
        l ← match (if plain then own_items items else None) with
            | Some l => Some l
            | None => foreign_items v
            end;
        mapM tradeFrom l
  | _ => None
  end.

(** src/src/domain/fast-exit.ts:178-206 (factsFrom).  A [null] creator or list and a malformed one
    are both [None]. *)
Definition factsFrom (r : record) : option FastExitFacts :=
  wallet ← publicKey (field r "walletPublicKey");
  remaining ← amount (field r "remainingBaseRaw");
  cost ← amount (field r "quoteCostRaw");
  Some {| fe_envelopeState := field r "envelopeState";
          fe_creator := publicKey (field r "creator");
          fe_walletPublicKey := wallet; fe_remainingBaseRaw := remaining;
          fe_quoteCostRaw := cost; fe_trades := tradesFrom (field r "trades") |}.

(** src/src/domain/fast-exit.ts:78-120 (decideFastExit) *)
Definition decideFastExit (facts policy : js) : option (option FastExitReason) :=
  rules ← policyFrom policy;
  r ← exactFrozenRecord facts FACT_KEYS;
  state ← enumValue ENVELOPE_STATES (field r "envelopeState");
  if bool_decide (state = REVOKED) then Some (Some ENVELOPE_REVOKED)
  else
    input ← factsFrom r;
    Some (exit_rules rules input).
End Decision.

(** * Logical command identifiers *)

(** src/src/domain/fast-exit.ts:13-14 (MAXIMUM_RE_EXITS) *)
Definition MAXIMUM_RE_EXITS : Z := 3.

(** src/src/domain/fast-exit.ts:56-57 (POSITION_ID): the texts the pattern matches. *)
Definition POSITION_ID_PREFIX : list ascii := chars "execution_live_position_".
Definition is_position_id (l : list ascii) : bool :=
  match strip_prefix POSITION_ID_PREFIX l with
  | Some hex => Nat.eqb (List.length hex) 64 && forallb is_lower_hex hex
  | None => false
  end.

(** The length of every text the position pattern matches. *)
Definition POSITION_ID_LENGTH : nat := 88.

(** [[A-Z_]] *)
Definition is_reason_char (c : ascii) : bool :=
  let n := Z.of_nat (nat_of_ascii c) in ((65 <=? n) && (n <=? 90)) || (n =? 95).
(** [[0-9]] *)
Definition is_digit (c : ascii) : bool :=
  let n := Z.of_nat (nat_of_ascii c) in (48 <=? n) && (n <=? 57).
(** [[1-9][0-9]*] *)
Definition is_retry (l : list ascii) : bool :=
  match l with
  | [] => false
  | c :: l' => is_digit c && negb (Ascii.eqb c "0"%char) && forallb is_digit l'
  end.

(** The longest run of reason characters and what follows it. *)
Fixpoint reason_run (l : list ascii) : list ascii * list ascii :=
  match l with
  | c :: l' => if is_reason_char c then let '(n, rest) := reason_run l' in (c :: n, rest) else ([], l)
  | [] => ([], [])
  end.

(** The named groups of a match. *)
Record key_groups := {
  kg_root : list ascii;
  kg_reason : option (list ascii);
  kg_retry : option (list ascii);
}.

(** src/src/domain/fast-exit.ts:64-67 (LOGICAL_KEY_PATTERN): the groups of the one match the
    pattern can have. *)
Definition match_tail (head : list ascii) (reason : option (list ascii)) (l : list ascii)
    : option key_groups :=
  let position := take POSITION_ID_LENGTH l in
  let tail := drop POSITION_ID_LENGTH l in
  if negb (is_position_id position) then None
  else match tail with
       | [] => Some {| kg_root := head ++ position; kg_reason := reason; kg_retry := None |}
       | _ =>
           retry ← strip_prefix (chars ":retry-") tail;
           if is_retry retry
           then Some {| kg_root := head ++ position; kg_reason := reason; kg_retry := Some retry |}
           else None
       end.
Definition match_logical_key (l : list ascii) : option key_groups :=
  match strip_prefix (chars "maximum-holding:") l with
  | Some rest => match_tail (chars "maximum-holding:") None rest
  | None =>
      rest ← strip_prefix (chars "fast-exit:") l;
      let '(name, tail) := reason_run rest in
      if Nat.eqb (List.length name) 0 then None
      else
        rest ← strip_prefix (chars ":") tail;
        match_tail (chars "fast-exit:" ++ name ++ chars ":") (Some name) rest
  end.

(** The answer of [parseLogicalKey]. *)
Record logical_key := {
  lk_root : string;
  lk_reason : ExitReason;
  lk_retry : Z;
}.

(** src/src/domain/fast-exit.ts:149-164 (parseLogicalKey).  The retry number is its exact
    value: the double it is rounded to compares with three in the same way. *)
Definition parseLogicalKey (key : js) : option logical_key :=
  match key with
  | JString s =>
      if 256 <? utf16_length s then None
      else
        groups ← match_logical_key (chars s);
        retry ← match kg_retry groups with
                | None => Some 0
                | Some d => Text.digits_value d
                end;
        if MAXIMUM_RE_EXITS <? retry then None
        else
          reason ← match kg_reason groups with
                   | None => Some DEADLINE
                   | Some name => Early <$> enumValue FAST_EXIT_REASONS (JString (of_chars name))
                   end;
          Some {| lk_root := of_chars (kg_root groups); lk_reason := reason; lk_retry := retry |}
  | _ => None
  end.

(** src/src/domain/fast-exit.ts:137-140 (exitReasonOfLogicalKey) *)
Definition exitReasonOfLogicalKey (key : js) : option ExitReason := lk_reason <$> parseLogicalKey key.

(** src/src/domain/fast-exit.ts:142-147 (reExitLogicalCommandId) *)
Definition reExitLogicalCommandId (current : js) : option string :=
  parsed ← parseLogicalKey current;
  if MAXIMUM_RE_EXITS <? lk_retry parsed + 1 then None
  else Some (lk_root parsed ++ ":retry-" ++ to_decimal (lk_retry parsed + 1))%string.

(** src/src/domain/fast-exit.ts:127-135 (fastExitLogicalCommandId) *)
Definition fastExitLogicalCommandId (reason positionId : js) : option string :=
  match reason, positionId with
  | JString r, JString p =>
      if negb (includes r (map fst FAST_EXIT_REASONS)) then None
      else if negb (is_position_id (chars p)) then None
      else Some ("fast-exit:" ++ r ++ ":" ++ p)%string
  | _, _ => None
  end.

(** src/src/domain/fast-exit.ts:58-63 (REEXIT_ELIGIBLE_LOGICAL_KEY_SQL_PATTERN): does the
    text match? *)
Definition sql_heads : list string :=
  "maximum-holding:" :: map (fun r => "fast-exit:" ++ fst r ++ ":")%string FAST_EXIT_REASONS.
Definition sql_tails : list string := ""%string :: map (fun n => ":retry-" ++ to_decimal n)%string [1; 2].
Definition sql_reexit_eligible (key : string) : bool :=
  existsb (fun head =>
    match strip_prefix (chars head) (chars key) with
    | None => false
    | Some rest =>
        is_position_id (take POSITION_ID_LENGTH rest)
        && existsb (fun tail => bool_decide (drop POSITION_ID_LENGTH rest = chars tail)) sql_tails
    end) sql_heads.

(** * The order of trades *)

(** [left] is not after [right]. *)
Definition cursor_le (left right : FastExitTrade) : Prop := compareCursor left right <= 0.

(** The order is lexicographic on the position on chain, then on the event identifier. *)
Lemma cursor_le_iff a b :
  cursor_le a b <->
  tr_slot a < tr_slot b \/ tr_slot a = tr_slot b /\
  (tr_transactionIndex a < tr_transactionIndex b \/ tr_transactionIndex a = tr_transactionIndex b /\
  (tr_instructionIndex a < tr_instructionIndex b \/ tr_instructionIndex a = tr_instructionIndex b /\
  (inner_index a < inner_index b \/ inner_index a = inner_index b /\
   key_le (tr_eventId a) (tr_eventId b)))).
Proof.
  unfold cursor_le, compareCursor.
  destruct (Z.eqb_spec (tr_slot a) (tr_slot b)); cbn [negb]; [|destruct (Z.ltb_spec (tr_slot b) (tr_slot a)); intuition lia].
  destruct (Z.eqb_spec (tr_transactionIndex a) (tr_transactionIndex b)); cbn [negb]; [|intuition lia].
  destruct (Z.eqb_spec (tr_instructionIndex a) (tr_instructionIndex b)); cbn [negb]; [|intuition lia].
  destruct (Z.eqb_spec (inner_index a) (inner_index b)); cbn [negb]; [|intuition lia].
  assert (key_le (tr_eventId a) (tr_eventId a)) as Hrefl by (by destruct (total key_le (tr_eventId a) (tr_eventId a))).
  destruct (bool_decide_reflect (tr_eventId a = tr_eventId b)) as [E|E].
  - rewrite <- E. intuition lia.
  - change (key_le (tr_eventId a) (tr_eventId b)) with
      (units_le (key_units (tr_eventId a)) (key_units (tr_eventId b)) = true).
    destruct (units_le _ _); [pose proof (eq_refl true)|]; intuition (lia || done).
Qed.

Global Instance cursor_le_trans : Transitive cursor_le.
Proof.
  intros a b c. rewrite !cursor_le_iff. intros H1 H2.
  pose proof (fun x y z => transitivity (R := key_le) (x := x) (y := y) (z := z)).
  destruct (Z.lt_trichotomy (tr_slot a) (tr_slot c)) as [|[]]; [auto | right; split; [done|] | lia].
  destruct (Z.lt_trichotomy (tr_transactionIndex a) (tr_transactionIndex c)) as [|[]]; [auto | right; split; [done|] | lia].
  destruct (Z.lt_trichotomy (tr_instructionIndex a) (tr_instructionIndex c)) as [|[]]; [auto | right; split; [done|] | lia].
  destruct (Z.lt_trichotomy (inner_index a) (inner_index c)) as [|[]]; [auto | right; split; [done|] | lia].
  intuition (lia || eauto).
Qed.

Global Instance cursor_le_total : Total cursor_le.
Proof.
  intros a b. rewrite !cursor_le_iff. pose proof (total key_le (tr_eventId a) (tr_eventId b)).
  destruct (Z.lt_trichotomy (tr_slot a) (tr_slot b)) as [|[]]; [auto | | auto].
  destruct (Z.lt_trichotomy (tr_transactionIndex a) (tr_transactionIndex b)) as [|[]]; [auto | | intuition lia].
  destruct (Z.lt_trichotomy (tr_instructionIndex a) (tr_instructionIndex b)) as [|[]]; [intuition lia | | intuition lia].
  destruct (Z.lt_trichotomy (inner_index a) (inner_index b)) as [|[]]; intuition lia.
Qed.

(** Trades at one place in the order are one event. *)
Lemma cursor_le_event a b : cursor_le a b -> cursor_le b a -> tr_eventId a = tr_eventId b.
Proof.
  rewrite !cursor_le_iff. intros H1 H2. apply (anti_symm key_le); intuition lia.
Qed.

Lemma cursor_gt a b : 0 < compareCursor a b -> cursor_le b a /\ ~ cursor_le a b.
Proof.
  intros H. assert (~ cursor_le a b) as Hn by (unfold cursor_le; lia).
  split; [|done]. by destruct (total cursor_le a b).
Qed.

(** * The rules, declaratively *)

(** A trade that sets a price: it moved tokens and is not the wallet's own. *)
Definition priced (wallet : string) (t : FastExitTrade) : Prop :=
  tr_trader t <> Some wallet /\ 0 < tr_baseAmountRaw t.
(** The trade whose price counts. *)
Definition is_last (wallet : string) (trades : list FastExitTrade) (t : FastExitTrade) : Prop :=
  t ∈ trades /\ priced wallet t /\ forall t', t' ∈ trades -> priced wallet t' -> cursor_le t' t.
(** [w] bought for at least the minimum and is neither the creator nor the wallet. *)
Definition external_buy (rules : FastExitPolicy) (input : FastExitFacts) (t : FastExitTrade)
    (w : string) : Prop :=
  tr_kind t = BUY /\ tr_trader t = Some w /\ fe_creator input <> Some w
  /\ w <> fe_walletPublicKey input /\ fx_externalMinimumBuyRaw rules <= tr_quoteAmountRaw t.

Lemma last_turn_priced wallet last t :
  priced wallet t ->
  last_turn wallet last t =
  match last with None => Some t | Some l => if 0 <? compareCursor t l then Some t else last end.
Proof.
  intros [Ht Hb]. unfold last_turn. rewrite bool_decide_eq_false_2 by done.
  by destruct (Z.leb_spec (tr_baseAmountRaw t) 0); [lia|].
Qed.

Lemma last_turn_skip wallet last t : ~ priced wallet t -> last_turn wallet last t = last.
Proof.
  intros Hn. unfold last_turn. destruct (bool_decide_reflect (tr_trader t = Some wallet)); [done|].
  destruct (Z.leb_spec (tr_baseAmountRaw t) 0); [done|]. by destruct Hn.
Qed.

Global Instance priced_dec wallet t : Decision (priced wallet t).
Proof. unfold priced. apply _. Defined.

Lemma last_fold wallet (trades seen : list FastExitTrade) last :
  match last with
  | None => forall t, t ∈ seen -> ~ priced wallet t
  | Some l => is_last wallet seen l
  end ->
  match fold_left (last_turn wallet) trades last with
  | None => forall t, t ∈ seen ++ trades -> ~ priced wallet t
  | Some l => is_last wallet (seen ++ trades) l
  end.
Proof.
  revert seen last. induction trades as [|t trades IH]; intros seen last Hl; cbn.
  { by rewrite app_nil_r. }
  replace (seen ++ t :: trades) with ((seen ++ [t]) ++ trades) by (by rewrite <- app_assoc).
  apply IH. destruct (decide (priced wallet t)) as [Hp|Hp].
  - rewrite last_turn_priced by done. destruct last as [l|].
    + destruct Hl as (Hin & Hpl & Hmax). destruct (Z.ltb_spec 0 (compareCursor t l)) as [H|H].
      * apply cursor_gt in H as [H _]. split; [set_solver|]. split; [done|].
        intros t' [Ht'|Ht']%elem_of_app Hp'; [by etrans; [apply Hmax|]|].
        apply list_elem_of_singleton in Ht' as ->. by destruct (total cursor_le t t).
      * split; [set_solver|]. split; [done|].
        intros t' [Ht'|Ht']%elem_of_app Hp'; [by apply Hmax|].
        by apply list_elem_of_singleton in Ht' as ->.
    + split; [set_solver|]. split; [done|]. intros t' [Ht'|Ht']%elem_of_app Hp'; [by apply Hl in Ht'|].
      apply list_elem_of_singleton in Ht' as ->. by destruct (total cursor_le t t).
  - rewrite last_turn_skip by done. destruct last as [l|].
    + destruct Hl as (Hin & Hpl & Hmax). split; [set_solver|]. split; [done|].
      intros t' [Ht'|Ht']%elem_of_app Hp'; [by apply Hmax|].
      by apply list_elem_of_singleton in Ht' as ->.
    + intros t' [Ht'|Ht']%elem_of_app; [by apply Hl|]. by apply list_elem_of_singleton in Ht' as ->.
Qed.

Lemma last_priced_spec wallet trades :
  match last_priced wallet trades with
  | None => forall t, t ∈ trades -> ~ priced wallet t
  | Some l => is_last wallet trades l
  end.
Proof. apply (last_fold wallet trades [] None). set_solver. Qed.

(** With distinct events there is one last trade. *)
Lemma is_last_unique wallet trades t t' :
  NoDup (map tr_eventId trades) -> is_last wallet trades t -> is_last wallet trades t' -> t = t'.
Proof.
  intros Hn (Hin & Hp & Hmax) (Hin' & Hp' & Hmax').
  assert (tr_eventId t = tr_eventId t') as E by (apply cursor_le_event; auto).
  apply list_elem_of_lookup in Hin as [i Hi], Hin' as [j Hj].
  assert (i = j) as ->; [|congruence].
  eapply NoDup_lookup; [done| |]; rewrite list_lookup_fmap.
  - by rewrite Hi.
  - rewrite Hj. cbn. by rewrite E.
Qed.

Lemma last_priced_iff wallet trades t :
  NoDup (map tr_eventId trades) -> last_priced wallet trades = Some t <-> is_last wallet trades t.
Proof.
  intros Hn. pose proof (last_priced_spec wallet trades) as H. split.
  - intros E. by rewrite E in H.
  - intros Hl. destruct (last_priced wallet trades) as [l|].
    + f_equal. by eapply is_last_unique.
    + destruct Hl as (Hin & Hp & _). by apply H in Hin.
Qed.

Lemma buyers_fold rules input trades buyers w :
  w ∈ fold_left (buyers_turn rules input) trades buyers <->
  w ∈ buyers \/ exists t, t ∈ trades /\ external_buy rules input t w.
Proof.
  revert buyers. induction trades as [|t trades IH]; intros buyers; cbn; [set_solver|].
  rewrite IH.
  assert (w ∈ buyers_turn rules input buyers t <-> w ∈ buyers \/ external_buy rules input t w) as ->.
  { unfold buyers_turn, external_buy. destruct (tr_trader t) as [trader|]; [|naive_solver].
    destruct (tr_kind t); cbn; [|naive_solver].
    destruct (bool_decide_reflect (Some trader = fe_creator input)); cbn; [naive_solver|].
    destruct (bool_decide_reflect (trader = fe_walletPublicKey input)); cbn; [naive_solver|].
    destruct (Z.ltb_spec (tr_quoteAmountRaw t) (fx_externalMinimumBuyRaw rules)); [naive_solver lia|].
    set_unfold. naive_solver. }
  set_solver.
Qed.

(** A set has at least [n] elements when [n] distinct elements of it can be listed. *)
Lemma size_at_least (s : gset string) (n : nat) :
  (n <= size s)%nat <-> exists l, NoDup l /\ List.length l = n /\ forall x, x ∈ l -> x ∈ s.
Proof.
  split.
  - intros Hn. exists (take n (elements s)). split_and!.
    + eapply sublist_NoDup; [apply (NoDup_elements s) | apply sublist_take].
    + rewrite length_take. unfold size, set_size in Hn. cbn in Hn. lia.
    + intros x Hx. apply elem_of_elements. by eapply elem_of_take in Hx as (? & ? & _); apply list_elem_of_lookup; eexists.
  - intros (l & Hl & <- & Hin). rewrite <- (size_list_to_set (C := gset string) l) by done.
    apply subseteq_size. intros x Hx. apply Hin. by apply elem_of_list_to_set in Hx.
Qed.

(** When a reason holds.  The profit is compared as a ratio: what is left, at the price of
    the last trade, against the cost times the take profit in basis points. *)
Definition exit_due (rules : FastExitPolicy) (state : envelope_state) (input : FastExitFacts)
    (reason : FastExitReason) : Prop :=
  match reason with
  | ENVELOPE_REVOKED => state = REVOKED
  | CREATOR_SOLD => exists trades t, fe_trades input = Some trades /\ t ∈ trades
      /\ tr_kind t = SELL /\ tr_trader t <> None /\ tr_trader t = fe_creator input
  | TAKE_PROFIT => exists trades t, fe_trades input = Some trades
      /\ is_last (fe_walletPublicKey input) trades t /\ 0 < fe_quoteCostRaw input
      /\ (inject_Z (fe_quoteCostRaw input) * (inject_Z (fx_takeProfitBps rules) / 10000)
          <= inject_Z (fe_remainingBaseRaw input)
             * (inject_Z (tr_quoteAmountRaw t) / inject_Z (tr_baseAmountRaw t)))%Q
  | EXTERNAL_BUYERS => exists trades wallets, fe_trades input = Some trades /\ NoDup wallets
      /\ Z.of_nat (List.length wallets) = fx_externalBuyersTarget rules
      /\ forall w, w ∈ wallets -> exists t, t ∈ trades /\ external_buy rules input t w
  end.
(** The order of the rules. *)
Definition exit_rank (reason : FastExitReason) : nat :=
  match reason with
  | ENVELOPE_REVOKED => 0
  | CREATOR_SOLD => 1
  | TAKE_PROFIT => 2
  | EXTERNAL_BUYERS => 3
  end.

Lemma ratio_iff cost bps rem quote base :
  0 < base ->
  (inject_Z cost * (inject_Z bps / 10000) <= inject_Z rem * (inject_Z quote / inject_Z base))%Q
  <-> cost * bps * base <= rem * quote * BPS_DENOMINATOR.
Proof.
  intros Hb. unfold BPS_DENOMINATOR.
  assert (0 < inject_Z base)%Q as HbQ by (by rewrite Zlt_Qlt in Hb).
  rewrite <- (Qmult_le_r _ _ (inject_Z base * 10000)) by (by apply Qmult_lt_0_compat).
  assert (inject_Z cost * (inject_Z bps / 10000) * (inject_Z base * 10000)
          == inject_Z (cost * bps * base))%Q as ->.
  { rewrite !inject_Z_mult. field. }
  assert (inject_Z rem * (inject_Z quote / inject_Z base) * (inject_Z base * 10000)
          == inject_Z (rem * quote * 10000))%Q as ->.
  { rewrite !inject_Z_mult. change (inject_Z 10000) with 10000%Q. field.
    intros E. rewrite E in HbQ. by apply Qlt_irrefl in HbQ. }
  by rewrite <- Zle_Qle.
Qed.

Section Rules.
Context (rules : FastExitPolicy) (input : FastExitFacts) (trades : list FastExitTrade).
Context (Htrades : fe_trades input = Some trades).

Lemma creator_sold_iff state :
  creator_sold input trades = true <-> exit_due rules state input CREATOR_SOLD.
Proof using Htrades.
  unfold creator_sold, exit_due. destruct (fe_creator input) as [c|].
  - rewrite existsb_exists. split.
    + intros (t & Hin & H). bool_prop. exists trades, t. rewrite list_elem_of_In. naive_solver.
    + intros (? & t & [= <-]%(eq_trans (eq_sym Htrades)) & Hin & Hk & _ & Ht). exists t.
      split; [by apply list_elem_of_In|]. by rewrite !bool_decide_eq_true_2.
  - split; [done|]. naive_solver.
Qed.

Lemma take_profit_iff state :
  NoDup (map tr_eventId trades) ->
  take_profit rules input trades = true <-> exit_due rules state input TAKE_PROFIT.
Proof using Htrades.
  intros Hd. unfold take_profit, exit_due. rewrite andb_true_iff, Z.ltb_lt. split.
  - intros [Hc H]. destruct (last_priced _ _) as [t|] eqn:E; [|done].
    apply (last_priced_iff _ _ _ Hd) in E. exists trades, t. split_and!; [done..|].
    apply ratio_iff; [apply E|]. by apply Z.leb_le.
  - intros (? & t & [= <-]%(eq_trans (eq_sym Htrades)) & Hl & Hc & Hr). split; [done|].
    rewrite (proj2 (last_priced_iff _ _ t Hd) Hl). apply Z.leb_le.
    by apply ratio_iff; [apply Hl|].
Qed.

Lemma external_buyers_iff state :
  0 <= fx_externalBuyersTarget rules ->
  fx_externalBuyersTarget rules <= Z.of_nat (size (external_buyers rules input trades))
  <-> exit_due rules state input EXTERNAL_BUYERS.
Proof using Htrades.
  intros Ht. unfold exit_due.
  transitivity (Z.to_nat (fx_externalBuyersTarget rules) <= size (external_buyers rules input trades))%nat; [lia|].
  rewrite size_at_least. unfold external_buyers. setoid_rewrite buyers_fold. split.
  - intros (l & Hn & Hl & H). exists trades, l. split_and!; [done..|lia|]. set_solver.
  - intros (? & l & [= <-]%(eq_trans (eq_sym Htrades)) & Hn & Hl & H). exists l. split_and!; [done|lia|]. auto.
Qed.
End Rules.

Lemma policyFrom_target v rules : policyFrom v = Some rules -> 0 <= fx_externalBuyersTarget rules.
Proof. unfold policyFrom. intros H. option_inv. cbn. lia. Qed.

(** A decision is the first reason that holds. *)
Definition first_due (due : FastExitReason -> Prop) (d : option FastExitReason) : Prop :=
  match d with
  | Some x => due x /\ forall y, (exit_rank y < exit_rank x)%nat -> ~ due y
  | None => forall y, ~ due y
  end.

Lemma first_due_unique due d d' : first_due due d -> first_due due d' -> d = d'.
Proof.
  intros H H'. destruct d as [x|], d' as [y|]; cbn in *; [|naive_solver..].
  destruct H as [Hx Hmin], H' as [Hy Hmin'].
  destruct (Nat.lt_trichotomy (exit_rank x) (exit_rank y)) as [?|[E|?]]; [naive_solver| |naive_solver].
  f_equal. by destruct x, y.
Qed.

Lemma exit_rules_first_due rules state input :
  state <> REVOKED -> 0 <= fx_externalBuyersTarget rules ->
  (forall trades, fe_trades input = Some trades -> NoDup (map tr_eventId trades)) ->
  first_due (exit_due rules state input) (exit_rules rules input).
Proof.
  intros Hs Ht Hd. unfold exit_rules. destruct (fe_trades input) as [trades|] eqn:E.
  2: { intros []; cbn; naive_solver. }
  pose proof (creator_sold_iff rules input trades E state) as Hc.
  pose proof (take_profit_iff rules input trades E state (Hd _ eq_refl)) as Hp.
  pose proof (external_buyers_iff rules input trades E state Ht) as Hb.
  destruct (creator_sold input trades).
  { split; [by apply Hc|]. intros []; cbn; (lia || done). }
  destruct (take_profit rules input trades).
  { split; [by apply Hp|]. intros []; cbn [exit_rank]; try lia; [done|]. by intros _ ?%Hc. }
  destruct (Z.leb_spec (fx_externalBuyersTarget rules) (Z.of_nat (size (external_buyers rules input trades)))) as [Hle|Hle].
  { split; [by apply Hb|]. intros []; cbn [exit_rank]; try lia; [done| |]; intros _; [by intros ?%Hc | by intros ?%Hp]. }
  intros []; [done|by intros ?%Hc|by intros ?%Hp|]. intros ?%Hb. lia.
Qed.

Section Properties.
Context (foreign_items : js -> option (list js)).

(** C30: the decision.  On well-formed facts whose trades are distinct events, the decision is
    the first reason that holds in the fixed order (revoked envelope, sale by the creator,
    take profit, enough external buyers) and no exit when none holds.  Take profit holds
    exactly when the remaining tokens, valued at the price of the last foreign trade, are
    worth the cost times the take profit ratio, without any rounding; external buyers are
    counted as distinct wallets.  The answer does not depend on the order of the trades. *)
Theorem decideFastExit_first_due (facts policy : js) (rules : FastExitPolicy) (r : record)
    (state : envelope_state) (input : FastExitFacts)
    (Hp : policyFrom policy = Some rules) (Hr : exactFrozenRecord facts FACT_KEYS = Some r)
    (Hs : enumValue ENVELOPE_STATES (field r "envelopeState") = Some state)
    (Hi : factsFrom foreign_items r = Some input)
    (Hd : forall trades, fe_trades input = Some trades -> NoDup (map tr_eventId trades)) :
  (forall reason, decideFastExit foreign_items facts policy = Some (Some reason) <->
     exit_due rules state input reason
     /\ forall reason', (exit_rank reason' < exit_rank reason)%nat ->
          ~ exit_due rules state input reason')
  /\ (decideFastExit foreign_items facts policy = Some None <->
      forall reason, ~ exit_due rules state input reason).
Proof.
  assert (decideFastExit foreign_items facts policy =
    Some (if bool_decide (state = REVOKED) then Some ENVELOPE_REVOKED else exit_rules rules input)) as ->.
  { unfold decideFastExit. rewrite Hp, Hr. cbn [mbind option_bind]. rewrite Hs. cbn [mbind option_bind].
    rewrite Hi. by destruct (bool_decide _). }
  assert (first_due (exit_due rules state input)
    (if bool_decide (state = REVOKED) then Some ENVELOPE_REVOKED else exit_rules rules input)) as Hf.
  { apply policyFrom_target in Hp. case_bool_decide as E; [|by apply exit_rules_first_due].
    split; [done|]. intros y. cbn. lia. }
  split; [intros reason|]; (split; [intros [= E]; by rewrite E in Hf|]); intros H; f_equal;
    by eapply first_due_unique.
Qed.
End Properties.

(** A holding bought for 1000 of which 50 tokens are left, and two trades after it: the last
    one prices a token at 30. *)
Definition sample_object (r : record) : js := frozen_object ObjectPrototype r.
Definition sample_trade (eventId trader : string) (base quote slot : Z) : js :=
  sample_object
    [("eventId", JString eventId); ("kind", JString "BUY"); ("trader", JString trader);
     ("baseAmountRaw", JBigInt base); ("quoteAmountRaw", JBigInt quote); ("slot", JBigInt slot);
     ("transactionIndex", JNumber (NumInt 0)); ("instructionIndex", JNumber (NumInt 1));
     ("innerInstructionIndex", JNull)].
Definition sample_record : record :=
  [("envelopeState", JString "ACTIVE"); ("creator", JNull);
   ("walletPublicKey", JString "So11111111111111111111111111111111111111112");
   ("remainingBaseRaw", JBigInt 50); ("quoteCostRaw", JBigInt 1000);
   ("trades", frozen_array
      [sample_trade "b" "11111111111111111111111111111111" 10 300 8;
       sample_trade "a" "11111111111111111111111111111111" 10 10 7])].
Definition sample_rules : record :=
  [("takeProfitBps", JBigInt 15000); ("externalBuyersTarget", JNumber (NumInt 2));
   ("externalMinimumBuyRaw", JBigInt 1)].
Definition sample_policy : FastExitPolicy :=
  {| fx_takeProfitBps := 15000; fx_externalBuyersTarget := 2; fx_externalMinimumBuyRaw := 1 |}.
Definition typed_trade (eventId trader : string) (base quote slot : Z) : FastExitTrade :=
  {| tr_eventId := eventId; tr_kind := BUY; tr_trader := Some trader; tr_baseAmountRaw := base;
     tr_quoteAmountRaw := quote; tr_slot := slot; tr_transactionIndex := 0; tr_instructionIndex := 1;
     tr_innerInstructionIndex := None |}.
Definition sample_facts : FastExitFacts :=
  {| fe_envelopeState := JString "ACTIVE"; fe_creator := None;
     fe_walletPublicKey := "So11111111111111111111111111111111111111112";
     fe_remainingBaseRaw := 50; fe_quoteCostRaw := 1000;
     fe_trades := Some [typed_trade "b" "11111111111111111111111111111111" 10 300 8;
                        typed_trade "a" "11111111111111111111111111111111" 10 10 7] |}.

(** The holding is worth one and a half times its cost: it is sold for profit. *)
Lemma decideFastExit_first_due_witness :
  decideFastExit (fun _ => None) (sample_object sample_record) (sample_object sample_rules)
    = Some (Some TAKE_PROFIT)
  /\ exit_due sample_policy ACTIVE sample_facts TAKE_PROFIT.
Proof.
  assert (decideFastExit (fun _ => None) (sample_object sample_record) (sample_object sample_rules)
    = Some (Some TAKE_PROFIT)) as E by (vm_compute; reflexivity).
  split; [exact E|].
  refine (proj1 (proj1 (proj1 (decideFastExit_first_due (fun _ => None) (sample_object sample_record)
    (sample_object sample_rules) sample_policy sample_record ACTIVE sample_facts _ _ _ _ _) TAKE_PROFIT) E)).
  - vm_compute. reflexivity.
  - vm_compute. reflexivity.
  - vm_compute. reflexivity.
  - vm_compute. reflexivity.
  - intros trades [= <-]. apply (bool_decide_unpack _). vm_compute. exact I.
Defined.

(** * Logical keys *)

Lemma is_position_id_spec l :
  is_position_id l = true ->
  List.length l = POSITION_ID_LENGTH /\ exists hex, l = POSITION_ID_PREFIX ++ hex.
Proof.
  unfold is_position_id. destruct (strip_prefix _ _) as [hex|] eqn:E; [|done].
  apply strip_prefix_Some in E as ->. rewrite andb_true_iff, Nat.eqb_eq. intros [Hl _].
  rewrite length_app, Hl. eauto.
Qed.

Lemma reason_run_spec l n rest : reason_run l = (n, rest) -> l = n ++ rest /\ forallb is_reason_char n = true.
Proof.
  revert n rest. induction l as [|c l IH]; cbn; intros n rest E; [by injection E as <- <-|].
  destruct (is_reason_char c) eqn:Hc; [|by injection E as <- <-].
  destruct (reason_run l) as [n' rest'] eqn:Hr. injection E as <- <-.
  destruct (IH _ _ eq_refl) as [-> Hn]. cbn. by rewrite Hc.
Qed.

Lemma reason_run_app n l :
  forallb is_reason_char n = true -> reason_run (n ++ chars ":" ++ l) = (n, chars ":" ++ l).
Proof.
  induction n as [|c n IH]; [done|]. cbn [app reason_run forallb].
  intros [-> Hn]%andb_true_iff. by rewrite (IH Hn).
Qed.

(** The tail of a key. *)
Definition retry_tail (retry : option (list ascii)) (tail : list ascii) : Prop :=
  match retry with
  | None => tail = []
  | Some d => is_retry d = true /\ tail = chars ":retry-" ++ d
  end.
(** The beginning of a key. *)
Definition key_head (reason : option (list ascii)) (head : list ascii) : Prop :=
  match reason with
  | None => head = chars "maximum-holding:"
  | Some n => n <> [] /\ forallb is_reason_char n = true /\ head = chars "fast-exit:" ++ n ++ chars ":"
  end.

Lemma match_tail_iff head reason l g :
  match_tail head reason l = Some g <->
  exists position tail, l = position ++ tail /\ is_position_id position = true
    /\ kg_root g = head ++ position /\ kg_reason g = reason /\ retry_tail (kg_retry g) tail.
Proof.
  unfold match_tail. split.
  - intros H. destruct (is_position_id _) eqn:Hp; [|done].
    exists (take POSITION_ID_LENGTH l), (drop POSITION_ID_LENGTH l).
    split; [by rewrite take_drop|]. split; [done|].
    destruct (drop POSITION_ID_LENGTH l) as [|c tail] eqn:Ht; [by injection H as <-|].
    cbn [negb] in H. apply bind_Some in H as (d & Hd & H). apply strip_prefix_Some in Hd.
    destruct (is_retry d) eqn:Hr; [|done]. injection H as <-. done.
  - intros (position & tail & -> & Hp & Hroot & Hreason & Ht).
    pose proof (proj1 (is_position_id_spec _ Hp)) as Hl.
    rewrite take_app_length', drop_app_length' by done. rewrite Hp. cbn [negb].
    destruct g as [root reason' [d|]]; cbn [kg_root kg_reason kg_retry retry_tail] in *; subst.
    + destruct Ht as [Hd ->]. destruct (chars ":retry-" ++ d) eqn:E; [done|].
      rewrite <- E, strip_prefix_app. cbn. by rewrite Hd.
    + done.
Qed.

Lemma match_logical_key_iff l g :
  match_logical_key l = Some g <->
  exists head position tail, l = head ++ position ++ tail /\ is_position_id position = true
    /\ kg_root g = head ++ position /\ key_head (kg_reason g) head /\ retry_tail (kg_retry g) tail.
Proof.
  unfold match_logical_key. split.
  - destruct (strip_prefix (chars "maximum-holding:") l) as [rest|] eqn:Hm.
    + apply strip_prefix_Some in Hm as ->. rewrite match_tail_iff.
      intros (p & tail & -> & Hp & Hroot & Hreason & Ht). exists (chars "maximum-holding:"), p, tail.
      by rewrite Hreason.
    + intros H. apply bind_Some in H as (rest & Hr & H). apply strip_prefix_Some in Hr as ->.
      destruct (reason_run rest) as [n tail0] eqn:Hn. apply reason_run_spec in Hn as [-> Hn].
      destruct (Nat.eqb_spec (List.length n) 0) as [|Hne]; [done|].
      apply bind_Some in H as (rest & Hr & H). apply strip_prefix_Some in Hr as ->.
      apply match_tail_iff in H as (p & tail & -> & Hp & Hroot & Hreason & Ht).
      exists (chars "fast-exit:" ++ n ++ chars ":"), p, tail.
      rewrite Hreason. split_and!; [by rewrite <- !app_assoc|done..| |done].
      by split; [destruct n|].
  - intros (head & p & tail & -> & Hp & Hroot & Hhead & Ht).
    destruct g as [root [n|] retry]; cbn [kg_root kg_reason kg_retry key_head] in *.
    + destruct Hhead as (Hne & Hn & ->). rewrite <- !app_assoc.
      change (strip_prefix (chars "maximum-holding:") (chars "fast-exit:" ++ n ++ chars ":" ++ p ++ tail)) with (@None (list ascii)).
      cbn match. rewrite strip_prefix_app. cbn [mbind option_bind]. rewrite reason_run_app by done.
      destruct (Nat.eqb_spec (List.length n) 0); [by destruct n|].
      rewrite strip_prefix_app. cbn [mbind option_bind]. apply match_tail_iff. exists p, tail. done.
    + subst head. rewrite strip_prefix_app. apply match_tail_iff. exists p, tail. done.
Qed.

Lemma push_digits_lower l a n : fold_left push_digit l (Some a) = Some n -> 0 <= a ->
  a * 10 ^ Z.of_nat (List.length l) <= n.
Proof.
  revert a. induction l as [|c l IH]; cbn [fold_left List.length]; intros a H Ha.
  - injection H as <-. cbn. lia.
  - unfold push_digit at 2 in H. cbn [mbind option_bind] in H. destruct (digit_value c) as [d|] eqn:Hd.
    + cbn [mbind option_bind] in H. assert (0 <= d).
      { unfold digit_value in Hd. destruct (_ && _) eqn:E; [|done]. injection Hd as <-. bool_prop. lia. }
      apply IH in H; [|lia]. rewrite Nat2Z.inj_succ, Z.pow_succ_r by lia. nia.
    + exfalso. clear -H. induction l; [done|auto].
Qed.

(** The retry numbers within the cap are the decimals of one, two and three. *)
Lemma retry_number d n :
  is_retry d = true -> Text.digits_value d = Some n -> n <= MAXIMUM_RE_EXITS ->
  1 <= n /\ d = chars (to_decimal n).
Proof.
  destruct d as [|c d]; [done|]. cbn [is_retry]. intros Hc Hv Hn.
  apply andb_true_iff in Hc as [[Hd H0]%andb_true_iff _]. unfold Text.digits_value in Hv. cbn [fold_left] in Hv.
  unfold push_digit at 2 in Hv. cbn [mbind option_bind] in Hv.
  destruct (digit_value c) as [v|] eqn:Hcv; [|cbn in Hv; exfalso; clear -Hv; induction d; [done|auto]].
  cbn [mbind option_bind] in Hv.
  assert (1 <= v /\ c = digit_char v) as [Hv1 ->].
  { unfold digit_value in Hcv. destruct (_ && _) eqn:E; [|done]. injection Hcv as <-. bool_prop.
    unfold digit_char.
    replace (Z.to_nat (Z.of_nat (nat_of_ascii c) - 48 + 48)) with (nat_of_ascii c) by lia.
    rewrite ascii_nat_embedding. split; [|done].
    assert (nat_of_ascii c <> 48%nat); [|lia]. intros E'. apply (f_equal ascii_of_nat) in E'.
    rewrite ascii_nat_embedding in E'. subst c. done. }
  apply push_digits_lower in Hv as Hlow; [|lia]. unfold MAXIMUM_RE_EXITS in Hn.
  destruct d as [|c' d].
  - cbn in Hv. injection Hv as <-. rewrite Z.add_0_l in *. split; [done|].
    assert (v = 1 \/ v = 2 \/ v = 3) as [->|[->| ->]] by lia; done.
  - cbn [List.length] in Hlow. rewrite Nat2Z.inj_succ, Z.pow_succ_r in Hlow by lia.
    pose proof (Z.pow_pos_nonneg 10 (Z.of_nat (List.length d))). nia.
Qed.

(** The name of an early reason, and the text of the key of a sale with its retry number. *)
Definition reason_name (r : FastExitReason) : string :=
  match r with
  | ENVELOPE_REVOKED => "ENVELOPE_REVOKED"
  | CREATOR_SOLD => "CREATOR_SOLD"
  | TAKE_PROFIT => "TAKE_PROFIT"
  | EXTERNAL_BUYERS => "EXTERNAL_BUYERS"
  end.
Definition head_text (reason : ExitReason) : string :=
  match reason with
  | DEADLINE => "maximum-holding:"
  | Early r => "fast-exit:" ++ reason_name r ++ ":"
  end%string.
Definition tail_text (retry : Z) : string :=
  if retry =? 0 then "" else ":retry-" ++ to_decimal retry.
Definition key_text (reason : ExitReason) (position : string) (retry : Z) : string :=
  (head_text reason ++ position ++ tail_text retry)%string.

Lemma reason_of_name s r :
  enumValue FAST_EXIT_REASONS (JString s) = Some r <-> s = reason_name r.
Proof.
  split; [|by intros ->; destruct r]. cbn [enumValue]. intros H.
  destruct (List.find _ _) as [[n r']|] eqn:E; [|done]. cbn in H. injection H as ->.
  apply find_some in E as [Hin Hn]. bool_prop. cbn in Hn. subst n. cbn in Hin. naive_solver.
Qed.

Lemma utf16_units_bound c : 0 <= utf16_units c <= 2.
Proof. unfold utf16_units. cbv zeta. by repeat case_match. Qed.

Lemma utf16_length_bound s : utf16_length s <= 2 * Z.of_nat (List.length (chars s)).
Proof.
  unfold utf16_length. induction (chars s) as [|c l IH]; cbn [foldr List.length]; [done|].
  pose proof (utf16_units_bound c). lia.
Qed.

Lemma key_text_short reason p retry :
  is_position_id (chars p) = true -> 0 <= retry <= MAXIMUM_RE_EXITS ->
  utf16_length (key_text reason p retry) <= 256.
Proof.
  intros Hp Hr. etrans; [apply utf16_length_bound|]. unfold key_text. rewrite !chars_app, !length_app.
  apply is_position_id_spec in Hp as [-> _]. unfold MAXIMUM_RE_EXITS in Hr.
  assert (List.length (chars (head_text reason)) <= 28)%nat by (destruct reason as [[]|]; vm_compute; lia).
  assert (retry = 0 \/ retry = 1 \/ retry = 2 \/ retry = 3) as Hc by lia.
  assert (List.length (chars (tail_text retry)) <= 8)%nat; [|unfold POSITION_ID_LENGTH; lia].
  destruct Hc as [->|[->|[->| ->]]]; vm_compute; lia.
Qed.

(** What the parser accepts, and what it answers. *)
Lemma parseLogicalKey_iff s k :
  parseLogicalKey (JString s) = Some k <->
  exists position, is_position_id (chars position) = true /\ 0 <= lk_retry k <= MAXIMUM_RE_EXITS
    /\ lk_root k = (head_text (lk_reason k) ++ position)%string
    /\ s = key_text (lk_reason k) position (lk_retry k).
Proof.
  unfold parseLogicalKey. split.
  - intros H. destruct (_ <? _); [done|]. apply bind_Some in H as (g & Hg & H).
    apply match_logical_key_iff in Hg as (head & p & tail & E & Hp & Hroot & Hhead & Htail).
    apply bind_Some in H as (n & Hn & H). destruct (Z.ltb_spec MAXIMUM_RE_EXITS n); [done|].
    apply bind_Some in H as (reason & Hr & H). injection H as <-. cbn [lk_root lk_reason lk_retry].
    exists (of_chars p). rewrite chars_of_chars.
    assert (head = chars (head_text reason)) as ->.
    { destruct (kg_reason g) as [name|]; cbn [key_head] in Hhead.
      - destruct Hhead as (_ & _ & ->). apply fmap_Some in Hr as (r & Hr & ->).
        apply reason_of_name in Hr. cbn [head_text]. rewrite !chars_app, <- Hr, chars_of_chars. done.
      - injection Hr as <-. done. }
    assert (0 <= n /\ tail = chars (tail_text n)) as [Hn0 ->].
    { destruct (kg_retry g) as [d|]; cbn [retry_tail] in Htail.
      - destruct Htail as [Hd ->]. destruct (retry_number d n Hd Hn) as [Hn1 ->]; [lia|].
        split; [lia|]. unfold tail_text. destruct (Z.eqb_spec n 0); [lia|]. by rewrite chars_app.
      - injection Hn as <-. done. }
    split_and!; [done|lia|lia|by rewrite Hroot, of_chars_app, of_chars_chars|].
    apply chars_inj. unfold key_text. by rewrite E, !chars_app, chars_of_chars.
  - intros (p & Hp & Hn & Hroot & ->).
    destruct (Z.ltb_spec 256 (utf16_length (key_text (lk_reason k) p (lk_retry k)))) as [Hl|_].
    { by apply Z.lt_nge in Hl; destruct Hl; apply key_text_short. }
    apply bind_Some.
    exists {| kg_root := chars (lk_root k);
              kg_reason := match lk_reason k with DEADLINE => None | Early r => Some (chars (reason_name r)) end;
              kg_retry := if lk_retry k =? 0 then None else Some (chars (to_decimal (lk_retry k))) |}.
    split.
    { apply match_logical_key_iff. cbn [kg_root kg_reason kg_retry].
      exists (chars (head_text (lk_reason k))), (chars p), (chars (tail_text (lk_retry k))).
      rewrite Hroot. unfold key_text. rewrite !chars_app. split_and!; [done..| |].
      - destruct (lk_reason k) as [[]|]; done.
      - unfold tail_text. destruct (Z.eqb_spec (lk_retry k) 0); [done|].
        unfold MAXIMUM_RE_EXITS in Hn.
        assert (lk_retry k = 1 \/ lk_retry k = 2 \/ lk_retry k = 3) as [->|[->| ->]] by lia; done. }
    cbn [kg_root kg_reason kg_retry]. apply bind_Some. exists (lk_retry k). split.
    { destruct (Z.eqb_spec (lk_retry k) 0) as [->|]; [done|]. unfold MAXIMUM_RE_EXITS in Hn.
      assert (lk_retry k = 1 \/ lk_retry k = 2 \/ lk_retry k = 3) as [->|[->| ->]] by lia; done. }
    destruct (Z.ltb_spec MAXIMUM_RE_EXITS (lk_retry k)); [lia|].
    apply bind_Some. exists (lk_reason k). split; [by destruct (lk_reason k) as [[]|]|].
    rewrite of_chars_chars. by destruct k.
Qed.

(** The retries of a key: each is the re-exit of the one before. *)
Fixpoint re_exits (n : nat) (key : string) : list string :=
  match n with
  | O => []
  | S n => match reExitLogicalCommandId (JString key) with
           | None => []
           | Some next => next :: re_exits n next
           end
  end.

Lemma reExit_key_text reason p n :
  is_position_id (chars p) = true -> 0 <= n <= MAXIMUM_RE_EXITS ->
  reExitLogicalCommandId (JString (key_text reason p n))
  = if n <? MAXIMUM_RE_EXITS then Some (key_text reason p (n + 1)) else None.
Proof.
  intros Hp Hn. unfold reExitLogicalCommandId.
  rewrite (proj2 (parseLogicalKey_iff _
    {| lk_root := head_text reason ++ p; lk_reason := reason; lk_retry := n |})) by (by exists p).
  cbn [mbind option_bind lk_retry lk_root].
  destruct (Z.ltb_spec MAXIMUM_RE_EXITS (n + 1)), (Z.ltb_spec n MAXIMUM_RE_EXITS); try lia; [done|].
  f_equal. apply chars_inj. unfold key_text, tail_text.
  destruct (Z.eqb_spec (n + 1) 0); [lia|]. rewrite !chars_app. by rewrite <- !app_assoc.
Qed.

Lemma re_exits_key_text reason p n fuel :
  is_position_id (chars p) = true -> 0 <= n <= MAXIMUM_RE_EXITS -> (Z.to_nat (MAXIMUM_RE_EXITS - n) <= fuel)%nat ->
  re_exits fuel (key_text reason p n)
  = map (key_text reason p) (seqZ (n + 1) (MAXIMUM_RE_EXITS - n)).
Proof.
  intros Hp. revert n. induction fuel as [|fuel IH]; intros n Hn Hf.
  - by rewrite (seqZ_nil _ (MAXIMUM_RE_EXITS - n)) by lia.
  - cbn [re_exits]. rewrite reExit_key_text by done.
    destruct (Z.ltb_spec n MAXIMUM_RE_EXITS).
    + rewrite IH by lia. rewrite (seqZ_cons (n + 1) (MAXIMUM_RE_EXITS - n)) by lia. cbn [map].
      do 2 f_equal. f_equal; lia.
    + by rewrite (seqZ_nil _ (MAXIMUM_RE_EXITS - n)) by lia.
Qed.

Lemma exitReason_key_text reason p n :
  is_position_id (chars p) = true -> 0 <= n <= MAXIMUM_RE_EXITS ->
  exitReasonOfLogicalKey (JString (key_text reason p n)) = Some reason.
Proof.
  intros Hp Hn. unfold exitReasonOfLogicalKey.
  by rewrite (proj2 (parseLogicalKey_iff _
    {| lk_root := head_text reason ++ p; lk_reason := reason; lk_retry := n |})) by (by exists p).
Qed.

Lemma key_text_inj reason p n n' :
  0 <= n <= MAXIMUM_RE_EXITS -> 0 <= n' <= MAXIMUM_RE_EXITS ->
  key_text reason p n = key_text reason p n' -> n = n'.
Proof.
  intros Hn Hn' E. apply (f_equal chars) in E. unfold key_text in E. rewrite !chars_app in E.
  do 2 apply app_inv_head in E. apply chars_inj in E. unfold MAXIMUM_RE_EXITS in *.
  assert (n = 0 \/ n = 1 \/ n = 2 \/ n = 3) as [->|[->|[->| ->]]] by lia;
    (assert (n' = 0 \/ n' = 1 \/ n' = 2 \/ n' = 3) as [->|[->|[->| ->]]] by lia); done.
Qed.

Lemma fastExit_key r p key :
  fastExitLogicalCommandId r p = Some key ->
  exists reason position, r = JString (reason_name reason) /\ p = JString position
    /\ is_position_id (chars position) = true /\ key = key_text (Early reason) position 0.
Proof.
  unfold fastExitLogicalCommandId. intros H. destruct r as [| | | | |r| |], p as [| | | | |p| |]; try done.
  destruct (includes r _) eqn:Hr; [|done]. destruct (is_position_id (chars p)) eqn:Hp; [|done].
  injection H as <-. apply includes_true in Hr.
  assert (exists reason, r = reason_name reason) as [reason ->].
  { cbn [map fst FAST_EXIT_REASONS] in Hr. rewrite !elem_of_cons, elem_of_nil in Hr. destruct Hr as [->|[->|[->|[->|[]]]]];
      [by exists ENVELOPE_REVOKED | by exists CREATOR_SOLD | by exists TAKE_PROFIT | by exists EXTERNAL_BUYERS]. }
  exists reason, p. split_and!; [done..|]. unfold key_text. apply chars_inj.
  change (tail_text 0) with ""%string. cbn [head_text]. rewrite !chars_app. by rewrite <- !app_assoc, app_nil_r.
Qed.

(** Re-exits end.  From any identifier with a known exit reason, taking the next re-exit
    again and again stops after at most three identifiers, all different from each other and
    from the first, and every one names the same reason (a sale that is tried again never
    changes why it was made).  An identifier made by [fastExitLogicalCommandId] has its own
    reason and exactly three re-exits. *)
Theorem re_exits_bounded (key : string) (reason : ExitReason) (n : nat)
    (Hk : exitReasonOfLogicalKey (JString key) = Some reason) (Hn : (3 <= n)%nat) :
  re_exits n key = re_exits 3 key /\ (List.length (re_exits n key) <= 3)%nat
  /\ NoDup (key :: re_exits n key)
  /\ Forall (fun k => exitReasonOfLogicalKey (JString k) = Some reason) (re_exits n key)
  /\ forall r p, fastExitLogicalCommandId (JString r) p = Some key ->
       List.length (re_exits n key) = 3%nat /\ exists e, reason = Early e /\ r = reason_name e.
Proof.
  unfold exitReasonOfLogicalKey in Hk. apply fmap_Some in Hk as (k & Hk & ->).
  apply parseLogicalKey_iff in Hk as (p & Hp & Hr & _ & ->).
  destruct k as [root reason m]. cbn [lk_retry lk_reason] in *.
  rewrite !re_exits_key_text by (unfold MAXIMUM_RE_EXITS in *; lia || done).
  split_and!; [done| | | |].
  - rewrite length_map, length_seqZ. unfold MAXIMUM_RE_EXITS in *. lia.
  - constructor.
    + intros (m' & E & Hm)%list_elem_of_fmap. apply elem_of_seqZ in Hm.
      apply key_text_inj in E; lia.
    + apply NoDup_fmap_2_strong; [|apply NoDup_seqZ].
      intros x y Hx%elem_of_seqZ Hy%elem_of_seqZ. apply key_text_inj; lia.
  - apply Forall_map, Forall_forall. intros m' Hm%elem_of_seqZ. cbn.
    apply exitReason_key_text; [done|lia].
  - intros r q (e & p' & [= ->] & -> & Hp' & E)%fastExit_key.
    assert (parseLogicalKey (JString (key_text reason p m))
            = Some {| lk_root := head_text reason ++ p; lk_reason := reason; lk_retry := m |}) as H1
      by (apply parseLogicalKey_iff; by exists p).
    assert (parseLogicalKey (JString (key_text (Early e) p' 0))
            = Some {| lk_root := head_text (Early e) ++ p'; lk_reason := Early e; lk_retry := 0 |}) as H2
      by (apply parseLogicalKey_iff; by exists p').
    rewrite E in H1. rewrite H1 in H2. injection H2 as _ -> ->. split; [|by exists e].
    by rewrite length_map, length_seqZ.
Qed.

(** A live position. *)
Definition sample_position : string :=
  "execution_live_position_0123456789abcdef0123456789abcdef0123456789abcdef0123456789abcdef".

(** The retries of a sale for profit: three of them. *)
Lemma re_exits_bounded_witness :
  let key := ("fast-exit:TAKE_PROFIT:" ++ sample_position)%string in
  fastExitLogicalCommandId (JString "TAKE_PROFIT") (JString sample_position) = Some key
  /\ List.length (re_exits 5 key) = 3%nat.
Proof.
  intros key. split; [reflexivity|].
  refine (proj1 (proj2 (proj2 (proj2 (proj2 (re_exits_bounded key (Early TAKE_PROFIT) 5 _ _)))) "TAKE_PROFIT" (JString sample_position) _)).
  - vm_compute. reflexivity.
  - lia.
  - reflexivity.
Defined.

Lemma sql_pattern_iff key :
  sql_reexit_eligible key = true <->
  exists reason p n, is_position_id (chars p) = true /\ 0 <= n < MAXIMUM_RE_EXITS /\ key = key_text reason p n.
Proof.
  unfold sql_reexit_eligible. rewrite existsb_exists. split.
  - intros (head & Hh & H). destruct (strip_prefix _ _) as [rest|] eqn:E; [|done].
    apply strip_prefix_Some in E. apply andb_true_iff in H as [Hp Ht].
    apply existsb_exists in Ht as (tail & Htail & Ht). apply bool_decide_eq_true in Ht.
    assert (exists reason, head = head_text reason) as [reason ->].
    { cbn in Hh. destruct Hh as [<-|[<-|[<-|[<-|[<-|[]]]]]];
        [by exists DEADLINE | by exists (Early ENVELOPE_REVOKED) | by exists (Early CREATOR_SOLD)
        | by exists (Early TAKE_PROFIT) | by exists (Early EXTERNAL_BUYERS)]. }
    assert (exists n, 0 <= n < MAXIMUM_RE_EXITS /\ tail = tail_text n) as (n & Hn & ->).
    { cbn in Htail. destruct Htail as [<-|[<-|[<-|[]]]]; [by exists 0 | by exists 1 | by exists 2]. }
    exists reason, (of_chars (take POSITION_ID_LENGTH rest)), n. rewrite chars_of_chars.
    split_and!; [done|lia|lia|]. apply chars_inj. unfold key_text.
    by rewrite E, !chars_app, chars_of_chars, <- Ht, take_drop.
  - intros (reason & p & n & Hp & Hn & ->). exists (head_text reason).
    split; [destruct reason as [[]|]; cbn; tauto|].
    unfold key_text. rewrite chars_app, strip_prefix_app, chars_app.
    pose proof (proj1 (is_position_id_spec _ Hp)) as Hl.
    rewrite take_app_length', drop_app_length' by done. rewrite Hp. cbn [andb].
    apply existsb_exists. exists (tail_text n). split; [|by apply bool_decide_eq_true].
    unfold MAXIMUM_RE_EXITS in Hn. assert (n = 0 \/ n = 1 \/ n = 2) as [->|[->| ->]] by lia; cbn; tauto.
Qed.

(** The database and the code agree on what may be tried again.  A key matches the SQL
    pattern by which the repository selects dead sales exactly when [reExitLogicalCommandId]
    gives the next identifier: no selected sale is refused by the code and none the code
    would retry is left out. *)
Theorem sql_eligible_iff_reexit (key : string) :
  sql_reexit_eligible key = true <-> exists next, reExitLogicalCommandId (JString key) = Some next.
Proof.
  rewrite sql_pattern_iff. split.
  - intros (reason & p & n & Hp & Hn & ->). rewrite reExit_key_text by (done || lia).
    destruct (Z.ltb_spec n MAXIMUM_RE_EXITS); [by eexists|lia].
  - intros (next & H). unfold reExitLogicalCommandId in H. apply bind_Some in H as (k & Hk & H).
    apply parseLogicalKey_iff in Hk as (p & Hp & Hr & _ & ->).
    destruct (Z.ltb_spec MAXIMUM_RE_EXITS (lk_retry k + 1)); [done|].
    exists (lk_reason k), p, (lk_retry k). split_and!; [done|lia|lia|done].
Qed.
