(* ===== verification/Quota.v ===== *)
(** [src/src/domain/execution-provider-quota.ts]: how much of an RPC provider's plan may be
    spent, and whether new entries are still affordable.

    A snapshot of the provider's usage carries the digest of its own fields.  The evaluation
    reserves what the open positions need to exit, be confirmed and be reconciled, and only
    lets entries use what is left.  Every failure ends in one error class, so readers return
    [None] where the source throws. *)
From S2P Require Import Prelude Text Types Json JsValue RiskPolicy.
From Stdlib Require Import Ascii String.
Local Open Scope string_scope.
Local Open Scope list_scope.
Local Open Scope Z_scope.

(** src/src/domain/execution-provider-quota.ts:8-13 (constants) *)
Definition DATE_MAX_MS : Z := 8640000000000000.
Definition MAX_OPEN_POSITIONS : Z := 16.
Definition MAX_RATE_LIMIT_EVENTS : nat := Z.to_nat 1000.
Definition RATE_LIMIT_WINDOW_MS : Z := 30000.

(** src/src/domain/execution-provider-quota.ts:15-29 (SNAPSHOT_INPUT_KEYS, SNAPSHOT_KEYS,
    OPERATION_ID_KEYS, QUOTA_INPUT_KEYS) *)
Definition SNAPSHOT_INPUT_KEYS : list string :=
  ["providerId"; "planId"; "billingPeriodId"; "billingPeriodStartedAtMs"; "billingPeriodEndsAtMs";
   "limitUnits"; "usedUnits"; "measuredAtMs"; "expiresAtMs"; "provenance"].
Definition SNAPSHOT_KEYS : list string :=
  "snapshotId" :: "payloadVersion" :: "snapshotFingerprint" :: SNAPSHOT_INPUT_KEYS.
Definition OPERATION_ID_KEYS : list string :=
  ["providerId"; "billingPeriodId"; "category"; "logicalOperationId"].
Definition QUOTA_INPUT_KEYS : list string :=
  ["policy"; "previousSnapshot"; "snapshot"; "localUsedSinceMeasurement"; "openPositions";
   "consecutiveRateLimits"; "allEndpointsUnavailable"; "nowMs"].

(** src/src/domain/execution-provider-quota.ts:41-43 (CATEGORIES) *)
Definition CATEGORIES : list string :=
  ["ENTRY"; "EXIT"; "CONFIRMATION"; "RECONCILIATION"; "TELEMETRY"].
(** src/src/domain/execution-provider-quota.ts:44-47 (PROVENANCES) *)
Definition PROVENANCES : list string :=
  ["AUTHORITATIVE_PROBE"; "OPERATOR_REPORT"; "EXECUTOR_COUNTERS"].

(** src/src/domain/execution-provider-quota.ts:49-54 (ExecutionProviderQuotaState,
    ExecutionProviderQuotaReasonCode) *)
Inductive ExecutionProviderQuotaState := QS_NORMAL | QS_ENTRY_BLOCKED | QS_EXIT_ONLY | QS_UNKNOWN.
Inductive ExecutionProviderQuotaReasonCode :=
| PROVIDER_USAGE_UNKNOWN | PROVIDER_ENTRY_LIMIT_REACHED | PROVIDER_EXIT_ONLY.

(** src/src/domain/execution-provider-quota.ts:58-69 (ProviderUsageSnapshotInputV1) *)
Record ProviderUsageSnapshotInputV1 := {
  us_providerId : string;
  us_planId : string;
  us_billingPeriodId : string;
  us_billingPeriodStartedAtMs : Z;
  us_billingPeriodEndsAtMs : Z;
  us_limitUnits : Z;
  us_usedUnits : Z;
  us_measuredAtMs : Z;
  us_expiresAtMs : Z;
  us_provenance : string;
}.

(** src/src/domain/execution-provider-quota.ts:71-75 (ProviderUsageSnapshotV1) *)
Record ProviderUsageSnapshotV1 := {
  us_snapshotId : string;
  us_snapshotFingerprint : string;
  us_fields : ProviderUsageSnapshotInputV1;
}.

(** src/src/domain/execution-provider-quota.ts:77-86 (ProviderQuotaDecisionV1) *)
Record ProviderQuotaDecisionV1 := {
  qd_state : ExecutionProviderQuotaState;
  qd_reasonCode : option ExecutionProviderQuotaReasonCode;
  qd_remainingUnits : option Z;
  qd_protectedUnits : Z;
  qd_entryCostUnits : Z;
  qd_recentRateLimitCount : nat;
  qd_snapshotFingerprint : option string;
}.

(** * Readers *)

(** src/src/domain/execution-provider-quota.ts:347-353 (enumValue) *)
Definition enum_text (values : list string) (v : js) : option string :=
  match v with
  | JString s => if includes s values then Some s else None
  | _ => None
  end.

(** src/src/domain/execution-provider-quota.ts:355-360 (identifier) *)
Definition is_identifier_start (c : ascii) : bool :=
  let n := Z.of_nat (nat_of_ascii c) in
  ((65 <=? n) && (n <=? 90)) || ((97 <=? n) && (n <=? 122)) || ((48 <=? n) && (n <=? 57)).
Definition is_identifier_char (c : ascii) : bool :=
  is_identifier_start c || Ascii.eqb c "."%char || Ascii.eqb c "_"%char || Ascii.eqb c "-"%char.
Definition identifier (v : js) : option string :=
  match v with
  | JString s =>
      match chars s with
      | c :: l => if is_identifier_start c && forallb is_identifier_char l
                     && Nat.leb (List.length l) 63
                  then Some s else None
      | [] => None
      end
  | _ => None
  end.

(** src/src/domain/execution-provider-quota.ts:384-386 (timestamp) *)
Definition timestamp (v : js) : option Z := boundedInteger v 0 DATE_MAX_MS.

(** src/src/domain/execution-provider-quota.ts:306-319 (timestampsFrom): the loop, with the
    last time read. *)
Fixpoint timestamps_loop (last : option Z) (items : list (option (bool * option js)))
    : option (list Z) :=
  match items with
  | [] => Some []
  | item :: items' =>
      v ← descriptor_value item;
      observedAtMs ← timestamp v;
      if match last with Some l => observedAtMs <? l | None => false end then None
      else rest ← timestamps_loop (Some observedAtMs) items';
           Some (observedAtMs :: rest)
  end.
Definition timestampsFrom (v : js) : option (list Z) :=
  match v with
  | JArray false _ _ items =>
      if Nat.ltb MAX_RATE_LIMIT_EVENTS (List.length items) then None else timestamps_loop None items
  | _ => None
  end.

(** src/src/domain/execution-provider-quota.ts:213-237 (snapshotInputFrom) *)
Definition snapshotInputFrom (v : js) : option ProviderUsageSnapshotInputV1 :=
  r ← exactRecord v SNAPSHOT_INPUT_KEYS;
  providerId ← identifier (field r "providerId");
  planId ← bounded_text (field r "planId") 128;
  billingPeriodId ← bounded_text (field r "billingPeriodId") 128;
  startedAt ← timestamp (field r "billingPeriodStartedAtMs");
  endsAt ← timestamp (field r "billingPeriodEndsAtMs");
  limitUnits ← positiveBigint (field r "limitUnits");
  usedUnits ← unsignedBigint (field r "usedUnits");
  measuredAt ← timestamp (field r "measuredAtMs");
  expiresAt ← timestamp (field r "expiresAtMs");
  provenance ← enum_text PROVENANCES (field r "provenance");
  if (endsAt <=? startedAt) || (measuredAt <? startedAt) || (endsAt <=? measuredAt)
     || (expiresAt <? measuredAt + 30000) || (measuredAt + 900000 <? expiresAt)
     || (endsAt <? expiresAt) || (limitUnits <? usedUnits)
  then None
  else Some {| us_providerId := providerId; us_planId := planId; us_billingPeriodId := billingPeriodId;
               us_billingPeriodStartedAtMs := startedAt; us_billingPeriodEndsAtMs := endsAt;
               us_limitUnits := limitUnits; us_usedUnits := usedUnits; us_measuredAtMs := measuredAt;
               us_expiresAtMs := expiresAt; us_provenance := provenance |}.

(** src/src/domain/execution-provider-quota.ts:257-270 (snapshotIsCoherent) *)
Definition snapshotIsCoherent (previous : option ProviderUsageSnapshotV1)
    (current : ProviderUsageSnapshotV1) : bool :=
  match previous with
  | None => true
  | Some previous =>
      let p := us_fields previous in
      let c := us_fields current in
      if negb (bool_decide (us_providerId c = us_providerId p))
         || negb (bool_decide (us_planId c = us_planId p)) then false
      else if bool_decide (us_billingPeriodId c = us_billingPeriodId p)
      then (us_billingPeriodStartedAtMs c =? us_billingPeriodStartedAtMs p)
           && (us_billingPeriodEndsAtMs c =? us_billingPeriodEndsAtMs p)
           && (us_measuredAtMs p <=? us_measuredAtMs c) && (us_usedUnits p <=? us_usedUnits c)
      else us_billingPeriodEndsAtMs p <=? us_billingPeriodStartedAtMs c
  end.

(** The array [snapshotFingerprintFor] serializes. *)
Definition snapshot_json (s : ProviderUsageSnapshotInputV1) : json :=
  JsonArr
    [JsonStr "execution-provider-usage-v1"; JsonStr (us_providerId s); JsonStr (us_planId s);
     JsonStr (us_billingPeriodId s); JsonInt (us_billingPeriodStartedAtMs s);
     JsonInt (us_billingPeriodEndsAtMs s); JsonStr (to_decimal (us_limitUnits s));
     JsonStr (to_decimal (us_usedUnits s)); JsonInt (us_measuredAtMs s); JsonInt (us_expiresAtMs s);
     JsonStr (us_provenance s)].

(** The checked input of an evaluation. *)
Record quota_input := {
  qi_policy : ExecutionRiskPolicyV1;
  qi_previousSnapshot : option ProviderUsageSnapshotV1;
  qi_snapshot : option ProviderUsageSnapshotV1;
  qi_localUsedSinceMeasurement : Z;
  qi_openPositions : Z;
  qi_consecutiveRateLimits : list Z;
  qi_allEndpointsUnavailable : bool;
  qi_nowMs : Z;
}.

Section Digest.
Context `{Sha256}.

(** src/src/domain/execution-provider-quota.ts:293-304 (snapshotFingerprintFor, hash) *)
Definition snapshotFingerprintFor (s : ProviderUsageSnapshotInputV1) : string :=
  sha256_hex (stringify (snapshot_json s)).

(** src/src/domain/execution-provider-quota.ts:95-108 (createProviderUsageSnapshot) *)
Definition createProviderUsageSnapshot (v : js) : option ProviderUsageSnapshotV1 :=
  fields ← snapshotInputFrom v;
  let fingerprint := snapshotFingerprintFor fields in
  Some {| us_snapshotId := ("execution_provider_usage_" +:+ fingerprint);
          us_snapshotFingerprint := fingerprint; us_fields := fields |}.

(** src/src/domain/execution-provider-quota.ts:110-124 (createProviderUsageOperationId) *)
Definition createProviderUsageOperationId (v : js) : option string :=
  r ← exactRecord v OPERATION_ID_KEYS;
  providerId ← identifier (field r "providerId");
  billingPeriodId ← bounded_text (field r "billingPeriodId") 128;
  category ← enum_text CATEGORIES (field r "category");
  logicalOperationId ← bounded_text (field r "logicalOperationId") 256;
  Some ("execution_provider_operation_" +:+ sha256_hex (stringify (JsonArr
    [JsonStr "execution-provider-operation-v1"; JsonStr providerId; JsonStr billingPeriodId;
     JsonStr category; JsonStr logicalOperationId]))).

(** src/src/domain/execution-provider-quota.ts:202-211 (policyFrom) *)
Definition quota_policyFrom (v : js) : option ExecutionRiskPolicyV1 :=
  if negb (isFrozenPlainObject v) then None else
  r ← exactRecord v POLICY_KEYS;
  match field r "payloadVersion", field r "policyFingerprint" with
  | JNumber (NumInt 1), JString fingerprint =>
      match createExecutionRiskPolicy (JObject false NullPrototype false
              (map (fun kv => (KeyString (fst kv), data (snd kv))) (pick r POLICY_INPUT_KEYS))) with
      | Ok reconstructed =>
          if bool_decide (rp_policyFingerprint reconstructed = fingerprint)
          then Some reconstructed else None
      | Err _ => None
      end
  | _, _ => None
  end.

(** src/src/domain/execution-provider-quota.ts:239-255 (nullableSnapshotFrom) *)
Definition nullableSnapshotFrom (v : js) : option (option ProviderUsageSnapshotV1) :=
  match v with
  | JNull => Some None
  | _ =>
      if negb (isFrozenPlainObject v) then None else
      r ← exactRecord v SNAPSHOT_KEYS;
      match field r "payloadVersion" with
      | JNumber (NumInt 1) =>
          fields ← snapshotInputFrom (frozen_object NullPrototype (pick r SNAPSHOT_INPUT_KEYS));
          fingerprint ← fingerprintFrom (field r "snapshotFingerprint");
          let expected := snapshotFingerprintFor fields in
          match field r "snapshotId" with
          | JString snapshotId =>
              if bool_decide (fingerprint = expected)
                 && bool_decide (snapshotId = "execution_provider_usage_" +:+ expected)
              then Some (Some {| us_snapshotId := snapshotId; us_snapshotFingerprint := fingerprint;
                                 us_fields := fields |})
              else None
          | _ => None
          end
      | _ => None
      end
  end.

(** src/src/domain/execution-provider-quota.ts:176-200 (quotaInputFrom) *)
Definition quotaInputFrom (v : js) : option quota_input :=
  r ← exactRecord v QUOTA_INPUT_KEYS;
  policy ← quota_policyFrom (field r "policy");
  previousSnapshot ← nullableSnapshotFrom (field r "previousSnapshot");
  snapshot ← nullableSnapshotFrom (field r "snapshot");
  localUsed ← unsignedBigint (field r "localUsedSinceMeasurement");
  openPositions ← boundedInteger (field r "openPositions") 0 MAX_OPEN_POSITIONS;
  rateLimits ← timestampsFrom (field r "consecutiveRateLimits");
  allEndpointsUnavailable ← booleanValue (field r "allEndpointsUnavailable");
  nowMs ← timestamp (field r "nowMs");
  if existsb (fun observedAtMs => nowMs <? observedAtMs) rateLimits then None
  else Some {| qi_policy := policy; qi_previousSnapshot := previousSnapshot; qi_snapshot := snapshot;
               qi_localUsedSinceMeasurement := localUsed; qi_openPositions := openPositions;
               qi_consecutiveRateLimits := rateLimits;
               qi_allEndpointsUnavailable := allEndpointsUnavailable; qi_nowMs := nowMs |}.
End Digest.

(** * Evaluation *)

(** src/src/domain/execution-provider-quota.ts:130-134: what the open positions need. *)
Definition protected_units (policy : ExecutionRiskPolicyInputV1) (openPositions : Z) : Z :=
  openPositions * (rp_providerExitCostUnitsPerPosition policy
                   + rp_providerConfirmationCostUnitsPerPosition policy
                   + rp_providerReconciliationCostUnitsPerPosition policy)
  + rp_providerSafetyMarginUnits policy.

(** src/src/domain/execution-provider-quota.ts:135-137: the recent rate limits. *)
Definition recent_rate_limits (nowMs : Z) (observed : list Z) : nat :=
  List.length (List.filter (fun observedAtMs => nowMs - RATE_LIMIT_WINDOW_MS <=? observedAtMs) observed).

(** src/src/domain/execution-provider-quota.ts:127-170 (evaluateProviderQuota, quotaDecision):
    the decision on checked input. *)
Definition decide_quota (fields : quota_input) : ProviderQuotaDecisionV1 :=
  let policy := rp_fields (qi_policy fields) in
  let protectedUnits := protected_units policy (qi_openPositions fields) in
  let recent := recent_rate_limits (qi_nowMs fields) (qi_consecutiveRateLimits fields) in
  let quotaDecision state reasonCode remainingUnits fingerprint :=
    {| qd_state := state; qd_reasonCode := reasonCode; qd_remainingUnits := remainingUnits;
       qd_protectedUnits := protectedUnits; qd_entryCostUnits := rp_providerEntryCostUnits policy;
       qd_recentRateLimitCount := recent; qd_snapshotFingerprint := fingerprint |} in
  match qi_snapshot fields with
  | None => quotaDecision QS_UNKNOWN (Some PROVIDER_USAGE_UNKNOWN) None None
  | Some snapshot =>
      let fingerprint := Some (us_snapshotFingerprint snapshot) in
      if negb (snapshotIsCoherent (qi_previousSnapshot fields) snapshot)
         || (us_expiresAtMs (us_fields snapshot) <? qi_nowMs fields)
         || (us_measuredAtMs (us_fields snapshot) + rp_providerUsageMaxAgeMs policy <? qi_nowMs fields)
      then quotaDecision QS_UNKNOWN (Some PROVIDER_USAGE_UNKNOWN) None fingerprint
      else
        let remainingUnits := us_limitUnits (us_fields snapshot) - us_usedUnits (us_fields snapshot)
                              - qi_localUsedSinceMeasurement fields in
        if qi_allEndpointsUnavailable fields || (remainingUnits <? protectedUnits)
        then quotaDecision QS_EXIT_ONLY (Some PROVIDER_EXIT_ONLY) (Some remainingUnits) fingerprint
        else if Nat.leb 3 recent
                || (remainingUnits - rp_providerEntryCostUnits policy <? protectedUnits)
        then quotaDecision QS_ENTRY_BLOCKED (Some PROVIDER_ENTRY_LIMIT_REACHED)
               (Some remainingUnits) fingerprint
        else quotaDecision QS_NORMAL None (Some remainingUnits) fingerprint
  end.

(** src/src/domain/execution-provider-quota.ts:126-174 (evaluateProviderQuota) *)
Definition evaluateProviderQuota `{Sha256} (v : js) : option ProviderQuotaDecisionV1 :=
  decide_quota <$> quotaInputFrom v.

(** * Properties *)

(** The quota module reads a policy exactly as the risk gate does. *)
Lemma quota_policyFrom_eq `{Sha256} (Hhex : forall s, is_sha256_hex (sha256_hex s) = true) v :
  quota_policyFrom v = policyFrom v.
Proof.
  unfold quota_policyFrom, policyFrom. destruct (negb _); [done|].
  destruct (exactRecord v POLICY_KEYS) as [r|]; [|done]. cbn [mbind option_bind].
  destruct (field r "payloadVersion") as [| | |[[|[| |]|]| |]| | | |]; try done.
  destruct (field r "policyFingerprint") as [| | | | |fp| |]; try done. unfold createExecutionRiskPolicy.
  change (policyInputFrom (JObject false NullPrototype false _))
    with (policyInputFrom (frozen_object NullPrototype (pick r POLICY_INPUT_KEYS))).
  destruct (policyInputFrom _) as [f|]; cbn [fingerprintFrom]; [|by destruct (is_sha256_hex fp)].
  cbn [rp_policyFingerprint]. destruct (bool_decide_reflect (fingerprintPolicy f = fp)) as [<-|Hne].
  - assert (is_sha256_hex (fingerprintPolicy f) = true) as -> by apply Hhex.
    cbn [mbind option_bind]. by rewrite bool_decide_eq_true_2.
  - destruct (is_sha256_hex fp); [|done]. cbn [mbind option_bind]. by rewrite bool_decide_eq_false_2 by congruence.
Qed.

(** [current] continues [previous]: the same plan, and either the same period with counters
    that only grow or a later period. *)
Definition continues (previous current : ProviderUsageSnapshotInputV1) : Prop :=
  us_providerId current = us_providerId previous /\ us_planId current = us_planId previous
  /\ ((us_billingPeriodId current = us_billingPeriodId previous
       /\ us_billingPeriodStartedAtMs current = us_billingPeriodStartedAtMs previous
       /\ us_billingPeriodEndsAtMs current = us_billingPeriodEndsAtMs previous
       /\ us_measuredAtMs previous <= us_measuredAtMs current
       /\ us_usedUnits previous <= us_usedUnits current)
      \/ (us_billingPeriodId current <> us_billingPeriodId previous
          /\ us_billingPeriodEndsAtMs previous <= us_billingPeriodStartedAtMs current)).

(** A measurement that can be relied on. *)
Definition usable (f : quota_input) (s : ProviderUsageSnapshotV1) : Prop :=
  qi_snapshot f = Some s
  /\ (forall p, qi_previousSnapshot f = Some p -> continues (us_fields p) (us_fields s))
  /\ qi_nowMs f <= us_expiresAtMs (us_fields s)
  /\ qi_nowMs f <= us_measuredAtMs (us_fields s) + rp_providerUsageMaxAgeMs (rp_fields (qi_policy f)).

(** What is left of the plan, and what must be kept for the open positions. *)
Definition budget (f : quota_input) (s : ProviderUsageSnapshotV1) : Z :=
  us_limitUnits (us_fields s) - us_usedUnits (us_fields s) - qi_localUsedSinceMeasurement f.
Definition reserve (f : quota_input) : Z :=
  protected_units (rp_fields (qi_policy f)) (qi_openPositions f).
Definition recent (f : quota_input) : nat :=
  recent_rate_limits (qi_nowMs f) (qi_consecutiveRateLimits f).

Lemma snapshotIsCoherent_iff previous s :
  snapshotIsCoherent previous s = true <->
  forall p, previous = Some p -> continues (us_fields p) (us_fields s).
Proof.
  unfold snapshotIsCoherent, continues. destruct previous as [p|]; [|naive_solver].
  transitivity (continues (us_fields p) (us_fields s)); [|naive_solver]. unfold continues.
  repeat case_bool_decide; cbn [negb orb]; rewrite ?andb_true_iff, ?Z.eqb_eq, ?Z.leb_le; naive_solver.
Qed.

(** The decision by cases: no usable measurement, or the measurement with what follows. *)
Lemma decide_quota_cases f :
  ((forall s, ~ usable f s) /\ qd_state (decide_quota f) = QS_UNKNOWN)
  \/ exists s, usable f s /\ qd_state (decide_quota f) =
       if qi_allEndpointsUnavailable f || (budget f s <? reserve f) then QS_EXIT_ONLY
       else if Nat.leb 3 (recent f)
               || (budget f s - rp_providerEntryCostUnits (rp_fields (qi_policy f)) <? reserve f)
       then QS_ENTRY_BLOCKED else QS_NORMAL.
Proof.
  unfold decide_quota. destruct (qi_snapshot f) as [s|] eqn:Hs.
  2: { left. split; [|done]. intros s [? _]. congruence. }
  pose proof (snapshotIsCoherent_iff (qi_previousSnapshot f) s) as Hc.
  destruct (negb _ || _ || _) eqn:E.
  - left. split; [|done]. intros s' (Hs' & Hp & H1 & H2). rewrite Hs in Hs'. injection Hs' as <-.
    apply Hc in Hp. rewrite Hp in E. cbn [negb orb] in E. apply orb_true_iff in E. lia.
  - right. exists s. rewrite !orb_false_iff, negb_false_iff in E. destruct E as [[Hp H1] H2]. split.
    + split; [done|]. split; [by apply Hc|]. lia.
    + unfold budget, reserve, recent. by repeat case_match.
Qed.

Lemma quota_policy_complete `{Sha256} v p : quota_policyFrom v = Some p -> complete_policy (rp_fields p).
Proof.
  unfold quota_policyFrom, createExecutionRiskPolicy. intros E. destruct (negb _); [done|].
  apply bind_Some in E as (r & _ & E).
  destruct (field r "payloadVersion") as [| | |[[|[| |]|]| |]| | | |]; try done.
  destruct (field r "policyFingerprint") as [| | | | |fp| |];
    [done|done|done|done|done| |done|done].
  destruct (policyInputFrom _) as [f|] eqn:Hf; [|done]. apply policyInputFrom_complete in Hf.
  by destruct (bool_decide _); [injection E as <-|].
Qed.

Lemma quotaInput_bounds `{Sha256} v f :
  quotaInputFrom v = Some f ->
  complete_policy (rp_fields (qi_policy f)) /\ 0 <= qi_openPositions f <= 16
  /\ 0 <= qi_localUsedSinceMeasurement f.
Proof.
  unfold quotaInputFrom, unsignedBigint. intros E.
  repeat match type of E with (_ ≫= _) = _ => apply bind_Some in E as (? & ? & E) end.
  option_inv. cbn. split; [by eapply quota_policy_complete|]. unfold MAX_OPEN_POSITIONS in *. lia.
Qed.

Lemma usable_unique f s s' : usable f s -> usable f s' -> s = s'.
Proof. intros [? _] [? _]. congruence. Qed.

(** C31: the quota gate.  For every accepted input the state is UNKNOWN exactly when there is no
    measurement that continues the previous one, has not expired and is young enough;
    EXIT_ONLY exactly when there is one but no endpoint answers or what is left of the plan
    does not cover the exit, confirmation and reconciliation of every open position with the
    safety margin; ENTRY_BLOCKED exactly when only the entry is not covered or three rate
    limits fell in the window; and NORMAL exactly when an entry can be paid for and still
    leaves the whole reserve of the open positions untouched. *)
Theorem quota_state_iff `{Sha256} (v : js) (f : quota_input) (d : ProviderQuotaDecisionV1)
    (Hf : quotaInputFrom v = Some f) (Hd : evaluateProviderQuota v = Some d) :
  let entry := rp_providerEntryCostUnits (rp_fields (qi_policy f)) in
  (qd_state d = QS_UNKNOWN <-> forall s, ~ usable f s)
  /\ (qd_state d = QS_EXIT_ONLY <-> exists s, usable f s
       /\ (qi_allEndpointsUnavailable f = true \/ budget f s < reserve f))
  /\ (qd_state d = QS_ENTRY_BLOCKED <-> exists s, usable f s
       /\ qi_allEndpointsUnavailable f = false /\ reserve f <= budget f s
       /\ ((3 <= recent f)%nat \/ budget f s < entry + reserve f))
  /\ (qd_state d = QS_NORMAL <-> exists s, usable f s
       /\ qi_allEndpointsUnavailable f = false /\ (recent f < 3)%nat
       /\ entry + reserve f <= budget f s).
Proof.
  unfold evaluateProviderQuota in Hd. rewrite Hf in Hd. injection Hd as <-. intros entry.
  apply quotaInput_bounds in Hf as [Hp _]. apply cp_entry in Hp. fold entry in Hp.
  destruct (decide_quota_cases f) as [[Hn ->]|(s & Hs & ->)].
  { split_and!; (split; [done|]); [done|naive_solver..]. }
  assert (forall P : ProviderUsageSnapshotV1 -> Prop, (exists s', usable f s' /\ P s') <-> P s) as Hex.
  { intros P. split; [|by exists s]. intros (s' & Hs' & HP). by rewrite (usable_unique f s s'). }
  rewrite !Hex. fold entry.
  destruct (qi_allEndpointsUnavailable f); cbn [orb].
  { naive_solver. }
  destruct (Z.ltb_spec (budget f s) (reserve f)); [naive_solver lia|].
  destruct (Nat.leb_spec 3 (recent f)); cbn [orb]; [naive_solver lia|].
  destruct (Z.ltb_spec (budget f s - entry) (reserve f)); naive_solver lia.
Qed.

(** States from the most to the least permissive. *)
Definition severity (s : ExecutionProviderQuotaState) : nat :=
  match s with
  | QS_NORMAL => 0
  | QS_ENTRY_BLOCKED => 1
  | QS_EXIT_ONLY => 2
  | QS_UNKNOWN => 3
  end.

(** [g] is [f] after more was spent, more positions opened, more endpoints failed or more
    rate limits were met, with the same policy, measurements and clock. *)
Record worse (f g : quota_input) : Prop := {
  ws_policy : qi_policy g = qi_policy f;
  ws_previous : qi_previousSnapshot g = qi_previousSnapshot f;
  ws_snapshot : qi_snapshot g = qi_snapshot f;
  ws_now : qi_nowMs g = qi_nowMs f;
  ws_used : qi_localUsedSinceMeasurement f <= qi_localUsedSinceMeasurement g;
  ws_positions : qi_openPositions f <= qi_openPositions g;
  ws_endpoints : qi_allEndpointsUnavailable f = true -> qi_allEndpointsUnavailable g = true;
  ws_limits : qi_consecutiveRateLimits f `sublist_of` qi_consecutiveRateLimits g;
}.

Lemma recent_monotone now l l' :
  l `sublist_of` l' -> (recent_rate_limits now l <= recent_rate_limits now l')%nat.
Proof.
  unfold recent_rate_limits. induction 1 as [|x l l' _ IH|x l l' _ IH]; cbn [List.filter]; [done| |];
    destruct (_ <=? x); cbn [List.length]; lia.
Qed.

Lemma reserve_monotone f g :
  complete_policy (rp_fields (qi_policy f)) -> worse f g -> reserve f <= reserve g.
Proof.
  intros [_ _ _ _ ? ? ? _] [Hp _ _ _ _ Ho _ _]. unfold reserve, protected_units. rewrite Hp. nia.
Qed.

(** The gate is pessimistic.  Spending more units, opening more positions, losing the
    endpoints or meeting more rate limits, with the same policy, measurement and clock, never
    gives a more permissive state. *)
Theorem quota_monotone `{Sha256} (v w : js) (f g : quota_input) (d e : ProviderQuotaDecisionV1)
    (Hf : quotaInputFrom v = Some f) (Hg : quotaInputFrom w = Some g)
    (Hd : evaluateProviderQuota v = Some d) (He : evaluateProviderQuota w = Some e)
    (Hw : worse f g) :
  (severity (qd_state d) <= severity (qd_state e))%nat.
Proof.
  unfold evaluateProviderQuota in Hd, He. rewrite Hf in Hd. rewrite Hg in He.
  injection Hd as <-. injection He as <-. apply quotaInput_bounds in Hf as [Hp _].
  pose proof (reserve_monotone f g Hp Hw) as Hres. destruct Hw as [Hpol Hprev Hsnap Hnow Hused _ Hend Hlim].
  apply (recent_monotone (qi_nowMs f)) in Hlim. fold (recent f) in Hlim. rewrite <- Hnow in Hlim. fold (recent g) in Hlim.
  assert (forall s, usable g s <-> usable f s) as Hu.
  { intros s. unfold usable. by rewrite Hpol, Hprev, Hsnap, Hnow. }
  destruct (decide_quota_cases g) as [[_ ->]|(s & Hs & ->)]; [destruct (qd_state (decide_quota f)); cbn; lia|].
  apply Hu in Hs. destruct (decide_quota_cases f) as [[Hn _]|(s' & Hs' & ->)]; [naive_solver|].
  rewrite (usable_unique f s s') by done. rewrite Hpol.
  assert (budget g s' <= budget f s') as Hb by (unfold budget; lia).
  destruct (qi_allEndpointsUnavailable f); [rewrite Hend by done; done|]. cbn [orb].
  destruct (qi_allEndpointsUnavailable g); cbn [orb]; [repeat case_match; cbn; lia|].
  destruct (Z.ltb_spec (budget f s') (reserve f)), (Z.ltb_spec (budget g s') (reserve g)); try (repeat case_match; cbn; lia).
  destruct (Nat.leb_spec 3 (recent f)), (Nat.leb_spec 3 (recent g)); cbn [orb]; try (repeat case_match; cbn; lia).
Qed.

(** A plan of 100 units of which ten were used, and one open position. *)
Definition sample_snapshot : ProviderUsageSnapshotInputV1 :=
  {| us_providerId := "provider-1"; us_planId := "plan"; us_billingPeriodId := "2026-08";
     us_billingPeriodStartedAtMs := 0; us_billingPeriodEndsAtMs := 10000000;
     us_limitUnits := 100; us_usedUnits := 10; us_measuredAtMs := 1000000;
     us_expiresAtMs := 1060000; us_provenance := "OPERATOR_REPORT" |}.

(** The object of a snapshot, key by key. *)
Definition snapshot_value (s : ProviderUsageSnapshotV1) (key : string) : js :=
  let f := us_fields s in
  match key with
  | "snapshotId" => JString (us_snapshotId s)
  | "payloadVersion" => JNumber (NumInt 1)
  | "snapshotFingerprint" => JString (us_snapshotFingerprint s)
  | "providerId" => JString (us_providerId f)
  | "planId" => JString (us_planId f)
  | "billingPeriodId" => JString (us_billingPeriodId f)
  | "billingPeriodStartedAtMs" => JNumber (NumInt (us_billingPeriodStartedAtMs f))
  | "billingPeriodEndsAtMs" => JNumber (NumInt (us_billingPeriodEndsAtMs f))
  | "limitUnits" => JBigInt (us_limitUnits f)
  | "usedUnits" => JBigInt (us_usedUnits f)
  | "measuredAtMs" => JNumber (NumInt (us_measuredAtMs f))
  | "expiresAtMs" => JNumber (NumInt (us_expiresAtMs f))
  | "provenance" => JString (us_provenance f)
  | _ => JUndefined
  end.
Definition snapshot_object (s : ProviderUsageSnapshotV1) : js :=
  frozen_object ObjectPrototype (map (fun k => (k, snapshot_value s k)) SNAPSHOT_KEYS).

(** The snapshot under the sample digest, and inputs that spent [used] units since. *)
Definition sample_usage : ProviderUsageSnapshotV1 :=
  {| us_snapshotId := "execution_provider_usage_" +:+ sample_sha "";
     us_snapshotFingerprint := sample_sha ""; us_fields := sample_snapshot |}.
Definition sample_quota_object (used : Z) : js :=
  frozen_object ObjectPrototype
    [("policy", policy_object sample_policy); ("previousSnapshot", JNull);
     ("snapshot", snapshot_object sample_usage); ("localUsedSinceMeasurement", JBigInt used);
     ("openPositions", JNumber (NumInt 1)); ("consecutiveRateLimits", JArray false true true []);
     ("allEndpointsUnavailable", JBool false); ("nowMs", JNumber (NumInt 1030000))].
Definition sample_quota (used : Z) : quota_input :=
  {| qi_policy := sample_policy; qi_previousSnapshot := None; qi_snapshot := Some sample_usage;
     qi_localUsedSinceMeasurement := used; qi_openPositions := 1; qi_consecutiveRateLimits := [];
     qi_allEndpointsUnavailable := false; qi_nowMs := 1030000 |}.

(** With 85 units left an entry is affordable. *)
Lemma quota_state_iff_witness :
  let S : Sha256 := sample_sha in
  evaluateProviderQuota (sample_quota_object 5) = Some (decide_quota (sample_quota 5))
  /\ qd_state (decide_quota (sample_quota 5)) = QS_NORMAL
  /\ exists s, usable (sample_quota 5) s /\ qi_allEndpointsUnavailable (sample_quota 5) = false
       /\ (recent (sample_quota 5) < 3)%nat
       /\ rp_providerEntryCostUnits sample_policy_fields + reserve (sample_quota 5) <= budget (sample_quota 5) s.
Proof.
  intros S.
  assert (evaluateProviderQuota (sample_quota_object 5) = Some (decide_quota (sample_quota 5))) as E
    by (vm_compute; reflexivity).
  split; [exact E|]. split; [vm_compute; reflexivity|].
  refine (proj1 (proj2 (proj2 (proj2 (quota_state_iff (sample_quota_object 5) (sample_quota 5)
    (decide_quota (sample_quota 5)) _ E)))) _).
  - vm_compute. reflexivity.
  - vm_compute. reflexivity.
Defined.

(** With three left it is not, nor with two. *)
Lemma quota_monotone_witness :
  let S : Sha256 := sample_sha in
  qd_state (decide_quota (sample_quota 87)) = QS_ENTRY_BLOCKED
  /\ (severity (qd_state (decide_quota (sample_quota 87)))
      <= severity (qd_state (decide_quota (sample_quota 88))))%nat.
Proof.
  intros S. split; [vm_compute; reflexivity|].
  apply (quota_monotone (sample_quota_object 87) (sample_quota_object 88) (sample_quota 87) (sample_quota 88)).
  - vm_compute. reflexivity.
  - vm_compute. reflexivity.
  - vm_compute. reflexivity.
  - vm_compute. reflexivity.
  - split; cbn; try reflexivity; try lia.
Defined.

(** What [snapshotInputFrom] guarantees of the fields it returns. *)
Record valid_snapshot (s : ProviderUsageSnapshotInputV1) : Prop := {
  vs_provider : identifier (JString (us_providerId s)) = Some (us_providerId s);
  vs_plan : us_planId s <> "" /\ byte_length (us_planId s) <= 128;
  vs_period : us_billingPeriodId s <> "" /\ byte_length (us_billingPeriodId s) <= 128;
  vs_dates : 0 <= us_billingPeriodStartedAtMs s <= us_measuredAtMs s
             /\ us_measuredAtMs s + 30000 <= us_expiresAtMs s <= us_measuredAtMs s + 900000
             /\ us_expiresAtMs s <= us_billingPeriodEndsAtMs s <= DATE_MAX_MS;
  vs_units : 0 <= us_usedUnits s <= us_limitUnits s /\ 1 <= us_limitUnits s <= U64_MAX;
  vs_provenance : us_provenance s ∈ PROVENANCES;
}.

Lemma identifier_Some v s : identifier v = Some s -> v = JString s.
Proof. destruct v; cbn; try done. repeat case_match; congruence. Qed.

Lemma enum_text_Some values v s : enum_text values v = Some s <-> v = JString s /\ s ∈ values.
Proof.
  destruct v; cbn; try naive_solver. destruct (includes _ _) eqn:E.
  - apply includes_true in E. naive_solver.
  - apply includes_false in E. naive_solver.
Qed.

Lemma snapshotInputFrom_valid v s : snapshotInputFrom v = Some s -> valid_snapshot s.
Proof.
  unfold snapshotInputFrom, timestamp, positiveBigint, unsignedBigint. intros E.
  repeat match type of E with (_ ≫= _) = _ => apply bind_Some in E as (? & ? & E) end.
  repeat match goal with
  | H : bounded_text _ _ = Some _ |- _ => apply bounded_text_Some in H as (_ & H)
  | H : enum_text _ _ = Some _ |- _ => apply enum_text_Some in H as (_ & H)
  | H : identifier ?v = Some _ |- _ =>
      lazymatch v with JString _ => fail | _ => rewrite (identifier_Some _ _ H) in H end
  | H : boundedInteger _ _ _ = Some _ |- _ => apply boundedInteger_Some in H
  | H : boundedBigint _ _ _ = Some _ |- _ => apply boundedBigint_Some in H
  end.
  destruct (_ || _) eqn:Hb in E; [done|]. injection E as <-. rewrite !orb_false_iff in Hb.
  split; cbn [us_providerId us_planId us_billingPeriodId us_billingPeriodStartedAtMs
    us_billingPeriodEndsAtMs us_limitUnits us_usedUnits us_measuredAtMs us_expiresAtMs us_provenance];
    (done || lia).
Qed.

Lemma snapshotInputFrom_object s :
  valid_snapshot (us_fields s) ->
  snapshotInputFrom (frozen_object NullPrototype
    (map (fun k => (k, snapshot_value s k)) SNAPSHOT_INPUT_KEYS)) = Some (us_fields s).
Proof.
  intros [Hp Hpl Hpe Hd Hu Hpr]. unfold snapshotInputFrom, timestamp, positiveBigint, unsignedBigint.
  rewrite exactRecord_frozen by done. cbn [mbind option_bind]. repeat read_field.
  cbn -[boundedBigint boundedInteger bounded_text U64_MAX DATE_MAX_MS identifier enum_text].
  unfold DATE_MAX_MS in *. rewrite Hp.
  cbn -[boundedBigint boundedInteger bounded_text U64_MAX enum_text].
  repeat (first [rewrite (proj2 (bounded_text_Some (JString _) 128 _) (conj eq_refl Hpl))
                | rewrite (proj2 (bounded_text_Some (JString _) 128 _) (conj eq_refl Hpe))
                | rewrite boundedBigint_intro by (unfold U64_MAX in *; lia)
                | rewrite boundedInteger_intro by (unfold MAX_SAFE_INTEGER in *; lia)
                | rewrite (proj2 (enum_text_Some PROVENANCES (JString _) _) (conj eq_refl Hpr))];
          cbn -[boundedBigint boundedInteger bounded_text U64_MAX enum_text]).
  match goal with |- (if ?b then _ else _) = _ => replace b with false by lia end.
  by destruct (us_fields s).
Qed.

(** A snapshot the module creates is read back unchanged by every evaluation, provided the
    digest prints as 64 lowercase hexadecimal digits. *)
Theorem usage_snapshot_round_trip `{Sha256} (v : js) (s : ProviderUsageSnapshotV1)
    (Hhex : forall t, is_sha256_hex (sha256_hex t) = true)
    (Hs : createProviderUsageSnapshot v = Some s) :
  nullableSnapshotFrom (snapshot_object s) = Some (Some s).
Proof.
  unfold createProviderUsageSnapshot in Hs. apply bind_Some in Hs as (f & Hf & Hs).
  apply snapshotInputFrom_valid in Hf. injection Hs as <-. set (s := Build_ProviderUsageSnapshotV1 _ _ _).
  unfold nullableSnapshotFrom, snapshot_object.
  change (isFrozenPlainObject (frozen_object ObjectPrototype _)) with true. cbn [negb].
  rewrite exactRecord_frozen by done. unfold frozen_object at 1. cbn [mbind option_bind].
  assert (pick (map (fun k => (k, snapshot_value s k)) SNAPSHOT_KEYS) SNAPSHOT_INPUT_KEYS
          = map (fun k => (k, snapshot_value s k)) SNAPSHOT_INPUT_KEYS) as ->.
  { unfold pick. apply map_ext_in. intros k Hk. f_equal. apply field_map.
    do 3 right. by apply list_elem_of_In. }
  rewrite snapshotInputFrom_object by done. repeat read_field.
  change (snapshot_value s "payloadVersion") with (JNumber (NumInt 1)).
  change (snapshot_value s "snapshotFingerprint") with (JString (us_snapshotFingerprint s)).
  change (snapshot_value s "snapshotId") with (JString (us_snapshotId s)).
  cbn [mbind option_bind fingerprintFrom]. subst s. cbn [us_snapshotFingerprint us_snapshotId us_fields].
  assert (is_sha256_hex (snapshotFingerprintFor f) = true) as -> by apply Hhex.
  cbn [mbind option_bind]. by rewrite !bool_decide_eq_true_2.
Qed.

(** Operations with one identifier are the same operation, or SHA-256 has a collision. *)
Theorem usage_operation_id_identifies `{Sha256} (v w : js) (id : string) (r r' : record)
    (Hr : exactRecord v OPERATION_ID_KEYS = Some r) (Hr' : exactRecord w OPERATION_ID_KEYS = Some r')
    (Hv : createProviderUsageOperationId v = Some id) (Hw : createProviderUsageOperationId w = Some id) :
  (forall k, k ∈ OPERATION_ID_KEYS -> field r k = field r' k) \/ sha256_collision.
Proof.
  unfold createProviderUsageOperationId in Hv, Hw. rewrite Hr in Hv. rewrite Hr' in Hw.
  cbn [mbind option_bind] in Hv, Hw.
  repeat match type of Hv with (_ ≫= _) = _ => apply bind_Some in Hv as (? & ? & Hv) end.
  repeat match type of Hw with (_ ≫= _) = _ => apply bind_Some in Hw as (? & ? & Hw) end.
  injection Hv as <-. injection Hw as E. apply digest_agree in E as [E|]; [|by right]. left.
  injection E as -> -> -> ->.
  repeat match goal with
  | H : bounded_text _ _ = Some _ |- _ => apply bounded_text_Some in H as (H & _)
  | H : enum_text _ _ = Some _ |- _ => apply enum_text_Some in H as (H & _)
  | H : identifier _ = Some _ |- _ => apply identifier_Some in H
  end.
  unfold OPERATION_ID_KEYS. intros k. rewrite !elem_of_cons, elem_of_nil.
  intros [->|[->|[->|[->|[]]]]]; congruence.
Qed.
