(* ===== verification/JsReaders.v ===== *)
(** Readers of untyped values that several domain modules share: nullable fields,
    enumerations with their names, identifiers made of a prefix and a digest, and the objects
    that readers accept back. *)
From S2P Require Import Prelude Text JsValue.
From Stdlib Require Import Ascii String.
Local Open Scope list_scope.
Local Open Scope Z_scope.

(** [value === null ? null : read(value)] *)
Definition or_null {A} (read : js -> option A) (v : js) : option (option A) :=
  match v with
  | JNull => Some None
  | _ => Some <$> read v
  end.
Definition nullable_value {A} (write : A -> js) (o : option A) : js :=
  match o with None => JNull | Some a => write a end.

Lemma or_null_read {A} (read : js -> option A) (write : A -> js) v o :
  (forall x a, read x = Some a -> x = write a) ->
  or_null read v = Some o ->
  v = nullable_value write o /\ forall a, o = Some a -> read (write a) = Some a.
Proof.
  intros Hw H. destruct v; cbn [or_null fmap option_fmap option_map] in H;
    try (injection H as <-; by split); apply fmap_Some in H as (a & Ha & ->); cbn [nullable_value];
    rewrite (Hw _ _ Ha) in Ha |- *; (split; [done|]); by intros ? [= <-].
Qed.

Lemma read_or_null {A} (read : js -> option A) (write : A -> js) (o : option A) :
  (forall a, write a <> JNull) -> (forall a, o = Some a -> read (write a) = Some a) ->
  or_null read (nullable_value write o) = Some o.
Proof.
  intros Hw Hr. destruct o as [a|]; [|done]. cbn [nullable_value].
  pose proof (Hw a). pose proof (Hr a eq_refl) as E. unfold or_null. destruct (write a); try done; by rewrite E.
Qed.

(** A text made of a prefix and 64 lowercase hexadecimal digits. *)
Definition prefixed_hex (prefix : string) (v : js) : option string :=
  match v with
  | JString s => match after_prefix prefix s with
                 | Some rest => if is_sha256_hex rest then Some s else None
                 | None => None
                 end
  | _ => None
  end.
Lemma prefixed_hex_Some p v s : prefixed_hex p v = Some s -> v = JString s.
Proof. destruct v; cbn; try done. repeat case_match; congruence. Qed.

(** The name of a value of an enumeration. *)
Definition name_in {A} `{!EqDecision A} (names : list (string * A)) (x : A) : string :=
  match List.find (fun p => bool_decide (snd p = x)) names with
  | Some p => fst p
  | None => EmptyString
  end.
Lemma enumValue_member {A} (names : list (string * A)) v x :
  enumValue names v = Some x -> exists s, v = JString s /\ (s, x) ∈ names.
Proof.
  destruct v; cbn; try done. intros H. apply fmap_Some in H as ([n y] & Hf & ->).
  apply find_some in Hf as [Hin Hn]. cbn in Hn. apply bool_decide_eq_true in Hn. subst n.
  eexists. split; [done|]. by apply list_elem_of_In.
Qed.
(** An enumeration whose names are the names of its values. *)
Lemma enumValue_name {A} `{!EqDecision A} (names : list (string * A)) v x :
  Forall (fun p => fst p = name_in names (snd p)) names ->
  enumValue names v = Some x -> v = JString (name_in names x).
Proof.
  intros Hn H. apply enumValue_member in H as (n & -> & Hin). f_equal.
  by apply (proj1 (Forall_forall _ _) Hn) in Hin.
Qed.
(** A frozen object with these keys. *)
Definition object_of (keys : list string) (value : string -> js) : js :=
  frozen_object ObjectPrototype (map (fun k => (k, value k)) keys).


Lemma pick_map (keys keys' : list string) (f : string -> js) :
  Forall (fun k => k ∈ keys) keys' ->
  pick (map (fun k => (k, f k)) keys) keys' = map (fun k => (k, f k)) keys'.
Proof.
  intros H. unfold pick. apply map_ext_in. intros k Hk. f_equal. apply field_map.
  apply (proj1 (Forall_forall _ _) H). by apply list_elem_of_In.
Qed.

(** What the descriptors of an object give. *)
Lemma object_of_values keys f :
  mapM (fun k => x ← descriptor_value
    (own_property (map (fun kv : string * js => (KeyString kv.1, data kv.2))
       (map (fun k => (k, f k)) keys)) k); Some (k, x)) keys
  = Some (map (fun k => (k, f k)) keys).
Proof.
  pose proof (exactRecord_frozen ObjectPrototype keys f ltac:(done)) as H.
  unfold exactRecord, frozen_object in H. cbn [isPlainObject negb] in H.
  destruct (_ || _) in H; [done|]. exact H.
Qed.
