(* ===== verification/Intent.v ===== *)
(** [src/src/domain/execution-intent.ts]: intents of real trades.

    An intent is an order the live executor may carry out once.  The file holds the reading
    of untyped intents, the identifier of an intent, the state machine of its statuses with
    the reasons each transition needs, and what follows from it: when an order can be sent
    again, and that it can always be brought to an end.  Every failure is one error class,
    so readers return [None] where the source throws. *)
From S2P Require Import Prelude Text Types Json JsValue JsReaders PublicKey.
From Stdlib Require Import Ascii String.
Local Open Scope string_scope.
Local Open Scope list_scope.
Local Open Scope Z_scope.

(** * Data *)

(** src/src/domain/execution-intent.ts:4-18 (EXECUTION_INTENT_STATUSES) *)
Inductive ExecutionIntentStatus :=
| IS_PENDING | IS_PROCESSING | IS_SIMULATED | IS_RETRY_READY | IS_SIGNED_NOT_SUBMITTED
| IS_SUBMITTED | IS_CONFIRMED | IS_RECONCILING | IS_SUCCEEDED | IS_FAILED | IS_EXPIRED
| IS_CANCELLED | IS_UNKNOWN_REQUIRES_RECONCILIATION.
Definition EXECUTION_INTENT_STATUSES : list (string * ExecutionIntentStatus) :=
  [("PENDING", IS_PENDING); ("PROCESSING", IS_PROCESSING); ("SIMULATED", IS_SIMULATED);
   ("RETRY_READY", IS_RETRY_READY); ("SIGNED_NOT_SUBMITTED", IS_SIGNED_NOT_SUBMITTED);
   ("SUBMITTED", IS_SUBMITTED); ("CONFIRMED", IS_CONFIRMED); ("RECONCILING", IS_RECONCILING);
   ("SUCCEEDED", IS_SUCCEEDED); ("FAILED", IS_FAILED); ("EXPIRED", IS_EXPIRED);
   ("CANCELLED", IS_CANCELLED);
   ("UNKNOWN_REQUIRES_RECONCILIATION", IS_UNKNOWN_REQUIRES_RECONCILIATION)].

(** src/src/domain/execution-intent.ts:22-71 (EXECUTION_INTENT_REASON_CODES) *)
Inductive ExecutionIntentReasonCode :=
| IR_INTENT_EXPIRED | IR_INTENT_DUPLICATE | IR_INTENT_LEASE_LOST | IR_QUALIFICATION_STALE
| IR_DECISION_STALE | IR_QUOTE_STALE | IR_QUOTE_MINT_NOT_ALLOWED | IR_VENUE_UNAVAILABLE
| IR_BUY_SIMULATION_FAILED | IR_SELL_SIMULATION_FAILED | IR_SELL_QUOTE_UNAVAILABLE
| IR_MINIMUM_AMOUNT_OUT_VIOLATED | IR_UNSUPPORTED_TOKEN_EXTENSION | IR_WALLET_MISMATCH
| IR_GENESIS_MISMATCH | IR_EXECUTION_PROVIDER_FAILED | IR_EXECUTION_BUILD_FAILED
| IR_EXECUTION_EVIDENCE_INVALID | IR_CAPITAL_LIMIT_EXCEEDED | IR_EXPOSURE_LIMIT_EXCEEDED
| IR_DRAWDOWN_LIMIT_EXCEEDED | IR_PROVIDER_USAGE_UNKNOWN | IR_PROVIDER_ENTRY_LIMIT_REACHED
| IR_PROVIDER_EXIT_ONLY | IR_KILL_SWITCH_ACTIVE | IR_HARD_STOP_ACTIVE | IR_ARMING_REQUIRED
| IR_ARMING_EXPIRED | IR_SIGNATURE_PERSIST_FAILED | IR_PRE_SUBMISSION_REVOKED_NO_SEND
| IR_SUBMISSION_AMBIGUOUS | IR_CONFIRMATION_TIMEOUT | IR_RECONCILIATION_REQUIRED
| IR_BALANCE_MISMATCH | IR_RESIDUAL_TOKEN_BALANCE | IR_DOUBLE_ORDER_SUSPECTED
| IR_EXECUTION_STARTED | IR_SIMULATION_SUCCEEDED | IR_ATTEMPT_COMPLETED | IR_RETRY_AUTHORIZED
| IR_SIGNATURE_PERSISTED | IR_SUBMISSION_ACCEPTED | IR_CONFIRMATION_OBSERVED
| IR_RECONCILIATION_STARTED | IR_INTENT_SUCCEEDED | IR_INTENT_CANCELLED
| IR_RECONCILIATION_PROVED_NO_EFFECT.
Definition EXECUTION_INTENT_REASON_CODES : list (string * ExecutionIntentReasonCode) :=
  [("INTENT_EXPIRED", IR_INTENT_EXPIRED); ("INTENT_DUPLICATE", IR_INTENT_DUPLICATE);
   ("INTENT_LEASE_LOST", IR_INTENT_LEASE_LOST); ("QUALIFICATION_STALE", IR_QUALIFICATION_STALE);
   ("DECISION_STALE", IR_DECISION_STALE); ("QUOTE_STALE", IR_QUOTE_STALE);
   ("QUOTE_MINT_NOT_ALLOWED", IR_QUOTE_MINT_NOT_ALLOWED);
   ("VENUE_UNAVAILABLE", IR_VENUE_UNAVAILABLE);
   ("BUY_SIMULATION_FAILED", IR_BUY_SIMULATION_FAILED);
   ("SELL_SIMULATION_FAILED", IR_SELL_SIMULATION_FAILED);
   ("SELL_QUOTE_UNAVAILABLE", IR_SELL_QUOTE_UNAVAILABLE);
   ("MINIMUM_AMOUNT_OUT_VIOLATED", IR_MINIMUM_AMOUNT_OUT_VIOLATED);
   ("UNSUPPORTED_TOKEN_EXTENSION", IR_UNSUPPORTED_TOKEN_EXTENSION);
   ("WALLET_MISMATCH", IR_WALLET_MISMATCH); ("GENESIS_MISMATCH", IR_GENESIS_MISMATCH);
   ("EXECUTION_PROVIDER_FAILED", IR_EXECUTION_PROVIDER_FAILED);
   ("EXECUTION_BUILD_FAILED", IR_EXECUTION_BUILD_FAILED);
   ("EXECUTION_EVIDENCE_INVALID", IR_EXECUTION_EVIDENCE_INVALID);
   ("CAPITAL_LIMIT_EXCEEDED", IR_CAPITAL_LIMIT_EXCEEDED);
   ("EXPOSURE_LIMIT_EXCEEDED", IR_EXPOSURE_LIMIT_EXCEEDED);
   ("DRAWDOWN_LIMIT_EXCEEDED", IR_DRAWDOWN_LIMIT_EXCEEDED);
   ("PROVIDER_USAGE_UNKNOWN", IR_PROVIDER_USAGE_UNKNOWN);
   ("PROVIDER_ENTRY_LIMIT_REACHED", IR_PROVIDER_ENTRY_LIMIT_REACHED);
   ("PROVIDER_EXIT_ONLY", IR_PROVIDER_EXIT_ONLY); ("KILL_SWITCH_ACTIVE", IR_KILL_SWITCH_ACTIVE);
   ("HARD_STOP_ACTIVE", IR_HARD_STOP_ACTIVE); ("ARMING_REQUIRED", IR_ARMING_REQUIRED);
   ("ARMING_EXPIRED", IR_ARMING_EXPIRED);
   ("SIGNATURE_PERSIST_FAILED", IR_SIGNATURE_PERSIST_FAILED);
   ("PRE_SUBMISSION_REVOKED_NO_SEND", IR_PRE_SUBMISSION_REVOKED_NO_SEND);
   ("SUBMISSION_AMBIGUOUS", IR_SUBMISSION_AMBIGUOUS);
   ("CONFIRMATION_TIMEOUT", IR_CONFIRMATION_TIMEOUT);
   ("RECONCILIATION_REQUIRED", IR_RECONCILIATION_REQUIRED);
   ("BALANCE_MISMATCH", IR_BALANCE_MISMATCH);
   ("RESIDUAL_TOKEN_BALANCE", IR_RESIDUAL_TOKEN_BALANCE);
   ("DOUBLE_ORDER_SUSPECTED", IR_DOUBLE_ORDER_SUSPECTED);
   ("EXECUTION_STARTED", IR_EXECUTION_STARTED);
   ("SIMULATION_SUCCEEDED", IR_SIMULATION_SUCCEEDED);
   ("ATTEMPT_COMPLETED", IR_ATTEMPT_COMPLETED); ("RETRY_AUTHORIZED", IR_RETRY_AUTHORIZED);
   ("SIGNATURE_PERSISTED", IR_SIGNATURE_PERSISTED);
   ("SUBMISSION_ACCEPTED", IR_SUBMISSION_ACCEPTED);
   ("CONFIRMATION_OBSERVED", IR_CONFIRMATION_OBSERVED);
   ("RECONCILIATION_STARTED", IR_RECONCILIATION_STARTED);
   ("INTENT_SUCCEEDED", IR_INTENT_SUCCEEDED); ("INTENT_CANCELLED", IR_INTENT_CANCELLED);
   ("RECONCILIATION_PROVED_NO_EFFECT", IR_RECONCILIATION_PROVED_NO_EFFECT)].

(** Decidable equality of the enumerations. *)
Global Instance ExecutionIntentStatus_eq_dec : EqDecision ExecutionIntentStatus.
Proof. solve_decision. Defined.
Global Instance ExecutionIntentReasonCode_eq_dec : EqDecision ExecutionIntentReasonCode.
Proof. solve_decision. Defined.

(** src/src/domain/execution-intent.ts:74-76 (ExecutionIntentSide, ExecutionVenuePolicy,
    ExecutionQuoteTokenProgram) *)
Inductive ExecutionIntentSide := INTENT_BUY | INTENT_SELL.
Inductive ExecutionVenuePolicy := PUMP_FUN_ONLY | CANONICAL_EXIT.
Inductive ExecutionQuoteTokenProgram := QUOTE_SPL_TOKEN | QUOTE_TOKEN_2022.

(** The names of the small enumerations. *)
Definition SIDES : list (string * ExecutionIntentSide) :=
  [("BUY", INTENT_BUY); ("SELL", INTENT_SELL)].
Definition VENUES : list (string * ExecutionVenuePolicy) :=
  [("PUMP_FUN_ONLY", PUMP_FUN_ONLY); ("CANONICAL_EXIT", CANONICAL_EXIT)].
Definition QUOTE_PROGRAMS : list (string * ExecutionQuoteTokenProgram) :=
  [("SPL_TOKEN", QUOTE_SPL_TOKEN); ("TOKEN_2022", QUOTE_TOKEN_2022)].
Global Instance ExecutionIntentSide_eq_dec : EqDecision ExecutionIntentSide.
Proof. solve_decision. Defined.
Global Instance ExecutionVenuePolicy_eq_dec : EqDecision ExecutionVenuePolicy.
Proof. solve_decision. Defined.

(** src/src/domain/execution-intent.ts:78-100 (ExecutionIntentDraftV1): the fields of a draft
    but its identifier, version and order key. *)
Record ExecutionIntentFields := {
  in_strategyId : string;
  in_strategyVersion : Z;
  in_positionId : string;
  in_candidateId : option string;
  in_logicalCommandId : string;
  in_mint : string;
  in_side : ExecutionIntentSide;
  in_venuePolicy : ExecutionVenuePolicy;
  in_quoteMint : string;
  in_quoteTokenProgram : ExecutionQuoteTokenProgram;
  in_quoteDecimals : Z;
  in_quoteAmountRaw : option Z;
  in_baseAmountRaw : option Z;
  in_minimumAmountOutRaw : Z;
  in_decisionEventId : string;
  in_decisionFingerprint : string;
  in_requestedAtMs : Z;
  in_expiresAtMs : Z;
}.
(** src/src/domain/execution-intent.ts:78-100 (ExecutionIntentDraftV1) *)
Record ExecutionIntentDraftV1 := {
  in_id : string;
  in_logicalOrderKey : string;
  in_fields : ExecutionIntentFields;
}.

(** src/src/domain/execution-intent.ts:102-112 (ExecutionIntentV1) *)
Record ExecutionIntentV1 := {
  in_draft : ExecutionIntentDraftV1;
  in_status : ExecutionIntentStatus;
  in_attemptCount : Z;
  in_stateRevision : Z;
  in_lastReasonCode : option ExecutionIntentReasonCode;
  in_terminalAtMs : option Z;
  in_reconciliationCompletedAtMs : option Z;
  in_purgeAfterMs : option Z;
  in_createdAtMs : Z;
  in_updatedAtMs : Z;
}.

(** src/src/domain/execution-intent.ts:20-20 (EXECUTION_INTENT_MAXIMUM_TTL_MS) *)
Definition EXECUTION_INTENT_MAXIMUM_TTL_MS : Z := 14400000.
(** src/src/domain/execution-intent.ts:122-126 (INT32_MAX, INT64_MAX, DATE_MAX_MS, RETENTION_MS) *)
Definition INT32_MAX : Z := 2147483647.
Definition INT64_MAX : Z := 9223372036854775807.
Definition INTENT_DATE_MAX_MS : Z := 8640000000000000.
Definition RETENTION_MS : Z := EXECUTION_INTENT_MAXIMUM_TTL_MS.

(** src/src/domain/execution-intent.ts:129-173 (DRAFT_INPUT_KEYS, LEGACY_DRAFT_INPUT_KEYS,
    DRAFT_KEYS, INTENT_KEYS) *)
Definition DRAFT_INPUT_KEYS : list string :=
  ["strategyId"; "strategyVersion"; "positionId"; "candidateId"; "logicalCommandId"; "mint"; "side";
   "venuePolicy"; "quoteMint"; "quoteTokenProgram"; "quoteDecimals"; "quoteAmountRaw";
   "baseAmountRaw"; "minimumAmountOutRaw"; "decisionEventId"; "decisionFingerprint";
   "requestedAtMs"; "expiresAtMs"].
Definition LEGACY_DRAFT_INPUT_KEYS : list string :=
  List.filter (fun k => negb (String.eqb k "candidateId")) DRAFT_INPUT_KEYS.
Definition DRAFT_KEYS : list string :=
  "id" :: "payloadVersion" :: "logicalOrderKey" :: DRAFT_INPUT_KEYS.
Definition STATE_KEYS : list string :=
  ["status"; "attemptCount"; "stateRevision"; "lastReasonCode"; "terminalAtMs";
   "reconciliationCompletedAtMs"; "purgeAfterMs"; "createdAtMs"; "updatedAtMs"].
Definition INTENT_KEYS : list string := DRAFT_KEYS ++ STATE_KEYS.

(** src/src/domain/execution-intent.ts:174-176 (TERMINAL_STATUSES) *)
Definition TERMINAL_STATUSES : list ExecutionIntentStatus :=
  [IS_SUCCEEDED; IS_FAILED; IS_EXPIRED; IS_CANCELLED].

(** src/src/domain/execution-intent.ts:178-191 (EXACT_STATUS_REASONS) *)
Definition EXACT_STATUS_REASONS (s : ExecutionIntentStatus) : option ExecutionIntentReasonCode :=
  match s with
  | IS_PROCESSING => Some IR_EXECUTION_STARTED
  | IS_SIMULATED => Some IR_SIMULATION_SUCCEEDED
  | IS_SIGNED_NOT_SUBMITTED => Some IR_SIGNATURE_PERSISTED
  | IS_SUBMITTED => Some IR_SUBMISSION_ACCEPTED
  | IS_CONFIRMED => Some IR_CONFIRMATION_OBSERVED
  | IS_RECONCILING => Some IR_RECONCILIATION_STARTED
  | IS_SUCCEEDED => Some IR_INTENT_SUCCEEDED
  | IS_EXPIRED => Some IR_INTENT_EXPIRED
  | IS_CANCELLED => Some IR_INTENT_CANCELLED
  | IS_UNKNOWN_REQUIRES_RECONCILIATION => Some IR_RECONCILIATION_REQUIRED
  | _ => None
  end.

(** src/src/domain/execution-intent.ts:193-198 (POSITIVE_REASON_CODES) *)
Definition POSITIVE_REASON_CODES : list ExecutionIntentReasonCode :=
  [IR_EXECUTION_STARTED; IR_SIMULATION_SUCCEEDED; IR_ATTEMPT_COMPLETED; IR_RETRY_AUTHORIZED;
   IR_SIGNATURE_PERSISTED; IR_SUBMISSION_ACCEPTED; IR_CONFIRMATION_OBSERVED;
   IR_RECONCILIATION_STARTED; IR_INTENT_SUCCEEDED; IR_INTENT_CANCELLED].

(** src/src/domain/execution-intent.ts:200-216 (ALLOWED_TRANSITIONS) *)
Definition ALLOWED_TRANSITIONS (s : ExecutionIntentStatus) : list ExecutionIntentStatus :=
  match s with
  | IS_PENDING | IS_RETRY_READY => [IS_PROCESSING; IS_EXPIRED; IS_CANCELLED]
  | IS_PROCESSING => [IS_SIMULATED; IS_FAILED; IS_EXPIRED; IS_CANCELLED]
  | IS_SIMULATED => [IS_SUCCEEDED; IS_FAILED; IS_EXPIRED; IS_CANCELLED; IS_SIGNED_NOT_SUBMITTED]
  | IS_SIGNED_NOT_SUBMITTED =>
      [IS_SUBMITTED; IS_UNKNOWN_REQUIRES_RECONCILIATION; IS_FAILED; IS_RETRY_READY]
  | IS_SUBMITTED => [IS_CONFIRMED; IS_UNKNOWN_REQUIRES_RECONCILIATION]
  | IS_CONFIRMED => [IS_RECONCILING; IS_UNKNOWN_REQUIRES_RECONCILIATION; IS_SUCCEEDED]
  | IS_RECONCILING => [IS_UNKNOWN_REQUIRES_RECONCILIATION; IS_SUCCEEDED]
  | IS_UNKNOWN_REQUIRES_RECONCILIATION => [IS_CONFIRMED; IS_FAILED; IS_RETRY_READY]
  | IS_SUCCEEDED | IS_FAILED | IS_EXPIRED | IS_CANCELLED => []
  end.

(** * Readers *)

(** The own properties of an object as a record, when every key is a string and every
    property an enumerable value; the assignment of a [__proto__] key makes no property. *)
Fixpoint all_data (props : list (js_key * (bool * option js))) : option record :=
  match props with
  | [] => Some []
  | (KeySymbol, _) :: _ => None
  | (KeyString k, p) :: props' =>
      v ← descriptor_value (Some p);
      r ← all_data props';
      Some (if String.eqb k "__proto__" then r else (k, v) :: r)
  end.

(** src/src/domain/execution-intent.ts:470-495 (ownEnumerableDataRecord) *)
Definition ownEnumerableDataRecord (v : js) (expectedKeys : option (list string)) : option record :=
  match v with
  | JObject false (ObjectPrototype | NullPrototype) _ props =>
      match expectedKeys with
      | None => all_data props
      | Some keys =>
          if negb (Nat.eqb (List.length props) (List.length keys)) then None
          else mapM (fun k => x ← descriptor_value (own_property props k); Some (k, x)) keys
      end
  | _ => None
  end.

(** src/src/domain/execution-intent.ts:497-500 (readOwnDataProperty) *)
Definition readOwnDataProperty (r : record) (key : string) : option js :=
  snd <$> List.find (fun kv => bool_decide (fst kv = key)) r.

(** src/src/domain/execution-intent.ts:511-513 (sameKeySet) *)
Definition sameKeySet (actual expected : list string) : bool :=
  Nat.eqb (List.length actual) (List.length expected) && forallb (fun k => includes k expected) actual.

(** src/src/domain/execution-intent.ts:515-517 (isFrozenObject) *)
Definition isFrozenObject (v : js) : bool :=
  match v with
  | JObject false _ frozen _ | JArray false _ frozen _ => frozen
  | _ => false
  end.

(** src/src/domain/execution-intent.ts:519-524 (textFrom) *)
Definition textFrom (v : js) : option string := bounded_text v 256.

(** src/src/domain/execution-intent.ts:610-615: the digits of a text as a number. *)
Fixpoint base58_number (l : list ascii) (decoded : Z) : option Z :=
  match l with
  | [] => Some decoded
  | c :: l => d ← BASE58_VALUES c; base58_number l (decoded * 58 + d)
  end.
(** src/src/domain/execution-intent.ts:616-620: how many bytes a number takes; the fuel is
    more than its bits. *)
Fixpoint byte_count (fuel : nat) (decoded : Z) : nat :=
  match fuel with
  | O => 0
  | S fuel => if 0 <? decoded then S (byte_count fuel (Z.shiftr decoded 8)) else 0
  end.
(** src/src/domain/execution-intent.ts:608-624 (isCanonicalBase58PublicKey) *)
Definition isCanonicalBase58PublicKey (value : string) : bool :=
  if (utf16_length value <? 32) || (44 <? utf16_length value) then false
  else match base58_number (chars value) 0 with
       | None => false
       | Some decoded =>
           Nat.eqb (byte_count (S (Z.to_nat (Z.log2 decoded))) decoded + leading_ones (chars value)) 32
       end.

(** src/src/domain/execution-intent.ts:526-530 (mintFrom) *)
Definition mintFrom (v : js) : option string :=
  mint ← textFrom v;
  if isCanonicalBase58PublicKey mint then Some mint else None.

(** src/src/domain/execution-intent.ts:537-541 (nullableCandidateIdFrom) *)
Definition nullableCandidateIdFrom (v : js) : option (option string) :=
  or_null (prefixed_hex "candidate_") v.

(** src/src/domain/execution-intent.ts:543-556 (sideFrom, venuePolicyFrom,
    quoteTokenProgramFrom) *)
Definition sideFrom (v : js) : option ExecutionIntentSide := enumValue SIDES v.
Definition venuePolicyFrom (v : js) : option ExecutionVenuePolicy := enumValue VENUES v.
Definition quoteTokenProgramFrom (v : js) : option ExecutionQuoteTokenProgram :=
  enumValue QUOTE_PROGRAMS v.
(** src/src/domain/execution-intent.ts:558-561 (statusFrom) *)
Definition statusFrom (v : js) : option ExecutionIntentStatus := enumValue EXECUTION_INTENT_STATUSES v.
(** src/src/domain/execution-intent.ts:563-567 (nullableReasonCodeFrom) *)
Definition nullableReasonCodeFrom (v : js) : option (option ExecutionIntentReasonCode) :=
  or_null (enumValue EXECUTION_INTENT_REASON_CODES) v.

(** src/src/domain/execution-intent.ts:577-582 (boundedIntegerFrom): the negative zero is
    refused. *)
Definition boundedIntegerFrom (v : js) (lo hi : Z) : option Z :=
  match v with
  | JNumber (NumInt z) => if is_safe_integer z && (lo <=? z) && (z <=? hi) then Some z else None
  | _ => None
  end.
(** src/src/domain/execution-intent.ts:569-575 (positiveIntegerFrom, nonNegativeIntegerFrom) *)
Definition positiveIntegerFrom (v : js) : option Z := boundedIntegerFrom v 1 INT32_MAX.
Definition nonNegativeIntegerFrom (v : js) : option Z := boundedIntegerFrom v 0 INT32_MAX.
(** src/src/domain/execution-intent.ts:584-591 (timestampFrom, nullableTimestampFrom) *)
Definition timestampFrom (v : js) : option Z := boundedIntegerFrom v 0 INTENT_DATE_MAX_MS.
Definition nullableTimestampFrom (v : js) : option (option Z) :=
  or_null timestampFrom v.
(** src/src/domain/execution-intent.ts:603-606 (positiveU64From) *)
Definition positiveU64From (v : js) : option Z := boundedBigint v 1 U64_MAX.
(** src/src/domain/execution-intent.ts:593-596 (nullableU64From) *)
Definition nullableU64From (v : js) : option (option Z) :=
  or_null positiveU64From v.
(** src/src/domain/execution-intent.ts:598-601 (stateRevisionFrom) *)
Definition stateRevisionFrom (v : js) : option Z := boundedBigint v 0 INT64_MAX.

(** src/src/domain/execution-intent.ts:384-431 (immutableFieldsFrom) *)
Definition immutableFieldsFrom (r : record) : option ExecutionIntentFields :=
  strategyId ← textFrom (field r "strategyId");
  strategyVersion ← positiveIntegerFrom (field r "strategyVersion");
  positionId ← textFrom (field r "positionId");
  candidateId ← nullableCandidateIdFrom (field r "candidateId");
  logicalCommandId ← textFrom (field r "logicalCommandId");
  mint ← mintFrom (field r "mint");
  side ← sideFrom (field r "side");
  venuePolicy ← venuePolicyFrom (field r "venuePolicy");
  quoteMint ← mintFrom (field r "quoteMint");
  quoteTokenProgram ← quoteTokenProgramFrom (field r "quoteTokenProgram");
  quoteDecimals ← boundedIntegerFrom (field r "quoteDecimals") 0 255;
  quoteAmountRaw ← nullableU64From (field r "quoteAmountRaw");
  baseAmountRaw ← nullableU64From (field r "baseAmountRaw");
  minimumAmountOutRaw ← positiveU64From (field r "minimumAmountOutRaw");
  decisionEventId ← textFrom (field r "decisionEventId");
  decisionFingerprint ← fingerprintFrom (field r "decisionFingerprint");
  requestedAtMs ← timestampFrom (field r "requestedAtMs");
  expiresAtMs ← timestampFrom (field r "expiresAtMs");
  if (expiresAtMs <=? requestedAtMs)
     || (EXECUTION_INTENT_MAXIMUM_TTL_MS <? expiresAtMs - requestedAtMs) then None
  else if match side, quoteAmountRaw, baseAmountRaw with
          | INTENT_BUY, Some _, None | INTENT_SELL, None, Some _ => false
          | _, _, _ => true
          end then None
  else if match side, venuePolicy with
          | INTENT_BUY, PUMP_FUN_ONLY | INTENT_SELL, CANONICAL_EXIT => false
          | _, _ => true
          end then None
  else Some {| in_strategyId := strategyId; in_strategyVersion := strategyVersion;
               in_positionId := positionId; in_candidateId := candidateId;
               in_logicalCommandId := logicalCommandId; in_mint := mint; in_side := side;
               in_venuePolicy := venuePolicy; in_quoteMint := quoteMint;
               in_quoteTokenProgram := quoteTokenProgram; in_quoteDecimals := quoteDecimals;
               in_quoteAmountRaw := quoteAmountRaw; in_baseAmountRaw := baseAmountRaw;
               in_minimumAmountOutRaw := minimumAmountOutRaw; in_decisionEventId := decisionEventId;
               in_decisionFingerprint := decisionFingerprint; in_requestedAtMs := requestedAtMs;
               in_expiresAtMs := expiresAtMs |}.

(** src/src/domain/execution-intent.ts:314-323 (draftInputFrom) *)
Definition draftInputFrom (v : js) : option ExecutionIntentFields :=
  r ← ownEnumerableDataRecord v None;
  let keys := map fst r in
  if negb (sameKeySet keys DRAFT_INPUT_KEYS) && negb (sameKeySet keys LEGACY_DRAFT_INPUT_KEYS)
  then None
  else immutableFieldsFrom (if includes "candidateId" keys then r else r ++ [("candidateId", JNull)]).

(** * The state machine *)

(** src/src/domain/execution-intent.ts:433-451 (assertStatusReason) *)
Definition assertStatusReason (status : ExecutionIntentStatus)
    (reasonCode : option ExecutionIntentReasonCode) : bool :=
  match status with
  | IS_PENDING => bool_decide (reasonCode = None)
  | IS_FAILED => match reasonCode with
                 | None => false
                 | Some c => negb (includes c POSITIVE_REASON_CODES)
                 end
  | IS_RETRY_READY => bool_decide (reasonCode = Some IR_RECONCILIATION_PROVED_NO_EFFECT)
                      || bool_decide (reasonCode = Some IR_PRE_SUBMISSION_REVOKED_NO_SEND)
  | _ => bool_decide (reasonCode = EXACT_STATUS_REASONS status)
  end.

(** src/src/domain/execution-intent.ts:251-258 (assertExecutionIntentTransition) *)
Definition assertExecutionIntentTransition (previous next : js) : option unit :=
  prior ← statusFrom previous;
  successor ← statusFrom next;
  if includes successor (ALLOWED_TRANSITIONS prior) then Some tt else None.

(** src/src/domain/execution-intent.ts:260-279 (assertExecutionIntentTransitionReason): the
    check on typed arguments. *)
Definition transition_reason (prior successor : ExecutionIntentStatus)
    (reasonCode : ExecutionIntentReasonCode) : bool :=
  let provesUnknownHadNoEffect :=
    bool_decide (prior = IS_UNKNOWN_REQUIRES_RECONCILIATION)
    && (bool_decide (successor = IS_FAILED) || bool_decide (successor = IS_RETRY_READY)) in
  includes successor (ALLOWED_TRANSITIONS prior)
  && assertStatusReason successor (Some reasonCode)
  && Bool.eqb provesUnknownHadNoEffect
       (bool_decide (reasonCode = IR_RECONCILIATION_PROVED_NO_EFFECT)).
(** src/src/domain/execution-intent.ts:260-279 (assertExecutionIntentTransitionReason) *)
Definition assertExecutionIntentTransitionReason (previous next reason : js) : option unit :=
  prior ← statusFrom previous;
  successor ← statusFrom next;
  reasonCode ← nullableReasonCodeFrom reason;
  match reasonCode with
  | None => None
  | Some c => if transition_reason prior successor c then Some tt else None
  end.

(** src/src/domain/execution-intent.ts:281-290 (assertExecutionIntentStatusReason) *)
Definition assertExecutionIntentStatusReason (status reason : js) : option unit :=
  s ← statusFrom status;
  r ← nullableReasonCodeFrom reason;
  if assertStatusReason s r then Some tt else None.

(** src/src/domain/execution-intent.ts:292-312 (assertExecutionAttemptStatusReason) *)
Definition assertExecutionAttemptStatusReason (status reason : js) : option unit :=
  reasonCode ← nullableReasonCodeFrom reason;
  match status with
  | JString "STARTED" => if bool_decide (reasonCode = None) then Some tt else None
  | JString "COMPLETED" => if bool_decide (reasonCode = Some IR_ATTEMPT_COMPLETED) then Some tt else None
  | JString "ABANDONED" =>
      match reasonCode with
      | None => None
      | Some c => if includes c POSITIVE_REASON_CODES then None else Some tt
      end
  | _ => None
  end.

(** * Identifiers *)

(** src/src/domain/execution-intent.ts:626-635 (lengthPrefixedUtf8): four bytes of length,
    most significant first, and the text. *)
Definition u32be (n : Z) : list ascii :=
  map (fun k => ascii_of_nat (Z.to_nat (Z.land (Z.shiftr n k) 255))) [24; 16; 8; 0].
Definition lengthPrefixedUtf8 (values : list string) : string :=
  of_chars (flat_map (fun v => u32be (byte_length v) ++ chars v) values).

(** The side as the identity writes it. *)
Definition side_name (s : ExecutionIntentSide) : string :=
  match s with INTENT_BUY => "BUY" | INTENT_SELL => "SELL" end.

(** What identifies an intent. *)
Record intent_identity := {
  id_strategyId : string;
  id_strategyVersion : Z;
  id_positionId : string;
  id_side : ExecutionIntentSide;
  id_logicalCommandId : string;
}.
(** src/src/domain/execution-intent.ts:453-468 (identityFrom) *)
Definition identityFrom (v : js) : option intent_identity :=
  r ← ownEnumerableDataRecord v None;
  strategyId ← (x ← readOwnDataProperty r "strategyId"; textFrom x);
  strategyVersion ← (x ← readOwnDataProperty r "strategyVersion"; positiveIntegerFrom x);
  positionId ← (x ← readOwnDataProperty r "positionId"; textFrom x);
  side ← (x ← readOwnDataProperty r "side"; sideFrom x);
  logicalCommandId ← (x ← readOwnDataProperty r "logicalCommandId"; textFrom x);
  Some {| id_strategyId := strategyId; id_strategyVersion := strategyVersion;
          id_positionId := positionId; id_side := side; id_logicalCommandId := logicalCommandId |}.

(** The identity of fields already read. *)
Definition identity_of (f : ExecutionIntentFields) : intent_identity :=
  {| id_strategyId := in_strategyId f; id_strategyVersion := in_strategyVersion f;
     id_positionId := in_positionId f; id_side := in_side f;
     id_logicalCommandId := in_logicalCommandId f |}.
(** The segments the identifier is the digest of. *)
Definition identity_segments (i : intent_identity) : list string :=
  ["execution-intent-v1"; id_strategyId i; to_decimal (id_strategyVersion i); id_positionId i;
   side_name (id_side i); id_logicalCommandId i].

Section Intents.
Context `{Sha256}.

(** src/src/domain/execution-intent.ts:229-241 (createExecutionIntentId): the identifier of
    an identity. *)
Definition intent_id (i : intent_identity) : string :=
  "execution_intent_" +:+ sha256_hex (lengthPrefixedUtf8 (identity_segments i)).
(** src/src/domain/execution-intent.ts:229-241 (createExecutionIntentId) *)
Definition createExecutionIntentId (v : js) : option string := intent_id <$> identityFrom v.

(** src/src/domain/execution-intent.ts:218-227 (createExecutionIntentDraft) *)
Definition createExecutionIntentDraft (v : js) : option ExecutionIntentDraftV1 :=
  value ← draftInputFrom v;
  Some {| in_id := intent_id (identity_of value); in_logicalOrderKey := in_logicalCommandId value;
          in_fields := value |}.

(** src/src/domain/execution-intent.ts:325-340 (draftFrom) *)
Definition draftFrom (v : js) (requireFrozen : bool) : option ExecutionIntentDraftV1 :=
  if requireFrozen && negb (isFrozenObject v) then None
  else
    r ← ownEnumerableDataRecord v (Some DRAFT_KEYS);
    match field r "payloadVersion" with
    | JNumber (NumInt 1) =>
        fields ← immutableFieldsFrom r;
        match field r "logicalOrderKey" with
        | JString key =>
            if negb (bool_decide (key = in_logicalCommandId fields)) then None
            else
              id ← textFrom (field r "id");
              if bool_decide (id = intent_id (identity_of fields))
              then Some {| in_id := id; in_logicalOrderKey := in_logicalCommandId fields;
                           in_fields := fields |}
              else None
        | _ => None
        end
    | _ => None
    end.

(** src/src/domain/execution-intent.ts:342-382 (intentFrom) *)
Definition intentFrom (v : js) (requireFrozen : bool) : option ExecutionIntentV1 :=
  if requireFrozen && negb (isFrozenObject v) then None
  else
    r ← ownEnumerableDataRecord v (Some INTENT_KEYS);
    draft ← draftFrom (frozen_object ObjectPrototype (pick r DRAFT_KEYS)) requireFrozen;
    status ← statusFrom (field r "status");
    attemptCount ← nonNegativeIntegerFrom (field r "attemptCount");
    stateRevision ← stateRevisionFrom (field r "stateRevision");
    lastReasonCode ← nullableReasonCodeFrom (field r "lastReasonCode");
    if negb (assertStatusReason status lastReasonCode) then None
    else
      terminalAtMs ← nullableTimestampFrom (field r "terminalAtMs");
      completedAtMs ← nullableTimestampFrom (field r "reconciliationCompletedAtMs");
      purgeAfterMs ← nullableTimestampFrom (field r "purgeAfterMs");
      createdAtMs ← timestampFrom (field r "createdAtMs");
      updatedAtMs ← timestampFrom (field r "updatedAtMs");
      if updatedAtMs <? createdAtMs then None
      else if negb (Bool.eqb (includes status TERMINAL_STATUSES) (bool_decide (terminalAtMs <> None)))
      then None
      else if bool_decide (completedAtMs <> None) && bool_decide (terminalAtMs = None) then None
      else if match purgeAfterMs with
              | None => false
              | Some p => match completedAtMs with
                          | None => true
                          | Some c => negb (p =? c + RETENTION_MS)
                          end
              end then None
      else if bool_decide (status = IS_PENDING)
              && (negb (attemptCount =? 0) || bool_decide (lastReasonCode <> None)
                  || bool_decide (terminalAtMs <> None) || bool_decide (completedAtMs <> None)
                  || bool_decide (purgeAfterMs <> None)) then None
      else Some {| in_draft := draft; in_status := status; in_attemptCount := attemptCount;
                   in_stateRevision := stateRevision; in_lastReasonCode := lastReasonCode;
                   in_terminalAtMs := terminalAtMs; in_reconciliationCompletedAtMs := completedAtMs;
                   in_purgeAfterMs := purgeAfterMs; in_createdAtMs := createdAtMs;
                   in_updatedAtMs := updatedAtMs |}.

(** src/src/domain/execution-intent.ts:243-249 (assertExecutionIntent) *)
Definition assertExecutionIntent (v : js) : option unit :=
  match intentFrom v true with
  | Some _ => Some tt
  | None => None
  end.
End Intents.

(** * Lemmas: names *)

Definition status_name : ExecutionIntentStatus -> string := name_in EXECUTION_INTENT_STATUSES.
Definition reason_text : ExecutionIntentReasonCode -> string := name_in EXECUTION_INTENT_REASON_CODES.

Lemma statusFrom_name s : statusFrom (JString (status_name s)) = Some s.
Proof. by destruct s. Qed.
Lemma reason_from_text r : enumValue EXECUTION_INTENT_REASON_CODES (JString (reason_text r)) = Some r.
Proof. by destruct r. Qed.

Lemma status_of_name v s : statusFrom v = Some s -> v = JString (status_name s).
Proof. apply enumValue_name. apply (bool_decide_unpack _). vm_compute. exact I. Qed.
Lemma reason_of_text v r :
  enumValue EXECUTION_INTENT_REASON_CODES v = Some r -> v = JString (reason_text r).
Proof. apply enumValue_name. apply (bool_decide_unpack _). vm_compute. exact I. Qed.

(** * Runs of the state machine *)

(** The transition check on typed arguments and on the values the code is given. *)
Lemma transition_iff v w x :
  assertExecutionIntentTransitionReason v w x = Some tt <->
  exists s t r, v = JString (status_name s) /\ w = JString (status_name t) /\ x = JString (reason_text r)
    /\ transition_reason s t r = true.
Proof.
  unfold assertExecutionIntentTransitionReason. split.
  - intros H. apply bind_Some in H as (s & Hs & H). apply bind_Some in H as (t & Ht & H).
    apply bind_Some in H as (o & Ho & H). destruct o as [r|]; [|done].
    destruct (transition_reason s t r) eqn:E; [|done].
    exists s, t, r. split_and!; [by apply status_of_name..| |done].
    apply reason_of_text. destruct x; cbn [nullableReasonCodeFrom or_null] in Ho; try done;
      by apply fmap_Some in Ho as (? & ? & [= ->]).
  - intros (s & t & r & -> & -> & -> & E). rewrite !statusFrom_name. cbn [mbind option_bind].
    unfold nullableReasonCodeFrom. cbn [or_null].
    rewrite reason_from_text. cbn [fmap option_fmap option_map mbind option_bind]. by rewrite E.
Qed.

(** A sequence of updates, each accepted with its reason. *)
Inductive intent_run : js -> list (js * js) -> js -> Prop :=
| run_nil s : intent_run s [] s
| run_cons s r t tr u :
    assertExecutionIntentTransitionReason s t r = Some tt ->
    intent_run t tr u -> intent_run s ((r, t) :: tr) u.

(** The transaction of such an intent may have reached the network. *)
Definition maybe_sent (s : ExecutionIntentStatus) : bool :=
  match s with
  | IS_SUBMITTED | IS_CONFIRMED | IS_RECONCILING | IS_UNKNOWN_REQUIRES_RECONCILIATION => true
  | _ => false
  end.

Lemma maybe_sent_step s t r :
  maybe_sent s = true -> transition_reason s t r = true ->
  maybe_sent t = true \/ t ∈ TERMINAL_STATUSES
  \/ (t = IS_RETRY_READY /\ r = IR_RECONCILIATION_PROVED_NO_EFFECT).
Proof.
  intros Hs H. destruct s; try done; destruct t; try done; try (by left); try (right; left; set_solver);
    right; right; split; try done; by destruct r.
Qed.

Lemma terminal_stuck s t r : s ∈ TERMINAL_STATUSES -> transition_reason s t r = false.
Proof. unfold TERMINAL_STATUSES. rewrite !elem_of_cons, elem_of_nil. intros [->|[->|[->|[->|[]]]]]; by destruct t. Qed.

Lemma status_name_inj s t : status_name s = status_name t -> s = t.
Proof. intros E. pose proof (statusFrom_name s) as H. rewrite E, statusFrom_name in H. congruence. Qed.

Lemma reason_text_inj r r' : reason_text r = reason_text r' -> r = r'.
Proof. intros E. pose proof (reason_from_text r) as H. rewrite E, reason_from_text in H. congruence. Qed.

Lemma run_from_sent v tr w : intent_run v tr w ->
  forall s, v = JString (status_name s) -> maybe_sent s = true ->
  (exists t, w = JString (status_name t) /\ (maybe_sent t = true \/ t ∈ TERMINAL_STATUSES))
  \/ (JString "RECONCILIATION_PROVED_NO_EFFECT", JString "RETRY_READY") ∈ tr.
Proof.
  induction 1 as [v|v r t tr u Hstep Hrun IH]; intros s -> Hs.
  - left. exists s. auto.
  - apply transition_iff in Hstep as (s' & t' & r' & E & -> & -> & Htr).
    injection E as E. apply status_name_inj in E as <-.
    destruct (maybe_sent_step _ _ _ Hs Htr) as [Ht|[Ht|[-> ->]]].
    + destruct (IH t' eq_refl Ht) as [?|?]; [by left|right; by right].
    + left. inversion Hrun as [|? ? ? ? ? Hstep' _]; subst; [exists t'; auto|].
      apply transition_iff in Hstep' as (a & b & c & E & _ & _ & Hbad).
      injection E as E. apply status_name_inj in E as <-. by rewrite terminal_stuck in Hbad.
    + right. left.
Qed.

(** C17: an order is not sent twice.  Once an intent was submitted, no sequence of accepted
    updates brings it back to PROCESSING, where it would be built, signed and sent again,
    unless one of them is the step to RETRY_READY whose reason is a reconciliation that
    proved the first transaction had no effect. *)
Theorem resend_needs_no_effect_proof (updates : list (js * js))
    (Hrun : intent_run (JString "SUBMITTED") updates (JString "PROCESSING")) :
  (JString "RECONCILIATION_PROVED_NO_EFFECT", JString "RETRY_READY") ∈ updates.
Proof.
  destruct (run_from_sent _ _ _ Hrun IS_SUBMITTED eq_refl eq_refl) as [(t & E & Ht)|?]; [|done].
  injection E as E. change "PROCESSING" with (status_name IS_PROCESSING) in E.
  apply status_name_inj in E as <-. destruct Ht as [Ht|Ht]; [done|set_solver].
Qed.

(** A submitted intent that timed out, was proved without effect and is tried again. *)
Lemma resend_needs_no_effect_proof_witness :
  (JString "RECONCILIATION_PROVED_NO_EFFECT", JString "RETRY_READY")
  ∈ [(JString "RECONCILIATION_REQUIRED", JString "UNKNOWN_REQUIRES_RECONCILIATION");
     (JString "RECONCILIATION_PROVED_NO_EFFECT", JString "RETRY_READY");
     (JString "EXECUTION_STARTED", JString "PROCESSING")].
Proof.
  apply resend_needs_no_effect_proof.
  repeat (eapply run_cons; [vm_compute; reflexivity|]). apply run_nil.
Defined.

(** The way out of each status. *)
Definition way_out (s : ExecutionIntentStatus)
    : list (ExecutionIntentReasonCode * ExecutionIntentStatus) :=
  match s with
  | IS_SUCCEEDED | IS_FAILED | IS_EXPIRED | IS_CANCELLED => []
  | IS_PENDING | IS_RETRY_READY | IS_PROCESSING | IS_SIMULATED => [(IR_INTENT_EXPIRED, IS_EXPIRED)]
  | IS_SIGNED_NOT_SUBMITTED => [(IR_PRE_SUBMISSION_REVOKED_NO_SEND, IS_FAILED)]
  | IS_SUBMITTED => [(IR_CONFIRMATION_OBSERVED, IS_CONFIRMED); (IR_INTENT_SUCCEEDED, IS_SUCCEEDED)]
  | IS_CONFIRMED | IS_RECONCILING => [(IR_INTENT_SUCCEEDED, IS_SUCCEEDED)]
  | IS_UNKNOWN_REQUIRES_RECONCILIATION => [(IR_RECONCILIATION_PROVED_NO_EFFECT, IS_FAILED)]
  end.

Lemma short_way_out s :
  exists tr t, intent_run (JString (status_name s)) tr (JString (status_name t))
    /\ (List.length tr <= 2)%nat /\ t ∈ TERMINAL_STATUSES.
Proof.
  exists (map (fun rt => (JString (reason_text (fst rt)), JString (status_name (snd rt)))) (way_out s)),
    (match last (way_out s) with Some rt => snd rt | None => s end).
  split_and!; [|destruct s; cbn; lia|by destruct s; apply (bool_decide_unpack _)].
  destruct s; cbn [way_out map last fst snd];
    repeat (apply run_cons; [vm_compute; reflexivity|]); apply run_nil.
Qed.

(** an intent can always be brought to an end.  From every status there is a sequence of
    at most two accepted updates to a terminal status, whatever happened before; and a
    terminal status accepts no further update, with any reason. *)
Theorem intent_can_terminate (v : js) (s : ExecutionIntentStatus) (Hv : statusFrom v = Some s) :
  (exists tr w t, intent_run v tr w /\ (List.length tr <= 2)%nat /\ statusFrom w = Some t
                  /\ t ∈ TERMINAL_STATUSES)
  /\ (s ∈ TERMINAL_STATUSES -> forall w r, assertExecutionIntentTransitionReason v w r = None).
Proof.
  apply status_of_name in Hv as ->. split.
  - destruct (short_way_out s) as (tr & t & Hrun & Hlen & Ht).
    exists tr, (JString (status_name t)), t. by rewrite statusFrom_name.
  - intros Ht w r. destruct (assertExecutionIntentTransitionReason _ w r) as [[]|] eqn:E; [|done].
    apply transition_iff in E as (a & b & c & Ea & _ & _ & Hbad). injection Ea as Ea.
    apply status_name_inj in Ea as <-. by rewrite terminal_stuck in Hbad.
Qed.

(** From SUBMITTED. *)
Lemma intent_can_terminate_witness :
  exists tr w t, intent_run (JString "SUBMITTED") tr w /\ (List.length tr <= 2)%nat
                 /\ statusFrom w = Some t /\ t ∈ TERMINAL_STATUSES.
Proof. apply (intent_can_terminate (JString "SUBMITTED") IS_SUBMITTED). reflexivity. Defined.

(** * Keys *)

Lemma base58_number_eq l n : base58_number l n = text_value l n.
Proof.
  revert n. induction l as [|c l IH]; intros n; cbn [base58_number text_value]; [done|].
  destruct (BASE58_VALUES c); cbn [mbind option_bind]; auto.
Qed.

Lemma base58_ascii c d : BASE58_VALUES c = Some d -> utf16_units c = 1.
Proof.
  unfold BASE58_VALUES. intros H. apply fmap_Some in H as ([i c'] & Hf & _).
  apply list_find_Some in Hf as (Hi & <- & _). apply list_elem_of_lookup_2 in Hi.
  assert (Forall (fun c => utf16_units c = 1) (chars BASE58_ALPHABET)) as Hall
    by (apply (bool_decide_unpack _); vm_compute; exact I).
  by apply (proj1 (Forall_forall _ _) Hall).
Qed.

Lemma base58_text_length s n m : text_value (chars s) n = Some m -> utf16_length s = byte_length s.
Proof.
  rewrite <- chars_length. unfold utf16_length. revert n.
  induction (chars s) as [|c l IH]; intros n H; [done|]. cbn [text_value] in H.
  apply bind_Some in H as (d & Hd & H). cbn [foldr List.length].
  rewrite (IH _ H), (base58_ascii c d Hd). lia.
Qed.

Lemma byte_count_value l b fuel :
  Forall is_byte (l ++ [b]) -> b <> 0 -> (S (List.length l) <= fuel)%nat ->
  byte_count fuel (le_value (l ++ [b])) = S (List.length l).
Proof.
  revert fuel. induction l as [|x l IH]; intros [|fuel] Hb Hne Hf; cbn [List.length] in Hf; try lia.
  - cbn [app] in *. apply Forall_cons in Hb as [Hb _]. unfold is_byte in Hb.
    change (le_value [b]) with (b + 256 * 0). cbn [byte_count].
    destruct (Z.ltb_spec 0 (b + 256 * 0)); [|lia].
    replace (Z.shiftr (b + 256 * 0) 8) with 0; [by destruct fuel|].
    rewrite Z.shiftr_div_pow2 by lia. symmetry. apply Z.div_small. change (2 ^ 8) with 256. lia.
  - cbn [app] in *. apply Forall_cons in Hb as [Hx Hb]. unfold is_byte in Hx.
    change (le_value (x :: l ++ [b])) with (x + 256 * le_value (l ++ [b])).
    assert (0 < le_value (l ++ [b])) as Hpos.
    { rewrite le_value_app. apply Forall_app in Hb as [Hl Hbb]. apply Forall_cons in Hbb as [Hbb _].
      unfold is_byte in Hbb. pose proof (le_value_bound l Hl). cbn [le_value foldr].
      assert (0 < 256 ^ Z.of_nat (List.length l)) by (apply Z.pow_pos_nonneg; lia). nia. }
    cbn [byte_count]. destruct (Z.ltb_spec 0 (x + 256 * le_value (l ++ [b]))); [|lia].
    replace (Z.shiftr (x + 256 * le_value (l ++ [b])) 8) with (le_value (l ++ [b])).
    + rewrite IH by (done || lia). done.
    + rewrite Z.shiftr_div_pow2 by lia. change (2 ^ 8) with 256.
      rewrite (Z.mul_comm 256), Z.div_add by lia. rewrite Z.div_small by lia. lia.
Qed.

(** The shifts of the intent module count the bytes of the array of the key module. *)
Lemma byte_count_array a :
  Forall is_byte a -> normal a ->
  byte_count (S (Z.to_nat (Z.log2 (le_value a)))) (le_value a)
  = if bool_decide (a = [0]) then 0%nat else List.length a.
Proof.
  intros Ha [->|(l & b & -> & Hb)]; [done|]. rewrite bool_decide_eq_false_2.
  2: { destruct l as [|x l]; [|by destruct l]. intros [= ->]. done. }
  rewrite byte_count_value; [by rewrite length_app, Nat.add_comm|done|done|].
  apply le_n_S. apply Forall_app in Ha as [Hl Hbb]. apply Forall_cons in Hbb as [Hbb _].
  unfold is_byte in Hbb. pose proof (le_value_bound l Hl) as Hlb.
  assert (2 ^ Z.of_nat (List.length l) <= le_value (l ++ [b])) as Hv.
  { rewrite le_value_app. cbn [le_value foldr].
    assert (2 ^ Z.of_nat (List.length l) <= 256 ^ Z.of_nat (List.length l)) by (apply Z.pow_le_mono_l; lia).
    nia. }
  apply Z.log2_le_mono in Hv. rewrite Z.log2_pow2 in Hv by lia. lia.
Qed.

Lemma base58_checks_agree (s : string) :
  isCanonicalBase58PublicKey s = isCanonicalSolanaPublicKey s.
Proof.
  unfold isCanonicalBase58PublicKey, isCanonicalSolanaPublicKey. rewrite base58_number_eq.
  pose proof (decode_base58_spec (chars s) [0] ltac:(by repeat constructor) ltac:(by left)) as Hd.
  change (le_value [0]) with 0 in Hd. destruct (text_value (chars s) 0) as [n|] eqn:Hv.
  - destruct Hd as (a & -> & Ha & Hn & <-). rewrite (base58_text_length s 0 _ Hv), (trim_base58 _ _ Hv).
    rewrite bool_decide_eq_true_2 by done. cbn [negb]. rewrite orb_false_r.
    unfold MIN_PUBLIC_KEY_TEXT_BYTES, MAX_PUBLIC_KEY_TEXT_BYTES. destruct (_ || _); [done|].
    by rewrite byte_count_array, Nat.add_comm by done.
  - rewrite Hd. by do 2 destruct (_ || _).
Qed.

(** The two key checks agree.  The intent module decides whether a text is a public key
    by reading it as one big number and counting its bytes with shifts, the shared module by
    long multiplication on an array of bytes; on every text they give the same answer. *)
Theorem key_checks_agree (s : string) :
  isCanonicalBase58PublicKey s = isCanonicalSolanaPublicKey s.
Proof. apply base58_checks_agree. Qed.

(** * Identifiers identify *)

Lemma byte_char_inj x y : is_byte x -> is_byte y ->
  ascii_of_nat (Z.to_nat x) = ascii_of_nat (Z.to_nat y) -> x = y.
Proof.
  unfold is_byte. intros Hx Hy E. apply (f_equal nat_of_ascii) in E.
  rewrite !nat_ascii_embedding in E by lia. lia.
Qed.

Lemma u32be_value n : 0 <= n < 2 ^ 32 ->
  n = Z.land (Z.shiftr n 0) 255 + 256 * (Z.land (Z.shiftr n 8) 255
      + 256 * (Z.land (Z.shiftr n 16) 255 + 256 * Z.land (Z.shiftr n 24) 255)).
Proof.
  intros Hn. rewrite Z.shiftr_0_r. destruct (split_byte n) as [H0 _]; [lia|].
  destruct (split_byte (Z.shiftr n 8)) as [H1 _]; [apply Z.shiftr_nonneg; lia|].
  destruct (split_byte (Z.shiftr n 16)) as [H2 _]; [apply Z.shiftr_nonneg; lia|].
  destruct (split_byte (Z.shiftr n 24)) as [H3 _]; [apply Z.shiftr_nonneg; lia|].
  rewrite Z.shiftr_shiftr in H1, H2, H3 by lia.
  assert (Z.shiftr n 32 = 0) as Hz by (rewrite Z.shiftr_div_pow2 by lia; apply Z.div_small; lia).
  change (8 + 8) with 16 in H1. change (16 + 8) with 24 in H2. change (24 + 8) with 32 in H3.
  rewrite Hz in H3. lia.
Qed.

Lemma u32be_inj n m : 0 <= n < 2 ^ 32 -> 0 <= m < 2 ^ 32 -> u32be n = u32be m -> n = m.
Proof.
  intros Hn Hm E. rewrite (u32be_value n Hn), (u32be_value m Hm). unfold u32be in E. cbn [map] in E.
  injection E as E3 E2 E1 E0.
  assert (forall x k, 0 <= x -> is_byte (Z.land (Z.shiftr x k) 255)) as Hb.
  { intros x k Hx. apply split_byte. apply Z.shiftr_nonneg; lia. }
  apply byte_char_inj in E0, E1, E2, E3; try (apply Hb; lia). congruence.
Qed.

(** Length-prefixed segments can be told apart again. *)
Lemma lengthPrefixed_inj l l' :
  List.length l = List.length l' ->
  Forall (fun s => byte_length s < 2 ^ 32) l -> Forall (fun s => byte_length s < 2 ^ 32) l' ->
  lengthPrefixedUtf8 l = lengthPrefixedUtf8 l' -> l = l'.
Proof.
  unfold lengthPrefixedUtf8. intros Hlen Hl Hl' E. apply (f_equal chars) in E. rewrite !chars_of_chars in E.
  revert l' Hlen Hl' E. induction Hl as [|s l Hs Hl IH]; intros [|s' l'] Hlen Hl' E; try done.
  apply Forall_cons in Hl' as [Hs' Hl']. cbn [flat_map] in E. rewrite <- !app_assoc in E.
  assert (forall x, 0 <= byte_length x) as Hpos by (intros x; unfold byte_length; lia).
  apply app_inj_1 in E as [E1 E]; [|done].
  apply u32be_inj in E1; [|auto..]. rewrite <- !chars_length in E1. apply Nat2Z.inj in E1.
  apply app_inj_1 in E as [E2 E]; [|done]. apply chars_inj in E2 as <-. f_equal.
  apply IH; [by injection Hlen|done|done].
Qed.

Lemma digits_length fuel n : (List.length (digits fuel n) <= fuel)%nat.
Proof.
  revert n. induction fuel as [|fuel IH]; intros n; cbn; [lia|].
  rewrite length_app. cbn [List.length]. specialize (IH (n / 10)).
  destruct (_ <? _); cbn [List.length]; lia.
Qed.
Lemma to_decimal_short n : 0 <= n < 2 ^ 32 -> byte_length (to_decimal n) < 2 ^ 32.
Proof.
  intros Hn. rewrite <- chars_length. unfold to_decimal. destruct (Z.ltb_spec n 0); [lia|].
  rewrite chars_of_chars. unfold nat_chars.
  pose proof (digits_length (S (Z.to_nat (Z.log2 n))) n) as Hd.
  assert (Z.log2 n <= 32); [|lia]. destruct (decide (n = 0)) as [->|]; [done|].
  apply Z.lt_le_incl, Z.log2_lt_pow2; lia.
Qed.

(** * Well-formed intents *)

Definition text_ok (s : string) : Prop := s <> EmptyString /\ byte_length s <= 256.
(** The fields of an intent as its type promises them: the amounts and the venue belong to
    the side, keys are canonical, times form a window of at most four hours. *)
Record valid_fields (f : ExecutionIntentFields) : Prop := {
  vf_texts : Forall text_ok [in_strategyId f; in_positionId f; in_logicalCommandId f; in_decisionEventId f];
  vf_version : 1 <= in_strategyVersion f <= INT32_MAX;
  vf_candidate : forall c, in_candidateId f = Some c -> prefixed_hex "candidate_" (JString c) = Some c;
  vf_mints : isCanonicalSolanaPublicKey (in_mint f) = true /\ isCanonicalSolanaPublicKey (in_quoteMint f) = true;
  vf_decimals : 0 <= in_quoteDecimals f <= 255;
  vf_side : match in_side f with
            | INTENT_BUY => in_venuePolicy f = PUMP_FUN_ONLY /\ in_baseAmountRaw f = None
                            /\ exists q, in_quoteAmountRaw f = Some q /\ 1 <= q <= U64_MAX
            | INTENT_SELL => in_venuePolicy f = CANONICAL_EXIT /\ in_quoteAmountRaw f = None
                             /\ exists b, in_baseAmountRaw f = Some b /\ 1 <= b <= U64_MAX
            end;
  vf_minimum : 1 <= in_minimumAmountOutRaw f <= U64_MAX;
  vf_fingerprint : is_sha256_hex (in_decisionFingerprint f) = true;
  vf_window : 0 <= in_requestedAtMs f < in_expiresAtMs f /\ in_expiresAtMs f <= INTENT_DATE_MAX_MS
              /\ in_expiresAtMs f - in_requestedAtMs f <= EXECUTION_INTENT_MAXIMUM_TTL_MS;
}.

(** The readers, forwards and backwards. *)
Lemma textFrom_Some v s : textFrom v = Some s <-> v = JString s /\ text_ok s.
Proof. apply bounded_text_Some. Qed.

Lemma boundedIntegerFrom_Some v lo hi z :
  boundedIntegerFrom v lo hi = Some z <->
  v = JNumber (NumInt z) /\ lo <= z <= hi /\ - MAX_SAFE_INTEGER <= z <= MAX_SAFE_INTEGER.
Proof.
  destruct v as [| | |[z'| |]| | | |]; cbn; try naive_solver.
  destruct (is_safe_integer z') eqn:Hs; cbn [andb].
  - apply is_safe_integer_true in Hs. destruct (Z.leb_spec lo z'), (Z.leb_spec z' hi); cbn [andb]; naive_solver lia.
  - split; [done|]. intros ([= ->] & _ & Hz). apply is_safe_integer_true in Hz. congruence.
Qed.

Lemma mintFrom_Some v s : mintFrom v = Some s <-> v = JString s /\ isCanonicalSolanaPublicKey s = true.
Proof.
  unfold mintFrom. split.
  - intros H. apply bind_Some in H as (m & Hm & H). apply textFrom_Some in Hm as [-> _].
    rewrite base58_checks_agree in H. destruct (isCanonicalSolanaPublicKey m) eqn:E; [|done]. by injection H as <-.
  - intros [-> Hs]. apply bind_Some. exists s. rewrite base58_checks_agree, Hs. split; [|done].
    apply textFrom_Some. split; [done|]. unfold isCanonicalSolanaPublicKey in Hs.
    destruct (_ || _) eqn:E in Hs; [done|]. rewrite !orb_false_iff in E.
    unfold MIN_PUBLIC_KEY_TEXT_BYTES, MAX_PUBLIC_KEY_TEXT_BYTES in E. destruct E as [[E1 E2] _].
    apply Z.ltb_ge in E1, E2. split; [|lia]. intros ->. by cbn in E1.
Qed.


Lemma sideFrom_name v s : sideFrom v = Some s -> v = JString (name_in SIDES s).
Proof. apply enumValue_name. apply (bool_decide_unpack _). vm_compute. exact I. Qed.
Lemma venue_name v s : venuePolicyFrom v = Some s -> v = JString (name_in VENUES s).
Proof. apply enumValue_name. apply (bool_decide_unpack _). vm_compute. exact I. Qed.

Lemma positiveU64_Some v z : positiveU64From v = Some z <-> v = JBigInt z /\ 1 <= z <= U64_MAX.
Proof. apply boundedBigint_Some. Qed.

Lemma immutableFieldsFrom_valid r f : immutableFieldsFrom r = Some f -> valid_fields f.
Proof.
  unfold immutableFieldsFrom, positiveIntegerFrom, timestampFrom. intros E.
  repeat match type of E with (_ ≫= _) = _ => apply bind_Some in E as (? & ? & E) end.
  destruct (_ || _) eqn:Hw in E; [done|]. destruct (match _ with INTENT_BUY => _ | INTENT_SELL => _ end) eqn:Ha in E; [done|].
  destruct (match _ with INTENT_BUY => _ | INTENT_SELL => _ end) eqn:Hv in E; [done|].
  injection E as <-. rewrite orb_false_iff, Z.leb_gt, Z.ltb_ge in Hw.
  repeat match goal with
  | H : textFrom _ = Some _ |- _ => apply textFrom_Some in H as [_ H]
  | H : mintFrom _ = Some _ |- _ => apply mintFrom_Some in H as [_ H]
  | H : boundedIntegerFrom _ _ _ = Some _ |- _ => apply boundedIntegerFrom_Some in H as (_ & H & _)
  | H : positiveU64From _ = Some _ |- _ => apply positiveU64_Some in H as [_ H]
  | H : nullableU64From _ = Some _ |- _ =>
      apply (or_null_read positiveU64From JBigInt) in H as [_ H]; [|intros ? ? [? _]%positiveU64_Some; done]
  | H : nullableCandidateIdFrom _ = Some _ |- _ =>
      apply (or_null_read (prefixed_hex "candidate_") JString) in H as [_ H]; [|apply prefixed_hex_Some]
  | H : fingerprintFrom ?v = Some _ |- _ =>
      destruct v; try done; cbn [fingerprintFrom] in H; destruct (is_sha256_hex _) eqn:?; [injection H as <-|done]
  end.
  split; cbn; try done; try lia.
  - rewrite !Forall_cons. done.
  - match goal with |- match ?s with _ => _ end => destruct s end; repeat case_match; try done;
      (split; [done|]); (split; [done|]); eexists; (split; [done|]);
      match goal with H : forall a, Some _ = Some a -> _ |- _ => by apply (proj2 (proj1 (positiveU64_Some _ _) (H _ eq_refl))) end.
Qed.

(** The object of an intent, key by key. *)
Definition fields_value (f : ExecutionIntentFields) (key : string) : js :=
  match key with
  | "strategyId" => JString (in_strategyId f)
  | "strategyVersion" => JNumber (NumInt (in_strategyVersion f))
  | "positionId" => JString (in_positionId f)
  | "candidateId" => nullable_value JString (in_candidateId f)
  | "logicalCommandId" => JString (in_logicalCommandId f)
  | "mint" => JString (in_mint f)
  | "side" => JString (name_in SIDES (in_side f))
  | "venuePolicy" => JString (name_in VENUES (in_venuePolicy f))
  | "quoteMint" => JString (in_quoteMint f)
  | "quoteTokenProgram" =>
      JString (match in_quoteTokenProgram f with QUOTE_SPL_TOKEN => "SPL_TOKEN" | QUOTE_TOKEN_2022 => "TOKEN_2022" end)
  | "quoteDecimals" => JNumber (NumInt (in_quoteDecimals f))
  | "quoteAmountRaw" => nullable_value JBigInt (in_quoteAmountRaw f)
  | "baseAmountRaw" => nullable_value JBigInt (in_baseAmountRaw f)
  | "minimumAmountOutRaw" => JBigInt (in_minimumAmountOutRaw f)
  | "decisionEventId" => JString (in_decisionEventId f)
  | "decisionFingerprint" => JString (in_decisionFingerprint f)
  | "requestedAtMs" => JNumber (NumInt (in_requestedAtMs f))
  | "expiresAtMs" => JNumber (NumInt (in_expiresAtMs f))
  | _ => JUndefined
  end.
Definition draft_value (d : ExecutionIntentDraftV1) (key : string) : js :=
  match key with
  | "id" => JString (in_id d)
  | "payloadVersion" => JNumber (NumInt 1)
  | "logicalOrderKey" => JString (in_logicalOrderKey d)
  | _ => fields_value (in_fields d) key
  end.
Definition intent_value (i : ExecutionIntentV1) (key : string) : js :=
  match key with
  | "status" => JString (status_name (in_status i))
  | "attemptCount" => JNumber (NumInt (in_attemptCount i))
  | "stateRevision" => JBigInt (in_stateRevision i)
  | "lastReasonCode" => nullable_value (fun r => JString (reason_text r)) (in_lastReasonCode i)
  | "terminalAtMs" => nullable_value (fun z => JNumber (NumInt z)) (in_terminalAtMs i)
  | "reconciliationCompletedAtMs" =>
      nullable_value (fun z => JNumber (NumInt z)) (in_reconciliationCompletedAtMs i)
  | "purgeAfterMs" => nullable_value (fun z => JNumber (NumInt z)) (in_purgeAfterMs i)
  | "createdAtMs" => JNumber (NumInt (in_createdAtMs i))
  | "updatedAtMs" => JNumber (NumInt (in_updatedAtMs i))
  | _ => draft_value (in_draft i) key
  end.
(** Fields read from any record that has them. *)
Lemma immutableFieldsFrom_complete r f :
  valid_fields f -> (forall k, k ∈ DRAFT_INPUT_KEYS -> field r k = fields_value f k) ->
  immutableFieldsFrom r = Some f.
Proof.
  intros [Ht Hv Hc [Hm Hq] Hd Hs Hmin Hfp (Hw1 & Hw2 & Hw3)] Hr.
  apply Forall_cons in Ht as [Ht1 Ht]. apply Forall_cons in Ht as [Ht2 Ht].
  apply Forall_cons in Ht as [Ht3 Ht]. apply Forall_cons in Ht as [Ht4 _].
  unfold INT32_MAX, INTENT_DATE_MAX_MS, EXECUTION_INTENT_MAXIMUM_TTL_MS in *.
  unfold immutableFieldsFrom.
  rewrite (Hr "strategyId"), (Hr "strategyVersion"), (Hr "positionId"), (Hr "candidateId"),
    (Hr "logicalCommandId"), (Hr "mint"), (Hr "side"), (Hr "venuePolicy"), (Hr "quoteMint"),
    (Hr "quoteTokenProgram"), (Hr "quoteDecimals"), (Hr "quoteAmountRaw"), (Hr "baseAmountRaw"),
    (Hr "minimumAmountOutRaw"), (Hr "decisionEventId"), (Hr "decisionFingerprint"),
    (Hr "requestedAtMs"), (Hr "expiresAtMs") by (by apply (bool_decide_unpack _)).
  cbn [fields_value].
  assert (forall z lo hi, lo <= z <= hi -> - MAX_SAFE_INTEGER <= z <= MAX_SAFE_INTEGER ->
    boundedIntegerFrom (JNumber (NumInt z)) lo hi = Some z) as Hint
    by (intros; by apply boundedIntegerFrom_Some).
  assert (forall o, (forall a, o = Some a -> 1 <= a <= U64_MAX) ->
    nullableU64From (nullable_value JBigInt o) = Some o) as Hu.
  { intros o Ho. apply (read_or_null positiveU64From JBigInt o); [done|]. intros a Ha. apply positiveU64_Some. auto. }
  rewrite (proj2 (textFrom_Some (JString (in_strategyId f)) _)) by done.
  cbn [mbind option_bind]. unfold positiveIntegerFrom, timestampFrom.
  unfold MAX_SAFE_INTEGER in Hint. unfold INT32_MAX, INTENT_DATE_MAX_MS.
  rewrite (Hint (in_strategyVersion f)) by lia. cbn [mbind option_bind].
  rewrite (proj2 (textFrom_Some (JString (in_positionId f)) _)) by done. cbn [mbind option_bind].
  assert (nullableCandidateIdFrom (nullable_value JString (in_candidateId f)) = Some (in_candidateId f)) as ->
    by exact (read_or_null (prefixed_hex "candidate_") JString _ ltac:(done) Hc). cbn [mbind option_bind].
  rewrite (proj2 (textFrom_Some (JString (in_logicalCommandId f)) _)) by done. cbn [mbind option_bind].
  rewrite (proj2 (mintFrom_Some (JString (in_mint f)) _)) by done. cbn [mbind option_bind].
  assert (sideFrom (JString (name_in SIDES (in_side f))) = Some (in_side f)) as -> by (by destruct (in_side f)).
  cbn [mbind option_bind].
  assert (venuePolicyFrom (JString (name_in VENUES (in_venuePolicy f))) = Some (in_venuePolicy f)) as ->
    by (by destruct (in_venuePolicy f)). cbn [mbind option_bind].
  rewrite (proj2 (mintFrom_Some (JString (in_quoteMint f)) _)) by done. cbn [mbind option_bind].
  assert (quoteTokenProgramFrom (JString match in_quoteTokenProgram f with
    QUOTE_SPL_TOKEN => "SPL_TOKEN" | QUOTE_TOKEN_2022 => "TOKEN_2022" end) = Some (in_quoteTokenProgram f)) as ->
    by (by destruct (in_quoteTokenProgram f)). cbn [mbind option_bind].
  rewrite (Hint (in_quoteDecimals f)) by lia. cbn [mbind option_bind].
  rewrite (Hu (in_quoteAmountRaw f)) by (destruct (in_side f); naive_solver). cbn [mbind option_bind].
  rewrite (Hu (in_baseAmountRaw f)) by (destruct (in_side f); naive_solver). cbn [mbind option_bind].
  rewrite (proj2 (positiveU64_Some (JBigInt (in_minimumAmountOutRaw f)) _)) by done. cbn [mbind option_bind].
  rewrite (proj2 (textFrom_Some (JString (in_decisionEventId f)) _)) by done. cbn [mbind option_bind fingerprintFrom].
  rewrite Hfp. cbn [mbind option_bind].
  rewrite (Hint (in_requestedAtMs f)), (Hint (in_expiresAtMs f)) by lia. cbn [mbind option_bind].
  destruct (Z.leb_spec (in_expiresAtMs f) (in_requestedAtMs f)); [lia|].
  unfold EXECUTION_INTENT_MAXIMUM_TTL_MS.
  destruct (Z.ltb_spec 14400000 (in_expiresAtMs f - in_requestedAtMs f)); [lia|]. cbn [orb].
  destruct f as [? ? ? ? ? ? s p ? ? ? q b]; cbn in *. destruct s; destruct Hs as (-> & -> & a & -> & _); done.
Qed.

Lemma own_record_object keys f :
  ownEnumerableDataRecord (object_of keys f) (Some keys) = Some (map (fun k => (k, f k)) keys).
Proof.
  unfold ownEnumerableDataRecord, object_of, frozen_object. rewrite !length_map, Nat.eqb_refl.
  cbn [negb]. apply object_of_values.
Qed.

Definition time_ok (z : Z) : Prop := 0 <= z <= INTENT_DATE_MAX_MS.

(** The reasons that report progress and so explain no failure. *)
Definition reports_progress (c : ExecutionIntentReasonCode) : Prop :=
  match c with
  | IR_EXECUTION_STARTED | IR_SIMULATION_SUCCEEDED | IR_ATTEMPT_COMPLETED | IR_RETRY_AUTHORIZED
  | IR_SIGNATURE_PERSISTED | IR_SUBMISSION_ACCEPTED | IR_CONFIRMATION_OBSERVED
  | IR_RECONCILIATION_STARTED | IR_INTENT_SUCCEEDED | IR_INTENT_CANCELLED => True
  | _ => False
  end.
(** The last reason an intent may carry in each status. *)
Inductive reason_fits : ExecutionIntentStatus -> option ExecutionIntentReasonCode -> Prop :=
| fits_pending : reason_fits IS_PENDING None
| fits_processing : reason_fits IS_PROCESSING (Some IR_EXECUTION_STARTED)
| fits_simulated : reason_fits IS_SIMULATED (Some IR_SIMULATION_SUCCEEDED)
| fits_signed : reason_fits IS_SIGNED_NOT_SUBMITTED (Some IR_SIGNATURE_PERSISTED)
| fits_submitted : reason_fits IS_SUBMITTED (Some IR_SUBMISSION_ACCEPTED)
| fits_confirmed : reason_fits IS_CONFIRMED (Some IR_CONFIRMATION_OBSERVED)
| fits_reconciling : reason_fits IS_RECONCILING (Some IR_RECONCILIATION_STARTED)
| fits_unknown : reason_fits IS_UNKNOWN_REQUIRES_RECONCILIATION (Some IR_RECONCILIATION_REQUIRED)
| fits_retry_no_effect : reason_fits IS_RETRY_READY (Some IR_RECONCILIATION_PROVED_NO_EFFECT)
| fits_retry_no_send : reason_fits IS_RETRY_READY (Some IR_PRE_SUBMISSION_REVOKED_NO_SEND)
| fits_succeeded : reason_fits IS_SUCCEEDED (Some IR_INTENT_SUCCEEDED)
| fits_expired : reason_fits IS_EXPIRED (Some IR_INTENT_EXPIRED)
| fits_cancelled : reason_fits IS_CANCELLED (Some IR_INTENT_CANCELLED)
| fits_failed c : ~ reports_progress c -> reason_fits IS_FAILED (Some c).

Lemma assertStatusReason_iff s r : assertStatusReason s r = true <-> reason_fits s r.
Proof.
  split.
  - destruct s, r as [[]|]; vm_compute; intros E; first [discriminate E | constructor]; cbn; tauto.
  - intros []; try reflexivity. by destruct c; cbn in *; [..|tauto].
Qed.

Section WellFormed.
Context `{Sha256}.

(** A draft and its identifier. *)
Record wf_draft (d : ExecutionIntentDraftV1) : Prop := {
  wd_fields : valid_fields (in_fields d);
  wd_key : in_logicalOrderKey d = in_logicalCommandId (in_fields d);
  wd_id : in_id d = intent_id (identity_of (in_fields d));
  wd_text : text_ok (in_id d);
}.
(** An intent at any moment of its life. *)
Record wf_intent (i : ExecutionIntentV1) : Prop := {
  wi_draft : wf_draft (in_draft i);
  wi_attempts : 0 <= in_attemptCount i <= INT32_MAX;
  wi_revision : 0 <= in_stateRevision i <= INT64_MAX;
  wi_reason : reason_fits (in_status i) (in_lastReasonCode i);
  wi_times : time_ok (in_createdAtMs i) /\ time_ok (in_updatedAtMs i)
             /\ in_createdAtMs i <= in_updatedAtMs i;
  wi_terminal : in_status i ∈ TERMINAL_STATUSES <-> in_terminalAtMs i <> None;
  wi_completed : in_reconciliationCompletedAtMs i <> None -> in_terminalAtMs i <> None;
  wi_purge : forall p, in_purgeAfterMs i = Some p ->
             exists c, in_reconciliationCompletedAtMs i = Some c /\ p = c + 14400000;
  wi_nullable : (forall z, in_terminalAtMs i = Some z -> time_ok z)
                /\ (forall z, in_reconciliationCompletedAtMs i = Some z -> time_ok z)
                /\ (forall z, in_purgeAfterMs i = Some z -> time_ok z);
  wi_pending : in_status i = IS_PENDING -> in_attemptCount i = 0;
}.

Lemma draftFrom_wf v b d : draftFrom v b = Some d -> wf_draft d.
Proof.
  unfold draftFrom. intros E. destruct (_ && _) in E; [done|]. apply bind_Some in E as (r & _ & E).
  destruct (field r "payloadVersion") as [| | |[[|[| |]|]| |]| | | |];
    [done|done|done|done|done|done| |done|done|done|done|done|done|done].
  apply bind_Some in E as (f & Hf & E). apply immutableFieldsFrom_valid in Hf.
  destruct (field r "logicalOrderKey") as [| | | | |k| |]; [done|done|done|done|done| |done|done].
  destruct (negb _); [done|]. apply bind_Some in E as (id & Hid & E).
  destruct (bool_decide_reflect (id = intent_id (identity_of f))) as [->|]; [|done].
  injection E as <-. apply textFrom_Some in Hid as [_ Hid]. by split.
Qed.

Lemma draftFrom_object d (f : string -> js) :
  wf_draft d -> (forall k, k ∈ DRAFT_KEYS -> f k = draft_value d k) ->
  draftFrom (object_of DRAFT_KEYS f) true = Some d.
Proof.
  intros [Hf Hk Hid Ht] Hd. unfold draftFrom.
  change (isFrozenObject (object_of DRAFT_KEYS f)) with true. cbn [andb negb].
  rewrite own_record_object. cbn [mbind option_bind].
  assert (forall k, k ∈ DRAFT_KEYS -> field (map (fun k => (k, f k)) DRAFT_KEYS) k = draft_value d k) as Hr.
  { intros k Hin. by rewrite field_map, Hd. }
  rewrite (Hr "payloadVersion"), (Hr "logicalOrderKey"), (Hr "id") by (by apply (bool_decide_unpack _)).
  cbn [draft_value].
  rewrite (immutableFieldsFrom_complete _ (in_fields d)); [|done|].
  2: { intros k Hin. rewrite Hr by (by do 3 right).
       unfold DRAFT_INPUT_KEYS in Hin. rewrite !elem_of_cons, elem_of_nil in Hin.
       repeat destruct Hin as [->|Hin]; done. }
  cbn [mbind option_bind]. rewrite Hk. rewrite bool_decide_eq_true_2 by done. cbn [negb].
  rewrite (proj2 (textFrom_Some (JString (in_id d)) _)) by done. cbn [mbind option_bind].
  rewrite bool_decide_eq_true_2 by done. destruct d; cbn in *. by subst.
Qed.

Lemma time_Some v z : timestampFrom v = Some z <-> v = JNumber (NumInt z) /\ time_ok z.
Proof.
  unfold timestampFrom. rewrite boundedIntegerFrom_Some. unfold time_ok, INTENT_DATE_MAX_MS, MAX_SAFE_INTEGER.
  intuition lia.
Qed.

Lemma null_time_Some v o :
  nullableTimestampFrom v = Some o -> forall z, o = Some z -> time_ok z.
Proof.
  intros Ho z Hz. apply (or_null_read timestampFrom (fun z => JNumber (NumInt z))) in Ho as [_ Ho].
  - by apply Ho, time_Some in Hz as [_ Hz].
  - intros x a Hx. by apply time_Some in Hx as [Hx _].
Qed.

Lemma intentFrom_wf v b i : intentFrom v b = Some i -> wf_intent i.
Proof.
  unfold intentFrom. intros E. destruct (_ && _) in E; [done|].
  apply bind_Some in E as (r & _ & E). apply bind_Some in E as (d & Hd & E). apply draftFrom_wf in Hd.
  apply bind_Some in E as (s & _ & E). apply bind_Some in E as (n & Hn & E).
  apply boundedIntegerFrom_Some in Hn as (_ & Hn & _).
  apply bind_Some in E as (rev & Hrev & E). apply boundedBigint_Some in Hrev as [_ Hrev].
  apply bind_Some in E as (c & _ & E). destruct (assertStatusReason s c) eqn:Hr; [|done]. cbn [negb] in E.
  apply bind_Some in E as (term & Ht & E). apply bind_Some in E as (comp & Hc & E).
  apply bind_Some in E as (purge & Hp & E). apply bind_Some in E as (cr & Hcr & E).
  apply bind_Some in E as (up & Hup & E). apply time_Some in Hcr as [_ Hcr], Hup as [_ Hup].
  pose proof (null_time_Some _ _ Ht). pose proof (null_time_Some _ _ Hc). pose proof (null_time_Some _ _ Hp).
  destruct (Z.ltb_spec up cr); [done|].
  destruct (Bool.eqb _ _) eqn:Hterm; [|done]. cbn [negb] in E. apply eqb_prop in Hterm.
  destruct (_ && _) eqn:Hcomp in E; [done|].
  destruct (match purge with Some _ => _ | None => _ end) eqn:Hpurge in E; [done|].
  destruct (_ && _) eqn:Hpend in E; [done|]. injection E as <-. split; cbn; try done.
  - by apply assertStatusReason_iff.
  - rewrite <- includes_true, Hterm. apply bool_decide_eq_true.
  - intros Hne Heq. by rewrite !bool_decide_eq_true_2 in Hcomp.
  - intros p ->. destruct comp as [c'|]; [|done]. exists c'. split; [done|].
    apply negb_false_iff, Z.eqb_eq in Hpurge. done.
  - intros ->. rewrite bool_decide_eq_true_2 in Hpend by done. cbn [andb] in Hpend.
    rewrite !orb_false_iff, negb_false_iff, Z.eqb_eq in Hpend. apply Hpend.
Qed.

Lemma read_null_time o : (forall z, o = Some z -> time_ok z) ->
  nullableTimestampFrom (nullable_value (fun z => JNumber (NumInt z)) o) = Some o.
Proof. intros Ho. apply read_or_null; [done|]. intros a Ha. apply time_Some. auto. Qed.

Lemma intentFrom_object i : wf_intent i -> intentFrom (object_of INTENT_KEYS (intent_value i)) true = Some i.
Proof.
  intros [Hd Hn Hrev Hr (Hcr & Hup & Hle) Hterm Hcomp Hpurge (Ht & Hc & Hp) Hpend]. unfold intentFrom.
  apply assertStatusReason_iff in Hr.
  change (isFrozenObject (object_of INTENT_KEYS (intent_value i))) with true. cbn [andb negb].
  rewrite own_record_object. cbn [mbind option_bind].
  rewrite (pick_map INTENT_KEYS DRAFT_KEYS) by (apply (bool_decide_unpack _); vm_compute; exact I).
  change (frozen_object ObjectPrototype (map (fun k => (k, intent_value i k)) DRAFT_KEYS))
    with (object_of DRAFT_KEYS (intent_value i)).
  rewrite (draftFrom_object (in_draft i)); [|done|].
  2: { intros k Hin. unfold DRAFT_KEYS, DRAFT_INPUT_KEYS in Hin. rewrite !elem_of_cons, elem_of_nil in Hin.
       repeat destruct Hin as [->|Hin]; done. }
  cbn [mbind option_bind].
  assert (forall k, k ∈ INTENT_KEYS -> field (map (fun k => (k, intent_value i k)) INTENT_KEYS) k = intent_value i k)
    as Hf by (intros k Hk; by rewrite field_map).
  rewrite (Hf "status"), (Hf "attemptCount"), (Hf "stateRevision"), (Hf "lastReasonCode"), (Hf "terminalAtMs"),
    (Hf "reconciliationCompletedAtMs"), (Hf "purgeAfterMs"), (Hf "createdAtMs"), (Hf "updatedAtMs")
    by (by apply (bool_decide_unpack _)). cbn [intent_value]. rewrite statusFrom_name. cbn [mbind option_bind].
  unfold nonNegativeIntegerFrom.
  rewrite (proj2 (boundedIntegerFrom_Some _ 0 INT32_MAX (in_attemptCount i)))
    by (unfold INT32_MAX, MAX_SAFE_INTEGER in *; lia || (split_and!; [done|lia..])).
  cbn [mbind option_bind]. unfold stateRevisionFrom.
  rewrite (proj2 (boundedBigint_Some _ 0 INT64_MAX (in_stateRevision i))) by done. cbn [mbind option_bind].
  assert (nullableReasonCodeFrom (nullable_value (fun r => JString (reason_text r)) (in_lastReasonCode i))
    = Some (in_lastReasonCode i)) as ->.
  { apply read_or_null; [done|]. intros a _. apply reason_from_text. }
  cbn [mbind option_bind]. rewrite Hr. cbn [negb]. rewrite !read_null_time by done. cbn [mbind option_bind].
  rewrite !(proj2 (time_Some (JNumber (NumInt _)) _)) by done. cbn [mbind option_bind].
  destruct (Z.ltb_spec (in_updatedAtMs i) (in_createdAtMs i)); [lia|].
  assert (includes (in_status i) TERMINAL_STATUSES = bool_decide (in_terminalAtMs i <> None)) as ->.
  { apply Bool.eq_iff_eq_true. by rewrite includes_true, bool_decide_eq_true. }
  rewrite eqb_reflx. cbn [negb].
  destruct (_ && _) eqn:E1; [apply andb_true_iff in E1 as [E1 E2]; apply bool_decide_eq_true in E1, E2; naive_solver|].
  destruct (match in_purgeAfterMs i with Some _ => _ | None => _ end) eqn:E2.
  { destruct (in_purgeAfterMs i) as [p|]; [|done]. destruct (Hpurge p eq_refl) as (c & Ec & ->).
    rewrite Ec, Z.eqb_refl in E2. done. }
  match goal with |- (if ?b then _ else _) = _ => destruct b eqn:E3 end; [|by destruct i]. exfalso. apply andb_true_iff in E3 as [Es E3].
  apply bool_decide_eq_true in Es. rewrite (Hpend Es), Es in *. cbn [negb Z.eqb orb] in E3.
  apply bool_decide_eq_true in Hr. rewrite Hr in E3.
  assert (in_terminalAtMs i = None) as Et by (destruct (in_terminalAtMs i); [|done]; exfalso; set_solver).
  assert (in_reconciliationCompletedAtMs i = None) as Ec by (destruct (in_reconciliationCompletedAtMs i); [naive_solver|done]).
  assert (in_purgeAfterMs i = None) as Ep by (destruct (in_purgeAfterMs i); naive_solver).
  rewrite Et, Ec, Ep in E3. done.
Qed.

(** C23: intents are exactly what their type promises.  An intent is well formed when the
    amounts and the venue fit the side, the window is positive and at most four hours, the
    identifier is the digest of the identity, the reason fits the status, the end is dated
    exactly in terminal statuses and the purge exactly four hours after a reconciliation.
    Every object the reader accepts is a well-formed intent, [assertExecutionIntent] accepts
    exactly the objects it reads, and, the other way round, the frozen object of every
    well-formed intent, whether or not it was ever read before, is accepted and read back
    field for field. *)
Theorem intent_type_sound (i : ExecutionIntentV1) :
  (wf_intent i <-> intentFrom (object_of INTENT_KEYS (intent_value i)) true = Some i)
  /\ (wf_intent i -> assertExecutionIntent (object_of INTENT_KEYS (intent_value i)) = Some tt)
  /\ forall v, assertExecutionIntent v = Some tt
               <-> exists j, wf_intent j /\ intentFrom v true = Some j.
Proof.
  pose proof (intentFrom_object i) as Ho. unfold assertExecutionIntent. split_and!.
  - split; [done|]. apply intentFrom_wf.
  - intros Hw. by rewrite (Ho Hw).
  - intros v. destruct (intentFrom v true) as [j|] eqn:E; [|naive_solver].
    split; [|done]. intros _. exists j. split; [by apply (intentFrom_wf v true)|done].
Qed.

(** The texts of an identity. *)
Lemma identity_texts v i : identityFrom v = Some i ->
  Forall (fun s => byte_length s < 2 ^ 32) (identity_segments i).
Proof.
  unfold identityFrom. intros E.
  repeat match type of E with (_ ≫= _) = _ => apply bind_Some in E as (? & ? & E) end. injection E as <-.
  repeat match goal with H : (_ ≫= _) = Some _ |- _ => apply bind_Some in H as (? & _ & H) end.
  repeat match goal with
  | H : textFrom _ = Some _ |- _ => apply textFrom_Some in H as (_ & _ & H)
  | H : positiveIntegerFrom _ = Some _ |- _ => apply boundedIntegerFrom_Some in H as (_ & H & _)
  end.
  unfold INT32_MAX in *. repeat constructor; cbn [id_strategyId id_strategyVersion id_positionId id_logicalCommandId id_side];
    try lia.
  - apply to_decimal_short. lia.
  - by destruct (_ : ExecutionIntentSide).
Qed.

(** Orders with one identifier have one identity (strategy, version, position, side and
    command), or SHA-256 has a collision. *)
Theorem intent_id_identifies (v w : js) (i j : intent_identity) (x : string)
    (Hi : identityFrom v = Some i) (Hj : identityFrom w = Some j)
    (Hv : createExecutionIntentId v = Some x) (Hw : createExecutionIntentId w = Some x) :
  i = j \/ sha256_collision.
Proof.
  unfold createExecutionIntentId in Hv, Hw. rewrite Hi in Hv. rewrite Hj in Hw. injection Hv as <-. injection Hw as E.
  unfold intent_id in E. apply append_inj in E.
  destruct (decide (lengthPrefixedUtf8 (identity_segments j) = lengthPrefixedUtf8 (identity_segments i))) as [El|Hne].
  - left. apply lengthPrefixed_inj in El; [|done|by eapply identity_texts..].
    destruct i as [a b c s d], j as [a' b' c' s' d']. cbn in El. injection El as -> Ev -> Es ->.
    apply to_decimal_inj in Ev as ->. f_equal. by destruct s, s'.
  - right. by eexists _, _.
Qed.
End WellFormed.

(** A pending purchase. *)
Definition sample_digest : Sha256 := fun _ =>
  "0123456789abcdef0123456789abcdef0123456789abcdef0123456789abcdef".
Definition sample_fields : ExecutionIntentFields :=
  {| in_strategyId := "fast-entry-v1"; in_strategyVersion := 1; in_positionId := "position-1";
     in_candidateId := None; in_logicalCommandId := "open:position-1";
     in_mint := "11111111111111111111111111111111"; in_side := INTENT_BUY;
     in_venuePolicy := PUMP_FUN_ONLY; in_quoteMint := "So11111111111111111111111111111111111111112";
     in_quoteTokenProgram := QUOTE_SPL_TOKEN; in_quoteDecimals := 9;
     in_quoteAmountRaw := Some 1000000; in_baseAmountRaw := None; in_minimumAmountOutRaw := 5;
     in_decisionEventId := "evt_1";
     in_decisionFingerprint := "0123456789abcdef0123456789abcdef0123456789abcdef0123456789abcdef";
     in_requestedAtMs := 1000; in_expiresAtMs := 61000 |}.
Definition sample_intent : ExecutionIntentV1 :=
  {| in_draft := {| in_id := @intent_id sample_digest (identity_of sample_fields);
                    in_logicalOrderKey := "open:position-1"; in_fields := sample_fields |};
     in_status := IS_PENDING; in_attemptCount := 0; in_stateRevision := 0; in_lastReasonCode := None;
     in_terminalAtMs := None; in_reconciliationCompletedAtMs := None; in_purgeAfterMs := None;
     in_createdAtMs := 1000; in_updatedAtMs := 1000 |}.

(** It is accepted, and so is its object. *)
Lemma intent_type_sound_witness :
  let S : Sha256 := sample_digest in
  wf_intent sample_intent
  /\ assertExecutionIntent (object_of INTENT_KEYS (intent_value sample_intent)) = Some tt.
Proof.
  intros S. assert (wf_intent sample_intent) as Hw.
  { apply (proj1 (intent_type_sound sample_intent)). vm_compute. reflexivity. }
  split; [exact Hw|]. exact (proj1 (proj2 (intent_type_sound sample_intent)) Hw).
Defined.
