(* ===== verification/Reconciliation.v ===== *)
(** [src/src/domain/execution-reconciliation.ts]: what happened to a transaction that was
    sent.

    The expected transaction and what the network shows are compared and classified as
    matched, without effect, mismatched or unknown, with a reason for the intent's next step
    and an identity over all the evidence; [reconciliationTransitions], from
    [src/src/storage/execution-risk.repository.ts], is what it journals for the intent.  Every failure is one error class, so readers
    return [None] where the source throws. *)
From S2P Require Import Prelude Text Types Json JsValue JsReaders PublicKey Intent Quota.
From Stdlib Require Import Ascii String.
Local Open Scope string_scope.
Local Open Scope list_scope.
Local Open Scope Z_scope.

(** * Data *)

(** src/src/domain/execution-reconciliation.ts:10-22 (ROOT_KEYS, EXPECTED_KEYS, OBSERVED_KEYS) *)
Definition ROOT_KEYS : list string := ["expected"; "observed"].
Definition EXPECTED_KEYS : list string :=
  ["intentId"; "attemptNumber"; "walletGeneration"; "providerId"; "side"; "signature"; "blockhash";
   "lastValidBlockHeight"; "messageHash"; "buildFingerprint"; "snapshotFingerprint";
   "maximumFeeLamports"; "maximumFeePayerLamportDebit"].
Definition OBSERVED_KEYS : list string :=
  ["signatureHistory"; "confirmationStatus"; "finalizedBlockHeight"; "observedSlot"; "transaction";
   "feeLamports"; "walletLamportDelta"; "baseDeltaRaw"; "quoteDeltaRaw";
   "unexpectedResidualTokenBalanceRaw"; "observedAtMs"; "finalizedAtMs"].
(** src/src/domain/execution-reconciliation.ts:23-33 (OPTIONAL_OBSERVED_KEYS, TRANSACTION_KEYS) *)
Definition OPTIONAL_OBSERVED_KEYS : list string := ["transactionFailed"; "baseTokenAccountsUnchanged"].
Definition TRANSACTION_KEYS : list string :=
  ["signature"; "blockhash"; "messageHash"; "buildFingerprint"; "snapshotFingerprint"].

(** src/src/domain/execution-reconciliation.ts:34-37 (SIGNATURE_HISTORY, CONFIRMATION_STATUSES) *)
Inductive signature_history := SH_PRESENT | SH_ABSENT | SH_UNKNOWN.
Inductive confirmation_status := CS_FINALIZED | CS_CONFIRMED | CS_ORPHANED | CS_NOT_FOUND.
Definition SIGNATURE_HISTORY : list (string * signature_history) :=
  [("PRESENT", SH_PRESENT); ("ABSENT", SH_ABSENT); ("UNKNOWN", SH_UNKNOWN)].
Definition CONFIRMATION_STATUSES : list (string * confirmation_status) :=
  [("FINALIZED", CS_FINALIZED); ("CONFIRMED", CS_CONFIRMED); ("ORPHANED", CS_ORPHANED);
   ("NOT_FOUND", CS_NOT_FOUND)].
(** src/src/domain/execution-reconciliation.ts:41-42 (ExecutionReconciliationResult) *)
Inductive ExecutionReconciliationResult := RR_MATCHED | RR_NO_EFFECT | RR_MISMATCH | RR_UNKNOWN.

(** Decidable equality of the enumerations. *)
Global Instance signature_history_eq_dec : EqDecision signature_history.
Proof. solve_decision. Defined.
Global Instance confirmation_status_eq_dec : EqDecision confirmation_status.
Proof. solve_decision. Defined.
Global Instance reconciliation_result_eq_dec : EqDecision ExecutionReconciliationResult.
Proof. solve_decision. Defined.

(** src/src/domain/execution-reconciliation.ts:87-101 (ExpectedEvidence) *)
Record ExpectedEvidence := {
  ex_intentId : string;
  ex_attemptNumber : Z;
  ex_walletGeneration : Z;
  ex_providerId : string;
  ex_side : ExecutionIntentSide;
  ex_signature : string;
  ex_blockhash : string;
  ex_lastValidBlockHeight : Z;
  ex_messageHash : string;
  ex_buildFingerprint : string;
  ex_snapshotFingerprint : string;
  ex_maximumFeeLamports : Z;
  ex_maximumFeePayerLamportDebit : Z;
}.
(** src/src/domain/execution-reconciliation.ts:103-109 (NormalizedTransaction) *)
Record NormalizedTransaction := {
  nt_signature : string;
  nt_blockhash : string;
  nt_messageHash : string;
  nt_buildFingerprint : string;
  nt_snapshotFingerprint : string;
}.
(** src/src/domain/execution-reconciliation.ts:111-131 (ObservedEvidence) *)
Record ObservedEvidence := {
  ob_signatureHistory : signature_history;
  ob_confirmationStatus : confirmation_status;
  ob_finalizedBlockHeight : Z;
  ob_observedSlot : option Z;
  ob_transaction : option NormalizedTransaction;
  ob_feeLamports : Z;
  ob_walletLamportDelta : Z;
  ob_baseDeltaRaw : Z;
  ob_quoteDeltaRaw : Z;
  ob_residualRaw : Z;
  ob_observedAtMs : Z;
  ob_finalizedAtMs : option Z;
  ob_transactionFailed : bool;
  ob_baseTokenAccountsUnchanged : bool;
}.
(** src/src/domain/execution-reconciliation.ts:84-85 (ExecutionReconciliationEvidenceFields):
    all of the evidence but its identity. *)
Record evidence_fields := {
  ev_expected : ExpectedEvidence;
  ev_signatureHistory : signature_history;
  ev_confirmationStatus : confirmation_status;
  ev_finalizedBlockHeight : Z;
  ev_observedSlot : option Z;
  ev_observedTransactionFingerprint : option string;
  ev_feeLamports : Z;
  ev_walletLamportDelta : Z;
  ev_baseDeltaRaw : Z;
  ev_quoteDeltaRaw : Z;
  ev_residualRaw : Z;
  ev_observedAtMs : Z;
  ev_finalizedAtMs : option Z;
  ev_result : ExecutionReconciliationResult;
  ev_reasonCode : ExecutionIntentReasonCode;
}.
(** src/src/domain/execution-reconciliation.ts:51-82 (ExecutionReconciliationEvidenceV1) *)
Record ExecutionReconciliationEvidenceV1 := {
  ev_evidenceId : string;
  ev_payloadVersion : Z;
  ev_evidenceFingerprint : string;
  ev_fields : evidence_fields;
}.

(** * Classification *)

(** src/src/domain/execution-reconciliation.ts:282-288 (sameTransaction) *)
Definition sameTransaction (expected : ExpectedEvidence) (observed : NormalizedTransaction) : bool :=
  bool_decide (nt_signature observed = ex_signature expected)
  && bool_decide (nt_blockhash observed = ex_blockhash expected)
  && bool_decide (nt_messageHash observed = ex_messageHash expected)
  && bool_decide (nt_buildFingerprint observed = ex_buildFingerprint expected)
  && bool_decide (nt_snapshotFingerprint observed = ex_snapshotFingerprint expected).

(** [value !== null] *)
Definition present {A} (o : option A) : bool :=
  match o with Some _ => true | None => false end.

(** src/src/domain/execution-reconciliation.ts:239-262 (isLandedSellFailureWithoutEffect) *)
Definition isLandedSellFailureWithoutEffect (expected : ExpectedEvidence) (observed : ObservedEvidence)
    : bool :=
  bool_decide (ex_side expected = INTENT_SELL)
  && ob_transactionFailed observed
  && ob_baseTokenAccountsUnchanged observed
  && bool_decide (ob_signatureHistory observed = SH_PRESENT)
  && bool_decide (ob_confirmationStatus observed = CS_FINALIZED)
  && present (ob_finalizedAtMs observed)
  && present (ob_observedSlot observed)
  && match ob_transaction observed with
     | Some t => sameTransaction expected t
     | None => false
     end
  && (ob_baseDeltaRaw observed =? 0)
  && (ob_quoteDeltaRaw observed =? 0)
  && (0 <? ob_residualRaw observed)
  && (0 <? ob_feeLamports observed)
  && (ob_feeLamports observed <=? ex_maximumFeeLamports expected)
  && (ob_walletLamportDelta observed =? - ob_feeLamports observed).

(** src/src/domain/execution-reconciliation.ts:264-280 (isMatched) *)
Definition isMatched (expected : ExpectedEvidence) (observed : ObservedEvidence) : bool :=
  if negb (bool_decide (ob_signatureHistory observed = SH_PRESENT))
     || negb (bool_decide (ob_confirmationStatus observed = CS_FINALIZED))
     || negb (present (ob_finalizedAtMs observed))
     || negb (present (ob_observedSlot observed))
     || negb (present (ob_transaction observed))
     || (ex_maximumFeeLamports expected <? ob_feeLamports observed)
  then false
  else match ex_side expected with
       | INTENT_BUY =>
           (0 <? ob_baseDeltaRaw observed) && (ob_quoteDeltaRaw observed <? 0)
           && (ob_walletLamportDelta observed <? 0)
           && (- ob_walletLamportDelta observed <=? ex_maximumFeePayerLamportDebit expected)
       | INTENT_SELL =>
           (ob_baseDeltaRaw observed <? 0) && (0 <? ob_quoteDeltaRaw observed)
           && (0 <? ob_walletLamportDelta observed)
       end.

(** src/src/domain/execution-reconciliation.ts:200-237 (classify) *)
Definition classify (expected : ExpectedEvidence) (observed : ObservedEvidence)
    : ExecutionReconciliationResult * ExecutionIntentReasonCode :=
  let hasAnyDelta := negb (ob_feeLamports observed =? 0) || negb (ob_walletLamportDelta observed =? 0)
                     || negb (ob_baseDeltaRaw observed =? 0) || negb (ob_quoteDeltaRaw observed =? 0) in
  if isLandedSellFailureWithoutEffect expected observed
  then (RR_NO_EFFECT, IR_RECONCILIATION_PROVED_NO_EFFECT)
  else if 0 <? ob_residualRaw observed then (RR_MISMATCH, IR_RESIDUAL_TOKEN_BALANCE)
  else if match ob_transaction observed with
          | Some t => negb (sameTransaction expected t)
          | None => false
          end then (RR_MISMATCH, IR_DOUBLE_ORDER_SUSPECTED)
  else if (bool_decide (ob_signatureHistory observed = SH_ABSENT) || negb (present (ob_transaction observed)))
          && hasAnyDelta then (RR_MISMATCH, IR_BALANCE_MISMATCH)
  else if isMatched expected observed then (RR_MATCHED, IR_INTENT_SUCCEEDED)
  else if bool_decide (ob_signatureHistory observed = SH_PRESENT)
          && bool_decide (ob_confirmationStatus observed = CS_FINALIZED)
          && present (ob_transaction observed) then (RR_MISMATCH, IR_BALANCE_MISMATCH)
  else if bool_decide (ob_signatureHistory observed = SH_ABSENT)
          && bool_decide (ob_confirmationStatus observed = CS_NOT_FOUND)
          && (ex_lastValidBlockHeight expected <? ob_finalizedBlockHeight observed)
          && negb (present (ob_transaction observed))
          && negb hasAnyDelta
          && present (ob_finalizedAtMs observed)
  then (RR_NO_EFFECT, IR_RECONCILIATION_PROVED_NO_EFFECT)
  else (RR_UNKNOWN, IR_RECONCILIATION_REQUIRED).

(** * Readers *)

(** src/src/domain/execution-reconciliation.ts:406-424 (exactRecord): with optional keys. *)
Definition exactRecordOptional (v : js) (keys optionalKeys : list string) : option record :=
  match v with
  | JObject _ _ _ props =>
      if negb (isPlainObject v) then None
      else if existsb (fun p => match fst p with
                                | KeySymbol => true
                                | KeyString k => negb (includes k keys) && negb (includes k optionalKeys)
                                end) props then None
      else
        let own := keys ++ List.filter (fun k => includes (KeyString k) (map fst props)) optionalKeys in
        if negb (Nat.eqb (List.length props) (List.length own)) then None
        else mapM (fun key => x ← descriptor_value (own_property props key); Some (key, x)) own
  | _ => None
  end.

(** src/src/domain/execution-reconciliation.ts:426-431 (optionalBoolean) *)
Definition optionalBoolean (r : record) (key : string) : option bool :=
  if includes key (map fst r) then booleanValue (field r key) else Some false.

(** src/src/domain/execution-reconciliation.ts:441-444 (intentId) *)
Definition intentId (v : js) : option string := prefixed_hex "execution_intent_" v.

(** src/src/domain/execution-reconciliation.ts:453-457 (base58) *)
Definition base58 (v : js) (minimumLength maximumLength : Z) : option string :=
  match v with
  | JString s =>
      if (utf16_length s <? minimumLength) || (maximumLength <? utf16_length s)
         || negb (forallb (fun c => present (BASE58_VALUES c)) (chars s))
      then None else Some s
  | _ => None
  end.

(** src/src/domain/execution-reconciliation.ts:478-481 (positiveInteger) *)
Definition positiveInteger (v : js) : option Z := boundedInteger v 1 MAX_SAFE_INTEGER.

(** src/src/domain/execution-reconciliation.ts:345-356 (transactionFrom) *)
Definition read_transaction (v : js) : option NormalizedTransaction :=
  if negb (isFrozenPlainObject v) then None
  else
    r ← exactRecord v TRANSACTION_KEYS;
    signature ← base58 (field r "signature") 64 96;
    blockhash ← base58 (field r "blockhash") 32 64;
    messageHash ← fingerprintFrom (field r "messageHash");
    buildFingerprint ← fingerprintFrom (field r "buildFingerprint");
    snapshotFingerprint ← fingerprintFrom (field r "snapshotFingerprint");
    Some {| nt_signature := signature; nt_blockhash := blockhash; nt_messageHash := messageHash;
            nt_buildFingerprint := buildFingerprint; nt_snapshotFingerprint := snapshotFingerprint |}.
Definition transactionFrom (v : js) : option (option NormalizedTransaction) := or_null read_transaction v.

(** src/src/domain/execution-reconciliation.ts:290-308 (expectedFrom) *)
Definition expectedFrom (v : js) : option ExpectedEvidence :=
  if negb (isFrozenPlainObject v) then None
  else
    r ← exactRecord v EXPECTED_KEYS;
    intent ← intentId (field r "intentId");
    attemptNumber ← positiveInteger (field r "attemptNumber");
    walletGeneration ← positiveInteger (field r "walletGeneration");
    providerId ← identifier (field r "providerId");
    side ← enumValue SIDES (field r "side");
    signature ← base58 (field r "signature") 64 96;
    blockhash ← base58 (field r "blockhash") 32 64;
    lastValidBlockHeight ← unsignedBigint (field r "lastValidBlockHeight");
    messageHash ← fingerprintFrom (field r "messageHash");
    buildFingerprint ← fingerprintFrom (field r "buildFingerprint");
    snapshotFingerprint ← fingerprintFrom (field r "snapshotFingerprint");
    maximumFee ← unsignedBigint (field r "maximumFeeLamports");
    maximumDebit ← unsignedBigint (field r "maximumFeePayerLamportDebit");
    Some {| ex_intentId := intent; ex_attemptNumber := attemptNumber;
            ex_walletGeneration := walletGeneration; ex_providerId := providerId; ex_side := side;
            ex_signature := signature; ex_blockhash := blockhash;
            ex_lastValidBlockHeight := lastValidBlockHeight; ex_messageHash := messageHash;
            ex_buildFingerprint := buildFingerprint; ex_snapshotFingerprint := snapshotFingerprint;
            ex_maximumFeeLamports := maximumFee; ex_maximumFeePayerLamportDebit := maximumDebit |}.

(** src/src/domain/execution-reconciliation.ts:331-341 (observedFrom): the checks between fields. *)
Definition observed_coherent (o : ObservedEvidence) : bool :=
  negb (match ob_finalizedAtMs o with Some t => t <? ob_observedAtMs o | None => false end
   || ((ob_transactionFailed o || ob_baseTokenAccountsUnchanged o)
       && negb (bool_decide (ob_confirmationStatus o = CS_FINALIZED)))
   || (bool_decide (ob_confirmationStatus o = CS_FINALIZED)
       && (negb (present (ob_finalizedAtMs o)) || negb (present (ob_observedSlot o))
           || negb (bool_decide (ob_signatureHistory o = SH_PRESENT)) || negb (present (ob_transaction o))))
   || (bool_decide (ob_confirmationStatus o = CS_CONFIRMED)
       && (present (ob_finalizedAtMs o) || negb (present (ob_observedSlot o))))
   || (bool_decide (ob_confirmationStatus o = CS_NOT_FOUND)
       && (present (ob_observedSlot o) || present (ob_transaction o)
           || bool_decide (ob_signatureHistory o = SH_PRESENT)))).
(** src/src/domain/execution-reconciliation.ts:310-343 (observedFrom) *)
Definition observedFrom (v : js) : option ObservedEvidence :=
  if negb (isFrozenPlainObject v) then None
  else
    r ← exactRecordOptional v OBSERVED_KEYS OPTIONAL_OBSERVED_KEYS;
    signatureHistory ← enumValue SIGNATURE_HISTORY (field r "signatureHistory");
    confirmationStatus ← enumValue CONFIRMATION_STATUSES (field r "confirmationStatus");
    finalizedBlockHeight ← unsignedBigint (field r "finalizedBlockHeight");
    observedSlot ← or_null unsignedBigint (field r "observedSlot");
    transaction ← transactionFrom (field r "transaction");
    feeLamports ← unsignedBigint (field r "feeLamports");
    walletLamportDelta ← signedBigint (field r "walletLamportDelta");
    baseDeltaRaw ← signedBigint (field r "baseDeltaRaw");
    quoteDeltaRaw ← signedBigint (field r "quoteDeltaRaw");
    residual ← unsignedBigint (field r "unexpectedResidualTokenBalanceRaw");
    observedAtMs ← timestamp (field r "observedAtMs");
    finalizedAtMs ← or_null timestamp (field r "finalizedAtMs");
    transactionFailed ← optionalBoolean r "transactionFailed";
    unchanged ← optionalBoolean r "baseTokenAccountsUnchanged";
    let result :=
      {| ob_signatureHistory := signatureHistory; ob_confirmationStatus := confirmationStatus;
         ob_finalizedBlockHeight := finalizedBlockHeight; ob_observedSlot := observedSlot;
         ob_transaction := transaction; ob_feeLamports := feeLamports;
         ob_walletLamportDelta := walletLamportDelta; ob_baseDeltaRaw := baseDeltaRaw;
         ob_quoteDeltaRaw := quoteDeltaRaw; ob_residualRaw := residual;
         ob_observedAtMs := observedAtMs; ob_finalizedAtMs := finalizedAtMs;
         ob_transactionFailed := transactionFailed; ob_baseTokenAccountsUnchanged := unchanged |} in
    if observed_coherent result then Some result else None.

(** * Evidence *)

(** The names and nullable numbers the digests are taken of. *)
Definition history_name : signature_history -> string := name_in SIGNATURE_HISTORY.
Definition confirmation_name : confirmation_status -> string := name_in CONFIRMATION_STATUSES.
Definition result_name (r : ExecutionReconciliationResult) : string :=
  match r with
  | RR_MATCHED => "MATCHED"
  | RR_NO_EFFECT => "NO_EFFECT"
  | RR_MISMATCH => "MISMATCH"
  | RR_UNKNOWN => "UNKNOWN"
  end.
Definition big (z : Z) : json := JsonStr (to_decimal z).
Definition json_nullable {A} (f : A -> json) (o : option A) : json := json_opt (f <$> o).

(** The array [evidenceFingerprintFor] serializes. *)
Definition evidence_json (f : evidence_fields) : json :=
  let e := ev_expected f in
  JsonArr
    [JsonStr "execution-reconciliation-evidence-v1"; JsonStr (ex_intentId e);
     JsonInt (ex_attemptNumber e); JsonInt (ex_walletGeneration e); JsonStr (ex_providerId e);
     JsonStr (side_name (ex_side e)); JsonStr (ex_signature e); JsonStr (ex_blockhash e);
     big (ex_lastValidBlockHeight e); JsonStr (ex_messageHash e); JsonStr (ex_buildFingerprint e);
     JsonStr (ex_snapshotFingerprint e); big (ex_maximumFeeLamports e);
     big (ex_maximumFeePayerLamportDebit e); JsonStr (history_name (ev_signatureHistory f));
     JsonStr (confirmation_name (ev_confirmationStatus f)); big (ev_finalizedBlockHeight f);
     json_nullable big (ev_observedSlot f);
     json_nullable JsonStr (ev_observedTransactionFingerprint f);
     big (ev_feeLamports f); big (ev_walletLamportDelta f); big (ev_baseDeltaRaw f);
     big (ev_quoteDeltaRaw f); big (ev_residualRaw f); JsonInt (ev_observedAtMs f);
     json_nullable JsonInt (ev_finalizedAtMs f); JsonStr (result_name (ev_result f));
     JsonStr (reason_text (ev_reasonCode f))].

Section Evidence.
Context `{Sha256}.

(** src/src/domain/execution-reconciliation.ts:358-363 (transactionFingerprint) *)
Definition transactionFingerprint (t : NormalizedTransaction) : string :=
  sha256_hex (stringify (JsonArr
    [JsonStr "normalized-execution-transaction-v1"; JsonStr (nt_signature t); JsonStr (nt_blockhash t);
     JsonStr (nt_messageHash t); JsonStr (nt_buildFingerprint t); JsonStr (nt_snapshotFingerprint t)])).

(** src/src/domain/execution-reconciliation.ts:365-381 (evidenceFingerprintFor) *)
Definition evidenceFingerprintFor (f : evidence_fields) : string :=
  sha256_hex (stringify (evidence_json f)).

(** src/src/domain/execution-reconciliation.ts:383-397 (evidenceFromFields) *)
Definition evidenceFromFields (f : evidence_fields) : ExecutionReconciliationEvidenceV1 :=
  let fingerprint := evidenceFingerprintFor f in
  {| ev_evidenceId := "execution_reconciliation_" +:+ sha256_hex (stringify (JsonArr
       [JsonStr "execution-reconciliation-id-v1"; JsonStr (ex_intentId (ev_expected f));
        JsonInt (ex_attemptNumber (ev_expected f)); JsonStr fingerprint]));
     ev_payloadVersion := 1; ev_evidenceFingerprint := fingerprint; ev_fields := f |}.

(** src/src/domain/execution-reconciliation.ts:147-180 (evaluateExecutionReconciliation): the
    fields of the evidence. *)
Definition evaluated_fields (expected : ExpectedEvidence) (observed : ObservedEvidence) : evidence_fields :=
  let outcome := classify expected observed in
  {| ev_expected := expected;
     ev_signatureHistory := ob_signatureHistory observed;
     ev_confirmationStatus := ob_confirmationStatus observed;
     ev_finalizedBlockHeight := ob_finalizedBlockHeight observed;
     ev_observedSlot := ob_observedSlot observed;
     ev_observedTransactionFingerprint := transactionFingerprint <$> ob_transaction observed;
     ev_feeLamports := ob_feeLamports observed;
     ev_walletLamportDelta := ob_walletLamportDelta observed;
     ev_baseDeltaRaw := ob_baseDeltaRaw observed;
     ev_quoteDeltaRaw := ob_quoteDeltaRaw observed;
     ev_residualRaw := ob_residualRaw observed;
     ev_observedAtMs := ob_observedAtMs observed;
     ev_finalizedAtMs := ob_finalizedAtMs observed;
     ev_result := fst outcome; ev_reasonCode := snd outcome |}.
(** src/src/domain/execution-reconciliation.ts:140-184 (evaluateExecutionReconciliation) *)
Definition evaluateExecutionReconciliation (v : js) : option ExecutionReconciliationEvidenceV1 :=
  root ← exactRecord v ROOT_KEYS;
  expected ← expectedFrom (field root "expected");
  observed ← observedFrom (field root "observed");
  Some (evidenceFromFields (evaluated_fields expected observed)).

(** src/src/domain/execution-reconciliation.ts:186-198 (assertExecutionReconciliationEvidenceIdentity) *)
Definition assertExecutionReconciliationEvidenceIdentity (e : ExecutionReconciliationEvidenceV1)
    : option unit :=
  let canonical := evidenceFromFields (ev_fields e) in
  if negb (ev_payloadVersion e =? 1)
     || negb (bool_decide (ev_evidenceId e = ev_evidenceId canonical))
     || negb (bool_decide (ev_evidenceFingerprint e = ev_evidenceFingerprint canonical))
  then None else Some tt.
End Evidence.

(** * The moves of the intent *)




(** * What the evidence says *)

(** The transaction that was signed. *)
Definition expected_transaction (e : ExpectedEvidence) : NormalizedTransaction :=
  {| nt_signature := ex_signature e; nt_blockhash := ex_blockhash e; nt_messageHash := ex_messageHash e;
     nt_buildFingerprint := ex_buildFingerprint e; nt_snapshotFingerprint := ex_snapshotFingerprint e |}.

Lemma sameTransaction_iff e t : sameTransaction e t = true <-> t = expected_transaction e.
Proof.
  unfold sameTransaction, expected_transaction. rewrite !andb_true_iff, !bool_decide_eq_true.
  destruct t; cbn. naive_solver.
Qed.

(** The order was carried out as it was built: the signed transaction is final, within the
    fee, nothing is left over and the balances moved in the direction of the side. *)
Record settled (e : ExpectedEvidence) (o : ObservedEvidence) : Prop := {
  st_transaction : ob_transaction o = Some (expected_transaction e);
  st_final : ob_signatureHistory o = SH_PRESENT /\ ob_confirmationStatus o = CS_FINALIZED;
  st_fee : ob_feeLamports o <= ex_maximumFeeLamports e;
  st_residual : ob_residualRaw o = 0;
  st_balances : match ex_side e with
                | INTENT_BUY => 0 < ob_baseDeltaRaw o /\ ob_quoteDeltaRaw o < 0
                    /\ 0 < - ob_walletLamportDelta o <= ex_maximumFeePayerLamportDebit e
                | INTENT_SELL => ob_baseDeltaRaw o < 0 /\ 0 < ob_quoteDeltaRaw o
                    /\ 0 < ob_walletLamportDelta o
                end;
}.

(** The transaction never landed and can no longer land. *)
Record never_landed (e : ExpectedEvidence) (o : ObservedEvidence) : Prop := {
  nl_absent : ob_signatureHistory o = SH_ABSENT /\ ob_confirmationStatus o = CS_NOT_FOUND;
  nl_expired : ex_lastValidBlockHeight e < ob_finalizedBlockHeight o;
  nl_final : is_Some (ob_finalizedAtMs o);
  nl_balances : ob_feeLamports o = 0 /\ ob_walletLamportDelta o = 0 /\ ob_baseDeltaRaw o = 0
                /\ ob_quoteDeltaRaw o = 0 /\ ob_residualRaw o = 0;
}.

(** A sale landed, failed and cost its fee only. *)
Record failed_sale (e : ExpectedEvidence) (o : ObservedEvidence) : Prop := {
  fs_side : ex_side e = INTENT_SELL;
  fs_failed : ob_transactionFailed o = true /\ ob_baseTokenAccountsUnchanged o = true;
  fs_final : ob_signatureHistory o = SH_PRESENT /\ ob_confirmationStatus o = CS_FINALIZED;
  fs_transaction : ob_transaction o = Some (expected_transaction e);
  fs_balances : ob_baseDeltaRaw o = 0 /\ ob_quoteDeltaRaw o = 0 /\ 0 < ob_residualRaw o;
  fs_fee : 0 < ob_feeLamports o <= ex_maximumFeeLamports e
           /\ ob_walletLamportDelta o = - ob_feeLamports o;
}.

(** What the reader guarantees of observations. *)
Record observed_ok (o : ObservedEvidence) : Prop := {
  oo_residual : 0 <= ob_residualRaw o;
  oo_final : ob_confirmationStatus o = CS_FINALIZED ->
             is_Some (ob_finalizedAtMs o) /\ is_Some (ob_observedSlot o);
  oo_absent : ob_confirmationStatus o = CS_NOT_FOUND -> ob_transaction o = None;
}.

Lemma observedFrom_ok v o : observedFrom v = Some o -> observed_ok o.
Proof.
  unfold observedFrom. intros E. destruct (negb _); [discriminate E|].
  repeat match type of E with (_ ≫= _) = _ => apply bind_Some in E as (? & ? & E) end.
  cbv zeta in E. destruct (observed_coherent _) eqn:Hc; [|discriminate E]. injection E as <-.
  unfold observed_coherent in Hc. apply negb_true_iff in Hc. rewrite !orb_false_iff in Hc.
  cbn [ob_confirmationStatus ob_finalizedAtMs ob_observedSlot ob_transaction ob_signatureHistory] in Hc.
  destruct Hc as [[[[_ _] Hf] _] Hn].
  split; cbn [ob_residualRaw ob_confirmationStatus ob_finalizedAtMs ob_observedSlot ob_transaction].
  - match goal with H : unsignedBigint (field _ "unexpectedResidualTokenBalanceRaw") = Some _ |- _ =>
      apply boundedBigint_Some in H as [_ H]; exact (proj1 H) end.
  - intros Es. rewrite bool_decide_eq_true_2 in Hf by exact Es. cbn [andb] in Hf.
    rewrite !orb_false_iff, !negb_false_iff in Hf. destruct Hf as [[[Hf Hs] _] _].
    unfold present in Hf, Hs. repeat case_match; try discriminate. split; eexists; reflexivity.
  - intros Es. rewrite bool_decide_eq_true_2 in Hn by exact Es. cbn [andb] in Hn.
    rewrite !orb_false_iff in Hn. destruct Hn as [[_ Hn] _]. unfold present in Hn. by case_match.
Qed.

Lemma present_iff {A} (o : option A) : present o = true <-> is_Some o.
Proof. by destruct o; cbn; split; intros H. Qed.

Lemma failed_sale_iff e o : observed_ok o ->
  isLandedSellFailureWithoutEffect e o = true <-> failed_sale e o.
Proof.
  intros [_ Hf _]. unfold isLandedSellFailureWithoutEffect.
  rewrite !andb_true_iff, !bool_decide_eq_true, !present_iff, !Z.eqb_eq, !Z.ltb_lt, Z.leb_le.
  split.
  - intros H. destruct_and! H. destruct (ob_transaction o) as [t|] eqn:Et; [|discriminate].
    match goal with H : sameTransaction _ _ = true |- _ => apply sameTransaction_iff in H as -> end.
    by split.
  - intros [? [? ?] [Hp Hc] -> (? & ? & ?) [? ?]]. destruct (Hf Hc) as [? ?].
    rewrite (proj2 (sameTransaction_iff _ _) eq_refl). repeat split; try done; lia.
Qed.

Lemma isMatched_iff e o : observed_ok o ->
  isMatched e o = true <->
  ob_signatureHistory o = SH_PRESENT /\ ob_confirmationStatus o = CS_FINALIZED /\ is_Some (ob_transaction o)
  /\ ob_feeLamports o <= ex_maximumFeeLamports e
  /\ match ex_side e with
     | INTENT_BUY => 0 < ob_baseDeltaRaw o /\ ob_quoteDeltaRaw o < 0
         /\ 0 < - ob_walletLamportDelta o <= ex_maximumFeePayerLamportDebit e
     | INTENT_SELL => ob_baseDeltaRaw o < 0 /\ 0 < ob_quoteDeltaRaw o
         /\ 0 < ob_walletLamportDelta o
     end.
Proof.
  intros [_ Hf _]. unfold isMatched.
  match goal with |- context [if ?b then _ else _] => destruct b eqn:Eb end.
  - split; [done|]. intros (Hh & Hc & Ht & Hfee & _). destruct (Hf Hc) as [Ha Hs].
    rewrite Hh, Hc, (proj2 (present_iff _) Ha), (proj2 (present_iff _) Hs), (proj2 (present_iff _) Ht) in Eb.
    cbn in Eb. apply Z.ltb_lt in Eb. lia.
  - rewrite !orb_false_iff, !negb_false_iff, !bool_decide_eq_true, !present_iff, Z.ltb_ge in Eb.
    destruct Eb as [[[[[Hh Hc] _] _] Ht] Hfee].
    destruct (ex_side e); rewrite !andb_true_iff, !Z.ltb_lt, ?Z.leb_le; intuition lia.
Qed.

(** Classification, case by case. *)
Lemma classify_matched e o : observed_ok o -> fst (classify e o) = RR_MATCHED <-> settled e o.
Proof.
  intros Ho. pose proof (isMatched_iff e o Ho) as Hm. pose proof (oo_residual o Ho) as Hr.
  pose proof (proj1 (failed_sale_iff e o Ho)) as Hfs. unfold classify. cbv zeta.
  destruct (isLandedSellFailureWithoutEffect e o).
  { split; [done|]. intros [Ht _ _ H0 _]. destruct (Hfs eq_refl) as [_ _ _ _ (_ & _ & H1) _]. lia. }
  destruct (Z.ltb_spec 0 (ob_residualRaw o)).
  { split; [done|]. intros [_ _ _ H0 _]. lia. }
  destruct (ob_transaction o) as [t|] eqn:Et.
  2:{ split; [|intros [Ht _ _ _ _]; congruence]. cbn [present negb]. rewrite orb_true_r. cbn [andb].
      destruct (isMatched e o) eqn:Em; [destruct (proj1 Hm eq_refl) as (_ & _ & [? ?] & _); congruence|].
      intros Hx. exfalso. revert Hx. repeat match goal with |- context [if ?b then _ else _] => destruct b end; done. }
  destruct (sameTransaction e t) eqn:Es; cbn [negb present].
  2:{ split; [done|]. intros [Ht _ _ _ _]. rewrite Et in Ht. injection Ht as ->.
      rewrite (proj2 (sameTransaction_iff _ _) eq_refl) in Es. discriminate. }
  apply sameTransaction_iff in Es as ->. rewrite orb_false_r.
  destruct (isMatched e o) eqn:Em.
  - destruct (proj1 Hm eq_refl) as (Hh & Hc & _ & Hfee & Hb). rewrite Hh. cbn [bool_decide andb].
    split; [|done]. intros _. split; first [done|lia].
  - split; [|intros [Ht [Hh Hc] Hfee H0 Hb]].
    + intros Hx. exfalso. revert Hx. repeat match goal with |- context [if ?b then _ else _] => destruct b end; done.
    + discriminate (proj2 Hm (conj Hh (conj Hc (conj (mk_is_Some _ _ eq_refl) (conj Hfee Hb))))).
Qed.

Lemma classify_no_effect e o : observed_ok o ->
  fst (classify e o) = RR_NO_EFFECT <-> failed_sale e o \/ never_landed e o.
Proof.
  intros Ho. pose proof (failed_sale_iff e o Ho) as Hfs. pose proof (oo_residual o Ho) as Hr.
  pose proof (oo_absent o Ho) as Ha. pose proof (isMatched_iff e o Ho) as Hm. unfold classify. cbv zeta.
  destruct (isLandedSellFailureWithoutEffect e o).
  { split; [intros _; left; by apply Hfs|done]. }
  assert (failed_sale e o -> False) as Hno by (intros H; by apply Hfs in H).
  destruct (Z.ltb_spec 0 (ob_residualRaw o)).
  { split; [done|]. intros [?|[_ _ _ (_ & _ & _ & _ & H0)]]; [done|lia]. }
  set (delta := (_ || _ || _ || _)).
  assert (never_landed e o -> ob_transaction o = None /\ delta = false /\ isMatched e o = false) as Hnl.
  { intros [[Hh Hc] _ _ (E1 & E2 & E3 & E4 & _)]. unfold delta. rewrite E1, E2, E3, E4, (Ha Hc).
    repeat split. destruct (isMatched e o); [|done]. destruct (proj1 Hm eq_refl) as [? _]. congruence. }
  split.
  - repeat match goal with |- context [if ?b then _ else _] => destruct b eqn:? end; try done.
    intros _. right.
    match goal with H : _ = true |- _ => rewrite !andb_true_iff, !bool_decide_eq_true, !negb_true_iff, Z.ltb_lt, present_iff in H;
      destruct H as [[[[[? ?] ?] ?] Hd] ?] end.
    unfold delta in Hd. rewrite !orb_false_iff, !negb_false_iff, !Z.eqb_eq in Hd.
    destruct_and! Hd. split; try done. repeat split; try done; lia.
  - intros [?|Hn]; [done|]. destruct (Hnl Hn) as (-> & -> & ->). destruct Hn as [[-> ->] Hx Hy _].
    cbn. rewrite (proj2 (Z.ltb_lt _ _) Hx), (proj2 (present_iff _) Hy). done.
Qed.

Section Evaluated.
Context `{Sha256}.

Lemma evaluate_inv v ev : evaluateExecutionReconciliation v = Some ev ->
  exists e o, observed_ok o /\ ev = evidenceFromFields (evaluated_fields e o).
Proof.
  unfold evaluateExecutionReconciliation. intros E. apply bind_Some in E as (root & _ & E).
  apply bind_Some in E as (e & _ & E). apply bind_Some in E as (o & Ho & E). injection E as <-.
  exists e, o. split; [by eapply observedFrom_ok|done].
Qed.

Lemma evaluate_read ve vo e o : expectedFrom ve = Some e -> observedFrom vo = Some o ->
  evaluateExecutionReconciliation
    (object_of ROOT_KEYS (fun k => if String.eqb k "expected" then ve else vo))
  = Some (evidenceFromFields (evaluated_fields e o)).
Proof.
  intros He Ho. unfold evaluateExecutionReconciliation, object_of. rewrite exactRecord_frozen by done.
  cbn [mbind option_bind].
  change (field _ "expected") with ve. change (field _ "observed") with vo. by rewrite He, Ho.
Qed.

(** C20: reconciliation decides by the facts.  Whenever both halves of the input are read, an
    evidence is made of them: MATCHED exactly when the signed transaction is final, within its
    fee, leaves nothing over and moved the balances as the side says; NO_EFFECT exactly when it
    never landed and its blockhash is expired for good with no balance changed, or a sale
    landed, failed and cost nothing but a fee within the limit. *)
Theorem reconciliation_decides (ve vo : js) (e : ExpectedEvidence) (o : ObservedEvidence)
    (He : expectedFrom ve = Some e) (Ho : observedFrom vo = Some o) :
  let input := object_of ROOT_KEYS (fun k => if String.eqb k "expected" then ve else vo) in
  exists ev, evaluateExecutionReconciliation input = Some ev
    /\ ev_fields ev = evaluated_fields e o
    /\ (ev_result (ev_fields ev) = RR_MATCHED <-> settled e o)
    /\ (ev_result (ev_fields ev) = RR_NO_EFFECT <-> failed_sale e o \/ never_landed e o).
Proof.
  intros input. exists (evidenceFromFields (evaluated_fields e o)). pose proof (observedFrom_ok _ _ Ho) as Hok.
  split; [by apply evaluate_read|].
  split; [done|split; [by apply classify_matched|by apply classify_no_effect]].
Qed.






(** The serialized evidence determines it. *)
Lemma result_name_inj r r' : result_name r = result_name r' -> r = r'.
Proof. by destruct r, r'. Qed.
Lemma history_name_inj h h' : history_name h = history_name h' -> h = h'.
Proof. by destruct h, h'. Qed.
Lemma confirmation_name_inj c c' : confirmation_name c = confirmation_name c' -> c = c'.
Proof. by destruct c, c'. Qed.
Lemma json_nullable_inj {A} (f : A -> json) o o' :
  (forall a b, f a = f b -> a = b) -> (forall a, f a <> JsonNull) ->
  json_nullable f o = json_nullable f o' -> o = o'.
Proof.
  intros Hi Hn. destruct o as [a|], o' as [b|]; cbn; [|by intros E%Hn|by intros E%eq_sym%Hn|done].
  by intros ->%Hi.
Qed.
Lemma big_inj a b : big a = big b -> a = b.
Proof. intros [= E]. by apply to_decimal_inj. Qed.

Lemma expected_eta (e e' : ExpectedEvidence) :
  ex_intentId e = ex_intentId e' -> ex_attemptNumber e = ex_attemptNumber e' ->
  ex_walletGeneration e = ex_walletGeneration e' -> ex_providerId e = ex_providerId e' ->
  ex_side e = ex_side e' -> ex_signature e = ex_signature e' -> ex_blockhash e = ex_blockhash e' ->
  ex_lastValidBlockHeight e = ex_lastValidBlockHeight e' -> ex_messageHash e = ex_messageHash e' ->
  ex_buildFingerprint e = ex_buildFingerprint e' -> ex_snapshotFingerprint e = ex_snapshotFingerprint e' ->
  ex_maximumFeeLamports e = ex_maximumFeeLamports e' ->
  ex_maximumFeePayerLamportDebit e = ex_maximumFeePayerLamportDebit e' -> e = e'.
Proof. destruct e, e'. cbn. congruence. Qed.

Lemma evidence_json_inj f g : evidence_json f = evidence_json g -> f = g.
Proof.
  unfold evidence_json. cbv zeta. intros E. injection E.
  intros Er Es Ef Eo Eres Eq Eb Ew Efee Etx Eslot Eh Ec Ehist Edeb Emax Esnap Ebuild Emsg Elast Ebh Esig Eside
    Eprov Egen Eatt Eid.
  apply to_decimal_inj in Eres, Eq, Eb, Ew, Efee, Eh, Edeb, Emax, Elast.
  apply reason_text_inj in Er. apply result_name_inj in Es. apply history_name_inj in Ehist.
  apply confirmation_name_inj in Ec. apply (json_nullable_inj JsonInt) in Ef; [|congruence|done].
  apply (json_nullable_inj JsonStr) in Etx; [|congruence|done].
  apply (json_nullable_inj big) in Eslot; [|exact big_inj|done].
  assert (ex_side (ev_expected f) = ex_side (ev_expected g)) as Eside'
    by (revert Eside; by destruct (ex_side (ev_expected f)), (ex_side (ev_expected g))).
  assert (ev_expected f = ev_expected g) as Ee by (apply expected_eta; assumption).
  clear E Eside Eside' Edeb Emax Esnap Ebuild Emsg Elast Ebh Esig Eprov Egen Eatt Eid.
  destruct f, g. cbn in *. subst. reflexivity.
Qed.

(** Evidence is bound by its identifier.  An evaluated evidence passes the identity check
    that stored evidence is read through, and two records that pass it with one identifier
    agree in every field, results, amounts and limits included, or SHA-256 has a collision. *)
Theorem evidence_identity (v : js) (ev ev' : ExecutionReconciliationEvidenceV1)
    (Hev : evaluateExecutionReconciliation v = Some ev)
    (Hid : assertExecutionReconciliationEvidenceIdentity ev' = Some tt)
    (Heq : ev_evidenceId ev' = ev_evidenceId ev) :
  assertExecutionReconciliationEvidenceIdentity ev = Some tt /\ (ev' = ev \/ sha256_collision).
Proof.
  destruct (evaluate_inv _ _ Hev) as (e & o & _ & ->). split.
  { unfold assertExecutionReconciliationEvidenceIdentity. cbn [ev_fields evidenceFromFields].
    rewrite !bool_decide_eq_true_2 by reflexivity. done. }
  unfold assertExecutionReconciliationEvidenceIdentity in Hid. cbv zeta in Hid.
  destruct (_ || _ || _) eqn:E; [discriminate Hid|].
  rewrite !orb_false_iff, !negb_false_iff, !bool_decide_eq_true, Z.eqb_eq in E. destruct E as [[Ep Ei] Ef].
  set (f := evaluated_fields e o) in *. rewrite Ei in Heq.
  destruct (digest_agree _ _ _ Heq) as [Hj|?]; [|by right]. injection Hj as _ _ Hj.
  destruct (digest_agree EmptyString _ _ Hj) as [Hk|?]; [|by right]. left.
  apply evidence_json_inj in Hk. destruct ev' as [i p g h]. cbn in *. by subst.
Qed.
End Evaluated.

(** * A purchase that settled and a sale that failed *)

Definition sample_expected (s : ExecutionIntentSide) : ExpectedEvidence :=
  {| ex_intentId := "execution_intent_0123456789abcdef0123456789abcdef0123456789abcdef0123456789abcdef";
     ex_attemptNumber := 1; ex_walletGeneration := 3; ex_providerId := "rpc-1"; ex_side := s;
     ex_signature := "1111111111111111111111111111111111111111111111111111111111111111";
     ex_blockhash := "11111111111111111111111111111111"; ex_lastValidBlockHeight := 500;
     ex_messageHash := "0123456789abcdef0123456789abcdef0123456789abcdef0123456789abcdef";
     ex_buildFingerprint := "1123456789abcdef0123456789abcdef0123456789abcdef0123456789abcdef";
     ex_snapshotFingerprint := "2123456789abcdef0123456789abcdef0123456789abcdef0123456789abcdef";
     ex_maximumFeeLamports := 10000; ex_maximumFeePayerLamportDebit := 1000000 |}.
Definition expected_value (e : ExpectedEvidence) (key : string) : js :=
  match key with
  | "intentId" => JString (ex_intentId e)
  | "attemptNumber" => JNumber (NumInt (ex_attemptNumber e))
  | "walletGeneration" => JNumber (NumInt (ex_walletGeneration e))
  | "providerId" => JString (ex_providerId e)
  | "side" => JString (side_name (ex_side e))
  | "signature" => JString (ex_signature e)
  | "blockhash" => JString (ex_blockhash e)
  | "lastValidBlockHeight" => JBigInt (ex_lastValidBlockHeight e)
  | "messageHash" => JString (ex_messageHash e)
  | "buildFingerprint" => JString (ex_buildFingerprint e)
  | "snapshotFingerprint" => JString (ex_snapshotFingerprint e)
  | "maximumFeeLamports" => JBigInt (ex_maximumFeeLamports e)
  | "maximumFeePayerLamportDebit" => JBigInt (ex_maximumFeePayerLamportDebit e)
  | _ => JUndefined
  end.
Definition transaction_value (t : NormalizedTransaction) (key : string) : js :=
  match key with
  | "signature" => JString (nt_signature t)
  | "blockhash" => JString (nt_blockhash t)
  | "messageHash" => JString (nt_messageHash t)
  | "buildFingerprint" => JString (nt_buildFingerprint t)
  | "snapshotFingerprint" => JString (nt_snapshotFingerprint t)
  | _ => JUndefined
  end.
Definition observed_value (o : ObservedEvidence) (key : string) : js :=
  match key with
  | "signatureHistory" => JString (history_name (ob_signatureHistory o))
  | "confirmationStatus" => JString (confirmation_name (ob_confirmationStatus o))
  | "finalizedBlockHeight" => JBigInt (ob_finalizedBlockHeight o)
  | "observedSlot" => nullable_value JBigInt (ob_observedSlot o)
  | "transaction" =>
      nullable_value (fun t => object_of TRANSACTION_KEYS (transaction_value t)) (ob_transaction o)
  | "feeLamports" => JBigInt (ob_feeLamports o)
  | "walletLamportDelta" => JBigInt (ob_walletLamportDelta o)
  | "baseDeltaRaw" => JBigInt (ob_baseDeltaRaw o)
  | "quoteDeltaRaw" => JBigInt (ob_quoteDeltaRaw o)
  | "unexpectedResidualTokenBalanceRaw" => JBigInt (ob_residualRaw o)
  | "observedAtMs" => JNumber (NumInt (ob_observedAtMs o))
  | "finalizedAtMs" => nullable_value (fun z => JNumber (NumInt z)) (ob_finalizedAtMs o)
  | "transactionFailed" => JBool (ob_transactionFailed o)
  | "baseTokenAccountsUnchanged" => JBool (ob_baseTokenAccountsUnchanged o)
  | _ => JUndefined
  end.
(** A final observation of the expected transaction with these amounts. *)
Definition sample_observed (s : ExecutionIntentSide) (fee wallet base quote residual : Z) (failed : bool)
    : ObservedEvidence :=
  {| ob_signatureHistory := SH_PRESENT; ob_confirmationStatus := CS_FINALIZED;
     ob_finalizedBlockHeight := 480; ob_observedSlot := Some 470;
     ob_transaction := Some (expected_transaction (sample_expected s));
     ob_feeLamports := fee; ob_walletLamportDelta := wallet; ob_baseDeltaRaw := base;
     ob_quoteDeltaRaw := quote; ob_residualRaw := residual; ob_observedAtMs := 1000;
     ob_finalizedAtMs := Some 2000; ob_transactionFailed := failed;
     ob_baseTokenAccountsUnchanged := failed |}.
Definition observed_object (o : ObservedEvidence) : js :=
  object_of (OBSERVED_KEYS ++ OPTIONAL_OBSERVED_KEYS) (observed_value o).
Definition expected_object (e : ExpectedEvidence) : js := object_of EXPECTED_KEYS (expected_value e).
Definition reconciliation_input (ve vo : js) : js :=
  object_of ROOT_KEYS (fun k => if String.eqb k "expected" then ve else vo).

(** A purchase that settled. *)
Lemma reconciliation_decides_witness :
  let S : Sha256 := sample_digest in
  let e := sample_expected INTENT_BUY in
  let o := sample_observed INTENT_BUY 5000 (-500000) 1000 (-400000) 0 false in
  exists ev, evaluateExecutionReconciliation (reconciliation_input (expected_object e) (observed_object o)) = Some ev
    /\ ev_fields ev = evaluated_fields e o
    /\ (ev_result (ev_fields ev) = RR_MATCHED <-> settled e o)
    /\ (ev_result (ev_fields ev) = RR_NO_EFFECT <-> failed_sale e o \/ never_landed e o).
Proof. intros S e o. apply reconciliation_decides; vm_compute; reflexivity. Defined.

(** A sale that landed and failed ends an intent in doubt. *)
Definition failed_sale_input : js :=
  reconciliation_input (expected_object (sample_expected INTENT_SELL))
    (observed_object (sample_observed INTENT_SELL 5000 (-5000) 0 0 77 true)).
Definition failed_sale_evidence : ExecutionReconciliationEvidenceV1 :=
  @evidenceFromFields sample_digest (@evaluated_fields sample_digest (sample_expected INTENT_SELL)
    (sample_observed INTENT_SELL 5000 (-5000) 0 0 77 true)).

(** Its evidence, stored and read back. *)
Lemma evidence_identity_witness :
  let S : Sha256 := sample_digest in
  assertExecutionReconciliationEvidenceIdentity failed_sale_evidence = Some tt
  /\ (failed_sale_evidence = failed_sale_evidence \/ sha256_collision).
Proof.
  intros S. apply (evidence_identity failed_sale_input failed_sale_evidence failed_sale_evidence);
    vm_compute; reflexivity.
Defined.
