(* ===== verification/PumpQuote.v ===== *)
(** [src/src/launchpads/pumpfun/causal-quote.ts]: quotes on a Pump.fun bonding curve.

    Four accounts read at one slot (the global state, the fee configuration, the curve and the
    mint) are checked and decoded, and a purchase or a sale is priced on the curve, with the
    sale that would follow a purchase.  The decoders and the amounts after fees come from the
    Pump.fun and token libraries: they are the parameters of [PumpSdk]. *)
From S2P Require Import Prelude Text Types Json PaperMath.
From Stdlib Require Import Ascii String.
Local Open Scope string_scope.
Local Open Scope list_scope.
Local Open Scope Z_scope.

(** * Data *)

(** src/src/launchpads/pumpfun/causal-quote.ts:47-51 (PumpFunCausalQuoteErrorCode) *)
Inductive PumpFunCausalQuoteErrorCode :=
| QUOTE_STATE_UNAVAILABLE | QUOTE_STATE_INCONSISTENT | UNSUPPORTED_QUOTE_MINT
| UNSUPPORTED_TOKEN_EXTENSION.
(** What is thrown inside: an error of this module, or one of a library. *)
Inductive quote_exn := Known (code : PumpFunCausalQuoteErrorCode) | Foreign.

Global Instance quote_code_eq_dec : EqDecision PumpFunCausalQuoteErrorCode.
Proof. solve_decision. Defined.
Global Instance quote_exn_eq_dec : EqDecision quote_exn.
Proof. solve_decision. Defined.

(** src/src/ports/market-rpc-reader.ts:1-7 (ReadonlyAccountSnapshot) *)
Record ReadonlyAccountSnapshot := {
  ac_address : string;
  ac_owner : string;
  ac_data : list Z;
  ac_lamports : Z;
  ac_slot : Z;
}.
(** src/src/ports/paper-quote-router.ts:4-10 (PaperQuoteRequest) *)
Inductive quote_side := QUOTE_BUY | QUOTE_SELL.
Record PaperQuoteRequest := {
  rq_mint : string;
  rq_quoteAsset : QuoteAsset;
  rq_side : quote_side;
  rq_amountInRaw : Z;
  rq_slippageBps : Z;
}.
Global Instance quote_side_eq_dec : EqDecision quote_side.
Proof. solve_decision. Defined.

(** The decoded accounts of the Pump.fun library: the fields this code reads, and the others,
    which it only hands back to the library. *)
Record Global_ (R : Type) := {
  gl_initialized : bool;
  gl_initialVirtualTokenReserves : Z;
  gl_initialVirtualSolReserves : Z;
  gl_initialRealTokenReserves : Z;
  gl_tokenTotalSupply : Z;
  gl_feeBasisPoints : Z;
  gl_creatorFeeBasisPoints : Z;
  gl_initialVirtualQuoteReserves : Z;
  gl_other : R;
}.
Record FeeTier := {
  ft_marketCapLamportsThreshold : Z;
  ft_lpFeeBps : Z;
  ft_protocolFeeBps : Z;
  ft_creatorFeeBps : Z;
}.
Record FeeConfig_ (R : Type) := { fc_feeTiers : list FeeTier; fc_other : R }.
Record BondingCurve_ (R : Type) := {
  cv_virtualTokenReserves : Z;
  cv_virtualQuoteReserves : Z;
  cv_realTokenReserves : Z;
  cv_realQuoteReserves : Z;
  cv_tokenTotalSupply : Z;
  cv_complete : bool;
  cv_quoteMint : string;
  cv_isMayhemMode : bool;
  cv_isCashbackCoin : bool;
  cv_other : R;
}.
Arguments gl_initialized {R}. Arguments gl_initialVirtualTokenReserves {R}.
Arguments gl_initialVirtualSolReserves {R}. Arguments gl_initialRealTokenReserves {R}.
Arguments gl_tokenTotalSupply {R}. Arguments gl_feeBasisPoints {R}.
Arguments gl_creatorFeeBasisPoints {R}. Arguments gl_initialVirtualQuoteReserves {R}.
Arguments fc_feeTiers {R}.
Arguments cv_virtualTokenReserves {R}. Arguments cv_virtualQuoteReserves {R}.
Arguments cv_realTokenReserves {R}. Arguments cv_realQuoteReserves {R}.
Arguments cv_tokenTotalSupply {R}. Arguments cv_complete {R}. Arguments cv_quoteMint {R}.
Arguments cv_isMayhemMode {R}. Arguments cv_isCashbackCoin {R}. Arguments cv_other {R}.

(** A mint as the token library unpacks it, and its extensions. *)
Inductive ExtensionType :=
| MintCloseAuthority | MetadataPointer | TokenMetadata | GroupPointer | TokenGroup
| GroupMemberPointer | TokenGroupMember | OtherExtension (n : Z).
Global Instance ExtensionType_eq_dec : EqDecision ExtensionType.
Proof. solve_decision. Defined.
Record unpacked_mint := {
  um_isInitialized : bool;
  um_supply : Z;
  um_decimals : Z;
  um_tlvData : list Z;
}.

(** The libraries: public keys, decoders and the amounts after fees; [None] is a throw. *)
Class PumpSdk := {
  other_global : Type;
  other_fees : Type;
  other_curve : Type;
  PUMP_PROGRAM_ID : string;
  PUMP_FEE_PROGRAM_ADDRESS : string;
  WSOL_MINT : string;
  SPL_TOKEN_PROGRAM_ID : string;
  TOKEN_2022_PROGRAM_ADDRESS : string;
  GLOBAL_PDA : string;
  PUMP_FEE_CONFIG_PDA : string;
  newPublicKey : string -> option string;
  bondingCurvePda : string -> string;
  decodeGlobal : ReadonlyAccountSnapshot -> option (Global_ other_global);
  decodeFeeConfig : ReadonlyAccountSnapshot -> option (FeeConfig_ other_fees);
  decodeBondingCurve : ReadonlyAccountSnapshot -> option (BondingCurve_ other_curve);
  unpackMint : ReadonlyAccountSnapshot -> TokenProgramKind -> option unpacked_mint;
  getExtensionTypes : list Z -> option (list ExtensionType);
  getBuyTokenAmountFromSolAmount :
    Global_ other_global -> FeeConfig_ other_fees -> Z -> BondingCurve_ other_curve -> Z -> string -> option Z;
  getBuySolAmountFromTokenAmount :
    Global_ other_global -> FeeConfig_ other_fees -> Z -> BondingCurve_ other_curve -> Z -> string -> option Z;
  getSellSolAmountFromTokenAmount :
    Global_ other_global -> FeeConfig_ other_fees -> Z -> BondingCurve_ other_curve -> Z -> option Z;
}.

(** src/src/launchpads/pumpfun/causal-quote.ts:63-67 (PumpFunReverseSellQuote) *)
Record PumpFunReverseSellQuote := {
  rs_amountInRaw : Z;
  rs_amountOutRaw : Z;
  rs_feesRaw : Z;
}.
(** src/src/launchpads/pumpfun/causal-quote.ts:69-85 (PumpFunCausalQuoteComputation) *)
Record PumpFunCausalQuoteComputation := {
  pc_quote : PaperExecutionQuote;
  pc_snapshotSlot : Z;
  pc_normalizedQuoteMint : string;
  pc_baseTokenProgram : TokenProgramKind;
  pc_baseDecimals : Z;
  pc_mintSupplyRaw : Z;
  pc_virtualTokenReservesRaw : Z;
  pc_virtualQuoteReservesRaw : Z;
  pc_realTokenReservesRaw : Z;
  pc_realQuoteReservesRaw : Z;
  pc_isMayhemMode : bool;
  pc_isCashbackCoin : bool;
  pc_reverseSellQuote : option PumpFunReverseSellQuote;
}.
(** src/src/launchpads/pumpfun/causal-quote.ts:87-92 (ComputePumpFunCausalQuoteInput) *)
Record ComputePumpFunCausalQuoteInput := {
  ci_request : PaperQuoteRequest;
  ci_addresses : string * string * string * string;
  ci_accounts : list (option ReadonlyAccountSnapshot);
  ci_observedAtMs : Z;
}.

(** src/src/launchpads/pumpfun/causal-quote.ts:35-45 (BASIS_POINTS, ALLOWED_TOKEN_2022_MINT_EXTENSIONS) *)
Definition BASIS_POINTS : Z := 10000.
Definition ALLOWED_TOKEN_2022_MINT_EXTENSIONS : list ExtensionType :=
  [MintCloseAuthority; MetadataPointer; TokenMetadata; GroupPointer; TokenGroup;
   GroupMemberPointer; TokenGroupMember].
(** src/src/launchpads/pumpfun/constants.ts:15-16 (DEFAULT_PUBLIC_KEY) *)
Definition DEFAULT_PUBLIC_KEY : string := "11111111111111111111111111111111".

(** * Checks *)

(** src/src/launchpads/pumpfun/causal-quote.ts:477-486 (unsupportedQuote, inconsistent) *)
Definition unsupportedQuote {A} : result quote_exn A := Err (Known UNSUPPORTED_QUOTE_MINT).
Definition inconsistent {A} : result quote_exn A := Err (Known QUOTE_STATE_INCONSISTENT).

(** [if (b) inconsistent(...)], and the call of a library that may throw. *)
Definition inconsistent_if (b : bool) : result quote_exn unit := if b then inconsistent else Ok tt.
Definition unsupported_if (b : bool) : result quote_exn unit := if b then unsupportedQuote else Ok tt.
Definition library {A} (o : option A) : result quote_exn A :=
  match o with Some a => Ok a | None => Err Foreign end.

(** src/src/launchpads/pumpfun/causal-quote.ts:464-470 (toBigint): the decimal text of a
    negative number does not match. *)
Definition toBigint (value : Z) : result quote_exn Z :=
  inconsistent_if (value <? 0) ;; inconsistent_if (U64_MAX <? value) ;; Ok value.

(** src/src/launchpads/pumpfun/causal-quote.ts:472-475 (ceilDiv) *)
Definition ceilDiv (numerator denominator : Z) : result quote_exn Z :=
  inconsistent_if ((numerator <? 0) || (denominator <=? 0)) ;;
  Ok (if numerator =? 0 then 0 else Z.quot (numerator + denominator - 1) denominator).

(** src/src/launchpads/pumpfun/causal-quote.ts:386-401 (validateFeeConfig): the tiers from one
    on; [previous] is the threshold before it. *)
Fixpoint check_tiers (previous : option Z) (tiers : list FeeTier) : result quote_exn unit :=
  match tiers with
  | [] => Ok tt
  | tier :: rest =>
      threshold ← toBigint (ft_marketCapLamportsThreshold tier);
      inconsistent_if (match previous with Some p => threshold <=? p | None => false end) ;;
      for_each (fun fee => f ← toBigint fee; inconsistent_if (BASIS_POINTS <? f))
        [ft_lpFeeBps tier; ft_protocolFeeBps tier; ft_creatorFeeBps tier] ;;
      check_tiers (Some threshold) rest
  end.
(** src/src/launchpads/pumpfun/causal-quote.ts:386-401 (validateFeeConfig) *)
Definition validateFeeConfig {R} (feeConfig : FeeConfig_ R) : result quote_exn unit :=
  inconsistent_if (Nat.eqb (List.length (fc_feeTiers feeConfig)) 0
                   || Nat.ltb 256 (List.length (fc_feeTiers feeConfig))) ;;
  check_tiers None (fc_feeTiers feeConfig).

(** src/src/launchpads/pumpfun/causal-quote.ts:403-420 (priceImpact) *)
Definition priceImpact (side : quote_side)
    (amountInRaw amountOutRaw virtualTokenReservesRaw virtualQuoteReservesRaw : Z) : result quote_exn Z :=
  let spotNumerator := match side with
                       | QUOTE_BUY => amountInRaw * virtualTokenReservesRaw
                       | QUOTE_SELL => amountInRaw * virtualQuoteReservesRaw
                       end in
  let spotDenominator := match side with
                         | QUOTE_BUY => virtualQuoteReservesRaw
                         | QUOTE_SELL => virtualTokenReservesRaw
                         end in
  let candidate := spotNumerator - amountOutRaw * spotDenominator in
  let lost := if 0 <? candidate then candidate else 0 in
  impact ← ceilDiv (lost * BASIS_POINTS) spotNumerator;
  Ok (if BASIS_POINTS <? impact then BASIS_POINTS else impact).

(** src/src/launchpads/pumpfun/causal-quote.ts:422-433 (required) *)
Definition required (accounts : list (option ReadonlyAccountSnapshot)) (i : nat) (address : string)
    : result quote_exn ReadonlyAccountSnapshot :=
  match accounts !! i with
  | Some (Some account) =>
      if bool_decide (ac_address account = address) then Ok account
      else Err (Known QUOTE_STATE_UNAVAILABLE)
  | _ => Err (Known QUOTE_STATE_UNAVAILABLE)
  end.
(** src/src/launchpads/pumpfun/causal-quote.ts:435-437 (owner) *)
Definition owner (account : ReadonlyAccountSnapshot) (expected : string) : result quote_exn unit :=
  inconsistent_if (negb (bool_decide (ac_owner account = expected))).

Section Quotes.
Context `{PumpSdk}.
Abbreviation Global := (Global_ other_global).
Abbreviation FeeConfig := (FeeConfig_ other_fees).
Abbreviation BondingCurve := (BondingCurve_ other_curve).

(** src/src/launchpads/pumpfun/causal-quote.ts:452-458 (publicKey) *)
Definition publicKey (value : string) : result quote_exn string :=
  match newPublicKey value with Some k => Ok k | None => inconsistent end.
(** src/src/launchpads/pumpfun/causal-quote.ts:439-450 (accountInfo): the checks it makes; the
    account itself is what the decoders are given. *)
Definition accountInfo (snapshot : ReadonlyAccountSnapshot) : result quote_exn ReadonlyAccountSnapshot :=
  inconsistent_if ((ac_lamports snapshot <? 0) || (MAX_SAFE_INTEGER <? ac_lamports snapshot)) ;;
  library (newPublicKey (ac_owner snapshot)) ;; Ok snapshot.

(** src/src/launchpads/pumpfun/causal-quote.ts:94-104 (pumpFunQuoteAccountAddresses) *)
Definition pumpFunQuoteAccountAddresses (mint : string)
    : result quote_exn (string * string * string * string) :=
  mintKey ← publicKey mint;
  Ok (GLOBAL_PDA, PUMP_FEE_CONFIG_PDA, bondingCurvePda mintKey, mintKey).

(** src/src/launchpads/pumpfun/causal-quote.ts:327-345 (validateRequest) *)
Definition validateRequest (request : PaperQuoteRequest) (observedAtMs : Z) : result quote_exn unit :=
  let asset := rq_quoteAsset request in
  publicKey (rq_mint request) ;;
  publicKey (qa_mint asset) ;;
  unsupported_if (bool_decide (qa_mint asset = WSOL_MINT)
                  && negb (bool_decide (qa_tokenProgram asset = SPL_TOKEN))) ;;
  unsupported_if (negb (is_safe_integer (qa_decimals asset)) || (qa_decimals asset <? 0)
                  || (18 <? qa_decimals asset)) ;;
  inconsistent_if ((rq_amountInRaw request <=? 0) || (U64_MAX <? rq_amountInRaw request)) ;;
  inconsistent_if ((rq_slippageBps request <? 0) || (BASIS_POINTS <? rq_slippageBps request)) ;;
  inconsistent_if (negb (is_safe_integer observedAtMs) || (observedAtMs <? 0)).

(** src/src/launchpads/pumpfun/causal-quote.ts:347-384 (validateState) *)
Definition validateState (request : PaperQuoteRequest) (global : Global) (feeConfig : FeeConfig)
    (curve : BondingCurve) (mintSupply : Z) : result quote_exn unit :=
  let quoteMint := qa_mint (rq_quoteAsset request) in
  inconsistent_if (negb (gl_initialized global)) ;;
  inconsistent_if (cv_complete curve) ;;
  let legacySolCurve := bool_decide (cv_quoteMint curve = DEFAULT_PUBLIC_KEY)
                        && bool_decide (quoteMint = WSOL_MINT) in
  unsupported_if (negb legacySolCurve && negb (bool_decide (cv_quoteMint curve = quoteMint))) ;;
  for_each (fun value => toBigint value ;; Ok tt)
    [gl_initialVirtualTokenReserves global; gl_initialVirtualSolReserves global;
     gl_initialRealTokenReserves global; gl_tokenTotalSupply global; gl_feeBasisPoints global;
     gl_creatorFeeBasisPoints global; gl_initialVirtualQuoteReserves global;
     cv_virtualTokenReserves curve; cv_virtualQuoteReserves curve; cv_realTokenReserves curve;
     cv_realQuoteReserves curve; cv_tokenTotalSupply curve; mintSupply] ;;
  inconsistent_if ((cv_virtualTokenReserves curve <=? 0) || (cv_virtualQuoteReserves curve <=? 0)
                   || (cv_realTokenReserves curve <=? 0) || (mintSupply <=? 0)
                   || negb (cv_tokenTotalSupply curve =? mintSupply)) ;;
  validateFeeConfig feeConfig.

(** src/src/launchpads/pumpfun/causal-quote.ts:292-325 (decodeMint) *)
Definition decodeMint (account : ReadonlyAccountSnapshot) : result quote_exn (Z * Z * TokenProgramKind) :=
  program ← (if bool_decide (ac_owner account = SPL_TOKEN_PROGRAM_ID) then Ok SPL_TOKEN
             else if bool_decide (ac_owner account = TOKEN_2022_PROGRAM_ADDRESS) then Ok TOKEN_2022
             else inconsistent);
  mint ← try_catch (library (newPublicKey (ac_address account)) ;;
                    info ← accountInfo account;
                    library (unpackMint info program))
           (fun _ => inconsistent);
  inconsistent_if (negb (um_isInitialized mint) || (U64_MAX <? um_supply mint)) ;;
  extensions ← library (getExtensionTypes (um_tlvData mint));
  for_each (fun extension =>
      if includes extension ALLOWED_TOKEN_2022_MINT_EXTENSIONS then Ok tt
      else Err (Known UNSUPPORTED_TOKEN_EXTENSION)) extensions ;;
  Ok (um_supply mint, um_decimals mint, program).

(** * Prices *)

(** src/src/launchpads/pumpfun/causal-quote.ts:204-231 (buy): what leaves the curve and the fees. *)
Definition buy (global : Global) (feeConfig : FeeConfig) (curve : BondingCurve) (mintSupply amount : Z)
    (quoteMint : string) : result quote_exn (Z * Z) :=
  amountOut ← library (getBuyTokenAmountFromSolAmount global feeConfig mintSupply curve amount quoteMint);
  totalCost ← library (getBuySolAmountFromTokenAmount global feeConfig mintSupply curve amountOut quoteMint);
  inconsistent_if (amount <? totalCost) ;;
  inconsistent_if (cv_virtualTokenReserves curve <=? amountOut) ;;
  let grossReserveChange :=
    Z.quot (amountOut * cv_virtualQuoteReserves curve) (cv_virtualTokenReserves curve - amountOut) + 1 in
  inconsistent_if (totalCost <? grossReserveChange) ;;
  out ← toBigint amountOut;
  fees ← toBigint (totalCost - grossReserveChange);
  Ok (out, fees).

(** src/src/launchpads/pumpfun/causal-quote.ts:233-254 (sell) *)
Definition sell (global : Global) (feeConfig : FeeConfig) (curve : BondingCurve) (mintSupply amount : Z)
    : result quote_exn (Z * Z) :=
  let grossReserveChange :=
    Z.quot (amount * cv_virtualQuoteReserves curve) (cv_virtualTokenReserves curve + amount) in
  inconsistent_if (cv_realQuoteReserves curve <? grossReserveChange) ;;
  amountOut ← library (getSellSolAmountFromTokenAmount global feeConfig mintSupply curve amount);
  inconsistent_if (grossReserveChange <? amountOut) ;;
  out ← toBigint amountOut;
  fees ← toBigint (grossReserveChange - amountOut);
  Ok (out, fees).

(** src/src/launchpads/pumpfun/causal-quote.ts:267-277 (reverseSell): the curve after the purchase. *)
Definition buy_gross (curve : BondingCurve) (amount : Z) : Z :=
  Z.quot (amount * cv_virtualQuoteReserves curve) (cv_virtualTokenReserves curve - amount) + 1.
Definition postBuyCurve (curve : BondingCurve) (amount : Z) : BondingCurve :=
  {| cv_virtualTokenReserves := cv_virtualTokenReserves curve - amount;
     cv_virtualQuoteReserves := cv_virtualQuoteReserves curve + buy_gross curve amount;
     cv_realTokenReserves := cv_realTokenReserves curve - amount;
     cv_realQuoteReserves := cv_realQuoteReserves curve + buy_gross curve amount;
     cv_tokenTotalSupply := cv_tokenTotalSupply curve; cv_complete := cv_complete curve;
     cv_quoteMint := cv_quoteMint curve; cv_isMayhemMode := cv_isMayhemMode curve;
     cv_isCashbackCoin := cv_isCashbackCoin curve; cv_other := cv_other curve |}.
(** src/src/launchpads/pumpfun/causal-quote.ts:256-290 (reverseSell) *)
Definition reverseSell (global : Global) (feeConfig : FeeConfig) (curve : BondingCurve)
    (mintSupply amount : Z) : result quote_exn (option PumpFunReverseSellQuote) :=
  if (cv_virtualTokenReserves curve <=? amount) || (cv_realTokenReserves curve <? amount) then Ok None
  else
    let post := postBuyCurve curve amount in
    for_each (fun value => toBigint value ;; Ok tt)
      [cv_virtualTokenReserves post; cv_virtualQuoteReserves post; cv_realTokenReserves post;
       cv_realQuoteReserves post] ;;
    let reverseGross :=
      Z.quot (amount * cv_virtualQuoteReserves post) (cv_virtualTokenReserves post + amount) in
    if cv_realQuoteReserves post <? reverseGross then Ok None
    else
      r ← sell global feeConfig post mintSupply amount;
      Ok (Some {| rs_amountInRaw := amount; rs_amountOutRaw := fst r; rs_feesRaw := snd r |}).

(** * The quote *)

Context `{Sha256}.

(** The mints a side exchanges. *)
Definition inputMint (request : PaperQuoteRequest) : string :=
  match rq_side request with
  | QUOTE_BUY => qa_mint (rq_quoteAsset request)
  | QUOTE_SELL => rq_mint request
  end.
Definition outputMint (request : PaperQuoteRequest) : string :=
  match rq_side request with
  | QUOTE_BUY => rq_mint request
  | QUOTE_SELL => qa_mint (rq_quoteAsset request)
  end.
(** src/src/launchpads/pumpfun/causal-quote.ts:153-164 (computePumpFunCausalQuoteUnchecked): the
    identifier of the quote. *)
Definition quote_identity (request : PaperQuoteRequest) (addresses : string * string * string * string)
    (observedSlot : Z) : string :=
  match addresses with
  | (a0, a1, a2, a3) =>
    "quote_" +:+ sha256_hex (stringify (JsonArr
      [JsonStr "PUMP_FUN_BONDING_CURVE"; JsonStr a0; JsonStr a1; JsonStr a2; JsonStr a3;
       JsonStr (to_decimal observedSlot); JsonStr (inputMint request); JsonStr (outputMint request);
       JsonStr (to_decimal (rq_amountInRaw request)); JsonStr (to_decimal (rq_slippageBps request));
       JsonStr (match rq_side request with QUOTE_BUY => "BUY" | QUOTE_SELL => "SELL" end)]))
  end.

(** src/src/launchpads/pumpfun/causal-quote.ts:123-141 (computePumpFunCausalQuoteUnchecked): the
    accounts, checked and decoded. *)
Record quote_state := {
  qs_slot : Z;
  qs_global : Global;
  qs_feeConfig : FeeConfig;
  qs_curve : BondingCurve;
  qs_supply : Z;
  qs_decimals : Z;
  qs_program : TokenProgramKind;
}.
Definition read_state (input : ComputePumpFunCausalQuoteInput) : result quote_exn quote_state :=
  match ci_addresses input with
  | (a0, a1, a2, a3) =>
    let request := ci_request input in
    let accounts := ci_accounts input in
    validateRequest request (ci_observedAtMs input) ;;
    globalAccount ← required accounts 0 a0;
    feeConfigAccount ← required accounts 1 a1;
    curveAccount ← required accounts 2 a2;
    mintAccount ← required accounts 3 a3;
    inconsistent_if (existsb (fun account => negb (ac_slot account =? ac_slot globalAccount))
                       [globalAccount; feeConfigAccount; curveAccount; mintAccount]) ;;
    owner globalAccount PUMP_PROGRAM_ID ;;
    owner feeConfigAccount PUMP_FEE_PROGRAM_ADDRESS ;;
    owner curveAccount PUMP_PROGRAM_ID ;;
    global ← (info ← accountInfo globalAccount; library (decodeGlobal info));
    feeConfig ← (info ← accountInfo feeConfigAccount; library (decodeFeeConfig info));
    curve ← (info ← accountInfo curveAccount; library (decodeBondingCurve info));
    mint ← decodeMint mintAccount;
    let '(supply, decimals, program) := mint in
    validateState request global feeConfig curve supply ;;
    Ok {| qs_slot := ac_slot globalAccount; qs_global := global; qs_feeConfig := feeConfig;
          qs_curve := curve; qs_supply := supply; qs_decimals := decimals; qs_program := program |}
  end.

(** src/src/launchpads/pumpfun/causal-quote.ts:143-146 (computePumpFunCausalQuoteUnchecked): the
    price of the requested side. *)
Definition priced (request : PaperQuoteRequest) (s : quote_state) : result quote_exn (Z * Z) :=
  match rq_side request with
  | QUOTE_BUY =>
      key ← library (newPublicKey (qa_mint (rq_quoteAsset request)));
      buy (qs_global s) (qs_feeConfig s) (qs_curve s) (qs_supply s) (rq_amountInRaw request) key
  | QUOTE_SELL => sell (qs_global s) (qs_feeConfig s) (qs_curve s) (qs_supply s) (rq_amountInRaw request)
  end.
(** src/src/launchpads/pumpfun/causal-quote.ts:120-202 (computePumpFunCausalQuoteUnchecked) *)
Definition computePumpFunCausalQuoteUnchecked (input : ComputePumpFunCausalQuoteInput)
    : result quote_exn PumpFunCausalQuoteComputation :=
  let request := ci_request input in
  s ← read_state input;
  let curve := qs_curve s in
  r ← priced request s;
  let '(amountOut, fees) := r in
  inconsistent_if (amountOut <=? 0) ;;
  let minimumAmountOut := Z.quot (amountOut * (BASIS_POINTS - rq_slippageBps request)) BASIS_POINTS in
  vt ← toBigint (cv_virtualTokenReserves curve);
  vq ← toBigint (cv_virtualQuoteReserves curve);
  impact ← priceImpact (rq_side request) (rq_amountInRaw request) amountOut vt vq;
  mintSupplyRaw ← toBigint (qs_supply s);
  rt ← toBigint (cv_realTokenReserves curve);
  rq ← toBigint (cv_realQuoteReserves curve);
  reverse ← match rq_side request with
            | QUOTE_BUY => reverseSell (qs_global s) (qs_feeConfig s) curve (qs_supply s) amountOut
            | QUOTE_SELL => Ok None
            end;
  Ok {| pc_quote :=
          {| q_id := quote_identity request (ci_addresses input) (qs_slot s);
             q_inputMint := inputMint request; q_outputMint := outputMint request;
             q_amountInRaw := rq_amountInRaw request; q_amountOutRaw := amountOut;
             q_minimumAmountOutRaw := minimumAmountOut; q_feesRaw := fees;
             q_slippageBps := rq_slippageBps request; q_priceImpactBps := impact;
             q_observedAtMs := ci_observedAtMs input; q_observedSlot := qs_slot s |};
        pc_snapshotSlot := qs_slot s;
        pc_normalizedQuoteMint :=
          if bool_decide (cv_quoteMint curve = DEFAULT_PUBLIC_KEY) then WSOL_MINT else cv_quoteMint curve;
        pc_baseTokenProgram := qs_program s; pc_baseDecimals := qs_decimals s;
        pc_mintSupplyRaw := mintSupplyRaw; pc_virtualTokenReservesRaw := vt;
        pc_virtualQuoteReservesRaw := vq; pc_realTokenReservesRaw := rt;
        pc_realQuoteReservesRaw := rq; pc_isMayhemMode := cv_isMayhemMode curve;
        pc_isCashbackCoin := cv_isCashbackCoin curve; pc_reverseSellQuote := reverse |}.

(** src/src/launchpads/pumpfun/causal-quote.ts:106-118 (computePumpFunCausalQuote) *)
Definition computePumpFunCausalQuote (input : ComputePumpFunCausalQuoteInput)
    : result PumpFunCausalQuoteErrorCode PumpFunCausalQuoteComputation :=
  try_catch (computePumpFunCausalQuoteUnchecked input)
    (fun error => match error with
                  | Known code => Err code
                  | Foreign => Err QUOTE_STATE_INCONSISTENT
                  end).
End Quotes.

(** * Lemmas: the checks *)

Lemma inconsistent_if_Ok b u : inconsistent_if b = Ok u <-> b = false.
Proof. destruct b, u; cbn; naive_solver. Qed.
Lemma unsupported_if_Ok b u : unsupported_if b = Ok u <-> b = false.
Proof. destruct b, u; cbn; naive_solver. Qed.
Lemma toBigint_Ok z z' : toBigint z = Ok z' <-> z' = z /\ 0 <= z <= U64_MAX.
Proof.
  unfold toBigint, inconsistent_if. destruct (Z.ltb_spec z 0); cbn; [split; [done|lia]|].
  destruct (Z.ltb_spec U64_MAX z); cbn; split; try done; try lia; [intros [= ->]|intros [-> _]]; done || lia.
Qed.
Lemma ceilDiv_Ok n d q : ceilDiv n d = Ok q ->
  0 <= n /\ 0 < d /\ n <= d * q < n + d.
Proof.
  unfold ceilDiv. intros H. apply bind_Ok in H as (? & H%inconsistent_if_Ok & E).
  rewrite orb_false_iff, Z.ltb_ge, Z.leb_gt in H. injection E as <-.
  destruct (Z.eqb_spec n 0) as [->|]; [lia|]. pose proof (quot_ceil_bounds n d). lia.
Qed.

(** The impact is the smallest number of basis points that covers the loss to the spot price. *)
Lemma priceImpact_Ok side i o vt vq x : priceImpact side i o vt vq = Ok x ->
  let '(num, den) := match side with QUOTE_BUY => (i * vt, vq) | QUOTE_SELL => (i * vq, vt) end in
  0 < num /\ 0 <= x
  /\ (0 <= o * den -> x <= BASIS_POINTS
      /\ (num - o * den) * BASIS_POINTS <= num * x
      /\ (0 < x -> num * (x - 1) < (num - o * den) * BASIS_POINTS)).
Proof.
  unfold priceImpact. cbv zeta. intros H. apply bind_Ok in H as (q & Hq & E). injection E as <-.
  apply ceilDiv_Ok in Hq as (Hn & Hd & Hq). unfold BASIS_POINTS in *.
  destruct side.
  all: set (num := i * _) in *; set (l := o * _) in *; split; [lia|].
  all: destruct (Z.ltb_spec 0 (num - l)); destruct (Z.ltb_spec 10000 q); (split; [nia|]); intros Ho; nia.
Qed.

(** A curve that can be priced. *)
Record curve_ok {R} (curve : BondingCurve_ R) : Prop := {
  co_vt : 0 < cv_virtualTokenReserves curve <= U64_MAX;
  co_vq : 0 < cv_virtualQuoteReserves curve <= U64_MAX;
  co_rt : 0 < cv_realTokenReserves curve <= U64_MAX;
  co_rq : 0 <= cv_realQuoteReserves curve <= U64_MAX;
}.

Section Properties.
Context `{PumpSdk}.
Context `{Sha256}.
Abbreviation Global := (Global_ other_global).
Abbreviation FeeConfig := (FeeConfig_ other_fees).
Abbreviation BondingCurve := (BondingCurve_ other_curve).

Lemma library_Ok {A} (o : option A) a : library o = Ok a <-> o = Some a.
Proof. destruct o; cbn; naive_solver. Qed.

Lemma validateRequest_Ok request at_ u : validateRequest request at_ = Ok u ->
  0 < rq_amountInRaw request <= U64_MAX /\ 0 <= rq_slippageBps request <= BASIS_POINTS
  /\ 0 <= qa_decimals (rq_quoteAsset request) <= 18 /\ 0 <= at_ <= MAX_SAFE_INTEGER.
Proof.
  unfold validateRequest. cbv zeta. intros H1. result_inv.
  repeat match goal with
  | H : inconsistent_if _ = Ok _ |- _ => apply inconsistent_if_Ok in H
  | H : unsupported_if _ = Ok _ |- _ => apply unsupported_if_Ok in H
  end. bool_prop. lia.
Qed.

Lemma validateState_Ok request g f c supply u : validateState request g f c supply = Ok u ->
  curve_ok c /\ 0 < supply <= U64_MAX /\ cv_complete c = false
  /\ (cv_quoteMint c = qa_mint (rq_quoteAsset request)
      \/ cv_quoteMint c = DEFAULT_PUBLIC_KEY /\ qa_mint (rq_quoteAsset request) = WSOL_MINT).
Proof.
  unfold validateState. cbv zeta. intros H1.
  apply bind_Ok in H1 as (_ & _ & H1). apply bind_Ok in H1 as (? & Hc%inconsistent_if_Ok & H1).
  apply bind_Ok in H1 as (? & Hm%unsupported_if_Ok & H1). apply bind_Ok in H1 as (? & Hv & H1).
  apply bind_Ok in H1 as (? & Hp%inconsistent_if_Ok & _).
  apply for_each_Ok in Hv. rewrite !Forall_cons in Hv.
  destruct Hv as (_ & _ & _ & _ & _ & _ & _ & V1 & V2 & V3 & V4 & _ & V5 & _).
  apply bind_Ok in V1 as (? & [_ V1]%toBigint_Ok & _), V2 as (? & [_ V2]%toBigint_Ok & _),
    V3 as (? & [_ V3]%toBigint_Ok & _), V4 as (? & [_ V4]%toBigint_Ok & _), V5 as (? & [_ V5]%toBigint_Ok & _).
  bool_prop. split; [split; lia|]. split; [lia|]. split; [done|].
  destruct (bool_decide_reflect (cv_quoteMint c = qa_mint (rq_quoteAsset request))); [by left|right].
  cbn [negb] in Hm. rewrite andb_true_r in Hm. bool_prop. done.
Qed.

Lemma buy_Ok g f c supply amount k out fees : curve_ok c -> buy g f c supply amount k = Ok (out, fees) ->
  0 <= out <= U64_MAX /\ out < cv_virtualTokenReserves c /\ 0 <= fees <= U64_MAX
  /\ buy_gross c out + fees <= amount.
Proof.
  intros [Hvt Hvq _ _]. unfold buy. cbv zeta. intros E. result_inv.
  repeat match goal with
  | H : inconsistent_if _ = Ok _ |- _ => apply inconsistent_if_Ok in H
  | H : toBigint _ = Ok _ |- _ => apply toBigint_Ok in H as [? ?]
  end. subst. bool_prop. unfold buy_gross. lia.
Qed.

Lemma sell_Ok g f c supply amount out fees : sell g f c supply amount = Ok (out, fees) ->
  0 <= out <= U64_MAX /\ 0 <= fees <= U64_MAX
  /\ out + fees = Z.quot (amount * cv_virtualQuoteReserves c) (cv_virtualTokenReserves c + amount)
  /\ out + fees <= cv_realQuoteReserves c.
Proof.
  unfold sell. cbv zeta. intros E. result_inv.
  repeat match goal with
  | H : inconsistent_if _ = Ok _ |- _ => apply inconsistent_if_Ok in H
  | H : toBigint _ = Ok _ |- _ => apply toBigint_Ok in H as [? ?]
  end. subst. bool_prop. lia.
Qed.

(** Selling straight back what was bought returns at most what the purchase put in. *)
Lemma reverse_gross_le c amount : curve_ok c -> 0 <= amount < cv_virtualTokenReserves c ->
  let post := postBuyCurve c amount in
  0 <= Z.quot (amount * cv_virtualQuoteReserves post) (cv_virtualTokenReserves post + amount) <= buy_gross c amount.
Proof.
  intros [Hvt Hvq _ _] Ha. cbn. unfold buy_gross.
  set (vt := cv_virtualTokenReserves c) in *. set (vq := cv_virtualQuoteReserves c) in *.
  pose proof (quot_nonneg_bounds (amount * vq) (vt - amount)) as B. set (g := Z.quot _ (vt - amount)) in *.
  assert (0 <= g) by (apply quot_nonneg; nia).
  replace (vt - amount + amount) with vt by lia.
  pose proof (quot_nonneg_bounds (amount * (vq + (g + 1))) vt) as B'. set (r := Z.quot _ vt) in *.
  split; [apply quot_nonneg; nia|nia].
Qed.

Lemma reverseSell_Ok g f c supply amount r : curve_ok c -> 0 <= amount < cv_virtualTokenReserves c ->
  reverseSell g f c supply amount = Ok r ->
  match r with
  | None => cv_realTokenReserves c < amount
  | Some q => amount <= cv_realTokenReserves c /\ rs_amountInRaw q = amount
      /\ 0 <= rs_amountOutRaw q <= U64_MAX /\ 0 <= rs_feesRaw q <= U64_MAX
      /\ rs_amountOutRaw q + rs_feesRaw q <= buy_gross c amount
  end.
Proof.
  intros Hc Ha. pose proof (reverse_gross_le c amount Hc Ha) as Hg. destruct Hc as [Hvt Hvq Hrt Hrq].
  unfold reverseSell. cbv zeta in *. intros E.
  destruct (_ || _) eqn:E1.
  { injection E as <-. apply orb_true_iff in E1 as [E1|E1]; bool_prop; lia. }
  bool_prop. apply bind_Ok in E as (_ & _ & E).
  destruct (Z.ltb_spec (cv_realQuoteReserves (postBuyCurve c amount))
    (Z.quot (amount * cv_virtualQuoteReserves (postBuyCurve c amount))
            (cv_virtualTokenReserves (postBuyCurve c amount) + amount))).
  { cbn [cv_realQuoteReserves postBuyCurve] in *. lia. }
  apply bind_Ok in E as ([out fees] & Es & E). injection E as <-. cbn [rs_amountInRaw rs_amountOutRaw rs_feesRaw fst snd].
  apply sell_Ok in Es. lia.
Qed.

Lemma read_state_Ok input s : read_state input = Ok s ->
  validateRequest (ci_request input) (ci_observedAtMs input) = Ok tt
  /\ validateState (ci_request input) (qs_global s) (qs_feeConfig s) (qs_curve s) (qs_supply s) = Ok tt.
Proof.
  unfold read_state. destruct (ci_addresses input) as [[[a0 a1] a2] a3]. cbv zeta. intros E.
  repeat match type of E with (_ ≫= _) = _ => apply bind_Ok in E as (? & ? & E) end.
  repeat match goal with x : _ * _ |- _ => destruct x end.
  repeat match type of E with (_ ≫= _) = _ => apply bind_Ok in E as (? & ? & E) end.
  injection E as <-. repeat match goal with u : unit |- _ => destruct u end. done.
Qed.

(** A quote, taken apart. *)
Lemma compute_inv input q : computePumpFunCausalQuote input = Ok q ->
  exists s, read_state input = Ok s /\ curve_ok (qs_curve s)
    /\ 0 < rq_amountInRaw (ci_request input) <= U64_MAX
    /\ 0 <= rq_slippageBps (ci_request input) <= BASIS_POINTS
    /\ priced (ci_request input) s = Ok (q_amountOutRaw (pc_quote q), q_feesRaw (pc_quote q))
    /\ 0 < q_amountOutRaw (pc_quote q)
    /\ q_minimumAmountOutRaw (pc_quote q)
       = Z.quot (q_amountOutRaw (pc_quote q) * (BASIS_POINTS - rq_slippageBps (ci_request input))) BASIS_POINTS
    /\ priceImpact (rq_side (ci_request input)) (rq_amountInRaw (ci_request input)) (q_amountOutRaw (pc_quote q))
         (cv_virtualTokenReserves (qs_curve s)) (cv_virtualQuoteReserves (qs_curve s))
       = Ok (q_priceImpactBps (pc_quote q))
    /\ (rq_side (ci_request input) = QUOTE_BUY ->
        reverseSell (qs_global s) (qs_feeConfig s) (qs_curve s) (qs_supply s) (q_amountOutRaw (pc_quote q))
        = Ok (pc_reverseSellQuote q))
    /\ pc_realTokenReservesRaw q = cv_realTokenReserves (qs_curve s)
    /\ pc_realQuoteReservesRaw q = cv_realQuoteReserves (qs_curve s)
    /\ pc_virtualTokenReservesRaw q = cv_virtualTokenReserves (qs_curve s)
    /\ pc_virtualQuoteReservesRaw q = cv_virtualQuoteReserves (qs_curve s).
Proof.
  unfold computePumpFunCausalQuote. destruct (computePumpFunCausalQuoteUnchecked input) as [q'|[|]] eqn:E;
    cbn [try_catch]; [|discriminate..]. intros [= ->].
  unfold computePumpFunCausalQuoteUnchecked in E. cbv zeta in E.
  apply bind_Ok in E as (s & Hs & E). apply bind_Ok in E as ([out fees] & Hr & E).
  apply bind_Ok in E as (? & Hout%inconsistent_if_Ok & E).
  apply bind_Ok in E as (? & [-> _]%toBigint_Ok & E). apply bind_Ok in E as (? & [-> _]%toBigint_Ok & E).
  apply bind_Ok in E as (? & Him & E). apply bind_Ok in E as (? & _ & E).
  apply bind_Ok in E as (? & [-> _]%toBigint_Ok & E). apply bind_Ok in E as (? & [-> _]%toBigint_Ok & E).
  apply bind_Ok in E as (rev & Hrev & E). injection E as <-.
  destruct (read_state_Ok _ _ Hs) as [Hq Hv].
  apply validateRequest_Ok in Hq as (Ha & Hsl & _). apply validateState_Ok in Hv as (Hc & _).
  exists s. cbn [pc_quote q_amountOutRaw q_feesRaw q_minimumAmountOutRaw q_priceImpactBps pc_reverseSellQuote
    pc_realTokenReservesRaw pc_realQuoteReservesRaw pc_virtualTokenReservesRaw pc_virtualQuoteReservesRaw].
  apply Z.leb_gt in Hout. split_and!; try done; try lia. intros Eb. by rewrite Eb in Hrev.
Qed.

(** A quote keeps its bounds.  Every quote on the curve gives a positive output and fees
    that fit 64 bits; its minimum output is the slippage floor of the output, never above it;
    its price impact is the smallest number of basis points, at most 10000, that covers the
    loss to the spot price; a purchase takes less than the virtual token reserve and costs no
    more than it was given, and a sale takes no more than the real quote reserve. *)
Theorem pump_quote_bounds (input : ComputePumpFunCausalQuoteInput) (c : PumpFunCausalQuoteComputation)
    (Hq : computePumpFunCausalQuote input = Ok c) :
  let q := pc_quote c in
  let request := ci_request input in
  let '(num, den) := match rq_side request with
                     | QUOTE_BUY => (rq_amountInRaw request * pc_virtualTokenReservesRaw c, pc_virtualQuoteReservesRaw c)
                     | QUOTE_SELL => (rq_amountInRaw request * pc_virtualQuoteReservesRaw c, pc_virtualTokenReservesRaw c)
                     end in
  0 < q_amountOutRaw q <= U64_MAX /\ 0 <= q_feesRaw q <= U64_MAX
  /\ 0 <= q_minimumAmountOutRaw q <= q_amountOutRaw q
  /\ 10000 * q_minimumAmountOutRaw q <= q_amountOutRaw q * (10000 - rq_slippageBps request)
     < 10000 * (q_minimumAmountOutRaw q + 1)
  /\ 0 <= q_priceImpactBps q <= 10000
  /\ (num - q_amountOutRaw q * den) * 10000 <= num * q_priceImpactBps q
  /\ (0 < q_priceImpactBps q -> num * (q_priceImpactBps q - 1) < (num - q_amountOutRaw q * den) * 10000)
  /\ match rq_side request with
     | QUOTE_BUY => q_amountOutRaw q < pc_virtualTokenReservesRaw c /\ q_feesRaw q < rq_amountInRaw request
     | QUOTE_SELL => q_amountOutRaw q + q_feesRaw q <= pc_realQuoteReservesRaw c
     end.
Proof.
  destruct (compute_inv _ _ Hq) as (s & _ & Hc & Ha & Hsl & Hp & Ho & Hm & Hi & _ & _ & Hrq & Hvt & Hvq).
  cbv zeta. rewrite Hvt, Hvq, Hrq, Hm. clear Hvt Hvq Hrq Hm.
  apply priceImpact_Ok in Hi. destruct Hc as [Hvt Hvq Hrt Hrq] eqn:Ec. clear Ec. unfold BASIS_POINTS in *.
  set (o := q_amountOutRaw _) in *. set (x := q_priceImpactBps _) in *. set (fees := q_feesRaw _) in *.
  set (sl := rq_slippageBps _) in *. set (i := rq_amountInRaw _) in *.
  pose proof (quot_nonneg_bounds (o * (10000 - sl)) 10000 ltac:(nia) ltac:(lia)) as Hb.
  pose proof (quot_nonneg (o * (10000 - sl)) 10000 ltac:(nia) ltac:(lia)).
  set (m := Z.quot _ _) in *. unfold priced in Hp.
  destruct (rq_side (ci_request input)); destruct Hi as (Hn & Hx & Hi); (destruct Hi as (Hi1 & Hi2 & Hi3); [nia|]).
  - apply bind_Ok in Hp as (k & _ & Hp). apply buy_Ok in Hp as (? & ? & ? & Hg); [|by split].
    assert (0 < buy_gross (qs_curve s) o).
    { unfold buy_gross. pose proof (quot_nonneg (o * cv_virtualQuoteReserves (qs_curve s))
        (cv_virtualTokenReserves (qs_curve s) - o) ltac:(nia) ltac:(lia)). lia. }
    split_and!; try done; try lia; nia.
  - apply sell_Ok in Hp as (? & ? & _ & ?). split_and!; try done; try lia; nia.
Qed.

(** C24: a round trip on the curve never wins.  The sale quoted along with a purchase is
    absent exactly when the tokens bought exceed the real token reserve; otherwise it sells
    those tokens, and what it returns falls short of the amount spent by the fees of both
    legs at least. *)
Theorem pump_round_trip_loses (input : ComputePumpFunCausalQuoteInput) (c : PumpFunCausalQuoteComputation)
    (Hq : computePumpFunCausalQuote input = Ok c) (Hside : rq_side (ci_request input) = QUOTE_BUY) :
  match pc_reverseSellQuote c with
  | None => pc_realTokenReservesRaw c < q_amountOutRaw (pc_quote c)
  | Some r => q_amountOutRaw (pc_quote c) <= pc_realTokenReservesRaw c
      /\ rs_amountInRaw r = q_amountOutRaw (pc_quote c)
      /\ 0 <= rs_amountOutRaw r /\ 0 <= rs_feesRaw r
      /\ rs_amountOutRaw r + rs_feesRaw r + q_feesRaw (pc_quote c) <= rq_amountInRaw (ci_request input)
  end.
Proof.
  destruct (compute_inv _ _ Hq) as (s & _ & Hc & _ & _ & Hp & Ho & _ & _ & Hr & -> & _).
  unfold priced in Hp. rewrite Hside in Hp. apply bind_Ok in Hp as (k & _ & Hp).
  apply buy_Ok in Hp as (? & ? & ? & Hg); [|done].
  specialize (Hr Hside). apply reverseSell_Ok in Hr; [|done|lia]. destruct (pc_reverseSellQuote c); lia.
Qed.

(** * Which error *)

(** A computation that does not report an unavailable account. *)
Definition quiet {A} (m : result quote_exn A) : Prop := m <> Err (Known QUOTE_STATE_UNAVAILABLE).

Lemma quiet_Ok {A} (a : A) : quiet (Ok a). Proof. done. Qed.
Lemma quiet_bind {A B} (m : result quote_exn A) (k : A -> result quote_exn B) :
  quiet m -> (forall a, quiet (k a)) -> quiet (m ≫= k).
Proof. unfold quiet. intros Hm Hk E%bind_Err. destruct E as [?|(a & _ & E)]; [done|by eapply Hk]. Qed.
Lemma quiet_inconsistent_if b : quiet (inconsistent_if b). Proof. by destruct b. Qed.
Lemma quiet_unsupported_if b : quiet (unsupported_if b). Proof. by destruct b. Qed.
Lemma quiet_inconsistent {A} : quiet (A:=A) inconsistent. Proof. done. Qed.
Lemma quiet_library {A} (o : option A) : quiet (library o). Proof. by destruct o. Qed.
Lemma quiet_if {A} (b : bool) (m m' : result quote_exn A) : quiet m -> quiet m' -> quiet (if b then m else m').
Proof. by destruct b. Qed.
Lemma quiet_catch {A} (m : result quote_exn A) : quiet (try_catch m (fun _ => inconsistent)).
Proof. by destruct m. Qed.
Lemma quiet_for_each {A} (f : A -> result quote_exn unit) l : (forall x, quiet (f x)) -> quiet (for_each f l).
Proof. intros Hf. induction l; cbn [for_each]; [done|]. by apply quiet_bind. Qed.
Lemma quiet_tiers p l : quiet (check_tiers p l).
Proof.
  revert p. induction l as [|t l IH]; intros p; [done|]. cbn [check_tiers]. unfold toBigint.
  repeat (apply quiet_bind; [|intros]); auto using quiet_inconsistent_if, quiet_Ok.
Qed.

(** Break a computation down to its library calls and checks. *)
Ltac quiet_solve :=
  repeat match goal with
  | |- quiet (_ ≫= _) => apply quiet_bind; [|intros]
  | |- quiet (try_catch _ (fun _ => inconsistent)) => apply quiet_catch
  | |- quiet (for_each _ _) => apply quiet_for_each; intros
  | |- quiet (inconsistent_if _) => apply quiet_inconsistent_if
  | |- quiet (unsupported_if _) => apply quiet_unsupported_if
  | |- quiet (library _) => apply quiet_library
  | |- quiet (check_tiers _ _) => apply quiet_tiers
  | |- quiet (if _ then _ else _) => apply quiet_if
  | |- quiet (match ?x with _ => _ end) => destruct x
  | |- quiet (Ok _) => apply quiet_Ok
  | |- quiet inconsistent => apply quiet_inconsistent
  | |- quiet (Err (Known UNSUPPORTED_TOKEN_EXTENSION)) => discriminate
  end.

Lemma quiet_request request at_ : quiet (validateRequest request at_).
Proof. unfold validateRequest, publicKey. cbv zeta. quiet_solve. Qed.
Lemma quiet_mint a : quiet (decodeMint a).
Proof. unfold decodeMint. quiet_solve. Qed.
Lemma quiet_validate request g f c m : quiet (validateState request g f c m).
Proof. unfold validateState, validateFeeConfig, toBigint. cbv zeta. quiet_solve. Qed.
Lemma quiet_sell g f c m a : quiet (sell g f c m a).
Proof. unfold sell, toBigint. cbv zeta. quiet_solve. Qed.
Lemma quiet_priced request s : quiet (priced request s).
Proof. unfold priced, buy, toBigint. cbv zeta. quiet_solve. apply quiet_sell. Qed.
Lemma quiet_reverse g f c m a : quiet (reverseSell g f c m a).
Proof. unfold reverseSell, toBigint. cbv zeta. quiet_solve. apply quiet_sell. Qed.
Lemma quiet_info a : quiet (accountInfo a).
Proof. unfold accountInfo. quiet_solve. Qed.

(** One of the four accounts was not read at its address. *)
Definition account_missing (input : ComputePumpFunCausalQuoteInput) : Prop :=
  match ci_addresses input with
  | (a0, a1, a2, a3) =>
    Exists (fun ia : nat * string =>
        forall a, ci_accounts input !! fst ia = Some (Some a) -> ac_address a <> snd ia)
      [(0%nat, a0); (1%nat, a1); (2%nat, a2); (3%nat, a3)]
  end.

Lemma required_cases l i a :
  (exists x, required l i a = Ok x /\ l !! i = Some (Some x) /\ ac_address x = a)
  \/ (required l i a = Err (Known QUOTE_STATE_UNAVAILABLE)
      /\ forall x, l !! i = Some (Some x) -> ac_address x <> a).
Proof.
  unfold required. destruct (l !! i) as [[x|]|]; [|right; by split..].
  case_bool_decide; [left; eauto|right; split; [done|congruence]].
Qed.

(** The four accounts, or the first that is missing. *)
Lemma read_state_missing input :
  read_state input = Err (Known QUOTE_STATE_UNAVAILABLE) <->
  validateRequest (ci_request input) (ci_observedAtMs input) = Ok tt /\ account_missing input.
Proof.
  unfold read_state, account_missing. destruct (ci_addresses input) as [[[a0 a1] a2] a3]. cbv zeta.
  pose proof (quiet_request (ci_request input) (ci_observedAtMs input)) as Hr. unfold quiet in Hr.
  destruct (validateRequest _ _) as [[]|e]; cbn [mbind result_bind]; [|naive_solver].
  rewrite !Exists_cons, Exists_nil. cbn [fst snd].
  destruct (required_cases (ci_accounts input) 0 a0) as [(x0 & -> & ? & ?)|[-> ?]]; cbn [mbind result_bind]; [|tauto].
  destruct (required_cases (ci_accounts input) 1 a1) as [(x1 & -> & ? & ?)|[-> ?]]; cbn [mbind result_bind]; [|tauto].
  destruct (required_cases (ci_accounts input) 2 a2) as [(x2 & -> & ? & ?)|[-> ?]]; cbn [mbind result_bind]; [|tauto].
  destruct (required_cases (ci_accounts input) 3 a3) as [(x3 & -> & ? & ?)|[-> ?]]; cbn [mbind result_bind]; [|tauto].
  split; [|naive_solver]. intros E. exfalso. revert E. unfold owner.
  match goal with |- ?m = _ -> False => change (quiet m) end.
  quiet_solve; auto using quiet_mint, quiet_validate, quiet_info.
Qed.

(** The retryable error means what it says.  A quote fails with QUOTE_STATE_UNAVAILABLE,
    the code that makes a caller try again, exactly when the request itself is valid and one
    of the four accounts was not read at its address; every other failure, also one thrown by
    a library, has another code. *)
Theorem pump_unavailable_iff (input : ComputePumpFunCausalQuoteInput) :
  computePumpFunCausalQuote input = Err QUOTE_STATE_UNAVAILABLE <->
  validateRequest (ci_request input) (ci_observedAtMs input) = Ok tt /\ account_missing input.
Proof.
  rewrite <- read_state_missing. unfold computePumpFunCausalQuote.
  assert (computePumpFunCausalQuoteUnchecked input = Err (Known QUOTE_STATE_UNAVAILABLE) <->
          read_state input = Err (Known QUOTE_STATE_UNAVAILABLE)) as <-.
  { unfold computePumpFunCausalQuoteUnchecked. cbv zeta.
    destruct (read_state input) as [s|e]; cbn [mbind result_bind]; [|split; congruence].
    split; [|done]. intros E. exfalso. revert E. unfold priceImpact, ceilDiv, toBigint. cbv zeta.
    match goal with |- ?m = _ -> False => change (quiet m) end.
    quiet_solve; auto using quiet_priced, quiet_reverse. }
  destruct (computePumpFunCausalQuoteUnchecked input) as [|[code|]]; cbn [try_catch]; try (split; congruence).
Qed.
End Properties.

(** * A library for examples

    One percent on both sides, decoders that return one state. *)
Definition sample_curve : BondingCurve_ unit :=
  {| cv_virtualTokenReserves := 1073000000000000; cv_virtualQuoteReserves := 30000000000;
     cv_realTokenReserves := 793100000000000; cv_realQuoteReserves := 0;
     cv_tokenTotalSupply := 1000000000000000; cv_complete := false;
     cv_quoteMint := DEFAULT_PUBLIC_KEY; cv_isMayhemMode := false; cv_isCashbackCoin := false;
     cv_other := tt |}.
Definition sample_global : Global_ unit :=
  {| gl_initialized := true; gl_initialVirtualTokenReserves := 1073000000000000;
     gl_initialVirtualSolReserves := 30000000000; gl_initialRealTokenReserves := 793100000000000;
     gl_tokenTotalSupply := 1000000000000000; gl_feeBasisPoints := 95;
     gl_creatorFeeBasisPoints := 5; gl_initialVirtualQuoteReserves := 30000000000; gl_other := tt |}.
Definition sample_fees : FeeConfig_ unit :=
  {| fc_feeTiers := [{| ft_marketCapLamportsThreshold := 0; ft_lpFeeBps := 0; ft_protocolFeeBps := 95;
                        ft_creatorFeeBps := 5 |}]; fc_other := tt |}.
Definition sample_sdk : PumpSdk :=
  {| other_global := unit; other_fees := unit; other_curve := unit;
     PUMP_PROGRAM_ID := "pump"; PUMP_FEE_PROGRAM_ADDRESS := "fees"; WSOL_MINT := "wsol";
     SPL_TOKEN_PROGRAM_ID := "token"; TOKEN_2022_PROGRAM_ADDRESS := "token-2022";
     GLOBAL_PDA := "global"; PUMP_FEE_CONFIG_PDA := "fee-config";
     newPublicKey := Some; bondingCurvePda := fun m => "curve-" +:+ m;
     decodeGlobal := fun _ => Some sample_global; decodeFeeConfig := fun _ => Some sample_fees;
     decodeBondingCurve := fun _ => Some sample_curve;
     unpackMint := fun _ _ => Some {| um_isInitialized := true; um_supply := 1000000000000000;
                                      um_decimals := 6; um_tlvData := [] |};
     getExtensionTypes := fun _ => Some [MetadataPointer; TokenMetadata];
     getBuyTokenAmountFromSolAmount := fun _ _ _ c a _ =>
       let net := a * 99 / 100 - 2 in
       Some (net * cv_virtualTokenReserves c / (cv_virtualQuoteReserves c + net));
     getBuySolAmountFromTokenAmount := fun _ _ _ c a _ =>
       let gross := a * cv_virtualQuoteReserves c / (cv_virtualTokenReserves c - a) + 1 in
       Some (gross + (gross + 99) / 100);
     getSellSolAmountFromTokenAmount := fun _ _ _ c a =>
       let gross := a * cv_virtualQuoteReserves c / (cv_virtualTokenReserves c + a) in
       Some (gross - (gross + 99) / 100) |}.
Definition sample_account (address owner_ : string) : option ReadonlyAccountSnapshot :=
  Some {| ac_address := address; ac_owner := owner_; ac_data := []; ac_lamports := 1000000; ac_slot := 77 |}.
Definition sample_quote_input : ComputePumpFunCausalQuoteInput :=
  {| ci_request := {| rq_mint := "mint";
                      rq_quoteAsset := {| qa_mint := "wsol"; qa_decimals := 9; qa_tokenProgram := SPL_TOKEN |};
                      rq_side := QUOTE_BUY; rq_amountInRaw := 100000000; rq_slippageBps := 500 |};
     ci_addresses := ("global", "fee-config", "curve-mint", "mint");
     ci_accounts := [sample_account "global" "pump"; sample_account "fee-config" "fees";
                     sample_account "curve-mint" "pump"; sample_account "mint" "token-2022"];
     ci_observedAtMs := 1000 |}.
Definition sample_quote_digest : Sha256 := fun _ => "d".
Definition sample_quote : PumpFunCausalQuoteComputation :=
  {| pc_quote := {| q_id := "quote_d"; q_inputMint := "wsol"; q_outputMint := "mint";
                    q_amountInRaw := 100000000; q_amountOutRaw := 3529253392506;
                    q_minimumAmountOutRaw := 3352790722880; q_feesRaw := 990000;
                    q_slippageBps := 500; q_priceImpactBps := 133; q_observedAtMs := 1000;
                    q_observedSlot := 77 |};
     pc_snapshotSlot := 77; pc_normalizedQuoteMint := "wsol"; pc_baseTokenProgram := TOKEN_2022;
     pc_baseDecimals := 6; pc_mintSupplyRaw := 1000000000000000;
     pc_virtualTokenReservesRaw := 1073000000000000; pc_virtualQuoteReservesRaw := 30000000000;
     pc_realTokenReservesRaw := 793100000000000; pc_realQuoteReservesRaw := 0;
     pc_isMayhemMode := false; pc_isCashbackCoin := false;
     pc_reverseSellQuote := Some {| rs_amountInRaw := 3529253392506; rs_amountOutRaw := 98009997;
                                    rs_feesRaw := 990000 |} |}.

(** A purchase for 0.1 SOL: 1.33% impact, and 98009997 lamports back. *)
Lemma pump_quote_bounds_witness :
  let S := sample_sdk in let D := sample_quote_digest in
  computePumpFunCausalQuote sample_quote_input = Ok sample_quote
  /\ 0 <= q_minimumAmountOutRaw (pc_quote sample_quote) <= q_amountOutRaw (pc_quote sample_quote).
Proof.
  intros S D. assert (computePumpFunCausalQuote sample_quote_input = Ok sample_quote) as E
    by (vm_compute; reflexivity).
  split; [exact E|]. exact (proj1 (proj2 (proj2 (pump_quote_bounds sample_quote_input sample_quote E)))).
Defined.
Lemma pump_round_trip_loses_witness :
  let S := sample_sdk in let D := sample_quote_digest in
  match pc_reverseSellQuote sample_quote with
  | None => pc_realTokenReservesRaw sample_quote < q_amountOutRaw (pc_quote sample_quote)
  | Some r => q_amountOutRaw (pc_quote sample_quote) <= pc_realTokenReservesRaw sample_quote
      /\ rs_amountInRaw r = q_amountOutRaw (pc_quote sample_quote)
      /\ 0 <= rs_amountOutRaw r /\ 0 <= rs_feesRaw r
      /\ rs_amountOutRaw r + rs_feesRaw r + q_feesRaw (pc_quote sample_quote)
         <= rq_amountInRaw (ci_request sample_quote_input)
  end.
Proof.
  intros S D. apply (pump_round_trip_loses sample_quote_input sample_quote); vm_compute; reflexivity.
Defined.
