(* ===== verification/PumpIdl.v ===== *)
(** [src/src/launchpads/pumpfun/generated/pump-idl.ts]: the interface description of the
    Pump.fun program.

    The discriminators, account names, argument types and structures that the decoders read;
    the seeds of derived addresses and the flags of accounts are not used by them. *)
From S2P Require Import Prelude.
Local Open Scope string_scope.
Local Open Scope list_scope.
Local Open Scope Z_scope.

(** src/src/launchpads/pumpfun/idl-codec.ts:7-14 (NamedField, TypeDefinition): types as the
    description writes them, a name, [{defined: {name}}] or [{vec: type}], and the fields of a
    structure, with or without names. *)
Inductive idl_type :=
| IdlName (name : string)
| IdlDefined (name : string)
| IdlVec (item : idl_type)
| IdlOther.
Inductive idl_field := NamedField (name : string) (type : idl_type) | BareType (type : idl_type).

(** src/src/launchpads/pumpfun/instruction-decoder.ts:21-25 (InstructionDefinition) *)
Record InstructionDefinition := {
  id_discriminator : list Z;
  id_accounts : list string;
  id_args : list (string * idl_type);
}.

(** src/src/launchpads/pumpfun/generated/pump-idl.ts:5-16 (PUMP_INSTRUCTIONS.buy):
    with the names of its accounts and its arguments, which follow. *)
Definition ix_buy : InstructionDefinition :=
  {| id_discriminator := [102; 6; 61; 18; 1; 218; 235; 234];
     id_accounts :=
       ["global"; "fee_recipient"; "mint"; "bonding_curve"; "associated_bonding_curve";
        "associated_user"; "user"; "system_program"; "token_program"; "creator_vault";
        "event_authority"; "program"; "global_volume_accumulator"; "user_volume_accumulator";
        "fee_config"; "fee_program"];
     id_args := [("amount", IdlName "u64"); ("max_sol_cost", IdlName "u64");
        ("track_volume", IdlDefined "OptionBool")] |}.
(** src/src/launchpads/pumpfun/generated/pump-idl.ts:374-385 (PUMP_INSTRUCTIONS.buy_exact_quote_in_v2):
    with the names of its accounts and its arguments, which follow. *)
Definition ix_buy_exact_quote_in_v2 : InstructionDefinition :=
  {| id_discriminator := [194; 171; 28; 70; 104; 77; 91; 47];
     id_accounts :=
       ["global"; "base_mint"; "quote_mint"; "base_token_program"; "quote_token_program";
        "associated_token_program"; "fee_recipient"; "associated_quote_fee_recipient";
        "buyback_fee_recipient"; "associated_quote_buyback_fee_recipient"; "bonding_curve";
        "associated_base_bonding_curve"; "associated_quote_bonding_curve"; "user";
        "associated_base_user"; "associated_quote_user"; "creator_vault";
        "associated_creator_vault"; "sharing_config"; "global_volume_accumulator";
        "user_volume_accumulator"; "associated_user_volume_accumulator"; "fee_config";
        "fee_program"; "system_program"; "event_authority"; "program"];
     id_args := [("spendable_quote_in", IdlName "u64"); ("min_tokens_out", IdlName "u64")] |}.
(** src/src/launchpads/pumpfun/generated/pump-idl.ts:1114-1125 (PUMP_INSTRUCTIONS.buy_exact_sol_in):
    with the names of its accounts and its arguments, which follow. *)
Definition ix_buy_exact_sol_in : InstructionDefinition :=
  {| id_discriminator := [56; 252; 116; 8; 158; 223; 205; 95];
     id_accounts :=
       ["global"; "fee_recipient"; "mint"; "bonding_curve"; "associated_bonding_curve";
        "associated_user"; "user"; "system_program"; "token_program"; "creator_vault";
        "event_authority"; "program"; "global_volume_accumulator"; "user_volume_accumulator";
        "fee_config"; "fee_program"];
     id_args := [("spendable_sol_in", IdlName "u64"); ("min_tokens_out", IdlName "u64");
        ("track_volume", IdlDefined "OptionBool")] |}.
(** src/src/launchpads/pumpfun/generated/pump-idl.ts:1483-1494 (PUMP_INSTRUCTIONS.buy_v2):
    with the names of its accounts and its arguments, which follow. *)
Definition ix_buy_v2 : InstructionDefinition :=
  {| id_discriminator := [184; 23; 238; 97; 103; 197; 211; 61];
     id_accounts :=
       ["global"; "base_mint"; "quote_mint"; "base_token_program"; "quote_token_program";
        "associated_token_program"; "fee_recipient"; "associated_quote_fee_recipient";
        "buyback_fee_recipient"; "associated_quote_buyback_fee_recipient"; "bonding_curve";
        "associated_base_bonding_curve"; "associated_quote_bonding_curve"; "user";
        "associated_base_user"; "associated_quote_user"; "creator_vault";
        "associated_creator_vault"; "sharing_config"; "global_volume_accumulator";
        "user_volume_accumulator"; "associated_user_volume_accumulator"; "fee_config";
        "fee_program"; "system_program"; "event_authority"; "program"];
     id_args := [("amount", IdlName "u64"); ("max_sol_cost", IdlName "u64")] |}.
(** src/src/launchpads/pumpfun/generated/pump-idl.ts:2223-2234 (PUMP_INSTRUCTIONS.create):
    with the names of its accounts and its arguments, which follow. *)
Definition ix_create : InstructionDefinition :=
  {| id_discriminator := [24; 30; 200; 40; 5; 28; 7; 119];
     id_accounts :=
       ["mint"; "mint_authority"; "bonding_curve"; "associated_bonding_curve"; "global";
        "mpl_token_metadata"; "metadata"; "user"; "system_program"; "token_program";
        "associated_token_program"; "rent"; "event_authority"; "program"];
     id_args := [("name", IdlName "string"); ("symbol", IdlName "string"); ("uri", IdlName "string");
        ("creator", IdlName "pubkey")] |}.
(** src/src/launchpads/pumpfun/generated/pump-idl.ts:2548-2559 (PUMP_INSTRUCTIONS.create_v2):
    with the names of its accounts and its arguments, which follow. *)
Definition ix_create_v2 : InstructionDefinition :=
  {| id_discriminator := [214; 144; 76; 236; 95; 139; 49; 180];
     id_accounts :=
       ["mint"; "mint_authority"; "bonding_curve"; "associated_bonding_curve"; "global"; "user";
        "system_program"; "token_program"; "associated_token_program"; "mayhem_program_id";
        "global_params"; "sol_vault"; "mayhem_state"; "mayhem_token_vault"; "event_authority";
        "program"];
     id_args := [("name", IdlName "string"); ("symbol", IdlName "string"); ("uri", IdlName "string");
        ("creator", IdlName "pubkey"); ("is_mayhem_mode", IdlName "bool");
        ("is_cashback_enabled", IdlDefined "OptionBool");
        ("creator_fee_bps", IdlDefined "OptionU64");
        ("is_holder_reward", IdlDefined "OptionBool")] |}.
(** src/src/launchpads/pumpfun/generated/pump-idl.ts:2990-3001 (PUMP_INSTRUCTIONS.migrate):
    with the names of its accounts and its arguments, which follow. *)
Definition ix_migrate : InstructionDefinition :=
  {| id_discriminator := [155; 234; 231; 146; 236; 158; 162; 30];
     id_accounts :=
       ["global"; "withdraw_authority"; "mint"; "bonding_curve"; "associated_bonding_curve";
        "user"; "system_program"; "token_program"; "pump_amm"; "pool"; "pool_authority";
        "pool_authority_mint_account"; "pool_authority_wsol_account"; "amm_global_config";
        "wsol_mint"; "lp_mint"; "user_pool_token_account"; "pool_base_token_account";
        "pool_quote_token_account"; "token_2022_program"; "associated_token_program";
        "pump_amm_event_authority"; "event_authority"; "program"; "rent"];
     id_args := [] |}.
(** src/src/launchpads/pumpfun/generated/pump-idl.ts:3473-3484 (PUMP_INSTRUCTIONS.migrate_v2):
    with the names of its accounts and its arguments, which follow. *)
Definition ix_migrate_v2 : InstructionDefinition :=
  {| id_discriminator := [187; 203; 18; 31; 206; 237; 254; 41];
     id_accounts :=
       ["global"; "withdraw_authority"; "base_mint"; "quote_mint"; "bonding_curve";
        "associated_base_bonding_curve"; "associated_quote_bonding_curve"; "user";
        "system_program"; "pump_amm"; "pool"; "pool_authority"; "pool_authority_mint_account";
        "pool_authority_quote_account"; "amm_global_config"; "lp_mint";
        "user_pool_token_account"; "pool_base_token_account"; "pool_quote_token_account";
        "base_token_program"; "quote_token_program"; "token_2022_program";
        "associated_token_program"; "pump_amm_event_authority"; "rent"; "event_authority";
        "program"];
     id_args := [] |}.
(** src/src/launchpads/pumpfun/generated/pump-idl.ts:3950-3961 (PUMP_INSTRUCTIONS.sell):
    with the names of its accounts and its arguments, which follow. *)
Definition ix_sell : InstructionDefinition :=
  {| id_discriminator := [51; 230; 133; 164; 1; 127; 131; 173];
     id_accounts :=
       ["global"; "fee_recipient"; "mint"; "bonding_curve"; "associated_bonding_curve";
        "associated_user"; "user"; "system_program"; "creator_vault"; "token_program";
        "event_authority"; "program"; "fee_config"; "fee_program"];
     id_args := [("amount", IdlName "u64"); ("min_sol_output", IdlName "u64")] |}.
(** src/src/launchpads/pumpfun/generated/pump-idl.ts:4234-4245 (PUMP_INSTRUCTIONS.sell_v2):
    with the names of its accounts and its arguments, which follow. *)
Definition ix_sell_v2 : InstructionDefinition :=
  {| id_discriminator := [93; 246; 130; 60; 231; 233; 64; 178];
     id_accounts :=
       ["global"; "base_mint"; "quote_mint"; "base_token_program"; "quote_token_program";
        "associated_token_program"; "fee_recipient"; "associated_quote_fee_recipient";
        "buyback_fee_recipient"; "associated_quote_buyback_fee_recipient"; "bonding_curve";
        "associated_base_bonding_curve"; "associated_quote_bonding_curve"; "user";
        "associated_base_user"; "associated_quote_user"; "creator_vault";
        "associated_creator_vault"; "sharing_config"; "user_volume_accumulator";
        "associated_user_volume_accumulator"; "fee_config"; "fee_program"; "system_program";
        "event_authority"; "program"];
     id_args := [("amount", IdlName "u64"); ("min_sol_output", IdlName "u64")] |}.

(** src/src/launchpads/pumpfun/generated/pump-idl.ts:4939-4951 (PUMP_EVENTS.CreateEvent) *)
Definition CreateEvent_discriminator : list Z := [27; 114; 169; 77; 222; 235; 99; 118].
(** src/src/launchpads/pumpfun/generated/pump-idl.ts:4952-4964 (PUMP_EVENTS.TradeEvent) *)
Definition TradeEvent_discriminator : list Z := [189; 219; 127; 211; 78; 230; 97; 238].

(** src/src/launchpads/pumpfun/generated/pump-idl.ts:4967-5050 (PUMP_TYPES.CreateEvent) *)
Definition ty_CreateEvent : list idl_field :=
  [NamedField "name" (IdlName "string"); NamedField "symbol" (IdlName "string");
   NamedField "uri" (IdlName "string"); NamedField "mint" (IdlName "pubkey");
   NamedField "bonding_curve" (IdlName "pubkey"); NamedField "user" (IdlName "pubkey");
   NamedField "creator" (IdlName "pubkey"); NamedField "timestamp" (IdlName "i64");
   NamedField "virtual_token_reserves" (IdlName "u64");
   NamedField "virtual_sol_reserves" (IdlName "u64");
   NamedField "real_token_reserves" (IdlName "u64");
   NamedField "token_total_supply" (IdlName "u64");
   NamedField "token_program" (IdlName "pubkey"); NamedField "is_mayhem_mode" (IdlName "bool");
   NamedField "is_cashback_enabled" (IdlName "bool");
   NamedField "quote_mint" (IdlName "pubkey");
   NamedField "virtual_quote_reserves" (IdlName "u64");
   NamedField "creator_fee_bps" (IdlName "u64"); NamedField "is_holder_reward" (IdlName "bool")].
(** src/src/launchpads/pumpfun/generated/pump-idl.ts:5051-5059 (PUMP_TYPES.OptionBool) *)
Definition ty_OptionBool : list idl_field :=
  [BareType (IdlName "bool")].
(** src/src/launchpads/pumpfun/generated/pump-idl.ts:5060-5068 (PUMP_TYPES.OptionU64) *)
Definition ty_OptionU64 : list idl_field :=
  [BareType (IdlName "u64")].
(** src/src/launchpads/pumpfun/generated/pump-idl.ts:5069-5084 (PUMP_TYPES.Shareholder) *)
Definition ty_Shareholder : list idl_field :=
  [NamedField "address" (IdlName "pubkey"); NamedField "share_bps" (IdlName "u16")].
(** src/src/launchpads/pumpfun/generated/pump-idl.ts:5085-5234 (PUMP_TYPES.TradeEvent) *)
Definition ty_TradeEvent : list idl_field :=
  [NamedField "mint" (IdlName "pubkey"); NamedField "sol_amount" (IdlName "u64");
   NamedField "token_amount" (IdlName "u64"); NamedField "is_buy" (IdlName "bool");
   NamedField "user" (IdlName "pubkey"); NamedField "timestamp" (IdlName "i64");
   NamedField "virtual_sol_reserves" (IdlName "u64");
   NamedField "virtual_token_reserves" (IdlName "u64");
   NamedField "real_sol_reserves" (IdlName "u64");
   NamedField "real_token_reserves" (IdlName "u64");
   NamedField "fee_recipient" (IdlName "pubkey"); NamedField "fee_basis_points" (IdlName "u64");
   NamedField "fee" (IdlName "u64"); NamedField "creator" (IdlName "pubkey");
   NamedField "creator_fee_basis_points" (IdlName "u64");
   NamedField "creator_fee" (IdlName "u64"); NamedField "track_volume" (IdlName "bool");
   NamedField "total_unclaimed_tokens" (IdlName "u64");
   NamedField "total_claimed_tokens" (IdlName "u64");
   NamedField "current_sol_volume" (IdlName "u64");
   NamedField "last_update_timestamp" (IdlName "i64"); NamedField "ix_name" (IdlName "string");
   NamedField "mayhem_mode" (IdlName "bool");
   NamedField "cashback_fee_basis_points" (IdlName "u64");
   NamedField "cashback" (IdlName "u64"); NamedField "buyback_fee_basis_points" (IdlName "u64");
   NamedField "buyback_fee" (IdlName "u64");
   NamedField "shareholders" (IdlVec (IdlDefined "Shareholder"));
   NamedField "quote_mint" (IdlName "pubkey"); NamedField "quote_amount" (IdlName "u64");
   NamedField "virtual_quote_reserves" (IdlName "u64");
   NamedField "real_quote_reserves" (IdlName "u64");
   NamedField "holder_rewards_bps" (IdlName "u64"); NamedField "holder_rewards" (IdlName "u64")].

(** src/src/launchpads/pumpfun/types.ts:10-20 (PumpInstructionName) *)
Inductive PumpInstructionName :=
| Ix_buy
| Ix_buy_exact_quote_in_v2
| Ix_buy_exact_sol_in
| Ix_buy_v2
| Ix_create
| Ix_create_v2
| Ix_migrate
| Ix_migrate_v2
| Ix_sell
| Ix_sell_v2.
Global Instance PumpInstructionName_eq_dec : EqDecision PumpInstructionName.
Proof. solve_decision. Defined.

(** src/src/launchpads/pumpfun/instruction-decoder.ts:27-29 (DEFINITIONS): in the order of the
    description. *)
Definition DEFINITIONS : list (PumpInstructionName * InstructionDefinition) :=
  [(Ix_buy, ix_buy); (Ix_buy_exact_quote_in_v2, ix_buy_exact_quote_in_v2);
   (Ix_buy_exact_sol_in, ix_buy_exact_sol_in); (Ix_buy_v2, ix_buy_v2); (Ix_create, ix_create);
   (Ix_create_v2, ix_create_v2); (Ix_migrate, ix_migrate); (Ix_migrate_v2, ix_migrate_v2);
   (Ix_sell, ix_sell); (Ix_sell_v2, ix_sell_v2)].
(** src/src/launchpads/pumpfun/idl-codec.ts:16-18 (TYPE_DEFINITIONS) *)
Definition TYPE_DEFINITIONS (name : string) : option (list idl_field) :=
  match name with
  | "CreateEvent" => Some ty_CreateEvent
  | "OptionBool" => Some ty_OptionBool
  | "OptionU64" => Some ty_OptionU64
  | "Shareholder" => Some ty_Shareholder
  | "TradeEvent" => Some ty_TradeEvent
  | _ => None
  end.
