(* ===== verification/PumpBorsh.v ===== *)
(** [src/src/launchpads/pumpfun/borsh-reader.ts], [idl-codec.ts]: reading Borsh.

    A reader over the bytes of an instruction, the decoding of values by the types of the
    interface description, and the grammar of the encoding: on every input the decoder accepts
    exactly the encodings of its grammar, consumes exactly their bytes and gives their value. *)
From S2P Require Import Prelude Text PublicKey PumpIdl.
From Stdlib Require Import Ascii String.
Local Open Scope string_scope.
Local Open Scope list_scope.
Local Open Scope Z_scope.

(** * Errors *)

(** src/src/launchpads/pumpfun/errors.ts:8-24 (PUMP_DECODING_ERROR_CODES) *)
Inductive PumpDecodingErrorCode :=
| PUMP_TRANSACTION_INDEX_REQUIRED | PUMP_SCHEMA_UNSUPPORTED | PUMP_BORSH_TRUNCATED
| PUMP_BORSH_INVALID | PUMP_ACCOUNT_MISSING | PUMP_STACK_HEIGHT_REQUIRED
| PUMP_STACK_HEIGHT_INVALID | PUMP_EVENT_MISSING | PUMP_EVENT_DUPLICATE | PUMP_EVENT_ORPHANED
| PUMP_EVENT_AMBIGUOUS | PUMP_EVENT_MISMATCH | PUMP_QUOTE_ASSET_UNRESOLVED
| PUMP_QUOTE_ASSET_CONFLICT | PUMP_TOKEN_PROGRAM_UNSUPPORTED.
(** What is thrown: a decoding error (its code and whether a retry may help) or an error of a
    library; [DepthExceeded] stands for a type nested deeper than the fuel. *)
Inductive pump_exn :=
| PumpError (code : PumpDecodingErrorCode) (retryable : bool)
| LibraryError
| DepthExceeded.
Global Instance PumpDecodingErrorCode_eq_dec : EqDecision PumpDecodingErrorCode.
Proof. solve_decision. Defined.
Global Instance pump_exn_eq_dec : EqDecision pump_exn.
Proof. solve_decision. Defined.

(** * The reader *)

(** src/src/launchpads/pumpfun/borsh-reader.ts:4-15 (PumpBorshReader, offset, remaining) *)
Record PumpBorshReader := { rd_bytes : list Z; rd_position : nat }.
Definition remaining (r : PumpBorshReader) : Z :=
  Z.of_nat (List.length (rd_bytes r)) - Z.of_nat (rd_position r).
(** The state of a computation is the reader. *)
Definition reading (A : Type) : Type := prog PumpBorshReader pump_exn A.
Definition invalid_borsh {A} : reading A := pthrow (PumpError PUMP_BORSH_INVALID false).

(** src/src/launchpads/pumpfun/borsh-reader.ts:96-117 (readBytes) *)
Definition readBytes (length : Z) : reading (list Z) := fun r =>
  if negb (is_safe_integer length) || (length <? 0) then (Err (PumpError PUMP_BORSH_INVALID false), r)
  else if remaining r <? length then (Err (PumpError PUMP_BORSH_TRUNCATED true), r)
  else (Ok (take (Z.to_nat length) (drop (rd_position r) (rd_bytes r))),
        {| rd_bytes := rd_bytes r; rd_position := rd_position r + Z.to_nat length |}).

(** src/src/launchpads/pumpfun/borsh-reader.ts:17-26 (readBool) *)
Definition readBool : reading bool :=
  bytes <-- readBytes 1;
  match bytes with
  | [0] => pret false
  | [1] => pret true
  | _ => invalid_borsh
  end.
(** src/src/launchpads/pumpfun/borsh-reader.ts:28-30 (readU8) *)
Definition readU8 : reading Z :=
  bytes <-- readBytes 1;
  pret (match bytes with b :: _ => b | [] => 0 end).
(** src/src/launchpads/pumpfun/borsh-reader.ts:32-39 (readU16): little endian. *)
Definition readU16 : reading Z := data <-- readBytes 2; pret (le_value data).
(** src/src/launchpads/pumpfun/borsh-reader.ts:41-56 (readU32Length) *)
Definition readU32Length (maximum : Z) : reading Z :=
  data <-- readBytes 4;
  if maximum <? le_value data then invalid_borsh else pret (le_value data).
(** src/src/launchpads/pumpfun/borsh-reader.ts:58-65 (readU64) *)
Definition readU64 : reading Z := data <-- readBytes 8; pret (le_value data).
(** src/src/launchpads/pumpfun/borsh-reader.ts:67-74 (readI64): two's complement. *)
Definition to_signed64 (n : Z) : Z := if n <? 2 ^ 63 then n else n - 2 ^ 64.
Definition readI64 : reading Z := data <-- readBytes 8; pret (to_signed64 (le_value data)).

(** The well-formed sequences of UTF-8. *)
Definition in_range (lo hi b : Z) : bool := (lo <=? b) && (b <=? hi).
Definition continuation : Z -> bool := in_range 128 191.
Fixpoint utf8_valid (l : list Z) : bool :=
  match l with
  | [] => true
  | a :: l1 =>
    if a <? 128 then utf8_valid l1
    else match l1 with
    | [] => false
    | b :: l2 =>
      if in_range 194 223 a && continuation b then utf8_valid l2
      else match l2 with
      | [] => false
      | c :: l3 =>
        if (((a =? 224) && in_range 160 191 b) || (in_range 225 236 a && continuation b)
            || ((a =? 237) && in_range 128 159 b) || (in_range 238 239 a && continuation b))
           && continuation c then utf8_valid l3
        else match l3 with
        | [] => false
        | d :: l4 =>
          if (((a =? 240) && in_range 144 191 b) || (in_range 241 243 a && continuation b)
              || ((a =? 244) && in_range 128 143 b))
             && continuation c && continuation d then utf8_valid l4
          else false
        end
      end
    end
  end.
(** The text of a sequence: a leading byte order mark is dropped by the decoder. *)
Definition text_of (bytes : list Z) : string :=
  let bytes := match bytes with 239 :: 187 :: 191 :: rest => rest | _ => bytes end in
  of_chars (map (fun b => ascii_of_nat (Z.to_nat b)) bytes).

(** src/src/launchpads/pumpfun/borsh-reader.ts:80-94 (readString) *)
Definition readString (maxBytes : Z) : reading string :=
  length <-- readU32Length maxBytes;
  bytes <-- readBytes length;
  if utf8_valid bytes then pret (text_of bytes) else invalid_borsh.

(** * Values by type *)

(** src/src/launchpads/pumpfun/types.ts:24-33 (PumpIdlObject, PumpIdlValue): an object is the
    list of its entries; the names of a structure are distinct. *)
Inductive PumpIdlValue :=
| IdlString (s : string)
| IdlBool (b : bool)
| IdlBigint (z : Z)
| IdlArray (values : list PumpIdlValue)
| IdlObject (entries : list (string * PumpIdlValue)).

(** src/src/launchpads/pumpfun/idl-codec.ts:19-20 (MAX_STRING_BYTES, MAX_VECTOR_ITEMS) *)
Definition MAX_STRING_BYTES : Z := 1024.
Definition MAX_VECTOR_ITEMS : Z := 64.
(** src/src/launchpads/pumpfun/idl-codec.ts:112-118 (unsupportedType) *)
Definition unsupportedType {A} : reading A := pthrow (PumpError PUMP_SCHEMA_UNSUPPORTED false).

(** The name and type of a field that has one. *)
Definition named_field (f : idl_field) : option (string * idl_type) :=
  match f with NamedField n t => Some (n, t) | BareType _ => None end.
(** A field where a type is expected: the object of a named field is no type. *)
Definition bare_type (f : idl_field) : idl_type :=
  match f with NamedField _ _ => IdlOther | BareType t => t end.

(** Values one after the other. *)
Fixpoint read_all {A B} (f : A -> reading B) (l : list A) : reading (list B) :=
  match l with
  | [] => pret []
  | x :: l => y <-- f x; ys <-- read_all f l; pret (y :: ys)
  end.

(** The encoding of public keys by the web3 library. *)
Class PublicKeys := toBase58 : list Z -> string.

Section Codec.
Context `{PublicKeys}.

(** src/src/launchpads/pumpfun/borsh-reader.ts:76-78 (readPubkey) *)
Definition readPubkey : reading string := bytes <-- readBytes 32; pret (toBase58 bytes).

(** src/src/launchpads/pumpfun/idl-codec.ts:33-85 (decodeIdlValue, decodeDefinedType): the fuel
    bounds the nesting of types. *)
Fixpoint decodeIdlValue (fuel : nat) (type : idl_type) : reading PumpIdlValue :=
  match fuel with
  | O => pthrow DepthExceeded
  | S fuel =>
    match type with
    | IdlName name =>
        if String.eqb name "bool" then b <-- readBool; pret (IdlBool b)
        else if String.eqb name "u16" then n <-- readU16; pret (IdlBigint n)
        else if String.eqb name "u64" then n <-- readU64; pret (IdlBigint n)
        else if String.eqb name "i64" then n <-- readI64; pret (IdlBigint n)
        else if String.eqb name "pubkey" then k <-- readPubkey; pret (IdlString k)
        else if String.eqb name "string" then s <-- readString MAX_STRING_BYTES; pret (IdlString s)
        else unsupportedType
    | IdlOther => unsupportedType
    | IdlDefined name =>
        match TYPE_DEFINITIONS name with
        | None => unsupportedType
        | Some fields =>
            match mapM named_field fields with
            | Some named =>
                values <-- read_all (fun field => decodeIdlValue fuel (snd field)) named;
                pret (IdlObject (zip (map fst named) values))
            | None =>
                values <-- read_all (fun field => decodeIdlValue fuel (bare_type field)) fields;
                pret (IdlArray values)
            end
        end
    | IdlVec item =>
        length <-- readU32Length MAX_VECTOR_ITEMS;
        values <-- read_all (fun _ => decodeIdlValue fuel item) (repeat tt (Z.to_nat length));
        pret (IdlArray values)
    end
  end.

(** Deep enough for the description: a vector of structures of plain values. *)
Definition IDL_DEPTH : nat := 3.

(** src/src/launchpads/pumpfun/idl-codec.ts:22-31 (decodeIdlFields) *)
Definition decodeIdlFields (fields : list (string * idl_type)) : reading (list (string * PumpIdlValue)) :=
  values <-- read_all (fun field => decodeIdlValue IDL_DEPTH (snd field)) fields;
  pret (zip (map fst fields) values).
End Codec.

(** * What a computation reads *)

(** A reader inside its bytes, and what is left of it. *)
Record reader_ok (r : PumpBorshReader) : Prop := {
  ro_position : (rd_position r <= List.length (rd_bytes r))%nat;
  ro_bytes : Forall is_byte (rd_bytes r);
}.
Definition rest_of (r : PumpBorshReader) : list Z := drop (rd_position r) (rd_bytes r).
Definition advance (r : PumpBorshReader) (n : nat) : PumpBorshReader :=
  {| rd_bytes := rd_bytes r; rd_position := rd_position r + n |}.

(** [reads m R]: from a proper reader, [m] returns [a] exactly when what is left starts with
    bytes that [R] gives the value [a], and stops right behind them. *)
Definition reads {A} (m : reading A) (R : A -> list Z -> Prop) : Prop :=
  forall r a r', reader_ok r ->
    (m r = (Ok a, r') <->
     exists used rest, rest_of r = used ++ rest /\ R a used /\ r' = advance r (List.length used)).

Lemma rest_length r : reader_ok r -> Z.of_nat (List.length (rest_of r)) = remaining r.
Proof. intros [Hp _]. unfold rest_of, remaining. rewrite length_drop. lia. Qed.

Lemma advance_ok r used rest : reader_ok r -> rest_of r = used ++ rest ->
  reader_ok (advance r (List.length used)) /\ rest_of (advance r (List.length used)) = rest.
Proof.
  intros Hr Hu. pose proof (rest_length r Hr) as Hl. destruct Hr as [Hp Hb]. unfold remaining in Hl.
  rewrite Hu, length_app in Hl. split; [split; cbn; [lia|done]|].
  unfold rest_of, advance in *. cbn. rewrite <- drop_drop, Hu. by rewrite drop_app_length.
Qed.

Lemma rest_bytes r used rest : reader_ok r -> rest_of r = used ++ rest -> Forall is_byte used.
Proof.
  intros [_ Hb] Hu. assert (Forall is_byte (rest_of r)) as H by (by apply Forall_drop).
  rewrite Hu in H. by apply Forall_app in H as [H _].
Qed.

Lemma reads_ext {A} (m : reading A) (R R' : A -> list Z -> Prop) :
  (forall a used, Forall is_byte used -> R a used <-> R' a used) -> reads m R -> reads m R'.
Proof.
  intros HR Hm r a r' Hr. rewrite (Hm r a r' Hr).
  split; intros (u & v & Hu & Ha & ->); exists u, v; (split; [done|]); (split; [|done]);
    apply HR; eauto using rest_bytes.
Qed.

Lemma reads_same {A} (m m' : reading A) R : (forall r, m r = m' r) -> reads m R -> reads m' R.
Proof. intros Hm HR r a r' Hr. rewrite <- Hm. by apply HR. Qed.

Lemma reads_ret {A} (a : A) : reads (pret a) (fun b used => b = a /\ used = []).
Proof.
  intros r b r' Hr. unfold pret. split.
  - intros [= <- <-]. exists [], (rest_of r). split; [done|]. split; [done|].
    destruct r; unfold advance; cbn. by rewrite Nat.add_0_r.
  - intros (u & v & _ & [-> ->] & ->). f_equal. destruct r; unfold advance; cbn. by rewrite Nat.add_0_r.
Qed.

Lemma reads_throw {A} e : reads (A:=A) (pthrow e) (fun _ _ => False).
Proof. intros r a r' _. unfold pthrow. split; [done|]. by intros (? & ? & _ & [] & _). Qed.

Lemma reads_bind_dep {A B} (m : reading A) (k : A -> reading B) (R : A -> list Z -> Prop)
    (S : A -> B -> list Z -> Prop) :
  reads m R -> (forall a u, R a u -> reads (k a) (S a)) ->
  reads (pbind m k) (fun b used => exists a u v, used = u ++ v /\ R a u /\ S a b v).
Proof.
  intros Hm Hk r b r' Hr. rewrite pbind_Ok. split.
  - intros (a & r1 & Ha & Hb). apply Hm in Ha as (u & rest & Hu & Ha & ->); [|done].
    destruct (advance_ok r u rest Hr Hu) as [Hr1 Hrest].
    apply (Hk a u Ha) in Hb as (v & rest' & Hv & Hb & ->); [|done]. rewrite Hrest in Hv. subst rest.
    exists (u ++ v), rest'. rewrite <- app_assoc. split; [done|]. split; [by exists a, u, v|].
    unfold advance; cbn. f_equal. rewrite length_app. lia.
  - intros (used & rest & Hu & (a & u & v & -> & Ha & Hb) & ->). rewrite <- app_assoc in Hu.
    destruct (advance_ok r u _ Hr Hu) as [Hr1 Hrest].
    exists a, (advance r (List.length u)). split; [apply Hm; eauto|].
    apply (Hk a u Ha); [done|]. exists v, rest. split; [done|]. split; [done|].
    unfold advance; cbn. f_equal. rewrite length_app. lia.
Qed.
Lemma reads_bind {A B} (m : reading A) (k : A -> reading B) (R : A -> list Z -> Prop)
    (S : A -> B -> list Z -> Prop) :
  reads m R -> (forall a, reads (k a) (S a)) ->
  reads (pbind m k) (fun b used => exists a u v, used = u ++ v /\ R a u /\ S a b v).
Proof. intros Hm Hk. apply reads_bind_dep; auto. Qed.

Lemma reads_bytes n : 0 <= n <= MAX_SAFE_INTEGER ->
  reads (readBytes n) (fun bs used => bs = used /\ Z.of_nat (List.length used) = n).
Proof.
  intros Hn r bs r' Hr. unfold readBytes.
  assert (is_safe_integer n = true) as -> by (apply is_safe_integer_true; lia).
  destruct (Z.ltb_spec n 0); [lia|]. cbn [negb orb]. rewrite <- (rest_length r Hr). fold (rest_of r).
  destruct (Z.ltb_spec (Z.of_nat (List.length (rest_of r))) n) as [Hlt|Hge].
  - split; [done|]. intros (u & v & Hu & [_ Hl] & _). rewrite Hu, length_app in Hlt. lia.
  - split.
    + intros [= <- <-]. exists (take (Z.to_nat n) (rest_of r)), (drop (Z.to_nat n) (rest_of r)).
      rewrite take_drop. rewrite length_take. split; [done|]. split; [split; [done|lia]|].
      unfold advance. f_equal. lia.
    + intros (u & v & Hu & [-> Hl] & ->). rewrite Hu, <- Hl, Nat2Z.id, take_app_length. done.
Qed.

(** A computation on what was read, and its values one after the other. *)
Lemma reads_map {A B} (m : reading A) (f : A -> B) (R : A -> list Z -> Prop) :
  reads m R -> reads (a <-- m; pret (f a)) (fun b used => exists a, b = f a /\ R a used).
Proof.
  intros Hm. eapply reads_ext; [|apply reads_bind; [exact Hm|intros a; apply reads_ret]].
  intros b used _. split.
  - intros (a & u & v & -> & HR & -> & ->). rewrite app_nil_r. eauto.
  - intros (a & -> & HR). exists a, used, []. rewrite app_nil_r. eauto.
Qed.

(** * The grammar *)

(** A number in little-endian bytes. *)
Fixpoint le_bytes (n : nat) (v : Z) : list Z :=
  match n with
  | O => []
  | S n => v mod 256 :: le_bytes n (v / 256)
  end.

Lemma le_bytes_length n v : List.length (le_bytes n v) = n.
Proof. revert v. induction n; intros v; cbn; [done|]. by rewrite IHn. Qed.
Lemma le_value_bytes n v : 0 <= v < 256 ^ Z.of_nat n -> le_value (le_bytes n v) = v.
Proof.
  revert v. induction n as [|n IH]; intros v Hv; [cbn in *; lia|]. cbn [le_bytes le_value foldr].
  change (foldr _ 0 (le_bytes n (v / 256))) with (le_value (le_bytes n (v / 256))).
  rewrite Nat2Z.inj_succ, Z.pow_succ_r in Hv by lia.
  rewrite IH by (split; [apply Z.div_pos; lia|apply Z.div_lt_upper_bound; lia]).
  pose proof (Z.div_mod v 256). lia.
Qed.
Lemma le_bytes_value l : Forall is_byte l -> le_bytes (List.length l) (le_value l) = l.
Proof.
  induction 1 as [|b l Hb Hl IH]; [done|]. unfold is_byte in Hb. cbn [List.length le_bytes le_value foldr].
  change (foldr _ 0 l) with (le_value l).
  rewrite (Z.mul_comm 256), Z.mod_add, Z.div_add, Z.mod_small, (Z.div_small b), Z.add_0_l, IH by lia. done.
Qed.

Section Grammar.
Context `{PublicKeys}.

(** [encodes type value bytes]: the encoding of values, and of several in a row. *)
Inductive encodes : idl_type -> PumpIdlValue -> list Z -> Prop :=
| enc_bool (b : bool) : encodes (IdlName "bool") (IdlBool b) [if b then 1 else 0]
| enc_u16 n : 0 <= n < 2 ^ 16 -> encodes (IdlName "u16") (IdlBigint n) (le_bytes 2 n)
| enc_u64 n : 0 <= n < 2 ^ 64 -> encodes (IdlName "u64") (IdlBigint n) (le_bytes 8 n)
| enc_i64 n : - 2 ^ 63 <= n < 2 ^ 63 -> encodes (IdlName "i64") (IdlBigint n) (le_bytes 8 (n mod 2 ^ 64))
| enc_pubkey k : List.length k = 32%nat -> encodes (IdlName "pubkey") (IdlString (toBase58 k)) k
| enc_string bs : Z.of_nat (List.length bs) <= MAX_STRING_BYTES -> utf8_valid bs = true ->
    encodes (IdlName "string") (IdlString (text_of bs)) (le_bytes 4 (Z.of_nat (List.length bs)) ++ bs)
| enc_named name fields named values bs :
    TYPE_DEFINITIONS name = Some fields -> mapM named_field fields = Some named ->
    encodes_all (map snd named) values bs ->
    encodes (IdlDefined name) (IdlObject (zip (map fst named) values)) bs
| enc_tuple name fields values bs :
    TYPE_DEFINITIONS name = Some fields -> mapM named_field fields = None ->
    encodes_all (map bare_type fields) values bs ->
    encodes (IdlDefined name) (IdlArray values) bs
| enc_vec item values bs :
    Z.of_nat (List.length values) <= MAX_VECTOR_ITEMS ->
    encodes_all (repeat item (List.length values)) values bs ->
    encodes (IdlVec item) (IdlArray values) (le_bytes 4 (Z.of_nat (List.length values)) ++ bs)
with encodes_all : list idl_type -> list PumpIdlValue -> list Z -> Prop :=
| enc_nil : encodes_all [] [] []
| enc_cons t ts v vs b bs :
    encodes t v b -> encodes_all ts vs bs -> encodes_all (t :: ts) (v :: vs) (b ++ bs).

(** The fuel is enough for a type. *)
Fixpoint type_fits (fuel : nat) (type : idl_type) : bool :=
  match fuel with
  | O => false
  | S fuel =>
    match type with
    | IdlName _ | IdlOther => true
    | IdlVec item => type_fits fuel item
    | IdlDefined name =>
        match TYPE_DEFINITIONS name with
        | None => true
        | Some fields =>
            match mapM named_field fields with
            | Some named => forallb (fun f => type_fits fuel (snd f)) named
            | None => forallb (fun f => type_fits fuel (bare_type f)) fields
            end
        end
    end
  end.

(** The readers of plain values. *)
Lemma reads_le (n : nat) : (n <= 8)%nat ->
  reads (data <-- readBytes (Z.of_nat n); pret (le_value data))
    (fun v used => 0 <= v < 256 ^ Z.of_nat n /\ used = le_bytes n v).
Proof.
  intros Hn. eapply reads_ext; [|apply reads_map, reads_bytes; unfold MAX_SAFE_INTEGER; lia].
  intros v used Hb. cbn. split.
  - intros (a & -> & -> & Hl). apply Nat2Z.inj in Hl. split.
    + rewrite <- Hl. by apply le_value_bound.
    + rewrite <- Hl. by rewrite le_bytes_value.
  - intros [Hv ->]. exists (le_bytes n v). rewrite le_value_bytes, le_bytes_length by done. done.
Qed.

Lemma reads_length maximum : maximum < 2 ^ 32 ->
  reads (readU32Length maximum) (fun v used => 0 <= v <= maximum /\ used = le_bytes 4 v).
Proof.
  intros Hm.
  apply (reads_same (n <-- (data <-- readBytes (Z.of_nat 4); pret (le_value data));
                     if maximum <? n then invalid_borsh else pret n)).
  { intros r. unfold readU32Length, pbind, pret. change (Z.of_nat 4) with 4. by destruct (readBytes 4 r) as [[]]. }
  eapply reads_ext; [|apply (reads_bind _ _ _ (fun n v used => n <= maximum /\ v = n /\ used = []) (reads_le 4 ltac:(lia)))].
  - intros v used _. split.
    + intros (n & u & w & -> & [Hn ->] & Hle & -> & ->). rewrite app_nil_r. split; [lia|done].
    + intros [Hv ->]. exists v, (le_bytes 4 v), []. rewrite app_nil_r. split; [done|].
      change (256 ^ Z.of_nat 4) with (2 ^ 32). repeat split; lia.
  - intros n. destruct (Z.ltb_spec maximum n).
    + eapply reads_ext; [|apply reads_throw]. cbn. intros. split; [done|lia].
    + eapply reads_ext; [|apply reads_ret]. cbn. intros. intuition.
Qed.

Lemma reads_bool : reads readBool (fun b used => used = [if b then 1 else 0]).
Proof.
  eapply reads_ext; [|apply (reads_bind _ _ _ (fun bs (b : bool) used => bs = [if b then 1 else 0] /\ used = [])
    (reads_bytes 1 ltac:(unfold MAX_SAFE_INTEGER; lia)))].
  - intros b used _. split.
    + intros (bs & u & v & -> & [-> _] & -> & ->). by rewrite app_nil_r.
    + intros ->. exists [if b then 1 else 0], [if b then 1 else 0], []. done.
  - intros bs. destruct (decide (bs = [0])) as [->|H0]; [|destruct (decide (bs = [1])) as [->|H1]].
    + eapply reads_ext; [|apply reads_ret]. cbn. intros b u _. destruct b; naive_solver.
    + eapply reads_ext; [|apply reads_ret]. cbn. intros b u _. destruct b; naive_solver.
    + destruct bs as [|x [|y l]]; [|destruct x as [|[p|p|]|p]; try done|destruct x as [|[p|p|]|p]];
        (eapply reads_ext; [|apply reads_throw]); cbn; intros b u _; split; try done; intros [E _]; by destruct b.
Qed.

Lemma reads_plain {A} (m : reading A) (f : A -> PumpIdlValue) (R : A -> list Z -> Prop) type :
  reads m R -> (forall v used, encodes type v used <-> exists a, v = f a /\ R a used) ->
  reads (a <-- m; pret (f a)) (encodes type).
Proof.
  intros Hm HR. eapply reads_ext; [|apply reads_map; exact Hm]. intros v used _. cbn. by rewrite HR.
Qed.

Lemma reads_string : reads (readString MAX_STRING_BYTES)
  (fun s used => exists bs, s = text_of bs /\ Z.of_nat (List.length bs) <= MAX_STRING_BYTES
     /\ utf8_valid bs = true /\ used = le_bytes 4 (Z.of_nat (List.length bs)) ++ bs).
Proof.
  unfold readString. eapply reads_ext.
  2:{ eapply reads_bind_dep; [apply reads_length; unfold MAX_STRING_BYTES; lia|].
      intros n u [Hn _]. apply (reads_bind _ _ (fun bs used => bs = used /\ Z.of_nat (List.length used) = n)
        (fun bs s used => utf8_valid bs = true /\ s = text_of bs /\ used = [])).
      - apply reads_bytes. unfold MAX_STRING_BYTES, MAX_SAFE_INTEGER in *. lia.
      - intros bs. destruct (utf8_valid bs) eqn:E.
        + eapply reads_ext; [|apply reads_ret]. cbn. naive_solver.
        + eapply reads_ext; [|apply reads_throw]. cbn. naive_solver. }
  intros s used Hb. cbn. split.
  - intros (n & u & v & -> & [Hn ->] & bs & w & x & -> & [-> Hl] & Hv & -> & ->). rewrite app_nil_r, <- Hl in *.
    exists w. repeat split; [lia|done].
  - intros (bs & -> & Hl & Hv & ->).
    exists (Z.of_nat (List.length bs)), (le_bytes 4 (Z.of_nat (List.length bs))), bs.
    split; [done|]. split; [split; [lia|done]|]. exists bs, bs, []. rewrite app_nil_r. repeat split; done.
Qed.

Lemma reads_all {A} (f : A -> reading PumpIdlValue) (ty : A -> idl_type) l :
  Forall (fun x => reads (f x) (encodes (ty x))) l ->
  reads (read_all f l) (encodes_all (map ty l)).
Proof.
  induction 1 as [|x l Hx Hl IH]; cbn [read_all map].
  - eapply reads_ext; [|apply reads_ret]. cbn. intros vs used _. split; [intros [-> ->]; constructor|].
    by inversion 1.
  - eapply reads_ext; [|apply reads_bind; [exact Hx|intros v; apply reads_map; exact IH]].
    cbn. intros vs used _. split.
    + intros (v & u & w & -> & Hv & vs' & -> & Hvs). by constructor.
    + inversion 1; subst. eexists _, _, _. split; [done|]. split; [done|]. by eexists.
Qed.

Lemma encodes_all_length ts vs bs : encodes_all ts vs bs -> List.length vs = List.length ts.
Proof. induction 1; cbn; congruence. Qed.

Lemma to_signed64_bytes v used :
  (exists n, v = to_signed64 n /\ 0 <= n < 2 ^ 64 /\ used = le_bytes 8 n)
  <-> - 2 ^ 63 <= v < 2 ^ 63 /\ used = le_bytes 8 (v mod 2 ^ 64).
Proof.
  unfold to_signed64. split.
  - intros (n & -> & Hn & ->). destruct (Z.ltb_spec n (2 ^ 63)).
    + split; [lia|]. by rewrite Z.mod_small by lia.
    + split; [lia|]. rewrite <- (Z_mod_plus_full (n - 2 ^ 64) 1 (2 ^ 64)).
      replace (n - 2 ^ 64 + 1 * 2 ^ 64) with n by lia. by rewrite Z.mod_small by lia.
  - intros [Hv ->]. exists (v mod 2 ^ 64). pose proof (Z.mod_pos_bound v (2 ^ 64)).
    split; [|split; [lia|done]]. destruct (Z_lt_le_dec v 0).
    + rewrite <- (Z_mod_plus_full v 1 (2 ^ 64)), (Z.mod_small (v + 1 * 2 ^ 64)) by lia.
      destruct (Z.ltb_spec (v + 1 * 2 ^ 64) (2 ^ 63)); lia.
    + rewrite Z.mod_small by lia. destruct (Z.ltb_spec v (2 ^ 63)); lia.
Qed.

Lemma reads_i64 : reads readI64 (fun v used => - 2 ^ 63 <= v < 2 ^ 63 /\ used = le_bytes 8 (v mod 2 ^ 64)).
Proof.
  apply (reads_same (n <-- (data <-- readBytes (Z.of_nat 8); pret (le_value data)); pret (to_signed64 n))).
  { intros r. unfold readI64, pbind, pret. change (Z.of_nat 8) with 8. by destruct (readBytes 8 r) as [[]]. }
  eapply reads_ext; [|apply reads_map, reads_le; lia]. intros v used _. cbn. apply to_signed64_bytes.
Qed.

(** The six plain types. *)
Lemma reads_name fuel name : reads (decodeIdlValue (S fuel) (IdlName name)) (encodes (IdlName name)).
Proof.
  cbn [decodeIdlValue].
  destruct (String.eqb_spec name "bool") as [->|N1].
  { eapply reads_plain; [apply reads_bool|]. split; [by inversion 1; eexists|]. intros (b & -> & ->). constructor. }
  destruct (String.eqb_spec name "u16") as [->|N2].
  { eapply reads_plain; [apply (reads_le 2); lia|]. split; [by inversion 1; eexists|].
    intros (n & -> & Hn & ->). by constructor. }
  destruct (String.eqb_spec name "u64") as [->|N3].
  { eapply reads_plain; [apply (reads_le 8); lia|]. split; [by inversion 1; eexists|].
    intros (n & -> & Hn & ->). by constructor. }
  destruct (String.eqb_spec name "i64") as [->|N4].
  { eapply reads_plain; [apply reads_i64|]. split; [by inversion 1; eexists|].
    intros (n & -> & Hn & ->). by constructor. }
  destruct (String.eqb_spec name "pubkey") as [->|N5].
  { eapply reads_plain; [apply reads_map, reads_bytes; unfold MAX_SAFE_INTEGER; lia|]. cbn. split.
    - inversion 1; subst. eexists. split; [done|]. eexists. split; [done|]. split; [done|]. lia.
    - intros (? & -> & k & -> & -> & Hl). constructor. lia. }
  destruct (String.eqb_spec name "string") as [->|N6].
  { eapply reads_plain; [apply reads_string|]. cbn. split.
    - inversion 1; subst. eexists. split; [done|]. by eexists.
    - intros (? & -> & k & -> & Hl & Hv & ->). by constructor. }
  eapply reads_ext; [|apply reads_throw]. intros v used _. split; [done|]. by inversion 1.
Qed.

(** The decoder refines the grammar. *)
Lemma decode_reads fuel type : type_fits fuel type = true ->
  reads (decodeIdlValue fuel type) (encodes type).
Proof.
  revert type. induction fuel as [|fuel IH]; intros type Hf; [done|].
  destruct type as [name|name|item|]; [apply reads_name| | |].
  - cbn [decodeIdlValue type_fits] in *. destruct (TYPE_DEFINITIONS name) as [fields|] eqn:Ed.
    2:{ eapply reads_ext; [|apply reads_throw]. intros v used _. split; [done|]. inversion 1; congruence. }
    destruct (mapM named_field fields) as [named|] eqn:En.
    + eapply reads_plain; [apply (reads_all _ snd); apply Forall_forall; intros f Hin|].
      * apply IH. apply forallb_forall with (x := f) in Hf; [done|]. by apply list_elem_of_In.
      * intros v used. split.
        -- inversion 1; subst; [|congruence]. simplify_eq. eauto.
        -- intros (vs & -> & Hvs). by eapply enc_named.
    + eapply reads_plain; [apply (reads_all _ bare_type); apply Forall_forall; intros f Hin|].
      * apply IH. apply forallb_forall with (x := f) in Hf; [done|]. by apply list_elem_of_In.
      * intros v used. split.
        -- inversion 1; subst; [congruence|]. simplify_eq. eauto.
        -- intros (vs & -> & Hvs). by eapply enc_tuple.
  - cbn [decodeIdlValue type_fits] in *. eapply reads_ext.
    2:{ eapply reads_bind; [apply reads_length; unfold MAX_VECTOR_ITEMS; lia|]. intros n.
        apply reads_map, (reads_all _ (fun _ => item)). apply Forall_forall. intros f _. by apply IH. }
    cbn. intros v used _. split.
    + intros (n & u & w & -> & [Hn ->] & vs & -> & Hvs). rewrite map_repeat in Hvs.
      pose proof (encodes_all_length _ _ _ Hvs) as Hl. rewrite repeat_length in Hl.
      replace n with (Z.of_nat (List.length vs)) by lia. constructor; [lia|].
      by rewrite Hl.
    + inversion 1 as [| | | | | | | |? vs ?]; subst.
      eexists (Z.of_nat (List.length vs)), _, _. split; [done|]. split; [split; [lia|done]|].
      eexists. split; [done|]. by rewrite map_repeat, Nat2Z.id.
  - eapply reads_ext; [|apply reads_throw]. intros v used _. split; [done|]. by inversion 1.
Qed.

(** * The fuel is enough *)

Definition fueled {A} (m : reading A) : Prop := forall r, fst (m r) <> Err DepthExceeded.

Lemma fueled_ret {A} (a : A) : fueled (pret a). Proof. done. Qed.
Lemma fueled_throw {A} c b : fueled (A:=A) (pthrow (PumpError c b)). Proof. done. Qed.
Lemma fueled_bind {A B} (m : reading A) (k : A -> reading B) :
  fueled m -> (forall a, fueled (k a)) -> fueled (pbind m k).
Proof.
  intros Hm Hk r. unfold pbind. specialize (Hm r). destruct (m r) as [[a|e] r']; [apply Hk|].
  cbn in *. congruence.
Qed.
Lemma fueled_bytes n : fueled (readBytes n).
Proof. intros r. unfold readBytes. by repeat split_match. Qed.
Lemma fueled_all {A B} (f : A -> reading B) l : Forall (fun x => fueled (f x)) l -> fueled (read_all f l).
Proof. induction 1; cbn [read_all]; [done|]. apply fueled_bind; [done|]. intros. by apply fueled_bind. Qed.

(** Break a reader down to its reads. *)
Ltac fueled_solve :=
  repeat match goal with
  | |- fueled (pbind _ _) => apply fueled_bind; [|intros]
  | |- fueled (readBytes _) => apply fueled_bytes
  | |- fueled (pret _) => apply fueled_ret
  | |- fueled (pthrow (PumpError _ _)) => apply fueled_throw
  | |- fueled (if ?b then _ else _) => destruct b
  | |- fueled (match ?x with _ => _ end) => destruct x
  end.

Lemma decode_fueled fuel type : type_fits fuel type = true -> fueled (decodeIdlValue fuel type).
Proof.
  revert type. induction fuel as [|fuel IH]; intros type Hf; [done|].
  destruct type as [name|name|item|]; cbn [decodeIdlValue type_fits] in *.
  - unfold readBool, readU16, readU64, readI64, readPubkey, readString, readU32Length, invalid_borsh, unsupportedType.
    fueled_solve.
  - unfold unsupportedType. destruct (TYPE_DEFINITIONS name) as [fields|]; [|done].
    destruct (mapM named_field fields) as [named|]; fueled_solve; apply fueled_all, Forall_forall; intros f Hin;
      apply IH; apply forallb_forall with (x := f) in Hf; try done; by apply list_elem_of_In.
  - unfold readU32Length, invalid_borsh. fueled_solve. apply fueled_all, Forall_forall. auto.
  - done.
Qed.

(** Every argument and every named field of the description. *)
Definition described_fields : list (string * idl_type) :=
  flat_map (fun d => id_args (snd d)) DEFINITIONS
  ++ omap named_field (ty_CreateEvent ++ ty_TradeEvent ++ ty_Shareholder).

Lemma described_fit fields : fields ⊆ described_fields ->
  Forall (fun f : string * idl_type => type_fits IDL_DEPTH (snd f) = true) fields.
Proof.
  intros Hf. assert (Forall (fun f : string * idl_type => type_fits IDL_DEPTH (snd f) = true) described_fields) as Hall.
  { apply (bool_decide_unpack _). vm_compute. exact I. }
  apply Forall_forall. intros f Hin. by apply (proj1 (Forall_forall _ _) Hall), Hf.
Qed.

Lemma fields_read fields : fields ⊆ described_fields ->
  reads (decodeIdlFields fields)
    (fun entries used => exists values, entries = zip (map fst fields) values
                                        /\ encodes_all (map snd fields) values used).
Proof.
  intros Hf. apply reads_map, reads_all. eapply Forall_impl; [by apply described_fit|].
  intros f Hfit. by apply decode_reads.
Qed.

(** C19: the decoder is the grammar.  Reading any of the description's arguments and event
    fields, in any order, from a reader inside its bytes returns entries exactly when the
    bytes ahead start with the encodings of values for those types, one after the other:
    little-endian integers at their width, keys of 32 bytes, valid UTF-8 of at most 1024
    bytes, vectors of at most 64 items; the entries are those values under the fields' names
    and the reader stops right behind them.  The nesting bound is never what stops it. *)
Theorem borsh_decoder_refines (fields : list (string * idl_type)) (r : PumpBorshReader)
    (Hf : fields ⊆ described_fields) (Hr : reader_ok r) :
  (forall entries r',
    decodeIdlFields fields r = (Ok entries, r') <->
    exists values used rest, rest_of r = used ++ rest /\ encodes_all (map snd fields) values used
      /\ entries = zip (map fst fields) values /\ r' = advance r (List.length used))
  /\ fst (decodeIdlFields fields r) <> Err DepthExceeded.
Proof.
  split.
  - intros entries r'. rewrite (fields_read fields Hf r entries r' Hr). naive_solver.
  - apply fueled_bind; [|done]. apply fueled_all. eapply Forall_impl; [by apply described_fit|].
    intros f Hfit. by apply decode_fueled.
Qed.
End Grammar.

(** The amount and the limit of a purchase. *)
Lemma borsh_decoder_refines_witness :
  let K : PublicKeys := fun _ => "key" in
  let r := {| rd_bytes := [16; 39; 0; 0; 0; 0; 0; 0; 1; 1; 0; 0; 0; 0; 0; 0; 1]; rd_position := 0 |} in
  exists values used rest, rest_of r = used ++ rest
    /\ encodes_all (map snd (take 2 (id_args ix_buy))) values used
    /\ [("amount", IdlBigint 10000); ("max_sol_cost", IdlBigint 257)]
       = zip (map fst (take 2 (id_args ix_buy))) values
    /\ advance r 16 = advance r (List.length used).
Proof.
  intros K r. apply (borsh_decoder_refines (take 2 (id_args ix_buy)) r).
  - intros f Hf. unfold described_fields. apply elem_of_app. left.
    apply elem_of_cons in Hf as [->|Hf]; [left|]. apply elem_of_cons in Hf as [->|Hf]; [right; left|].
    by apply elem_of_nil in Hf.
  - split; [cbn; lia|]. repeat constructor; cbn; lia.
  - vm_compute. reflexivity.
Defined.
