(* ===== verification/PumpEvents.v ===== *)
(** [src/src/launchpads/pumpfun/event-decoder.ts], [instruction-decoder.ts]: the instructions
    and the events of the Pump.fun program.

    An instruction is told by the first eight bytes of its data; its accounts get the names of
    the description and its arguments are decoded, with the suffixes that later versions of the
    program append.  Events are instructions the program sends to itself.  The diagnostics the
    decoders attach to an error, which do not change it, are left out. *)
From S2P Require Import Prelude Text Types Json PublicKey PumpIdl PumpBorsh.
From Stdlib Require Import Ascii String.
Local Open Scope string_scope.
Local Open Scope list_scope.
Local Open Scope Z_scope.

(** src/src/solana/rpc/types.ts:3-11 (NormalizedInstruction) *)
Record NormalizedInstruction := {
  ni_programId : string;
  ni_accounts : list string;
  ni_data : list Z;
  ni_instructionIndex : Z;
  ni_innerInstructionIndex : option Z;
  ni_parentInstructionIndex : option Z;
  ni_stackHeight : option Z;
}.

(** Addresses of the program and those it derives, from the web3 and token libraries; [None]
    is a derivation that throws. *)
Class PumpProgram := {
  pp_programId : string;
  pp_wsolMint : string;
  pp_splTokenProgram : string;
  pp_token2022Program : string;
  pp_quoteControl : string;
  pp_eventAuthority : string;
  pp_bondingCurvePda : string -> option string;
  pp_holderRewardsPda : string -> option string;
  pp_associatedToken : string -> string -> string -> option string;
}.

(** * Data *)

(** src/src/launchpads/pumpfun/types.ts:59-62 (DecodedPumpShareholder) *)
Record DecodedPumpShareholder := { sh_address : string; sh_shareBps : Z }.
(** src/src/launchpads/pumpfun/types.ts:64-86 (DecodedPumpCreateEvent) *)
Record DecodedPumpCreateEvent := {
  ce_name : string;
  ce_symbol : string;
  ce_uri : string;
  ce_mint : string;
  ce_bondingCurve : string;
  ce_user : string;
  ce_creator : string;
  ce_timestamp : Z;
  ce_virtualTokenReserves : Z;
  ce_virtualSolReserves : Z;
  ce_realTokenReserves : Z;
  ce_tokenTotalSupply : Z;
  ce_tokenProgram : string;
  ce_isMayhemMode : bool;
  ce_isCashbackEnabled : bool;
  ce_quoteMint : string;
  ce_virtualQuoteReserves : Z;
  ce_creatorFeeBps : Z;
  ce_isHolderReward : bool;
  ce_depth : Z;
}.
(** src/src/launchpads/pumpfun/types.ts:88-123 (DecodedPumpTradeEvent) *)
Record DecodedPumpTradeEvent := {
  te_mint : string;
  te_solAmount : Z;
  te_tokenAmount : Z;
  te_isBuy : bool;
  te_user : string;
  te_timestamp : Z;
  te_virtualSolReserves : Z;
  te_virtualTokenReserves : Z;
  te_realSolReserves : Z;
  te_realTokenReserves : Z;
  te_feeRecipient : string;
  te_feeBasisPoints : Z;
  te_fee : Z;
  te_creator : string;
  te_creatorFeeBasisPoints : Z;
  te_creatorFee : Z;
  te_trackVolume : bool;
  te_totalUnclaimedTokens : Z;
  te_totalClaimedTokens : Z;
  te_currentSolVolume : Z;
  te_lastUpdateTimestamp : Z;
  te_ixName : string;
  te_mayhemMode : bool;
  te_cashbackFeeBasisPoints : Z;
  te_cashback : Z;
  te_buybackFeeBasisPoints : Z;
  te_buybackFee : Z;
  te_shareholders : list DecodedPumpShareholder;
  te_quoteMint : string;
  te_quoteAmount : Z;
  te_virtualQuoteReserves : Z;
  te_realQuoteReserves : Z;
  te_holderRewardsBps : Z;
  te_holderRewards : Z;
}.
(** src/src/launchpads/pumpfun/types.ts:125-137 (DecodedPumpCpiEvent): the trailing data is
    empty in both kinds. *)
Inductive pump_event := CreateEvent (e : DecodedPumpCreateEvent) | TradeEvent (e : DecodedPumpTradeEvent).
Record DecodedPumpCpiEvent := { cpi_event : pump_event; cpi_instruction : NormalizedInstruction }.

(** src/src/launchpads/pumpfun/types.ts:22-22 (PumpInstructionFamily) *)
Inductive PumpInstructionFamily := FAMILY_CREATE | FAMILY_BUY | FAMILY_SELL | FAMILY_MIGRATE.
(** src/src/launchpads/pumpfun/types.ts:50-52 (PumpObservedWireProfile) *)
Inductive PumpObservedWireProfile := CREATE_V2_OPAQUE_0001_V1 | SELL_OPAQUE_0100_V1.
(** src/src/launchpads/pumpfun/types.ts:35-48 (DecodedPumpInstruction): accounts and arguments
    under their names; the evidence is the profile and the cursor of the paired event. *)
Record wire_evidence := {
  we_profile : PumpObservedWireProfile;
  we_instructionIndex : Z;
  we_innerInstructionIndex : option Z;
  we_stackHeight : option Z;
}.
Record DecodedPumpInstruction := {
  di_name : PumpInstructionName;
  di_family : PumpInstructionFamily;
  di_instruction : NormalizedInstruction;
  di_accounts : list (string * string);
  di_args : list (string * PumpIdlValue);
  di_wireEvidence : option wire_evidence;
}.
(** src/src/launchpads/pumpfun/types.ts:54-57 (PumpInstructionCandidate) *)
Record PumpInstructionCandidate := {
  pi_action : DecodedPumpInstruction;
  pi_profile : option PumpObservedWireProfile;
}.
Global Instance PumpInstructionFamily_eq_dec : EqDecision PumpInstructionFamily.
Proof. solve_decision. Defined.
Global Instance PumpObservedWireProfile_eq_dec : EqDecision PumpObservedWireProfile.
Proof. solve_decision. Defined.

(** * Shared pieces *)

(** [entries[name]] *)
Fixpoint entry {A} (entries : list (string * A)) (name : string) : option A :=
  match entries with
  | [] => None
  | (n, v) :: entries => if String.eqb n name then Some v else entry entries name
  end.

Definition pump_throw {A} (code : PumpDecodingErrorCode) (retryable : bool) : result pump_exn A :=
  Err (PumpError code retryable).
(** A reader run on bytes; what it leaves is dropped. *)
Definition run {A} (m : reading A) (bytes : list Z) : result pump_exn A :=
  fst (m {| rd_bytes := bytes; rd_position := 0 |}).
(** [reader.remaining] inside a computation. *)
Definition read_remaining : reading Z := fun r => (Ok (remaining r), r).

(** src/src/launchpads/pumpfun/event-decoder.ts:260-266 (invalidField) *)
Definition invalidField {A} : result pump_exn A := pump_throw PUMP_SCHEMA_UNSUPPORTED false.
(** src/src/launchpads/pumpfun/event-decoder.ts:233-258 (requireString, requireBigInt,
    requireBoolean) *)
Definition requireString (fields : list (string * PumpIdlValue)) (name : string) : result pump_exn string :=
  match entry fields name with Some (IdlString s) => Ok s | _ => invalidField end.
Definition requireBigInt (fields : list (string * PumpIdlValue)) (name : string) : result pump_exn Z :=
  match entry fields name with Some (IdlBigint z) => Ok z | _ => invalidField end.
Definition requireBoolean (fields : list (string * PumpIdlValue)) (name : string) : result pump_exn bool :=
  match entry fields name with Some (IdlBool b) => Ok b | _ => invalidField end.

(** src/src/launchpads/pumpfun/event-decoder.ts:220-231 (decodeShareholders) *)
Definition decodeShareholders (value : option PumpIdlValue) : result pump_exn (list DecodedPumpShareholder) :=
  match value with
  | Some (IdlArray items) =>
      foldr (fun item rest =>
          x ← match item with
              | IdlObject fields =>
                  address ← requireString fields "address";
                  share ← requireBigInt fields "share_bps";
                  Ok {| sh_address := address; sh_shareBps := share |}
              | _ => invalidField
              end;
          xs ← rest; Ok (x :: xs)) (Ok []) items
  | _ => invalidField
  end.

(** * Events *)

(** [fields.slice(0, -2)] *)
Definition but_last_two {A} (l : list A) : list A := take (List.length l - 2) l.
(** src/src/launchpads/pumpfun/event-decoder.ts:283-293 (invalidEventSuffix) *)
Definition invalidEventSuffix {A} : reading A := invalid_borsh.

(** src/src/launchpads/pumpfun/event-decoder.ts:114-138 (decodeCreateEvent): the fields of the
    event. *)
Definition create_event (fields : list (string * PumpIdlValue)) (creatorFeeBps : Z) (isHolderReward : bool)
    (depth : Z) : result pump_exn DecodedPumpCreateEvent :=
  name ← requireString fields "name";
  symbol ← requireString fields "symbol";
  uri ← requireString fields "uri";
  mint ← requireString fields "mint";
  bondingCurve ← requireString fields "bonding_curve";
  user ← requireString fields "user";
  creator ← requireString fields "creator";
  timestamp ← requireBigInt fields "timestamp";
  virtualTokenReserves ← requireBigInt fields "virtual_token_reserves";
  virtualSolReserves ← requireBigInt fields "virtual_sol_reserves";
  realTokenReserves ← requireBigInt fields "real_token_reserves";
  tokenTotalSupply ← requireBigInt fields "token_total_supply";
  tokenProgram ← requireString fields "token_program";
  isMayhemMode ← requireBoolean fields "is_mayhem_mode";
  isCashbackEnabled ← requireBoolean fields "is_cashback_enabled";
  quoteMint ← requireString fields "quote_mint";
  virtualQuoteReserves ← requireBigInt fields "virtual_quote_reserves";
  Ok {| ce_name := name; ce_symbol := symbol; ce_uri := uri; ce_mint := mint;
        ce_bondingCurve := bondingCurve; ce_user := user; ce_creator := creator;
        ce_timestamp := timestamp; ce_virtualTokenReserves := virtualTokenReserves;
        ce_virtualSolReserves := virtualSolReserves; ce_realTokenReserves := realTokenReserves;
        ce_tokenTotalSupply := tokenTotalSupply; ce_tokenProgram := tokenProgram;
        ce_isMayhemMode := isMayhemMode; ce_isCashbackEnabled := isCashbackEnabled;
        ce_quoteMint := quoteMint; ce_virtualQuoteReserves := virtualQuoteReserves;
        ce_creatorFeeBps := creatorFeeBps; ce_isHolderReward := isHolderReward; ce_depth := depth |}.

(** src/src/launchpads/pumpfun/event-decoder.ts:164-211 (decodeTradeEvent): the fields of the
    event. *)
Definition trade_event (fields : list (string * PumpIdlValue)) (holderRewardsBps holderRewards : Z)
    : result pump_exn DecodedPumpTradeEvent :=
  mint ← requireString fields "mint";
  solAmount ← requireBigInt fields "sol_amount";
  tokenAmount ← requireBigInt fields "token_amount";
  isBuy ← requireBoolean fields "is_buy";
  user ← requireString fields "user";
  timestamp ← requireBigInt fields "timestamp";
  virtualSolReserves ← requireBigInt fields "virtual_sol_reserves";
  virtualTokenReserves ← requireBigInt fields "virtual_token_reserves";
  realSolReserves ← requireBigInt fields "real_sol_reserves";
  realTokenReserves ← requireBigInt fields "real_token_reserves";
  feeRecipient ← requireString fields "fee_recipient";
  feeBasisPoints ← requireBigInt fields "fee_basis_points";
  fee ← requireBigInt fields "fee";
  creator ← requireString fields "creator";
  creatorFeeBasisPoints ← requireBigInt fields "creator_fee_basis_points";
  creatorFee ← requireBigInt fields "creator_fee";
  trackVolume ← requireBoolean fields "track_volume";
  totalUnclaimedTokens ← requireBigInt fields "total_unclaimed_tokens";
  totalClaimedTokens ← requireBigInt fields "total_claimed_tokens";
  currentSolVolume ← requireBigInt fields "current_sol_volume";
  lastUpdateTimestamp ← requireBigInt fields "last_update_timestamp";
  ixName ← requireString fields "ix_name";
  mayhemMode ← requireBoolean fields "mayhem_mode";
  cashbackFeeBasisPoints ← requireBigInt fields "cashback_fee_basis_points";
  cashback ← requireBigInt fields "cashback";
  buybackFeeBasisPoints ← requireBigInt fields "buyback_fee_basis_points";
  buybackFee ← requireBigInt fields "buyback_fee";
  shareholders ← decodeShareholders (entry fields "shareholders");
  quoteMint ← requireString fields "quote_mint";
  quoteAmount ← requireBigInt fields "quote_amount";
  virtualQuoteReserves ← requireBigInt fields "virtual_quote_reserves";
  realQuoteReserves ← requireBigInt fields "real_quote_reserves";
  Ok {| te_mint := mint; te_solAmount := solAmount; te_tokenAmount := tokenAmount; te_isBuy := isBuy;
        te_user := user; te_timestamp := timestamp; te_virtualSolReserves := virtualSolReserves;
        te_virtualTokenReserves := virtualTokenReserves; te_realSolReserves := realSolReserves;
        te_realTokenReserves := realTokenReserves; te_feeRecipient := feeRecipient;
        te_feeBasisPoints := feeBasisPoints; te_fee := fee; te_creator := creator;
        te_creatorFeeBasisPoints := creatorFeeBasisPoints; te_creatorFee := creatorFee;
        te_trackVolume := trackVolume; te_totalUnclaimedTokens := totalUnclaimedTokens;
        te_totalClaimedTokens := totalClaimedTokens; te_currentSolVolume := currentSolVolume;
        te_lastUpdateTimestamp := lastUpdateTimestamp; te_ixName := ixName;
        te_mayhemMode := mayhemMode; te_cashbackFeeBasisPoints := cashbackFeeBasisPoints;
        te_cashback := cashback; te_buybackFeeBasisPoints := buybackFeeBasisPoints;
        te_buybackFee := buybackFee; te_shareholders := shareholders; te_quoteMint := quoteMint;
        te_quoteAmount := quoteAmount; te_virtualQuoteReserves := virtualQuoteReserves;
        te_realQuoteReserves := realQuoteReserves; te_holderRewardsBps := holderRewardsBps;
        te_holderRewards := holderRewards |}.

(** Hexadecimal text as bytes. *)
Definition hex_digit (c : ascii) : Z :=
  let n := Z.of_nat (nat_of_ascii c) in if n <? 58 then n - 48 else n - 87.
Fixpoint hex_bytes (l : list ascii) : list Z :=
  match l with
  | a :: b :: l => (16 * hex_digit a + hex_digit b) :: hex_bytes l
  | _ => []
  end.

Section Decoders.
Context `{PublicKeys}.
Context `{Sha256}.
Context `{PumpProgram}.

(** src/src/launchpads/pumpfun/event-decoder.ts:25-30 (ANCHOR_EVENT_CPI_TAG): the first eight
    bytes of the digest, reversed. *)
Definition ANCHOR_EVENT_CPI_TAG : list Z := rev (take 8 (hex_bytes (chars (sha256_hex "anchor:event")))).

(** src/src/launchpads/pumpfun/event-decoder.ts:96-145 (decodeCreateEvent) *)
Definition decodeCreateEvent : reading DecodedPumpCreateEvent :=
  fields <-- decodeIdlFields (but_last_two (omap named_field ty_CreateEvent));
  suffixLength <-- read_remaining;
  if negb (suffixLength =? 0) && negb (suffixLength =? 8) && negb (suffixLength =? 9)
     && negb (suffixLength =? 10) then invalidEventSuffix
  else
    creatorFeeBps <-- (if 8 <=? suffixLength then readU64 else pret 0);
    isHolderReward <-- (if 9 <=? suffixLength then readBool else pret false);
    depth <-- (if suffixLength =? 10 then readU8 else pret 0);
    lift (create_event fields creatorFeeBps isHolderReward depth).

(** src/src/launchpads/pumpfun/event-decoder.ts:147-218 (decodeTradeEvent) *)
Definition decodeTradeEvent : reading DecodedPumpTradeEvent :=
  fields <-- decodeIdlFields (but_last_two (omap named_field ty_TradeEvent));
  suffixLength <-- read_remaining;
  if negb (suffixLength =? 0) && negb (suffixLength =? 16) && negb (suffixLength =? 24)
  then invalidEventSuffix
  else
    holderRewardsBps <-- (if 16 <=? suffixLength then readU64 else pret 0);
    holderRewards <-- (if 16 <=? suffixLength then readU64 else pret 0);
    _ignored <-- (if suffixLength =? 24 then readBytes 8 else pret []);
    lift (trade_event fields holderRewardsBps holderRewards).

(** src/src/launchpads/pumpfun/event-decoder.ts:32-94 (decodePumpCpiEvent, decodeAttributedEvent) *)
Definition decodePumpCpiEvent (instruction : NormalizedInstruction)
    : result pump_exn (option DecodedPumpCpiEvent) :=
  let data := ni_data instruction in
  if negb (bool_decide (ni_programId instruction = pp_programId))
     || Nat.ltb (List.length data) 16
     || negb (bool_decide (take 8 data = ANCHOR_EVENT_CPI_TAG)) then Ok None
  else
    let discriminator := take 8 (drop 8 data) in
    let payload := drop 16 data in
    if bool_decide (discriminator = CreateEvent_discriminator) then
      e ← run decodeCreateEvent payload;
      Ok (Some {| cpi_event := CreateEvent e; cpi_instruction := instruction |})
    else if bool_decide (discriminator = TradeEvent_discriminator) then
      e ← run decodeTradeEvent payload;
      Ok (Some {| cpi_event := TradeEvent e; cpi_instruction := instruction |})
    else Ok None.

(** * Instructions *)

(** src/src/launchpads/pumpfun/instruction-decoder.ts:30-38 (DEFINITION_BY_DISCRIMINATOR): the
    discriminators are distinct. *)
Definition DEFINITION_BY_DISCRIMINATOR (discriminator : list Z)
    : option (PumpInstructionName * InstructionDefinition) :=
  List.find (fun d => bool_decide (id_discriminator (snd d) = discriminator)) DEFINITIONS.
(** src/src/launchpads/pumpfun/instruction-decoder.ts:39-41 (CREATE_V2_REQUIRED_ARGUMENT_COUNT,
    CREATE_V2_SUFFIX_LENGTHS, CREATE_V2_REMAINING_ACCOUNT_COUNTS) *)
Definition CREATE_V2_REQUIRED_ARGUMENT_COUNT : nat := 5.
Definition CREATE_V2_SUFFIX_LENGTHS : list Z := [0; 1; 9; 10].
Definition CREATE_V2_REMAINING_ACCOUNT_COUNTS : list nat := [0; 3; 4; 5; 8]%nat.

(** src/src/launchpads/pumpfun/instruction-decoder.ts:429-446 (familyOf) *)
Definition familyOf (name : PumpInstructionName) : PumpInstructionFamily :=
  match name with
  | Ix_create | Ix_create_v2 => FAMILY_CREATE
  | Ix_migrate | Ix_migrate_v2 => FAMILY_MIGRATE
  | Ix_buy | Ix_buy_exact_quote_in_v2 | Ix_buy_exact_sol_in | Ix_buy_v2 => FAMILY_BUY
  | Ix_sell | Ix_sell_v2 => FAMILY_SELL
  end.

(** src/src/launchpads/pumpfun/instruction-decoder.ts:398-411 (requireRemainingRole) *)
Definition requireRemainingRole (actual expected : option string) : result pump_exn string :=
  match actual, expected with
  | Some a, Some e => if bool_decide (a = e) then Ok a else pump_throw PUMP_ACCOUNT_MISSING false
  | _, _ => pump_throw PUMP_ACCOUNT_MISSING false
  end.

(** src/src/launchpads/pumpfun/instruction-decoder.ts:339-396 (createV2RemainingAccounts, with
    pumpPda and derivedAddress): a derivation that throws gives no address. *)
Definition createV2RemainingAccounts (remaining_ : list string) : result pump_exn (list (string * string)) :=
  let count := List.length remaining_ in
  if negb (includes count CREATE_V2_REMAINING_ACCOUNT_COUNTS) then pump_throw PUMP_ACCOUNT_MISSING true
  else match remaining_ with
  | [] => Ok []
  | quoteMint :: quoteCurve :: quoteProgram :: _ =>
      control ← (if Nat.leb 4 count
                 then a ← requireRemainingRole (remaining_ !! 3%nat) (Some pp_quoteControl);
                      Ok [("quote_control", a)]
                 else Ok []);
      curve ← (if Nat.leb 5 count
               then a ← requireRemainingRole (remaining_ !! 4%nat) (pp_bondingCurvePda quoteMint);
                    Ok [("quote_bonding_curve", a)]
               else Ok []);
      pool ← (if Nat.eqb count 8
              then match remaining_ !! 5%nat, remaining_ !! 7%nat with
                   | Some pool, Some quoteVault =>
                       v ← requireRemainingRole (remaining_ !! 6%nat)
                             (pp_associatedToken quoteMint pool quoteProgram);
                       Ok [("quote_pool", pool); ("quote_pool_base_vault", v);
                           ("quote_pool_quote_vault", quoteVault)]
                   | _, _ => pump_throw PUMP_ACCOUNT_MISSING true
                   end
              else Ok []);
      Ok ([("quote_mint", quoteMint); ("associated_quote_bonding_curve", quoteCurve);
           ("quote_token_program", quoteProgram)] ++ control ++ curve ++ pool)
  | _ => pump_throw PUMP_ACCOUNT_MISSING true
  end.

(** src/src/launchpads/pumpfun/instruction-decoder.ts:298-330 (mapAccounts): with enough
    accounts none of the named ones is undefined. *)
Definition mapAccounts (name : PumpInstructionName) (definition : InstructionDefinition)
    (instruction : NormalizedInstruction) : result pump_exn (list (string * string)) :=
  let wanted := List.length (id_accounts definition) in
  if Nat.ltb (List.length (ni_accounts instruction)) wanted then pump_throw PUMP_ACCOUNT_MISSING true
  else
    let entries := zip (id_accounts definition) (ni_accounts instruction) in
    extra ← (if bool_decide (name = Ix_create_v2)
             then createV2RemainingAccounts (drop wanted (ni_accounts instruction))
             else Ok []);
    Ok (entries ++ extra).

(** src/src/launchpads/pumpfun/instruction-decoder.ts:246-255 (withOptionBools) *)
Definition withOptionBools (required : list (string * PumpIdlValue)) (options : list (string * bool))
    : list (string * PumpIdlValue) :=
  required ++ map (fun o => (fst o, IdlArray [IdlBool (snd o)])) options.

(** src/src/launchpads/pumpfun/instruction-decoder.ts:242-244 (isBorshBool) *)
Definition isBorshBool (value : Z) : bool := (value =? 0) || (value =? 1).

(** src/src/launchpads/pumpfun/instruction-decoder.ts:180-207 (decodeLegacyBuyArgs) *)
Definition decodeLegacyBuyArgs (definition : InstructionDefinition) : reading (list (string * PumpIdlValue)) :=
  required <-- decodeIdlFields (take 2 (id_args definition));
  suffixLength <-- read_remaining;
  if suffixLength =? 0 then pret required
  else if 2 <? suffixLength then invalid_borsh
  else
    suffix <-- readBytes suffixLength;
    match suffix with
    | [first] =>
        if isBorshBool first then pret (withOptionBools required [("track_volume", first =? 1)])
        else invalid_borsh
    | [first; second] =>
        if isBorshBool first && isBorshBool second
        then pret (withOptionBools required [("track_volume", (first =? 1) && (second =? 1));
                                             ("partial_fill", second =? 1)])
        else invalid_borsh
    | _ => invalid_borsh
    end.

(** src/src/launchpads/pumpfun/instruction-decoder.ts:209-227 (decodeExactQuoteBuyArgs) *)
Definition decodeExactQuoteBuyArgs (definition : InstructionDefinition)
    : reading (list (string * PumpIdlValue)) :=
  required <-- decodeIdlFields (id_args definition);
  suffixLength <-- read_remaining;
  if suffixLength =? 0 then pret required
  else if negb (suffixLength =? 1) then invalid_borsh
  else
    partialFill <-- readBool;
    pret (withOptionBools required (if (partialFill : bool)
                                    then [("track_volume", true); ("partial_fill", true)]
                                    else [("partial_fill", false)])).

(** src/src/launchpads/pumpfun/instruction-decoder.ts:229-240 (decodeBuyV2Args) *)
Definition decodeBuyV2Args (definition : InstructionDefinition) : reading (list (string * PumpIdlValue)) :=
  required <-- decodeIdlFields (id_args definition);
  suffixLength <-- read_remaining;
  if suffixLength =? 0 then pret required
  else if negb (suffixLength =? 1) then invalid_borsh
  else partialFill <-- readBool; pret (withOptionBools required [("partial_fill", partialFill)]).

(** src/src/launchpads/pumpfun/instruction-decoder.ts:268-296 (decodeCreateV2Args) *)
Definition decodeCreateV2Args (definition : InstructionDefinition) : reading (list (string * PumpIdlValue)) :=
  required <-- decodeIdlFields (take CREATE_V2_REQUIRED_ARGUMENT_COUNT (id_args definition));
  suffixLength <-- read_remaining;
  if negb (includes suffixLength CREATE_V2_SUFFIX_LENGTHS) then invalid_borsh
  else
    cashback <-- (if 1 <=? suffixLength then readBool else pret false);
    creatorFeeBps <-- (if 9 <=? suffixLength then readU64 else pret 0);
    holderReward <-- (if suffixLength =? 10 then readBool else pret false);
    pret (required ++ [("is_cashback_enabled", IdlArray [IdlBool cashback]);
                       ("creator_fee_bps", IdlArray [IdlBigint creatorFeeBps]);
                       ("is_holder_reward", IdlArray [IdlBool holderReward])]).

(** src/src/launchpads/pumpfun/instruction-decoder.ts:159-174 (decodeInstructionArgs) *)
Definition decodeInstructionArgs (name : PumpInstructionName) (definition : InstructionDefinition)
    : reading (list (string * PumpIdlValue)) :=
  match name with
  | Ix_create_v2 => decodeCreateV2Args definition
  | Ix_buy | Ix_buy_exact_sol_in => decodeLegacyBuyArgs definition
  | Ix_buy_exact_quote_in_v2 => decodeExactQuoteBuyArgs definition
  | Ix_buy_v2 => decodeBuyV2Args definition
  | _ => decodeIdlFields (id_args definition)
  end.

(** An instruction decoded, without evidence. *)
Definition decoded (name : PumpInstructionName) (instruction : NormalizedInstruction)
    (accounts : list (string * string)) (args : list (string * PumpIdlValue)) : DecodedPumpInstruction :=
  {| di_name := name; di_family := familyOf name; di_instruction := instruction;
     di_accounts := accounts; di_args := args; di_wireEvidence := None |}.

(** src/src/launchpads/pumpfun/instruction-decoder.ts:129-157 (decodeMatchedInstruction) *)
Definition decodeMatchedInstruction (instruction : NormalizedInstruction) (name : PumpInstructionName)
    (definition : InstructionDefinition) : result pump_exn DecodedPumpInstruction :=
  accounts ← mapAccounts name definition instruction;
  args ← run (args <-- decodeInstructionArgs name definition;
              left <-- read_remaining;
              if negb (left =? 0) then invalid_borsh else pret args)
           (drop 8 (ni_data instruction));
  Ok (decoded name instruction accounts args).

(** src/src/launchpads/pumpfun/instruction-decoder.ts:48-83 (decodePumpInstruction) *)
Definition decodePumpInstruction (instruction : NormalizedInstruction)
    : result pump_exn (option DecodedPumpInstruction) :=
  if negb (bool_decide (ni_programId instruction = pp_programId))
     || Nat.ltb (List.length (ni_data instruction)) 8 then Ok None
  else match DEFINITION_BY_DISCRIMINATOR (take 8 (ni_data instruction)) with
       | None => Ok None
       | Some (name, definition) => Some <$> decodeMatchedInstruction instruction name definition
       end.

(** src/src/launchpads/pumpfun/instruction-decoder.ts:101-121 (decodePumpInstructionForTransaction):
    the second reading, of a creation or a sale that ends with two opaque bytes; a sale has two
    arguments. *)
Definition opaque_profile (name : PumpInstructionName)
    : option (nat * list Z * PumpObservedWireProfile) :=
  match name with
  | Ix_create_v2 => Some (CREATE_V2_REQUIRED_ARGUMENT_COUNT, [0; 1], CREATE_V2_OPAQUE_0001_V1)
  | Ix_sell => Some (2%nat, [1; 0], SELL_OPAQUE_0100_V1)
  | _ => None
  end.
Definition decode_opaque (instruction : NormalizedInstruction) (name : PumpInstructionName)
    (definition : InstructionDefinition) (count : nat) (suffix : list Z) (profile : PumpObservedWireProfile)
    : result pump_exn PumpInstructionCandidate :=
  args ← run (args <-- decodeIdlFields (take count (id_args definition));
              left <-- read_remaining;
              if negb (left =? 2) then invalid_borsh
              else bytes <-- readBytes 2;
                   if bool_decide (bytes = suffix) then pret args else invalid_borsh)
           (drop 8 (ni_data instruction));
  accounts ← mapAccounts name definition instruction;
  Ok {| pi_action := decoded name instruction accounts args; pi_profile := Some profile |}.

(** src/src/launchpads/pumpfun/instruction-decoder.ts:86-127 (decodePumpInstructionForTransaction):
    any failure of the second reading keeps the first error. *)
Definition decodePumpInstructionForTransaction (instruction : NormalizedInstruction)
    : result pump_exn (option PumpInstructionCandidate) :=
  match decodePumpInstruction instruction with
  | Ok action => Ok ((fun a => {| pi_action := a; pi_profile := None |}) <$> action)
  | Err (PumpError PUMP_BORSH_INVALID b) =>
      let error := Err (PumpError PUMP_BORSH_INVALID b) in
      match DEFINITION_BY_DISCRIMINATOR (take 8 (ni_data instruction)) with
      | None => error
      | Some (name, definition) =>
          match opaque_profile name with
          | None => error
          | Some (count, suffix, profile) =>
              match decode_opaque instruction name definition count suffix profile with
              | Ok c => Ok (Some c)
              | Err _ => error
              end
          end
      end
  | Err e => Err e
  end.
End Decoders.

(** * The wire format

    What follows the required arguments of an instruction, and the arguments it stands for. *)

(** The arguments every version of an instruction has. *)
Definition required_args (name : PumpInstructionName) (definition : InstructionDefinition)
    : list (string * idl_type) :=
  match name with
  | Ix_create_v2 => take 5 (id_args definition)
  | Ix_buy | Ix_buy_exact_sol_in => take 2 (id_args definition)
  | _ => id_args definition
  end.
Definition flag (b : bool) : Z := if b then 1 else 0.
Definition option_bool (name : string) (b : bool) : string * PumpIdlValue := (name, IdlArray [IdlBool b]).
Definition create_extra (cashback : bool) (fee : Z) (reward : bool) : list (string * PumpIdlValue) :=
  [option_bool "is_cashback_enabled" cashback; ("creator_fee_bps", IdlArray [IdlBigint fee]);
   option_bool "is_holder_reward" reward].

Inductive suffix_format : PumpInstructionName -> list Z -> list (string * PumpIdlValue) -> Prop :=
| sf_plain name : name ∈ [Ix_create; Ix_migrate; Ix_migrate_v2; Ix_sell; Ix_sell_v2] -> suffix_format name [] []
| sf_buy name : name ∈ [Ix_buy; Ix_buy_exact_sol_in; Ix_buy_exact_quote_in_v2; Ix_buy_v2] -> suffix_format name [] []
| sf_track name t : name ∈ [Ix_buy; Ix_buy_exact_sol_in] ->
    suffix_format name [flag t] [option_bool "track_volume" t]
| sf_track_fill name t p : name ∈ [Ix_buy; Ix_buy_exact_sol_in] ->
    suffix_format name [flag t; flag p] [option_bool "track_volume" (t && p); option_bool "partial_fill" p]
| sf_quote_fill : suffix_format Ix_buy_exact_quote_in_v2 [1]
    [option_bool "track_volume" true; option_bool "partial_fill" true]
| sf_quote_no_fill : suffix_format Ix_buy_exact_quote_in_v2 [0] [option_bool "partial_fill" false]
| sf_buy_v2 p : suffix_format Ix_buy_v2 [flag p] [option_bool "partial_fill" p]
| sf_create : suffix_format Ix_create_v2 [] (create_extra false 0 false)
| sf_create_cashback c : suffix_format Ix_create_v2 [flag c] (create_extra c 0 false)
| sf_create_fee c f : 0 <= f < 2 ^ 64 ->
    suffix_format Ix_create_v2 (flag c :: le_bytes 8 f) (create_extra c f false)
| sf_create_reward c f h : 0 <= f < 2 ^ 64 ->
    suffix_format Ix_create_v2 (flag c :: le_bytes 8 f ++ [flag h]) (create_extra c f h).

(** [ends m T]: [m] returns [b] with nothing left exactly when [T] gives all that is left the
    value [b]. *)
Definition ends {B} (m : reading B) (T : B -> list Z -> Prop) : Prop :=
  forall r b, reader_ok r -> (exists r', m r = (Ok b, r') /\ remaining r' = 0) <-> T b (rest_of r).

Lemma remaining_advance r used rest : reader_ok r -> rest_of r = used ++ rest ->
  remaining (advance r (List.length used)) = Z.of_nat (List.length rest).
Proof.
  intros Hr Hu. destruct (advance_ok r used rest Hr Hu) as [Hr' Hrest].
  by rewrite <- (rest_length _ Hr'), Hrest.
Qed.

Lemma ends_reads {B} (m : reading B) R : reads m R -> ends m R.
Proof.
  intros Hm r b Hr. split.
  - intros (r' & E & H0). apply Hm in E as (used & rest & Hu & HR & ->); [|done].
    rewrite (remaining_advance _ _ _ Hr Hu) in H0. destruct rest; [|cbn in H0; lia].
    by rewrite Hu, app_nil_r.
  - intros HR. exists (advance r (List.length (rest_of r))).
    assert (rest_of r = rest_of r ++ []) as Hu by (by rewrite app_nil_r).
    split; [apply Hm; eauto|]. by rewrite (remaining_advance _ _ _ Hr Hu).
Qed.

Lemma ends_bind {A B} (m : reading A) (k : A -> reading B) R T :
  reads m R -> (forall a, ends (k a) (T a)) ->
  ends (pbind m k) (fun b l => exists a used rest, l = used ++ rest /\ R a used /\ T a b rest).
Proof.
  intros Hm Hk r b Hr. split.
  - intros (r' & E & H0). apply pbind_Ok in E as (a & r1 & Ha & Hb).
    apply Hm in Ha as (used & rest & Hu & HR & ->); [|done].
    destruct (advance_ok r used rest Hr Hu) as [Hr1 Hrest].
    exists a, used, rest. split; [done|]. split; [done|]. rewrite <- Hrest. apply Hk; eauto.
  - intros (a & used & rest & Hu & HR & HT). destruct (advance_ok r used rest Hr Hu) as [Hr1 Hrest].
    rewrite <- Hrest in HT. apply Hk in HT as (r' & Hb & H0); [|done].
    exists r'. split; [|done]. apply pbind_Ok. exists a, (advance r (List.length used)).
    split; [apply Hm; eauto|done].
Qed.

(** On what is left now. *)
Definition ends_on {B} (l : list Z) (m : reading B) (T : B -> Prop) : Prop :=
  forall r b, reader_ok r -> rest_of r = l -> (exists r', m r = (Ok b, r') /\ remaining r' = 0) <-> T b.

Lemma ends_remaining {B} (k : Z -> reading B) T :
  (forall l, Forall is_byte l -> ends_on l (k (Z.of_nat (List.length l))) (fun b => T b l)) ->
  ends (pbind read_remaining k) T.
Proof.
  intros Hk r b Hr. etransitivity; [|apply (Hk (rest_of r)); [by apply Forall_drop, Hr|done|done]].
  unfold pbind, read_remaining. by rewrite (rest_length r Hr).
Qed.
Lemma ends_on_reads {B} l (m : reading B) R (T : B -> Prop) :
  reads m R -> (forall b, R b l <-> T b) -> ends_on l m T.
Proof. intros Hm HT r b Hr <-. rewrite <- HT. by apply ends_reads. Qed.
Lemma ends_on_throw {B} l e (T : B -> Prop) : (forall b, ~ T b) -> ends_on l (pthrow e) T.
Proof. intros HT r b _ _. split; [by intros (? & ? & _)|]. intros Hb. by destruct (HT b). Qed.

Lemma ends_on_all {B} l (k : list Z -> reading B) (T : B -> Prop) :
  Z.of_nat (List.length l) <= MAX_SAFE_INTEGER ->
  ends_on [] (k l) T -> ends_on l (pbind (readBytes (Z.of_nat (List.length l))) k) T.
Proof.
  intros Hl Hk r b Hr Hrest. assert (rest_of r = l ++ []) as Hu by (by rewrite app_nil_r).
  destruct (advance_ok r l [] Hr Hu) as [Hr1 Hrest1]. rewrite <- (Hk (advance r (List.length l)) b Hr1 Hrest1).
  assert (readBytes (Z.of_nat (List.length l)) r = (Ok l, advance r (List.length l))) as E.
  { refine (proj2 (reads_bytes (Z.of_nat (List.length l)) ltac:(lia) r l _ Hr) _). by exists l, []. }
  unfold pbind. by rewrite E.
Qed.
Lemma ends_on_ret {B} (a : B) (T : B -> Prop) : (forall b, T b <-> b = a) -> ends_on [] (pret a) T.
Proof. intros HT. eapply ends_on_reads; [apply reads_ret|]. intros b. rewrite HT. naive_solver. Qed.

Lemma ends_on_map {A B} l (m : reading A) (f : A -> B) (T : A -> Prop) :
  ends_on l m T -> ends_on l (a <-- m; pret (f a)) (fun b => exists a, b = f a /\ T a).
Proof.
  intros Hm r b Hr Hl. split.
  - intros (r' & E & H0). apply pbind_Ok in E as (a & r1 & Ha & [= <- <-]).
    exists a. split; [done|]. apply (Hm r a Hr Hl). eauto.
  - intros (a & -> & Ha). apply (Hm r a Hr Hl) in Ha as (r' & Ha & H0).
    exists r'. split; [|done]. unfold pbind. by rewrite Ha.
Qed.
Lemma ends_on_same {B} l (m m' : reading B) (T T' : B -> Prop) :
  (forall r, m r = m' r) -> (forall b, T b <-> T' b) -> ends_on l m T -> ends_on l m' T'.
Proof. intros Hm HT He r b Hr Hl. rewrite <- HT, <- (He r b Hr Hl). by setoid_rewrite Hm. Qed.

Lemma reads_flag : reads readBool (fun b used => used = [flag b]).
Proof. exact reads_bool. Qed.
Lemma reads_u64 : reads readU64 (fun n used => 0 <= n < 2 ^ 64 /\ used = le_bytes 8 n).
Proof. apply (reads_le 8). lia. Qed.

Lemma flag_inj b c : flag b = flag c -> b = c.
Proof. by destruct b, c. Qed.
Lemma flag_byte x : isBorshBool x = true <-> exists b, x = flag b /\ (x =? 1) = b.
Proof.
  unfold isBorshBool, flag. split.
  - destruct (Z.eqb_spec x 0) as [->|]; [by exists false|]. destruct (Z.eqb_spec x 1) as [->|]; [by exists true|done].
  - by intros ([] & -> & _).
Qed.

(** Suffixes of purchases. *)
Lemma legacy_suffix name required : name ∈ [Ix_buy; Ix_buy_exact_sol_in] ->
  ends (suffixLength <-- read_remaining;
        if suffixLength =? 0 then pret required
        else if 2 <? suffixLength then invalid_borsh
        else
          suffix <-- readBytes suffixLength;
          match suffix with
          | [first] =>
              if isBorshBool first then pret (withOptionBools required [("track_volume", first =? 1)])
              else invalid_borsh
          | [first; second] =>
              if isBorshBool first && isBorshBool second
              then pret (withOptionBools required [("track_volume", (first =? 1) && (second =? 1));
                                                   ("partial_fill", second =? 1)])
              else invalid_borsh
          | _ => invalid_borsh
          end)
    (fun b l => exists extra, suffix_format name l extra /\ b = required ++ extra).
Proof.
  intros Hn. apply ends_remaining. intros l _. destruct l as [|x [|y [|z l]]].
  - apply ends_on_ret. intros b. split.
    + intros (extra & Hs & ->). inversion Hs; subst; try set_solver. by rewrite app_nil_r.
    + intros ->. exists []. rewrite app_nil_r. split; [|done]. apply sf_buy. set_solver.
  - apply (ends_on_all [x]); [cbn; unfold MAX_SAFE_INTEGER; lia|].
    destruct (isBorshBool x) eqn:Ex.
    + apply flag_byte in Ex as (t & -> & ->). apply ends_on_ret. intros b. split.
      * intros (extra & Hs & ->). inversion Hs as [| |? t'| | | | | | | |]; subst; try set_solver.
        by replace t with t' by (by apply flag_inj).
      * intros ->. eexists. split; [by apply sf_track|done].
    + apply ends_on_throw. intros b (extra & Hs & ->).
      inversion Hs as [| |? t'| | | | | | | |]; subst; try set_solver.
      assert (isBorshBool (flag t') = true) by (by destruct t'). congruence.
  - apply (ends_on_all [x; y]); [cbn; unfold MAX_SAFE_INTEGER; lia|].
    destruct (isBorshBool x && isBorshBool y) eqn:Ex.
    + apply andb_true_iff in Ex as [Ex Ey].
      apply flag_byte in Ex as (t & -> & ->). apply flag_byte in Ey as (q & -> & ->). apply ends_on_ret. intros b. split.
      * intros (extra & Hs & ->). inversion Hs; subst; try set_solver.
        repeat match goal with E : flag _ = flag _ |- _ => apply flag_inj in E as -> end. done.
      * intros ->. eexists. split; [by apply sf_track_fill|done].
    + apply ends_on_throw. intros b (extra & Hs & ->).
      inversion Hs as [| | |? t' q'| | | | | | |]; subst; try set_solver.
      by destruct t', q'.
  - destruct (Z.eqb_spec (Z.of_nat (List.length (x :: y :: z :: l))) 0); [cbn in *; lia|].
    destruct (Z.ltb_spec 2 (Z.of_nat (List.length (x :: y :: z :: l)))); [|cbn in *; lia].
    apply ends_on_throw. intros b (extra & Hs & _). inversion Hs; subst; set_solver.
Qed.

Lemma one_flag_suffix name (required : list (string * PumpIdlValue)) (options : bool -> list (string * bool)) :
  (forall b l, (exists extra, suffix_format name l extra /\ b = required ++ extra) <->
     l = [] /\ b = required \/ exists p, l = [flag p] /\ b = withOptionBools required (options p)) ->
  ends (suffixLength <-- read_remaining;
        if suffixLength =? 0 then pret required
        else if negb (suffixLength =? 1) then invalid_borsh
        else p <-- readBool; pret (withOptionBools required (options p)))
    (fun b l => exists extra, suffix_format name l extra /\ b = required ++ extra).
Proof.
  intros HT. apply ends_remaining. intros l _. destruct l as [|x [|y l]].
  - apply ends_on_ret. intros b. rewrite HT. naive_solver.
  - eapply ends_on_reads; [apply reads_map, reads_flag|]. intros b. rewrite HT. naive_solver.
  - destruct (Z.eqb_spec (Z.of_nat (List.length (x :: y :: l))) 0); [cbn in *; lia|].
    destruct (Z.eqb_spec (Z.of_nat (List.length (x :: y :: l))) 1); [cbn in *; lia|].
    apply ends_on_throw. intros b. rewrite HT. naive_solver.
Qed.

Lemma quote_suffix_iff required b l :
  (exists extra, suffix_format Ix_buy_exact_quote_in_v2 l extra /\ b = required ++ extra) <->
  l = [] /\ b = required \/ exists p : bool, l = [flag p] /\ b = withOptionBools required
    (if p then [("track_volume", true); ("partial_fill", true)] else [("partial_fill", false)]).
Proof.
  split.
  - intros (extra & Hs & ->). inversion Hs; subst; try set_solver; [left|right; exists true|right; exists false]; try done.
    by rewrite app_nil_r.
  - intros [[-> ->]|([] & -> & ->)].
    + exists []. split; [apply sf_buy; set_solver|by rewrite app_nil_r].
    + eexists. split; [apply sf_quote_fill|done].
    + eexists. split; [apply sf_quote_no_fill|done].
Qed.

Lemma buy_v2_suffix_iff required b l :
  (exists extra, suffix_format Ix_buy_v2 l extra /\ b = required ++ extra) <->
  l = [] /\ b = required \/ exists p : bool, l = [flag p] /\ b = withOptionBools required [("partial_fill", p)].
Proof.
  split.
  - intros (extra & Hs & ->). inversion Hs; subst; try set_solver; left; by rewrite app_nil_r.
  - intros [[-> ->]|(p & -> & ->)].
    + exists []. split; [apply sf_buy; set_solver|by rewrite app_nil_r].
    + eexists. split; [apply sf_buy_v2|done].
Qed.

(** The suffix of a creation. *)
Definition create_suffix (n : Z) : reading (list (string * PumpIdlValue)) :=
  cashback <-- (if 1 <=? n then readBool else pret false);
  creatorFeeBps <-- (if 9 <=? n then readU64 else pret 0);
  holderReward <-- (if n =? 10 then readBool else pret false);
  pret (create_extra cashback creatorFeeBps holderReward).

Lemma le_bytes_inj n v w : 0 <= v < 256 ^ Z.of_nat n -> 0 <= w < 256 ^ Z.of_nat n ->
  le_bytes n v = le_bytes n w -> v = w.
Proof. intros Hv Hw E. by rewrite <- (le_value_bytes n v), <- (le_value_bytes n w), E. Qed.

(** What the suffixes of a creation look like, by length. *)
Lemma create_suffix_cases l extra : suffix_format Ix_create_v2 l extra <->
  exists c f h, extra = create_extra c f h /\
    ((l = [] /\ c = false /\ f = 0 /\ h = false) \/ (l = [flag c] /\ f = 0 /\ h = false)
     \/ (l = flag c :: le_bytes 8 f /\ 0 <= f < 2 ^ 64 /\ h = false)
     \/ (l = flag c :: le_bytes 8 f ++ [flag h] /\ 0 <= f < 2 ^ 64)).
Proof.
  split.
  - inversion 1; subst; try set_solver; eexists _, _, _; (split; [done|]); auto 10.
  - intros (c & f & h & -> & [(-> & -> & -> & ->)|[(-> & -> & ->)|[(-> & Hf & ->)|(-> & Hf)]]]);
      [apply sf_create|apply sf_create_cashback|by apply sf_create_fee|by apply sf_create_reward].
Qed.

Lemma create_suffix_ends l : Forall is_byte l -> Z.of_nat (List.length l) ∈ CREATE_V2_SUFFIX_LENGTHS ->
  ends_on l (create_suffix (Z.of_nat (List.length l))) (fun extra => suffix_format Ix_create_v2 l extra).
Proof.
  intros _ Hn. remember (Z.of_nat (List.length l)) as n eqn:En. unfold CREATE_V2_SUFFIX_LENGTHS in Hn.
  assert (forall f : Z, List.length (le_bytes 8 f) = 8%nat) as H8 by (intros; apply le_bytes_length).
  apply elem_of_cons in Hn as [->|Hn]; [|apply elem_of_cons in Hn as [->|Hn];
    [|apply elem_of_cons in Hn as [->|Hn]; [|apply list_elem_of_singleton in Hn as ->]]].
  - destruct l; [|cbn in En; lia]. apply ends_on_ret. intros b. rewrite create_suffix_cases. naive_solver.
  - eapply (ends_on_reads _ (create_suffix 1)).
    { apply (reads_same (c <-- readBool; pret (create_extra c 0 false))).
      - intros r. unfold create_suffix, pbind, pret. cbn. by destruct (readBool r) as [[]].
      - apply reads_map, reads_flag. }
    intros b. rewrite create_suffix_cases. cbn. split; [naive_solver|].
    intros (c & f & h & -> & [(-> & _)|[(-> & -> & ->)|[(-> & _)|(-> & _)]]]);
      cbn in En; rewrite ?length_app, ?H8 in En; try (cbn in En; lia). eauto.
  - eapply (ends_on_reads _ (create_suffix 9)).
    { apply (reads_same (c <-- readBool; f <-- readU64; pret (create_extra c f false))).
      - intros r. unfold create_suffix, pbind, pret. cbn. destruct (readBool r) as [[c|] r1]; [|done].
        by destruct (readU64 r1) as [[]].
      - apply reads_bind; [apply reads_flag|intros c; apply reads_map, reads_u64]. }
    intros b. rewrite create_suffix_cases. cbn. split.
    + intros (c & u & v & -> & -> & f & -> & Hf & ->). exists c, f, false. auto 10.
    + intros (c & f & h & -> & [(-> & _)|[(-> & -> & ->)|[(-> & Hf & ->)|(-> & _)]]]);
        cbn in En; rewrite ?length_app, ?H8 in En; try (cbn in En; lia).
      exists c, [flag c], (le_bytes 8 f). eauto 10.
  - eapply (ends_on_reads _ (create_suffix 10)).
    { unfold create_suffix. cbn.
      apply reads_bind; [apply reads_flag|intros c; apply reads_bind; [apply reads_u64|intros f; apply reads_map, reads_flag]]. }
    intros b. rewrite create_suffix_cases. cbn. split.
    + intros (c & u & v & -> & -> & f & w & x & -> & [Hf ->] & h & -> & ->). exists c, f, h. auto 10.
    + intros (c & f & h & -> & [(-> & _)|[(-> & -> & ->)|[(-> & Hf & ->)|(-> & Hf)]]]);
        cbn in En; rewrite ?length_app, ?H8 in En; try (cbn in En; lia).
      exists c, [flag c], (le_bytes 8 f ++ [flag h]). split; [done|]. split; [done|].
      exists f, (le_bytes 8 f), [flag h]. eauto 10.
Qed.

Section Format.
Context `{PublicKeys}.
Context `{PumpProgram}.

Lemma required_described name definition : (name, definition) ∈ DEFINITIONS ->
  required_args name definition ⊆ described_fields.
Proof.
  intros Hd f Hf. unfold described_fields. apply elem_of_app. left. apply list_elem_of_In, in_flat_map.
  exists (name, definition). split; [by apply list_elem_of_In|]. cbn [snd]. apply list_elem_of_In.
  unfold required_args in Hf. destruct name; try done; by apply subseteq_take in Hf.
Qed.

(** The arguments of an instruction with their suffix. *)
Definition args_format (name : PumpInstructionName) (definition : InstructionDefinition)
    (args : list (string * PumpIdlValue)) (l : list Z) : Prop :=
  exists values used suffix extra, l = used ++ suffix
    /\ encodes_all (map snd (required_args name definition)) values used
    /\ suffix_format name suffix extra
    /\ args = zip (map fst (required_args name definition)) values ++ extra.

Lemma args_ends_bind name definition (k : list (string * PumpIdlValue) -> reading (list (string * PumpIdlValue))) :
  (name, definition) ∈ DEFINITIONS ->
  (forall required, ends (k required) (fun b l => exists extra, suffix_format name l extra /\ b = required ++ extra)) ->
  ends (pbind (decodeIdlFields (required_args name definition)) k) (args_format name definition).
Proof.
  intros Hd Hk r b Hr. rewrite (ends_bind _ _ _ _ (fields_read _ (required_described _ _ Hd)) Hk r b Hr).
  unfold args_format. split.
  - intros (required & used & rest & Hu & (values & -> & Hv) & extra & Hs & ->). eauto 10.
  - intros (values & used & suffix & extra & Hu & Hv & Hs & ->). eexists _, used, suffix. eauto 10.
Qed.

Lemma plain_ends name definition :
  (name, definition) ∈ DEFINITIONS -> name ∈ [Ix_create; Ix_migrate; Ix_migrate_v2; Ix_sell; Ix_sell_v2] ->
  ends (decodeIdlFields (required_args name definition)) (args_format name definition).
Proof.
  intros Hd Hn r b Hr. rewrite (ends_reads _ _ (fields_read _ (required_described _ _ Hd)) r b Hr).
  unfold args_format. split.
  - intros (values & -> & Hv). exists values, (rest_of r), [], []. rewrite !app_nil_r.
    repeat split; try done. by apply sf_plain.
  - intros (values & used & suffix & extra & Hu & Hv & Hs & ->).
    assert (suffix = [] /\ extra = []) as [-> ->] by (inversion Hs; subst; try done; set_solver).
    rewrite !app_nil_r in *. rewrite Hu. eauto.
Qed.

Lemma args_ends name definition : (name, definition) ∈ DEFINITIONS ->
  ends (decodeInstructionArgs name definition) (args_format name definition).
Proof.
  intros Hd. destruct name;
    try match goal with |- ends (decodeInstructionArgs ?n ?d) _ => apply (plain_ends n d); [done|rewrite !elem_of_cons; tauto] end.
  - apply (args_ends_bind Ix_buy); [done|]. intros required. apply legacy_suffix. set_solver.
  - apply (args_ends_bind Ix_buy_exact_quote_in_v2); [done|]. intros required.
    apply (one_flag_suffix _ _ (fun p : bool => if p then _ else _)), quote_suffix_iff.
  - apply (args_ends_bind Ix_buy_exact_sol_in); [done|]. intros required. apply legacy_suffix. set_solver.
  - apply (args_ends_bind Ix_buy_v2); [done|]. intros required.
    apply (one_flag_suffix _ _ (fun p => [("partial_fill", p)])), buy_v2_suffix_iff.
  - apply (args_ends_bind Ix_create_v2); [done|]. intros required. apply ends_remaining. intros l Hl.
    destruct (includes (Z.of_nat (List.length l)) CREATE_V2_SUFFIX_LENGTHS) eqn:E; cbn [negb].
    + apply includes_true in E.
      eapply ends_on_same; [| |apply (ends_on_map l (create_suffix (Z.of_nat (List.length l))) (fun extra => required ++ extra));
        exact (create_suffix_ends l Hl E)].
      * intros r. unfold create_suffix, pbind, pret. by repeat case_match; simplify_eq.
      * naive_solver.
    + apply includes_false in E. apply ends_on_throw. intros b (extra & Hs & _). apply E.
      apply create_suffix_cases in Hs as (c & f & h & _ & Hl'). unfold CREATE_V2_SUFFIX_LENGTHS.
      rewrite !elem_of_cons.
      destruct Hl' as [(-> & _)|[(-> & _)|[(-> & _)|(-> & _)]]]; cbn [List.length];
        rewrite ?length_app, ?le_bytes_length; cbn; auto.
Qed.

Lemma definition_iff d x : DEFINITION_BY_DISCRIMINATOR d = Some x <-> x ∈ DEFINITIONS /\ id_discriminator (snd x) = d.
Proof.
  unfold DEFINITION_BY_DISCRIMINATOR. split.
  - intros Hf. apply find_some in Hf as [Hin Hd]. apply bool_decide_eq_true in Hd. by rewrite list_elem_of_In.
  - intros [Hin <-]. unfold DEFINITIONS in Hin.
    repeat (apply elem_of_cons in Hin as [->|Hin]; [vm_compute; reflexivity|]). by apply elem_of_nil in Hin.
Qed.

Lemma discriminator_length x : x ∈ DEFINITIONS -> List.length (id_discriminator (snd x)) = 8%nat.
Proof.
  intros Hin. unfold DEFINITIONS in Hin.
  repeat (apply elem_of_cons in Hin as [->|Hin]; [vm_compute; reflexivity|]). by apply elem_of_nil in Hin.
Qed.

(** Arguments that leave nothing. *)
Lemma run_to_end {A} (m : reading A) bytes T a : Forall is_byte bytes -> ends m T ->
  run (x <-- m; left <-- read_remaining; if negb (left =? 0) then invalid_borsh else pret x) bytes = Ok a
  <-> T a bytes.
Proof.
  intros Hb Hm. assert (reader_ok {| rd_bytes := bytes; rd_position := 0 |}) as Hr by (split; [cbn; lia|done]).
  rewrite <- (Hm _ a Hr : _ <-> T a bytes). unfold run, pbind, read_remaining. split.
  - destruct (m _) as [[x|e] r']; [|done]. destruct (Z.eqb_spec (remaining r') 0); cbn; [|done].
    intros [= ->]. eauto.
  - intros (r' & -> & ->). done.
Qed.

(** C28: the wire format of instructions.  An instruction of the program is decoded exactly
    when its data is the discriminator of one of the described instructions, the encodings of
    its required arguments and one of the suffixes that instruction may have, with no byte
    more or less; the result carries the values of the arguments under their names, those of
    the suffix included, and the accounts under theirs. *)
Theorem pump_instruction_format (i : NormalizedInstruction) (a : DecodedPumpInstruction)
    (Hb : Forall is_byte (ni_data i)) :
  decodePumpInstruction i = Ok (Some a) <->
  ni_programId i = pp_programId /\ exists name definition values used suffix extra accounts,
    (name, definition) ∈ DEFINITIONS
    /\ ni_data i = id_discriminator definition ++ used ++ suffix
    /\ encodes_all (map snd (required_args name definition)) values used
    /\ suffix_format name suffix extra
    /\ mapAccounts name definition i = Ok accounts
    /\ a = decoded name i accounts (zip (map fst (required_args name definition)) values ++ extra).
Proof.
  unfold decodePumpInstruction, decodeMatchedInstruction. split.
  - destruct (bool_decide_reflect (ni_programId i = pp_programId)) as [Ep|]; [|done]. cbn [negb orb].
    destruct (Nat.ltb_spec (List.length (ni_data i)) 8); [done|].
    destruct (DEFINITION_BY_DISCRIMINATOR _) as [[name definition]|] eqn:Ed; [|done].
    intros E. apply fmap_Ok in E as (x & E & [= ->]). apply bind_Ok in E as (accounts & Ha & E).
    apply bind_Ok in E as (args & Hargs & [= <-]). apply definition_iff in Ed as [Hin Hd].
    apply (run_to_end _ _ _ args (Forall_drop _ _ _ Hb) (args_ends _ _ Hin)) in Hargs
      as (values & used & suffix & extra & Hdata & Hv & Hs & ->).
    split; [done|]. exists name, definition, values, used, suffix, extra, accounts.
    split; [done|]. split; [|done]. cbn [snd] in Hd. by rewrite Hd, <- Hdata, take_drop.
  - intros (Ep & name & definition & values & used & suffix & extra & accounts & Hin & Hdata & Hv & Hs & Ha & ->).
    pose proof (discriminator_length _ Hin) as Hl. cbn [snd] in Hl.
    rewrite bool_decide_eq_true_2 by done. cbn [negb orb].
    destruct (Nat.ltb_spec (List.length (ni_data i)) 8) as [Hlt|_].
    { rewrite Hdata, length_app, Hl in Hlt. lia. }
    assert (take 8 (ni_data i) = id_discriminator definition) as -> by (by rewrite Hdata, <- Hl, take_app_length).
    assert (DEFINITION_BY_DISCRIMINATOR (id_discriminator definition) = Some (name, definition)) as ->
      by (by apply definition_iff).
    rewrite Ha. cbn [mbind result_bind].
    assert (run (args <-- decodeInstructionArgs name definition; left <-- read_remaining;
                 if negb (left =? 0) then invalid_borsh else pret args) (drop 8 (ni_data i))
            = Ok (zip (map fst (required_args name definition)) values ++ extra)) as ->; [|done].
    apply (run_to_end _ _ _ _ (Forall_drop _ _ _ Hb) (args_ends _ _ Hin)).
    rewrite Hdata, <- Hl, drop_app_length. by exists values, used, suffix, extra.
Qed.
End Format.

(** * A sale *)

Definition sample_program : PumpProgram :=
  {| pp_programId := "pump"; pp_wsolMint := "wsol"; pp_splTokenProgram := "token";
     pp_token2022Program := "token-2022"; pp_quoteControl := "quote-control";
     pp_eventAuthority := "authority"; pp_bondingCurvePda := fun m => Some ("curve-" +:+ m);
     pp_holderRewardsPda := fun m => Some ("rewards-" +:+ m);
     pp_associatedToken := fun _ pool _ => Some ("vault-" +:+ pool) |}.
(** Keys are written as their first byte. *)
Definition sample_keys : PublicKeys := fun k => to_decimal (hd 0 k).
Definition sample_sale_accounts : list string :=
  ["global"; "fees"; "7"; "curve-7"; "vault"; "wallet"; "9"; "system"; "creator-vault"; "token";
   "authority"; "pump"; "fee-config"; "fee-program"].
Definition sample_sale : NormalizedInstruction :=
  {| ni_programId := "pump"; ni_accounts := sample_sale_accounts;
     ni_data := id_discriminator ix_sell ++ le_bytes 8 5000 ++ le_bytes 8 1;
     ni_instructionIndex := 2; ni_innerInstructionIndex := None; ni_parentInstructionIndex := None;
     ni_stackHeight := Some 1 |}.

Lemma pump_instruction_format_witness :
  let K := sample_keys in let P := sample_program in
  let a := decoded Ix_sell sample_sale (zip (id_accounts ix_sell) sample_sale_accounts)
             [("amount", IdlBigint 5000); ("min_sol_output", IdlBigint 1)] in
  ni_programId sample_sale = pp_programId /\ exists name definition values used suffix extra accounts,
    (name, definition) ∈ DEFINITIONS
    /\ ni_data sample_sale = id_discriminator definition ++ used ++ suffix
    /\ encodes_all (map snd (required_args name definition)) values used
    /\ suffix_format name suffix extra
    /\ mapAccounts name definition sample_sale = Ok accounts
    /\ a = decoded name sample_sale accounts (zip (map fst (required_args name definition)) values ++ extra).
Proof.
  intros K P a. apply (pump_instruction_format sample_sale a).
  - apply Forall_app. split; [|apply Forall_app; split]; vm_compute; repeat constructor; intros E; discriminate E.
  - vm_compute. reflexivity.
Defined.
