(* ===== verification/PumpTransaction.v ===== *)
(** [src/src/launchpads/pumpfun/transaction-decoder.ts], [quote-asset.ts]: the creations, trades
    and migrations of a transaction.

    Every action of the Pump.fun program must be paired with the one event the program sent to
    itself inside that action's call, and must agree with it; an event that belongs to no action
    is an error.  Where an error was seen, which the decoder attaches to it, is left out. *)
From S2P Require Import Prelude Text Types Json PublicKey PumpIdl PumpBorsh PumpEvents.
From Stdlib Require Import Ascii String.
From stdpp Require Import sorting.
Local Open Scope string_scope.
Local Open Scope list_scope.
Local Open Scope Z_scope.

(** src/src/solana/rpc/types.ts:13-21 (NormalizedTokenBalance): the fields read here. *)
Record NormalizedTokenBalance := {
  tb_mint : string;
  tb_tokenProgram : string;
  tb_decimals : Z;
}.
(** src/src/solana/rpc/types.ts:23-41 (NormalizedTransaction): the fields read here; the error
    is only compared with [null]. *)
Record NormalizedTransaction := {
  tx_signature : string;
  tx_transactionIndex : option Z;
  tx_instructions : list NormalizedInstruction;
  tx_preTokenBalances : list NormalizedTokenBalance;
  tx_postTokenBalances : list NormalizedTokenBalance;
  tx_failed : bool;
}.

(** src/src/launchpads/pumpfun/types.ts:139-151 (DecodedPumpCreation) *)
Record DecodedPumpCreation := {
  dc_action : DecodedPumpInstruction;
  dc_event : DecodedPumpCreateEvent;
  dc_eventCpi : DecodedPumpCpiEvent;
  dc_quoteAsset : QuoteAsset;
  dc_requestedCreator : string;
  dc_effectiveCreator : string;
  dc_creatorFeeBps : Z;
  dc_isHolderReward : bool;
}.
(** src/src/launchpads/pumpfun/types.ts:153-163 (DecodedPumpTrade) *)
Record DecodedPumpTrade := {
  dt_action : DecodedPumpInstruction;
  dt_event : DecodedPumpTradeEvent;
  dt_eventCpi : DecodedPumpCpiEvent;
  dt_quoteAsset : QuoteAsset;
}.
(** src/src/launchpads/pumpfun/types.ts:165-173 (DecodedPumpMigration) *)
Record DecodedPumpMigration := {
  dm_action : DecodedPumpInstruction;
  dm_isV2 : bool;
  dm_mint : string;
  dm_bondingCurve : string;
  dm_announcedPool : string;
  dm_baseTokenProgram : TokenProgramKind;
  dm_quoteAsset : QuoteAsset;
}.
(** src/src/launchpads/pumpfun/types.ts:175-180 (DecodedPumpTransaction) *)
Record DecodedPumpTransaction := {
  pt_transaction : NormalizedTransaction;
  pt_creations : list DecodedPumpCreation;
  pt_trades : list DecodedPumpTrade;
  pt_migrations : list DecodedPumpMigration;
}.

(** src/src/launchpads/pumpfun/transaction-decoder.ts:38-41 (IndexedEvent) *)
Record IndexedEvent := { ie_index : nat; ie_decoded : DecodedPumpCpiEvent }.

(** src/src/launchpads/pumpfun/transaction-decoder.ts:43-50 (BUY_IX_NAMES, SELL_IX_NAMES) *)
Definition BUY_IX_NAMES : list string :=
  ["buy"; "buy_v2"; "buy_exact_sol_in"; "buy_exact_quote_in"; "buy_exact_quote_in_v2"].
Definition SELL_IX_NAMES : list string := ["sell"; "sell_v2"].

(** * Checks *)

(** src/src/launchpads/pumpfun/transaction-decoder.ts:630-640 (mismatch) *)
Definition mismatch {A} : result pump_exn A := pump_throw PUMP_EVENT_MISMATCH false.
(** src/src/launchpads/pumpfun/transaction-decoder.ts:612-621 (requireEqual) *)
Definition requireEqual {A} `{!EqDecision A} (actual expected : A) : result pump_exn unit :=
  if bool_decide (actual = expected) then Ok tt else mismatch.
(** src/src/launchpads/pumpfun/transaction-decoder.ts:540-550 (account) *)
Definition account (action : DecodedPumpInstruction) (name : string) : result pump_exn string :=
  match entry (di_accounts action) name with
  | Some a => Ok a
  | None => pump_throw PUMP_ACCOUNT_MISSING true
  end.
(** src/src/launchpads/pumpfun/transaction-decoder.ts:587-596 (schemaMismatch) *)
Definition schemaMismatch {A} : result pump_exn A := pump_throw PUMP_SCHEMA_UNSUPPORTED false.
(** src/src/launchpads/pumpfun/transaction-decoder.ts:552-585 (stringArg, booleanArg, bigintArg,
    optionBooleanArg, isIdlArray) *)
Definition stringArg (action : DecodedPumpInstruction) (name : string) : result pump_exn string :=
  match entry (di_args action) name with Some (IdlString s) => Ok s | _ => schemaMismatch end.
Definition booleanArg (action : DecodedPumpInstruction) (name : string) : result pump_exn bool :=
  match entry (di_args action) name with Some (IdlBool b) => Ok b | _ => schemaMismatch end.
Definition bigintArg (action : DecodedPumpInstruction) (name : string) : result pump_exn Z :=
  match entry (di_args action) name with Some (IdlBigint z) => Ok z | _ => schemaMismatch end.
Definition optionBooleanArg (action : DecodedPumpInstruction) (name : string) : result pump_exn bool :=
  match entry (di_args action) name with Some (IdlArray (IdlBool b :: _)) => Ok b | _ => schemaMismatch end.

Section Transactions.
Context `{PublicKeys}.
Context `{Sha256}.
Context `{PumpProgram}.

(** src/src/launchpads/pumpfun/transaction-decoder.ts:598-610 (requireSupportedProgram) *)
Definition requireSupportedProgram (program : string) : result pump_exn TokenProgramKind :=
  if bool_decide (program = pp_splTokenProgram) then Ok SPL_TOKEN
  else if bool_decide (program = pp_token2022Program) then Ok TOKEN_2022
  else pump_throw PUMP_TOKEN_PROGRAM_UNSUPPORTED false.

(** * Quote assets *)

(** src/src/launchpads/pumpfun/constants.ts:15-16 (DEFAULT_PUBLIC_KEY) *)
Definition DEFAULT_KEY : string := "11111111111111111111111111111111".
(** src/src/launchpads/pumpfun/quote-asset.ts:14-16 (normalizePumpQuoteMint) *)
Definition normalizePumpQuoteMint (quoteMint : string) : string :=
  if bool_decide (quoteMint = DEFAULT_KEY) then pp_wsolMint else quoteMint.
(** src/src/launchpads/pumpfun/quote-asset.ts:105-107 (isValidDecimals) *)
Definition isValidDecimals (value : Z) : bool := is_safe_integer value && (0 <=? value) && (value <=? 255).

(** [map.set(key, value)] on the entries of a Map in insertion order. *)
Fixpoint map_set {A} (key : string) (value : A) (entries : list (string * A)) : list (string * A) :=
  match entries with
  | [] => [(key, value)]
  | (k, v) :: entries => if String.eqb k key then (k, value) :: entries else (k, v) :: map_set key value entries
  end.
(** src/src/launchpads/pumpfun/quote-asset.ts:65-89 (quoteBalanceCandidates) *)
Definition quoteBalanceCandidates (mint : string) (transaction : NormalizedTransaction)
    : result pump_exn (list NormalizedTokenBalance) :=
  byMetadata ← fold_result (fun entries balance =>
      if negb (bool_decide (tb_mint balance = mint)) then Ok entries
      else if negb (isValidDecimals (tb_decimals balance)) then pump_throw PUMP_QUOTE_ASSET_CONFLICT true
      else Ok (map_set (to_decimal (tb_decimals balance) +:+ ":" +:+ tb_tokenProgram balance) balance entries))
    [] (tx_preTokenBalances transaction ++ tx_postTokenBalances transaction);
  Ok (map snd byMetadata).
(** src/src/launchpads/pumpfun/quote-asset.ts:18-63 (resolvePumpQuoteAsset, with tokenProgramKind) *)
Definition resolvePumpQuoteAsset (rawQuoteMint : string) (transaction : NormalizedTransaction)
    : result pump_exn QuoteAsset :=
  let mint := normalizePumpQuoteMint rawQuoteMint in
  if bool_decide (mint = pp_wsolMint)
  then Ok {| qa_mint := mint; qa_decimals := 9; qa_tokenProgram := SPL_TOKEN |}
  else
    candidates ← quoteBalanceCandidates mint transaction;
    match candidates with
    | [] => pump_throw PUMP_QUOTE_ASSET_UNRESOLVED true
    | [candidate] =>
        program ← requireSupportedProgram (tb_tokenProgram candidate);
        Ok {| qa_mint := mint; qa_decimals := tb_decimals candidate; qa_tokenProgram := program |}
    | _ => pump_throw PUMP_QUOTE_ASSET_CONFLICT true
    end.

(** The quote token program an action names is that of the quote asset. *)
Definition require_quote_program (action : DecodedPumpInstruction) (quoteAsset : QuoteAsset)
    : result pump_exn unit :=
  match entry (di_accounts action) "quote_token_program" with
  | Some quoteProgram =>
      p ← requireSupportedProgram quoteProgram;
      requireEqual (qa_tokenProgram quoteAsset) p
  | None => Ok tt
  end.

(** * Migrations *)

(** src/src/launchpads/pumpfun/transaction-decoder.ts:181-215 (validateMigration) *)
Definition validateMigration (action : DecodedPumpInstruction) (transaction : NormalizedTransaction)
    : result pump_exn DecodedPumpMigration :=
  let isV2 := bool_decide (di_name action = Ix_migrate_v2) in
  rawQuoteMint ← (if isV2 then account action "quote_mint" else Ok pp_wsolMint);
  baseProgramAddress ← (if isV2 then account action "base_token_program" else account action "token_program");
  baseTokenProgram ← requireSupportedProgram baseProgramAddress;
  quoteAsset ← resolvePumpQuoteAsset rawQuoteMint transaction;
  (if isV2 then
     quoteProgram ← account action "quote_token_program";
     p ← requireSupportedProgram quoteProgram;
     requireEqual (qa_tokenProgram quoteAsset) p
   else Ok tt) ;;
  mint ← account action (if isV2 then "base_mint" else "mint");
  bondingCurve ← account action "bonding_curve";
  pool ← account action "pool";
  Ok {| dm_action := action; dm_isV2 := isV2; dm_mint := mint; dm_bondingCurve := bondingCurve;
        dm_announcedPool := pool; dm_baseTokenProgram := baseTokenProgram; dm_quoteAsset := quoteAsset |}.

(** * Pairing *)

(** src/src/launchpads/pumpfun/transaction-decoder.ts:660-664 (cursorKey) *)
Definition cursorKey (i : NormalizedInstruction) : string :=
  to_decimal (ni_instructionIndex i) +:+ ":"
  +:+ match ni_innerInstructionIndex i with Some n => to_decimal n | None => "outer" end +:+ ":"
  +:+ match ni_stackHeight i with Some n => to_decimal n | None => "unknown" end.

(** src/src/launchpads/pumpfun/transaction-decoder.ts:217-254 (validateStackHeights, stackRequired) *)
Definition validateStackHeights (actions : list DecodedPumpInstruction) (events : list IndexedEvent)
    : result pump_exn unit :=
  for_each (fun action =>
      match ni_stackHeight (di_instruction action) with
      | None => pump_throw PUMP_STACK_HEIGHT_REQUIRED true
      | Some height =>
          let minimum := match ni_innerInstructionIndex (di_instruction action) with None => 1 | Some _ => 2 end in
          if height <? minimum then pump_throw PUMP_STACK_HEIGHT_INVALID true else Ok tt
      end) actions ;;
  for_each (fun event =>
      match ni_stackHeight (cpi_instruction (ie_decoded event)) with
      | None => pump_throw PUMP_STACK_HEIGHT_REQUIRED true
      | Some _ => Ok tt
      end) events.

(** src/src/launchpads/pumpfun/transaction-decoder.ts:256-293 (isEventInsideActionScope,
    requireInnerIndex): the boundary has an inner index by the way it is found. *)
Definition is_boundary (action : NormalizedInstruction) (inner height : Z) (c : NormalizedInstruction) : bool :=
  (ni_instructionIndex c =? ni_instructionIndex action)
  && match ni_innerInstructionIndex c with Some n => inner <? n | None => false end
  && match ni_stackHeight c with Some h => h <=? height | None => false end.
Definition isEventInsideActionScope (action event : NormalizedInstruction)
    (instructions : list NormalizedInstruction) : bool :=
  match ni_innerInstructionIndex event, ni_stackHeight action with
  | Some eventInner, Some height =>
      (ni_instructionIndex event =? ni_instructionIndex action)
      && bool_decide (ni_stackHeight event = Some (height + 1))
      && match ni_innerInstructionIndex action with
         | None => true
         | Some actionInner =>
             (actionInner <? eventInner)
             && match List.find (is_boundary action actionInner height) instructions with
                | None => true
                | Some boundary =>
                    match ni_innerInstructionIndex boundary with
                    | Some b => eventInner <? b
                    | None => false
                    end
                end
         end
  | _, _ => false
  end.

(** src/src/launchpads/pumpfun/transaction-decoder.ts:295-333 (requireOnlyEvent) *)
Definition requireOnlyEvent (candidates : list IndexedEvent) : result pump_exn IndexedEvent :=
  match candidates with
  | [] => pump_throw PUMP_EVENT_MISSING true
  | [candidate] => Ok candidate
  | _ =>
      let cursors := map (fun c => cursorKey (cpi_instruction (ie_decoded c))) candidates in
      pump_throw (if all_distinct cursors then PUMP_EVENT_AMBIGUOUS else PUMP_EVENT_DUPLICATE) true
  end.

(** src/src/launchpads/pumpfun/transaction-decoder.ts:494-508 (validateOpaqueEventAuthority) *)
Definition validateOpaqueEventAuthority (action : DecodedPumpInstruction) (event : DecodedPumpCpiEvent)
    : result pump_exn unit :=
  authority ← account action "event_authority";
  requireEqual authority pp_eventAuthority ;;
  match ni_accounts (cpi_instruction event) with
  | [a] => requireEqual a pp_eventAuthority
  | _ => mismatch
  end.

(** src/src/launchpads/pumpfun/transaction-decoder.ts:510-527 (withWireEvidence) *)
Definition withWireEvidence (action : DecodedPumpInstruction) (profile : option PumpObservedWireProfile)
    (event : DecodedPumpCpiEvent) : DecodedPumpInstruction :=
  match profile with
  | None => action
  | Some p =>
      {| di_name := di_name action; di_family := di_family action; di_instruction := di_instruction action;
         di_accounts := di_accounts action; di_args := di_args action;
         di_wireEvidence := Some
           {| we_profile := p; we_instructionIndex := ni_instructionIndex (cpi_instruction event);
              we_innerInstructionIndex := ni_innerInstructionIndex (cpi_instruction event);
              we_stackHeight := ni_stackHeight (cpi_instruction event) |} |}
  end.

(** * Creations and trades *)

(** The quote mint of an action. *)
Definition raw_quote_mint (action : DecodedPumpInstruction) : string :=
  match entry (di_accounts action) "quote_mint" with Some m => m | None => pp_wsolMint end.

(** src/src/launchpads/pumpfun/transaction-decoder.ts:362-406 (validateCreation, with
    deriveHolderRewardsCreator): the flags and the creator. *)
Definition validate_flags (action : DecodedPumpInstruction) (event : DecodedPumpCreateEvent)
    (profile : option PumpObservedWireProfile) (requestedCreator : string) : result pump_exn unit :=
  (if bool_decide (di_name action = Ix_create_v2) then
     mayhem ← booleanArg action "is_mayhem_mode";
     requireEqual (ce_isMayhemMode event) mayhem ;;
     if bool_decide (profile = Some CREATE_V2_OPAQUE_0001_V1) then
       requireEqual (ce_isCashbackEnabled event) false ;;
       requireEqual (ce_isHolderReward event) true ;;
       requireEqual (ce_creatorFeeBps event) 0
     else
       cashback ← optionBooleanArg action "is_cashback_enabled";
       requireEqual (ce_isCashbackEnabled event) cashback ;;
       reward ← optionBooleanArg action "is_holder_reward";
       requireEqual (ce_isHolderReward event) reward
   else if ce_isHolderReward event then mismatch else Ok tt) ;;
  if ce_isHolderReward event then
    expected ← match pp_holderRewardsPda (ce_mint event) with Some k => Ok k | None => Err LibraryError end;
    requireEqual (ce_creator event) expected
  else requireEqual (ce_creator event) requestedCreator.

(** src/src/launchpads/pumpfun/transaction-decoder.ts:335-435 (validateCreation) *)
Definition validateCreation (action : DecodedPumpInstruction) (eventCpi : DecodedPumpCpiEvent)
    (event : DecodedPumpCreateEvent) (transaction : NormalizedTransaction)
    (profile : option PumpObservedWireProfile) : result pump_exn DecodedPumpCreation :=
  mint ← account action "mint";
  requireEqual (ce_mint event) mint ;;
  bondingCurve ← account action "bonding_curve";
  requireEqual (ce_bondingCurve event) bondingCurve ;;
  name ← stringArg action "name";
  requireEqual (ce_name event) name ;;
  symbol ← stringArg action "symbol";
  requireEqual (ce_symbol event) symbol ;;
  uri ← stringArg action "uri";
  requireEqual (ce_uri event) uri ;;
  user ← account action "user";
  requireEqual (ce_user event) user ;;
  requestedCreator ← stringArg action "creator";
  tokenProgram ← account action "token_program";
  requireEqual (ce_tokenProgram event) tokenProgram ;;
  requireSupportedProgram (ce_tokenProgram event) ;;
  validate_flags action event profile requestedCreator ;;
  requireEqual (normalizePumpQuoteMint (ce_quoteMint event)) (normalizePumpQuoteMint (raw_quote_mint action)) ;;
  quoteAsset ← resolvePumpQuoteAsset (raw_quote_mint action) transaction;
  require_quote_program action quoteAsset ;;
  Ok {| dc_action := withWireEvidence action profile eventCpi; dc_event := event; dc_eventCpi := eventCpi;
        dc_quoteAsset := quoteAsset; dc_requestedCreator := requestedCreator;
        dc_effectiveCreator := ce_creator event; dc_creatorFeeBps := ce_creatorFeeBps event;
        dc_isHolderReward := ce_isHolderReward event |}.

(** src/src/launchpads/pumpfun/transaction-decoder.ts:529-538 (requireTradeIxSemantic) *)
Definition requireTradeIxSemantic (ixName : string) (shouldBuy : bool) : result pump_exn unit :=
  if (if shouldBuy then includes ixName BUY_IX_NAMES else includes ixName SELL_IX_NAMES)
  then Ok tt else mismatch.

(** src/src/launchpads/pumpfun/transaction-decoder.ts:437-492 (validateTrade) *)
Definition validateTrade (action : DecodedPumpInstruction) (eventCpi : DecodedPumpCpiEvent)
    (event : DecodedPumpTradeEvent) (transaction : NormalizedTransaction)
    (profile : option PumpObservedWireProfile) : result pump_exn DecodedPumpTrade :=
  let shouldBuy := bool_decide (di_family action = FAMILY_BUY) in
  requireEqual (te_isBuy event) shouldBuy ;;
  requireTradeIxSemantic (te_ixName event) shouldBuy ;;
  mint ← account action (match entry (di_accounts action) "base_mint" with None => "mint" | Some _ => "base_mint" end);
  requireEqual (te_mint event) mint ;;
  user ← account action "user";
  requireEqual (te_user event) user ;;
  (if bool_decide (profile = Some SELL_OPAQUE_0100_V1) then
     requireEqual (te_ixName event) "sell" ;;
     requireEqual (te_trackVolume event) false ;;
     amount ← bigintArg action "amount";
     requireEqual (te_tokenAmount event) amount
   else Ok tt) ;;
  requireEqual (normalizePumpQuoteMint (te_quoteMint event)) (normalizePumpQuoteMint (raw_quote_mint action)) ;;
  match (match entry (di_accounts action) "base_token_program" with
         | Some p => Some p
         | None => entry (di_accounts action) "token_program"
         end) with
  | Some baseProgram => requireSupportedProgram baseProgram ;; Ok tt
  | None => Ok tt
  end ;;
  quoteAsset ← resolvePumpQuoteAsset (raw_quote_mint action) transaction;
  require_quote_program action quoteAsset ;;
  Ok {| dt_action := withWireEvidence action profile eventCpi; dt_event := event; dt_eventCpi := eventCpi;
        dt_quoteAsset := quoteAsset |}.

(** * The transaction *)

(** src/src/launchpads/pumpfun/transaction-decoder.ts:101-113 (decodeTransaction): the candidates
    and the events, with the place of each event among the instructions. *)
Fixpoint decode_instructions (index : nat) (l : list NormalizedInstruction)
    : result pump_exn (list PumpInstructionCandidate * list IndexedEvent) :=
  match l with
  | [] => Ok ([], [])
  | i :: l =>
      candidate ← decodePumpInstructionForTransaction i;
      event ← decodePumpCpiEvent i;
      rest ← decode_instructions (S index) l;
      Ok (match candidate with Some c => c :: fst rest | None => fst rest end,
          match event with
          | Some e => {| ie_index := index; ie_decoded := e |} :: snd rest
          | None => snd rest
          end)
  end.

(** src/src/launchpads/pumpfun/transaction-decoder.ts:116-119 (decodeTransaction): what the loop
    over the candidates updates. *)
Record pairing := {
  pa_consumed : list nat;
  pa_creations : list DecodedPumpCreation;
  pa_trades : list DecodedPumpTrade;
  pa_migrations : list DecodedPumpMigration;
}.
(** The kind of event an action is paired with. *)
Definition kind_matches (family : PumpInstructionFamily) (e : pump_event) : bool :=
  match family, e with
  | FAMILY_CREATE, CreateEvent _ => true
  | FAMILY_CREATE, _ => false
  | _, TradeEvent _ => true
  | _, _ => false
  end.
(** src/src/launchpads/pumpfun/transaction-decoder.ts:125-133 (decodeTransaction): the events an
    action may be paired with. *)
Definition event_candidates (transaction : NormalizedTransaction) (events : list IndexedEvent)
    (consumed : list nat) (action : DecodedPumpInstruction) : list IndexedEvent :=
  List.filter (fun e =>
      kind_matches (di_family action) (cpi_event (ie_decoded e))
      && negb (includes (ie_index e) consumed)
      && isEventInsideActionScope (di_instruction action) (cpi_instruction (ie_decoded e))
           (tx_instructions transaction)) events.
(** src/src/launchpads/pumpfun/transaction-decoder.ts:120-151 (decodeTransaction, with
    isCreateAction, isTradeAction and isMigrationAction): one action. *)
Definition pair_action (transaction : NormalizedTransaction) (events : list IndexedEvent)
    (s : pairing) (c : PumpInstructionCandidate) : result pump_exn pairing :=
  let action := pi_action c in
  let profile := pi_profile c in
  match di_family action with
  | FAMILY_MIGRATE =>
      m ← validateMigration action transaction;
      Ok {| pa_consumed := pa_consumed s; pa_creations := pa_creations s; pa_trades := pa_trades s;
            pa_migrations := pa_migrations s ++ [m] |}
  | family =>
      paired ← requireOnlyEvent (event_candidates transaction events (pa_consumed s) action);
      (match profile with
       | Some _ => validateOpaqueEventAuthority action (ie_decoded paired)
       | None => Ok tt
       end) ;;
      let consumed := pa_consumed s ++ [ie_index paired] in
      match family, cpi_event (ie_decoded paired) with
      | FAMILY_CREATE, CreateEvent e =>
          x ← validateCreation action (ie_decoded paired) e transaction profile;
          Ok {| pa_consumed := consumed; pa_creations := pa_creations s ++ [x]; pa_trades := pa_trades s;
                pa_migrations := pa_migrations s |}
      | (FAMILY_BUY | FAMILY_SELL), TradeEvent e =>
          x ← validateTrade action (ie_decoded paired) e transaction profile;
          Ok {| pa_consumed := consumed; pa_creations := pa_creations s; pa_trades := pa_trades s ++ [x];
                pa_migrations := pa_migrations s |}
      | _, _ => mismatch
      end
  end.

(** src/src/launchpads/pumpfun/transaction-decoder.ts:170-179 (emptyResult) *)
Definition emptyResult (transaction : NormalizedTransaction) : DecodedPumpTransaction :=
  {| pt_transaction := transaction; pt_creations := []; pt_trades := []; pt_migrations := [] |}.

(** src/src/launchpads/pumpfun/transaction-decoder.ts:58-168 (decodePumpTransaction,
    decodeTransaction) *)
Definition decodePumpTransaction (transaction : NormalizedTransaction)
    : result pump_exn DecodedPumpTransaction :=
  if tx_failed transaction then Ok (emptyResult transaction)
  else match tx_transactionIndex transaction with
  | None => pump_throw PUMP_TRANSACTION_INDEX_REQUIRED true
  | Some _ =>
      all ← decode_instructions 0 (tx_instructions transaction);
      let '(candidates, events) := all in
      validateStackHeights (map pi_action candidates) events ;;
      s ← fold_result (pair_action transaction events)
            {| pa_consumed := []; pa_creations := []; pa_trades := []; pa_migrations := [] |} candidates;
      match List.find (fun e => negb (includes (ie_index e) (pa_consumed s))) events with
      | Some _ => pump_throw PUMP_EVENT_ORPHANED true
      | None => Ok {| pt_transaction := transaction; pt_creations := pa_creations s;
                      pt_trades := pa_trades s; pt_migrations := pa_migrations s |}
      end
  end.
End Transactions.

(** * What is reported *)

Section Reports.
Context `{PublicKeys}.
Context `{Sha256}.
Context `{PumpProgram}.
Implicit Types (t : NormalizedTransaction) (events : list IndexedEvent) (s : pairing).

Lemma requireEqual_Ok {A} `{!EqDecision A} (actual expected : A) u :
  requireEqual actual expected = Ok u <-> actual = expected.
Proof. unfold requireEqual. case_bool_decide; destruct u; naive_solver. Qed.
Lemma account_Ok action n address :
  account action n = Ok address <-> entry (di_accounts action) n = Some address.
Proof. unfold account. destruct (entry _ _); naive_solver. Qed.
Lemma requireOnlyEvent_Ok l e : requireOnlyEvent l = Ok e <-> l = [e].
Proof. unfold requireOnlyEvent. destruct l as [|x [|y l]]; cbn; naive_solver. Qed.

(** The events and the actions of a transaction, one by one. *)
Definition transaction_events (l : list NormalizedInstruction) : list DecodedPumpCpiEvent :=
  omap (fun i => match decodePumpCpiEvent i with Ok o => o | Err _ => None end) l.
Definition transaction_actions (l : list NormalizedInstruction) : list NormalizedInstruction :=
  omap (fun i => match decodePumpInstructionForTransaction i with
                 | Ok (Some c) => Some (di_instruction (pi_action c))
                 | _ => None
                 end) l.

Lemma decode_instructions_spec n l candidates events :
  decode_instructions n l = Ok (candidates, events) ->
  map ie_decoded events = transaction_events l
  /\ map (fun c => di_instruction (pi_action c)) candidates = transaction_actions l
  /\ NoDup (map ie_index events) /\ Forall (fun i => (n <= i)%nat) (map ie_index events).
Proof.
  revert n candidates events. induction l as [|i l IH]; intros n candidates events E; cbn [decode_instructions] in E.
  { injection E as <- <-. repeat split; constructor. }
  apply bind_Ok in E as (c & Hc & E). apply bind_Ok in E as (e & He & E).
  apply bind_Ok in E as ([cs es] & Hrest & E). injection E as <- <-. cbn [fst snd].
  destruct (IH _ _ _ Hrest) as (IHe & IHc & IHd & IHn).
  cbn [transaction_events transaction_actions omap list_omap]. rewrite Hc, He.
  unfold transaction_events, transaction_actions in *. split_and!.
  - destruct e; cbn; congruence.
  - destruct c; cbn; congruence.
  - destruct e; cbn; [|done]. constructor; [|done]. intros Hin.
    apply (proj1 (Forall_forall _ _) IHn) in Hin. lia.
  - destruct e; cbn; [constructor; [lia|]|]; (eapply Forall_impl; [exact IHn|]); cbn; lia.
Qed.

(** The events paired so far are different ones, and each is reported with one action. *)
Record paired_ok events (done_ : list NormalizedInstruction) s : Prop := {
  po_events : exists l, (forall e, e ∈ l -> e ∈ events) /\ NoDup (map ie_index l)
                /\ map ie_index l = pa_consumed s
                /\ map ie_decoded l ≡ₚ map dc_eventCpi (pa_creations s) ++ map dt_eventCpi (pa_trades s);
  po_actions : done_ ≡ₚ map (fun x => di_instruction (dc_action x)) (pa_creations s)
                 ++ map (fun x => di_instruction (dt_action x)) (pa_trades s)
                 ++ map (fun x => di_instruction (dm_action x)) (pa_migrations s);
}.

Lemma wire_instruction a p e : di_instruction (withWireEvidence a p e) = di_instruction a.
Proof. by destruct p. Qed.
Lemma wire_accounts a p e : di_accounts (withWireEvidence a p e) = di_accounts a.
Proof. by destruct p. Qed.
Lemma wire_family a p e : di_family (withWireEvidence a p e) = di_family a.
Proof. by destruct p. Qed.
Lemma wire_args a p e : di_args (withWireEvidence a p e) = di_args a.
Proof. by destruct p. Qed.

Lemma validateCreation_shape a cpi e t p x : validateCreation a cpi e t p = Ok x ->
  dc_eventCpi x = cpi /\ dc_event x = e /\ dc_action x = withWireEvidence a p cpi.
Proof.
  unfold validateCreation. intros E.
  repeat match type of E with (_ ≫= _) = _ => apply bind_Ok in E as (? & _ & E) end. by injection E as <-.
Qed.
Lemma validateTrade_shape a cpi e t p x : validateTrade a cpi e t p = Ok x ->
  dt_eventCpi x = cpi /\ dt_event x = e /\ dt_action x = withWireEvidence a p cpi.
Proof.
  unfold validateTrade. cbv zeta. intros E.
  repeat match type of E with (_ ≫= _) = _ => apply bind_Ok in E as (? & _ & E) end. by injection E as <-.
Qed.
Lemma validateMigration_shape a t x : validateMigration a t = Ok x -> dm_action x = a.
Proof.
  unfold validateMigration. cbv zeta. intros E.
  repeat match type of E with (_ ≫= _) = _ => apply bind_Ok in E as (? & _ & E) end. by injection E as <-.
Qed.

Lemma candidate_member t events consumed a e : event_candidates t events consumed a = [e] ->
  e ∈ events /\ kind_matches (di_family a) (cpi_event (ie_decoded e)) = true /\ (ie_index e ∉ consumed)
  /\ isEventInsideActionScope (di_instruction a) (cpi_instruction (ie_decoded e)) (tx_instructions t) = true.
Proof.
  intros E. assert (In e (event_candidates t events consumed a)) as Hin by (rewrite E; by left).
  apply filter_In in Hin as [Hin Hb]. rewrite !andb_true_iff, negb_true_iff, includes_false in Hb.
  destruct Hb as [[Hk Hc] Hs]. apply list_elem_of_In in Hin. done.
Qed.

(** One more event. *)
Lemma paired_extend events s e l :
  (forall e, e ∈ l -> e ∈ events) -> NoDup (map ie_index l) -> map ie_index l = pa_consumed s ->
  e ∈ events -> ie_index e ∉ pa_consumed s ->
  (forall x, x ∈ l ++ [e] -> x ∈ events) /\ NoDup (map ie_index (l ++ [e]))
  /\ map ie_index (l ++ [e]) = pa_consumed s ++ [ie_index e].
Proof.
  intros Hl Hd Hc He Hn. split_and!.
  - intros x Hx. apply elem_of_app in Hx as [Hx|Hx]; [auto|]. apply list_elem_of_singleton in Hx as ->. done.
  - rewrite map_app. apply NoDup_app. split_and!; [done| |by repeat constructor; set_solver].
    intros i Hi Hi'. cbn in Hi'. apply list_elem_of_singleton in Hi' as ->. rewrite Hc in Hi. done.
  - by rewrite map_app, Hc.
Qed.

Lemma pair_action_paired t events done_ s c s' : paired_ok events done_ s ->
  pair_action t events s c = Ok s' -> paired_ok events (done_ ++ [di_instruction (pi_action c)]) s'.
Proof.
  intros [(l & Hl & Hd & Hc & Hp) Ha] E. unfold pair_action in E. cbv zeta in E.
  destruct (di_family (pi_action c)) eqn:Ef.
  4:{ apply bind_Ok in E as (m & Hm & [= <-]). apply validateMigration_shape in Hm as <-.
      split; [by exists l|]. cbn [pa_creations pa_trades pa_migrations]. rewrite map_app, !app_assoc. cbn.
      apply Permutation_app; [|done]. by rewrite <- app_assoc. }
  all: apply bind_Ok in E as (e & He%requireOnlyEvent_Ok & E); apply bind_Ok in E as (u & _ & E);
    apply candidate_member in He as (Hin & _ & Hn & _);
    destruct (paired_extend events s e l Hl Hd Hc Hin Hn) as (Hl' & Hd' & Hc');
    destruct (cpi_event (ie_decoded e)) as [ev|ev]; try discriminate E;
    apply bind_Ok in E as (x & Hx & [= <-]).
  - apply validateCreation_shape in Hx as (Hcpi & _ & Hact). split.
    + exists (l ++ [e]). cbn [pa_consumed pa_creations pa_trades]. split_and!; [done..|].
      rewrite !map_app, Hp. cbn. rewrite Hcpi, <- !app_assoc. apply Permutation_app; [done|].
      apply Permutation_app_comm.
    + cbn [pa_creations pa_trades pa_migrations]. rewrite map_app, Ha. cbn. rewrite Hact, wire_instruction.
      rewrite <- !app_assoc. apply Permutation_app; [done|]. rewrite app_assoc. apply Permutation_app_comm.
  - apply validateTrade_shape in Hx as (Hcpi & _ & Hact). split.
    + exists (l ++ [e]). cbn [pa_consumed pa_creations pa_trades]. split_and!; [done..|].
      rewrite !map_app, Hp. cbn. by rewrite Hcpi, <- !app_assoc.
    + cbn [pa_creations pa_trades pa_migrations]. rewrite map_app, Ha. cbn. rewrite Hact, wire_instruction.
      rewrite <- !app_assoc. do 2 (apply Permutation_app; [done|]). apply Permutation_app_comm.
  - apply validateTrade_shape in Hx as (Hcpi & _ & Hact). split.
    + exists (l ++ [e]). cbn [pa_consumed pa_creations pa_trades]. split_and!; [done..|].
      rewrite !map_app, Hp. cbn. by rewrite Hcpi, <- !app_assoc.
    + cbn [pa_creations pa_trades pa_migrations]. rewrite map_app, Ha. cbn. rewrite Hact, wire_instruction.
      rewrite <- !app_assoc. do 2 (apply Permutation_app; [done|]). apply Permutation_app_comm.
Qed.

Lemma pair_all_paired t events candidates done_ s s' : paired_ok events done_ s ->
  fold_result (pair_action t events) s candidates = Ok s' ->
  paired_ok events (done_ ++ map (fun c => di_instruction (pi_action c)) candidates) s'.
Proof.
  revert done_ s. induction candidates as [|c cs IH]; intros done_ s Hs E; cbn [fold_result map] in *.
  - injection E as <-. by rewrite app_nil_r.
  - apply bind_Ok in E as (s1 & E1 & E). apply (pair_action_paired _ _ _ _ _ _ Hs) in E1.
    apply (IH _ _ E1) in E. by rewrite <- app_assoc in E.
Qed.

(** With different places, the events paired are all of them when none is left. *)
Lemma all_consumed events l : NoDup (map ie_index events) -> NoDup (map ie_index l) ->
  (forall e, e ∈ l -> e ∈ events) -> (forall e, e ∈ events -> ie_index e ∈ map ie_index l) -> l ≡ₚ events.
Proof.
  intros He Hl Hsub Hall. apply NoDup_Permutation; [by eapply NoDup_fmap_1|by eapply NoDup_fmap_1|].
  intros e. split; [auto|]. intros Hin. pose proof (Hall e Hin) as Hi. apply list_elem_of_fmap in Hi as (e' & Ei & Hin').
  assert (e = e') as ->; [|done]. apply Hsub in Hin'.
  apply list_elem_of_lookup in Hin as (i & Hi), Hin' as (j & Hj).
  assert (i = j) as ->; [|congruence].
  eapply (NoDup_lookup (ie_index <$> events)); [exact He| |].
  - by rewrite list_lookup_fmap, Hi.
  - rewrite list_lookup_fmap, Hj. cbn. by rewrite Ei.
Qed.

(** The result of a transaction that did not fail. *)
Lemma decode_inv t d : decodePumpTransaction t = Ok d -> tx_failed t = false ->
  exists candidates events s, decode_instructions 0 (tx_instructions t) = Ok (candidates, events)
    /\ fold_result (pair_action t events)
         {| pa_consumed := []; pa_creations := []; pa_trades := []; pa_migrations := [] |} candidates = Ok s
    /\ (forall e, e ∈ events -> ie_index e ∈ pa_consumed s)
    /\ d = {| pt_transaction := t; pt_creations := pa_creations s; pt_trades := pa_trades s;
              pt_migrations := pa_migrations s |}.
Proof.
  unfold decodePumpTransaction. intros E Hf. rewrite Hf in E. destruct (tx_transactionIndex t); [|discriminate E].
  apply bind_Ok in E as ([candidates events] & Hdec & E). apply bind_Ok in E as (? & _ & E).
  apply bind_Ok in E as (s & Hs & E). destruct (List.find _ events) eqn:Ef; [discriminate E|]. injection E as <-.
  exists candidates, events, s. split_and!; try done. intros e Hin. apply list_elem_of_In in Hin.
  pose proof (find_none _ _ Ef e Hin) as Hn. cbn in Hn. apply negb_false_iff in Hn. by apply includes_true.
Qed.

(** C18: nothing is lost and nothing is invented.  When a transaction that succeeded is decoded,
    the events carried by the reported creations and trades are, up to order, exactly the
    Pump.fun events of its instructions, each reported once; and the actions reported, with the
    migrations, are exactly the Pump.fun actions among its instructions, each once. *)
Theorem pump_reports_every_event_once (t : NormalizedTransaction) (d : DecodedPumpTransaction)
    (Hd : decodePumpTransaction t = Ok d) (Hf : tx_failed t = false) :
  map dc_eventCpi (pt_creations d) ++ map dt_eventCpi (pt_trades d) ≡ₚ transaction_events (tx_instructions t)
  /\ map (fun x => di_instruction (dc_action x)) (pt_creations d)
     ++ map (fun x => di_instruction (dt_action x)) (pt_trades d)
     ++ map (fun x => di_instruction (dm_action x)) (pt_migrations d)
     ≡ₚ transaction_actions (tx_instructions t).
Proof.
  destruct (decode_inv t d Hd Hf) as (candidates & events & s & Hdec & Hs & Hall & ->).
  destruct (decode_instructions_spec _ _ _ _ Hdec) as (He & Hc & Hn & _).
  eapply (pair_all_paired _ _ _ []) in Hs as [(l & Hl & Hdl & Hcl & Hp) Ha].
  2:{ split; [|done]. exists []. split_and!; [set_solver|constructor|done|done]. }
  cbn [app pt_creations pt_trades pt_migrations] in *. split.
  - rewrite <- Hp, <- He. apply Permutation_map. apply all_consumed; try done. intros e Hin.
    rewrite Hcl. by apply Hall.
  - rewrite <- Ha. by rewrite Hc.
Qed.

(** The two sides of the proof when an instruction ended with opaque bytes. *)
Definition authority_proved (a : DecodedPumpInstruction) (cpi : DecodedPumpCpiEvent) : Prop :=
  entry (di_accounts a) "event_authority" = Some pp_eventAuthority
  /\ ni_accounts (cpi_instruction cpi) = [pp_eventAuthority].

(** A trade agrees with its event. *)
Record trade_ok t (x : DecodedPumpTrade) : Prop := {
  tr_event : cpi_event (dt_eventCpi x) = TradeEvent (dt_event x);
  tr_scope : isEventInsideActionScope (di_instruction (dt_action x)) (cpi_instruction (dt_eventCpi x))
               (tx_instructions t) = true;
  tr_side : di_family (dt_action x) = FAMILY_BUY /\ te_isBuy (dt_event x) = true
              /\ te_ixName (dt_event x) ∈ BUY_IX_NAMES
            \/ di_family (dt_action x) = FAMILY_SELL /\ te_isBuy (dt_event x) = false
              /\ te_ixName (dt_event x) ∈ SELL_IX_NAMES;
  tr_mint : entry (di_accounts (dt_action x)) "base_mint" = Some (te_mint (dt_event x))
            \/ entry (di_accounts (dt_action x)) "base_mint" = None
               /\ entry (di_accounts (dt_action x)) "mint" = Some (te_mint (dt_event x));
  tr_user : entry (di_accounts (dt_action x)) "user" = Some (te_user (dt_event x));
  tr_quote : qa_mint (dt_quoteAsset x) = normalizePumpQuoteMint (te_quoteMint (dt_event x));
  tr_opaque : is_Some (di_wireEvidence (dt_action x)) -> authority_proved (dt_action x) (dt_eventCpi x);
}.

(** A creation agrees with its event. *)
Record creation_ok t (x : DecodedPumpCreation) : Prop := {
  cr_event : cpi_event (dc_eventCpi x) = CreateEvent (dc_event x);
  cr_scope : isEventInsideActionScope (di_instruction (dc_action x)) (cpi_instruction (dc_eventCpi x))
               (tx_instructions t) = true;
  cr_accounts : entry (di_accounts (dc_action x)) "mint" = Some (ce_mint (dc_event x))
                /\ entry (di_accounts (dc_action x)) "bonding_curve" = Some (ce_bondingCurve (dc_event x))
                /\ entry (di_accounts (dc_action x)) "user" = Some (ce_user (dc_event x));
  cr_name : entry (di_args (dc_action x)) "name" = Some (IdlString (ce_name (dc_event x)))
            /\ entry (di_args (dc_action x)) "symbol" = Some (IdlString (ce_symbol (dc_event x)))
            /\ entry (di_args (dc_action x)) "uri" = Some (IdlString (ce_uri (dc_event x)));
  cr_creator : dc_effectiveCreator x = ce_creator (dc_event x)
               /\ if ce_isHolderReward (dc_event x)
                  then pp_holderRewardsPda (ce_mint (dc_event x)) = Some (ce_creator (dc_event x))
                  else ce_creator (dc_event x) = dc_requestedCreator x;
  cr_quote : qa_mint (dc_quoteAsset x) = normalizePumpQuoteMint (ce_quoteMint (dc_event x));
  cr_opaque : is_Some (di_wireEvidence (dc_action x)) -> authority_proved (dc_action x) (dc_eventCpi x);
}.

Lemma resolve_mint m t q : resolvePumpQuoteAsset m t = Ok q -> qa_mint q = normalizePumpQuoteMint m.
Proof.
  unfold resolvePumpQuoteAsset. cbv zeta. case_bool_decide; [by intros [= <-]|]. intros E.
  apply bind_Ok in E as (l & _ & E). destruct l as [|c [|]]; try discriminate E.
  by apply bind_Ok in E as (? & _ & [= <-]).
Qed.

Lemma opaque_authority a cpi u : validateOpaqueEventAuthority a cpi = Ok u -> authority_proved a cpi.
Proof.
  unfold validateOpaqueEventAuthority. intros E. apply bind_Ok in E as (k & Hk%account_Ok & E).
  apply bind_Ok in E as (? & ->%requireEqual_Ok & E). split; [done|].
  destruct (ni_accounts _) as [|key [|]]; try discriminate E. by apply requireEqual_Ok in E as ->.
Qed.

(** Actions come from the instruction decoder without evidence. *)
Definition fresh (c : PumpInstructionCandidate) : Prop := di_wireEvidence (pi_action c) = None.

Lemma evidence_profile c cpi : fresh c ->
  is_Some (di_wireEvidence (withWireEvidence (pi_action c) (pi_profile c) cpi)) -> is_Some (pi_profile c).
Proof. unfold fresh, withWireEvidence. intros Hf. destruct (pi_profile c); [eauto|]. rewrite Hf. by intros [? ?]. Qed.

Lemma validateTrade_agrees t c e ev x : fresh c -> (di_family (pi_action c) = FAMILY_BUY \/ di_family (pi_action c) = FAMILY_SELL) ->
  cpi_event e = TradeEvent ev ->
  isEventInsideActionScope (di_instruction (pi_action c)) (cpi_instruction e) (tx_instructions t) = true ->
  (is_Some (pi_profile c) -> authority_proved (pi_action c) e) ->
  validateTrade (pi_action c) e ev t (pi_profile c) = Ok x -> trade_ok t x.
Proof.
  intros Hfresh Hfam He Hscope Hop E. destruct (validateTrade_shape _ _ _ _ _ _ E) as (Ecpi & Eev & Eact).
  unfold validateTrade in E. cbv zeta in E.
  apply bind_Ok in E as (u1 & Hside%requireEqual_Ok & E). apply bind_Ok in E as (u2 & Hix & E).
  apply bind_Ok in E as (mint & Hmint%account_Ok & E). apply bind_Ok in E as (u3 & Hm%requireEqual_Ok & E).
  apply bind_Ok in E as (user & Huser%account_Ok & E). apply bind_Ok in E as (u4 & Hu%requireEqual_Ok & E).
  apply bind_Ok in E as (u5 & _ & E). apply bind_Ok in E as (u6 & Hq%requireEqual_Ok & E).
  apply bind_Ok in E as (u7 & _ & E). apply bind_Ok in E as (q & Hres%resolve_mint & E).
  apply bind_Ok in E as (u8 & _ & [= <-]). cbn [dt_action dt_event dt_eventCpi dt_quoteAsset] in *.
  split; cbn [dt_action dt_event dt_eventCpi dt_quoteAsset]; rewrite ?wire_accounts, ?wire_instruction, ?wire_family; try done.
  - unfold requireTradeIxSemantic in Hix.
    destruct Hfam as [Hfam|Hfam]; rewrite Hfam in Hside, Hix |- *; [left|right];
      [rewrite bool_decide_eq_true_2 in Hside, Hix by done|rewrite bool_decide_eq_false_2 in Hside, Hix by done];
      destruct (includes _ _) eqn:Ei in Hix; try discriminate Hix; apply includes_true in Ei; auto.
  - rewrite Hm. destruct (entry (di_accounts (pi_action c)) "base_mint") eqn:Eb; [left; congruence|right; auto].
  - by rewrite Huser, Hu.
  - congruence.
  - intros Hw%evidence_profile; [|done]. unfold authority_proved. rewrite wire_accounts. by apply Hop.
Qed.

Lemma validateCreation_agrees t c e ev x : fresh c -> cpi_event e = CreateEvent ev ->
  isEventInsideActionScope (di_instruction (pi_action c)) (cpi_instruction e) (tx_instructions t) = true ->
  (is_Some (pi_profile c) -> authority_proved (pi_action c) e) ->
  validateCreation (pi_action c) e ev t (pi_profile c) = Ok x -> creation_ok t x.
Proof.
  intros Hfresh He Hscope Hop E. unfold validateCreation in E.
  assert (forall n v, stringArg (pi_action c) n = Ok v -> entry (di_args (pi_action c)) n = Some (IdlString v)) as Hs.
  { intros n v. unfold stringArg. destruct (entry _ _) as [[]|]; try discriminate. by intros [= ->]. }
  apply bind_Ok in E as (mint & Hmint%account_Ok & E). apply bind_Ok in E as (u1 & E1%requireEqual_Ok & E).
  apply bind_Ok in E as (curve & Hcurve%account_Ok & E). apply bind_Ok in E as (u2 & E2%requireEqual_Ok & E).
  apply bind_Ok in E as (name & Hname%Hs & E). apply bind_Ok in E as (u3 & E3%requireEqual_Ok & E).
  apply bind_Ok in E as (symbol & Hsymbol%Hs & E). apply bind_Ok in E as (u4 & E4%requireEqual_Ok & E).
  apply bind_Ok in E as (uri & Huri%Hs & E). apply bind_Ok in E as (u5 & E5%requireEqual_Ok & E).
  apply bind_Ok in E as (user & Huser%account_Ok & E). apply bind_Ok in E as (u6 & E6%requireEqual_Ok & E).
  apply bind_Ok in E as (creator & Hcreator & E). apply bind_Ok in E as (prog & _ & E).
  apply bind_Ok in E as (u7 & _ & E). apply bind_Ok in E as (u8 & _ & E).
  apply bind_Ok in E as (u9 & Hflags & E). apply bind_Ok in E as (u10 & Hq%requireEqual_Ok & E).
  apply bind_Ok in E as (q & Hres%resolve_mint & E). apply bind_Ok in E as (u11 & _ & [= <-]).
  split; cbn [dc_action dc_event dc_eventCpi dc_quoteAsset dc_effectiveCreator dc_requestedCreator];
    rewrite ?wire_accounts, ?wire_instruction, ?wire_args; try done.
  - by rewrite Hmint, Hcurve, Huser, E1, E2, E6.
  - by rewrite Hname, Hsymbol, Huri, E3, E4, E5.
  - split; [done|]. unfold validate_flags in Hflags. apply bind_Ok in Hflags as (u12 & _ & Hc).
    destruct (ce_isHolderReward ev); [|by apply requireEqual_Ok in Hc].
    apply bind_Ok in Hc as (k & Hk & ->%requireEqual_Ok). destruct (pp_holderRewardsPda _); by simplify_eq.
  - congruence.
  - intros Hw%evidence_profile; [|done]. unfold authority_proved. rewrite wire_accounts. by apply Hop.
Qed.

Lemma pair_action_agrees t events s c s' : fresh c -> pair_action t events s c = Ok s' ->
  Forall (trade_ok t) (pa_trades s) /\ Forall (creation_ok t) (pa_creations s) ->
  Forall (trade_ok t) (pa_trades s') /\ Forall (creation_ok t) (pa_creations s').
Proof.
  intros Hf E [Ht Hc]. unfold pair_action in E. cbv zeta in E. destruct (di_family (pi_action c)) eqn:Ef.
  4:{ by apply bind_Ok in E as (m & Hm & [= <-]). }
  all: apply bind_Ok in E as (e & He%requireOnlyEvent_Ok & E); apply bind_Ok in E as (u & Hop & E);
    apply candidate_member in He as (_ & _ & _ & Hs);
    assert (is_Some (pi_profile c) -> authority_proved (pi_action c) (ie_decoded e)) as Hop'
      by (intros [p Hp]; rewrite Hp in Hop; by eapply opaque_authority);
    destruct (cpi_event (ie_decoded e)) as [ev|ev] eqn:Eev; try discriminate E;
    apply bind_Ok in E as (x & Hx & [= <-]); cbn [pa_trades pa_creations];
    (split; [|]); try done; apply Forall_app; (split; [done|]); apply Forall_singleton.
  - by eapply validateCreation_agrees.
  - eapply validateTrade_agrees; try done. by left.
  - eapply validateTrade_agrees; try done. by right.
Qed.

Lemma candidate_fresh i c : decodePumpInstructionForTransaction i = Ok (Some c) -> fresh c.
Proof.
  unfold decodePumpInstructionForTransaction, fresh.
  destruct (decodePumpInstruction i) as [o|err] eqn:E.
  - intros Hc. injection Hc as Hc. apply fmap_Some in Hc as (a & -> & ->). cbn [pi_action].
    unfold decodePumpInstruction in E. destruct (_ || _); [discriminate E|].
    destruct (DEFINITION_BY_DISCRIMINATOR _) as [[n d]|]; [|discriminate E].
    apply fmap_Ok in E as (y & E & [= ->]). unfold decodeMatchedInstruction in E.
    apply bind_Ok in E as (acc & _ & E). by apply bind_Ok in E as (args & _ & [= <-]).
  - destruct err as [[] b| |]; try discriminate.
    destruct (DEFINITION_BY_DISCRIMINATOR _) as [[n d]|]; [|discriminate].
    destruct (opaque_profile n) as [[[count suffix] p]|]; [|discriminate].
    destruct (decode_opaque _ _ _ _ _ _) as [y|] eqn:Eo; [|discriminate]. intros [= <-].
    unfold decode_opaque in Eo. apply bind_Ok in Eo as (args & _ & Eo). by apply bind_Ok in Eo as (acc & _ & [= <-]).
Qed.

Lemma candidates_fresh n l candidates events :
  decode_instructions n l = Ok (candidates, events) -> Forall fresh candidates.
Proof.
  revert n candidates events. induction l as [|i l IH]; intros n candidates events E; cbn [decode_instructions] in E.
  { injection E as <- <-. constructor. }
  apply bind_Ok in E as (c & Hc & E). apply bind_Ok in E as (e & He & E).
  apply bind_Ok in E as ([cs es] & Hrest & E). injection E as <- <-. cbn [fst].
  apply IH in Hrest. destruct c; [|done]. constructor; [by eapply candidate_fresh|done].
Qed.

(** C27: reports agree with the chain.  Every trade reported for a transaction carries the one
    event that the program emitted inside that action's own call, one level below it and before
    the call ends: same side, same mint, same user, same quote mint.  Every creation agrees
    with its event on the mint, the curve, the user, the name, the symbol and the address of
    the metadata, and its creator is the requested one or, with holder rewards, the address
    derived for them.  An instruction with opaque trailing bytes is reported only when both
    the instruction and the event name the program's event authority. *)
Theorem pump_reports_agree (t : NormalizedTransaction) (d : DecodedPumpTransaction)
    (Hd : decodePumpTransaction t = Ok d) :
  Forall (trade_ok t) (pt_trades d) /\ Forall (creation_ok t) (pt_creations d).
Proof.
  destruct (tx_failed t) eqn:Hf.
  { unfold decodePumpTransaction in Hd. rewrite Hf in Hd. injection Hd as <-. split; constructor. }
  destruct (decode_inv t d Hd Hf) as (candidates & events & s & Hdec & Hs & _ & ->). cbn [pt_trades pt_creations].
  apply candidates_fresh in Hdec. revert Hs. set (s0 := {| pa_consumed := [] |}).
  assert (Forall (trade_ok t) (pa_trades s0) /\ Forall (creation_ok t) (pa_creations s0)) as Hz by (split; constructor).
  clearbody s0. revert s0 Hz. induction Hdec as [|c cs Hc _ IH]; intros s0 Hz E; cbn [fold_result] in E.
  - by injection E as <-.
  - apply bind_Ok in E as (s1 & E1 & E). eapply IH; [|exact E]. by eapply pair_action_agrees.
Qed.
End Reports.

(** * Scopes *)

(** Instructions as a node lists them: one outer instruction for each index, at height 1, and
    below it the inner ones, deeper, in the order they were called. *)
Record call_order (l : list NormalizedInstruction) : Prop := {
  co_outer : forall a b, a ∈ l -> b ∈ l -> ni_innerInstructionIndex a = None ->
    ni_innerInstructionIndex b = None -> ni_instructionIndex a = ni_instructionIndex b -> a = b;
  co_outer_height : forall a h, a ∈ l -> ni_innerInstructionIndex a = None ->
    ni_stackHeight a = Some h -> h = 1;
  co_inner_height : forall a n h, a ∈ l -> ni_innerInstructionIndex a = Some n ->
    ni_stackHeight a = Some h -> 2 <= h;
  co_inner : forall i j a b m n, (i < j)%nat -> l !! i = Some a -> l !! j = Some b ->
    ni_instructionIndex a = ni_instructionIndex b ->
    ni_innerInstructionIndex a = Some m -> ni_innerInstructionIndex b = Some n -> m < n;
}.

Lemma find_first {A} (p : A -> bool) l x b : List.find p l = Some b -> x ∈ l -> p x = true ->
  exists i j, l !! i = Some b /\ l !! j = Some x /\ (i <= j)%nat /\ p b = true.
Proof.
  induction l as [|y l IH]; [done|]. cbn. destruct (p y) eqn:Ey.
  - intros [= ->] Hx _. apply list_elem_of_lookup in Hx as (j & Hj). exists 0%nat, j. split_and!; try done. lia.
  - intros Hf Hx Hp. apply elem_of_cons in Hx as [->|Hx]; [congruence|].
    destruct (IH Hf Hx Hp) as (i & j & Hi & Hj & Hle & Hb). exists (S i), (S j). split_and!; try done. lia.
Qed.

Lemma scope_inv a e l : isEventInsideActionScope a e l = true ->
  exists n h, ni_innerInstructionIndex e = Some n /\ ni_stackHeight a = Some h
    /\ ni_instructionIndex e = ni_instructionIndex a /\ ni_stackHeight e = Some (h + 1)
    /\ (forall m, ni_innerInstructionIndex a = Some m -> m < n /\
         forall b, List.find (is_boundary a m h) l = Some b ->
           exists k, ni_innerInstructionIndex b = Some k /\ n < k).
Proof.
  unfold isEventInsideActionScope. destruct (ni_innerInstructionIndex e) as [n|]; [|done].
  destruct (ni_stackHeight a) as [h|]; [|done]. intros E. exists n, h.
  apply andb_true_iff in E as [E Em]. apply andb_true_iff in E as [Ei Eh].
  apply Z.eqb_eq in Ei. apply bool_decide_eq_true in Eh. split_and!; try done. intros m Hm. rewrite Hm in Em.
  apply andb_true_iff in Em as [En Eb]. apply Z.ltb_lt in En. split; [done|]. intros b Hb. rewrite Hb in Eb.
  destruct (ni_innerInstructionIndex b) as [k|]; [|done]. apply Z.ltb_lt in Eb. eauto.
Qed.

(** A later call at the same height ends the scope of an earlier one. *)
Lemma scope_ends l a b e m n : call_order l -> a ∈ l -> b ∈ l ->
  ni_innerInstructionIndex a = Some m -> ni_innerInstructionIndex b = Some n -> m < n ->
  isEventInsideActionScope a e l = true -> isEventInsideActionScope b e l = true -> False.
Proof.
  intros Hl Ha Hb Em En Hlt Sa Sb.
  apply scope_inv in Sa as (k & h & Ek & Eh & Ei & Es & Sa). apply scope_inv in Sb as (k' & h' & Ek' & Eh' & Ei' & Es' & Sb).
  rewrite Ek in Ek'. injection Ek' as <-. assert (h' = h) as -> by (rewrite Es in Es'; injection Es'; lia).
  destruct (Sa m Em) as [_ Hbound]. destruct (Sb n En) as [Hn _].
  assert (is_boundary a m h b = true) as Hbb.
  { unfold is_boundary. rewrite En, Eh'. rewrite !andb_true_iff, Z.eqb_eq, Z.ltb_lt, Z.leb_le. repeat split; lia. }
  destruct (List.find (is_boundary a m h) l) as [c|] eqn:Ef.
  2:{ apply list_elem_of_In in Hb. pose proof (find_none _ _ Ef b Hb). congruence. }
  destruct (Hbound c eq_refl) as (k2 & Ek2 & Hk2).
  destruct (find_first _ _ _ _ Ef Hb Hbb) as (i & j & Hi & Hj & Hle & Hc).
  unfold is_boundary in Hc. rewrite !andb_true_iff, Z.eqb_eq in Hc. destruct Hc as [[Hc _] _].
  destruct (decide (i = j)) as [->|Hne].
  - rewrite Hi in Hj. injection Hj as ->. rewrite Ek2 in En. injection En. lia.
  - assert (k2 < n); [|lia]. eapply (co_inner l Hl i j c b); try done; [lia|congruence].
Qed.

(** An event has one owner.  In a transaction whose instructions are listed in the order of
    their calls, no event lies inside the scopes of two different instructions: the scope of an
    action ends where the next call at its height begins, and calls at other heights, or under
    another outer instruction, cannot own the event. *)
Theorem pump_scope_unique (l : list NormalizedInstruction) (a b e : NormalizedInstruction)
    (Hl : call_order l) (Ha : a ∈ l) (Hb : b ∈ l)
    (Sa : isEventInsideActionScope a e l = true) (Sb : isEventInsideActionScope b e l = true) :
  a = b.
Proof.
  pose proof (scope_inv _ _ _ Sa) as (k & h & Ek & Eh & Ei & Es & _).
  pose proof (scope_inv _ _ _ Sb) as (k' & h' & _ & Eh' & Ei' & Es' & _).
  assert (h' = h) as -> by (rewrite Es in Es'; injection Es'; lia).
  destruct (ni_innerInstructionIndex a) as [m|] eqn:Em, (ni_innerInstructionIndex b) as [n|] eqn:En.
  - destruct (Z.lt_trichotomy m n) as [Hlt|[->|Hlt]].
    + destruct (scope_ends l a b e m n Hl Ha Hb Em En Hlt Sa Sb).
    + apply list_elem_of_lookup in Ha as (i & Hi), Hb as (j & Hj).
      destruct (Nat.lt_trichotomy i j) as [Hij|[->|Hij]]; [|congruence|].
      * pose proof (co_inner l Hl i j a b n n Hij Hi Hj ltac:(congruence) Em En). lia.
      * pose proof (co_inner l Hl j i b a n n Hij Hj Hi ltac:(congruence) En Em). lia.
    + destruct (scope_ends l b a e n m Hl Hb Ha En Em Hlt Sb Sa).
  - pose proof (co_inner_height l Hl a m h Ha Em Eh). pose proof (co_outer_height l Hl b h Hb En Eh'). lia.
  - pose proof (co_inner_height l Hl b n h Hb En Eh'). pose proof (co_outer_height l Hl a h Ha Em Eh). lia.
  - by apply (co_outer l Hl); [..|congruence].
Qed.

(** * A transaction with one sale *)

Definition example_keys : PublicKeys := fun k =>
  if forallb (Z.eqb 0) k then DEFAULT_KEY else to_decimal (hd 0 k).
Definition example_digest : Sha256 := fun _ =>
  "0123456789abcdef0123456789abcdef0123456789abcdef0123456789abcdef".
Definition example_key (b : Z) : list Z := b :: repeat 0 31.
Definition example_event_data : list Z :=
  let u n := le_bytes 8 n in
  @ANCHOR_EVENT_CPI_TAG example_digest ++ TradeEvent_discriminator
  ++ example_key 7 ++ u 40 ++ u 5000 ++ [0] ++ example_key 9 ++ u 1700000000
  ++ u 30 ++ u 900 ++ u 20 ++ u 800 ++ example_key 3 ++ u 95 ++ u 1 ++ example_key 4 ++ u 5 ++ u 1
  ++ [0] ++ u 0 ++ u 0 ++ u 0 ++ u 1700000000 ++ le_bytes 4 4 ++ [115; 101; 108; 108] ++ [0]
  ++ u 0 ++ u 0 ++ u 0 ++ u 0 ++ le_bytes 4 0 ++ example_key 0 ++ u 40 ++ u 30 ++ u 20.
Definition example_event : NormalizedInstruction :=
  {| ni_programId := "pump"; ni_accounts := ["authority"]; ni_data := example_event_data;
     ni_instructionIndex := 2; ni_innerInstructionIndex := Some 0;
     ni_parentInstructionIndex := Some 2; ni_stackHeight := Some 2 |}.
Definition example_transaction : NormalizedTransaction :=
  {| tx_signature := "sig"; tx_transactionIndex := Some 4;
     tx_instructions := [sample_sale; example_event]; tx_preTokenBalances := [];
     tx_postTokenBalances := []; tx_failed := false |}.
Definition example_result : DecodedPumpTransaction :=
  match @decodePumpTransaction example_keys example_digest sample_program example_transaction with
  | Ok d => d
  | Err _ => emptyResult example_transaction
  end.

(** The sale is reported. *)
Example example_trades : List.length (pt_trades example_result) = 1%nat.
Proof. vm_compute. reflexivity. Qed.

Lemma pump_reports_every_event_once_witness :
  let K := example_keys in let D := example_digest in let P := sample_program in
  map dc_eventCpi (pt_creations example_result) ++ map dt_eventCpi (pt_trades example_result)
    ≡ₚ transaction_events (tx_instructions example_transaction)
  /\ map (fun x => di_instruction (dc_action x)) (pt_creations example_result)
     ++ map (fun x => di_instruction (dt_action x)) (pt_trades example_result)
     ++ map (fun x => di_instruction (dm_action x)) (pt_migrations example_result)
     ≡ₚ transaction_actions (tx_instructions example_transaction).
Proof.
  intros K D P. apply (pump_reports_every_event_once example_transaction example_result); vm_compute; reflexivity.
Defined.

Lemma pump_reports_agree_witness :
  let K := example_keys in let D := example_digest in let P := sample_program in
  Forall (trade_ok example_transaction) (pt_trades example_result)
  /\ Forall (creation_ok example_transaction) (pt_creations example_result).
Proof. intros K D P. apply (pump_reports_agree example_transaction example_result). vm_compute. reflexivity. Defined.

Lemma example_order : call_order [sample_sale; example_event].
Proof.
  split.
  - intros a b Ha Hb. repeat (apply elem_of_cons in Ha as [->|Ha] || apply elem_of_cons in Hb as [->|Hb]);
      try (by apply elem_of_nil in Ha); try (by apply elem_of_nil in Hb); try done.
  - intros a h Ha. repeat (apply elem_of_cons in Ha as [->|Ha]); try (by apply elem_of_nil in Ha); cbn; congruence.
  - intros a n h Ha. repeat (apply elem_of_cons in Ha as [->|Ha]); try (by apply elem_of_nil in Ha); cbn; try congruence.
    intros _ [= <-]. lia.
  - intros [|[|i]] [|[|j]] a b m n Hij Hi Hj; cbn in Hi, Hj; try lia; try done; injection Hi as <-; by cbn.
Qed.
(** The event of the sale belongs to the sale. *)
Lemma pump_scope_unique_witness :
  isEventInsideActionScope sample_sale example_event [sample_sale; example_event] = true
  /\ sample_sale = sample_sale.
Proof.
  split; [vm_compute; reflexivity|].
  apply (pump_scope_unique [sample_sale; example_event] sample_sale sample_sale example_event example_order);
    [left|left|vm_compute; reflexivity|vm_compute; reflexivity].
Defined.
