(* ===== verification/CatchUpRun.v ===== *)
(** [src/src/domain/strict-catch-up-run.ts], [strict-catch-up.ts], [rpc-provider.ts]: the scan
    back from a head to the last checkpoint.

    A run remembers how far a provider's history has been scanned, page by page, until it is
    completed, fails or is superseded.  Every failure is one error class, so operations return
    [None] where the source throws. *)
From S2P Require Import Prelude Text Types Json JsValue JsReaders Intent.
From Stdlib Require Import Ascii String.
Local Open Scope string_scope.
Local Open Scope list_scope.
Local Open Scope Z_scope.

(** * Data *)

(** src/src/domain/rpc-provider.ts:1-8 (RPC_PROVIDER_IDS) *)
Inductive RpcProviderId := RPC_PRIMARY | RPC_FALLBACK_1 | RPC_FALLBACK_2 | RPC_FALLBACK_3.
Definition RPC_PROVIDER_IDS : list (string * RpcProviderId) :=
  [("primary", RPC_PRIMARY); ("fallback-1", RPC_FALLBACK_1); ("fallback-2", RPC_FALLBACK_2);
   ("fallback-3", RPC_FALLBACK_3)].
(** src/src/domain/transaction-ingestion.ts:124-124 (ProcessingCheckpointKey) *)
Inductive ProcessingCheckpointKey := CK_LAUNCHPAD | CK_MARKET.
(** src/src/domain/transaction-ingestion.ts:207-212 (ProcessingCheckpoint) *)
Record ProcessingCheckpoint := {
  cp_key : ProcessingCheckpointKey;
  cp_slot : Z;
  cp_signature : string;
  cp_updatedAtMs : Z;
}.
(** src/src/domain/strict-catch-up-run.ts:13-23 (STRICT_CATCH_UP_RUN_RETENTION_MS,
    MAX_STRICT_CATCH_UP_RUN_COUNTER, STRICT_CATCH_UP_RUN_STATES) *)
Definition STRICT_CATCH_UP_RUN_RETENTION_MS : Z := 14400000.
Definition MAX_STRICT_CATCH_UP_RUN_COUNTER : Z := 9223372036854775807.
Inductive StrictCatchUpRunState := RUN_ACTIVE | RUN_COMPLETED | RUN_FAILED | RUN_SUPERSEDED.
Definition STRICT_CATCH_UP_RUN_STATES : list (string * StrictCatchUpRunState) :=
  [("ACTIVE", RUN_ACTIVE); ("COMPLETED", RUN_COMPLETED); ("FAILED", RUN_FAILED);
   ("SUPERSEDED", RUN_SUPERSEDED)].
(** src/src/domain/strict-catch-up-run.ts:24-26 (StrictCatchUpRunTerminalReason) *)
Inductive StrictCatchUpRunTerminalReason := CATCH_UP_WINDOW_EXCEEDED | CHECKPOINT_SUPERSEDED.
(** src/src/domain/strict-catch-up-run.ts:28-31 (StrictCatchUpRunHead) *)
Record StrictCatchUpRunHead := { hd_slot : Z; hd_signature : string }.
(** src/src/domain/strict-catch-up-run.ts:33-51 (StrictCatchUpRun) *)
Record StrictCatchUpRun := {
  cr_runId : string;
  cr_checkpointKey : ProcessingCheckpointKey;
  cr_previous : ProcessingCheckpoint;
  cr_providerId : RpcProviderId;
  cr_observedHead : StrictCatchUpRunHead;
  cr_beforeSignature : string;
  cr_lastAcceptedSlot : Z;
  cr_pagesScanned : Z;
  cr_signaturesEnqueued : Z;
  cr_signaturesClassified : Z;
  cr_revision : Z;
  cr_state : StrictCatchUpRunState;
  cr_terminalReason : option StrictCatchUpRunTerminalReason;
  cr_startedAtMs : Z;
  cr_updatedAtMs : Z;
  cr_completedAtMs : option Z;
  cr_purgeAfterMs : option Z;
}.
(** src/src/domain/strict-catch-up.ts:8-11 (MAX_STRICT_CATCH_UP_SLOT, MAX_DATE_MS) *)
Definition MAX_STRICT_CATCH_UP_SLOT : Z := 10 ^ 78 - 1.
Definition MAX_DATE_MS : Z := 8640000000000000.

(** Decidable equality, and the names of the small enumerations. *)
Global Instance RpcProviderId_eq_dec : EqDecision RpcProviderId.
Proof. solve_decision. Defined.
Global Instance ProcessingCheckpointKey_eq_dec : EqDecision ProcessingCheckpointKey.
Proof. solve_decision. Defined.
Global Instance StrictCatchUpRunState_eq_dec : EqDecision StrictCatchUpRunState.
Proof. solve_decision. Defined.
Global Instance StrictCatchUpRunTerminalReason_eq_dec : EqDecision StrictCatchUpRunTerminalReason.
Proof. solve_decision. Defined.
Definition CHECKPOINT_KEYS : list (string * ProcessingCheckpointKey) :=
  [("launchpad", CK_LAUNCHPAD); ("market", CK_MARKET)].
Definition TERMINAL_REASONS : list (string * StrictCatchUpRunTerminalReason) :=
  [("CATCH_UP_WINDOW_EXCEEDED", CATCH_UP_WINDOW_EXCEEDED); ("CHECKPOINT_SUPERSEDED", CHECKPOINT_SUPERSEDED)].

(** * Readers *)

(** src/src/domain/strict-catch-up-run.ts:357-380 (ownEnumerableDataRecord) *)
Definition data_record (v : js) (expectedKeys : list string) : option record :=
  ownEnumerableDataRecord v (Some expectedKeys).
(** src/src/domain/strict-catch-up-run.ts:382-403 (checkpointKeyFrom, providerIdFrom, stateFrom,
    terminalStateFrom) *)
Definition checkpointKeyFrom (v : js) : option ProcessingCheckpointKey := enumValue CHECKPOINT_KEYS v.
Definition providerIdFrom (v : js) : option RpcProviderId := enumValue RPC_PROVIDER_IDS v.
Definition stateFrom (v : js) : option StrictCatchUpRunState := enumValue STRICT_CATCH_UP_RUN_STATES v.
Definition terminalStateFrom (v : js) : option StrictCatchUpRunState :=
  state ← stateFrom v;
  if bool_decide (state = RUN_ACTIVE) then None else Some state.
(** src/src/domain/strict-catch-up-run.ts:405-412 (terminalReasonFrom) *)
Definition terminalReasonFrom (v : js) : option (option StrictCatchUpRunTerminalReason) :=
  or_null (enumValue TERMINAL_REASONS) v.
(** src/src/domain/strict-catch-up-run.ts:414-421 (terminalReasonMatchesState) *)
Definition terminalReasonMatchesState (state : StrictCatchUpRunState)
    (terminalReason : option StrictCatchUpRunTerminalReason) : bool :=
  match state, terminalReason with
  | RUN_COMPLETED, None | RUN_FAILED, Some CATCH_UP_WINDOW_EXCEEDED
  | RUN_SUPERSEDED, Some CHECKPOINT_SUPERSEDED => true
  | _, _ => false
  end.
(** src/src/domain/strict-catch-up-run.ts:423-443 (slotFrom, positiveCounterFrom, counterFrom) *)
Definition slotFrom (v : js) : option Z := boundedBigint v 0 MAX_STRICT_CATCH_UP_SLOT.
Definition counterFrom (v : js) : option Z := boundedBigint v 0 MAX_STRICT_CATCH_UP_RUN_COUNTER.
Definition positiveCounterFrom (v : js) : option Z :=
  counter ← counterFrom v;
  if counter =? 0 then None else Some counter.
(** src/src/domain/strict-catch-up-run.ts:445-453 (signatureFrom) *)
Definition signatureFrom (v : js) : option string :=
  match v with
  | JString s =>
      if is_empty s || negb (bool_decide (s = trim s)) || (128 <? byte_length s) then None else Some s
  | _ => None
  end.
(** src/src/domain/strict-catch-up-run.ts:455-468 (nullableMillisecondsFrom, millisecondsFrom) *)
Definition millisecondsFrom (v : js) : option Z := boundedIntegerFrom v 0 MAX_DATE_MS.
Definition nullableMillisecondsFrom (v : js) : option (option Z) := or_null millisecondsFrom v.

(** src/src/domain/strict-catch-up-run.ts:316-327 (snapshotCheckpoint) *)
Definition CHECKPOINT_FIELDS : list string := ["key"; "slot"; "signature"; "updatedAtMs"].
Definition snapshotCheckpoint (v : js) (checkpointKey : ProcessingCheckpointKey) : option ProcessingCheckpoint :=
  r ← data_record v CHECKPOINT_FIELDS;
  key ← checkpointKeyFrom (field r "key");
  slot ← slotFrom (field r "slot");
  signature ← signatureFrom (field r "signature");
  updatedAtMs ← millisecondsFrom (field r "updatedAtMs");
  if bool_decide (key = checkpointKey)
  then Some {| cp_key := key; cp_slot := slot; cp_signature := signature; cp_updatedAtMs := updatedAtMs |}
  else None.
(** src/src/domain/strict-catch-up-run.ts:308-314 (checkedCheckpoint) *)
Definition checkedCheckpoint (v : js) (checkpointKey : ProcessingCheckpointKey) : option ProcessingCheckpoint :=
  if isFrozenObject v then snapshotCheckpoint v checkpointKey else None.
(** src/src/domain/strict-catch-up-run.ts:334-340 (snapshotHead) *)
Definition HEAD_FIELDS : list string := ["slot"; "signature"].
Definition snapshotHead (v : js) : option StrictCatchUpRunHead :=
  r ← data_record v HEAD_FIELDS;
  slot ← slotFrom (field r "slot");
  signature ← signatureFrom (field r "signature");
  Some {| hd_slot := slot; hd_signature := signature |}.
(** src/src/domain/strict-catch-up-run.ts:329-332 (checkedHead) *)
Definition checkedHead (v : js) : option StrictCatchUpRunHead :=
  if isFrozenObject v then snapshotHead v else None.

(** * Runs *)

(** The run as the frozen object the code passes on. *)
Definition key_name : ProcessingCheckpointKey -> string := name_in CHECKPOINT_KEYS.
Definition provider_name : RpcProviderId -> string := name_in RPC_PROVIDER_IDS.
Definition run_state_name : StrictCatchUpRunState -> string := name_in STRICT_CATCH_UP_RUN_STATES.
Definition terminal_reason_name : StrictCatchUpRunTerminalReason -> string := name_in TERMINAL_REASONS.
Definition checkpoint_value (c : ProcessingCheckpoint) (key : string) : js :=
  match key with
  | "key" => JString (key_name (cp_key c))
  | "slot" => JBigInt (cp_slot c)
  | "signature" => JString (cp_signature c)
  | "updatedAtMs" => JNumber (NumInt (cp_updatedAtMs c))
  | _ => JUndefined
  end.
Definition head_value (h : StrictCatchUpRunHead) (key : string) : js :=
  match key with
  | "slot" => JBigInt (hd_slot h)
  | "signature" => JString (hd_signature h)
  | _ => JUndefined
  end.
Definition number (z : Z) : js := JNumber (NumInt z).
Definition run_value (r : StrictCatchUpRun) (key : string) : js :=
  match key with
  | "runId" => JString (cr_runId r)
  | "checkpointKey" => JString (key_name (cr_checkpointKey r))
  | "previous" => object_of CHECKPOINT_FIELDS (checkpoint_value (cr_previous r))
  | "providerId" => JString (provider_name (cr_providerId r))
  | "observedHead" => object_of HEAD_FIELDS (head_value (cr_observedHead r))
  | "beforeSignature" => JString (cr_beforeSignature r)
  | "lastAcceptedSlot" => JBigInt (cr_lastAcceptedSlot r)
  | "pagesScanned" => JBigInt (cr_pagesScanned r)
  | "signaturesEnqueued" => JBigInt (cr_signaturesEnqueued r)
  | "signaturesClassified" => JBigInt (cr_signaturesClassified r)
  | "revision" => JBigInt (cr_revision r)
  | "state" => JString (run_state_name (cr_state r))
  | "terminalReason" => nullable_value (fun x => JString (terminal_reason_name x)) (cr_terminalReason r)
  | "startedAtMs" => number (cr_startedAtMs r)
  | "updatedAtMs" => number (cr_updatedAtMs r)
  | "completedAtMs" => nullable_value number (cr_completedAtMs r)
  | "purgeAfterMs" => nullable_value number (cr_purgeAfterMs r)
  | _ => JUndefined
  end.
(** src/src/domain/strict-catch-up-run.ts:227-245 (assertValidStrictCatchUpRun): the keys of a run. *)
Definition RUN_KEYS : list string :=
  ["runId"; "checkpointKey"; "previous"; "providerId"; "observedHead"; "beforeSignature";
   "lastAcceptedSlot"; "pagesScanned"; "signaturesEnqueued"; "signaturesClassified"; "revision";
   "state"; "terminalReason"; "startedAtMs"; "updatedAtMs"; "completedAtMs"; "purgeAfterMs"].
(** The object of a run. *)
Definition run_object (r : StrictCatchUpRun) : js := object_of RUN_KEYS (run_value r).

Section Runs.
Context `{Sha256}.

(** src/src/domain/strict-catch-up-run.ts:342-355 (strictCatchUpRunId) *)
Definition strictCatchUpRunId (checkpointKey : ProcessingCheckpointKey) (previous : ProcessingCheckpoint)
    (providerId : RpcProviderId) : string :=
  "strict_catchup_run_" +:+ sha256_hex (stringify (JsonArr
    [JsonInt 1; JsonStr (key_name checkpointKey); JsonStr (to_decimal (cp_slot previous));
     JsonStr (cp_signature previous); JsonStr (provider_name providerId)])).

(** src/src/domain/strict-catch-up-run.ts:262-280 (assertValidStrictCatchUpRun): the checks
    between the fields of a run, whatever its state. *)
Definition run_consistent (r : StrictCatchUpRun) : bool :=
  let initialSingleRowHead :=
    bool_decide (cr_beforeSignature r = hd_signature (cr_observedHead r))
    && (cr_lastAcceptedSlot r =? hd_slot (cr_observedHead r))
    && (cr_pagesScanned r =? 1)
    && (cr_signaturesClassified r <=? 1)
    && (cr_signaturesEnqueued r <=? cr_signaturesClassified r)
    && ((bool_decide (cr_state r = RUN_ACTIVE) && (cr_revision r =? 0))
        || (bool_decide (cr_state r <> RUN_ACTIVE) && (cr_revision r =? 1))) in
  negb
    (bool_decide (cr_runId r <> strictCatchUpRunId (cr_checkpointKey r) (cr_previous r) (cr_providerId r))
     || (cr_startedAtMs r <? cp_updatedAtMs (cr_previous r))
     || (cr_updatedAtMs r <? cr_startedAtMs r)
     || (hd_slot (cr_observedHead r) <? cp_slot (cr_previous r))
     || (cr_lastAcceptedSlot r <? cp_slot (cr_previous r))
     || bool_decide (cr_beforeSignature r = cp_signature (cr_previous r))
     || (bool_decide (cr_beforeSignature r = hd_signature (cr_observedHead r)) && negb initialSingleRowHead)
     || (hd_slot (cr_observedHead r) <? cr_lastAcceptedSlot r)
     || (cr_signaturesClassified r <? cr_signaturesEnqueued r)).
(** src/src/domain/strict-catch-up-run.ts:282-294 (assertValidStrictCatchUpRun): what the state
    asks of the terminal fields. *)
Definition terminal_consistent (r : StrictCatchUpRun) : bool :=
  if bool_decide (cr_state r = RUN_ACTIVE)
  then bool_decide (cr_terminalReason r = None) && bool_decide (cr_completedAtMs r = None)
       && bool_decide (cr_purgeAfterMs r = None)
  else match cr_completedAtMs r, cr_purgeAfterMs r with
       | Some completedAtMs, Some purgeAfterMs =>
           negb (negb (completedAtMs =? cr_updatedAtMs r)
                 || (completedAtMs <? cr_startedAtMs r)
                 || (MAX_DATE_MS - STRICT_CATCH_UP_RUN_RETENTION_MS <? completedAtMs)
                 || negb (purgeAfterMs =? completedAtMs + STRICT_CATCH_UP_RUN_RETENTION_MS)
                 || negb (terminalReasonMatchesState (cr_state r) (cr_terminalReason r)))
       | _, _ => false
       end.

(** src/src/domain/strict-catch-up-run.ts:222-298 (assertValidStrictCatchUpRun): the run that
    a checked value is. *)
Definition runFrom (v : js) : option StrictCatchUpRun :=
  if negb (isFrozenObject v) then None
  else
    record ← data_record v RUN_KEYS;
    checkpointKey ← checkpointKeyFrom (field record "checkpointKey");
    previous ← checkedCheckpoint (field record "previous") checkpointKey;
    providerId ← providerIdFrom (field record "providerId");
    observedHead ← checkedHead (field record "observedHead");
    beforeSignature ← signatureFrom (field record "beforeSignature");
    lastAcceptedSlot ← slotFrom (field record "lastAcceptedSlot");
    pagesScanned ← positiveCounterFrom (field record "pagesScanned");
    signaturesEnqueued ← counterFrom (field record "signaturesEnqueued");
    signaturesClassified ← counterFrom (field record "signaturesClassified");
    revision ← counterFrom (field record "revision");
    state ← stateFrom (field record "state");
    terminalReason ← terminalReasonFrom (field record "terminalReason");
    startedAtMs ← millisecondsFrom (field record "startedAtMs");
    updatedAtMs ← millisecondsFrom (field record "updatedAtMs");
    completedAtMs ← nullableMillisecondsFrom (field record "completedAtMs");
    purgeAfterMs ← nullableMillisecondsFrom (field record "purgeAfterMs");
    match field record "runId" with
    | JString runId =>
        let r := {| cr_runId := runId; cr_checkpointKey := checkpointKey; cr_previous := previous;
                    cr_providerId := providerId; cr_observedHead := observedHead;
                    cr_beforeSignature := beforeSignature; cr_lastAcceptedSlot := lastAcceptedSlot;
                    cr_pagesScanned := pagesScanned; cr_signaturesEnqueued := signaturesEnqueued;
                    cr_signaturesClassified := signaturesClassified; cr_revision := revision;
                    cr_state := state; cr_terminalReason := terminalReason;
                    cr_startedAtMs := startedAtMs; cr_updatedAtMs := updatedAtMs;
                    cr_completedAtMs := completedAtMs; cr_purgeAfterMs := purgeAfterMs |} in
        if run_consistent r && terminal_consistent r then Some r else None
    | _ => None
    end.
(** src/src/domain/strict-catch-up-run.ts:222-298 (assertValidStrictCatchUpRun) *)
Definition assertValidStrictCatchUpRun (v : js) : bool := bool_decide (is_Some (runFrom v)).

(** src/src/domain/strict-catch-up-run.ts:60-129 (createStrictCatchUpRun) *)
Definition CREATE_RUN_KEYS : list string :=
  ["checkpointKey"; "previous"; "providerId"; "observedHead"; "beforeSignature"; "lastAcceptedSlot";
   "pagesScanned"; "signaturesEnqueued"; "signaturesClassified"; "revision"; "startedAtMs"; "updatedAtMs"].
Definition createStrictCatchUpRun (input : js) : option StrictCatchUpRun :=
  record ← data_record input CREATE_RUN_KEYS;
  checkpointKey ← checkpointKeyFrom (field record "checkpointKey");
  previous ← snapshotCheckpoint (field record "previous") checkpointKey;
  providerId ← providerIdFrom (field record "providerId");
  observedHead ← snapshotHead (field record "observedHead");
  beforeSignature ← signatureFrom (field record "beforeSignature");
  lastAcceptedSlot ← slotFrom (field record "lastAcceptedSlot");
  pagesScanned ← positiveCounterFrom (field record "pagesScanned");
  signaturesEnqueued ← counterFrom (field record "signaturesEnqueued");
  signaturesClassified ← counterFrom (field record "signaturesClassified");
  revision ← counterFrom (field record "revision");
  startedAtMs ← millisecondsFrom (field record "startedAtMs");
  updatedAtMs ← millisecondsFrom (field record "updatedAtMs");
  let initialSingleRowHead :=
    bool_decide (beforeSignature = hd_signature observedHead)
    && (lastAcceptedSlot =? hd_slot observedHead)
    && (pagesScanned =? 1)
    && (signaturesClassified <=? 1)
    && (signaturesEnqueued <=? signaturesClassified)
    && (revision =? 0) in
  if (startedAtMs <? cp_updatedAtMs previous)
     || (updatedAtMs <? startedAtMs)
     || (hd_slot observedHead <? cp_slot previous)
     || (lastAcceptedSlot <? cp_slot previous)
     || bool_decide (beforeSignature = cp_signature previous)
     || (bool_decide (beforeSignature = hd_signature observedHead) && negb initialSingleRowHead)
     || (hd_slot observedHead <? lastAcceptedSlot)
     || (signaturesClassified <? signaturesEnqueued)
  then None
  else
    let result :=
      {| cr_runId := strictCatchUpRunId checkpointKey previous providerId;
         cr_checkpointKey := checkpointKey; cr_previous := previous; cr_providerId := providerId;
         cr_observedHead := observedHead; cr_beforeSignature := beforeSignature;
         cr_lastAcceptedSlot := lastAcceptedSlot; cr_pagesScanned := pagesScanned;
         cr_signaturesEnqueued := signaturesEnqueued; cr_signaturesClassified := signaturesClassified;
         cr_revision := revision; cr_state := RUN_ACTIVE; cr_terminalReason := None;
         cr_startedAtMs := startedAtMs; cr_updatedAtMs := updatedAtMs; cr_completedAtMs := None;
         cr_purgeAfterMs := None |} in
    if assertValidStrictCatchUpRun (run_object result) then Some result else None.

(** src/src/domain/strict-catch-up-run.ts:131-182 (advanceStrictCatchUpRun) *)
Definition ADVANCE_RUN_KEYS : list string :=
  ["beforeSignature"; "lastAcceptedSlot"; "pagesScanned"; "signaturesEnqueued"; "signaturesClassified";
   "updatedAtMs"].
Definition advanceStrictCatchUpRun (value input : js) : option StrictCatchUpRun :=
  current ← runFrom value;
  if bool_decide (cr_state current <> RUN_ACTIVE)
     || (cr_revision current =? MAX_STRICT_CATCH_UP_RUN_COUNTER) then None
  else
    record ← data_record input ADVANCE_RUN_KEYS;
    beforeSignature ← signatureFrom (field record "beforeSignature");
    lastAcceptedSlot ← slotFrom (field record "lastAcceptedSlot");
    pagesScanned ← positiveCounterFrom (field record "pagesScanned");
    signaturesEnqueued ← counterFrom (field record "signaturesEnqueued");
    signaturesClassified ← counterFrom (field record "signaturesClassified");
    updatedAtMs ← millisecondsFrom (field record "updatedAtMs");
    if bool_decide (beforeSignature = cr_beforeSignature current)
       || bool_decide (beforeSignature = cp_signature (cr_previous current))
       || bool_decide (beforeSignature = hd_signature (cr_observedHead current))
       || (lastAcceptedSlot <? cp_slot (cr_previous current))
       || (cr_lastAcceptedSlot current <? lastAcceptedSlot)
       || (pagesScanned <=? cr_pagesScanned current)
       || (signaturesEnqueued <? cr_signaturesEnqueued current)
       || (signaturesClassified <? cr_signaturesClassified current)
       || (signaturesClassified <? signaturesEnqueued)
       || (updatedAtMs <? cr_updatedAtMs current)
    then None
    else
      let result :=
        {| cr_runId := cr_runId current; cr_checkpointKey := cr_checkpointKey current;
           cr_previous := cr_previous current; cr_providerId := cr_providerId current;
           cr_observedHead := cr_observedHead current; cr_beforeSignature := beforeSignature;
           cr_lastAcceptedSlot := lastAcceptedSlot; cr_pagesScanned := pagesScanned;
           cr_signaturesEnqueued := signaturesEnqueued; cr_signaturesClassified := signaturesClassified;
           cr_revision := cr_revision current + 1; cr_state := cr_state current;
           cr_terminalReason := cr_terminalReason current; cr_startedAtMs := cr_startedAtMs current;
           cr_updatedAtMs := updatedAtMs; cr_completedAtMs := cr_completedAtMs current;
           cr_purgeAfterMs := cr_purgeAfterMs current |} in
      if assertValidStrictCatchUpRun (run_object result) then Some result else None.

(** src/src/domain/strict-catch-up-run.ts:184-220 (terminalizeStrictCatchUpRun) *)
Definition TERMINALIZE_RUN_KEYS : list string := ["state"; "terminalReason"; "completedAtMs"].
Definition terminalizeStrictCatchUpRun (value input : js) : option StrictCatchUpRun :=
  current ← runFrom value;
  if bool_decide (cr_state current <> RUN_ACTIVE)
     || (cr_revision current =? MAX_STRICT_CATCH_UP_RUN_COUNTER) then None
  else
    record ← data_record input TERMINALIZE_RUN_KEYS;
    state ← terminalStateFrom (field record "state");
    terminalReason ← terminalReasonFrom (field record "terminalReason");
    completedAtMs ← millisecondsFrom (field record "completedAtMs");
    if (completedAtMs <? cr_updatedAtMs current)
       || negb (terminalReasonMatchesState state terminalReason)
       || (MAX_DATE_MS - STRICT_CATCH_UP_RUN_RETENTION_MS <? completedAtMs)
    then None
    else
      let result :=
        {| cr_runId := cr_runId current; cr_checkpointKey := cr_checkpointKey current;
           cr_previous := cr_previous current; cr_providerId := cr_providerId current;
           cr_observedHead := cr_observedHead current; cr_beforeSignature := cr_beforeSignature current;
           cr_lastAcceptedSlot := cr_lastAcceptedSlot current;
           cr_pagesScanned := cr_pagesScanned current;
           cr_signaturesEnqueued := cr_signaturesEnqueued current;
           cr_signaturesClassified := cr_signaturesClassified current;
           cr_revision := cr_revision current + 1; cr_state := state; cr_terminalReason := terminalReason;
           cr_startedAtMs := cr_startedAtMs current; cr_updatedAtMs := completedAtMs;
           cr_completedAtMs := Some completedAtMs;
           cr_purgeAfterMs := Some (completedAtMs + STRICT_CATCH_UP_RUN_RETENTION_MS) |} in
      if assertValidStrictCatchUpRun (run_object result) then Some result else None.
End Runs.

(** * Lemmas: readers accept what they return *)

(** A reader that keeps the value it reads. *)
Definition keeps {A} (read : js -> option A) (write : A -> js) : Prop :=
  forall v a, read v = Some a -> v = write a.
Lemma keeps_read {A} (read : js -> option A) write v a :
  keeps read write -> read v = Some a -> read (write a) = Some a.
Proof. intros Hk Hv. by rewrite <- (Hk v a Hv). Qed.
Lemma keeps_or_null {A} (read : js -> option A) write v o :
  keeps read write -> (forall a, write a <> JNull) ->
  or_null read v = Some o -> or_null read (nullable_value write o) = Some o.
Proof. intros Hk Hn Ho. apply (or_null_read _ _ _ _ Hk) in Ho as [_ Ho]. by apply read_or_null. Qed.

Lemma slotFrom_Some v z : slotFrom v = Some z <-> v = JBigInt z /\ 0 <= z <= MAX_STRICT_CATCH_UP_SLOT.
Proof. apply boundedBigint_Some. Qed.
Lemma counterFrom_Some v z :
  counterFrom v = Some z <-> v = JBigInt z /\ 0 <= z <= MAX_STRICT_CATCH_UP_RUN_COUNTER.
Proof. apply boundedBigint_Some. Qed.
Lemma positiveCounterFrom_Some v z :
  positiveCounterFrom v = Some z <-> v = JBigInt z /\ 1 <= z <= MAX_STRICT_CATCH_UP_RUN_COUNTER.
Proof.
  unfold positiveCounterFrom. split.
  - intros (c & Hc & H)%bind_Some. apply counterFrom_Some in Hc as [-> Hc].
    destruct (Z.eqb_spec c 0); [done|]. injection H as ->. split; [done|lia].
  - intros [-> Hz]. rewrite (proj2 (counterFrom_Some (JBigInt z) z)) by (split; [done|lia]).
    cbn [mbind option_bind]. destruct (Z.eqb_spec z 0); [lia|done].
Qed.
Lemma millisecondsFrom_Some v z :
  millisecondsFrom v = Some z <-> v = number z /\ 0 <= z <= MAX_DATE_MS.
Proof.
  unfold millisecondsFrom. rewrite boundedIntegerFrom_Some.
  unfold MAX_DATE_MS, MAX_SAFE_INTEGER, number. split; [naive_solver|]. intros [-> Hz]. split; [done|lia].
Qed.
Lemma keeps_slot : keeps slotFrom JBigInt.
Proof. by intros v z [-> _]%slotFrom_Some. Qed.
Lemma keeps_counter : keeps counterFrom JBigInt.
Proof. by intros v z [-> _]%counterFrom_Some. Qed.
Lemma keeps_positiveCounter : keeps positiveCounterFrom JBigInt.
Proof. by intros v z [-> _]%positiveCounterFrom_Some. Qed.
Lemma keeps_milliseconds : keeps millisecondsFrom number.
Proof. by intros v z [-> _]%millisecondsFrom_Some. Qed.
Lemma keeps_signature : keeps signatureFrom JString.
Proof. intros v s. destruct v; cbn; try done. case_match; congruence. Qed.
Lemma keeps_key : keeps checkpointKeyFrom (fun k => JString (key_name k)).
Proof. intros v k. apply enumValue_name. by apply (bool_decide_unpack _). Qed.
Lemma keeps_reason : keeps (enumValue TERMINAL_REASONS) (fun k => JString (terminal_reason_name k)).
Proof. intros v k. apply enumValue_name. by apply (bool_decide_unpack _). Qed.

Create HintDb catch_up.
#[export] Hint Resolve keeps_slot keeps_counter keeps_positiveCounter keeps_milliseconds
  keeps_signature keeps_key keeps_reason : catch_up.
(** What was read can be read again. *)
Ltac reread :=
  match goal with
  | H : ?read ?v = Some ?a |- ?read (?write ?a) = Some ?a =>
      exact (keeps_read read write v a ltac:(auto with catch_up) H)
  end.

Lemma key_read k : checkpointKeyFrom (JString (key_name k)) = Some k.
Proof. by destruct k. Qed.
Lemma provider_read p : providerIdFrom (JString (provider_name p)) = Some p.
Proof. by destruct p. Qed.
Lemma run_state_read s : stateFrom (JString (run_state_name s)) = Some s.
Proof. by destruct s. Qed.

(** * Well-formed checkpoints, heads and runs *)

Record checkpoint_ok (key : ProcessingCheckpointKey) (c : ProcessingCheckpoint) : Prop := {
  cok_key : cp_key c = key;
  cok_slot : slotFrom (JBigInt (cp_slot c)) = Some (cp_slot c);
  cok_signature : signatureFrom (JString (cp_signature c)) = Some (cp_signature c);
  cok_updatedAtMs : millisecondsFrom (number (cp_updatedAtMs c)) = Some (cp_updatedAtMs c);
}.
Record head_ok (h : StrictCatchUpRunHead) : Prop := {
  hok_slot : slotFrom (JBigInt (hd_slot h)) = Some (hd_slot h);
  hok_signature : signatureFrom (JString (hd_signature h)) = Some (hd_signature h);
}.
Lemma snapshotCheckpoint_ok v key c : snapshotCheckpoint v key = Some c -> checkpoint_ok key c.
Proof.
  unfold snapshotCheckpoint. intros E.
  repeat match type of E with (_ ≫= _) = _ => apply bind_Some in E as (? & ? & E) end.
  case_bool_decide; [|done]. injection E as <-. split; cbn [cp_key cp_slot cp_signature cp_updatedAtMs]; [done|reread..].
Qed.
Lemma snapshotHead_ok v h : snapshotHead v = Some h -> head_ok h.
Proof.
  unfold snapshotHead. intros E.
  repeat match type of E with (_ ≫= _) = _ => apply bind_Some in E as (? & ? & E) end.
  injection E as <-. split; cbn [hd_slot hd_signature]; reread.
Qed.
Lemma checkedCheckpoint_object key c :
  checkpoint_ok key c -> checkedCheckpoint (object_of CHECKPOINT_FIELDS (checkpoint_value c)) key = Some c.
Proof.
  intros [Hk Hs Hg Hu]. unfold checkedCheckpoint, snapshotCheckpoint, data_record.
  change (isFrozenObject _) with true. cbn iota. rewrite own_record_object. cbn [mbind option_bind].
  rewrite !field_map by (by apply (bool_decide_unpack _)). cbn [checkpoint_value].
  rewrite key_read. cbn [mbind option_bind]. rewrite Hs. cbn [mbind option_bind]. rewrite Hg.
  cbn [mbind option_bind]. change (JNumber (NumInt ?z)) with (number z). rewrite Hu. cbn [mbind option_bind].
  rewrite bool_decide_eq_true_2 by done. by destruct c.
Qed.
Lemma checkedHead_object h : head_ok h -> checkedHead (object_of HEAD_FIELDS (head_value h)) = Some h.
Proof.
  intros [Hs Hg]. unfold checkedHead, snapshotHead, data_record.
  change (isFrozenObject _) with true. cbn iota. rewrite own_record_object. cbn [mbind option_bind].
  rewrite !field_map by (by apply (bool_decide_unpack _)). cbn [head_value].
  rewrite Hs. cbn [mbind option_bind]. rewrite Hg. cbn [mbind option_bind]. by destruct h.
Qed.

Section RunLemmas.
Context `{Sha256}.

Record run_ok (r : StrictCatchUpRun) : Prop := {
  rok_previous : checkpoint_ok (cr_checkpointKey r) (cr_previous r);
  rok_head : head_ok (cr_observedHead r);
  rok_before : signatureFrom (JString (cr_beforeSignature r)) = Some (cr_beforeSignature r);
  rok_slot : slotFrom (JBigInt (cr_lastAcceptedSlot r)) = Some (cr_lastAcceptedSlot r);
  rok_pages : positiveCounterFrom (JBigInt (cr_pagesScanned r)) = Some (cr_pagesScanned r);
  rok_enqueued : counterFrom (JBigInt (cr_signaturesEnqueued r)) = Some (cr_signaturesEnqueued r);
  rok_classified : counterFrom (JBigInt (cr_signaturesClassified r)) = Some (cr_signaturesClassified r);
  rok_revision : counterFrom (JBigInt (cr_revision r)) = Some (cr_revision r);
  rok_reason : terminalReasonFrom (nullable_value (fun x => JString (terminal_reason_name x)) (cr_terminalReason r))
    = Some (cr_terminalReason r);
  rok_started : millisecondsFrom (number (cr_startedAtMs r)) = Some (cr_startedAtMs r);
  rok_updated : millisecondsFrom (number (cr_updatedAtMs r)) = Some (cr_updatedAtMs r);
  rok_completed : nullableMillisecondsFrom (nullable_value number (cr_completedAtMs r))
    = Some (cr_completedAtMs r);
  rok_purge : nullableMillisecondsFrom (nullable_value number (cr_purgeAfterMs r)) = Some (cr_purgeAfterMs r);
  rok_consistent : run_consistent r = true;
  rok_terminal : terminal_consistent r = true;
}.

Lemma reason_read o :
  terminalReasonFrom (nullable_value (fun x => JString (terminal_reason_name x)) o) = Some o.
Proof. apply read_or_null; [done|]. by intros []. Qed.
Lemma reread_milliseconds v o : nullableMillisecondsFrom v = Some o ->
  nullableMillisecondsFrom (nullable_value number o) = Some o.
Proof. apply keeps_or_null; [apply keeps_milliseconds|done]. Qed.
Lemma checked_checkpoint v key c : checkedCheckpoint v key = Some c -> snapshotCheckpoint v key = Some c.
Proof. unfold checkedCheckpoint. by destruct (isFrozenObject v). Qed.
Lemma checked_head v h : checkedHead v = Some h -> snapshotHead v = Some h.
Proof. unfold checkedHead. by destruct (isFrozenObject v). Qed.

(** Every accepted value is a well-formed run. *)
Lemma runFrom_ok v r : runFrom v = Some r -> run_ok r.
Proof.
  unfold runFrom. intros E. destruct (negb _) in E; [done|].
  repeat match type of E with (_ ≫= _) = _ => apply bind_Some in E as (? & ? & E) end.
  destruct (field _ "runId") as [| | | | |runId| |] in E; try done. cbv zeta in E.
  destruct (run_consistent _) eqn:Hc in E; [|done]. destruct (terminal_consistent _) eqn:Ht in E; [|done].
  cbn [andb] in E. injection E as <-.
  split; cbn [cr_checkpointKey cr_previous cr_providerId cr_observedHead cr_beforeSignature
    cr_lastAcceptedSlot cr_pagesScanned cr_signaturesEnqueued cr_signaturesClassified cr_revision
    cr_terminalReason cr_startedAtMs cr_updatedAtMs cr_completedAtMs cr_purgeAfterMs];
    try reread; try (eapply reread_milliseconds; eassumption); try done.
  - by eapply snapshotCheckpoint_ok, checked_checkpoint.
  - by eapply snapshotHead_ok, checked_head.
  - apply reason_read.
Qed.
(** The object of a well-formed run is accepted and read back. *)
Lemma runFrom_object r : run_ok r -> runFrom (run_object r) = Some r.
Proof.
  intros Hr. unfold runFrom, run_object, data_record. change (isFrozenObject _) with true. cbn [negb].
  rewrite own_record_object. cbn [mbind option_bind]. repeat read_field. cbn [run_value].
  rewrite key_read. cbn [mbind option_bind]. rewrite (checkedCheckpoint_object _ _ (rok_previous _ Hr)).
  cbn [mbind option_bind]. rewrite provider_read. cbn [mbind option_bind].
  rewrite (checkedHead_object _ (rok_head _ Hr)). cbn [mbind option_bind].
  rewrite (rok_before _ Hr). cbn [mbind option_bind]. rewrite (rok_slot _ Hr). cbn [mbind option_bind].
  rewrite (rok_pages _ Hr). cbn [mbind option_bind]. rewrite (rok_enqueued _ Hr). cbn [mbind option_bind].
  rewrite (rok_classified _ Hr). cbn [mbind option_bind]. rewrite (rok_revision _ Hr). cbn [mbind option_bind].
  rewrite run_state_read. cbn [mbind option_bind]. rewrite (rok_reason _ Hr). cbn [mbind option_bind].
  rewrite (rok_started _ Hr). cbn [mbind option_bind]. rewrite (rok_updated _ Hr). cbn [mbind option_bind].
  rewrite (rok_completed _ Hr). cbn [mbind option_bind]. rewrite (rok_purge _ Hr). cbn [mbind option_bind].
  pose proof (rok_consistent _ Hr) as Hc. pose proof (rok_terminal _ Hr) as Ht.
  destruct r; cbn [cr_runId cr_checkpointKey cr_previous cr_providerId cr_observedHead cr_beforeSignature
    cr_lastAcceptedSlot cr_pagesScanned cr_signaturesEnqueued cr_signaturesClassified cr_revision
    cr_state cr_terminalReason cr_startedAtMs cr_updatedAtMs cr_completedAtMs cr_purgeAfterMs] in *.
  by rewrite Hc, Ht.
Qed.
Lemma run_object_valid r : run_ok r -> assertValidStrictCatchUpRun (run_object r) = true.
Proof. intros Hr. apply bool_decide_eq_true. rewrite runFrom_object by done. eauto. Qed.

(** What the checks between the fields say. *)
Record run_relations (r : StrictCatchUpRun) : Prop := {
  rel_id : cr_runId r = strictCatchUpRunId (cr_checkpointKey r) (cr_previous r) (cr_providerId r);
  rel_times : cp_updatedAtMs (cr_previous r) <= cr_startedAtMs r <= cr_updatedAtMs r;
  rel_slots : cp_slot (cr_previous r) <= cr_lastAcceptedSlot r <= hd_slot (cr_observedHead r);
  rel_before : cr_beforeSignature r <> cp_signature (cr_previous r);
  rel_single : cr_beforeSignature r = hd_signature (cr_observedHead r) ->
    cr_lastAcceptedSlot r = hd_slot (cr_observedHead r) /\ cr_pagesScanned r = 1
    /\ cr_signaturesClassified r <= 1
    /\ cr_revision r = if bool_decide (cr_state r = RUN_ACTIVE) then 0 else 1;
  rel_counts : cr_signaturesEnqueued r <= cr_signaturesClassified r;
}.
Lemma run_consistent_iff r : run_consistent r = true <-> run_relations r.
Proof.
  unfold run_consistent. rewrite negb_true_iff, !orb_false_iff, !Z.ltb_ge, !bool_decide_eq_false.
  rewrite andb_false_iff, bool_decide_eq_false, negb_false_iff, !andb_true_iff, orb_true_iff, !andb_true_iff,
    !bool_decide_eq_true, !Z.eqb_eq, !Z.leb_le.
  split.
  - intros [[[[[[[[Hid H1] H2] H3] H4] H5] H6] H7] H8]. apply dec_stable in Hid. split; try done.
    intros Hb. destruct H6 as [?|(((((_ & ?) & ?) & ?) & ?) & [[? ?]|[? ?]])]; [done| |]; split_and!; try done;
      by case_bool_decide.
  - intros [Hid [H1 H2] [H3 H4] H5 H6 H7]. split_and!; try done; [by intros []|lia|].
    destruct (decide (cr_beforeSignature r = hd_signature (cr_observedHead r))) as [Hb|Hb]; [|by left].
    right. destruct (H6 Hb) as (? & ? & ? & Hr). split_and!; try done. case_bool_decide; auto.
Qed.
Lemma terminal_consistent_active r : cr_state r = RUN_ACTIVE ->
  terminal_consistent r = true <->
  cr_terminalReason r = None /\ cr_completedAtMs r = None /\ cr_purgeAfterMs r = None.
Proof.
  intros Ha. unfold terminal_consistent. rewrite bool_decide_eq_true_2 by done.
  rewrite !andb_true_iff, !bool_decide_eq_true. naive_solver.
Qed.
Lemma terminal_consistent_ended r : cr_state r <> RUN_ACTIVE ->
  terminal_consistent r = true <->
  exists t, cr_completedAtMs r = Some t /\ cr_purgeAfterMs r = Some (t + STRICT_CATCH_UP_RUN_RETENTION_MS)
    /\ t = cr_updatedAtMs r /\ cr_startedAtMs r <= t <= MAX_DATE_MS - STRICT_CATCH_UP_RUN_RETENTION_MS
    /\ terminalReasonMatchesState (cr_state r) (cr_terminalReason r) = true.
Proof.
  intros Ha. unfold terminal_consistent. rewrite bool_decide_eq_false_2 by done.
  destruct (cr_completedAtMs r) as [t|]; [|naive_solver]. destruct (cr_purgeAfterMs r) as [p|]; [|naive_solver].
  rewrite negb_true_iff, !orb_false_iff, !negb_false_iff, !Z.ltb_ge, !Z.eqb_eq. split.
  - intros [[[[-> ?] ?] ->] ?]. eauto 10.
  - intros (? & [= <-] & [= ->] & ? & ? & ?). tauto.
Qed.

Local Ltac run_fields := cbn [cr_runId cr_checkpointKey cr_previous cr_providerId cr_observedHead
  cr_beforeSignature cr_lastAcceptedSlot cr_pagesScanned cr_signaturesEnqueued cr_signaturesClassified
  cr_revision cr_state cr_terminalReason cr_startedAtMs cr_updatedAtMs cr_completedAtMs cr_purgeAfterMs].

(** * What the operations return *)

Lemma create_ok input r : createStrictCatchUpRun input = Some r -> run_ok r /\ cr_state r = RUN_ACTIVE.
Proof.
  unfold createStrictCatchUpRun. intros E.
  repeat match type of E with (_ ≫= _) = _ => apply bind_Some in E as (? & ? & E) end.
  cbv zeta in E. match type of E with (if ?b then _ else _) = _ => destruct b eqn:Hg end; [done|].
  destruct (assertValidStrictCatchUpRun _) in E; [|done]. injection E as <-.
  rewrite !orb_false_iff, !Z.ltb_ge, !bool_decide_eq_false in Hg.
  rewrite andb_false_iff, bool_decide_eq_false, negb_false_iff, !andb_true_iff, !bool_decide_eq_true,
    !Z.eqb_eq, !Z.leb_le in Hg.
  split; [|done]. split; run_fields; try reread; try done.
  - by eapply snapshotCheckpoint_ok.
  - by eapply snapshotHead_ok.
  - apply run_consistent_iff. split; run_fields; try done; [lia|lia|apply Hg| |apply Hg].
    intros Hb. destruct Hg as [[[_ [?|Hs]] _] _]; [done|]. tauto.
Qed.

(** One page more. *)
Record advanced (r r' : StrictCatchUpRun) : Prop := {
  adv_active : cr_state r = RUN_ACTIVE /\ cr_state r' = RUN_ACTIVE;
  adv_constant : cr_runId r' = cr_runId r /\ cr_checkpointKey r' = cr_checkpointKey r
    /\ cr_previous r' = cr_previous r /\ cr_providerId r' = cr_providerId r
    /\ cr_observedHead r' = cr_observedHead r /\ cr_startedAtMs r' = cr_startedAtMs r;
  adv_revision : cr_revision r' = cr_revision r + 1;
  adv_slot : cr_lastAcceptedSlot r' <= cr_lastAcceptedSlot r;
  adv_pages : cr_pagesScanned r < cr_pagesScanned r';
  adv_counts : cr_signaturesEnqueued r <= cr_signaturesEnqueued r'
    /\ cr_signaturesClassified r <= cr_signaturesClassified r';
  adv_before : cr_beforeSignature r' <> cr_beforeSignature r;
  adv_time : cr_updatedAtMs r <= cr_updatedAtMs r';
}.
(** The end of a run. *)
Record ended (r r' : StrictCatchUpRun) : Prop := {
  end_active : cr_state r = RUN_ACTIVE /\ cr_state r' <> RUN_ACTIVE;
  end_constant : cr_runId r' = cr_runId r /\ cr_checkpointKey r' = cr_checkpointKey r
    /\ cr_previous r' = cr_previous r /\ cr_providerId r' = cr_providerId r
    /\ cr_observedHead r' = cr_observedHead r /\ cr_startedAtMs r' = cr_startedAtMs r;
  end_revision : cr_revision r' = cr_revision r + 1;
  end_scan : cr_lastAcceptedSlot r' = cr_lastAcceptedSlot r /\ cr_pagesScanned r' = cr_pagesScanned r
    /\ cr_signaturesEnqueued r' = cr_signaturesEnqueued r
    /\ cr_signaturesClassified r' = cr_signaturesClassified r
    /\ cr_beforeSignature r' = cr_beforeSignature r;
  end_time : cr_updatedAtMs r <= cr_updatedAtMs r';
}.

(** The revision of a run that may still move has a successor. *)
Lemma next_revision r : run_ok r -> (cr_revision r =? MAX_STRICT_CATCH_UP_RUN_COUNTER) = false ->
  counterFrom (JBigInt (cr_revision r + 1)) = Some (cr_revision r + 1).
Proof.
  intros Hr Hm. apply Z.eqb_neq in Hm. destruct (proj1 (counterFrom_Some _ _) (rok_revision _ Hr)) as [_ Hb].
  apply counterFrom_Some. split; [done|lia].
Qed.

Lemma run_advance_ok value input r' : advanceStrictCatchUpRun value input = Some r' ->
  exists r, runFrom value = Some r /\ run_ok r' /\ advanced r r'.
Proof.
  unfold advanceStrictCatchUpRun. intros E. apply bind_Some in E as (r & Hr & E).
  destruct (_ || _) eqn:Ha in E; [done|]. apply orb_false_iff in Ha as [Ha Hm].
  apply bool_decide_eq_false, dec_stable in Ha.
  repeat match type of E with (_ ≫= _) = _ => apply bind_Some in E as (? & ? & E) end.
  match type of E with (if ?b then _ else _) = _ => destruct b eqn:Hg end; [done|]. cbv zeta in E.
  destruct (assertValidStrictCatchUpRun _) in E; [|done]. injection E as <-.
  rewrite !orb_false_iff, !Z.ltb_ge, Z.leb_gt, !bool_decide_eq_false in Hg.
  destruct Hg as [[[[[[[[[G1 G2] G3] G4] G5] G6] G7] G8] G9] G10].
  exists r. split; [done|]. pose proof (runFrom_ok _ _ Hr) as Hok.
  pose proof (proj1 (run_consistent_iff _) (rok_consistent _ Hok)) as Hrel.
  pose proof (rel_times _ Hrel). pose proof (rel_slots _ Hrel). pose proof (rel_id _ Hrel).
  split; [split; run_fields; try reread; try apply Hok; [by apply next_revision| |]|].
  - apply run_consistent_iff. split; run_fields; try done; lia.
  - pose proof (rok_terminal _ Hok) as Ht. rewrite terminal_consistent_active in Ht by done.
    rewrite terminal_consistent_active; done.
  - split; run_fields; try done.
Qed.

(** The run that ends another. *)
Definition ended_run (r : StrictCatchUpRun) (state : StrictCatchUpRunState)
    (reason : option StrictCatchUpRunTerminalReason) (t : Z) : StrictCatchUpRun :=
  {| cr_runId := cr_runId r; cr_checkpointKey := cr_checkpointKey r; cr_previous := cr_previous r;
     cr_providerId := cr_providerId r; cr_observedHead := cr_observedHead r;
     cr_beforeSignature := cr_beforeSignature r; cr_lastAcceptedSlot := cr_lastAcceptedSlot r;
     cr_pagesScanned := cr_pagesScanned r; cr_signaturesEnqueued := cr_signaturesEnqueued r;
     cr_signaturesClassified := cr_signaturesClassified r; cr_revision := cr_revision r + 1;
     cr_state := state; cr_terminalReason := reason; cr_startedAtMs := cr_startedAtMs r;
     cr_updatedAtMs := t; cr_completedAtMs := Some t;
     cr_purgeAfterMs := Some (t + STRICT_CATCH_UP_RUN_RETENTION_MS) |}.
Lemma ended_run_ok r state reason t :
  run_ok r -> cr_state r = RUN_ACTIVE -> (cr_revision r =? MAX_STRICT_CATCH_UP_RUN_COUNTER) = false ->
  cr_updatedAtMs r <= t <= MAX_DATE_MS - STRICT_CATCH_UP_RUN_RETENTION_MS ->
  terminalReasonMatchesState state reason = true ->
  run_ok (ended_run r state reason t) /\ ended r (ended_run r state reason t).
Proof.
  intros Hok Ha Hm Ht Hmatch. assert (state <> RUN_ACTIVE) as Hne by (by intros ->).
  pose proof (proj1 (run_consistent_iff _) (rok_consistent _ Hok)) as Hrel.
  pose proof (rel_times _ Hrel). pose proof (rel_slots _ Hrel). pose proof (rel_id _ Hrel).
  assert (forall z, 0 <= z <= MAX_DATE_MS -> millisecondsFrom (number z) = Some z) as Hms
    by (intros; by apply millisecondsFrom_Some).
  destruct (proj1 (millisecondsFrom_Some _ _) (rok_updated _ Hok)) as [_ Hup].
  unfold ended_run, STRICT_CATCH_UP_RUN_RETENTION_MS in *.
  split; [split; run_fields; try apply Hok; [by apply next_revision|apply reason_read|..]|].
  - apply Hms; lia.
  - unfold nullableMillisecondsFrom. apply read_or_null; [done|]. intros ? [= <-]. apply Hms. lia.
  - unfold nullableMillisecondsFrom. apply read_or_null; [done|]. intros ? [= <-]. apply Hms. lia.
  - apply run_consistent_iff. split; run_fields; try done; try lia; [apply Hrel| |apply Hrel].
    intros Hb. destruct (rel_single _ Hrel Hb) as (? & ? & ? & Hrev). rewrite bool_decide_eq_true_2 in Hrev by done.
    rewrite bool_decide_eq_false_2 by done. split_and!; [done..|lia].
  - rewrite terminal_consistent_ended by done. exists t. unfold STRICT_CATCH_UP_RUN_RETENTION_MS. run_fields.
    split_and!; done || lia.
  - split; run_fields; try done. lia.
Qed.

Lemma terminalize_ok value input r' : terminalizeStrictCatchUpRun value input = Some r' ->
  exists r, runFrom value = Some r /\ run_ok r' /\ ended r r'.
Proof.
  unfold terminalizeStrictCatchUpRun. intros E. apply bind_Some in E as (r & Hr & E).
  destruct (_ || _) eqn:Ha in E; [done|]. apply orb_false_iff in Ha as [Ha Hm].
  apply bool_decide_eq_false, dec_stable in Ha.
  apply bind_Some in E as (rec & _ & E). apply bind_Some in E as (state & Hs & E).
  apply bind_Some in E as (reason & _ & E). apply bind_Some in E as (t & _ & E).
  match type of E with (if ?b then _ else _) = _ => destruct b eqn:Hg end; [done|]. cbv zeta in E.
  destruct (assertValidStrictCatchUpRun _) in E; [|done]. injection E as <-.
  rewrite !orb_false_iff, !Z.ltb_ge, negb_false_iff in Hg. destruct Hg as [[Hle Hmatch] Hmax].
  exists r. split; [done|]. apply ended_run_ok; try done. by eapply runFrom_ok.
Qed.
(** The input that ends a run. *)
Definition terminal_input (s : StrictCatchUpRunState) (reason : option StrictCatchUpRunTerminalReason)
    (t : Z) (key : string) : js :=
  match key with
  | "state" => JString (run_state_name s)
  | "terminalReason" => nullable_value (fun x => JString (terminal_reason_name x)) reason
  | "completedAtMs" => number t
  | _ => JUndefined
  end.
Lemma terminalize_accepts r s reason t :
  run_ok r -> cr_state r = RUN_ACTIVE -> (cr_revision r =? MAX_STRICT_CATCH_UP_RUN_COUNTER) = false ->
  cr_updatedAtMs r <= t <= MAX_DATE_MS - STRICT_CATCH_UP_RUN_RETENTION_MS ->
  terminalReasonMatchesState s reason = true ->
  terminalizeStrictCatchUpRun (run_object r) (object_of TERMINALIZE_RUN_KEYS (terminal_input s reason t))
  = Some (ended_run r s reason t).
Proof.
  intros Hok Ha Hm Ht Hmatch. unfold terminalizeStrictCatchUpRun, data_record. rewrite runFrom_object by done.
  cbn [mbind option_bind]. rewrite bool_decide_eq_false_2 by (rewrite Ha; by intros []). rewrite Hm. cbn [orb].
  rewrite own_record_object. cbn [mbind option_bind]. repeat read_field. cbn [terminal_input].
  unfold terminalStateFrom. rewrite run_state_read. cbn [mbind option_bind].
  rewrite bool_decide_eq_false_2 by (by intros ->). cbn [mbind option_bind]. rewrite reason_read.
  cbn [mbind option_bind].
  destruct (proj1 (millisecondsFrom_Some _ _) (rok_updated _ Hok)) as [_ Hup].
  rewrite (proj2 (millisecondsFrom_Some (number t) t))
    by (split; [done|]; unfold STRICT_CATCH_UP_RUN_RETENTION_MS in *; lia).
  cbn [mbind option_bind]. rewrite (proj2 (Z.ltb_ge _ _)), Hmatch, (proj2 (Z.ltb_ge _ _)) by lia. cbn [orb negb].
  cbv zeta. rewrite run_object_valid; [done|]. by apply ended_run_ok.
Qed.
End RunLemmas.

(** * Reading back *)

Lemma snapshotCheckpoint_object_inv c key c' :
  snapshotCheckpoint (object_of CHECKPOINT_FIELDS (checkpoint_value c)) key = Some c' -> c' = c.
Proof.
  unfold snapshotCheckpoint, data_record. rewrite own_record_object. cbn [mbind option_bind].
  repeat read_field. cbn [checkpoint_value]. rewrite key_read. cbn [mbind option_bind]. intros E.
  apply bind_Some in E as (slot & Hs & E). apply bind_Some in E as (signature & Hg & E).
  apply bind_Some in E as (ms & Hm & E). apply keeps_slot in Hs. apply keeps_signature in Hg.
  apply keeps_milliseconds in Hm. injection Hs as <-. injection Hg as <-. injection Hm as <-.
  case_bool_decide; [|done]. injection E as <-. by destruct c.
Qed.
Lemma snapshotHead_object_inv h h' :
  snapshotHead (object_of HEAD_FIELDS (head_value h)) = Some h' -> h' = h.
Proof.
  unfold snapshotHead, data_record. rewrite own_record_object. cbn [mbind option_bind].
  repeat read_field. cbn [head_value]. intros E.
  apply bind_Some in E as (slot & Hs & E). apply bind_Some in E as (signature & Hg & E).
  apply keeps_slot in Hs. apply keeps_signature in Hg. injection Hs as <-. injection Hg as <-.
  injection E as <-. by destruct h.
Qed.
Lemma nullable_ms_inv o o' : nullableMillisecondsFrom (nullable_value number o) = Some o' -> o' = o.
Proof.
  intros E. apply (or_null_read _ number _ _ keeps_milliseconds) in E as [E _].
  destruct o, o'; try done. by injection E as ->.
Qed.
(** The object of a run can only be read as that run. *)
Lemma runFrom_object_inv `{Sha256} r r' : runFrom (run_object r) = Some r' -> r' = r.
Proof.
  unfold runFrom, run_object, data_record. change (isFrozenObject _) with true. cbn [negb].
  rewrite own_record_object. cbn [mbind option_bind]. repeat read_field. cbn [run_value].
  rewrite key_read. cbn [mbind option_bind]. intros E.
  apply bind_Some in E as (previous & Hp & E). apply checked_checkpoint, snapshotCheckpoint_object_inv in Hp as ->.
  rewrite provider_read in E. cbn [mbind option_bind] in E.
  apply bind_Some in E as (hd & Hh & E). apply checked_head, snapshotHead_object_inv in Hh as ->.
  apply bind_Some in E as (x1 & H1 & E). apply keeps_signature in H1. injection H1 as <-.
  apply bind_Some in E as (x2 & H2 & E). apply keeps_slot in H2. injection H2 as <-.
  apply bind_Some in E as (x3 & H3 & E). apply keeps_positiveCounter in H3. injection H3 as <-.
  apply bind_Some in E as (x4 & H4 & E). apply keeps_counter in H4. injection H4 as <-.
  apply bind_Some in E as (x5 & H5 & E). apply keeps_counter in H5. injection H5 as <-.
  apply bind_Some in E as (x6 & H6 & E). apply keeps_counter in H6. injection H6 as <-.
  rewrite run_state_read, reason_read in E. cbn [mbind option_bind] in E.
  apply bind_Some in E as (x7 & H7 & E). apply keeps_milliseconds in H7. injection H7 as <-.
  apply bind_Some in E as (x8 & H8 & E). apply keeps_milliseconds in H8. injection H8 as <-.
  apply bind_Some in E as (x9 & H9 & E). apply nullable_ms_inv in H9 as ->.
  apply bind_Some in E as (x10 & H10 & E). apply nullable_ms_inv in H10 as ->.
  cbv zeta in E. destruct (_ && _) in E; [|done]. injection E as <-. by destruct r.
Qed.
(** What a creation takes from its input. *)
Lemma create_fields `{Sha256} f r : createStrictCatchUpRun (object_of CREATE_RUN_KEYS f) = Some r ->
  checkpointKeyFrom (f "checkpointKey") = Some (cr_checkpointKey r)
  /\ snapshotCheckpoint (f "previous") (cr_checkpointKey r) = Some (cr_previous r)
  /\ snapshotHead (f "observedHead") = Some (cr_observedHead r)
  /\ f "beforeSignature" = JString (cr_beforeSignature r).
Proof.
  unfold createStrictCatchUpRun, data_record. rewrite own_record_object. cbn [mbind option_bind].
  repeat read_field. intros E.
  repeat match type of E with (_ ≫= _) = _ => apply bind_Some in E as (? & ? & E) end.
  match type of E with (if ?b then _ else _) = _ => destruct b end; [done|]. cbv zeta in E.
  destruct (assertValidStrictCatchUpRun _) in E; [|done]. injection E as <-.
  cbn [cr_checkpointKey cr_previous cr_observedHead cr_beforeSignature]. split_and!; try done.
  by apply keeps_signature.
Qed.
(** What a page takes from its input, and keeps of the run. *)
Lemma advance_fields `{Sha256} r f r' :
  advanceStrictCatchUpRun (run_object r) (object_of ADVANCE_RUN_KEYS f) = Some r' ->
  advanced r r' /\ f "beforeSignature" = JString (cr_beforeSignature r').
Proof.
  intros E. split.
  - apply run_advance_ok in E as (c & Hc & _ & Ha). apply runFrom_object_inv in Hc as ->. done.
  - unfold advanceStrictCatchUpRun, data_record in E. rewrite own_record_object in E.
    apply bind_Some in E as (c & _ & E). destruct (_ || _) in E; [done|]. cbn [mbind option_bind] in E.
    rewrite (field_map ADVANCE_RUN_KEYS f "beforeSignature") in E by (by apply (bool_decide_unpack _)).
    repeat match type of E with (_ ≫= _) = _ => apply bind_Some in E as (? & ? & E) end.
    match type of E with (if ?b then _ else _) = _ => destruct b end; [done|]. cbv zeta in E.
    destruct (assertValidStrictCatchUpRun _) in E; [|done]. injection E as <-. cbn [cr_beforeSignature].
    by apply keeps_signature.
Qed.

(** * Histories *)

Section Histories.
Context `{Sha256}.

(** A call that changes a run, with its input. *)
Inductive run_update := AdvanceRun (input : js) | TerminalizeRun (input : js).
Definition apply_update (r : StrictCatchUpRun) (u : run_update) : option StrictCatchUpRun :=
  match u with
  | AdvanceRun input => advanceStrictCatchUpRun (run_object r) input
  | TerminalizeRun input => terminalizeStrictCatchUpRun (run_object r) input
  end.
Fixpoint apply_updates (r : StrictCatchUpRun) (us : list run_update) : option StrictCatchUpRun :=
  match us with
  | [] => Some r
  | u :: us => r' ← apply_update r u; apply_updates r' us
  end.

(** How a run relates to an earlier one, [n] updates before. *)
Record later (n : Z) (r r' : StrictCatchUpRun) : Prop := {
  lat_constant : cr_runId r' = cr_runId r /\ cr_checkpointKey r' = cr_checkpointKey r
    /\ cr_previous r' = cr_previous r /\ cr_providerId r' = cr_providerId r
    /\ cr_observedHead r' = cr_observedHead r /\ cr_startedAtMs r' = cr_startedAtMs r;
  lat_revision : cr_revision r' = cr_revision r + n;
  lat_slot : cr_lastAcceptedSlot r' <= cr_lastAcceptedSlot r;
  lat_pages : cr_pagesScanned r + n - (if bool_decide (cr_state r' = RUN_ACTIVE) then 0 else 1)
    <= cr_pagesScanned r';
  lat_counts : cr_signaturesEnqueued r <= cr_signaturesEnqueued r'
    /\ cr_signaturesClassified r <= cr_signaturesClassified r';
  lat_time : cr_updatedAtMs r <= cr_updatedAtMs r';
}.

Lemma apply_update_ok r u r' : run_ok r -> apply_update r u = Some r' ->
  run_ok r' /\ cr_state r = RUN_ACTIVE /\ later 1 r r'.
Proof.
  intros Hr E. destruct u as [i|i]; cbn [apply_update] in E.
  - apply run_advance_ok in E as (c & Hc & Hok & [[Ha Ha'] Hk Hrev Hs Hp Hn Hb Ht]).
    rewrite runFrom_object in Hc by done. injection Hc as <-.
    split; [done|]. split; [done|]. split; try done. rewrite bool_decide_eq_true_2 by done. lia.
  - apply terminalize_ok in E as (c & Hc & Hok & [[Ha Ha'] Hk Hrev (Hs & Hp & Hn & Hm & _) Ht]).
    rewrite runFrom_object in Hc by done. injection Hc as <-.
    split; [done|]. split; [done|]. split; try done; try lia. rewrite bool_decide_eq_false_2 by done. lia.
Qed.
Lemma run_later_refl r : cr_state r = RUN_ACTIVE -> later 0 r r.
Proof. intros Ha. split; try done; try lia. rewrite bool_decide_eq_true_2 by done. lia. Qed.
Lemma run_later_trans n m a b c :
  cr_state b = RUN_ACTIVE -> later n a b -> later m b c -> later (n + m) a c.
Proof.
  intros Hb [(k1 & k2 & k3 & k4 & k5 & k6) Hr Hs Hp Hn Ht] [(l1 & l2 & l3 & l4 & l5 & l6) Hr' Hs' Hp' Hn' Ht'].
  rewrite bool_decide_eq_true_2 in Hp by done.
  split; [split_and!; congruence|lia|lia|lia|lia|lia].
Qed.

Lemma history_ok us r r' : run_ok r -> cr_state r = RUN_ACTIVE -> apply_updates r us = Some r' ->
  run_ok r' /\ later (Z.of_nat (List.length us)) r r'.
Proof.
  revert r. induction us as [|u us IH]; intros r Hr Ha E; cbn [apply_updates List.length] in E |- *.
  - injection E as <-. split; [done|]. by apply run_later_refl.
  - apply bind_Some in E as (r1 & H1 & E). apply apply_update_ok in H1 as (Hok & _ & Hl); [|done].
    destruct (decide (cr_state r1 = RUN_ACTIVE)) as [Ha1|Ha1].
    + destruct (IH _ Hok Ha1 E) as [? ?]. split; [done|].
      replace (Z.of_nat (S (List.length us))) with (1 + Z.of_nat (List.length us)) by lia. by eapply run_later_trans.
    + destruct us as [|u' us]; cbn [apply_updates] in E.
      * injection E as <-. done.
      * apply bind_Some in E as (r2 & H2 & _). by apply apply_update_ok in H2 as (_ & ? & _).
Qed.

(** Two runs of the same name scan from the same checkpoint with the same provider, unless
    the digest collides. *)
Lemma run_id_identifies k c p k' c' p' :
  strictCatchUpRunId k c p = strictCatchUpRunId k' c' p' ->
  (k = k' /\ cp_slot c = cp_slot c' /\ cp_signature c = cp_signature c' /\ p = p') \/ sha256_collision.
Proof.
  intros E. apply digest_agree in E as [E|?]; [left|by right]. injection E as Ek Es Eg Ep.
  split_and!; [by destruct k, k'| |done|by destruct p, p']. by apply to_decimal_inj.
Qed.
End Histories.

(** * An example run *)

(** A digest for the examples. *)
Definition run_digest : Sha256 := fun _ =>
  "0123456789abcdef0123456789abcdef0123456789abcdef0123456789abcdef".
Definition sample_run_input (key : string) : js :=
  match key with
  | "checkpointKey" => JString "market"
  | "previous" => object_of CHECKPOINT_FIELDS (checkpoint_value
      {| cp_key := CK_MARKET; cp_slot := 100; cp_signature := "from"; cp_updatedAtMs := 1000 |})
  | "providerId" => JString "primary"
  | "observedHead" => object_of HEAD_FIELDS (head_value {| hd_slot := 900; hd_signature := "head" |})
  | "beforeSignature" => JString "head"
  | "lastAcceptedSlot" => JBigInt 900
  | "pagesScanned" | "signaturesEnqueued" | "signaturesClassified" => JBigInt 1
  | "revision" => JBigInt 0
  | "startedAtMs" => number 2000
  | "updatedAtMs" => number 2000
  | _ => JUndefined
  end.
Definition sample_page_input (key : string) : js :=
  match key with
  | "beforeSignature" => JString "middle"
  | "lastAcceptedSlot" => JBigInt 400
  | "pagesScanned" => JBigInt 2
  | "signaturesEnqueued" => JBigInt 700
  | "signaturesClassified" => JBigInt 1000
  | "updatedAtMs" => number 3000
  | _ => JUndefined
  end.
(** A run created, advanced by a page and completed. *)
Definition sample_updates : list run_update :=
  [AdvanceRun (object_of ADVANCE_RUN_KEYS sample_page_input);
   TerminalizeRun (object_of TERMINALIZE_RUN_KEYS (terminal_input RUN_COMPLETED None 4000))].
Definition sample_run (n : nat) : option StrictCatchUpRun :=
  r ← createStrictCatchUpRun (H := run_digest) (object_of CREATE_RUN_KEYS sample_run_input);
  apply_updates (H := run_digest) r (firstn n sample_updates).

(** a catch-up run only moves towards its checkpoint.  Whatever accepted pages and end
    follow its creation, in any order, the run stays valid and is read back unchanged; its
    name, checkpoint, provider, head and start never change; the revision counts the updates
    and every page scans further; the cursor slot never rises and stays between the
    checkpoint and the head; the counts and the clock never go back.  Once it has ended it is
    due for purge exactly four hours later, with the reason of its state, and no update is
    accepted any more. *)
Theorem catch_up_run_history `{Sha256} (input : js) (r0 r : StrictCatchUpRun) (us : list run_update)
    (Hcreate : createStrictCatchUpRun input = Some r0) (Hhist : apply_updates r0 us = Some r) :
  runFrom (run_object r) = Some r
  /\ later (Z.of_nat (List.length us)) r0 r
  /\ cp_slot (cr_previous r) <= cr_lastAcceptedSlot r <= hd_slot (cr_observedHead r)
  /\ cr_beforeSignature r <> cp_signature (cr_previous r)
  /\ cr_signaturesEnqueued r <= cr_signaturesClassified r
  /\ (cr_state r <> RUN_ACTIVE ->
      (forall u, apply_update r u = None)
      /\ cr_completedAtMs r = Some (cr_updatedAtMs r)
      /\ cr_purgeAfterMs r = Some (cr_updatedAtMs r + 14400000)
      /\ terminalReasonMatchesState (cr_state r) (cr_terminalReason r) = true).
Proof.
  apply create_ok in Hcreate as [Hok0 Ha0]. destruct (history_ok _ _ _ Hok0 Ha0 Hhist) as [Hok Hl].
  pose proof (proj1 (run_consistent_iff _) (rok_consistent _ Hok)) as [_ _ Hs Hb _ Hc].
  split; [by apply runFrom_object|]. do 4 (split; [done|]). intros Ha. split.
  - intros u. destruct (apply_update r u) eqn:E; [|done]. by apply apply_update_ok in E as (_ & ? & _).
  - pose proof (proj1 (terminal_consistent_ended _ Ha) (rok_terminal _ Hok)) as (t & -> & -> & -> & _ & Hm).
    done.
Qed.

(** The example: created, one page, completed. *)
Lemma catch_up_run_history_witness :
  let S : Sha256 := run_digest in
  match sample_run 0, sample_run 2 with
  | Some r0, Some r => later 2 r0 r /\ cr_state r = RUN_COMPLETED /\ cr_purgeAfterMs r = Some 14404000
  | _, _ => False
  end.
Proof.
  intros S. destruct (sample_run 0) as [r0|] eqn:E0; [|by vm_compute in E0].
  destruct (sample_run 2) as [r|] eqn:E; [|by vm_compute in E].
  assert (createStrictCatchUpRun (object_of CREATE_RUN_KEYS sample_run_input) = Some r0) as Hc
    by (rewrite <- E0; vm_compute; reflexivity).
  assert (apply_updates r0 sample_updates = Some r) as Hh
    by (rewrite <- E; vm_compute in E0; injection E0 as <-; vm_compute; reflexivity).
  pose proof (catch_up_run_history (object_of CREATE_RUN_KEYS sample_run_input) r0 r sample_updates Hc Hh)
    as (_ & Hl & _ & _ & _ & Hend).
  split; [exact Hl|]. vm_compute in E. injection E as <-. split; [reflexivity|]. by apply Hend.
Defined.

(** A scan can always be ended.  An active run below the last revision and within the
    dates the code accepts is ended, at any time from its last update on, as completed, as
    failed or as superseded; the run it gives accepts no update any more. *)
Theorem catch_up_run_can_end `{Sha256} (r : StrictCatchUpRun) (t : Z)
    (s : StrictCatchUpRunState) (reason : option StrictCatchUpRunTerminalReason)
    (Hr : runFrom (run_object r) = Some r) (Ha : cr_state r = RUN_ACTIVE)
    (Hrev : cr_revision r < MAX_STRICT_CATCH_UP_RUN_COUNTER)
    (Ht : cr_updatedAtMs r <= t <= MAX_DATE_MS - STRICT_CATCH_UP_RUN_RETENTION_MS)
    (Hmatch : terminalReasonMatchesState s reason = true) :
  exists r', apply_update r (TerminalizeRun (object_of TERMINALIZE_RUN_KEYS (terminal_input s reason t))) = Some r'
    /\ ended r r' /\ cr_state r' = s /\ cr_terminalReason r' = reason /\ cr_completedAtMs r' = Some t
    /\ forall u, apply_update r' u = None.
Proof.
  pose proof (runFrom_ok _ _ Hr) as Hok.
  assert ((cr_revision r =? MAX_STRICT_CATCH_UP_RUN_COUNTER) = false) as Hm by (apply Z.eqb_neq; lia).
  destruct (ended_run_ok r s reason t Hok Ha Hm Ht Hmatch) as [Hok' He].
  exists (ended_run r s reason t). split; [by apply terminalize_accepts|]. do 4 (split; [done|]).
  intros u. destruct (apply_update _ u) eqn:E; [|done]. apply apply_update_ok in E as (_ & Hbad & _); [|done].
  by destruct (proj2 (end_active _ _ He)).
Qed.

(** The example after its first page. *)
Lemma catch_up_run_can_end_witness :
  let S : Sha256 := run_digest in
  match sample_run 1 with
  | Some r => exists r', ended r r' /\ cr_state r' = RUN_FAILED
  | None => False
  end.
Proof.
  intros S. destruct (sample_run 1) as [r|] eqn:E; [|by vm_compute in E].
  vm_compute in E. injection E as <-.
  match goal with |- exists r', ended ?r0 r' /\ _ =>
    destruct (catch_up_run_can_end r0 5000 RUN_FAILED (Some CATCH_UP_WINDOW_EXCEEDED))
      as (r' & _ & He & Hs & _) end;
    [vm_compute; reflexivity|reflexivity|reflexivity|split; discriminate|reflexivity|].
  by exists r'.
Defined.

(** * Failures *)

(** src/src/domain/strict-catch-up.ts:13-21 (StrictCatchUpFailure): the reason code is a
    constant. *)
Record StrictCatchUpFailure := {
  cf_failureId : string;
  cf_checkpointKey : ProcessingCheckpointKey;
  cf_previous : option ProcessingCheckpoint;
  cf_providerId : RpcProviderId;
  cf_observedHeadSlot : option Z;
  cf_detectedAtMs : Z;
}.
(** src/src/domain/strict-catch-up.ts:165-168 (nullableSlotFrom) *)
Definition nullableSlotFrom (v : js) : option (option Z) := or_null slotFrom v.
(** src/src/domain/strict-catch-up.ts:87-93 (snapshotPrevious) *)
Definition snapshotPrevious (v : js) (checkpointKey : ProcessingCheckpointKey)
    : option (option ProcessingCheckpoint) :=
  or_null (fun x => snapshotCheckpoint x checkpointKey) v.
(** src/src/domain/strict-catch-up.ts:77-85 (checkedPrevious) *)
Definition checkedPrevious (v : js) (checkpointKey : ProcessingCheckpointKey)
    : option (option ProcessingCheckpoint) :=
  or_null (fun x => checkedCheckpoint x checkpointKey) v.
(** The failure as the frozen object the code passes on. *)
Definition failure_value (f : StrictCatchUpFailure) (key : string) : js :=
  match key with
  | "failureId" => JString (cf_failureId f)
  | "checkpointKey" => JString (key_name (cf_checkpointKey f))
  | "previous" => nullable_value (fun c => object_of CHECKPOINT_FIELDS (checkpoint_value c)) (cf_previous f)
  | "providerId" => JString (provider_name (cf_providerId f))
  | "observedHeadSlot" => nullable_value JBigInt (cf_observedHeadSlot f)
  | "reasonCode" => JString "CATCH_UP_WINDOW_EXCEEDED"
  | "detectedAtMs" => number (cf_detectedAtMs f)
  | _ => JUndefined
  end.
Definition FAILURE_KEYS : list string :=
  ["failureId"; "checkpointKey"; "previous"; "providerId"; "observedHeadSlot"; "reasonCode"; "detectedAtMs"].
Definition failure_object (f : StrictCatchUpFailure) : js := object_of FAILURE_KEYS (failure_value f).

Section Failures.
Context `{Sha256}.

(** What identifies a failure. *)
Definition failure_json (checkpointKey : ProcessingCheckpointKey) (previous : option ProcessingCheckpoint)
    (providerId : RpcProviderId) (observedHeadSlot : option Z) : json :=
  JsonArr
    [JsonInt 1; JsonStr (key_name checkpointKey);
     match previous with
     | None => JsonNull
     | Some c => JsonArr [JsonStr (to_decimal (cp_slot c)); JsonStr (cp_signature c)]
     end;
     JsonStr (provider_name providerId);
     match observedHeadSlot with None => JsonNull | Some z => JsonStr (to_decimal z) end;
     JsonStr "CATCH_UP_WINDOW_EXCEEDED"].
(** src/src/domain/strict-catch-up.ts:108-124 (strictCatchUpFailureId) *)
Definition strictCatchUpFailureId (checkpointKey : ProcessingCheckpointKey)
    (previous : option ProcessingCheckpoint) (providerId : RpcProviderId) (observedHeadSlot : option Z)
    : string :=
  "strict_catchup_failure_"
  +:+ sha256_hex (stringify (failure_json checkpointKey previous providerId observedHeadSlot)).

(** src/src/domain/strict-catch-up.ts:52-75 (assertValidStrictCatchUpFailure): the failure that
    a checked value is. *)
Definition failureFrom (v : js) : option StrictCatchUpFailure :=
  if negb (isFrozenObject v) then None
  else
    record ← data_record v FAILURE_KEYS;
    checkpointKey ← checkpointKeyFrom (field record "checkpointKey");
    previous ← checkedPrevious (field record "previous") checkpointKey;
    providerId ← providerIdFrom (field record "providerId");
    observedHeadSlot ← nullableSlotFrom (field record "observedHeadSlot");
    detectedAtMs ← millisecondsFrom (field record "detectedAtMs");
    match field record "reasonCode" with
    | JString reasonCode =>
        if bool_decide (reasonCode <> "CATCH_UP_WINDOW_EXCEEDED") then None
        else match field record "failureId" with
             | JString failureId =>
                 if bool_decide (failureId
                     <> strictCatchUpFailureId checkpointKey previous providerId observedHeadSlot)
                 then None
                 else Some {| cf_failureId := failureId; cf_checkpointKey := checkpointKey;
                              cf_previous := previous; cf_providerId := providerId;
                              cf_observedHeadSlot := observedHeadSlot; cf_detectedAtMs := detectedAtMs |}
             | _ => None
             end
    | _ => None
    end.
(** src/src/domain/strict-catch-up.ts:52-75 (assertValidStrictCatchUpFailure) *)
Definition assertValidStrictCatchUpFailure (v : js) : bool := bool_decide (is_Some (failureFrom v)).

(** src/src/domain/strict-catch-up.ts:30-50 (createStrictCatchUpFailure) *)
Definition createStrictCatchUpFailure (input : js) : option StrictCatchUpFailure :=
  record ← data_record input ["checkpointKey"; "previous"; "providerId"; "observedHeadSlot"; "detectedAtMs"];
  checkpointKey ← checkpointKeyFrom (field record "checkpointKey");
  previous ← snapshotPrevious (field record "previous") checkpointKey;
  providerId ← providerIdFrom (field record "providerId");
  observedHeadSlot ← nullableSlotFrom (field record "observedHeadSlot");
  detectedAtMs ← millisecondsFrom (field record "detectedAtMs");
  let result :=
    {| cf_failureId := strictCatchUpFailureId checkpointKey previous providerId observedHeadSlot;
       cf_checkpointKey := checkpointKey; cf_previous := previous; cf_providerId := providerId;
       cf_observedHeadSlot := observedHeadSlot; cf_detectedAtMs := detectedAtMs |} in
  if assertValidStrictCatchUpFailure (failure_object result) then Some result else None.

(** A created failure is accepted and read back, and a failure that satisfies the readers is
    always created: the last check refuses nothing. *)
Lemma failureFrom_object key previous provider slot t :
  (forall c, previous = Some c -> checkpoint_ok key c) ->
  nullableSlotFrom (nullable_value JBigInt slot) = Some slot ->
  millisecondsFrom (number t) = Some t ->
  let f := {| cf_failureId := strictCatchUpFailureId key previous provider slot; cf_checkpointKey := key;
              cf_previous := previous; cf_providerId := provider; cf_observedHeadSlot := slot;
              cf_detectedAtMs := t |} in
  failureFrom (failure_object f) = Some f.
Proof.
  intros Hp Hs Ht f. unfold failureFrom, failure_object, data_record. change (isFrozenObject _) with true.
  cbn [negb]. rewrite own_record_object. cbn [mbind option_bind]. repeat read_field.
  cbn [failure_value f cf_failureId cf_checkpointKey cf_previous cf_providerId cf_observedHeadSlot cf_detectedAtMs].
  rewrite key_read. cbn [mbind option_bind].
  assert (checkedPrevious (nullable_value (fun c => object_of CHECKPOINT_FIELDS (checkpoint_value c)) previous)
    key = Some previous) as ->.
  { apply (read_or_null (fun x => checkedCheckpoint x key)); [done|]. intros c Hc. by apply checkedCheckpoint_object, Hp. }
  cbn [mbind option_bind]. rewrite provider_read. cbn [mbind option_bind]. rewrite Hs. cbn [mbind option_bind].
  rewrite Ht. cbn [mbind option_bind]. by rewrite !bool_decide_eq_false_2 by (intros Hn; by apply Hn).
Qed.

Theorem created_failure_read_back input f :
  createStrictCatchUpFailure input = Some f -> failureFrom (failure_object f) = Some f.
Proof.
  unfold createStrictCatchUpFailure. intros E. apply bind_Some in E as (r & _ & E).
  apply bind_Some in E as (key & _ & E). apply bind_Some in E as (previous & Hp & E).
  apply bind_Some in E as (provider & _ & E). apply bind_Some in E as (slot & Hs & E).
  apply bind_Some in E as (t & Ht & E). cbv zeta in E.
  destruct (assertValidStrictCatchUpFailure _) in E; [|done]. injection E as <-. apply failureFrom_object.
  - intros c ->. unfold snapshotPrevious, or_null in Hp.
    destruct (field r "previous"); try done; apply fmap_Some in Hp as (c' & Hc & [= ->]);
      by eapply snapshotCheckpoint_ok.
  - eapply keeps_or_null; [apply keeps_slot|done|exact Hs].
  - reread.
Qed.

(** Failures of the same name have the same boundary, provider and head, unless the digest
    collides. *)
Theorem failure_id_identifies k c p z k' c' p' z' :
  strictCatchUpFailureId k c p z = strictCatchUpFailureId k' c' p' z' ->
  (k = k' /\ (fun x => (cp_slot x, cp_signature x)) <$> c = (fun x => (cp_slot x, cp_signature x)) <$> c'
   /\ p = p' /\ z = z') \/ sha256_collision.
Proof.
  intros E. apply digest_agree in E as [E|?]; [left|by right]. injection E as Ek Ec Ep Ez.
  split_and!; [by destruct k, k'| |by destruct p, p'|].
  - destruct c as [c|], c' as [c'|]; try done. injection Ec as Es Eg. cbn. f_equal. apply to_decimal_inj in Es.
    congruence.
  - destruct z, z'; try done. injection Ez as Ez. by apply to_decimal_inj in Ez as ->.
Qed.
End Failures.
