(* ===== verification/CatchUpSource.v ===== *)
(** [src/src/solana/rpc/catch-up-source.ts], [src/src/application/catch-up-discovery.ts]: pages of
    signatures read from a provider, and the merge of what several scans discovered.

    A page comes from the network, so every row is read from an untyped value; a malformed one
    makes the whole page fail.  [None] stands for the error of stage [response]. *)
From S2P Require Import Prelude Text Types Chain JsonCodec JsValue JsReaders.
From Stdlib Require Import Ascii String.
From stdpp Require Import sorting.
Local Open Scope string_scope.
Local Open Scope list_scope.
Local Open Scope Z_scope.

(** * Rows *)

(** src/src/solana/rpc/catch-up-source.ts:5-6 (MAX_CATCH_UP_PAGE_SIZE,
    MAX_CATCH_UP_SIGNATURE_LENGTH) *)
Definition MAX_CATCH_UP_PAGE_SIZE : Z := 1000.
Definition MAX_CATCH_UP_SIGNATURE_LENGTH : Z := 128.
(** src/src/solana/rpc/catch-up-source.ts:8-8 (CatchUpSourceStage) *)
Inductive CatchUpSourceStage := STAGE_REQUEST | STAGE_RESPONSE | STAGE_PAGINATION.
(** src/src/solana/rpc/catch-up-source.ts:9-17 (CatchUpSignature): the confirmation status is
    never [orphaned]. *)
Record CatchUpSignature := {
  cs_signature : string;
  cs_slot : Z;
  cs_confirmationStatus : ChainConfirmationStatus;
  cs_blockTimeMs : option Z;
  cs_transactionFailed : bool;
}.

(** src/src/solana/rpc/catch-up-source.ts:184-190 (dataProperty) *)
Definition dataProperty (v : js) (key : string) : option js :=
  match v with
  | JObject _ _ _ props => descriptor_value (own_property props key)
  | _ => None
  end.
(** src/src/solana/rpc/catch-up-source.ts:192-200 (milliseconds) *)
Definition milliseconds (v : js) : option (option Z) :=
  match v with
  | JNull => Some None
  | JNumber (NumInt z) =>
      if is_safe_integer z && (0 <=? z) && is_safe_integer (z * 1000) then Some (Some (z * 1000)) else None
  | _ => None
  end.
(** src/src/solana/rpc/catch-up-source.ts:202-204 (isConfirmationStatus) *)
Definition CATCH_UP_STATUSES : list (string * ChainConfirmationStatus) :=
  [("processed", processed); ("confirmed", confirmed); ("finalized", finalized)].
Definition confirmationStatusFrom (v : js) : option ChainConfirmationStatus := enumValue CATCH_UP_STATUSES v.
(** src/src/solana/rpc/catch-up-source.ts:210-217 (statusSatisfiesCommitment) *)
Definition statusSatisfiesCommitment (status commitment : ChainConfirmationStatus) : bool :=
  match commitment with
  | processed => true
  | confirmed => bool_decide (status = confirmed) || bool_decide (status = finalized)
  | _ => bool_decide (status = finalized)
  end.
(** src/src/solana/rpc/catch-up-source.ts:224-236 (validText, validProgramId, validSignature) *)
Definition validProgramId (s : string) : bool := negb (is_empty s) && (utf16_length s <=? 64).
Definition validSignature (s : string) : bool :=
  negb (is_empty s) && (utf16_length s <=? MAX_CATCH_UP_SIGNATURE_LENGTH)
  && (byte_length s <=? MAX_CATCH_UP_SIGNATURE_LENGTH).
(** src/src/solana/rpc/catch-up-source.ts:219-222 (validCursor) *)
Definition validCursor (before : option string) : bool :=
  match before with None => true | Some s => validSignature s end.
(** src/src/solana/rpc/catch-up-source.ts:238-243 (validLimit) *)
Definition validLimit (limit : Z) : bool :=
  is_safe_integer limit && (1 <=? limit) && (limit <=? MAX_CATCH_UP_PAGE_SIZE).

(** src/src/solana/rpc/catch-up-source.ts:151-158 (validTransactionError): whether the
    transaction failed. *)
Definition transactionErrorFrom (v : js) : option bool :=
  match v with
  | JNull => Some false
  | JString s =>
      if negb (is_empty s) && (utf16_length s <=? 16384) && (byte_length s <=? 16384)
      then Some true else None
  | JObject _ _ _ _ => Some true
  | _ => None
  end.

(** A signature read from a property. *)
Definition rowSignatureFrom (v : js) : option string :=
  match v with
  | JString s => if validSignature s then Some s else None
  | _ => None
  end.
(** src/src/solana/rpc/catch-up-source.ts:124-149 (snapshotRow) *)
Definition snapshotRow (v : js) : option CatchUpSignature :=
  signature_ ← dataProperty v "signature";
  slot_ ← dataProperty v "slot";
  status_ ← dataProperty v "confirmationStatus";
  blockTime_ ← dataProperty v "blockTime";
  err_ ← dataProperty v "err";
  signature ← rowSignatureFrom signature_;
  slot ← match slot_ with
         | JNumber (NumInt z) => if is_safe_integer z && (0 <=? z) then Some z else None
         | _ => None
         end;
  confirmationStatus ← confirmationStatusFrom status_;
  transactionFailed ← transactionErrorFrom err_;
  blockTimeMs ← milliseconds blockTime_;
  Some {| cs_signature := signature; cs_slot := slot; cs_confirmationStatus := confirmationStatus;
          cs_blockTimeMs := blockTimeMs; cs_transactionFailed := transactionFailed |}.
(** src/src/solana/rpc/catch-up-source.ts:160-182 (snapshotTrustedRow) *)
Definition snapshotTrustedRow (v : js) : option CatchUpSignature :=
  signature_ ← dataProperty v "signature";
  slot_ ← dataProperty v "slot";
  status_ ← dataProperty v "confirmationStatus";
  blockTimeMs_ ← dataProperty v "blockTimeMs";
  failed_ ← dataProperty v "transactionFailed";
  signature ← rowSignatureFrom signature_;
  slot ← match slot_ with
         | JBigInt z => if 0 <=? z then Some z else None
         | _ => None
         end;
  confirmationStatus ← confirmationStatusFrom status_;
  blockTimeMs ← or_null (fun b => match b with
                                  | JNumber (NumInt z) => if is_safe_integer z && (0 <=? z) then Some z else None
                                  | _ => None
                                  end) blockTimeMs_;
  transactionFailed ← match failed_ with JBool b => Some b | _ => None end;
  Some {| cs_signature := signature; cs_slot := slot; cs_confirmationStatus := confirmationStatus;
          cs_blockTimeMs := blockTimeMs; cs_transactionFailed := transactionFailed |}.

(** src/src/solana/rpc/catch-up-source.ts:94-122 (snapshotArray) *)
Definition snapshotArray (snapshot : js -> option CatchUpSignature) (v : js) (limit : Z)
    : option (list CatchUpSignature) :=
  if negb (validLimit limit) then None
  else match v with
       | JArray _ _ _ items =>
           if limit <? Z.of_nat (List.length items) then None
           else mapM (fun item => x ← descriptor_value item; snapshot x) items
       | _ => None
       end.
(** src/src/solana/rpc/catch-up-source.ts:83-92 (snapshotCatchUpPage, snapshotCatchUpSignatures) *)
Definition snapshotCatchUpPage (v : js) (limit : Z) : option (list CatchUpSignature) :=
  snapshotArray snapshotRow v limit.
Definition snapshotCatchUpSignatures (v : js) (limit : Z) : option (list CatchUpSignature) :=
  snapshotArray snapshotTrustedRow v limit.

(** What the provider's RPC answers: a value, an error of the attempt budget, or any other
    error (an address that does not parse included). *)
Inductive rpc_answer := RpcValue (v : js) | RpcBudget | RpcFailed.
(** How a source call fails. *)
Inductive source_error := SourceBudget | SourceError (stage : CatchUpSourceStage).

(** src/src/solana/rpc/catch-up-source.ts:56-80 (SolanaCatchUpSource.list) *)
Definition source_list (getSignaturesForAddress : string -> option string -> Z -> rpc_answer)
    (commitment : ChainConfirmationStatus) (programId : string) (before : option string) (limit : Z)
    : result source_error (list CatchUpSignature) :=
  if negb (validProgramId programId) || negb (validCursor before) || negb (validLimit limit)
  then Err (SourceError STAGE_REQUEST)
  else match getSignaturesForAddress programId before limit with
       | RpcBudget => Err SourceBudget
       | RpcFailed => Err (SourceError STAGE_REQUEST)
       | RpcValue response =>
           match snapshotCatchUpPage response limit with
           | None => Err (SourceError STAGE_RESPONSE)
           | Some page =>
               if existsb (fun row => negb (statusSatisfiesCommitment (cs_confirmationStatus row) commitment)) page
               then Err (SourceError STAGE_RESPONSE) else Ok page
           end
       end.

(** * Discoveries *)

(** src/src/application/catch-up-discovery.ts:19-21 (MergedCatchUpDiscovery) *)
Record MergedCatchUpDiscovery := {
  md_row : CatchUpSignature;
  md_programIds : list string;
}.

(** src/src/application/catch-up-discovery.ts:47-72 (reconcileDiscovery): [None] where the code
    throws. *)
Definition reconcileDiscovery (current incoming : CatchUpSignature) : option CatchUpSignature :=
  if negb (cs_slot current =? cs_slot incoming) then None
  else if match cs_blockTimeMs current, cs_blockTimeMs incoming with
          | Some a, Some b => negb (a =? b)
          | _, _ => false
          end then None
  else if negb (Bool.eqb (cs_transactionFailed current) (cs_transactionFailed incoming)) then None
  else match reconcileConfirmationStatus (cs_confirmationStatus current) (cs_confirmationStatus incoming) with
       | Err _ => None
       | Ok r =>
           Some {| cs_signature := cs_signature current; cs_slot := cs_slot current;
                   cs_confirmationStatus := match r with
                                            | update => cs_confirmationStatus incoming
                                            | keep => cs_confirmationStatus current
                                            end;
                   cs_blockTimeMs := match cs_blockTimeMs current with
                                     | Some b => Some b
                                     | None => cs_blockTimeMs incoming
                                     end;
                   cs_transactionFailed := cs_transactionFailed current |}
       end.

(** [Map.get] and [Map.set], which keeps the place of a key it has. *)
Fixpoint map_get {A} (m : list (string * A)) (k : string) : option A :=
  match m with
  | [] => None
  | (k', v) :: m' => if bool_decide (k' = k) then Some v else map_get m' k
  end.
Fixpoint map_set {A} (m : list (string * A)) (k : string) (v : A) : list (string * A) :=
  match m with
  | [] => [(k, v)]
  | (k', v') :: m' => if bool_decide (k' = k) then (k, v) :: m' else (k', v') :: map_set m' k v
  end.

(** src/src/application/catch-up-discovery.ts:74-84 (discoveryOrder, lexicalOrder): the
    comparison that is at most zero. *)
Definition first_program (d : MergedCatchUpDiscovery) : string :=
  match md_programIds d with [] => EmptyString | p :: _ => p end.
Definition discovery_le (left right : MergedCatchUpDiscovery) : Prop :=
  if negb (cs_slot (md_row left) =? cs_slot (md_row right))
  then cs_slot (md_row left) < cs_slot (md_row right)
  else if negb (bool_decide (cs_signature (md_row left) = cs_signature (md_row right)))
  then key_le (cs_signature (md_row left)) (cs_signature (md_row right))
  else key_le (first_program left) (first_program right).
(** The comparison is decided. *)
Global Instance discovery_le_dec : RelDecision discovery_le.
Proof. intros a b. unfold discovery_le. repeat case_match; apply _. Defined.

(** src/src/application/catch-up-discovery.ts:28-42 (mergeCatchUpDiscoveries): one row. *)
Definition merge_row (programId : string) (bySignature : list (string * MergedCatchUpDiscovery))
    (row : CatchUpSignature) : option (list (string * MergedCatchUpDiscovery)) :=
  match map_get bySignature (cs_signature row) with
  | None => Some (map_set bySignature (cs_signature row) {| md_row := row; md_programIds := [programId] |})
  | Some previous =>
      reconciled ← reconcileDiscovery (md_row previous) row;
      Some (map_set bySignature (cs_signature row)
              {| md_row := reconciled;
                 md_programIds := merge_sort key_le (md_programIds previous ++ [programId]) |})
  end.
(** [for (const x of l) s = f(s, x);] where [f] may throw. *)
Fixpoint fold_option {S A} (f : S -> A -> option S) (s : S) (l : list A) : option S :=
  match l with
  | [] => Some s
  | x :: l' => s' ← f s x; fold_option f s' l'
  end.
(** src/src/application/catch-up-discovery.ts:23-45 (mergeCatchUpDiscoveries): a scan is the
    identifier of its program and its rows. *)
Definition mergeCatchUpDiscoveries (scans : list (string * list CatchUpSignature))
    : option (list MergedCatchUpDiscovery) :=
  bySignature ← fold_option (fun m scan => fold_option (merge_row (fst scan)) m (snd scan)) [] scans;
  Some (merge_sort discovery_le (map snd bySignature)).

(** * What a merge returns *)

Global Instance discovery_le_total : Total discovery_le.
Proof.
  intros a b. unfold discovery_le. rewrite (Z.eqb_sym (cs_slot (md_row b))).
  destruct (Z.eqb_spec (cs_slot (md_row a)) (cs_slot (md_row b))); cbn [negb]; [|lia].
  destruct (decide (cs_signature (md_row a) = cs_signature (md_row b))) as [E|E].
  - rewrite !bool_decide_eq_true_2 by done. apply (total key_le).
  - rewrite !bool_decide_eq_false_2 by (try done; by intros ?%eq_sym). apply (total key_le).
Qed.

Lemma map_get_pair {A} (m : list (string * A)) k v : map_get m k = Some v -> (k, v) ∈ m.
Proof.
  induction m as [|[k' v'] m IH]; cbn; [done|]. case_bool_decide as Hk; [subst|].
  - intros [= ->]. left.
  - intros H. right. auto.
Qed.
Lemma map_get_None {A} (m : list (string * A)) k : map_get m k = None <-> k ∉ map fst m.
Proof.
  induction m as [|[k' v'] m IH]; cbn; [split; [intros _; apply not_elem_of_nil|done]|].
  rewrite not_elem_of_cons. case_bool_decide as Hk; [subst|]; [naive_solver|]. rewrite IH. naive_solver.
Qed.
Lemma map_set_keys {A} (m : list (string * A)) k v :
  map fst (map_set m k v) = if decide (k ∈ map fst m) then map fst m else map fst m ++ [k].
Proof.
  induction m as [|[k' v'] m IH].
  { cbn [map_set map fst]. destruct (decide _) as [Hn|]; [by apply elem_of_nil in Hn|done]. }
  cbn [map_set map fst]. case_bool_decide as Hk; [subst|].
  - cbn [map fst]. destruct (decide (k ∈ k :: map fst m)) as [|Hn]; [done|]. destruct Hn. left.
  - cbn [map fst]. rewrite IH. destruct (decide (k ∈ map fst m)) as [Hin|Hin], (decide (k ∈ k' :: map fst m)) as [Hin'|Hin'];
      try done; [by destruct Hin'; right|]. apply elem_of_cons in Hin' as [->|?]; done.
Qed.
Lemma map_set_elem {A} (m : list (string * A)) k v p :
  p ∈ map_set m k v -> p = (k, v) \/ (p ∈ m /\ (NoDup (map fst m) -> fst p <> k)).
Proof.
  induction m as [|[k' v'] m IH]; cbn; [rewrite list_elem_of_singleton; naive_solver|].
  rewrite NoDup_cons. case_bool_decide as Hk; [subst|]; rewrite elem_of_cons.
  - intros [->|Hp]; [by left|right]. split; [by right|]. intros [Hn _] E. apply Hn. rewrite <- E.
    apply list_elem_of_fmap. eauto.
  - intros [->|Hp]; [right; split; [left|done]|]. destruct (IH Hp) as [?|[? Hn]]; [by left|right].
    split; [by right|]. intros [_ ?]. auto.
Qed.

(** The rows merged so far, and what the map keeps of them. *)
Record merged_rows (rows : list CatchUpSignature) (m : list (string * MergedCatchUpDiscovery)) : Prop := {
  mr_distinct : NoDup (map fst m);
  mr_keys : forall s, s ∈ map fst m <-> s ∈ map cs_signature rows;
  mr_entry : forall k d, (k, d) ∈ m -> cs_signature (md_row d) = k;
  mr_agree : forall k d r, (k, d) ∈ m -> r ∈ rows -> cs_signature r = k ->
    cs_slot r = cs_slot (md_row d) /\ cs_transactionFailed r = cs_transactionFailed (md_row d);
}.
Lemma reconcileDiscovery_Some a b c : reconcileDiscovery a b = Some c ->
  cs_signature c = cs_signature a /\ cs_slot c = cs_slot a /\ cs_slot b = cs_slot a
  /\ cs_transactionFailed c = cs_transactionFailed a /\ cs_transactionFailed b = cs_transactionFailed a.
Proof.
  unfold reconcileDiscovery. destruct (Z.eqb_spec (cs_slot a) (cs_slot b)); cbn [negb]; [|done].
  destruct (match cs_blockTimeMs a with Some _ => _ | None => _ end); [done|].
  destruct (Bool.eqb _ _) eqn:E; cbn [negb]; [|done]. apply eqb_prop in E.
  destruct (reconcileConfirmationStatus _ _); [|done]. intros [= <-]. cbn. naive_solver.
Qed.
Lemma merge_row_rows p rows m row m' :
  merged_rows rows m -> merge_row p m row = Some m' -> merged_rows (rows ++ [row]) m'.
Proof.
  intros [Hd Hk He Ha] H. unfold merge_row in H.
  assert (exists d, m' = map_set m (cs_signature row) d
    /\ cs_signature (md_row d) = cs_signature row /\ cs_slot row = cs_slot (md_row d)
    /\ cs_transactionFailed row = cs_transactionFailed (md_row d)
    /\ forall r, r ∈ rows -> cs_signature r = cs_signature row ->
       cs_slot r = cs_slot (md_row d) /\ cs_transactionFailed r = cs_transactionFailed (md_row d))
    as (d & -> & Es & El & Ef & Hr).
  { destruct (map_get m (cs_signature row)) as [prev|] eqn:Hg.
    - apply bind_Some in H as (c & Hc & [= <-]). apply map_get_pair in Hg.
      apply reconcileDiscovery_Some in Hc as (E1 & E2 & E3 & E4 & E5). eexists. split; [done|].
      cbn [md_row]. rewrite E1, E2, E4. split_and!; try done; [by eapply He|]. intros r Hin Hs.
      by destruct (Ha _ _ r Hg Hin Hs).
    - injection H as <-. eexists. split; [done|]. cbn [md_row]. split_and!; try done. intros r Hin Hs.
      apply map_get_None in Hg as []. rewrite Hk, <- Hs. apply list_elem_of_fmap. eauto. }
  assert (cs_signature row ∈ map fst m \/ cs_signature row ∉ map fst m) as Hin
    by (destruct (decide (cs_signature row ∈ map fst m)); auto).
  split.
  - rewrite map_set_keys. destruct (decide _); [done|]. apply NoDup_app. split_and!; [done|set_solver|apply NoDup_singleton].
  - intros s. rewrite map_set_keys, map_app. cbn [map]. rewrite elem_of_app, list_elem_of_singleton, <- Hk.
    destruct (decide _); [naive_solver|]. by rewrite elem_of_app, list_elem_of_singleton.
  - intros k d' Hp. apply map_set_elem in Hp as [[= -> ->]|[Hp _]]; [done|by apply He].
  - intros k d' r Hp Hr' Hs. apply elem_of_app in Hr' as [Hr'|Hr'].
    + apply map_set_elem in Hp as [[= -> ->]|[Hp _]]; [by apply Hr|by eapply Ha].
    + apply list_elem_of_singleton in Hr' as ->.
      apply map_set_elem in Hp as [[= -> ->]|[Hp Hn]]; [done|]. by destruct (Hn Hd).
Qed.
Lemma merge_scan_rows p new rows m m' :
  merged_rows rows m -> fold_option (merge_row p) m new = Some m' -> merged_rows (rows ++ new) m'.
Proof.
  revert rows m. induction new as [|row new IH]; intros rows m Hm H; cbn [fold_option] in H.
  - injection H as <-. by rewrite app_nil_r.
  - apply bind_Some in H as (m1 & H1 & H). rewrite cons_middle, app_assoc. eapply IH; [|done].
    by eapply merge_row_rows.
Qed.
Lemma merge_scans_rows scans rows m m' :
  merged_rows rows m ->
  fold_option (fun m scan => fold_option (merge_row (fst scan)) m (snd scan)) m scans = Some m' ->
  merged_rows (rows ++ concat (map snd scans)) m'.
Proof.
  revert rows m. induction scans as [|scan scans IH]; intros rows m Hm H; cbn [fold_option] in H.
  - injection H as <-. cbn. by rewrite app_nil_r.
  - apply bind_Some in H as (m1 & H1 & H). cbn [map concat]. rewrite app_assoc. eapply IH; [|done].
    by eapply merge_scan_rows.
Qed.

(** A merge is in the order of slots, has each signature of the scans once and agrees with
    every row it was made of. *)
Theorem merge_discoveries_spec scans out :
  mergeCatchUpDiscoveries scans = Some out ->
  Sorted discovery_le out
  /\ NoDup (map (cs_signature ∘ md_row) out)
  /\ (forall s, s ∈ map (cs_signature ∘ md_row) out <-> s ∈ map cs_signature (concat (map snd scans)))
  /\ (forall d r, d ∈ out -> r ∈ concat (map snd scans) -> cs_signature r = cs_signature (md_row d) ->
      cs_slot r = cs_slot (md_row d) /\ cs_transactionFailed r = cs_transactionFailed (md_row d)).
Proof.
  unfold mergeCatchUpDiscoveries. intros (m & Hm & [= <-])%bind_Some.
  apply (merge_scans_rows _ []) in Hm as [Hd Hk He Ha].
  2: { split; cbn; try set_solver. apply NoDup_nil_2. }
  cbn [app] in *.
  assert (map (cs_signature ∘ md_row) (map snd m) = map fst m) as Hsig.
  { clear Hd Hk Ha. induction m as [|[k d] m IH]; cbn; [done|]. rewrite IH by (intros; apply He; by right).
    f_equal. apply He. left. }
  pose proof (merge_sort_Permutation discovery_le (map snd m)) as Hp.
  split; [apply Sorted_merge_sort, _|]. split; [by rewrite Hp, Hsig|]. split.
  - intros s. by rewrite <- Hk, <- Hsig, Hp.
  - intros d r Hin Hr Hs. rewrite Hp in Hin. apply list_elem_of_fmap in Hin as ([k d'] & -> & Hin). cbn in *.
    eapply Ha; [exact Hin|done|]. rewrite Hs. by apply He.
Qed.
