(* ===== verification/CatchUpStore.v ===== *)
(** The tables of the catch-up in [src/src/storage/transaction-inbox.repository.ts]: the
    checkpoints, the runs and the recorded failures.

    A call is one database transaction: it returns its value and the new tables, or [None]
    where the source throws and the transaction is rolled back.  Runs and checkpoints are
    compared by their columns, which are all their fields.  The advisory lock and
    [FOR UPDATE] make the calls on one key follow each other. *)
From S2P Require Import Prelude Text Types Json JsValue JsReaders Intent CatchUpRun CatchUpSource.
From Stdlib Require Import Ascii String.
Local Open Scope string_scope.
Local Open Scope list_scope.
Local Open Scope Z_scope.

(** Decidable equality of rows. *)
Global Instance ProcessingCheckpoint_eq_dec : EqDecision ProcessingCheckpoint.
Proof. solve_decision. Defined.
Global Instance StrictCatchUpRunHead_eq_dec : EqDecision StrictCatchUpRunHead.
Proof. solve_decision. Defined.
Global Instance StrictCatchUpRun_eq_dec : EqDecision StrictCatchUpRun.
Proof. solve_decision. Defined.

(** [processing_checkpoints], [listener_strict_catch_up_runs],
    [listener_strict_catch_up_failures] with whether the failure is resolved, and the
    signatures that were ever written to the inbox. *)
Record CatchUpTables := {
  tb_checkpoints : list ProcessingCheckpoint;
  tb_runs : list StrictCatchUpRun;
  tb_failures : list (StrictCatchUpFailure * bool);
  tb_inbox : list string;
}.
Definition with_checkpoints (c : list ProcessingCheckpoint) (t : CatchUpTables) : CatchUpTables :=
  {| tb_checkpoints := c; tb_runs := tb_runs t; tb_failures := tb_failures t; tb_inbox := tb_inbox t |}.
Definition with_runs (r : list StrictCatchUpRun) (t : CatchUpTables) : CatchUpTables :=
  {| tb_checkpoints := tb_checkpoints t; tb_runs := r; tb_failures := tb_failures t; tb_inbox := tb_inbox t |}.
Definition with_failures (f : list (StrictCatchUpFailure * bool)) (t : CatchUpTables) : CatchUpTables :=
  {| tb_checkpoints := tb_checkpoints t; tb_runs := tb_runs t; tb_failures := f; tb_inbox := tb_inbox t |}.
Definition with_inbox (i : list string) (t : CatchUpTables) : CatchUpTables :=
  {| tb_checkpoints := tb_checkpoints t; tb_runs := tb_runs t; tb_failures := tb_failures t; tb_inbox := i |}.

(** [SELECT ... WHERE checkpoint_key = $1]; the key is the primary key. *)
Definition checkpoint_row (t : CatchUpTables) (key : ProcessingCheckpointKey) : option ProcessingCheckpoint :=
  List.find (fun c => bool_decide (cp_key c = key)) (tb_checkpoints t).

(** src/src/storage/transaction-inbox.repository.ts:3691-3699 (matchesCheckpointBoundary) *)
Definition matchesCheckpointBoundary (current previous : option ProcessingCheckpoint) : bool :=
  match current, previous with
  | None, None => true
  | Some c, Some p =>
      bool_decide (cp_key c = cp_key p) && (cp_slot c =? cp_slot p)
      && bool_decide (cp_signature c = cp_signature p)
  | _, _ => false
  end.
(** src/src/storage/transaction-inbox.repository.ts:3608-3616 (isCheckpointRegression) *)
Definition isCheckpointRegression (expected next : ProcessingCheckpoint) : bool :=
  (cp_slot next <? cp_slot expected)
  || ((cp_slot next =? cp_slot expected) && bool_decide (cp_signature next = cp_signature expected)
      && (cp_updatedAtMs next <? cp_updatedAtMs expected)).
(** src/src/domain/transaction-ingestion.ts:583-593 (assertValidProcessingCheckpoint) *)
Definition valid_processing_checkpoint (c : ProcessingCheckpoint) : bool :=
  (0 <=? cp_slot c) && negb (is_empty (cp_signature c))
  && is_safe_integer (cp_updatedAtMs c) && (0 <=? cp_updatedAtMs c).
(** src/src/storage/transaction-inbox.repository.ts:3618-3626 (assertValidStrictCheckpoint) *)
Definition valid_strict_checkpoint (c : ProcessingCheckpoint) : bool :=
  valid_processing_checkpoint c && (cp_slot c <=? MAX_STRICT_CATCH_UP_SLOT)
  && bool_decide (cp_signature c = trim (cp_signature c)) && (byte_length (cp_signature c) <=? 128).
(** src/src/storage/transaction-inbox.repository.ts:4442-4447 (dateFromMs): whether the date is
    accepted. *)
Definition date_ok (ms : Z) : bool := is_safe_integer ms && (0 <=? ms) && (ms <=? MAX_DATE_MS).

(** [UPDATE ... WHERE checkpoint_key = $1 AND slot = $5 AND signature = $6] *)
Definition same_boundary (c p : ProcessingCheckpoint) : bool :=
  matchesCheckpointBoundary (Some c) (Some p).
Definition replace_checkpoint (expected next : ProcessingCheckpoint) (l : list ProcessingCheckpoint)
    : list ProcessingCheckpoint :=
  map (fun c => if same_boundary c expected then next else c) l.

(** src/src/storage/transaction-inbox.repository.ts:3928-3962 (resolveStrictCatchUpFailuresAt) *)
Definition failure_at (key : ProcessingCheckpointKey) (previous : option ProcessingCheckpoint)
    (f : StrictCatchUpFailure) : bool :=
  bool_decide (cf_checkpointKey f = key)
  && match previous, cf_previous f with
     | None, None => true
     | Some p, Some q => (cp_slot q =? cp_slot p) && bool_decide (cp_signature q = cp_signature p)
     | _, _ => false
     end.
Definition resolveStrictCatchUpFailuresAt (key : ProcessingCheckpointKey)
    (previous : option ProcessingCheckpoint) (t : CatchUpTables) : CatchUpTables :=
  with_failures (map (fun f => if failure_at key previous (fst f) then (fst f, true) else f) (tb_failures t)) t.
(** src/src/storage/transaction-inbox.repository.ts:3964-3979 (resolveStrictCatchUpFailureById) *)
Definition resolveStrictCatchUpFailureById (failureId : string) (t : CatchUpTables) : CatchUpTables :=
  with_failures (map (fun f => if bool_decide (cf_failureId (fst f) = failureId) then (fst f, true) else f)
                   (tb_failures t)) t.

(** * Checkpoints *)

(** src/src/storage/transaction-inbox.repository.ts:3393-3404 (checkpointFromRow): a stored
    checkpoint is checked again. *)
Definition checkpointFromRow (c : option ProcessingCheckpoint) : option (option ProcessingCheckpoint) :=
  match c with
  | None => Some None
  | Some c => if valid_processing_checkpoint c then Some (Some c) else None
  end.
(** src/src/storage/transaction-inbox.repository.ts:2366-2377 (readCheckpoint) *)
Definition readCheckpoint (key : ProcessingCheckpointKey) (t : CatchUpTables)
    : option (option ProcessingCheckpoint) :=
  checkpointFromRow (checkpoint_row t key).

(** src/src/storage/transaction-inbox.repository.ts:2379-2433 (compareAndSwapCheckpoint) *)
Definition compareAndSwapCheckpoint (expected : option ProcessingCheckpoint) (next : ProcessingCheckpoint)
    (t : CatchUpTables) : option CatchUpTables :=
  if negb (valid_strict_checkpoint next) || negb (date_ok (cp_updatedAtMs next)) then None
  else match expected with
       | None =>
           match checkpoint_row t (cp_key next) with
           | Some _ => None
           | None =>
               Some (resolveStrictCatchUpFailuresAt (cp_key next) None
                       (with_checkpoints (tb_checkpoints t ++ [next]) t))
           end
       | Some e =>
           if negb (valid_strict_checkpoint e) || negb (bool_decide (cp_key e = cp_key next))
              || isCheckpointRegression e next then None
           else if negb (matchesCheckpointBoundary (checkpoint_row t (cp_key next)) (Some e)) then None
           else Some (resolveStrictCatchUpFailuresAt (cp_key next) (Some e)
                        (with_checkpoints (replace_checkpoint e next (tb_checkpoints t)) t))
       end.

(** * Runs *)
Section Runs.
Context `{Sha256}.

(** src/src/storage/transaction-inbox.repository.ts:3472-3475 (assertActiveStrictCatchUpRun) *)
Definition active_run (r : StrictCatchUpRun) : bool :=
  assertValidStrictCatchUpRun (run_object r) && bool_decide (cr_state r = RUN_ACTIVE).

(** One row at most, checked again as it is read. *)
Definition one_run (rows : list StrictCatchUpRun) : option (option StrictCatchUpRun) :=
  match rows with
  | [] => Some None
  | [r] => if assertValidStrictCatchUpRun (run_object r) then Some (Some r) else None
  | _ => None
  end.
(** src/src/storage/transaction-inbox.repository.ts:2510-2525 (readActiveStrictCatchUpRun) *)
Definition readActiveStrictCatchUpRun (key : ProcessingCheckpointKey) (t : CatchUpTables)
    : option (option StrictCatchUpRun) :=
  one_run (List.filter (fun r => bool_decide (cr_checkpointKey r = key) && bool_decide (cr_state r = RUN_ACTIVE))
             (tb_runs t)).
(** src/src/storage/transaction-inbox.repository.ts:2527-2551 (readStrictCatchUpRun) *)
Definition readStrictCatchUpRun (key : ProcessingCheckpointKey) (previous : ProcessingCheckpoint)
    (providerId : RpcProviderId) (t : CatchUpTables) : option (option StrictCatchUpRun) :=
  if negb (valid_strict_checkpoint previous) || negb (bool_decide (cp_key previous = key)) then None
  else
    run ← one_run (List.filter (fun r =>
            bool_decide (cr_checkpointKey r = key)
            && (cp_slot (cr_previous r) =? cp_slot previous)
            && bool_decide (cp_signature (cr_previous r) = cp_signature previous)
            && bool_decide (cr_providerId r = providerId)) (tb_runs t));
    match run with
    | None => Some None
    | Some r =>
        if negb (bool_decide (cr_checkpointKey r = key))
           || negb (matchesCheckpointBoundary (Some (cr_previous r)) (Some previous))
           || negb (bool_decide (cr_providerId r = providerId)) then None
        else Some (Some r)
    end.

(** src/src/storage/transaction-inbox.repository.ts:2553-2600 (createStrictCatchUpRun) *)
Definition store_createRun (value : StrictCatchUpRun) (t : CatchUpTables)
    : option (StrictCatchUpRun * CatchUpTables) :=
  if negb (active_run value) then None
  else
    checkpoint ← checkpointFromRow (checkpoint_row t (cr_checkpointKey value));
    if negb (matchesCheckpointBoundary checkpoint (Some (cr_previous value))) then None
    else
      existing ← one_run (List.filter (fun r => bool_decide (cr_runId r = cr_runId value)) (tb_runs t));
      match existing with
      | Some stored => if bool_decide (stored = value) then Some (stored, t) else None
      | None =>
          match List.filter (fun r => bool_decide (cr_checkpointKey r = cr_checkpointKey value)
                                      && bool_decide (cr_state r = RUN_ACTIVE)) (tb_runs t) with
          | [] => Some (value, with_runs (tb_runs t ++ [value]) t)
          | _ => None
          end
      end.

(** [UPDATE listener_strict_catch_up_runs SET ... WHERE ...], where the condition is that
    every column is that of [expected]; [None] unless exactly one row was changed. *)
Definition update_run (expected next : StrictCatchUpRun) (t : CatchUpTables) : option CatchUpTables :=
  match List.filter (fun r => bool_decide (r = expected)) (tb_runs t) with
  | [_] => Some (with_runs (map (fun r => if bool_decide (r = expected) then next else r) (tb_runs t)) t)
  | _ => None
  end.

(** The frozen object of a progress. *)
Definition progress_value (r : StrictCatchUpRun) (key : string) : js := run_value r key.
(** src/src/storage/transaction-inbox.repository.ts:3506-3516 (assertExactStrictCatchUpAdvance) *)
Definition exact_advance (expected next : StrictCatchUpRun) : bool :=
  bool_decide (advanceStrictCatchUpRun (run_object expected)
                 (object_of ADVANCE_RUN_KEYS (progress_value next)) = Some next).
(** src/src/storage/transaction-inbox.repository.ts:2602-2632 (advanceStrictCatchUpRun) *)
Definition store_advanceRun (expected next : StrictCatchUpRun) (t : CatchUpTables) : option CatchUpTables :=
  if negb (active_run expected) || negb (active_run next) || negb (exact_advance expected next) then None
  else
    checkpoint ← checkpointFromRow (checkpoint_row t (cr_checkpointKey expected));
    if negb (matchesCheckpointBoundary checkpoint (Some (cr_previous expected))) then None
    else update_run expected next t.

(** src/src/storage/transaction-inbox.repository.ts:2634-2671 (completeStrictCatchUpRun) *)
Definition store_completeRun (run : StrictCatchUpRun) (nextCheckpoint : ProcessingCheckpoint)
    (t : CatchUpTables) : option CatchUpTables :=
  if negb (active_run run) || negb (valid_strict_checkpoint nextCheckpoint) then None
  else if negb (bool_decide (cp_key nextCheckpoint = cr_checkpointKey run))
       || negb (cp_slot nextCheckpoint =? hd_slot (cr_observedHead run))
       || negb (bool_decide (cp_signature nextCheckpoint = hd_signature (cr_observedHead run)))
       || (cp_updatedAtMs nextCheckpoint <? cr_updatedAtMs run) then None
  else
    completed ← terminalizeStrictCatchUpRun (run_object run)
      (object_of TERMINALIZE_RUN_KEYS (terminal_input RUN_COMPLETED None (cp_updatedAtMs nextCheckpoint)));
    checkpoint ← checkpointFromRow (checkpoint_row t (cr_checkpointKey run));
    if negb (matchesCheckpointBoundary checkpoint (Some (cr_previous run))) then None
    else
      t ← update_run run completed
            (with_checkpoints (replace_checkpoint (cr_previous run) nextCheckpoint (tb_checkpoints t)) t);
      Some (resolveStrictCatchUpFailuresAt (cr_checkpointKey run) (Some (cr_previous run)) t).

(** src/src/storage/transaction-inbox.repository.ts:3518-3530 (assertExactStrictCatchUpTerminal) *)
Definition exact_terminal (expected terminal : StrictCatchUpRun) (state : StrictCatchUpRunState) : bool :=
  assertValidStrictCatchUpRun (run_object terminal)
  && match cr_completedAtMs terminal with
     | None => false
     | Some t =>
         bool_decide (terminalizeStrictCatchUpRun (run_object expected)
           (object_of TERMINALIZE_RUN_KEYS (terminal_input state (cr_terminalReason terminal) t)) = Some terminal)
     end.
(** src/src/storage/transaction-inbox.repository.ts:2673-2689 (failStrictCatchUpRun) *)
Definition store_failRun (expected failed : StrictCatchUpRun) (t : CatchUpTables) : option CatchUpTables :=
  if negb (active_run expected) || negb (exact_terminal expected failed RUN_FAILED) then None
  else
    checkpoint ← checkpointFromRow (checkpoint_row t (cr_checkpointKey expected));
    if negb (matchesCheckpointBoundary checkpoint (Some (cr_previous expected))) then None
    else update_run expected failed t.

(** src/src/storage/transaction-inbox.repository.ts:2691-2719 (supersedeStaleStrictCatchUpRun) *)
Definition store_supersedeRun (expected : StrictCatchUpRun) (atMs : Z) (t : CatchUpTables)
    : option CatchUpTables :=
  if negb (active_run expected) then None
  else
    superseded ← terminalizeStrictCatchUpRun (run_object expected)
      (object_of TERMINALIZE_RUN_KEYS (terminal_input RUN_SUPERSEDED (Some CHECKPOINT_SUPERSEDED) atMs));
    checkpoint ← checkpointFromRow (checkpoint_row t (cr_checkpointKey expected));
    if matchesCheckpointBoundary checkpoint (Some (cr_previous expected)) then None
    else match List.filter (fun r => bool_decide (r = expected)) (tb_runs t) with
         | [_] => update_run expected superseded t
         | _ =>
             replay ← one_run (List.filter (fun r => bool_decide (cr_runId r = cr_runId expected)) (tb_runs t));
             if bool_decide (replay = Some superseded) then Some t else None
         end.
End Runs.

(** * Failures *)
Section Failures.
Context `{Sha256}.

(** src/src/storage/transaction-inbox.repository.ts:3628-3654 (strictCatchUpFailureIdentityMatches) *)
Definition failure_identity_matches (row value : StrictCatchUpFailure) : bool :=
  bool_decide (cf_checkpointKey row = cf_checkpointKey value)
  && match cf_previous row, cf_previous value with
     | None, None => true
     | Some p, Some q => (cp_slot p =? cp_slot q) && bool_decide (cp_signature p = cp_signature q)
     | _, _ => false
     end
  && bool_decide (cf_providerId row = cf_providerId value)
  && bool_decide (cf_observedHeadSlot row = cf_observedHeadSlot value).
(** src/src/storage/transaction-inbox.repository.ts:2435-2488 (recordStrictCatchUpFailure) *)
Definition recordStrictCatchUpFailure (value : StrictCatchUpFailure) (t : CatchUpTables) : option CatchUpTables :=
  if negb (assertValidStrictCatchUpFailure (failure_object value)) then None
  else
    current ← checkpointFromRow (checkpoint_row t (cf_checkpointKey value));
    let stale := negb (matchesCheckpointBoundary current (cf_previous value)) in
    t ← match List.find (fun f => bool_decide (cf_failureId (fst f) = cf_failureId value)) (tb_failures t) with
        | None => Some (with_failures (tb_failures t ++ [(value, false)]) t)
        | Some (row, _) => if failure_identity_matches row value then Some t else None
        end;
    Some (if stale then resolveStrictCatchUpFailureById (cf_failureId value) t else t).

(** src/src/storage/transaction-inbox.repository.ts:2490-2508 (resolveStrictCatchUpFailures) *)
Definition resolveStrictCatchUpFailures (key : ProcessingCheckpointKey) (previous : option ProcessingCheckpoint)
    (t : CatchUpTables) : option CatchUpTables :=
  match previous with
  | Some p =>
      if negb (valid_strict_checkpoint p) || negb (bool_decide (cp_key p = key)) then None
      else Some (resolveStrictCatchUpFailuresAt key previous t)
  | None => Some (resolveStrictCatchUpFailuresAt key previous t)
  end.
End Failures.
