(* ===== verification/CatchUpScan.v ===== *)
(** [src/src/application/strict-catch-up-scanner.ts] (with the receipts of
    [src/src/domain/catch-up-classification.ts]): the scan that bridges the head of a provider's
    history and the stored checkpoint, page by page, over the tables of [CatchUpStore].

    The clock, the abort signal, the provider, the page admitter and the faults of the
    database are an argument, [ScanHost], whose answers depend on the number of calls made so
    far; a theorem for every [ScanHost] covers every interleaving of answers and faults, a
    fault after the commit included.  Diagnostics are left out: the code never lets them
    change an outcome. *)
From S2P Require Import Prelude Text Types Json JsValue JsReaders Intent CatchUpRun CatchUpSource CatchUpStore.
From Stdlib Require Import Ascii String.
Local Open Scope string_scope.
Local Open Scope list_scope.
Local Open Scope Z_scope.

(** * Receipts *)

(** src/src/domain/catch-up-classification.ts:11-16 (CATCH_UP_CLASSIFICATION_DISPOSITIONS) *)
Inductive CatchUpClassificationDisposition := CL_ACTIONABLE | CL_DEFERRED | CL_IGNORED | CL_QUARANTINED.
Definition CATCH_UP_CLASSIFICATION_DISPOSITIONS : list (string * CatchUpClassificationDisposition) :=
  [("ACTIONABLE", CL_ACTIONABLE); ("DEFERRED", CL_DEFERRED); ("IGNORED", CL_IGNORED);
   ("QUARANTINED", CL_QUARANTINED)].
(** src/src/domain/catch-up-classification.ts:31-46 (CATCH_UP_CLASSIFICATION_PERSISTENCE,
    CATCH_UP_CLASSIFICATION_ADMISSIONS, CATCH_UP_CLASSIFICATION_INGESTION_PRIORITIES) *)
Inductive CatchUpClassificationPersistence := CL_RECORDED | CL_REPLAYED | CL_ALREADY_ADMITTED.
Definition CATCH_UP_CLASSIFICATION_PERSISTENCE : list (string * CatchUpClassificationPersistence) :=
  [("RECORDED", CL_RECORDED); ("REPLAYED", CL_REPLAYED); ("ALREADY_ADMITTED", CL_ALREADY_ADMITTED)].
Inductive CatchUpClassificationAdmission := CL_ENQUEUED | CL_NOT_ENQUEUED.
Definition CATCH_UP_CLASSIFICATION_ADMISSIONS : list (string * CatchUpClassificationAdmission) :=
  [("ENQUEUED", CL_ENQUEUED); ("NOT_ENQUEUED", CL_NOT_ENQUEUED)].
Inductive CatchUpClassificationIngestionPriority := CL_NORMAL | CL_LAUNCH_CANDIDATE | CL_TRACKED_TRADE.
Definition CATCH_UP_CLASSIFICATION_INGESTION_PRIORITIES
    : list (string * CatchUpClassificationIngestionPriority) :=
  [("NORMAL", CL_NORMAL); ("LAUNCH_CANDIDATE", CL_LAUNCH_CANDIDATE); ("TRACKED_TRADE", CL_TRACKED_TRADE)].
(** src/src/domain/catch-up-classification.ts:55-74 (CatchUpClassificationReceipt) *)
Record CatchUpClassificationReceipt := {
  rc_signature : string;
  rc_slot : Z;
  rc_disposition : option CatchUpClassificationDisposition;
  rc_persistence : CatchUpClassificationPersistence;
  rc_admission : CatchUpClassificationAdmission;
  rc_ingestionPriority : option CatchUpClassificationIngestionPriority;
}.
(** Equality of the enumerations. *)
Global Instance CatchUpClassificationDisposition_eq_dec : EqDecision CatchUpClassificationDisposition.
Proof. solve_decision. Defined.
Global Instance CatchUpClassificationPersistence_eq_dec : EqDecision CatchUpClassificationPersistence.
Proof. solve_decision. Defined.
Global Instance CatchUpClassificationAdmission_eq_dec : EqDecision CatchUpClassificationAdmission.
Proof. solve_decision. Defined.
Global Instance CatchUpClassificationIngestionPriority_eq_dec : EqDecision CatchUpClassificationIngestionPriority.
Proof. solve_decision. Defined.
(** src/src/domain/catch-up-classification.ts:224-226 (the keys of a receipt) *)
Definition RECEIPT_KEYS : list string :=
  ["signature"; "slot"; "disposition"; "persistence"; "admission"; "ingestionPriority"].
(** src/src/domain/catch-up-classification.ts:219-255 (assertValidCatchUpClassificationReceipt):
    the receipt that a checked value is. *)
Definition receiptFrom (v : js) : option CatchUpClassificationReceipt :=
  if negb (isFrozenObject v) then None
  else
    record ← data_record v RECEIPT_KEYS;
    signature ← signatureFrom (field record "signature");
    slot ← slotFrom (field record "slot");
    persistence ← enumValue CATCH_UP_CLASSIFICATION_PERSISTENCE (field record "persistence");
    admission ← enumValue CATCH_UP_CLASSIFICATION_ADMISSIONS (field record "admission");
    ingestionPriority ← or_null (enumValue CATCH_UP_CLASSIFICATION_INGESTION_PRIORITIES)
                          (field record "ingestionPriority");
    let receipt (disposition : option CatchUpClassificationDisposition) :=
      Some {| rc_signature := signature; rc_slot := slot; rc_disposition := disposition;
              rc_persistence := persistence; rc_admission := admission;
              rc_ingestionPriority := ingestionPriority |} in
    if bool_decide (persistence = CL_ALREADY_ADMITTED) then
      match field record "disposition", admission, ingestionPriority with
      | JNull, CL_NOT_ENQUEUED, None => receipt None
      | _, _, _ => None
      end
    else
      disposition ← enumValue CATCH_UP_CLASSIFICATION_DISPOSITIONS (field record "disposition");
      match admission with
      | CL_ENQUEUED =>
          if bool_decide (ingestionPriority = None) || bool_decide (disposition = CL_IGNORED)
             || bool_decide (disposition = CL_QUARANTINED) then None
          else receipt (Some disposition)
      | CL_NOT_ENQUEUED =>
          if bool_decide (ingestionPriority <> None) then None else receipt (Some disposition)
      end.
(** The object of a receipt. *)
Definition receipt_value (r : CatchUpClassificationReceipt) (key : string) : js :=
  match key with
  | "signature" => JString (rc_signature r)
  | "slot" => JBigInt (rc_slot r)
  | "disposition" =>
      nullable_value (fun d => JString (name_in CATCH_UP_CLASSIFICATION_DISPOSITIONS d)) (rc_disposition r)
  | "persistence" => JString (name_in CATCH_UP_CLASSIFICATION_PERSISTENCE (rc_persistence r))
  | "admission" => JString (name_in CATCH_UP_CLASSIFICATION_ADMISSIONS (rc_admission r))
  | "ingestionPriority" =>
      nullable_value (fun p => JString (name_in CATCH_UP_CLASSIFICATION_INGESTION_PRIORITIES p))
        (rc_ingestionPriority r)
  | _ => JUndefined
  end.
(** src/src/domain/catch-up-classification.ts:190-217 (createCatchUpClassificationReceipt): the
    value built from the fields is checked as it is. *)
Definition createCatchUpClassificationReceipt (input : js) : option CatchUpClassificationReceipt :=
  record ← data_record input RECEIPT_KEYS;
  receiptFrom (object_of RECEIPT_KEYS (field record)).

(** * The scanner's surroundings *)

(** src/src/ports/listener-ingestion-program.ts:3-9 (ListenerIngestionProgram) *)
Inductive ListenerIngestionProgramFamily := FAMILY_PUMPFUN | FAMILY_PUMPSWAP.
Record ListenerIngestionProgram := {
  lp_key : ProcessingCheckpointKey;
  lp_family : ListenerIngestionProgramFamily;
  lp_id : string;
}.
(** Equality of families. *)
Global Instance ListenerIngestionProgramFamily_eq_dec : EqDecision ListenerIngestionProgramFamily.
Proof. solve_decision. Defined.

(** src/src/application/strict-catch-up-scanner.ts:84-97 (StrictCatchUpScannerStage) *)
Inductive StrictCatchUpScannerStage :=
| ST_CHECKPOINT_READ | ST_SOURCE | ST_ENQUEUE | ST_PAGE_ADMIT | ST_CHECKPOINT_CAS | ST_FAILURE_WRITE
| ST_FAILURE_RESOLVE | ST_RUN_READ | ST_RUN_CREATE | ST_RUN_PROGRESS | ST_RUN_COMPLETE | ST_RUN_FAIL
| ST_RUN_SUPERSEDE.
(** src/src/application/strict-catch-up-scanner.ts:70-73 (StrictCatchUpBoundaries) *)
Record StrictCatchUpBoundaries := {
  bd_launchpad : option ProcessingCheckpoint;
  bd_market : option ProcessingCheckpoint;
}.
Definition boundary (b : StrictCatchUpBoundaries) (key : ProcessingCheckpointKey) : option ProcessingCheckpoint :=
  match key with CK_LAUNCHPAD => bd_launchpad b | CK_MARKET => bd_market b end.
(** src/src/application/strict-catch-up-scanner.ts:101-227 (StrictCatchUpPausedError,
    StrictCatchUpRefreshRequiredError, StrictCatchUpProviderAffinityError,
    StrictCatchUpScannerError, StrictCatchUpAbortedError, StrictCatchUpWindowExceededError): what a
    scan throws; the provider of the scanner is left out. *)
Inductive ScanError :=
| PausedError (key : ProcessingCheckpointKey) (runId : string) (pagesScanned signaturesEnqueued : Z)
| RefreshRequiredError
| ProviderAffinityError (pinned : RpcProviderId) (key : ProcessingCheckpointKey)
| ScannerError (stage : StrictCatchUpScannerStage) (key : ProcessingCheckpointKey)
    (sourceStage : option CatchUpSourceStage)
| AbortedError
| WindowExceededError (key : ProcessingCheckpointKey) (frontier : StrictCatchUpBoundaries)
| RpcBudgetError
| AdmissionReceiptError.

(** src/src/application/strict-catch-up-scanner.ts:55-55 (StrictCatchUpPolicy) *)
Inductive StrictCatchUpPolicy := POLICY_LIVE_EDGE | POLICY_STRICT.
(** src/src/application/strict-catch-up-scanner.ts:251-281 (StrictCatchUpScanner): the fields the
    constructor sets. *)
Record StrictCatchUpScanner := {
  sc_providerId : RpcProviderId;
  sc_pageSize : Z;
  sc_maxPages : nat;
  sc_policy : StrictCatchUpPolicy;
  sc_programs : list ListenerIngestionProgram;
  sc_pageAdmitter : bool;
}.

(** A database call fails before its transaction, after its commit, or not at all. *)
Inductive Fault := NoFault | FaultBefore | FaultAfter.
(** What the source of a page throws: the attempt budget, an error of its own with a stage,
    or anything else. *)
Inductive list_error := ListBudget | ListTrusted (stage : CatchUpSourceStage) | ListOther.
(** The answers of the outside, by the index of the call.  The page admitter answers a value
    and the signatures it made durable. *)
Record ScanHost := {
  sh_aborted : nat -> bool;
  sh_clock : nat -> option js;
  sh_list : nat -> string -> option string -> Z -> result list_error js;
  sh_admit : nat -> ListenerIngestionProgram -> list CatchUpSignature -> option js * list string;
  sh_fault : nat -> Fault;
}.
Record scan_world := { sw_tables : CatchUpTables; sw_calls : nat }.
Definition scan (A : Type) : Type := prog scan_world ScanError A.

(** * Reading a page *)

(** The state of the loop over the rows of a page. *)
Record page_state := {
  pg_signatures : list string;
  pg_previousSlot : option Z;
  pg_discoveries : list (string * CatchUpSignature);
  pg_rows : list CatchUpSignature;
  pg_boundaryFound : bool;
  pg_crossedBoundarySlot : bool;
}.
(** src/src/application/strict-catch-up-scanner.ts:1108-1114 (validMilliseconds) *)
Definition valid_ms (z : Z) : bool := is_safe_integer z && (0 <=? z) && (z <=? MAX_DATE_MS).
(** src/src/application/strict-catch-up-scanner.ts:411-417 (scanProgram): a row that is refused. *)
Definition row_invalid (row : CatchUpSignature) : bool :=
  (MAX_STRICT_CATCH_UP_SLOT <? cs_slot row)
  || is_empty (cs_signature row)
  || negb (bool_decide (cs_signature row = trim (cs_signature row)))
  || (128 <? byte_length (cs_signature row))
  || match cs_blockTimeMs row with None => false | Some b => negb (valid_ms b) end.
(** src/src/application/strict-catch-up-scanner.ts:436-450 (scanProgram): the discoveries of the
    scan with a row; [None] where the code throws. *)
Definition discover (programId : string) (discoveries : list (string * CatchUpSignature))
    (row : CatchUpSignature) : option (list (string * CatchUpSignature)) :=
  match map_get discoveries (cs_signature row) with
  | None => Some (map_set discoveries (cs_signature row) row)
  | Some previous =>
      merged ← mergeCatchUpDiscoveries [(programId, [previous]); (programId, [row])];
      Some (map_set discoveries (cs_signature row)
              match merged with d :: _ => md_row d | [] => row end)
  end.
(** src/src/application/strict-catch-up-scanner.ts:410-452 (scanProgram): the loop over the rows
    of a page; [Err] is the stage of the failure. *)
Fixpoint scan_page (programId : string) (expected : option ProcessingCheckpoint) (liveEdgeBootstrap : bool)
    (page : list CatchUpSignature) (st : page_state) : result CatchUpSourceStage page_state :=
  match page with
  | [] => Ok st
  | row :: page' =>
      if row_invalid row then Err STAGE_RESPONSE
      else if match pg_previousSlot st with None => false | Some s => s <? cs_slot row end
      then Err STAGE_RESPONSE
      else if includes (cs_signature row) (pg_signatures st) then Err STAGE_PAGINATION
      else
        let st1 := {| pg_signatures := pg_signatures st ++ [cs_signature row];
                      pg_previousSlot := Some (cs_slot row); pg_discoveries := pg_discoveries st;
                      pg_rows := pg_rows st; pg_boundaryFound := pg_boundaryFound st;
                      pg_crossedBoundarySlot := pg_crossedBoundarySlot st |} in
        let accept :=
          discoveries ← (if liveEdgeBootstrap then Ok (pg_discoveries st)
                         else match discover programId (pg_discoveries st) row with
                              | Some d => Ok d
                              | None => Err STAGE_RESPONSE
                              end);
          scan_page programId expected liveEdgeBootstrap page'
            {| pg_signatures := pg_signatures st1; pg_previousSlot := pg_previousSlot st1;
               pg_discoveries := discoveries; pg_rows := pg_rows st ++ [row];
               pg_boundaryFound := pg_boundaryFound st;
               pg_crossedBoundarySlot := pg_crossedBoundarySlot st |} in
        match expected with
        | None => accept
        | Some e =>
            if bool_decide (cs_signature row = cp_signature e) then
              if negb (cs_slot row =? cp_slot e) then Err STAGE_RESPONSE
              else Ok {| pg_signatures := pg_signatures st1; pg_previousSlot := pg_previousSlot st1;
                         pg_discoveries := pg_discoveries st; pg_rows := pg_rows st;
                         pg_boundaryFound := true;
                         pg_crossedBoundarySlot := pg_crossedBoundarySlot st |}
            else if cs_slot row <? cp_slot e then
              Ok {| pg_signatures := pg_signatures st1; pg_previousSlot := pg_previousSlot st1;
                    pg_discoveries := pg_discoveries st; pg_rows := pg_rows st;
                    pg_boundaryFound := pg_boundaryFound st; pg_crossedBoundarySlot := true |}
            else accept
        end
  end.

(** src/src/application/strict-catch-up-scanner.ts:833-859 (snapshotFrozenReceiptArray) *)
Definition snapshotFrozenReceiptArray (v : js) : option (list js) :=
  match v with
  | JArray false true true items => mapM descriptor_value items
  | _ => None
  end.
(** src/src/application/strict-catch-up-scanner.ts:816-823 (snapshotPageAdmission): one receipt,
    with the slots still expected and the counts of classified and enqueued signatures. *)
Definition admit_receipt (st : list (string * Z) * Z * Z) (v : js) : option (list (string * Z) * Z * Z) :=
  let '(expected, classified, enqueued) := st in
  receipt ← receiptFrom v;
  slot ← map_get expected (rc_signature receipt);
  if negb (slot =? rc_slot receipt) then None
  else
    Some (List.filter (fun p => negb (bool_decide (fst p = rc_signature receipt))) expected,
          if bool_decide (rc_persistence receipt = CL_ALREADY_ADMITTED) then classified else classified + 1,
          if bool_decide (rc_admission receipt = CL_ENQUEUED) then enqueued + 1 else enqueued).
(** src/src/application/strict-catch-up-scanner.ts:791-831 (snapshotPageAdmission): the counts of
    classified and enqueued signatures. *)
Definition snapshotPageAdmission (v : js) (rows : list CatchUpSignature) : option (Z * Z) :=
  match v with
  | JObject false _ true props =>
      if negb (Nat.eqb (List.length props) 3) then None
      else
        receipts ← descriptor_value (own_property props "receipts");
        classified_ ← descriptor_value (own_property props "signaturesClassified");
        enqueued_ ← descriptor_value (own_property props "signaturesEnqueued");
        rawReceipts ← snapshotFrozenReceiptArray receipts;
        match classified_, enqueued_ with
        | JBigInt signaturesClassified, JBigInt signaturesEnqueued =>
            if negb (Nat.eqb (List.length rawReceipts) (List.length rows)) || (signaturesClassified <? 0)
               || (signaturesEnqueued <? 0) || (signaturesClassified <? signaturesEnqueued) then None
            else
              st ← fold_option admit_receipt
                     (fold_left (fun m row => map_set m (cs_signature row) (cs_slot row)) rows [], 0, 0)
                     rawReceipts;
              let '(expected, classified, enqueued) := st in
              if negb (bool_decide (expected = [])) || negb (classified =? signaturesClassified)
                 || negb (enqueued =? signaturesEnqueued) then None
              else Some (signaturesClassified, signaturesEnqueued)
        | _, _ => None
        end
  | _ => None
  end.

(** * The scan of a program *)

(** src/src/application/strict-catch-up-scanner.ts:238-244 (StrictProgramScan) *)
Record StrictProgramScan := {
  ps_discoveredCount : Z;
  ps_enqueuedCount : Z;
  ps_checkpointCasCount : Z;
  ps_pageCount : Z;
  ps_refreshRequired : bool;
}.
(** The variables of the loop over pages. *)
Record loop_state := {
  ls_run : option StrictCatchUpRun;
  ls_signatures : list string;
  ls_before : option string;
  ls_previousSlot : option Z;
  ls_observedHead : option StrictCatchUpRunHead;
  ls_discoveredCount : Z;
  ls_enqueuedCount : Z;
  ls_discoveries : list (string * CatchUpSignature);
}.
(** src/src/application/strict-catch-up-scanner.ts:939-948 (sameCheckpoint) *)
Definition sameCheckpoint (left right : option ProcessingCheckpoint) : bool :=
  match left, right with
  | None, None => true
  | Some l, Some r =>
      bool_decide (cp_key l = cp_key r) && (cp_slot l =? cp_slot r)
      && bool_decide (cp_signature l = cp_signature r)
  | _, _ => false
  end.
(** src/src/application/strict-catch-up-scanner.ts:490-505 (scanProgram): the progress a page
    makes, and the input that creates a run. *)
Definition progress_input (current : option StrictCatchUpRun) (tail : CatchUpSignature)
    (pageEnqueuedCount pageClassifiedCount observedAtMs : Z) (key : string) : js :=
  let prior (f : StrictCatchUpRun -> Z) := match current with None => 0 | Some r => f r end in
  match key with
  | "beforeSignature" => JString (cs_signature tail)
  | "lastAcceptedSlot" => JBigInt (cs_slot tail)
  | "pagesScanned" => JBigInt (prior cr_pagesScanned + 1)
  | "signaturesEnqueued" => JBigInt (prior cr_signaturesEnqueued + pageEnqueuedCount)
  | "signaturesClassified" => JBigInt (prior cr_signaturesClassified + pageClassifiedCount)
  | "updatedAtMs" => number observedAtMs
  | _ => JUndefined
  end.
Definition create_input (program : ListenerIngestionProgram) (expected : ProcessingCheckpoint)
    (providerId : RpcProviderId) (head : StrictCatchUpRunHead) (observedAtMs : Z)
    (progress : string -> js) (key : string) : js :=
  match key with
  | "checkpointKey" => JString (key_name (lp_key program))
  | "previous" => object_of CHECKPOINT_FIELDS (checkpoint_value expected)
  | "providerId" => JString (provider_name providerId)
  | "observedHead" => object_of HEAD_FIELDS (head_value head)
  | "revision" => JBigInt 0
  | "startedAtMs" => number observedAtMs
  | _ => progress key
  end.
(** src/src/domain/transaction-ingestion.ts:185-194 (TransactionNotification): the fields of a
    notification from the catch-up, whose hint is empty. *)
Record TransactionNotification := {
  tn_signature : string;
  tn_slot : Z;
  tn_programIds : list string;
  tn_confirmationStatus : ChainConfirmationStatus;
  tn_observedAtMs : Z;
}.

Section Scanner.
Context `{Sha256} (host : ScanHost) (scanner : StrictCatchUpScanner).

(** Calls of the outside. *)
Definition next_call (w : scan_world) : scan_world :=
  {| sw_tables := sw_tables w; sw_calls := S (sw_calls w) |}.
Definition set_tables (t : CatchUpTables) (w : scan_world) : scan_world :=
  {| sw_tables := t; sw_calls := S (sw_calls w) |}.
(** A call of the repository: a transaction and the faults around it. *)
Definition store_call {A} (f : CatchUpTables -> option (A * CatchUpTables)) : prog scan_world unit A := fun w =>
  match sh_fault host (sw_calls w) with
  | FaultBefore => (Err tt, next_call w)
  | NoFault =>
      match f (sw_tables w) with
      | None => (Err tt, next_call w)
      | Some (a, t) => (Ok a, set_tables t w)
      end
  | FaultAfter =>
      match f (sw_tables w) with
      | None => (Err tt, next_call w)
      | Some (_, t) => (Err tt, set_tables t w)
      end
  end.
Definition store_read {A} (f : CatchUpTables -> option A) : prog scan_world unit A :=
  store_call (fun t => a ← f t; Some (a, t)).
Definition store_write (f : CatchUpTables -> option CatchUpTables) : prog scan_world unit unit :=
  store_call (fun t => t' ← f t; Some (tt, t')).
(** [try { m } catch { throw e; }] *)
Definition or_throw {A} (m : prog scan_world unit A) (e : ScanError) : scan A := fun w =>
  match m w with
  | (Ok a, w') => (Ok a, w')
  | (Err _, w') => (Err e, w')
  end.
(** A value, or the exception that the surrounding code catches. *)
Definition require {A} (o : option A) : prog scan_world unit A :=
  match o with Some a => pret a | None => pthrow tt end.

(** src/src/application/strict-catch-up-scanner.ts:861-863 (assertNotAborted) *)
Definition assertNotAborted : scan unit := fun w =>
  (if sh_aborted host (sw_calls w) then Err AbortedError else Ok tt, next_call w).
(** src/src/application/strict-catch-up-scanner.ts:762-769 (awaited) *)
Definition awaited {A} (operation : scan A) : scan A :=
  assertNotAborted >>>
  pbind (fun w => match operation w with (r, w') => (Ok r, w') end)
    (fun r : result ScanError A => assertNotAborted >>> lift r).
(** src/src/application/strict-catch-up-scanner.ts:555-584 (operation) *)
Definition operation {A} (stage : StrictCatchUpScannerStage) (key : ProcessingCheckpointKey)
    (m : prog scan_world unit A) : scan A :=
  awaited (or_throw m (ScannerError stage key None)).

(** src/src/application/strict-catch-up-scanner.ts:586-615 (readPage) *)
Definition call_list (program : ListenerIngestionProgram) (before : option string) : scan js := fun w =>
  (match sh_list host (sw_calls w) (lp_id program) before (sc_pageSize scanner) with
   | Ok v => Ok v
   | Err ListBudget => Err RpcBudgetError
   | Err (ListTrusted stage) => Err (ScannerError ST_SOURCE (lp_key program) (Some stage))
   | Err ListOther => Err (ScannerError ST_SOURCE (lp_key program) (Some STAGE_REQUEST))
   end, next_call w).
Definition readPage (program : ListenerIngestionProgram) (before : option string)
    : scan (list CatchUpSignature) :=
  value <-- awaited (call_list program before);
  match snapshotCatchUpSignatures value (sc_pageSize scanner) with
  | Some page => pret page
  | None => pthrow (ScannerError ST_SOURCE (lp_key program) (Some STAGE_RESPONSE))
  end.

(** src/src/application/strict-catch-up-scanner.ts:626-657 (admitPage) *)
Definition call_admit (program : ListenerIngestionProgram) (rows : list CatchUpSignature) : scan js := fun w =>
  let '(answer, durable) := sh_admit host (sw_calls w) program rows in
  (match answer with
   | Some v => Ok v
   | None => Err (ScannerError ST_PAGE_ADMIT (lp_key program) None)
   end, set_tables (with_inbox (tb_inbox (sw_tables w) ++ durable) (sw_tables w)) w).
Definition admitPage (program : ListenerIngestionProgram) (rows : list CatchUpSignature) : scan (Z * Z) :=
  admitted <-- awaited (call_admit program rows);
  match snapshotPageAdmission admitted rows with
  | Some counts => pret counts
  | None => pthrow AdmissionReceiptError
  end.

(** The inbox holds what was enqueued. *)
Definition enqueue (n : TransactionNotification) (t : CatchUpTables) : option CatchUpTables :=
  Some (with_inbox (tb_inbox t ++ [tn_signature n]) t).
(** src/src/application/strict-catch-up-scanner.ts:464-476 (scanProgram): the loop that enqueues
    the rows of a page. *)
Definition notification (program : ListenerIngestionProgram) (observedAtMs : Z) (row : CatchUpSignature)
    : TransactionNotification :=
  {| tn_signature := cs_signature row; tn_slot := cs_slot row; tn_programIds := [lp_id program];
     tn_confirmationStatus := cs_confirmationStatus row; tn_observedAtMs := observedAtMs |}.
Fixpoint enqueue_rows (program : ListenerIngestionProgram) (observedAtMs : Z) (rows : list CatchUpSignature)
    : scan unit :=
  match rows with
  | [] => pret tt
  | row :: rows' =>
      operation ST_ENQUEUE (lp_key program) (store_write (enqueue (notification program observedAtMs row))) >>>
      enqueue_rows program observedAtMs rows'
  end.
(** src/src/application/strict-catch-up-scanner.ts:455-481 (scanProgram): the counts of classified
    and enqueued signatures of a page. *)
Definition admit_rows (program : ListenerIngestionProgram) (liveEdgeBootstrap : bool) (observedAtMs : Z)
    (rows : list CatchUpSignature) : scan (Z * Z) :=
  if liveEdgeBootstrap then pret (0, 0)
  else if bool_decide (lp_family program = FAMILY_PUMPFUN) && sc_pageAdmitter scanner
          && negb (Nat.eqb (List.length rows) 0)
  then admitPage program rows
  else
    enqueue_rows program observedAtMs rows >>>
    pret (Z.of_nat (List.length rows), Z.of_nat (List.length rows)).

(** src/src/application/strict-catch-up-scanner.ts:484-510 (scanProgram): the durable progress of
    a page. *)
Definition record_progress (program : ListenerIngestionProgram) (expected : option ProcessingCheckpoint)
    (observedAtMs : Z) (run : option StrictCatchUpRun) (observedHead : option StrictCatchUpRunHead)
    (before : option string) (boundaryFound : bool) (rows : list CatchUpSignature) (counts : Z * Z)
    : scan (option StrictCatchUpRun * option string) :=
  match expected, last rows, observedHead with
  | Some previous, Some tail, Some head =>
      if boundaryFound && bool_decide (run = None) then pret (run, before)
      else
        let progress := progress_input run tail (snd counts) (fst counts) observedAtMs in
        match run with
        | None =>
            r <-- operation ST_RUN_CREATE (lp_key program)
                    (value <-- require (createStrictCatchUpRun (object_of CREATE_RUN_KEYS
                       (create_input program previous (sc_providerId scanner) head observedAtMs progress)));
                     store_call (store_createRun value));
            pret (Some r, Some (cr_beforeSignature r))
        | Some current =>
            next <-- operation ST_RUN_PROGRESS (lp_key program)
                       (next <-- require (advanceStrictCatchUpRun (run_object current)
                          (object_of ADVANCE_RUN_KEYS progress));
                        store_write (store_advanceRun current next) >>> pret next);
            pret (Some next, Some (cr_beforeSignature next))
        end
  | _, _, _ => pret (run, before)
  end.

(** src/src/application/strict-catch-up-scanner.ts:512-534 (scanProgram): the end of a scan that
    reached its boundary; the number of checkpoints moved. *)
Definition next_checkpoint (program : ListenerIngestionProgram) (observedAtMs : Z)
    (head : StrictCatchUpRunHead) : ProcessingCheckpoint :=
  {| cp_key := lp_key program; cp_slot := hd_slot head; cp_signature := hd_signature head;
     cp_updatedAtMs := observedAtMs |}.
Definition finish (program : ListenerIngestionProgram) (expected : option ProcessingCheckpoint)
    (observedAtMs : Z) (run : option StrictCatchUpRun) (observedHead : option StrictCatchUpRunHead) : scan Z :=
  match observedHead with
  | None =>
      operation ST_FAILURE_RESOLVE (lp_key program)
        (store_write (resolveStrictCatchUpFailures (lp_key program) expected)) >>>
      pret 0
  | Some head =>
      let next := next_checkpoint program observedAtMs head in
      match run with
      | None =>
          operation ST_CHECKPOINT_CAS (lp_key program) (store_write (compareAndSwapCheckpoint expected next)) >>>
          pret 1
      | Some completedRun =>
          operation ST_RUN_COMPLETE (lp_key program) (store_write (store_completeRun completedRun next)) >>>
          pret 1
      end
  end.

(** src/src/application/strict-catch-up-scanner.ts:739-760 (recordWindowFailure) *)
Definition failure_input (program : ListenerIngestionProgram) (previous : ProcessingCheckpoint)
    (observedHeadSlot : option Z) (detectedAtMs : Z) (key : string) : js :=
  match key with
  | "checkpointKey" => JString (key_name (lp_key program))
  | "previous" => object_of CHECKPOINT_FIELDS (checkpoint_value previous)
  | "providerId" => JString (provider_name (sc_providerId scanner))
  | "observedHeadSlot" => nullable_value JBigInt observedHeadSlot
  | "detectedAtMs" => number detectedAtMs
  | _ => JUndefined
  end.
Definition recordWindowFailure (program : ListenerIngestionProgram) (previous : ProcessingCheckpoint)
    (observedHeadSlot : option Z) (detectedAtMs : Z) : scan unit :=
  operation ST_FAILURE_WRITE (lp_key program)
    (failure <-- require (createStrictCatchUpFailure
       (object_of ["checkpointKey"; "previous"; "providerId"; "observedHeadSlot"; "detectedAtMs"]
          (failure_input program previous observedHeadSlot detectedAtMs)));
     store_write (recordStrictCatchUpFailure failure)).
(** src/src/application/strict-catch-up-scanner.ts:536-547 (scanProgram): the end of a scan whose
    boundary is out of reach. *)
Definition exceed_window (program : ListenerIngestionProgram) (boundaries : StrictCatchUpBoundaries)
    (previous : ProcessingCheckpoint) (observedAtMs : Z) (run : option StrictCatchUpRun)
    (observedHead : option StrictCatchUpRunHead) : scan (StrictProgramScan * list (string * CatchUpSignature)) :=
  recordWindowFailure program previous (hd_slot <$> observedHead) observedAtMs >>>
  (match run with
   | None => pret tt
   | Some failedRun =>
       operation ST_RUN_FAIL (lp_key program)
         (failed <-- require (terminalizeStrictCatchUpRun (run_object failedRun)
            (object_of TERMINALIZE_RUN_KEYS
               (terminal_input RUN_FAILED (Some CATCH_UP_WINDOW_EXCEEDED) observedAtMs)));
          store_write (store_failRun failedRun failed))
   end) >>>
  pthrow (WindowExceededError (lp_key program) boundaries).

(** src/src/application/strict-catch-up-scanner.ts:404-553 (scanProgram): the loop over the pages;
    the budget of pages is the fuel. *)
Fixpoint scan_pages (program : ListenerIngestionProgram) (boundaries : StrictCatchUpBoundaries)
    (observedAtMs : Z) (liveEdgeBootstrap refreshRequired : bool) (remaining : nat) (pageCount : Z)
    (st : loop_state) : scan (StrictProgramScan * list (string * CatchUpSignature)) :=
  let expected := boundary boundaries (lp_key program) in
  match remaining with
  | O =>
      match ls_run st with
      | None => pthrow (ScannerError ST_SOURCE (lp_key program) (Some STAGE_PAGINATION))
      | Some run => pthrow (PausedError (lp_key program) (cr_runId run) (cr_pagesScanned run)
                              (cr_signaturesEnqueued run))
      end
  | S remaining' =>
      page <-- readPage program (ls_before st);
      pg <-- match scan_page (lp_id program) expected liveEdgeBootstrap page
                     {| pg_signatures := ls_signatures st; pg_previousSlot := ls_previousSlot st;
                        pg_discoveries := ls_discoveries st; pg_rows := []; pg_boundaryFound := false;
                        pg_crossedBoundarySlot := false |} with
             | Ok pg => pret pg
             | Err stage => pthrow (ScannerError ST_SOURCE (lp_key program) (Some stage))
             end;
      let rows := pg_rows pg in
      let observedHead :=
        match ls_observedHead st with
        | Some head => Some head
        | None => (fun r => {| hd_slot := cs_slot r; hd_signature := cs_signature r |}) <$> head rows
        end in
      counts <-- admit_rows program liveEdgeBootstrap observedAtMs rows;
      let discoveredCount := ls_discoveredCount st + Z.of_nat (List.length rows) in
      let enqueuedCount := ls_enqueuedCount st + snd counts in
      progress <-- record_progress program expected observedAtMs (ls_run st) observedHead (ls_before st)
                     (pg_boundaryFound pg) rows counts;
      let run := fst progress in
      let complete :=
        checkpointCasCount <-- finish program expected observedAtMs run observedHead;
        pret ({| ps_discoveredCount := discoveredCount; ps_enqueuedCount := enqueuedCount;
                 ps_checkpointCasCount := checkpointCasCount; ps_pageCount := pageCount;
                 ps_refreshRequired := refreshRequired |}, pg_discoveries pg) in
      match expected with
      | None => complete
      | Some previous =>
          if pg_boundaryFound pg then complete
          else if (Z.of_nat (List.length page) <? sc_pageSize scanner) || pg_crossedBoundarySlot pg
          then exceed_window program boundaries previous observedAtMs run observedHead
          else scan_pages program boundaries observedAtMs liveEdgeBootstrap refreshRequired remaining'
                 (pageCount + 1)
                 {| ls_run := run; ls_signatures := pg_signatures pg; ls_before := snd progress;
                    ls_previousSlot := pg_previousSlot pg; ls_observedHead := observedHead;
                    ls_discoveredCount := discoveredCount; ls_enqueuedCount := enqueuedCount;
                    ls_discoveries := pg_discoveries pg |}
      end
  end.

(** src/src/application/strict-catch-up-scanner.ts:372-386 (scanProgram): the run to resume. *)
Definition historical_run (program : ListenerIngestionProgram) (expected : ProcessingCheckpoint)
    (t : CatchUpTables) : option (option StrictCatchUpRun) :=
  historical ← readStrictCatchUpRun (lp_key program) expected (sc_providerId scanner) t;
  match historical with
  | None => Some None
  | Some h =>
      if negb (assertValidStrictCatchUpRun (run_object h))
         || negb (sameCheckpoint (Some (cr_previous h)) (Some expected))
         || negb (bool_decide (cr_providerId h = sc_providerId scanner))
         || negb (bool_decide (cr_checkpointKey h = lp_key program))
         || (bool_decide (cr_state h <> RUN_ACTIVE) && bool_decide (cr_state h <> RUN_FAILED)) then None
      else Some (Some h)
  end.
(** src/src/application/strict-catch-up-scanner.ts:362-553 (scanProgram) *)
Definition scanProgram (program : ListenerIngestionProgram) (boundaries : StrictCatchUpBoundaries)
    (observedAtMs : Z) (discoveries : list (string * CatchUpSignature)) (initialRun : option StrictCatchUpRun)
    : scan (StrictProgramScan * list (string * CatchUpSignature)) :=
  let expected := boundary boundaries (lp_key program) in
  run <-- match initialRun, expected with
          | None, Some e =>
              run <-- operation ST_RUN_READ (lp_key program) (store_read (historical_run program e));
              if match run with Some r => bool_decide (cr_state r = RUN_FAILED) | None => false end
              then pthrow (WindowExceededError (lp_key program) boundaries)
              else pret run
          | _, _ => pret initialRun
          end;
  match run with
  | Some r =>
      if negb (bool_decide (cr_providerId r = sc_providerId scanner))
      then pthrow (ProviderAffinityError (cr_providerId r) (lp_key program))
      else if observedAtMs <? cr_updatedAtMs r then pthrow (ScannerError ST_RUN_READ (lp_key program) None)
      else pret tt
  | None => pret tt
  end >>>
  scan_pages program boundaries observedAtMs
    (match sc_policy scanner with POLICY_LIVE_EDGE => true | POLICY_STRICT => false end
     && bool_decide (expected = None) && bool_decide (run = None))
    (negb (bool_decide (run = None))) (sc_maxPages scanner) 1
    {| ls_run := run;
       ls_signatures := match run with
                        | Some r => [cr_beforeSignature r; hd_signature (cr_observedHead r)]
                        | None => []
                        end;
       ls_before := cr_beforeSignature <$> run; ls_previousSlot := cr_lastAcceptedSlot <$> run;
       ls_observedHead := cr_observedHead <$> run; ls_discoveredCount := 0; ls_enqueuedCount := 0;
       ls_discoveries := discoveries |}.

(** * A scan *)

(** src/src/application/strict-catch-up-scanner.ts:75-82 (StrictCatchUpScanResult) *)
Record StrictCatchUpScanResult := {
  sr_discoveredCount : Z;
  sr_enqueuedCount : Z;
  sr_checkpointCasCount : Z;
  sr_pageCount : Z;
  sr_boundaries : StrictCatchUpBoundaries;
}.
(** src/src/application/strict-catch-up-scanner.ts:771-780 (readNow) *)
Definition readNow : scan Z := fun w =>
  (match sh_clock host (sw_calls w) ≫= millisecondsFrom with
   | Some ms => Ok ms
   | None => Err (ScannerError ST_CHECKPOINT_READ CK_LAUNCHPAD None)
   end, next_call w).
(** src/src/application/strict-catch-up-scanner.ts:950-980 (snapshotCheckpoint): of a stored
    checkpoint. *)
Definition scanner_checkpoint (key : ProcessingCheckpointKey) (c : option ProcessingCheckpoint)
    : option (option ProcessingCheckpoint) :=
  match c with
  | None => Some None
  | Some c => Some <$> snapshotCheckpoint (object_of CHECKPOINT_FIELDS (checkpoint_value c)) key
  end.
(** src/src/application/strict-catch-up-scanner.ts:716-737 (readCheckpoint) *)
Definition scanner_readCheckpoint (key : ProcessingCheckpointKey) : scan (option ProcessingCheckpoint) :=
  operation ST_CHECKPOINT_READ key
    (store_read (fun t => c ← readCheckpoint key t; scanner_checkpoint key c)).
(** src/src/application/strict-catch-up-scanner.ts:286-296 (scan): the boundaries. *)
Definition set_boundary (key : ProcessingCheckpointKey) (c : option ProcessingCheckpoint)
    (b : StrictCatchUpBoundaries) : StrictCatchUpBoundaries :=
  match key with
  | CK_LAUNCHPAD => {| bd_launchpad := c; bd_market := bd_market b |}
  | CK_MARKET => {| bd_launchpad := bd_launchpad b; bd_market := c |}
  end.
Fixpoint read_boundaries (programs : list ListenerIngestionProgram) (b : StrictCatchUpBoundaries)
    : scan StrictCatchUpBoundaries :=
  match programs with
  | [] => pret b
  | program :: programs' =>
      c <-- awaited (scanner_readCheckpoint (lp_key program));
      read_boundaries programs' (set_boundary (lp_key program) c b)
  end.
(** src/src/application/strict-catch-up-scanner.ts:304-311 (scan): the active run of a key. *)
Definition active_run_of (key : ProcessingCheckpointKey) (t : CatchUpTables) : option (option StrictCatchUpRun) :=
  active ← readActiveStrictCatchUpRun key t;
  match active with
  | None => Some None
  | Some r =>
      if negb (assertValidStrictCatchUpRun (run_object r)) || bool_decide (cr_state r <> RUN_ACTIVE)
         || negb (bool_decide (cr_checkpointKey r = key)) then None
      else Some (Some r)
  end.
(** src/src/application/strict-catch-up-scanner.ts:299-322 (scan): the active runs to resume and
    those that are stale. *)
Fixpoint read_runs (programs : list ListenerIngestionProgram) (boundaries : StrictCatchUpBoundaries)
    (observedAtMs : Z) (activePrograms : list (ListenerIngestionProgram * StrictCatchUpRun))
    (staleRuns : list StrictCatchUpRun)
    : scan (list (ListenerIngestionProgram * StrictCatchUpRun) * list StrictCatchUpRun) :=
  match programs with
  | [] => pret (activePrograms, staleRuns)
  | program :: programs' =>
      run <-- operation ST_RUN_READ (lp_key program) (store_read (active_run_of (lp_key program)));
      match run with
      | None => read_runs programs' boundaries observedAtMs activePrograms staleRuns
      | Some r =>
          if negb (sameCheckpoint (Some (cr_previous r)) (boundary boundaries (lp_key program)))
          then read_runs programs' boundaries observedAtMs activePrograms (staleRuns ++ [r])
          else if negb (bool_decide (cr_providerId r = sc_providerId scanner))
          then pthrow (ProviderAffinityError (cr_providerId r) (lp_key program))
          else if observedAtMs <? cr_updatedAtMs r
          then pthrow (ScannerError ST_RUN_READ (lp_key program) None)
          else read_runs programs' boundaries observedAtMs (activePrograms ++ [(program, r)]) staleRuns
      end
  end.
(** src/src/application/strict-catch-up-scanner.ts:323-327 (scan): resuming the active runs. *)
Fixpoint resume_runs (active : list (ListenerIngestionProgram * StrictCatchUpRun))
    (boundaries : StrictCatchUpBoundaries) (observedAtMs : Z) (discoveries : list (string * CatchUpSignature))
    : scan (list (string * CatchUpSignature)) :=
  match active with
  | [] => pret discoveries
  | (program, run) :: active' =>
      r <-- awaited (scanProgram program boundaries observedAtMs discoveries (Some run));
      resume_runs active' boundaries observedAtMs (snd r)
  end.
(** src/src/application/strict-catch-up-scanner.ts:328-331 (scan): superseding the stale runs. *)
Fixpoint supersede_runs (stale : list StrictCatchUpRun) (observedAtMs : Z) : scan unit :=
  match stale with
  | [] => pret tt
  | run :: stale' =>
      operation ST_RUN_SUPERSEDE (cr_checkpointKey run)
        (store_write (store_supersedeRun run observedAtMs)) >>>
      supersede_runs stale' observedAtMs
  end.
(** src/src/application/strict-catch-up-scanner.ts:340-350 (scan): the scans of the programs. *)
Fixpoint scan_programs (programs : list ListenerIngestionProgram) (boundaries : StrictCatchUpBoundaries)
    (observedAtMs : Z) (discoveries : list (string * CatchUpSignature)) (scans : list StrictProgramScan)
    : scan (list StrictProgramScan) :=
  match programs with
  | [] => pret scans
  | program :: programs' =>
      r <-- awaited (scanProgram program boundaries observedAtMs discoveries None);
      if ps_refreshRequired (fst r) then pthrow RefreshRequiredError
      else scan_programs programs' boundaries observedAtMs (snd r) (scans ++ [fst r])
  end.
(** src/src/application/strict-catch-up-scanner.ts:283-360 (scan) *)
Definition strict_scan : scan StrictCatchUpScanResult :=
  assertNotAborted >>>
  observedAtMs <-- readNow;
  boundaries <-- read_boundaries (sc_programs scanner) {| bd_launchpad := None; bd_market := None |};
  runs <-- read_runs (sc_programs scanner) boundaries observedAtMs [] [];
  discoveries <-- resume_runs (fst runs) boundaries observedAtMs [];
  supersede_runs (snd runs) observedAtMs >>>
  match fst runs with
  | _ :: _ => pthrow RefreshRequiredError
  | [] =>
      scans <-- scan_programs (sc_programs scanner) boundaries observedAtMs discoveries [];
      let sum (f : StrictProgramScan -> Z) := fold_left (fun n s => n + f s) scans 0 in
      pret {| sr_discoveredCount := sum ps_discoveredCount; sr_enqueuedCount := sum ps_enqueuedCount;
              sr_checkpointCasCount := sum ps_checkpointCasCount; sr_pageCount := sum ps_pageCount;
              sr_boundaries := boundaries |}
  end.
End Scanner.
