(* ===== verification/CatchUpCoverage.v ===== *)
(** No transaction is skipped by the catch-up: theorems about [CatchUpScan].

    The history of a program at a provider is the list of its signatures, newest first.  A
    provider is lawful when its pages are contiguous pieces of that history: an empty cursor
    gives a piece that starts anywhere (newer transactions arrive all the time), a cursor
    gives what follows it.  Pages may be shorter than asked for. *)
From S2P Require Import Prelude Text Types Json JsValue JsReaders Intent CatchUpRun CatchUpSource CatchUpStore CatchUpScan.
From Stdlib Require Import Ascii String.
Local Open Scope string_scope.
Local Open Scope list_scope.
Local Open Scope Z_scope.

(** * What is assumed of the outside *)

(** A page that answers a cursor. *)
Definition contiguous (history : list string) (before : option string) (page : list string) : Prop :=
  match before with
  | None => exists newer older, history = newer ++ page ++ older
  | Some b => forall newer rest, history = newer ++ b :: rest -> exists older, rest = page ++ older
  end.
(** The signatures an admission answer has receipts for. *)
Definition receipt_signatures (v : js) : list string :=
  match v with
  | JObject _ _ _ props =>
      match descriptor_value (own_property props "receipts") ≫= snapshotFrozenReceiptArray with
      | Some receipts => omap (fun r => rc_signature <$> receiptFrom r) receipts
      | None => []
      end
  | _ => []
  end.
(** The provider answers contiguous pages of the history of the program with key [k], and
    the signatures with a receipt are durable. *)
Record lawful (host : ScanHost) (scanner : StrictCatchUpScanner) (k : ProcessingCheckpointKey)
    (history : list string) : Prop := {
  law_list : forall n program before v page,
    program ∈ sc_programs scanner -> lp_key program = k ->
    sh_list host n (lp_id program) before (sc_pageSize scanner) = Ok v ->
    snapshotCatchUpSignatures v (sc_pageSize scanner) = Some page ->
    contiguous history before (map cs_signature page);
  law_admit : forall n program rows v durable,
    sh_admit host n program rows = (Some v, durable) ->
    forall s, s ∈ receipt_signatures v -> s ∈ durable;
}.

(** * Coverage *)

(** Everything in the history from [s] down to [origin], which is left out, was handled. *)
Definition covered (history handled : list string) (origin s : string) : Prop :=
  exists newer seen older, history = newer ++ seen ++ origin :: older
    /\ head (seen ++ [origin]) = Some s /\ Forall (fun x => x ∈ handled) seen.
(** Everything from the head of a run to its cursor was handled. *)
Definition run_covered (history handled : list string) (r : StrictCatchUpRun) : Prop :=
  exists newer seen older, history = newer ++ seen ++ older
    /\ head seen = Some (hd_signature (cr_observedHead r)) /\ last seen = Some (cr_beforeSignature r)
    /\ Forall (fun x => x ∈ handled) seen.

Lemma Forall_handled (l handled handled' : list string) :
  (forall x, x ∈ handled -> x ∈ handled') ->
  Forall (fun x => x ∈ handled) l -> Forall (fun x => x ∈ handled') l.
Proof. intros H Hl. eapply Forall_impl; [exact Hl|auto]. Qed.
Lemma covered_mono history handled handled' o s :
  (forall x, x ∈ handled -> x ∈ handled') -> covered history handled o s -> covered history handled' o s.
Proof. intros H (a & b & c & E & Hh & Hf). exists a, b, c. split_and!; try done. by eapply Forall_handled. Qed.
Lemma run_covered_mono history handled handled' r :
  (forall x, x ∈ handled -> x ∈ handled') -> run_covered history handled r -> run_covered history handled' r.
Proof. intros H (a & b & c & E & Hh & Hl & Hf). exists a, b, c. split_and!; try done. by eapply Forall_handled. Qed.

(** In a list without repetitions the place of an element is unique. *)
Lemma NoDup_middle {A} (x : A) a b a' b' :
  NoDup (a ++ x :: b) -> a ++ x :: b = a' ++ x :: b' -> a = a' /\ b = b'.
Proof.
  revert a'. induction a as [|y a IH]; intros [|y' a'] Hnd E; cbn in *.
  - naive_solver.
  - injection E as -> ->. exfalso. apply NoDup_cons in Hnd as [Hn _]. apply Hn. set_solver.
  - injection E as -> <-. exfalso. apply NoDup_cons in Hnd as [Hn _]. apply Hn. set_solver.
  - injection E as <- E. apply NoDup_cons in Hnd as [_ Hnd]. destruct (IH _ Hnd E) as [-> ->]. done.
Qed.
(** The last element of a list that has one. *)
Lemma last_split {A} (l : list A) x : last l = Some x -> exists l', l = l' ++ [x].
Proof. intros H. by apply last_Some in H. Qed.
Lemma head_app_Some {A} (l l' : list A) x : head l = Some x -> head (l ++ l') = Some x.
Proof. by destruct l. Qed.
Lemma last_app_Some {A} (l l' : list A) x : last l' = Some x -> last (l ++ l') = Some x.
Proof. intros H. rewrite last_app, H. done. Qed.

(** The first page of a run: from its first to its last accepted row. *)
Lemma run_covered_first history handled page rows tail r :
  contiguous history None page -> rows `prefix_of` page -> last rows = Some tail ->
  head rows = Some (hd_signature (cr_observedHead r)) -> cr_beforeSignature r = tail ->
  Forall (fun x => x ∈ handled) rows -> run_covered history handled r.
Proof.
  intros (a & c & ->) [d ->] Hl Hh <- Hf. exists a, rows, (d ++ c). rewrite <- app_assoc. done.
Qed.
(** A further page. *)
Lemma run_covered_next history handled page rows r r' :
  run_covered history handled r -> contiguous history (Some (cr_beforeSignature r)) page ->
  rows `prefix_of` page -> last rows = Some (cr_beforeSignature r') ->
  cr_observedHead r' = cr_observedHead r -> Forall (fun x => x ∈ handled) rows ->
  run_covered history handled r'.
Proof.
  intros (a & seen & c & E & Hh & Hl & Hf) Hp [d ->] Hl' Eh Hf'. apply last_split in Hl as Hs.
  destruct Hs as [s Es]. destruct (Hp (a ++ s) c) as [older Eo].
  { rewrite E, Es, <- !app_assoc. done. }
  exists a, (seen ++ rows), (d ++ older). rewrite Eh. split_and!.
  - rewrite E, Eo, <- !app_assoc. done.
  - by apply head_app_Some.
  - by apply last_app_Some.
  - by apply Forall_app.
Qed.
(** A boundary reached from a run. *)
Lemma covered_complete history handled origin b page rows rest r :
  NoDup history -> run_covered history handled r -> contiguous history (Some (cr_beforeSignature r)) page ->
  page = rows ++ b :: rest -> Forall (fun x => x ∈ handled) rows -> covered history handled origin b ->
  covered history handled origin (hd_signature (cr_observedHead r)).
Proof.
  intros Hnd (a & seen & c & E & Hh & Hl & Hf) Hp -> Hrows (a' & seen' & c' & E' & Hh' & Hf').
  apply last_split in Hl as [s Es]. destruct (Hp (a ++ s) c) as [older Eo].
  { rewrite E, Es, <- !app_assoc. done. }
  assert (exists t, seen' ++ origin :: c' = b :: t) as [t Et].
  { destruct seen' as [|x seen']; cbn in Hh' |- *; injection Hh' as ->; eauto. }
  assert (t = rest ++ older) as Eb.
  { rewrite E', Et in E. rewrite Eo, <- app_assoc, !app_assoc in E. cbn [app] in E.
    rewrite <- app_assoc in E. cbn [app] in E. apply (NoDup_middle b) in E as [_ ->]; [done|].
    rewrite <- Et, <- E'. done. }
  exists a, (seen ++ rows ++ seen'), c'. split_and!.
  - rewrite E, Eo, <- !app_assoc. cbn [app]. rewrite <- Eb, <- Et. done.
  - rewrite <- app_assoc. by apply head_app_Some.
  - by rewrite !Forall_app.
Qed.
(** A boundary reached within the first page. *)
Lemma covered_first history handled origin b page rows rest head_ :
  NoDup history -> contiguous history None page -> page = rows ++ b :: rest ->
  head rows = Some head_ -> Forall (fun x => x ∈ handled) rows -> covered history handled origin b ->
  covered history handled origin head_.
Proof.
  intros Hnd (a & c & E) -> Hh Hf (a' & seen' & c' & E' & Hh' & Hf').
  assert (exists t, seen' ++ origin :: c' = b :: t) as [t Et].
  { destruct seen' as [|x seen']; cbn in Hh' |- *; injection Hh' as ->; eauto. }
  assert (b :: t = b :: rest ++ c) as Eb.
  { f_equal. rewrite E', Et in E. rewrite <- !app_assoc, app_assoc in E. cbn in E.
    apply (NoDup_middle b) in E as [_ ->]; [done|]. rewrite <- Et, <- E'. done. }
  exists a, (rows ++ seen'), c'. split_and!.
  - rewrite E, <- !app_assoc. cbn [app]. rewrite <- Eb, <- Et. done.
  - rewrite <- app_assoc. by apply head_app_Some.
  - by apply Forall_app.
Qed.

(** * The tables *)

Lemma terminalize_inactive `{Sha256} value input r :
  terminalizeStrictCatchUpRun value input = Some r -> cr_state r <> RUN_ACTIVE.
Proof. intros (? & _ & _ & [[_ ?] _ _ _ _])%terminalize_ok. done. Qed.

Lemma filter_one {A} (f : A -> bool) l x : List.filter f l = [x] -> x ∈ l /\ f x = true.
Proof. intros E. rewrite !list_elem_of_In, <- (filter_In f), E. left. done. Qed.
Lemma one_run_Some `{Sha256} rows r : one_run rows = Some (Some r) -> rows = [r].
Proof.
  destruct rows as [|x [|y l]]; cbn; try done. destruct (assertValidStrictCatchUpRun _); congruence.
Qed.

Lemma same_boundary_key c e : same_boundary c e = true ->
  cp_key c = cp_key e /\ cp_signature c = cp_signature e.
Proof. unfold same_boundary, matchesCheckpointBoundary. intros. by bool_prop. Qed.
(** The checkpoint of a key after a compare and swap. *)
Lemma replace_row t e next k : cp_key e = cp_key next ->
  checkpoint_row (with_checkpoints (replace_checkpoint e next (tb_checkpoints t)) t) k
  = (fun c => if same_boundary c e then next else c) <$> checkpoint_row t k.
Proof.
  intros Hk. unfold checkpoint_row, replace_checkpoint. cbn [with_checkpoints tb_checkpoints].
  induction (tb_checkpoints t) as [|c l IH]; cbn [map List.find]; [done|].
  assert (cp_key (if same_boundary c e then next else c) = cp_key c) as ->.
  { destruct (same_boundary c e) eqn:E; [|done]. apply same_boundary_key in E as [-> _]. done. }
  destruct (bool_decide (cp_key c = k)); [done|apply IH].
Qed.

Section Tables.
Context `{Sha256} (k : ProcessingCheckpointKey) (history : list string) (origin : string).

(** The checkpoint of the key and the cursor of its active run are covered. *)
Record tables_ok (t : CatchUpTables) : Prop := {
  tok_checkpoint : exists c, checkpoint_row t k = Some c
    /\ covered history (tb_inbox t) origin (cp_signature c);
  tok_runs : forall r, r ∈ tb_runs t -> cr_checkpointKey r = k -> cr_state r = RUN_ACTIVE ->
    run_covered history (tb_inbox t) r;
}.
(** A run that may be stored. *)
Definition storable (t : CatchUpTables) (r : StrictCatchUpRun) : Prop :=
  cr_checkpointKey r = k -> cr_state r = RUN_ACTIVE -> run_covered history (tb_inbox t) r.

Lemma tables_ok_inbox t i : (forall x, x ∈ tb_inbox t -> x ∈ i) -> tables_ok t -> tables_ok (with_inbox i t).
Proof.
  intros Hi [(c & Hc & Hcov) Hr]. split; cbn [with_inbox tb_inbox tb_runs].
  - exists c. split; [done|]. by eapply covered_mono.
  - intros r H1 H2 H3. eapply run_covered_mono; [done|]. by apply Hr.
Qed.
Lemma tables_ok_failures t f : tables_ok t -> tables_ok (with_failures f t).
Proof. by intros [Hc Hr]. Qed.
Lemma tables_ok_runs t rs : tables_ok t ->
  (forall r, r ∈ rs -> r ∈ tb_runs t \/ storable t r) -> tables_ok (with_runs rs t).
Proof.
  intros [Hc Hr] Hrs. split; [done|]. cbn [with_runs tb_runs tb_inbox]. intros r Hin Hk Ha.
  destruct (Hrs r Hin) as [?|Hs]; [by apply Hr|by apply Hs].
Qed.
Lemma update_run_ok expected next t t' : tables_ok t -> storable t next ->
  update_run expected next t = Some t' -> tables_ok t' /\ tb_inbox t' = tb_inbox t.
Proof.
  unfold update_run. intros Ht Hs E. destruct (List.filter _ _) as [|? [|? ?]]; try done. injection E as <-.
  split; [|done]. apply tables_ok_runs; [done|]. intros r Hin. apply list_elem_of_fmap in Hin as (x & -> & Hx).
  case_bool_decide; auto.
Qed.
Lemma tables_ok_replace t e next : tables_ok t -> cp_key e = cp_key next ->
  (cp_key next = k -> matchesCheckpointBoundary (checkpoint_row t k) (Some e) = true ->
   covered history (tb_inbox t) origin (cp_signature next)) ->
  tables_ok (with_checkpoints (replace_checkpoint e next (tb_checkpoints t)) t).
Proof.
  intros [(c & Hc & Hcov) Hr] Hk Hn. split; [|done]. rewrite replace_row, Hc by done. cbn [fmap option_fmap option_map].
  eexists. split; [done|]. cbn [with_checkpoints tb_inbox]. destruct (same_boundary c e) eqn:Eb; [|done].
  apply Hn; [|by rewrite Hc]. apply same_boundary_key in Eb as [Ek _].
  unfold checkpoint_row in Hc. apply find_some in Hc as [_ Hkey]. apply bool_decide_eq_true in Hkey. congruence.
Qed.

Lemma createRun_ok value t r t' : tables_ok t -> storable t value ->
  store_createRun value t = Some (r, t') -> r = value /\ tables_ok t' /\ tb_inbox t' = tb_inbox t.
Proof.
  unfold store_createRun. intros Ht Hs E. destruct (negb _) in E; [done|].
  apply bind_Some in E as (c & _ & E). destruct (negb _) in E; [done|].
  apply bind_Some in E as (ex & Hex & E). destruct ex as [stored|].
  - case_bool_decide; [|done]. injection E as <- <-. done.
  - destruct (List.filter _ _) in E; [|done]. injection E as <- <-. split; [done|]. split; [|done].
    apply tables_ok_runs; [done|]. intros x Hx. apply elem_of_app in Hx as [?|Hx]; [by left|].
    apply list_elem_of_singleton in Hx as ->. by right.
Qed.
Lemma advanceRun_ok expected next t t' : tables_ok t -> storable t next ->
  store_advanceRun expected next t = Some t' -> tables_ok t' /\ tb_inbox t' = tb_inbox t.
Proof.
  unfold store_advanceRun. intros Ht Hs E. destruct (_ || _) in E; [done|].
  apply bind_Some in E as (c & _ & E). destruct (negb _) in E; [done|]. by eapply update_run_ok.
Qed.
Lemma ended_storable t r : cr_state r <> RUN_ACTIVE -> storable t r.
Proof. by intros ? _ ?. Qed.
Lemma completeRun_ok run next t t' : tables_ok t ->
  (cr_checkpointKey run = k -> matchesCheckpointBoundary (checkpoint_row t k) (Some (cr_previous run)) = true ->
   covered history (tb_inbox t) origin (cp_signature next)) ->
  store_completeRun run next t = Some t' -> tables_ok t' /\ tb_inbox t' = tb_inbox t.
Proof.
  unfold store_completeRun. intros Ht Hn E. destruct (_ || _) eqn:Ha in E; [done|].
  destruct (_ || _) eqn:Hk in E; [done|]. bool_prop.
  apply bind_Some in E as (completed & Hcompl & E). apply bind_Some in E as (c & Hc & E).
  destruct (negb _) eqn:Hm in E; [done|]. apply negb_false_iff in Hm.
  apply bind_Some in E as (t1 & Et1 & E). injection E as <-.
  assert (cp_key (cr_previous run) = cr_checkpointKey run) as Hprev.
  { match goal with H : active_run run = true |- _ => unfold active_run in H end. bool_prop.
    match goal with H : assertValidStrictCatchUpRun _ = true |- _ => apply bool_decide_eq_true in H as [x Hx] end.
    destruct c as [c|]; [|done]. cbn in Hm. bool_prop.
    match goal with H : cp_key c = cp_key _ |- _ => rewrite <- H end.
    unfold checkpointFromRow in Hc. destruct (checkpoint_row t (cr_checkpointKey run)) as [c'|] eqn:Hrow; [|done].
    destruct (valid_processing_checkpoint c'); [|done]. injection Hc as <-.
    unfold checkpoint_row in Hrow. apply find_some in Hrow as [_ Hkey]. by apply bool_decide_eq_true in Hkey. }
  eapply update_run_ok in Et1 as [Hok Hi].
  - split; [by apply tables_ok_failures|done].
  - apply tables_ok_replace; [done|congruence|]. intros Hkk Hmm. apply Hn; [congruence|done].
  - apply ended_storable. by eapply terminalize_inactive.
Qed.
Lemma failRun_ok expected failed t t' : tables_ok t ->
  store_failRun expected failed t = Some t' -> tables_ok t' /\ tb_inbox t' = tb_inbox t.
Proof.
  unfold store_failRun. intros Ht E. destruct (_ || _) eqn:Ha in E; [done|]. bool_prop.
  apply bind_Some in E as (c & _ & E). destruct (negb _) in E; [done|]. eapply update_run_ok; [done| |done].
  apply ended_storable. match goal with H : exact_terminal _ _ _ = true |- _ => unfold exact_terminal in H end.
  bool_prop. case_match; [|done]. bool_prop. by eapply terminalize_inactive.
Qed.
Lemma supersedeRun_ok expected atMs t t' : tables_ok t ->
  store_supersedeRun expected atMs t = Some t' -> tables_ok t' /\ tb_inbox t' = tb_inbox t.
Proof.
  unfold store_supersedeRun. intros Ht E. destruct (negb _) in E; [done|].
  apply bind_Some in E as (s & Hs & E). apply bind_Some in E as (c & _ & E).
  destruct (matchesCheckpointBoundary _ _) in E; [done|].
  assert (forall l, update_run expected s t = Some t' \/ (x ← l; if bool_decide (x = Some s) then Some t else None) = Some t' ->
    tables_ok t' /\ tb_inbox t' = tb_inbox t) as Hboth.
  { intros l [Hu|Hu].
    - eapply update_run_ok; [done| |done]. apply ended_storable. by eapply terminalize_inactive.
    - apply bind_Some in Hu as (x & _ & Hu). case_bool_decide; [|done]. by injection Hu as <-. }
  destruct (List.filter _ _) as [|? [|? ?]] in E;
    [eapply Hboth; right; exact E|apply (Hboth None); left; exact E|eapply Hboth; right; exact E].
Qed.
Lemma casCheckpoint_ok expected next t t' : tables_ok t ->
  (cp_key next = k -> matchesCheckpointBoundary (checkpoint_row t k) expected = true ->
   covered history (tb_inbox t) origin (cp_signature next)) ->
  compareAndSwapCheckpoint expected next t = Some t' -> tables_ok t' /\ tb_inbox t' = tb_inbox t.
Proof.
  unfold compareAndSwapCheckpoint. intros Ht Hn E. destruct (_ || _) in E; [done|]. destruct expected as [e|].
  - destruct (_ || _) eqn:Hb in E; [done|]. bool_prop. destruct (negb _) in E; [done|]. injection E as <-.
    split; [|done]. apply tables_ok_failures. by apply tables_ok_replace.
  - destruct (checkpoint_row t (cp_key next)) eqn:Hrow; [done|]. injection E as <-. split; [|done].
    apply tables_ok_failures. destruct Ht as [(c & Hc & Hcov) Hr]. split; [|done]. exists c. split; [|done].
    unfold checkpoint_row in *. cbn [with_checkpoints tb_checkpoints].
    clear -Hc. induction (tb_checkpoints t) as [|x l IH]; [done|]. cbn [List.find app] in *.
    destruct (bool_decide (cp_key x = k)); auto.
Qed.
Lemma recordFailure_ok f t t' : tables_ok t -> recordStrictCatchUpFailure f t = Some t' ->
  tables_ok t' /\ tb_inbox t' = tb_inbox t.
Proof.
  unfold recordStrictCatchUpFailure. intros Ht E. destruct (negb _) in E; [done|].
  apply bind_Some in E as (c & _ & E). apply bind_Some in E as (t1 & Et1 & E). injection E as <-.
  assert (tables_ok t1 /\ tb_inbox t1 = tb_inbox t) as [Hok Hi].
  { case_match; [case_match; case_match|]; simplify_eq/=; try done. split; [by apply tables_ok_failures|done]. }
  destruct (negb (matchesCheckpointBoundary _ _)); [|by split]. split; [by apply tables_ok_failures|done].
Qed.
Lemma resolveFailures_ok key previous t t' : tables_ok t -> resolveStrictCatchUpFailures key previous t = Some t' ->
  tables_ok t' /\ tb_inbox t' = tb_inbox t.
Proof.
  unfold resolveStrictCatchUpFailures. intros Ht E. repeat case_match; simplify_eq/=; try done;
    (split; [by apply tables_ok_failures|done]).
Qed.
End Tables.

(** * Programs that keep the tables covered *)

Section Safe.
Context `{Sha256} (k : ProcessingCheckpointKey) (history : list string) (origin : string).
Local Abbreviation tables_ok := (tables_ok k history origin).

(** The tables are covered and [handled] is in the inbox. *)
Definition good (handled : list string) (t : CatchUpTables) : Prop :=
  tables_ok t /\ forall x, x ∈ handled -> x ∈ tb_inbox t.
(** From tables that are good for [handled], the program ends in tables that are good for
    what its result says was handled, and in covered tables when it throws. *)
Definition safe {E A} (handled : list string) (m : prog scan_world E A) (Q : A -> list string -> Prop) : Prop :=
  triple (fun w => good handled (sw_tables w)) m
    (fun a w => exists handled', Q a handled' /\ good handled' (sw_tables w))
    (fun _ w => tables_ok (sw_tables w)).

Lemma safe_ret {E A} handled (a : A) (Q : A -> list string -> Prop) :
  Q a handled -> safe (E := E) handled (pret a) Q.
Proof. intros HQ. apply triple_ret. eauto. Qed.
Lemma safe_throw {E A} handled (e : E) (Q : A -> list string -> Prop) : safe handled (pthrow e) Q.
Proof. apply triple_throw. by intros w [? _]. Qed.
Lemma safe_bind {E A B} handled (m : prog scan_world E A) (f : A -> prog scan_world E B) M Q :
  safe handled m M -> (forall a handled', M a handled' -> safe handled' (f a) Q) -> safe handled (pbind m f) Q.
Proof.
  intros Hm Hf. eapply triple_bind; [exact Hm|]. intros a w (h & HM & Hg). by apply (Hf a h HM).
Qed.
Lemma safe_bind2 {E A B C} handled (m : prog scan_world E A) (n : A -> prog scan_world E B)
    (f : A -> B -> prog scan_world E C) M Q :
  safe handled (a <-- m; b <-- n a; pret (a, b)) M ->
  (forall a b handled', M (a, b) handled' -> safe handled' (f a b) Q) ->
  safe handled (a <-- m; b <-- n a; f a b) Q.
Proof.
  intros Hm Hf w Hw. specialize (Hm w Hw). unfold pbind, pret in *.
  destruct (m w) as [[a|e] w1]; [|done]. destruct (n a w1) as [[b|e] w2]; [|done].
  destruct Hm as (h & HM & Hg). by apply (Hf a b h HM).
Qed.
Lemma safe_weaken {E A} handled (m : prog scan_world E A) (Q Q' : A -> list string -> Prop) :
  safe handled m Q -> (forall a h, Q a h -> Q' a h) -> safe handled m Q'.
Proof. intros Hm HQ. eapply triple_weaken; [exact Hm|done| |done]. naive_solver. Qed.
Lemma safe_if {E A} handled (b : bool) (m m' : prog scan_world E A) Q :
  (b = true -> safe handled m Q) -> (b = false -> safe handled m' Q) -> safe handled (if b then m else m') Q.
Proof. destruct b; auto. Qed.

Lemma safe_store {A} host handled (f : CatchUpTables -> option (A * CatchUpTables)) Q :
  (forall t a t', good handled t -> f t = Some (a, t') -> exists h, Q a h /\ good h t') ->
  safe handled (store_call host f) Q.
Proof.
  intros Hf w Hw. pose proof (Hf (sw_tables w)) as Hf'. destruct Hw as [Hok Hin] eqn:E0. clear E0.
  unfold store_call. destruct (sh_fault host (sw_calls w)); [|done|];
    (destruct (f (sw_tables w)) as [[a t]|]; [|done]);
    destruct (Hf' a t (conj Hok Hin) eq_refl) as (h & HQ & Hg); [by exists h|apply Hg].
Qed.
Lemma safe_read {A} host handled (f : CatchUpTables -> option A) (Q : A -> list string -> Prop) :
  (forall t a, good handled t -> f t = Some a -> exists h, Q a h /\ good h t) ->
  safe handled (store_read host f) Q.
Proof. intros Hf. apply safe_store. intros t a t' Hg (x & Hx & [= -> ->])%bind_Some. eauto. Qed.
Lemma safe_write host handled (f : CatchUpTables -> option CatchUpTables) (Q : unit -> list string -> Prop) :
  (forall t t', good handled t -> f t = Some t' -> exists h, Q tt h /\ good h t') ->
  safe handled (store_write host f) Q.
Proof. intros Hf. apply safe_store. intros t [] t' Hg (x & Hx & [= ->])%bind_Some. eauto. Qed.
(** A write that leaves the inbox. *)
Lemma safe_write_same host handled (f : CatchUpTables -> option CatchUpTables) (Q : unit -> list string -> Prop) :
  Q tt handled ->
  (forall t t', good handled t -> f t = Some t' -> tables_ok t' /\ tb_inbox t' = tb_inbox t) ->
  safe handled (store_write host f) Q.
Proof.
  intros HQ Hf. apply safe_write. intros t t' Hg Ht. destruct (Hf t t' Hg Ht) as [Hok Hi].
  exists handled. split; [done|]. split; [done|]. intros x Hx. rewrite Hi. by apply Hg.
Qed.
Lemma safe_require {A} handled (o : option A) (Q : A -> list string -> Prop) :
  (forall a, o = Some a -> Q a handled) -> safe handled (require o) Q.
Proof. intros Ho. destruct o as [a|]; [apply safe_ret; auto|apply safe_throw]. Qed.
Lemma safe_abort host handled : safe handled (assertNotAborted host) (fun _ h => h = handled).
Proof. intros w Hw. unfold assertNotAborted. destruct (sh_aborted host (sw_calls w)); [apply Hw|by exists handled]. Qed.
Lemma safe_awaited {A} host handled (m : scan A) Q : safe handled m Q -> safe handled (awaited host m) Q.
Proof.
  intros Hm. eapply safe_bind; [apply safe_abort|]. intros _ ? ->. intros w Hw. specialize (Hm w Hw).
  unfold pbind. destruct (m w) as [[a|e] w']; unfold assertNotAborted, lift, next_call;
    destruct (sh_aborted host (sw_calls w')); cbn in *; try done. by destruct Hm as (h & _ & Hg & _).
Qed.
Lemma safe_operation {A} host handled stage key (m : prog scan_world unit A) Q :
  safe handled m Q -> safe handled (operation host stage key m) Q.
Proof.
  intros Hm. apply safe_awaited. intros w Hw. specialize (Hm w Hw). unfold or_throw.
  by destruct (m w) as [[a|e] w'].
Qed.
End Safe.

(** * Pages *)

(** What the loop over a page accepts. *)
Lemma scan_page_rows programId expected live page st st' :
  scan_page programId expected live page st = Ok st' -> pg_boundaryFound st = false ->
  exists rows, pg_rows st' = pg_rows st ++ rows
    /\ if pg_boundaryFound st'
       then exists e b rest, expected = Some e /\ page = rows ++ b :: rest /\ cs_signature b = cp_signature e
       else rows `prefix_of` page.
Proof.
  revert st. induction page as [|row page IH]; intros st E Hb; cbn [scan_page] in E.
  - injection E as <-. exists []. rewrite app_nil_r, Hb. done.
  - destruct (row_invalid row); [done|]. destruct (match pg_previousSlot st with None => _ | Some _ => _ end); [done|].
    destruct (includes _ _); [done|]. cbv zeta in E.
    assert (forall d, scan_page programId expected live page
        {| pg_signatures := pg_signatures st ++ [cs_signature row]; pg_previousSlot := Some (cs_slot row);
           pg_discoveries := d; pg_rows := pg_rows st ++ [row]; pg_boundaryFound := pg_boundaryFound st;
           pg_crossedBoundarySlot := pg_crossedBoundarySlot st |} = Ok st' ->
      exists rows, pg_rows st' = pg_rows st ++ rows
        /\ if pg_boundaryFound st'
           then exists e b rest, expected = Some e /\ row :: page = rows ++ b :: rest /\ cs_signature b = cp_signature e
           else rows `prefix_of` row :: page) as Hacc.
    { intros d Hd. apply IH in Hd as (rows & Hr & Hrest); [|done]. exists (row :: rows).
      cbn [pg_rows] in Hr. rewrite Hr, <- app_assoc. split; [done|].
      destruct (pg_boundaryFound st').
      - destruct Hrest as (e & b & rest & ? & -> & ?). exists e, b, rest. done.
      - by apply prefix_cons. }
    destruct expected as [e|]; [|apply bind_Ok in E as (d & _ & E); by eapply Hacc].
    case_bool_decide as Hs; [destruct (negb _); [done|]; injection E as <-|].
    + exists []. cbn. rewrite app_nil_r. split; [done|]. by exists e, row, page.
    + destruct (_ <? _); [injection E as <-|apply bind_Ok in E as (d & _ & E); by eapply Hacc].
      exists []. cbn. rewrite app_nil_r, Hb. split; [done|]. apply prefix_nil.
Qed.

(** A receipt answer that is accepted has a receipt for every row. *)
Lemma admit_receipts_cover receipts m c e m' c' e' :
  fold_option admit_receipt (m, c, e) receipts = Some (m', c', e') ->
  forall s, s ∈ map fst m -> s ∈ map fst m' \/ s ∈ omap (fun r => rc_signature <$> receiptFrom r) receipts.
Proof.
  revert m c e. induction receipts as [|v receipts IH]; intros m c e E s Hs; cbn [fold_option] in E.
  - injection E as <- <- <-. by left.
  - apply bind_Some in E as ([[m1 c1] e1] & E1 & E). cbn [admit_receipt] in E1.
    apply bind_Some in E1 as (receipt & Hr & E1). apply bind_Some in E1 as (slot & _ & E1).
    destruct (negb _); [done|]. injection E1 as <- <- <-. cbn [omap list_omap]. rewrite Hr. cbn [fmap option_fmap option_map].
    destruct (decide (s = rc_signature receipt)) as [->|Hne]; [right; left|].
    destruct (IH _ _ _ E s) as [?|?]; [|by left|right; by right].
    apply list_elem_of_fmap in Hs as (p & -> & Hp). apply list_elem_of_fmap. exists p. split; [done|].
    apply list_elem_of_In, filter_In. split; [by apply list_elem_of_In|]. by rewrite bool_decide_eq_false_2.
Qed.
Lemma fold_rows_keys rows m s :
  s ∈ map fst m \/ s ∈ map cs_signature rows ->
  s ∈ map fst (fold_left (fun m row => map_set m (cs_signature row) (cs_slot row)) rows m).
Proof.
  revert m. induction rows as [|row rows IH]; intros m Hs; cbn [fold_left map] in *; [set_solver|].
  apply IH. rewrite map_set_keys. destruct (decide (cs_signature row ∈ map fst m)); set_solver.
Qed.
Lemma admission_covers v rows counts :
  snapshotPageAdmission v rows = Some counts ->
  forall s, s ∈ map cs_signature rows -> s ∈ receipt_signatures v.
Proof.
  unfold snapshotPageAdmission, receipt_signatures. destruct v as [| | | | | | |[] proto [] props]; try done.
  destruct (negb _); [done|]. intros E s Hs.
  apply bind_Some in E as (receipts & -> & E). apply bind_Some in E as (cl & _ & E).
  apply bind_Some in E as (en & _ & E). apply bind_Some in E as (raw & Hraw & E). cbn [mbind option_bind].
  rewrite Hraw. destruct cl; try done. destruct en; try done. destruct (_ || _); [done|].
  apply bind_Some in E as ([[m c] e] & Hfold & E). destruct (_ || _) eqn:Hb in E; [done|].
  apply orb_false_iff in Hb as [Hb _]. apply orb_false_iff in Hb as [Hb _].
  apply negb_false_iff, bool_decide_eq_true in Hb. subst m.
  destruct (admit_receipts_cover _ _ _ _ _ _ _ Hfold s) as [Hn|?]; [|by apply elem_of_nil in Hn|done].
  apply fold_rows_keys. by right.
Qed.

(** * The scanner keeps the tables covered *)

Section Coverage.
Context `{Sha256} (host : ScanHost) (scanner : StrictCatchUpScanner).
Context (k : ProcessingCheckpointKey) (history : list string) (origin : string).
Context (Hlaw : lawful host scanner k history) (Hdistinct : NoDup history).
Local Abbreviation safe := (safe k history origin).
Local Abbreviation signatures rows := (map cs_signature rows).

Lemma readPage_safe handled program before : program ∈ sc_programs scanner ->
  safe handled (readPage host scanner program before)
    (fun page h => h = handled /\ (lp_key program = k -> contiguous history before (signatures page))).
Proof.
  intros Hp. eapply safe_bind.
  - apply safe_awaited. instantiate (1 := fun v h => h = handled /\ (lp_key program = k ->
      forall page, snapshotCatchUpSignatures v (sc_pageSize scanner) = Some page ->
      contiguous history before (signatures page))).
    intros w Hw. unfold call_list.
    destruct (sh_list host (sw_calls w) (lp_id program) before (sc_pageSize scanner)) as [v|e] eqn:E.
    + exists handled. split; [|done]. split; [done|]. intros Hk page Hpage.
      by eapply (law_list _ _ _ _ Hlaw).
    + destruct e; apply Hw.
  - intros v h [-> Hv]. destruct (snapshotCatchUpSignatures v (sc_pageSize scanner)) as [page|] eqn:E.
    + apply safe_ret. auto.
    + apply safe_throw.
Qed.

Lemma inbox_good handled more t : good k history origin handled t ->
  good k history origin (handled ++ more) (with_inbox (tb_inbox t ++ more) t).
Proof.
  intros [Hok Hin]. split.
  - apply tables_ok_inbox; [set_solver|done].
  - cbn [with_inbox tb_inbox]. set_solver.
Qed.
Lemma enqueue_rows_safe handled program ms rows :
  safe handled (enqueue_rows host program ms rows) (fun _ h => h = handled ++ signatures rows).
Proof.
  revert handled. induction rows as [|row rows IH]; intros handled; cbn [enqueue_rows map].
  - apply safe_ret. by rewrite app_nil_r.
  - eapply safe_bind.
    + apply safe_operation, (safe_write _ _ _ _ _ _ (fun _ h => h = handled ++ [cs_signature row])).
      intros t t' Hg [= <-]. eexists. split; [done|]. by apply inbox_good.
    + intros _ h ->. eapply safe_weaken; [apply IH|]. intros _ h ->. by rewrite <- app_assoc.
Qed.
Lemma admit_rows_safe handled program live ms rows :
  safe handled (admit_rows host scanner program live ms rows)
    (fun _ h => (forall x, x ∈ handled -> x ∈ h) /\ (live = false -> Forall (fun x => x ∈ h) (signatures rows))).
Proof.
  unfold admit_rows. destruct live; [apply safe_ret; split; [auto|done]|].
  apply safe_if; intros _.
  - eapply safe_bind.
    + apply safe_awaited. instantiate (1 := fun v h => (forall x, x ∈ handled -> x ∈ h)
        /\ forall s, s ∈ receipt_signatures v -> s ∈ h).
      intros w Hw. unfold call_admit. destruct (sh_admit host (sw_calls w) program rows) as [answer durable] eqn:E.
      apply (inbox_good _ durable) in Hw. destruct answer as [v|]; [|apply Hw].
      exists (handled ++ durable). split; [|done]. split; [set_solver|]. intros s Hs. apply elem_of_app. right.
      by eapply (law_admit _ _ _ _ Hlaw).
    + intros v h [Hin Hv]. destruct (snapshotPageAdmission v rows) as [counts|] eqn:E; [|apply safe_throw].
      apply safe_ret. split; [done|]. intros _. apply Forall_forall. intros x Hx. by eapply Hv, admission_covers.
  - eapply safe_bind; [apply enqueue_rows_safe|]. intros _ h ->. apply safe_ret. split; [set_solver|].
    intros _. apply Forall_forall. set_solver.
Qed.

(** What is known of a run during the scan of its program. *)
Record run_known (program : ListenerIngestionProgram) (e : ProcessingCheckpoint) (handled : list string)
    (r : StrictCatchUpRun) : Prop := {
  rk_key : cr_checkpointKey r = lp_key program;
  rk_previous : cp_signature (cr_previous r) = cp_signature e;
  rk_covered : lp_key program = k -> run_covered history handled r;
}.
Lemma run_known_mono program e handled handled' r :
  (forall x, x ∈ handled -> x ∈ handled') -> run_known program e handled r -> run_known program e handled' r.
Proof. intros Hm [? ? Hc]. split; try done. intros Hk. by eapply run_covered_mono; [|apply Hc]. Qed.
Lemma run_known_storable program e handled r t :
  run_known program e handled r -> good k history origin handled t -> storable k history t r.
Proof. intros [Hk _ Hc] [_ Hin] Hk' _. eapply run_covered_mono; [exact Hin|]. apply Hc. congruence. Qed.

(** The two ways a page is recorded. *)
Lemma create_run_safe handled program e ms head_ rows page tail progress :
  (lp_key program = k -> contiguous history None (signatures page)) ->
  signatures rows `prefix_of` signatures page -> last (signatures rows) = Some (cs_signature tail) ->
  head (signatures rows) = Some (hd_signature head_) ->
  (lp_key program = k -> Forall (fun x => x ∈ handled) (signatures rows)) ->
  progress "beforeSignature" = JString (cs_signature tail) ->
  safe handled
    (value <-- require (createStrictCatchUpRun (object_of CREATE_RUN_KEYS
       (create_input program e (sc_providerId scanner) head_ ms progress)));
     store_call host (store_createRun value))
    (fun r h => h = handled /\ run_known program e handled r /\ cr_observedHead r = head_).
Proof.
  intros Hpage Hpre Hlast Hhead Hrows Hprog. eapply safe_bind.
  - apply (safe_require _ _ _ _ _ (fun r h => h = handled /\ run_known program e handled r /\ cr_observedHead r = head_)).
    intros r Hr. split; [done|]. apply create_fields in Hr as (Hk & Hp & Hh & Hb). cbn [create_input] in *.
    rewrite key_read in Hk. injection Hk as Hk. apply snapshotCheckpoint_object_inv in Hp.
    apply snapshotHead_object_inv in Hh. rewrite Hprog in Hb. injection Hb as Hb. split; [|done].
    split; [done|by rewrite Hp|]. intros Hkk. eapply run_covered_first; eauto. by rewrite Hh.
  - intros r h (-> & Hknown & Hh). apply safe_store. intros t a t' Hg E.
    apply (createRun_ok k history origin) in E as (-> & Hok & Hi);
      [|apply Hg|by eapply run_known_storable].
    exists handled. split; [done|]. split; [done|]. rewrite Hi. apply Hg.
Qed.
Lemma advance_run_safe handled program e current rows page tail progress :
  run_known program e handled current ->
  (lp_key program = k -> contiguous history (Some (cr_beforeSignature current)) (signatures page)) ->
  signatures rows `prefix_of` signatures page -> last (signatures rows) = Some (cs_signature tail) ->
  (lp_key program = k -> Forall (fun x => x ∈ handled) (signatures rows)) ->
  progress "beforeSignature" = JString (cs_signature tail) ->
  safe handled
    (next <-- require (advanceStrictCatchUpRun (run_object current) (object_of ADVANCE_RUN_KEYS progress));
     store_write host (store_advanceRun current next) >>> pret next)
    (fun r h => h = handled /\ run_known program e handled r /\ cr_observedHead r = cr_observedHead current).
Proof.
  intros [Hk Hprev Hcov] Hpage Hpre Hlast Hrows Hprog. eapply safe_bind.
  - apply (safe_require _ _ _ _ _ (fun r h => h = handled /\ run_known program e handled r
      /\ cr_observedHead r = cr_observedHead current)).
    intros r Hr. split; [done|]. apply advance_fields in Hr as [[_ (_ & Ek & Ep & _ & Eh & _) _ _ _ _ _ _] Hb].
    rewrite Hprog in Hb. injection Hb as Hb. split; [|done]. split; [congruence|by rewrite Ep|].
    intros Hkk. eapply run_covered_next; eauto. by rewrite Hlast, Hb.
  - intros r h (-> & Hknown & Hh). eapply safe_bind.
    + apply (safe_write_same _ _ _ _ _ _ (fun _ h => h = handled)); [done|]. intros t t' Hg E.
      eapply advanceRun_ok; [apply Hg|by eapply run_known_storable|done].
    + intros _ ? ->. by apply safe_ret.
Qed.

(** The progress of a page: the run it returns is known again, with the cursor and the head
    of the loop. *)
Lemma record_progress_safe handled program e ms run head_ before found page rows counts :
  (forall r, run = Some r -> run_known program e handled r /\ before = Some (cr_beforeSignature r)
     /\ head_ = Some (cr_observedHead r)) ->
  (run = None -> before = None
     /\ head_ = (fun r => {| hd_slot := cs_slot r; hd_signature := cs_signature r |}) <$> head rows) ->
  (lp_key program = k -> contiguous history before (signatures page)) ->
  rows `prefix_of` page -> (lp_key program = k -> Forall (fun x => x ∈ handled) (signatures rows)) ->
  safe handled (record_progress host scanner program (Some e) ms run head_ before found rows counts)
    (fun p h => h = handled
       /\ (forall r, fst p = Some r -> run_known program e handled r /\ head_ = Some (cr_observedHead r))
       /\ (fst p = None -> run = None)
       /\ (rows = [] -> p = (run, before))
       /\ (rows <> [] -> found = false ->
           exists r, fst p = Some r /\ snd p = Some (cr_beforeSignature r))).
Proof.
  intros Hrun Hnone Hpage [d ->] Hrows. unfold record_progress.
  destruct (last rows) as [tail|] eqn:Hlast.
  2: { apply last_None in Hlast as ->. apply safe_ret. split_and!; try done. intros r Hr. cbn in Hr.
       destruct (Hrun r Hr) as (? & _ & ?). done. }
  assert (signatures rows `prefix_of` signatures (rows ++ d)) as Hpre by (rewrite map_app; by exists (signatures d)).
  assert (last (signatures rows) = Some (cs_signature tail)) as Hlast'
    by (change (last (cs_signature <$> rows) = Some (cs_signature tail)); by rewrite fmap_last, Hlast).
  destruct run as [r|].
  - destruct (Hrun r eq_refl) as (Hknown & -> & ->). clear Hrun Hnone.
    rewrite bool_decide_eq_false_2, andb_false_r by done. cbv zeta. eapply safe_bind.
    + apply safe_operation. eapply advance_run_safe; eauto.
    + intros r' h (-> & Hk' & Hh). apply safe_ret. cbn [fst snd]. split_and!; try done; [|by intros ->|eauto].
      intros ? [= <-]. by rewrite Hh.
  - destruct (Hnone eq_refl) as [-> ->]. destruct rows as [|row rows]; [done|]. cbn [head fmap option_fmap option_map].
    rewrite bool_decide_eq_true_2, andb_true_r by done. destruct found; [by apply safe_ret|]. cbv zeta.
    eapply safe_bind.
    + apply safe_operation. eapply create_run_safe; eauto.
    + intros r' h (-> & Hk' & Hh). apply safe_ret. cbn [fst snd]. split_and!; try done; [|eauto].
      intros ? [= <-]. by rewrite Hh.
Qed.

(** The end of a scan that reached its boundary. *)
Lemma finish_safe handled program expected ms run head_ :
  (forall r, run = Some r -> exists e, expected = Some e /\ run_known program e handled r) ->
  (forall e hd t, expected = Some e -> head_ = Some hd -> lp_key program = k -> good k history origin handled t ->
   (exists c, checkpoint_row t k = Some c /\ cp_signature c = cp_signature e) ->
   covered history (tb_inbox t) origin (hd_signature hd)) ->
  safe handled (finish host program expected ms run head_) (fun _ h => h = handled).
Proof.
  intros Hrun Hcov. unfold finish. destruct head_ as [hd|].
  2: { eapply safe_bind.
       - apply safe_operation, (safe_write_same _ _ _ _ _ _ (fun _ h => h = handled)); [done|].
         intros t t' Hg E. eapply resolveFailures_ok; [apply Hg|done].
       - intros _ ? ->. by apply safe_ret. }
  destruct run as [r|].
  - destruct (Hrun r eq_refl) as (e & -> & Hknown). eapply safe_bind.
    + apply safe_operation, (safe_write_same _ _ _ _ _ _ (fun _ h => h = handled)); [done|].
      intros t t' Hg E. eapply completeRun_ok; [apply Hg| |done]. intros Hk Hm.
      cbn [next_checkpoint cp_signature]. eapply Hcov; try done; [by rewrite <- (rk_key _ _ _ _ Hknown)|].
      destruct (checkpoint_row t k) as [c|]; [|done]. exists c. split; [done|].
      rewrite <- (rk_previous _ _ _ _ Hknown). by apply same_boundary_key in Hm as [_ ?].
    + intros _ ? ->. by apply safe_ret.
  - eapply safe_bind.
    + apply safe_operation, (safe_write_same _ _ _ _ _ _ (fun _ h => h = handled)); [done|].
      intros t t' Hg E. eapply casCheckpoint_ok; [apply Hg| |done]. intros Hk Hm. cbn [next_checkpoint cp_signature].
      destruct Hg as [Hok Hin] eqn:Eg. destruct (tok_checkpoint _ _ _ _ Hok) as (c & Hc & _).
      rewrite Hc in Hm. destruct expected as [e|]; [|done]. eapply (Hcov e); try done.
      exists c. split; [done|]. by apply same_boundary_key in Hm as [_ ?].
    + intros _ ? ->. by apply safe_ret.
Qed.
Lemma exceed_window_safe handled program boundaries e ms run head_ Q :
  safe handled (exceed_window host scanner program boundaries e ms run head_) Q.
Proof.
  unfold exceed_window. eapply safe_bind.
  - apply safe_operation. eapply safe_bind.
    + apply (safe_require _ _ _ _ _ (fun _ h => h = handled)). done.
    + intros f ? ->. apply (safe_write_same _ _ _ _ _ _ (fun _ h => h = handled)); [done|].
      intros t t' Hg E. eapply recordFailure_ok; [apply Hg|done].
  - intros _ ? ->. eapply (safe_bind _ _ _ _ _ _ (fun _ h => h = handled)).
    + destruct run as [r|]; [|by apply safe_ret]. apply safe_operation. eapply safe_bind.
      * apply (safe_require _ _ _ _ _ (fun _ h => h = handled)). done.
      * intros f ? ->. apply (safe_write_same _ _ _ _ _ _ (fun _ h => h = handled)); [done|].
        intros t t' Hg E. eapply failRun_ok; [apply Hg|done].
    + intros _ ? ->. apply safe_throw.
Qed.

(** What the loop over pages knows when its boundary is [e]. *)
Record loop_known (program : ListenerIngestionProgram) (e : ProcessingCheckpoint) (handled : list string)
    (st : loop_state) : Prop := {
  lk_run : forall r, ls_run st = Some r -> run_known program e handled r
    /\ ls_before st = Some (cr_beforeSignature r) /\ ls_observedHead st = Some (cr_observedHead r);
  lk_none : ls_run st = None -> ls_before st = None /\ ls_observedHead st = None;
}.
(** When the boundary is found, what lies between it and the head was handled. *)
Lemma boundary_covered handled program e st page rows rest t :
  loop_known program e handled st -> contiguous history (ls_before st) (signatures page) ->
  signatures page = signatures rows ++ cp_signature e :: rest ->
  Forall (fun x => x ∈ handled) (signatures rows) -> lp_key program = k -> good k history origin handled t ->
  (exists c, checkpoint_row t k = Some c /\ cp_signature c = cp_signature e) ->
  forall hd, match ls_observedHead st with
             | Some head => Some head
             | None => (fun r => {| hd_slot := cs_slot r; hd_signature := cs_signature r |}) <$> head rows
             end = Some hd ->
  covered history (tb_inbox t) origin (hd_signature hd).
Proof.
  intros [Hr Hn] Hp Ep Hf Hk [Hok Hin] (c & Hc & Hs) hd Hhd.
  destruct (tok_checkpoint _ _ _ _ Hok) as (c' & Hc' & Hcov). rewrite Hc in Hc'. injection Hc' as <-.
  rewrite Hs in Hcov. apply (Forall_handled _ _ _ Hin) in Hf. destruct (ls_run st) as [r|].
  - destruct (Hr r eq_refl) as ([_ _ Hrc] & Hb & Hh). rewrite Hh in Hhd. injection Hhd as <-. rewrite Hb in Hp.
    eapply covered_complete; eauto. eapply run_covered_mono; [exact Hin|auto].
  - destruct (Hn eq_refl) as [Hb Hh]. rewrite Hh in Hhd. rewrite Hb in Hp.
    eapply covered_first; eauto. destruct rows; [done|]. by injection Hhd as <-.
Qed.

(** What the loop knows for any boundary. *)
Definition loop_ok (program : ListenerIngestionProgram) (expected : option ProcessingCheckpoint) (live : bool)
    (handled : list string) (st : loop_state) : Prop :=
  match expected with
  | Some e => loop_known program e handled st /\ live = false
  | None => ls_run st = None
  end.
Lemma loop_known_mono program e handled handled' st :
  (forall x, x ∈ handled -> x ∈ handled') -> loop_known program e handled st -> loop_known program e handled' st.
Proof.
  intros Hm [Hr Hn]. split; [|done]. intros r E. destruct (Hr r E) as (? & ? & ?). split; [|done].
  by eapply run_known_mono.
Qed.
Definition grows (handled : list string) {A} (_ : A) (h : list string) : Prop := forall x, x ∈ handled -> x ∈ h.

(** A page of a scan that has a boundary. *)
Lemma page_step_safe handled program e ms st page pg :
  loop_known program e handled st -> (lp_key program = k -> contiguous history (ls_before st) (signatures page)) ->
  scan_page (lp_id program) (Some e) false page
    {| pg_signatures := ls_signatures st; pg_previousSlot := ls_previousSlot st;
       pg_discoveries := ls_discoveries st; pg_rows := []; pg_boundaryFound := false;
       pg_crossedBoundarySlot := false |} = Ok pg ->
  let head_ := match ls_observedHead st with
               | Some head => Some head
               | None => (fun r => {| hd_slot := cs_slot r; hd_signature := cs_signature r |}) <$> head (pg_rows pg)
               end in
  safe handled
    (counts <-- admit_rows host scanner program false ms (pg_rows pg);
     progress <-- record_progress host scanner program (Some e) ms (ls_run st) head_ (ls_before st)
                    (pg_boundaryFound pg) (pg_rows pg) counts;
     pret (counts, progress))
    (fun cp h => grows handled cp h
       /\ (forall r, fst (snd cp) = Some r -> run_known program e h r)
       /\ (pg_boundaryFound pg = false -> forall d1 d2 n1 n2, loop_known program e h
             {| ls_run := fst (snd cp); ls_signatures := d1; ls_before := snd (snd cp); ls_previousSlot := d2;
                ls_observedHead := head_; ls_discoveredCount := n1; ls_enqueuedCount := n2;
                ls_discoveries := pg_discoveries pg |})
       /\ (pg_boundaryFound pg = true -> forall hd t, head_ = Some hd -> lp_key program = k ->
           good k history origin h t ->
           (exists c, checkpoint_row t k = Some c /\ cp_signature c = cp_signature e) ->
           covered history (tb_inbox t) origin (hd_signature hd))).
Proof.
  intros Hst Hpage Hscan head_. apply scan_page_rows in Hscan as (rows & Hrows & Hrest); [|done].
  cbn [pg_rows app] in Hrows. subst rows.
  assert (pg_rows pg `prefix_of` page) as Hpre.
  { destruct (pg_boundaryFound pg); [|done]. destruct Hrest as (? & b & rest & _ & -> & _). by exists (b :: rest). }
  eapply safe_bind; [apply admit_rows_safe|]. intros counts h [Hgrow Hf]. specialize (Hf eq_refl).
  pose proof (loop_known_mono _ _ _ _ _ Hgrow Hst) as Hst'. eapply safe_bind.
  - eapply (record_progress_safe h program e ms (ls_run st) head_ (ls_before st) (pg_boundaryFound pg) page);
      [| |done|done|done].
    + intros r Hr. destruct (lk_run _ _ _ _ Hst' r Hr) as (? & ? & Eh). unfold head_. rewrite Eh. done.
    + intros Hr. destruct (lk_none _ _ _ _ Hst' Hr) as [? Eh]. unfold head_. rewrite Eh. done.
  - intros progress ? (-> & Hp1 & Hp2 & Hp3 & Hp4). apply safe_ret. cbn [fst snd]. split_and!; [done| | |].
    + intros r Hr. by destruct (Hp1 r Hr).
    + intros Hb d1 d2 n1 n2. split; cbn [ls_run ls_before ls_observedHead].
      * intros r Hr. destruct (Hp1 r Hr) as [Hk Hh]. split; [done|]. split; [|done].
        destruct (decide (pg_rows pg = [])) as [E|E].
        -- rewrite (Hp3 E) in Hr |- *. cbn [fst snd] in *. by destruct (lk_run _ _ _ _ Hst' r Hr) as (_ & ? & _).
        -- destruct (Hp4 E Hb) as (r' & Hr' & ?). congruence.
      * intros Hr. pose proof (Hp2 Hr) as Hr0. destruct (lk_none _ _ _ _ Hst' Hr0) as [Eb Eh].
        destruct (decide (pg_rows pg = [])) as [E|E]; [|destruct (Hp4 E Hb) as (r' & Hr' & _); congruence].
        rewrite (Hp3 E). cbn [snd]. split; [done|]. unfold head_. by rewrite Eh, E.
    + intros Hb hd t Hhd Hk Hg Hc. rewrite Hb in Hrest. destruct Hrest as (e' & b & rest & [= <-] & Ep & Es).
      eapply boundary_covered; eauto. rewrite Ep, map_app. cbn [map]. by rewrite Es.
Qed.

Lemma scan_pages_safe program boundaries ms live refresh remaining handled pageCount st :
  program ∈ sc_programs scanner ->
  loop_ok program (boundary boundaries (lp_key program)) live handled st ->
  safe handled (scan_pages host scanner program boundaries ms live refresh remaining pageCount st)
    (grows handled).
Proof.
  intros Hin. revert handled pageCount st.
  induction remaining as [|remaining IH]; intros handled pageCount st Hst; cbn [scan_pages].
  { destruct (ls_run st); apply safe_throw. }
  eapply safe_bind; [by apply readPage_safe|]. intros page ? [-> Hpage].
  eapply (safe_bind _ _ _ _ _ _ (fun pg h => h = handled /\ scan_page (lp_id program)
    (boundary boundaries (lp_key program)) live page
    {| pg_signatures := ls_signatures st; pg_previousSlot := ls_previousSlot st;
       pg_discoveries := ls_discoveries st; pg_rows := []; pg_boundaryFound := false;
       pg_crossedBoundarySlot := false |} = Ok pg)).
  { destruct (scan_page _ _ _ _ _); [by apply safe_ret|apply safe_throw]. }
  intros pg ? [-> Hpg]. cbv zeta. destruct (boundary boundaries (lp_key program)) as [e|] eqn:Hb.
  - destruct Hst as [Hst ->]. eapply safe_bind2; [eapply page_step_safe; eauto|].
    intros counts progress h (Hgrow & Hrun & Hloop & Hcov). cbn [fst snd] in *.
    apply safe_if; intros Hfound.
    + eapply safe_bind.
      * apply finish_safe; [intros r Hr; exists e; auto|]. intros e' hd t [= <-] Hhd Hk Hg Hc. by eapply Hcov.
      * intros n ? ->. by apply safe_ret.
    + apply safe_if; intros _; [apply exceed_window_safe|]. eapply safe_weaken.
      * apply IH. try rewrite Hb. split; [by apply Hloop|done].
      * intros a h' Hg x Hx. by apply Hg, Hgrow.
  - cbn [loop_ok] in Hst. eapply safe_bind; [apply admit_rows_safe|]. intros counts h [Hgrow _].
    rewrite Hst. cbn [record_progress]. eapply safe_bind; [by apply (safe_ret _ _ _ _ _ (fun p h' => h' = h /\ fst p = None))|].
    intros progress ? [-> Hnone]. eapply safe_bind.
    + apply finish_safe; [|done]. intros r Hr. congruence.
    + intros n ? ->. by apply safe_ret.
Qed.

(** Reading a run that is to be resumed. *)
Lemma stored_run_known handled program e r t :
  good k history origin handled t -> r ∈ tb_runs t -> cr_state r = RUN_ACTIVE ->
  cr_checkpointKey r = lp_key program -> cp_signature (cr_previous r) = cp_signature e ->
  run_known program e (tb_inbox t) r.
Proof. intros [Hok _] Hr Ha Hk Hp. split; try done. intros Hkk. apply (tok_runs _ _ _ _ Hok); congruence. Qed.
Lemma good_all handled t : good k history origin handled t -> good k history origin (tb_inbox t) t.
Proof. intros [Hok _]. by split. Qed.
Lemma sameCheckpoint_signature p e : sameCheckpoint (Some p) (Some e) = true -> cp_signature p = cp_signature e.
Proof. cbn. intros. by bool_prop. Qed.

Lemma historical_run_known handled program e t r :
  good k history origin handled t -> historical_run scanner program e t = Some (Some r) ->
  cr_state r <> RUN_FAILED -> run_known program e (tb_inbox t) r.
Proof.
  unfold historical_run. intros Hg E Hf. apply bind_Some in E as (h & Hread & E). destruct h as [h|]; [|done].
  destruct (_ || _) eqn:Hb in E; [done|]. injection E as ->. apply orb_false_iff in Hb as [Hb Hstate]. bool_prop.
  assert (cr_state r = RUN_ACTIVE) as Ha.
  { apply andb_false_iff in Hstate as [Hs|Hs]; apply bool_decide_eq_false, dec_stable in Hs; done. }
  eapply stored_run_known; eauto; [|by apply sameCheckpoint_signature].
  unfold readStrictCatchUpRun in Hread. destruct (_ || _) in Hread; [done|].
  apply bind_Some in Hread as ([x|] & Hone & Hread); [|done]. destruct (_ || _) in Hread; [done|]. injection Hread as ->.
  apply one_run_Some, filter_one in Hone as [? _]. done.
Qed.

(** A run that a scan of its program may be given. *)
Definition resumable (program : ListenerIngestionProgram) (boundaries : StrictCatchUpBoundaries)
    (handled : list string) (r : StrictCatchUpRun) : Prop :=
  exists e, boundary boundaries (lp_key program) = Some e /\ run_known program e handled r.
Lemma resumable_mono program boundaries handled handled' r :
  (forall x, x ∈ handled -> x ∈ handled') -> resumable program boundaries handled r ->
  resumable program boundaries handled' r.
Proof. intros Hm (e & He & Hr). exists e. split; [done|]. by eapply run_known_mono. Qed.

Lemma scanProgram_safe handled program boundaries ms discoveries initial :
  program ∈ sc_programs scanner ->
  (forall r, initial = Some r -> resumable program boundaries handled r) ->
  safe handled (scanProgram host scanner program boundaries ms discoveries initial) (grows handled).
Proof.
  intros Hin Hinit. unfold scanProgram.
  eapply (safe_bind _ _ _ _ _ _ (fun run h => grows handled run h
    /\ forall r, run = Some r -> resumable program boundaries h r)).
  { destruct initial as [r0|]; [apply safe_ret; split; [by intros x|exact Hinit]|].
    destruct (boundary boundaries (lp_key program)) as [e|] eqn:Hb; [|apply safe_ret; split; [by intros x|done]].
    eapply (safe_bind _ _ _ _ _ _ (fun run h => grows handled run h
      /\ forall r, run = Some r -> cr_state r <> RUN_FAILED -> resumable program boundaries h r)).
    - apply safe_operation, safe_read. intros t run Hg Hr. exists (tb_inbox t). split; [|by eapply good_all].
      split; [exact (proj2 Hg)|]. intros r -> Hf. exists e. split; [done|]. by eapply historical_run_known.
    - intros run h [Hgrow Hr]. apply safe_if; intros Hf; [apply safe_throw|]. apply safe_ret. split; [done|].
      intros r ->. apply Hr; [done|]. by apply bool_decide_eq_false in Hf. }
  intros run h [Hgrow Hr]. eapply (safe_bind _ _ _ _ _ _ (fun _ h' => h' = h)).
  { destruct run as [r|]; [|by apply safe_ret].
    apply safe_if; intros _; [apply safe_throw|]. apply safe_if; intros _; [apply safe_throw|by apply safe_ret]. }
  intros _ ? ->. eapply safe_weaken.
  - apply scan_pages_safe; [done|]. unfold loop_ok.
    destruct (boundary boundaries (lp_key program)) as [e|] eqn:Hb.
    + split; [|by rewrite bool_decide_eq_false_2, andb_false_r by done].
      split; cbn [ls_run ls_before ls_observedHead].
      * intros r ->. destruct (Hr r eq_refl) as (e' & He & Hk). rewrite Hb in He. injection He as <-. done.
      * by intros ->.
    + cbn [ls_run]. destruct run as [r|]; [|done]. destruct (Hr r eq_refl) as (? & ? & _). congruence.
  - intros a h' Hg x Hx. by apply Hg, Hgrow.
Qed.

Lemma readNow_safe handled : safe handled (readNow host) (fun _ h => h = handled).
Proof. intros w Hw. unfold readNow. case_match; [by exists handled|apply Hw]. Qed.
Lemma read_boundaries_safe handled programs b :
  safe handled (read_boundaries host programs b) (fun _ h => h = handled).
Proof.
  revert b. induction programs as [|program programs IH]; intros b; cbn [read_boundaries]; [by apply safe_ret|].
  eapply (safe_bind _ _ _ _ _ _ (fun _ h => h = handled)); [|intros c ? ->; apply IH].
  apply safe_awaited, safe_operation, (safe_read _ _ _ _ _ _ (fun _ h => h = handled)).
  intros t a Hg _. by exists handled.
Qed.
Lemma active_run_known handled program e t r :
  good k history origin handled t -> active_run_of (lp_key program) t = Some (Some r) ->
  cp_signature (cr_previous r) = cp_signature e -> run_known program e (tb_inbox t) r.
Proof.
  unfold active_run_of. intros Hg E Hp. apply bind_Some in E as (x & Hread & E). destruct x as [x|]; [|done].
  destruct (_ || _) eqn:Hb in E; [done|]. injection E as ->. bool_prop.
  match goal with H : ~ (cr_state _ <> _) |- _ => apply dec_stable in H end.
  eapply stored_run_known; eauto. unfold readActiveStrictCatchUpRun in Hread.
  by apply one_run_Some, filter_one in Hread as [? _].
Qed.
Lemma read_runs_safe handled programs boundaries ms active stale :
  (forall p, p ∈ programs -> p ∈ sc_programs scanner) ->
  (forall p r, (p, r) ∈ active -> p ∈ sc_programs scanner /\ resumable p boundaries handled r) ->
  safe handled (read_runs host scanner programs boundaries ms active stale)
    (fun rs h => forall p r, (p, r) ∈ fst rs -> p ∈ sc_programs scanner /\ resumable p boundaries h r).
Proof.
  revert handled active stale. induction programs as [|program programs IH]; intros handled active stale Hps Hact;
    cbn [read_runs]; [by apply safe_ret|].
  eapply (safe_bind _ _ _ _ _ _ (fun run h => grows handled run h
    /\ forall r e, run = Some r -> cp_signature (cr_previous r) = cp_signature e -> run_known program e h r)).
  { apply safe_operation, safe_read. intros t run Hg Hr. exists (tb_inbox t). split; [|by eapply good_all].
    split; [exact (proj2 Hg)|]. intros r e -> Hp. by eapply active_run_known. }
  intros run h [Hgrow Hr].
  assert (forall p, p ∈ programs -> p ∈ sc_programs scanner) as Hps' by (intros; apply Hps; by right).
  assert (forall p r, (p, r) ∈ active -> p ∈ sc_programs scanner /\ resumable p boundaries h r) as Hact'.
  { intros p r Hp. destruct (Hact p r Hp). split; [done|]. by eapply resumable_mono. }
  destruct run as [r|]; [|by apply IH].
  apply safe_if; intros Hsame; [by apply IH|].
  apply safe_if; intros _; [apply safe_throw|]. apply safe_if; intros _; [apply safe_throw|].
  apply IH; [done|]. intros p r' Hp. apply elem_of_app in Hp as [Hp|Hp]; [by apply Hact'|].
  apply list_elem_of_singleton in Hp. injection Hp as -> ->. split; [apply Hps; left|].
  apply negb_false_iff in Hsame. destruct (boundary boundaries (lp_key program)) as [e|] eqn:Hb; [|done].
  exists e. split; [done|]. apply Hr; [done|]. by apply sameCheckpoint_signature.
Qed.
Lemma resume_runs_safe handled active boundaries ms discoveries :
  (forall p r, (p, r) ∈ active -> p ∈ sc_programs scanner /\ resumable p boundaries handled r) ->
  safe handled (resume_runs host scanner active boundaries ms discoveries) (fun _ _ => True).
Proof.
  revert handled discoveries. induction active as [|[p r] active IH]; intros handled discoveries Hact;
    cbn [resume_runs]; [by apply safe_ret|].
  destruct (Hact p r) as [Hp Hr]; [left|]. eapply safe_bind.
  - apply safe_awaited, scanProgram_safe; [done|]. by intros ? [= <-].
  - intros x h Hgrow. apply IH. intros p' r' Hin. destruct (Hact p' r') as [? ?]; [by right|]. split; [done|].
    by eapply resumable_mono.
Qed.
Lemma supersede_runs_safe handled stale ms : safe handled (supersede_runs host stale ms) (fun _ _ => True).
Proof.
  revert handled. induction stale as [|r stale IH]; intros handled; cbn [supersede_runs]; [by apply safe_ret|].
  eapply safe_bind; [|intros _ h _; apply IH].
  apply safe_operation, (safe_write_same _ _ _ _ _ _ (fun _ _ => True)); [done|].
  intros t t' Hg E. eapply supersedeRun_ok; [apply Hg|done].
Qed.
Lemma scan_programs_safe handled programs boundaries ms discoveries scans :
  (forall p, p ∈ programs -> p ∈ sc_programs scanner) ->
  safe handled (scan_programs host scanner programs boundaries ms discoveries scans) (fun _ _ => True).
Proof.
  revert handled discoveries scans. induction programs as [|program programs IH]; intros handled discoveries scans Hps;
    cbn [scan_programs]; [by apply safe_ret|].
  eapply safe_bind.
  - apply safe_awaited, scanProgram_safe; [apply Hps; left|done].
  - intros x h _. apply safe_if; intros _; [apply safe_throw|]. apply IH. intros. apply Hps. by right.
Qed.
Lemma strict_scan_safe handled : safe handled (strict_scan host scanner) (fun _ _ => True).
Proof.
  unfold strict_scan. eapply safe_bind; [apply safe_abort|]. intros _ ? ->.
  eapply safe_bind; [apply readNow_safe|]. intros ms ? ->.
  eapply safe_bind; [apply read_boundaries_safe|]. intros b ? ->.
  eapply safe_bind; [apply read_runs_safe; [done|]; intros p r Hn; by apply elem_of_nil in Hn|].
  intros [active stale] h Hact. cbn [fst snd] in *.
  eapply safe_bind; [by apply resume_runs_safe|]. intros d h1 _.
  eapply safe_bind; [apply supersede_runs_safe|]. intros _ h2 _.
  destruct active; [|apply safe_throw]. eapply safe_bind; [by apply scan_programs_safe|]. intros scans h3 _.
  by apply safe_ret.
Qed.
(** A scan, whatever its end, keeps the tables covered. *)
Lemma strict_scan_covered t :
  tables_ok k history origin t ->
  tables_ok k history origin (sw_tables (snd (strict_scan host scanner {| sw_tables := t; sw_calls := 0 |}))).
Proof.
  intros Ht. pose proof (strict_scan_safe [] {| sw_tables := t; sw_calls := 0 |}) as Hs.
  destruct (strict_scan _ _ _) as [[a|e] w']; cbn [snd sw_tables] in *; [|apply Hs; split; [done|set_solver]].
  destruct Hs as (h & _ & Hok & _); [|done]. split; [done|set_solver].
Qed.
End Coverage.

(** * An honest provider *)

(** A row as the trusted source answers it. *)
Definition ROW_KEYS : list string :=
  ["signature"; "slot"; "confirmationStatus"; "blockTimeMs"; "transactionFailed"].
Definition row_value (r : CatchUpSignature) (key : string) : js :=
  match key with
  | "signature" => JString (cs_signature r)
  | "slot" => JBigInt (cs_slot r)
  | "confirmationStatus" =>
      JString match cs_confirmationStatus r with
              | processed => "processed"
              | confirmed => "confirmed"
              | finalized => "finalized"
              | orphaned => "orphaned"
              end
  | "blockTimeMs" => nullable_value number (cs_blockTimeMs r)
  | "transactionFailed" => JBool (cs_transactionFailed r)
  | _ => JUndefined
  end.
Definition row_object (r : CatchUpSignature) : js := object_of ROW_KEYS (row_value r).
Definition answer_page (rows : list CatchUpSignature) : js := frozen_array (map row_object rows).
(** The rows that follow a cursor. *)
Fixpoint rows_after (b : string) (rows : list CatchUpSignature) : list CatchUpSignature :=
  match rows with
  | [] => []
  | r :: rows' => if bool_decide (cs_signature r = b) then rows' else rows_after b rows'
  end.
Definition next_rows (rows : list CatchUpSignature) (before : option string) : list CatchUpSignature :=
  match before with None => rows | Some b => rows_after b rows end.
Definition honest_list (rows : list CatchUpSignature) (before : option string) (limit : Z) : result list_error js :=
  Ok (answer_page (take (Z.to_nat limit) (next_rows rows before))).
(** No aborts, no faults, a fixed clock and the history [rows]. *)
Definition honest_host (rows : list CatchUpSignature) (ms : Z) : ScanHost :=
  {| sh_aborted := fun _ => false; sh_clock := fun _ => Some (number ms);
     sh_list := fun _ _ before limit => honest_list rows before limit;
     sh_admit := fun _ _ _ => (None, []); sh_fault := fun _ => NoFault |}.

Lemma row_property r key : key ∈ ROW_KEYS -> dataProperty (row_object r) key = Some (row_value r key).
Proof.
  intros Hk. unfold ROW_KEYS in Hk. rewrite !elem_of_cons, elem_of_nil in Hk.
  repeat destruct Hk as [->|Hk]; reflexivity || done.
Qed.
Lemma snapshotTrustedRow_inv r r' : snapshotTrustedRow (row_object r) = Some r' -> cs_signature r' = cs_signature r.
Proof.
  unfold snapshotTrustedRow. rewrite !row_property by (by apply (bool_decide_unpack _)). cbn [mbind option_bind].
  intros (s & Hs & E)%bind_Some. apply bind_Some in E as (sl & _ & E). apply bind_Some in E as (st & _ & E).
  apply bind_Some in E as (bt & _ & E). apply bind_Some in E as (tf & _ & E). injection E as <-.
  cbn in Hs |- *. by destruct (validSignature _); [injection Hs as ->|].
Qed.
Lemma answer_page_inv rows limit page :
  snapshotCatchUpSignatures (answer_page rows) limit = Some page -> map cs_signature page = map cs_signature rows.
Proof.
  unfold snapshotCatchUpSignatures, snapshotArray, answer_page, frozen_array. destruct (negb _); [done|].
  destruct (limit <? _); [done|]. revert page. induction rows as [|r rows IH]; intros page E; cbn in E.
  - by injection E as <-.
  - apply bind_Some in E as (r' & Hr & E). apply bind_Some in E as (page' & Hp & E). injection E as <-. cbn [map].
    rewrite (IH page') by done. f_equal. by apply snapshotTrustedRow_inv in Hr.
Qed.
Lemma rows_after_rest rows newer b rest :
  NoDup (map cs_signature rows) -> map cs_signature rows = newer ++ b :: rest ->
  map cs_signature (rows_after b rows) = rest.
Proof.
  revert newer. induction rows as [|r rows IH]; intros newer Hnd E; cbn [map rows_after] in *; [by destruct newer|].
  apply NoDup_cons in Hnd as [Hn Hnd]. case_bool_decide as Hb.
  - subst b. destruct newer as [|x newer]; [by injection E|]. injection E as <- E. exfalso. apply Hn. rewrite E. set_solver.
  - destruct newer as [|x newer]; [by injection E|]. injection E as _ E. by eapply IH.
Qed.
(** It is lawful. *)
Lemma honest_lawful rows ms scanner k :
  NoDup (map cs_signature rows) -> lawful (honest_host rows ms) scanner k (map cs_signature rows).
Proof.
  intros Hnd. split; [|done]. intros n program before v page _ _ [= <-] Hp. apply answer_page_inv in Hp. rewrite Hp.
  destruct before as [b|]; cbn [contiguous next_rows].
  - intros newer rest E. exists (map cs_signature (drop (Z.to_nat (sc_pageSize scanner)) (rows_after b rows))).
    rewrite <- map_app, take_drop. symmetry. by eapply rows_after_rest.
  - exists [], (map cs_signature (drop (Z.to_nat (sc_pageSize scanner)) rows)). cbn [app].
    by rewrite <- map_app, take_drop.
Qed.

(** * Scans in sequence *)

(** One scan after another over the same tables, each with its own scanner and surroundings. *)
Definition run_scans `{Sha256} (scans : list (ScanHost * StrictCatchUpScanner)) (t : CatchUpTables) : CatchUpTables :=
  fold_left (fun t s => sw_tables (snd (strict_scan (fst s) (snd s) {| sw_tables := t; sw_calls := 0 |}))) scans t.

Lemma run_scans_covered `{Sha256} k history origin scans t :
  NoDup history -> (forall s, s ∈ scans -> lawful (fst s) (snd s) k history) ->
  tables_ok k history origin t -> tables_ok k history origin (run_scans scans t).
Proof.
  intros Hnd. revert t. induction scans as [|s scans IH]; intros t Hlaw Ht; [done|]. apply IH.
  - intros s' Hs. apply Hlaw. by right.
  - apply strict_scan_covered; [apply Hlaw; left|done|done].
Qed.

(** C6: no transaction is skipped.  Start from a checkpoint in the history of a program and
    let any scans follow each other, by any providers whose pages are contiguous pieces of
    that history, with any aborts, faults before or after a commit, invalid answers, page
    budgets, failures and resumptions.  Whenever the checkpoint stands at another transaction
    afterwards, every transaction of the history from the new checkpoint down to the old one
    was enqueued or has a durable receipt. *)
Theorem catch_up_no_gap `{Sha256} (k : ProcessingCheckpointKey) (history : list string)
    (scans : list (ScanHost * StrictCatchUpScanner)) (t : CatchUpTables) (c0 : ProcessingCheckpoint)
    (Hdistinct : NoDup history)
    (Hlaw : forall s, s ∈ scans -> lawful (fst s) (snd s) k history)
    (Hstart : checkpoint_row t k = Some c0) (Hin : cp_signature c0 ∈ history)
    (Hfresh : forall r, r ∈ tb_runs t -> cr_checkpointKey r = k -> cr_state r <> RUN_ACTIVE) :
  exists c newer seen older,
    checkpoint_row (run_scans scans t) k = Some c
    /\ history = newer ++ seen ++ cp_signature c0 :: older
    /\ head (seen ++ [cp_signature c0]) = Some (cp_signature c)
    /\ forall x, x ∈ seen -> x ∈ tb_inbox (run_scans scans t).
Proof.
  assert (tables_ok k history (cp_signature c0) t) as Ht.
  { split; [|intros r Hr Hk Ha; by destruct (Hfresh r Hr Hk)]. exists c0. split; [done|].
    apply list_elem_of_split in Hin as (newer & older & E). exists newer, [], older. done. }
  destruct (run_scans_covered k history (cp_signature c0) scans t Hdistinct Hlaw Ht) as [(c & Hc & Hcov) _].
  destruct Hcov as (newer & seen & older & E & Hh & Hf). exists c, newer, seen, older. split_and!; try done.
  by apply Forall_forall.
Qed.

(** Five transactions, pages of two and a budget of one page: the first scan creates a run
    and pauses, the second resumes it and pauses, the third completes it. *)
Definition sample_rows : list CatchUpSignature :=
  map (fun p => {| cs_signature := fst p; cs_slot := snd p; cs_confirmationStatus := confirmed;
                   cs_blockTimeMs := None; cs_transactionFailed := false |})
    [("sig5", 50); ("sig4", 40); ("sig3", 30); ("sig2", 30); ("sig1", 10)].
Definition sample_scanner : StrictCatchUpScanner :=
  {| sc_providerId := RPC_PRIMARY; sc_pageSize := 2; sc_maxPages := 1; sc_policy := POLICY_STRICT;
     sc_programs := [{| lp_key := CK_MARKET; lp_family := FAMILY_PUMPSWAP; lp_id := "market-program" |}];
     sc_pageAdmitter := false |}.
Definition sample_start : ProcessingCheckpoint :=
  {| cp_key := CK_MARKET; cp_slot := 10; cp_signature := "sig1"; cp_updatedAtMs := 1000 |}.
Definition sample_tables : CatchUpTables :=
  {| tb_checkpoints := [sample_start]; tb_runs := []; tb_failures := []; tb_inbox := [] |}.
Definition sample_scans : list (ScanHost * StrictCatchUpScanner) :=
  map (fun ms => (honest_host sample_rows ms, sample_scanner)) [2000; 3000; 4000].

(** The checkpoint moves from the oldest to the newest of the five. *)
Lemma catch_up_no_gap_witness :
  let S : Sha256 := run_digest in
  cp_signature <$> checkpoint_row (run_scans sample_scans sample_tables) CK_MARKET = Some "sig5"
  /\ forall x, x ∈ ["sig5"; "sig4"; "sig3"; "sig2"] -> x ∈ tb_inbox (run_scans sample_scans sample_tables).
Proof.
  intros S. set (history := map cs_signature sample_rows).
  destruct (catch_up_no_gap CK_MARKET history sample_scans sample_tables sample_start)
    as (c & newer & seen & older & Hc & Eh & Hh & Hall).
  - apply (bool_decide_unpack _). vm_compute. exact I.
  - intros s Hs. apply list_elem_of_fmap in Hs as (ms & -> & _). apply honest_lawful.
    apply (bool_decide_unpack _). vm_compute. exact I.
  - reflexivity.
  - apply (bool_decide_unpack _). vm_compute. exact I.
  - intros r Hr. exfalso. revert Hr. apply not_elem_of_nil.
  - assert (cp_signature <$> checkpoint_row (run_scans sample_scans sample_tables) CK_MARKET = Some "sig5") as E
      by (vm_compute; reflexivity).
    split; [exact E|]. intros x Hx. apply Hall. clear Hall. rewrite Hc in E. clear Hc.
    injection E as E. rewrite E in Hh. clear E.
    assert (seen = ["sig5"; "sig4"; "sig3"; "sig2"]) as ->; [|exact Hx]. clear Hx x c.
    cbn in Eh, Hh. destruct seen as [|s1 seen]; [discriminate Hh|]. injection Hh as ->.
    destruct newer as [|n1 newer].
    2: { exfalso. injection Eh as _ Eh. repeat (destruct newer as [|? newer]; [discriminate Eh|injection Eh as _ Eh]).
         destruct newer; discriminate Eh. }
    cbn in Eh. injection Eh as Eh. destruct seen as [|s2 seen]; [discriminate Eh|]. injection Eh as <- Eh.
    destruct seen as [|s3 seen]; [discriminate Eh|]. injection Eh as <- Eh.
    destruct seen as [|s4 seen]; [discriminate Eh|]. injection Eh as <- Eh.
    destruct seen as [|s5 seen]; [reflexivity|]. exfalso. injection Eh as _ Eh. destruct seen; discriminate Eh.
Defined.
