(* ===== verification/CatchUpProgress.v ===== *)
(** The catch-up ends: a scan by an honest provider reaches its checkpoint.

    [CatchUpCoverage] shows that a scan never skips a transaction; here a scan of one program
    without aborts or faults, whose checkpoint lies within the budget of pages, returns and moves
    the checkpoint to the head of the history. *)
From S2P Require Import Prelude Text Types Json JsValue JsReaders Intent CatchUpRun CatchUpSource CatchUpStore CatchUpScan CatchUpCoverage.
From Stdlib Require Import Ascii String.
Local Open Scope string_scope.
Local Open Scope list_scope.
Local Open Scope Z_scope.

(** * Programs that return *)

(** From tables [t] the program returns [a] and leaves [t'], whatever calls were made before. *)
Definition returns {E A} (m : prog scan_world E A) (t : CatchUpTables) (a : A) (t' : CatchUpTables) : Prop :=
  forall n, exists n', m {| sw_tables := t; sw_calls := n |} = (Ok a, {| sw_tables := t'; sw_calls := n' |}).

Lemma returns_ret {E A} (a : A) t : returns (E := E) (pret a) t a t.
Proof. intros n. by exists n. Qed.
Lemma returns_bind {E A B} (m : prog scan_world E A) (f : A -> prog scan_world E B) t a t' b t'' :
  returns m t a t' -> returns (f a) t' b t'' -> returns (pbind m f) t b t''.
Proof.
  intros Hm Hf n. destruct (Hm n) as [n1 E1]. destruct (Hf n1) as [n2 E2]. exists n2. unfold pbind. by rewrite E1.
Qed.

(** An honest provider, and a page admitter that makes every row it is given durable and answers
    with [answer]. *)
Definition admitting_host (rows : list CatchUpSignature) (ms : Z) (answer : list CatchUpSignature -> js) : ScanHost :=
  {| sh_aborted := fun _ => false; sh_clock := fun _ => Some (number ms);
     sh_list := fun _ _ before limit => honest_list rows before limit;
     sh_admit := fun _ _ page => (Some (answer page), map cs_signature page); sh_fault := fun _ => NoFault |}.

Section Honest.
Context `{Sha256} (rows : list CatchUpSignature) (ms : Z) (answer : list CatchUpSignature -> js).
Local Abbreviation host := (admitting_host rows ms answer).

Lemma returns_store {A} (f : CatchUpTables -> option (A * CatchUpTables)) t a t' :
  f t = Some (a, t') -> returns (store_call host f) t a t'.
Proof. intros E n. unfold store_call. cbn. rewrite E. eauto. Qed.
Lemma returns_read {A} (f : CatchUpTables -> option A) t a : f t = Some a -> returns (store_read host f) t a t.
Proof. intros E. apply returns_store. by rewrite E. Qed.
Lemma returns_write (f : CatchUpTables -> option CatchUpTables) t t' :
  f t = Some t' -> returns (store_write host f) t tt t'.
Proof. intros E. apply returns_store. by rewrite E. Qed.
Lemma returns_require {A} (o : option A) a t : o = Some a -> returns (require o) t a t.
Proof. intros ->. apply returns_ret. Qed.
Lemma returns_abort t : returns (assertNotAborted host) t tt t.
Proof. intros n. unfold assertNotAborted, next_call. cbn. eauto. Qed.
Lemma returns_awaited {A} (m : scan A) t a t' : returns m t a t' -> returns (awaited host m) t a t'.
Proof.
  intros Hm. eapply returns_bind; [apply returns_abort|]. intros n. destruct (Hm n) as [n1 E1].
  unfold pbind. rewrite E1. unfold assertNotAborted, next_call, lift. cbn. eauto.
Qed.
Lemma returns_operation {A} stage key (m : prog scan_world unit A) t a t' :
  returns m t a t' -> returns (operation host stage key m) t a t'.
Proof. intros Hm. apply returns_awaited. intros n. unfold or_throw. destruct (Hm n) as [n1 ->]. eauto. Qed.
End Honest.

(** * Rows that are accepted *)

(** A row that is read back, and that no check of the scanner refuses. *)
Definition row_good (r : CatchUpSignature) : Prop :=
  snapshotTrustedRow (row_object r) = Some r /\ row_invalid r = false.
(** Slots that never rise. *)
Fixpoint descends (previous : option Z) (rows : list CatchUpSignature) : Prop :=
  match rows with
  | [] => True
  | r :: rows' =>
      match previous with None => True | Some s => cs_slot r <= s end /\ descends (Some (cs_slot r)) rows'
  end.
(** The last slot seen. *)
Definition last_slot (previous : option Z) (rows : list CatchUpSignature) : option Z :=
  match last rows with Some r => Some (cs_slot r) | None => previous end.

Lemma descends_app previous a b :
  descends previous (a ++ b) <-> descends previous a /\ descends (last_slot previous a) b.
Proof.
  revert previous. induction a as [|r a IH]; intros previous; cbn [app descends]; [unfold last_slot; cbn; tauto|].
  rewrite IH. assert (last_slot (Some (cs_slot r)) a = last_slot previous (r :: a)) as ->; [|tauto].
  unfold last_slot. destruct a as [|x a]; [done|]. change (last (r :: x :: a)) with (last (x :: a)).
  destruct (last (x :: a)) eqn:E; [done|]. by apply last_None in E.
Qed.
Lemma last_slot_app previous a b : last_slot previous (a ++ b) = last_slot (last_slot previous a) b.
Proof. unfold last_slot. rewrite last_app. by destruct (last b), (last a). Qed.

Lemma answer_page_good rows limit :
  Forall row_good rows -> validLimit limit = true -> Z.of_nat (List.length rows) <= limit ->
  snapshotCatchUpSignatures (answer_page rows) limit = Some rows.
Proof.
  intros Hg Hl Hn. unfold snapshotCatchUpSignatures, snapshotArray, answer_page, frozen_array. rewrite Hl. cbn [negb].
  rewrite !length_map. destruct (Z.ltb_spec limit (Z.of_nat (List.length rows))); [lia|]. clear Hn Hl.
  induction Hg as [|r rows [Hr _] Hg IH]; [done|]. cbn [map mapM].
  change (descriptor_value (Some (data (row_object r)))) with (Some (row_object r)). cbn [mbind option_bind].
  rewrite Hr. cbn [mbind option_bind]. cbn [map mapM] in IH. rewrite IH; [done|]. cbn [List.length] in *. lia.
Qed.

(** A row above the boundary. *)
Definition above (c : ProcessingCheckpoint) (r : CatchUpSignature) : Prop :=
  cp_slot c <= cs_slot r /\ cs_signature r <> cp_signature c.
(** The state of the loop over a page after it accepted rows. *)
Definition accepted (d : list (string * CatchUpSignature)) (st : page_state) (rows : list CatchUpSignature)
    : page_state :=
  {| pg_signatures := pg_signatures st ++ map cs_signature rows;
     pg_previousSlot := last_slot (pg_previousSlot st) rows; pg_discoveries := d;
     pg_rows := pg_rows st ++ rows; pg_boundaryFound := pg_boundaryFound st;
     pg_crossedBoundarySlot := pg_crossedBoundarySlot st |}.
(** Every discovery is a signature already seen. *)
Definition discovered_seen (d : list (string * CatchUpSignature)) (signatures : list string) : Prop :=
  forall s, s ∈ map fst d -> s ∈ signatures.

Lemma scan_page_accepts programId c rows rest st :
  Forall row_good rows -> Forall (above c) rows -> descends (pg_previousSlot st) rows ->
  NoDup (pg_signatures st ++ map cs_signature rows) -> discovered_seen (pg_discoveries st) (pg_signatures st) ->
  exists d, discovered_seen d (pg_signatures st ++ map cs_signature rows)
    /\ scan_page programId (Some c) false (rows ++ rest) st
       = scan_page programId (Some c) false rest (accepted d st rows).
Proof.
  revert st. induction rows as [|r rows IH]; intros st Hg Ha Hd Hn Hs.
  { exists (pg_discoveries st). cbn [map app]. rewrite app_nil_r. split; [done|]. f_equal. unfold accepted. cbn [map].
    rewrite !app_nil_r. by destruct st. }
  apply Forall_cons in Hg as [[_ Hr] Hg]. apply Forall_cons in Ha as [[Hslot Hsig] Ha]. destruct Hd as [Hprev Hd].
  assert (cs_signature r ∉ pg_signatures st) as Hnew.
  { apply NoDup_app in Hn as (_ & Hn & _). intros Hin. apply (Hn _ Hin). left. }
  set (st1 := {| pg_signatures := pg_signatures st ++ [cs_signature r]; pg_previousSlot := Some (cs_slot r);
                 pg_discoveries := map_set (pg_discoveries st) (cs_signature r) r; pg_rows := pg_rows st ++ [r];
                 pg_boundaryFound := pg_boundaryFound st; pg_crossedBoundarySlot := pg_crossedBoundarySlot st |}).
  destruct (IH st1) as (d & Hseen & E); try done.
  - cbn [st1 pg_signatures]. rewrite <- app_assoc. done.
  - intros s Hin. cbn [st1 pg_discoveries pg_signatures] in *. rewrite map_set_keys in Hin.
    destruct (decide (cs_signature r ∈ map fst (pg_discoveries st))); [apply elem_of_app; left; auto|].
    apply elem_of_app in Hin as [Hin|Hin]; apply elem_of_app; [left; auto|by right].
  - exists d. cbn [st1 pg_signatures] in Hseen. rewrite <- app_assoc in Hseen. split; [done|].
    cbn [app scan_page]. rewrite Hr.
    assert ((match pg_previousSlot st with None => false | Some s => s <? cs_slot r end) = false) as ->.
    { destruct (pg_previousSlot st); [|done]. apply Z.ltb_ge. done. }
    assert (includes (cs_signature r) (pg_signatures st) = false) as -> by (by apply includes_false).
    cbv zeta. rewrite bool_decide_eq_false_2 by done. rewrite (proj2 (Z.ltb_ge _ _)) by done.
    unfold discover. rewrite (proj2 (map_get_None _ _)); [|intros Hin; by apply Hs in Hin].
    cbn [mbind result_bind]. change (scan_page programId (Some c) false (rows ++ rest) st1
      = scan_page programId (Some c) false rest (accepted d st (r :: rows))). rewrite E. f_equal.
    unfold accepted. cbn [st1 pg_signatures pg_previousSlot pg_rows pg_boundaryFound pg_crossedBoundarySlot map].
    rewrite <- !app_assoc. cbn [app]. f_equal. unfold last_slot. destruct rows as [|x rows]; [done|].
    change (last (r :: x :: rows)) with (last (x :: rows)). destruct (last (x :: rows)) eqn:El; [done|].
    by apply last_None in El.
Qed.
(** The page that has the boundary. *)
Lemma scan_page_boundary programId c row rest st :
  row_good row -> cs_signature row = cp_signature c -> cs_slot row = cp_slot c ->
  match pg_previousSlot st with None => True | Some s => cs_slot row <= s end ->
  cs_signature row ∉ pg_signatures st ->
  scan_page programId (Some c) false (row :: rest) st
  = Ok {| pg_signatures := pg_signatures st ++ [cs_signature row]; pg_previousSlot := Some (cs_slot row);
          pg_discoveries := pg_discoveries st; pg_rows := pg_rows st; pg_boundaryFound := true;
          pg_crossedBoundarySlot := pg_crossedBoundarySlot st |}.
Proof.
  intros [_ Hr] Hs Hl Hp Hn. cbn [scan_page]. rewrite Hr.
  assert ((match pg_previousSlot st with None => false | Some s => s <? cs_slot row end) = false) as ->.
  { destruct (pg_previousSlot st); [|done]. by apply Z.ltb_ge. }
  assert (includes (cs_signature row) (pg_signatures st) = false) as -> by (by apply includes_false).
  cbv zeta. rewrite bool_decide_eq_true_2 by done. rewrite Hl, Z.eqb_refl. done.
Qed.

(** * Runs of the scan *)

Lemma row_good_read r : row_good r ->
  signatureFrom (JString (cs_signature r)) = Some (cs_signature r)
  /\ slotFrom (JBigInt (cs_slot r)) = Some (cs_slot r).
Proof.
  intros [Hs Hi]. unfold row_invalid in Hi. rewrite !orb_false_iff in Hi.
  destruct Hi as [[[[Hslot He] Ht] Hb] _]. apply Z.ltb_ge in Hslot. split.
  - cbn [signatureFrom]. rewrite He, Ht, Hb. done.
  - apply slotFrom_Some. split; [done|]. split; [|done].
    unfold snapshotTrustedRow in Hs. rewrite !row_property in Hs by (by apply (bool_decide_unpack _)).
    cbn [mbind option_bind] in Hs. apply bind_Some in Hs as (s & _ & Hs). apply bind_Some in Hs as (z & Hz & Hs).
    cbn [row_value] in Hz. destruct (Z.leb_spec 0 (cs_slot r)); [done|]. done.
Qed.

Section Runs.
Context `{Sha256} (program : ListenerIngestionProgram) (provider : RpcProviderId) (c : ProcessingCheckpoint) (ms : Z).

Definition head_of (r : CatchUpSignature) : StrictCatchUpRunHead :=
  {| hd_slot := cs_slot r; hd_signature := cs_signature r |}.
(** The run of a scan from [hd] that stands at [tl], after [j] pages of which [n] rows were
    classified and [e] enqueued. *)
Definition scan_run (hd tl : CatchUpSignature) (n e j : Z) : StrictCatchUpRun :=
  {| cr_runId := strictCatchUpRunId (lp_key program) c provider; cr_checkpointKey := lp_key program;
     cr_previous := c; cr_providerId := provider; cr_observedHead := head_of hd;
     cr_beforeSignature := cs_signature tl; cr_lastAcceptedSlot := cs_slot tl; cr_pagesScanned := j;
     cr_signaturesEnqueued := e; cr_signaturesClassified := n; cr_revision := j - 1; cr_state := RUN_ACTIVE;
     cr_terminalReason := None; cr_startedAtMs := ms; cr_updatedAtMs := ms; cr_completedAtMs := None;
     cr_purgeAfterMs := None |}.
(** The conditions under which it is valid. *)
Record scan_run_ready (hd tl : CatchUpSignature) (n e j : Z) : Prop := {
  sr_head : row_good hd;
  sr_tail : row_good tl;
  sr_pages : 1 <= j <= MAX_STRICT_CATCH_UP_RUN_COUNTER;
  sr_rows : 0 <= e <= n /\ n <= MAX_STRICT_CATCH_UP_RUN_COUNTER;
  sr_slots : cp_slot c <= cs_slot tl <= cs_slot hd;
  sr_above : cs_signature tl <> cp_signature c;
  sr_single : cs_signature tl = cs_signature hd -> cs_slot tl = cs_slot hd /\ j = 1 /\ n <= 1;
}.
Context (Hc : checkpoint_ok (lp_key program) c) (Hms : cp_updatedAtMs c <= ms <= MAX_DATE_MS).

Lemma ms_read : millisecondsFrom (number ms) = Some ms.
Proof.
  apply millisecondsFrom_Some. split; [done|].
  destruct (proj1 (millisecondsFrom_Some _ _) (cok_updatedAtMs _ _ Hc)). lia.
Qed.
Local Ltac run_fields := cbn [scan_run cr_runId cr_checkpointKey cr_previous cr_providerId cr_observedHead
  cr_beforeSignature cr_lastAcceptedSlot cr_pagesScanned cr_signaturesEnqueued cr_signaturesClassified
  cr_revision cr_state cr_terminalReason cr_startedAtMs cr_updatedAtMs cr_completedAtMs cr_purgeAfterMs
  head_of hd_slot hd_signature].

Local Ltac known x :=
  let E := fresh in
  pose proof x as E; cbn [scan_run cr_runId cr_checkpointKey cr_previous cr_providerId cr_observedHead
    cr_beforeSignature cr_lastAcceptedSlot cr_pagesScanned cr_signaturesEnqueued cr_signaturesClassified
    cr_revision cr_state cr_terminalReason cr_startedAtMs cr_updatedAtMs cr_completedAtMs cr_purgeAfterMs] in E;
  rewrite E; clear E; cbn [mbind option_bind].

Lemma scan_run_relations hd tl n e j : scan_run_ready hd tl n e j -> run_relations (scan_run hd tl n e j).
Proof.
  intros [_ _ Hj Hn Hs Ha H1]. split; run_fields; try done; try lia. intros E. destruct (H1 E) as (? & -> & ?).
  rewrite bool_decide_eq_true_2 by done. split_and!; done || lia.
Qed.
Lemma scan_run_ok hd tl n e j : scan_run_ready hd tl n e j -> run_ok (scan_run hd tl n e j).
Proof.
  intros Hr. destruct (row_good_read _ (sr_head _ _ _ _ _ Hr)) as [Hg Hl].
  destruct (row_good_read _ (sr_tail _ _ _ _ _ Hr)) as [Hg' Hl'].
  destruct (sr_pages _ _ _ _ _ Hr). destruct (sr_rows _ _ _ _ _ Hr).
  split; run_fields; try done; try apply ms_read.
  - apply positiveCounterFrom_Some. done.
  - apply counterFrom_Some. split; [done|lia].
  - apply counterFrom_Some. split; [done|lia].
  - apply counterFrom_Some. split; [done|lia].
  - by apply run_consistent_iff, scan_run_relations.
Qed.

(** A first page creates it. *)
Lemma create_accepts hd tl n e : scan_run_ready hd tl n e 1 ->
  createStrictCatchUpRun (object_of CREATE_RUN_KEYS
    (create_input program c provider (head_of hd) ms (progress_input None tl e n ms)))
  = Some (scan_run hd tl n e 1).
Proof.
  intros Hr. pose proof (scan_run_ok _ _ _ _ _ Hr) as Hok. unfold createStrictCatchUpRun, data_record.
  rewrite own_record_object. cbn [mbind option_bind]. repeat read_field. cbn [create_input progress_input].
  rewrite key_read. cbn [mbind option_bind].
  rewrite (checked_checkpoint _ _ _ (checkedCheckpoint_object _ _ Hc)). cbn [mbind option_bind].
  rewrite provider_read. cbn [mbind option_bind].
  known (checked_head _ _ (checkedHead_object _ (rok_head _ Hok))). known (rok_before _ Hok). known (rok_slot _ Hok).
  change (0 + 1) with 1. known (rok_pages _ Hok). rewrite !Z.add_0_l. known (rok_enqueued _ Hok). known (rok_classified _ Hok).
  change 0 with (1 - 1). known (rok_revision _ Hok). rewrite !ms_read. cbn [mbind option_bind]. run_fields.
  assert (forall b, b = false -> (if b : bool then None
    else (if assertValidStrictCatchUpRun (run_object (scan_run hd tl n e 1)) then Some (scan_run hd tl n e 1) else None))
    = Some (scan_run hd tl n e 1)) as Hfin by (intros b ->; by rewrite run_object_valid).
  apply Hfin. destruct Hr as [_ _ _ Hn Hs Ha H1].
  rewrite !orb_false_iff, !Z.ltb_ge, bool_decide_eq_false, andb_false_iff, bool_decide_eq_false, negb_false_iff.
  rewrite !andb_true_iff, bool_decide_eq_true, !Z.eqb_eq, !Z.leb_le. split_and!; try lia; try done.
  destruct (decide (cs_signature tl = cs_signature hd)) as [E|E]; [right|by left].
  destruct (H1 E) as (? & _ & ?). split_and!; try done; lia.
Qed.
(** A further page advances it; the input may be any that has the values of the next run. *)
Lemma advance_accepts hd tl n e j tl' n' e' f :
  scan_run_ready hd tl n e j -> scan_run_ready hd tl' n' e' (j + 1) -> n <= n' -> e <= e' ->
  cs_slot tl' <= cs_slot tl -> cs_signature tl' <> cs_signature tl -> cs_signature tl' <> cs_signature hd ->
  (forall key, key ∈ ADVANCE_RUN_KEYS -> f key = run_value (scan_run hd tl' n' e' (j + 1)) key) ->
  advanceStrictCatchUpRun (run_object (scan_run hd tl n e j)) (object_of ADVANCE_RUN_KEYS f)
  = Some (scan_run hd tl' n' e' (j + 1)).
Proof.
  intros Hr Hr' Hn He Hs Hne Hnh Hf. pose proof (scan_run_ok _ _ _ _ _ Hr) as Hok. pose proof (scan_run_ok _ _ _ _ _ Hr') as Hok'.
  unfold advanceStrictCatchUpRun, data_record. rewrite runFrom_object by done. cbn [mbind option_bind]. run_fields.
  rewrite bool_decide_eq_false_2 by (by intros []). destruct (sr_pages _ _ _ _ _ Hr').
  rewrite (proj2 (Z.eqb_neq (j - 1) _)) by (unfold MAX_STRICT_CATCH_UP_RUN_COUNTER in *; lia). cbn [orb].
  rewrite own_record_object. cbn [mbind option_bind]. repeat read_field.
  rewrite !Hf by (by apply (bool_decide_unpack _)). cbn [run_value].
  run_fields. known (rok_before _ Hok'). known (rok_slot _ Hok'). known (rok_pages _ Hok').
  known (rok_enqueued _ Hok'). known (rok_classified _ Hok'). known (rok_updated _ Hok').
  assert (forall b, b = false -> (if b : bool then None
    else (if assertValidStrictCatchUpRun (run_object (scan_run hd tl' n' e' (j + 1)))
          then Some (scan_run hd tl' n' e' (j + 1)) else None))
    = Some (scan_run hd tl' n' e' (j + 1))) as Hfin by (intros b ->; by rewrite run_object_valid).
  replace (j - 1 + 1) with (j + 1 - 1) by lia. apply Hfin. destruct Hr' as [_ _ _ Hn' Hs' Ha' _].
  rewrite !orb_false_iff, !Z.ltb_ge, Z.leb_gt, !bool_decide_eq_false. split_and!; try done; lia.
Qed.
End Runs.

(** * The history and the tables of a scan *)

(** What a scan by [scanner] of the history [rows] starts from: the checkpoint [c] of
    [program] is the row that follows [newer], and the runs of the program have ended and were of
    other boundaries or of another provider. *)
Record scan_start `{Sha256} (scanner : StrictCatchUpScanner) (program : ListenerIngestionProgram)
    (rows newer : list CatchUpSignature) (c : ProcessingCheckpoint) (ms : Z) (t : CatchUpTables) : Prop := {
  ss_page : validLimit (sc_pageSize scanner) = true;
  ss_good : Forall row_good rows;
  ss_distinct : NoDup (map cs_signature rows);
  ss_slots : descends None rows;
  ss_boundary : exists row older, rows = newer ++ row :: older
    /\ cs_signature row = cp_signature c /\ cs_slot row = cp_slot c;
  ss_count : Z.of_nat (List.length newer) <= MAX_STRICT_CATCH_UP_RUN_COUNTER;
  ss_checkpoint : checkpoint_row t (lp_key program) = Some c;
  ss_readable : checkpoint_ok (lp_key program) c;
  ss_time : cp_updatedAtMs c <= ms <= MAX_DATE_MS - STRICT_CATCH_UP_RUN_RETENTION_MS;
  ss_runs : forall r, r ∈ tb_runs t ->
    cr_runId r <> strictCatchUpRunId (lp_key program) c (sc_providerId scanner)
    /\ (cr_checkpointKey r = lp_key program -> cr_state r <> RUN_ACTIVE
        /\ ~ (cp_slot (cr_previous r) = cp_slot c /\ cp_signature (cr_previous r) = cp_signature c
              /\ cr_providerId r = sc_providerId scanner));
}.
(** How many rows have a property. *)
Definition count (f : CatchUpSignature -> bool) (l : list CatchUpSignature) : Z := Z.of_nat (List.length (List.filter f l)).
(** What the admission of a page says of its rows: which of them it classified now, and which of
    these it enqueued.  Without a page admitter the scanner enqueues every row itself. *)
Definition page_admission (scanner : StrictCatchUpScanner) (program : ListenerIngestionProgram)
    (newer : list CatchUpSignature) (answer : list CatchUpSignature -> js)
    (classified enqueued : CatchUpSignature -> bool) : Prop :=
  if bool_decide (lp_family program = FAMILY_PUMPFUN) && sc_pageAdmitter scanner
  then (forall r, enqueued r = true -> classified r = true)
       /\ forall before page after, newer = before ++ page ++ after -> page <> [] ->
           snapshotPageAdmission (answer page) page = Some (count classified page, count enqueued page)
  else forall r, classified r = true /\ enqueued r = true.

Lemma count_app f a b : count f (a ++ b) = count f a + count f b.
Proof. unfold count. rewrite List.filter_app, length_app. lia. Qed.
Lemma count_bound f l : 0 <= count f l <= Z.of_nat (List.length l).
Proof. unfold count. pose proof (List.filter_length_le f l). lia. Qed.
Lemma count_grows f a b : count f a <= count f (a ++ b).
Proof. rewrite count_app. pose proof (count_bound f b). lia. Qed.
Lemma count_le f g l : (forall r, f r = true -> g r = true) -> count f l <= count g l.
Proof.
  intros Hfg. unfold count. induction l as [|r l IH]; cbn [List.filter]; [done|].
  destruct (f r) eqn:E; [rewrite (Hfg r E); cbn [List.length]; lia|]. destruct (g r); cbn [List.length]; lia.
Qed.
Lemma count_all f l : (forall r, f r = true) -> count f l = Z.of_nat (List.length l).
Proof. intros Hf. unfold count. induction l as [|r l IH]; cbn [List.filter]; [done|]. rewrite Hf. cbn [List.length]. lia. Qed.


Lemma descends_le previous rows : descends (Some previous) rows -> Forall (fun r => cs_slot r <= previous) rows.
Proof.
  revert previous. induction rows as [|r rows IH]; intros previous Hd; [constructor|]. destruct Hd as [Hr Hd].
  constructor; [done|]. eapply Forall_impl; [by apply IH|]. intros x Hx. cbn in *. lia.
Qed.
Lemma descends_above rows row older :
  descends None (rows ++ row :: older) -> Forall (fun r => cs_slot row <= cs_slot r) rows.
Proof.
  generalize (@None Z). induction rows as [|r rows IH]; intros previous Hd; [constructor|]. destruct Hd as [_ Hd].
  constructor; [|by eapply IH]. apply descends_le in Hd. apply Forall_app in Hd as [_ Hd].
  by apply Forall_cons in Hd as [? _].
Qed.

Section Scan.
Context `{Sha256} (scanner : StrictCatchUpScanner) (program : ListenerIngestionProgram).
Context (rows newer : list CatchUpSignature) (c : ProcessingCheckpoint) (ms : Z) (t : CatchUpTables).
Context (Hstart : scan_start scanner program rows newer c ms t).
Context (answer : list CatchUpSignature -> js) (classified enqueued : CatchUpSignature -> bool).
Context (Hadmit : page_admission scanner program newer answer classified enqueued).
Local Abbreviation host := (admitting_host rows ms answer).
Local Abbreviation the_run := (scan_run program (sc_providerId scanner) c ms).

Lemma newer_above : Forall (above c) newer.
Proof.
  destruct (ss_boundary _ _ _ _ _ _ _ Hstart) as (row & older & E & Hs & Hl).
  pose proof (ss_slots _ _ _ _ _ _ _ Hstart) as Hd. pose proof (ss_distinct _ _ _ _ _ _ _ Hstart) as Hn.
  rewrite E in Hd, Hn. apply descends_above in Hd. apply Forall_forall. intros r Hr. split.
  - rewrite <- Hl. by apply (proj1 (Forall_forall _ _) Hd).
  - rewrite <- Hs. rewrite map_app in Hn. apply NoDup_app in Hn as (_ & Hn & _). intros Es. eapply (Hn (cs_signature r)).
    + by apply list_elem_of_fmap_2.
    + rewrite Es. left.
Qed.
Lemma ms_bounds : cp_updatedAtMs c <= ms <= MAX_DATE_MS.
Proof. destruct (ss_time _ _ _ _ _ _ _ Hstart). unfold STRICT_CATCH_UP_RUN_RETENTION_MS in *. lia. Qed.

Lemma enqueued_classified l : count enqueued l <= count classified l.
Proof.
  apply count_le. intros r Hr. unfold page_admission in Hadmit.
  destruct (_ && _); [by apply (proj1 Hadmit)|apply Hadmit].
Qed.
(** The run of the rows [acc], a part of the newer rows. *)
Lemma prefix_ready acc rest hd tl j :
  newer = acc ++ rest -> head acc = Some hd -> last acc = Some tl -> 1 <= j <= Z.of_nat (List.length acc) ->
  scan_run_ready c hd tl (count classified acc) (count enqueued acc) j.
Proof.
  intros E Hh Hl Hj. pose proof newer_above as Ha. pose proof (ss_count _ _ _ _ _ _ _ Hstart) as Hcount.
  destruct (ss_boundary _ _ _ _ _ _ _ Hstart) as (row & older & Er & _ & _).
  pose proof (ss_good _ _ _ _ _ _ _ Hstart) as Hg. pose proof (ss_distinct _ _ _ _ _ _ _ Hstart) as Hn.
  pose proof (ss_slots _ _ _ _ _ _ _ Hstart) as Hd. rewrite Er, E, <- app_assoc in Hg, Hd, Hn. rewrite E in Ha, Hcount.
  rewrite length_app in Hcount. apply Forall_app in Hg as [Hg _]. apply Forall_app in Ha as [Ha _].
  apply descends_app in Hd as [Hd _]. rewrite map_app in Hn. apply NoDup_app in Hn as (Hn & _ & _).
  destruct acc as [|x acc]; [done|]. injection Hh as ->.
  assert (tl ∈ hd :: acc) as Htl by (by apply last_Some_elem_of).
  assert (cs_slot tl <= cs_slot hd) as Hslot.
  { apply elem_of_cons in Htl as [->|Htl]; [lia|]. destruct Hd as [_ Hd]. apply descends_le in Hd.
    by apply (proj1 (Forall_forall _ _) Hd). }
  pose proof (count_bound classified (hd :: acc)). pose proof (count_bound enqueued (hd :: acc)).
  pose proof (enqueued_classified (hd :: acc)). split; try lia.
  - by apply Forall_cons in Hg as [? _].
  - by apply (proj1 (Forall_forall _ _) Hg).
  - split; [|done]. by apply (proj1 (Forall_forall _ _) Ha).
  - by apply (proj1 (Forall_forall _ _) Ha).
  - intros Es. destruct acc as [|y acc].
    + injection Hl as <-. cbn [List.length] in *. lia.
    + exfalso. cbn [map] in Hn. apply NoDup_cons in Hn as [Hn _]. apply Hn. rewrite <- Es.
      change (cs_signature y :: map cs_signature acc) with (map cs_signature (y :: acc)).
      apply list_elem_of_fmap_2. apply last_Some_elem_of. done.
Qed.

(** The tables with an inbox, and with a run of the scan. *)
Definition table_with (i : list string) (r : StrictCatchUpRun) : CatchUpTables :=
  with_runs (tb_runs t ++ [r]) (with_inbox i t).

Lemma checkpoint_valid : valid_strict_checkpoint c = true /\ valid_processing_checkpoint c = true
  /\ date_ok (cp_updatedAtMs c) = true.
Proof.
  destruct (ss_readable _ _ _ _ _ _ _ Hstart) as [_ Hs Hg Hu].
  apply slotFrom_Some in Hs as [_ Hs]. apply millisecondsFrom_Some in Hu as [_ Hu]. cbn [signatureFrom] in Hg.
  destruct (_ || _) eqn:E in Hg; [done|]. rewrite !orb_false_iff, negb_false_iff, Z.ltb_ge in E.
  assert (is_safe_integer (cp_updatedAtMs c) = true) as Hsafe.
  { apply is_safe_integer_true. unfold MAX_DATE_MS, MAX_SAFE_INTEGER in *. lia. }
  assert (valid_processing_checkpoint c = true) as Hv.
  { unfold valid_processing_checkpoint. rewrite !andb_true_iff, !Z.leb_le, Hsafe. rewrite negb_true_iff. tauto. }
  split_and!; [|done|].
  - unfold valid_strict_checkpoint. rewrite !andb_true_iff, !Z.leb_le. tauto.
  - unfold date_ok. rewrite !andb_true_iff, !Z.leb_le. tauto.
Qed.
Lemma checkpoint_key : cp_key c = lp_key program.
Proof. apply (cok_key _ _ (ss_readable _ _ _ _ _ _ _ Hstart)). Qed.
Lemma matches_self : matchesCheckpointBoundary (Some c) (Some c) = true.
Proof. cbn. rewrite !bool_decide_eq_true_2, Z.eqb_refl by done. done. Qed.
Lemma no_runs (f : StrictCatchUpRun -> bool) :
  (forall r, f r = true -> cr_runId r = strictCatchUpRunId (lp_key program) c (sc_providerId scanner)
     \/ cr_checkpointKey r = lp_key program /\ (cr_state r = RUN_ACTIVE
        \/ cp_slot (cr_previous r) = cp_slot c /\ cp_signature (cr_previous r) = cp_signature c
           /\ cr_providerId r = sc_providerId scanner)) ->
  List.filter f (tb_runs t) = [].
Proof.
  intros Hf. pose proof (ss_runs _ _ _ _ _ _ _ Hstart) as Hr. induction (tb_runs t) as [|r l IH]; [done|].
  cbn [List.filter]. destruct (f r) eqn:E.
  - exfalso. destruct (Hr r) as [H1 H2]; [left|]. destruct (Hf r E) as [?|[Hk Hx]]; [done|]. destruct (H2 Hk). tauto.
  - apply IH. intros x Hx. apply Hr. by right.
Qed.
Lemma active_ready hd tl n e j : scan_run_ready c hd tl n e j -> active_run (the_run hd tl n e j) = true.
Proof.
  intros Hr. unfold active_run. rewrite run_object_valid.
  - by rewrite bool_decide_eq_true_2.
  - apply scan_run_ok; [apply Hstart|apply ms_bounds|done].
Qed.

Lemma store_create i hd tl n e : scan_run_ready c hd tl n e 1 ->
  store_createRun (the_run hd tl n e 1) (with_inbox i t) = Some (the_run hd tl n e 1, table_with i (the_run hd tl n e 1)).
Proof.
  intros Hr. unfold store_createRun. rewrite active_ready by done. cbn [negb scan_run cr_checkpointKey cr_previous cr_runId].
  change (checkpoint_row (with_inbox i t) (lp_key program)) with (checkpoint_row t (lp_key program)).
  rewrite (ss_checkpoint _ _ _ _ _ _ _ Hstart). unfold checkpointFromRow.
  destruct checkpoint_valid as (_ & -> & _). cbn [mbind option_bind]. rewrite matches_self. cbn [negb].
  change (tb_runs (with_inbox i t)) with (tb_runs t). rewrite !no_runs; [done| |].
  all: intros r Hr'; rewrite ?andb_true_iff, ?bool_decide_eq_true in Hr'; tauto.
Qed.
Lemma update_run_scan i hd tl n e j next :
  update_run (the_run hd tl n e j) next (table_with i (the_run hd tl n e j)) = Some (table_with i next).
Proof.
  unfold update_run. cbn [table_with with_runs tb_runs].
  assert (forall r, r ∈ tb_runs t -> r <> the_run hd tl n e j) as Hne.
  { intros r Hr ->. by destruct (ss_runs _ _ _ _ _ _ _ Hstart _ Hr) as [? _]. }
  rewrite List.filter_app, map_app. cbn [List.filter map]. rewrite !bool_decide_eq_true_2 by done.
  assert (List.filter (fun r => bool_decide (r = the_run hd tl n e j)) (tb_runs t) = []) as ->.
  { apply no_runs. intros r Hr. apply bool_decide_eq_true in Hr as ->. by left. }
  assert (map (fun r => if bool_decide (r = the_run hd tl n e j) then next else r) (tb_runs t) = tb_runs t) as Em.
  { rewrite <- (map_id (tb_runs t)) at 2. apply map_ext_in. intros r Hr. apply list_elem_of_In in Hr.
    by rewrite bool_decide_eq_false_2 by (by apply Hne). }
  rewrite Em. done.
Qed.
Lemma checkpoint_of_table i r : checkpoint_row (table_with i r) (lp_key program) = Some c.
Proof. apply (ss_checkpoint _ _ _ _ _ _ _ Hstart). Qed.
Lemma store_advance i hd tl n e j tl' n' e' :
  scan_run_ready c hd tl n e j -> scan_run_ready c hd tl' n' e' (j + 1) -> n <= n' -> e <= e' ->
  cs_slot tl' <= cs_slot tl -> cs_signature tl' <> cs_signature tl -> cs_signature tl' <> cs_signature hd ->
  store_advanceRun (the_run hd tl n e j) (the_run hd tl' n' e' (j + 1)) (table_with i (the_run hd tl n e j))
  = Some (table_with i (the_run hd tl' n' e' (j + 1))).
Proof.
  intros Hr Hr' Hn He Hs Hne Hnh. unfold store_advanceRun. rewrite !active_ready by done.
  assert (exact_advance (the_run hd tl n e j) (the_run hd tl' n' e' (j + 1)) = true) as ->.
  { apply bool_decide_eq_true. apply advance_accepts; try done; [apply Hstart|apply ms_bounds]. }
  cbn [negb orb]. change (cr_checkpointKey (the_run hd tl n e j)) with (lp_key program).
  rewrite checkpoint_of_table. unfold checkpointFromRow. destruct checkpoint_valid as (_ & -> & _).
  cbn [mbind option_bind]. change (cr_previous (the_run hd tl n e j)) with c. rewrite matches_self. cbn [negb].
  apply update_run_scan.
Qed.
(** The checkpoint at the head of the history. *)
Lemma next_valid hd : row_good hd -> above c hd ->
  valid_strict_checkpoint (next_checkpoint program ms (head_of hd)) = true
  /\ date_ok ms = true /\ isCheckpointRegression c (next_checkpoint program ms (head_of hd)) = false.
Proof.
  intros Hg [Hslot Hsig]. destruct (row_good_read _ Hg) as [Hs Hl]. apply slotFrom_Some in Hl as [_ Hl].
  destruct ms_bounds as [Hm Hm']. pose proof (cok_updatedAtMs _ _ (ss_readable _ _ _ _ _ _ _ Hstart)) as Hu.
  apply millisecondsFrom_Some in Hu as [_ Hu]. cbn [signatureFrom] in Hs.
  destruct (_ || _) eqn:E in Hs; [done|]. rewrite !orb_false_iff, negb_false_iff, Z.ltb_ge in E.
  assert (is_safe_integer ms = true) as Hsafe.
  { apply is_safe_integer_true. unfold MAX_DATE_MS, MAX_SAFE_INTEGER in *. lia. }
  split_and!.
  - unfold valid_strict_checkpoint, valid_processing_checkpoint. cbn [next_checkpoint cp_slot cp_signature cp_updatedAtMs head_of hd_slot hd_signature].
    rewrite !andb_true_iff, !Z.leb_le, Hsafe, negb_true_iff. split_and!; tauto || lia.
  - unfold date_ok. rewrite !andb_true_iff, !Z.leb_le. split_and!; done || lia.
  - unfold isCheckpointRegression. cbn [next_checkpoint cp_slot cp_signature cp_updatedAtMs head_of hd_slot hd_signature].
    rewrite orb_false_iff, Z.ltb_ge. split; [done|]. rewrite (bool_decide_eq_false_2 (_ = _)) by done.
    by rewrite andb_false_r.
Qed.
Lemma replaced_row t' hd : checkpoint_row t' (lp_key program) = Some c ->
  checkpoint_row (with_checkpoints (replace_checkpoint c (next_checkpoint program ms (head_of hd)) (tb_checkpoints t')) t')
    (lp_key program) = Some (next_checkpoint program ms (head_of hd)).
Proof.
  intros Hrow. rewrite replace_row by apply checkpoint_key. rewrite Hrow. cbn [fmap option_fmap option_map].
  unfold same_boundary. by rewrite matches_self.
Qed.
Lemma store_cas i hd : row_good hd -> above c hd ->
  exists t', compareAndSwapCheckpoint (Some c) (next_checkpoint program ms (head_of hd)) (with_inbox i t) = Some t'
    /\ checkpoint_row t' (lp_key program) = Some (next_checkpoint program ms (head_of hd)) /\ tb_inbox t' = i.
Proof.
  intros Hg Ha. destruct (next_valid hd Hg Ha) as (Hv & Hd & Hr). destruct checkpoint_valid as (Hcv & _ & _).
  unfold compareAndSwapCheckpoint. rewrite Hv, Hcv, Hr.
  change (cp_updatedAtMs (next_checkpoint program ms (head_of hd))) with ms.
  change (cp_key (next_checkpoint program ms (head_of hd))) with (lp_key program). rewrite Hd, checkpoint_key.
  rewrite bool_decide_eq_true_2 by done. cbn [negb orb].
  change (checkpoint_row (with_inbox i t) (lp_key program)) with (checkpoint_row t (lp_key program)).
  rewrite (ss_checkpoint _ _ _ _ _ _ _ Hstart), matches_self. cbn [negb]. eexists. split; [done|]. split; [|done].
  apply (replaced_row (with_inbox i t)). apply (ss_checkpoint _ _ _ _ _ _ _ Hstart).
Qed.
Lemma store_complete i hd tl n e j : scan_run_ready c hd tl n e j -> above c hd ->
  exists t', store_completeRun (the_run hd tl n e j) (next_checkpoint program ms (head_of hd))
               (table_with i (the_run hd tl n e j)) = Some t'
    /\ checkpoint_row t' (lp_key program) = Some (next_checkpoint program ms (head_of hd)) /\ tb_inbox t' = i.
Proof.
  intros Hr Ha. pose proof (sr_pages _ _ _ _ _ _ Hr) as Hj. destruct (next_valid hd (sr_head _ _ _ _ _ _ Hr) Ha) as (Hv & Hd & _).
  unfold store_completeRun. rewrite active_ready, Hv by done. cbn [negb orb].
  change (cp_key (next_checkpoint program ms (head_of hd))) with (lp_key program).
  change (cr_checkpointKey (the_run hd tl n e j)) with (lp_key program). rewrite bool_decide_eq_true_2 by done.
  change (cp_slot (next_checkpoint program ms (head_of hd))) with (hd_slot (cr_observedHead (the_run hd tl n e j))).
  rewrite Z.eqb_refl. change (cp_signature (next_checkpoint program ms (head_of hd)))
    with (hd_signature (cr_observedHead (the_run hd tl n e j))). rewrite bool_decide_eq_true_2 by done.
  change (cp_updatedAtMs (next_checkpoint program ms (head_of hd))) with ms.
  change (cr_updatedAtMs (the_run hd tl n e j)) with ms. rewrite Z.ltb_irrefl. cbn [negb orb].
  rewrite terminalize_accepts; try done.
  2: { apply scan_run_ok; [apply Hstart|apply ms_bounds|done]. }
  2: { apply Z.eqb_neq. cbn [scan_run cr_revision]. lia. }
  2: { cbn [scan_run cr_updatedAtMs]. pose proof (ss_time _ _ _ _ _ _ _ Hstart). lia. }
  cbn [mbind option_bind]. rewrite checkpoint_of_table. unfold checkpointFromRow.
  destruct checkpoint_valid as (_ & -> & _). cbn [mbind option_bind].
  change (cr_previous (the_run hd tl n e j)) with c. rewrite matches_self. cbn [negb].
  set (next := next_checkpoint program ms (head_of hd)).
  set (ended := ended_run (the_run hd tl n e j) RUN_COMPLETED None ms).
  pose proof (update_run_scan i hd tl n e j ended) as Hu. unfold update_run in Hu |- *.
  change (tb_runs (with_checkpoints ?l ?x)) with (tb_runs x).
  destruct (List.filter _ (tb_runs (table_with i (the_run hd tl n e j)))) as [|? [|? ?]]; try done.
  cbn [mbind option_bind]. eexists. split; [done|]. split; [|done].
  apply (replaced_row (table_with i (the_run hd tl n e j))), checkpoint_of_table.
Qed.

(** The run and the tables after the rows [acc] on [j] pages. *)
Definition run_at (acc : list CatchUpSignature) (j : Z) : option StrictCatchUpRun :=
  hd ← head acc; tl ← last acc; Some (the_run hd tl (count classified acc) (count enqueued acc) j).
Definition table_at (i : list string) (acc : list CatchUpSignature) (j : Z) : CatchUpTables :=
  match run_at acc j with None => with_inbox i t | Some r => table_with i r end.

Lemma table_at_inbox i i' acc j : with_inbox i' (table_at i acc j) = table_at i' acc j.
Proof. unfold table_at. by destruct (run_at acc j). Qed.
Lemma inbox_table_at i acc j : tb_inbox (table_at i acc j) = i.
Proof. unfold table_at. by destruct (run_at acc j). Qed.
Lemma enqueue_returns i acc j page :
  returns (enqueue_rows host program ms page) (table_at i acc j) tt (table_at (i ++ map cs_signature page) acc j).
Proof.
  revert i. induction page as [|r page IH]; intros i; cbn [enqueue_rows map]; [rewrite app_nil_r; apply returns_ret|].
  eapply returns_bind; [|rewrite (app_assoc i [cs_signature r] _ : _ ++ _ :: _ = _); apply IH].
  apply returns_operation, returns_write. unfold enqueue. by rewrite table_at_inbox, inbox_table_at.
Qed.
Lemma admit_returns i acc j before page after :
  newer = before ++ page ++ after ->
  returns (admit_rows host scanner program false ms page) (table_at i acc j)
    (count classified page, count enqueued page) (table_at (i ++ map cs_signature page) acc j).
Proof.
  intros E. unfold admit_rows. unfold page_admission in Hadmit. destruct (_ && sc_pageAdmitter scanner); cbn [andb].
  - destruct Hadmit as [_ Hok]. destruct page as [|r page]; [cbn; rewrite app_nil_r; apply returns_ret|]. cbn [negb Nat.eqb List.length].
    apply returns_bind with (answer (r :: page)) (table_at (i ++ map cs_signature (r :: page)) acc j).
    + apply returns_awaited. intros n. exists (S n). unfold call_admit. cbn [admitting_host sh_admit sw_tables sw_calls set_tables].
      by rewrite inbox_table_at, table_at_inbox.
    + rewrite (Hok _ _ _ E) by done. apply returns_ret.
  - rewrite !count_all by apply Hadmit. eapply returns_bind; [apply enqueue_returns|apply returns_ret].
Qed.
Lemma page_size : 1 <= sc_pageSize scanner.
Proof. pose proof (ss_page _ _ _ _ _ _ _ Hstart) as Hp. unfold validLimit in Hp. by bool_prop. Qed.

Lemma rows_after_suffix acc rest tl l :
  NoDup (map cs_signature l) -> l = acc ++ rest -> last acc = Some tl -> rows_after (cs_signature tl) l = rest.
Proof.
  revert acc. induction l as [|r l IH]; intros acc Hn E Hl; [by destruct acc|]. cbn [map] in Hn.
  apply NoDup_cons in Hn as [Hn Hd]. destruct acc as [|x acc]; [done|]. injection E as <- E. cbn [rows_after]. destruct acc as [|y acc].
  - injection Hl as ->. by rewrite bool_decide_eq_true_2.
  - rewrite bool_decide_eq_false_2; [by eapply IH|]. intros Es. apply Hn. rewrite Es. change (l = (y :: acc) ++ rest) in E.
    rewrite E, map_app. apply elem_of_app. left. apply list_elem_of_fmap_2. by apply last_Some_elem_of.
Qed.
Lemma page_returns acc rest t' : rows = acc ++ rest ->
  returns (readPage host scanner program (cs_signature <$> last acc)) t'
    (take (Z.to_nat (sc_pageSize scanner)) rest) t'.
Proof.
  intros E. pose proof page_size as Hp.
  apply returns_bind with (answer_page (take (Z.to_nat (sc_pageSize scanner))
    (next_rows rows (cs_signature <$> last acc)))) t'.
  - apply returns_awaited. intros n. exists (S n). reflexivity.
  - cbv beta. assert (next_rows rows (cs_signature <$> last acc) = rest) as ->.
    { destruct (last acc) as [tl|] eqn:El; cbn [fmap option_fmap option_map next_rows].
      - eapply rows_after_suffix; [apply (ss_distinct _ _ _ _ _ _ _ Hstart)|done|done].
      - apply last_None in El as ->. done. }
    rewrite answer_page_good; [apply returns_ret| |apply (ss_page _ _ _ _ _ _ _ Hstart)|].
    + apply Forall_take. pose proof (ss_good _ _ _ _ _ _ _ Hstart) as Hg. rewrite E in Hg.
      by apply Forall_app in Hg as [_ ?].
    + rewrite length_take. lia.
Qed.

(** The pages counted by the run of [acc]. *)
Definition pages_ok (acc : list CatchUpSignature) (j : Z) : Prop :=
  match acc with [] => j = 0 | _ => 1 <= j <= Z.of_nat (List.length acc) end.
Lemma later_rows acc page rest x y :
  newer = acc ++ page ++ rest -> x ∈ acc -> y ∈ page -> cs_signature y <> cs_signature x.
Proof.
  intros E Hx Hy Es. destruct (ss_boundary _ _ _ _ _ _ _ Hstart) as (row & older & Er & _ & _).
  pose proof (ss_distinct _ _ _ _ _ _ _ Hstart) as Hn. rewrite Er, E, !map_app, <- app_assoc in Hn.
  apply NoDup_app in Hn as (_ & Hn & _). apply (Hn (cs_signature x)); [by apply list_elem_of_fmap_2|].
  rewrite <- Es. apply elem_of_app. left. apply elem_of_app. left. by apply list_elem_of_fmap_2.
Qed.
Lemma later_slot acc page rest tl y :
  newer = acc ++ page ++ rest -> last acc = Some tl -> y ∈ page -> cs_slot y <= cs_slot tl.
Proof.
  intros E Hl Hy. destruct (ss_boundary _ _ _ _ _ _ _ Hstart) as (row & older & Er & _ & _).
  pose proof (ss_slots _ _ _ _ _ _ _ Hstart) as Hd. rewrite Er, E, <- !app_assoc in Hd.
  apply descends_app in Hd as [_ Hd]. apply descends_app in Hd as [Hd _]. unfold last_slot in Hd. rewrite Hl in Hd.
  apply descends_le in Hd. by apply (proj1 (Forall_forall _ _) Hd).
Qed.
Lemma ends_of {A} (l : list A) : l <> [] -> exists hd tl, head l = Some hd /\ last l = Some tl /\ hd ∈ l /\ tl ∈ l.
Proof.
  intros Hl. destruct l as [|x l]; [done|]. destruct (last (x :: l)) as [tl|] eqn:E; [|by apply last_None in E].
  exists x, tl. split_and!; try done; [left|by apply last_Some_elem_of].
Qed.
Lemma run_at_Some acc j hd tl : head acc = Some hd -> last acc = Some tl ->
  run_at acc j = Some (the_run hd tl (count classified acc) (count enqueued acc) j).
Proof. intros Hh Hl. unfold run_at. rewrite Hh. cbn [mbind option_bind]. by rewrite Hl. Qed.

(** A page is recorded: the run is created by the first and advanced by the others. *)
Lemma progress_returns i acc page rest j found :
  newer = acc ++ page ++ rest -> page <> [] -> pages_ok acc j -> (acc = [] -> found = false) ->
  returns (record_progress host scanner program (Some c) ms (run_at acc j) (head_of <$> head (acc ++ page))
             (cs_signature <$> last acc) found page (count classified page, count enqueued page))
    (table_at i acc j) (run_at (acc ++ page) (j + 1), cs_signature <$> last (acc ++ page))
    (table_at i (acc ++ page) (j + 1)).
Proof.
  intros E Hp Hj Hf. destruct (ends_of page Hp) as (phd & tl' & Eh & El & Hhd & Htl).
  assert (last (acc ++ page) = Some tl') as El' by (by rewrite last_app, El).
  unfold record_progress. rewrite El. destruct acc as [|x acc].
  - rewrite Hf by done. cbn [app head] in *. cbn in Hj. subst j. rewrite Eh.
    unfold table_at. rewrite !(run_at_Some page _ phd tl') by done. cbn [fmap option_fmap option_map andb fst snd].
    change (run_at [] 0) with (@None StrictCatchUpRun). cbn iota. eapply returns_bind.
    + apply returns_operation. eapply returns_bind.
      * apply returns_require. apply create_accepts; [apply Hstart|apply ms_bounds|].
        eapply prefix_ready; [exact E|done|done|]. destruct page; [done|]. cbn [List.length]. lia.
      * apply returns_store, store_create. eapply prefix_ready; [exact E|done|done|].
        destruct page; [done|]. cbn [List.length]. lia.
    + rewrite El. apply returns_ret.
  - set (acc' := x :: acc) in *. destruct (ends_of acc') as (hd & tl & Ah & Al & Ahd & Atl); [done|].
    assert (head (acc' ++ page) = Some hd) as Ah' by done.
    assert (scan_run_ready c hd tl (count classified acc') (count enqueued acc') j) as Hr by (by eapply prefix_ready).
    assert (scan_run_ready c hd tl' (count classified (acc' ++ page)) (count enqueued (acc' ++ page)) (j + 1)) as Hr'.
    { eapply prefix_ready; [by rewrite E, app_assoc|done|done|]. cbn in Hj. rewrite length_app.
      destruct page; [done|]. cbn [List.length acc']. lia. }
    unfold table_at. rewrite (run_at_Some acc' j hd tl), (run_at_Some (acc' ++ page) _ hd tl'), Ah', El' by done.
    cbn [fmap option_fmap option_map fst snd]. rewrite bool_decide_eq_false_2, andb_false_r by done.
    eapply returns_bind.
    + apply returns_operation. eapply returns_bind.
      * apply returns_require. eapply (advance_accepts program (sc_providerId scanner) c ms); try done;
          [apply Hstart|apply ms_bounds|apply count_grows|apply count_grows|by eapply later_slot|by eapply later_rows..|].
        rewrite !count_app. intros key Hk. unfold ADVANCE_RUN_KEYS in Hk.
        rewrite !elem_of_cons, elem_of_nil in Hk. repeat destruct Hk as [->|Hk]; reflexivity || done.
      * eapply returns_bind; [|apply returns_ret]. apply returns_write, store_advance; try done;
          [apply count_grows|apply count_grows|by eapply later_slot|by eapply later_rows..].
    + apply returns_ret.
Qed.

(** The tables when the checkpoint stands at the head of the history and the inbox is [i]. *)
Definition caught_up (i : list string) (t' : CatchUpTables) : Prop :=
  checkpoint_row t' (lp_key program)
    = Some match head newer with Some hd => next_checkpoint program ms (head_of hd) | None => c end
  /\ tb_inbox t' = i.

Lemma head_ready acc rest hd : newer = acc ++ rest -> head acc = Some hd -> row_good hd /\ above c hd.
Proof.
  intros E Hh. destruct (ss_boundary _ _ _ _ _ _ _ Hstart) as (row & older & Er & _ & _).
  pose proof (ss_good _ _ _ _ _ _ _ Hstart) as Hg. pose proof newer_above as Ha. rewrite Er in Hg.
  rewrite E in Hg, Ha. destruct acc as [|x acc]; [done|]. injection Hh as ->.
  by apply Forall_cons in Hg as [? _]; apply Forall_cons in Ha as [? _].
Qed.
Lemma finish_returns i acc j run t' :
  newer = acc ->
  (run = None /\ t' = with_inbox i t) \/ (pages_ok acc j /\ run = run_at acc j /\ t' = table_at i acc j) ->
  exists n t'', returns (finish host program (Some c) ms run (head_of <$> head acc)) t' n t'' /\ caught_up i t''.
Proof.
  intros E Hrun. unfold caught_up, finish. rewrite E. destruct (head acc) as [hd|] eqn:Hh.
  - cbn [fmap option_fmap option_map]. destruct (head_ready acc [] hd) as [Hg Ha]; [by rewrite app_nil_r|done|].
    assert (acc <> []) as Hne by (by intros ->). destruct (ends_of acc Hne) as (hd' & tl & Hh' & Hl & _).
    rewrite Hh in Hh'. injection Hh' as <-.
    assert (run = None /\ t' = with_inbox i t
            \/ pages_ok acc j /\ run = Some (the_run hd tl (count classified acc) (count enqueued acc) j)
               /\ t' = table_with i (the_run hd tl (count classified acc) (count enqueued acc) j)) as [[-> ->]|(Hj & -> & ->)].
    { unfold table_at in Hrun. by rewrite (run_at_Some acc j hd tl) in Hrun. }
    + destruct (store_cas i hd Hg Ha) as (t'' & Hcas & Hrow & Hi). exists 1, t''. split; [|done].
      eapply returns_bind; [by apply returns_operation, returns_write|apply returns_ret].
    + assert (scan_run_ready c hd tl (count classified acc) (count enqueued acc) j) as Hr.
      { eapply (prefix_ready acc []); [by rewrite app_nil_r|done|done|]. by destruct acc. }
      destruct (store_complete i hd tl _ _ j Hr Ha) as (t'' & Hcas & Hrow & Hi). exists 1, t''. split; [|done].
      eapply returns_bind; [by apply returns_operation, returns_write|apply returns_ret].
  - apply head_None in Hh. clear E. subst acc.
    assert (t' = with_inbox i t) as -> by (by destruct Hrun as [[_ ?]|(_ & _ & ?)]).
    exists 0, (resolveStrictCatchUpFailuresAt (lp_key program) (Some c) (with_inbox i t)). split.
    + eapply returns_bind; [|apply returns_ret]. apply returns_operation, returns_write.
      unfold resolveStrictCatchUpFailures. destruct checkpoint_valid as (-> & _ & _).
      by rewrite bool_decide_eq_true_2 by apply checkpoint_key.
    + split; [|done]. apply (ss_checkpoint _ _ _ _ _ _ _ Hstart).
Qed.

(** The variables of the loop after the rows [acc]. *)
Record loop_at (acc : list CatchUpSignature) (j : Z) (st : loop_state) : Prop := {
  la_run : ls_run st = run_at acc j;
  la_signatures : ls_signatures st = map cs_signature acc;
  la_before : ls_before st = cs_signature <$> last acc;
  la_previousSlot : ls_previousSlot st = last_slot None acc;
  la_observedHead : ls_observedHead st = head_of <$> head acc;
  la_discoveries : discovered_seen (ls_discoveries st) (map cs_signature acc);
}.
(** The state of a page before its rows. *)
Definition page_start (st : loop_state) : page_state :=
  {| pg_signatures := ls_signatures st; pg_previousSlot := ls_previousSlot st;
     pg_discoveries := ls_discoveries st; pg_rows := []; pg_boundaryFound := false;
     pg_crossedBoundarySlot := false |}.
(** A page of newer rows is accepted. *)
Lemma page_accepts acc page rest tail j st :
  newer = acc ++ page ++ rest -> loop_at acc j st ->
  exists d, discovered_seen d (map cs_signature (acc ++ page))
    /\ scan_page (lp_id program) (Some c) false (page ++ tail) (page_start st)
       = scan_page (lp_id program) (Some c) false tail (accepted d (page_start st) page).
Proof.
  intros E Hla. destruct (ss_boundary _ _ _ _ _ _ _ Hstart) as (row & older & Er & _ & _).
  pose proof (ss_good _ _ _ _ _ _ _ Hstart) as Hg. pose proof newer_above as Ha.
  pose proof (ss_slots _ _ _ _ _ _ _ Hstart) as Hd. pose proof (ss_distinct _ _ _ _ _ _ _ Hstart) as Hn.
  rewrite Er, E, <- !app_assoc in Hg, Hd, Hn. rewrite E in Ha. rewrite map_app, (map_app _ page), app_assoc in Hn.
  apply Forall_app in Hg as [_ Hg]. apply Forall_app in Hg as [Hg _]. apply Forall_app in Ha as [_ Ha].
  apply Forall_app in Ha as [Ha _]. apply descends_app in Hd as [_ Hd]. apply descends_app in Hd as [Hd _].
  apply NoDup_app in Hn as (Hn & _ & _). rewrite map_app.
  destruct (scan_page_accepts (lp_id program) c page tail (page_start st)) as (d & Hd' & Ed); try done;
    cbn [page_start pg_previousSlot pg_signatures pg_discoveries].
  - by rewrite (la_previousSlot _ _ _ Hla).
  - by rewrite (la_signatures _ _ _ Hla).
  - rewrite (la_signatures _ _ _ Hla). apply (la_discoveries _ _ _ Hla).
  - exists d. split; [|done]. cbn [page_start pg_signatures] in Hd'. by rewrite (la_signatures _ _ _ Hla) in Hd'.
Qed.
(** The page that has the checkpoint. *)
Lemma page_reaches acc rest row older j st :
  newer = acc ++ rest -> rows = newer ++ row :: older -> cs_signature row = cp_signature c -> cs_slot row = cp_slot c ->
  loop_at acc j st ->
  forall tail, exists pg, scan_page (lp_id program) (Some c) false (rest ++ row :: tail) (page_start st) = Ok pg
    /\ pg_rows pg = rest /\ pg_boundaryFound pg = true.
Proof.
  intros E Er Hs Hl Hla tail. pose proof (ss_good _ _ _ _ _ _ _ Hstart) as Hg.
  pose proof (ss_slots _ _ _ _ _ _ _ Hstart) as Hd. pose proof (ss_distinct _ _ _ _ _ _ _ Hstart) as Hn.
  destruct (page_accepts acc rest [] (row :: tail) j st) as (d & _ & ->); [by rewrite app_nil_r|done|].
  rewrite Er in Hg, Hd, Hn. apply Forall_app in Hg as [_ Hg]. apply Forall_cons in Hg as [Hg _].
  apply descends_app in Hd as [_ Hd]. destruct Hd as [Hd _]. rewrite map_app in Hn.
  apply NoDup_app in Hn as (_ & Hn & _). rewrite scan_page_boundary; try done.
  - eexists. split; [done|]. split; done.
  - cbn [accepted pg_previousSlot page_start]. by rewrite (la_previousSlot _ _ _ Hla), <- last_slot_app, <- E.
  - cbn [accepted pg_signatures page_start]. rewrite (la_signatures _ _ _ Hla), <- map_app, <- E. intros Hin.
    apply (Hn _ Hin). left.
Qed.

Lemma observed_head acc page j st : loop_at acc j st ->
  match ls_observedHead st with
  | Some head => Some head
  | None => (fun r => {| hd_slot := cs_slot r; hd_signature := cs_signature r |}) <$> head page
  end = head_of <$> head (acc ++ page).
Proof. intros Hla. rewrite (la_observedHead _ _ _ Hla). by destruct acc. Qed.

(** The page that has the checkpoint ends the scan: a run is advanced and completed, and a scan
    of one page moves the checkpoint itself. *)
Lemma last_page_returns i acc rest j : newer = acc ++ rest -> pages_ok acc j ->
  exists run t1 n t',
    returns (record_progress host scanner program (Some c) ms (run_at acc j) (head_of <$> head (acc ++ rest))
      (cs_signature <$> last acc) true rest (count classified rest, count enqueued rest))
      (table_at i acc j) run t1
    /\ returns (finish host program (Some c) ms (fst run) (head_of <$> head (acc ++ rest))) t1 n t'
    /\ caught_up i t'.
Proof.
  intros E Hj. destruct (decide (acc = [] \/ rest = [])) as [Hone|Hmore].
  - exists (run_at acc j, cs_signature <$> last acc), (table_at i acc j).
    assert ((run_at acc j = None /\ table_at i acc j = with_inbox i t)
            \/ pages_ok (acc ++ rest) j /\ run_at acc j = run_at (acc ++ rest) j
               /\ table_at i acc j = table_at i (acc ++ rest) j) as Hrun.
    { destruct Hone as [-> | ->]; [by left|right]. by rewrite app_nil_r. }
    destruct (finish_returns i (acc ++ rest) j (run_at acc j) (table_at i acc j)) as (n & t' & Hf & Hd); [done..|].
    exists n, t'. split_and!; [|done|done]. unfold record_progress. destruct Hone as [-> | ->].
    + destruct (last rest), (head_of <$> head ([] ++ rest)); apply returns_ret.
    + cbn [last]. apply returns_ret.
  - apply Decidable.not_or in Hmore as [Ha Hr].
    destruct (finish_returns i (acc ++ rest) (j + 1) (run_at (acc ++ rest) (j + 1)) (table_at i (acc ++ rest) (j + 1)))
      as (n & t' & Hf & Hd); [done|right; split; [|done]|].
    { unfold pages_ok in *. destruct acc; [done|]. destruct rest; [done|]. cbn [app List.length] in *.
      rewrite length_app. cbn [List.length]. lia. }
    exists (run_at (acc ++ rest) (j + 1), cs_signature <$> last (acc ++ rest)), (table_at i (acc ++ rest) (j + 1)), n, t'.
    split_and!; [|exact Hf|done]. eapply progress_returns with (rest := []); try done.
    by rewrite app_nil_r.
Qed.

Section Loop.
Context (boundaries : StrictCatchUpBoundaries) (Hboundary : boundary boundaries (lp_key program) = Some c).

(** What a scan from the rows [acc] onwards returns. *)
Definition completes (refresh : bool) (remaining : nat) (pageCount : Z) (st : loop_state)
    (i : list string) (acc rest : list CatchUpSignature) (j : Z) : Prop :=
  exists r t', returns (scan_pages host scanner program boundaries ms false refresh remaining pageCount st)
                 (table_at i acc j) r t'
    /\ ps_refreshRequired (fst r) = refresh /\ caught_up (i ++ map cs_signature rest) t'.

Lemma last_page_completes refresh remaining acc rest j pageCount st i :
  newer = acc ++ rest -> Z.of_nat (List.length rest) < sc_pageSize scanner ->
  pages_ok acc j -> loop_at acc j st -> completes refresh (S remaining) pageCount st i acc rest j.
Proof.
  intros E Hshort Hj Hla. destruct (ss_boundary _ _ _ _ _ _ _ Hstart) as (row & older & Er & Hs & Hl).
  assert (rows = acc ++ rest ++ row :: older) as Erows by (by rewrite Er, E, <- app_assoc).
  pose proof (page_returns acc (rest ++ row :: older) (table_at i acc j) Erows) as Hpage.
  assert (exists tail, take (Z.to_nat (sc_pageSize scanner)) (rest ++ row :: older) = rest ++ row :: tail)
    as (tail & Etake).
  { rewrite take_app_ge by lia. destruct (Z.to_nat (sc_pageSize scanner) - List.length rest)%nat eqn:En; [lia|].
    by eexists. }
  rewrite Etake in Hpage. destruct (page_reaches acc rest row older j st E Er Hs Hl Hla tail) as (pg & Epg & Erest & Efound).
  destruct (last_page_returns (i ++ map cs_signature rest) acc rest j E Hj)
    as (run & t1 & n & t' & Hprogress & Hfinish & Hdone).
  eexists _, t'. split; [|split; [|exact Hdone]]; [cbn [scan_pages]; cbv zeta; rewrite Hboundary|].
  - eapply returns_bind; [rewrite (la_before _ _ _ Hla); exact Hpage|]. cbv beta.
    eapply returns_bind; [unfold page_start in Epg; rewrite Epg; apply returns_ret|]. cbv beta.
    rewrite Erest, (observed_head acc rest j st Hla), Efound.
    eapply returns_bind; [apply (admit_returns _ _ _ acc rest []); by rewrite app_nil_r|]. cbv beta.
    eapply returns_bind; [rewrite (la_before _ _ _ Hla), (la_run _ _ _ Hla); exact Hprogress|]. cbv beta.
    eapply returns_bind; [exact Hfinish|]. apply returns_ret.
  - done.
Qed.
Lemma full_page_completes refresh remaining acc page rest j pageCount st i :
  newer = acc ++ page ++ rest -> Z.of_nat (List.length page) = sc_pageSize scanner ->
  pages_ok acc j -> loop_at acc j st ->
  (forall pageCount' st' i', loop_at (acc ++ page) (j + 1) st' ->
     completes refresh remaining pageCount' st' i' (acc ++ page) rest (j + 1)) ->
  completes refresh (S remaining) pageCount st i acc (page ++ rest) j.
Proof.
  intros E Hlp Hj Hla Hnext. destruct (ss_boundary _ _ _ _ _ _ _ Hstart) as (row & older & Er & _ & _).
  assert (rows = acc ++ page ++ rest ++ row :: older) as Erows by (by rewrite Er, E, <- !app_assoc).
  pose proof (page_returns acc (page ++ rest ++ row :: older) (table_at i acc j) Erows) as Hpage.
  rewrite take_app_length' in Hpage by lia. pose proof page_size as Hps.
  destruct (page_accepts acc page rest [] j st E Hla) as (d & Hseen & Epg). rewrite app_nil_r in Epg.
  cbn [scan_page] in Epg. assert (page <> []) as Hne by (intros Ep; rewrite Ep in Hlp; cbn in Hlp; lia).
  set (st' := {| ls_run := run_at (acc ++ page) (j + 1); ls_signatures := ls_signatures st ++ map cs_signature page;
    ls_before := cs_signature <$> last (acc ++ page); ls_previousSlot := last_slot (ls_previousSlot st) page;
    ls_observedHead := head_of <$> head (acc ++ page);
    ls_discoveredCount := ls_discoveredCount st + Z.of_nat (List.length page);
    ls_enqueuedCount := ls_enqueuedCount st + count enqueued page; ls_discoveries := d |}).
  destruct (Hnext (pageCount + 1) st' (i ++ map cs_signature page)) as (r & t' & Hloop & Hrefresh & Hdone).
  { split; cbn [st' ls_run ls_signatures ls_before ls_previousSlot ls_observedHead ls_discoveries]; try done.
    - by rewrite (la_signatures _ _ _ Hla), map_app.
    - by rewrite (la_previousSlot _ _ _ Hla), last_slot_app. }
  exists r, t'. split_and!; [cbn [scan_pages]; cbv zeta; rewrite Hboundary|done|by rewrite map_app, app_assoc].
  eapply returns_bind; [rewrite (la_before _ _ _ Hla); exact Hpage|]. cbv beta.
  eapply returns_bind; [unfold page_start in Epg; rewrite Epg; apply returns_ret|]. cbv beta.
  cbn [accepted pg_rows pg_boundaryFound pg_crossedBoundarySlot pg_signatures pg_previousSlot pg_discoveries app].
  change (pg_rows (page_start st)) with (@nil CatchUpSignature). cbn [app].
  rewrite (observed_head acc page j st Hla). eapply returns_bind; [by apply (admit_returns _ _ _ acc page rest)|]. cbv beta.
  eapply returns_bind.
  { rewrite (la_before _ _ _ Hla), (la_run _ _ _ Hla). by eapply progress_returns. }
  cbv beta. cbn [fst snd page_start pg_boundaryFound pg_crossedBoundarySlot pg_signatures pg_previousSlot].
  rewrite (proj2 (Z.ltb_ge _ _)) by lia. exact Hloop.
Qed.
(** The loop returns from every point from which the checkpoint is within reach. *)
Lemma scan_pages_completes refresh remaining acc rest j pageCount st i :
  newer = acc ++ rest -> Z.of_nat (List.length rest) < sc_pageSize scanner * Z.of_nat remaining ->
  pages_ok acc j -> loop_at acc j st -> completes refresh remaining pageCount st i acc rest j.
Proof.
  pose proof page_size as Hps. revert acc rest j pageCount st i.
  induction remaining as [|remaining IH]; intros acc rest j pageCount st i E Hlen Hj Hla; [lia|].
  destruct (decide (Z.of_nat (List.length rest) < sc_pageSize scanner)) as [Hshort|Hfull].
  { by apply last_page_completes. }
  rewrite <- (take_drop (Z.to_nat (sc_pageSize scanner)) rest) in E, Hlen |- *.
  set (page := take _ rest) in *. set (rest' := drop _ rest) in *.
  assert (Z.of_nat (List.length page) = sc_pageSize scanner) as Hlp by (unfold page; rewrite length_take; lia).
  rewrite length_app in Hlen. apply full_page_completes; try done. intros pageCount' st' i' Hla'.
  apply IH; [by rewrite <- app_assoc|lia| |done]. unfold pages_ok in *.
  destruct page; [cbn in Hlp; lia|]. destruct acc; cbn [app List.length] in *; [lia|].
  rewrite length_app. cbn [List.length]. lia.
Qed.
End Loop.

(** The scan of the program returns with the checkpoint at the head of the history. *)
Lemma scanProgram_completes boundaries discoveries :
  boundary boundaries (lp_key program) = Some c ->
  Z.of_nat (List.length newer) < sc_pageSize scanner * Z.of_nat (sc_maxPages scanner) -> discoveries = [] ->
  exists r t', returns (scanProgram host scanner program boundaries ms discoveries None) t r t'
    /\ ps_refreshRequired (fst r) = false /\ caught_up (tb_inbox t ++ map cs_signature newer) t'.
Proof.
  intros Hb Hlen ->. unfold scanProgram. rewrite Hb.
  destruct (scan_pages_completes boundaries Hb false (sc_maxPages scanner) [] newer 0 1
    {| ls_run := None; ls_signatures := []; ls_before := None; ls_previousSlot := None; ls_observedHead := None;
       ls_discoveredCount := 0; ls_enqueuedCount := 0; ls_discoveries := [] |} (tb_inbox t)) as (r & t' & Hr & Hf & Hd);
    [done..|split; done || by intros s Hs|].
  exists r, t'. split_and!; [|done|done].
  assert (historical_run scanner program c t = Some None) as Hh.
  { unfold historical_run, readStrictCatchUpRun. destruct checkpoint_valid as (-> & _ & _).
    rewrite bool_decide_eq_true_2 by apply checkpoint_key. cbn [negb orb]. rewrite no_runs; [done|].
    intros x Hx. rewrite !andb_true_iff, !bool_decide_eq_true, Z.eqb_eq in Hx. tauto. }
  apply returns_bind with None t.
  { eapply returns_bind; [by apply returns_operation, returns_read|]. apply returns_ret. }
  cbv beta. eapply returns_bind; [apply returns_ret|]. cbv beta.
  rewrite (bool_decide_eq_false_2 (Some c = None)), andb_false_r by done. cbn [andb].
  rewrite bool_decide_eq_true_2 by done. cbn [negb fmap option_fmap option_map].
  unfold table_at in Hr. cbn in Hr. by destruct t.
Qed.
(** What the scan reads before its pages. *)
Lemma now_returns : returns (readNow host) t ms t.
Proof.
  intros n. exists (S n). unfold readNow. cbn [admitting_host sh_clock mbind option_bind].
  rewrite (ms_read program c ms (ss_readable _ _ _ _ _ _ _ Hstart) ms_bounds). done.
Qed.
Lemma boundary_returns :
  returns (scanner_readCheckpoint host (lp_key program)) t (Some c) t.
Proof.
  apply returns_operation, returns_read. unfold readCheckpoint. rewrite (ss_checkpoint _ _ _ _ _ _ _ Hstart).
  unfold checkpointFromRow. destruct checkpoint_valid as (_ & -> & _). cbn [mbind option_bind scanner_checkpoint].
  by rewrite (checked_checkpoint _ _ _ (checkedCheckpoint_object _ _ (ss_readable _ _ _ _ _ _ _ Hstart))).
Qed.
Lemma active_returns : returns (operation host ST_RUN_READ (lp_key program) (store_read host (active_run_of (lp_key program)))) t None t.
Proof.
  apply returns_operation, returns_read. unfold active_run_of, readActiveStrictCatchUpRun.
  rewrite no_runs; [done|]. intros x Hx. rewrite !andb_true_iff, !bool_decide_eq_true in Hx. tauto.
Qed.
End Scan.

(** C7: a catch-up scan completes.  Take a scanner of one program whose stored checkpoint is a row
    of the provider's history, a list of distinct valid rows whose slots do not rise, with fewer
    newer rows than the pages of the budget can hold.  Let every stored run of the program have
    ended and none be of this checkpoint and provider (a failed one would make the scan throw);
    let the clock not be behind the checkpoint, the provider answer honestly, and a page admitter,
    where one is used, give a valid receipt for each row of its page; and let there be no abort
    and no fault.  Then the scan returns, the checkpoint stands at the newest row of the history
    (where there is no newer row it stays), and exactly the newer rows were enqueued or handed to
    the admitter, the newest first. *)
Theorem catch_up_completes `{Sha256} (scanner : StrictCatchUpScanner) (program : ListenerIngestionProgram)
    (rows newer : list CatchUpSignature) (c : ProcessingCheckpoint) (ms : Z) (t : CatchUpTables)
    (answer : list CatchUpSignature -> js) (classified enqueued : CatchUpSignature -> bool)
    (Hstart : scan_start scanner program rows newer c ms t)
    (Hadmit : page_admission scanner program newer answer classified enqueued) (Hprograms : sc_programs scanner = [program])
    (Hbudget : Z.of_nat (List.length newer) < sc_pageSize scanner * Z.of_nat (sc_maxPages scanner)) :
  exists result w,
    strict_scan (admitting_host rows ms answer) scanner {| sw_tables := t; sw_calls := 0 |} = (Ok result, w)
    /\ checkpoint_row (sw_tables w) (lp_key program)
       = Some match head newer with Some hd => next_checkpoint program ms (head_of hd) | None => c end
    /\ tb_inbox (sw_tables w) = tb_inbox t ++ map cs_signature newer.
Proof.
  set (b := set_boundary (lp_key program) (Some c) {| bd_launchpad := None; bd_market := None |}).
  assert (boundary b (lp_key program) = Some c) as Hb by (unfold b; by destruct (lp_key program)).
  destruct (scanProgram_completes _ _ _ _ _ _ _ Hstart _ _ _ Hadmit b []) as (r & t' & Hr & Hf & Hrow & Hi); [done..|].
  assert (exists result, returns (strict_scan (admitting_host rows ms answer) scanner) t result t') as (result & Hscan).
  { eexists. unfold strict_scan. rewrite Hprograms. eapply returns_bind; [apply returns_abort|].
    eapply returns_bind; [eapply now_returns; exact Hstart|]. apply returns_bind with b t.
    { cbn [read_boundaries]. eapply returns_bind; [|apply returns_ret]. by eapply returns_awaited, boundary_returns. }
    apply returns_bind with ([], []) t.
    { cbn [read_runs]. eapply returns_bind; [by eapply active_returns|apply returns_ret]. }
    cbn [fst snd resume_runs supersede_runs]. do 2 (eapply returns_bind; [apply returns_ret|]).
    eapply returns_bind; [|apply returns_ret]. cbn [scan_programs].
    eapply returns_bind; [by apply returns_awaited|]. cbv beta. rewrite Hf. apply returns_ret. }
  destruct (Hscan 0%nat) as [n E]. eexists _, _. split; [exact E|done].
Qed.

(** The five transactions of the launchpad in one scan of three pages, over a page admitter that
    classifies each and enqueues all but the third, after a run of an earlier boundary completed. *)
Definition launch_program : ListenerIngestionProgram :=
  {| lp_key := CK_LAUNCHPAD; lp_family := FAMILY_PUMPFUN; lp_id := "launchpad-program" |}.
Definition admitting_scanner : StrictCatchUpScanner :=
  {| sc_providerId := RPC_PRIMARY; sc_pageSize := 2; sc_maxPages := 3; sc_policy := POLICY_STRICT;
     sc_programs := [launch_program]; sc_pageAdmitter := true |}.
Definition all_classified (r : CatchUpSignature) : bool := true.
Definition some_enqueued (r : CatchUpSignature) : bool := negb (String.eqb (cs_signature r) "sig3").
Definition admission_receipt (r : CatchUpSignature) : js :=
  object_of RECEIPT_KEYS (receipt_value
    {| rc_signature := cs_signature r; rc_slot := cs_slot r;
       rc_disposition := Some (if some_enqueued r then CL_ACTIONABLE else CL_IGNORED);
       rc_persistence := CL_RECORDED; rc_admission := if some_enqueued r then CL_ENQUEUED else CL_NOT_ENQUEUED;
       rc_ingestionPriority := if some_enqueued r then Some CL_NORMAL else None |}).
Definition admission_answer (page : list CatchUpSignature) : js :=
  frozen_object ObjectPrototype
    [("receipts", frozen_array (map admission_receipt page));
     ("signaturesClassified", JBigInt (count all_classified page));
     ("signaturesEnqueued", JBigInt (count some_enqueued page))].
Definition launch_checkpoint (slot : Z) (signature : string) : ProcessingCheckpoint :=
  {| cp_key := CK_LAUNCHPAD; cp_slot := slot; cp_signature := signature; cp_updatedAtMs := 1000 |}.
Definition earlier_run : StrictCatchUpRun :=
  {| cr_runId := "earlier"; cr_checkpointKey := CK_LAUNCHPAD; cr_previous := launch_checkpoint 5 "sig0";
     cr_providerId := RPC_PRIMARY; cr_observedHead := {| hd_slot := 10; hd_signature := "sig1" |};
     cr_beforeSignature := "sig1"; cr_lastAcceptedSlot := 10; cr_pagesScanned := 1; cr_signaturesEnqueued := 1;
     cr_signaturesClassified := 1; cr_revision := 1; cr_state := RUN_COMPLETED; cr_terminalReason := None;
     cr_startedAtMs := 1000; cr_updatedAtMs := 1000; cr_completedAtMs := Some 1000;
     cr_purgeAfterMs := Some (1000 + STRICT_CATCH_UP_RUN_RETENTION_MS) |}.
Definition launch_tables : CatchUpTables :=
  {| tb_checkpoints := [launch_checkpoint 10 "sig1"]; tb_runs := [earlier_run]; tb_failures := []; tb_inbox := [] |}.
(** The pieces of a list. *)
Definition pieces (l : list CatchUpSignature) : list (list CatchUpSignature) :=
  flat_map (fun i => map (fun n => take n (drop i l)) (List.seq 0 (S (List.length l)))) (List.seq 0 (S (List.length l))).
Lemma in_pieces a p b l : l = a ++ p ++ b -> In p (pieces l).
Proof.
  intros ->. apply in_flat_map. exists (List.length a). split; [apply in_seq; rewrite length_app; lia|].
  apply in_map_iff. exists (List.length p). split; [by rewrite drop_app_length, take_app_length|].
  apply in_seq. rewrite !length_app. lia.
Qed.
Lemma catch_up_completes_witness :
  let S : Sha256 := run_digest in
  exists result w,
    strict_scan (admitting_host sample_rows 2000 admission_answer) admitting_scanner
      {| sw_tables := launch_tables; sw_calls := 0 |} = (Ok result, w)
    /\ cp_signature <$> checkpoint_row (sw_tables w) CK_LAUNCHPAD = Some "sig5"
    /\ tb_inbox (sw_tables w) = ["sig5"; "sig4"; "sig3"; "sig2"].
Proof.
  intros S. destruct (catch_up_completes admitting_scanner launch_program sample_rows (take 4 sample_rows)
    (launch_checkpoint 10 "sig1") 2000 launch_tables admission_answer all_classified some_enqueued)
    as (result & w & E & Hrow & Hi).
  - split.
    + reflexivity.
    + repeat constructor.
    + apply (bool_decide_unpack _). vm_compute. exact I.
    + cbn. split_and!; lia || exact I.
    + eexists _, _. split; [reflexivity|]. split; reflexivity.
    + cbn. unfold MAX_STRICT_CATCH_UP_RUN_COUNTER. lia.
    + reflexivity.
    + split; reflexivity.
    + cbn [launch_checkpoint cp_updatedAtMs]. unfold MAX_DATE_MS, STRICT_CATCH_UP_RUN_RETENTION_MS. lia.
    + intros r Hr%list_elem_of_singleton. subst r. split; [discriminate|]. intros _. split; [discriminate|].
      intros [Hslot _]. discriminate Hslot.
  - split; [reflexivity|]. intros a p b Hp Hne. apply in_pieces in Hp. vm_compute in Hp.
    repeat (destruct Hp as [<-|Hp]; [by vm_compute || by destruct Hne|]). destruct Hp.
  - reflexivity.
  - cbn. lia.
  - exists result, w. split; [exact E|]. split; [|exact Hi]. change CK_LAUNCHPAD with (lp_key launch_program).
    rewrite Hrow. reflexivity.
Defined.
