(* ===== verification/SwapQuote.v ===== *)
(** [src/src/markets/pumpswap/pumpswap-quote.provider.ts], [reserve-math.ts] and the market types
    of [src/src/domain/market.ts]: quotes on a PumpSwap pool.

    A constant-product pool with fees in basis points, chosen by tiers of market
    capitalisation; amounts are [bigint]s, carried by [Z], and [/] is [Z.quot]. *)
From S2P Require Import Prelude Text Types Json.
From Stdlib Require Import Ascii String.
Local Open Scope string_scope.
Local Open Scope list_scope.
Local Open Scope Z_scope.

(** * Data *)

(** src/src/domain/market.ts:19-36 (MarketPool, CanonicalMarketPool) *)
Record CanonicalMarketPool := {
  mp_address : string;
  mp_market : string;
  mp_baseMint : string;
  mp_quoteAsset : QuoteAsset;
  mp_activatedAt : ChainCursor;
  mp_programId : string;
  mp_index : Z;
  mp_creator : string;
  mp_baseVault : string;
  mp_quoteVault : string;
  mp_lpMint : string;
  mp_baseTokenProgram : TokenProgramKind;
  mp_confirmationStatus : ChainConfirmationStatus;
}.
(** src/src/domain/market.ts:62-70 (MarketReserves) *)
Record MarketReserves := {
  mr_pool : string;
  mr_baseReservesRaw : Z;
  mr_quoteVaultAmountRaw : Z;
  mr_virtualQuoteReservesRaw : Z;
  mr_effectiveQuoteReservesRaw : Z;
  mr_observedSlot : Z;
  mr_observedAtMs : Z;
}.
(** src/src/domain/market.ts:72-85 (MarketQuote) *)
Record MarketQuote := {
  mq_id : string;
  mq_pool : string;
  mq_inputMint : string;
  mq_outputMint : string;
  mq_amountInRaw : Z;
  mq_amountOutRaw : Z;
  mq_minimumAmountOutRaw : Z;
  mq_feesRaw : Z;
  mq_slippageBps : Z;
  mq_priceImpactBps : Z;
  mq_observedAtMs : Z;
  mq_observedSlot : Z;
}.
(** src/src/ports/pumpswap-quote-provider.ts:7-13 (PumpSwapQuoteRequest) *)
Record PumpSwapQuoteRequest := {
  sq_pool : CanonicalMarketPool;
  sq_reserves : MarketReserves;
  sq_inputMint : string;
  sq_amountInRaw : Z;
  sq_slippageBps : Z;
}.
(** src/src/markets/pumpswap/pumpswap-fee-state.ts:28-43 (PumpSwapFeeTier, PumpSwapFeeState) *)
Record swap_fees := { sf_lpFeeBps : Z; sf_protocolFeeBps : Z; sf_creatorFeeBps : Z }.
Record PumpSwapFeeTier := { st_marketCapThresholdRaw : Z; st_fees : swap_fees }.
Record PumpSwapFeeState := {
  fs_fees : swap_fees;
  fs_creatorFeeEnabled : bool;
  fs_baseMintSupplyRaw : Z;
  fs_tiers : list PumpSwapFeeTier;
  fs_observedSlot : Z;
}.
(** src/src/markets/pumpswap/pumpswap-quote.provider.ts:13-25 (InvalidPumpSwapQuoteError,
    SellQuoteUnavailableError) *)
Inductive swap_quote_error := InvalidPumpSwapQuote | SellQuoteUnavailable (pool : string).
Global Instance swap_quote_error_eq_dec : EqDecision swap_quote_error.
Proof. solve_decision. Defined.

(** src/src/markets/pumpswap/reserve-math.ts:8-20 (computeEffectiveQuoteReservesRaw): the error
    carries the amount that is refused. *)
Definition computeEffectiveQuoteReservesRaw (quoteVaultAmountRaw virtualQuoteReservesRaw : Z) : result Z Z :=
  if quoteVaultAmountRaw <? 0 then Err quoteVaultAmountRaw
  else
    let effectiveQuoteReservesRaw := quoteVaultAmountRaw + virtualQuoteReservesRaw in
    if effectiveQuoteReservesRaw <=? 0 then Err effectiveQuoteReservesRaw else Ok effectiveQuoteReservesRaw.

(** * Arithmetic *)

(** [if (b) throw new InvalidPumpSwapQuoteError(...)] *)
Definition invalid_quote_if (b : bool) : result swap_quote_error unit := throw_if b InvalidPumpSwapQuote.

(** src/src/markets/pumpswap/pumpswap-quote.provider.ts:193-198 (ceilDiv) *)
Definition ceilDiv (numerator denominator : Z) : result swap_quote_error Z :=
  invalid_quote_if ((numerator <? 0) || (denominator <=? 0)) ;;
  Ok (if numerator =? 0 then 0 else Z.quot (numerator + denominator - 1) denominator).
(** src/src/markets/pumpswap/pumpswap-quote.provider.ts:170-172 (fee) *)
Definition fee (amountRaw basisPoints : Z) : result swap_quote_error Z := ceilDiv (amountRaw * basisPoints) 10000.
(** The three fees of an amount, added. *)
Definition fees_of (f : swap_fees) (amountRaw : Z) : result swap_quote_error Z :=
  lp ← fee amountRaw (sf_lpFeeBps f);
  protocol ← fee amountRaw (sf_protocolFeeBps f);
  creator ← fee amountRaw (sf_creatorFeeBps f);
  Ok (lp + protocol + creator).
Definition total_bps (f : swap_fees) : Z := sf_lpFeeBps f + sf_protocolFeeBps f + sf_creatorFeeBps f.

(** src/src/markets/pumpswap/pumpswap-quote.provider.ts:119-132 (buy): the part of a payment that
    is exchanged, and its fees. *)
Definition split_payment (f : swap_fees) (amountInRaw : Z) : result swap_quote_error (Z * Z) :=
  let effectiveQuoteRaw := Z.quot (amountInRaw * 10000) (10000 + total_bps f) in
  feesRaw ← fees_of f effectiveQuoteRaw;
  if amountInRaw <? effectiveQuoteRaw + feesRaw then
    let effectiveQuoteRaw := effectiveQuoteRaw - (effectiveQuoteRaw + feesRaw - amountInRaw) in
    feesRaw ← fees_of f effectiveQuoteRaw;
    Ok (effectiveQuoteRaw, feesRaw)
  else Ok (effectiveQuoteRaw, feesRaw).
(** src/src/markets/pumpswap/pumpswap-quote.provider.ts:113-144 (buy): the amount bought and the
    fees. *)
Definition buy (request : PumpSwapQuoteRequest) (f : swap_fees) : result swap_quote_error (Z * Z) :=
  payment ← split_payment f (sq_amountInRaw request);
  let '(effectiveQuoteRaw, feesRaw) := payment in
  invalid_quote_if (effectiveQuoteRaw <=? 1) ;;
  let input := effectiveQuoteRaw - 1 in
  let amountOutRaw :=
    Z.quot (mr_baseReservesRaw (sq_reserves request) * input)
      (mr_effectiveQuoteReservesRaw (sq_reserves request) + input) in
  invalid_quote_if (amountOutRaw <=? 0) ;;
  Ok (amountOutRaw, feesRaw).
(** src/src/markets/pumpswap/pumpswap-quote.provider.ts:146-168 (sell) *)
Definition sell (request : PumpSwapQuoteRequest) (f : swap_fees) : result swap_quote_error (Z * Z) :=
  let grossQuoteRaw :=
    Z.quot (mr_effectiveQuoteReservesRaw (sq_reserves request) * sq_amountInRaw request)
      (mr_baseReservesRaw (sq_reserves request) + sq_amountInRaw request) in
  lpFeeRaw ← fee grossQuoteRaw (sf_lpFeeBps f);
  protocol ← fee grossQuoteRaw (sf_protocolFeeBps f);
  creator ← fee grossQuoteRaw (sf_creatorFeeBps f);
  let feesRaw := lpFeeRaw + protocol + creator in
  throw_if (mr_quoteVaultAmountRaw (sq_reserves request) <? grossQuoteRaw - lpFeeRaw)
    (SellQuoteUnavailable (mp_address (sq_pool request))) ;;
  let amountOutRaw := grossQuoteRaw - feesRaw in
  invalid_quote_if (amountOutRaw <=? 0) ;;
  Ok (amountOutRaw, feesRaw).

(** src/src/markets/pumpswap/pumpswap-quote.provider.ts:174-191 (impact) *)
Definition impact (inputIsQuote : bool) (amountInRaw amountOutRaw baseReserveRaw effectiveQuoteReserveRaw : Z)
    : result swap_quote_error Z :=
  let spotNumerator :=
    if inputIsQuote then amountInRaw * baseReserveRaw else amountInRaw * effectiveQuoteReserveRaw in
  let spotDenominator := if inputIsQuote then effectiveQuoteReserveRaw else baseReserveRaw in
  let candidate := spotNumerator - amountOutRaw * spotDenominator in
  let lost := if 0 <? candidate then candidate else 0 in
  value ← ceilDiv (lost * 10000) spotNumerator;
  Ok (if 10000 <? value then 10000 else value).

(** * Fees *)

(** src/src/markets/pumpswap/pumpswap-quote.provider.ts:100-111 (selectFees): with no tiers the
    default fees; otherwise the last tier whose threshold is reached, or the first. *)
Definition selectFees (request : PumpSwapQuoteRequest) (state : PumpSwapFeeState) : swap_fees :=
  match fs_tiers state with
  | [] => fs_fees state
  | first :: _ =>
      let marketCapRaw :=
        Z.quot (fs_baseMintSupplyRaw state * mr_effectiveQuoteReservesRaw (sq_reserves request))
          (mr_baseReservesRaw (sq_reserves request)) in
      match last (List.filter (fun tier => st_marketCapThresholdRaw tier <=? marketCapRaw) (fs_tiers state)) with
      | Some tier => st_fees tier
      | None => st_fees first
      end
  end.
(** src/src/markets/pumpswap/pumpswap-quote.provider.ts:225-247 (validate): the fees of a state
    and of its tiers, with increasing thresholds. *)
Definition check_fees (f : swap_fees) : result swap_quote_error unit :=
  for_each (fun value => invalid_quote_if ((value <? 0) || (10000 <? value)))
    [sf_lpFeeBps f; sf_protocolFeeBps f; sf_creatorFeeBps f].
Fixpoint check_tiers (previousThreshold : option Z) (tiers : list PumpSwapFeeTier)
    : result swap_quote_error unit :=
  match tiers with
  | [] => Ok tt
  | tier :: tiers' =>
      check_fees (st_fees tier) ;;
      invalid_quote_if ((st_marketCapThresholdRaw tier <? 0)
        || match previousThreshold with
           | Some p => st_marketCapThresholdRaw tier <=? p
           | None => false
           end) ;;
      check_tiers (Some (st_marketCapThresholdRaw tier)) tiers'
  end.
(** src/src/markets/pumpswap/pumpswap-quote.provider.ts:200-248 (validate) *)
Definition validate (request : PumpSwapQuoteRequest) (state : PumpSwapFeeState) (observedAtMs : Z)
    : result swap_quote_error unit :=
  let pool := sq_pool request in
  let reserves := sq_reserves request in
  invalid_quote_if (negb (bool_decide (sq_inputMint request = mp_baseMint pool))
    && negb (bool_decide (sq_inputMint request = qa_mint (mp_quoteAsset pool)))) ;;
  invalid_quote_if (negb (bool_decide (mr_pool reserves = mp_address pool))) ;;
  invalid_quote_if ((sq_amountInRaw request <=? 0) || (mr_baseReservesRaw reserves <=? 0)
    || (mr_effectiveQuoteReservesRaw reserves <=? 0)) ;;
  invalid_quote_if ((sq_slippageBps request <? 0) || (10000 <? sq_slippageBps request)) ;;
  invalid_quote_if (negb (is_safe_integer observedAtMs) || (observedAtMs <? 0)
    || (fs_observedSlot state <? 0) || (fs_baseMintSupplyRaw state <? 0)) ;;
  check_fees (fs_fees state) ;;
  check_tiers None (fs_tiers state).

(** * The quote *)
Section Quote.
Context `{Sha256}.

(** src/src/markets/pumpswap/pumpswap-quote.provider.ts:74-83 (createPumpSwapQuote): the
    identifier. *)
Definition swap_quote_id (request : PumpSwapQuoteRequest) (state : PumpSwapFeeState) : string :=
  "quote_" +:+ sha256_hex (stringify (JsonArr
    [JsonStr (mp_address (sq_pool request)); JsonStr (sq_inputMint request);
     JsonStr (to_decimal (sq_amountInRaw request)); JsonStr (to_decimal (sq_slippageBps request));
     JsonStr (to_decimal (mr_observedSlot (sq_reserves request))); JsonStr (to_decimal (fs_observedSlot state))])).

(** src/src/markets/pumpswap/pumpswap-quote.provider.ts:51-60 (createPumpSwapQuote): whether the
    input is the quote asset, and the fees that apply. *)
Definition input_is_quote (request : PumpSwapQuoteRequest) : bool :=
  bool_decide (sq_inputMint request = qa_mint (mp_quoteAsset (sq_pool request))).
Definition applied_fees (request : PumpSwapQuoteRequest) (state : PumpSwapFeeState) : swap_fees :=
  let fees := selectFees request state in
  {| sf_lpFeeBps := sf_lpFeeBps fees; sf_protocolFeeBps := sf_protocolFeeBps fees;
     sf_creatorFeeBps := if fs_creatorFeeEnabled state then sf_creatorFeeBps fees else 0 |}.
(** src/src/markets/pumpswap/pumpswap-quote.provider.ts:44-98 (createPumpSwapQuote) *)
Definition createPumpSwapQuote (request : PumpSwapQuoteRequest) (state : PumpSwapFeeState) (observedAtMs : Z)
    : result swap_quote_error MarketQuote :=
  validate request state observedAtMs ;;
  let inputIsQuote := input_is_quote request in
  let fees := applied_fees request state in
  invalid_quote_if (10000 <? total_bps fees) ;;
  r ← (if inputIsQuote then buy request fees else sell request fees);
  let '(amountOutRaw, feesRaw) := r in
  let minimumAmountOutRaw := Z.quot (amountOutRaw * (10000 - sq_slippageBps request)) 10000 in
  priceImpactBps ← impact inputIsQuote (sq_amountInRaw request) amountOutRaw
                     (mr_baseReservesRaw (sq_reserves request))
                     (mr_effectiveQuoteReservesRaw (sq_reserves request));
  Ok {| mq_id := swap_quote_id request state; mq_pool := mp_address (sq_pool request);
        mq_inputMint := sq_inputMint request;
        mq_outputMint := if inputIsQuote then mp_baseMint (sq_pool request)
                         else qa_mint (mp_quoteAsset (sq_pool request));
        mq_amountInRaw := sq_amountInRaw request; mq_amountOutRaw := amountOutRaw;
        mq_minimumAmountOutRaw := minimumAmountOutRaw; mq_feesRaw := feesRaw;
        mq_slippageBps := sq_slippageBps request; mq_priceImpactBps := priceImpactBps;
        mq_observedAtMs := observedAtMs;
        mq_observedSlot := if mr_observedSlot (sq_reserves request) <? fs_observedSlot state
                           then mr_observedSlot (sq_reserves request) else fs_observedSlot state |}.
End Quote.

(** * Lemmas: arithmetic *)

Lemma invalid_quote_if_Ok b u : invalid_quote_if b = Ok u <-> b = false.
Proof. apply throw_if_Ok. Qed.
Lemma swap_ceilDiv_Ok n d q : ceilDiv n d = Ok q <->
  0 <= n /\ 0 < d /\ n <= d * q < n + d.
Proof.
  unfold ceilDiv. rewrite bind_Ok. split.
  - intros (u & Hg%invalid_quote_if_Ok & E). rewrite orb_false_iff, Z.ltb_ge, Z.leb_gt in Hg. injection E as <-.
    destruct (Z.eqb_spec n 0) as [->|]; [lia|]. pose proof (quot_ceil_bounds n d). lia.
  - intros (Hn & Hd & Hq). exists tt. split; [apply invalid_quote_if_Ok; lia|]. f_equal.
    destruct (Z.eqb_spec n 0) as [->|]; [nia|]. pose proof (quot_ceil_bounds n d Hn Hd). nia.
Qed.
Lemma fee_Ok a b q : fee a b = Ok q <-> 0 <= a * b /\ a * b <= 10000 * q < a * b + 10000.
Proof. unfold fee. rewrite swap_ceilDiv_Ok. intuition lia. Qed.

(** Fees in range. *)
Record fees_ok (f : swap_fees) : Prop := {
  fo_lp : 0 <= sf_lpFeeBps f;
  fo_protocol : 0 <= sf_protocolFeeBps f;
  fo_creator : 0 <= sf_creatorFeeBps f;
  fo_total : total_bps f <= 10000;
}.
Lemma fees_of_Ok f a r : fees_ok f -> fees_of f a = Ok r ->
  exists lp protocol creator, fee a (sf_lpFeeBps f) = Ok lp /\ fee a (sf_protocolFeeBps f) = Ok protocol
    /\ fee a (sf_creatorFeeBps f) = Ok creator /\ r = lp + protocol + creator.
Proof.
  intros _ E. unfold fees_of in E. apply bind_Ok in E as (lp & Hl & E). apply bind_Ok in E as (p & Hp & E).
  apply bind_Ok in E as (c & Hc & E). injection E as <-. eauto 10.
Qed.
(** Fees grow with the amount. *)
Lemma fee_mono a a' b q q' : 0 <= b -> a <= a' -> fee a b = Ok q -> fee a' b = Ok q' -> q <= q'.
Proof. rewrite !fee_Ok. intros Hb Ha [_ H1] [_ H2]. assert (a * b <= a' * b) by nia. lia. Qed.
Lemma fees_of_mono f a a' r r' : fees_ok f -> a <= a' -> fees_of f a = Ok r -> fees_of f a' = Ok r' -> r <= r'.
Proof.
  intros Hf Ha H1 H2. destruct (fees_of_Ok f a r Hf H1) as (l & p & c & ? & ? & ? & ->).
  destruct (fees_of_Ok f a' r' Hf H2) as (l' & p' & c' & ? & ? & ? & ->). destruct Hf as [Hl Hp Hc _].
  pose proof (fee_mono a a' _ l l' Hl Ha ltac:(done) ltac:(done)).
  pose proof (fee_mono a a' _ p p' Hp Ha ltac:(done) ltac:(done)).
  pose proof (fee_mono a a' _ c c' Hc Ha ltac:(done) ltac:(done)). lia.
Qed.
(** They cover the rate, and exceed it by less than one unit each. *)
Lemma fees_of_bounds f a r : fees_ok f -> 0 <= a -> fees_of f a = Ok r ->
  0 <= r /\ a * total_bps f <= 10000 * r < a * total_bps f + 30000.
Proof.
  intros Hf Ha E. destruct (fees_of_Ok f a r Hf E) as (l & p & c & Hl & Hp & Hc & ->). destruct Hf as [? ? ? _].
  apply fee_Ok in Hl, Hp, Hc. unfold total_bps.
  rewrite !Z.mul_add_distr_l. lia.
Qed.
Lemma fees_of_defined f a : fees_ok f -> 0 <= a -> exists r, fees_of f a = Ok r.
Proof.
  intros [Hl Hp Hc _] Ha.
  assert (forall b, 0 <= b -> exists q, fee a b = Ok q) as Hdef.
  { intros b Hb. unfold fee, ceilDiv, invalid_quote_if. rewrite throw_if_skip; [eauto|].
    rewrite orb_false_iff, Z.ltb_ge. split; [nia|done]. }
  destruct (Hdef _ Hl) as [l El]. destruct (Hdef _ Hp) as [p Ep]. destruct (Hdef _ Hc) as [c Ec].
  exists (l + p + c). unfold fees_of. rewrite El. cbn [mbind result_bind]. rewrite Ep. cbn [mbind result_bind].
  by rewrite Ec.
Qed.

(** The payment covers what is exchanged and its fees. *)
Lemma split_payment_Ok f x e r : fees_ok f -> 0 < x -> split_payment f x = Ok (e, r) -> 1 < e ->
  fees_of f e = Ok r /\ 0 <= r /\ e + r <= x.
Proof.
  intros Hf Hx E He. unfold split_payment in E. set (e0 := Z.quot _ _) in E.
  apply bind_Ok in E as (r0 & Hr0 & E). destruct (Z.ltb_spec x (e0 + r0)) as [Hover|Hfit].
  - apply bind_Ok in E as (r1 & Hr1 & E). injection E as <- <-.
    set (e1 := e0 - (e0 + r0 - x)) in *. destruct (fees_of_bounds f e1 r1 Hf ltac:(lia) Hr1) as [H0 _].
    pose proof (fees_of_mono f e1 e0 r1 r0 Hf ltac:(lia) Hr1 Hr0). split_and!; [done..|lia].
  - injection E as <- <-. destruct (fees_of_bounds f e0 r0 Hf ltac:(lia) Hr0) as [H0 _]. split_and!; [done..|lia].
Qed.

(** * Lemmas: the two directions *)

Record request_ok (r : PumpSwapQuoteRequest) : Prop := {
  ro_amount : 0 < sq_amountInRaw r;
  ro_base : 0 < mr_baseReservesRaw (sq_reserves r);
  ro_quote : 0 < mr_effectiveQuoteReservesRaw (sq_reserves r);
  ro_slippage : 0 <= sq_slippageBps r <= 10000;
}.
(** A purchase: [spent] of the payment is exchanged, and the product of the reserves does not
    fall even without the last unit of it. *)
Definition bought (r : PumpSwapQuoteRequest) (f : swap_fees) (out fees spent : Z) : Prop :=
  let base := mr_baseReservesRaw (sq_reserves r) in
  let quote := mr_effectiveQuoteReservesRaw (sq_reserves r) in
  1 < spent /\ fees_of f spent = Ok fees /\ 0 <= fees /\ spent + fees <= sq_amountInRaw r
  /\ 0 < out < base /\ base * quote <= (base - out) * (quote + (spent - 1)).
(** A sale: [out + fees] leaves the curve, the vault holds what is paid out, and the product of
    the reserves does not fall. *)
Definition sold (r : PumpSwapQuoteRequest) (f : swap_fees) (out fees : Z) : Prop :=
  let base := mr_baseReservesRaw (sq_reserves r) in
  let quote := mr_effectiveQuoteReservesRaw (sq_reserves r) in
  0 < out /\ fees_of f (out + fees) = Ok fees /\ 0 <= fees /\ out <= mr_quoteVaultAmountRaw (sq_reserves r)
  /\ out + fees < quote /\ base * quote <= (base + sq_amountInRaw r) * (quote - (out + fees)).

Lemma swap_buy_Ok r f out fees : request_ok r -> fees_ok f -> buy r f = Ok (out, fees) ->
  exists spent, bought r f out fees spent.
Proof.
  intros [Hx Hb Hq _] Hf E. unfold buy in E. apply bind_Ok in E as ([e r0] & Hs & E). cbv zeta in E.
  apply bind_Ok in E as (u & He%invalid_quote_if_Ok & E). apply bind_Ok in E as (v & Ho%invalid_quote_if_Ok & E).
  injection E as <- <-. apply Z.leb_gt in He, Ho. destruct (split_payment_Ok _ _ _ _ Hf Hx Hs He) as (Hfee & Hr & Hle).
  exists e. unfold bought. cbv zeta. set (base := mr_baseReservesRaw _) in *. set (quote := mr_effectiveQuoteReservesRaw _) in *.
  set (o := Z.quot _ _) in *. pose proof (quot_nonneg_bounds (base * (e - 1)) (quote + (e - 1))) as Hd. fold o in Hd.
  assert ((quote + (e - 1)) * o <= base * (e - 1)) as Hle' by (apply Hd; nia). clear Hd.
  split_and!; try done; try lia; nia.
Qed.
Lemma swap_sell_Ok r f out fees : request_ok r -> fees_ok f -> sell r f = Ok (out, fees) -> sold r f out fees.
Proof.
  intros [Hx Hb Hq _] Hf E. unfold sell in E. cbv zeta in E. set (gross := Z.quot _ _) in E.
  apply bind_Ok in E as (l & Hl & E). apply bind_Ok in E as (p & Hp & E). apply bind_Ok in E as (c & Hc & E).
  apply bind_Ok in E as (u & Hv%throw_if_Ok & E). apply bind_Ok in E as (v & Ho%invalid_quote_if_Ok & E).
  injection E as <- <-. apply Z.ltb_ge in Hv. apply Z.leb_gt in Ho. unfold sold. cbv zeta.
  set (base := mr_baseReservesRaw _) in *. set (quote := mr_effectiveQuoteReservesRaw _) in *.
  set (x := sq_amountInRaw r) in *. pose proof (quot_nonneg_bounds (quote * x) (base + x)) as Hd. fold gross in Hd.
  assert ((base + x) * gross <= quote * x) as Hle by (apply Hd; nia). clear Hd.
  replace (gross - (l + p + c) + (l + p + c)) with gross by lia.
  assert (fees_of f gross = Ok (l + p + c)) as Hfee.
  { unfold fees_of. rewrite Hl. cbn [mbind result_bind]. rewrite Hp. cbn [mbind result_bind]. by rewrite Hc. }
  apply fee_Ok in Hl, Hp, Hc. split_and!; try done; try lia; nia.
Qed.

(** * Lemmas: the checks *)

Lemma check_fees_Ok f u : check_fees f = Ok u ->
  0 <= sf_lpFeeBps f <= 10000 /\ 0 <= sf_protocolFeeBps f <= 10000 /\ 0 <= sf_creatorFeeBps f <= 10000.
Proof.
  unfold check_fees. intros E. apply for_each_Ok in E. rewrite !Forall_cons in E.
  destruct E as (H1 & H2 & H3 & _). apply invalid_quote_if_Ok in H1, H2, H3.
  rewrite orb_false_iff, !Z.ltb_ge in H1, H2, H3. lia.
Qed.
(** Thresholds rise. *)
Fixpoint rising (previous : option Z) (tiers : list PumpSwapFeeTier) : Prop :=
  match tiers with
  | [] => True
  | tier :: tiers' =>
      match previous with Some p => p < st_marketCapThresholdRaw tier | None => True end
      /\ rising (Some (st_marketCapThresholdRaw tier)) tiers'
  end.
Lemma swap_tiers_Ok p tiers u : check_tiers p tiers = Ok u ->
  Forall (fun t => check_fees (st_fees t) = Ok tt) tiers /\ rising p tiers.
Proof.
  revert p u. induction tiers as [|t tiers IH]; intros p u E; [by split|]. cbn [check_tiers] in E.
  apply bind_Ok in E as ([] & Hf & E). apply bind_Ok in E as (v & Hp%invalid_quote_if_Ok & E).
  apply IH in E as [Hall Hr]. apply orb_false_iff in Hp as [_ Hp]. split; [by constructor|]. split; [|done].
  destruct p; [|done]. by apply Z.leb_gt.
Qed.
Lemma swap_validate_Ok r s ms u : validate r s ms = Ok u ->
  request_ok r /\ check_fees (fs_fees s) = Ok tt
  /\ Forall (fun t => check_fees (st_fees t) = Ok tt) (fs_tiers s) /\ rising None (fs_tiers s).
Proof.
  unfold validate. cbv zeta. intros E. apply bind_Ok in E as (? & _ & E). apply bind_Ok in E as (? & _ & E).
  apply bind_Ok in E as (? & Ha%invalid_quote_if_Ok & E). apply bind_Ok in E as (? & Hs%invalid_quote_if_Ok & E).
  apply bind_Ok in E as (? & _ & E). apply bind_Ok in E as ([] & Hf & E). apply swap_tiers_Ok in E as [Ht Hr].
  rewrite !orb_false_iff, !Z.leb_gt in Ha. rewrite orb_false_iff, !Z.ltb_ge in Hs. split_and!; try done.
  split; lia.
Qed.
Lemma selectFees_checked r s : check_fees (fs_fees s) = Ok tt ->
  Forall (fun t => check_fees (st_fees t) = Ok tt) (fs_tiers s) -> check_fees (selectFees r s) = Ok tt.
Proof.
  intros Hd Ht. unfold selectFees. destruct (fs_tiers s) as [|first tiers] eqn:E; [done|].
  cbv zeta. destruct (last _) as [tier|] eqn:El.
  - apply last_Some_elem_of in El. apply list_elem_of_In, filter_In in El as [El _]. apply list_elem_of_In in El.
    by apply (proj1 (Forall_forall _ _) Ht).
  - by apply Forall_cons in Ht as [? _].
Qed.

(** The market capitalisation by which a tier is chosen. *)
Definition market_cap (r : PumpSwapQuoteRequest) (s : PumpSwapFeeState) : Z :=
  Z.quot (fs_baseMintSupplyRaw s * mr_effectiveQuoteReservesRaw (sq_reserves r))
    (mr_baseReservesRaw (sq_reserves r)).
Lemma rising_above p tiers : rising (Some p) tiers -> Forall (fun t => p < st_marketCapThresholdRaw t) tiers.
Proof.
  revert p. induction tiers as [|t tiers IH]; intros p Hr; [constructor|]. destruct Hr as [Hp Hr].
  constructor; [done|]. eapply Forall_impl; [by apply IH|]. intros x Hx. cbn in *. lia.
Qed.
(** The last of a rising list that passes has the greatest threshold. *)
Lemma last_greatest p m tiers t : rising p tiers ->
  last (List.filter (fun x => st_marketCapThresholdRaw x <=? m) tiers) = Some t ->
  forall x, x ∈ tiers -> st_marketCapThresholdRaw x <= m -> st_marketCapThresholdRaw x <= st_marketCapThresholdRaw t.
Proof.
  revert p t. induction tiers as [|y tiers IH]; intros p t Hr El x Hx Hm; [by apply not_elem_of_nil in Hx|].
  destruct Hr as [_ Hr]. pose proof (rising_above _ _ Hr) as Ha. cbn [List.filter] in El.
  assert (st_marketCapThresholdRaw y <= m -> st_marketCapThresholdRaw y <= st_marketCapThresholdRaw t) as Hy.
  { intros Hym. rewrite (proj2 (Z.leb_le _ _) Hym) in El. destruct (List.filter _ tiers) as [|z l] eqn:Ef.
    - injection El as ->. lia.
    - change (last (y :: z :: l)) with (last (z :: l)) in El. apply last_Some_elem_of in El. rewrite <- Ef in El.
      apply list_elem_of_In, filter_In in El as [El _]. apply list_elem_of_In in El.
      apply (proj1 (Forall_forall _ _) Ha) in El. lia. }
  apply elem_of_cons in Hx as [->|Hx]; [by apply Hy|]. eapply IH; [exact Hr| |done|done].
  destruct (st_marketCapThresholdRaw y <=? m); [|done].
  destruct (List.filter _ tiers) as [|z l] eqn:Ef; [|done]. exfalso.
  assert (x ∈ List.filter (fun x => st_marketCapThresholdRaw x <=? m) tiers) as Hin.
  { apply list_elem_of_In, filter_In. split; [by apply list_elem_of_In|by apply Z.leb_le]. }
  rewrite Ef in Hin. by apply not_elem_of_nil in Hin.
Qed.
(** The tier that applies: the one with the greatest threshold that is reached, the first where
    none is, and the default fees where there are no tiers. *)
Theorem swap_fee_tier (r : PumpSwapQuoteRequest) (s : PumpSwapFeeState) (ms : Z)
    (Hvalid : validate r s ms = Ok tt) :
  match fs_tiers s with
  | [] => selectFees r s = fs_fees s
  | first :: _ =>
      (exists t, t ∈ fs_tiers s /\ selectFees r s = st_fees t /\ st_marketCapThresholdRaw t <= market_cap r s
        /\ forall x, x ∈ fs_tiers s -> st_marketCapThresholdRaw x <= market_cap r s ->
             st_marketCapThresholdRaw x <= st_marketCapThresholdRaw t)
      \/ selectFees r s = st_fees first /\ forall x, x ∈ fs_tiers s -> market_cap r s < st_marketCapThresholdRaw x
  end.
Proof.
  apply swap_validate_Ok in Hvalid as (_ & _ & _ & Hr). unfold selectFees.
  destruct (fs_tiers s) as [|first tiers] eqn:E; [done|]. cbv zeta. fold (market_cap r s).
  destruct (last _) as [t|] eqn:El.
  - left. exists t. pose proof (last_greatest _ _ _ _ Hr El) as Hg. apply last_Some_elem_of, list_elem_of_In, filter_In in El as [Hin Hm].
    split_and!; [by apply list_elem_of_In|done|by apply Z.leb_le|done].
  - right. split; [done|]. apply last_None in El. intros x Hx. apply Z.leb_gt.
    destruct (_ <=? _) eqn:Hm; [|done]. exfalso. eapply (not_elem_of_nil x). rewrite <- El.
    apply list_elem_of_In, filter_In. split; [by apply list_elem_of_In|done].
Qed.

(** * Lemmas: the quote *)

Lemma impact_Ok b x out base quote q : 0 < x -> 0 < base -> 0 < quote -> 0 < out -> impact b x out base quote = Ok q ->
  0 <= q <= 10000 /\ let '(num, den) := if b then (x * base, quote) else (x * quote, base) in
    (num - out * den) * 10000 <= num * q.
Proof.
  intros Hx Hb Hq Ho E. unfold impact in E. cbv zeta in E. apply bind_Ok in E as (v & Hv & E). injection E as <-.
  apply swap_ceilDiv_Ok in Hv as (Hn & Hd & Hv).
  destruct b; set (num := x * _) in *; set (den := out * _) in *; assert (0 <= den) by (unfold den; nia);
    destruct (Z.ltb_spec 0 (num - den)), (Z.ltb_spec 10000 v); nia.
Qed.

(** The pure arithmetic of a round trip: what a sale takes out of the reserves [base'], [quote']
    is less than the payment [x] of which [i] was exchanged. *)
Lemma round_trip_gross base quote out i x base' quote' gross :
  0 < quote -> 0 < base -> 0 < out < base -> 0 < i < x ->
  base * quote <= (base - out) * (quote + i) -> base - out <= base' -> quote' <= quote + x ->
  base' * quote' <= (base' + out) * (quote' - gross) -> 0 <= gross -> gross < x.
Proof.
  intros Hq Hb Ho Hi Hk Hb' Hq' Hk' Hg. destruct (Z.lt_ge_cases gross x) as [|Hge]; [done|]. exfalso.
  assert ((quote + i) * out <= base * i) as H1 by lia.
  assert ((base' + out) * gross <= quote' * out) as H2 by lia.
  assert (base * x <= (base' + out) * gross) as H3 by nia.
  assert (base * x <= (quote + x) * out) as H4 by nia.
  assert (base * x * (quote + i) <= (quote + x) * out * (quote + i)) as H5 by nia.
  assert ((quote + x) * out * (quote + i) <= (quote + x) * (base * i)) as H6 by nia.
  assert (base * (quote * x) <= base * (quote * i)) as H7 by lia. nia.
Qed.

Section Properties.
Context `{Sha256}.

Lemma applied_fees_ok r s : check_fees (selectFees r s) = Ok tt -> total_bps (applied_fees r s) <= 10000 ->
  fees_ok (applied_fees r s).
Proof.
  intros Hc Ht. apply check_fees_Ok in Hc as (? & ? & ?). split; cbn [applied_fees sf_lpFeeBps sf_protocolFeeBps sf_creatorFeeBps];
    [lia..| |done]. destruct (fs_creatorFeeEnabled s); lia.
Qed.
(** What a quote is made of. *)
Lemma swap_quote_inv r s ms q : createPumpSwapQuote r s ms = Ok q ->
  request_ok r /\ fees_ok (applied_fees r s)
  /\ (if input_is_quote r then buy r (applied_fees r s) else sell r (applied_fees r s))
     = Ok (mq_amountOutRaw q, mq_feesRaw q)
  /\ impact (input_is_quote r) (sq_amountInRaw r) (mq_amountOutRaw q) (mr_baseReservesRaw (sq_reserves r))
       (mr_effectiveQuoteReservesRaw (sq_reserves r)) = Ok (mq_priceImpactBps q)
  /\ mq_minimumAmountOutRaw q = Z.quot (mq_amountOutRaw q * (10000 - sq_slippageBps r)) 10000.
Proof.
  unfold createPumpSwapQuote. intros E. apply bind_Ok in E as ([] & Hv & E). cbv zeta in E.
  apply bind_Ok in E as (? & Ht%invalid_quote_if_Ok & E). apply bind_Ok in E as ([o f] & Ho & E).
  apply bind_Ok in E as (i & Hi & E). injection E as <-. apply Z.ltb_ge in Ht.
  apply swap_validate_Ok in Hv as (Hr & Hd & Htiers & _). split_and!; try done.
  apply applied_fees_ok; [by apply selectFees_checked|done].
Qed.
End Properties.

(** C26: a PumpSwap quote is one the pool can honour.  A quote that is made buys or sells a
    positive amount; of a purchase, what is exchanged and its fees never exceed the payment, and
    of a sale, the payout never exceeds the vault; in both directions the product of the
    reserves does not fall and no reserve is emptied.  The minimum is the output less the
    slippage, rounded down, and the price impact is at most all of it and covers the loss to
    the spot price. *)
Theorem swap_quote_sound `{Sha256} (r : PumpSwapQuoteRequest) (s : PumpSwapFeeState) (ms : Z) (q : MarketQuote)
    (Hquote : createPumpSwapQuote r s ms = Ok q) :
  let f := applied_fees r s in
  let out := mq_amountOutRaw q in
  let base := mr_baseReservesRaw (sq_reserves r) in
  let quote := mr_effectiveQuoteReservesRaw (sq_reserves r) in
  (if input_is_quote r then exists spent, bought r f out (mq_feesRaw q) spent else sold r f out (mq_feesRaw q))
  /\ 10000 * mq_minimumAmountOutRaw q <= out * (10000 - mq_slippageBps q) < 10000 * (mq_minimumAmountOutRaw q + 1)
  /\ mq_minimumAmountOutRaw q <= out
  /\ 0 <= mq_priceImpactBps q <= 10000
  /\ let '(num, den) := if input_is_quote r then (mq_amountInRaw q * base, quote) else (mq_amountInRaw q * quote, base) in
     (num - out * den) * 10000 <= num * mq_priceImpactBps q.
Proof.
  cbv zeta. pose proof (swap_quote_inv r s ms q Hquote) as (Hr & Hf & Hd & Hi & Hm).
  assert (mq_slippageBps q = sq_slippageBps r /\ mq_amountInRaw q = sq_amountInRaw r) as [-> ->].
  { unfold createPumpSwapQuote in Hquote. apply bind_Ok in Hquote as (? & _ & E). cbv zeta in E.
    apply bind_Ok in E as (? & _ & E). apply bind_Ok in E as ([] & _ & E). apply bind_Ok in E as (? & _ & E).
    by injection E as <-. }
  assert ((if input_is_quote r then exists spent, bought r (applied_fees r s) (mq_amountOutRaw q) (mq_feesRaw q) spent
           else sold r (applied_fees r s) (mq_amountOutRaw q) (mq_feesRaw q)) /\ 0 < mq_amountOutRaw q) as [Hs Ho].
  { destruct (input_is_quote r).
    - destruct (swap_buy_Ok _ _ _ _ Hr Hf Hd) as [e He]. split; [by exists e|]. destruct He as (_ & _ & _ & _ & ? & _). lia.
    - pose proof (swap_sell_Ok _ _ _ _ Hr Hf Hd) as He. split; [done|]. by destruct He. }
  destruct Hr as [Hx Hb Hq Hslip]. split; [done|]. rewrite Hm.
  pose proof (quot_nonneg_bounds (mq_amountOutRaw q * (10000 - sq_slippageBps r)) 10000 ltac:(nia) ltac:(lia)).
  split; [lia|]. split; [nia|]. by apply impact_Ok in Hi.
Qed.
(** C25: a round trip on PumpSwap never wins.  Sell what a quote bought into the pool it leaves
    behind, with any fees and however much of the payment stayed in the reserves: the sale
    returns less than was paid, by more than its own fees. *)
Theorem swap_round_trip_loses `{Sha256} (r r' : PumpSwapQuoteRequest) (s s' : PumpSwapFeeState) (ms ms' : Z)
    (q q' : MarketQuote)
    (Hbuy : createPumpSwapQuote r s ms = Ok q) (Hsell : createPumpSwapQuote r' s' ms' = Ok q')
    (Hin : input_is_quote r = true) (Hout : input_is_quote r' = false)
    (Hamount : sq_amountInRaw r' = mq_amountOutRaw q)
    (Hbase : mr_baseReservesRaw (sq_reserves r) - mq_amountOutRaw q <= mr_baseReservesRaw (sq_reserves r'))
    (Hkept : mr_effectiveQuoteReservesRaw (sq_reserves r')
             <= mr_effectiveQuoteReservesRaw (sq_reserves r) + sq_amountInRaw r) :
  mq_amountOutRaw q' + mq_feesRaw q' < sq_amountInRaw r.
Proof.
  apply swap_quote_inv in Hbuy as (Hr & Hf & Hd & _). apply swap_quote_inv in Hsell as (Hr' & Hf' & Hd' & _).
  rewrite Hin in Hd. rewrite Hout in Hd'. destruct (swap_buy_Ok _ _ _ _ Hr Hf Hd) as (e & He & _ & Hfee & Hpay & Ho & Hk).
  destruct (swap_sell_Ok _ _ _ _ Hr' Hf' Hd') as (Ho' & _ & Hfee' & _ & Hg & Hk'). rewrite Hamount in Hk'.
  destruct Hr as [Hx Hb Hq _]. destruct Hr' as [_ Hb' Hq' _].
  eapply (round_trip_gross _ _ _ (e - 1)); [exact Hq|exact Hb|exact Ho|lia|exact Hk|exact Hbase|exact Hkept|exact Hk'|lia].
Qed.

(** A pool of 1,000,000 tokens against 500,000 units, with fees of 0.2%, 0.05% and 0.05%. *)
Definition sample_pool : CanonicalMarketPool :=
  {| mp_address := "pool"; mp_market := "pumpswap"; mp_baseMint := "token";
     mp_quoteAsset := {| qa_mint := "sol"; qa_decimals := 9; qa_tokenProgram := SPL_TOKEN |};
     mp_activatedAt := {| slot := 1; transactionIndex := 0; instructionIndex := 0; innerInstructionIndex := None |};
     mp_programId := "amm"; mp_index := 0; mp_creator := "creator"; mp_baseVault := "base"; mp_quoteVault := "quote";
     mp_lpMint := "lp"; mp_baseTokenProgram := SPL_TOKEN; mp_confirmationStatus := finalized |}.
Definition sample_swap (base quote : Z) (mint : string) (amount : Z) : PumpSwapQuoteRequest :=
  {| sq_pool := sample_pool;
     sq_reserves := {| mr_pool := "pool"; mr_baseReservesRaw := base; mr_quoteVaultAmountRaw := quote;
       mr_virtualQuoteReservesRaw := 0; mr_effectiveQuoteReservesRaw := quote; mr_observedSlot := 7; mr_observedAtMs := 5 |};
     sq_inputMint := mint; sq_amountInRaw := amount; sq_slippageBps := 100 |}.
Definition sample_fee_state : PumpSwapFeeState :=
  {| fs_fees := {| sf_lpFeeBps := 20; sf_protocolFeeBps := 5; sf_creatorFeeBps := 5 |}; fs_creatorFeeEnabled := true;
     fs_baseMintSupplyRaw := 1000000; fs_tiers := []; fs_observedSlot := 8 |}.
Definition sample_swap_digest : Sha256 := fun _ => "d".

(** 10,000 units buy 19,548 tokens, and these are sold into the pool that kept the whole
    payment. *)
Lemma swap_quote_sound_witness :
  let S : Sha256 := sample_swap_digest in
  let r := sample_swap 1000000 500000 "sol" 10000 in
  exists q, createPumpSwapQuote r sample_fee_state 9 = Ok q /\ mq_amountOutRaw q = 19548
    /\ exists spent, bought r (applied_fees r sample_fee_state) 19548 (mq_feesRaw q) spent.
Proof.
  intros S r. destruct (createPumpSwapQuote r sample_fee_state 9) as [q|e] eqn:E; [|vm_compute in E; discriminate E].
  exists q. assert (mq_amountOutRaw q = 19548) as Ho by (vm_compute in E; injection E as <-; reflexivity).
  split; [reflexivity|]. split; [exact Ho|].
  destruct (swap_quote_sound r sample_fee_state 9 q E) as [Hs _]. rewrite Ho in Hs. exact Hs.
Defined.
Lemma swap_round_trip_loses_witness :
  let S : Sha256 := sample_swap_digest in
  let r := sample_swap 1000000 500000 "sol" 10000 in
  let r' := sample_swap 980452 510000 "token" 19548 in
  exists q', createPumpSwapQuote r' sample_fee_state 9 = Ok q' /\ mq_amountOutRaw q' + mq_feesRaw q' < 10000.
Proof.
  intros S r r'. destruct (createPumpSwapQuote r sample_fee_state 9) as [q|e] eqn:E; [|vm_compute in E; discriminate E].
  destruct (createPumpSwapQuote r' sample_fee_state 9) as [q'|e] eqn:E'; [|vm_compute in E'; discriminate E'].
  exists q'. split; [reflexivity|].
  assert (mq_amountOutRaw q = 19548) as Ho by (vm_compute in E; injection E as <-; reflexivity).
  apply (swap_round_trip_loses r r' sample_fee_state sample_fee_state 9 9 q q' E E').
  - reflexivity.
  - reflexivity.
  - rewrite Ho. reflexivity.
  - rewrite Ho. cbn. lia.
  - cbn. lia.
Defined.
