(* ===== verification/Inbox.v ===== *)
(** The queue of observed transactions: [src/src/storage/transaction-inbox.repository.ts] and the
    values of [src/src/domain/transaction-ingestion.ts] it takes.

    A call is one database transaction over the tables: it returns its value and the new
    tables, or throws and leaves them as they were; calls follow each other, since every
    statement locks the rows it changes.  The worker admission policy is the default one,
    disabled.  The clock of the database, the random lease token and the set of active launches
    are arguments.  Left out are the columns of the first-processing canary, the block time, and
    the attribution written beside a failure; a snapshot is its identity and the canonical text
    of its content. *)
From S2P Require Import Prelude Text Types Chain Json JsonCodec PublicKey CatchUpRun.
From stdpp Require Import gmap sorting.
From Stdlib Require Import Ascii String.
Local Open Scope string_scope.
Local Open Scope list_scope.
Local Open Scope Z_scope.

(** * Values *)

(** src/src/domain/transaction-ingestion.ts:117-117 (TransactionDiscoverySource) *)
Inductive TransactionDiscoverySource := WEBSOCKET | CATCH_UP.
(** src/src/domain/transaction-ingestion.ts:94-100 (TRANSACTION_INGESTION_HINTS) *)
Inductive TransactionIngestionHint :=
| HINT_NONE | PUMPFUN_CREATE | PUMPFUN_TRADE | PUMPFUN_CURVE_TRADE | PUMPSWAP_POOL_TRADE.
(** src/src/domain/transaction-ingestion.ts:102-112 (TRANSACTION_INGESTION_ERROR_CODES) *)
Inductive TransactionIngestionErrorCode :=
| RPC_TRANSIENT | TRANSACTION_NOT_AVAILABLE | BLOCK_NOT_AVAILABLE | TRANSACTION_INDEX_NOT_FOUND
| NORMALIZATION_FAILED | PIPELINE_STAGE_FAILED | FINALITY_INCONSISTENT
| INGESTION_WINDOW_EXCEEDED | WORKER_LEASE_EXPIRED.
(** src/src/domain/transaction-ingestion.ts:178-187 (TransactionNotification) *)
Record TransactionNotification := {
  nt_signature : string;
  nt_slot : Z;
  nt_source : TransactionDiscoverySource;
  nt_ingestionHint : option TransactionIngestionHint;
  nt_ingestionHintMint : option string;
  nt_programIds : list string;
  nt_confirmationStatus : ChainConfirmationStatus;
  nt_observedAtMs : Z;
}.
(** src/src/domain/transaction-ingestion.ts:201-205 (IngestionFailure) *)
Record IngestionFailure := {
  fl_code : TransactionIngestionErrorCode;
  fl_errorName : string;
  fl_retryable : bool;
}.
(** src/src/domain/transaction-ingestion.ts:158-176 (DurableNormalizedTransaction): its identity,
    its confirmation and the canonical text of all of it. *)
Record DurableNormalizedTransaction := {
  sn_signature : string;
  sn_slot : Z;
  sn_confirmationStatus : ChainConfirmationStatus;
  sn_text : string;
}.
(** src/src/domain/transaction-ingestion.ts:189-199 (ClaimedTransaction) *)
Record ClaimedTransaction := {
  cl_signature : string;
  cl_slot : Z;
  cl_confirmationStatus : ChainConfirmationStatus;
  cl_attempts : Z;
  cl_leaseToken : string;
  cl_leaseExpiresAtMs : Z;
  cl_observedAtMs : Z;
  cl_normalizedTransaction : option DurableNormalizedTransaction;
}.
(** src/src/domain/transaction-ingestion.ts:260-268 (FinalityCandidate) *)
Record FinalityCandidate := {
  fc_signature : string;
  fc_slot : Z;
  fc_confirmationStatus : ChainConfirmationStatus;
  fc_missingFinalityPolls : Z;
  fc_lastMissingFinalityProviderId : option RpcProviderId;
  fc_finalityEvidenceVersion : Z;
  fc_processedAtMs : Z;
}.
(** src/src/domain/transaction-ingestion.ts:270-278 (FinalityPollObservation) *)
Record FinalityPollObservation := {
  po_signature : string;
  po_confirmationStatus : option ChainConfirmationStatus;
  po_providerId : RpcProviderId;
  po_expectedMissingFinalityPolls : Z;
  po_expectedLastMissingFinalityProviderId : option RpcProviderId;
  po_expectedFinalityEvidenceVersion : Z;
  po_observedAtMs : Z;
}.
(** src/src/domain/transaction-ingestion.ts:280-296 (FinalityRevision): an orphaned revision
    expects a status, a count of polls, a provider and a version. *)
Record FinalityRevision := {
  rv_signature : string;
  rv_orphaned : option (ChainConfirmationStatus * Z * RpcProviderId * Z);
  rv_observedAtMs : Z;
}.
(** src/src/domain/transaction-ingestion.ts:79-93 (TRANSACTION_INBOX_RECOVERY_RESULT_CODES,
    DECODER_RECOVERY_RESULT_CODES) *)
Inductive InboxRecoveryResultCode :=
| RECOVERY_SCHEDULED | RECOVERY_ALREADY_SCHEDULED | RECOVERY_NOT_ELIGIBLE | RECOVERY_NOT_FOUND.
Inductive DecoderRecoveryResultCode :=
| DECODER_RECOVERY_SCHEDULED | DECODER_RECOVERY_ALREADY_SCHEDULED | DECODER_RECOVERY_NOT_FOUND
| DECODER_RECOVERY_EXPIRED | DECODER_RECOVERY_NOT_ELIGIBLE.

(** src/src/storage/transaction-inbox.repository.ts:199-202 (TransactionInboxPriority, InboxStatus) *)
Inductive TransactionInboxPriority := PRIORITY_NORMAL | LAUNCH_CANDIDATE | TRACKED_TRADE.
Inductive InboxStatus :=
| PENDING | PROCESSING | PROCESSED | FAILED | DEFERRED | IGNORED | QUARANTINED.
(** src/src/storage/transaction-inbox.repository.ts:300-324 (TransactionInboxRepositoryError,
    TransactionInboxConflictError, TransactionInboxLeaseError) *)
Inductive inbox_conflict :=
| CONFLICT_IDENTITY | CONFLICT_SNAPSHOT | CONFLICT_FINALITY | CONFLICT_CLASSIFICATION.
Inductive InboxError := RepositoryError | ConflictError (conflict : inbox_conflict) | LeaseError.

(** Equality of the enumerations. *)
Global Instance TransactionDiscoverySource_eq_dec : EqDecision TransactionDiscoverySource.
Proof. solve_decision. Defined.
Global Instance TransactionIngestionHint_eq_dec : EqDecision TransactionIngestionHint.
Proof. solve_decision. Defined.
Global Instance TransactionIngestionErrorCode_eq_dec : EqDecision TransactionIngestionErrorCode.
Proof. solve_decision. Defined.
Global Instance TransactionInboxPriority_eq_dec : EqDecision TransactionInboxPriority.
Proof. solve_decision. Defined.
Global Instance InboxStatus_eq_dec : EqDecision InboxStatus.
Proof. solve_decision. Defined.
Global Instance inbox_conflict_eq_dec : EqDecision inbox_conflict.
Proof. solve_decision. Defined.
Global Instance InboxError_eq_dec : EqDecision InboxError.
Proof. solve_decision. Defined.

(** src/src/storage/transaction-inbox.repository.ts:192-197 (MAX_DATE_MS,
    MAX_EXHAUSTION_RECONCILIATIONS_PER_CLAIM, MAX_CONSECUTIVE_URGENT_CLAIMS,
    MAX_LAUNCH_CLAIMS_BEFORE_TRACKED) *)
Definition MAX_EXHAUSTION_RECONCILIATIONS_PER_CLAIM : nat := 100.
Definition MAX_CONSECUTIVE_URGENT_CLAIMS : Z := 32.
Definition MAX_LAUNCH_CLAIMS_BEFORE_TRACKED : Z := 3.
(** src/src/domain/transaction-ingestion.ts:62-62 (MAX_FINALITY_EVIDENCE_VERSION) *)
Definition MAX_FINALITY_EVIDENCE_VERSION : Z := 9223372036854775807.
(** [INTERVAL '4 hours'] *)
Definition four_hours : Z := 14400000.
(** src/src/storage/transaction-inbox.repository.ts:287-290 (TransactionInboxRetryPolicy) *)
Record TransactionInboxRetryPolicy := { rp_maxAttempts : Z; rp_baseDelayMs : Z }.

(** * Tables *)

(** src/src/storage/transaction-inbox.repository.ts:4059-4064 (IngestionDecision) *)
Record IngestionDecision := {
  dc_status : InboxStatus;
  dc_priority : TransactionInboxPriority;
  dc_hint : TransactionIngestionHint;
  dc_mint : option string;
}.
(** The attempts of a row, its lease (the token and the expiry are written together), and its
    last error (so are the three columns of an error). *)
Record row_work := {
  wk_attempts : Z;
  wk_cycle : Z;
  wk_maxAttempts : Z;
  wk_baseDelayMs : Z;
  wk_lease : option (string * Z);
  wk_error : option IngestionFailure;
  wk_nextAttemptAt : option Z;
  wk_exhaustedAt : option Z;
}.
(** When a row was processed, became terminal, and may be purged. *)
Record row_end := { en_processedAt : option Z; en_terminalAt : option Z; en_purgeAfter : option Z }.
(** Its finality. *)
Record row_finality := {
  fn_target : ChainConfirmationStatus;
  fn_missingPolls : Z;
  fn_missingProvider : option RpcProviderId;
  fn_version : Z;
}.
(** Its recoveries. *)
Record row_recovery := {
  rv_count : Z;
  rv_recoveredAt : option Z;
  rv_quarantinedAt : option Z;
  rv_decoderUsed : bool;
}.
(** src/src/domain/catch-up-classification.ts:11-16 (CATCH_UP_CLASSIFICATION_DISPOSITIONS): as the
    inbox stores them. *)
Inductive catch_up_disposition := AS_ACTIONABLE | AS_DEFERRED | AS_IGNORED | AS_QUARANTINED.
Global Instance catch_up_disposition_eq_dec : EqDecision catch_up_disposition.
Proof. solve_decision. Defined.
(** src/migrations/049_transaction_inbox_catch_up_admission_receipt.sql:86-88, 118-139: the columns
    of a classification, which are all null or all set ([catch_up_admission_priority] apart). *)
Record CatchUpClassification := {
  cc_disposition : catch_up_disposition;
  cc_reasonCode : string;
  cc_actionKey : string;
  cc_mints : list string;
  cc_fingerprint : string;
  cc_classifiedAt : Z;
  cc_enqueued : bool;
  cc_admissionPriority : option TransactionInboxPriority;
}.
(** src/src/storage/transaction-inbox.repository.ts:124-142 (InboxIdentityRow): a row of
    [chain_transaction_inbox]; its key is the signature. *)
Record InboxRow := {
  ir_slot : Z;
  ir_sources : list TransactionDiscoverySource;
  ir_programIds : list string;
  ir_observedAt : Z;
  ir_updatedAt : Z;
  ir_admittedAt : option Z;
  ir_snapshot : option (DurableNormalizedTransaction * string);
  ir_classification : option CatchUpClassification;
  ir_decision : IngestionDecision;
  ir_work : row_work;
  ir_end : row_end;
  ir_finality : row_finality;
  ir_recovery : row_recovery;
}.
(** The columns [catch_up_disposition], where it names a processing status, and
    [catch_up_reason_code]. *)
Definition disposition_status (d : catch_up_disposition) : option InboxStatus :=
  match d with
  | AS_ACTIONABLE => None
  | AS_DEFERRED => Some DEFERRED
  | AS_IGNORED => Some IGNORED
  | AS_QUARANTINED => Some QUARANTINED
  end.
Definition ir_disposition (r : InboxRow) : option InboxStatus :=
  c ← ir_classification r; disposition_status (cc_disposition c).
Definition ir_reasonCode (r : InboxRow) : option string := cc_reasonCode <$> ir_classification r.
(** src/src/storage/transaction-inbox.repository.ts:161-167 (TerminalReplayReceiptRow) *)
Record TerminalReplayReceipt := {
  tr_slot : Z;
  tr_status : ChainConfirmationStatus;
  tr_version : Z;
  tr_fingerprint : string;
  tr_completedAt : Z;
}.
Global Instance TerminalReplayReceipt_eq_dec : EqDecision TerminalReplayReceipt.
Proof. solve_decision. Defined.
(** The tables: the inbox, the receipts, the scheduler's one row and the signatures of the
    decoder recoveries. *)
Record InboxTables := {
  ib_rows : gmap string InboxRow;
  ib_receipts : gmap string TerminalReplayReceipt;
  ib_urgentClaims : Z;
  ib_launchClaims : Z;
  ib_decoderRecoveries : gset string;
}.
Definition tx (A : Type) : Type := InboxTables -> result InboxError (A * InboxTables).
Definition tx_ret {A} (a : A) : tx A := fun t => Ok (a, t).

(** Updates of a row and of the tables. *)
Definition set_rows (rows : gmap string InboxRow) (t : InboxTables) : InboxTables :=
  {| ib_rows := rows; ib_receipts := ib_receipts t; ib_urgentClaims := ib_urgentClaims t;
     ib_launchClaims := ib_launchClaims t; ib_decoderRecoveries := ib_decoderRecoveries t |}.
Definition put_row (signature : string) (r : InboxRow) (t : InboxTables) : InboxTables :=
  set_rows (<[signature := r]> (ib_rows t)) t.
Definition row_status (r : InboxRow) : InboxStatus := dc_status (ir_decision r).
Definition with_status (s : InboxStatus) (d : IngestionDecision) : IngestionDecision :=
  {| dc_status := s; dc_priority := dc_priority d; dc_hint := dc_hint d; dc_mint := dc_mint d |}.
(** The parts that most statements change; [updated_at] is [GREATEST(updated_at, at)]. *)
Definition row_with (r : InboxRow) (d : IngestionDecision) (w : row_work) (e : row_end) (f : row_finality)
    (c : row_recovery) (at_ : Z) : InboxRow :=
  {| ir_slot := ir_slot r; ir_sources := ir_sources r; ir_programIds := ir_programIds r;
     ir_observedAt := ir_observedAt r; ir_updatedAt := Z.max (ir_updatedAt r) at_;
     ir_admittedAt := ir_admittedAt r; ir_snapshot := ir_snapshot r; ir_classification := ir_classification r;
     ir_decision := d; ir_work := w; ir_end := e; ir_finality := f;
     ir_recovery := c |}.

(** * Reading rows *)

(** [if (!ok) throw new TypeError(...)], which the repository turns into its own error. *)
Definition check_stored (ok : bool) : result InboxError unit := throw_if (negb ok) RepositoryError.
Definition conflict_if (b : bool) (c : inbox_conflict) : result InboxError unit := throw_if b (ConflictError c).

(** src/src/storage/transaction-inbox.repository.ts:4428-4434 (safeCount) *)
Definition safeCount (z : Z) : bool := is_safe_integer z && (0 <=? z).
(** src/src/storage/transaction-inbox.repository.ts:4528-4533 (positiveBoundedInteger) *)
Definition positiveBounded (z maximum : Z) : bool := is_safe_integer z && (0 <? z) && (z <=? maximum).
(** src/src/storage/transaction-inbox.repository.ts:4420-4426 (finalityEvidenceVersion) *)
Definition version_ok (z : Z) : bool := (0 <=? z) && (z <=? MAX_FINALITY_EVIDENCE_VERSION).
(** src/src/storage/transaction-inbox.repository.ts:4442-4447 (dateFromMs) *)
Definition inbox_date (ms : Z) : bool := is_safe_integer ms && (0 <=? ms) && (ms <=? MAX_DATE_MS).
(** src/src/storage/transaction-inbox.repository.ts:4449-4456 (dateMs): of a stored date. *)
Definition stored_date (ms : Z) : bool := is_safe_integer ms && (0 <=? ms).
(** src/src/storage/transaction-inbox.repository.ts:4340-4345 (assertCanonicalMint) *)
Definition canonical_mint (m : option string) : bool :=
  match m with
  | Some s => (32 <=? byte_length s) && (byte_length s <=? 44) && isCanonicalSolanaPublicKey s
  | None => false
  end.
(** src/src/storage/transaction-inbox.repository.ts:4354-4366 (discoverySources) *)
Definition discoverySources (r : InboxRow) : result InboxError (list TransactionDiscoverySource) :=
  match ir_sources r with
  | [s] => Ok [s]
  | [WEBSOCKET; CATCH_UP] => Ok [WEBSOCKET; CATCH_UP]
  | _ => Err RepositoryError
  end.
(** src/src/storage/transaction-inbox.repository.ts:729-731 (enqueue): the sources with another,
    in their order (sourceOrder, 4368-4373). *)
Definition add_source (source : TransactionDiscoverySource) (sources : list TransactionDiscoverySource)
    : list TransactionDiscoverySource :=
  if includes source sources then sources
  else match source with WEBSOCKET => WEBSOCKET :: sources | CATCH_UP => sources ++ [CATCH_UP] end.
(** Program ids in strictly ascending order, each of them canonical. *)
Fixpoint ascending_ids (previous : option string) (ids : list string) : bool :=
  match ids with
  | [] => true
  | id :: ids' =>
      bool_decide (id = trim id) && (32 <=? byte_length id) && (byte_length id <=? 44)
      && isCanonicalSolanaPublicKey id
      && match previous with
         | Some p => bool_decide (key_le p id) && negb (bool_decide (p = id))
         | None => true
         end
      && ascending_ids (Some id) ids'
  end.
(** src/src/storage/transaction-inbox.repository.ts:4375-4406 (storedProgramIds) *)
Definition program_ids_ok (ids : list string) : bool :=
  Nat.leb 1 (List.length ids) && Nat.leb (List.length ids) 16 && ascending_ids None ids.
(** src/src/storage/transaction-inbox.repository.ts:647-652 (enqueue): the programs of a row with
    those of a notification. *)
Definition merged_programs (row : option InboxRow) (ids : list string) : result InboxError (list string) :=
  check_stored (match row with Some r => program_ids_ok (ir_programIds r) | None => true end) ;;
  let programs :=
    merge_sort key_le
      (fold_left (fun l id => if includes id l then l else l ++ [id]) ids
         (match row with Some r => ir_programIds r | None => [] end)) in
  check_stored (Nat.leb (List.length programs) 16) ;;
  Ok programs.

(** src/src/storage/transaction-inbox.repository.ts:3981-3990 (reconciledStatus) *)
Definition reconciledStatus (current incoming : ChainConfirmationStatus)
    : result InboxError ChainConfirmationStatus :=
  match reconcileConfirmationStatus current incoming with
  | Ok update => Ok incoming
  | Ok keep => Ok current
  | Err _ => Err (ConflictError CONFLICT_FINALITY)
  end.
(** src/src/storage/transaction-inbox.repository.ts:4230-4238 (isPristineInbox) *)
Definition isPristineInbox (r : InboxRow) : bool :=
  (wk_attempts (ir_work r) =? 0) && (wk_cycle (ir_work r) =? 0)
  && bool_decide (wk_lease (ir_work r) = None)
  && (match ir_snapshot r with None => true | Some _ => false end)
  && bool_decide (en_processedAt (ir_end r) = None)
  && (rv_count (ir_recovery r) =? 0) && bool_decide (rv_recoveredAt (ir_recovery r) = None).
(** src/src/storage/transaction-inbox.repository.ts:4325-4335 (storedIngestionDecision): whether a
    deferred row is valid. *)
Definition deferred_ok (r : InboxRow) : bool :=
  let d := ir_decision r in
  bool_decide (dc_hint d = PUMPFUN_TRADE) && bool_decide (dc_priority d = PRIORITY_NORMAL)
  && isPristineInbox r
  && (match wk_error (ir_work r) with None => true | Some _ => false end)
  && bool_decide (wk_nextAttemptAt (ir_work r) = None) && bool_decide (wk_exhaustedAt (ir_work r) = None)
  && (fn_missingPolls (ir_finality r) =? 0) && bool_decide (fn_missingProvider (ir_finality r) = None)
  && (fn_version (ir_finality r) =? 0)
  && match en_terminalAt (ir_end r), en_purgeAfter (ir_end r) with
     | Some terminalAt, Some purgeAfter =>
         (ir_observedAt r <=? terminalAt) && (purgeAfter - terminalAt =? four_hours)
     | _, _ => false
     end.
(** src/src/storage/transaction-inbox.repository.ts:4308-4338 (storedIngestionDecision) *)
Definition is_trade_hint (h : TransactionIngestionHint) : bool :=
  match h with PUMPFUN_TRADE | PUMPFUN_CURVE_TRADE | PUMPSWAP_POOL_TRADE => true | _ => false end.
Definition storedIngestionDecision (r : InboxRow) : result InboxError IngestionDecision :=
  let d := ir_decision r in
  check_stored (if is_trade_hint (dc_hint d) then canonical_mint (dc_mint d)
                else bool_decide (dc_mint d = None)) ;;
  check_stored (Bool.eqb (bool_decide (dc_priority d = LAUNCH_CANDIDATE)) (bool_decide (dc_hint d = PUMPFUN_CREATE))
                && (negb (bool_decide (dc_priority d = TRACKED_TRADE)) || is_trade_hint (dc_hint d))) ;;
  check_stored (negb (bool_decide (dc_status d = DEFERRED)) || deferred_ok r) ;;
  Ok d.

(** * Snapshots *)
Section Snapshots.
Context `{Sha256}.
(** src/src/storage/transaction-inbox.repository.ts:4655-4657 (snapshotFingerprint) *)
Definition snapshotFingerprint (s : DurableNormalizedTransaction) : string := sha256_hex (sn_text s).
(** src/src/domain/transaction-ingestion.ts:1248-1262 (assertCompatibleSnapshotFinality) *)
Definition compatible_finality (snapshotStatus claimStatus : ChainConfirmationStatus) : bool :=
  match reconcileConfirmationStatus snapshotStatus claimStatus with
  | Ok update => true
  | Ok keep => bool_decide (snapshotStatus = claimStatus)
  | Err _ => false
  end.
(** src/src/domain/transaction-ingestion.ts:553-564 (assertValidClaimedTransaction): the snapshot
    of a claim. *)
Definition snapshot_matches (s : DurableNormalizedTransaction) (signature : string) (slot : Z)
    (status : ChainConfirmationStatus) : bool :=
  bool_decide (sn_signature s = signature) && (sn_slot s =? slot)
  && compatible_finality (sn_confirmationStatus s) status.
(** src/src/storage/transaction-inbox.repository.ts:3332-3355 (decodeSnapshot) with the check of
    the stored fingerprint (requiredFingerprint, 4478-4484). *)
Definition decodeSnapshot (stored : DurableNormalizedTransaction * string) (signature : string) (slot : Z)
    (status : ChainConfirmationStatus) : bool :=
  let '(s, fingerprint) := stored in
  is_sha256_hex fingerprint && negb (is_empty signature) && (0 <=? slot)
  && snapshot_matches s signature slot status && bool_decide (snapshotFingerprint s = fingerprint).
End Snapshots.

(** * Notifications *)

(** src/src/domain/transaction-ingestion.ts:508-518 (isPollerHint, isValidIngestionHintPair) *)
Definition isPollerHint (h : option TransactionIngestionHint) : bool :=
  match h with Some PUMPFUN_CURVE_TRADE | Some PUMPSWAP_POOL_TRADE => true | _ => false end.
Definition isValidIngestionHintPair (h : option TransactionIngestionHint) (m : option string) : bool :=
  match h, m with
  | None, None => true
  | Some PUMPFUN_CREATE, None => true
  | Some h', Some m' => is_trade_hint h' && isCanonicalSolanaPublicKey m'
  | _, _ => false
  end.
(** src/src/domain/transaction-ingestion.ts:473-537 (assertValidTransactionNotification,
    assertCanonicalProgramIds) *)
Definition valid_notification (n : TransactionNotification) : bool :=
  negb (is_empty (nt_signature n)) && (0 <=? nt_slot n)
  && isValidIngestionHintPair (nt_ingestionHint n) (nt_ingestionHintMint n)
  && negb (isPollerHint (nt_ingestionHint n) && bool_decide (nt_source n = WEBSOCKET))
  && (bool_decide (nt_source n = WEBSOCKET) || isPollerHint (nt_ingestionHint n)
      || (bool_decide (nt_ingestionHint n = None) && bool_decide (nt_ingestionHintMint n = None)))
  && program_ids_ok (nt_programIds n)
  && negb (bool_decide (nt_confirmationStatus n = orphaned))
  && safeCount (nt_observedAtMs n).

(** * Admission *)

(** src/src/storage/transaction-inbox.repository.ts:4178-4228 (convergeIngestion) *)
Definition convergeIngestion (row : option InboxRow) (n : TransactionNotification) (tracked : bool)
    (programIds : list string) : result InboxError IngestionDecision :=
  current ← match row with None => Ok None | Some r => Some <$> storedIngestionDecision r end;
  let current_hint := dc_hint <$> current in
  let hint0 := default HINT_NONE (nt_ingestionHint n) in
  let keep_current := bool_decide (current_hint = Some PUMPFUN_CREATE) || bool_decide (hint0 = HINT_NONE) in
  let hint := if keep_current then default hint0 current_hint else hint0 in
  let mint := if keep_current then (c ← current; dc_mint c) else nt_ingestionHintMint n in
  let status0 := match current with Some c => dc_status c | None => PENDING end in
  ambiguous ← (if bool_decide (hint = PUMPFUN_CREATE) then Ok false
               else if Nat.ltb 1 (List.length programIds)
                       || (bool_decide (nt_source n = WEBSOCKET) && bool_decide (nt_ingestionHint n = None))
               then Ok true
               else match row, current_hint with
                    | Some r, Some HINT_NONE => includes WEBSOCKET <$> discoverySources r
                    | _, _ => Ok (bool_decide (hint = PUMPFUN_TRADE) && bool_decide (current_hint = Some PUMPFUN_TRADE)
                                  && negb (bool_decide ((c ← current; dc_mint c) = mint)))
                    end);
  if ambiguous : bool
  then Ok {| dc_status := if bool_decide (status0 = DEFERRED) then PENDING else status0;
             dc_priority := PRIORITY_NORMAL; dc_hint := HINT_NONE; dc_mint := None |}
  else
    match bool_decide (nt_ingestionHint n <> Some PUMPFUN_TRADE) && bool_decide (hint = PUMPFUN_TRADE), current with
    | true, Some c => Ok c
    | _, _ =>
        let resumed := if bool_decide (status0 = DEFERRED) then PENDING else status0 in
        Ok match hint with
           | PUMPFUN_CREATE =>
               {| dc_status := resumed; dc_priority := LAUNCH_CANDIDATE; dc_hint := hint; dc_mint := mint |}
           | PUMPFUN_TRADE =>
               if tracked then
                 {| dc_status := resumed; dc_priority := TRACKED_TRADE; dc_hint := hint; dc_mint := mint |}
               else if match row with
                       | None => true
                       | Some r => bool_decide (status0 = PENDING) && isPristineInbox r
                       end
               then {| dc_status := DEFERRED; dc_priority := PRIORITY_NORMAL; dc_hint := hint; dc_mint := mint |}
               else {| dc_status := status0;
                       dc_priority := match current with Some c => dc_priority c | None => PRIORITY_NORMAL end;
                       dc_hint := hint; dc_mint := mint |}
           | PUMPFUN_CURVE_TRADE | PUMPSWAP_POOL_TRADE =>
               {| dc_status := resumed; dc_priority := TRACKED_TRADE; dc_hint := hint; dc_mint := mint |}
           | HINT_NONE =>
               {| dc_status := status0; dc_priority := PRIORITY_NORMAL; dc_hint := hint; dc_mint := mint |}
           end
    end.

(** src/src/storage/transaction-inbox.repository.ts:3992-4011 (assertTerminalReceiptAcceptsNotification) *)
Definition receipt_accepts (receipt : TerminalReplayReceipt) (n : TransactionNotification)
    : result InboxError unit :=
  conflict_if (negb (tr_slot receipt =? nt_slot n)) CONFLICT_IDENTITY ;;
  conflict_if (negb (bool_decide (tr_status receipt = finalized)) && negb (bool_decide (tr_status receipt = orphaned)))
    CONFLICT_FINALITY ;;
  check_stored (version_ok (tr_version receipt)) ;;
  check_stored (is_sha256_hex (tr_fingerprint receipt)) ;;
  check_stored (stored_date (tr_completedAt receipt)) ;;
  reconciledStatus (tr_status receipt) (nt_confirmationStatus n) ;;
  Ok tt.
(** src/src/storage/transaction-inbox.repository.ts:4013-4036 (assertTerminalReceiptMatchesInbox) *)
Definition receipt_matches (receipt : option TerminalReplayReceipt) (r : InboxRow) : result InboxError unit :=
  conflict_if
    (negb match receipt, ir_snapshot r, en_processedAt (ir_end r) with
          | Some c, Some (_, fingerprint), Some processedAt =>
              (tr_slot c =? ir_slot r) && bool_decide (tr_status c = fn_target (ir_finality r))
              && version_ok (tr_version c) && version_ok (fn_version (ir_finality r))
              && (tr_version c =? fn_version (ir_finality r))
              && is_sha256_hex (tr_fingerprint c) && bool_decide (tr_fingerprint c = fingerprint)
              && stored_date (tr_completedAt c) && (tr_completedAt c =? processedAt)
          | _, _, _ => false
          end)
    CONFLICT_FINALITY.

(** src/src/storage/transaction-inbox.repository.ts:690-723 (enqueue): a new row. *)
Definition inserted_row (policy : TransactionInboxRetryPolicy) (clock : Z) (n : TransactionNotification)
    (d : IngestionDecision) : InboxRow :=
  let terminalAt := if bool_decide (dc_status d = DEFERRED) then Some (Z.max clock (nt_observedAtMs n)) else None in
  {| ir_slot := nt_slot n; ir_sources := [nt_source n]; ir_programIds := nt_programIds n;
     ir_observedAt := nt_observedAtMs n; ir_updatedAt := clock;
     ir_admittedAt := if bool_decide (dc_status d = PENDING) then Some (nt_observedAtMs n) else None;
     ir_snapshot := None; ir_classification := None; ir_decision := d;
     ir_work := {| wk_attempts := 0; wk_cycle := 0; wk_maxAttempts := rp_maxAttempts policy;
                   wk_baseDelayMs := rp_baseDelayMs policy; wk_lease := None; wk_error := None;
                   wk_nextAttemptAt := None; wk_exhaustedAt := None |};
     ir_end := {| en_processedAt := None; en_terminalAt := terminalAt;
                  en_purgeAfter := (fun a => a + four_hours) <$> terminalAt |};
     ir_finality := {| fn_target := nt_confirmationStatus n; fn_missingPolls := 0; fn_missingProvider := None;
                       fn_version := 0 |};
     ir_recovery := {| rv_count := 0; rv_recoveredAt := None; rv_quarantinedAt := None; rv_decoderUsed := false |} |}.
(** src/src/storage/transaction-inbox.repository.ts:757-792 (enqueue): a row that is met again;
    [replay] puts a processed row back in the queue. *)
Definition requeued_row (clock : Z) (n : TransactionNotification) (r : InboxRow) (d : IngestionDecision)
    (sources : list TransactionDiscoverySource) (programs : list string) (next : ChainConfirmationStatus)
    (replay : bool) : InboxRow :=
  let w := ir_work r in
  let e := ir_end r in
  let at_ := Z.max clock (ir_observedAt r) in
  let status := if replay then PENDING else dc_status d in
  let cleared := replay || bool_decide (row_status r = DEFERRED) in
  {| ir_slot := ir_slot r; ir_sources := sources; ir_programIds := programs; ir_observedAt := ir_observedAt r;
     ir_updatedAt := Z.max (ir_updatedAt r) (nt_observedAtMs n);
     ir_admittedAt := match ir_admittedAt r with
                      | None => if bool_decide (status = PENDING) then Some at_ else None
                      | Some a => Some a
                      end;
     ir_snapshot := ir_snapshot r; ir_classification := ir_classification r;
     ir_decision := with_status status d;
     ir_work := {| wk_attempts := wk_attempts w; wk_cycle := if replay then 0 else wk_cycle w;
                   wk_maxAttempts := wk_maxAttempts w; wk_baseDelayMs := wk_baseDelayMs w; wk_lease := wk_lease w;
                   wk_error := wk_error w; wk_nextAttemptAt := wk_nextAttemptAt w;
                   wk_exhaustedAt := if replay then None else wk_exhaustedAt w |};
     ir_end :=
       {| en_processedAt := if replay then None else en_processedAt e;
          en_terminalAt := if bool_decide (dc_status d = DEFERRED)
                           then Some (default at_ (en_terminalAt e))
                           else if cleared then None else en_terminalAt e;
          en_purgeAfter := if bool_decide (dc_status d = DEFERRED)
                           then Some (default (at_ + four_hours) (en_purgeAfter e))
                           else if cleared then None else en_purgeAfter e |};
     ir_finality := {| fn_target := next; fn_missingPolls := 0; fn_missingProvider := None;
                       fn_version := if bool_decide (dc_status d = DEFERRED) then 0
                                     else fn_version (ir_finality r) + 1 |};
     ir_recovery := ir_recovery r |}.
(** A row whose sources, programs, decision and target change and nothing else. *)
Definition noted_row (n : TransactionNotification) (r : InboxRow) (d : IngestionDecision)
    (sources : list TransactionDiscoverySource) (programs : list string) (target : ChainConfirmationStatus)
    : InboxRow :=
  let f := ir_finality r in
  {| ir_slot := ir_slot r; ir_sources := sources; ir_programIds := programs; ir_observedAt := ir_observedAt r;
     ir_updatedAt := Z.max (ir_updatedAt r) (nt_observedAtMs n); ir_admittedAt := ir_admittedAt r;
     ir_snapshot := ir_snapshot r; ir_classification := ir_classification r;
     ir_decision := d; ir_work := ir_work r; ir_end := ir_end r;
     ir_finality := {| fn_target := target; fn_missingPolls := fn_missingPolls f;
                       fn_missingProvider := fn_missingProvider f; fn_version := fn_version f |};
     ir_recovery := ir_recovery r |}.

(** src/src/storage/transaction-inbox.repository.ts:653-680 (enqueue): a notification of a
    transaction that the catch-up ignored or quarantined. *)
Definition terminal_classification (r : InboxRow) : bool :=
  bool_decide (ir_disposition r = Some IGNORED) || bool_decide (ir_disposition r = Some QUARANTINED).
Definition note_classified (n : TransactionNotification) (r : InboxRow) (programs : list string)
    : result InboxError InboxRow :=
  conflict_if (bool_decide (nt_source n = WEBSOCKET)
               && bool_decide (ir_reasonCode r = Some "SOLANA_TRANSACTION_FAILED")) CONFLICT_CLASSIFICATION ;;
  conflict_if (negb (ir_slot r =? nt_slot n)) CONFLICT_IDENTITY ;;
  sources ← discoverySources r;
  next ← reconciledStatus (fn_target (ir_finality r)) (nt_confirmationStatus n);
  check_stored (inbox_date (nt_observedAtMs n)) ;;
  Ok (noted_row n r (ir_decision r) (add_source (nt_source n) sources) programs next).
(** src/src/storage/transaction-inbox.repository.ts:724-806 (enqueue): a notification of a
    transaction that has a row. *)
Definition note_again (clock : Z) (n : TransactionNotification) (r : InboxRow) (receipt : option TerminalReplayReceipt)
    (d : IngestionDecision) (programs : list string) : result InboxError InboxRow :=
  conflict_if (negb (ir_slot r =? nt_slot n)) CONFLICT_IDENTITY ;;
  let current := fn_target (ir_finality r) in
  sources ← discoverySources r;
  let sources := add_source (nt_source n) sources in
  if bool_decide (current = finalized) && bool_decide (row_status r = PROCESSED) then
    reconciledStatus current (nt_confirmationStatus n) ;;
    receipt_matches receipt r ;;
    check_stored (inbox_date (nt_observedAtMs n)) ;;
    Ok (noted_row n r (with_status (row_status r) d) sources programs current)
  else
    next ← reconciledStatus current (nt_confirmationStatus n);
    check_stored (bool_decide (dc_status d = DEFERRED) || version_ok (fn_version (ir_finality r))) ;;
    conflict_if (negb (bool_decide (dc_status d = DEFERRED))
                 && (fn_version (ir_finality r) =? MAX_FINALITY_EVIDENCE_VERSION)) CONFLICT_FINALITY ;;
    let replay := bool_decide (row_status r = PROCESSED) && negb (bool_decide (next = current)) in
    conflict_if (replay && match ir_snapshot r with None => true | Some _ => false end) CONFLICT_SNAPSHOT ;;
    check_stored (inbox_date (nt_observedAtMs n)) ;;
    Ok (requeued_row clock n r d sources programs next replay).
(** [LEFT(key, 14) = 'PUMPFUN_TRADE:'] and [SUBSTRING(key FROM 15)]. *)
Definition trade_key_mint (key : string) : option string :=
  if String.prefix "PUMPFUN_TRADE:" key
  then Some (String.substring 14 (String.length key - 14) key) else None.
(** src/migrations/049_transaction_inbox_catch_up_admission_receipt.sql:140-157: the hint of a trade
    that was classified. *)
Definition classified_trade_hint (c : CatchUpClassification) (d : IngestionDecision) : bool :=
  match trade_key_mint (cc_actionKey c) with
  | Some m => canonical_mint (Some m) && includes m (cc_mints c)
      && ((bool_decide (dc_hint d = PUMPFUN_TRADE) && bool_decide (dc_mint d = Some m))
          || (bool_decide (dc_hint d = HINT_NONE) && bool_decide (dc_mint d = None)))
  | None => false
  end.
(** src/migrations/049_transaction_inbox_catch_up_admission_receipt.sql:140-166: what each disposition
    asks. *)
Definition disposition_check (r : InboxRow) (c : CatchUpClassification) : bool :=
  let d := ir_decision r in
  let none := bool_decide (cc_actionKey c = "NONE") && bool_decide (dc_hint d = HINT_NONE)
              && bool_decide (dc_mint d = None) && negb (cc_enqueued c) in
  match cc_disposition c with
  | AS_ACTIONABLE =>
      bool_decide (cc_reasonCode c = "PUMP_ACTION_SUPPORTED") && Nat.leb 1 (List.length (cc_mints c))
      && (cc_enqueued c || includes WEBSOCKET (ir_sources r))
      && ((bool_decide (cc_actionKey c = "PUMPFUN_CREATE") && bool_decide (dc_hint d = PUMPFUN_CREATE)
           && bool_decide (dc_mint d = None))
          || classified_trade_hint c d)
  | AS_DEFERRED =>
      bool_decide (cc_reasonCode c = "PUMP_TRADE_UNTRACKED") && Nat.leb 1 (List.length (cc_mints c))
      && classified_trade_hint c d
  | AS_IGNORED => includes (cc_reasonCode c) ["SOLANA_TRANSACTION_FAILED"; "NO_SUPPORTED_PUMP_ACTION"] && none
  | AS_QUARANTINED => includes (cc_reasonCode c) ["PUMP_SCHEMA_UNSUPPORTED"; "PROVIDER_SIGNATURE_MISSING"] && none
  end.
(** src/migrations/049_transaction_inbox_catch_up_admission_receipt.sql:118-167
    (chain_transaction_inbox_catch_up_classification_check); the mints are valid when they are at
    most 16 canonical keys in ascending order. *)
Definition classification_check (r : InboxRow) : bool :=
  match ir_classification r with
  | None => true
  | Some c =>
      Nat.leb (List.length (cc_mints c)) 16 && ascending_ids None (cc_mints c)
      && (4 <=? byte_length (cc_actionKey c)) && (byte_length (cc_actionKey c) <=? 58)
      && is_sha256_hex (cc_fingerprint c)
      && (ir_observedAt r <=? cc_classifiedAt c) && (cc_classifiedAt c <=? MAX_DATE_MS)
      && Bool.eqb (cc_enqueued c) (bool_decide (cc_admissionPriority c <> None))
      && includes CATCH_UP (ir_sources r) && disposition_check r c
  end.

(** src/src/storage/transaction-inbox.repository.ts:585-810 (enqueue); [active] tells the launches
    that are not terminal.  An update of a row that breaks the constraint on its classification is
    refused by the database, and the call with it. *)
Definition enqueue (policy : TransactionInboxRetryPolicy) (active : string -> bool) (clock : Z)
    (n : TransactionNotification) : tx unit := fun t =>
  check_stored (valid_notification n) ;;
  let tracked := bool_decide (nt_ingestionHint n = Some PUMPFUN_TRADE)
                 && match nt_ingestionHintMint n with Some m => active m | None => false end in
  let row := ib_rows t !! nt_signature n in
  let receipt := ib_receipts t !! nt_signature n in
  programs ← merged_programs row (nt_programIds n);
  match row with
  | Some r =>
      if terminal_classification r && bool_decide (ir_disposition r = Some (row_status r)) then
        r' ← note_classified n r programs;
        Ok (tt, put_row (nt_signature n) r' t)
      else
        d ← (if terminal_classification r then storedIngestionDecision r
             else convergeIngestion row n tracked programs);
        r' ← note_again clock n r receipt d programs;
        check_stored (classification_check r') ;;
        Ok (tt, put_row (nt_signature n) r' t)
  | None =>
      d ← convergeIngestion None n tracked programs;
      match receipt with
      | Some c => receipt_accepts c n ;; Ok (tt, t)
      | None =>
          check_stored (inbox_date (nt_observedAtMs n)) ;;
          Ok (tt, put_row (nt_signature n) (inserted_row policy clock n d) t)
      end
  end.

(** * Claims *)

(** The order of texts in the database. *)
Class Collation := collate : string -> string -> bool.
Section Claims.
Context `{Collation} `{Sha256}.

(** The first answer of a list of queries. *)
Fixpoint list_find_some {A B} (f : A -> option B) (l : list A) : option B :=
  match l with
  | [] => None
  | x :: l' => match f x with Some b => Some b | None => list_find_some f l' end
  end.

(** [ORDER BY ..., observed_slot, signature]; [rank] is what comes before. *)
Definition claim_before (rank : InboxRow -> Z) (a b : string * InboxRow) : Prop :=
  (if rank (snd a) =? rank (snd b) then
     if ir_slot (snd a) =? ir_slot (snd b) then collate (fst a) (fst b) else ir_slot (snd a) <? ir_slot (snd b)
   else rank (snd a) <? rank (snd b)) = true.
Global Instance claim_before_dec rank : RelDecision (claim_before rank).
Proof. intros a b. unfold claim_before. apply _. Defined.
(** [SELECT ... WHERE ok ORDER BY ... LIMIT limit] *)
Definition select_rows (ok : InboxRow -> bool) (rank : InboxRow -> Z) (limit : nat) (t : InboxTables)
    : list (string * InboxRow) :=
  take limit (merge_sort (claim_before rank) (List.filter (fun p => ok (snd p)) (map_to_list (ib_rows t)))).

(** Times in SQL: a comparison with [NULL] fails. *)
Definition at_most (at_ : option Z) (now : Z) : bool := match at_ with Some a => a <=? now | None => false end.
Definition lease_expiry (w : row_work) : option Z := snd <$> wk_lease w.
Definition is_retryable (w : row_work) : bool :=
  match wk_error w with Some e => fl_retryable e | None => false end.

(** src/src/storage/transaction-inbox.repository.ts:212-246 (CLAIM_CANDIDATE_SQL): the rows that
    can be claimed. *)
Definition claimable (now : Z) (r : InboxRow) : bool :=
  let w := ir_work r in
  match row_status r with
  | PENDING => wk_cycle w <? wk_maxAttempts w
  | FAILED => is_retryable w && bool_decide (wk_exhaustedAt w = None) && at_most (wk_nextAttemptAt w) now
              && (wk_cycle w <? wk_maxAttempts w)
  | PROCESSING => at_most (lease_expiry w) now && (wk_cycle w <? wk_maxAttempts w)
  | _ => false
  end.
(** Their order: of tracked trades, those of the pollers come last. *)
Definition claim_rank (p : TransactionInboxPriority) (r : InboxRow) : Z :=
  match p, dc_hint (ir_decision r) with
  | TRACKED_TRADE, PUMPSWAP_POOL_TRADE => 2
  | TRACKED_TRADE, PUMPFUN_CURVE_TRADE => 1
  | _, _ => 0
  end.
(** src/src/storage/transaction-inbox.repository.ts:1393-1402 (selectClaimCandidate): of the
    disabled policy. *)
Definition selectClaimCandidate (now : Z) (p : TransactionInboxPriority) (t : InboxTables)
    : option (string * InboxRow) :=
  head (select_rows (fun r => bool_decide (dc_priority (ir_decision r) = p) && claimable now r) (claim_rank p) 1 t).

(** src/src/storage/transaction-inbox.repository.ts:1248-1285 (claim): the rows whose attempts
    are used up, and what becomes of them. *)
Definition spent (now : Z) (r : InboxRow) : bool :=
  let w := ir_work r in
  (wk_maxAttempts w <=? wk_cycle w) && bool_decide (wk_exhaustedAt w = None)
  && match row_status r with
     | FAILED => is_retryable w
     | PROCESSING => at_most (lease_expiry w) now
     | _ => false
     end.
Definition exhausted_row (clock : Z) (r : InboxRow) : InboxRow :=
  let w := ir_work r in
  row_with r (with_status FAILED (ir_decision r))
    {| wk_attempts := wk_attempts w; wk_cycle := wk_cycle w; wk_maxAttempts := wk_maxAttempts w;
       wk_baseDelayMs := wk_baseDelayMs w; wk_lease := None;
       wk_error := if bool_decide (row_status r = PROCESSING)
                   then Some {| fl_code := WORKER_LEASE_EXPIRED; fl_errorName := "TransactionInboxLeaseExpired";
                                fl_retryable := true |}
                   else (fun e => {| fl_code := fl_code e; fl_errorName := fl_errorName e; fl_retryable := true |})
                          <$> wk_error w;
       wk_nextAttemptAt := None; wk_exhaustedAt := Some clock |}
    {| en_processedAt := en_processedAt (ir_end r); en_terminalAt := Some clock;
       en_purgeAfter := Some (clock + four_hours) |}
    (ir_finality r) (ir_recovery r) clock.
Definition exhaust_rows (now clock : Z) (t : InboxTables) : InboxTables :=
  fold_left (fun t p => put_row (fst p) (exhausted_row clock (snd p)) t)
    (select_rows (spent now) (fun _ => 0) MAX_EXHAUSTION_RECONCILIATIONS_PER_CLAIM t) t.

(** src/src/storage/transaction-inbox.repository.ts:1312-1335 (claim): the candidate; after a
    streak of urgent claims a normal one comes first, after a streak of launches a tracked
    trade. *)
Definition claim_choice (now : Z) (t : InboxTables) : option (string * InboxRow) :=
  let urgent :=
    if ib_launchClaims t =? MAX_LAUNCH_CLAIMS_BEFORE_TRACKED then [TRACKED_TRADE; LAUNCH_CANDIDATE]
    else [LAUNCH_CANDIDATE; TRACKED_TRADE] in
  let order := urgent ++ [PRIORITY_NORMAL] in
  let order := if ib_urgentClaims t =? MAX_CONSECUTIVE_URGENT_CLAIMS then PRIORITY_NORMAL :: order else order in
  list_find_some (fun p => selectClaimCandidate now p t) order.
(** src/src/storage/transaction-inbox.repository.ts:1340-1364 (claim): the row once it is leased. *)
Definition leased_row (now clock : Z) (token : string) (expires : Z) (r : InboxRow) : InboxRow :=
  let w := ir_work r in
  {| ir_slot := ir_slot r; ir_sources := ir_sources r; ir_programIds := ir_programIds r;
     ir_observedAt := ir_observedAt r; ir_updatedAt := Z.max (ir_updatedAt r) now;
     ir_admittedAt := match ir_admittedAt r with
                      | None => if bool_decide (row_status r = PENDING) then Some (Z.max clock (ir_observedAt r))
                                else None
                      | Some a => Some a
                      end;
     ir_snapshot := ir_snapshot r; ir_classification := ir_classification r;
     ir_decision := with_status PROCESSING (ir_decision r);
     ir_work := {| wk_attempts := wk_attempts w + 1; wk_cycle := wk_cycle w + 1; wk_maxAttempts := wk_maxAttempts w;
                   wk_baseDelayMs := wk_baseDelayMs w; wk_lease := Some (token, expires); wk_error := None;
                   wk_nextAttemptAt := None; wk_exhaustedAt := wk_exhaustedAt w |};
     ir_end := ir_end r; ir_finality := ir_finality r; ir_recovery := ir_recovery r |}.
(** src/src/storage/transaction-inbox.repository.ts:1365-1387 (claim): the scheduler's row. *)
Definition scheduled (p : TransactionInboxPriority) (t : InboxTables) : InboxTables :=
  {| ib_rows := ib_rows t; ib_receipts := ib_receipts t;
     ib_urgentClaims := if bool_decide (p = PRIORITY_NORMAL) then 0
                        else Z.min (ib_urgentClaims t + 1) MAX_CONSECUTIVE_URGENT_CLAIMS;
     ib_launchClaims := match p with
                        | LAUNCH_CANDIDATE => Z.min (ib_launchClaims t + 1) MAX_LAUNCH_CLAIMS_BEFORE_TRACKED
                        | TRACKED_TRADE => 0
                        | PRIORITY_NORMAL => ib_launchClaims t
                        end;
     ib_decoderRecoveries := ib_decoderRecoveries t |}.
(** src/src/storage/transaction-inbox.repository.ts:3300-3330 (claimFromRow) *)
Definition claimFromRow (signature token : string) (expires : Z) (r : InboxRow) : result InboxError ClaimedTransaction :=
  check_stored (0 <=? ir_slot r) ;;
  check_stored (match ir_snapshot r with
                | None => true
                | Some s => decodeSnapshot s signature (ir_slot r) (fn_target (ir_finality r))
                end) ;;
  check_stored (safeCount (wk_attempts (ir_work r)) && negb (is_empty token) && stored_date expires
                && stored_date (ir_observedAt r) && negb (is_empty signature)) ;;
  Ok {| cl_signature := signature; cl_slot := ir_slot r; cl_confirmationStatus := fn_target (ir_finality r);
        cl_attempts := wk_attempts (ir_work r); cl_leaseToken := token; cl_leaseExpiresAtMs := expires;
        cl_observedAtMs := ir_observedAt r; cl_normalizedTransaction := fst <$> ir_snapshot r |}.
(** src/src/storage/transaction-inbox.repository.ts:1235-1391 (claim); [token] is the random lease
    token. *)
Definition claim (clock : Z) (token : string) (nowMs leaseSeconds : Z) : tx (option ClaimedTransaction) := fun t =>
  check_stored (inbox_date nowMs) ;;
  check_stored (is_safe_integer leaseSeconds && (0 <? leaseSeconds)) ;;
  let leaseMs := leaseSeconds * 1000 in
  check_stored (is_safe_integer leaseMs) ;;
  let expires := nowMs + leaseMs in
  check_stored (inbox_date expires) ;;
  let t := exhaust_rows nowMs clock t in
  check_stored (safeCount (ib_urgentClaims t) && (ib_urgentClaims t <=? MAX_CONSECUTIVE_URGENT_CLAIMS)) ;;
  check_stored (safeCount (ib_launchClaims t) && (ib_launchClaims t <=? MAX_LAUNCH_CLAIMS_BEFORE_TRACKED)) ;;
  match claim_choice nowMs t with
  | None => Ok (None, t)
  | Some (signature, r) =>
      check_stored (negb (is_empty signature)) ;;
      let r' := leased_row nowMs clock token expires r in
      claimed ← claimFromRow signature token expires r';
      Ok (Some claimed, scheduled (dc_priority (ir_decision r)) (put_row signature r' t))
  end.
End Claims.

(** * Work under a lease *)
Section Work.
Context `{Sha256}.

(** src/src/storage/transaction-inbox.repository.ts:3281-3298 (leasedRow) *)
Definition leasedRow (signature token : string) (t : InboxTables) : result InboxError InboxRow :=
  match ib_rows t !! signature with
  | Some r =>
      if bool_decide (row_status r = PROCESSING) && bool_decide (fst <$> wk_lease (ir_work r) = Some token)
      then Ok r else Err LeaseError
  | None => Err LeaseError
  end.
(** [requireText(signature); requireText(token)] *)
Definition lease_texts (signature token : string) : result InboxError unit :=
  check_stored (negb (is_empty signature) && negb (is_empty token)).

(** src/src/storage/transaction-inbox.repository.ts:1713-1718 (renewLease): the row whose lease is
    renewed. *)
Definition renewed_row (clock untilMs : Z) (r : InboxRow) : InboxRow :=
  let w := ir_work r in
  row_with r (ir_decision r)
    {| wk_attempts := wk_attempts w; wk_cycle := wk_cycle w; wk_maxAttempts := wk_maxAttempts w;
       wk_baseDelayMs := wk_baseDelayMs w;
       wk_lease := (fun l => (fst l, Z.max (snd l) untilMs)) <$> wk_lease w;
       wk_error := wk_error w; wk_nextAttemptAt := wk_nextAttemptAt w; wk_exhaustedAt := wk_exhaustedAt w |}
    (ir_end r) (ir_finality r) (ir_recovery r) clock.
(** src/src/storage/transaction-inbox.repository.ts:1708-1720 (renewLease) *)
Definition renewLease (clock : Z) (signature token : string) (untilMs : Z) : tx unit := fun t =>
  lease_texts signature token ;;
  check_stored (inbox_date untilMs) ;;
  r ← leasedRow signature token t;
  Ok (tt, put_row signature (renewed_row clock untilMs r) t).

(** src/src/storage/transaction-inbox.repository.ts:1754-1769 (saveSnapshot): the row with a
    snapshot. *)
Definition saved_row (clock : Z) (snapshot : DurableNormalizedTransaction * string) (r : InboxRow) : InboxRow :=
  {| ir_slot := ir_slot r; ir_sources := ir_sources r; ir_programIds := ir_programIds r;
     ir_observedAt := ir_observedAt r; ir_updatedAt := Z.max (ir_updatedAt r) clock;
     ir_admittedAt := ir_admittedAt r; ir_snapshot := Some snapshot; ir_classification := ir_classification r;
     ir_decision := ir_decision r; ir_work := ir_work r; ir_end := ir_end r;
     ir_finality := ir_finality r; ir_recovery := ir_recovery r |}.
(** src/src/storage/transaction-inbox.repository.ts:1722-1773 (saveSnapshot) *)
Definition saveSnapshot (clock : Z) (signature token : string) (s : DurableNormalizedTransaction) : tx unit := fun t =>
  lease_texts signature token ;;
  conflict_if (negb (bool_decide (sn_signature s = signature))) CONFLICT_IDENTITY ;;
  let fingerprint := snapshotFingerprint s in
  r ← leasedRow signature token t;
  conflict_if (negb (ir_slot r =? sn_slot s)) CONFLICT_IDENTITY ;;
  check_stored (0 <=? sn_slot s) ;;
  check_stored (snapshot_matches s signature (sn_slot s) (fn_target (ir_finality r))) ;;
  match ir_snapshot r with
  | Some stored =>
      check_stored (negb (is_empty (snd stored))) ;;
      conflict_if (negb (bool_decide (snd stored = fingerprint))) CONFLICT_SNAPSHOT ;;
      check_stored (decodeSnapshot stored signature (sn_slot s) (fn_target (ir_finality r))) ;;
      Ok (tt, put_row signature (saved_row clock stored r) t)
  | None => Ok (tt, put_row signature (saved_row clock (s, fingerprint) r) t)
  end.

(** The work of a row without lease and error. *)
Definition idle_work (w : row_work) : row_work :=
  {| wk_attempts := wk_attempts w; wk_cycle := wk_cycle w; wk_maxAttempts := wk_maxAttempts w;
     wk_baseDelayMs := wk_baseDelayMs w; wk_lease := None; wk_error := None; wk_nextAttemptAt := None;
     wk_exhaustedAt := wk_exhaustedAt w |}.
(** src/src/storage/transaction-inbox.repository.ts:1804-1829 (markProcessed): the processed row. *)
Definition processed_row (clock : Z) (next : ChainConfirmationStatus) (terminal : bool) (r : InboxRow) : InboxRow :=
  let f := ir_finality r in
  row_with r (with_status PROCESSED (ir_decision r)) (idle_work (ir_work r))
    {| en_processedAt := Some clock; en_terminalAt := if terminal then Some clock else None;
       en_purgeAfter := if terminal then Some (clock + four_hours) else None |}
    {| fn_target := next; fn_missingPolls := if terminal then 0 else fn_missingPolls f;
       fn_missingProvider := if terminal then None else fn_missingProvider f;
       fn_version := if terminal && (fn_version f <? MAX_FINALITY_EVIDENCE_VERSION) then fn_version f + 1
                     else fn_version f |}
    (ir_recovery r) clock.
(** src/src/storage/transaction-inbox.repository.ts:1830-1847 (markProcessed): the receipt of a
    terminal row. *)
Definition replay_receipt (clock : Z) (fingerprint : string) (r : InboxRow) : TerminalReplayReceipt :=
  {| tr_slot := ir_slot r; tr_status := fn_target (ir_finality r); tr_version := fn_version (ir_finality r);
     tr_fingerprint := fingerprint; tr_completedAt := clock |}.
(** src/src/storage/transaction-inbox.repository.ts:1775-1857 (markProcessed); the database refuses a
    date of processing before the one of the observation, which another clock gave
    (chain_transaction_inbox_timestamps_check). *)
Definition markProcessed (clock : Z) (signature token : string) (status : ChainConfirmationStatus) : tx unit := fun t =>
  lease_texts signature token ;;
  r ← leasedRow signature token t;
  match ir_snapshot r with
  | None => Err (ConflictError CONFLICT_SNAPSHOT)
  | Some stored =>
      next ← reconciledStatus (fn_target (ir_finality r)) status;
      check_stored (decodeSnapshot stored signature (ir_slot r) next) ;;
      check_stored (ir_observedAt r <=? clock) ;;
      let terminal := bool_decide (next = finalized) || bool_decide (next = orphaned) in
      let r' := processed_row clock next terminal r in
      let t' := put_row signature r' t in
      if terminal then
        let receipt := replay_receipt clock (snd stored) r' in
        match ib_receipts t !! signature with
        | None =>
            Ok (tt, {| ib_rows := ib_rows t'; ib_receipts := <[signature := receipt]> (ib_receipts t');
                       ib_urgentClaims := ib_urgentClaims t'; ib_launchClaims := ib_launchClaims t';
                       ib_decoderRecoveries := ib_decoderRecoveries t' |})
        | Some old => if bool_decide (old = receipt) then Ok (tt, t') else Err LeaseError
        end
      else Ok (tt, t')
  end.

(** src/src/domain/observed-pipeline-taxonomy.ts:2-7 (OBSERVED_PIPELINE_STAGES) *)
Definition OBSERVED_PIPELINE_STAGES : list string :=
  ["create_observation"; "load_tracked_mints"; "launchpad_observation"; "sync_tracked_mint";
   "reload_active_events"; "funding_observation"; "participant_analytics"; "wallet_graph";
   "pumpswap_observation"; "qualification"; "paper_decision_enqueue"].
(** src/src/domain/observed-pipeline-taxonomy.ts:11-24 (OBSERVED_PIPELINE_ORIGIN_CODES) *)
Definition OBSERVED_PIPELINE_ORIGIN_CODES : list string :=
  ["PUMP_TRANSACTION_INDEX_REQUIRED"; "PUMP_SCHEMA_UNSUPPORTED"; "PUMP_BORSH_TRUNCATED"; "PUMP_BORSH_INVALID";
   "PUMP_ACCOUNT_MISSING"; "PUMP_STACK_HEIGHT_REQUIRED"; "PUMP_STACK_HEIGHT_INVALID"; "PUMP_EVENT_MISSING";
   "PUMP_EVENT_DUPLICATE"; "PUMP_EVENT_ORPHANED"; "PUMP_EVENT_AMBIGUOUS"; "PUMP_EVENT_MISMATCH";
   "PUMP_QUOTE_ASSET_UNRESOLVED"; "PUMP_QUOTE_ASSET_CONFLICT"; "PUMP_TOKEN_PROGRAM_UNSUPPORTED";
   "PUMPSWAP_ACCOUNT_MISSING"; "PUMPSWAP_BORSH_INVALID"; "PUMPSWAP_BORSH_TRUNCATED"; "PUMPSWAP_EVENT_AMBIGUOUS";
   "PUMPSWAP_EVENT_DUPLICATE"; "PUMPSWAP_EVENT_MISMATCH"; "PUMPSWAP_EVENT_MISSING"; "PUMPSWAP_EVENT_ORPHANED";
   "PUMPSWAP_SCHEMA_UNSUPPORTED"; "PUMPSWAP_STACK_HEIGHT_REQUIRED"; "PUMPSWAP_TOKEN_PROGRAM_UNSUPPORTED";
   "UNKNOWN"].
(** [s.split('.')] *)
Fixpoint split_dots (l current : list ascii) : list string :=
  match l with
  | [] => [of_chars (rev current)]
  | c :: l' => if Ascii.eqb c "." then of_chars (rev current) :: split_dots l' [] else split_dots l' (c :: current)
  end.
(** src/src/domain/observed-pipeline-failure.ts:42-50 (assertValidObservedPipelineFailure) *)
Definition valid_pipeline_failure (errorName : string) (retryable : bool) : bool :=
  match split_dots (chars errorName) [] with
  | [name; version; stage; code] =>
      bool_decide (name = "ObservedPipelineFailure") && bool_decide (version = "v1")
      && includes code OBSERVED_PIPELINE_ORIGIN_CODES && Bool.eqb retryable (bool_decide (code = "UNKNOWN"))
      && (if bool_decide (stage = "unclassified") then bool_decide (code = "UNKNOWN")
          else includes stage OBSERVED_PIPELINE_STAGES)
  | _ => false
  end.
(** src/src/domain/transaction-ingestion.ts:567-581 (assertValidIngestionFailure) *)
Definition valid_failure (f : IngestionFailure) : bool :=
  negb (is_empty (fl_errorName f))
  && (negb (bool_decide (fl_code f = PIPELINE_STAGE_FAILED))
      || valid_pipeline_failure (fl_errorName f) (fl_retryable f)).
(** src/src/storage/transaction-inbox.repository.ts:4492-4497 (requireSafeErrorName) *)
Definition name_char (first : bool) (c : ascii) : bool :=
  let n := Z.of_nat (nat_of_ascii c) in
  ((65 <=? n) && (n <=? 90)) || ((97 <=? n) && (n <=? 122)) || (n =? 95) || (n =? 36)
  || (negb first && (((48 <=? n) && (n <=? 57)) || (n =? 46) || (n =? 45))).
Definition safe_error_name (s : string) : bool :=
  match chars s with
  | c :: l => name_char true c && forallb (name_char false) l && (byte_length s <=? 16384)
  | [] => false
  end.
(** src/src/domain/observed-pipeline-failure.ts:17-20 (decoderQuarantineErrorNames) *)
Definition SCHEMA_FAILURE : string := "ObservedPipelineFailure.v1.launchpad_observation.PUMP_SCHEMA_UNSUPPORTED".
Definition TRUNCATED_FAILURE : string := "ObservedPipelineFailure.v1.launchpad_observation.PUMP_BORSH_TRUNCATED".
(** src/src/domain/observed-pipeline-failure.ts:52-74 (isDecoderQuarantineFailure): of a failure
    that was accepted. *)
Definition isDecoderQuarantineFailure (f : IngestionFailure) : bool :=
  bool_decide (fl_code f = PIPELINE_STAGE_FAILED) && negb (fl_retryable f)
  && includes (fl_errorName f) [SCHEMA_FAILURE; TRUNCATED_FAILURE].
(** src/src/storage/transaction-inbox.repository.ts:4613-4633 (hasRecoverableDecoderQuarantineSnapshot) *)
Definition INT_MAX : Z := 2147483647.
Definition hasRecoverableDecoderQuarantineSnapshot (r : InboxRow) (signature : string) : bool :=
  positiveBounded (wk_attempts (ir_work r)) INT_MAX && positiveBounded (wk_cycle (ir_work r)) 100
  && safeCount (rv_count (ir_recovery r)) && (rv_count (ir_recovery r) <? INT_MAX)
  && match ir_snapshot r with
     | Some stored => decodeSnapshot stored signature (ir_slot r) (fn_target (ir_finality r))
     | None => false
     end.
(** src/src/storage/transaction-inbox.repository.ts:4535-4541 (retryDelayMs) *)
Definition retryDelayMs (baseDelayMs attemptsInCycle : Z) : Z :=
  Z.min 60000 (baseDelayMs * 2 ^ Z.min (attemptsInCycle - 1) 16).
(** src/src/storage/transaction-inbox.repository.ts:1889-1925 (markFailed): the failed row. *)
Definition failed_row (clock : Z) (f : IngestionFailure) (quarantine recorded : bool) (r : InboxRow) : InboxRow :=
  let w := ir_work r in
  let c := ir_recovery r in
  let exhausted := fl_retryable f && (wk_maxAttempts w <=? wk_cycle w) in
  let terminal := negb (fl_retryable f) || exhausted in
  let delayMs := retryDelayMs (wk_baseDelayMs w) (wk_cycle w) in
  let r' :=
    row_with r (with_status FAILED (ir_decision r))
      {| wk_attempts := wk_attempts w; wk_cycle := wk_cycle w; wk_maxAttempts := wk_maxAttempts w;
         wk_baseDelayMs := wk_baseDelayMs w; wk_lease := None; wk_error := Some f;
         wk_nextAttemptAt := if fl_retryable f && negb exhausted then Some (clock + delayMs) else None;
         wk_exhaustedAt := if exhausted then Some clock else None |}
      {| en_processedAt := en_processedAt (ir_end r); en_terminalAt := if terminal then Some clock else None;
         en_purgeAfter := if terminal then Some (clock + four_hours) else None |}
      (ir_finality r)
      {| rv_count := rv_count c; rv_recoveredAt := rv_recoveredAt c;
         rv_quarantinedAt := if quarantine && negb (rv_decoderUsed c) && negb recorded then Some clock else None;
         rv_decoderUsed := rv_decoderUsed c |} clock in
  {| ir_slot := ir_slot r'; ir_sources := ir_sources r'; ir_programIds := ir_programIds r';
     ir_observedAt := ir_observedAt r'; ir_updatedAt := clock; ir_admittedAt := ir_admittedAt r';
     ir_snapshot := ir_snapshot r'; ir_classification := ir_classification r';
     ir_decision := ir_decision r'; ir_work := ir_work r'; ir_end := ir_end r'; ir_finality := ir_finality r';
     ir_recovery := ir_recovery r' |}.
(** src/src/storage/transaction-inbox.repository.ts:1859-1937 (markFailed) *)
Definition markFailed (clock : Z) (signature token : string) (f : IngestionFailure) : tx unit := fun t =>
  lease_texts signature token ;;
  check_stored (valid_failure f && safe_error_name (fl_errorName f)) ;;
  r ← leasedRow signature token t;
  let w := ir_work r in
  check_stored (safeCount (wk_cycle w) && positiveBounded (wk_maxAttempts w) 100
                && positiveBounded (wk_baseDelayMs w) 60000 && (0 <? wk_cycle w)) ;;
  let quarantine := isDecoderQuarantineFailure f && hasRecoverableDecoderQuarantineSnapshot r signature in
  check_stored (safeCount (wk_attempts w) && safeCount (rv_count (ir_recovery r)) && (0 <=? ir_slot r)) ;;
  Ok (tt, put_row signature (failed_row clock f quarantine (bool_decide (signature ∈ ib_decoderRecoveries t)) r) t).
End Work.

(** * Recoveries by an operator *)
Section Recoveries.
Context `{Sha256}.

(** A row back in the queue, its attempts of this cycle not begun. *)
Definition recovered_row (clock : Z) (maxAttempts baseDelayMs : Z) (quarantinedAt : option Z) (decoderUsed : bool)
    (r : InboxRow) : InboxRow :=
  row_with r (with_status PENDING (ir_decision r))
    {| wk_attempts := wk_attempts (ir_work r); wk_cycle := 0; wk_maxAttempts := maxAttempts;
       wk_baseDelayMs := baseDelayMs; wk_lease := None; wk_error := None; wk_nextAttemptAt := None;
       wk_exhaustedAt := None |}
    {| en_processedAt := None; en_terminalAt := None; en_purgeAfter := None |}
    (ir_finality r)
    {| rv_count := rv_count (ir_recovery r) + 1; rv_recoveredAt := Some clock; rv_quarantinedAt := quarantinedAt;
       rv_decoderUsed := decoderUsed |} clock.
(** [nullableDateMs] *)
Definition nullable_date (d : option Z) : bool := match d with Some ms => stored_date ms | None => true end.

(** src/src/storage/transaction-inbox.repository.ts:1967-1973 (recoverExhausted): whether the row
    can be recovered. *)
Definition exhausted_eligible (clock : Z) (r : InboxRow) : bool :=
  bool_decide (row_status r = FAILED) && is_retryable (ir_work r)
  && bool_decide (wk_exhaustedAt (ir_work r) <> None) && bool_decide (en_terminalAt (ir_end r) <> None)
  && match en_purgeAfter (ir_end r) with Some purgeAfter => clock <? purgeAfter | None => false end.
(** src/src/storage/transaction-inbox.repository.ts:1939-2054 (recoverExhausted) *)
Definition recoverExhausted (policy : TransactionInboxRetryPolicy) (clock : Z) (signature : string)
    : tx InboxRecoveryResultCode := fun t =>
  check_stored (negb (is_empty signature)) ;;
  match ib_rows t !! signature with
  | None => Ok (RECOVERY_NOT_FOUND, t)
  | Some r =>
      let w := ir_work r in
      let c := ir_recovery r in
      check_stored (safeCount (rv_count c)) ;;
      if (bool_decide (row_status r = PENDING) || bool_decide (row_status r = PROCESSING))
         && (0 <? rv_count c) && bool_decide (rv_recoveredAt c <> None)
      then
        check_stored (nullable_date (rv_recoveredAt c)) ;;
        Ok (RECOVERY_ALREADY_SCHEDULED, t)
      else
        check_stored (nullable_date (wk_exhaustedAt w) && nullable_date (en_terminalAt (ir_end r))
                      && nullable_date (en_purgeAfter (ir_end r))) ;;
        if negb (exhausted_eligible clock r) then Ok (RECOVERY_NOT_ELIGIBLE, t)
        else
          check_stored (positiveBounded (wk_attempts w) INT_MAX && positiveBounded (wk_cycle w) 100
                        && positiveBounded (wk_maxAttempts w) 100 && positiveBounded (wk_baseDelayMs w) 60000) ;;
          check_stored (rv_count c <? INT_MAX) ;;
          Ok (RECOVERY_SCHEDULED,
              put_row signature
                (recovered_row clock (rp_maxAttempts policy) (rp_baseDelayMs policy) (rv_quarantinedAt c)
                   (rv_decoderUsed c) r) t)
  end.

(** src/src/storage/transaction-inbox.repository.ts:4599-4611 (isStoredDecoderQuarantineFailure) *)
Definition isStoredDecoderQuarantineFailure (w : row_work) : bool :=
  match wk_error w with Some f => valid_failure f && isDecoderQuarantineFailure f | None => false end.
(** src/src/storage/transaction-inbox.repository.ts:2103-2115 (recoverDecoderQuarantine): whether
    the row is quarantined; the dates that follow are those of its end. *)
Definition quarantine_dates (recorded : bool) (r : InboxRow) : option (Z * Z) :=
  let w := ir_work r in
  if bool_decide (row_status r = FAILED) && isStoredDecoderQuarantineFailure w && negb recorded
     && bool_decide (wk_exhaustedAt w = None) && bool_decide (en_processedAt (ir_end r) = None)
     && bool_decide (wk_lease w = None) && bool_decide (wk_nextAttemptAt w = None)
  then match en_terminalAt (ir_end r), en_purgeAfter (ir_end r) with
       | Some terminalAt, Some purgeAfter =>
           if purgeAfter - terminalAt =? four_hours then Some (terminalAt, purgeAfter) else None
       | _, _ => None
       end
  else None.
(** src/src/storage/transaction-inbox.repository.ts:2056-2174 (recoverDecoderQuarantine) *)
Definition recoverDecoderQuarantine (clock : Z) (signature : string) : tx DecoderRecoveryResultCode := fun t =>
  check_stored (negb (is_empty signature)) ;;
  match ib_rows t !! signature with
  | None => Ok (DECODER_RECOVERY_NOT_FOUND, t)
  | Some r =>
      let w := ir_work r in
      let c := ir_recovery r in
      check_stored (safeCount (rv_count c)) ;;
      if rv_decoderUsed c then
        check_stored (negb (rv_count c =? 0)
                      && match rv_recoveredAt c with Some a => stored_date a | None => false end) ;;
        Ok (DECODER_RECOVERY_ALREADY_SCHEDULED, t)
      else
        check_stored (stored_date clock && nullable_date (en_terminalAt (ir_end r))
                      && nullable_date (en_purgeAfter (ir_end r)) && nullable_date (rv_quarantinedAt c)) ;;
        match quarantine_dates (bool_decide (signature ∈ ib_decoderRecoveries t)) r with
        | None => Ok (DECODER_RECOVERY_NOT_ELIGIBLE, t)
        | Some (terminalAt, purgeAfter) =>
            if purgeAfter <=? clock then Ok (DECODER_RECOVERY_EXPIRED, t)
            else if negb (bool_decide (rv_quarantinedAt c = Some terminalAt))
            then Ok (DECODER_RECOVERY_NOT_ELIGIBLE, t)
            else
              check_stored (positiveBounded (wk_attempts w) INT_MAX && positiveBounded (wk_cycle w) 100
                            && (rv_count c <? INT_MAX)) ;;
              match ir_snapshot r with
              | Some stored =>
                  if decodeSnapshot stored signature (ir_slot r) (fn_target (ir_finality r)) then
                    let t' := put_row signature
                                (recovered_row clock (wk_maxAttempts w) (wk_baseDelayMs w) None true r) t in
                    Ok (DECODER_RECOVERY_SCHEDULED,
                        {| ib_rows := ib_rows t'; ib_receipts := ib_receipts t';
                           ib_urgentClaims := ib_urgentClaims t'; ib_launchClaims := ib_launchClaims t';
                           ib_decoderRecoveries := {[signature]} ∪ ib_decoderRecoveries t' |})
                  else Ok (DECODER_RECOVERY_NOT_ELIGIBLE, t)
              | None => Ok (DECODER_RECOVERY_NOT_ELIGIBLE, t)
              end
        end
  end.
End Recoveries.

(** * Finality *)
Section Finality.
Context `{Collation} `{Sha256}.

(** src/src/domain/transaction-ingestion.ts:1100-1110 (assertMissingFinalityProviderCorrelation) *)
Definition provider_correlates (polls : Z) (provider : option RpcProviderId) : bool :=
  Bool.eqb (polls =? 0) (bool_decide (provider = None)).
(** A status that can still change. *)
Definition is_open_status (s : ChainConfirmationStatus) : bool :=
  bool_decide (s = processed) || bool_decide (s = confirmed).
(** src/src/domain/transaction-ingestion.ts:669-694 (assertValidFinalityPollObservation) *)
Definition valid_poll (v : FinalityPollObservation) : bool :=
  negb (is_empty (po_signature v))
  && (match po_confirmationStatus v with None => true | Some s => is_open_status s end)
  && safeCount (po_expectedMissingFinalityPolls v)
  && provider_correlates (po_expectedMissingFinalityPolls v) (po_expectedLastMissingFinalityProviderId v)
  && version_ok (po_expectedFinalityEvidenceVersion v) && stored_date (po_observedAtMs v).
(** src/src/domain/transaction-ingestion.ts:696-739 (assertValidFinalityRevision) *)
Definition valid_revision (v : FinalityRevision) : bool :=
  negb (is_empty (rv_signature v))
  && (match rv_orphaned v with
      | None => true
      | Some (status, polls, _, version) =>
          is_open_status status && safeCount polls && (0 <? polls) && version_ok version
      end)
  && stored_date (rv_observedAtMs v).
(** src/src/storage/transaction-inbox.repository.ts:3374-3391 (finalityCandidateFromRow) with
    [src/src/domain/transaction-ingestion.ts] (assertValidFinalityCandidate, 650-667). *)
Definition finalityCandidateFromRow (signature : string) (r : InboxRow) : result InboxError FinalityCandidate :=
  let f := ir_finality r in
  match en_processedAt (ir_end r) with
  | Some processedAt =>
      check_stored (is_open_status (fn_target f) && negb (is_empty signature) && (0 <=? ir_slot r)
                    && safeCount (fn_missingPolls f) && version_ok (fn_version f) && stored_date processedAt
                    && provider_correlates (fn_missingPolls f) (fn_missingProvider f)) ;;
      Ok {| fc_signature := signature; fc_slot := ir_slot r; fc_confirmationStatus := fn_target f;
            fc_missingFinalityPolls := fn_missingPolls f; fc_lastMissingFinalityProviderId := fn_missingProvider f;
            fc_finalityEvidenceVersion := fn_version f; fc_processedAtMs := processedAt |}
  | None => Err RepositoryError
  end.
(** src/src/storage/transaction-inbox.repository.ts:2176-2194 (listForFinality) *)
Definition listForFinality (limit : Z) : tx (list FinalityCandidate) := fun t =>
  check_stored (is_safe_integer limit && (0 <? limit)) ;;
  candidates ← mapM (fun p => finalityCandidateFromRow (fst p) (snd p))
    (select_rows (fun r => bool_decide (row_status r = PROCESSED) && is_open_status (fn_target (ir_finality r)))
       ir_updatedAt (Z.to_nat limit) t);
  Ok (candidates, t).

(** A row with another finality. *)
Definition with_finality (r : InboxRow) (f : row_finality) (at_ : Z) : InboxRow :=
  row_with r (ir_decision r) (ir_work r) (ir_end r) f (ir_recovery r) at_.
(** src/src/storage/transaction-inbox.repository.ts:2225-2229 (recordFinalityPoll): the polls in a
    row, by one provider, that missed the transaction. *)
Definition next_missing (c : FinalityCandidate) (v : FinalityPollObservation) : Z :=
  match po_confirmationStatus v with
  | None => if bool_decide (fc_lastMissingFinalityProviderId c = Some (po_providerId v))
            then fc_missingFinalityPolls c + 1 else 1
  | Some _ => 0
  end.
(** src/src/storage/transaction-inbox.repository.ts:2196-2267 (recordFinalityPoll) *)
Definition recordFinalityPoll (clock : Z) (v : FinalityPollObservation) : tx FinalityCandidate := fun t =>
  check_stored (valid_poll v) ;;
  match ib_rows t !! po_signature v with
  | None => Err (ConflictError CONFLICT_FINALITY)
  | Some r =>
      conflict_if (negb (bool_decide (row_status r = PROCESSED))) CONFLICT_FINALITY ;;
      let current := fn_target (ir_finality r) in
      conflict_if (negb (is_open_status current)) CONFLICT_FINALITY ;;
      c ← finalityCandidateFromRow (po_signature v) r;
      conflict_if (negb (fc_missingFinalityPolls c =? po_expectedMissingFinalityPolls v)
                   || negb (bool_decide (fc_lastMissingFinalityProviderId c
                                         = po_expectedLastMissingFinalityProviderId v))
                   || negb (fc_finalityEvidenceVersion c =? po_expectedFinalityEvidenceVersion v)
                   || (fc_finalityEvidenceVersion c =? MAX_FINALITY_EVIDENCE_VERSION)) CONFLICT_FINALITY ;;
      next ← match po_confirmationStatus v with None => Ok current | Some s => reconciledStatus current s end;
      let missing := next_missing c v in
      conflict_if (negb (is_safe_integer missing)) CONFLICT_FINALITY ;;
      check_stored (inbox_date (po_observedAtMs v)) ;;
      let r' := with_finality r
                  {| fn_target := next; fn_missingPolls := missing;
                     fn_missingProvider := match po_confirmationStatus v with
                                           | None => Some (po_providerId v) | Some _ => None end;
                     fn_version := fn_version (ir_finality r) + 1 |}
                  (Z.max (po_observedAtMs v) clock) in
      c' ← finalityCandidateFromRow (po_signature v) r';
      Ok (c', put_row (po_signature v) r' t)
  end.

(** src/src/storage/transaction-inbox.repository.ts:2316-2323 (enqueueRevision): the row back in
    the queue, for the revision of its finality. *)
Definition revised_row (observedAt : Z) (next : ChainConfirmationStatus) (version : Z) (r : InboxRow) : InboxRow :=
  let w := ir_work r in
  row_with r (with_status PENDING (ir_decision r))
    {| wk_attempts := wk_attempts w; wk_cycle := 0; wk_maxAttempts := wk_maxAttempts w;
       wk_baseDelayMs := wk_baseDelayMs w; wk_lease := wk_lease w; wk_error := wk_error w;
       wk_nextAttemptAt := wk_nextAttemptAt w; wk_exhaustedAt := None |}
    {| en_processedAt := None; en_terminalAt := None; en_purgeAfter := None |}
    {| fn_target := next; fn_missingPolls := 0; fn_missingProvider := None; fn_version := version |}
    (ir_recovery r) observedAt.
(** src/src/storage/transaction-inbox.repository.ts:2306-2314 (enqueueRevision): whether the row
    is the one the orphaned revision was decided on. *)
Definition revision_expected (expected : ChainConfirmationStatus * Z * RpcProviderId * Z) (c : FinalityCandidate)
    : bool :=
  let '(status, polls, provider, version) := expected in
  bool_decide (fc_confirmationStatus c = status) && (fc_missingFinalityPolls c =? polls)
  && bool_decide (fc_lastMissingFinalityProviderId c = Some provider)
  && (fc_finalityEvidenceVersion c =? version) && negb (fc_finalityEvidenceVersion c =? MAX_FINALITY_EVIDENCE_VERSION).
(** src/src/storage/transaction-inbox.repository.ts:2269-2364 (enqueueRevision) *)
Definition enqueueRevision (v : FinalityRevision) : tx unit := fun t =>
  check_stored (valid_revision v) ;;
  match ib_rows t !! rv_signature v with
  | None => Err (ConflictError CONFLICT_SNAPSHOT)
  | Some r =>
      match ir_snapshot r with
      | None => Err (ConflictError CONFLICT_SNAPSHOT)
      | Some stored =>
          let f := ir_finality r in
          let current := fn_target f in
          next ← reconciledStatus current (match rv_orphaned v with Some _ => orphaned | None => finalized end);
          check_stored (decodeSnapshot stored (rv_signature v) (ir_slot r) next) ;;
          if bool_decide (next = current) then
            if (bool_decide (row_status r = PROCESSED) && negb (is_open_status current))
               || bool_decide (row_status r = PENDING)
            then Ok (tt, t) else Err (ConflictError CONFLICT_FINALITY)
          else
            conflict_if (negb (bool_decide (row_status r = PROCESSED))) CONFLICT_FINALITY ;;
            match rv_orphaned v with
            | Some expected =>
                check_stored (version_ok (fn_version f)) ;;
                conflict_if (fn_version f =? MAX_FINALITY_EVIDENCE_VERSION) CONFLICT_FINALITY ;;
                c ← finalityCandidateFromRow (rv_signature v) r;
                conflict_if (negb (revision_expected expected c)) CONFLICT_FINALITY ;;
                check_stored (inbox_date (rv_observedAtMs v)) ;;
                Ok (tt, put_row (rv_signature v) (revised_row (rv_observedAtMs v) next (fn_version f + 1) r) t)
            | None =>
                check_stored (inbox_date (rv_observedAtMs v)) ;;
                let version := if fn_version f <? MAX_FINALITY_EVIDENCE_VERSION then fn_version f + 1
                               else fn_version f in
                Ok (tt, put_row (rv_signature v) (revised_row (rv_observedAtMs v) next version r) t)
            end
      end
  end.
End Finality.

(** * Tracked launches *)

(** src/src/storage/transaction-inbox.repository.ts:1218-1227 (syncTrackedMint): the trades whose
    admission changes with the launch. *)
Definition sync_selected (mint : string) (active : bool) (r : InboxRow) : bool :=
  bool_decide (dc_hint (ir_decision r) = PUMPFUN_TRADE) && bool_decide (dc_mint (ir_decision r) = Some mint)
  && (bool_decide (row_status r = DEFERRED) || bool_decide (row_status r = PENDING))
  && (Nat.ltb 1 (List.length (ir_programIds r))
      || (active && bool_decide (row_status r = DEFERRED))
      || (negb active && bool_decide (row_status r = PENDING) && isPristineInbox r)).
(** src/src/storage/transaction-inbox.repository.ts:1198-1217 (syncTrackedMint): what becomes of
    them. *)
Definition synced_row (clock : Z) (active : bool) (r : InboxRow) : InboxRow :=
  let d := ir_decision r in
  let f := ir_finality r in
  let several := Nat.ltb 1 (List.length (ir_programIds r)) in
  let single := Nat.eqb (List.length (ir_programIds r)) 1 in
  let at_ := Z.max clock (ir_observedAt r) in
  let terminalAt := if negb active && single then Some at_ else None in
  {| ir_slot := ir_slot r; ir_sources := ir_sources r; ir_programIds := ir_programIds r;
     ir_observedAt := ir_observedAt r; ir_updatedAt := Z.max (ir_updatedAt r) clock;
     ir_admittedAt := match ir_admittedAt r with
                      | None => if active || several then Some at_ else None
                      | Some a => Some a
                      end;
     ir_snapshot := ir_snapshot r; ir_classification := ir_classification r;
     ir_decision := {| dc_status := if active || several then PENDING else DEFERRED;
                       dc_priority := if active && single then TRACKED_TRADE else PRIORITY_NORMAL;
                       dc_hint := if several then HINT_NONE else dc_hint d;
                       dc_mint := if single then dc_mint d else None |};
     ir_work := ir_work r;
     ir_end := {| en_processedAt := en_processedAt (ir_end r); en_terminalAt := terminalAt;
                  en_purgeAfter := (fun a => a + four_hours) <$> terminalAt |};
     ir_finality := {| fn_target := fn_target f; fn_missingPolls := if several then fn_missingPolls f else 0;
                       fn_missingProvider := if several then fn_missingProvider f else None;
                       fn_version := if several then fn_version f else 0 |};
     ir_recovery := ir_recovery r |}.
(** src/src/storage/transaction-inbox.repository.ts:1180-1233 (syncTrackedMint); [active] tells
    the launches that are not terminal. *)
Definition syncTrackedMint (active : string -> bool) (clock : Z) (mint : string) : tx unit := fun t =>
  check_stored (canonical_mint (Some mint)) ;;
  Ok (tt, set_rows ((fun r => if sync_selected mint (active mint) r then synced_row clock (active mint) r else r)
                      <$> ib_rows t) t).
(** src/src/storage/transaction-inbox.repository.ts:1683-1706 (hasNonTerminalProgramWork) *)
Definition non_terminal_work (programId : string) (r : InboxRow) : bool :=
  includes programId (ir_programIds r) && negb (isPollerHint (Some (dc_hint (ir_decision r))))
  && negb (bool_decide (row_status r = PROCESSED)
           && (bool_decide (fn_target (ir_finality r) = finalized) || bool_decide (fn_target (ir_finality r) = orphaned))).
Definition hasNonTerminalProgramWork (programId : string) : tx bool := fun t =>
  check_stored (negb (is_empty programId)) ;;
  Ok (existsb (fun p => non_terminal_work programId (snd p)) (map_to_list (ib_rows t)), t).
