(* ===== verification/InboxRows.v ===== *)
(** The constraints of the table of observed transactions ([Inbox]), from [src/migrations/], and
    that the rows which the repository writes satisfy them.  The constraint on catch-up
    classifications is [classification_check] of [Inbox].  Left out are the constraints on columns
    that the rows do not have: [created_at], the first processing (migrations/050) and terminal
    attributions (migrations/057). *)
From S2P Require Import Prelude Text Types Chain Json JsonCodec PublicKey CatchUpRun Inbox.
From stdpp Require Import gmap sorting.
From Stdlib Require Import Ascii String.
Local Open Scope string_scope.
Local Open Scope list_scope.
Local Open Scope Z_scope.

(** * Constraints of the table *)

(** src/migrations/009_transaction_ingestion.sql:73-83 (chain_transaction_inbox_lease_check) *)
Definition lease_check (r : InboxRow) : Prop := is_Some (wk_lease (ir_work r)) <-> row_status r = PROCESSING.
(** src/migrations/009_transaction_ingestion.sql:84-93 (chain_transaction_inbox_snapshot_check) *)
Definition snapshot_check (r : InboxRow) : Prop :=
  match ir_snapshot r with None => True | Some (_, fingerprint) => is_sha256_hex fingerprint = true end.
(** src/migrations/011_transaction_inbox_retry_recovery.sql:53-78 (chain_transaction_inbox_error_check) *)
Definition error_check (r : InboxRow) : Prop :=
  match wk_error (ir_work r) with
  | Some f => row_status r = FAILED /\ 1 <= byte_length (fl_errorName f) <= 16384
  | None => row_status r <> FAILED
  end.
(** src/migrations/011_transaction_inbox_retry_recovery.sql:82-110 (chain_transaction_inbox_retry_check) *)
Definition retry_check (r : InboxRow) : Prop :=
  let w := ir_work r in
  let e := ir_end r in
  match row_status r, is_retryable w with
  | FAILED, true =>
      (wk_exhaustedAt w = None /\ is_Some (wk_nextAttemptAt w) /\ en_terminalAt e = None /\ en_purgeAfter e = None)
      \/ (is_Some (wk_exhaustedAt w) /\ wk_nextAttemptAt w = None /\ is_Some (en_terminalAt e)
          /\ is_Some (en_purgeAfter e))
  | FAILED, false =>
      wk_exhaustedAt w = None /\ wk_nextAttemptAt w = None /\ is_Some (en_terminalAt e) /\ is_Some (en_purgeAfter e)
  | _, _ => wk_exhaustedAt w = None /\ wk_nextAttemptAt w = None
  end.
(** src/migrations/009_transaction_ingestion.sql:122-142 (chain_transaction_inbox_processed_check,
    chain_transaction_inbox_terminal_completion_check) *)
Definition processed_check (r : InboxRow) : Prop :=
  row_status r = PROCESSED ->
  is_Some (en_processedAt (ir_end r)) /\ is_Some (ir_snapshot r)
  /\ (is_open_status (fn_target (ir_finality r)) = false -> is_Some (en_terminalAt (ir_end r))).
(** src/migrations/009_transaction_ingestion.sql:143-147 (chain_transaction_inbox_timestamps_check):
    of the columns of the model, the dates of the processing and of the end. *)
Definition timestamps_check (r : InboxRow) : Prop :=
  match en_processedAt (ir_end r) with
  | None => True
  | Some p => ir_observedAt r <= p
              /\ match en_terminalAt (ir_end r) with None => True | Some a => p <= a end
  end.
(** src/migrations/048_transaction_inbox_catch_up_classification.sql:190-197
    (chain_transaction_inbox_terminal_check) *)
Definition terminal_check (r : InboxRow) : Prop :=
  let e := ir_end r in
  (en_terminalAt e = None /\ en_purgeAfter e = None)
  \/ (exists a, en_terminalAt e = Some a /\ en_purgeAfter e = Some (a + four_hours)
        /\ match row_status r with
           | PROCESSED => is_open_status (fn_target (ir_finality r)) = false /\ is_Some (en_processedAt e)
           | FAILED | DEFERRED | IGNORED | QUARANTINED => True
           | PENDING | PROCESSING => False
           end).
(** src/migrations/011_transaction_inbox_retry_recovery.sql:134-141
    (chain_transaction_inbox_retry_policy_check) *)
Definition retry_policy_check (r : InboxRow) : Prop :=
  let w := ir_work r in
  1 <= wk_maxAttempts w <= 100 /\ 1 <= wk_baseDelayMs w <= 60000 /\ 0 <= wk_cycle w <= wk_maxAttempts w
  /\ wk_cycle w <= wk_attempts w /\ (row_status r = PENDING -> wk_cycle w < wk_maxAttempts w).
(** src/migrations/011_transaction_inbox_retry_recovery.sql:145-152
    (chain_transaction_inbox_manual_recovery_check) *)
Definition manual_recovery_check (r : InboxRow) : Prop :=
  let c := ir_recovery r in
  (rv_count c = 0 /\ rv_recoveredAt c = None) \/ (0 < rv_count c /\ is_Some (rv_recoveredAt c)).
(** src/migrations/027_listener_provider_affine_finality.sql:18-38
    (chain_transaction_inbox_missing_finality_provider_check,
    chain_transaction_inbox_finality_evidence_version_check) *)
Definition finality_check (r : InboxRow) : Prop :=
  let f := ir_finality r in
  ((fn_missingPolls f = 0 /\ fn_missingProvider f = None) \/ (0 < fn_missingPolls f /\ is_Some (fn_missingProvider f)))
  /\ version_ok (fn_version f) = true.
(** src/migrations/063_listener_tracked_curve_checkpoints.sql:14-21
    (chain_transaction_inbox_ingestion_hint_check): the mint is a canonical key, which the
    expression of the check accepts. *)
Definition hint_check (r : InboxRow) : Prop :=
  if is_trade_hint (dc_hint (ir_decision r)) then canonical_mint (dc_mint (ir_decision r)) = true
  else dc_mint (ir_decision r) = None.
(** A row that no worker has touched. *)
Definition untouched (r : InboxRow) : Prop :=
  isPristineInbox r = true /\ wk_error (ir_work r) = None /\ wk_nextAttemptAt (ir_work r) = None
  /\ wk_exhaustedAt (ir_work r) = None /\ fn_missingPolls (ir_finality r) = 0
  /\ fn_missingProvider (ir_finality r) = None /\ fn_version (ir_finality r) = 0.
(** src/migrations/047_transaction_inbox_tracked_trade_priority.sql:247-260
    (chain_transaction_inbox_deferred_check) *)
Definition deferred_check (r : InboxRow) : Prop :=
  row_status r = DEFERRED ->
  dc_hint (ir_decision r) = PUMPFUN_TRADE /\ dc_priority (ir_decision r) = PRIORITY_NORMAL /\ untouched r
  /\ exists a, en_terminalAt (ir_end r) = Some a /\ ir_observedAt r <= a /\ en_purgeAfter (ir_end r) = Some (a + four_hours).
(** src/migrations/049_transaction_inbox_catch_up_admission_receipt.sql:168-185
    (chain_transaction_inbox_catch_up_terminal_check): of the columns of the model; a row that
    the subscription admitted is not itself ignored. *)
Definition classified_check (r : InboxRow) : Prop :=
  (row_status r <> IGNORED /\ row_status r <> QUARANTINED
   /\ (terminal_classification r = false \/ WEBSOCKET ∈ ir_sources r))
  \/ (terminal_classification r = true /\ ir_disposition r = Some (row_status r)
      /\ dc_priority (ir_decision r) = PRIORITY_NORMAL /\ dc_hint (ir_decision r) = HINT_NONE /\ untouched r
      /\ exists c, ir_classification r = Some c /\ en_terminalAt (ir_end r) = Some (cc_classifiedAt c)
           /\ en_purgeAfter (ir_end r) = Some (cc_classifiedAt c + four_hours)).
(** src/migrations/053_transaction_inbox_worker_admission_foundation.sql:53-67
    (chain_transaction_inbox_worker_admission_check) *)
Definition admission_check (r : InboxRow) : Prop :=
  ir_admittedAt r = None ->
  (row_status r = PENDING \/ row_status r = DEFERRED \/ row_status r = IGNORED \/ row_status r = QUARANTINED)
  /\ untouched r /\ rv_quarantinedAt (ir_recovery r) = None /\ rv_decoderUsed (ir_recovery r) = false.
(** src/migrations/051_transaction_inbox_decoder_quarantine_recovery.sql:260-288
    (chain_transaction_inbox_decoder_quarantine_eligibility_check) *)
Definition quarantine_check (r : InboxRow) : Prop :=
  let w := ir_work r in
  let c := ir_recovery r in
  (rv_decoderUsed c = true -> 1 <= rv_count c <= INT_MAX /\ is_Some (rv_recoveredAt c))
  /\ match rv_quarantinedAt c with
     | None => True
     | Some a =>
         rv_decoderUsed c = false /\ row_status r = FAILED
         /\ (exists f, wk_error w = Some f /\ isDecoderQuarantineFailure f = true)
         /\ wk_exhaustedAt w = None /\ en_processedAt (ir_end r) = None /\ wk_lease w = None
         /\ wk_nextAttemptAt w = None /\ en_terminalAt (ir_end r) = Some a
         /\ en_purgeAfter (ir_end r) = Some (a + four_hours) /\ is_Some (ir_snapshot r)
         /\ 1 <= wk_attempts w <= INT_MAX /\ 1 <= wk_cycle w <= 100 /\ 0 <= rv_count c < INT_MAX
     end.
(** src/migrations/009_transaction_ingestion.sql:48-62 (chain_transaction_inbox_signature_check,
    chain_transaction_inbox_observed_slot_check, chain_transaction_inbox_discovery_sources_check,
    chain_transaction_inbox_program_ids_check): of a signature, that it is a text. *)
Definition identity_check (signature : string) (r : InboxRow) : Prop :=
  is_empty signature = false /\ 0 <= ir_slot r /\ is_ok (discoverySources r) = true
  /\ program_ids_ok (ir_programIds r) = true.

(** All of these, [classification_check] (migrations/049) among them, and what the repository relies
    on besides: the snapshot is that of the row, its
    priority goes with its hint, only a processed row has a date of processing, a row that was
    worked on was attempted, and the counts fit their columns. *)
Record row_ok `{Sha256} (signature : string) (r : InboxRow) : Prop := {
  ro_identity : identity_check signature r;
  ro_lease : lease_check r;
  ro_snapshot : snapshot_check r;
  ro_error : error_check r;
  ro_retry : retry_check r;
  ro_processed : processed_check r;
  ro_timestamps : timestamps_check r;
  ro_terminal : terminal_check r;
  ro_policy : retry_policy_check r;
  ro_recovery : manual_recovery_check r;
  ro_finality : finality_check r;
  ro_hint : hint_check r;
  ro_deferred : deferred_check r;
  ro_classified : classified_check r;
  ro_classification : classification_check r = true;
  ro_admission : admission_check r;
  ro_quarantine : quarantine_check r;
  ro_decodes : match ir_snapshot r with
               | None => True
               | Some s => decodeSnapshot s signature (ir_slot r) (fn_target (ir_finality r)) = true
               end;
  ro_priority : dc_priority (ir_decision r) = LAUNCH_CANDIDATE <-> dc_hint (ir_decision r) = PUMPFUN_CREATE;
  ro_tracked : dc_priority (ir_decision r) = TRACKED_TRADE -> is_trade_hint (dc_hint (ir_decision r)) = true;
  ro_unprocessed : row_status r <> PROCESSED -> en_processedAt (ir_end r) = None;
  ro_observed : stored_date (ir_observedAt r) = true;
  ro_count : rv_count (ir_recovery r) <= INT_MAX;
  ro_started : row_status r = PROCESSING \/ row_status r = PROCESSED \/ row_status r = FAILED ->
               1 <= wk_attempts (ir_work r);
}.
(** A finished row has its receipt, and only a finished row has one. *)
Definition is_finished (r : InboxRow) : bool :=
  bool_decide (row_status r = PROCESSED) && negb (is_open_status (fn_target (ir_finality r))).
Definition receipt_of (r : InboxRow) : option TerminalReplayReceipt :=
  if is_finished r then
    match ir_snapshot r, en_processedAt (ir_end r) with
    | Some (_, fingerprint), Some processedAt => Some (replay_receipt processedAt fingerprint r)
    | _, _ => None
    end
  else None.
(** The tables: their rows, the receipts and the scheduler's row
    ([src/migrations/052_transaction_inbox_urgent_fairness.sql]). *)
Record inbox_ok `{Sha256} (t : InboxTables) : Prop := {
  io_rows : forall signature r, ib_rows t !! signature = Some r -> row_ok signature r;
  io_receipts : forall signature r, ib_rows t !! signature = Some r -> ib_receipts t !! signature = receipt_of r;
  io_urgent : 0 <= ib_urgentClaims t <= MAX_CONSECUTIVE_URGENT_CLAIMS;
  io_launch : 0 <= ib_launchClaims t <= MAX_LAUNCH_CLAIMS_BEFORE_TRACKED;
}.

(** * The constraints of the rows that the calls write *)
(** A constraint that an update does not touch. *)
Ltac keep Hr :=
  first [exact (fun _ => ro_timestamps _ _ Hr) | exact (ro_lease _ _ Hr) | exact (ro_error _ _ Hr) | exact (ro_retry _ _ Hr)
        | exact (ro_processed _ _ Hr)
        | exact (ro_terminal _ _ Hr) | exact (ro_policy _ _ Hr) | exact (ro_recovery _ _ Hr)
        | exact (ro_finality _ _ Hr) | exact (ro_quarantine _ _ Hr) | exact (ro_decodes _ _ Hr)
        | exact (ro_unprocessed _ _ Hr) | exact (ro_count _ _ Hr) | exact (ro_started _ _ Hr)].
Section Rows.
Context `{Sha256}.
Implicit Types (r : InboxRow) (signature : string).

(** What a status says of the other columns. *)
Lemma no_lease signature r : row_ok signature r -> row_status r <> PROCESSING -> wk_lease (ir_work r) = None.
Proof.
  intros Hr Hs. destruct (wk_lease (ir_work r)) eqn:E; [|done]. exfalso. apply Hs, (ro_lease _ _ Hr). by rewrite E.
Qed.
Lemma no_error signature r : row_ok signature r -> row_status r <> FAILED -> wk_error (ir_work r) = None.
Proof.
  intros Hr Hs. pose proof (ro_error _ _ Hr) as He. unfold error_check in He.
  destruct (wk_error (ir_work r)); [|done]. by destruct He.
Qed.
Lemma no_retry signature r :
  row_ok signature r -> row_status r <> FAILED ->
  wk_exhaustedAt (ir_work r) = None /\ wk_nextAttemptAt (ir_work r) = None.
Proof.
  intros Hr Hs. pose proof (ro_retry _ _ Hr) as He. unfold retry_check in He.
  by destruct (row_status r), (is_retryable (ir_work r)).
Qed.
Lemma no_end signature r :
  row_ok signature r -> row_status r = PENDING \/ row_status r = PROCESSING ->
  en_terminalAt (ir_end r) = None /\ en_purgeAfter (ir_end r) = None.
Proof.
  intros Hr Hs. destruct (ro_terminal _ _ Hr) as [?|(a & _ & _ & Ha)]; [done|].
  by destruct Hs as [Hs|Hs]; rewrite Hs in Ha.
Qed.
Lemma no_quarantine signature r :
  row_ok signature r -> row_status r <> FAILED \/ is_retryable (ir_work r) = true ->
  rv_quarantinedAt (ir_recovery r) = None.
Proof.
  intros Hr Hs. pose proof (ro_quarantine _ _ Hr) as [_ Hq].
  destruct (rv_quarantinedAt (ir_recovery r)); [|done]. destruct Hq as (_ & Hf & (f & Hw & Hd) & _).
  destruct Hs as [Hs|Hs]; [done|]. unfold is_retryable in Hs. rewrite Hw in Hs.
  unfold isDecoderQuarantineFailure in Hd. rewrite Hs in Hd. by destruct (bool_decide _).
Qed.
Lemma admitted signature r :
  row_ok signature r -> row_status r = PROCESSING \/ row_status r = PROCESSED \/ row_status r = FAILED ->
  is_Some (ir_admittedAt r).
Proof.
  intros Hr Hs. destruct (ir_admittedAt r) eqn:E; [done|]. destruct (ro_admission _ _ Hr E) as [Ha _].
  destruct Hs as [Hs|[Hs|Hs]]; rewrite Hs in Ha; naive_solver.
Qed.
(** A row that waits was perhaps never attempted. *)
Lemma waiting_unstarted r (P : Prop) :
  row_status r = PENDING \/ row_status r = DEFERRED ->
  row_status r = PROCESSING \/ row_status r = PROCESSED \/ row_status r = FAILED -> P.
Proof. intros [-> | ->] [?|[?|?]]; done. Qed.
(** A status of work is not one of a classification. *)
Definition is_work (s : InboxStatus) : bool :=
  match s with PENDING | PROCESSING | PROCESSED | FAILED => true | _ => false end.
Lemma unclassified signature r :
  row_ok signature r -> row_status r <> IGNORED -> row_status r <> QUARANTINED ->
  terminal_classification r = false \/ WEBSOCKET ∈ ir_sources r.
Proof.
  intros Hr H1 H2. destruct (ro_classified _ _ Hr) as [(_ & _ & ?)|(Ht & Hd & _)]; [done|exfalso].
  unfold terminal_classification in Ht. rewrite Hd in Ht. by destruct (row_status r).
Qed.

(** What the decision on a row and its identity must satisfy. *)
Record decision_ok (d : IngestionDecision) : Prop := {
  do_mint : if is_trade_hint (dc_hint d) then canonical_mint (dc_mint d) = true else dc_mint d = None;
  do_launch : dc_priority d = LAUNCH_CANDIDATE <-> dc_hint d = PUMPFUN_CREATE;
  do_tracked : dc_priority d = TRACKED_TRADE -> is_trade_hint (dc_hint d) = true;
}.
Record framed signature (r : InboxRow) : Prop := {
  fr_identity : identity_check signature r;
  fr_decision : decision_ok (ir_decision r);
  fr_observed : stored_date (ir_observedAt r) = true;
  fr_unclassified : terminal_classification r = false \/ WEBSOCKET ∈ ir_sources r;
  fr_classification : classification_check r = true;
}.
Lemma row_framed signature r :
  row_ok signature r -> row_status r <> IGNORED -> row_status r <> QUARANTINED -> framed signature r.
Proof.
  intros Hr H1 H2. constructor; [apply Hr| |apply Hr|by apply (unclassified _ _ Hr)|apply Hr].
  constructor; [apply (ro_hint _ _ Hr) | apply (ro_priority _ _ Hr) | apply (ro_tracked _ _ Hr)].
Qed.
(** A row in one of the statuses of work; most updates keep its identity and decision. *)
Record kept (r r' : InboxRow) : Prop := {
  kp_slot : ir_slot r' = ir_slot r;
  kp_sources : ir_sources r' = ir_sources r;
  kp_programs : ir_programIds r' = ir_programIds r;
  kp_observed : ir_observedAt r' = ir_observedAt r;
  kp_classification : ir_classification r' = ir_classification r;
  kp_priority : dc_priority (ir_decision r') = dc_priority (ir_decision r);
  kp_hint : dc_hint (ir_decision r') = dc_hint (ir_decision r);
  kp_mint : dc_mint (ir_decision r') = dc_mint (ir_decision r);
  kp_admitted : is_Some (ir_admittedAt r');
}.
Record work_ok signature (r : InboxRow) : Prop := {
  wo_status : is_work (row_status r) = true;
  wo_lease : lease_check r;
  wo_error : error_check r;
  wo_retry : retry_check r;
  wo_processed : processed_check r;
  wo_timestamps : row_status r = PROCESSED -> timestamps_check r;
  wo_terminal : terminal_check r;
  wo_policy : retry_policy_check r;
  wo_recovery : manual_recovery_check r;
  wo_finality : finality_check r;
  wo_quarantine : quarantine_check r;
  wo_decodes : match ir_snapshot r with
               | None => True
               | Some s => decodeSnapshot s signature (ir_slot r) (fn_target (ir_finality r)) = true
               end;
  wo_unprocessed : row_status r <> PROCESSED -> en_processedAt (ir_end r) = None;
  wo_count : rv_count (ir_recovery r) <= INT_MAX;
  wo_started : row_status r = PROCESSING \/ row_status r = PROCESSED \/ row_status r = FAILED ->
               1 <= wk_attempts (ir_work r);
}.
Lemma framed_work_ok signature r :
  framed signature r -> is_Some (ir_admittedAt r) -> work_ok signature r -> row_ok signature r.
Proof.
  intros [Hi [Hm Hl Ht] Ho Hc Hk] Ha []. constructor; try done.
  - unfold snapshot_check. destruct (ir_snapshot r) as [[s fp]|]; [|done]. unfold decodeSnapshot in wo_decodes0.
    by bool_prop.
  - unfold timestamps_check in *. destruct (decide (row_status r = PROCESSED)); [by apply wo_timestamps0|by rewrite wo_unprocessed0].
  - unfold deferred_check. intros E. by rewrite E in wo_status0.
  - left. destruct (row_status r); done.
  - unfold admission_check. intros E. rewrite E in Ha. by destruct Ha.
Qed.
Lemma work_row_ok signature r r' :
  row_ok signature r -> is_work (row_status r) = true -> kept r r' -> work_ok signature r' -> row_ok signature r'.
Proof.
  intros Hr Hw [K1 K2 K3 K4 K5 K6 K7 K8 K9] Hw'. apply framed_work_ok; [|done..].
  destruct (row_framed signature r Hr) as [Hi [Hm Hl Ht] Ho Hc Hk]; [by destruct (row_status r)..|].
  constructor; [| |by rewrite K4| |].
  - unfold identity_check, discoverySources in *. by rewrite K1, K2, K3.
  - constructor; by rewrite ?K6, ?K7, ?K8.
  - unfold terminal_classification, ir_disposition in *. by rewrite K2, K5.
  - unfold classification_check, disposition_check, classified_trade_hint in *.
    by rewrite K2, K4, K5, K7, K8.
Qed.

Lemma lease_none r : wk_lease (ir_work r) = None -> row_status r <> PROCESSING -> lease_check r.
Proof. intros E Hs. unfold lease_check. rewrite E. split; [by intros []|done]. Qed.
(** A snapshot goes with the later statuses of its row. *)
Lemma decode_next s signature slot current incoming next :
  decodeSnapshot s signature slot current = true -> reconciledStatus current incoming = Ok next ->
  decodeSnapshot s signature slot next = true.
Proof.
  destruct s as [s fp]. unfold decodeSnapshot, snapshot_matches. intros Hd Hn. bool_prop. subst fp.
  repeat rewrite andb_true_iff. split; [|by apply bool_decide_eq_true_2]. split; [split; [split|]|].
  - done.
  - by apply negb_true_iff.
  - by apply Z.leb_le.
  - split; [split|]; [by apply bool_decide_eq_true_2 | by apply Z.eqb_eq |].
    destruct (sn_confirmationStatus s), current, incoming; try discriminate; injection Hn as <-; done.
Qed.
Lemma next_open current incoming next :
  reconciledStatus current incoming = Ok next -> is_open_status incoming = true -> is_open_status current = true ->
  is_open_status next = true.
Proof. by destruct current, incoming; cbn; intros [= <-]. Qed.

Lemma leased_row_ok signature r now clock token expires :
  row_ok signature r -> claimable now r = true -> row_ok signature (leased_row now clock token expires r).
Proof.
  intros Hr Hc.
  assert (is_work (row_status r) = true /\ wk_cycle (ir_work r) < wk_maxAttempts (ir_work r)) as [Hw Hlt].
  { unfold claimable in Hc. destruct (row_status r); try done; bool_prop; auto. }
  assert (wk_exhaustedAt (ir_work r) = None /\ row_status r <> PROCESSED) as [He Hnp].
  { unfold claimable in Hc. pose proof (no_retry _ _ Hr) as Hn.
    destruct (row_status r); try done; bool_prop; split; try done; by apply Hn. }
  assert (en_terminalAt (ir_end r) = None /\ en_purgeAfter (ir_end r) = None) as [Ht Hp].
  { pose proof (no_end _ _ Hr) as Hn. pose proof (ro_retry _ _ Hr) as Hy. unfold claimable in Hc. unfold retry_check in Hy.
    destruct (row_status r) eqn:Hs; try done; try (by apply Hn; auto). bool_prop.
    destruct (is_retryable _); [|done]. destruct Hy as [(_ & _ & ? & ?)|(Hx & _)]; [done|].
    rewrite He in Hx. by destruct Hx. }
  assert (rv_quarantinedAt (ir_recovery r) = None) as Hq.
  { apply (no_quarantine _ _ Hr). unfold claimable in Hc. destruct (row_status r); try done; [by left..|]. bool_prop; auto. }
  apply (work_row_ok signature r); [done..| |].
  - constructor; try done. cbn. destruct (ir_admittedAt r) eqn:Ea; [done|].
    destruct (ro_admission _ _ Hr Ea) as [[Hs|Hs] _]; [by rewrite Hs|].
    by destruct Hs as [Hs|[Hs|Hs]]; rewrite Hs in Hw.
  - constructor; try done.
    + left. cbn. by rewrite Ht, Hp.
    + destruct (ro_policy _ _ Hr) as (? & ? & ? & ? & _). unfold retry_policy_check. cbn. intuition (try done; lia).
    + apply (ro_recovery _ _ Hr).
    + apply (ro_finality _ _ Hr).
    + destruct (ro_quarantine _ _ Hr) as [Hd _]. split; [done|]. cbn. by rewrite Hq.
    + apply (ro_decodes _ _ Hr).
    + intros _. by apply (ro_unprocessed _ _ Hr).
    + apply (ro_count _ _ Hr).
    + intros _. destruct (ro_policy _ _ Hr) as (_ & _ & ? & ? & _). cbn. lia.
Qed.
Lemma exhausted_row_ok signature r now clock :
  row_ok signature r -> spent now r = true -> row_ok signature (exhausted_row clock r).
Proof.
  intros Hr Hc. unfold spent in Hc. bool_prop.
  assert (row_status r = FAILED /\ is_retryable (ir_work r) = true \/ row_status r = PROCESSING) as Hs
    by (destruct (row_status r); try done; auto).
  assert (row_status r <> PROCESSED /\ is_work (row_status r) = true) as [Hnp Hw] by (destruct Hs as [[-> _]| ->]; done).
  apply (work_row_ok signature r); [done..| |].
  - constructor; try done. apply (admitted _ _ Hr). naive_solver.
  - pose proof (ro_error _ _ Hr) as He. unfold error_check in He.
    assert (exists f, wk_error (ir_work (exhausted_row clock r)) = Some f /\ fl_retryable f = true
              /\ 1 <= byte_length (fl_errorName f) <= 16384) as (f & Hf & Hy & Hb).
    { cbn. case_bool_decide as E; [by eexists|]. destruct Hs as [[Hs Hy]|Hs]; [|by rewrite Hs in E].
      unfold is_retryable in Hy. destruct (wk_error (ir_work r)) as [g|]; [|done]. destruct He as [_ He]. by eexists. }
    constructor; try done.
    + by apply lease_none.
    + unfold error_check. by rewrite Hf.
    + unfold retry_check, is_retryable. rewrite Hf, Hy. cbn. right. eauto.
    + right. cbn. eauto.
    + destruct (ro_policy _ _ Hr) as (? & ? & ? & ? & _). unfold retry_policy_check. cbn. intuition done.
    + apply (ro_recovery _ _ Hr).
    + apply (ro_finality _ _ Hr).
    + destruct (ro_quarantine _ _ Hr) as [Hd _]. split; [done|]. cbn.
      rewrite (no_quarantine _ _ Hr); [done|]. destruct Hs as [[_ ?]|Hs]; [by right|left]. by rewrite Hs.
    + apply (ro_decodes _ _ Hr).
    + intros _. by apply (ro_unprocessed _ _ Hr).
    + apply (ro_count _ _ Hr).
    + intros _. apply (ro_started _ _ Hr). naive_solver.
Qed.

(** The columns that an update of a row being processed leaves alone. *)
Lemma processing_facts signature r :
  row_ok signature r -> row_status r = PROCESSING ->
  wk_error (ir_work r) = None /\ wk_exhaustedAt (ir_work r) = None /\ wk_nextAttemptAt (ir_work r) = None
  /\ en_terminalAt (ir_end r) = None /\ en_purgeAfter (ir_end r) = None /\ en_processedAt (ir_end r) = None
  /\ rv_quarantinedAt (ir_recovery r) = None /\ is_Some (ir_admittedAt r).
Proof.
  intros Hr Hs. assert (row_status r <> FAILED) as Hf by (by rewrite Hs).
  destruct (no_retry _ _ Hr Hf). destruct (no_end _ _ Hr (or_intror Hs)). pose proof (no_error _ _ Hr Hf).
  pose proof (no_quarantine _ _ Hr (or_introl Hf)). pose proof (admitted _ _ Hr (or_introl Hs)).
  repeat split; try done. apply (ro_unprocessed _ _ Hr). by rewrite Hs.
Qed.
Lemma renewed_row_ok signature r clock untilMs :
  row_ok signature r -> row_status r = PROCESSING -> row_ok signature (renewed_row clock untilMs r).
Proof.
  intros Hr Hs. pose proof (processing_facts _ _ Hr Hs) as (? & ? & ? & ? & ? & ? & Hq & ?).
  apply (work_row_ok signature r); [done|by rewrite Hs|by constructor|].
  constructor; try keep Hr; [by apply (f_equal is_work) in Hs| |].
  - unfold lease_check. cbn. rewrite fmap_is_Some. apply (ro_lease _ _ Hr).
  - destruct (ro_quarantine _ _ Hr) as [Hu _]. split; [done|]. cbn. by rewrite Hq.
Qed.
Lemma saved_row_ok signature r clock s :
  row_ok signature r -> row_status r = PROCESSING ->
  decodeSnapshot s signature (ir_slot r) (fn_target (ir_finality r)) = true ->
  row_ok signature (saved_row clock s r).
Proof.
  intros Hr Hs Hd. pose proof (processing_facts _ _ Hr Hs) as (? & ? & ? & ? & ? & ? & Hq & ?).
  apply (work_row_ok signature r); [done|by rewrite Hs|by constructor|].
  constructor; try keep Hr; try done; [by apply (f_equal is_work) in Hs| |].
  - intros E. change (row_status r = PROCESSED) in E. congruence.
  - destruct (ro_quarantine _ _ Hr) as [Hu _]. split; [done|]. cbn. by rewrite Hq.
Qed.
Lemma processed_row_ok signature r clock next stored :
  row_ok signature r -> row_status r = PROCESSING -> ir_snapshot r = Some stored -> ir_observedAt r <= clock ->
  decodeSnapshot stored signature (ir_slot r) next = true ->
  row_ok signature (processed_row clock next (negb (is_open_status next)) r).
Proof.
  intros Hr Hs Hn Ho Hd. pose proof (processing_facts _ _ Hr Hs) as (? & Hx & ? & ? & ? & ? & Hq & ?).
  pose proof (ro_finality _ _ Hr) as [Hf Hv].
  apply (work_row_ok signature r); [done|by rewrite Hs|by constructor|].
  constructor; try keep Hr; try done.
  - by apply lease_none.
  - intros _. cbn. rewrite Hn. repeat split; try done. intros ->. by eexists.
  - intros _. unfold timestamps_check. cbn. split; [done|]. destruct (is_open_status next); cbn; [done|lia].
  - unfold terminal_check. cbn. destruct (is_open_status next); [by left|right]. eauto.
  - destruct (ro_policy _ _ Hr) as (? & ? & ? & ? & _). unfold retry_policy_check. cbn. intuition done.
  - unfold finality_check. cbn. destruct (is_open_status next); cbn; [done|]. split; [by left|].
    unfold version_ok in *. bool_prop. destruct (_ <? _) eqn:E; bool_prop; apply andb_true_iff;
      rewrite !Z.leb_le; lia.
  - destruct (ro_quarantine _ _ Hr) as [Hu _]. split; [done|]. cbn. by rewrite Hq.
  - cbn. by rewrite Hn.
  - intros _. apply (ro_started _ _ Hr). auto.
Qed.
Lemma failed_row_ok signature r clock f recorded :
  row_ok signature r -> row_status r = PROCESSING -> 0 < wk_cycle (ir_work r) ->
  1 <= byte_length (fl_errorName f) <= 16384 ->
  row_ok signature
    (failed_row clock f (isDecoderQuarantineFailure f && hasRecoverableDecoderQuarantineSnapshot r signature)
       recorded r).
Proof.
  intros Hr Hs Hc Hb. pose proof (processing_facts _ _ Hr Hs) as (? & Hx & ? & ? & ? & Hp & Hq & ?).
  destruct (ro_policy _ _ Hr) as (? & ? & ? & ? & _).
  apply (work_row_ok signature r); [done|by rewrite Hs|by constructor|].
  constructor; try keep Hr; try done.
  - by apply lease_none.
  - unfold retry_check, is_retryable. cbn. destruct (fl_retryable f); cbn; [|by eauto].
    destruct (_ <=? _); cbn; eauto 6.
  - unfold terminal_check. cbn. destruct (_ || _); [right; eauto|by left].
  - destruct (ro_quarantine _ _ Hr) as [Hu _]. split; [done|]. cbn.
    destruct (isDecoderQuarantineFailure f) eqn:Hd; cbn [andb]; [|done].
    destruct (hasRecoverableDecoderQuarantineSnapshot r signature) eqn:Hh; cbn [andb]; [|done].
    destruct (rv_decoderUsed (ir_recovery r)) eqn:Hu'; cbn [andb negb]; [done|]. destruct recorded; cbn [negb]; [done|].
    assert (fl_retryable f = false) as -> by (unfold isDecoderQuarantineFailure in Hd; by bool_prop). cbn.
    unfold hasRecoverableDecoderQuarantineSnapshot, positiveBounded, safeCount in Hh.
    destruct (ir_snapshot r) eqn:?; bool_prop; [|done]. repeat split; try done; eauto; try lia.
  - intros _. apply (ro_started _ _ Hr). auto.
Qed.
Lemma recovered_row_ok signature r clock maxAttempts baseDelayMs decoderUsed :
  row_ok signature r -> row_status r = FAILED -> 1 <= maxAttempts <= 100 -> 1 <= baseDelayMs <= 60000 ->
  0 <= rv_count (ir_recovery r) < INT_MAX ->
  row_ok signature (recovered_row clock maxAttempts baseDelayMs None decoderUsed r).
Proof.
  intros Hr Hs Hm Hb Hc. destruct (ro_policy _ _ Hr) as (? & ? & ? & ? & _).
  apply (work_row_ok signature r); [done|by rewrite Hs| |].
  - constructor; try done. apply (admitted _ _ Hr). auto.
  - constructor; try keep Hr; try done.
    + by apply lease_none.
    + by left.
    + unfold retry_policy_check. cbn. lia.
    + right. cbn. split; [lia|by eexists].
    + split; [|done]. cbn. intros _. split; [lia|by eexists].
    + cbn. lia.
    + apply waiting_unstarted. auto.
Qed.

Lemma polled_row_ok signature r f at_ :
  row_ok signature r -> row_status r = PROCESSED -> is_open_status (fn_target (ir_finality r)) = true ->
  is_open_status (fn_target f) = true -> finality_check (with_finality r f at_) ->
  (forall s, ir_snapshot r = Some s -> decodeSnapshot s signature (ir_slot r) (fn_target f) = true) ->
  row_ok signature (with_finality r f at_).
Proof.
  intros Hr Hs Ho Ho' Hf Hd. pose proof (ro_terminal _ _ Hr) as Ht.
  apply (work_row_ok signature r); [done|by rewrite Hs| |].
  - constructor; try done. apply (admitted _ _ Hr). auto.
  - constructor; try keep Hr; try done; [by apply (f_equal is_work) in Hs| | |].
    + intros _. destruct (ro_processed _ _ Hr Hs) as (? & ? & _). cbn. by rewrite Ho'.
    + destruct Ht as [?|(a & _ & _ & Ha)]; [by left|]. rewrite Hs, Ho in Ha. by destruct Ha.
    + cbn. destruct (ir_snapshot r); [by apply Hd|done].
Qed.
Lemma revised_row_ok signature r observedAt next version :
  row_ok signature r -> row_status r = PROCESSED -> version_ok version = true ->
  (forall s, ir_snapshot r = Some s -> decodeSnapshot s signature (ir_slot r) next = true) ->
  row_ok signature (revised_row observedAt next version r).
Proof.
  intros Hr Hs Hv Hd. assert (row_status r <> FAILED) as Hf by (by rewrite Hs).
  destruct (no_retry _ _ Hr Hf) as [Hx Hn]. pose proof (no_error _ _ Hr Hf) as He.
  assert (wk_lease (ir_work r) = None) as Hl by (apply (no_lease _ _ Hr); by rewrite Hs).
  destruct (ro_policy _ _ Hr) as (? & ? & ? & ? & _).
  apply (work_row_ok signature r); [done|by rewrite Hs| |].
  - constructor; try done. apply (admitted _ _ Hr). auto.
  - constructor; try keep Hr; try done.
    + by apply lease_none.
    + unfold error_check. cbn. by rewrite He.
    + by left.
    + unfold retry_policy_check. cbn. lia.
    + split; [by left|done].
    + destruct (ro_quarantine _ _ Hr) as [Hu _]. split; [done|]. cbn. by rewrite (no_quarantine _ _ Hr (or_introl Hf)).
    + cbn. destruct (ir_snapshot r); [by apply Hd|done].
    + apply waiting_unstarted. auto.
Qed.
End Rows.

(** * The rows that admission writes *)
Section Admission.
Context `{Sha256}.
Implicit Types (r : InboxRow) (signature : string).

Lemma valid_hint_pair h m :
  isValidIngestionHintPair h m = true ->
  match h with
  | None => m = None
  | Some h' => if is_trade_hint h' then canonical_mint m = true else h' = PUMPFUN_CREATE /\ m = None
  end.
Proof.
  unfold isValidIngestionHintPair. destruct h as [[]|], m as [m|]; try done; cbn.
  all: intros Hk; rewrite Hk; unfold isCanonicalSolanaPublicKey in Hk.
  all: unfold MIN_PUBLIC_KEY_TEXT_BYTES, MAX_PUBLIC_KEY_TEXT_BYTES in Hk.
  all: destruct (byte_length m <? 32) eqn:E1; [done|]; destruct (44 <? byte_length m) eqn:E2; [done|]; bool_prop.
  all: rewrite !andb_true_iff, !Z.leb_le; lia.
Qed.
(** The hint and the mint that a notification leaves. *)
Lemma converge_hint (current : option IngestionDecision) n :
  isValidIngestionHintPair (nt_ingestionHint n) (nt_ingestionHintMint n) = true ->
  (forall c, current = Some c -> decision_ok c) ->
  let hint0 := default HINT_NONE (nt_ingestionHint n) in
  let keep_current := bool_decide (dc_hint <$> current = Some PUMPFUN_CREATE) || bool_decide (hint0 = HINT_NONE) in
  if is_trade_hint (if keep_current then default hint0 (dc_hint <$> current) else hint0)
  then canonical_mint (if keep_current then (c ← current; dc_mint c) else nt_ingestionHintMint n) = true
  else (if keep_current then (c ← current; dc_mint c) else nt_ingestionHintMint n) = None.
Proof.
  intros Hp%valid_hint_pair Hc. cbn zeta. destruct current as [c|]; cbn [fmap option_fmap option_map mbind option_bind default].
  - destruct (Hc c eq_refl) as [Hm _ _]. destruct (bool_decide (Some (dc_hint c) = _) || _) eqn:E; [exact Hm|]. bool_prop.
    destruct (nt_ingestionHint n) as [h|]; [|done]. cbn [default from_option id] in *. destruct (is_trade_hint h); [done|]. by destruct Hp.
  - rewrite bool_decide_eq_false_2 by done. cbn [orb]. case_bool_decide as E; [by rewrite E|].
    destruct (nt_ingestionHint n) as [h|]; [|done]. cbn [default from_option id] in *. destruct (is_trade_hint h); [done|]. by destruct Hp.
Qed.
(** The decision that a notification leads to: it is valid, it keeps the status of the row or
    resumes or defers a trade that no worker has touched. *)
Definition next_status (row : option InboxRow) (d : IngestionDecision) : Prop :=
  let deferred := dc_status d = DEFERRED /\ dc_hint d = PUMPFUN_TRADE /\ dc_priority d = PRIORITY_NORMAL in
  match row with
  | None => dc_status d = PENDING \/ deferred
  | Some r =>
      (dc_status d = row_status r /\ row_status r <> DEFERRED)
      \/ (row_status r = DEFERRED /\ dc_status d = PENDING)
      \/ (deferred /\ (row_status r = DEFERRED \/ row_status r = PENDING /\ isPristineInbox r = true))
  end.
Lemma stored_decision r d :
  storedIngestionDecision r = Ok d ->
  d = ir_decision r /\ decision_ok d /\ (row_status r = DEFERRED -> deferred_ok r = true).
Proof.
  unfold storedIngestionDecision, check_stored, row_status. intros Hd. result_inv. bool_prop.
  match goal with H : Bool.eqb _ _ = true |- _ => apply eqb_prop in H as Hl end.
  repeat split.
  - by destruct (is_trade_hint _); bool_prop.
  - intros E. apply (bool_decide_eq_true_1 _). rewrite <- Hl. by apply bool_decide_eq_true_2.
  - intros E. apply (bool_decide_eq_true_1 _). rewrite Hl. by apply bool_decide_eq_true_2.
  - intros E. rewrite E in *. by destruct (is_trade_hint _).
  - intros E. rewrite E in *. by destruct (deferred_ok r).
Qed.
Lemma converge_spec row n tracked programs d :
  isValidIngestionHintPair (nt_ingestionHint n) (nt_ingestionHintMint n) = true ->
  convergeIngestion row n tracked programs = Ok d -> decision_ok d /\ next_status row d.
Proof.
  intros Hp Hd. unfold convergeIngestion in Hd. apply bind_Ok in Hd as (current & Hcur & Hd).
  assert ((row = None /\ current = None)
          \/ exists r, row = Some r /\ current = Some (ir_decision r) /\ decision_ok (ir_decision r)
             /\ (row_status r = DEFERRED -> deferred_ok r = true)) as Hrow.
  { destruct row as [r|]; [right|left; injection Hcur as <-; done].
    apply fmap_Ok in Hcur as (c & Hc & ->). apply stored_decision in Hc as (-> & ? & ?). by exists r. }
  pose proof (converge_hint current n Hp) as Hh.
  assert (forall c, current = Some c -> decision_ok c) as Hc.
  { intros c ->. destruct Hrow as [[_ ?]|(r & _ & [= ->] & ? & _)]; [done|done]. }
  specialize (Hh Hc). cbn zeta in Hh, Hd.
  set (hint := if _ || _ then _ else _) in Hh, Hd. set (mint := if _ || _ then _ else _) in Hh, Hd.
  apply bind_Ok in Hd as (ambiguous & _ & Hd).
  destruct ambiguous.
  { injection Hd as <-. split; [by constructor|]. destruct Hrow as [[-> ->]|(r & -> & -> & _)]; [by left|].
    unfold next_status. cbn. fold (row_status r). case_bool_decide; auto. }
  destruct Hrow as [[-> ->]|(r & -> & -> & Hr & Hdef)].
  - clear Hc. clearbody hint mint. cbn in Hd.
    destruct (_ && _), hint, tracked; injection Hd as <-; (split; [by constructor|]); cbn; auto.
  - assert (hint = PUMPFUN_TRADE -> dc_hint (ir_decision r) <> PUMPFUN_CREATE) as Hcreate.
    { unfold hint. cbn. intros Ht E. rewrite E, bool_decide_eq_true_2 in Ht by done. done. }
    assert (hint = HINT_NONE -> dc_hint (ir_decision r) = HINT_NONE) as Hnone.
    { unfold hint. cbn. destruct (_ || _) eqn:E; [done|]. bool_prop. done. }
    clear Hc. clearbody hint mint. unfold next_status. cbn in Hd. fold (row_status r) in Hd.
    assert (row_status r = DEFERRED -> dc_hint (ir_decision r) = PUMPFUN_TRADE /\ dc_priority (ir_decision r) = PRIORITY_NORMAL)
      as Hdef' by (intros E; specialize (Hdef E); unfold deferred_ok in Hdef; bool_prop; done).
    pose proof Hr as [_ Hl Ht]. destruct (_ && _) eqn:Hkeep.
    { injection Hd as <-. split; [done|]. fold (row_status r).
      destruct (decide (row_status r = DEFERRED)) as [E|E]; [|by left]. destruct (Hdef' E). auto 6. }
    clear Hkeep. destruct hint.
    + injection Hd as <-. split; [by constructor|]. left. cbn. split; [done|]. intros E. destruct (Hdef' E). specialize (Hnone eq_refl). congruence.
    + injection Hd as <-. split; [by constructor|]. cbn. case_bool_decide; auto.
    + destruct tracked; [injection Hd as <-; split; [by constructor|]; cbn; case_bool_decide; auto|].
      destruct (_ && _) eqn:Hpr; injection Hd as <-; (split; [constructor; try done|]); bool_prop; auto 6.
      * cbn. split; [|done]. intros E. apply Hl in E. by apply Hcreate in E.
      * cbn. destruct (decide (row_status r = DEFERRED)) as [E|E]; [|by left]. destruct (Hdef' E). auto 6.
    + injection Hd as <-. split; [by constructor|]. cbn. case_bool_decide; auto.
    + injection Hd as <-. split; [by constructor|]. cbn. case_bool_decide; auto.
Qed.

Lemma add_source_ok r sources source :
  discoverySources r = Ok sources -> add_source source sources ∈ [[WEBSOCKET]; [CATCH_UP]; [WEBSOCKET; CATCH_UP]].
Proof.
  unfold discoverySources. destruct (ir_sources r) as [|[] [|[] [|? ?]]]; intros [= <-]; destruct source; cbn; set_solver.
Qed.
Lemma add_source_keeps r sources source :
  discoverySources r = Ok sources -> ir_sources r ⊆ add_source source sources.
Proof.
  unfold discoverySources. destruct (ir_sources r) as [|[] [|[] [|? ?]]]; intros [= <-]; destruct source; cbn; set_solver.
Qed.
Lemma sources_listed r : ir_sources r ∈ [[WEBSOCKET]; [CATCH_UP]; [WEBSOCKET; CATCH_UP]] -> is_ok (discoverySources r) = true.
Proof.
  unfold discoverySources. rewrite !elem_of_cons, elem_of_nil. intros [->|[->|[->|[]]]]; done.
Qed.

(** Program ids: valid ones, in order, each once. *)
Definition program_id_ok (id : string) : bool :=
  bool_decide (id = trim id) && (32 <=? byte_length id) && (byte_length id <=? 44) && isCanonicalSolanaPublicKey id.
Lemma ascending_elim p ids :
  ascending_ids p ids = true ->
  Forall (fun id => program_id_ok id = true) ids /\ NoDup ids
  /\ (forall q id, p = Some q -> id ∈ ids -> key_le q id /\ q <> id).
Proof.
  revert p. induction ids as [|id ids IH]; intros p; cbn [ascending_ids].
  { intros _. repeat split; try constructor; set_solver. }
  rewrite andb_true_iff, andb_true_iff. fold (program_id_ok id). intros [[Hid Hp] (Hf & Hn & Hlt)%IH].
  assert (forall q, p = Some q -> key_le q id /\ q <> id) as Hq by (intros q ->; bool_prop; done).
  repeat split; [by constructor| | |].
  - apply NoDup_cons. split; [|done]. intros Hin. by destruct (Hlt id id eq_refl Hin).
  - apply elem_of_cons in H1 as [->|Hin]; [by apply Hq|]. transitivity id; [by apply Hq|by apply (Hlt id id0)].
  - apply elem_of_cons in H1 as [->|Hin]; [by apply Hq|]. intros ->. destruct (Hq _ H0) as [Hle Hne].
    destruct (Hlt id id0 eq_refl Hin) as [Hle' _]. by apply Hne, (anti_symm key_le).
Qed.
Lemma ascending_intro p ids :
  Forall (fun id => program_id_ok id = true) ids -> StronglySorted key_le ids -> NoDup ids ->
  (forall q id, p = Some q -> id ∈ ids -> key_le q id /\ q <> id) -> ascending_ids p ids = true.
Proof.
  revert p. induction ids as [|id ids IH]; intros p Hf Hs Hn Hq; cbn [ascending_ids]; [done|].
  apply Forall_cons in Hf as [Hid Hf]. apply NoDup_cons in Hn as [Hni Hn]. apply StronglySorted_inv in Hs as [Hs Hle].
  rewrite andb_true_iff, andb_true_iff. split; [split; [done|]|].
  - destruct p as [q|]; [|done]. destruct (Hq q id eq_refl) as [??]; [set_solver|].
    rewrite bool_decide_eq_true_2, bool_decide_eq_false_2 by done. done.
  - apply IH; [done..|]. intros q x [= <-] Hx. rewrite Forall_forall in Hle. split; [by apply Hle|]. by intros ->.
Qed.
Lemma union_ids (ids l : list string) :
  let u := fold_left (fun l id => if includes id l then l else l ++ [id]) ids l in
  NoDup l -> NoDup u /\ (forall x, x ∈ u -> x ∈ l \/ x ∈ ids) /\ (List.length l <= List.length u)%nat
    /\ (forall x, x ∈ ids -> x ∈ u) /\ (forall x, x ∈ l -> x ∈ u).
Proof.
  revert l. induction ids as [|id ids IH]; intros l; cbn.
  - intros Hn. repeat split; auto; set_solver.
  - intros Hn. destruct (includes id l) eqn:E; bool_prop.
    + destruct (IH l Hn) as (? & Hin & ? & Hi & Hl). repeat split; auto; [set_solver|].
      intros x [->|?]%elem_of_cons; auto.
    + assert (NoDup (l ++ [id])) as Hn'.
      { apply NoDup_app. repeat split; [done|set_solver|apply NoDup_singleton]. }
      destruct (IH _ Hn') as (? & Hin & Hlen & Hi & Hl). rewrite length_app in Hlen. repeat split; auto.
      * set_solver.
      * lia.
      * intros x [->|?]%elem_of_cons; [apply Hl; set_solver|auto].
      * intros x Hx. apply Hl. set_solver.
Qed.
Lemma merged_programs_ok row ids programs :
  program_ids_ok ids = true -> merged_programs row ids = Ok programs -> program_ids_ok programs = true.
Proof.
  unfold merged_programs, check_stored. intros Hids Hm. result_inv. bool_prop.
  set (l := match row with Some r => ir_programIds r | None => [] end) in *.
  set (u := fold_left _ _ _) in *.
  assert (NoDup l /\ Forall (fun id => program_id_ok id = true) l) as [Hn Hl].
  { subst l. destruct row as [r|]; [|by split; constructor]. unfold program_ids_ok in *. bool_prop.
    match goal with H : ascending_ids None (ir_programIds r) = true |- _ => apply ascending_elim in H end. naive_solver. }
  unfold program_ids_ok in Hids. bool_prop.
  match goal with H : ascending_ids None ids = true |- _ => apply ascending_elim in H as (Hf & _) end.
  destruct (union_ids ids l Hn) as (Hu & Hin & _ & Hi & _). fold u in Hu, Hin, Hi.
  unfold program_ids_ok. rewrite !andb_true_iff. split; [split; [|done]|].
  - rewrite merge_sort_Permutation. destruct ids as [|id ids]; [done|].
    assert (id ∈ u) as Hid by (apply Hi; set_solver). destruct u; [by apply elem_of_nil in Hid|done].
  - apply ascending_intro; [| | |done].
    + rewrite merge_sort_Permutation. apply Forall_forall. intros y [Hy|Hy]%Hin; [exact (proj1 (Forall_forall _ _) Hl y Hy)|].
      exact (proj1 (Forall_forall _ _) Hf y Hy).
    + apply (StronglySorted_merge_sort key_le).
    + by rewrite merge_sort_Permutation.
Qed.

(** A deferred trade. *)
Lemma framed_deferred_ok signature r :
  framed signature r -> row_status r = DEFERRED -> deferred_check r -> retry_policy_check r ->
  rv_quarantinedAt (ir_recovery r) = None -> rv_decoderUsed (ir_recovery r) = false -> row_ok signature r.
Proof.
  intros [Hi [Hm Hl Ht] Ho Hc Hk] Hs Hd Hp Hq Hu. destruct (Hd Hs) as (Hh & Hn & Hun & a & Ha & Hoa & Hpa).
  pose proof Hun as (Hpr & He & Hna & Hx & Hmp & Hmq & Hv). unfold isPristineInbox in Hpr. bool_prop.
  destruct (ir_snapshot r) eqn:Hsn; [done|].
  assert (row_status r <> PROCESSED /\ row_status r <> FAILED /\ row_status r <> PROCESSING) as (? & ? & ?) by (by rewrite Hs).
  constructor; try done.
  - by apply lease_none.
  - unfold snapshot_check. by rewrite Hsn.
  - unfold error_check. by rewrite He.
  - unfold retry_check. by rewrite Hs.
  - unfold timestamps_check. match goal with E : en_processedAt _ = None |- _ => by rewrite E end.
  - right. exists a. by rewrite Hs.
  - by left.
  - split; [by left|]. by rewrite Hv.
  - left. by rewrite Hs.
  - intros _. auto.
  - split; [by rewrite Hu|by rewrite Hq].
  - by rewrite Hsn.
  - unfold INT_MAX. lia.
  - apply waiting_unstarted. auto.
Qed.

(** An inserted row. *)
Lemma inserted_row_ok policy clock n d :
  1 <= rp_maxAttempts policy <= 100 -> 1 <= rp_baseDelayMs policy <= 60000 ->
  is_empty (nt_signature n) = false -> 0 <= nt_slot n -> program_ids_ok (nt_programIds n) = true ->
  stored_date (nt_observedAtMs n) = true -> decision_ok d -> next_status None d ->
  row_ok (nt_signature n) (inserted_row policy clock n d).
Proof.
  intros Hm Hb Hs Hsl Hids Ho Hd Hn.
  assert (framed (nt_signature n) (inserted_row policy clock n d)) as Hf.
  { constructor; try done; [|by left]. repeat split; try done. unfold discoverySources. cbn. by destruct (nt_source n). }
  destruct Hn as [Hp|(Hp & Hh & Hr)].
  - apply framed_work_ok; [done|cbn; by rewrite Hp|]. assert (row_status (inserted_row policy clock n d) = PENDING) as Hst by exact Hp.
    constructor; try done.
    + by rewrite Hst.
    + apply lease_none; [done|by rewrite Hst].
    + unfold error_check. cbn. by rewrite Hst.
    + unfold retry_check. by rewrite Hst.
    + intros E. by rewrite Hst in E.
    + left. cbn. by rewrite Hp.
    + unfold retry_policy_check. cbn. lia.
    + by left.
    + split; [by left|done].
    + apply waiting_unstarted. auto.
  - apply framed_deferred_ok; try done.
    + intros _. repeat split; try done. cbn. rewrite Hp, bool_decide_eq_true_2 by done. eexists. split; [done|]. split; [lia|done].
    + unfold retry_policy_check. cbn. lia.
Qed.

(** A row that is met again, in its status, resumed, deferred, or processed again. *)
Section Requeued.
Context (clock : Z) (n : TransactionNotification) (r : InboxRow) (d : IngestionDecision)
  (sources : list TransactionDiscoverySource) (programs : list string) (incoming next : ChainConfirmationStatus)
  (signature : string) (Hr : row_ok signature r) (Hni : row_status r <> IGNORED) (Hnq : row_status r <> QUARANTINED)
  (Hsources : sources ∈ [[WEBSOCKET]; [CATCH_UP]; [WEBSOCKET; CATCH_UP]])
  (Hwebsocket : WEBSOCKET ∈ ir_sources r -> WEBSOCKET ∈ sources)
  (Hprograms : program_ids_ok programs = true) (Hd : decision_ok d)
  (Hnext : reconciledStatus (fn_target (ir_finality r)) incoming = Ok next)
  (Hclass : classification_check (requeued_row clock n r d sources programs next false) = true).

Lemma requeued_framed replay : framed signature (requeued_row clock n r d sources programs next replay).
Proof.
  destruct (row_framed signature r Hr Hni Hnq) as [(Hi & Hs & _ & _) _ Ho Hc _]. constructor; try done.
  - repeat split; try done. by apply sources_listed.
  - by destruct Hd.
  - destruct Hc; [by left|right; by apply Hwebsocket].
Qed.
Lemma requeued_decodes (replay : bool) :
  match ir_snapshot (requeued_row clock n r d sources programs next replay) with
  | None => True
  | Some s => decodeSnapshot s signature (ir_slot r) next = true
  end.
Proof. cbn. pose proof (ro_decodes _ _ Hr) as Hs. destruct (ir_snapshot r); [by eapply decode_next|done]. Qed.
Lemma requeued_finality (replay : bool) :
  dc_status d <> DEFERRED -> version_ok (fn_version (ir_finality r)) = true ->
  fn_version (ir_finality r) <> MAX_FINALITY_EVIDENCE_VERSION ->
  finality_check (requeued_row clock n r d sources programs next replay).
Proof.
  intros Hs Hv Hm. split; [by left|]. cbn. rewrite bool_decide_eq_false_2 by done. unfold version_ok in *. bool_prop.
  apply andb_true_iff. rewrite !Z.leb_le. lia.
Qed.
Lemma requeued_same_ok :
  dc_status d = row_status r -> row_status r <> DEFERRED -> version_ok (fn_version (ir_finality r)) = true ->
  fn_version (ir_finality r) <> MAX_FINALITY_EVIDENCE_VERSION ->
  (row_status r = PROCESSED -> next = fn_target (ir_finality r)) ->
  row_ok signature (requeued_row clock n r d sources programs next false).
Proof.
  intros Hs Hnd Hv Hm Hp. pose proof requeued_framed as Hf. pose proof requeued_decodes as Hdec.
  assert (dc_status d <> DEFERRED) as Hnd' by congruence. pose proof (requeued_finality false Hnd' Hv Hm) as Hfin.
  set (r' := requeued_row clock n r d sources programs next false) in *.
  assert (row_status r' = row_status r) as Hst by exact Hs.
  assert (ir_work r' = ir_work r) as Hw by (unfold r'; cbn; by destruct (ir_work r)).
  assert (ir_end r' = ir_end r) as He.
  { unfold r'. cbn. rewrite !bool_decide_eq_false_2 by done. by destruct (ir_end r). }
  assert (ir_recovery r' = ir_recovery r) as Hrec by done.
  apply framed_work_ok; [apply Hf| |].
  { cbn. destruct (ir_admittedAt r) eqn:Ea; [done|]. destruct (ro_admission _ _ Hr Ea) as [[Hx|[Hx|[Hx|Hx]]] _]; try done.
    by rewrite Hs, Hx. }
  constructor; try done; unfold lease_check, error_check, retry_check, processed_check, terminal_check, retry_policy_check,
    manual_recovery_check, quarantine_check; rewrite ?Hst, ?Hw, ?He, ?Hrec.
  - by destruct (row_status r).
  - apply (ro_lease _ _ Hr).
  - apply (ro_error _ _ Hr).
  - apply (ro_retry _ _ Hr).
  - intros Hx. change (fn_target (ir_finality r')) with next. rewrite (Hp Hx). apply (ro_processed _ _ Hr Hx).
  - intros _. pose proof (ro_timestamps _ _ Hr) as Hts. unfold timestamps_check in *. by rewrite He.
  - destruct (ro_terminal _ _ Hr) as [?|(a & Ha & Hpa & Hx)]; [by left|right]. exists a. split; [done|]. split; [done|].
    destruct (row_status r); try done. change (fn_target (ir_finality r')) with next. by rewrite Hp.
  - apply (ro_policy _ _ Hr).
  - apply (ro_recovery _ _ Hr).
  - apply (ro_quarantine _ _ Hr).
  - apply Hdec.
  - apply (ro_unprocessed _ _ Hr).
  - apply (ro_count _ _ Hr).
  - apply (ro_started _ _ Hr).
Qed.
(** A row that starts again: its lease, its error and its end are those of a pending one. *)
Lemma requeued_pending_ok replay :
  let r' := requeued_row clock n r d sources programs next replay in
  row_status r' = PENDING -> row_status r = PROCESSED /\ replay = true \/ row_status r = DEFERRED /\ replay = false ->
  dc_status d <> DEFERRED -> version_ok (fn_version (ir_finality r)) = true ->
  fn_version (ir_finality r) <> MAX_FINALITY_EVIDENCE_VERSION -> row_ok signature r'.
Proof.
  intros r' Hst Hs Hnd Hv Hm. pose proof (requeued_framed replay) as Hf. pose proof (requeued_decodes replay) as Hdec.
  pose proof (requeued_finality replay Hnd Hv Hm) as Hfin. fold r' in Hf, Hdec, Hfin.
  assert (row_status r <> FAILED /\ row_status r <> PROCESSING) as [Hnf Hnp] by (destruct Hs as [[-> _]|[-> _]]; done).
  destruct (no_retry _ _ Hr Hnf) as [Hx Hna]. pose proof (no_error _ _ Hr Hnf) as He.
  pose proof (no_lease _ _ Hr Hnp) as Hl. pose proof (no_quarantine _ _ Hr (or_introl Hnf)) as Hq.
  destruct (ro_policy _ _ Hr) as (? & ? & ? & ? & _).
  assert (ir_end r' = {| en_processedAt := None; en_terminalAt := None; en_purgeAfter := None |}) as Hend.
  { unfold r'. cbn. rewrite (bool_decide_eq_false_2 (dc_status d = _)) by done.
    destruct Hs as [[Hs ->]|[Hs ->]]; cbn; [done|]. rewrite bool_decide_eq_true_2 by done.
    by rewrite (ro_unprocessed _ _ Hr) by (by rewrite Hs). }
  assert (wk_cycle (ir_work r') = 0) as Hc.
  { unfold r'. cbn. destruct Hs as [[Hs ->]|[Hs ->]]; [done|].
    destruct (ro_deferred _ _ Hr Hs) as (_ & _ & (Hpr & _) & _). unfold isPristineInbox in Hpr. by bool_prop. }
  assert (is_Some (ir_admittedAt r')) as Ha.
  { unfold r' in *. cbn in *. unfold row_status in Hst. cbn in Hst. destruct (ir_admittedAt r); [done|].
    rewrite Hst. by eexists. }
  apply framed_work_ok; [done..|]. constructor; try done.
  - by rewrite Hst.
  - apply lease_none; [done|by rewrite Hst].
  - unfold error_check. change (wk_error (ir_work r')) with (wk_error (ir_work r)). rewrite He. by rewrite Hst.
  - unfold retry_check. rewrite Hst. cbn. rewrite Hx, Hna. by destruct replay.
  - intros E. by rewrite Hst in E.
  - intros E. by rewrite Hst in E.
  - left. by rewrite Hend.
  - unfold retry_policy_check. rewrite Hc. cbn. lia.
  - apply (ro_recovery _ _ Hr).
  - destruct (ro_quarantine _ _ Hr) as [Hu _]. split; [done|]. cbn. by rewrite Hq.
  - intros _. by rewrite Hend.
  - apply (ro_count _ _ Hr).
  - apply waiting_unstarted. auto.
Qed.
Lemma requeued_deferred_ok :
  dc_status d = DEFERRED -> dc_hint d = PUMPFUN_TRADE -> dc_priority d = PRIORITY_NORMAL ->
  row_status r = DEFERRED \/ row_status r = PENDING /\ isPristineInbox r = true ->
  row_ok signature (requeued_row clock n r d sources programs next false).
Proof.
  intros Hs Hh Hp Hst.
  assert (isPristineInbox r = true) as Hpr.
  { destruct Hst as [Hst|[_ ?]]; [|done]. by destruct (ro_deferred _ _ Hr Hst) as (_ & _ & (? & _) & _). }
  assert (row_status r <> FAILED) as Hnf by (destruct Hst as [->|[-> _]]; done).
  destruct (no_retry _ _ Hr Hnf) as [Hx Hna]. pose proof (no_error _ _ Hr Hnf) as He.
  pose proof (no_quarantine _ _ Hr (or_introl Hnf)) as Hq.
  assert (rv_decoderUsed (ir_recovery r) = false) as Hu.
  { destruct (ro_quarantine _ _ Hr) as [Hu _]. destruct (rv_decoderUsed _); [|done]. destruct Hu as [Hu _]; [done|].
    unfold isPristineInbox in Hpr. bool_prop. lia. }
  apply framed_deferred_ok; try done; [apply requeued_framed| |].
  - intros _. repeat split; try done; cbn; rewrite ?Hs, ?bool_decide_eq_true_2 by done; try done.
    destruct Hst as [Hst|[Hst _]].
    + destruct (ro_deferred _ _ Hr Hst) as (_ & _ & _ & a & -> & Ha & ->). exists a. done.
    + destruct (no_end _ _ Hr (or_introl Hst)) as [-> ->]. eexists. split; [done|]. cbn. split; [lia|done].
  - destruct (ro_policy _ _ Hr) as (? & ? & ? & ? & _). unfold retry_policy_check. cbn. repeat split; try lia.
    unfold row_status. cbn. by rewrite Hs.
Qed.
End Requeued.

(** A row of which only the sources, the programs and the decision change. *)
Lemma noted_row_ok signature n r d sources programs :
  row_ok signature r -> row_status r = PROCESSED -> dc_status d = PROCESSED -> decision_ok d ->
  sources ∈ [[WEBSOCKET]; [CATCH_UP]; [WEBSOCKET; CATCH_UP]] -> (WEBSOCKET ∈ ir_sources r -> WEBSOCKET ∈ sources) ->
  program_ids_ok programs = true ->
  classification_check (noted_row n r d sources programs (fn_target (ir_finality r))) = true ->
  row_ok signature (noted_row n r d sources programs (fn_target (ir_finality r))).
Proof.
  intros Hr Hs Hst Hd Hso Hws Hp Hk. set (r' := noted_row _ _ _ _ _ _).
  assert (row_status r' = row_status r) as Hrs by (by rewrite Hs).
  assert (ir_finality r' = ir_finality r) as Hf by (cbn; by destruct (ir_finality r)).
  destruct (row_framed signature r Hr) as [(Hi & Hsl & _ & _) _ Ho Hc _]; [by rewrite Hs..|].
  apply framed_work_ok.
  - constructor; try done; [repeat split; try done; by apply sources_listed|].
    destruct Hc; [by left|right; by apply Hws].
  - apply (admitted _ _ Hr). auto.
  - constructor; try keep Hr; rewrite ?Hrs; unfold lease_check, error_check, retry_check, processed_check, terminal_check,
      retry_policy_check, quarantine_check, finality_check; rewrite ?Hrs, ?Hf; try keep Hr. by rewrite Hs.
Qed.
(** Another source leaves a classification as it was. *)
Lemma more_sources r r' :
  classification_check r = true -> ir_sources r ⊆ ir_sources r' ->
  ir_classification r' = ir_classification r -> ir_observedAt r' = ir_observedAt r ->
  ir_decision r' = ir_decision r -> classification_check r' = true.
Proof.
  intros Hk Hin Ec Eo Ed. unfold classification_check, disposition_check in *. rewrite Ec, Eo, Ed.
  destruct (ir_classification r) as [c|]; [|done].
  assert (forall x, includes x (ir_sources r) = true -> includes x (ir_sources r') = true) as Hx.
  { intros x. rewrite !includes_true. apply Hin. }
  apply andb_true_iff in Hk as [Hk Hd]. apply andb_true_iff in Hk as [Hk Hc]. rewrite Hk, (Hx _ Hc). cbn [andb].
  destruct (cc_disposition c); try done. rewrite !andb_true_iff in Hd |- *.
  destruct Hd as [[? Hs] ?]. split; [split; [done|]|done].
  apply orb_true_iff in Hs as [->|Hs]; [done|]. by rewrite (Hx _ Hs), orb_true_r.
Qed.
Lemma noted_classified_ok signature n r sources programs target :
  row_ok signature r -> terminal_classification r = true -> ir_disposition r = Some (row_status r) ->
  sources ∈ [[WEBSOCKET]; [CATCH_UP]; [WEBSOCKET; CATCH_UP]] -> ir_sources r ⊆ sources ->
  program_ids_ok programs = true ->
  row_ok signature (noted_row n r (ir_decision r) sources programs target).
Proof.
  intros Hr Ht Hdi Hso Hin Hp. destruct (ro_classified _ _ Hr) as [(Hx & Hy & _)|(_ & _ & Hpr & Hh & Hu & a & Hca & Ha & Hpa)].
  { unfold terminal_classification in Ht. rewrite Hdi in Ht. by destruct (row_status r). }
  assert (row_status r <> PROCESSED) as Hnp.
  { intros E. unfold terminal_classification in Ht. rewrite Hdi, E in Ht. done. }
  destruct (ro_identity _ _ Hr) as (Hi & Hsl & _ & _).
  assert (ir_snapshot r = None) as Hsn.
  { destruct Hu as [Hu _]. unfold isPristineInbox in Hu. bool_prop. by destruct (ir_snapshot r). }
  destruct Hr. constructor; try done.
  - repeat split; try done. by apply sources_listed.
  - destruct ro_terminal0 as [?|(b & ? & ? & Hb)]; [by left|right]. exists b. split; [done|]. split; [done|].
    change (row_status (noted_row n r (ir_decision r) sources programs target)) with (row_status r). by destruct (row_status r).
  - right. repeat split; try done; try apply Hu. by exists a.
  - by apply (more_sources r).
  - cbn. by rewrite Hsn.
Qed.

Local Arguments Nat.ltb : simpl never.
Local Arguments Nat.eqb : simpl never.
(** A trade whose hint is dropped, because several programs are in it, keeps its classification. *)
Lemma synced_classification clock active r :
  classification_check r = true -> dc_hint (ir_decision r) = PUMPFUN_TRADE ->
  Nat.eqb (List.length (ir_programIds r)) 1 = negb (Nat.ltb 1 (List.length (ir_programIds r))) ->
  classification_check (synced_row clock active r) = true.
Proof.
  intros Hk Hh Hs. unfold classification_check, disposition_check, classified_trade_hint in *.
  change (ir_classification (synced_row clock active r)) with (ir_classification r).
  change (ir_sources (synced_row clock active r)) with (ir_sources r).
  change (ir_observedAt (synced_row clock active r)) with (ir_observedAt r).
  unfold synced_row. cbn [ir_decision dc_hint dc_mint]. rewrite Hs.
  destruct (Nat.ltb 1 _); cbn [negb]; [|done].
  destruct (ir_classification r) as [c|]; [|done]. rewrite Hh in Hk.
  apply andb_true_iff in Hk as [-> Hd]. cbn [andb].
  rewrite !(bool_decide_eq_true_2 (HINT_NONE = HINT_NONE)), !(bool_decide_eq_true_2 (None = None)) by done.
  destruct (cc_disposition c); cbn [andb] in *; rewrite ?andb_false_r in Hd; try done;
    destruct (trade_key_mint _) as [m|]; cbn [andb orb] in *; rewrite ?andb_false_r, ?orb_false_r in Hd; try done;
    rewrite !andb_true_iff in Hd |- *; rewrite ?orb_true_iff, ?andb_true_iff in *; intuition done.
Qed.
(** A trade whose launch begins or ends. *)
Lemma synced_row_ok signature mint active clock r :
  row_ok signature r -> sync_selected mint active r = true -> row_ok signature (synced_row clock active r).
Proof.
  intros Hr Hsel. unfold sync_selected in Hsel. rewrite !andb_true_iff in Hsel. destruct Hsel as [[[Hh Hm] Hst] Hsel]. bool_prop.
  assert (row_status r = DEFERRED \/ row_status r = PENDING) as Hst'.
  { apply orb_true_iff in Hst as [?|?]; bool_prop; auto. }
  assert (row_status r <> FAILED /\ row_status r <> PROCESSING /\ row_status r <> PROCESSED) as (Hnf & Hnp & Hnd)
    by (destruct Hst' as [-> | ->]; done).
  destruct (no_retry _ _ Hr Hnf) as [Hx Hna]. pose proof (no_error _ _ Hr Hnf) as He.
  pose proof (no_lease _ _ Hr Hnp) as Hl. pose proof (no_quarantine _ _ Hr (or_introl Hnf)) as Hq.
  destruct (row_framed signature r Hr) as [Hi [Hmint _ _] Ho Hc Hk]; [destruct Hst' as [-> | ->]; done..|].
  destruct (ro_policy _ _ Hr) as (? & ? & ? & ? & Hlt).
  assert (wk_cycle (ir_work r) < wk_maxAttempts (ir_work r)) as Hcy.
  { destruct Hst' as [E|E]; [|by apply Hlt]. destruct (ro_deferred _ _ Hr E) as (_ & _ & (Hpr & _) & _).
    unfold isPristineInbox in Hpr. bool_prop. lia. }
  pose proof Hi as (_ & _ & _ & Hids). unfold program_ids_ok in Hids. bool_prop.
  set (several := Nat.ltb 1 (List.length (ir_programIds r))) in *.
  assert (Nat.eqb (List.length (ir_programIds r)) 1 = negb several) as Hsingle.
  { unfold several. destruct (Nat.ltb_spec 1 (List.length (ir_programIds r))); cbn; [apply Nat.eqb_neq|apply Nat.eqb_eq];
      match goal with H : Nat.leb 1 _ = true |- _ => apply Nat.leb_le in H end; lia. }
  assert (framed signature (synced_row clock active r)) as Hf.
  { constructor; try done; [|by apply synced_classification]. rewrite Hh in Hmint. constructor; cbn; rewrite Hsingle; fold several; destruct several; cbn.
    - done.
    - by rewrite Hh.
    - by rewrite andb_false_r.
    - rewrite Hh. by destruct active.
    - by rewrite andb_false_r.
    - by rewrite Hh. }
  destruct (active || several) eqn:Hact.
  - assert (row_status (synced_row clock active r) = PENDING) as Hrs by (unfold row_status; cbn; fold several; by rewrite Hact).
    apply framed_work_ok; [done| |].
    { cbn. fold several. rewrite Hact. by destruct (ir_admittedAt r). }
    constructor; try keep Hr; rewrite ?Hrs; try done.
    + apply lease_none; [done|by rewrite Hrs].
    + unfold error_check. change (wk_error (ir_work (synced_row clock active r))) with (wk_error (ir_work r)). by rewrite He, Hrs.
    + unfold retry_check. by rewrite Hrs.
    + intros E. by rewrite Hrs in E.
    + left. cbn. rewrite Hsingle. by destruct active, several.
    + unfold finality_check. cbn. fold several. pose proof (ro_finality _ _ Hr) as Hfin. destruct several; [done|].
      split; [by left|done].
    + destruct (ro_quarantine _ _ Hr) as [Hu _]. split; [done|]. cbn. by rewrite Hq.
    + intros _. by apply (ro_unprocessed _ _ Hr).
    + intros [E|[E|E]]; done.
  - apply orb_false_iff in Hact as [-> Hsev]. rewrite Hsev in *. cbn [andb orb negb] in *. bool_prop.
    assert (row_status (synced_row clock false r) = DEFERRED) as Hrs by (unfold row_status; cbn; fold several; by rewrite Hsev).
    assert (rv_decoderUsed (ir_recovery r) = false) as Hu.
    { destruct (ro_quarantine _ _ Hr) as [Hu _]. destruct (rv_decoderUsed _); [|done]. destruct Hu as [Hu _]; [done|].
      match goal with H : isPristineInbox r = true |- _ => unfold isPristineInbox in H end. bool_prop. lia. }
    apply framed_deferred_ok; try done.
    + intros _. repeat split; try done; cbn; fold several; rewrite ?Hsev, ?Hsingle; cbn; try done.
      eexists. split; [done|]. split; [lia|done].
Qed.
End Admission.
