(* ===== verification/InboxQueue.v ===== *)
(** What the queue of observed transactions promises ([Inbox]).

    Every call keeps the constraints of the table; the two statements that these can refuse are
    in [Inbox.enqueue] and [Inbox.markProcessed], whose calls then fail.  A lease is exclusive and completes at most once.  A claim serves a row whenever one
    can be served, and the scheduler starves neither the normal rows nor the tracked trades. *)
From S2P Require Import Prelude Text Types Chain Json JsonCodec PublicKey CatchUpRun Inbox InboxRows.
From stdpp Require Import gmap sorting.
From Stdlib Require Import Ascii String.
Local Open Scope string_scope.
Local Open Scope list_scope.
Local Open Scope Z_scope.

(** * Calls *)

(** A call of the repository that writes, with the clock and the random token it reads. *)
Inductive inbox_call :=
| CallEnqueue (active : string -> bool) (clock : Z) (n : TransactionNotification)
| CallSync (active : string -> bool) (clock : Z) (mint : string)
| CallClaim (clock : Z) (token : string) (nowMs leaseSeconds : Z)
| CallRenew (clock : Z) (signature token : string) (untilMs : Z)
| CallSave (clock : Z) (signature token : string) (s : DurableNormalizedTransaction)
| CallProcessed (clock : Z) (signature token : string) (status : ChainConfirmationStatus)
| CallFailed (clock : Z) (signature token : string) (f : IngestionFailure)
| CallRecover (clock : Z) (signature : string)
| CallRecoverDecoder (clock : Z) (signature : string)
| CallPoll (clock : Z) (v : FinalityPollObservation)
| CallRevise (v : FinalityRevision).

Section Calls.
Context `{Sha256} `{Collation} (policy : TransactionInboxRetryPolicy).
Implicit Types (t : InboxTables) (signature token : string).

Definition run_call (c : inbox_call) (t : InboxTables) : result InboxError InboxTables :=
  match c with
  | CallEnqueue active clock n => snd <$> enqueue policy active clock n t
  | CallSync active clock mint => snd <$> syncTrackedMint active clock mint t
  | CallClaim clock token nowMs leaseSeconds => snd <$> claim clock token nowMs leaseSeconds t
  | CallRenew clock signature token untilMs => snd <$> renewLease clock signature token untilMs t
  | CallSave clock signature token s => snd <$> saveSnapshot clock signature token s t
  | CallProcessed clock signature token status => snd <$> markProcessed clock signature token status t
  | CallFailed clock signature token f => snd <$> markFailed clock signature token f t
  | CallRecover clock signature => snd <$> recoverExhausted policy clock signature t
  | CallRecoverDecoder clock signature => snd <$> recoverDecoderQuarantine clock signature t
  | CallPoll clock v => snd <$> recordFinalityPoll clock v t
  | CallRevise v => snd <$> enqueueRevision v t
  end.
(** A call that throws leaves the tables as they were. *)
Definition perform (t : InboxTables) (c : inbox_call) : InboxTables :=
  match run_call c t with Ok t' => t' | Err _ => t end.
Definition run_calls (calls : list inbox_call) (t : InboxTables) : InboxTables := fold_left perform calls t.
(** The policy that the constructor accepts (snapshotRetryPolicy). *)
Definition policy_ok : Prop := 1 <= rp_maxAttempts policy <= 100 /\ 1 <= rp_baseDelayMs policy <= 60000.

(** * Every call keeps the constraints *)

Lemma put_row_ok t signature r :
  inbox_ok t -> row_ok signature r -> ib_receipts t !! signature = receipt_of r -> inbox_ok (put_row signature r t).
Proof.
  intros [Hrows Hrec Hu Hl] Hr Hc. constructor; cbn; try done; intros s q; rewrite lookup_insert_Some;
    intros [[<- <-]|[_ Hq]]; auto.
Qed.
Lemma not_finished r : is_finished r = false -> receipt_of r = None.
Proof. unfold receipt_of. by intros ->. Qed.
Lemma unprocessed_open r : row_status r <> PROCESSED -> is_finished r = false.
Proof. intros Hs. unfold is_finished. by rewrite bool_decide_eq_false_2. Qed.
Lemma put_open_ok t signature r r' :
  inbox_ok t -> ib_rows t !! signature = Some r -> row_ok signature r' -> is_finished r = false -> is_finished r' = false ->
  inbox_ok (put_row signature r' t).
Proof.
  intros Ht Hl Hr Hf Hf'. apply put_row_ok; [done..|]. by rewrite (io_receipts _ Ht _ _ Hl), !not_finished.
Qed.

(** Selections. *)
Lemma select_elem ok rank limit t p :
  p ∈ select_rows ok rank limit t -> ib_rows t !! fst p = Some (snd p) /\ ok (snd p) = true.
Proof.
  unfold select_rows. intros Hp%subseteq_take. rewrite merge_sort_Permutation in Hp.
  apply list_elem_of_In, List.filter_In in Hp as [Hin Hok]. split; [|done].
  apply elem_of_map_to_list. apply list_elem_of_In. by destruct p.
Qed.
Lemma candidate_elem now p t signature r :
  selectClaimCandidate now p t = Some (signature, r) ->
  ib_rows t !! signature = Some r /\ dc_priority (ir_decision r) = p /\ claimable now r = true.
Proof.
  unfold selectClaimCandidate. intros [Hl Hb]%head_Some_elem_of%select_elem. cbn in *. by bool_prop.
Qed.
Lemma list_find_some_Some {A B} (f : A -> option B) l b :
  list_find_some f l = Some b -> exists a, a ∈ l /\ f a = Some b.
Proof.
  induction l as [|a l IH]; cbn; [done|]. destruct (f a) eqn:E; [intros [= ->]; exists a; set_solver|].
  intros (a' & ? & ?)%IH. exists a'. set_solver.
Qed.
Lemma choice_elem now t signature r :
  claim_choice now t = Some (signature, r) ->
  ib_rows t !! signature = Some r /\ claimable now r = true.
Proof. intros (p & _ & Hp)%list_find_some_Some. apply candidate_elem in Hp. naive_solver. Qed.

(** Exhaustion. *)
Lemma exhaust_fold clock now l t :
  inbox_ok t -> Forall (fun p => row_ok (fst p) (snd p) /\ ib_receipts t !! fst p = None /\ spent now (snd p) = true) l ->
  inbox_ok (fold_left (fun t p => put_row (fst p) (exhausted_row clock (snd p)) t) l t).
Proof.
  revert t. induction l as [|p l IH]; intros t Ht Hl; [done|]. apply Forall_cons in Hl as [(Hr & Hc & Hs) Hl].
  cbn. apply IH; [|done]. apply put_row_ok; [done|by eapply exhausted_row_ok|]. by rewrite Hc, not_finished.
Qed.
Lemma spent_open now r : spent now r = true -> is_finished r = false.
Proof. intros Hs. apply unprocessed_open. intros E. unfold spent in Hs. rewrite E, andb_false_r in Hs. done. Qed.
Lemma exhaust_rows_ok now clock t : inbox_ok t -> inbox_ok (exhaust_rows now clock t).
Proof.
  intros Ht. apply (exhaust_fold clock now); [done|]. apply Forall_forall. intros p [Hl Hs]%select_elem.
  split; [by apply (io_rows _ Ht)|]. split; [|done]. rewrite (io_receipts _ Ht _ _ Hl). by apply not_finished, (spent_open now).
Qed.

(** The calls under a lease. *)
Lemma leasedRow_Ok signature token t r :
  leasedRow signature token t = Ok r <->
  ib_rows t !! signature = Some r /\ row_status r = PROCESSING /\ fst <$> wk_lease (ir_work r) = Some token.
Proof.
  unfold leasedRow. destruct (ib_rows t !! signature) as [q|]; [|naive_solver].
  destruct (_ && _) eqn:E.
  - bool_prop. naive_solver.
  - split; [done|]. intros ([= ->] & Hs & Hl). by rewrite !bool_decide_eq_true_2 in E.
Qed.
Lemma leased_open r : row_status r = PROCESSING -> is_finished r = false.
Proof. intros E. apply unprocessed_open. by rewrite E. Qed.

Lemma claim_ok clock token now lease t c t' : inbox_ok t -> claim clock token now lease t = Ok (c, t') -> inbox_ok t'.
Proof.
  intros Ht Hc. unfold claim, check_stored in Hc. result_inv. apply (exhaust_rows_ok now clock) in Ht.
  set (t1 := exhaust_rows now clock t) in *. clearbody t1.
  destruct (claim_choice now t1) as [[signature r]|] eqn:Hch; result_inv; [|done].
  apply choice_elem in Hch as [Hl Hb]. pose proof (io_rows _ Ht _ _ Hl) as Hr.
  assert (inbox_ok (put_row signature (leased_row now clock token (now + lease * 1000) r) t1)) as [Hrows Hrec Hu Hla].
  { eapply put_open_ok; [done|done|by apply leased_row_ok| |done]. apply unprocessed_open. intros E.
    unfold claimable in Hb. by rewrite E in Hb. }
  constructor; try done; cbn in *.
  - case_bool_decide; unfold MAX_CONSECUTIVE_URGENT_CLAIMS in *; lia.
  - unfold MAX_LAUNCH_CLAIMS_BEFORE_TRACKED in *. destruct (dc_priority _); lia.
Qed.
Lemma renewLease_ok clock signature token u t x t' :
  inbox_ok t -> renewLease clock signature token u t = Ok (x, t') -> inbox_ok t'.
Proof.
  intros Ht Hc. unfold renewLease in Hc. result_inv.
  match goal with H : leasedRow _ _ _ = Ok _ |- _ => apply leasedRow_Ok in H as (Hl & Hs & _) end.
  eapply put_open_ok; [done..| |by apply leased_open|by apply leased_open].
  apply renewed_row_ok; [by apply (io_rows _ Ht)|done].
Qed.
Lemma saveSnapshot_ok (Hhex : forall x, is_sha256_hex (sha256_hex x) = true) clock signature token s t x t' :
  inbox_ok t -> saveSnapshot clock signature token s t = Ok (x, t') -> inbox_ok t'.
Proof.
  intros Ht Hc. unfold saveSnapshot, lease_texts, check_stored, conflict_if in Hc. result_inv. bool_prop.
  match goal with H : leasedRow _ _ _ = Ok ?r |- _ => apply leasedRow_Ok in H as (Hl & Hs & _); rename r into q end.
  pose proof (io_rows _ Ht _ _ Hl) as Hr. destruct (ir_snapshot q) as [stored|] eqn:Hsn; result_inv; bool_prop.
  - eapply put_open_ok; [done..| |by apply leased_open|by apply leased_open]. apply saved_row_ok; [done..|]. congruence.
  - eapply put_open_ok; [done..| |by apply leased_open|by apply leased_open]. apply saved_row_ok; [done..|].
    unfold decodeSnapshot, snapshotFingerprint. rewrite Hhex, bool_decide_eq_true_2, andb_true_r by done. cbn [andb].
    rewrite !andb_true_iff. repeat split; [by apply negb_true_iff|apply Z.leb_le; lia|congruence].
Qed.
Lemma closed_status next :
  bool_decide (next = finalized) || bool_decide (next = orphaned) = negb (is_open_status next).
Proof. by destruct next. Qed.
Lemma markProcessed_ok clock signature token status t x t' :
  inbox_ok t -> markProcessed clock signature token status t = Ok (x, t') -> inbox_ok t'.
Proof.
  intros Ht Hc. unfold markProcessed, lease_texts, check_stored in Hc. result_inv. bool_prop.
  match goal with H : leasedRow _ _ _ = Ok ?r |- _ => apply leasedRow_Ok in H as (Hl & Hs & _); rename r into q end.
  pose proof (io_rows _ Ht _ _ Hl) as Hr. destruct (ir_snapshot q) as [stored|] eqn:Hsn; [|done]. result_inv. bool_prop.
  match goal with H : reconciledStatus _ _ = Ok ?n |- _ => rename n into next; rename H into Hnext end.
  rewrite closed_status in *.
  assert (row_ok signature (processed_row clock next (negb (is_open_status next)) q)) as Hr'
    by (by eapply processed_row_ok).
  assert (ib_receipts t !! signature = None) as Hnone.
  { rewrite (io_receipts _ Ht _ _ Hl). apply not_finished. by apply leased_open. }
  destruct (is_open_status next) eqn:Ho; cbn [negb] in *.
  - result_inv. eapply put_open_ok; [done..|by apply leased_open|]. unfold is_finished. cbn. by rewrite Ho, andb_false_r.
  - rewrite Hnone in *. result_inv. destruct Ht as [Hrows Hrec Hu Hla].
    constructor; cbn; try done; intros s r; rewrite lookup_insert_Some; intros [[<- <-]|[Hne Hq]].
    + done.
    + by apply Hrows.
    + rewrite lookup_insert_eq. unfold receipt_of, is_finished. cbn. rewrite Ho, Hsn. by destruct stored.
    + rewrite lookup_insert_ne by done. by apply Hrec.
Qed.
Lemma safe_name_bytes name : safe_error_name name = true -> 1 <= byte_length name <= 16384.
Proof.
  unfold safe_error_name. rewrite <- chars_length. destruct (chars name) as [|c l]; [done|]. intros Hn. bool_prop.
  cbn [List.length] in *. lia.
Qed.
Lemma markFailed_ok clock signature token f t x t' :
  inbox_ok t -> markFailed clock signature token f t = Ok (x, t') -> inbox_ok t'.
Proof.
  intros Ht Hc. unfold markFailed, lease_texts, check_stored in Hc. result_inv. bool_prop.
  match goal with H : leasedRow _ _ _ = Ok ?r |- _ => apply leasedRow_Ok in H as (Hl & Hs & _); rename r into q end.
  eapply put_open_ok; [done..| |by apply leased_open|done].
  apply failed_row_ok; [by apply (io_rows _ Ht)|done|done|by apply safe_name_bytes].
Qed.
Lemma failed_open r : row_status r = FAILED -> is_finished r = false.
Proof. intros E. apply unprocessed_open. by rewrite E. Qed.
Lemma recoverExhausted_ok clock signature t x t' :
  policy_ok -> inbox_ok t -> recoverExhausted policy clock signature t = Ok (x, t') -> inbox_ok t'.
Proof.
  intros [Hm Hb] Ht Hc. unfold recoverExhausted, check_stored in Hc. result_inv.
  destruct (ib_rows t !! signature) as [r|] eqn:Hl; result_inv; [|done]. pose proof (io_rows _ Ht _ _ Hl) as Hr.
  destruct (_ && _); result_inv; [done|]. destruct (negb (exhausted_eligible clock r)) eqn:He; result_inv; [done|].
  unfold exhausted_eligible, safeCount in *. bool_prop.
  rewrite (no_quarantine _ _ Hr) by auto.
  eapply put_open_ok; [done..| |by apply failed_open|done]. by apply recovered_row_ok.
Qed.
Lemma recoverDecoderQuarantine_ok clock signature t x t' :
  inbox_ok t -> recoverDecoderQuarantine clock signature t = Ok (x, t') -> inbox_ok t'.
Proof.
  intros Ht Hc. unfold recoverDecoderQuarantine, check_stored in Hc. result_inv.
  destruct (ib_rows t !! signature) as [r|] eqn:Hl; result_inv; [|done]. pose proof (io_rows _ Ht _ _ Hl) as Hr.
  destruct (rv_decoderUsed _); result_inv; [done|].
  destruct (quarantine_dates _ r) as [[a b]|] eqn:Hq; result_inv; [|done].
  destruct (b <=? clock); result_inv; [done|]. destruct (negb (bool_decide (rv_quarantinedAt (ir_recovery r) = Some a))); result_inv; [done|].
  destruct (ir_snapshot r); result_inv; [|done]. destruct (decodeSnapshot _ _ _ _); result_inv; [|done].
  unfold quarantine_dates, safeCount in *. destruct (_ && _) eqn:Hf in Hq; [|done]. bool_prop.
  destruct (ro_policy _ _ Hr) as (? & ? & _).
  assert (inbox_ok (put_row signature (recovered_row clock (wk_maxAttempts (ir_work r)) (wk_baseDelayMs (ir_work r)) None true r) t))
    as [? ? ? ?].
  { eapply put_open_ok; [done..| |by apply failed_open|done]. by apply recovered_row_ok. }
  by constructor.
Qed.
(** A candidate is read from the columns of a row that satisfy the constraints. *)
Lemma candidate_row signature r c :
  finalityCandidateFromRow signature r = Ok c ->
  is_open_status (fn_target (ir_finality r)) = true /\ finality_check r
  /\ fc_confirmationStatus c = fn_target (ir_finality r) /\ fc_missingFinalityPolls c = fn_missingPolls (ir_finality r)
  /\ fc_lastMissingFinalityProviderId c = fn_missingProvider (ir_finality r)
  /\ fc_finalityEvidenceVersion c = fn_version (ir_finality r).
Proof.
  unfold finalityCandidateFromRow, check_stored. destruct (en_processedAt (ir_end r)); [|done]. intros Hc. result_inv.
  unfold safeCount, provider_correlates in *. bool_prop.
  match goal with H : Bool.eqb _ _ = true |- _ => apply eqb_prop in H as Hp end.
  repeat split; try done. destruct (fn_missingPolls (ir_finality r) =? 0) eqn:E; bool_prop; symmetry in Hp; bool_prop; [by left|].
  right. split; [lia|]. by destruct (fn_missingProvider (ir_finality r)).
Qed.
Lemma recordFinalityPoll_ok clock v t x t' :
  inbox_ok t -> recordFinalityPoll clock v t = Ok (x, t') -> inbox_ok t'.
Proof.
  intros Ht Hc. unfold recordFinalityPoll, check_stored, conflict_if in Hc. result_inv.
  destruct (ib_rows t !! po_signature v) as [r|] eqn:Hl; [|done]. pose proof (io_rows _ Ht _ _ Hl) as Hr.
  result_inv. bool_prop.
  match goal with H : finalityCandidateFromRow _ (with_finality _ _ _) = Ok _ |- _ =>
    apply candidate_row in H as (Ho & Hf & _) end.
  match goal with H : match po_confirmationStatus v with _ => _ end = Ok ?n |- _ => rename H into Hn; rename n into next end.
  eapply put_open_ok; [done|done| | |].
  - apply polled_row_ok; try done. intros s Hs. pose proof (ro_decodes _ _ Hr) as Hd. rewrite Hs in Hd. cbn [fn_target].
    destruct (po_confirmationStatus v); [by eapply decode_next|]. by injection Hn as <-.
  - unfold is_finished. by rewrite H3, andb_false_r.
  - unfold is_finished. by rewrite Ho, andb_false_r.
Qed.
Lemma enqueueRevision_ok v t x t' : inbox_ok t -> enqueueRevision v t = Ok (x, t') -> inbox_ok t'.
Proof.
  intros Ht Hc. unfold enqueueRevision, check_stored, conflict_if in Hc. result_inv.
  destruct (ib_rows t !! rv_signature v) as [r|] eqn:Hl; [|done]. pose proof (io_rows _ Ht _ _ Hl) as Hr.
  destruct (ir_snapshot r) as [stored|] eqn:Hsn; [|done]. result_inv. bool_prop.
  match goal with H : reconciledStatus _ _ = Ok ?n |- _ => rename n into next; rename H into Hnext end.
  destruct (bool_decide (next = _)) eqn:Heq; bool_prop.
  { destruct (_ || _); result_inv; done. }
  result_inv. bool_prop.
  assert (is_open_status (fn_target (ir_finality r)) = true) as Ho.
  { destruct (fn_target (ir_finality r)); try done; destruct (rv_orphaned v); cbn in Hnext; try done;
      injection Hnext as <-; done. }
  destruct (rv_orphaned v) as [expected|]; result_inv; bool_prop.
  - eapply put_open_ok; [done|done| | |done].
    + apply revised_row_ok; try done; [|intros s Hs; congruence]. unfold version_ok in *. bool_prop.
      apply andb_true_iff. rewrite !Z.leb_le. lia.
    + unfold is_finished. by rewrite Ho, andb_false_r.
  - eapply put_open_ok; [done|done| | |done].
    + apply revised_row_ok; try done; [|intros s Hs; congruence].
      pose proof (ro_finality _ _ Hr) as [_ Hv]. unfold version_ok in *. bool_prop.
      apply andb_true_iff. rewrite !Z.leb_le. destruct (_ <? _) eqn:?; bool_prop; lia.
    + unfold is_finished. by rewrite Ho, andb_false_r.
Qed.
Lemma syncTrackedMint_ok active clock mint t x t' :
  inbox_ok t -> syncTrackedMint active clock mint t = Ok (x, t') -> inbox_ok t'.
Proof.
  intros Ht Hc. unfold syncTrackedMint, check_stored in Hc. result_inv. destruct Ht as [Hrows Hrec Hu Hl].
  constructor; cbn; try done; intros s q; rewrite lookup_fmap; destruct (ib_rows t !! s) as [r|] eqn:E; try done;
    intros [= <-]; destruct (sync_selected mint (active mint) r) eqn:Hs; auto.
  - eapply synced_row_ok; [by apply Hrows|done].
  - rewrite (Hrec _ _ E). rewrite !not_finished; [done|apply unprocessed_open|apply unprocessed_open].
    + unfold row_status. cbn. by destruct (_ || _).
    + intros Hx. unfold sync_selected in Hs. rewrite Hx in Hs. cbn in Hs. by rewrite !andb_false_r in Hs.
Qed.
(** What a notification does to a row that was met before. *)
Lemma note_again_ok clock n r receipt d programs r' signature t :
  inbox_ok t -> ib_rows t !! signature = Some r -> row_status r <> IGNORED -> row_status r <> QUARANTINED ->
  program_ids_ok programs = true -> nt_confirmationStatus n <> orphaned -> decision_ok d -> next_status (Some r) d ->
  note_again clock n r receipt d programs = Ok r' -> classification_check r' = true ->
  row_ok signature r' /\ receipt_of r' = receipt_of r.
Proof.
  intros Ht Hl Hni Hnq Hp Hno Hd Hnx Hn Hclass. pose proof (io_rows _ Ht _ _ Hl) as Hr.
  unfold note_again, check_stored, conflict_if in Hn. apply bind_Ok in Hn as (? & _ & Hn).
  apply bind_Ok in Hn as (sources & Hso & Hn). pose proof (add_source_keeps r sources (nt_source n) Hso WEBSOCKET) as Hws.
  apply (add_source_ok r sources (nt_source n)) in Hso.
  destruct (bool_decide (_ = finalized) && _) eqn:Hfin.
  - bool_prop. result_inv. split; [|].
    + apply noted_row_ok; try done. by destruct Hd.
    + unfold receipt_of, is_finished, replay_receipt, row_status. cbn. by destruct (ir_finality r).
  - apply bind_Ok in Hn as (next & Hnext & Hn). result_inv. bool_prop.
    assert (row_status r = PROCESSED -> is_open_status (fn_target (ir_finality r)) = true) as Hopen.
    { intros E. rewrite E, (bool_decide_eq_true_2 (PROCESSED = _)), andb_true_r in Hfin by done. bool_prop.
      destruct (fn_target (ir_finality r)), (nt_confirmationStatus n); try done; discriminate Hnext. }
    assert (is_finished r = false) as Hfr.
    { unfold is_finished. destruct (bool_decide (row_status r = PROCESSED)) eqn:E; [|done]. bool_prop. by rewrite Hopen. }
    assert (dc_status d <> DEFERRED -> version_ok (fn_version (ir_finality r)) = true
              /\ fn_version (ir_finality r) <> MAX_FINALITY_EVIDENCE_VERSION) as Hv.
    { intros E. rewrite (bool_decide_eq_false_2 (dc_status d = DEFERRED)) in * by done. cbn [orb andb negb] in *.
      bool_prop. done. }
    assert (forall k, row_status r <> PROCESSED -> row_status k = dc_status d -> is_finished k = false) as Hopen'.
    { intros k Hk Hst. apply unprocessed_open. rewrite Hst. destruct Hnx as [[? _]|[[_ ?]|[[? _] _]]]; congruence. }
    destruct (bool_decide (row_status r = PROCESSED)) eqn:Hpr; bool_prop.
    + destruct Hnx as [[Hs Hnd]|[[E _]|[[E _] [Hx|[Hx _]]]]]; try congruence.
      destruct (Hv ltac:(congruence)). destruct (bool_decide (next = _)) eqn:Heq; bool_prop; cbn [andb negb].
      * split; [by eapply requeued_same_ok|].
        rewrite !not_finished; [done..|]. unfold is_finished. cbn. rewrite Heq, Hopen by done. by rewrite andb_false_r.
      * split; [eapply requeued_pending_ok; try done; [auto|congruence]|]. by rewrite !not_finished.
    + cbn [andb]. rewrite (not_finished r) by done.
      split; [|by apply not_finished, Hopen'].
      destruct Hnx as [[Hs Hnd]|[[E Hs]|[(Hs & Hh & Hpri) Hx]]].
      * destruct (Hv ltac:(congruence)). by eapply requeued_same_ok.
      * destruct (Hv ltac:(congruence)). eapply requeued_pending_ok; try done; [auto|congruence].
      * by eapply requeued_deferred_ok.
Qed.
Lemma enqueue_ok active clock n t x t' :
  policy_ok -> inbox_ok t -> enqueue policy active clock n t = Ok (x, t') -> inbox_ok t'.
Proof.
  intros [Hm Hb] Ht Hc. unfold enqueue in Hc. apply bind_Ok in Hc as (? & Hval & Hc). unfold check_stored in Hval.
  apply throw_if_Ok in Hval. unfold valid_notification, safeCount in Hval. bool_prop.
  apply bind_Ok in Hc as (programs & Hp & Hc). pose proof Hp as Hids. apply merged_programs_ok in Hids; [|done].
  destruct (ib_rows t !! nt_signature n) as [r|] eqn:Hl.
  - pose proof (io_rows _ Ht _ _ Hl) as Hr.
    destruct (terminal_classification r && bool_decide (ir_disposition r = Some (row_status r))) eqn:Hcl.
    + bool_prop. apply bind_Ok in Hc as (r' & Hn & Hc). injection Hc as <- <-.
      unfold note_classified, check_stored, conflict_if in Hn. result_inv.
      assert (row_status r <> PROCESSED) as Hnp.
      { intros E. unfold terminal_classification in *. rewrite E in *.
        match goal with H : ir_disposition r = _ |- _ => rewrite H in * end. done. }
      eapply put_open_ok; [done..| |by apply unprocessed_open|by apply unprocessed_open].
      apply noted_classified_ok; try done; [by eapply add_source_ok|by apply add_source_keeps].
    + apply bind_Ok in Hc as (d & Hd & Hc). apply bind_Ok in Hc as (r' & Hn & Hc).
      apply bind_Ok in Hc as (? & Hk & Hc). apply throw_if_Ok, negb_false_iff in Hk. injection Hc as <- <-.
      assert (row_status r <> IGNORED /\ row_status r <> QUARANTINED) as [Hni Hnq].
      { destruct (ro_classified _ _ Hr) as [(? & ? & _)|(Htc & Hdi & _)]; [done|].
        by rewrite Htc, bool_decide_eq_true_2 in Hcl. }
      assert (decision_ok d /\ next_status (Some r) d) as [Hd' Hnx].
      { destruct (terminal_classification r); [|by eapply converge_spec]. apply stored_decision in Hd as (-> & ? & _).
        split; [done|]. unfold next_status. fold (row_status r). destruct (decide (row_status r = DEFERRED)) as [E|E]; [|by left].
        destruct (ro_deferred _ _ Hr E) as (? & ? & _). auto 7. }
      destruct (note_again_ok clock n r (ib_receipts t !! nt_signature n) d programs r' (nt_signature n) t) as [Hr' Hre]; try done.
      apply put_row_ok; [done..|]. by rewrite Hre, (io_receipts _ Ht _ _ Hl).
  - apply bind_Ok in Hc as (d & Hd & Hc). apply converge_spec in Hd as [Hd Hnx]; [|done].
    destruct (ib_receipts t !! nt_signature n) as [c|] eqn:Hrec; unfold check_stored in Hc; result_inv; [done|].
    apply put_row_ok; [done| |].
    + apply inserted_row_ok; try done. unfold inbox_date, stored_date in *. bool_prop. apply andb_true_iff.
      rewrite is_safe_integer_true. rewrite Z.leb_le. done.
    + rewrite Hrec, not_finished; [done|]. apply unprocessed_open. unfold row_status. cbn.
      destruct Hnx as [->|[-> _]]; done.
Qed.
Lemma perform_ok (Hhex : forall x, is_sha256_hex (sha256_hex x) = true) t c :
  policy_ok -> inbox_ok t -> inbox_ok (perform t c).
Proof.
  intros Hp Ht. unfold perform. destruct (run_call c t) as [t'|] eqn:Hc; [|done].
  destruct c; cbn [run_call] in Hc; apply fmap_Ok in Hc as ([x t1] & Hc & ->); cbn [snd];
    [eapply enqueue_ok|eapply syncTrackedMint_ok|eapply claim_ok|eapply renewLease_ok|eapply saveSnapshot_ok
    |eapply markProcessed_ok|eapply markFailed_ok|eapply recoverExhausted_ok|eapply recoverDecoderQuarantine_ok
    |eapply recordFinalityPoll_ok|eapply enqueueRevision_ok]; eassumption.
Qed.
(** C8: whatever calls the repository is given, in any order, these constraints of its tables hold
    after each: of every row the identity, lease, snapshot, error, retry, processed, timestamps
    (observation, processing, end), terminal, retry policy, manual recovery, finality, hint,
    deferral, catch-up terminal, catch-up classification, admission and decoder quarantine checks;
    the receipts of exactly the finished rows; the bounds of the scheduler.  So of the statements
    of these calls the constraints can refuse two, and the calls then fail and change nothing: the
    update of [enqueue] that would put another hint beside a classification, and that of
    [markProcessed] with a clock behind the date of the observation.  The columns of the first
    processing and of terminal attributions, and [created_at], are not in the rows. *)
Theorem inbox_constraints_kept (Hhex : forall x, is_sha256_hex (sha256_hex x) = true) (calls : list inbox_call) t :
  policy_ok -> inbox_ok t -> inbox_ok (run_calls calls t).
Proof.
  intros Hp. revert t. induction calls as [|c calls IH]; intros t Ht; [done|]. cbn. apply IH. by apply perform_ok.
Qed.

(** * Leases *)

(** Whether a worker holds the lease of a row. *)
Definition held (signature token : string) (t : InboxTables) : bool := is_ok (leasedRow signature token t).
Lemma held_true signature token t :
  held signature token t = true <->
  exists r, ib_rows t !! signature = Some r /\ row_status r = PROCESSING /\ fst <$> wk_lease (ir_work r) = Some token.
Proof. unfold held. rewrite is_ok_true. split; intros (r & Hr); exists r; by apply leasedRow_Ok. Qed.
(** The calls that need a lease, and those that end it. *)
Definition lease_of (c : inbox_call) : option (string * string) :=
  match c with
  | CallRenew _ signature token _ | CallSave _ signature token _ | CallProcessed _ signature token _
  | CallFailed _ signature token _ => Some (signature, token)
  | _ => None
  end.
Definition completes (c : inbox_call) : bool :=
  match c with CallProcessed _ _ _ _ | CallFailed _ _ _ _ => true | _ => false end.
Definition issues (token : string) (c : inbox_call) : bool :=
  match c with CallClaim _ tok _ _ => bool_decide (tok = token) | _ => false end.
(** How often a lease was issued, and how often work under it was completed. *)
Definition issued (token : string) (calls : list inbox_call) : nat := List.length (List.filter (issues token) calls).
Fixpoint completions (signature token : string) (calls : list inbox_call) (t : InboxTables) : nat :=
  match calls with
  | [] => 0
  | c :: calls' =>
      (if bool_decide (lease_of c = Some (signature, token)) && completes c && is_ok (run_call c t) then 1 else 0)
      + completions signature token calls' (perform t c)
  end%nat.

Lemma lease_call_held c signature token t t' :
  run_call c t = Ok t' -> lease_of c = Some (signature, token) -> held signature token t = true.
Proof.
  intros Hc Hl. apply is_ok_true. destruct c; cbn in Hl; try done; injection Hl as -> ->; cbn [run_call] in Hc;
    unfold renewLease, saveSnapshot, markProcessed, markFailed in Hc; result_inv; eauto.
Qed.
Lemma put_held signature token q r t :
  held signature token (put_row q r t) = true ->
  held signature token t = true
  \/ signature = q /\ row_status r = PROCESSING /\ fst <$> wk_lease (ir_work r) = Some token.
Proof.
  rewrite !held_true. cbn. intros (k & Hk & Hs & Hl). apply lookup_insert_Some in Hk as [[<- <-]|[_ Hk]]; [by right|left]. eauto.
Qed.
(** Only a claim gives a lease. *)
Lemma row_held signature token r t :
  ib_rows t !! signature = Some r -> row_status r = PROCESSING -> fst <$> wk_lease (ir_work r) = Some token ->
  held signature token t = true.
Proof. intros. apply held_true. eauto. Qed.
Lemma exhaust_held signature token now clock t :
  held signature token (exhaust_rows now clock t) = true -> held signature token t = true.
Proof.
  unfold exhaust_rows. generalize (select_rows (spent now) (fun _ => 0) MAX_EXHAUSTION_RECONCILIATIONS_PER_CLAIM t).
  intros l. revert t. induction l as [|p l IH]; intros t; cbn; [done|].
  intros [Hh|(_ & Hs & _)]%IH%put_held; [done|]. by unfold row_status in Hs.
Qed.
Lemma enqueue_held active clock n t x t' signature token :
  enqueue policy active clock n t = Ok (x, t') -> held signature token t' = true -> held signature token t = true.
Proof.
  intros Hc Hh. unfold enqueue in Hc. apply bind_Ok in Hc as (? & Hval & Hc). unfold check_stored in Hval.
  apply throw_if_Ok in Hval. unfold valid_notification in Hval. bool_prop. apply bind_Ok in Hc as (programs & _ & Hc).
  destruct (ib_rows t !! nt_signature n) as [r|] eqn:Hl.
  - assert (forall r', t' = put_row (nt_signature n) r' t ->
              wk_lease (ir_work r') = wk_lease (ir_work r) -> (row_status r' = PROCESSING -> row_status r = PROCESSING) ->
              held signature token t = true) as Hput.
    { intros r' -> Hw Hst. apply put_held in Hh as [?|(-> & Hs & Hle)]; [done|]. rewrite Hw in Hle. by eapply row_held; auto. }
    destruct (terminal_classification r && bool_decide (ir_disposition r = _)) eqn:Hcl.
    + unfold note_classified, check_stored, conflict_if in Hc. result_inv. by eapply Hput.
    + apply bind_Ok in Hc as (d & Hd & Hc). apply bind_Ok in Hc as (r' & Hn & Hc).
      apply bind_Ok in Hc as (? & Hk & Hc). apply throw_if_Ok, negb_false_iff in Hk. injection Hc as <- <-.
      assert (dc_status d = PROCESSING -> row_status r = PROCESSING) as Hst.
      { destruct (terminal_classification r).
        - apply stored_decision in Hd as (-> & _). done.
        - apply converge_spec in Hd as [_ Hnx]; [|done]. destruct Hnx as [[<- _]|[[_ ->]|[[-> _] _]]]; done. }
      unfold note_again, check_stored, conflict_if in Hn. apply bind_Ok in Hn as (? & _ & Hn).
      apply bind_Ok in Hn as (sources & _ & Hn). destruct (bool_decide (_ = finalized) && _) in Hn.
      * result_inv. by eapply Hput.
      * result_inv. eapply Hput; [done|done|].
        match goal with |- row_status (requeued_row _ _ _ _ _ _ _ ?b) = _ -> _ => destruct b end; done.
  - apply bind_Ok in Hc as (d & Hd & Hc). apply converge_spec in Hd as [_ Hnx]; [|done].
    destruct (ib_receipts t !! nt_signature n); unfold check_stored in Hc; result_inv; [done|].
    apply put_held in Hh as [?|(_ & Hs & _)]; [done|]. unfold row_status in Hs. cbn in Hs.
    destruct Hnx as [E|[E _]]; congruence.
Qed.
Lemma call_held c t t' signature token :
  run_call c t = Ok t' -> held signature token t' = true -> held signature token t = true \/ issues token c = true.
Proof.
  intros Hc Hh. destruct c; cbn [run_call] in Hc; apply fmap_Ok in Hc as ([x t1] & Hc & ->); cbn [snd] in Hh.
  - left. by eapply enqueue_held.
  - left. unfold syncTrackedMint, check_stored in Hc. result_inv. apply held_true in Hh as (q & Hq & Hs & Hl). cbn in Hq.
    rewrite lookup_fmap in Hq. apply fmap_Some in Hq as (r & Hr & ->). destruct (sync_selected _ _ _); [|by eapply row_held].
    unfold row_status in Hs. cbn in Hs. by destruct (_ || _).
  - unfold claim, check_stored in Hc. result_inv. destruct (claim_choice _ _) as [[q r]|]; result_inv.
    + change (held signature token (put_row q (leased_row nowMs clock token0 (nowMs + leaseSeconds * 1000) r)
               (exhaust_rows nowMs clock t)) = true) in Hh.
      apply put_held in Hh as [Hh|(_ & _ & Hl)]; [left; by eapply exhaust_held|right]. injection Hl as ->.
      by apply bool_decide_eq_true_2.
    + left. by eapply exhaust_held.
  - unfold renewLease in Hc. left. result_inv. apply put_held in Hh as [?|(-> & _ & Hl)]; [done|].
    match goal with H : leasedRow _ _ _ = Ok ?r |- _ => apply leasedRow_Ok in H as (Hr & Hs & Hl') end.
    eapply row_held; [done..|]. cbn in Hl. by destruct (wk_lease (ir_work _)).
  - left. unfold saveSnapshot, check_stored, conflict_if in Hc. result_inv.
    match goal with H : leasedRow _ _ _ = Ok ?r |- _ => apply leasedRow_Ok in H as (Hr & Hs & Hl'); rename r into q end.
    destruct (ir_snapshot q); result_inv; (apply put_held in Hh as [?|(-> & _ & Hl)]; [done|by eapply row_held]).
  - left. unfold markProcessed, check_stored in Hc. result_inv. destruct (ir_snapshot _); [|done]. result_inv.
    assert (forall u, ib_rows u = ib_rows t1 -> held signature token u = true) as Hu.
    { intros u Hu. unfold held, leasedRow in *. by rewrite Hu. }
    assert (exists q r, row_status r = PROCESSED /\ ib_rows t1 = ib_rows (put_row q r t)) as (q & r & Hs & Hrows).
    { destruct (_ || _); [destruct (ib_receipts t !! _); [destruct (bool_decide _)|]|];
        result_inv; (do 2 eexists; split; [|reflexivity]; done). }
    specialize (Hu (put_row q r t) (eq_sym Hrows)). apply put_held in Hu as [?|(_ & E & _)]; [done|congruence].
  - left. unfold markFailed, check_stored in Hc. result_inv. apply put_held in Hh as [?|(_ & E & _)]; done.
  - left. unfold recoverExhausted, check_stored in Hc. result_inv. destruct (ib_rows t !! _); result_inv; [|done].
    destruct (_ && _); result_inv; [done|]. destruct (negb (exhausted_eligible _ _)); result_inv; [done|].
    apply put_held in Hh as [?|(_ & E & _)]; done.
  - left. unfold recoverDecoderQuarantine, check_stored in Hc. result_inv. destruct (ib_rows t !! _) as [r|]; result_inv; [|done].
    destruct (rv_decoderUsed _); result_inv; [done|]. destruct (quarantine_dates _ r) as [[a b]|]; result_inv; [|done].
    destruct (b <=? clock); result_inv; [done|].
    destruct (negb (bool_decide (rv_quarantinedAt (ir_recovery r) = Some a))); result_inv; [done|].
    destruct (ir_snapshot r); result_inv; [|done]. destruct (decodeSnapshot _ _ _ _); result_inv; [|done].
    change (held signature token (put_row signature0 (recovered_row clock (wk_maxAttempts (ir_work r))
              (wk_baseDelayMs (ir_work r)) None true r) t) = true) in Hh.
    apply put_held in Hh as [?|(_ & E & _)]; done.
  - left. unfold recordFinalityPoll, check_stored, conflict_if in Hc. result_inv.
    destruct (ib_rows t !! _) as [r|] eqn:Hr; [|done]. result_inv. apply put_held in Hh as [?|(-> & E & Hl)]; [done|].
    by eapply row_held.
  - left. unfold enqueueRevision, check_stored, conflict_if in Hc. result_inv.
    destruct (ib_rows t !! _) as [r|]; [|done]. destruct (ir_snapshot r); [|done]. result_inv.
    destruct (bool_decide (_ = fn_target _)).
    { destruct (_ || _); result_inv; done. }
    result_inv. destruct (rv_orphaned v); result_inv; (apply put_held in Hh as [?|(_ & E & _)]; done).
Qed.
(** A completed lease is given up. *)
Lemma completion_gives_up c signature token t t' :
  run_call c t = Ok t' -> lease_of c = Some (signature, token) -> completes c = true -> held signature token t' = false.
Proof.
  intros Hc Hl Hk. destruct (held signature token t') eqn:Hh; [exfalso|done].
  destruct c; cbn in Hl, Hk; try done; injection Hl as -> ->; cbn [run_call] in Hc;
    apply fmap_Ok in Hc as ([x t1] & Hc & ->); cbn [snd] in Hh; apply held_true in Hh as (r & Hr & Hs & _).
  - unfold markProcessed, check_stored in Hc. result_inv. destruct (ir_snapshot _); [|done]. result_inv.
    destruct (_ || _); [destruct (ib_receipts t !! _); [destruct (bool_decide _)|]|];
      result_inv; cbn in Hr; rewrite lookup_insert_eq in Hr; injection Hr as <-; done.
  - unfold markFailed, check_stored in Hc. result_inv. cbn in Hr. rewrite lookup_insert_eq in Hr. injection Hr as <-. done.
Qed.
Lemma perform_held t c signature token :
  held signature token (perform t c) = true -> held signature token t = true \/ issues token c = true.
Proof. unfold perform. destruct (run_call c t) eqn:E; [|by left]. by apply call_held. Qed.
Definition as_nat (b : bool) : nat := if b then 1 else 0.
Lemma completions_bound signature token calls t :
  (completions signature token calls t <= as_nat (held signature token t) + issued token calls)%nat.
Proof.
  revert t. induction calls as [|c calls IH]; intros t; cbn [completions]; [unfold issued; cbn; lia|].
  specialize (IH (perform t c)). unfold issued in *. cbn [List.filter].
  pose proof (perform_held t c signature token) as Hh.
  destruct (bool_decide (lease_of c = Some (signature, token)) && completes c && is_ok (run_call c t)) eqn:Hc.
  - rewrite !andb_true_iff in Hc. destruct Hc as [[Hl Hk] Ho]. apply is_ok_true in Ho as [t' Ho]. bool_prop.
    assert (held signature token (perform t c) = false) as Hg
      by (unfold perform; rewrite Ho; by eapply completion_gives_up).
    rewrite Hg in IH. rewrite (lease_call_held _ _ _ _ _ Ho Hl).
    destruct (issues token c); cbn [as_nat List.length] in *; lia.
  - destruct (held signature token (perform t c)); [destruct Hh as [-> | ->]; [done|..]|];
      destruct (issues token c); cbn [as_nat List.length] in *; lia.
Qed.
Lemma not_issued token calls : issued token calls = 0%nat -> forall c, c ∈ calls -> issues token c = false.
Proof.
  unfold issued. intros Hn c Hc. destruct (issues token c) eqn:E; [exfalso|done].
  assert (In c (List.filter (issues token) calls)) as Hi by (apply List.filter_In; by rewrite <- list_elem_of_In).
  by destruct (List.filter _ _).
Qed.
Lemma lost_lease signature token calls t :
  held signature token t = false -> issued token calls = 0%nat -> held signature token (run_calls calls t) = false.
Proof.
  intros Hh Hn. pose proof (not_issued token calls Hn) as Hi. clear Hn. revert t Hh.
  induction calls as [|c calls IH]; intros t Hh; [done|]. cbn. apply IH; [set_solver|].
  destruct (held signature token (perform t c)) eqn:E; [|done]. apply perform_held in E as [E|E]; [congruence|].
  rewrite Hi in E; [done|set_solver].
Qed.
(** C9: a lease is exclusive.  Whatever calls follow, in any order and of any workers, a random
    token that is issued at most once completes the work of a row at most once; and a worker
    that does not hold the lease of a row, since it completed, or another claim took the row
    over, or the row was exhausted, has every call under its token refused from then on. *)
Theorem lease_is_exclusive signature token (calls : list inbox_call) t :
  held signature token t = false ->
  (issued token calls <= 1)%nat ->
  (completions signature token calls t <= 1)%nat
  /\ (issued token calls = 0%nat ->
      forall c, lease_of c = Some (signature, token) -> is_ok (run_call c (run_calls calls t)) = false).
Proof.
  intros Hh Hi. split; [pose proof (completions_bound signature token calls t) as Hb; rewrite Hh in Hb; cbn in Hb; lia|].
  intros Hn c Hc. destruct (run_call c _) as [t'|] eqn:E; [|done].
  apply (lease_call_held _ _ _ _ _ E) in Hc. by rewrite lost_lease in Hc.
Qed.

(** * The scheduler *)

(** The priority of the row that a call claims. *)
Definition served (c : inbox_call) (t : InboxTables) : option TransactionInboxPriority :=
  match c with
  | CallClaim clock token nowMs leaseSeconds =>
      match claim clock token nowMs leaseSeconds t with
      | Ok (Some cl, t') => (fun r => dc_priority (ir_decision r)) <$> ib_rows t' !! cl_signature cl
      | _ => None
      end
  | _ => None
  end.
Fixpoint all_served (calls : list inbox_call) (t : InboxTables) : list TransactionInboxPriority :=
  match calls with
  | [] => []
  | c :: calls' =>
      let later := all_served calls' (perform t c) in
      match served c t with Some p => p :: later | None => later end
  end.
(** Whether a row of a priority can be claimed, at each claim. *)
Definition waits (p : TransactionInboxPriority) (nowMs : Z) (t : InboxTables) : Prop :=
  exists signature r, ib_rows t !! signature = Some r /\ dc_priority (ir_decision r) = p /\ claimable nowMs r = true.
Fixpoint always_waits (p : TransactionInboxPriority) (calls : list inbox_call) (t : InboxTables) : Prop :=
  match calls with
  | [] => True
  | c :: calls' =>
      match c with CallClaim _ _ nowMs _ => waits p nowMs t | _ => True end /\ always_waits p calls' (perform t c)
  end.

Lemma claimable_unspent now r : claimable now r = true -> spent now r = false.
Proof.
  unfold claimable, spent. intros Hc.
  assert (wk_cycle (ir_work r) < wk_maxAttempts (ir_work r)) as Hlt by (destruct (row_status r); bool_prop; done).
  destruct (_ <=? _) eqn:E; [bool_prop; lia|done].
Qed.
Lemma exhaust_keeps now clock t signature r :
  ib_rows t !! signature = Some r -> spent now r = false -> ib_rows (exhaust_rows now clock t) !! signature = Some r.
Proof.
  intros Hl Hs. unfold exhaust_rows.
  assert (forall p, p ∈ select_rows (spent now) (fun _ => 0) MAX_EXHAUSTION_RECONCILIATIONS_PER_CLAIM t -> fst p <> signature) as Hne.
  { intros p [Hp Hsp]%select_elem E. rewrite E, Hl in Hp. injection Hp as Hp. congruence. }
  revert Hl Hne. generalize (select_rows (spent now) (fun _ => 0) MAX_EXHAUSTION_RECONCILIATIONS_PER_CLAIM t) as l. intros l.
  revert t. induction l as [|p l IH]; intros t Hl Hne; [done|]. cbn. apply IH; [|set_solver].
  cbn. rewrite lookup_insert_ne; [done|]. apply Hne. set_solver.
Qed.
Lemma exhaust_counters now clock t :
  ib_urgentClaims (exhaust_rows now clock t) = ib_urgentClaims t
  /\ ib_launchClaims (exhaust_rows now clock t) = ib_launchClaims t.
Proof.
  unfold exhaust_rows. generalize (select_rows (spent now) (fun _ => 0) MAX_EXHAUSTION_RECONCILIATIONS_PER_CLAIM t).
  intros l. generalize t. induction l as [|p l IH]; intros u; cbn; [done|]. exact (IH (put_row (fst p) (exhausted_row clock (snd p)) u)).
Qed.
Lemma candidate_exists now p t signature r :
  ib_rows t !! signature = Some r -> dc_priority (ir_decision r) = p -> claimable now r = true ->
  is_Some (selectClaimCandidate now p t).
Proof.
  intros Hl Hp Hc. unfold selectClaimCandidate, select_rows.
  set (ok := fun r => _). set (l := List.filter _ _).
  assert ((signature, r) ∈ merge_sort (claim_before (claim_rank p)) l) as Hin.
  { rewrite merge_sort_Permutation. apply list_elem_of_In, List.filter_In. split; [by apply list_elem_of_In, elem_of_map_to_list|].
    unfold ok. cbn. by rewrite bool_decide_eq_true_2. }
  destruct (merge_sort _ l); [by apply elem_of_nil in Hin|]. by eexists.
Qed.
(** What a claim that serves a row did. *)
Lemma claim_serves_choice clock token now lease t cl t' :
  claim clock token now lease t = Ok (Some cl, t') ->
  exists r, claim_choice now (exhaust_rows now clock t) = Some (cl_signature cl, r)
    /\ cl_leaseExpiresAtMs cl = now + lease * 1000 /\ cl_leaseToken cl = token
    /\ t' = scheduled (dc_priority (ir_decision r))
              (put_row (cl_signature cl) (leased_row now clock token (now + lease * 1000) r) (exhaust_rows now clock t)).
Proof.
  intros Hc. unfold claim, check_stored in Hc. result_inv. destruct (claim_choice _ _) as [[q r]|] eqn:E; result_inv; [|done].
  unfold claimFromRow, check_stored in *. result_inv. exists r. done.
Qed.
Lemma served_Some c t p :
  served c t = Some p ->
  exists clock token now lease signature r,
    c = CallClaim clock token now lease
    /\ claim_choice now (exhaust_rows now clock t) = Some (signature, r) /\ dc_priority (ir_decision r) = p
    /\ ib_urgentClaims (perform t c) = (if bool_decide (p = PRIORITY_NORMAL) then 0
                                       else Z.min (ib_urgentClaims t + 1) MAX_CONSECUTIVE_URGENT_CLAIMS)
    /\ ib_launchClaims (perform t c) = match p with
                                       | LAUNCH_CANDIDATE => Z.min (ib_launchClaims t + 1) MAX_LAUNCH_CLAIMS_BEFORE_TRACKED
                                       | TRACKED_TRADE => 0
                                       | PRIORITY_NORMAL => ib_launchClaims t
                                       end.
Proof.
  destruct c as [| |clock token now lease| | | | | | | |]; cbn [served]; try done.
  destruct (claim clock token now lease t) as [[[cl|] t']|] eqn:Hc; [|done..]. intros Hs.
  pose proof Hc as (r & Hch & _ & _ & Ht')%claim_serves_choice.
  assert (dc_priority (ir_decision r) = p) as Hp.
  { rewrite Ht' in Hs. cbn in Hs. rewrite lookup_insert_eq in Hs. by injection Hs. }
  exists clock, token, now, lease, (cl_signature cl), r. split; [done|]. split; [done|]. split; [done|].
  unfold perform. cbn [run_call]. rewrite Hc. cbn [fmap result_fmap snd]. rewrite Ht', Hp.
  destruct (exhaust_counters now clock t) as [Hu Hla]. split; [cbn [scheduled ib_urgentClaims put_row set_rows]; by rewrite Hu|].
  cbn [scheduled ib_launchClaims put_row set_rows]. by rewrite Hla.
Qed.
Lemma calls_keep_counters c t t' :
  match c with CallClaim _ _ _ _ => False | _ => True end -> run_call c t = Ok t' ->
  ib_urgentClaims t' = ib_urgentClaims t /\ ib_launchClaims t' = ib_launchClaims t.
Proof.
  intros Hn Hc. destruct c; try (by destruct Hn); cbn [run_call] in Hc; apply fmap_Ok in Hc as ([x t1] & Hc & ->); cbn [snd];
    unfold enqueue, syncTrackedMint, renewLease, saveSnapshot, markProcessed, markFailed, recoverExhausted,
      recoverDecoderQuarantine, recordFinalityPoll, enqueueRevision in Hc;
    repeat first [progress result_inv | match goal with
      | H : match ?x with _ => _ end = Ok (_, _) |- _ => destruct x eqn:?
      | H : (if ?x then _ else _) = Ok (_, _) |- _ => destruct x eqn:?
      | H : (let '(_, _) := ?x in _) = Ok (_, _) |- _ => destruct x eqn:?
      end]; done.
Qed.
Lemma unserved_counters c t :
  served c t = None ->
  ib_urgentClaims (perform t c) = ib_urgentClaims t /\ ib_launchClaims (perform t c) = ib_launchClaims t.
Proof.
  intros Hs. unfold perform. destruct (run_call c t) as [t'|] eqn:Hc; [|done].
  destruct c; try (eapply calls_keep_counters; [|exact Hc]; exact I). cbn [run_call served] in *.
  destruct (claim _ _ _ _ t) as [[[cl|] t1]|] eqn:E; cbn in Hc; [|injection Hc as <-|done].
  - apply claim_serves_choice in E as (r & _ & _ & _ & ->). cbn in Hs. by rewrite lookup_insert_eq in Hs.
  - unfold claim, check_stored in E. result_inv. destruct (claim_choice _ _) as [[q r]|]; result_inv; [done|]. apply exhaust_counters.
Qed.
(** The candidate that the claim takes. *)
Lemma choice_normal now t signature r :
  claim_choice now t = Some (signature, r) -> is_Some (selectClaimCandidate now PRIORITY_NORMAL t) ->
  ib_urgentClaims t = MAX_CONSECUTIVE_URGENT_CLAIMS -> dc_priority (ir_decision r) = PRIORITY_NORMAL.
Proof.
  unfold claim_choice. intros Hc [[q k] Hn] Hu. rewrite Hu, Z.eqb_refl in Hc. cbn [list_find_some] in Hc.
  rewrite Hn in Hc. injection Hc as <- <-. by apply candidate_elem in Hn as (_ & ? & _).
Qed.
Lemma choice_tracked now t signature r :
  claim_choice now t = Some (signature, r) -> is_Some (selectClaimCandidate now TRACKED_TRADE t) ->
  match dc_priority (ir_decision r) with
  | TRACKED_TRADE => True
  | LAUNCH_CANDIDATE => ib_launchClaims t <> MAX_LAUNCH_CLAIMS_BEFORE_TRACKED
  | PRIORITY_NORMAL => ib_urgentClaims t = MAX_CONSECUTIVE_URGENT_CLAIMS
  end.
Proof.
  unfold claim_choice. intros Hc [[q k] Ht].
  destruct (ib_urgentClaims t =? _) eqn:Hu, (ib_launchClaims t =? _) eqn:Hl; bool_prop; cbn [app list_find_some] in Hc;
    rewrite Ht in Hc; repeat match type of Hc with context [selectClaimCandidate now ?p t] =>
      destruct (selectClaimCandidate now p t) as [[??]|] eqn:? end; injection Hc as <- <-;
    repeat match goal with H : selectClaimCandidate _ _ _ = Some _ |- _ => apply candidate_elem in H as (_ & ? & _) end;
    match goal with |- match dc_priority (ir_decision ?k) with _ => _ end =>
      destruct (dc_priority (ir_decision k)); first [exact I | congruence] end.
Qed.
Lemma waits_candidate p now clock t :
  waits p now t -> is_Some (selectClaimCandidate now p (exhaust_rows now clock t)).
Proof.
  intros (signature & r & Hl & Hp & Hc). eapply candidate_exists; [|done..]. apply exhaust_keeps; [done|].
  by apply claimable_unspent.
Qed.
Lemma normal_bound calls t :
  0 <= ib_urgentClaims t <= MAX_CONSECUTIVE_URGENT_CLAIMS -> always_waits PRIORITY_NORMAL calls t ->
  PRIORITY_NORMAL ∉ all_served calls t ->
  Z.of_nat (List.length (all_served calls t)) + ib_urgentClaims t <= MAX_CONSECUTIVE_URGENT_CLAIMS.
Proof.
  revert t. induction calls as [|c calls IH]; intros t Hu Hw Hn; cbn [all_served always_waits] in *; [cbn; lia|].
  destruct Hw as [Hwc Hw]. destruct (served c t) as [p|] eqn:Hs; cbn [List.length] in *.
  - pose proof Hs as (clock & token & now & lease & signature & r & -> & Hch & Hp & Hu' & _)%served_Some.
    apply not_elem_of_cons in Hn as [Hne Hn]. rewrite bool_decide_eq_false_2 in Hu' by done.
    assert (ib_urgentClaims t <> MAX_CONSECUTIVE_URGENT_CLAIMS) as Hlt.
    { intros E. apply Hne. symmetry. rewrite <- Hp. eapply choice_normal; [done|by apply waits_candidate|].
      by rewrite (proj1 (exhaust_counters now clock t)). }
    specialize (IH (perform t (CallClaim clock token now lease))). rewrite Hu' in IH.
    unfold MAX_CONSECUTIVE_URGENT_CLAIMS in *. specialize (IH ltac:(lia) Hw Hn). lia.
  - apply unserved_counters in Hs as [Hu' _]. specialize (IH (perform t c)). rewrite Hu' in IH. by apply IH.
Qed.
(** The claims left before a tracked trade is served. *)
Definition claims_left (t : InboxTables) : Z :=
  (MAX_LAUNCH_CLAIMS_BEFORE_TRACKED - ib_launchClaims t)
  + (if MAX_CONSECUTIVE_URGENT_CLAIMS <=? ib_urgentClaims t + (MAX_LAUNCH_CLAIMS_BEFORE_TRACKED - ib_launchClaims t)
     then 1 else 0).
Lemma tracked_bound calls t :
  0 <= ib_urgentClaims t <= MAX_CONSECUTIVE_URGENT_CLAIMS -> 0 <= ib_launchClaims t <= MAX_LAUNCH_CLAIMS_BEFORE_TRACKED ->
  always_waits TRACKED_TRADE calls t -> TRACKED_TRADE ∉ all_served calls t ->
  Z.of_nat (List.length (all_served calls t)) <= claims_left t.
Proof.
  revert t. induction calls as [|c calls IH]; intros t Hu Hl Hw Hn; cbn [all_served always_waits] in *.
  { unfold claims_left. cbn. destruct (_ <=? _); lia. }
  destruct Hw as [Hwc Hw]. destruct (served c t) as [p|] eqn:Hs; cbn [List.length] in *.
  - pose proof Hs as (clock & token & now & lease & signature & r & -> & Hch & Hp & Hu' & Hl')%served_Some.
    apply not_elem_of_cons in Hn as [Hne Hn].
    pose proof (choice_tracked _ _ _ _ Hch (waits_candidate _ _ clock _ Hwc)) as Ht. rewrite Hp in Ht.
    destruct (exhaust_counters now clock t) as [Eu El]. rewrite ?Eu, ?El in Ht.
    specialize (IH (perform t (CallClaim clock token now lease))). unfold claims_left in *.
    destruct p; [| |done]; [rewrite bool_decide_eq_true_2 in Hu' by done|rewrite bool_decide_eq_false_2 in Hu' by done];
      rewrite Hu', Hl' in IH; unfold MAX_CONSECUTIVE_URGENT_CLAIMS, MAX_LAUNCH_CLAIMS_BEFORE_TRACKED in *;
      specialize (IH ltac:(lia) ltac:(lia) Hw Hn);
      repeat match goal with H : context [?a <=? ?b] |- _ => destruct (Z.leb_spec a b)
             | |- context [?a <=? ?b] => destruct (Z.leb_spec a b) end; lia.
  - apply unserved_counters in Hs as [Hu' Hl']. specialize (IH (perform t c)). unfold claims_left in *. rewrite Hu', Hl' in IH.
    by apply IH.
Qed.
(** C10: the scheduler starves no priority.  However calls follow each other, and however many
    launch candidates arrive, if a normal row can be claimed at every claim then one is served
    after at most 32 claims of urgent rows; and if a tracked trade can be claimed at every claim
    then one is served after at most four claims of other rows. *)
Theorem scheduler_is_fair (calls : list inbox_call) t :
  inbox_ok t ->
  (always_waits PRIORITY_NORMAL calls t -> PRIORITY_NORMAL ∉ all_served calls t ->
   (List.length (all_served calls t) <= 32)%nat)
  /\ (always_waits TRACKED_TRADE calls t -> TRACKED_TRADE ∉ all_served calls t ->
      (List.length (all_served calls t) <= 4)%nat).
Proof.
  intros [_ _ Hu Hl]. split; intros Hw Hn.
  - pose proof (normal_bound calls t Hu Hw Hn) as Hb. unfold MAX_CONSECUTIVE_URGENT_CLAIMS in *. lia.
  - pose proof (tracked_bound calls t Hu Hl Hw Hn) as Hb.
    unfold claims_left, MAX_CONSECUTIVE_URGENT_CLAIMS, MAX_LAUNCH_CLAIMS_BEFORE_TRACKED in *. destruct (_ <=? _); lia.
Qed.

(** * Progress *)

(** Work that is not done: the row waits, or its lease or its delay is over. *)
Definition is_due (now : Z) (r : InboxRow) : bool :=
  let w := ir_work r in
  match row_status r with
  | PENDING => true
  | PROCESSING => at_most (lease_expiry w) now
  | FAILED => is_retryable w && bool_decide (wk_exhaustedAt w = None) && at_most (wk_nextAttemptAt w) now
  | _ => false
  end.
Lemma due_claimable signature now r :
  row_ok signature r -> is_due now r = true -> claimable now r = true \/ spent now r = true.
Proof.
  intros Hr Hd. unfold is_due in Hd. unfold claimable, spent.
  destruct (wk_maxAttempts (ir_work r) <=? wk_cycle (ir_work r)) eqn:Hm; bool_prop.
  - right. destruct (row_status r) eqn:Hs; try done.
    + destruct (ro_policy _ _ Hr) as (_ & _ & _ & _ & Hp). specialize (Hp Hs). lia.
    + destruct (no_retry _ _ Hr) as [He _]; [by rewrite Hs|]. by rewrite He, Hd.
    + rewrite !andb_true_iff in Hd. destruct Hd as [[-> ->] _]. done.
  - left. assert ((wk_cycle (ir_work r) <? wk_maxAttempts (ir_work r)) = true) as -> by (by apply Z.ltb_lt).
    rewrite ?andb_true_r. by destruct (row_status r).
Qed.
Lemma choice_exists now clock t signature r :
  ib_rows t !! signature = Some r -> claimable now r = true -> is_Some (claim_choice now (exhaust_rows now clock t)).
Proof.
  intros Hl Hc. assert (waits (dc_priority (ir_decision r)) now t) as Hw by (exists signature, r; done).
  apply (waits_candidate _ _ clock) in Hw. generalize dependent (exhaust_rows now clock t). intros t1 Hw. unfold claim_choice.
  match goal with |- is_Some (list_find_some _ ?l) => set (order := l) end.
  assert (dc_priority (ir_decision r) ∈ order) as Hin.
  { unfold order. destruct (_ =? _), (_ =? _), (dc_priority (ir_decision r)); cbn; set_solver. }
  clearbody order. induction order as [|p l IH]; [by apply elem_of_nil in Hin|]. cbn.
  destruct (selectClaimCandidate now p _) eqn:E; [by eexists|]. apply IH.
  apply elem_of_cons in Hin as [<-|?]; [|done]. rewrite E in Hw. by destruct Hw.
Qed.
Lemma exhaust_lookup now clock t signature k :
  ib_rows (exhaust_rows now clock t) !! signature = Some k -> claimable now k = true -> ib_rows t !! signature = Some k.
Proof.
  unfold exhaust_rows. generalize (select_rows (spent now) (fun _ => 0) MAX_EXHAUSTION_RECONCILIATIONS_PER_CLAIM t).
  intros l. revert t. induction l as [|p l IH]; intros t; cbn; [done|]. intros Hl Hc. specialize (IH _ Hl Hc). cbn in IH.
  apply lookup_insert_Some in IH as [[_ <-]|[_ ?]]; [|done]. unfold claimable in Hc. cbn in Hc. by rewrite andb_false_r in Hc.
Qed.
(** C11: no work is stuck.  In tables that satisfy the constraints, a claim with valid arguments
    returns; and when the work of some row is due, since the row waits, or its lease or its
    delay is over, the claim serves a row, gives it its lease until the instant asked for, and
    that row could be claimed, unless the due row has used its attempts up. *)
Theorem due_work_is_served clock token now lease t signature r :
  inbox_ok t ->
  inbox_date now = true -> inbox_date (now + lease * 1000) = true -> is_safe_integer lease = true -> 0 < lease ->
  is_empty token = false ->
  (forall q k, ib_rows t !! q = Some k -> wk_attempts (ir_work k) < INT_MAX) ->
  ib_rows t !! signature = Some r -> is_due now r = true ->
  spent now r = true
  \/ exists cl t' k,
      claim clock token now lease t = Ok (Some cl, t')
      /\ ib_rows t !! cl_signature cl = Some k /\ claimable now k = true
      /\ cl_leaseExpiresAtMs cl = now + lease * 1000
      /\ held (cl_signature cl) token t' = true.
Proof.
  intros Ht Hnow Hexp Hsafe Hpos Htok Hatt Hl Hd.
  destruct (due_claimable _ _ _ (io_rows _ Ht _ _ Hl) Hd) as [Hc|?]; [right|by left].
  destruct (choice_exists now clock t signature r Hl Hc) as [[q k] Hch].
  pose proof (choice_elem _ _ _ _ Hch) as [Hk Hck]. pose proof (exhaust_lookup _ _ _ _ _ Hk Hck) as Hk0.
  pose proof (exhaust_rows_ok now clock t Ht) as Ht1. pose proof (io_rows _ Ht1 _ _ Hk) as Hr.
  pose proof (ro_identity _ _ Hr) as (Hq & Hslot & _).
  assert (claimFromRow q token (now + lease * 1000) (leased_row now clock token (now + lease * 1000) k)
          = Ok {| cl_signature := q; cl_slot := ir_slot k; cl_confirmationStatus := fn_target (ir_finality k);
                  cl_attempts := wk_attempts (ir_work k) + 1; cl_leaseToken := token;
                  cl_leaseExpiresAtMs := now + lease * 1000; cl_observedAtMs := ir_observedAt k;
                  cl_normalizedTransaction := fst <$> ir_snapshot k |}) as Hclaim.
  { unfold claimFromRow, check_stored. rewrite !throw_if_skip; [done|..]; apply negb_false_iff.
    - pose proof (ro_observed _ _ Hr) as Ho. cbn. rewrite Htok, Hq, Ho. cbn.
      destruct (ro_policy _ _ Hr) as (_ & _ & ? & ? & _). specialize (Hatt _ _ Hk0).
      unfold safeCount, stored_date, inbox_date, is_safe_integer, MAX_DATE_MS, MAX_SAFE_INTEGER, INT_MAX in *. bool_prop.
      rewrite ?andb_true_iff, ?Z.leb_le. lia.
    - pose proof (ro_decodes _ _ Hr) as Hdec. cbn. by destruct (ir_snapshot k).
    - by apply Z.leb_le. }
  match type of Hclaim with _ = Ok ?c =>
    exists c, (scheduled (dc_priority (ir_decision k))
            (put_row q (leased_row now clock token (now + lease * 1000) k) (exhaust_rows now clock t))), k end.
  split; [|split; [exact Hk0|split; [exact Hck|split; [reflexivity|]]]].
  - unfold claim, check_stored. cbv zeta. rewrite Hch. cbv iota beta. rewrite !throw_if_skip; [rewrite Hclaim; reflexivity|..]; apply negb_false_iff.
    all: destruct (io_urgent _ Ht1), (io_launch _ Ht1).
    all: unfold safeCount, inbox_date, is_safe_integer, MAX_DATE_MS, MAX_SAFE_INTEGER, MAX_CONSECUTIVE_URGENT_CLAIMS,
           MAX_LAUNCH_CLAIMS_BEFORE_TRACKED in *; bool_prop; rewrite ?andb_true_iff, ?Z.leb_le, ?Z.ltb_lt, ?negb_true_iff; try lia.
    done.
  - apply held_true. eexists. cbn. rewrite lookup_insert_eq. done.
Qed.
End Calls.

(** * An example *)

Definition example_policy : TransactionInboxRetryPolicy := {| rp_maxAttempts := 5; rp_baseDelayMs := 500 |}.
Definition example_order : Collation := String.leb.
Definition no_rows : InboxTables :=
  {| ib_rows := ∅; ib_receipts := ∅; ib_urgentClaims := 0; ib_launchClaims := 0; ib_decoderRecoveries := ∅ |}.
Definition example_notification (signature : string) (hint : option TransactionIngestionHint) : TransactionNotification :=
  {| nt_signature := signature; nt_slot := 7; nt_source := WEBSOCKET; nt_ingestionHint := hint;
     nt_ingestionHintMint := None; nt_programIds := ["11111111111111111111111111111111"];
     nt_confirmationStatus := confirmed; nt_observedAtMs := 1000 |}.
Definition example_snapshot : DurableNormalizedTransaction :=
  {| sn_signature := "launch"; sn_slot := 7; sn_confirmationStatus := confirmed; sn_text := "{}" |}.
(** A launch and another transaction arrive; a worker claims the launch and completes it, and
    tries to complete it again. *)
Definition example_calls : list inbox_call :=
  [CallEnqueue (fun _ => false) 1001 (example_notification "other" None);
   CallEnqueue (fun _ => false) 1002 (example_notification "launch" (Some PUMPFUN_CREATE));
   CallClaim 1003 "token" 1003 30;
   CallSave 1004 "launch" "token" example_snapshot;
   CallProcessed 1005 "launch" "token" finalized;
   CallProcessed 1006 "launch" "token" finalized].
Lemma no_rows_ok `{Sha256} : inbox_ok no_rows.
Proof. by constructor. Qed.
Lemma example_policy_ok : policy_ok example_policy.
Proof. by unfold policy_ok. Qed.

Lemma run_digest_hex x : is_sha256_hex (@sha256_hex run_digest x) = true.
Proof. vm_compute. reflexivity. Qed.
Lemma inbox_constraints_kept_witness :
  let S : Sha256 := run_digest in
  let C : Collation := example_order in
  inbox_ok (run_calls example_policy example_calls no_rows)
  /\ (is_finished <$> ib_rows (run_calls example_policy example_calls no_rows) !! "launch") = Some true.
Proof.
  intros S C. split; [|vm_compute; reflexivity].
  apply (inbox_constraints_kept example_policy (fun x => run_digest_hex x)); [apply example_policy_ok|apply no_rows_ok].
Defined.
Lemma lease_is_exclusive_witness :
  let S : Sha256 := run_digest in
  let C : Collation := example_order in
  (completions example_policy "launch" "token" example_calls no_rows <= 1)%nat
  /\ completions example_policy "launch" "token" example_calls no_rows = 1%nat.
Proof.
  intros S C. split; [|vm_compute; reflexivity].
  refine (proj1 (lease_is_exclusive example_policy "launch" "token" example_calls no_rows _ _)); [reflexivity|vm_compute; lia].
Defined.
(** Before the claim of the launch both rows can be claimed. *)
Definition waiting_calls : list inbox_call := firstn 3 example_calls.
Lemma scheduler_is_fair_witness :
  let S : Sha256 := run_digest in
  let C : Collation := example_order in
  all_served example_policy waiting_calls no_rows = [LAUNCH_CANDIDATE]
  /\ (List.length (all_served example_policy waiting_calls no_rows) <= 32)%nat.
Proof.
  intros S C. split; [vm_compute; reflexivity|].
  refine (proj1 (scheduler_is_fair example_policy waiting_calls no_rows no_rows_ok) _ _).
  - cbn [always_waits waiting_calls firstn example_calls]. split; [exact I|]. split; [exact I|]. split; [|exact I].
    exists "other". eexists. do 2 (split; [vm_compute; reflexivity|]). vm_compute. reflexivity.
  - vm_compute. intros Hin. apply elem_of_cons in Hin as [Hin|Hin]; [discriminate Hin|by apply elem_of_nil in Hin].
Defined.
(** Both transactions wait, and a worker asks for work. *)
Lemma due_work_is_served_witness :
  let S : Sha256 := run_digest in
  let C : Collation := example_order in
  let t := run_calls example_policy (firstn 2 example_calls) no_rows in
  exists r,
    ib_rows t !! "other" = Some r
    /\ (spent 1003 r = true
        \/ exists cl t' k,
            claim 1003 "token" 1003 30 t = Ok (Some cl, t') /\ ib_rows t !! cl_signature cl = Some k
            /\ claimable 1003 k = true /\ cl_leaseExpiresAtMs cl = 31003 /\ held (cl_signature cl) "token" t' = true).
Proof.
  intros S C t. eexists. split; [vm_compute; reflexivity|].
  assert (inbox_ok t) as Ht.
  { unfold t. cbn [run_calls firstn example_calls fold_left].
    apply perform_ok; [exact run_digest_hex|exact example_policy_ok|].
    apply perform_ok; [exact run_digest_hex|exact example_policy_ok|]. apply no_rows_ok. }
  assert (map_Forall (fun _ k => wk_attempts (ir_work k) < INT_MAX) (ib_rows t)) as Hatt
    by (apply (bool_decide_eq_true_1 _); vm_compute; reflexivity).
  apply (due_work_is_served 1003 "token" 1003 30 t "other"); try exact Ht; try exact Hatt; vm_compute; reflexivity.
Defined.

(** * A trade that the catch-up classified and a poller meets again *)

(** A deferred trade of the catch-up, and the poller's notification of it. *)
Definition example_mint : string := "So11111111111111111111111111111111111111112".
Definition noticed_trade (source : TransactionDiscoverySource) (hint : TransactionIngestionHint) : TransactionNotification :=
  {| nt_signature := "trade"; nt_slot := 7; nt_source := source; nt_ingestionHint := Some hint;
     nt_ingestionHintMint := Some example_mint; nt_programIds := ["11111111111111111111111111111111"];
     nt_confirmationStatus := confirmed; nt_observedAtMs := 1000 |}.
Definition trade_decision : IngestionDecision :=
  {| dc_status := DEFERRED; dc_priority := PRIORITY_NORMAL; dc_hint := PUMPFUN_TRADE; dc_mint := Some example_mint |}.
Definition classified_trade : InboxRow :=
  let r := inserted_row example_policy 1001 (noticed_trade CATCH_UP PUMPFUN_TRADE) trade_decision in
  {| ir_slot := ir_slot r; ir_sources := ir_sources r; ir_programIds := ir_programIds r;
     ir_observedAt := ir_observedAt r; ir_updatedAt := ir_updatedAt r; ir_admittedAt := ir_admittedAt r;
     ir_snapshot := ir_snapshot r;
     ir_classification :=
       Some {| cc_disposition := AS_DEFERRED; cc_reasonCode := "PUMP_TRADE_UNTRACKED";
               cc_actionKey := "PUMPFUN_TRADE:" +:+ example_mint; cc_mints := [example_mint];
               cc_fingerprint := run_digest "trade"; cc_classifiedAt := 1000; cc_enqueued := false;
               cc_admissionPriority := None |};
     ir_decision := ir_decision r; ir_work := ir_work r; ir_end := ir_end r; ir_finality := ir_finality r;
     ir_recovery := ir_recovery r |}.
(** The row that the poller's notification of the trade would write has the poller's hint beside
    the classification, which the constraint refuses: so the call is refused, while the
    subscription's notification of the same trade is taken. *)
Theorem polled_trade_breaks_classification :
  let S : Sha256 := run_digest in
  let t := put_row "trade" classified_trade no_rows in
  row_ok "trade" classified_trade
  /\ (exists d r', convergeIngestion (Some classified_trade) (noticed_trade CATCH_UP PUMPFUN_CURVE_TRADE) false
                     (ir_programIds classified_trade) = Ok d
        /\ note_again 2000 (noticed_trade CATCH_UP PUMPFUN_CURVE_TRADE) classified_trade None d
             (ir_programIds classified_trade) = Ok r'
        /\ classification_check r' = false)
  /\ enqueue example_policy (fun _ => true) 2000 (noticed_trade CATCH_UP PUMPFUN_CURVE_TRADE) t = Err RepositoryError
  /\ is_ok (enqueue example_policy (fun _ => true) 2000 (noticed_trade WEBSOCKET PUMPFUN_TRADE) t) = true.
Proof.
  intros S t. split; [|split; [|split; vm_compute; reflexivity]].
  - assert (row_ok "trade" (inserted_row example_policy 1001 (noticed_trade CATCH_UP PUMPFUN_TRADE) trade_decision)) as [].
    { apply (inserted_row_ok example_policy 1001 (noticed_trade CATCH_UP PUMPFUN_TRADE) trade_decision);
        [cbn; lia|cbn; lia|reflexivity|cbn; lia|vm_compute; reflexivity|vm_compute; reflexivity| |right; auto].
      constructor; [vm_compute; reflexivity|cbn; split; discriminate|discriminate]. }
    constructor; first [eassumption | vm_compute; reflexivity | idtac].
    left. split; [discriminate|]. split; [discriminate|left; reflexivity].
  - do 2 eexists. do 2 (split; [vm_compute; reflexivity|]). vm_compute. reflexivity.
Qed.
