(* ===== verification/InboxEvidence.v ===== *)
(** The version of the finality evidence of a row ([Inbox]) as an optimistic lock.

    A reader of a processed row holds its version while other calls go on.  Every call that
    changes the evidence of the row, or takes the row out of the processed ones, raises the
    version, and no call lowers it; so a processed row with the version that was read is the
    row that was read. *)
From S2P Require Import Prelude Text Types Chain Json JsonCodec PublicKey CatchUpRun Inbox InboxRows InboxQueue.
From stdpp Require Import gmap sorting.
From Stdlib Require Import Ascii String.
Local Open Scope string_scope.
Local Open Scope list_scope.
Local Open Scope Z_scope.

Definition evidence_version (r : InboxRow) : Z := fn_version (ir_finality r).
(** How a row that was attempted changes. *)
Record moves (r r' : InboxRow) : Prop := {
  mv_slot : ir_slot r' = ir_slot r;
  mv_started : 1 <= wk_attempts (ir_work r');
  mv_version : evidence_version r <= evidence_version r';
  mv_pinned : row_status r = PROCESSED -> is_open_status (fn_target (ir_finality r)) = true ->
              evidence_version r < MAX_FINALITY_EVIDENCE_VERSION -> evidence_version r' = evidence_version r ->
              row_status r' = PROCESSED /\ ir_finality r' = ir_finality r
              /\ en_processedAt (ir_end r') = en_processedAt (ir_end r);
}.
Lemma moves_refl r : 1 <= wk_attempts (ir_work r) -> moves r r.
Proof. by constructor. Qed.
Lemma moves_trans r1 r2 r3 : moves r1 r2 -> moves r2 r3 -> moves r1 r3.
Proof.
  intros [Hs Ha Hv Hp] [Hs' Ha' Hv' Hp']. constructor; [congruence|done|lia|].
  intros E Ho Hm Hx. destruct (Hp E Ho Hm) as (E2 & Hf & He); [lia|].
  destruct Hp' as (E3 & Hf' & He'); [done|by rewrite Hf|lia|lia|]. split; [done|]. split; congruence.
Qed.
(** A row whose version rises, or that was not processed. *)
Lemma moves_up r r' :
  ir_slot r' = ir_slot r -> wk_attempts (ir_work r) <= wk_attempts (ir_work r') -> 1 <= wk_attempts (ir_work r) ->
  evidence_version r < evidence_version r' -> moves r r'.
Proof. constructor; [done|lia|lia|]. intros _ _ _ E. lia. Qed.
Lemma moves_unprocessed r r' :
  ir_slot r' = ir_slot r -> wk_attempts (ir_work r) <= wk_attempts (ir_work r') -> 1 <= wk_attempts (ir_work r) ->
  evidence_version r <= evidence_version r' -> row_status r <> PROCESSED -> moves r r'.
Proof. by constructor; [|lia|lia|]. Qed.

Section Evidence.
Context `{Sha256} `{Collation} (policy : TransactionInboxRetryPolicy).
Implicit Types (t : InboxTables) (signature token : string).

(** The attempted rows of one state of the tables, in a later one. *)
Definition rows_move t t' : Prop :=
  forall signature r, ib_rows t !! signature = Some r -> 1 <= wk_attempts (ir_work r) ->
  exists r', ib_rows t' !! signature = Some r' /\ moves r r'.
Global Instance rows_move_preorder : PreOrder rows_move.
Proof.
  split.
  - intros t s r Hr Ha. exists r. split; [done|by apply moves_refl].
  - intros t1 t2 t3 H1 H2 s r Hr Ha. destruct (H1 s r Hr Ha) as (r2 & Hr2 & Hm).
    destruct (H2 s r2 Hr2 (mv_started _ _ Hm)) as (r3 & Hr3 & Hm'). exists r3. split; [done|by eapply moves_trans].
Qed.
Lemma rows_move_eq t t' : ib_rows t' = ib_rows t -> rows_move t t'.
Proof. intros E s r Hr Ha. exists r. rewrite E. split; [done|by apply moves_refl]. Qed.
Lemma put_moves t signature r r' :
  ib_rows t !! signature = Some r -> (1 <= wk_attempts (ir_work r) -> moves r r') -> rows_move t (put_row signature r' t).
Proof.
  intros Hr Hm s q Hq Ha. cbn. destruct (decide (s = signature)) as [->|Hne].
  - rewrite lookup_insert_eq. exists r'. split; [done|]. simplify_eq. auto.
  - rewrite lookup_insert_ne by done. exists q. split; [done|by apply moves_refl].
Qed.
Lemma insert_moves t signature r' : ib_rows t !! signature = None -> rows_move t (put_row signature r' t).
Proof.
  intros Hr s q Hq Ha. exists q. cbn. split; [|by apply moves_refl]. rewrite lookup_insert_ne; [done|congruence].
Qed.

(** A selection names a row once. *)
Lemma filter_sublist {A} (f : A -> bool) l : List.filter f l `sublist_of` l.
Proof. induction l as [|a l IH]; cbn; [done|]. destruct (f a); by constructor. Qed.
Lemma select_NoDup ok rank limit t : NoDup (select_rows ok rank limit t).*1.
Proof.
  unfold select_rows. rewrite fmap_take. eapply sublist_NoDup; [|apply sublist_take]. rewrite merge_sort_Permutation.
  eapply sublist_NoDup; [apply (NoDup_fst_map_to_list (ib_rows t))|]. apply fmap_sublist, filter_sublist.
Qed.
Lemma exhaust_moves now clock t : rows_move t (exhaust_rows now clock t).
Proof.
  assert (forall l u, NoDup (fst <$> l) -> Forall (fun p => ib_rows u !! fst p = Some (snd p) /\ spent now (snd p) = true) l ->
            rows_move u (fold_left (fun u p => put_row (fst p) (exhausted_row clock (snd p)) u) l u)) as Hfold.
  { induction l as [|p l IH]; intros u Hd Hl; [reflexivity|]. apply Forall_cons in Hl as [[Hp Hs] Hl].
    apply NoDup_cons in Hd as [Hn Hd]. cbn. transitivity (put_row (fst p) (exhausted_row clock (snd p)) u).
    - eapply put_moves; [done|]. intros Ha. apply moves_unprocessed; cbn; try done.
      intros E. unfold spent in Hs. rewrite E, andb_false_r in Hs. done.
    - apply IH; [done|]. apply Forall_forall. intros q Hq. rewrite Forall_forall in Hl. destruct (Hl q Hq).
      split; [|done]. cbn. rewrite lookup_insert_ne; [done|]. intros E. apply Hn. rewrite E. by apply list_elem_of_fmap_2. }
  apply Hfold.
  - apply select_NoDup.
  - apply Forall_forall. intros p Hp%select_elem. done.
Qed.
Lemma pristine_unstarted r : isPristineInbox r = true -> ~ 1 <= wk_attempts (ir_work r).
Proof. unfold isPristineInbox. intros Hp. bool_prop. lia. Qed.
Lemma deferred_unstarted signature r : row_ok signature r -> row_status r = DEFERRED -> ~ 1 <= wk_attempts (ir_work r).
Proof. intros Hr E. destruct (ro_deferred _ _ Hr E) as (_ & _ & [Hp _] & _). by apply pristine_unstarted. Qed.
Lemma enqueue_moves active clock n t x t' : inbox_ok t -> enqueue policy active clock n t = Ok (x, t') -> rows_move t t'.
Proof.
  intros Ht Hc. unfold enqueue in Hc. apply bind_Ok in Hc as (? & Hval & Hc). unfold check_stored in Hval.
  apply throw_if_Ok in Hval. unfold valid_notification in Hval. bool_prop. apply bind_Ok in Hc as (programs & _ & Hc).
  destruct (ib_rows t !! nt_signature n) as [r|] eqn:Hl.
  - pose proof (io_rows _ Ht _ _ Hl) as Hr.
    destruct (terminal_classification r && bool_decide (ir_disposition r = _)) eqn:Hcl.
    + bool_prop. unfold note_classified, check_stored, conflict_if in Hc. result_inv. eapply put_moves; [done|].
      intros Ha. apply moves_unprocessed; try done. intros E. unfold terminal_classification in *. rewrite E in *.
      match goal with H : ir_disposition r = _ |- _ => rewrite H in * end. done.
    + apply bind_Ok in Hc as (d & Hd & Hc). apply bind_Ok in Hc as (r' & Hn & Hc).
      apply bind_Ok in Hc as (? & _ & Hc). injection Hc as <- <-. eapply put_moves; [done|]. intros Ha.
      assert (dc_status d <> DEFERRED) as Hnd.
      { intros E. destruct (terminal_classification r).
        - apply stored_decision in Hd as (-> & _). by eapply deferred_unstarted.
        - apply converge_spec in Hd as [_ Hnx]; [|done].
          destruct Hnx as [[? ?]|[[? _]|[_ [?|[_ Hp]]]]]; [congruence|by eapply deferred_unstarted..|by eapply pristine_unstarted]. }
      unfold note_again, check_stored, conflict_if in Hn. apply bind_Ok in Hn as (? & _ & Hn).
      apply bind_Ok in Hn as (sources & _ & Hn). destruct (bool_decide (_ = finalized) && _) eqn:Hf in Hn.
      * bool_prop. result_inv. constructor; cbn; try done. intros _ Ho. by destruct (fn_target (ir_finality r)).
      * result_inv. apply moves_up; try done. unfold evidence_version. cbn. rewrite bool_decide_eq_false_2 by done. lia.
  - apply bind_Ok in Hc as (d & _ & Hc). destruct (ib_receipts t !! nt_signature n); unfold check_stored in Hc; result_inv.
    + reflexivity.
    + by apply insert_moves.
Qed.
Lemma sync_moves active clock mint t x t' : inbox_ok t -> syncTrackedMint active clock mint t = Ok (x, t') -> rows_move t t'.
Proof.
  intros Ht Hc. unfold syncTrackedMint, check_stored in Hc. result_inv. intros s r Hl Ha. cbn. rewrite lookup_fmap, Hl. cbn.
  eexists. split; [done|]. destruct (sync_selected mint (active mint) r) eqn:Hs; [|by apply moves_refl].
  pose proof (io_rows _ Ht _ _ Hl) as Hr. unfold sync_selected in Hs.
  rewrite !andb_true_iff, !orb_true_iff, !andb_true_iff in Hs.
  assert (Nat.ltb 1 (List.length (ir_programIds r)) = true) as Hseveral.
  { destruct Hs as [[_ _] [[?|[_ E]]|[_ Hp]]]; [done|..]; exfalso.
    - bool_prop. by eapply deferred_unstarted.
    - by eapply pristine_unstarted. }
  apply moves_unprocessed; try done.
  - unfold evidence_version, synced_row. cbn [ir_finality fn_version]. by rewrite Hseveral.
  - intros E. destruct Hs as [[_ [Hs|Hs]] _]; bool_prop; congruence.
Qed.
Lemma call_moves c t t' : inbox_ok t -> run_call policy c t = Ok t' -> rows_move t t'.
Proof.
  intros Ht Hc. destruct c; cbn [run_call] in Hc; apply fmap_Ok in Hc as ([x t1] & Hc & ->); cbn [snd].
  - by eapply enqueue_moves.
  - by eapply sync_moves.
  - unfold claim, check_stored in Hc. result_inv. destruct (claim_choice _ _) as [[q r]|] eqn:Hch; result_inv.
    + transitivity (exhaust_rows nowMs clock t); [apply exhaust_moves|]. apply choice_elem in Hch as [Hl Hb].
      transitivity (put_row q (leased_row nowMs clock token (nowMs + leaseSeconds * 1000) r) (exhaust_rows nowMs clock t));
        [|by apply rows_move_eq].
      eapply put_moves; [done|]. intros Ha. apply moves_unprocessed; cbn; try done; [lia|].
      intros E. unfold claimable in Hb. by rewrite E in Hb.
    + apply exhaust_moves.
  - unfold renewLease in Hc. result_inv.
    match goal with H : leasedRow _ _ _ = Ok _ |- _ => apply leasedRow_Ok in H as (Hl & Hs & _) end.
    eapply put_moves; [done|]. intros Ha. apply moves_unprocessed; try done. congruence.
  - unfold saveSnapshot, check_stored, conflict_if in Hc. result_inv.
    match goal with H : leasedRow _ _ _ = Ok ?r |- _ => apply leasedRow_Ok in H as (Hl & Hs & _); rename r into q end.
    destruct (ir_snapshot q); result_inv; (eapply put_moves; [done|]; intros Ha; apply moves_unprocessed; try done; congruence).
  - unfold markProcessed, check_stored in Hc. result_inv.
    match goal with H : leasedRow _ _ _ = Ok ?r |- _ => apply leasedRow_Ok in H as (Hl & Hs & _); rename r into q end.
    destruct (ir_snapshot q); [|done]. result_inv.
    match goal with H : reconciledStatus _ _ = Ok ?n |- _ => rename n into next end.
    set (last := bool_decide (next = finalized) || bool_decide (next = orphaned)) in *. clearbody last.
    transitivity (put_row signature (processed_row clock next last q) t).
    + eapply put_moves; [done|]. intros Ha. apply moves_unprocessed; try done; [|congruence]. unfold evidence_version. cbn.
      destruct (_ && _); lia.
    + apply rows_move_eq. destruct last; [destruct (ib_receipts t !! signature); [destruct (bool_decide _)|]|]; result_inv; done.
  - unfold markFailed, check_stored in Hc. result_inv.
    match goal with H : leasedRow _ _ _ = Ok ?r |- _ => apply leasedRow_Ok in H as (Hl & Hs & _) end.
    eapply put_moves; [done|]. intros Ha. apply moves_unprocessed; try done. congruence.
  - unfold recoverExhausted, check_stored in Hc. result_inv. destruct (ib_rows t !! signature) as [r|] eqn:Hl; result_inv; [|reflexivity].
    destruct (_ && _); result_inv; [reflexivity|]. destruct (negb (exhausted_eligible clock r)) eqn:He; result_inv; [reflexivity|].
    unfold exhausted_eligible in He. bool_prop. eapply put_moves; [done|]. intros Ha. apply moves_unprocessed; try done. congruence.
  - unfold recoverDecoderQuarantine, check_stored in Hc. result_inv.
    destruct (ib_rows t !! signature) as [r|] eqn:Hl; result_inv; [|reflexivity].
    destruct (rv_decoderUsed _); result_inv; [reflexivity|].
    destruct (quarantine_dates _ r) as [[a b]|] eqn:Hq; result_inv; [|reflexivity].
    destruct (b <=? clock); result_inv; [reflexivity|].
    destruct (negb (bool_decide (rv_quarantinedAt (ir_recovery r) = Some a))); result_inv; [reflexivity|].
    destruct (ir_snapshot r); result_inv; [|reflexivity]. destruct (decodeSnapshot _ _ _ _); result_inv; [|reflexivity].
    unfold quarantine_dates in Hq. destruct (_ && _) eqn:Hf in Hq; [|done]. bool_prop.
    transitivity (put_row signature (recovered_row clock (wk_maxAttempts (ir_work r)) (wk_baseDelayMs (ir_work r)) None true r) t);
      [|by apply rows_move_eq].
    eapply put_moves; [done|]. intros Ha. apply moves_unprocessed; try done. congruence.
  - unfold recordFinalityPoll, check_stored, conflict_if in Hc. result_inv.
    destruct (ib_rows t !! po_signature v) as [r|] eqn:Hl; [|done]. result_inv.
    eapply put_moves; [done|]. intros Ha. apply moves_up; try done. unfold evidence_version. cbn. lia.
  - unfold enqueueRevision, check_stored, conflict_if in Hc. result_inv.
    destruct (ib_rows t !! rv_signature v) as [r|] eqn:Hl; [|done]. pose proof (io_rows _ Ht _ _ Hl) as Hr.
    destruct (ir_snapshot r) as [stored|]; [|done]. result_inv. destruct (bool_decide (_ = fn_target _)).
    { destruct (_ || _); result_inv; reflexivity. }
    result_inv. destruct (rv_orphaned v) as [expected|]; result_inv; (eapply put_moves; [done|]); intros Ha.
    + apply moves_up; try done. unfold evidence_version. cbn. lia.
    + constructor; try done; unfold evidence_version; cbn; destruct (Z.ltb_spec (fn_version (ir_finality r)) MAX_FINALITY_EVIDENCE_VERSION); lia.
Qed.
Lemma perform_moves t c : inbox_ok t -> rows_move t (perform policy t c).
Proof. intros Ht. unfold perform. destruct (run_call policy c t) eqn:Hc; [by eapply call_moves|reflexivity]. Qed.
Lemma run_calls_ok (Hhex : forall x, is_sha256_hex (sha256_hex x) = true) calls t :
  policy_ok policy -> inbox_ok t -> inbox_ok (run_calls policy calls t).
Proof.
  intros Hp. revert t. induction calls as [|c calls IH]; intros t Ht; [done|]. cbn. apply IH. by apply perform_ok.
Qed.
Lemma run_calls_move (Hhex : forall x, is_sha256_hex (sha256_hex x) = true) calls t :
  policy_ok policy -> inbox_ok t -> rows_move t (run_calls policy calls t).
Proof.
  intros Hp. revert t. induction calls as [|c calls IH]; intros t Ht; [reflexivity|]. cbn.
  transitivity (perform policy t c); [by apply perform_moves|]. apply IH. by apply perform_ok.
Qed.
(** The candidate of a row is what the version pins. *)
Lemma moves_candidate signature r r' :
  moves r r' -> row_status r = PROCESSED -> is_open_status (fn_target (ir_finality r)) = true ->
  evidence_version r < MAX_FINALITY_EVIDENCE_VERSION -> evidence_version r' = evidence_version r ->
  row_status r' = PROCESSED /\ finalityCandidateFromRow signature r' = finalityCandidateFromRow signature r.
Proof.
  intros Hm Hs Ho Hv E. destruct (mv_pinned _ _ Hm Hs Ho Hv E) as (Hs' & Hf & He). split; [done|].
  unfold finalityCandidateFromRow. by rewrite He, Hf, (mv_slot _ _ Hm).
Qed.
(** C13: the version of the evidence is an optimistic lock.  After any calls of the repository a
    transaction that was processed and can still change has a row at the same slot whose version
    is not lower; and when the version is the one that was read, and not the last one, the row
    is processed and reads as the same candidate: no poll, revision, replay or reset happened
    unseen in between. *)
Theorem evidence_version_pins (Hhex : forall x, is_sha256_hex (sha256_hex x) = true) (calls : list inbox_call)
    t signature r :
  policy_ok policy -> inbox_ok t -> ib_rows t !! signature = Some r ->
  row_status r = PROCESSED -> is_open_status (fn_target (ir_finality r)) = true ->
  evidence_version r < MAX_FINALITY_EVIDENCE_VERSION ->
  exists r',
    ib_rows (run_calls policy calls t) !! signature = Some r'
    /\ ir_slot r' = ir_slot r /\ evidence_version r <= evidence_version r'
    /\ (evidence_version r' = evidence_version r ->
        row_status r' = PROCESSED /\ finalityCandidateFromRow signature r' = finalityCandidateFromRow signature r).
Proof.
  intros Hp Ht Hl Hs Ho Hv.
  destruct (run_calls_move Hhex calls t Hp Ht signature r Hl) as (r' & Hl' & Hm);
    [apply (ro_started _ _ (io_rows _ Ht _ _ Hl)); auto|].
  exists r'. split; [done|]. split; [apply Hm|]. split; [apply Hm|]. by apply moves_candidate.
Qed.
End Evidence.

(** A launch is processed while it is only confirmed; meanwhile a worker takes other work, fails
    it, and an operator asks for a recovery of the launch. *)
Definition confirmed_calls : list inbox_call :=
  firstn 4 example_calls ++ [CallProcessed 1005 "launch" "token" confirmed].
Definition meanwhile_calls : list inbox_call :=
  [CallClaim 1010 "second" 1010 30;
   CallFailed 1011 "other" "second" {| fl_code := RPC_TRANSIENT; fl_errorName := "Error"; fl_retryable := true |};
   CallRecover 1012 "launch"].
Lemma evidence_version_pins_witness :
  let S : Sha256 := run_digest in
  let C : Collation := example_order in
  let t := run_calls example_policy confirmed_calls no_rows in
  exists r,
    ib_rows t !! "launch" = Some r
    /\ exists r',
        ib_rows (run_calls example_policy meanwhile_calls t) !! "launch" = Some r'
        /\ ir_slot r' = ir_slot r /\ evidence_version r <= evidence_version r'
        /\ (evidence_version r' = evidence_version r ->
            row_status r' = PROCESSED /\ finalityCandidateFromRow "launch" r' = finalityCandidateFromRow "launch" r).
Proof.
  intros S C t. eexists. split; [vm_compute; reflexivity|].
  apply (evidence_version_pins example_policy run_digest_hex meanwhile_calls t "launch").
  - exact example_policy_ok.
  - apply run_calls_ok; [exact run_digest_hex|exact example_policy_ok|apply no_rows_ok].
  - vm_compute. reflexivity.
  - vm_compute. reflexivity.
  - vm_compute. reflexivity.
  - vm_compute. reflexivity.
Defined.
