(* ===== verification/FinalityReconciler.v ===== *)
(** Finality of the processed transactions: [src/src/application/finality-reconciler.ts].

    A pass lists the processed transactions whose finality is open ([Inbox]), asks one provider
    for their statuses and for the finalized root, and records what it learns: a transaction
    that is finalized goes back to the queue for its revision, one that the provider knows or
    misses gets a poll, and one that was missed often enough, at a slot below the root, is
    orphaned when the finalized block of its slot does not contain it.

    The provider, the clock, the faults of the database and the calls that others make to the
    repository between those of the pass are an argument, [FinalityHost], indexed by the number
    of the pass's own calls so far; a theorem for every host covers every interleaving.  The log
    of the world, which no code reads, keeps the calls of the pass that were committed and the
    tables each of them found.  The library [bs58] is the class [Bs58]. *)
From S2P Require Import Prelude Text Types Chain Json JsValue JsReaders PublicKey CatchUpRun CatchUpSource CatchUpScan Inbox InboxRows InboxQueue.
From stdpp Require Import gmap sorting.
From Stdlib Require Import Ascii String.
Local Open Scope string_scope.
Local Open Scope list_scope.
Local Open Scope Z_scope.

(** * Values *)

(** src/src/application/finality-reconciler.ts:18-27 (DEFAULT_FINALITY_MISSING_POLL_THRESHOLD and
    the other constants) *)
Definition DEFAULT_FINALITY_MISSING_POLL_THRESHOLD : Z := 3.
Definition MIN_FINALITY_MISSING_POLL_THRESHOLD : Z := 2.
Definition MAX_FINALITY_RECONCILE_LIMIT : Z := 256.
Definition MAX_FINALITY_BLOCK_SLOTS_PER_RUN : nat := 16.
Definition MAX_FINALIZED_BLOCK_SIGNATURES : Z := 10000.
Definition MAX_CAPABILITY_PROTOTYPE_DEPTH : nat := 16.
Definition MIN_SIGNATURE_LENGTH : Z := 64.
Definition MAX_SIGNATURE_LENGTH : Z := 88.
(** src/src/application/finality-reconciler.ts:29-32 (FinalityHistoryStatus) *)
Record FinalityHistoryStatus := { hs_slot : Z; hs_confirmationStatus : ChainConfirmationStatus }.
(** src/src/application/finality-reconciler.ts:39-43 (FinalityReconcilerOptions): [now] is left out
    ([None]) or given, as a function or not. *)
Record FinalityReconcilerOptions := {
  fo_limit : js;
  fo_missingPollThreshold : js;
  fo_nowIsFunction : option bool;
}.
(** src/src/application/finality-reconciler.ts:45-49 (FinalityReconcileResult) *)
Record FinalityReconcileResult := { fr_candidateCount : Z; fr_pollCount : Z; fr_revisionCount : Z }.
(** src/src/application/finality-reconciler.ts:51-60 (FinalityReconcilerErrorStage) *)
Inductive FinalityReconcilerErrorStage :=
| FINALITY_LIST | FINALITY_PASS | FINALITY_HISTORY | FINALITY_ROOT | FINALITY_POLL | FINALITY_BLOCK
| FINALITY_REVISION | FINALITY_CLOCK | FINALITY_CONTRADICTION.
(** src/src/application/finality-reconciler.ts:70-75 (CapturedFinalityPass): a call returns a value,
    or throws or rejects ([None]). *)
Record CapturedFinalityPass := {
  pa_providerId : RpcProviderId;
  pa_getHistoryStatuses : list string -> option js;
  pa_getFinalizedSlot : option js;
  pa_getFinalizedBlockSignatures : Z -> option js;
}.
(** src/src/application/finality-reconciler.ts:81-84 (FinalityReconciler) *)
Record FinalityReconciler := { rc_limit : Z; rc_missingPollThreshold : Z }.

(** src/src/application/finality-reconciler.ts:557-559 (boundedPositiveInteger) *)
Definition boundedPositiveInteger (v : js) (maximum : Z) : option Z :=
  match v with
  | JNumber (NumInt z) => if is_safe_integer z && (0 <? z) && (z <=? maximum) then Some z else None
  | _ => None
  end.
(** src/src/application/finality-reconciler.ts:86-106 (FinalityReconciler.constructor) *)
Definition new_FinalityReconciler (options : FinalityReconcilerOptions) : option FinalityReconciler :=
  limit ← boundedPositiveInteger (fo_limit options) MAX_FINALITY_RECONCILE_LIMIT;
  threshold ← match fo_missingPollThreshold options with
              | JUndefined | JNull => Some DEFAULT_FINALITY_MISSING_POLL_THRESHOLD
              | v => z ← safe_integer_value v; if z <? MIN_FINALITY_MISSING_POLL_THRESHOLD then None else Some z
              end;
  if bool_decide (fo_nowIsFunction options = Some false) then None
  else Some {| rc_limit := limit; rc_missingPollThreshold := threshold |}.

(** * Reading untyped values *)

(** src/src/application/finality-reconciler.ts:514-520 (ownEnumerableDataProperty) *)
Definition ownEnumerableDataProperty (props : list (js_key * (bool * option js))) (key : string) : option js :=
  descriptor_value (own_property props key).
(** src/src/application/finality-reconciler.ts:361-396 (snapshotDenseArray) *)
Definition snapshotDenseArray {A} (v : js) (acceptsLength : Z -> bool) (snapshotItem : js -> option A)
    : option (list A) :=
  match v with
  | JArray _ true _ items =>
      if acceptsLength (Z.of_nat (List.length items))
      then mapM (fun item => x ← descriptor_value item; snapshotItem x) items else None
  | _ => None
  end.
(** src/src/domain/transaction-ingestion.ts:1072-1093 (assertSlot, assertMilliseconds, assertCount) *)
Definition slot_value (v : js) : option Z :=
  match v with JBigInt z => if 0 <=? z then Some z else None | _ => None end.
Definition count_value (v : js) : option Z :=
  match v with JNumber (NumInt z) => if safeCount z then Some z else None | _ => None end.
(** src/src/domain/transaction-ingestion.ts:1116-1122 (assertFinalityEvidenceVersion) *)
Definition version_value (v : js) : option Z :=
  match v with JBigInt z => if version_ok z then Some z else None | _ => None end.
(** The statuses of a candidate. *)
Definition OPEN_STATUSES : list (string * ChainConfirmationStatus) := [("processed", processed); ("confirmed", confirmed)].
(** src/src/application/finality-reconciler.ts:398-414 (snapshotCandidate) with
    [assertValidFinalityCandidate]. *)
Definition snapshotCandidate (v : js) : option FinalityCandidate :=
  match v with
  | JObject _ _ _ props =>
      signature ← ownEnumerableDataProperty props "signature";
      slot ← ownEnumerableDataProperty props "slot";
      confirmationStatus ← ownEnumerableDataProperty props "confirmationStatus";
      missingFinalityPolls ← ownEnumerableDataProperty props "missingFinalityPolls";
      lastMissingFinalityProviderId ← ownEnumerableDataProperty props "lastMissingFinalityProviderId";
      finalityEvidenceVersion ← ownEnumerableDataProperty props "finalityEvidenceVersion";
      processedAtMs ← ownEnumerableDataProperty props "processedAtMs";
      signature ← match signature with JString s => if is_empty s then None else Some s | _ => None end;
      slot ← slot_value slot;
      confirmationStatus ← enumValue OPEN_STATUSES confirmationStatus;
      missingFinalityPolls ← count_value missingFinalityPolls;
      provider ← (if missingFinalityPolls =? 0
                  then match lastMissingFinalityProviderId with JNull => Some None | _ => None end
                  else Some <$> providerIdFrom lastMissingFinalityProviderId);
      version ← version_value finalityEvidenceVersion;
      processedAtMs ← count_value processedAtMs;
      Some {| fc_signature := signature; fc_slot := slot; fc_confirmationStatus := confirmationStatus;
              fc_missingFinalityPolls := missingFinalityPolls; fc_lastMissingFinalityProviderId := provider;
              fc_finalityEvidenceVersion := version; fc_processedAtMs := processedAtMs |}
  | _ => None
  end.
(** The frozen object that the repository returns for a candidate. *)
Definition candidate_object (c : FinalityCandidate) : js :=
  frozen_object ObjectPrototype
    [("signature", JString (fc_signature c)); ("slot", JBigInt (fc_slot c));
     ("confirmationStatus", JString (name_in OPEN_STATUSES (fc_confirmationStatus c)));
     ("missingFinalityPolls", JNumber (NumInt (fc_missingFinalityPolls c)));
     ("lastMissingFinalityProviderId",
      nullable_value (fun p => JString (provider_name p)) (fc_lastMissingFinalityProviderId c));
     ("finalityEvidenceVersion", JBigInt (fc_finalityEvidenceVersion c));
     ("processedAtMs", JNumber (NumInt (fc_processedAtMs c)))].
(** src/src/application/finality-reconciler.ts:452-464 (snapshotStatus) *)
Definition snapshotStatus (v : js) : option (option FinalityHistoryStatus) :=
  match v with
  | JNull => Some None
  | JObject _ _ _ props =>
      slot ← ownEnumerableDataProperty props "slot";
      confirmationStatus ← ownEnumerableDataProperty props "confirmationStatus";
      slot ← slot_value slot;
      confirmationStatus ← confirmationStatusFrom confirmationStatus;
      Some (Some {| hs_slot := slot; hs_confirmationStatus := confirmationStatus |})
  | _ => None
  end.
(** src/src/application/finality-reconciler.ts:346-359 (snapshotStatuses) *)
Definition snapshotStatuses (v : js) (expectedLength : Z)
    : result FinalityReconcilerErrorStage (list (option FinalityHistoryStatus)) :=
  match snapshotDenseArray v (fun length => length =? expectedLength) snapshotStatus with
  | Some statuses => Ok statuses
  | None => Err FINALITY_HISTORY
  end.

(** [bs58], which may throw. *)
Class Bs58 := { bs58_decode : string -> option (list Z); bs58_encode : list Z -> string }.
(** src/src/application/finality-reconciler.ts:481-492 (canonicalSignature) *)
Definition canonicalSignature `{Bs58} (v : js) : option string :=
  match v with
  | JString s =>
      if (utf16_length s <? MIN_SIGNATURE_LENGTH) || (MAX_SIGNATURE_LENGTH <? utf16_length s)
         || negb (forallb (fun c => match BASE58_VALUES c with Some _ => true | None => false end) (chars s))
      then None
      else decoded ← bs58_decode s;
           if Nat.eqb (List.length decoded) 64 && bool_decide (bs58_encode decoded = s) then Some s else None
  | _ => None
  end.
(** src/src/application/finality-reconciler.ts:466-479 (snapshotBlockSignatures): an entry that was
    seen before throws too. *)
Definition snapshotBlockSignatures `{Bs58} (v : js) : option (list string) :=
  entries ← snapshotDenseArray v (fun length => length <=? MAX_FINALIZED_BLOCK_SIGNATURES) canonicalSignature;
  if all_distinct entries then Some entries else None.
(** src/src/application/finality-reconciler.ts:526-531 (finalizedSlot) *)
Definition finalizedSlot (v : js) : result FinalityReconcilerErrorStage Z :=
  match slot_value v with Some z => Ok z | None => Err FINALITY_ROOT end.
(** src/src/application/finality-reconciler.ts:533-547 (assertConsistentHistory) *)
Fixpoint assertConsistentHistory (candidates : list FinalityCandidate)
    (statuses : list (option FinalityHistoryStatus)) (finalizedRoot : Z)
    : result FinalityReconcilerErrorStage unit :=
  match candidates, statuses with
  | [], _ => Ok tt
  | _ :: _, [] => Err FINALITY_HISTORY
  | candidate :: candidates', status :: statuses' =>
      throw_if (match status with
                | None => false
                | Some s =>
                    negb (hs_slot s =? fc_slot candidate)
                    || (bool_decide (hs_confirmationStatus s = finalized) && (finalizedRoot <? fc_slot candidate))
                end) FINALITY_CONTRADICTION ;;
      assertConsistentHistory candidates' statuses' finalizedRoot
  end.

(** * The provider *)

(** A member of an object: a value or a function.  An object is its own members, by name, an
    accessor being [None], followed by those of its prototypes. *)
Inductive member := MemberValue (v : js) | MemberFunction (f : list js -> option js).
Definition capability := list (list (string * option member)).
Fixpoint own_member (members : list (string * option member)) (key : string) : option (option member) :=
  match members with
  | [] => None
  | (k, m) :: members' => if bool_decide (k = key) then Some m else own_member members' key
  end.
(** src/src/application/finality-reconciler.ts:500-512 (dataValue) *)
Fixpoint data_value (depth : nat) (object : capability) (key : string) : option member :=
  match depth, object with
  | S depth', current :: prototypes =>
      match own_member current key with
      | Some descriptor => descriptor
      | None => data_value depth' prototypes key
      end
  | _, _ => None
  end.
Definition dataValue (object : capability) (key : string) : option member :=
  data_value MAX_CAPABILITY_PROTOTYPE_DEPTH object key.
(** src/src/application/finality-reconciler.ts:494-498 (dataMethod) *)
Definition dataMethod (object : capability) (key : string) : option (list js -> option js) :=
  match dataValue object key with Some (MemberFunction f) => Some f | _ => None end.
(** src/src/application/finality-reconciler.ts:314-344 (capturePass): [opened] is what the source's
    [openPass] returns, [None] when the source has no such method, the method throws, or its
    result is no object. *)
Definition capturePass (opened : option capability) : result FinalityReconcilerErrorStage CapturedFinalityPass :=
  match
    pass ← opened;
    providerId ← match dataValue pass "providerId" with Some (MemberValue v) => providerIdFrom v | _ => None end;
    history ← dataMethod pass "getHistoryStatuses";
    root ← dataMethod pass "getFinalizedSlot";
    block ← dataMethod pass "getFinalizedBlockSignatures";
    Some {| pa_providerId := providerId;
            pa_getHistoryStatuses := fun signatures => history [frozen_array (map JString signatures)];
            pa_getFinalizedSlot := root [];
            pa_getFinalizedBlockSignatures := fun slot => block [JBigInt slot] |}
  with
  | Some pass => Ok pass
  | None => Err FINALITY_PASS
  end.
(** src/src/application/finality-reconciler.ts:194-203 (readHistory) *)
Definition readHistory (pass : CapturedFinalityPass) (signatures : list string)
    : result FinalityReconcilerErrorStage js :=
  match pa_getHistoryStatuses pass signatures with Some v => Ok v | None => Err FINALITY_HISTORY end.
(** src/src/application/finality-reconciler.ts:205-211 (readRoot) *)
Definition readRoot (pass : CapturedFinalityPass) : result FinalityReconcilerErrorStage js :=
  match pa_getFinalizedSlot pass with Some v => Ok v | None => Err FINALITY_ROOT end.
(** src/src/application/finality-reconciler.ts:213-223 (readBlock) *)
Definition readBlock `{Bs58} (pass : CapturedFinalityPass) (slot : Z)
    : result FinalityReconcilerErrorStage (list string) :=
  match v ← pa_getFinalizedBlockSignatures pass slot; snapshotBlockSignatures v with
  | Some signatures => Ok signatures
  | None => Err FINALITY_BLOCK
  end.
(** src/src/application/finality-reconciler.ts:301-311 (readNow) *)
Definition readNow (now : option js) : result FinalityReconcilerErrorStage Z :=
  match v ← now; count_value v with Some ms => Ok ms | None => Err FINALITY_CLOCK end.

(** * The pass *)

(** What is outside: the answer of [openPass], the clock, and, for the n-th call of the pass to
    the repository, its faults, the clock of the database and the calls that others make before
    it. *)
Record FinalityHost := {
  fh_openPass : option capability;
  fh_now : option js;
  fh_fault : nat -> Fault;
  fh_clock : nat -> Z;
  fh_others : nat -> list inbox_call;
}.
Record finality_world := {
  fw_tables : InboxTables;
  fw_calls : nat;
  fw_log : list (InboxTables * inbox_call);
}.
Definition finality (A : Type) : Type := prog finality_world FinalityReconcilerErrorStage A.
(** [try { m } catch { throw new FinalityReconcilerError(stage) }] *)
Definition at_stage {A} (stage : FinalityReconcilerErrorStage) (m : prog finality_world unit A) : finality A := fun w =>
  match m w with
  | (Ok a, w') => (Ok a, w')
  | (Err _, w') => (Err stage, w')
  end.
Definition or_throw {A} (o : option A) : prog finality_world unit A :=
  lift (match o with Some a => Ok a | None => Err tt end).
Definition require (b : bool) : prog finality_world unit unit := lift (throw_if (negb b) tt).

(** src/src/application/finality-reconciler.ts:416-450 (assertPollTransition) *)
Definition assertPollTransition (before : FinalityCandidate) (observed : option ChainConfirmationStatus)
    (providerId : RpcProviderId) (expectedVersion : Z) (after : FinalityCandidate) : bool :=
  bool_decide (fc_signature after = fc_signature before) && (fc_slot after =? fc_slot before)
  && (fc_processedAtMs after =? fc_processedAtMs before) && (fc_finalityEvidenceVersion after =? expectedVersion)
  && match observed with
     | None =>
         let expectedMissing := if bool_decide (fc_lastMissingFinalityProviderId before = Some providerId)
                                then fc_missingFinalityPolls before + 1 else 1 in
         is_safe_integer expectedMissing
         && bool_decide (fc_confirmationStatus after = fc_confirmationStatus before)
         && (fc_missingFinalityPolls after =? expectedMissing)
         && bool_decide (fc_lastMissingFinalityProviderId after = Some providerId)
     | Some status =>
         let expectedStatus := if bool_decide (fc_confirmationStatus before = confirmed) || bool_decide (status = confirmed)
                               then confirmed else processed in
         bool_decide (fc_confirmationStatus after = expectedStatus) && (fc_missingFinalityPolls after =? 0)
         && bool_decide (fc_lastMissingFinalityProviderId after = None)
     end.
(** src/src/application/finality-reconciler.ts:147-150 (runOnce): [eligibleBySlot], which keeps the
    order in which slots were met. *)
Fixpoint push_eligible (candidate : FinalityCandidate) (bySlot : list (Z * list FinalityCandidate))
    : list (Z * list FinalityCandidate) :=
  match bySlot with
  | [] => [(fc_slot candidate, [candidate])]
  | (slot, group) :: rest =>
      if slot =? fc_slot candidate then (slot, group ++ [candidate]) :: rest
      else (slot, group) :: push_eligible candidate rest
  end.
(** The variables of the first loop. *)
Record poll_state := {
  ps_pollCount : Z;
  ps_revisionCount : Z;
  ps_eligibleBySlot : list (Z * list FinalityCandidate);
}.

Section Pass.
Context `{Sha256} `{Collation} `{Bs58} (policy : TransactionInboxRetryPolicy) (host : FinalityHost)
  (reconciler : FinalityReconciler).

(** A call of the repository: what others did before it, the transaction and the faults around
    it.  [call] is its entry of the log when it writes. *)
Definition store_call {A} (call : option inbox_call) (f : tx A) : prog finality_world unit A := fun w =>
  let n := fw_calls w in
  let t := run_calls policy (fh_others host n) (fw_tables w) in
  let after t' log := {| fw_tables := t'; fw_calls := S n; fw_log := log |} in
  let committed := match call with Some c => fw_log w ++ [(t, c)] | None => fw_log w end in
  match fh_fault host n with
  | FaultBefore => (Err tt, after t (fw_log w))
  | NoFault => match f t with
               | Err _ => (Err tt, after t (fw_log w))
               | Ok (a, t') => (Ok a, after t' committed)
               end
  | FaultAfter => match f t with
                  | Err _ => (Err tt, after t (fw_log w))
                  | Ok (_, t') => (Err tt, after t' committed)
                  end
  end.
(** [CURRENT_TIMESTAMP] of the next call. *)
Definition store_clock : prog finality_world unit Z := fun w => (Ok (fh_clock host (fw_calls w)), w).

(** src/src/application/finality-reconciler.ts:181-192 (readCandidates) *)
Definition readCandidates : finality (list FinalityCandidate) :=
  at_stage FINALITY_LIST
    (values <-- store_call None (listForFinality (rc_limit reconciler));
     or_throw (snapshotDenseArray (frozen_array (map candidate_object values))
                 (fun length => length <=? rc_limit reconciler) snapshotCandidate)).
(** src/src/application/finality-reconciler.ts:242-250 (recordPoll): the observation. *)
Definition poll_observation (candidate : FinalityCandidate) (confirmationStatus : option ChainConfirmationStatus)
    (providerId : RpcProviderId) (observedAtMs : Z) : FinalityPollObservation :=
  {| po_signature := fc_signature candidate; po_confirmationStatus := confirmationStatus;
     po_providerId := providerId; po_expectedMissingFinalityPolls := fc_missingFinalityPolls candidate;
     po_expectedLastMissingFinalityProviderId := fc_lastMissingFinalityProviderId candidate;
     po_expectedFinalityEvidenceVersion := fc_finalityEvidenceVersion candidate; po_observedAtMs := observedAtMs |}.
(** src/src/application/finality-reconciler.ts:225-259 (recordPoll) *)
Definition recordPoll (candidate : FinalityCandidate) (confirmationStatus : option ChainConfirmationStatus)
    (providerId : RpcProviderId) (observedAtMs : Z) : finality FinalityCandidate :=
  at_stage FINALITY_POLL
    (let expectedVersion := fc_finalityEvidenceVersion candidate + 1 in
     require (negb ((MAX_FINALITY_EVIDENCE_VERSION <=? fc_finalityEvidenceVersion candidate)
                    || (MAX_FINALITY_EVIDENCE_VERSION <? expectedVersion))) >>>
     require (negb (bool_decide (confirmationStatus = None)
                    && bool_decide (fc_lastMissingFinalityProviderId candidate = Some providerId)
                    && negb (is_safe_integer (fc_missingFinalityPolls candidate + 1)))) >>>
     let observation := poll_observation candidate confirmationStatus providerId observedAtMs in
     require (valid_poll observation) >>>
     clock <-- store_clock;
     rawUpdated <-- store_call (Some (CallPoll clock observation)) (recordFinalityPoll clock observation);
     updated <-- or_throw (snapshotCandidate (candidate_object rawUpdated));
     require (assertPollTransition candidate confirmationStatus providerId expectedVersion updated) >>>
     pret updated).
(** src/src/application/finality-reconciler.ts:261-276 (enqueueFinalizedRevision) *)
Definition enqueueFinalizedRevision (signature : string) (observedAtMs : Z) : finality unit :=
  at_stage FINALITY_REVISION
    (let revision := {| rv_signature := signature; rv_orphaned := None; rv_observedAtMs := observedAtMs |} in
     require (valid_revision revision) >>>
     store_call (Some (CallRevise revision)) (enqueueRevision revision)).
(** src/src/application/finality-reconciler.ts:278-299 (enqueueOrphanedRevision) *)
Definition enqueueOrphanedRevision (candidate : FinalityCandidate) (observedAtMs : Z) : finality unit :=
  at_stage FINALITY_REVISION
    (providerId <-- or_throw (fc_lastMissingFinalityProviderId candidate);
     let revision :=
       {| rv_signature := fc_signature candidate;
          rv_orphaned := Some (fc_confirmationStatus candidate, fc_missingFinalityPolls candidate, providerId,
                               fc_finalityEvidenceVersion candidate);
          rv_observedAtMs := observedAtMs |} in
     require (valid_revision revision) >>>
     store_call (Some (CallRevise revision)) (enqueueRevision revision)).

(** src/src/application/finality-reconciler.ts:121-151 (runOnce): the loop over the candidates. *)
Fixpoint poll_loop (pass : CapturedFinalityPass) (finalizedRoot observedAtMs : Z)
    (candidates : list FinalityCandidate) (statuses : list (option FinalityHistoryStatus)) (st : poll_state)
    : finality poll_state :=
  match candidates, statuses with
  | [], _ => pret st
  | _ :: _, [] => pthrow FINALITY_HISTORY
  | candidate :: candidates', status :: statuses' =>
      let confirmationStatus := hs_confirmationStatus <$> status in
      if bool_decide (confirmationStatus = Some finalized) then
        enqueueFinalizedRevision (fc_signature candidate) observedAtMs >>>
        poll_loop pass finalizedRoot observedAtMs candidates' statuses'
          {| ps_pollCount := ps_pollCount st; ps_revisionCount := ps_revisionCount st + 1;
             ps_eligibleBySlot := ps_eligibleBySlot st |}
      else
        polled <-- recordPoll candidate confirmationStatus (pa_providerId pass) observedAtMs;
        let skipped := negb (bool_decide (confirmationStatus = None))
                       || (fc_missingFinalityPolls polled <? rc_missingPollThreshold reconciler)
                       || negb (bool_decide (fc_lastMissingFinalityProviderId polled = Some (pa_providerId pass)))
                       || (finalizedRoot <=? fc_slot polled) in
        poll_loop pass finalizedRoot observedAtMs candidates' statuses'
          {| ps_pollCount := ps_pollCount st + 1; ps_revisionCount := ps_revisionCount st;
             ps_eligibleBySlot := if skipped then ps_eligibleBySlot st
                                  else push_eligible polled (ps_eligibleBySlot st) |}
  end.
(** src/src/application/finality-reconciler.ts:172-175 (runOnce): the revisions of one slot. *)
Fixpoint orphan_group (observedAtMs : Z) (eligible : list FinalityCandidate) (revisionCount : Z) : finality Z :=
  match eligible with
  | [] => pret revisionCount
  | candidate :: rest =>
      enqueueOrphanedRevision candidate observedAtMs >>> orphan_group observedAtMs rest (revisionCount + 1)
  end.
(** src/src/application/finality-reconciler.ts:153-176 (runOnce): the loop over the slots. *)
Fixpoint block_loop (pass : CapturedFinalityPass) (observedAtMs : Z) (groups : list (Z * list FinalityCandidate))
    (blockSlotCount : nat) (firstBlockFailure : option FinalityReconcilerErrorStage) (revisionCount : Z)
    : finality (option FinalityReconcilerErrorStage * Z) :=
  match groups with
  | [] => pret (firstBlockFailure, revisionCount)
  | (slot, eligible) :: rest =>
      if Nat.leb MAX_FINALITY_BLOCK_SLOTS_PER_RUN blockSlotCount then pret (firstBlockFailure, revisionCount)
      else match readBlock pass slot with
           | Err stage => block_loop pass observedAtMs rest (S blockSlotCount)
                            (Some (default stage firstBlockFailure)) revisionCount
           | Ok signaturesInBlock =>
               if existsb (fun candidate => includes (fc_signature candidate) signaturesInBlock) eligible
               then pthrow FINALITY_CONTRADICTION
               else revisionCount' <-- orphan_group observedAtMs eligible revisionCount;
                    block_loop pass observedAtMs rest (S blockSlotCount) firstBlockFailure revisionCount'
           end
  end.
(** src/src/application/finality-reconciler.ts:108-179 (runOnce) *)
Definition runOnce : finality FinalityReconcileResult :=
  candidates <-- readCandidates;
  match candidates with
  | [] => pret {| fr_candidateCount := 0; fr_pollCount := 0; fr_revisionCount := 0 |}
  | _ =>
      pass <-- lift (capturePass (fh_openPass host));
      rawStatuses <-- lift (readHistory pass (map fc_signature candidates));
      statuses <-- lift (snapshotStatuses rawStatuses (Z.of_nat (List.length candidates)));
      rawRoot <-- lift (readRoot pass);
      finalizedRoot <-- lift (finalizedSlot rawRoot);
      lift (assertConsistentHistory candidates statuses finalizedRoot) >>>
      observedAtMs <-- lift (readNow (fh_now host));
      st <-- poll_loop pass finalizedRoot observedAtMs candidates statuses
               {| ps_pollCount := 0; ps_revisionCount := 0; ps_eligibleBySlot := [] |};
      ends <-- block_loop pass observedAtMs (ps_eligibleBySlot st) 0 None (ps_revisionCount st);
      match fst ends with
      | Some failure => pthrow failure
      | None => pret {| fr_candidateCount := Z.of_nat (List.length candidates); fr_pollCount := ps_pollCount st;
                        fr_revisionCount := snd ends |}
      end
  end.
End Pass.
