(* ===== verification/FinalityProperties.v ===== *)
(** What the finality pass promises ([FinalityReconciler]).

    A poll that the repository committed is accepted by the pass, whatever others did since the
    candidate was listed.  A transaction is orphaned only on evidence.  Without interference the
    pass ends and leaves every candidate as its status says. *)
From S2P Require Import Prelude Text Types Chain Json JsValue JsReaders JsonCodec PublicKey CatchUpRun CatchUpSource CatchUpScan Inbox InboxRows InboxQueue InboxEvidence FinalityReconciler.
From stdpp Require Import gmap sorting.
From Stdlib Require Import Ascii String.
Local Open Scope string_scope.
Local Open Scope list_scope.
Local Open Scope Z_scope.

(** * Candidates *)

Record candidate_ok (c : FinalityCandidate) : Prop := {
  co_signature : is_empty (fc_signature c) = false;
  co_slot : 0 <= fc_slot c;
  co_status : is_open_status (fc_confirmationStatus c) = true;
  co_polls : safeCount (fc_missingFinalityPolls c) = true;
  co_provider : provider_correlates (fc_missingFinalityPolls c) (fc_lastMissingFinalityProviderId c) = true;
  co_version : version_ok (fc_finalityEvidenceVersion c) = true;
  co_processedAt : stored_date (fc_processedAtMs c) = true;
}.
Lemma candidate_of_row signature r c :
  finalityCandidateFromRow signature r = Ok c ->
  candidate_ok c /\ fc_signature c = signature /\ fc_slot c = ir_slot r
  /\ en_processedAt (ir_end r) = Some (fc_processedAtMs c).
Proof.
  unfold finalityCandidateFromRow, check_stored. destruct (en_processedAt (ir_end r)); [|done]. intros Hc. result_inv.
  bool_prop. by repeat constructor.
Qed.
(** The pass reads a candidate back as the repository returned it. *)
Lemma candidate_round_trip c : candidate_ok c -> snapshotCandidate (candidate_object c) = Some c.
Proof.
  intros [Hs Hl Ho Hp Hc Hv Ha]. destruct c as [signature slot status polls provider version processedAt]. cbn in *.
  unfold snapshotCandidate, candidate_object, frozen_object. cbn [fc_signature fc_slot fc_confirmationStatus
    fc_missingFinalityPolls fc_lastMissingFinalityProviderId fc_finalityEvidenceVersion fc_processedAtMs].
  match goal with |- context [ownEnumerableDataProperty ?l "signature"] => set (props := l) end. change (stored_date processedAt) with (safeCount processedAt) in Ha. apply Z.leb_le in Hl.
  change (ownEnumerableDataProperty props "signature") with (Some (JString signature)).
  change (ownEnumerableDataProperty props "slot") with (Some (JBigInt slot)).
  change (ownEnumerableDataProperty props "confirmationStatus") with (Some (JString (name_in OPEN_STATUSES status))).
  change (ownEnumerableDataProperty props "missingFinalityPolls") with (Some (JNumber (NumInt polls))).
  change (ownEnumerableDataProperty props "lastMissingFinalityProviderId")
    with (Some (nullable_value (fun p => JString (provider_name p)) provider)).
  change (ownEnumerableDataProperty props "finalityEvidenceVersion") with (Some (JBigInt version)).
  change (ownEnumerableDataProperty props "processedAtMs") with (Some (JNumber (NumInt processedAt))).
  cbn [mbind option_bind slot_value count_value version_value]. rewrite Hs, Hl, Hp, Hv, Ha. cbn [mbind option_bind].
  assert (enumValue OPEN_STATUSES (JString (name_in OPEN_STATUSES status)) = Some status) as -> by (by destruct status).
  cbn [mbind option_bind]. unfold provider_correlates in Hc.
  destruct (polls =? 0) eqn:E; destruct provider as [[]|]; try done.
Qed.
Lemma candidates_round_trip l limit :
  Forall candidate_ok l -> Z.of_nat (List.length l) <= limit ->
  snapshotDenseArray (frozen_array (map candidate_object l)) (fun length => length <=? limit) snapshotCandidate = Some l.
Proof.
  intros Hl Hn. unfold snapshotDenseArray, frozen_array. rewrite !length_map. destruct (Z.leb_spec (Z.of_nat (List.length l)) limit); [|lia].
  clear Hn. induction Hl as [|c l Hc _ IH]; [done|]. cbn [map mapM]. cbn [descriptor_value JsValue.data mbind option_bind].
  rewrite (candidate_round_trip c Hc). cbn. rewrite IH; [done|]. cbn in *. lia.
Qed.

(** * A committed poll is accepted *)

Section Polls.
Context `{Sha256} `{Collation}.
Implicit Types (t : InboxTables) (c : FinalityCandidate).

(** A candidate as it was read from some row that the tables had before. *)
Definition candidate_read c t : Prop :=
  exists r0 r, finalityCandidateFromRow (fc_signature c) r0 = Ok c /\ row_status r0 = PROCESSED
    /\ ib_rows t !! fc_signature c = Some r /\ moves r0 r.
Lemma candidate_read_moves c t t' : candidate_read c t -> rows_move t t' -> candidate_read c t'.
Proof.
  intros (r0 & r & Hc & Hs & Hr & Hm) Ht. destruct (Ht _ _ Hr (mv_started _ _ Hm)) as (r' & Hr' & Hm').
  exists r0, r'. do 3 (split; [done|]). by eapply moves_trans.
Qed.
Lemma read_row c t :
  candidate_read c t -> exists r, ib_rows t !! fc_signature c = Some r /\ ir_slot r = fc_slot c.
Proof.
  intros (r0 & r & Hc & _ & Hr & Hm). exists r. split; [done|]. apply candidate_of_row in Hc as (_ & _ & -> & _). apply Hm.
Qed.
(** The version tells whether the row is still the one that was read. *)
Lemma read_pinned c t r :
  candidate_read c t -> ib_rows t !! fc_signature c = Some r -> fc_finalityEvidenceVersion c < MAX_FINALITY_EVIDENCE_VERSION ->
  evidence_version r = fc_finalityEvidenceVersion c ->
  row_status r = PROCESSED /\ finalityCandidateFromRow (fc_signature c) r = Ok c.
Proof.
  intros (r0 & r1 & Hc & Hs & Hr1 & Hm) Hr Hv He. assert (r1 = r) as -> by congruence.
  pose proof (candidate_row _ _ _ Hc) as (Ho & _ & _ & _ & _ & Hv0).
  rewrite <- Hc. apply moves_candidate; try done; unfold evidence_version in *; congruence.
Qed.
Lemma reconciled_poll current status next :
  is_open_status current = true -> is_open_status status = true -> reconciledStatus current status = Ok next ->
  next = if bool_decide (current = confirmed) || bool_decide (status = confirmed) then confirmed else processed.
Proof. destruct current, status; cbn; try done; by intros _ _ [= <-]. Qed.
(** What a recorded poll did. *)
Lemma poll_recorded clock v t c' t' :
  recordFinalityPoll clock v t = Ok (c', t') ->
  exists r f at_,
    ib_rows t !! po_signature v = Some r /\ row_status r = PROCESSED /\ t' = put_row (po_signature v) (with_finality r f at_) t
    /\ finalityCandidateFromRow (po_signature v) (with_finality r f at_) = Ok c'
    /\ evidence_version r = po_expectedFinalityEvidenceVersion v /\ fn_version f = evidence_version r + 1.
Proof.
  unfold recordFinalityPoll, check_stored, conflict_if. intros Hc. result_inv.
  destruct (ib_rows t !! po_signature v) as [r|] eqn:Hr; [|done]. result_inv. bool_prop.
  do 3 eexists. repeat split; try done.
  match goal with H : finalityCandidateFromRow _ r = Ok _ |- _ => apply candidate_row in H as (_ & _ & _ & _ & _ & E) end.
  unfold evidence_version. congruence.
Qed.
Lemma poll_accepted clock c status provider now t c' t' :
  candidate_read c t -> fc_finalityEvidenceVersion c < MAX_FINALITY_EVIDENCE_VERSION ->
  recordFinalityPoll clock (poll_observation c status provider now) t = Ok (c', t') ->
  assertPollTransition c status provider (fc_finalityEvidenceVersion c + 1) c' = true.
Proof.
  intros Hread Hv Hp. pose proof (poll_recorded _ _ _ _ _ Hp) as (r & _ & _ & Hr & Hs & _ & _ & He & _).
  cbn in Hr, He. destruct (read_pinned _ _ _ Hread Hr Hv He) as [_ Hc].
  unfold recordFinalityPoll, check_stored, conflict_if in Hp. cbn [poll_observation po_signature po_confirmationStatus
    po_providerId po_expectedMissingFinalityPolls po_expectedLastMissingFinalityProviderId
    po_expectedFinalityEvidenceVersion po_observedAtMs] in Hp.
  apply bind_Ok in Hp as (? & Hval & Hp). apply throw_if_Ok in Hval. unfold valid_poll in Hval. cbn in Hval.
  rewrite Hr in Hp. result_inv. rewrite Hc in *. result_inv. bool_prop.
  match goal with H : candidate_read ?x t |- _ => rename x into c end.
  match goal with H : finalityCandidateFromRow _ (with_finality _ _ _) = Ok _ |- _ =>
    pose proof (candidate_row _ _ _ H) as (_ & _ & Ht & Hpo & Hpr & Hve); apply candidate_of_row in H as (_ & Hsi & Hsl & Hpa) end.
  pose proof (candidate_row _ _ _ Hc) as (Ho & _ & Ht0 & Hpo0 & Hpr0 & Hve0).
  apply candidate_of_row in Hc as (_ & _ & Hsl0 & Hpa0). cbn in *.
  unfold assertPollTransition, next_missing in *. cbn in *.
  rewrite Hsi, Hsl, Hsl0, Hve, Hve0, Ht, Hpo, Hpr, !Z.eqb_refl, bool_decide_eq_true_2 by done.
  assert (fc_processedAtMs c' = fc_processedAtMs c) as -> by congruence. rewrite Z.eqb_refl. cbn [andb].
  destruct status as [status|]; cbn in *.
  - rewrite Ht0. erewrite <- (reconciled_poll (fn_target (ir_finality r)) status) by eassumption.
    by rewrite !bool_decide_eq_true_2.
  - match goal with H : Ok _ = Ok _ |- _ => injection H as <- end.
    rewrite Ht0, Z.eqb_refl, (bool_decide_eq_true_2 (fn_target _ = _)), (bool_decide_eq_true_2 (Some _ = _)) by done.
    rewrite !andb_true_r. by apply is_safe_integer_true.
Qed.
End Polls.

(** * The calls of a pass *)

(** What an orphaning needs: the pass's provider missed the transaction in its history, its
    finalized root is above the slot, its finalized block of the slot lacks the transaction, and
    the row has the misses in a row of that provider, unless it was orphaned already. *)
Record orphan_evidence `{Sha256} `{Bs58} (host : FinalityHost) (threshold : Z) (t : InboxTables) (v : FinalityRevision)
    (pass : CapturedFinalityPass) (r : InboxRow) (signatures block : list string)
    (statuses : list (option FinalityHistoryStatus)) (root : Z) : Prop := {
  oe_pass : capturePass (fh_openPass host) = Ok pass;
  oe_row : ib_rows t !! rv_signature v = Some r;
  oe_history : (raw ← readHistory pass signatures; snapshotStatuses raw (Z.of_nat (List.length signatures))) = Ok statuses;
  oe_missed : (rv_signature v, None) ∈ zip signatures statuses;
  oe_root : (raw ← readRoot pass; finalizedSlot raw) = Ok root;
  oe_below : ir_slot r < root;
  oe_block : readBlock pass (ir_slot r) = Ok block;
  oe_absent : rv_signature v ∉ block;
  oe_polls : fn_target (ir_finality r) = orphaned
             \/ (row_status r = PROCESSED /\ threshold <= fn_missingPolls (ir_finality r)
                 /\ fn_missingProvider (ir_finality r) = Some (pa_providerId pass));
}.

Section Pass.
Context `{Sha256} `{Collation} `{Bs58} (policy : TransactionInboxRetryPolicy) (host : FinalityHost)
  (reconciler : FinalityReconciler).
Context (Hhex : forall x, is_sha256_hex (sha256_hex x) = true) (Hpolicy : policy_ok policy).
Implicit Types (t : InboxTables) (c : FinalityCandidate).

(** A committed call of the pass, with the tables it found: an orphaning has its evidence. *)
Definition entry_ok (e : InboxTables * inbox_call) : Prop :=
  match snd e with
  | CallRevise v => is_Some (rv_orphaned v) ->
      exists pass r signatures block statuses root,
        orphan_evidence host (rc_missingPollThreshold reconciler) (fst e) v pass r signatures block statuses root
  | _ => True
  end.
(** The state of a pass that holds the candidates [l]. *)
Record holds (l : list FinalityCandidate) (w : finality_world) : Prop := {
  hl_tables : inbox_ok (fw_tables w);
  hl_log : Forall entry_ok (fw_log w);
  hl_read : Forall (fun c => candidate_read c (fw_tables w)) l;
}.
Definition failed (l : list FinalityCandidate) (stage : FinalityReconcilerErrorStage) (w : finality_world) : Prop := holds l w.
Lemma holds_weaken l l' w : l ⊆ l' -> holds l' w -> holds l w.
Proof. intros Hl [? ? Hr]. constructor; try done. rewrite Forall_forall in *. auto. Qed.
Lemma read_list l t t' :
  Forall (fun c => candidate_read c t) l -> rows_move t t' -> Forall (fun c => candidate_read c t') l.
Proof. intros Hl Ht. eapply Forall_impl; [exact Hl|]. intros c Hc. exact (candidate_read_moves c t t' Hc Ht). Qed.

(** A transaction that keeps the constraints and only moves rows. *)
Definition keeps {A} (f : tx A) : Prop :=
  forall t a t', inbox_ok t -> f t = Ok (a, t') -> inbox_ok t' /\ rows_move t t'.
Lemma call_keeps {A} (call : inbox_call) (f : tx A) : (forall t, run_call policy call t = snd <$> f t) -> keeps f.
Proof.
  intros Hf t a t' Ht Hc. assert (run_call policy call t = Ok t') as Hr by (by rewrite Hf, Hc).
  split; [|by eapply call_moves]. pose proof (perform_ok policy Hhex t call Hpolicy Ht) as Hp. unfold perform in Hp. by rewrite Hr in Hp.
Qed.
Lemma list_keeps limit : keeps (listForFinality limit).
Proof. intros t a t' Ht Hc. unfold listForFinality, check_stored in Hc. result_inv. by split. Qed.
Lemma store_call_holds {A} call (f : tx A) l :
  keeps f ->
  (forall t a t', inbox_ok t -> Forall (fun c => candidate_read c t) l -> f t = Ok (a, t') ->
     match call with Some c => entry_ok (t, c) | None => True end) ->
  triple (holds l) (store_call policy host call f)
    (fun a w => holds l w /\ exists t, inbox_ok t /\ Forall (fun c => candidate_read c t) l /\ f t = Ok (a, fw_tables w))
    (fun _ w => holds l w).
Proof.
  intros Hk He w [Ht Hl Hr]. unfold store_call. cbn zeta. set (t := run_calls policy _ (fw_tables w)).
  assert (inbox_ok t) as Ht' by (by apply run_calls_ok).
  assert (Forall (fun c => candidate_read c t) l) as Hr' by (eapply read_list; [exact Hr|by apply run_calls_move]).
  assert (forall a t', f t = Ok (a, t') ->
            holds l {| fw_tables := t'; fw_calls := S (fw_calls w);
                       fw_log := match call with Some c => fw_log w ++ [(t, c)] | None => fw_log w end |}) as Hok.
  { intros a t' Hf. destruct (Hk _ _ _ Ht' Hf) as [Hi Hm]. constructor; cbn; [done| |by eapply read_list].
    specialize (He t a t' Ht' Hr' Hf). destruct call; [|done]. apply Forall_app. split; [done|]. by constructor. }
  destruct (fh_fault host (fw_calls w)); [|done|].
  - destruct (f t) as [[a t']|] eqn:Hf; [|done]. split; [by eapply Hok|]. by exists t.
  - destruct (f t) as [[a t']|] eqn:Hf; [|done]. by eapply Hok.
Qed.
Lemma at_stage_holds {A} stage (m : prog finality_world unit A) l Q :
  triple (holds l) m Q (fun _ w => holds l w) -> triple (holds l) (at_stage stage m) Q (failed l).
Proof. intros Hm w Hw. specialize (Hm w Hw). unfold at_stage. by destruct (m w) as [[]]. Qed.
Lemma require_holds (P : finality_world -> Prop) b :
  triple P (require b) (fun _ w => P w /\ b = true) (fun _ w => P w).
Proof. intros w Hw. unfold require, lift. by destruct b. Qed.
Lemma or_throw_holds {A} (P : finality_world -> Prop) (o : option A) :
  triple P (or_throw o) (fun a w => P w /\ o = Some a) (fun _ w => P w).
Proof. intros w Hw. unfold or_throw, lift. by destruct o. Qed.
Lemma clock_holds (P : finality_world -> Prop) : triple P (store_clock host) (fun _ w => P w) (fun _ w => P w).
Proof. by intros w Hw. Qed.

Lemma list_read limit t l t' :
  inbox_ok t -> listForFinality limit t = Ok (l, t') ->
  t' = t /\ Forall (fun c => candidate_ok c /\ candidate_read c t) l.
Proof.
  intros Ht Hc. unfold listForFinality, check_stored in Hc. apply bind_Ok in Hc as (? & _ & Hc).
  apply bind_Ok in Hc as (cs & Hm & Hc). injection Hc as -> <-. split; [done|].
  match type of Hm with mapM _ ?rows = _ => set (sel := rows) in Hm end.
  assert (Forall (fun p => ib_rows t !! fst p = Some (snd p) /\ row_status (snd p) = PROCESSED) sel) as Hsel.
  { apply Forall_forall. intros p [Hl Hok]%select_elem. bool_prop. done. }
  clearbody sel. revert l Hm. induction Hsel as [|p sel [Hl Hs] _ IH]; intros l Hm; cbn in Hm; [by injection Hm as <-|].
  apply bind_Ok in Hm as (c & Hcand & Hm). apply bind_Ok in Hm as (k & Hk & Hm). injection Hm as <-.
  constructor; [|auto].
  pose proof (candidate_of_row _ _ _ Hcand) as (Hok & Hsig & _). split; [done|]. exists (snd p), (snd p). rewrite Hsig.
  do 3 (split; [done|]). apply moves_refl, (ro_started _ _ (io_rows _ Ht _ _ Hl)). auto.
Qed.
Lemma dense_candidates l limit cs :
  Forall candidate_ok l ->
  snapshotDenseArray (frozen_array (map candidate_object l)) (fun length => length <=? limit) snapshotCandidate = Some cs ->
  cs = l.
Proof.
  intros Hl Hs. destruct (Z.leb_spec (Z.of_nat (List.length l)) limit) as [Hn|Hn].
  - rewrite candidates_round_trip in Hs by done. congruence.
  - unfold snapshotDenseArray, frozen_array in Hs. rewrite !length_map in Hs.
    destruct (Z.leb_spec (Z.of_nat (List.length l)) limit); [lia|done].
Qed.
Lemma readCandidates_holds : triple (holds []) (readCandidates policy host reconciler) (fun cs w => holds cs w) (failed []).
Proof.
  apply at_stage_holds. eapply triple_bind; [apply (store_call_holds None); [apply list_keeps|done]|]. intros values.
  intros w [Hw (t & Ht & _ & Hl)]. apply list_read in Hl as [Et Hl]; [|done]. unfold or_throw, lift.
  destruct (snapshotDenseArray _ _ _) as [cs|] eqn:Hs; [|done]. apply dense_candidates in Hs as ->.
  - destruct Hw as [? ? _]. constructor; try done. rewrite Et. eapply Forall_impl; [exact Hl|]. by intros ? [].
  - eapply Forall_impl; [exact Hl|]. by intros ? [].
Qed.
Lemma recordPoll_holds c status provider now l :
  c ∈ l ->
  triple (holds l) (recordPoll policy host c status provider now)
    (fun c' w => holds (c' :: l) w /\ fc_signature c' = fc_signature c) (failed l).
Proof.
  intros Hin. apply at_stage_holds.
  eapply triple_bind; [apply require_holds|]. intros ?. apply triple_pull. intros Hv.
  eapply triple_bind; [apply require_holds|]. intros ?. apply triple_pull. intros _.
  eapply triple_bind; [apply require_holds|]. intros ?. apply triple_pull. intros _.
  eapply triple_bind; [apply clock_holds|]. intros clock.
  eapply triple_bind.
  { apply (store_call_holds (Some (CallPoll clock (poll_observation c status provider now)))); [|done].
    by apply (call_keeps (CallPoll clock (poll_observation c status provider now))). }
  intros raw w [Hw (t & Ht & Hr & Hp)]. unfold pbind, or_throw, require, lift, pret.
  pose proof (poll_recorded _ _ _ _ _ Hp) as (r & f & at_ & Hl & Hs & Et & Hc & _).
  pose proof (candidate_of_row _ _ _ Hc) as (Hok & Hsig & _). rewrite candidate_round_trip by done.
  destruct (assertPollTransition _ _ _ _ _); [|done]. cbn. split; [|done].
  destruct Hw as [? ? Hread]. constructor; try done. constructor; [|done].
  exists (with_finality r f at_), (with_finality r f at_). rewrite Hsig. do 2 (split; [done|]).
  rewrite Et. cbn. rewrite lookup_insert_eq. split; [done|].
  apply moves_refl. cbn. apply (ro_started _ _ (io_rows _ Ht _ _ Hl)). auto.
Qed.
Lemma finalized_holds signature now l :
  triple (holds l) (enqueueFinalizedRevision policy host signature now) (fun _ w => holds l w) (failed l).
Proof.
  apply at_stage_holds. eapply triple_bind; [apply require_holds|]. intros ?. apply triple_pull. intros _.
  set (v := {| rv_signature := signature; rv_orphaned := None; rv_observedAtMs := now |}).
  eapply triple_weaken; [apply (store_call_holds (Some (CallRevise v)))|done|by intros ? ? []|done].
  - by apply (call_keeps (CallRevise v)).
  - intros t b t' _ _ _ [? [=]].
Qed.
(** What an orphaned revision finds. *)
Lemma orphaned_row v expected t x t' :
  rv_orphaned v = Some expected -> enqueueRevision v t = Ok (x, t') ->
  exists r, ib_rows t !! rv_signature v = Some r
    /\ (fn_target (ir_finality r) = orphaned
        \/ (row_status r = PROCESSED /\ fn_missingPolls (ir_finality r) = snd (fst (fst expected))
            /\ fn_missingProvider (ir_finality r) = Some (snd (fst expected)))).
Proof.
  intros Ho Hc. unfold enqueueRevision, check_stored, conflict_if in Hc. rewrite Ho in Hc. result_inv.
  destruct (ib_rows t !! rv_signature v) as [r|]; [|done]. exists r. split; [done|].
  destruct (ir_snapshot r); [|done]. result_inv.
  match goal with H : reconciledStatus _ orphaned = Ok ?n |- _ => rename H into Hn; rename n into next end.
  destruct (bool_decide (next = _)) eqn:Heq; bool_prop.
  - left. destruct (fn_target (ir_finality r)); cbn in Hn; try done; injection Hn as <-; done.
  - right. result_inv. bool_prop. destruct expected as [[[status polls] provider] version]. unfold revision_expected in *.
    bool_prop. match goal with H : finalityCandidateFromRow _ r = Ok _ |- _ => apply candidate_row in H as (_ & _ & _ & Hp & Hpr & _) end.
    cbn. split; [done|]. split; congruence.
Qed.

(** * The loops of a pass *)

Definition ended {A} (a : A) (w : finality_world) : Prop := holds [] w.
Lemma failed_ended l stage w : failed l stage w -> ended stage w.
Proof. intros Hw. eapply holds_weaken; [|exact Hw]. set_solver. Qed.
Section Loops.
Context (pass : CapturedFinalityPass) (signatures : list string) (statuses : list (option FinalityHistoryStatus)) (root : Z)
  (Hpass : capturePass (fh_openPass host) = Ok pass)
  (Hhistory : (raw ← readHistory pass signatures; snapshotStatuses raw (Z.of_nat (List.length signatures))) = Ok statuses)
  (Hroot : (raw ← readRoot pass; finalizedSlot raw) = Ok root).

(** A candidate that the first loop leaves to the second. *)
Record eligible c : Prop := {
  el_polls : rc_missingPollThreshold reconciler <= fc_missingFinalityPolls c;
  el_provider : fc_lastMissingFinalityProviderId c = Some (pa_providerId pass);
  el_slot : fc_slot c < root;
  el_missed : (fc_signature c, None) ∈ zip signatures statuses;
}.
Definition groups_ok (groups : list (Z * list FinalityCandidate)) : Prop :=
  Forall (fun p => Forall (fun c => fc_slot c = fst p /\ eligible c) (snd p)) groups.
Definition grouped (groups : list (Z * list FinalityCandidate)) : list FinalityCandidate := List.concat (map snd groups).
Lemma push_grouped c groups d : d ∈ grouped (push_eligible c groups) <-> d = c \/ d ∈ grouped groups.
Proof.
  induction groups as [|[slot group] rest IH]; cbn; [set_solver|]. destruct (slot =? fc_slot c); cbn; [set_solver|].
  fold (grouped (push_eligible c rest)). fold (grouped rest). rewrite !elem_of_app, IH. naive_solver.
Qed.
Lemma push_ok c groups : eligible c -> groups_ok groups -> groups_ok (push_eligible c groups).
Proof.
  intros Hc. induction 1 as [|[slot group] rest Hg Hr IH]; cbn.
  { apply Forall_singleton, Forall_singleton. done. }
  destruct (Z.eqb_spec slot (fc_slot c)); constructor; try done. apply Forall_app. split; [done|]. by apply Forall_singleton.
Qed.
Lemma orphaned_holds c now l block :
  c ∈ l -> eligible c -> readBlock pass (fc_slot c) = Ok block -> fc_signature c ∉ block ->
  triple (holds l) (enqueueOrphanedRevision policy host c now) (fun _ w => holds l w) (failed l).
Proof.
  intros Hin [Hpolls Hprov Hslot Hmissed] Hblock Habs. apply at_stage_holds. rewrite Hprov.
  eapply triple_bind; [apply or_throw_holds|]. intros ?. apply triple_pull. intros [= <-].
  eapply triple_bind; [apply require_holds|]. intros ?. apply triple_pull. intros _.
  match goal with |- context [CallRevise ?x] => set (v := x) end.
  eapply triple_weaken; [apply (store_call_holds (Some (CallRevise v)))|done|by intros ? ? []|done].
  - by apply (call_keeps (CallRevise v)).
  - intros t b t' _ Hread Hc _. rewrite Forall_forall in Hread. destruct (read_row _ _ (Hread c Hin)) as (r & Hr & Hsl).
    destruct (orphaned_row v _ t b t' eq_refl Hc) as (r' & Hr' & Hp). cbn in Hr'. assert (r' = r) as -> by congruence.
    exists pass, r, signatures, block, statuses, root. rewrite <- Hsl in *.
    constructor; try done. destruct Hp as [?|(? & E & ?)]; [by left|right]. cbn in E. by rewrite E.
Qed.
Lemma poll_loop_holds now cs ss l st :
  cs ⊆ l -> grouped (ps_eligibleBySlot st) ⊆ l -> groups_ok (ps_eligibleBySlot st) ->
  zip (map fc_signature cs) ss ⊆ zip signatures statuses ->
  triple (holds l) (poll_loop policy host reconciler pass root now cs ss st)
    (fun st' w => exists l', holds l' w /\ grouped (ps_eligibleBySlot st') ⊆ l' /\ groups_ok (ps_eligibleBySlot st'))
    ended.
Proof.
  revert ss l st. induction cs as [|c cs IH]; intros ss l st Hcs Hg Hok Hzip; cbn [poll_loop].
  { apply triple_ret. intros w Hw. by exists l. }
  destruct ss as [|status ss].
  { apply triple_throw. intros w Hw. by eapply failed_ended. }
  assert (c ∈ l /\ cs ⊆ l) as [Hc Hcs'] by set_solver.
  assert ((fc_signature c, status) ∈ zip signatures statuses /\ zip (map fc_signature cs) ss ⊆ zip signatures statuses)
    as [Hz Hzip'] by (cbn in Hzip; set_solver).
  destruct (bool_decide _) eqn:Hfin.
  - eapply triple_bind; [|intros ?; by apply (IH ss l)].
    eapply triple_weaken; [apply finalized_holds|done|done|]. apply failed_ended.
  - eapply triple_bind.
    { eapply triple_weaken; [by apply recordPoll_holds|done|intros ? ? HQ; exact HQ|]. apply failed_ended. }
    intros polled. apply triple_pull. intros Hsig. cbn zeta. destruct (_ || _) eqn:Hskip.
    + eapply (IH ss (polled :: l)); cbn; [set_solver..|done|done].
    + bool_prop. eapply (IH ss (polled :: l)); cbn; [set_solver| | |done].
      * intros d Hd. apply push_grouped in Hd. set_solver.
      * apply push_ok; [|done]. constructor; try done. rewrite Hsig. by destruct status.
Qed.
Lemma orphan_group_holds now slot group l rc block :
  group ⊆ l -> Forall (fun c => fc_slot c = slot /\ eligible c) group -> readBlock pass slot = Ok block ->
  Forall (fun c => fc_signature c ∉ block) group ->
  triple (holds l) (orphan_group policy host now group rc) (fun _ w => holds l w) (failed l).
Proof.
  revert rc. induction group as [|c group IH]; intros rc Hg Hok Hblock Habs; cbn; [by apply triple_ret|].
  apply Forall_cons in Hok as [[Hsl He] Hok]. apply Forall_cons in Habs as [Ha Habs].
  eapply triple_bind; [|intros ?; apply IH; try done; set_solver].
  eapply orphaned_holds; try done; [set_solver|]. by rewrite Hsl.
Qed.
Lemma block_loop_holds now groups l n failure rc :
  grouped groups ⊆ l -> groups_ok groups ->
  triple (holds l) (block_loop policy host pass now groups n failure rc) ended ended.
Proof.
  revert n failure rc. induction groups as [|[slot group] rest IH]; intros n failure rc Hg Hok; cbn [block_loop].
  { apply triple_ret. apply (failed_ended l FINALITY_LIST). }
  apply Forall_cons in Hok as [Hgr Hok]. cbn in Hg. destruct (Nat.leb _ _).
  { apply triple_ret. apply (failed_ended l FINALITY_LIST). }
  destruct (readBlock pass slot) as [block|stage] eqn:Hblock; [|apply IH; [set_solver|done]].
  destruct (existsb _ _) eqn:Hex.
  { apply triple_throw. apply (failed_ended l). }
  eapply triple_bind; [|intros rc'; apply IH; [set_solver|done]].
  eapply triple_weaken; [eapply (orphan_group_holds _ slot _ l); try done; [set_solver|]|done|done|apply failed_ended].
  apply Forall_forall. intros c Hc Hin. apply not_true_iff_false in Hex. apply Hex, List.existsb_exists.
  exists c. split; [by apply list_elem_of_In|]. by apply includes_true.
Qed.
End Loops.
Lemma lift_holds {A} (m : result FinalityReconcilerErrorStage A) l :
  triple (holds l) (lift m) (fun a w => holds l w /\ m = Ok a) ended.
Proof. intros w Hw. unfold lift. destruct m; [done|]. by eapply failed_ended. Qed.
Ltac lift_step H := eapply triple_bind; [apply lift_holds|]; intros ?; apply triple_pull; intros H.
Lemma runOnce_holds : triple (holds []) (runOnce policy host reconciler) ended ended.
Proof.
  unfold runOnce. eapply triple_bind; [eapply triple_weaken; [apply readCandidates_holds|done| |apply failed_ended]|].
  { intros cs w HQ. exact HQ. }
  intros cs. destruct cs as [|c0 cs0]; [by apply triple_ret|]. set (cs := c0 :: cs0). clearbody cs. clear c0 cs0.
  lift_step Hpass. lift_step Hraw. lift_step Hss. lift_step Hrr. lift_step Hroot. lift_step Hcons. lift_step Hnow.
  assert ((raw ← readHistory a (map fc_signature cs); snapshotStatuses raw (Z.of_nat (List.length (map fc_signature cs)))) = Ok a1)
    as Hhistory by (rewrite Hraw; cbn; by rewrite length_map).
  assert ((raw ← readRoot a; finalizedSlot raw) = Ok a3) as Hroot' by (by rewrite Hrr).
  eapply triple_bind.
  { eapply (poll_loop_holds a (map fc_signature cs) a1 a3); try done; [intros ? Hin; by apply elem_of_nil in Hin|constructor]. }
  intros st w (l & Hw & Hg & Hok).
  assert (triple (holds l) (block_loop policy host a a5 (ps_eligibleBySlot st) 0 None (ps_revisionCount st)) ended ended) as Hb
    by (by eapply (block_loop_holds a (map fc_signature cs) a1 a3)).
  revert w Hw. change (triple (holds l) (pbind (block_loop policy host a a5 (ps_eligibleBySlot st) 0 None (ps_revisionCount st))
    (fun ends => match fst ends with
                 | Some failure => pthrow failure
                 | None => pret {| fr_candidateCount := Z.of_nat (List.length cs); fr_pollCount := ps_pollCount st;
                                   fr_revisionCount := snd ends |}
                 end)) ended ended).
  eapply triple_bind; [exact Hb|]. intros ends. destruct (fst ends); [by apply triple_throw|by apply triple_ret].
Qed.

(** C12: a transaction is orphaned only on evidence.  Whatever the provider answers, whatever
    fails, and whatever others do to the tables meanwhile, when a pass commits the orphaning of a
    transaction then one provider, in this pass, did not find it in its history, has a finalized
    root above the transaction's slot, and serves a finalized block of that slot without it; and
    the row, unless it was orphaned already, is processed and counts at least the configured
    misses in a row, two or more, of that provider. *)
Theorem orphaned_only_on_evidence options w t v :
  new_FinalityReconciler options = Some reconciler -> inbox_ok (fw_tables w) -> fw_log w = [] ->
  (t, CallRevise v) ∈ fw_log (snd (runOnce policy host reconciler w)) -> is_Some (rv_orphaned v) ->
  2 <= rc_missingPollThreshold reconciler
  /\ exists pass r signatures block statuses root,
       orphan_evidence host (rc_missingPollThreshold reconciler) t v pass r signatures block statuses root.
Proof.
  intros Hnew Ht Hlog Hin Hv. split.
  - unfold new_FinalityReconciler in Hnew. destruct (boundedPositiveInteger _ _); [|done]. cbn in Hnew.
    apply bind_Some in Hnew as (threshold & Hz & Hnew). destruct (bool_decide _); [done|]. injection Hnew as <-. cbn.
    destruct (fo_missingPollThreshold options); try discriminate Hz; try (injection Hz as <-; done);
      apply bind_Some in Hz as (k & _ & Hz); destruct (Z.ltb_spec k MIN_FINALITY_MISSING_POLL_THRESHOLD); [done|];
      injection Hz as <-; done.
  - assert (holds [] w) as Hw by (constructor; rewrite ?Hlog; done). specialize (runOnce_holds w Hw).
    destruct (runOnce policy host reconciler w) as [[a|e] w']; cbn in *; intros [_ Hl _]; rewrite Forall_forall in Hl;
      by apply (Hl _ Hin).
Qed.
(** A poll that the repository commits is accepted by the pass.  After the candidate was read,
    others may have called the repository in any way; when the pass still reports a failure of
    its poll, and the answer of the database was not lost, then the repository refused the poll
    and wrote nothing.  The checks of the answer never fail: the version that the poll expects
    stands for everything they compare. *)
Theorem committed_poll_is_accepted (calls : list inbox_call) t0 r c status provider now w e w' :
  inbox_ok t0 -> ib_rows t0 !! fc_signature c = Some r -> row_status r = PROCESSED ->
  finalityCandidateFromRow (fc_signature c) r = Ok c ->
  fw_tables w = run_calls policy calls t0 -> fh_fault host (fw_calls w) <> FaultAfter ->
  recordPoll policy host c status provider now w = (Err e, w') ->
  e = FINALITY_POLL /\ fw_log w' = fw_log w.
Proof.
  intros Ht0 Hr Hs Hc Hw Hfault Hp.
  assert (candidate_read c t0) as Hread0.
  { exists r, r. do 3 (split; [done|]). apply moves_refl, (ro_started _ _ (io_rows _ Ht0 _ _ Hr)). auto. }
  unfold recordPoll, at_stage, pbind, require, or_throw, store_clock, lift, pret, throw_if in Hp.
  destruct (negb (negb (_ || _))) eqn:Hv; [by injection Hp as <- <-|]. rewrite negb_involutive in Hv. bool_prop.
  destruct (negb (negb (_ && _))); [by injection Hp as <- <-|].
  destruct (negb (valid_poll _)); [by injection Hp as <- <-|].
  unfold store_call in Hp. cbn zeta in Hp. set (t := run_calls policy (fh_others host (fw_calls w)) (fw_tables w)) in *.
  assert (candidate_read c t) as Hread.
  { eapply candidate_read_moves; [exact Hread0|]. transitivity (fw_tables w); [rewrite Hw; by apply run_calls_move|].
    apply run_calls_move; [done|done|]. rewrite Hw. by apply run_calls_ok. }
  destruct (fh_fault host (fw_calls w)); [|by injection Hp as <- <-|done].
  destruct (recordFinalityPoll _ _ t) as [[c' t']|] eqn:Hrec; [|by injection Hp as <- <-].
  exfalso. pose proof (poll_recorded _ _ _ _ _ Hrec) as (? & ? & ? & _ & _ & _ & Hc' & _).
  apply candidate_of_row in Hc' as [Hok _]. rewrite candidate_round_trip in Hp by done. cbn in Hp.
  apply poll_accepted in Hrec; [|done|lia]. by rewrite Hrec in Hp.
Qed.
End Pass.
