(* ===== verification/FinalityProgress.v ===== *)
(** The finality pass ends ([FinalityReconciler]).

    When nobody else changes the tables and the database and the provider answer, the pass
    returns, and every transaction it listed is in the state that its status asks for. *)
From S2P Require Import Prelude Text Types Chain Json JsValue JsReaders JsonCodec PublicKey CatchUpRun CatchUpSource CatchUpScan Inbox InboxRows InboxQueue InboxEvidence FinalityReconciler FinalityProperties.
From stdpp Require Import gmap sorting.
From Stdlib Require Import Ascii String.
Local Open Scope string_scope.
Local Open Scope list_scope.
Local Open Scope Z_scope.

(** * What a poll leaves *)

Definition polled_status (current : ChainConfirmationStatus) (status : option ChainConfirmationStatus) : ChainConfirmationStatus :=
  match status with
  | None => current
  | Some s => if bool_decide (current = confirmed) || bool_decide (s = confirmed) then confirmed else processed
  end.
Definition polled_misses (c : FinalityCandidate) (status : option ChainConfirmationStatus) (provider : RpcProviderId) : Z :=
  match status with
  | None => if bool_decide (fc_lastMissingFinalityProviderId c = Some provider) then fc_missingFinalityPolls c + 1 else 1
  | Some _ => 0
  end.
Definition polled_candidate (c : FinalityCandidate) (status : option ChainConfirmationStatus) (provider : RpcProviderId)
    : FinalityCandidate :=
  {| fc_signature := fc_signature c; fc_slot := fc_slot c;
     fc_confirmationStatus := polled_status (fc_confirmationStatus c) status;
     fc_missingFinalityPolls := polled_misses c status provider;
     fc_lastMissingFinalityProviderId := match status with None => Some provider | Some _ => None end;
     fc_finalityEvidenceVersion := fc_finalityEvidenceVersion c + 1; fc_processedAtMs := fc_processedAtMs c |}.
(** The counters of a candidate are not exhausted. *)
Definition unexhausted (c : FinalityCandidate) : Prop :=
  fc_finalityEvidenceVersion c + 1 < MAX_FINALITY_EVIDENCE_VERSION /\ fc_missingFinalityPolls c < MAX_SAFE_INTEGER.

Section Progress.
Context `{Sha256} `{Collation} `{Bs58}.
Implicit Types (t : InboxTables) (c : FinalityCandidate).

(** The row of a candidate reads as the candidate. *)
Definition reads t c : Prop :=
  exists r, ib_rows t !! fc_signature c = Some r /\ row_status r = PROCESSED
    /\ finalityCandidateFromRow (fc_signature c) r = Ok c.
Definition open_or_none (status : option ChainConfirmationStatus) : bool :=
  match status with None => true | Some s => is_open_status s end.
Lemma polled_ok c status provider :
  candidate_ok c -> open_or_none status = true -> unexhausted c -> candidate_ok (polled_candidate c status provider).
Proof.
  intros [Hs Hl Ho Hp Hc Hv Ha] Hst [Hm Hn]. unfold safeCount, version_ok in *. bool_prop. constructor; cbn; try done.
  - destruct status as [[]|]; try done; cbn; by destruct (bool_decide _).
  - unfold safeCount, polled_misses. apply andb_true_iff. rewrite is_safe_integer_true, Z.leb_le.
    destruct status; [unfold MAX_SAFE_INTEGER; lia|]. destruct (bool_decide _); unfold MAX_SAFE_INTEGER in *; lia.
  - unfold provider_correlates, polled_misses. destruct status; [done|]. destruct (bool_decide _); [|done].
    assert ((fc_missingFinalityPolls c + 1 =? 0) = false) as -> by (apply Z.eqb_neq; lia). by rewrite bool_decide_eq_false_2.
  - unfold version_ok. apply andb_true_iff. rewrite !Z.leb_le. lia.
Qed.
Lemma reconciled_open current status :
  is_open_status current = true -> open_or_none status = true ->
  match status with None => Ok current | Some s => reconciledStatus current s end = Ok (polled_status current status).
Proof. destruct current; try done; destruct status as [[]|]; done. Qed.
Lemma candidate_from signature r c :
  candidate_ok c -> fc_signature c = signature -> fc_slot c = ir_slot r -> en_processedAt (ir_end r) = Some (fc_processedAtMs c) ->
  ir_finality r = {| fn_target := fc_confirmationStatus c; fn_missingPolls := fc_missingFinalityPolls c;
                     fn_missingProvider := fc_lastMissingFinalityProviderId c; fn_version := fc_finalityEvidenceVersion c |} ->
  finalityCandidateFromRow signature r = Ok c.
Proof.
  intros [Hs Hl Ho Hp Hc Hv Ha] Es El Ee Ef. unfold finalityCandidateFromRow, check_stored. rewrite Ee, Ef. cbn.
  apply Z.leb_le in Hl. rewrite <- Es, <- El, Ho, Hs, Hl, Hp, Hv, Ha, Hc. cbn. by destruct c.
Qed.
Lemma inbox_stored ms : inbox_date ms = true -> stored_date ms = true.
Proof. unfold inbox_date, stored_date. intros Hd. bool_prop. apply andb_true_iff. by rewrite is_safe_integer_true, Z.leb_le. Qed.
Lemma poll_succeeds clock c status provider now t r :
  ib_rows t !! fc_signature c = Some r -> row_status r = PROCESSED -> finalityCandidateFromRow (fc_signature c) r = Ok c ->
  open_or_none status = true -> unexhausted c -> inbox_date now = true ->
  exists r', recordFinalityPoll clock (poll_observation c status provider now) t
             = Ok (polled_candidate c status provider, put_row (fc_signature c) r' t)
    /\ row_status r' = PROCESSED
    /\ finalityCandidateFromRow (fc_signature c) r' = Ok (polled_candidate c status provider).
Proof.
  intros Hr Hs Hc Hst Hu Hnow. pose proof (candidate_of_row _ _ _ Hc) as (Hok & _ & Hsl & Hpa).
  pose proof (candidate_row _ _ _ Hc) as (Ho & _ & Ht & Hp & Hpr & Hv).
  pose proof (polled_ok c status provider Hok Hst Hu) as Hpok.
  set (r' := with_finality r
               {| fn_target := polled_status (fn_target (ir_finality r)) status;
                  fn_missingPolls := polled_misses c status provider;
                  fn_missingProvider := match status with None => Some provider | Some _ => None end;
                  fn_version := fn_version (ir_finality r) + 1 |} (Z.max now clock)).
  assert (finalityCandidateFromRow (fc_signature c) r' = Ok (polled_candidate c status provider)) as Hr'.
  { apply candidate_from; try done. cbn. by rewrite Ht, Hv. }
  exists r'. split; [|done]. destruct Hok as [Hsig Hslot Hopen Hpolls Hprov Hver Hat]. destruct Hu as [Hu1 Hu2].
  unfold recordFinalityPoll, check_stored, conflict_if. cbn [poll_observation po_signature po_confirmationStatus
    po_providerId po_expectedMissingFinalityPolls po_expectedLastMissingFinalityProviderId
    po_expectedFinalityEvidenceVersion po_observedAtMs].
  rewrite throw_if_skip; [cbn [mbind result_bind]|apply negb_false_iff].
  2:{ unfold valid_poll. cbn. rewrite Hsig, Hpolls, Hprov, Hver. cbn.
      unfold open_or_none in Hst. rewrite Hst. by apply inbox_stored. }
  rewrite Hr, Hs, bool_decide_eq_true_2 by done. cbn [negb throw_if mbind result_bind]. rewrite Ho. cbn [negb throw_if mbind result_bind].
  rewrite Hc. cbn [mbind result_bind]. rewrite !Z.eqb_refl, bool_decide_eq_true_2 by done.
  assert ((fc_finalityEvidenceVersion c =? MAX_FINALITY_EVIDENCE_VERSION) = false) as -> by (apply Z.eqb_neq; lia).
  cbn [negb orb throw_if mbind result_bind]. rewrite reconciled_open by (try done; by rewrite <- Ht).
  cbn [mbind result_bind].
  change (next_missing c _) with (polled_misses c status provider).
  pose proof (co_polls _ Hpok) as Hmiss. cbn in Hmiss. unfold safeCount in Hmiss. apply andb_true_iff in Hmiss as [Hmiss _].
  rewrite Hmiss, Hnow. cbn [negb throw_if mbind result_bind]. fold r'. rewrite Hr'. reflexivity.
Qed.

(** * What a revision leaves *)

(** The transaction waits for the revision to a status. *)
Definition revised t c (next : ChainConfirmationStatus) : Prop :=
  exists r, ib_rows t !! fc_signature c = Some r /\ row_status r = PENDING /\ fn_target (ir_finality r) = next
    /\ ir_slot r = fc_slot c.
Definition finalized_revision (c : FinalityCandidate) (now : Z) : FinalityRevision :=
  {| rv_signature := fc_signature c; rv_orphaned := None; rv_observedAtMs := now |}.
Definition orphaned_revision (c : FinalityCandidate) (provider : RpcProviderId) (now : Z) : FinalityRevision :=
  {| rv_signature := fc_signature c;
     rv_orphaned := Some (fc_confirmationStatus c, fc_missingFinalityPolls c, provider, fc_finalityEvidenceVersion c);
     rv_observedAtMs := now |}.
Lemma finalized_succeeds c now t :
  inbox_ok t -> reads t c -> inbox_date now = true ->
  exists r', enqueueRevision (finalized_revision c now) t = Ok (tt, put_row (fc_signature c) r' t)
    /\ revised (put_row (fc_signature c) r' t) c finalized.
Proof.
  intros Hok (r & Hr & Hs & Hc) Hnow. pose proof (io_rows _ Hok _ _ Hr) as Hrow.
  pose proof (candidate_of_row _ _ _ Hc) as ([Hsig _ Hopen _ _ _ _] & _ & Hsl & _).
  pose proof (candidate_row _ _ _ Hc) as (Ho & _).
  destruct (ro_processed _ _ Hrow Hs) as (_ & [stored Hst] & _). pose proof (ro_decodes _ _ Hrow) as Hdec. rewrite Hst in Hdec.
  assert (reconciledStatus (fn_target (ir_finality r)) finalized = Ok finalized) as Hn
    by (by destruct (fn_target (ir_finality r))).
  pose proof (decode_next _ _ _ _ _ _ Hdec Hn) as Hd.
  eexists. split.
  - unfold enqueueRevision, check_stored, conflict_if. cbn [finalized_revision rv_signature rv_orphaned rv_observedAtMs].
    rewrite throw_if_skip; [cbn [mbind result_bind]|apply negb_false_iff].
    2:{ unfold valid_revision. cbn. rewrite Hsig. by apply inbox_stored. }
    rewrite Hr, Hst, Hn. cbn [mbind result_bind]. rewrite Hd, Hs, Hnow.
    rewrite (bool_decide_eq_false_2 (finalized = _)) by (by destruct (fn_target (ir_finality r))).
    rewrite bool_decide_eq_true_2 by done. cbn [negb throw_if mbind result_bind]. reflexivity.
  - eexists. cbn. rewrite lookup_insert_eq. done.
Qed.
Lemma orphaned_succeeds c provider now t :
  inbox_ok t -> reads t c -> inbox_date now = true -> fc_finalityEvidenceVersion c < MAX_FINALITY_EVIDENCE_VERSION ->
  fc_lastMissingFinalityProviderId c = Some provider ->
  valid_revision (orphaned_revision c provider now) = true
  /\ exists r', enqueueRevision (orphaned_revision c provider now) t = Ok (tt, put_row (fc_signature c) r' t)
       /\ revised (put_row (fc_signature c) r' t) c orphaned.
Proof.
  intros Hok (r & Hr & Hs & Hc) Hnow Hmax Hp. pose proof (io_rows _ Hok _ _ Hr) as Hrow.
  pose proof (candidate_of_row _ _ _ Hc) as ([Hsig _ Hopen Hpolls Hcorr Hver _] & _ & Hsl & _).
  pose proof (candidate_row _ _ _ Hc) as (Ho & _ & Ht & Hpo & Hpr & Hv).
  assert (valid_revision (orphaned_revision c provider now) = true) as Hval.
  { unfold valid_revision. cbn. rewrite Hsig, Hopen, Hpolls, Hver. unfold provider_correlates in Hcorr. rewrite Hp in Hcorr.
    rewrite (bool_decide_eq_false_2 (Some provider = None)) in Hcorr by done. apply eqb_prop in Hcorr.
    unfold safeCount in Hpolls. bool_prop. cbn. rewrite andb_true_r. apply andb_true_iff.
    split; [apply Z.ltb_lt; lia|by apply inbox_stored]. }
  split; [done|].
  destruct (ro_processed _ _ Hrow Hs) as (_ & [stored Hst] & _). pose proof (ro_decodes _ _ Hrow) as Hdec. rewrite Hst in Hdec.
  assert (reconciledStatus (fn_target (ir_finality r)) orphaned = Ok orphaned) as Hn
    by (by destruct (fn_target (ir_finality r))).
  pose proof (decode_next _ _ _ _ _ _ Hdec Hn) as Hd.
  eexists. split.
  - unfold enqueueRevision, check_stored, conflict_if. rewrite Hval. cbn [orphaned_revision rv_signature rv_orphaned rv_observedAtMs].
    cbn [negb throw_if mbind result_bind]. rewrite Hr, Hst, Hn. cbn [mbind result_bind]. rewrite Hd, Hs, Hnow, <- Hv, Hver.
    rewrite (bool_decide_eq_false_2 (orphaned = _)) by (by destruct (fn_target (ir_finality r))).
    rewrite bool_decide_eq_true_2 by done. cbn [negb throw_if mbind result_bind].
    assert ((fc_finalityEvidenceVersion c =? MAX_FINALITY_EVIDENCE_VERSION) = false) as Hne by (apply Z.eqb_neq; lia).
    rewrite Hne, Hc. cbn [negb throw_if mbind result_bind]. unfold revision_expected.
    rewrite Hne, Hp, !Z.eqb_refl, !bool_decide_eq_true_2 by done. reflexivity.
  - eexists. cbn. rewrite lookup_insert_eq. done.
Qed.

(** * A pass that nobody disturbs *)

Context (policy : TransactionInboxRetryPolicy) (host : FinalityHost) (reconciler : FinalityReconciler)
  (Hhex : forall x, is_sha256_hex (sha256_hex x) = true) (Hpolicy : policy_ok policy)
  (Hfault : forall n, fh_fault host n = NoFault) (Hothers : forall n, fh_others host n = []).

(** The tables stay valid and only the rows of some transactions change. *)
Record touches (signatures : list string) (w w' : finality_world) : Prop := {
  to_tables : inbox_ok (fw_tables w');
  to_frame : forall s, s ∉ signatures -> ib_rows (fw_tables w') !! s = ib_rows (fw_tables w) !! s;
}.
Lemma touches_trans l1 l2 w1 w2 w3 : touches l1 w1 w2 -> touches l2 w2 w3 -> touches (l1 ++ l2) w1 w3.
Proof. intros [_ Hf1] [Ht Hf2]. constructor; [done|]. intros s Hs. rewrite Hf2, Hf1; [done|set_solver..]. Qed.
Lemma reads_frame l w w' c : touches l w w' -> fc_signature c ∉ l -> reads (fw_tables w) c -> reads (fw_tables w') c.
Proof. intros [_ Hf] Hc (r & Hr & Hx). exists r. by rewrite Hf. Qed.
Lemma revised_frame l w w' c next :
  touches l w w' -> fc_signature c ∉ l -> revised (fw_tables w) c next -> revised (fw_tables w') c next.
Proof. intros [_ Hf] Hc (r & Hr & Hx). exists r. by rewrite Hf. Qed.
Lemma quiet_call {A} (call : inbox_call) (f : tx A) w a signature r' :
  (forall t, run_call policy call t = snd <$> f t) -> inbox_ok (fw_tables w) ->
  f (fw_tables w) = Ok (a, put_row signature r' (fw_tables w)) ->
  exists w', store_call policy host (Some call) f w = (Ok a, w')
    /\ fw_tables w' = put_row signature r' (fw_tables w) /\ touches [signature] w w'.
Proof.
  intros Hrun Hok Hf. unfold store_call. rewrite Hfault, Hothers. cbn [run_calls fold_left]. rewrite Hf.
  eexists. split; [done|]. split; [done|]. constructor; cbn.
  - by eapply (call_keeps policy Hhex Hpolicy call f).
  - intros s Hs. apply lookup_insert_ne. set_solver.
Qed.
Lemma require_true b (w : finality_world) : b = true -> require b w = (Ok tt, w).
Proof. by intros ->. Qed.
Lemma recordPoll_returns c status provider now w :
  inbox_ok (fw_tables w) -> reads (fw_tables w) c -> open_or_none status = true -> unexhausted c -> inbox_date now = true ->
  exists w', recordPoll policy host c status provider now w = (Ok (polled_candidate c status provider), w')
    /\ touches [fc_signature c] w w' /\ reads (fw_tables w') (polled_candidate c status provider).
Proof.
  intros Hok (r & Hr & Hs & Hc) Hst Hu Hnow. pose proof (candidate_of_row _ _ _ Hc) as (Hcok & _).
  set (clock := fh_clock host (fw_calls w)).
  destruct (poll_succeeds clock c status provider now (fw_tables w) r) as (r' & Hp & Hs' & Hc'); try done.
  destruct (quiet_call (CallPoll clock (poll_observation c status provider now)) _ w _ _ _ (fun _ => eq_refl) Hok Hp)
    as (w' & Hcall & Ht & Hto).
  exists w'. split; [|split; [done|]].
  - unfold recordPoll, at_stage, pbind, store_clock, or_throw, lift, pret. cbn zeta. fold clock.
    destruct Hu as [Hu1 Hu2]. pose proof Hcok as [Hsig _ _ Hpolls Hprov Hver _].
    rewrite require_true.
    2:{ apply negb_true_iff, orb_false_iff. rewrite Z.leb_gt, Z.ltb_ge. lia. }
    rewrite require_true.
    2:{ apply negb_true_iff, andb_false_iff. right. apply negb_false_iff, is_safe_integer_true.
        unfold safeCount in Hpolls. bool_prop. unfold MAX_SAFE_INTEGER in *. lia. }
    rewrite require_true.
    2:{ unfold recordFinalityPoll, check_stored in Hp. by apply bind_Ok in Hp as (? & ?%throw_if_Ok%negb_false_iff & _). }
    fold clock. rewrite Hcall, candidate_round_trip by (by apply polled_ok).
    rewrite require_true; [done|]. apply (poll_accepted clock c status provider now (fw_tables w) _ (put_row (fc_signature c) r' (fw_tables w)));
      [|lia|done].
    exists r, r. do 3 (split; [done|]). apply moves_refl, (ro_started _ _ (io_rows _ Hok _ _ Hr)). auto.
  - exists r'. rewrite Ht. cbn. by rewrite lookup_insert_eq.
Qed.
Lemma finalized_returns c now w :
  inbox_ok (fw_tables w) -> reads (fw_tables w) c -> inbox_date now = true ->
  exists w', enqueueFinalizedRevision policy host (fc_signature c) now w = (Ok tt, w')
    /\ touches [fc_signature c] w w' /\ revised (fw_tables w') c finalized.
Proof.
  intros Hok Hr Hnow. destruct (finalized_succeeds c now (fw_tables w)) as (r' & Hf & Hrev); try done.
  destruct (quiet_call (CallRevise (finalized_revision c now)) _ w _ _ _ (fun _ => eq_refl) Hok Hf) as (w' & Hcall & Ht & Hto).
  exists w'. split; [|split; [done|by rewrite Ht]].
  unfold enqueueFinalizedRevision, at_stage, pbind. cbn zeta. fold (finalized_revision c now).
  rewrite require_true, Hcall; [done|]. unfold enqueueRevision, check_stored in Hf.
  by apply bind_Ok in Hf as (? & ?%throw_if_Ok%negb_false_iff & _).
Qed.
Lemma orphaned_returns c provider now w :
  inbox_ok (fw_tables w) -> reads (fw_tables w) c -> inbox_date now = true ->
  fc_finalityEvidenceVersion c < MAX_FINALITY_EVIDENCE_VERSION -> fc_lastMissingFinalityProviderId c = Some provider ->
  exists w', enqueueOrphanedRevision policy host c now w = (Ok tt, w')
    /\ touches [fc_signature c] w w' /\ revised (fw_tables w') c orphaned.
Proof.
  intros Hok Hr Hnow Hv Hp. destruct (orphaned_succeeds c provider now (fw_tables w)) as (Hval & r' & Hf & Hrev); try done.
  destruct (quiet_call (CallRevise (orphaned_revision c provider now)) _ w _ _ _ (fun _ => eq_refl) Hok Hf) as (w' & Hcall & Ht & Hto).
  exists w'. split; [|split; [done|by rewrite Ht]].
  unfold enqueueOrphanedRevision, at_stage, pbind, or_throw, lift. rewrite Hp. cbn zeta iota. fold (orphaned_revision c provider now).
  by rewrite require_true, Hcall.
Qed.

Section Loops.
Context (pass : CapturedFinalityPass) (root now : Z) (Hnow : inbox_date now = true).
Definition known_status (s : option FinalityHistoryStatus) : Prop := hs_confirmationStatus <$> s <> Some orphaned.
(** A candidate after its turn in the first loop. *)
Definition after_turn t c (status : option ChainConfirmationStatus) : Prop :=
  if bool_decide (status = Some finalized) then revised t c finalized
  else reads t (polled_candidate c status (pa_providerId pass)).
(** Whether the second loop orphans it. *)
Definition condemned c (status : option FinalityHistoryStatus) : bool :=
  bool_decide (hs_confirmationStatus <$> status = None)
  && (rc_missingPollThreshold reconciler <=? polled_misses c None (pa_providerId pass)) && (fc_slot c <? root).
Fixpoint condemned_list (cs : list FinalityCandidate) (ss : list (option FinalityHistoryStatus)) : list FinalityCandidate :=
  match cs, ss with
  | c :: cs', s :: ss' =>
      if condemned c s then polled_candidate c None (pa_providerId pass) :: condemned_list cs' ss' else condemned_list cs' ss'
  | _, _ => []
  end.
Definition push_all (l : list FinalityCandidate) (groups : list (Z * list FinalityCandidate)) :=
  fold_left (fun g c => push_eligible c g) l groups.
Definition count_finalized (ss : list (option FinalityHistoryStatus)) : Z :=
  Z.of_nat (List.length (List.filter (fun s => bool_decide (hs_confirmationStatus <$> s = Some finalized)) ss)).
Lemma after_turn_frame l w w' c status :
  touches l w w' -> fc_signature c ∉ l -> after_turn (fw_tables w) c status -> after_turn (fw_tables w') c status.
Proof.
  intros Ht Hc. unfold after_turn. destruct (bool_decide _); [by apply revised_frame with l|].
  by apply (reads_frame l).
Qed.
Lemma poll_loop_returns cs ss st w :
  inbox_ok (fw_tables w) -> NoDup (map fc_signature cs) -> List.length ss = List.length cs ->
  Forall (fun c => reads (fw_tables w) c /\ unexhausted c) cs -> Forall known_status ss ->
  exists st' w', poll_loop policy host reconciler pass root now cs ss st w = (Ok st', w')
    /\ touches (map fc_signature cs) w w'
    /\ Forall2 (fun c s => after_turn (fw_tables w') c (hs_confirmationStatus <$> s)) cs ss
    /\ ps_eligibleBySlot st' = push_all (condemned_list cs ss) (ps_eligibleBySlot st)
    /\ ps_pollCount st' = ps_pollCount st + (Z.of_nat (List.length cs) - count_finalized ss)
    /\ ps_revisionCount st' = ps_revisionCount st + count_finalized ss.
Proof.
  revert ss st w. induction cs as [|c cs IH]; intros ss st w Hok Hnd Hlen Hcs Hss.
  { destruct ss; [|done]. exists st, w. unfold count_finalized. cbn. rewrite !Z.add_0_r. do 2 (split; [done|]).
    split; [constructor|done]. }
  destruct ss as [|s ss]; [done|]. injection Hlen as Hlen. apply Forall_cons in Hcs as [[Hr Hu] Hcs].
  apply Forall_cons in Hss as [Hs Hss]. cbn in Hnd. apply NoDup_cons in Hnd as [Hnc Hnd].
  assert (forall w1, touches [fc_signature c] w w1 -> Forall (fun c => reads (fw_tables w1) c /\ unexhausted c) cs) as Hkeep.
  { intros w1 Hw1. rewrite Forall_forall in Hcs |- *. intros d Hd. destruct (Hcs d Hd). split; [|done].
    eapply reads_frame; [exact Hw1| |done]. intros E%list_elem_of_singleton. apply Hnc. rewrite <- E. by apply list_elem_of_fmap_2. }
  assert (forall w1 st1, touches [fc_signature c] w w1 -> after_turn (fw_tables w1) c (hs_confirmationStatus <$> s) ->
    exists st' w', poll_loop policy host reconciler pass root now cs ss st1 w1 = (Ok st', w')
      /\ touches (map fc_signature (c :: cs)) w w'
      /\ Forall2 (fun c s => after_turn (fw_tables w') c (hs_confirmationStatus <$> s)) (c :: cs) (s :: ss)
      /\ ps_eligibleBySlot st' = push_all (condemned_list cs ss) (ps_eligibleBySlot st1)
      /\ ps_pollCount st' = ps_pollCount st1 + (Z.of_nat (List.length cs) - count_finalized ss)
      /\ ps_revisionCount st' = ps_revisionCount st1 + count_finalized ss) as Hrest.
  { intros w1 st1 Hw1 Hturn. destruct (IH ss st1 w1) as (st' & w' & Hrun & Hto & Hall & Hrest); [apply Hw1|done|done|by apply Hkeep|done|].
    exists st', w'. split; [done|]. split; [by apply (touches_trans [fc_signature c] _ w w1)|].
    split; [|done]. constructor; [|done]. by eapply after_turn_frame. }
  cbn [poll_loop]. cbn zeta. unfold after_turn in Hrest. unfold count_finalized. cbn [List.filter condemned_list].
  destruct (bool_decide (hs_confirmationStatus <$> s = Some finalized)) eqn:Hfin.
  - destruct (finalized_returns c now w) as (w1 & Hrun & Hto & Hrev); [done..|]. unfold pbind. rewrite Hrun.
    destruct (Hrest w1 {| ps_pollCount := ps_pollCount st; ps_revisionCount := ps_revisionCount st + 1;
             ps_eligibleBySlot := ps_eligibleBySlot st |} Hto Hrev) as (st' & w' & Hloop & ? & ? & Hg & Hp & Hrv).
    exists st', w'. split; [done|]. split; [done|]. split; [done|]. bool_prop. unfold condemned. rewrite Hfin.
    cbn [bool_decide andb]. split; [exact Hg|]. fold (count_finalized ss). cbn in *. unfold count_finalized in *. lia.
  - destruct (recordPoll_returns c (hs_confirmationStatus <$> s) (pa_providerId pass) now w) as (w1 & Hrun & Hto & Hrd); try done.
    { unfold known_status in Hs. bool_prop. destruct s as [[? []]|]; done. }
    unfold pbind. rewrite Hrun. match goal with |- context [poll_loop _ _ _ _ _ _ _ _ ?x w1] => set (st1 := x) end.
    destruct (Hrest w1 st1 Hto Hrd) as (st' & w' & Hloop & ? & ? & Hg & Hp & Hrv).
    exists st', w'. split; [done|]. split; [done|]. split; [done|]. unfold st1 in Hg, Hp, Hrv. cbn in Hg, Hp, Hrv |- *.
    split; [|unfold count_finalized in *; lia]. rewrite Hg. unfold condemned. destruct s as [[sl status]|].
    + cbn. done.
    + cbn. rewrite (bool_decide_eq_true_2 (Some _ = Some _)) by done. rewrite Z.ltb_antisym, (Z.ltb_antisym root).
      destruct (rc_missingPollThreshold reconciler <=? _); cbn; [|done]. by destruct (root <=? fc_slot c).
Qed.

(** What the second loop needs of a candidate. *)
Definition ready (w : finality_world) c : Prop :=
  reads (fw_tables w) c /\ fc_finalityEvidenceVersion c < MAX_FINALITY_EVIDENCE_VERSION
  /\ is_Some (fc_lastMissingFinalityProviderId c).
Lemma ready_frame l w w' (cs : list FinalityCandidate) :
  touches l w w' -> (forall c, c ∈ cs -> fc_signature c ∉ l) -> Forall (ready w) cs -> Forall (ready w') cs.
Proof.
  intros Ht Hl Hcs. rewrite Forall_forall in Hcs |- *. intros c Hc. destruct (Hcs c Hc) as (? & ? & ?).
  split; [|done]. by eapply reads_frame; [exact Ht|apply Hl|].
Qed.
Lemma distinct_signatures c (cs : list FinalityCandidate) :
  NoDup (map fc_signature (c :: cs)) -> forall d, d ∈ cs -> fc_signature d ∉ [fc_signature c].
Proof.
  cbn. intros [Hn _]%NoDup_cons d Hd E%list_elem_of_singleton. apply Hn. rewrite <- E. by apply list_elem_of_fmap_2.
Qed.
Lemma orphan_group_returns group rc w :
  inbox_ok (fw_tables w) -> NoDup (map fc_signature group) -> Forall (ready w) group ->
  exists w', orphan_group policy host now group rc w = (Ok (rc + Z.of_nat (List.length group)), w')
    /\ touches (map fc_signature group) w w' /\ Forall (fun c => revised (fw_tables w') c orphaned) group.
Proof.
  revert rc w. induction group as [|c group IH]; intros rc w Hok Hnd Hr.
  { exists w. cbn. by rewrite Z.add_0_r. }
  pose proof (distinct_signatures c group Hnd) as Hd. pose proof Hnd as [Hn Hnd']%NoDup_cons.
  apply Forall_cons in Hr as [(Hr & Hv & [p Hp]) Hrs].
  destruct (orphaned_returns c p now w) as (w1 & Hrun & Hto & Hrev); [done..|].
  destruct (IH (rc + 1) w1) as (w' & Hloop & Hto' & Hall); [apply Hto|done|by eapply ready_frame|].
  exists w'. cbn [orphan_group]. unfold pbind. rewrite Hrun, Hloop. split; [do 2 f_equal; cbn [List.length]; lia|].
  split; [by apply (touches_trans [fc_signature c] _ w w1)|]. constructor; [|done]. by eapply revised_frame.
Qed.
(** The finalized blocks do not contain the candidates. *)
Definition absent (groups : list (Z * list FinalityCandidate)) : Prop :=
  Forall (fun p => exists block, readBlock pass (fst p) = Ok block /\ Forall (fun c => fc_signature c ∉ block) (snd p)) groups.
Lemma block_loop_returns groups n rc w :
  inbox_ok (fw_tables w) -> NoDup (map fc_signature (grouped groups)) -> Forall (ready w) (grouped groups) ->
  absent groups -> (n + List.length groups <= MAX_FINALITY_BLOCK_SLOTS_PER_RUN)%nat ->
  exists w', block_loop policy host pass now groups n None rc w = (Ok (None, rc + Z.of_nat (List.length (grouped groups))), w')
    /\ touches (map fc_signature (grouped groups)) w w' /\ Forall (fun c => revised (fw_tables w') c orphaned) (grouped groups).
Proof.
  revert n rc w. induction groups as [|[slot group] rest IH]; intros n rc w Hok Hnd Hr Hab Hn.
  { exists w. cbn. by rewrite Z.add_0_r. }
  change (grouped ((slot, group) :: rest)) with (group ++ grouped rest) in *. rewrite map_app in Hnd |- *.
  apply NoDup_app in Hnd as (Hnd & Hdis & Hnd'). apply Forall_app in Hr as [Hr Hrs]. cbn in Hn.
  apply Forall_cons in Hab as [(block & Hb & Habs) Hab]. cbn in Hb, Habs.
  destruct (orphan_group_returns group rc w) as (w1 & Hrun & Hto & Hrev); [done..|].
  destruct (IH (S n) (rc + Z.of_nat (List.length group)) w1) as (w' & Hloop & Hto' & Hall); [apply Hto|done| |done|lia|].
  { eapply ready_frame; [exact Hto| |done]. intros c Hc Hin. eapply Hdis; [exact Hin|]. by apply list_elem_of_fmap_2. }
  exists w'. cbn [block_loop]. destruct (Nat.leb_spec MAX_FINALITY_BLOCK_SLOTS_PER_RUN n); [lia|]. rewrite Hb.
  assert (existsb (fun c => includes (fc_signature c) block) group = false) as ->.
  { apply not_true_iff_false. intros (c & Hc & Hi)%List.existsb_exists. apply includes_true in Hi.
    rewrite Forall_forall in Habs. by eapply (Habs c); [apply list_elem_of_In|]. }
  unfold pbind. rewrite Hrun, Hloop. rewrite length_app. split; [do 2 f_equal; f_equal; lia|].
  split; [by eapply touches_trans|]. apply Forall_app. split; [|done].
  rewrite Forall_forall in Hrev |- *. intros c Hc. eapply revised_frame; [exact Hto'| |by apply Hrev].
  intros Hin. eapply Hdis; [|exact Hin]. by apply list_elem_of_fmap_2.
Qed.
End Loops.

(** * The groups of the second loop *)

Lemma push_perm c groups : grouped (push_eligible c groups) ≡ₚ c :: grouped groups.
Proof.
  induction groups as [|[slot group] rest IH]; [done|]. cbn [push_eligible]. destruct (slot =? fc_slot c).
  - change (grouped ((slot, group ++ [c]) :: rest)) with ((group ++ [c]) ++ grouped rest).
    change (grouped ((slot, group) :: rest)) with (group ++ grouped rest). rewrite <- app_assoc. apply Permutation_sym, Permutation_middle.
  - change (grouped ((slot, group) :: push_eligible c rest)) with (group ++ grouped (push_eligible c rest)).
    change (grouped ((slot, group) :: rest)) with (group ++ grouped rest). rewrite IH. apply Permutation_sym, Permutation_middle.
Qed.
Lemma push_all_perm l groups : grouped (push_all l groups) ≡ₚ l ++ grouped groups.
Proof.
  revert groups. induction l as [|c l IH]; intros groups; [done|].
  change (push_all (c :: l) groups) with (push_all l (push_eligible c groups)). rewrite IH, push_perm. cbn. apply Permutation_sym, Permutation_middle.
Qed.
Lemma push_slots c groups :
  NoDup (map fst groups) ->
  NoDup (map fst (push_eligible c groups)) /\ (forall slot, slot ∈ map fst (push_eligible c groups) -> slot = fc_slot c \/ slot ∈ map fst groups).
Proof.
  induction groups as [|[slot group] rest IH]; cbn; intros Hnd.
  { split; [apply NoDup_singleton|]. intros s ->%list_elem_of_singleton. by left. }
  apply NoDup_cons in Hnd as [Hn Hnd]. destruct (Z.eqb_spec slot (fc_slot c)) as [E|E]; cbn.
  - split; [by apply NoDup_cons|]. auto.
  - destruct (IH Hnd) as [IH1 IH2]. split.
    + apply NoDup_cons. split; [|done]. intros [?|?]%IH2; done.
    + intros s [->|Hs]%elem_of_cons; [set_solver|]. apply IH2 in Hs. set_solver.
Qed.
Lemma push_all_slots l groups :
  NoDup (map fst groups) ->
  NoDup (map fst (push_all l groups)) /\ (forall slot, slot ∈ map fst (push_all l groups) -> slot ∈ map fc_slot l \/ slot ∈ map fst groups).
Proof.
  revert groups. induction l as [|c l IH]; intros groups Hnd; [auto|].
  change (push_all (c :: l) groups) with (push_all l (push_eligible c groups)).
  destruct (push_slots c groups Hnd) as [Hn1 Hs1]. destruct (IH _ Hn1) as [Hn2 Hs2]. split; [done|].
  intros slot [?|Hs]%Hs2; [set_solver|]. apply Hs1 in Hs. set_solver.
Qed.
Lemma push_absent pass c groups block :
  readBlock pass (fc_slot c) = Ok block -> fc_signature c ∉ block -> absent pass groups -> absent pass (push_eligible c groups).
Proof.
  intros Hb Hc. induction 1 as [|[slot group] rest (block' & Hb' & Hg) Hr IH]; cbn.
  { apply Forall_singleton. exists block. split; [done|]. by apply Forall_singleton. }
  destruct (Z.eqb_spec slot (fc_slot c)) as [E|E]; constructor; try done.
  - exists block'. split; [done|]. apply Forall_app. split; [done|]. apply Forall_singleton. cbn in Hb'. congruence.
  - by exists block'.
Qed.
Lemma push_all_absent pass l groups :
  Forall (fun c => exists block, readBlock pass (fc_slot c) = Ok block /\ fc_signature c ∉ block) l ->
  absent pass groups -> absent pass (push_all l groups).
Proof.
  intros Hl. revert groups. induction Hl as [|c l (block & Hb & Hc) _ IH]; intros groups Hg; [done|]. cbn.
  apply IH. by eapply push_absent.
Qed.
Lemma condemned_signatures pass root cs ss :
  map fc_signature (condemned_list pass root cs ss) `sublist_of` map fc_signature cs.
Proof.
  revert ss. induction cs as [|c cs IH]; intros [|s ss]; cbn; try done; [apply sublist_nil_l|].
  destruct (condemned pass root c s); cbn; by constructor.
Qed.
Lemma condemned_elem pass root cs ss d :
  d ∈ condemned_list pass root cs ss <->
  exists c s, (c, s) ∈ zip cs ss /\ condemned pass root c s = true /\ d = polled_candidate c None (pa_providerId pass).
Proof.
  revert ss. induction cs as [|c cs IH]; intros [|s ss]; cbn; try (split; [by intros ?%elem_of_nil|by intros (? & ? & ?%elem_of_nil & _)]).
  destruct (condemned pass root c s) eqn:E; rewrite ?elem_of_cons, IH; split.
  - intros [->|(c' & s' & ? & ? & ?)]; [exists c, s|exists c', s']; set_solver.
  - intros (c' & s' & [[= -> ->]|?]%elem_of_cons & ? & ->); [by left|right]. by exists c', s'.
  - intros (c' & s' & ? & ? & ?). exists c', s'. set_solver.
  - intros (c' & s' & [[= -> ->]|?]%elem_of_cons & ? & ->); [congruence|]. by exists c', s'.
Qed.
Lemma spared_signature pass root cs ss c s :
  NoDup (map fc_signature cs) -> (c, s) ∈ zip cs ss -> condemned pass root c s = false ->
  fc_signature c ∉ map fc_signature (condemned_list pass root cs ss).
Proof.
  revert ss. induction cs as [|c0 cs IH]; intros [|s0 ss]; cbn; try (by intros _ ?%elem_of_nil).
  intros [Hn Hnd]%NoDup_cons Hin Hc.
  assert (forall d, d ∈ map fc_signature (condemned_list pass root cs ss) -> d ∈ map fc_signature cs) as Hsub.
  { intros d. apply sublist_subseteq, condemned_signatures. }
  apply elem_of_cons in Hin as [[= -> ->]|Hin].
  - rewrite Hc. intros ?%Hsub. done.
  - specialize (IH ss Hnd Hin Hc). destruct (condemned pass root c0 s0); [|done]. cbn. intros [E|?]%elem_of_cons; [|done].
    apply Hn. rewrite <- E. apply list_elem_of_fmap_2. by eapply elem_of_zip_l.
Qed.

(** * The whole pass *)

Lemma list_distinct limit t cs t' :
  listForFinality limit t = Ok (cs, t') ->
  t' = t /\ NoDup (map fc_signature cs) /\ Z.of_nat (List.length cs) <= limit /\ Forall (reads t) cs.
Proof.
  intros Hc. unfold listForFinality, check_stored in Hc. apply bind_Ok in Hc as (? & Hlim%throw_if_Ok & Hc).
  apply bind_Ok in Hc as (l & Hm & Hc). injection Hc as -> <-. split; [done|]. bool_prop.
  match type of Hm with mapM _ (select_rows ?ok ?rank ?n t) = _ =>
    pose proof (select_NoDup ok rank n t) as Hnd;
    assert (List.length (select_rows ok rank n t) <= n)%nat as Hlen by (unfold select_rows; rewrite length_take; lia);
    assert (Forall (fun p => ib_rows t !! fst p = Some (snd p) /\ row_status (snd p) = PROCESSED) (select_rows ok rank n t)) as Hsel
  end.
  { apply Forall_forall. intros p [Hl Hok]%select_elem. bool_prop. done. }
  match type of Hm with mapM _ ?rows = _ => set (sel := rows) in * end. clearbody sel.
  assert (map fc_signature cs = sel.*1 /\ Forall (reads t) cs) as [Hsig Hreads].
  { clear Hnd Hlen. revert cs Hm. induction Hsel as [|p sel [Hl Hs] _ IH]; intros cs Hm; cbn in Hm; [by injection Hm as <-|].
    apply bind_Ok in Hm as (c & Hcand & Hm). apply bind_Ok in Hm as (k & Hk & Hm). injection Hm as <-.
    destruct (IH k Hk) as [Ek ?]. pose proof (candidate_of_row _ _ _ Hcand) as (_ & E & _). cbn. rewrite E, Ek. split; [done|].
    constructor; [|done]. exists (snd p). by rewrite E. }
  rewrite Hsig. split; [done|]. split; [|done]. rewrite <- (length_map fc_signature), Hsig, length_fmap. lia.
Qed.
Lemma reads_ok t c : reads t c -> candidate_ok c.
Proof. intros (r & _ & _ & Hc). by apply candidate_of_row in Hc as [? _]. Qed.
Lemma readCandidates_returns w cs :
  inbox_ok (fw_tables w) -> listForFinality (rc_limit reconciler) (fw_tables w) = Ok (cs, fw_tables w) ->
  exists w', readCandidates policy host reconciler w = (Ok cs, w') /\ fw_tables w' = fw_tables w.
Proof.
  intros Hok Hl. pose proof (list_distinct _ _ _ _ Hl) as (_ & _ & Hlen & Hr).
  unfold readCandidates, at_stage, pbind, store_call. rewrite Hfault, Hothers. cbn [run_calls fold_left]. rewrite Hl.
  unfold or_throw, lift. rewrite candidates_round_trip; [by eexists| |done].
  eapply Forall_impl; [exact Hr|]. apply reads_ok.
Qed.
Lemma statuses_known raw n ss : snapshotStatuses raw n = Ok ss -> Forall known_status ss /\ Z.of_nat (List.length ss) = n.
Proof.
  unfold snapshotStatuses, snapshotDenseArray. destruct raw as [| | | | | |proxy plain frozen items|]; try done. destruct plain; [|done].
  destruct (Z.eqb_spec (Z.of_nat (List.length items)) n) as [E|]; [|done]. intros Hs.
  destruct (mapM _ items) as [l|] eqn:Hm; [|done]. injection Hs as <-. apply mapM_Some in Hm. split.
  - clear E. induction Hm as [|item s items l Hi _ IH]; constructor; [|done].
    apply bind_Some in Hi as (v & _ & Hv). unfold known_status. destruct v as [| | | | | | |? ? ? props]; try done; [by injection Hv as <-|].
    cbn in Hv. repeat (apply bind_Some in Hv as (? & ? & Hv)). injection Hv as <-. cbn. intros [= ->].
    match goal with H : confirmationStatusFrom ?v = Some orphaned |- _ => unfold confirmationStatusFrom, enumValue in H; destruct v; try done end.
    cbn in *. repeat (destruct (bool_decide _); try done).
  - by apply Forall2_length in Hm as <-.
Qed.
(** The state of a transaction after the pass: it waits for the revision to finalized or to
    orphaned, or its row counts the poll. *)
Definition settled (pass : CapturedFinalityPass) (root : Z) t c (s : option FinalityHistoryStatus) : Prop :=
  if bool_decide (hs_confirmationStatus <$> s = Some finalized) then revised t c finalized
  else if condemned pass root c s then revised t c orphaned
  else reads t (polled_candidate c (hs_confirmationStatus <$> s) (pa_providerId pass)).
(** The provider and the clock answer, consistently with what the tables say, and the finalized
    blocks of at most sixteen slots confirm what is missing. *)
Record answers (cs : list FinalityCandidate) (ss : list (option FinalityHistoryStatus)) (pass : CapturedFinalityPass)
    (root now : Z) : Prop := {
  an_pass : capturePass (fh_openPass host) = Ok pass;
  an_history : (raw ← readHistory pass (map fc_signature cs); snapshotStatuses raw (Z.of_nat (List.length cs))) = Ok ss;
  an_root : (raw ← readRoot pass; finalizedSlot raw) = Ok root;
  an_consistent : assertConsistentHistory cs ss root = Ok tt;
  an_now : readNow (fh_now host) = Ok now;
  an_date : inbox_date now = true;
  an_blocks : Forall (fun c => exists block, readBlock pass (fc_slot c) = Ok block /\ fc_signature c ∉ block)
                (condemned_list pass root cs ss);
  an_slots : exists slots : list Z, (List.length slots <= MAX_FINALITY_BLOCK_SLOTS_PER_RUN)%nat
               /\ Forall (fun c => fc_slot c ∈ slots) (condemned_list pass root cs ss);
}.
Lemma condemned_ready cs ss pass root w :
  Forall unexhausted cs ->
  Forall2 (fun c s => after_turn pass (fw_tables w) c (hs_confirmationStatus <$> s)) cs ss ->
  Forall (ready w) (condemned_list pass root cs ss).
Proof.
  intros Hu Ha. apply Forall_forall. intros d (c & s & Hin & Hc & ->)%condemned_elem. rewrite Forall_forall in Hu.
  destruct (Hu c (elem_of_zip_l _ _ _ _ Hin)) as [Hv _]. unfold condemned in Hc. bool_prop.
  assert (after_turn pass (fw_tables w) c (hs_confirmationStatus <$> s)) as Ht.
  { clear -Ha Hin. induction Ha; [by apply elem_of_nil in Hin|]. apply elem_of_cons in Hin as [[= -> ->]|?]; auto. }
  unfold after_turn in Ht. rewrite H2 in Ht. cbn in Ht. split; [done|]. split; [done|by eexists].
Qed.
Lemma settled_after cs ss pass root w w' :
  NoDup (map fc_signature cs) ->
  Forall2 (fun c s => after_turn pass (fw_tables w) c (hs_confirmationStatus <$> s)) cs ss ->
  (forall s, s ∉ map fc_signature (condemned_list pass root cs ss) -> ib_rows (fw_tables w') !! s = ib_rows (fw_tables w) !! s) ->
  Forall (fun c => revised (fw_tables w') c orphaned) (condemned_list pass root cs ss) ->
  Forall2 (settled pass root (fw_tables w')) cs ss.
Proof.
  intros Hnd Ha Hf Hr. rewrite Forall_forall in Hr. apply Forall2_same_length_lookup. apply Forall2_same_length_lookup in Ha as [Hlen Ha].
  split; [done|]. intros i c s Hc Hs. specialize (Ha i c s Hc Hs). cbn in Ha.
  assert ((c, s) ∈ zip cs ss) as Hin by (apply list_elem_of_lookup; exists i; apply lookup_zip_Some; done).
  unfold settled, after_turn in *. destruct (condemned pass root c s) eqn:E.
  - assert (bool_decide (hs_confirmationStatus <$> s = Some finalized) = false) as ->.
    { unfold condemned in E. bool_prop. apply bool_decide_eq_false. congruence. }
    assert (polled_candidate c None (pa_providerId pass) ∈ condemned_list pass root cs ss) as Hd
      by (apply condemned_elem; by exists c, s).
    exact (Hr _ Hd).
  - pose proof (spared_signature pass root cs ss c s Hnd Hin E) as Hsp.
    destruct (bool_decide _); destruct Ha as (r & Hl & Hx); exists r; by rewrite Hf.
Qed.
(** The second loop on the groups that the first one leaves. *)
Lemma condemned_blocks cs ss pass root now groups rc w :
  answers cs ss pass root now -> NoDup (map fc_signature cs) -> Forall unexhausted cs -> inbox_ok (fw_tables w) ->
  Forall2 (fun c s => after_turn pass (fw_tables w) c (hs_confirmationStatus <$> s)) cs ss ->
  groups = push_all (condemned_list pass root cs ss) [] ->
  exists w', block_loop policy host pass now groups 0 None rc w
             = (Ok (None, rc + Z.of_nat (List.length (condemned_list pass root cs ss))), w')
    /\ touches (map fc_signature (condemned_list pass root cs ss)) w w'
    /\ Forall (fun c => revised (fw_tables w') c orphaned) (condemned_list pass root cs ss).
Proof.
  intros [_ _ _ _ _ Hdate Hblocks (slots & Hn & Hslots)] Hnd Hu Hok Hall Hg. set (dead := condemned_list pass root cs ss) in *.
  pose proof (push_all_perm dead []) as Hperm. rewrite <- Hg in Hperm. change (grouped []) with (@nil FinalityCandidate) in Hperm.
  rewrite app_nil_r in Hperm.
  assert (NoDup (map fc_signature dead)) as Hnd' by (eapply sublist_NoDup; [exact Hnd|apply condemned_signatures]).
  destruct (block_loop_returns pass now Hdate groups 0 rc w) as (w2 & Hblock & [Htok Hf] & Horph).
  { done. }
  { by rewrite Hperm. }
  { rewrite Hperm. by apply condemned_ready. }
  { rewrite Hg. apply push_all_absent; [done|constructor]. }
  { rewrite Hg. destruct (push_all_slots dead []) as [Hsn Hss']; [constructor|]. etransitivity; [|exact Hn]. cbn.
    rewrite <- (length_map fst). apply List.NoDup_incl_length; [by apply NoDup_ListNoDup|].
    intros slot Hin%list_elem_of_In. apply list_elem_of_In. apply Hss' in Hin as [Hin|Hin]; [|by apply elem_of_nil in Hin].
    apply list_elem_of_fmap in Hin as (c & -> & Hc). rewrite Forall_forall in Hslots. auto. }
  rewrite Hperm in Hblock, Horph. exists w2. split; [done|]. split; [|done].
  constructor; [done|]. intros s Hs. apply Hf. by rewrite Hperm.
Qed.
(** C14: a pass that nobody disturbs ends and settles everything it listed.  When the database and
    the provider answer, no other call happens meanwhile, and the counters of the candidates are
    not exhausted, the pass returns the numbers of candidates, polls and revisions; every listed
    transaction that is finalized waits for that revision, every one that its provider missed
    often enough below the root waits for the revision to orphaned, every other one has its poll
    on record; and no other row changed. *)
Theorem undisturbed_pass_settles w cs ss pass root now :
  inbox_ok (fw_tables w) -> listForFinality (rc_limit reconciler) (fw_tables w) = Ok (cs, fw_tables w) ->
  Forall unexhausted cs -> answers cs ss pass root now ->
  exists w',
    runOnce policy host reconciler w
    = (Ok {| fr_candidateCount := Z.of_nat (List.length cs);
             fr_pollCount := Z.of_nat (List.length cs) - count_finalized ss;
             fr_revisionCount := count_finalized ss + Z.of_nat (List.length (condemned_list pass root cs ss)) |}, w')
    /\ touches (map fc_signature cs) w w' /\ Forall2 (settled pass root (fw_tables w')) cs ss.
Proof.
  intros Hok Hl Hu Hans. pose proof (list_distinct _ _ _ _ Hl) as (_ & Hnd & _ & Hreads).
  destruct (readCandidates_returns w cs Hok Hl) as (w0 & Hrun0 & Ht0).
  pose proof Hans as [Hpass Hhist Hroot Hcons Hnow Hdate _ _].
  apply bind_Ok in Hhist as (raw & Hraw & Hss). apply bind_Ok in Hroot as (rawRoot & Hrr & Hroot).
  apply statuses_known in Hss as Hk. destruct Hk as [Hknown Hlen].
  destruct (poll_loop_returns pass root now Hdate cs ss {| ps_pollCount := 0; ps_revisionCount := 0; ps_eligibleBySlot := [] |} w0)
    as (st & w1 & Hloop & Hto1 & Hall & Hg & Hpc & Hrc); [by rewrite Ht0|done|lia| |done|].
  { rewrite Ht0. rewrite Forall_forall in Hreads, Hu |- *. auto. }
  destruct (condemned_blocks cs ss pass root now (ps_eligibleBySlot st) (ps_revisionCount st) w1)
    as (w2 & Hblock & [Htok Hframe] & Horph); try done; [apply Hto1|].
  cbn in Hg, Hpc, Hrc. exists w2. split; [|split].
  - unfold runOnce, pbind. rewrite Hrun0. destruct cs as [|c cs'] eqn:Ecs.
    + destruct ss; [|done]. cbn in Hloop. injection Hloop as <- <-. cbn in Hblock. injection Hblock as <-. done.
    + rewrite <- Ecs in *. unfold lift. rewrite Hpass, Hraw, Hss, Hrr, Hroot, Hcons, Hnow, Hloop, Hblock. cbn. unfold pret.
      do 3 f_equal; lia.
  - constructor; [done|]. intros s Hs. rewrite Hframe, (to_frame _ _ _ Hto1) by (try done; intros Hin; apply Hs;
      by eapply sublist_subseteq; [apply condemned_signatures|]). by rewrite Ht0.
  - by eapply settled_after.
Qed.
End Progress.

(** * An example *)

(** Base 58 as [PublicKey] defines it. *)
Definition example_bs58 : Bs58 :=
  {| bs58_decode := fun s =>
       decoded ← decode_base58 (chars s) [0];
       Some (repeat 0 (leading_ones (chars s)) ++ (if bool_decide (decoded = [0]) then [] else rev decoded));
     bs58_encode := fun bytes => string_of_list_ascii (base58_encode bytes) |}.
(** The launch was missed once by the primary provider, which misses it again; its finalized
    block of the launch's slot holds another transaction, and a second transaction of the queue
    is not processed. *)
Definition missed_calls : list inbox_call :=
  confirmed_calls ++
  [CallPoll 1020 {| po_signature := "launch"; po_confirmationStatus := None; po_providerId := RPC_PRIMARY;
                    po_expectedMissingFinalityPolls := 0; po_expectedLastMissingFinalityProviderId := None;
                    po_expectedFinalityEvidenceVersion := 0; po_observedAtMs := 1020 |}].
Definition other_signature : string := string_of_list_ascii (repeat "1"%char 64).
Definition example_provider : capability :=
  [[("providerId", Some (MemberValue (JString "primary")))];
   [("getHistoryStatuses", Some (MemberFunction (fun _ => Some (frozen_array [JNull]))));
    ("getFinalizedSlot", Some (MemberFunction (fun _ => Some (JBigInt 9))));
    ("getFinalizedBlockSignatures", Some (MemberFunction (fun _ => Some (frozen_array [JString other_signature]))))]].
Definition example_host : FinalityHost :=
  {| fh_openPass := Some example_provider; fh_now := Some (JNumber (NumInt 1030)); fh_fault := fun _ => NoFault;
     fh_clock := fun _ => 1031; fh_others := fun _ => [] |}.
Definition example_reconciler : FinalityReconciler := {| rc_limit := 100; rc_missingPollThreshold := 2 |}.
Definition missed_world `{Sha256} `{Collation} : finality_world :=
  {| fw_tables := run_calls example_policy missed_calls no_rows; fw_calls := 0; fw_log := [] |}.
Definition missed_launch : FinalityCandidate :=
  {| fc_signature := "launch"; fc_slot := 7; fc_confirmationStatus := confirmed; fc_missingFinalityPolls := 1;
     fc_lastMissingFinalityProviderId := Some RPC_PRIMARY; fc_finalityEvidenceVersion := 1; fc_processedAtMs := 1005 |}.
Lemma missed_tables_ok : let S : Sha256 := run_digest in let C : Collation := example_order in inbox_ok (fw_tables missed_world).
Proof. intros S C. apply run_calls_ok; [exact run_digest_hex|exact example_policy_ok|apply no_rows_ok]. Qed.
Definition launch_pass : CapturedFinalityPass :=
  {| pa_providerId := RPC_PRIMARY; pa_getHistoryStatuses := fun _ => Some (frozen_array [JNull]);
     pa_getFinalizedSlot := Some (JBigInt 9);
     pa_getFinalizedBlockSignatures := fun _ => Some (frozen_array [JString other_signature]) |}.
Lemma undisturbed_pass_settles_witness :
  let S : Sha256 := run_digest in
  let C : Collation := example_order in
  let B : Bs58 := example_bs58 in
  exists w',
    runOnce example_policy example_host example_reconciler missed_world
    = (Ok {| fr_candidateCount := 1; fr_pollCount := 1; fr_revisionCount := 1 |}, w')
    /\ touches ["launch"] missed_world w'
    /\ Forall2 (settled example_reconciler launch_pass 9 (fw_tables w')) [missed_launch] [None].
Proof.
  intros S C B.
  apply (undisturbed_pass_settles example_policy example_host example_reconciler run_digest_hex example_policy_ok
           (fun _ => eq_refl) (fun _ => eq_refl) missed_world [missed_launch] [None] launch_pass 9 1030).
  - apply missed_tables_ok.
  - vm_compute. reflexivity.
  - apply Forall_singleton. vm_compute. done.
  - constructor.
    + reflexivity.
    + vm_compute. reflexivity.
    + vm_compute. reflexivity.
    + vm_compute. reflexivity.
    + vm_compute. reflexivity.
    + vm_compute. reflexivity.
    + apply Forall_singleton. exists [other_signature]. split; [vm_compute; reflexivity|].
      intros E%list_elem_of_singleton. vm_compute in E. discriminate E.
    + exists [7]. split; [vm_compute; lia|]. apply Forall_singleton. by apply list_elem_of_singleton.
Defined.
Lemma orphaned_only_on_evidence_witness :
  let S : Sha256 := run_digest in
  let C : Collation := example_order in
  let B : Bs58 := example_bs58 in
  let v := orphaned_revision (polled_candidate missed_launch None RPC_PRIMARY) RPC_PRIMARY 1030 in
  exists t,
    (t, CallRevise v) ∈ fw_log (snd (runOnce example_policy example_host example_reconciler missed_world))
    /\ 2 <= rc_missingPollThreshold example_reconciler
    /\ exists pass r signatures block statuses root,
         orphan_evidence example_host 2 t v pass r signatures block statuses root.
Proof.
  intros S C B v.
  assert (exists t, (t, CallRevise v) ∈ fw_log (snd (runOnce example_policy example_host example_reconciler missed_world))) as [t Hin].
  { exists (fst (List.nth 1 (fw_log (snd (runOnce example_policy example_host example_reconciler missed_world))) (no_rows, CallRevise v))).
    apply (list_elem_of_lookup_2 _ 1%nat). vm_compute. reflexivity. }
  exists t. split; [exact Hin|].
  apply (orphaned_only_on_evidence example_policy example_host example_reconciler run_digest_hex example_policy_ok
           {| fo_limit := JNumber (NumInt 100); fo_missingPollThreshold := JNumber (NumInt 2); fo_nowIsFunction := None |}
           missed_world t v).
  - reflexivity.
  - exact missed_tables_ok.
  - reflexivity.
  - exact Hin.
  - eexists. reflexivity.
Defined.
(** The same candidate while someone else polls it first: the repository refuses the pass's poll. *)
Definition busy_host : FinalityHost :=
  {| fh_openPass := Some example_provider; fh_now := Some (JNumber (NumInt 1030)); fh_fault := fun _ => NoFault;
     fh_clock := fun _ => 1031;
     fh_others := fun _ => [CallPoll 1029 (poll_observation missed_launch (Some confirmed) RPC_FALLBACK_1 1029)] |}.
Lemma committed_poll_is_accepted_witness :
  let S : Sha256 := run_digest in
  let C : Collation := example_order in
  exists e w', recordPoll example_policy busy_host missed_launch None RPC_PRIMARY 1030 missed_world = (Err e, w')
    /\ e = FINALITY_POLL /\ fw_log w' = [].
Proof.
  intros S C.
  destruct (recordPoll example_policy busy_host missed_launch None RPC_PRIMARY 1030 missed_world) as [[c|e] w'] eqn:Hp.
  { exfalso. assert (is_ok (fst (recordPoll example_policy busy_host missed_launch None RPC_PRIMARY 1030 missed_world)) = true) as Hok
      by (rewrite Hp; reflexivity). vm_compute in Hok. discriminate Hok. }
  exists e, w'. split; [reflexivity|].
  assert (exists r, ib_rows (fw_tables missed_world) !! "launch" = Some r /\ row_status r = PROCESSED
                    /\ finalityCandidateFromRow "launch" r = Ok missed_launch) as (r & Hr & Hs & Hc)
    by (eexists; split; [vm_compute; reflexivity|split; vm_compute; reflexivity]).
  apply (committed_poll_is_accepted example_policy busy_host run_digest_hex example_policy_ok [] (fw_tables missed_world) r
           missed_launch None RPC_PRIMARY 1030 missed_world e w' missed_tables_ok Hr Hs Hc eq_refl).
  - discriminate.
  - exact Hp.
Defined.
