(* ===== verification/FinalityProvider.v ===== *)
(** The provider of a finality pass: [src/src/solana/rpc/provider-pinned-finality-source.ts] and
    [src/src/application/promoted-provider-selector.ts].

    A pinned pass asks one RPC endpoint and hands on only what it could check; the selector opens
    the pass of the provider that is promoted, and counts its changes.  The connection, a class
    of a library, is an object with functions ([capability]); how its URL and its [fetch] are
    chosen is not modelled. *)
From S2P Require Import Prelude Text Types Chain Json JsValue JsReaders PublicKey CatchUpRun CatchUpSource Inbox FinalityReconciler.
From Stdlib Require Import Ascii String.
Local Open Scope string_scope.
Local Open Scope list_scope.
Local Open Scope Z_scope.

(** * The pinned pass *)

(** src/src/solana/rpc/provider-pinned-finality-source.ts:38-42 (PinnedFinalityCalls): a call that
    throws or rejects is [None]. *)
Record PinnedFinalityCalls := {
  pc_history : list string -> option js;
  pc_root : option js;
  pc_block : Z -> option js;
}.
(** src/src/solana/rpc/provider-pinned-finality-source.ts:47-48 (MAX_HISTORY_SIGNATURES,
    MAX_BLOCK_SIGNATURES) *)
Definition MAX_HISTORY_SIGNATURES : Z := 256.
Definition MAX_BLOCK_SIGNATURES : Z := 10000.

(** src/src/solana/rpc/provider-pinned-finality-source.ts:325-329 (dataProperty) *)
Definition pinned_value (d : option (bool * option js)) : option js :=
  match d with Some (_, Some v) => Some v | _ => None end.
Definition pinned_property (props : list (js_key * (bool * option js))) (key : string) : option js :=
  pinned_value (own_property props key).
(** src/src/solana/rpc/provider-pinned-finality-source.ts:305-309 (plainRecord) *)
Definition plainRecord (v : js) : option (list (js_key * (bool * option js))) :=
  match v with
  | JObject _ ObjectPrototype _ props | JObject _ NullPrototype _ props => Some props
  | _ => None
  end.
(** src/src/solana/rpc/provider-pinned-finality-source.ts:245-262 (trustedArray) *)
Definition trustedArray (v : js) (maximumLength : Z) (requireFrozen : bool) : option (list js) :=
  match v with
  | JArray _ true frozen items =>
      if requireFrozen && negb frozen then None
      else if maximumLength <? Z.of_nat (List.length items) then None
      else mapM pinned_value items
  | _ => None
  end.
(** src/src/solana/rpc/provider-pinned-finality-source.ts:277-282 (validSlot) *)
Definition validSlot (v : js) : option Z :=
  match v with JNumber (NumInt z) => if is_safe_integer z && (0 <=? z) then Some z else None | _ => None end.
(** src/src/solana/rpc/provider-pinned-finality-source.ts:284-286 (validConfirmationStatus) *)
Definition validConfirmationStatus (v : js) : option ChainConfirmationStatus := confirmationStatusFrom v.
(** src/src/solana/rpc/provider-pinned-finality-source.ts:264-275 (canonicalSignature): the same
    text as in the reconciler. *)
Definition pinned_signature `{Bs58} (v : js) : option string := canonicalSignature v.
(** src/src/solana/rpc/provider-pinned-finality-source.ts:190-199 (snapshotHistoryRequest) *)
Definition snapshotHistoryRequest `{Bs58} (v : js) : option (list string) :=
  entries ← trustedArray v MAX_HISTORY_SIGNATURES true;
  if Nat.eqb (List.length entries) 0 then None else mapM pinned_signature entries.
(** src/src/solana/rpc/provider-pinned-finality-source.ts:201-218 (snapshotHistoryResponse): an entry. *)
Definition history_entry (v : js) : option (option FinalityHistoryStatus) :=
  match v with
  | JNull => Some None
  | _ =>
      props ← plainRecord v;
      slot ← pinned_property props "slot";
      confirmationStatus ← pinned_property props "confirmationStatus";
      slot ← validSlot slot;
      confirmationStatus ← validConfirmationStatus confirmationStatus;
      Some (Some {| hs_slot := slot; hs_confirmationStatus := confirmationStatus |})
  end.
Definition status_object (s : option FinalityHistoryStatus) : js :=
  match s with
  | None => JNull
  | Some s => frozen_object ObjectPrototype
                [("slot", JBigInt (hs_slot s));
                 ("confirmationStatus", JString (name_in CATCH_UP_STATUSES (hs_confirmationStatus s)))]
  end.
Definition history_statuses (v : js) (expectedLength : Z) : option (list (option FinalityHistoryStatus)) :=
  props ← plainRecord v;
  value ← pinned_property props "value";
  entries ← trustedArray value MAX_HISTORY_SIGNATURES false;
  if negb (Z.of_nat (List.length entries) =? expectedLength) then None else mapM history_entry entries.
Definition snapshotHistoryResponse (v : js) (expectedLength : Z) : option js :=
  statuses ← history_statuses v expectedLength;
  Some (frozen_array (map status_object statuses)).
(** src/src/solana/rpc/provider-pinned-finality-source.ts:220-223 (snapshotSlot) *)
Definition snapshotSlot (v : js) : option js := z ← validSlot v; Some (JBigInt z).
(** src/src/solana/rpc/provider-pinned-finality-source.ts:225-230 (numericBlockSlot) *)
Definition numericBlockSlot (v : js) : option Z :=
  match v with JBigInt z => if (0 <=? z) && (z <=? MAX_SAFE_INTEGER) then Some z else None | _ => None end.
(** src/src/solana/rpc/provider-pinned-finality-source.ts:232-243 (snapshotBlockResponse) *)
Definition block_signatures `{Bs58} (v : js) : option (list string) :=
  props ← plainRecord v;
  value ← pinned_property props "signatures";
  entries ← trustedArray value MAX_BLOCK_SIGNATURES false;
  signatures ← mapM pinned_signature entries;
  if all_distinct signatures then Some signatures else None.
Definition snapshotBlockResponse `{Bs58} (v : js) : option js :=
  signatures ← block_signatures v; Some (frozen_array (map JString signatures)).
(** src/src/solana/rpc/provider-pinned-finality-source.ts:160-183 (createPinnedCalls): [rpc] is the
    connection, [None] when it could not be made or is no object; the member lookup is the
    reconciler's. *)
Definition createPinnedCalls (rpc : option capability) : option PinnedFinalityCalls :=
  rpc ← rpc;
  history ← dataMethod rpc "getSignatureStatuses";
  root ← dataMethod rpc "getSlot";
  block ← dataMethod rpc "getBlockSignatures";
  Some {| pc_history := fun signatures =>
            history [JArray false true false (map (fun s => Some (JsValue.data (JString s))) signatures);
                     JObject false ObjectPrototype false [(KeyString "searchTransactionHistory", JsValue.data (JBool true))]];
          pc_root := root [JString "finalized"];
          pc_block := fun slot => block [JNumber (NumInt slot); JString "finalized"] |}.
(** src/src/solana/rpc/provider-pinned-finality-source.ts:66-102 (createProviderPinnedFinalityPass):
    the pass of a provider. *)
Definition pinned_pass `{Bs58} (providerId : RpcProviderId) (calls : PinnedFinalityCalls) : capability :=
  [[("providerId", Some (MemberValue (JString (provider_name providerId))));
    ("getHistoryStatuses",
     Some (MemberFunction (fun args =>
       match args with
       | [signatures] =>
           request ← snapshotHistoryRequest signatures;
           response ← pc_history calls request;
           snapshotHistoryResponse response (Z.of_nat (List.length request))
       | _ => None
       end)));
    ("getFinalizedSlot", Some (MemberFunction (fun _ => value ← pc_root calls; snapshotSlot value)));
    ("getFinalizedBlockSignatures",
     Some (MemberFunction (fun args =>
       match args with
       | [slot] => numericSlot ← numericBlockSlot slot; value ← pc_block calls numericSlot; snapshotBlockResponse value
       | _ => None
       end)))]].

(** * What the reconciler reads through a pinned pass *)

Lemma dense_frozen {A} (l : list js) accepts (snap : js -> option A) :
  snapshotDenseArray (frozen_array l) accepts snap
  = if accepts (Z.of_nat (List.length l)) then mapM snap l else None.
Proof.
  unfold snapshotDenseArray, frozen_array. rewrite length_map. destruct (accepts _); [|done].
  induction l as [|v l IH]; [done|]. cbn. by rewrite IH.
Qed.
Lemma status_round_trip s :
  match s with None => True | Some h => 0 <= hs_slot h /\ hs_confirmationStatus h <> orphaned end ->
  snapshotStatus (status_object s) = Some s.
Proof.
  destruct s as [[slot status]|]; [|done]. intros [Hs Ho]. apply Z.leb_le in Hs. cbn in Hs, Ho.
  unfold snapshotStatus, status_object, frozen_object. cbn [hs_slot hs_confirmationStatus].
  match goal with |- context [ownEnumerableDataProperty ?l "slot"] => set (props := l) end.
  change (ownEnumerableDataProperty props "slot") with (Some (JBigInt slot)).
  change (ownEnumerableDataProperty props "confirmationStatus") with (Some (JString (name_in CATCH_UP_STATUSES status))).
  cbn [mbind option_bind slot_value]. rewrite Hs. by destruct status.
Qed.
Lemma history_entry_ok v s :
  history_entry v = Some s -> match s with None => True | Some h => 0 <= hs_slot h /\ hs_confirmationStatus h <> orphaned end.
Proof.
  unfold history_entry. destruct v; try done; [by intros [= <-]|].
  intros Hv. repeat (apply bind_Some in Hv as (? & ? & Hv)). injection Hv as <-. cbn.
  match goal with H : validSlot ?x = Some _ |- _ => unfold validSlot in H; destruct x as [| | |[]| | | |]; try done;
    destruct (_ && _) eqn:E; [injection H as <-; bool_prop|done] end.
  split; [done|]. intros ->.
  match goal with H : validConfirmationStatus ?x = Some orphaned |- _ =>
    unfold validConfirmationStatus, confirmationStatusFrom, enumValue in H; destruct x; try done end.
  cbn in *. repeat (destruct (bool_decide _); try done).
Qed.
Lemma statuses_round_trip l (n : Z) :
  Forall (fun s => match s with None => True | Some h => 0 <= hs_slot h /\ hs_confirmationStatus h <> orphaned end) l ->
  Z.of_nat (List.length l) = n -> snapshotStatuses (frozen_array (map status_object l)) n = Ok l.
Proof.
  intros Hl Hn. unfold snapshotStatuses. rewrite dense_frozen, length_map, Hn, Z.eqb_refl.
  clear Hn. assert (mapM snapshotStatus (map status_object l) = Some l) as ->; [|done].
  induction Hl as [|s l Hs _ IH]; [done|]. cbn [map mapM]. rewrite status_round_trip by done. cbn. by rewrite IH.
Qed.
Lemma history_length v n l : history_statuses v n = Some l -> Z.of_nat (List.length l) = n /\ Forall (fun s => match s with None => True | Some h => 0 <= hs_slot h /\ hs_confirmationStatus h <> orphaned end) l.
Proof.
  unfold history_statuses. intros Hv. repeat (apply bind_Some in Hv as (? & ? & Hv)). destruct (Z.eqb_spec (Z.of_nat (List.length x1)) n) as [E|]; [|done]. cbn in Hv.
  apply mapM_Some in Hv. split; [by rewrite <- E; f_equal; apply Forall2_length in Hv|].
  clear -Hv. induction Hv as [|v' s vs l Hs _ IH]; constructor; [by eapply history_entry_ok|]. done.
Qed.

Section Pinned.
Context `{Bs58} (providerId : RpcProviderId) (calls : PinnedFinalityCalls).
(** The pass as the reconciler captures it. *)
Definition captured : CapturedFinalityPass :=
  {| pa_providerId := providerId;
     pa_getHistoryStatuses := fun signatures =>
       request ← snapshotHistoryRequest (frozen_array (map JString signatures));
       response ← pc_history calls request;
       snapshotHistoryResponse response (Z.of_nat (List.length request));
     pa_getFinalizedSlot := value ← pc_root calls; snapshotSlot value;
     pa_getFinalizedBlockSignatures := fun slot =>
       numericSlot ← numericBlockSlot (JBigInt slot); value ← pc_block calls numericSlot; snapshotBlockResponse value |}.
Lemma pinned_captured : capturePass (Some (pinned_pass providerId calls)) = Ok captured.
Proof. unfold captured. destruct providerId; reflexivity. Qed.
(** The texts that a request may carry. *)
Definition requestable (signatures : list string) : bool :=
  negb (Nat.eqb (List.length signatures) 0) && (Z.of_nat (List.length signatures) <=? MAX_HISTORY_SIGNATURES)
  && forallb (fun s => match pinned_signature (JString s) with Some _ => true | None => false end) signatures.
Lemma signature_text v s : pinned_signature v = Some s -> v = JString s.
Proof.
  unfold pinned_signature, canonicalSignature. destruct v; try done. destruct (_ || _); [done|].
  intros (? & _ & Hs)%bind_Some. destruct (_ && _); congruence.
Qed.
Lemma request_texts signatures :
  snapshotHistoryRequest (frozen_array (map JString signatures)) = if requestable signatures then Some signatures else None.
Proof.
  unfold snapshotHistoryRequest, trustedArray, frozen_array, requestable. rewrite !length_map.
  cbn [andb negb]. rewrite Z.leb_antisym. destruct (MAX_HISTORY_SIGNATURES <? _); cbn [negb andb].
  { by rewrite andb_false_r. }
  assert (mapM pinned_value (map (fun v => Some (JsValue.data v)) (map JString signatures)) = Some (map JString signatures)) as ->.
  { induction signatures as [|s l IH]; [done|]. cbn. by rewrite IH. }
  cbn [mbind option_bind]. rewrite length_map, andb_true_r. destruct (Nat.eqb _ _); cbn [negb andb]; [done|].
  induction signatures as [|s l IH]; [done|]. cbn [map mapM forallb].
  destruct (pinned_signature (JString s)) as [s'|] eqn:E; [|done]. apply signature_text in E as Es. injection Es as <-.
  cbn [mbind option_bind andb]. rewrite IH. by destruct (forallb _ l).
Qed.
Lemma block_texts l :
  Forall (fun s => pinned_signature (JString s) = Some s) l -> all_distinct l = true ->
  Z.of_nat (List.length l) <= MAX_FINALIZED_BLOCK_SIGNATURES ->
  snapshotBlockSignatures (frozen_array (map JString l)) = Some l.
Proof.
  intros Hl Hd Hn. unfold snapshotBlockSignatures. rewrite dense_frozen, length_map.
  destruct (Z.leb_spec (Z.of_nat (List.length l)) MAX_FINALIZED_BLOCK_SIGNATURES); [|lia].
  assert (mapM canonicalSignature (map JString l) = Some l) as ->; [|cbn; by rewrite Hd].
  clear Hd Hn H0. induction Hl as [|s l Hs _ IH]; [done|]. cbn [map mapM]. unfold pinned_signature in Hs. rewrite Hs. cbn. by rewrite IH.
Qed.
Lemma block_lawful v l : block_signatures v = Some l ->
  Forall (fun s => pinned_signature (JString s) = Some s) l /\ all_distinct l = true
  /\ Z.of_nat (List.length l) <= MAX_FINALIZED_BLOCK_SIGNATURES.
Proof.
  unfold block_signatures. intros Hv. apply bind_Some in Hv as (props & _ & Hv). apply bind_Some in Hv as (value & _ & Hv).
  apply bind_Some in Hv as (entries & He & Hv). apply bind_Some in Hv as (sigs & Hs & Hv).
  destruct (all_distinct sigs) eqn:Hd; [injection Hv as <-|done]. apply mapM_Some in Hs.
  assert (Z.of_nat (List.length entries) <= MAX_FINALIZED_BLOCK_SIGNATURES) as Hn.
  { unfold trustedArray in He. destruct value as [| | | | | |? [] ? items|]; try done. cbn [andb] in He.
    destruct (Z.ltb_spec MAX_BLOCK_SIGNATURES (Z.of_nat (List.length items))); [done|]. apply mapM_Some, Forall2_length in He.
    rewrite <- He. unfold MAX_BLOCK_SIGNATURES, MAX_FINALIZED_BLOCK_SIGNATURES in *. lia. }
  split; [|split; [done|by rewrite <- (Forall2_length _ _ _ Hs)]].
  clear -Hs. induction Hs as [|v s vs l Hs _ IH]; constructor; [|done]. by apply signature_text in Hs as E; subst v.
Qed.
Lemma history_lawful signatures ss :
  (raw ← readHistory captured signatures; snapshotStatuses raw (Z.of_nat (List.length signatures))) = Ok ss <->
  requestable signatures = true
  /\ exists response, pc_history calls signatures = Some response
       /\ history_statuses response (Z.of_nat (List.length signatures)) = Some ss.
Proof.
  unfold readHistory. cbn [captured pa_getHistoryStatuses]. rewrite request_texts.
  destruct (requestable signatures); [|split; [done|naive_solver]]. cbn [mbind option_bind].
  destruct (pc_history calls signatures) as [response|]; cbn [mbind option_bind]; [|split; [done|naive_solver]].
  unfold snapshotHistoryResponse.
  destruct (history_statuses response (Z.of_nat (List.length signatures))) as [l|] eqn:Hh; cbn [mbind option_bind result_bind]; [|split; [done|naive_solver]].
  destruct (history_length _ _ _ Hh) as [Hn Hl]. rewrite statuses_round_trip by done. split.
  - intros [= <-]. eauto.
  - intros (_ & r & [= <-] & E). congruence.
Qed.
Lemma root_lawful root :
  (raw ← readRoot captured; finalizedSlot raw) = Ok root <->
  exists response, pc_root calls = Some response /\ validSlot response = Some root.
Proof.
  unfold readRoot, snapshotSlot. cbn [captured pa_getFinalizedSlot].
  destruct (pc_root calls) as [v|]; cbn [mbind option_bind]; [|split; [done|naive_solver]]. unfold snapshotSlot.
  destruct (validSlot v) as [z|] eqn:Hz; cbn [mbind option_bind result_bind]; [|split; [done|naive_solver]].
  assert (finalizedSlot (JBigInt z) = Ok z) as ->.
  { unfold validSlot in Hz. destruct v as [| | |[]| | | |]; try done. destruct (_ && _) eqn:E; [injection Hz as <-|done].
    apply andb_true_iff in E as [_ E]. unfold finalizedSlot, slot_value. by rewrite E. }
  split; [intros [= <-]; eauto|]. intros (r & [= <-] & E). congruence.
Qed.
Lemma block_read_lawful slot block :
  readBlock captured slot = Ok block <->
  0 <= slot <= MAX_SAFE_INTEGER
  /\ exists response, pc_block calls slot = Some response /\ block_signatures response = Some block.
Proof.
  unfold readBlock. cbn [captured pa_getFinalizedBlockSignatures numericBlockSlot].
  destruct ((0 <=? slot) && (slot <=? MAX_SAFE_INTEGER)) eqn:E; cbn [mbind option_bind].
  2:{ split; [done|]. intros [[H1 H2] _]. apply Z.leb_le in H1, H2. by rewrite H1, H2 in E. }
  destruct (pc_block calls slot) as [v|]; cbn [mbind option_bind]; [|split; [done|naive_solver]]. unfold snapshotBlockResponse.
  destruct (block_signatures v) as [l|] eqn:Hl; cbn [mbind option_bind]; [|split; [done|naive_solver]].
  destruct (block_lawful _ _ Hl) as (Ht & Hd & Hn). rewrite block_texts by done. bool_prop. split.
  - intros [= <-]. eauto.
  - intros (_ & r & [= <-] & E'). congruence.
Qed.
(** C16: what the reconciler learns through a pinned pass is what the endpoint said.  The pass is
    accepted with its provider; the statuses that the reconciler works with are those of a well
    formed answer about exactly the signatures it asked for, the root is the slot answered, and a
    block is the well formed list of distinct signatures answered for exactly that slot; and
    every such answer gets through, so the checks of the two sides agree. *)
Theorem pinned_pass_faithful :
  exists pass,
    capturePass (Some (pinned_pass providerId calls)) = Ok pass /\ pa_providerId pass = providerId
    /\ (forall signatures ss,
          (raw ← readHistory pass signatures; snapshotStatuses raw (Z.of_nat (List.length signatures))) = Ok ss <->
          requestable signatures = true
          /\ exists response, pc_history calls signatures = Some response
               /\ history_statuses response (Z.of_nat (List.length signatures)) = Some ss)
    /\ (forall root, (raw ← readRoot pass; finalizedSlot raw) = Ok root <->
          exists response, pc_root calls = Some response /\ validSlot response = Some root)
    /\ (forall slot block, readBlock pass slot = Ok block <->
          0 <= slot <= MAX_SAFE_INTEGER
          /\ exists response, pc_block calls slot = Some response /\ block_signatures response = Some block).
Proof.
  exists captured. split; [apply pinned_captured|]. split; [done|]. split; [apply history_lawful|].
  split; [apply root_lawful|apply block_read_lawful].
Qed.
End Pinned.

(** * The promoted provider *)

(** src/src/application/promoted-provider-selector.ts:17-20 (PromotedProviderSelection) *)
Record PromotedProviderSelection := { sl_providerId : option RpcProviderId; sl_revision : Z }.
Global Instance PromotedProviderSelection_eq_dec : EqDecision PromotedProviderSelection.
Proof. solve_decision. Defined.
(** src/src/application/promoted-provider-selector.ts:22-25 (PromotedProviderSelector) *)
Record PromotedProviderSelector := {
  ss_passes : list (RpcProviderId * capability);
  ss_activeProvider : option RpcProviderId;
  ss_revision : Z;
}.
(** src/src/application/promoted-provider-selector.ts:104-107 (dataMethod) *)
Definition own_method (own : list (string * option member)) (key : string) : bool :=
  match own_member own key with Some (Some (MemberFunction _)) => true | _ => false end.
(** src/src/application/promoted-provider-selector.ts:93-102 (providerIdOf): of an object that is
    frozen and no proxy, which is told with it. *)
Definition providerIdOf (frozen : bool) (pass : capability) : option RpcProviderId :=
  match pass with
  | own :: _ =>
      if negb frozen then None
      else match own_member own "providerId" with
           | Some (Some (MemberValue v)) =>
               id ← providerIdFrom v;
               if own_method own "getHistoryStatuses" && own_method own "getFinalizedSlot"
                  && own_method own "getFinalizedBlockSignatures"
               then Some id else None
           | _ => None
           end
  | [] => None
  end.
(** src/src/application/promoted-provider-selector.ts:27-40 (PromotedProviderSelector.constructor):
    [None] is an array that [snapshotPasses] refuses. *)
Fixpoint select_passes (selected : list (RpcProviderId * capability)) (passes : list (bool * capability))
    : option (list (RpcProviderId * capability)) :=
  match passes with
  | [] => Some selected
  | (frozen, pass) :: rest =>
      id ← providerIdOf frozen pass;
      if includes id (map fst selected) then None else select_passes (selected ++ [(id, pass)]) rest
  end.
Definition new_PromotedProviderSelector (passes : option (list (bool * capability))) : option PromotedProviderSelector :=
  passes ← passes;
  selected ← select_passes [] passes;
  if Nat.eqb (List.length selected) 0 then None
  else Some {| ss_passes := selected; ss_activeProvider := None; ss_revision := 0 |}.
(** src/src/application/promoted-provider-selector.ts:46-51 (selection) *)
Definition selection (s : PromotedProviderSelector) : PromotedProviderSelection :=
  {| sl_providerId := ss_activeProvider s; sl_revision := ss_revision s |}.
(** src/src/application/promoted-provider-selector.ts:53-59 (promote) *)
Definition promote (providerId : RpcProviderId) (s : PromotedProviderSelector) : option PromotedProviderSelector :=
  if negb (includes providerId (map fst (ss_passes s))) then None
  else Some {| ss_passes := ss_passes s; ss_activeProvider := Some providerId; ss_revision := ss_revision s + 1 |}.
(** src/src/application/promoted-provider-selector.ts:61-65 (clear) *)
Definition clear (providerId : RpcProviderId) (s : PromotedProviderSelector) : PromotedProviderSelector :=
  if bool_decide (ss_activeProvider s = Some providerId)
  then {| ss_passes := ss_passes s; ss_activeProvider := None; ss_revision := ss_revision s + 1 |} else s.
(** src/src/application/promoted-provider-selector.ts:67-73 (openPass): [None] throws. *)
Definition openPass (s : PromotedProviderSelector) : option capability :=
  providerId ← ss_activeProvider s;
  snd <$> List.find (fun p => bool_decide (fst p = providerId)) (ss_passes s).
(** A pass that the selector took is one that the reconciler captures, with its provider. *)
Definition captures (p : RpcProviderId * capability) : Prop :=
  exists pass, capturePass (Some (snd p)) = Ok pass /\ pa_providerId pass = fst p.
Lemma own_data own rest key m : own_member own key = Some (Some m) -> dataValue (own :: rest) key = Some m.
Proof. unfold dataValue, MAX_CAPABILITY_PROTOTYPE_DEPTH. cbn. by intros ->. Qed.
Lemma provider_captures frozen pass id : providerIdOf frozen pass = Some id -> captures (id, pass).
Proof.
  unfold providerIdOf. destruct pass as [|own rest]; [done|]. destruct frozen; [|done]. cbn [negb].
  destruct (own_member own "providerId") as [[[v|]|]|] eqn:Hp; try done. intros (id' & Hid & Hm)%bind_Some.
  destruct (own_method own "getHistoryStatuses" && _ && _) eqn:Hall; [injection Hm as ->|done]. unfold own_method in Hall.
  destruct (own_member own "getHistoryStatuses") as [[[|h]|]|] eqn:Hh; try done.
  destruct (own_member own "getFinalizedSlot") as [[[|r]|]|] eqn:Hr; try done.
  destruct (own_member own "getFinalizedBlockSignatures") as [[[|b]|]|] eqn:Hb; try done.
  unfold captures, capturePass, dataMethod. cbn [fst snd mbind option_bind].
  rewrite (own_data _ rest _ _ Hp), (own_data _ rest _ _ Hh), (own_data _ rest _ _ Hr), (own_data _ rest _ _ Hb).
  cbn [mbind option_bind]. rewrite Hid. cbn. eexists. done.
Qed.
Lemma select_captures selected passes l :
  Forall captures selected -> select_passes selected passes = Some l -> Forall captures l.
Proof.
  revert selected. induction passes as [|[frozen pass] rest IH]; intros selected Hs; cbn; [by intros [= <-]|].
  intros (id & Hid & Hl)%bind_Some. destruct (includes id _); [done|]. eapply IH; [|exact Hl].
  apply Forall_app. split; [done|]. apply Forall_singleton. by eapply provider_captures.
Qed.
Lemma open_captures s pass :
  Forall captures (ss_passes s) -> openPass s = Some pass ->
  exists p, capturePass (Some pass) = Ok p /\ ss_activeProvider s = Some (pa_providerId p).
Proof.
  intros Hs (id & -> & Hp)%bind_Some. apply fmap_Some in Hp as ([id' pass'] & Hf & ->).
  apply List.find_some in Hf as [Hin E]. bool_prop. cbn in E. subst id'. rewrite Forall_forall in Hs.
  destruct (Hs (id, pass')) as (p & Hc & Hi); [by apply list_elem_of_In|]. exists p. cbn in *. by rewrite Hi.
Qed.
