(* ===== verification/FinalityLoop.v ===== *)
(** The recurring finality passes: [RecurringFinalityReconciler] of
    [src/src/application/production-listener-factory.ts], over the selector of [FinalityProvider].

    A pass runs at the start and after every interval; the listener counts as ready for a
    provider only after a whole pass under the selection that is still current.  Between the
    awaits of a pass providers are promoted and cleared, timers fire and the loop is closed:
    the component is a state machine whose events are the turns of the event loop, in any order.
    A pass of the reconciler is seen from outside: it may open its provider, and it returns or
    fails.  Diagnostics are left out, since the code never lets them change an outcome. *)
From S2P Require Import Prelude Text Types JsValue JsReaders CatchUpRun FinalityReconciler FinalityProvider.
From stdpp Require Import gmap.
From Stdlib Require Import String.
Local Open Scope string_scope.
Local Open Scope list_scope.
Local Open Scope Z_scope.

(** * Selections *)

(** The frozen object of a selection. *)
Definition selection_object (sel : PromotedProviderSelection) : js :=
  frozen_object ObjectPrototype
    [("providerId", nullable_value (fun p => JString (provider_name p)) (sl_providerId sel));
     ("revision", JBigInt (sl_revision sel))].
(** src/src/application/production-listener-factory.ts:1180-1197 (snapshotProviderSelection) *)
Definition snapshotProviderSelection (v : js) : option PromotedProviderSelection :=
  match v with
  | JObject _ _ _ props =>
      let value key := default JUndefined (pinned_value (own_property props key)) in
      providerId ← or_null providerIdFrom (value "providerId");
      revision ← slot_value (value "revision");
      Some {| sl_providerId := providerId; sl_revision := revision |}
  | _ => None
  end.
Lemma selection_round_trip sel : 0 <= sl_revision sel -> snapshotProviderSelection (selection_object sel) = Some sel.
Proof.
  destruct sel as [provider revision]. cbn [sl_revision]. intros Hr%Z.leb_le. unfold snapshotProviderSelection, selection_object, frozen_object.
  cbn [map sl_providerId sl_revision]. cbv zeta beta. match goal with |- context [own_property ?l "revision"] => set (props := l) end.
  change (pinned_value (own_property props "providerId")) with (Some (nullable_value (fun p => JString (provider_name p)) provider)).
  change (pinned_value (own_property props "revision")) with (Some (JBigInt revision)).
  cbn [from_option]. unfold id. assert (or_null providerIdFrom (nullable_value (fun p => JString (provider_name p)) provider) = Some provider) as ->
    by (destruct provider as [[]|]; reflexivity).
  cbn [mbind option_bind slot_value]. by rewrite Hr.
Qed.

(** * The machine *)

(** src/src/domain/transaction-ingestion.ts:71-77 (LISTENER_RUNTIME_STATES) *)
Inductive ListenerRuntimeState := STARTING | RUNNING | DEGRADED | STOPPING | STOPPED.
Global Instance ListenerRuntimeState_eq_dec : EqDecision ListenerRuntimeState.
Proof. solve_decision. Defined.
(** src/src/application/production-listener-factory.ts:847-847 (InitialFinalityFailureMode) *)
Inductive InitialFinalityFailureMode := FAIL_START | DEGRADED_RETRY.
Global Instance InitialFinalityFailureMode_eq_dec : EqDecision InitialFinalityFailureMode.
Proof. solve_decision. Defined.

(** A pass in flight: whether a timer began it, the selection it began under, the provider that
    the reconciler opened, and how the promise of [runCurrentPass] stands. *)
Inductive pass_phase := PASS_RUNNING | PASS_RESOLVED | PASS_REJECTED.
Record operation := {
  op_scheduled : bool;
  op_selection : option PromotedProviderSelection;
  op_opened : option RpcProviderId;
  op_phase : pass_phase;
}.
(** How far [close] is: it waits for a pass, or it is over. *)
Inductive close_phase := CLOSE_WAITS (pass : nat) | CLOSE_DONE.
(** src/src/application/production-listener-factory.ts:894-908 (RecurringFinalityReconciler): its
    fields, the selector it reads, the callbacks that timers hold, and two records of the past
    that no code reads: the selections that passes made ready, with the provider each opened,
    and whether a start that may not fail has failed. *)
Record RecurringFinality := {
  rf_state : ListenerRuntimeState;
  rf_ready : option PromotedProviderSelection;
  rf_timer : bool;
  rf_armed : nat;
  rf_inFlight : option nat;
  rf_close : option close_phase;
  rf_closed : bool;
  rf_selector : PromotedProviderSelector;
  rf_operations : gmap nat operation;
  rf_next : nat;
  rf_served : list (PromotedProviderSelection * option RpcProviderId);
  rf_started : bool;
  rf_startFailed : bool;
}.
(** Updates of the fields. *)
Definition set_state (v : ListenerRuntimeState) (s : RecurringFinality) : RecurringFinality :=
  {| rf_state := v; rf_ready := rf_ready s; rf_timer := rf_timer s; rf_armed := rf_armed s;
     rf_inFlight := rf_inFlight s; rf_close := rf_close s; rf_closed := rf_closed s; rf_selector :=
     rf_selector s; rf_operations := rf_operations s; rf_next := rf_next s; rf_served := rf_served s;
     rf_started := rf_started s; rf_startFailed := rf_startFailed s |}.
Definition set_ready (v : option PromotedProviderSelection) (s : RecurringFinality) : RecurringFinality :=
  {| rf_state := rf_state s; rf_ready := v; rf_timer := rf_timer s; rf_armed := rf_armed s;
     rf_inFlight := rf_inFlight s; rf_close := rf_close s; rf_closed := rf_closed s; rf_selector :=
     rf_selector s; rf_operations := rf_operations s; rf_next := rf_next s; rf_served := rf_served s;
     rf_started := rf_started s; rf_startFailed := rf_startFailed s |}.
Definition set_timer (timer : bool) (armed : nat) (s : RecurringFinality) : RecurringFinality :=
  {| rf_state := rf_state s; rf_ready := rf_ready s; rf_timer := timer; rf_armed := armed; rf_inFlight
     := rf_inFlight s; rf_close := rf_close s; rf_closed := rf_closed s; rf_selector := rf_selector s;
     rf_operations := rf_operations s; rf_next := rf_next s; rf_served := rf_served s; rf_started :=
     rf_started s; rf_startFailed := rf_startFailed s |}.
Definition set_inFlight (v : option nat) (s : RecurringFinality) : RecurringFinality :=
  {| rf_state := rf_state s; rf_ready := rf_ready s; rf_timer := rf_timer s; rf_armed := rf_armed s;
     rf_inFlight := v; rf_close := rf_close s; rf_closed := rf_closed s; rf_selector := rf_selector s;
     rf_operations := rf_operations s; rf_next := rf_next s; rf_served := rf_served s; rf_started :=
     rf_started s; rf_startFailed := rf_startFailed s |}.
Definition set_close (v : close_phase) (s : RecurringFinality) : RecurringFinality :=
  {| rf_state := rf_state s; rf_ready := rf_ready s; rf_timer := rf_timer s; rf_armed := rf_armed s;
     rf_inFlight := rf_inFlight s; rf_close := Some v; rf_closed := true; rf_selector := rf_selector s;
     rf_operations := rf_operations s; rf_next := rf_next s; rf_served := rf_served s; rf_started :=
     rf_started s; rf_startFailed := rf_startFailed s |}.
Definition set_selector (v : PromotedProviderSelector) (s : RecurringFinality) : RecurringFinality :=
  {| rf_state := rf_state s; rf_ready := rf_ready s; rf_timer := rf_timer s; rf_armed := rf_armed s;
     rf_inFlight := rf_inFlight s; rf_close := rf_close s; rf_closed := rf_closed s; rf_selector := v;
     rf_operations := rf_operations s; rf_next := rf_next s; rf_served := rf_served s; rf_started :=
     rf_started s; rf_startFailed := rf_startFailed s |}.
Definition set_operations (v : gmap nat operation) (s : RecurringFinality) : RecurringFinality :=
  {| rf_state := rf_state s; rf_ready := rf_ready s; rf_timer := rf_timer s; rf_armed := rf_armed s;
     rf_inFlight := rf_inFlight s; rf_close := rf_close s; rf_closed := rf_closed s; rf_selector :=
     rf_selector s; rf_operations := v; rf_next := rf_next s; rf_served := rf_served s; rf_started :=
     rf_started s; rf_startFailed := rf_startFailed s |}.
Definition add_operation (op : operation) (s : RecurringFinality) : RecurringFinality :=
  {| rf_state := rf_state s; rf_ready := rf_ready s; rf_timer := rf_timer s; rf_armed := rf_armed s;
     rf_inFlight := Some (rf_next s); rf_close := rf_close s; rf_closed := rf_closed s; rf_selector :=
     rf_selector s; rf_operations := <[rf_next s := op]> (rf_operations s); rf_next := S (rf_next s);
     rf_served := rf_served s; rf_started := rf_started s; rf_startFailed := rf_startFailed s |}.
Definition note_served (sel : PromotedProviderSelection) (opened : option RpcProviderId) (s : RecurringFinality) : RecurringFinality :=
  {| rf_state := rf_state s; rf_ready := Some sel; rf_timer := rf_timer s; rf_armed := rf_armed s;
     rf_inFlight := rf_inFlight s; rf_close := rf_close s; rf_closed := rf_closed s; rf_selector :=
     rf_selector s; rf_operations := rf_operations s; rf_next := rf_next s; rf_served := (sel, opened) ::
     rf_served s; rf_started := rf_started s; rf_startFailed := rf_startFailed s |}.
Definition note_start (s : RecurringFinality) : RecurringFinality :=
  {| rf_state := rf_state s; rf_ready := rf_ready s; rf_timer := rf_timer s; rf_armed := rf_armed s;
     rf_inFlight := rf_inFlight s; rf_close := rf_close s; rf_closed := rf_closed s; rf_selector :=
     rf_selector s; rf_operations := rf_operations s; rf_next := rf_next s; rf_served := rf_served s;
     rf_started := true; rf_startFailed := rf_startFailed s |}.
Definition note_startFailed (s : RecurringFinality) : RecurringFinality :=
  {| rf_state := rf_state s; rf_ready := rf_ready s; rf_timer := rf_timer s; rf_armed := rf_armed s;
     rf_inFlight := rf_inFlight s; rf_close := rf_close s; rf_closed := rf_closed s; rf_selector :=
     rf_selector s; rf_operations := rf_operations s; rf_next := rf_next s; rf_served := rf_served s;
     rf_started := rf_started s; rf_startFailed := true |}.

Section Machine.
(** The options: whether a selection is read, and what a failure of the first pass means. *)
Context (selects : bool) (mode : InitialFinalityFailureMode).
Implicit Types (s : RecurringFinality).

(** src/src/application/production-listener-factory.ts:1079-1094 (readCurrentSelection) *)
Definition readCurrentSelection s : option PromotedProviderSelection :=
  snapshotProviderSelection (selection_object (selection (rf_selector s))).
(** src/src/application/production-listener-factory.ts:1199-1204 (sameProviderSelection) *)
Definition sameProviderSelection (left right : PromotedProviderSelection) : bool :=
  bool_decide (sl_providerId left = sl_providerId right) && (sl_revision left =? sl_revision right).
(** src/src/application/production-listener-factory.ts:1044-1056 (runCurrentPass): up to the call
    of [runOnce]; without a provider the promise is rejected. *)
Definition begin_pass (scheduled : bool) s : RecurringFinality :=
  let op sel phase := {| op_scheduled := scheduled; op_selection := sel; op_opened := None; op_phase := phase |} in
  let s := set_ready None s in
  if negb selects then add_operation (op None PASS_RUNNING) s
  else match readCurrentSelection s with
       | Some sel => add_operation (op (Some sel) (if bool_decide (sl_providerId sel = None) then PASS_REJECTED else PASS_RUNNING)) s
       | None => add_operation (op None PASS_REJECTED) s
       end.
(** src/src/application/production-listener-factory.ts:947-952 (start): up to its await. *)
Definition start s : RecurringFinality :=
  if rf_closed s then s else note_start (begin_pass false (set_ready None (set_state STARTING s))).
(** src/src/application/production-listener-factory.ts:1003-1005 (schedule) *)
Definition schedule s : RecurringFinality :=
  if rf_closed s then s else set_timer true (S (rf_armed s)) s.
(** src/src/application/production-listener-factory.ts:1005-1010 (schedule): the callback of a
    timer. *)
Definition fire s : RecurringFinality :=
  match rf_armed s with
  | O => s
  | S n =>
      let s := set_timer false n s in
      if rf_closed s then s else begin_pass true (set_ready None s)
  end.
(** src/src/application/finality-reconciler.ts:112-112 (runOnce): the pass in flight opens its
    provider. *)
Definition open_provider (id : nat) s : RecurringFinality :=
  match rf_operations s !! id with
  | Some {| op_scheduled := b; op_selection := sel; op_opened := None; op_phase := PASS_RUNNING |} =>
      set_operations (<[id := {| op_scheduled := b; op_selection := sel; op_opened := ss_activeProvider (rf_selector s);
                                 op_phase := PASS_RUNNING |}]> (rf_operations s)) s
  | _ => s
  end.
(** src/src/application/production-listener-factory.ts:1057-1065 (runCurrentPass): [runOnce] returned
    or failed. *)
Definition return_pass (id : nat) (ok : bool) s : RecurringFinality :=
  match rf_operations s !! id with
  | Some {| op_scheduled := b; op_selection := sel; op_opened := opened; op_phase := PASS_RUNNING |} =>
      let settle phase s :=
        set_operations (<[id := {| op_scheduled := b; op_selection := sel; op_opened := opened; op_phase := phase |}]>
                          (rf_operations s)) s in
      if negb ok then settle PASS_REJECTED s
      else match sel with
           | None => settle PASS_RESOLVED s
           | Some sel =>
               match readCurrentSelection s with
               | Some current =>
                   if sameProviderSelection current sel
                   then settle PASS_RESOLVED (if rf_closed s then s else note_served sel opened s)
                   else settle PASS_REJECTED s
               | None => settle PASS_REJECTED s
               end
           end
  | _ => s
  end.
(** src/src/application/production-listener-factory.ts:953-970 (start) and 1011-1028 (schedule): the
    handlers of the promise of a pass. *)
Definition settle_pass (id : nat) s : RecurringFinality :=
  match rf_operations s !! id with
  | Some op =>
      let s' := set_operations (delete id (rf_operations s)) s in
      let s' := if bool_decide (rf_inFlight s' = Some id) then set_inFlight None s' else s' in
      match op_phase op with
      | PASS_RUNNING => s
      | PASS_RESOLVED => if rf_closed s' then s' else schedule (set_state RUNNING s')
      | PASS_REJECTED =>
          if rf_closed s' then s'
          else if op_scheduled op then schedule (set_state DEGRADED (set_ready None s'))
          else if bool_decide (mode = FAIL_START) then note_startFailed (set_state DEGRADED s')
          else schedule (set_state DEGRADED s')
      end
  | None => s
  end.
(** src/src/application/production-listener-factory.ts:977-985 (close) and 1031-1034 (performClose):
    up to the wait for the pass in flight. *)
Definition close s : RecurringFinality :=
  match rf_close s with
  | Some _ => s
  | None =>
      let s := set_timer false (if rf_timer s then pred (rf_armed s) else rf_armed s) s in
      let s := set_ready None s in
      match rf_inFlight s with
      | Some id => set_close (CLOSE_WAITS id) s
      | None => set_state STOPPED (set_close CLOSE_DONE s)
      end
  end.
(** src/src/application/production-listener-factory.ts:1035-1041 (performClose) *)
Definition close_settles (timeout : bool) s : RecurringFinality :=
  match rf_close s with
  | Some (CLOSE_WAITS id) =>
      if timeout then set_state DEGRADED (set_close CLOSE_DONE s)
      else match rf_operations s !! id with
           | Some {| op_phase := PASS_RUNNING |} => s
           | _ => set_state STOPPED (set_close CLOSE_DONE s)
           end
  | _ => s
  end.
(** src/src/application/production-listener-factory.ts:1067-1077 (currentReadySelectionIfCurrent) *)
Definition currentReadySelectionIfCurrent s : option PromotedProviderSelection * RecurringFinality :=
  match rf_ready s with
  | Some ready =>
      if negb selects then (None, s)
      else match readCurrentSelection s with
           | Some current => if sameProviderSelection ready current then (Some ready, s) else (None, set_ready None s)
           | None => (None, set_ready None s)
           end
  | None => (None, s)
  end.
(** src/src/application/production-listener-factory.ts:991-993 (readyProviderId) *)
Definition readyProviderId s : option RpcProviderId * RecurringFinality :=
  let '(ready, s') := currentReadySelectionIfCurrent s in (ready ≫= sl_providerId, s').
(** src/src/application/production-listener-factory.ts:995-1001 (isReadyFor): [None] throws. *)
Definition isReadyFor (v : js) s : option bool * RecurringFinality :=
  match snapshotProviderSelection v with
  | None => (None, s)
  | Some expected =>
      let '(ready, s') := currentReadySelectionIfCurrent s in
      (Some (bool_decide (rf_state s' = RUNNING)
             && match ready with Some r => sameProviderSelection r expected | None => false end), s')
  end.

(** A turn of the event loop. *)
Inductive loop_event :=
| EvPromote (providerId : RpcProviderId) | EvClear (providerId : RpcProviderId)
| EvStart | EvFire | EvOpen (id : nat) | EvReturn (id : nat) (ok : bool) | EvSettle (id : nat)
| EvClose | EvCloseSettles (timeout : bool) | EvAskProvider | EvAskReady (v : js).
Definition step (e : loop_event) s : RecurringFinality :=
  match e with
  | EvPromote p => match promote p (rf_selector s) with Some x => set_selector x s | None => s end
  | EvClear p => set_selector (clear p (rf_selector s)) s
  | EvStart => start s
  | EvFire => fire s
  | EvOpen id => open_provider id s
  | EvReturn id ok => return_pass id ok s
  | EvSettle id => settle_pass id s
  | EvClose => close s
  | EvCloseSettles timeout => close_settles timeout s
  | EvAskProvider => snd (readyProviderId s)
  | EvAskReady v => snd (isReadyFor v s)
  end.
(** src/src/application/production-listener-factory.ts:910-945 (RecurringFinalityReconciler.constructor):
    the fresh machine over a new selector. *)
Definition new_RecurringFinality (selector : PromotedProviderSelector) : RecurringFinality :=
  {| rf_state := STOPPED; rf_ready := None; rf_timer := false; rf_armed := 0; rf_inFlight := None; rf_close := None;
     rf_closed := false; rf_selector := selector; rf_operations := ∅; rf_next := 0; rf_served := []; rf_started := false;
     rf_startFailed := false |}.
(** What can happen. *)
Inductive reachable : RecurringFinality -> Prop :=
| reachable_new passes selector :
    new_PromotedProviderSelector passes = Some selector -> reachable (new_RecurringFinality selector)
| reachable_step s e : reachable s -> reachable (step e s).

(** * Readiness *)

(** A selection that was read before: a later selection with its revision is the same. *)
Definition was_read s (sel : PromotedProviderSelection) : Prop :=
  is_Some (sl_providerId sel) /\ sl_revision sel <= ss_revision (rf_selector s)
  /\ (sl_revision sel = ss_revision (rf_selector s) -> selection (rf_selector s) = sel).
Definition opened_by (sel : PromotedProviderSelection) (opened : option RpcProviderId) : Prop :=
  opened = None \/ opened = sl_providerId sel.
Record machine_ok s : Prop := {
  mo_revision : 0 <= ss_revision (rf_selector s);
  mo_running : forall id op sel, rf_operations s !! id = Some op -> op_phase op = PASS_RUNNING -> op_selection op = Some sel ->
               was_read s sel /\ (sl_revision sel = ss_revision (rf_selector s) -> opened_by sel (op_opened op));
  mo_ready : forall sel, rf_ready s = Some sel ->
             rf_closed s = false /\ was_read s sel /\ exists opened, (sel, opened) ∈ rf_served s /\ opened_by sel opened;
  mo_closed : is_Some (rf_close s) -> rf_closed s = true;
  mo_passes : Forall captures (ss_passes (rf_selector s));
}.
Lemma current_selection s : 0 <= ss_revision (rf_selector s) -> readCurrentSelection s = Some (selection (rf_selector s)).
Proof. intros Hr. by apply selection_round_trip. Qed.
Lemma same_selection a b : sameProviderSelection a b = true <-> a = b.
Proof.
  unfold sameProviderSelection. rewrite andb_true_iff, bool_decide_eq_true, Z.eqb_eq. destruct a, b; cbn. naive_solver.
Qed.
(** Changes that keep the selector. *)
Definition running_ok s (op : operation) : Prop :=
  op_phase op = PASS_RUNNING -> forall sel, op_selection op = Some sel ->
  was_read s sel /\ (sl_revision sel = ss_revision (rf_selector s) -> opened_by sel (op_opened op)).
Definition ready_ok s s' : Prop :=
  rf_ready s' = None
  \/ (rf_ready s' = rf_ready s /\ rf_closed s' = rf_closed s /\ rf_served s' = rf_served s)
  \/ (exists sel opened, rf_ready s' = Some sel /\ rf_closed s' = false /\ was_read s sel /\ (sel, opened) ∈ rf_served s' /\ opened_by sel opened).
Lemma machine_intro s s' :
  machine_ok s -> rf_selector s' = rf_selector s ->
  (forall id op, rf_operations s' !! id = Some op -> rf_operations s !! id = Some op \/ running_ok s op) ->
  ready_ok s s' -> rf_close s' = rf_close s /\ rf_closed s' = rf_closed s \/ rf_closed s' = true -> machine_ok s'.
Proof.
  intros [Hr Ho Hd Hcl Hpa] Hsel Hops Hready Hcl'. constructor; unfold was_read in *; rewrite ?Hsel.
  - done.
  - intros id op sel Hop Hph Hs. destruct (Hops id op Hop) as [Hold|Hnew]; [by eapply Ho|by apply Hnew].
  - intros sel Hs. destruct Hready as [E|[(E & Ec & Es)|(sel' & opened & E & Ec & Hw & Hin & Hop)]]; rewrite E in Hs.
    + done.
    + rewrite Ec, Es. by apply Hd.
    + injection Hs as <-. split; [done|]. split; [done|]. by exists opened.
  - intros Hc. destruct Hcl' as [[E1 E2]|E]; [|done]. rewrite E2. apply Hcl. by rewrite <- E1.
  - done.
Qed.
(** The operation of [delete] and of [insert]. *)
Lemma delete_old s id k op : delete k (rf_operations s) !! id = Some op -> rf_operations s !! id = Some op \/ running_ok s op.
Proof. intros [_ ?]%lookup_delete_Some. by left. Qed.
Lemma insert_old s id k op new :
  running_ok s new -> <[k := new]> (rf_operations s) !! id = Some op -> rf_operations s !! id = Some op \/ running_ok s op.
Proof. intros Hn [[_ <-]|[_ ?]]%lookup_insert_Some; [by right|by left]. Qed.
Lemma begin_ok scheduled s : machine_ok s -> machine_ok (begin_pass scheduled s).
Proof.
  intros Hs. unfold begin_pass. cbn zeta.
  assert (forall op, running_ok s op -> machine_ok (add_operation op (set_ready None s))) as Hadd.
  { intros op Hop. apply (machine_intro s); [done|done| |by left|by left]. intros id o Ho. cbn in Ho. by eapply insert_old. }
  destruct selects; cbn [negb]; [|apply Hadd; by intros _ sel].
  change (readCurrentSelection (set_ready None s)) with (readCurrentSelection s).
  rewrite current_selection by apply Hs. apply Hadd. intros Hph sel [= <-]. cbn in Hph.
  case_bool_decide as E; [done|]. cbn in E. split; [|by left]. unfold was_read. cbn. split; [by apply not_eq_None_Some|]. split; [lia|done].
Qed.
Lemma revise_ok s x :
  machine_ok s -> ss_revision (rf_selector s) < ss_revision x -> ss_passes x = ss_passes (rf_selector s) ->
  machine_ok (set_selector x s).
Proof.
  intros [Hr Ho Hd Hcl Hpa] Hx Hps.
  assert (forall sel, was_read s sel -> was_read (set_selector x s) sel /\ sl_revision sel < ss_revision x) as Hw.
  { intros sel (Hp & Hle & _). split; [|lia]. split; [done|]. cbn. split; lia. }
  constructor; cbn.
  - lia.
  - intros id op sel Hop Hph Hs. destruct (Ho id op sel Hop Hph Hs) as [H1 _]. destruct (Hw sel H1). split; [done|]. lia.
  - intros sel Hs. destruct (Hd sel Hs) as (? & H1 & ?). destruct (Hw sel H1). done.
  - done.
  - by rewrite Hps.
Qed.
Lemma return_ok id ok s : machine_ok s -> machine_ok (return_pass id ok s).
Proof.
  intros Hs. unfold return_pass. destruct (rf_operations s !! id) as [[b sel opened []]|] eqn:Hop; try done. cbn zeta.
  assert (forall phase s', phase <> PASS_RUNNING -> rf_selector s' = rf_selector s -> rf_operations s' = rf_operations s -> ready_ok s s' ->
    rf_close s' = rf_close s /\ rf_closed s' = rf_closed s -> machine_ok (set_operations (<[id := {| op_scheduled := b; op_selection := sel; op_opened := opened; op_phase := phase |}]>
                                  (rf_operations s')) s')) as Hset.
  { intros phase s' Hph Hsel Hops Hready Hcl. apply (machine_intro s); [done|done| |done|by left]. cbn. rewrite Hops. intros i o. apply insert_old.
    intros E. by cbn in E. }
  assert (ready_ok s s) as Hsame by (right; by left).
  destruct ok; cbn [negb]; [|by apply Hset]. destruct sel as [sel|]; [|by apply Hset].
  rewrite current_selection by apply Hs. destruct (sameProviderSelection _ sel) eqn:Heq; [|by apply Hset].
  apply same_selection in Heq. destruct (rf_closed s) eqn:Hc; [by apply Hset|]. apply Hset; try done. right. right.
  destruct (mo_running _ Hs id _ sel Hop eq_refl eq_refl) as [Hw Ho]. exists sel, opened. cbn. do 3 (split; [done|]).
  split; [by left|]. apply Ho. by rewrite <- Heq.
Qed.
Lemma open_ok id s : machine_ok s -> machine_ok (open_provider id s).
Proof.
  intros Hs. unfold open_provider. destruct (rf_operations s !! id) as [[b sel [|] []]|] eqn:Hop; try done.
  apply (machine_intro s); [done|done| |right; by left|by left]. intros i o. apply insert_old. intros _ sel' [= ->]. cbn.
  destruct (mo_running _ Hs id _ sel' Hop eq_refl eq_refl) as [Hw _]. split; [done|]. intros E. right.
  destruct Hw as (_ & _ & Hw). by rewrite <- (Hw E).
Qed.
Ltac keep_machine s := apply (machine_intro s); [done|done|by left| |by auto].
Lemma settle_ok id s : machine_ok s -> machine_ok (settle_pass id s).
Proof.
  intros Hs. unfold settle_pass. destruct (rf_operations s !! id) as [op|]; [|done]. cbn zeta.
  set (s1 := set_operations (delete id (rf_operations s)) s).
  set (s2 := if bool_decide (rf_inFlight s1 = Some id) then set_inFlight None s1 else s1).
  assert (rf_selector s2 = rf_selector s /\ rf_operations s2 = delete id (rf_operations s) /\ rf_ready s2 = rf_ready s
          /\ rf_closed s2 = rf_closed s /\ rf_served s2 = rf_served s /\ rf_close s2 = rf_close s) as (E1 & E2 & E3 & E4 & E5 & E6).
  { unfold s2. by destruct (bool_decide _). }
  assert (forall s', rf_selector s' = rf_selector s2 -> rf_operations s' = rf_operations s2 ->
            (rf_ready s' = None \/ rf_ready s' = rf_ready s2) -> rf_closed s' = rf_closed s2 -> rf_served s' = rf_served s2 ->
            rf_close s' = rf_close s2 -> machine_ok s') as Hk.
  { intros s' F1 F2 F3 F4 F5 F6. apply (machine_intro s); [done|congruence| | |left; split; congruence].
    - rewrite F2, E2. intros i o. apply delete_old.
    - destruct F3 as [?|F3]; [by left|]. right; left. split; [congruence|]. split; congruence. }
  clearbody s2. unfold schedule. destruct (op_phase op); [done| |].
  - destruct (rf_closed s2) eqn:Hc; [by apply Hk; auto|]. cbn. rewrite Hc. apply Hk; auto.
  - destruct (rf_closed s2) eqn:Hc; [by apply Hk; auto|]. destruct (op_scheduled op); [cbn; rewrite Hc; apply Hk; auto|].
    destruct (bool_decide _); [apply Hk; auto|]. cbn. rewrite Hc. apply Hk; auto.
Qed.
Lemma close_ok s : machine_ok s -> machine_ok (close s).
Proof.
  intros Hs. unfold close. destruct (rf_close s); [done|]. cbn zeta. cbn [rf_inFlight set_ready set_timer].
  destruct (rf_inFlight s); keep_machine s; by left.
Qed.
Lemma close_settles_ok timeout s : machine_ok s -> machine_ok (close_settles timeout s).
Proof.
  intros Hs. unfold close_settles. destruct (rf_close s) as [[id|]|] eqn:E; try done.
  assert (rf_ready s = None) as Hn.
  { destruct (rf_ready s) as [sel|] eqn:Er; [|done]. destruct (mo_ready _ Hs sel Er) as [Hf _].
    rewrite (mo_closed _ Hs) in Hf; [done|]. by rewrite E. }
  destruct timeout; [keep_machine s; by left|]. destruct (rf_operations s !! id) as [[? ? ? []]|]; try done; keep_machine s; by left.
Qed.
Lemma current_ready_ok s : machine_ok s -> machine_ok (snd (currentReadySelectionIfCurrent s)).
Proof.
  intros Hs. unfold currentReadySelectionIfCurrent. destruct (rf_ready s) as [ready|]; [|done]. destruct (negb selects); [done|].
  destruct (readCurrentSelection s); [destruct (sameProviderSelection _ _); [done|]|]; keep_machine s; by left.
Qed.
Lemma step_ok e s : machine_ok s -> machine_ok (step e s).
Proof.
  intros Hs. destruct e; cbn [step].
  - unfold promote. destruct (negb _); [done|]. apply revise_ok; [done| |done]. cbn. lia.
  - unfold clear. case_bool_decide; [apply revise_ok; [done| |done]; cbn; lia|]. by keep_machine s; right; left.
  - unfold start. destruct (rf_closed s) eqn:E; [done|].
    assert (machine_ok (begin_pass false (set_ready None (set_state STARTING s)))) as Hb by (apply begin_ok; by keep_machine s; left).
    keep_machine (begin_pass false (set_ready None (set_state STARTING s))). right; by left.
  - unfold fire. destruct (rf_armed s); [done|]. cbn zeta. cbn [rf_closed set_timer]. destruct (rf_closed s).
    + by keep_machine s; right; left.
    + apply begin_ok. by keep_machine s; left.
  - by apply open_ok.
  - by apply return_ok.
  - by apply settle_ok.
  - by apply close_ok.
  - by apply close_settles_ok.
  - unfold readyProviderId. pose proof (current_ready_ok s Hs) as Hk. by destruct (currentReadySelectionIfCurrent s).
  - unfold isReadyFor. pose proof (current_ready_ok s Hs) as Hk. destruct (snapshotProviderSelection v); [|done].
    by destruct (currentReadySelectionIfCurrent s).
Qed.
Lemma reachable_ok s : reachable s -> machine_ok s.
Proof.
  induction 1 as [passes selector Hnew|s e _ IH]; [|by apply step_ok]. unfold new_PromotedProviderSelector in Hnew.
  apply bind_Some in Hnew as (l & _ & Hnew). apply bind_Some in Hnew as (k & Hk & Hnew). destruct (Nat.eqb _ _); [done|].
  injection Hnew as <-. constructor; cbn; try done. by eapply select_captures; [|exact Hk].
Qed.
(** C15: readiness is earned under the selection it is claimed for.  However promotions, clears,
    timers, passes, failures and a close interleave, when the component says that it is ready for
    a selection then it is running and not closed, that selection has a provider and is the
    current one, some pass began under it, returned while it was still current and opened no
    other provider than that one, and a pass that is opened now asks that provider. *)
Theorem ready_means_served s sel :
  reachable s -> 0 <= sl_revision sel -> fst (isReadyFor (selection_object sel) s) = Some true ->
  rf_state s = RUNNING /\ rf_closed s = false /\ selection (rf_selector s) = sel
  /\ exists provider opened,
       sl_providerId sel = Some provider /\ (sel, opened) ∈ rf_served s /\ (opened = None \/ opened = Some provider)
       /\ (forall pass, openPass (rf_selector s) = Some pass ->
             exists p, capturePass (Some pass) = Ok p /\ pa_providerId p = provider).
Proof.
  intros Hs%reachable_ok Hrev Hready. unfold isReadyFor in Hready. rewrite selection_round_trip in Hready by done.
  unfold currentReadySelectionIfCurrent in Hready.
  destruct (rf_ready s) as [r|] eqn:Er; [|cbn in Hready; by rewrite andb_false_r in Hready].
  destruct selects; cbn [negb] in Hready; [|cbn in Hready; by rewrite andb_false_r in Hready].
  rewrite current_selection in Hready by apply Hs.
  destruct (sameProviderSelection r (selection _)) eqn:E1; cbn [fst] in Hready; [|by rewrite andb_false_r in Hready].
  injection Hready as Hready. bool_prop. apply same_selection in E1. rename H0 into E2. apply same_selection in E2. subst r.
  destruct (mo_ready _ Hs sel) as (Hc & ([p Hp] & _) & opened & Hin & Ho); [congruence|].
  do 2 (split; [done|]). split; [congruence|]. exists p, opened. split; [done|]. split; [done|].
  split; [destruct Ho as [?|Ho]; [by left|right; congruence]|]. intros pass Hpass.
  destruct (open_captures _ _ (mo_passes _ Hs) Hpass) as (q & Hq & Ha). exists q. split; [done|].
  match goal with H : selection (rf_selector s) = sel |- _ => rewrite <- H in Hp end. cbn in Hp. congruence.
Qed.

(** * The cadence *)

(** A timer is armed or a pass is in flight. *)
Definition alive s : Prop := (0 < rf_armed s)%nat \/ rf_operations s <> ∅.
Definition cadence_ok s : Prop :=
  rf_started s = true -> rf_closed s = false -> rf_startFailed s = false -> alive s.
Lemma begin_alive scheduled s : alive (begin_pass scheduled s).
Proof.
  assert (forall op s', alive (add_operation op s')) as Hadd by (intros op s'; right; cbn; apply insert_non_empty).
  unfold begin_pass. cbn zeta. destruct (negb selects); [done|]. by destruct (readCurrentSelection _).
Qed.
Lemma cadence_step e s : cadence_ok s -> cadence_ok (step e s).
Proof.
  intros Hs.
  assert (forall s', rf_started s' = rf_started s -> rf_closed s' = rf_closed s -> rf_startFailed s' = rf_startFailed s ->
            (alive s -> alive s') -> cadence_ok s') as Hk.
  { intros s' E1 E2 E3 Ha. unfold cadence_ok. rewrite E1, E2, E3. auto. }
  destruct e; cbn [step].
  - destruct (promote providerId _); [by apply Hk|done].
  - by apply Hk.
  - unfold start. destruct (rf_closed s); [done|]. intros _ _ _. destruct (begin_alive false (set_ready None (set_state STARTING s))); [by left|by right].
  - unfold fire. destruct (rf_armed s); [done|]. cbn zeta. cbn [rf_closed set_timer]. destruct (rf_closed s) eqn:E.
    + intros _ Hc. cbn in Hc. congruence.
    + intros _ _ _. apply begin_alive.
  - unfold open_provider. destruct (rf_operations s !! id) as [[b sel [|] []]|] eqn:Hop; try done. apply Hk; try done.
    intros _. right. apply insert_non_empty.
  - unfold return_pass. destruct (rf_operations s !! id) as [[b sel opened []]|] eqn:Hop; try done. cbn zeta.
    destruct (negb ok); [apply Hk; try done; intros _; right; apply insert_non_empty|].
    destruct sel as [sel|]; [|apply Hk; try done; intros _; right; apply insert_non_empty].
    destruct (readCurrentSelection s); [destruct (sameProviderSelection _ _); [destruct (rf_closed s) eqn:E|]|];
      apply Hk; try done; intros _; right; apply insert_non_empty.
  - unfold settle_pass. destruct (rf_operations s !! id) as [op|]; [|done]. cbn zeta.
    set (s1 := set_operations (delete id (rf_operations s)) s).
    set (s2 := if bool_decide (rf_inFlight s1 = Some id) then set_inFlight None s1 else s1).
    assert (rf_closed s2 = rf_closed s) as E by (unfold s2; by destruct (bool_decide _)).
    clearbody s2. unfold schedule, cadence_ok, alive. destruct (op_phase op); [done| |].
    + destruct (rf_closed s2) eqn:Hc; [congruence|]. cbn. rewrite Hc. cbn. intros _ _ _. left. lia.
    + destruct (rf_closed s2) eqn:Hc; [congruence|]. destruct (op_scheduled op); [cbn; rewrite Hc; cbn; intros _ _ _; left; lia|].
      destruct (bool_decide _); [done|]. cbn. rewrite Hc. cbn. intros _ _ _. left. lia.
  - unfold close. destruct (rf_close s); [done|]. cbn zeta. cbn [rf_inFlight set_ready set_timer].
    destruct (rf_inFlight s); intros _ Hc; by cbn in Hc.
  - unfold close_settles. destruct (rf_close s) as [[id|]|]; try done.
    destruct timeout; [intros _ Hc; by cbn in Hc|]. destruct (rf_operations s !! id) as [[? ? ? []]|]; try done; intros _ Hc; by cbn in Hc.
  - unfold readyProviderId, currentReadySelectionIfCurrent. destruct (rf_ready s); [|done]. destruct (negb selects); [done|].
    destruct (readCurrentSelection s); [destruct (sameProviderSelection _ _); [done|]|]; by apply Hk.
  - unfold isReadyFor, currentReadySelectionIfCurrent. destruct (snapshotProviderSelection v); [|done].
    destruct (rf_ready s); [|done]. destruct (negb selects); [done|].
    destruct (readCurrentSelection s); [destruct (sameProviderSelection _ _); [done|]|]; by apply Hk.
Qed.
(** The passes never stop on their own.  Once started, whatever fails, the component has a
    timer armed or a pass in flight, until it is closed or a start that was told to fail has
    failed; so a failed pass is always followed by another one. *)
Theorem cadence_never_stops s :
  reachable s -> rf_started s = true -> rf_closed s = false -> rf_startFailed s = false ->
  (0 < rf_armed s)%nat \/ exists id op, rf_operations s !! id = Some op.
Proof.
  intros Hs Hst Hc Hf. assert (cadence_ok s) as Hk by (clear Hst Hc Hf; induction Hs; [done|by apply cadence_step]).
  destruct (Hk Hst Hc Hf) as [?|Hne]; [by left|right]. by apply map_choose in Hne.
Qed.
End Machine.

(** * An example *)

Definition silent_pass (name : string) : capability :=
  [[("providerId", Some (MemberValue (JString name))); ("getHistoryStatuses", Some (MemberFunction (fun _ => None)));
    ("getFinalizedSlot", Some (MemberFunction (fun _ => None)));
    ("getFinalizedBlockSignatures", Some (MemberFunction (fun _ => None)))]].
Definition example_passes : list (bool * capability) := [(true, silent_pass "primary"); (true, silent_pass "fallback-1")].
Definition example_selector : PromotedProviderSelector :=
  {| ss_passes := [(RPC_PRIMARY, silent_pass "primary"); (RPC_FALLBACK_1, silent_pass "fallback-1")];
     ss_activeProvider := None; ss_revision := 0 |}.
Definition run_events (selects : bool) (mode : InitialFinalityFailureMode) (events : list loop_event) : RecurringFinality :=
  fold_left (fun s e => step selects mode e s) events (new_RecurringFinality example_selector).
Lemma run_reachable selects mode events : reachable selects mode (run_events selects mode events).
Proof.
  unfold run_events. assert (reachable selects mode (new_RecurringFinality example_selector)) as Hr
    by (apply (reachable_new _ _ (Some example_passes)); reflexivity).
  revert Hr. generalize (new_RecurringFinality example_selector). induction events as [|e l IH]; intros s Hs; [done|].
  cbn. apply IH. by constructor.
Qed.
(** The primary provider is promoted, and the first pass opens it and returns. *)
Definition served_events : list loop_event := [EvPromote RPC_PRIMARY; EvStart; EvOpen 0; EvReturn 0 true; EvSettle 0].
Lemma ready_means_served_witness :
  let s := run_events true FAIL_START served_events in
  let sel := {| sl_providerId := Some RPC_PRIMARY; sl_revision := 1 |} in
  rf_state s = RUNNING /\ rf_closed s = false /\ selection (rf_selector s) = sel
  /\ exists provider opened,
       sl_providerId sel = Some provider /\ (sel, opened) ∈ rf_served s /\ (opened = None \/ opened = Some provider)
       /\ (forall pass, openPass (rf_selector s) = Some pass ->
             exists p, capturePass (Some pass) = Ok p /\ pa_providerId p = provider).
Proof.
  intros s sel. apply (ready_means_served true FAIL_START s sel).
  - apply run_reachable.
  - vm_compute. discriminate.
  - vm_compute. reflexivity.
Defined.
(** The first pass fails because the provider changes under it. *)
Definition changed_events : list loop_event :=
  [EvPromote RPC_PRIMARY; EvStart; EvOpen 0; EvPromote RPC_FALLBACK_1; EvReturn 0 true; EvSettle 0].
Lemma cadence_never_stops_witness :
  let s := run_events true DEGRADED_RETRY changed_events in
  rf_state s = DEGRADED /\ ((0 < rf_armed s)%nat \/ exists id op, rf_operations s !! id = Some op).
Proof.
  intros s. split; [vm_compute; reflexivity|]. apply (cadence_never_stops true DEGRADED_RETRY s).
  - apply run_reachable.
  - vm_compute. reflexivity.
  - vm_compute. reflexivity.
  - vm_compute. reflexivity.
Defined.
